(* ===== verification/_CoqProject ===== *)
-Q . S2P
Prelude.v
GoLang.v
Time.v
Effects.v
Regex.v
Kernel.v
Httpx.v
Tables.v
Paging.v
Encoding.v
Sealed.v
Certs.v
CertWatch.v
Netip.v
Ipam.v
Network.v
Quota.v
Scheduler.v
Float64.v
Autoscale.v
InstanceSpec.v
Instance.v
Node.v
ServiceSet.v
Rollout.v
AgentViews.v
Agent.v
NodePlan.v
Health.v
Router.v
NodeLogs.v
NodeLoop.v
Interval.v
Volume.v
Balancer.v
Forward.v
Ports.v
Job.v
Event.v
Webhook.v
Feed.v
Token.v
User.v
Backup.v
Firewall.v
Datapath.v
Usage.v
Alert.v
KeyPair.v
Registry.v
Utf8.v
Logs.v
Exec.v
Shell.v
Image.v
Resolver.v
Names.v
Adapters.v
Platform.v
Project.v
Removal.v
FrontDoor.v
