(* ===== verification/Prelude.v ===== *)
(** MarStack Cloud: a verification development of its control plane and its node agent.

    * The program

    MarStack Cloud (Go, src/internal) is a small cloud.  A control plane keeps networks,
    instances, volumes, services and the people who use them in one SQLite database
    (platform/<module>: a service over a repository, wired together by app/), serves an HTTP
    API (app/app.go, app/auth.go), and runs tickers: the scheduler, the reconciler of services,
    the autoscaler, schedules.  Every node runs an agent (agent/) that reads the desired state
    of its node, brings the containers and virtual machines, the datapath and the proxy of the
    node (runtime/) in line with it, and reports what it sees.  Modules know one another only
    through Go interfaces of a few methods; what a node is told is plain JSON views.

    * Files

    Foundations.
    - Prelude.v: automation, hint databases and the lemmas on lists, maps and orders.
    - GoLang.v: integers of 64 bits, times, strings, [strconv], stable sorting, error values.
    - Effects.v: the monad [M S A] of the services, with a weakest precondition [wp].
    - Regex.v, Netip.v, Float64.v, Encoding.v: the parts of [regexp], [net/netip], the type
      [float64], and of encodings and digests of the standard library that the code relies on.

    Kernel (kernel/).
    - Kernel.v: fault, ids, validate, page, events.  Sealed.v: sealed.  Interval.v: interval and
      ratelimit.

    Control plane (platform/, app/), one file per module, each with its tables as a state, its
    statements, its service's operations and their theorems.
    - Ipam.v and Network.v: platform/network.  Quota.v: platform/quota.
    - InstanceSpec.v and Instance.v: platform/instance.  Node.v: platform/node.
    - Scheduler.v: platform/scheduler.  ServiceSet.v and Rollout.v: platform/service.
    - Autoscale.v: platform/autoscale.  Token.v: platform/token.  User.v: platform/user.
    - FrontDoor.v: app/app.go, auth.go, ratelimit.go, audit.go, platform/audit, the routes of all
      modules and the mux that picks one.

    Node (agent/, workload/, runtime/tlsproxy).
    - AgentViews.v: the views and the interfaces.  Agent.v: restarts, fence, workloads.
    - NodePlan.v: what is derived from the views.  Health.v: health checks.  NodeLogs.v: log
      shipping.  Router.v: the proxy.  NodeLoop.v: the whole round of an agent.

    * How the code is modelled

    A comment [go: file symbol] before a definition names the Go code it translates, under
    src/internal; Go names are kept where Rocq allows it, the rows of a table and the fields of
    a struct get a prefix.  An operation of a service is a computation of the monad [M S A]: it
    returns a value or an error (the values of kernel/fault, with wrapping), and its effects
    are the state, the recorded events, and an environment that answers every reading of the
    clock, every draw of random bytes and whether a statement on the database or a call over
    the network fails.  A theorem holds for every environment, so for every clock, every random
    source and every pattern of I/O failures, unless it says otherwise.  One statement on the
    database is one atomic step (SQLite behind one connection); several statements of an
    operation are several steps, each of which may fail, and a statement's effect is all or
    nothing.  A request runs to its end before the next one starts; what another request could
    do in between is not modelled, except where a theorem quantifies over it.

    The calls into another module are a record of functions, the Go interface; [option] where
    the Go field may be nil.  A theorem that needs a promise of such a module states it as a
    hypothesis, and its witness gives a concrete module that keeps it.  Classes are used the
    same way: [Has T S] says that [T] is a part of the state [S], [Apart] that two parts are
    disjoint, [leaves] that a computation does not touch a part, [logs] that it makes one entry,
    and [GCM] what a cipher promises.

    Integers are unbounded in the logic; where the code computes with [int], [int64] or
    [time.Duration] and a result may leave 64 bits, [wrap64] is written out, and elsewhere the
    bounds are lemmas.  [uint32] words of the digests are modulo 2^32.  [float64] is binary64 of
    [SpecFloat].

    Fuel: the scans of Ipam.v run [2^129] rounds at most, which [scan_spec] and
    [nextAddress_spec] show to be enough; the frames of Sealed.v, the parsers of Interval.v and
    Encoding.v and the matching of Regex.v run on the length of their input, which
    [sealed_terminates] and the like show to be enough; the loops over rows are structural.

    * What is shown

    Numbered claims (C<n>) are the development's results; the rest are their lemmas.
    - Invariants of the tables and their uniqueness under every operation and failure: networks,
      instances, nodes, services, policies, tokens.
    - Authority: who may change what, and that nothing else changes: instances, the scheduler's
      assignments and releases, the node's reports, callers of the API.
    - Exactness of computations: address allocation, quota admission, the choice of a node, page
      cursors, routing of requests, health verdicts, garbage collection, log shipping.
    - Refinement and progress: a pass of the replica reconciler is a step of an abstract machine
      that reaches the wanted revision; an agent's pass is its decision table; the proxy's
      listeners follow the wanted endpoints.
    - Safety when things fail: a node that is cut off starts no container, a fence stops all of
      them, a parked disk reaches exactly the next node unchanged.
    - Secrets and people: sealed streams open to what was sealed and cannot be cut or reordered,
      passwords verify, sessions end when a password changes or a person is locked out.

    * Idealisations

    - SHA-256, HMAC, PBKDF2 and HKDF are computed; that they do not collide is nowhere assumed.
      AES-GCM is an interface; forgery is excluded by a hypothesis about one key and stream.
    - [strings.ToLower], [TrimSpace] and [strings.Fields] are modelled on ASCII.
    - [sort.Slice] and [slices.SortFunc] are stable insertion; theorems do not rely on the order
      of equal elements.
    - Ranging over a Go map goes in the order of a list; only the choice between several errors
      depends on it.
    - JSON and SQL columns hold values instead of their text; a time stored as text keeps its
      value, with its text where the code orders by it.
    - Log lines, [context.Context] and locks are left out.  A writer does not fail.

    * Not modelled

    The HTTP handlers that only decode JSON and call the service, the command line (cli/), the
    runtimes that drive QEMU, runc, netlink and nftables (runtime/, except tlsproxy), TLS and
    X.509 (kernel/certs, kernel/acme), the S3 client, the opening of the database and the DDL
    (store/, whose tables are the states), and [app/adapters.go], the conversions between two
    modules' types, whose role is taken by the interfaces the theorems quantify over. *)
From stdpp Require Import base tactics numbers strings list gmap sorting.
From Stdlib Require Import ZArith Lia.
From Stdlib Require String Ascii.

Global Open Scope Z_scope.

(** * Notations and automation *)

Declare Scope go_scope.
Delimit Scope go_scope with go.

Create HintDb go.

(** [len(l)] of Go: the length of a slice as an integer. *)
Abbreviation len l := (Z.of_nat (length l)).

(** Case analysis on the first [match] or [if] of the goal, keeping the equation. *)
Ltac case_goal :=
  match goal with
  | |- context [match ?x with _ => _ end] =>
      lazymatch x with
      | context [match _ with _ => _ end] => fail
      | _ => let E := fresh "E" in destruct x eqn:E
      end
  end.

(** The same in a hypothesis. *)
Ltac case_hyp H :=
  match type of H with
  | context [match ?x with _ => _ end] =>
      lazymatch x with
      | context [match _ with _ => _ end] => fail
      | _ => let E := fresh "E" in destruct x eqn:E
      end
  end.

(** Boolean tests of the code as propositions. *)
Ltac breflect :=
  repeat match goal with
  | H : (_ && _)%bool = true |- _ => apply andb_true_iff in H; destruct H
  | H : (_ || _)%bool = false |- _ => apply orb_false_iff in H; destruct H
  | H : negb _ = true |- _ => apply negb_true_iff in H
  | H : negb _ = false |- _ => apply negb_false_iff in H
  | H : Z.eqb _ _ = true |- _ => apply Z.eqb_eq in H
  | H : Z.eqb _ _ = false |- _ => apply Z.eqb_neq in H
  | H : Z.ltb _ _ = true |- _ => apply Z.ltb_lt in H
  | H : Z.ltb _ _ = false |- _ => apply Z.ltb_ge in H
  | H : Z.leb _ _ = true |- _ => apply Z.leb_le in H
  | H : Z.leb _ _ = false |- _ => apply Z.leb_gt in H
  | H : String.eqb _ _ = true |- _ => apply String.eqb_eq in H
  | H : String.eqb _ _ = false |- _ => apply String.eqb_neq in H
  | H : bool_decide _ = true |- _ => apply bool_decide_eq_true in H
  | H : bool_decide _ = false |- _ => apply bool_decide_eq_false in H
  end.

(** * Lists *)

Section list_lemmas.
Context {A B : Type}.

Lemma existsb_false (f : A -> bool) l :
  existsb f l = false <-> Forall (fun x => f x = false) l.
Proof.
  induction l as [|x l IH]; simpl; [split; auto|].
  rewrite orb_false_iff, IH, Forall_cons. tauto.
Qed.

Lemma find_some_elem (f : A -> bool) l x :
  List.find f l = Some x -> x ∈ l /\ f x = true.
Proof.
  intros H. apply List.find_some in H. by rewrite <- list_elem_of_In in H.
Qed.

Lemma find_none_elem (f : A -> bool) l x :
  List.find f l = None -> x ∈ l -> f x = false.
Proof. intros H Hx. apply (List.find_none _ _ H). by apply list_elem_of_In. Qed.

Lemma elem_of_filter_bool (f : A -> bool) l x :
  x ∈ List.filter f l <-> x ∈ l /\ f x = true.
Proof. rewrite !list_elem_of_In. apply List.filter_In. Qed.

Lemma NoDup_map_inj (f : A -> B) l x y :
  NoDup (map f l) -> x ∈ l -> y ∈ l -> f x = f y -> x = y.
Proof.
  induction l as [|z l IH]; simpl; intros Hnd Hx Hy Hf; [set_solver|].
  apply NoDup_cons in Hnd as [Hz Hnd].
  apply elem_of_cons in Hx as [->|Hx], Hy as [->|Hy]; auto.
  - exfalso. apply Hz. rewrite Hf. apply list_elem_of_fmap. eauto.
  - exfalso. apply Hz. rewrite <- Hf. apply list_elem_of_fmap. eauto.
Qed.

Lemma NoDup_map_filter (f : A -> B) (p : A -> bool) l :
  NoDup (map f l) -> NoDup (map f (List.filter p l)).
Proof.
  induction l as [|x l IH]; simpl; [auto|]. rewrite NoDup_cons. intros [Hx Hl].
  destruct (p x); simpl; auto. constructor; auto.
  intros Hin. apply Hx. apply list_elem_of_fmap in Hin as (y & -> & Hy).
  apply elem_of_filter_bool in Hy as [Hy _]. apply list_elem_of_fmap. eauto.
Qed.

Lemma filter_bool_length_le (p : A -> bool) l :
  (length (List.filter p l) <= length l)%nat.
Proof. induction l as [|x l IH]; simpl; [lia|]. destruct (p x); simpl; lia. Qed.

Lemma Forall2_right {X Y} (P : Y -> Prop) (l : list X) (k : list Y) : Forall2 (fun _ y => P y) l k -> Forall P k.
Proof. induction 1; by constructor. Qed.
Lemma Forall_filter_bool (P : A -> Prop) (p : A -> bool) l : Forall P l -> Forall P (List.filter p l).
Proof. rewrite !Forall_forall. intros H x [Hx _]%elem_of_filter_bool. auto. Qed.

Lemma filter_perm (p : A -> bool) l l' : l ≡ₚ l' -> List.filter p l ≡ₚ List.filter p l'.
Proof.
  induction 1 as [|x l l' _ IH|x y l|? ? ? _ IH1 _ IH2]; simpl.
  - done.
  - by destruct (p x); rewrite IH.
  - destruct (p x), (p y); first [apply Permutation_swap|done].
  - by etrans.
Qed.

Lemma existsb_perm (p : A -> bool) l l' : l ≡ₚ l' -> existsb p l = existsb p l'.
Proof.
  intros H. apply eq_true_iff_eq. rewrite !existsb_exists. split; intros (x & Hx%list_elem_of_In & Hp); exists x;
    (split; [|done]); apply list_elem_of_In; [by rewrite <- H|by rewrite H].
Qed.
End list_lemmas.

#[export] Hint Resolve NoDup_map_filter : go.

(** * Unique keys of the rows of a table

    [key] is the value a UNIQUE index looks at, [None] where the row has none. *)
Definition unique_by {R K} (key : R -> option K) (rows : list R) : Prop := NoDup (omap key rows).

Lemma omap_total {R K} (g : R -> K) rows : omap (fun r => Some (g r)) rows = map g rows.
Proof. induction rows as [|r rows IH]; [done|]. simpl. by rewrite <- IH. Qed.

Section unique_by.
Context {R K : Type} (key : R -> option K).

Lemma unique_by_nil : unique_by key [].
Proof. constructor. Qed.

Lemma unique_by_app rows r :
  unique_by key rows -> (forall x k, x ∈ rows -> key x = Some k -> key r = Some k -> False) ->
  unique_by key (rows ++ [r]).
Proof.
  intros Hu Hr. unfold unique_by. rewrite omap_app. simpl. destruct (key r) as [k|] eqn:E; simpl.
  - apply NoDup_app. split_and!; [done| |apply NoDup_singleton].
    intros k' Hk' ->%list_elem_of_singleton. apply list_elem_of_omap in Hk' as (x & Hx & Hk). eauto.
  - by rewrite app_nil_r.
Qed.

Lemma unique_by_filter (p : R -> bool) rows : unique_by key rows -> unique_by key (List.filter p rows).
Proof.
  unfold unique_by. induction rows as [|x rows IH]; [done|]. simpl.
  destruct (key x) as [k|] eqn:E, (p x); simpl; rewrite ?E; auto.
  - rewrite !NoDup_cons. intros [Hk Hu]. split; [|auto]. intros Hin. apply Hk.
    apply list_elem_of_omap in Hin as (y & Hy & Hky). apply list_elem_of_omap.
    apply elem_of_filter_bool in Hy as [Hy _]. eauto.
  - rewrite NoDup_cons. intros [_ Hu]. auto.
Qed.

Lemma unique_by_eq rows x y k : unique_by key rows -> x ∈ rows -> y ∈ rows ->
  key x = Some k -> key y = Some k -> x = y.
Proof.
  unfold unique_by. induction rows as [|z rows IH]; simpl; [set_solver|]. intros Hu Hx Hy Ex Ey.
  assert (Hsub : forall v, v ∈ rows -> key v = Some k -> k ∈ omap key rows)
    by (intros; apply list_elem_of_omap; eauto).
  apply elem_of_cons in Hx as [->|Hx], Hy as [->|Hy]; auto.
  - rewrite Ex in Hu. apply NoDup_cons in Hu as [Hu _]. naive_solver.
  - rewrite Ey in Hu. apply NoDup_cons in Hu as [Hu _]. naive_solver.
  - apply IH; auto. destruct (key z); [|done]. by apply NoDup_cons in Hu as [_ ?].
Qed.

Lemma unique_by_map (f : R -> R) rows : (forall r, key (f r) = key r) -> unique_by key rows -> unique_by key (map f rows).
Proof.
  intros Hf Hu. assert (E : omap key (map f rows) = omap key rows).
  { clear Hu. induction rows as [|r rows IH]; [done|]. simpl. rewrite Hf. destruct (key r); [f_equal|]; exact IH. }
  unfold unique_by. by rewrite E.
Qed.
End unique_by.

#[export] Hint Resolve unique_by_nil unique_by_filter unique_by_map : go.

(** * Bounded iteration

    A [for] loop whose number of rounds is bounded by a positive number, which may be as
    large as an address space: the bound is consumed in binary, so only the rounds the
    loop really makes are executed. [step] gives [inl] to go on and [inr] to leave. *)
Fixpoint while_pos {S R} (p : positive) (step : S -> S + R) (s : S) : S + R :=
  match p with
  | xH => step s
  | xO q =>
      match while_pos q step s with
      | inl s' => while_pos q step s'
      | inr r => inr r
      end
  | xI q =>
      match step s with
      | inl s1 =>
          match while_pos q step s1 with
          | inl s' => while_pos q step s'
          | inr r => inr r
          end
      | inr r => inr r
      end
  end.

Section while_lemmas.
Context {S R : Type} (step : S -> S + R) (I : S -> Prop) (Q : S -> R -> Prop).
Hypothesis step_ok : forall s, I s -> match step s with inl s' => I s' | inr r => Q s r end.

(** The value a loop leaves with was produced by its body in a state satisfying the
    invariant. *)
Lemma while_pos_inv p s :
  I s -> match while_pos p step s with inl s' => I s' | inr r => exists s', I s' /\ Q s' r end.
Proof.
  revert s. induction p as [q IH|q IH|]; simpl; intros s Hs.
  - pose proof (step_ok s Hs) as H1. destruct (step s) as [s1|r]; [|eauto].
    pose proof (IH s1 H1) as H2. destruct (while_pos q step s1) as [s2|]; [|eauto].
    apply (IH s2 H2).
  - pose proof (IH s Hs) as H1. destruct (while_pos q step s) as [s1|]; [|eauto].
    apply (IH s1 H1).
  - pose proof (step_ok s Hs) as H1. destruct (step s); eauto.
Qed.

Context (m : S -> Z).
Hypothesis m_pos : forall s, I s -> 0 <= m s.
Hypothesis m_dec : forall s s', I s -> step s = inl s' -> m s' < m s.

Lemma while_pos_measure p s s' :
  I s -> while_pos p step s = inl s' -> m s' <= m s - Zpos p.
Proof.
  revert s s'. induction p as [q IH|q IH|]; simpl; intros s s' Hs H.
  - destruct (step s) as [s1|] eqn:E1; [|done].
    pose proof (step_ok s Hs) as Hs1. rewrite E1 in Hs1.
    destruct (while_pos q step s1) as [s2|] eqn:E2; [|done].
    pose proof (while_pos_inv q s1 Hs1) as Hs2. rewrite E2 in Hs2.
    pose proof (m_dec _ _ Hs E1). pose proof (IH _ _ Hs1 E2). pose proof (IH _ _ Hs2 H). lia.
  - destruct (while_pos q step s) as [s1|] eqn:E1; [|done].
    pose proof (while_pos_inv q s Hs) as Hs1. rewrite E1 in Hs1.
    pose proof (IH _ _ Hs E1). pose proof (IH _ _ Hs1 H). lia.
  - pose proof (m_dec _ _ Hs H). lia.
Qed.

(** Enough rounds: a measure that decreases every round and starts below the bound. *)
Lemma while_pos_terminates p s :
  I s -> m s < Zpos p -> exists r s', while_pos p step s = inr r /\ I s' /\ Q s' r.
Proof.
  intros Hs Hm. pose proof (while_pos_inv p s Hs) as H.
  destruct (while_pos p step s) as [s'|r] eqn:E; [|destruct H as (s' & ? & ?); eauto].
  pose proof (while_pos_measure p s s' Hs E). pose proof (m_pos s' H). lia.
Qed.
End while_lemmas.
