(* ===== verification/GoLang.v ===== *)
(** The part of the Go language and of its standard library that the modelled code uses:
    64-bit integers, [time], [strings], [strconv], [sort.SliceStable] and error values.

    A Go string is a sequence of bytes; the functions of [strings] that know about
    Unicode ([ToLower], [TrimSpace]) are modelled on ASCII input. *)
From stdpp Require Import base tactics numbers strings list gmap.
From Stdlib Require Import ZArith Lia Sorted Permutation.
From Stdlib Require String Ascii.
From S2P Require Import Prelude.

(** * Integers

    [int] and [time.Duration] are 64-bit two's complement. *)
Definition two63 : Z := 9223372036854775808.
Definition two64 : Z := 18446744073709551616.
Definition wrap64 (z : Z) : Z := (z + two63) mod two64 - two63.
Definition min_int64 : Z := - two63.
Definition max_int64 : Z := two63 - 1.
Definition in_int64 (z : Z) : Prop := min_int64 <= z <= max_int64.

(** * Time

    An instant is a number of nanoseconds since the Unix epoch; a [Duration] is a number
    of nanoseconds. The zero [time.Time] is the first instant of year 1. *)
Definition nanosecond : Z := 1.
Definition second : Z := 1000000000.
Definition minute : Z := 60 * second.
Definition hour : Z := 60 * minute.
Definition zero_time : Z := -62135596800 * second.
Definition time_is_zero (t : Z) : bool := t =? zero_time.
(** [t.Sub(u)] saturates at the bounds of [Duration]. *)
Definition time_sub (t u : Z) : Z := Z.max min_int64 (Z.min max_int64 (t - u)).
Definition time_add (t d : Z) : Z := t + d.
Definition time_before (t u : Z) : bool := t <? u.

(** * Strings *)

(** Bytes of a string. *)
Fixpoint bytes_of (s : string) : list Ascii.ascii :=
  match s with
  | String.EmptyString => []
  | String.String c s' => c :: bytes_of s'
  end.
Fixpoint of_bytes (l : list Ascii.ascii) : string :=
  match l with
  | [] => String.EmptyString
  | c :: l' => String.String c (of_bytes l')
  end.
Definition code (c : Ascii.ascii) : Z := Z.of_N (Ascii.N_of_ascii c).

(** [len(s)] *)
Definition slen (s : string) : Z := Z.of_nat (String.length s).
(** [s == ""] *)
Definition is_empty (s : string) : bool := String.eqb s "".

(** [s < t] on strings: bytewise lexicographic. *)
Fixpoint bytes_ltb (s t : list Ascii.ascii) : bool :=
  match s, t with
  | _, [] => false
  | [], _ :: _ => true
  | c :: s', d :: t' => (code c <? code d) || ((code c =? code d) && bytes_ltb s' t')
  end.
Definition str_ltb (s t : string) : bool := bytes_ltb (bytes_of s) (bytes_of t).

Fixpoint has_prefix_l (s p : list Ascii.ascii) : bool :=
  match p, s with
  | [], _ => true
  | d :: p', c :: s' => (code c =? code d) && has_prefix_l s' p'
  | _ :: _, [] => false
  end.
(** [strings.HasPrefix(s, p)] and [strings.HasSuffix(s, p)] *)
Definition has_prefix (s p : string) : bool := has_prefix_l (bytes_of s) (bytes_of p).
Definition has_suffix (s p : string) : bool :=
  has_prefix_l (rev (bytes_of s)) (rev (bytes_of p)).
(** [s[:n]] and [s[n:]] *)
Definition str_take (n : Z) (s : string) : string :=
  if slen s <=? n then s else of_bytes (take (Z.to_nat n) (bytes_of s)).
Definition str_drop (n : Z) (s : string) : string := of_bytes (drop (Z.to_nat n) (bytes_of s)).
(** [strings.TrimSuffix(s, p)] and [strings.TrimPrefix(s, p)] *)
Definition trim_suffix (s p : string) : string :=
  if has_suffix s p then str_take (slen s - slen p) s else s.
Definition trim_prefix (s p : string) : string :=
  if has_prefix s p then str_drop (slen p) s else s.

Definition is_space (c : Ascii.ascii) : bool :=
  ((9 <=? code c) && (code c <=? 13)) || (code c =? 32).
Fixpoint drop_spaces (l : list Ascii.ascii) : list Ascii.ascii :=
  match l with
  | c :: l' => if is_space c then drop_spaces l' else l
  | [] => []
  end.
(** [strings.TrimSpace] *)
Definition trim_space (s : string) : string :=
  of_bytes (rev (drop_spaces (rev (drop_spaces (bytes_of s))))).
(** [strings.ToLower] *)
Definition lower_byte (c : Ascii.ascii) : Ascii.ascii :=
  if (65 <=? code c) && (code c <=? 90)
  then Ascii.ascii_of_N (Z.to_N (code c + 32)) else c.
Definition to_lower (s : string) : string := of_bytes (map lower_byte (bytes_of s)).

(** [strings.IndexByte(s, c)]: the position of the first [c], or [None] for -1. *)
Fixpoint index_byte_l (l : list Ascii.ascii) (c : Ascii.ascii) : option nat :=
  match l with
  | [] => None
  | d :: l' => if code d =? code c then Some O else option_map S (index_byte_l l' c)
  end.
Definition index_byte (s : string) (c : Ascii.ascii) : option nat :=
  index_byte_l (bytes_of s) c.
(** [strings.Split(s, sep)] at one byte. *)
Fixpoint split_on (sep : Z) (l : list Ascii.ascii) : list (list Ascii.ascii) :=
  match l with
  | [] => [[]]
  | c :: l' =>
      match split_on sep l' with
      | part :: parts => if code c =? sep then [] :: part :: parts else (c :: part) :: parts
      | [] => [[c]]
      end
  end.
(** [strings.Fields]: what lies between runs of white space. *)
Fixpoint split_spaces (l : list Ascii.ascii) : list (list Ascii.ascii) :=
  match l with
  | [] => [[]]
  | c :: l' =>
      match split_spaces l' with
      | part :: parts => if is_space c then [] :: part :: parts else (c :: part) :: parts
      | [] => [[c]]
      end
  end.
Definition fields (s : string) : list string :=
  map of_bytes (List.filter (fun l => match l with [] => false | _ => true end) (split_spaces (bytes_of s))).
(** [strings.Contains] *)
Fixpoint contains_l (l p : list Ascii.ascii) : bool :=
  has_prefix_l l p || match l with [] => false | _ :: l' => contains_l l' p end.
Definition str_contains (s p : string) : bool := contains_l (bytes_of s) (bytes_of p).
(** [strings.Join] *)
Fixpoint join (l : list string) (sep : string) : string :=
  match l with
  | [] => ""
  | [x] => x
  | x :: l' => x +:+ sep +:+ join l' sep
  end.
(** [strconv.Itoa]; the fuel of [dec_digits] is the number of binary digits, which is
    never fewer than the decimal ones. *)
Definition digit (d : Z) : Ascii.ascii := Ascii.ascii_of_N (Z.to_N (48 + d)).
Fixpoint dec_digits (fuel : nat) (n : Z) : list Ascii.ascii :=
  match fuel with
  | O => []
  | S fuel' => if n <? 10 then [digit n] else dec_digits fuel' (n / 10) ++ [digit (n mod 10)]
  end.
Definition nat_digits (n : Z) : list Ascii.ascii := dec_digits (S (Z.to_nat (Z.log2 n))) n.
Definition itoa (z : Z) : string :=
  of_bytes (if z <? 0 then Ascii.ascii_of_N 45 :: nat_digits (- z) else nat_digits z).

(** [strconv.Atoi] and [strconv.ParseInt(s, 10, 64)]: [None] for a syntax or range error. *)
Fixpoint parse_digits (acc : Z) (l : list Ascii.ascii) : option Z :=
  match l with
  | [] => Some acc
  | c :: l' =>
      if (48 <=? code c) && (code c <=? 57) then parse_digits (acc * 10 + (code c - 48)) l'
      else None
  end.
Definition atoi (s : string) : option Z :=
  let '(neg, l) :=
    match bytes_of s with
    | c :: l' => if code c =? 45 then (true, l') else if code c =? 43 then (false, l')
                 else (false, c :: l')
    | [] => (false, [])
    end in
  match l with
  | [] => None
  | _ :: _ =>
      match parse_digits 0 l with
      | Some n =>
          let z := if neg : bool then - n else n in
          if (min_int64 <=? z) && (z <=? max_int64) then Some z else None
      | None => None
      end
  end.
(** [%q] of a string of printable characters. *)
Definition dquote : string := String.String (Ascii.ascii_of_N 34) String.EmptyString.
Definition quoted (s : string) : string := dquote +:+ s +:+ dquote.
(** The NUL byte, [\x00]. *)
Definition nul : string := String.String Ascii.zero String.EmptyString.

(** [t.Format(time.RFC3339Nano)] of a UTC time of the years 0 to 9999: the civil date of a
    day number, and the fraction of the second without its trailing zeros. *)
Definition civil (days : Z) : Z * Z * Z :=
  let z := days + 719468 in
  let doe := z mod 146097 in
  let yoe := (doe - doe / 1460 + doe / 36524 - doe / 146096) / 365 in
  let doy := doe - (365 * yoe + yoe / 4 - yoe / 100) in
  let mp := (5 * doy + 2) / 153 in
  let month := if mp <? 10 then mp + 3 else mp - 9 in
  (yoe + z / 146097 * 400 + (if month <=? 2 then 1 else 0), month, doy - (153 * mp + 2) / 5 + 1).
Fixpoint padded (width : nat) (n : Z) : list Ascii.ascii :=
  match width with O => [] | S w => padded w (n / 10) ++ [digit (n mod 10)] end.
Fixpoint trim_zeros (l : list Ascii.ascii) : list Ascii.ascii :=
  match l with
  | [] => []
  | c :: l' => if code c =? 48 then trim_zeros l' else c :: l'
  end.
Definition rfc3339nano (t : Z) : string :=
  let seconds := t / second in
  let '(year, month, day) := civil (seconds / 86400) in
  let s := seconds mod 86400 in
  let field width n := of_bytes (padded width n) in
  let fraction := rev (trim_zeros (rev (padded 9 (t mod second)))) in
  field 4%nat year +:+ "-" +:+ field 2%nat month +:+ "-" +:+ field 2%nat day +:+ "T" +:+
  field 2%nat (s / 3600) +:+ ":" +:+ field 2%nat (s / 60 mod 60) +:+ ":" +:+ field 2%nat (s mod 60) +:+
  (match fraction with [] => "" | _ => "." +:+ of_bytes fraction end) +:+ "Z".
Example rfc3339nano_example :
  rfc3339nano (1709210096 * second + 120000000) = "2024-02-29T12:34:56.12Z" /\ rfc3339nano 0 = "1970-01-01T00:00:00Z".
Proof. vm_compute. split; reflexivity. Qed.

(** [d.Round(time.Second)]: to the nearest second, halves away from zero, and the last
    representable duration where that one is not. *)
Definition round_second (d : Z) : Z :=
  let r := Z.abs d mod second in
  let size := if 2 * r <? second then Z.abs d - r else Z.abs d + second - r in
  Z.max min_int64 (Z.min max_int64 (if d <? 0 then - size else size)).
(** [d.String()] of a whole number of seconds. *)
Definition duration_string (d : Z) : string :=
  let u := Z.abs d / second in
  let hms := if 3600 <=? u then itoa (u / 3600) +:+ "h" +:+ itoa (u / 60 mod 60) +:+ "m" +:+ itoa (u mod 60) +:+ "s"
             else if 60 <=? u then itoa (u / 60) +:+ "m" +:+ itoa (u mod 60) +:+ "s"
             else itoa u +:+ "s" in
  if d <? 0 then "-" +:+ hms else hms.
Example duration_string_example :
  map (fun d => duration_string (round_second d)) [0; 1499999999; -1500000000; 80 * second; 3600 * second]
  = ["0s"; "1s"; "-2s"; "1m20s"; "1h0m0s"].
Proof. vm_compute. reflexivity. Qed.

(** [d.String()]: the largest units first, the fraction without its trailing zeros; below a
    second in the unit that leaves a number before the point. *)
Definition fraction_text (width : nat) (n : Z) : string :=
  match rev (trim_zeros (rev (padded width n))) with [] => "" | l => "." +:+ of_bytes l end.
Definition micro : string := String.String (Ascii.ascii_of_N 194) (String.String (Ascii.ascii_of_N 181) String.EmptyString).
Definition duration_String (d : Z) : string :=
  let u := Z.abs d in
  let in_unit width suffix :=
    let scale := 10 ^ Z.of_nat width in itoa (u / scale) +:+ fraction_text width (u mod scale) +:+ suffix in
  let text :=
    if u =? 0 then "0s"
    else if u <? 1000 then itoa u +:+ "ns"
    else if u <? 1000000 then in_unit 3%nat (micro +:+ "s")
    else if u <? second then in_unit 6%nat "ms"
    else
      let secs := u / second in
      let last := itoa (secs mod 60) +:+ fraction_text 9 (u mod second) +:+ "s" in
      if 3600 <=? secs then itoa (secs / 3600) +:+ "h" +:+ itoa (secs / 60 mod 60) +:+ "m" +:+ last
      else if 60 <=? secs then itoa (secs / 60) +:+ "m" +:+ last
      else last in
  if d <? 0 then "-" +:+ text else text.
Example duration_String_example :
  map duration_String [0; 5; 1500000; -1200000000; 90 * second; 24 * hour + 500000000]
  = ["0s"; "5ns"; "1.5ms"; "-1.2s"; "1m30s"; "24h0m0.5s"].
Proof. vm_compute. reflexivity. Qed.

(** * Errors

    The values of type [error]: the package-level sentinels ([var errX = errors.New]), the
    faults of [kernel/fault], [fmt.Errorf] with [%w] and plain texts. *)
Inductive Kind :=
| KindInternal | KindInvalid | KindNotFound | KindConflict
| KindUnauthenticated | KindForbidden | KindUnavailable | KindTooMany.

Inductive error :=
| ESentinel (text : string)
| EFault (kind : Kind) (code message : string)
| EInternal (cause : error)
| EWrap (text : string) (cause : error)
| EText (text : string).

#[export] Instance Kind_eq_dec : EqDecision Kind.
Proof. solve_decision. Defined.
#[export] Instance error_eq_dec : EqDecision error.
Proof. solve_decision. Defined.

(** [errors.Is(err, target)] for a sentinel target. *)
Fixpoint errors_Is (err : error) (target : string) : bool :=
  match err with
  | ESentinel s => String.eqb s target
  | EInternal c => errors_Is c target
  | EWrap _ c => errors_Is c target
  | EFault _ _ _ | EText _ => false
  end.

(** [err.Error()] *)
Fixpoint error_text (err : error) : string :=
  match err with
  | ESentinel s => s
  | EFault _ c m => c +:+ ": " +:+ m
  | EInternal x => "internal_error: an internal error occurred: " +:+ error_text x
  | EWrap s x => s +:+ ": " +:+ error_text x
  | EText s => s
  end.

(** * [sort.SliceStable]

    Insertion from the right, each element moved left past the elements it is less than:
    what Go's implementation does on up to twenty elements. For a [less] that is a strict
    weak order every stable sort returns the same list ([sliceStable_sorted] and
    [sorted_unique] below). *)
Fixpoint insert_rev {A} (less : A -> A -> bool) (x : A) (rp : list A) : list A :=
  match rp with
  | [] => [x]
  | y :: rp' => if less x y then y :: insert_rev less x rp' else x :: y :: rp'
  end.
Definition sliceStable {A} (less : A -> A -> bool) (l : list A) : list A :=
  rev (fold_left (fun rp x => insert_rev less x rp) l []).

(** Strict weak orders: what [sort] asks of its [less]. *)
Class WeakOrder {A} (less : A -> A -> bool) : Prop := {
  wo_irrefl x : less x x = false;
  wo_trans x y z : less x y = true -> less y z = true -> less x z = true;
  wo_neg x y z : less x y = false -> less y z = false -> less x z = false;
}.
(** Orders in which incomparable elements are equal. *)
Class TotalOrder {A} (less : A -> A -> bool) : Prop := {
  to_weak :: WeakOrder less;
  to_total x y : less x y = false -> less y x = false -> x = y;
}.
(** [less] as the comparators of the code are written: compare a key and, when the keys
    are equal, go on with [rest]. *)
Definition by_key {A K} `{EqDecision K} (key : A -> K) (lt : K -> K -> bool)
    (rest : A -> A -> bool) (x y : A) : bool :=
  if decide (key x = key y) then rest x y else lt (key x) (key y).

(** * Lemmas *)

Lemma wrap64_small z : in_int64 z -> wrap64 z = z.
Proof. unfold in_int64, wrap64, min_int64, max_int64, two63, two64. intros. rewrite Z.mod_small; lia. Qed.

Lemma wrap64_range z : in_int64 (wrap64 z).
Proof.
  unfold in_int64, wrap64, min_int64, max_int64, two63, two64.
  pose proof (Z.mod_pos_bound (z + 9223372036854775808) 18446744073709551616). lia.
Qed.

Lemma of_bytes_of s : of_bytes (bytes_of s) = s.
Proof. induction s; simpl; congruence. Qed.

Lemma bytes_of_of l : bytes_of (of_bytes l) = l.
Proof. induction l; simpl; congruence. Qed.

Lemma bytes_of_inj s t : bytes_of s = bytes_of t -> s = t.
Proof. intros H. rewrite <- (of_bytes_of s), <- (of_bytes_of t). by rewrite H. Qed.

Lemma slen_bytes s : slen s = Z.of_nat (length (bytes_of s)).
Proof. unfold slen. f_equal. by induction s as [|c s IH]; simpl; [|f_equal]. Qed.
Lemma length_bytes_of s : length (bytes_of s) = String.length s.
Proof. induction s; simpl; congruence. Qed.

Lemma bytes_of_app s t : bytes_of (s +:+ t) = bytes_of s ++ bytes_of t.
Proof. induction s; simpl; [done|]. by rewrite IHs. Qed.

Lemma code_inj c d : code c = code d -> c = d.
Proof.
  unfold code. intros H. apply N2Z.inj in H.
  by rewrite <- (Ascii.ascii_N_embedding c), <- (Ascii.ascii_N_embedding d), H.
Qed.

Lemma is_empty_spec s : is_empty s = true <-> s = "".
Proof. apply String.eqb_eq. Qed.
Lemma is_empty_false s : is_empty s = false <-> s <> "".
Proof. apply String.eqb_neq. Qed.

(** ** White space and case *)

Lemma drop_spaces_suffix l : exists s, l = s ++ drop_spaces l.
Proof. induction l as [|c l [s IH]]; [by exists []|]. cbn. destruct (is_space c); [exists (c :: s); cbn; by rewrite <- IH|by exists []]. Qed.

Lemma drop_spaces_idem l : drop_spaces (drop_spaces l) = drop_spaces l.
Proof. induction l as [|c l IH]; [done|]. cbn. destruct (is_space c) eqn:E; [done|]. cbn. by rewrite E. Qed.

Lemma drop_spaces_front l : match l with c :: _ => is_space c = false | [] => True end <-> drop_spaces l = l.
Proof.
  destruct l as [|c l]; [done|]. cbn. destruct (is_space c) eqn:E; [|done]. split; [done|]. intros H.
  destruct (drop_spaces_suffix l) as [s Hs]. apply (f_equal length) in H. apply (f_equal length) in Hs. rewrite length_app in Hs. cbn in H. lia.
Qed.

Lemma trim_space_idem s : trim_space (trim_space s) = trim_space s.
Proof.
  unfold trim_space. rewrite bytes_of_of. f_equal. set (m := drop_spaces (bytes_of s)).
  assert (Hm : drop_spaces m = m) by apply drop_spaces_idem. set (r := drop_spaces (rev m)).
  assert (Hr : drop_spaces r = r) by apply drop_spaces_idem.
  assert (Hf : drop_spaces (rev r) = rev r).
  { destruct (drop_spaces_suffix (rev m)) as [p Hp]. fold r in Hp. apply (f_equal (@rev _)) in Hp. rewrite rev_involutive, rev_app_distr in Hp.
    apply drop_spaces_front. apply drop_spaces_front in Hm. rewrite Hp in Hm. by destruct (rev r). }
  rewrite Hf, rev_involutive, Hr. done.
Qed.

Lemma lower_byte_idem c : lower_byte (lower_byte c) = lower_byte c.
Proof. destruct c as [[] [] [] [] [] [] [] []]; vm_compute; reflexivity. Qed.
Lemma lower_byte_space c : is_space (lower_byte c) = is_space c.
Proof. destruct c as [[] [] [] [] [] [] [] []]; vm_compute; reflexivity. Qed.
Lemma drop_spaces_lower l : drop_spaces (map lower_byte l) = map lower_byte (drop_spaces l).
Proof. induction l as [|c l IH]; [done|]. cbn. rewrite lower_byte_space. by destruct (is_space c). Qed.
Lemma to_lower_idem s : to_lower (to_lower s) = to_lower s.
Proof. unfold to_lower. rewrite bytes_of_of, map_map. f_equal. apply map_ext, lower_byte_idem. Qed.
Lemma trim_lower s : trim_space (to_lower s) = to_lower (trim_space s).
Proof. unfold trim_space, to_lower. by rewrite !bytes_of_of, drop_spaces_lower, <- map_rev, drop_spaces_lower, <- map_rev. Qed.

Lemma has_prefix_l_spec s p : has_prefix_l s p = true <-> exists r, s = p ++ r.
Proof.
  revert s. induction p as [|d p IH]; intros s; simpl.
  - split; [eauto|]. by destruct s.
  - destruct s as [|c s]; [split; [done|intros [r H]; done]|]. simpl.
    rewrite andb_true_iff, Z.eqb_eq, IH. split.
    + intros [Hc [r ->]]. apply code_inj in Hc as ->. by exists r.
    + intros [r H]. injection H as -> ->. eauto.
Qed.

Lemma has_prefix_spec s p : has_prefix s p = true <-> exists r, bytes_of s = bytes_of p ++ r.
Proof. apply has_prefix_l_spec. Qed.

(** ** Decimal numbers *)

Lemma code_digit d : 0 <= d < 10 -> code (digit d) = 48 + d.
Proof.
  intros H. unfold code, digit. rewrite Ascii.N_ascii_embedding; lia.
Qed.

Lemma parse_digits_app acc l l' :
  parse_digits acc (l ++ l') = match parse_digits acc l with
                               | Some a => parse_digits a l' | None => None end.
Proof.
  revert acc. induction l as [|c l IH]; intros acc; simpl; [done|].
  by destruct (_ && _).
Qed.

Lemma parse_digit d : 0 <= d < 10 -> forall acc, parse_digits acc [digit d] = Some (acc * 10 + d).
Proof.
  intros H acc. simpl. rewrite code_digit by done.
  rewrite (proj2 (Z.leb_le _ _)), (proj2 (Z.leb_le _ _)) by lia. simpl. f_equal. lia.
Qed.

Lemma parse_dec_digits fuel n :
  0 <= n < 2 ^ Z.of_nat fuel -> (0 < fuel)%nat -> parse_digits 0 (dec_digits fuel n) = Some n.
Proof.
  revert n. induction fuel as [|fuel IH]; intros n Hn Hf; [lia|]. simpl.
  destruct (Z.ltb_spec n 10); [rewrite parse_digit by lia; f_equal; lia|].
  assert (Hpow : 2 ^ Z.of_nat (S fuel) = 2 * 2 ^ Z.of_nat fuel) by (rewrite Nat2Z.inj_succ, Z.pow_succ_r; lia).
  rewrite parse_digits_app, IH.
  - rewrite parse_digit by (apply Z.mod_pos_bound; lia). f_equal.
    pose proof (Z.div_mod n 10). lia.
  - split; [apply Z.div_pos; lia|]. apply Z.div_lt_upper_bound; lia.
  - destruct fuel; [|lia]. simpl in Hn. lia.
Qed.

Lemma parse_nat_digits n : 0 <= n -> parse_digits 0 (nat_digits n) = Some n.
Proof.
  intros H. unfold nat_digits. apply parse_dec_digits; [|lia]. split; [done|].
  destruct (Z.eq_dec n 0) as [->|]; [done|].
  rewrite Nat2Z.inj_succ, Z2Nat.id by apply Z.log2_nonneg. apply Z.log2_spec. lia.
Qed.

Lemma dec_digits_range fuel n c :
  0 <= n -> c ∈ dec_digits fuel n -> 48 <= code c <= 57.
Proof.
  revert n. induction fuel as [|fuel IH]; intros n Hn; simpl; [set_solver|].
  destruct (Z.ltb_spec n 10).
  - rewrite list_elem_of_singleton. intros ->. rewrite code_digit; lia.
  - rewrite elem_of_app, list_elem_of_singleton. intros [Hc| ->].
    + eapply IH; [|exact Hc]. apply Z.div_pos; lia.
    + pose proof (Z.mod_pos_bound n 10). rewrite code_digit; lia.
Qed.

Lemma nat_digits_cons n : 0 <= n -> exists c l, nat_digits n = c :: l /\ 48 <= code c <= 57.
Proof.
  intros Hn. destruct (nat_digits n) as [|c l] eqn:E.
  - unfold nat_digits in E. simpl in E. destruct (n <? 10); [done|].
    by apply app_eq_nil in E as [_ ?].
  - exists c, l. split; [done|]. eapply dec_digits_range; [exact Hn|].
    unfold nat_digits in E. rewrite E. set_solver.
Qed.

(** Printing and parsing a 64-bit integer. *)
Lemma atoi_itoa z : in_int64 z -> atoi (itoa z) = Some z.
Proof.
  unfold in_int64. intros Hz. unfold atoi, itoa. rewrite bytes_of_of.
  destruct (Z.ltb_spec z 0).
  - simpl. destruct (nat_digits_cons (- z)) as (c & l & E & _); [lia|].
    rewrite E, <- E, parse_nat_digits by lia.
    rewrite Z.opp_involutive, (proj2 (Z.leb_le _ _)), (proj2 (Z.leb_le _ _)) by lia. done.
  - destruct (nat_digits_cons z) as (c & l & E & Hc); [lia|]. rewrite E.
    rewrite (proj2 (Z.eqb_neq _ _)), (proj2 (Z.eqb_neq _ _)) by lia.
    rewrite <- E, parse_nat_digits by lia.
    rewrite (proj2 (Z.leb_le _ _)), (proj2 (Z.leb_le _ _)) by lia. done.
Qed.

Lemma itoa_bytes z b : b ∈ bytes_of (itoa z) -> 45 <= code b <= 57.
Proof.
  unfold itoa. rewrite bytes_of_of. unfold nat_digits. destruct (Z.ltb_spec z 0); [rewrite elem_of_cons; intros [->|Hb]; [vm_compute; by split|]|intros Hb];
    apply dec_digits_range in Hb; lia.
Qed.

Lemma itoa_inj y z : in_int64 y -> in_int64 z -> itoa y = itoa z -> y = z.
Proof. intros Hy Hz E. pose proof (atoi_itoa y Hy) as H. rewrite E, atoi_itoa in H by done. by injection H. Qed.

(** ** Orders *)

Lemma bytes_ltb_irrefl s : bytes_ltb s s = false.
Proof.
  induction s as [|c s IH]; simpl; [done|].
  by rewrite IH, Z.ltb_irrefl, Z.eqb_refl.
Qed.

Lemma bytes_ltb_total s t : bytes_ltb s t = false -> bytes_ltb t s = false -> s = t.
Proof.
  revert t. induction s as [|c s IH]; intros [|d t]; simpl; try done.
  intros H1 H2. breflect.
  assert (Hcd : code c = code d) by lia.
  rewrite Hcd, Z.eqb_refl in *. simpl in *. apply code_inj in Hcd as ->.
  f_equal. auto.
Qed.

Lemma bytes_ltb_trans s t u :
  bytes_ltb s t = true -> bytes_ltb t u = true -> bytes_ltb s u = true.
Proof.
  revert s u. induction t as [|d t IH]; intros [|c s] [|e u]; simpl; try done.
  rewrite !orb_true_iff, !andb_true_iff, !Z.ltb_lt, !Z.eqb_eq.
  intros [H1|[H1 H1']] [H2|[H2 H2']]; try (left; lia).
  right. split; [lia|eauto].
Qed.

#[export] Instance str_total : TotalOrder str_ltb.
Proof.
  assert (Htot : forall x y, str_ltb x y = false -> str_ltb y x = false -> x = y).
  { intros x y H1 H2. apply bytes_of_inj. by apply bytes_ltb_total. }
  split; [split|exact Htot]; unfold str_ltb in *.
  - intros x. apply bytes_ltb_irrefl.
  - intros x y z. apply bytes_ltb_trans.
  - intros x y z Hxy Hyz. destruct (bytes_ltb (bytes_of x) (bytes_of z)) eqn:E; [|done].
    destruct (bytes_ltb (bytes_of y) (bytes_of x)) eqn:Eyx.
    + by rewrite (bytes_ltb_trans _ _ _ Eyx E) in Hyz.
    + rewrite (Htot _ _ Hxy Eyx) in E. congruence.
Qed.

#[export] Instance Zltb_total : TotalOrder Z.ltb.
Proof. split; [split|]; intros; repeat rewrite ?Z.ltb_lt, ?Z.ltb_ge in *; lia. Qed.

#[export] Instance Zgtb_total : TotalOrder (fun x y => y <? x).
Proof. split; [split|]; intros; repeat rewrite ?Z.ltb_lt, ?Z.ltb_ge in *; lia. Qed.

Lemma weak_asym {A} (less : A -> A -> bool) `{!WeakOrder less} x y :
  less x y = true -> less y x = false.
Proof.
  intros H. destruct (less y x) eqn:E; [|done].
  pose proof (wo_trans _ _ _ H E). by rewrite wo_irrefl in H0.
Qed.

#[export] Instance by_key_weak {A K} `{EqDecision K} (key : A -> K) lt rest :
  TotalOrder lt -> WeakOrder rest -> WeakOrder (by_key key lt rest).
Proof.
  intros Hlt Hrest. unfold by_key. split.
  - intros x. rewrite decide_True by done. apply wo_irrefl.
  - intros x y z. repeat case_decide; intros Hxy Hyz; try congruence.
    + eapply wo_trans; eauto.
    + exfalso. assert (E : key x = key z) by done. rewrite E in *.
      pose proof (weak_asym lt _ _ Hxy). congruence.
    + eapply wo_trans; eauto.
  - intros x y z. repeat case_decide; intros Hxy Hyz; try congruence.
    + eapply wo_neg; eauto.
    + exfalso. assert (E : key x = key z) by done. rewrite E in *.
      assert (key z = key y) by (by apply to_total). congruence.
    + eapply wo_neg; eauto.
Qed.

#[export] Instance false_weak {A} : WeakOrder (fun _ _ : A => false).
Proof. by split. Qed.

(** A chain of key comparisons leaves two elements incomparable only when every key agrees. *)
Lemma by_key_incomparable {A K} `{EqDecision K} (key : A -> K) lt rest x y :
  TotalOrder lt ->
  by_key key lt rest x y = false -> by_key key lt rest y x = false ->
  key x = key y /\ rest x y = false /\ rest y x = false.
Proof.
  intros Hlt. unfold by_key. repeat case_decide; try congruence; intros Hxy Hyx; [done|].
  exfalso. by apply (to_total (less:=lt)) in Hxy.
Qed.

Lemma str_take_spec n s : str_take n s = of_bytes (take (Z.to_nat n) (bytes_of s)).
Proof.
  unfold str_take, slen. destruct (Z.leb_spec (Z.of_nat (String.length s)) n); [|done].
  rewrite take_ge; [by rewrite of_bytes_of|]. rewrite length_bytes_of. lia.
Qed.

(** A text that is short after it was cut was not cut. *)
Lemma str_take_small n s : 0 <= n -> slen (str_take (n + 1) s) <= n -> str_take (n + 1) s = s.
Proof.
  intros Hn. rewrite str_take_spec. unfold slen. rewrite <- length_bytes_of, bytes_of_of, length_take. intros H.
  rewrite take_ge; [apply of_bytes_of|lia].
Qed.

(** ** Sorting *)

Section sorting.
Context {A : Type} (less : A -> A -> bool).

Lemma insert_rev_perm x rp : insert_rev less x rp ≡ₚ x :: rp.
Proof.
  induction rp as [|y rp IH]; simpl; [done|].
  destruct (less x y); [|done]. rewrite IH. by constructor.
Qed.

Lemma fold_insert_perm l rp : fold_left (fun rp x => insert_rev less x rp) l rp ≡ₚ l ++ rp.
Proof.
  revert rp. induction l as [|x l IH]; intros rp; simpl; [done|].
  rewrite IH, insert_rev_perm. by rewrite Permutation_middle.
Qed.

Lemma sliceStable_perm l : sliceStable less l ≡ₚ l.
Proof.
  unfold sliceStable. rewrite <- Permutation_rev, fold_insert_perm. by rewrite app_nil_r.
Qed.

Lemma sliceStable_length l : length (sliceStable less l) = length l.
Proof. by rewrite sliceStable_perm. Qed.

(** No element is less than one before it. *)
Definition sorted_by : list A -> Prop := StronglySorted (fun a b => less b a = false).
Definition rsorted : list A -> Prop := StronglySorted (fun a b => less a b = false).

Context `{Hw : !WeakOrder less}.

Lemma insert_rev_sorted x rp : rsorted rp -> rsorted (insert_rev less x rp).
Proof.
  unfold rsorted. induction rp as [|y rp IH]; simpl; intros H; [repeat constructor|].
  apply StronglySorted_inv in H as [Hs Hy].
  destruct (less x y) eqn:E.
  - constructor; [auto|]. rewrite insert_rev_perm. constructor; [|done].
    by apply (weak_asym less).
  - constructor; [by constructor|]. constructor; [done|].
    eapply Forall_impl; [exact Hy|]. simpl. intros z Hz. eapply wo_neg; eauto.
Qed.

Lemma rsorted_rev rp : rsorted rp -> sorted_by (rev rp).
Proof.
  unfold rsorted, sorted_by. induction rp as [|x rp IH]; simpl; [constructor|].
  intros H. apply StronglySorted_inv in H as [Hs Hx].
  assert (Hsnoc : forall l, StronglySorted (fun a b => less b a = false) l ->
            Forall (fun z => less x z = false) l ->
            StronglySorted (fun a b => less b a = false) (l ++ [x])).
  { induction l as [|z l IHl]; simpl; intros Hl Hxl; [repeat constructor|].
    apply StronglySorted_inv in Hl as [Hl Hz]. apply Forall_cons in Hxl as [? ?].
    constructor; [auto|]. apply Forall_app. split; [done|]. by constructor. }
  apply Hsnoc; [auto|]. rewrite <- Permutation_rev. done.
Qed.

Lemma sliceStable_sorted l : sorted_by (sliceStable less l).
Proof.
  unfold sliceStable. apply rsorted_rev.
  assert (H : forall rp, rsorted rp ->
    rsorted (fold_left (fun rp x => insert_rev less x rp) l rp)).
  { induction l as [|x l IH]; simpl; intros rp Hrp; [done|].
    apply IH. by apply insert_rev_sorted. }
  apply H. constructor.
Qed.

Lemma sorted_by_head x l : sorted_by (x :: l) -> forall y, y ∈ l -> less y x = false.
Proof.
  intros H y Hy. apply StronglySorted_inv in H as [_ H].
  rewrite Forall_forall in H. auto.
Qed.

(** A sorted list is determined by its elements when incomparable elements are equal. *)
Lemma sorted_unique l l' :
  sorted_by l -> sorted_by l' -> l ≡ₚ l' ->
  (forall x y, x ∈ l -> y ∈ l -> less x y = false -> less y x = false -> x = y) ->
  l = l'.
Proof.
  revert l'. induction l as [|x l IH]; intros [|y l'] Hl Hl' Hp Htot; auto.
  - by apply Permutation_nil in Hp.
  - symmetry in Hp. by apply Permutation_nil in Hp.
  - assert (x = y) as ->.
    { assert (Hx : x ∈ y :: l') by (rewrite <- Hp; set_solver).
      assert (Hy : y ∈ x :: l) by (rewrite Hp; set_solver).
      apply elem_of_cons in Hx as [->|Hx]; [done|].
      apply elem_of_cons in Hy as [->|Hy]; [done|].
      apply Htot; [set_solver|set_solver| |].
      - eapply sorted_by_head; [exact Hl'|done].
      - eapply sorted_by_head; [exact Hl|done]. }
    f_equal. apply IH.
    + by apply StronglySorted_inv in Hl as [? _].
    + by apply StronglySorted_inv in Hl' as [? _].
    + by apply Permutation_cons_inv in Hp.
    + intros ????. apply Htot; set_solver.
Qed.
End sorting.

#[export] Hint Resolve sliceStable_perm sliceStable_sorted : go.

(** A comparison that refines a weak order [lt] on the elements at hand sorts by [lt], even
    if the comparison itself is no order. *)
Section coarse_sorting.
Context {A : Type} (less lt : A -> A -> bool) (P : A -> Prop) `{!WeakOrder lt}.
Hypothesis lt_less : forall x y, P x -> P y -> lt x y = true -> less x y = true.
Hypothesis less_lt : forall x y, P x -> P y -> less x y = true -> lt y x = false.

Lemma insert_rev_coarse x rp : P x -> Forall P rp -> rsorted lt rp -> rsorted lt (insert_rev less x rp).
Proof.
  intros Hx. unfold rsorted. induction rp as [|y rp IH]; simpl; intros HP H; [repeat constructor|].
  apply Forall_cons in HP as [Hy HP]. pose proof H as H0. apply StronglySorted_inv in H as [Hs Hf].
  destruct (less x y) eqn:E.
  - constructor; [auto|]. rewrite insert_rev_perm. constructor; [|done]. by apply less_lt.
  - assert (Hxy : lt x y = false) by (destruct (lt x y) eqn:El; [by rewrite lt_less in E|done]).
    constructor; [done|]. constructor; [done|].
    eapply Forall_impl; [exact Hf|]. simpl. intros z Hz. eapply wo_neg; eauto.
Qed.

Lemma sliceStable_coarse l : Forall P l -> sorted_by lt (sliceStable less l).
Proof.
  intros HP. unfold sliceStable. apply rsorted_rev.
  assert (H : forall rp, Forall P rp -> rsorted lt rp ->
    rsorted lt (fold_left (fun rp x => insert_rev less x rp) l rp)).
  { induction HP as [|x l Hx HP IH]; simpl; intros rp Hrp Hs; [done|].
    apply IH; [|by apply insert_rev_coarse]. rewrite insert_rev_perm. by constructor. }
  apply H; constructor.
Qed.
End coarse_sorting.
