(* ===== verification/Time.v ===== *)
(** Reading times back ([time.Parse] with [time.RFC3339Nano]): the code keeps its times as text
    in the database and parses them when it reads a row; [time_roundtrip] is why the models of
    the tables may keep the times themselves. *)
From stdpp Require Import base tactics numbers strings list.
From Stdlib Require Import ZArith Lia.
From Stdlib Require Ascii.
From S2P Require Import Prelude GoLang.

(** * Parsing *)

(** The number of a day from its date, the inverse of [civil]. *)
Definition days_of (year month day : Z) : Z :=
  let y := if month <=? 2 then year - 1 else year in
  let era := y / 400 in
  let yoe := y - era * 400 in
  let mp := if month <=? 2 then month + 9 else month - 3 in
  let doy := (153 * mp + 2) / 5 + day - 1 in
  era * 146097 + yoe * 365 + yoe / 4 - yoe / 100 + doy - 719468.
Definition is_leap (year : Z) : bool := (year mod 4 =? 0) && (negb (year mod 100 =? 0) || (year mod 400 =? 0)).
Definition days_in (month year : Z) : Z :=
  if month =? 2 then (if is_leap year then 29 else 28)
  else if (month =? 4) || (month =? 6) || (month =? 9) || (month =? 11) then 30 else 31.

Definition digit_of (c : Ascii.ascii) : option Z :=
  let d := code c - 48 in if (0 <=? d) && (d <=? 9) then Some d else None.
(** Exactly [width] digits. *)
Fixpoint number (width : nat) (acc : Z) (l : list Ascii.ascii) : option (Z * list Ascii.ascii) :=
  match width, l with
  | O, _ => Some (acc, l)
  | S w, c :: l' => match digit_of c with Some d => number w (acc * 10 + d) l' | None => None end
  | S _, [] => None
  end.
Definition expect (c : Ascii.ascii) (l : list Ascii.ascii) : option (list Ascii.ascii) :=
  match l with d :: l' => if code d =? code c then Some l' else None | [] => None end.
Definition hyphen : Ascii.ascii := Ascii.ascii_of_N 45.
Definition colon : Ascii.ascii := Ascii.ascii_of_N 58.
Definition letter_T : Ascii.ascii := Ascii.ascii_of_N 84.
(** The digits at the front. *)
Fixpoint span_digits (l : list Ascii.ascii) : list Ascii.ascii * list Ascii.ascii :=
  match l with
  | c :: l' => match digit_of c with
               | Some _ => let '(ds, rest) := span_digits l' in (c :: ds, rest)
               | None => ([], l)
               end
  | [] => ([], [])
  end.
(** The nanoseconds of a fraction: nine digits, what is missing is zero, more is dropped. *)
Fixpoint nanos (width : nat) (acc : Z) (ds : list Ascii.ascii) : Z :=
  match width with
  | O => acc
  | S w => match ds with
           | c :: ds' => nanos w (acc * 10 + default 0 (digit_of c)) ds'
           | [] => nanos w (acc * 10) []
           end
  end.
Definition fraction (l : list Ascii.ascii) : option (Z * list Ascii.ascii) :=
  match l with
  | c :: l' => if code c =? 46 then
                 let '(ds, rest) := span_digits l' in
                 match ds with [] => None | _ => Some (nanos 9 0 ds, rest) end
               else Some (0, l)
  | [] => Some (0, l)
  end.
(** [Z] or an offset. *)
Definition zone (l : list Ascii.ascii) : option Z :=
  match l with
  | [c] => if code c =? 90 then Some 0 else None
  | c :: l' =>
      if (code c =? 43) || (code c =? 45) then
        '(hh, l1) ← number 2 0 l'; l2 ← expect colon l1; '(mm, l3) ← number 2 0 l2;
        if (hh <=? 23) && (mm <=? 59) && bool_decide (l3 = [])
        then Some ((if code c =? 45 then -1 else 1) * (hh * 3600 + mm * 60)) else None
      else None
  | [] => None
  end.
Definition parse_time (s : string) : option Z :=
  '(year, l) ← number 4 0 (bytes_of s); l ← expect hyphen l;
  '(month, l) ← number 2 0 l; l ← expect hyphen l;
  '(day, l) ← number 2 0 l; l ← expect letter_T l;
  '(h, l) ← number 2 0 l; l ← expect colon l;
  '(m, l) ← number 2 0 l; l ← expect colon l;
  '(s, l) ← number 2 0 l;
  '(ns, l) ← fraction l;
  offset ← zone l;
  if (1 <=? month) && (month <=? 12) && (1 <=? day) && (day <=? days_in month year) && (h <=? 23) && (m <=? 59) && (s <=? 59)
  then Some ((days_of year month day * 86400 + h * 3600 + m * 60 + s - offset) * second + ns)
  else None.
Example parse_time_example :
  map parse_time ["2024-02-29T12:34:56.12Z"; "1970-01-01T01:00:00+01:00"; "2023-02-29T00:00:00Z"; "2024-01-01"]
  = [Some (1709210096 * second + 120000000); Some 0; None; None].
Proof. vm_compute. reflexivity. Qed.

(** * The calendar *)

(** The year of a day of an era of 400 years, counted from March, and the day in that year. *)
Lemma year_of_doe doe : 0 <= doe < 146097 ->
  let yoe := (doe - doe / 1460 + doe / 36524 - doe / 146096) / 365 in
  let doy := doe - (365 * yoe + yoe / 4 - yoe / 100) in
  0 <= yoe <= 399 /\ 0 <= doy <= 365 /\
  (doy = 365 -> (yoe + 1) mod 4 = 0 /\ ((yoe + 1) mod 100 <> 0 \/ (yoe + 1) mod 400 = 0)).
Proof. intros H. cbv zeta. Z.to_euclidean_division_equations. lia. Qed.

(** The months of a year counted from March. *)
Lemma month_of_doy doy : 0 <= doy <= 365 ->
  let mp := (5 * doy + 2) / 153 in
  let day := doy - (153 * mp + 2) / 5 + 1 in
  0 <= mp <= 11 /\ 1 <= day <= 31 /\ (mp = 1 \/ mp = 3 \/ mp = 6 \/ mp = 8 -> day <= 30) /\
  (mp = 11 -> day <= 29 /\ (day = 29 -> doy = 365)).
Proof. intros H. cbv zeta. Z.to_euclidean_division_equations. lia. Qed.

(** [days_of] undoes [civil], which gives a date of the calendar. *)
Lemma civil_spec d : let '(year, month, day) := civil d in
  days_of year month day = d /\ 1 <= month <= 12 /\ 1 <= day <= days_in month year.
Proof.
  unfold civil. cbv zeta. set (z := d + 719468). set (doe := z mod 146097).
  assert (Hdoe : 0 <= doe < 146097) by (apply Z.mod_pos_bound; lia).
  assert (Ez : z = 146097 * (z / 146097) + doe) by (apply Z.div_mod; lia).
  pose proof (year_of_doe doe Hdoe) as (Hy & Hd & Hleap). cbv zeta in *.
  set (yoe := (doe - doe / 1460 + doe / 36524 - doe / 146096) / 365) in *.
  set (doy := doe - (365 * yoe + yoe / 4 - yoe / 100)) in *.
  pose proof (month_of_doy doy Hd) as (Hm & Hday & H30 & H29). cbv zeta in *.
  set (mp := (5 * doy + 2) / 153) in *. set (day := doy - (153 * mp + 2) / 5 + 1) in *. set (era := z / 146097) in *.
  assert (Eera : forall y, y = yoe + era * 400 -> y / 400 = era) by (intros y ->; rewrite Z_div_plus_full, Z.div_small by lia; lia).
  destruct (mp <? 10) eqn:Emp; [apply Z.ltb_lt in Emp|apply Z.ltb_ge in Emp].
  - rewrite (proj2 (Z.leb_gt (mp + 3) 2)) by lia. split; [|split; [lia|]].
    + unfold days_of. rewrite (proj2 (Z.leb_gt (mp + 3) 2)) by lia. rewrite Z.add_0_r, Eera by lia.
      replace (yoe + era * 400 - era * 400) with yoe by lia. replace (mp + 3 - 3) with mp by lia. unfold day, doy. lia.
    + unfold days_in. rewrite (proj2 (Z.eqb_neq (mp + 3) 2)) by lia. split; [lia|].
      destruct ((mp + 3 =? 4) || (mp + 3 =? 6) || (mp + 3 =? 9) || (mp + 3 =? 11)) eqn:E; [|lia].
      rewrite !orb_true_iff, !Z.eqb_eq in E. apply H30. lia.
  - rewrite (proj2 (Z.leb_le (mp - 9) 2)) by lia. split; [|split; [lia|]].
    + unfold days_of. rewrite (proj2 (Z.leb_le (mp - 9) 2)) by lia.
      replace (yoe + era * 400 + 1 - 1) with (yoe + era * 400) by lia. rewrite Eera by lia.
      replace (yoe + era * 400 - era * 400) with yoe by lia. replace (mp - 9 + 9) with mp by lia. unfold day, doy. lia.
    + split; [lia|]. unfold days_in. destruct (Z.eqb_spec (mp - 9) 2) as [E|E].
      * destruct (is_leap _) eqn:El; [lia|]. destruct (decide (day = 29)) as [E29|]; [|lia]. exfalso.
        destruct (Hleap (proj2 (H29 ltac:(lia)) E29)) as [H4 H100].
        revert El. unfold is_leap. replace (yoe + era * 400 + 1) with (yoe + 1 + (era * 100) * 4) at 1 by lia.
        replace (yoe + era * 400 + 1) with (yoe + 1 + (era * 4) * 100) at 1 by lia.
        replace (yoe + era * 400 + 1) with (yoe + 1 + era * 400) by lia. rewrite !Z_mod_plus_full, H4.
        destruct H100 as [H100|H100]; [by rewrite (proj2 (Z.eqb_neq _ _) H100)|by rewrite H100, orb_true_r].
      * rewrite (proj2 (Z.eqb_neq (mp - 9) 4)), (proj2 (Z.eqb_neq (mp - 9) 6)), (proj2 (Z.eqb_neq (mp - 9) 9)),
          (proj2 (Z.eqb_neq (mp - 9) 11)) by lia. simpl. lia.
Qed.

(** * What was printed parses *)

Lemma digit_of_digit d : 0 <= d < 10 -> digit_of (digit d) = Some d.
Proof. intros H. unfold digit_of. rewrite code_digit by done. replace (48 + d - 48) with d by lia. by rewrite (proj2 (Z.leb_le 0 d)), (proj2 (Z.leb_le d 9)) by lia. Qed.

Lemma number_app w acc l acc' l' rest : number w acc l = Some (acc', l') -> number w acc (l ++ rest) = Some (acc', l' ++ rest).
Proof.
  revert acc l. induction w as [|w IH]; intros acc l; simpl; [by intros [= -> ->]|].
  destruct l as [|c l]; [done|]. simpl. destruct (digit_of c); [apply IH|done].
Qed.
Lemma number_snoc w acc l c d acc' : number w acc l = Some (acc', []) -> digit_of c = Some d ->
  number (S w) acc (l ++ [c]) = Some (acc' * 10 + d, []).
Proof.
  revert acc l. induction w as [|w IH]; intros acc l H Hc.
  - simpl in H. injection H as -> ->. simpl. by rewrite Hc.
  - destruct l as [|x l]; [done|]. cbn [number app] in *. destruct (digit_of x); [|done]. by apply IH.
Qed.
Lemma number_padded w n : 0 <= n < 10 ^ Z.of_nat w -> number w 0 (padded w n) = Some (n, []).
Proof.
  revert n. induction w as [|w IH]; intros n Hn; [simpl in *; f_equal; f_equal; lia|].
  cbn [padded]. rewrite Nat2Z.inj_succ, Z.pow_succ_r in Hn by lia.
  rewrite (number_snoc w 0 _ _ (n mod 10) (n / 10)).
  - f_equal. f_equal. pose proof (Z.div_mod n 10). lia.
  - apply IH. split; [apply Z.div_pos; lia|]. apply Z.div_lt_upper_bound; lia.
  - apply digit_of_digit, Z.mod_pos_bound. lia.
Qed.
Lemma number_padded_app w n rest : 0 <= n < 10 ^ Z.of_nat w -> number w 0 (padded w n ++ rest) = Some (n, rest).
Proof. intros H. by apply (number_app _ _ _ _ []), number_padded. Qed.

Lemma expect_same c rest : expect c (c :: rest) = Some rest.
Proof. simpl. by rewrite Z.eqb_refl. Qed.

(** The fraction that is printed: nine digits without the zeros at their end. *)
Definition frac_digits (n : Z) : list Ascii.ascii := rev (trim_zeros (rev (padded 9 n))).

Lemma digits_digit_of w n c : c ∈ padded w n -> exists d, digit_of c = Some d.
Proof.
  revert n. induction w as [|w IH]; intros n; cbn [padded]; [by intros ?%elem_of_nil|].
  intros [H|H%list_elem_of_singleton]%elem_of_app; [by eapply IH|]. subst c. exists (n mod 10).
  apply digit_of_digit, Z.mod_pos_bound. lia.
Qed.

Lemma trim_zeros_spec l : exists k, l = replicate k (digit 0) ++ trim_zeros l.
Proof.
  induction l as [|c l [k IH]]; [by exists O|]. simpl. destruct (Z.eqb_spec (code c) 48) as [E|E].
  - exists (S k). simpl. rewrite <- IH. f_equal. apply code_inj. by rewrite E.
  - by exists O.
Qed.

Lemma frac_spec n : exists k, padded 9 n = frac_digits n ++ replicate k (digit 0).
Proof.
  unfold frac_digits. destruct (trim_zeros_spec (rev (padded 9 n))) as [k E]. exists k.
  rewrite <- (rev_involutive (padded 9 n)) at 1. rewrite E at 1. rewrite rev_app_distr. f_equal.
  clear. induction k as [|k IH]; [done|]. cbn [replicate rev]. rewrite IH. clear. induction k as [|k IH]; [done|]. simpl. by rewrite IH.
Qed.

(** Reading the digits, the zeros that were cut off included, is reading the number. *)
Lemma nanos_zeros w : forall acc ds k n, number w acc (ds ++ replicate k (digit 0)) = Some (n, []) -> nanos w acc ds = n.
Proof.
  induction w as [|w IH]; intros acc ds k n; [by intros [= -> _]|].
  destruct ds as [|c ds]; cbn [number nanos app].
  - destruct k as [|k]; [done|]. cbn [replicate]. rewrite (digit_of_digit 0) by lia. rewrite Z.add_0_r.
    apply (IH (acc * 10) [] k n).
  - destruct (digit_of c) as [d|]; [|done]. apply IH.
Qed.

Lemma span_digits_app ds rest : Forall (fun c => exists d, digit_of c = Some d) ds ->
  (forall c l, rest = c :: l -> digit_of c = None) -> span_digits (ds ++ rest) = (ds, rest).
Proof.
  intros Hds Hr. induction Hds as [|c ds [d Hd] _ IH]; simpl.
  - destruct rest as [|c l]; [done|]. simpl. by rewrite (Hr c l eq_refl).
  - by rewrite Hd, IH.
Qed.

Definition letter_Z : Ascii.ascii := Ascii.ascii_of_N 90.
Definition point : Ascii.ascii := Ascii.ascii_of_N 46.

Lemma fraction_printed n : 0 <= n < second ->
  fraction (match frac_digits n with [] => [] | l => point :: l end ++ [letter_Z]) = Some (n, [letter_Z]).
Proof.
  intros Hn. destruct (frac_spec n) as [k Ek].
  pose proof (number_padded 9 n ltac:(unfold second in Hn; simpl; lia)) as Hnum.
  rewrite Ek in Hnum. apply nanos_zeros in Hnum. destruct (frac_digits n) as [|c ds] eqn:E.
  - simpl in Hnum. by subst n.
  - unfold fraction. cbn [app]. rewrite (Z.eqb_refl 46 : (code point =? 46) = true).
    change (c :: ds ++ [letter_Z]) with ((c :: ds) ++ [letter_Z]). rewrite span_digits_app.
    + by rewrite Hnum.
    + apply Forall_forall. intros x Hx. apply (digits_digit_of 9 n). rewrite Ek. apply elem_of_app. by left.
    + by intros x l [= <- _].
Qed.

Lemma clock_split s : s / 3600 * 3600 + s / 60 mod 60 * 60 + s mod 60 = s.
Proof. Z.to_euclidean_division_equations. lia. Qed.

(** * Properties *)

(** [time_roundtrip]: every time of the years 0 to 9999 that is printed with RFC 3339 and its
    nanoseconds reads back as itself. *)
Theorem time_roundtrip t (Ht : let '(year, _, _) := civil (t / second / 86400) in 0 <= year <= 9999) :
  parse_time (rfc3339nano t) = Some t.
Proof.
  unfold rfc3339nano. pose proof (civil_spec (t / second / 86400)) as Hc.
  destruct (civil (t / second / 86400)) as [[year month] day]. destruct Hc as (Hd & Hm & Hday).
  cbv zeta. set (s := (t / second) mod 86400). assert (Hs : 0 <= s < 86400) by (apply Z.mod_pos_bound; lia).
  assert (Hday31 : day <= 31) by (unfold days_in in Hday; repeat case_match; lia).
  assert (Hp : forall w n rest, 0 <= n < 10 ^ Z.of_nat w -> number w 0 (padded w n ++ rest) = Some (n, rest)) by (apply number_padded_app).
  set (fr := match rev (trim_zeros (rev (padded 9 (t mod second)))) with [] => "" | _ => _ end).
  assert (Hfr : bytes_of fr = match frac_digits (t mod second) with [] => [] | l => point :: l end).
  { unfold fr, frac_digits. destruct (rev _) as [|c l]; [done|]. by rewrite bytes_of_app, bytes_of_of. }
  pose proof (fraction_printed (t mod second) ltac:(apply Z.mod_pos_bound; unfold second; lia)) as Hn. rewrite <- Hfr in Hn.
  assert (Hy : forall r, expect hyphen (bytes_of "-" ++ r) = Some r) by done.
  assert (HT : forall r, expect letter_T (bytes_of "T" ++ r) = Some r) by done.
  assert (Hcol : forall r, expect colon (bytes_of ":" ++ r) = Some r) by done.
  unfold parse_time. rewrite !bytes_of_app, !bytes_of_of.
  assert (s / 3600 <= 23) by (Z.to_euclidean_division_equations; lia).
  repeat (first [rewrite Hp by (simpl; Z.to_euclidean_division_equations; lia)|rewrite Hy|rewrite HT|rewrite Hcol];
          cbn [mbind option_bind]).
  change (bytes_of "Z") with [letter_Z]. rewrite Hn. cbn [mbind option_bind].
  change (zone [letter_Z]) with (Some 0). cbn [mbind option_bind].
  rewrite Hd, (proj2 (andb_true_iff _ _)).
  - f_equal. pose proof (clock_split s). unfold s in *. pose proof (Z.div_mod (t / second) 86400). pose proof (Z.div_mod t second).
    unfold second in *. lia.
  - pose proof (Z.mod_pos_bound (s / 60) 60). pose proof (Z.mod_pos_bound s 60). rewrite !andb_true_iff, !Z.leb_le. lia.
Qed.
Lemma time_roundtrip_witness : parse_time (rfc3339nano (1709210096 * second + 120000000)) = Some (1709210096 * second + 120000000).
Proof. apply (time_roundtrip (1709210096 * second + 120000000)). vm_compute. split; discriminate. Defined.
