(* ===== verification/Effects.v ===== *)
(** Effects of the control plane's services: an error-and-state monad with the sources of
    nondeterminism a Go service has (the clock, [crypto/rand], a failing database), the
    recorded events, loops, and the rules that reason about them.

    A computation of type [M S A] reads an [Env], which answers the [n]-th effect of the
    run with a time, with random bytes, or with whether the database statement fails; a
    theorem about every [Env] is one about every clock, every random source and every
    pattern of I/O failures.  [S] is the state; a component names the part of it that it
    owns with the class [Has]. *)
From stdpp Require Import base tactics numbers strings list gmap.
From Stdlib Require Import ZArith Lia.
From S2P Require Import Prelude GoLang.

(** * Events (internal/kernel/events) *)

(* go: internal/kernel/events/events.go Severity *)
Inductive Severity := Info | Warn | SevError.

(* go: internal/kernel/events/events.go Entry *)
Record Entry := {
  ev_ProjectID : string; ev_Kind : string; ev_Subject : string;
  ev_NodeID : string; ev_Message : string; ev_Severity : Severity;
}.

(** * The monad *)

Inductive outcome (A : Type) :=
| Ok (a : A)
| Err (e : error).
Arguments Ok {A} a.
Arguments Err {A} e.

Record Env := {
  env_now : nat -> Z;
  env_rand : nat -> list Z;
  env_io : nat -> bool;
}.

Record World (S : Type) := MkWorld {
  w_st : S;
  w_step : nat;
  w_events : list Entry;
}.
Arguments MkWorld {S} _ _ _.
Arguments w_st {S} _.
Arguments w_step {S} _.
Arguments w_events {S} _.

Definition M (S A : Type) : Type := Env -> World S -> outcome A * World S.

(** One effect has been answered. *)
Definition tick {S} (w : World S) : World S :=
  MkWorld (w_st w) (Datatypes.S (w_step w)) (w_events w).
Definition with_st {S} (w : World S) (s : S) : World S :=
  MkWorld s (w_step w) (w_events w).

Definition ret {S A} (a : A) : M S A := fun _ w => (Ok a, w).
Definition fail {S A} (e : error) : M S A := fun _ w => (Err e, w).
Definition bind {S A B} (m : M S A) (k : A -> M S B) : M S B :=
  fun env w =>
    match m env w with
    | (Ok a, w') => k a env w'
    | (Err e, w') => (Err e, w')
    end.
(** [x, err := m()] whose error the caller looks at. *)
Definition attempt {S A} (m : M S A) : M S (outcome A) :=
  fun env w => let '(r, w') := m env w in (Ok r, w').
(** [s.now()] *)
Definition now {S} : M S Z := fun env w => (Ok (env_now env (w_step w)), tick w).
(** [rand.Read(buf)] *)
Definition rand {S} : M S (list Z) := fun env w => (Ok (env_rand env (w_step w)), tick w).
(** [s.events.Record(ctx, entry)] *)
Definition record {S} (e : Entry) : M S unit :=
  fun _ w => (Ok tt, MkWorld (w_st w) (w_step w) (w_events w ++ [e])).
(** [if cond { return fault }] *)
Definition lift {S A} (r : outcome A) : M S A := fun _ w => (r, w).

Declare Scope go_monad_scope.
Delimit Scope go_monad_scope with gom.
Notation "'let!' x ':=' m 'in' k" := (bind m (fun x => k))
  (at level 10, x name, m at level 100, k at level 200) : go_monad_scope.
Notation "'let!' ' p ':=' m 'in' k" := (bind m (fun x => match x with p => k end))
  (at level 10, p pattern, m at level 100, k at level 200)
  : go_monad_scope.
Notation "m ';;;' k" := (bind m (fun _ => k))
  (at level 198, right associativity) : go_monad_scope.
Open Scope go_monad_scope.

(** [outcome] itself as an error monad, for code without effects. *)
Definition obind {A B} (r : outcome A) (k : A -> outcome B) : outcome B :=
  match r with Ok a => k a | Err e => Err e end.
Notation "'try' x ':=' m 'in' k" := (obind m (fun x => k))
  (at level 10, x name, m at level 100, k at level 200) : go_monad_scope.
Definition guard (refuse : bool) (e : error) : outcome unit :=
  if refuse then Err e else Ok tt.

Lemma guard_ok b e : guard b e = Ok tt <-> b = false.
Proof. unfold guard. by destruct b. Qed.

Lemma obind_ok {A B} (r : outcome A) (k : A -> outcome B) b :
  obind r k = Ok b <-> exists a, r = Ok a /\ k a = Ok b.
Proof. destruct r; simpl; [|split; [done|by intros (? & ? & _)]]. naive_solver. Qed.
Lemma or_fault_ok {A} f (r : outcome A) a : match r with Ok a => Ok a | Err e => Err (f e) end = Ok a <-> r = Ok a.
Proof. by destruct r. Qed.
(** What went well before a [try] chain did. *)
Ltac unbind H :=
  repeat match type of H with
  | obind _ _ = Ok _ => let H1 := fresh "Hok" in apply obind_ok in H as (? & H1 & H); cbv beta in H
  end.

(** [if err != nil { return f(err) }] *)
Definition or_fault {A} (f : error -> error) (r : outcome A) : outcome A :=
  match r with Ok a => Ok a | Err e => Err (f e) end.
Definition mapped {S A} (f : error -> error) (m : M S A) : M S A :=
  let! r := attempt m in lift (or_fault f r).

(** * Loops *)

(** A [for range] whose body may only [continue]. *)
Fixpoint foldM {S X A} (body : X -> A -> M S A) (xs : list X) (a : A) : M S A :=
  match xs with
  | [] => ret a
  | x :: xs' => let! a' := body x a in foldM body xs' a'
  end.

(** The ways a loop body ends. *)
Inductive flow (A R : Type) :=
| Next (a : A)
| Break (a : A)
| Return (r : R).
Arguments Next {A R} a.
Arguments Break {A R} a.
Arguments Return {A R} r.

(** A [for range] whose body may [continue], [break] or [return]. *)
Fixpoint for_each {S X A R} (body : X -> A -> M S (flow A R)) (xs : list X) (a : A)
    : M S (A + R) :=
  match xs with
  | [] => ret (inl a)
  | x :: xs' =>
      let! f := body x a in
      match f with
      | Next a' => for_each body xs' a'
      | Break a' => ret (inl a')
      | Return r => ret (inr r)
      end
  end.

(** * Components of the state *)

(** The part [T] of a state [S]. *)
Class Has (T S : Type) := {
  hget : S -> T;
  hput : T -> S -> S;
  hget_hput t s : hget (hput t s) = t;
  hput_hget s : hput (hget s) s = s;
  hput_hput t t' s : hput t (hput t' s) = hput t s;
}.
#[export] Instance Has_refl T : Has T T.
Proof. by refine {| hget s := s; hput t _ := t |}. Defined.

(** The two parts of a pair, for the concrete states of the witnesses. *)
Definition Has_fst T U : Has T (T * U).
Proof. by refine {| hget := fst; hput t s := (t, snd s) |}; intros; destruct s. Defined.
Definition Has_snd T U : Has U (T * U).
Proof. by refine {| hget := snd; hput u s := (fst s, u) |}; intros; destruct s. Defined.

(** A part of a part. *)
Definition Has_in_fst {T U} V (H : Has T U) : Has T (U * V).
Proof.
  refine {| hget s := hget (fst s); hput t s := (hput t (fst s), snd s) |}; intros; destruct s; simpl;
    by rewrite ?hget_hput, ?hput_hget, ?hput_hput.
Defined.
Definition Has_in_snd {T U} V (H : Has T U) : Has T (V * U).
Proof.
  refine {| hget s := hget (snd s); hput t s := (fst s, hput t (snd s)) |}; intros; destruct s; simpl;
    by rewrite ?hget_hput, ?hput_hget, ?hput_hput.
Defined.

(** The part of a world's state. *)
Definition part {T S} `{Has T S} (w : World S) : T := hget (w_st w).

(** Two parts that do not overlap. *)
Class Apart (T U S : Type) `{Has T S, Has U S} :=
  apart : forall (t : T) (s : S), hget (T:=U) (hput t s) = hget s.

Definition Apart_pair T U : @Apart T U (T * U) (Has_fst T U) (Has_snd T U).
Proof. done. Defined.
Definition Apart_pair' T U : @Apart U T (T * U) (Has_snd T U) (Has_fst T U).
Proof. done. Defined.

(** A critical section on a part of the memory. *)
Definition locked {T S A} `{Has T S} (f : T -> A * T) : M S A :=
  fun _ w => let '(a, t) := f (hget (w_st w)) in (Ok a, with_st w (hput t (w_st w))).

(** The text of a failing database statement, [fmt.Errorf(what+": %w", err)]. *)
Definition io_error (what : string) : error := EWrap what (EText "database is unavailable").

(** One database statement: it either fails and changes nothing, or runs atomically. *)
Definition sql {T S A} `{Has T S} (what : string) (q : T -> outcome A * T) : M S A :=
  fun env w =>
    if env_io env (w_step w) then (Err (io_error what), tick w)
    else let '(r, t) := q (hget (w_st w)) in (r, with_st (tick w) (hput t (w_st w))).
(** A statement that only reads. *)
Definition query {T S A} `{Has T S} (what : string) (q : T -> outcome A) : M S A :=
  sql what (fun t => (q t, t)).

(** [expectOneRow]: an UPDATE or DELETE that affected no row. *)
Definition update_where {R} (p : R -> bool) (f : R -> R) (notFound : error) (rows : list R)
    : outcome unit * list R :=
  if existsb p rows
  then (Ok tt, map (fun r => if p r then f r else r) rows)
  else (Err notFound, rows).
Definition delete_where {R} (p : R -> bool) (notFound : error) (rows : list R)
    : outcome unit * list R :=
  if existsb p rows
  then (Ok tt, List.filter (fun r => negb (p r)) rows)
  else (Err notFound, rows).

(** INSERT under UNIQUE constraints: [clash] tells the rows that the new one violates one
    with. *)
Definition insert_row {R} (clash : R -> bool) (violation : error) (r : R) (rows : list R)
    : outcome unit * list R :=
  if existsb clash rows then (Err violation, rows) else (Ok tt, rows ++ [r]).
(** SELECT of one row. *)
Definition select_one {R} (p : R -> bool) (notFound : error) (rows : list R) : outcome R :=
  match List.find p rows with Some r => Ok r | None => Err notFound end.

(** ** What the statements do to the rows *)

Lemma select_one_ok {R} (p : R -> bool) e rows r : select_one p e rows = Ok r -> r ∈ rows /\ p r = true.
Proof. unfold select_one. destruct (List.find p rows) eqn:E; [|done]. intros [= <-]. by apply find_some_elem. Qed.

Lemma select_one_none {R} (p : R -> bool) e rows : (forall r, r ∈ rows -> p r = false) -> select_one p e rows = Err e.
Proof.
  intros H. unfold select_one. destruct (List.find p rows) as [r|] eqn:E; [|done].
  apply find_some_elem in E as [Hr Ep]. by rewrite H in Ep.
Qed.

(** An UPDATE: the rows after it are the rows before it, each one matched or not. *)
Lemma update_where_rows {R} (p : R -> bool) f e rows :
  snd (update_where p f e rows) = map (fun r => if p r then f r else r) rows.
Proof.
  unfold update_where. destruct (existsb p rows) eqn:E; [done|]. simpl. rewrite existsb_false, Forall_forall in E.
  rewrite <- (map_id rows) at 1. apply map_ext_in. intros r Hr%list_elem_of_In. by rewrite (E r Hr).
Qed.

Lemma update_where_ok {R} (p : R -> bool) f e rows : fst (update_where p f e rows) = Ok tt <-> exists r, r ∈ rows /\ p r = true.
Proof.
  unfold update_where. destruct (existsb p rows) eqn:E; simpl.
  - apply existsb_exists in E as (r & Hr%list_elem_of_In & Ep). split; [eauto|done].
  - split; [done|]. intros (r & Hr & Ep). rewrite existsb_false, Forall_forall in E. by rewrite (E r Hr) in Ep.
Qed.

Lemma delete_where_rows {R} (p : R -> bool) e rows :
  snd (delete_where p e rows) = List.filter (fun r => negb (p r)) rows.
Proof.
  unfold delete_where. destruct (existsb p rows) eqn:E; [done|]. simpl. rewrite existsb_false in E.
  induction E as [|r rows Hr _ IH]; [done|]. simpl. rewrite Hr. simpl. by rewrite <- IH.
Qed.

(** * Weakest preconditions *)

Definition wp {S A} (env : Env) (m : M S A) (Q : outcome A -> World S -> Prop)
    (w : World S) : Prop := let '(r, w') := m env w in Q r w'.

(** [m] moves the world only along the preorder [R]. *)
Definition steps {S A} (R : World S -> World S -> Prop) (m : M S A) : Prop :=
  forall env w, R w (snd (m env w)).

Section wp_rules.
Context {S : Type} (env : Env).

Lemma wp_ret {A} (a : A) Q (w : World S) : wp env (ret a) Q w = Q (Ok a) w.
Proof. done. Qed.

Lemma wp_fail {A} e Q (w : World S) : wp env (fail (A:=A) e) Q w = Q (Err e) w.
Proof. done. Qed.

Lemma wp_lift {A} (r : outcome A) Q (w : World S) : wp env (lift r) Q w = Q r w.
Proof. done. Qed.

Lemma wp_bind {A B} (m : M S A) (k : A -> M S B) Q w :
  wp env (bind m k) Q w <->
  wp env m (fun r w' => match r with Ok a => wp env (k a) Q w' | Err e => Q (Err e) w' end) w.
Proof. unfold wp, bind. by destruct (m env w) as [[a|e] w']. Qed.

Lemma wp_attempt {A} (m : M S A) Q w :
  wp env (attempt m) Q w <-> wp env m (fun r w' => Q (Ok r) w') w.
Proof. unfold wp, attempt. by destruct (m env w). Qed.

Lemma wp_mono {A} (m : M S A) (P Q : outcome A -> World S -> Prop) w :
  (forall r w', P r w' -> Q r w') -> wp env m P w -> wp env m Q w.
Proof. unfold wp. destruct (m env w). auto. Qed.

Lemma wp_and {A} (m : M S A) (P Q : outcome A -> World S -> Prop) w :
  wp env m P w -> wp env m Q w -> wp env m (fun r w' => P r w' /\ Q r w') w.
Proof. unfold wp. destruct (m env w). auto. Qed.

Lemma wp_now Q (w : World S) : wp env now Q w = Q (Ok (env_now env (w_step w))) (tick w).
Proof. done. Qed.

Lemma wp_rand Q (w : World S) : wp env rand Q w = Q (Ok (env_rand env (w_step w))) (tick w).
Proof. done. Qed.

Lemma wp_record e Q (w : World S) :
  wp env (record e) Q w = Q (Ok tt) (MkWorld (w_st w) (w_step w) (w_events w ++ [e])).
Proof. done. Qed.

Lemma wp_sql {T A} `{Has T S} what (q : T -> outcome A * T) Q (w : World S) :
  wp env (sql what q) Q w <->
  if env_io env (w_step w) then Q (Err (io_error what)) (tick w)
  else Q (fst (q (hget (w_st w)))) (with_st (tick w) (hput (snd (q (hget (w_st w)))) (w_st w))).
Proof. unfold wp, sql. destruct (env_io env _); [done|]. by destruct (q _). Qed.

Lemma wp_query {T A} `{Has T S} what (q : T -> outcome A) Q (w : World S) :
  wp env (query what q) Q w <->
  if env_io env (w_step w) then Q (Err (io_error what)) (tick w)
  else Q (q (hget (w_st w))) (tick w).
Proof.
  unfold query. rewrite wp_sql. simpl. destruct (env_io env _); [done|].
  rewrite hput_hget. by destruct w.
Qed.

Lemma wp_locked {T A} `{Has T S} (f : T -> A * T) (Q : outcome A -> World S -> Prop) w :
  (forall w', part w' = snd (f (part w)) -> w_step w' = w_step w -> Q (Ok (fst (f (part w)))) w') -> wp env (locked f) Q w.
Proof.
  intros HQ. unfold wp, locked, part in *. destruct (f _) as [a t] eqn:E. apply HQ; [|done]. simpl. by rewrite hget_hput.
Qed.

(** A critical section that only looks. *)
Lemma wp_peek {T A} `{Has T S} (f : T -> A) (Q : outcome A -> World S -> Prop) w :
  wp env (locked (fun t => (f t, t))) Q w <-> Q (Ok (f (part w))) w.
Proof. unfold wp, locked, with_st. rewrite hput_hget. by destruct w. Qed.

(** One that changes a part leaves the parts apart from it. *)
Lemma wp_locked_apart {T U A} `{Has T S, Has U S, !Apart T U S} (f : T -> A * T) (Q : outcome A -> World S -> Prop) w :
  (forall w', part w' = snd (f (part w)) -> part w' = part (T:=U) w -> Q (Ok (fst (f (part w)))) w') -> wp env (locked f) Q w.
Proof.
  intros HQ. unfold wp, locked. change (hget (w_st w)) with (part (T:=T) w). destruct (f _) as [a t] eqn:E.
  apply HQ; unfold part; simpl; [by rewrite hget_hput|apply apart].
Qed.

Lemma wp_mapped {A} f (m : M S A) Q w :
  wp env m (fun r w' => Q (or_fault f r) w') w -> wp env (mapped f m) Q w.
Proof. intros H. unfold mapped. apply wp_bind, wp_attempt. exact H. Qed.

(** A read: it fails, or answers from the state; the state stays. *)
Lemma wp_read {T A} `{Has T S} what (q : T -> outcome A) (Q : outcome A -> World S -> Prop) w :
  (forall r, r = Err (io_error what) \/ r = q (part w) -> Q r (tick w)) ->
  wp env (query what q) Q w.
Proof. intros Hr. apply wp_query. case_match; apply Hr; auto. Qed.

(** A write: it fails and the state stays, or it runs. *)
Lemma wp_write {T A} `{Has T S} what (q : T -> outcome A * T) (Q : outcome A -> World S -> Prop) w :
  (forall w', part w' = part (T:=T) w -> Q (Err (io_error what)) w') ->
  (forall w', part w' = snd (q (part w)) -> Q (fst (q (part w))) w') ->
  wp env (sql what q) Q w.
Proof.
  intros H1 H2. apply wp_sql. case_match; [by apply H1|]. apply H2. unfold part. simpl.
  by rewrite hget_hput.
Qed.

(** The same, with a part of the state the statement does not touch. *)
Lemma wp_write_apart {T U A} `{Has T S, Has U S, !Apart T U S} what (q : T -> outcome A * T)
    (Q : outcome A -> World S -> Prop) w :
  (forall w', part w' = part (T:=T) w -> part w' = part (T:=U) w -> Q (Err (io_error what)) w') ->
  (forall w', part w' = snd (q (part w)) -> part w' = part (T:=U) w -> Q (fst (q (part w))) w') ->
  wp env (sql what q) Q w.
Proof.
  intros H1 H2. apply wp_sql. case_match; [by apply H1|].
  apply H2; unfold part; simpl; [by rewrite hget_hput|apply apart].
Qed.

Lemma wp_foldM {X A} (I : A -> World S -> Prop) (E : error -> World S -> Prop)
    (body : X -> A -> M S A) xs a w :
  (forall x a w, x ∈ xs -> I a w ->
     wp env (body x a) (fun r w' => match r with Ok a' => I a' w' | Err e => E e w' end) w) ->
  I a w ->
  wp env (foldM body xs a)
     (fun r w' => match r with Ok a' => I a' w' | Err e => E e w' end) w.
Proof.
  revert a w. induction xs as [|x xs IH]; intros a w Hb Ha; simpl; [done|].
  rewrite wp_bind. eapply wp_mono; [|apply Hb; [set_solver|exact Ha]].
  intros [a'|e] w' H; [|done]. apply IH; [|done]. intros. apply Hb; set_solver.
Qed.

(** The invariant may speak of the elements done so far. *)
Lemma wp_foldM_done {X A} (I : list X -> A -> World S -> Prop) (E : error -> World S -> Prop)
    (body : X -> A -> M S A) xs a w :
  (forall done x rest a w, xs = done ++ x :: rest -> I done a w ->
     wp env (body x a) (fun r w' => match r with Ok a' => I (done ++ [x]) a' w' | Err e => E e w' end) w) ->
  I [] a w ->
  wp env (foldM body xs a)
     (fun r w' => match r with Ok a' => I xs a' w' | Err e => E e w' end) w.
Proof.
  intros Hb. enough (H : forall done rest a w, xs = done ++ rest -> I done a w ->
    wp env (foldM body rest a) (fun r w' => match r with Ok a' => I xs a' w' | Err e => E e w' end) w)
    by (intros Ha; by apply (H [])).
  intros done rest. revert done. induction rest as [|x rest IH]; intros done b v Exs Hd; simpl.
  - rewrite app_nil_r in Exs. by subst.
  - rewrite wp_bind. eapply wp_mono; [|by eapply Hb]. intros [a'|e] w' H; [|exact H].
    apply (IH (done ++ [x])); [|exact H]. rewrite Exs. by rewrite <- app_assoc.
Qed.

Lemma wp_for_each {X A R} (I : A -> World S -> Prop) (Q : R -> World S -> Prop)
    (E : error -> World S -> Prop) (body : X -> A -> M S (flow A R)) xs a w :
  (forall x a w, x ∈ xs -> I a w ->
     wp env (body x a) (fun r w' => match r with
       | Ok (Next a') | Ok (Break a') => I a' w'
       | Ok (Return r) => Q r w' | Err e => E e w' end) w) ->
  I a w ->
  wp env (for_each body xs a) (fun r w' => match r with
       | Ok (inl a') => I a' w' | Ok (inr r) => Q r w' | Err e => E e w' end) w.
Proof.
  revert a w. induction xs as [|x xs IH]; intros a w Hb Ha; simpl; [done|].
  rewrite wp_bind. eapply wp_mono; [|apply Hb; [set_solver|exact Ha]].
  intros [[a'|a'|r]|e] w' H; try done. apply IH; [|done]. intros. apply Hb; set_solver.
Qed.
(** What a computation that only moves along [R] may rely on. *)
Lemma wp_steps {A} (R : World S -> World S -> Prop) (m : M S A) (Q : outcome A -> World S -> Prop) w :
  steps R m -> (forall r w', R w w' -> Q r w') -> wp env m Q w.
Proof. intros Hm HQ. specialize (Hm env w). unfold wp. destruct (m env w). by apply HQ. Qed.
End wp_rules.

Section steps_rules.
Context {S : Type} (R : World S -> World S -> Prop) `{!PreOrder R}.

Lemma steps_ret {A} (a : A) : steps R (ret a).
Proof. intros env w. reflexivity. Qed.

Lemma steps_fail {A} e : steps R (fail (A:=A) e).
Proof. intros env w. reflexivity. Qed.

Lemma steps_lift {A} (r : outcome A) : steps R (lift r).
Proof. intros env w. reflexivity. Qed.

Lemma steps_bind {A B} (m : M S A) (k : A -> M S B) :
  steps R m -> (forall a, steps R (k a)) -> steps R (bind m k).
Proof.
  intros Hm Hk env w. unfold bind. specialize (Hm env w).
  destruct (m env w) as [[a|e] w']; simpl in *; [|done].
  etransitivity; [exact Hm|apply Hk].
Qed.

Lemma steps_attempt {A} (m : M S A) : steps R m -> steps R (attempt m).
Proof. intros Hm env w. unfold attempt. specialize (Hm env w). by destruct (m env w). Qed.

Lemma steps_foldM {X A} (body : X -> A -> M S A) xs a :
  (forall x a, x ∈ xs -> steps R (body x a)) -> steps R (foldM body xs a).
Proof.
  revert a. induction xs as [|x xs IH]; intros a Hb; simpl; [apply steps_ret|].
  apply steps_bind; [apply Hb; set_solver|]. intros. apply IH. intros. apply Hb. set_solver.
Qed.

Lemma steps_for_each {X A R'} (body : X -> A -> M S (flow A R')) xs a :
  (forall x a, x ∈ xs -> steps R (body x a)) -> steps R (for_each body xs a).
Proof.
  revert a. induction xs as [|x xs IH]; intros a Hb; simpl; [apply steps_ret|].
  apply steps_bind; [apply Hb; set_solver|]. intros [|a'|r]; try apply steps_ret.
  apply IH. intros. apply Hb. set_solver.
Qed.

(** A relation that a statement's success keeps, and that ignores the step counter. *)
Lemma steps_sql {T A} `{Has T S} what (q : T -> outcome A * T) :
  (forall w, R w (tick w)) ->
  (forall w, R w (with_st (tick w) (hput (snd (q (hget (w_st w)))) (w_st w)))) ->
  steps R (sql what q).
Proof.
  intros Ht Hq env w. unfold sql. destruct (env_io env _); [apply Ht|].
  specialize (Hq w). by destruct (q _).
Qed.

Lemma steps_query {T A} `{Has T S} what (q : T -> outcome A) :
  (forall w, R w (tick w)) -> steps R (query what q).
Proof.
  intros Ht env w. unfold query, sql. simpl.
  destruct (env_io env _); [apply Ht|]. rewrite hput_hget. destruct w. apply Ht.
Qed.
End steps_rules.

#[export] Hint Resolve steps_ret steps_fail steps_lift steps_bind steps_attempt
  steps_foldM steps_for_each steps_sql steps_query : go.

(** ** Computations that leave a part of the state alone *)

Create HintDb leaves.

(** Whatever [m] does, the part [T] of the state stays as it is. *)
Definition leaves (T : Type) {S A} `{!Has T S} (m : M S A) : Prop := steps (fun w w' => part w' = part (T:=T) w) m.
(** The same of every operation of an optional collaborator. *)
Definition if_some {D} (d : option D) (P : D -> Prop) : Prop := forall x, d = Some x -> P x.

Section leaves.
Context {T S : Type} `{!Has T S}.

#[local] Instance same_part_preorder : PreOrder (fun w w' : World S => part w' = part (T:=T) w).
Proof. split; [done|]. intros x y z -> ->. done. Qed.

Lemma wp_leaves {A} env (m : M S A) (Q : outcome A -> World S -> Prop) w :
  leaves T m -> (forall r w', part w' = part (T:=T) w -> Q r w') -> wp env m Q w.
Proof. intros Hm HQ. specialize (Hm env w). unfold wp. destruct (m env w). by apply HQ. Qed.

Lemma leaves_ret {A} (a : A) : leaves T (ret (S:=S) a).
Proof. apply steps_ret; tc_solve. Qed.
Lemma leaves_fail {A} e : leaves T (fail (S:=S) (A:=A) e).
Proof. apply steps_fail; tc_solve. Qed.
Lemma leaves_lift {A} (r : outcome A) : leaves T (lift (S:=S) r).
Proof. apply steps_lift; tc_solve. Qed.
Lemma leaves_now : leaves T (now (S:=S)).
Proof. done. Qed.
Lemma leaves_rand : leaves T (rand (S:=S)).
Proof. done. Qed.
Lemma leaves_record e : leaves T (record (S:=S) e).
Proof. done. Qed.
Lemma leaves_bind {A B} (m : M S A) (k : A -> M S B) : leaves T m -> (forall a, leaves T (k a)) -> leaves T (bind m k).
Proof. intros. apply steps_bind; [tc_solve|done..]. Qed.
Lemma leaves_attempt {A} (m : M S A) : leaves T m -> leaves T (attempt m).
Proof. intros. by apply steps_attempt. Qed.
Lemma leaves_mapped {A} f (m : M S A) : leaves T m -> leaves T (mapped f m).
Proof. intros. apply leaves_bind; [by apply leaves_attempt|]. intros. apply leaves_lift. Qed.
Lemma leaves_foldM {X A} (body : X -> A -> M S A) xs a : (forall x a, leaves T (body x a)) -> leaves T (foldM body xs a).
Proof. intros Hb. apply steps_foldM; [tc_solve|]. intros. apply Hb. Qed.
Lemma leaves_for_each {X A R} (body : X -> A -> M S (flow A R)) xs a :
  (forall x a, leaves T (body x a)) -> leaves T (for_each body xs a).
Proof. intros Hb. apply steps_for_each; [tc_solve|]. intros. apply Hb. Qed.
Lemma leaves_query {U A} `{!Has U S} what (q : U -> outcome A) : leaves T (query what q).
Proof. by apply steps_query. Qed.
Lemma leaves_locked {U A} `{!Has U S, !Apart U T S} (f : U -> A * U) : leaves T (locked f).
Proof. intros env w. unfold locked. destruct (f _). unfold part. simpl. apply apart. Qed.
Lemma leaves_sql {U A} `{!Has U S, !Apart U T S} what (q : U -> outcome A * U) : leaves T (sql what q).
Proof. apply steps_sql; [done|]. intros w. unfold part. simpl. apply apart. Qed.
End leaves.

#[export] Hint Resolve leaves_ret leaves_fail leaves_lift leaves_now leaves_rand leaves_record leaves_bind leaves_attempt
  leaves_mapped leaves_foldM leaves_for_each leaves_query leaves_locked leaves_sql : leaves.
#[export] Hint Extern 6 (leaves _ (match ?x with _ => _ end)) => destruct x : leaves.

(** ** Computations that keep a predicate of a part of the state *)

Create HintDb preserves.

Definition preserves {T S A} `{!Has T S} (G : T -> Prop) (m : M S A) : Prop :=
  forall env w, G (part w) -> wp env m (fun _ w' => G (part w')) w.

Section preserves.
Context {T S : Type} `{!Has T S} (G : T -> Prop).

Lemma preserves_leaves {A} (m : M S A) : leaves T m -> preserves G m.
Proof. intros Hm env w HG. apply wp_leaves; [done|]. by intros r w' ->. Qed.
Lemma preserves_ret {A} (a : A) : preserves G (ret (S:=S) a).
Proof. by intros env w. Qed.
Lemma preserves_fail {A} e : preserves G (fail (S:=S) (A:=A) e).
Proof. by intros env w. Qed.
Lemma preserves_lift {A} (r : outcome A) : preserves G (lift (S:=S) r).
Proof. by intros env w. Qed.
Lemma preserves_bind {A B} (m : M S A) (k : A -> M S B) :
  preserves G m -> (forall a, preserves G (k a)) -> preserves G (bind m k).
Proof.
  intros Hm Hk env w HG. apply wp_bind. eapply wp_mono; [|by apply Hm]. intros [a|e] w' H; [by apply Hk|done].
Qed.
Lemma preserves_attempt {A} (m : M S A) : preserves G m -> preserves G (attempt m).
Proof. intros Hm env w HG. by apply wp_attempt, Hm. Qed.
Lemma preserves_mapped {A} f (m : M S A) : preserves G m -> preserves G (mapped f m).
Proof. intros Hm env w HG. by apply wp_mapped, Hm. Qed.
Lemma preserves_foldM {X A} (body : X -> A -> M S A) xs a :
  (forall x a, x ∈ xs -> preserves G (body x a)) -> preserves G (foldM body xs a).
Proof.
  revert a. induction xs as [|x xs IH]; intros a Hb; simpl; [apply preserves_ret|].
  apply preserves_bind; [apply Hb; set_solver|]. intros b. apply IH. intros. apply Hb. set_solver.
Qed.
Lemma preserves_for_each {X A R} (body : X -> A -> M S (flow A R)) xs a :
  (forall x a, x ∈ xs -> preserves G (body x a)) -> preserves G (for_each body xs a).
Proof.
  revert a. induction xs as [|x xs IH]; intros a Hb; simpl; [apply preserves_ret|].
  apply preserves_bind; [apply Hb; set_solver|]. intros [b|b|r]; [|apply preserves_ret..].
  apply IH. intros. apply Hb. set_solver.
Qed.
Lemma preserves_sql {A} what (q : T -> outcome A * T) :
  (forall t, G t -> G (snd (q t))) -> preserves G (sql what q).
Proof. intros Hq env w HG. apply wp_write; [by intros w' ->|]. intros w' ->. by apply Hq. Qed.
Lemma preserves_locked {A} (f : T -> A * T) : (forall t, G t -> G (snd (f t))) -> preserves G (locked f).
Proof. intros Hf env w HG. apply wp_locked. intros w' -> _. by apply Hf. Qed.
End preserves.

#[export] Hint Resolve preserves_ret preserves_fail preserves_lift preserves_attempt preserves_mapped : preserves.
#[export] Hint Extern 2 (preserves _ (bind _ _)) => apply preserves_bind; [|intros] : preserves.
#[export] Hint Extern 2 (preserves _ (foldM _ _ _)) => apply preserves_foldM; intros : preserves.
#[export] Hint Extern 2 (preserves _ (for_each _ _ _)) => apply preserves_for_each; intros : preserves.
#[export] Hint Extern 5 (preserves _ _) => apply preserves_leaves; solve [auto with leaves] : preserves.
#[export] Hint Extern 6 (preserves _ (match ?x with _ => _ end)) => destruct x : preserves.

(** ** Computations that read, and computations that move along a relation

    [yields db m P]: started where the part is [db], [m] leaves it as it is, and what it
    returns has [P]; [yields_in E] says so of the environments in [E].  [moves R db m]: started there, [m] takes the part along the preorder
    [R], whether it ends well or not. *)
Definition yields_in {T S A} `{!Has T S} (E : Env -> Prop) (db : T) (m : M S A) (P : A -> Prop) : Prop :=
  forall env w, E env -> part w = db -> wp env m (fun r w' => part w' = db /\ match r with Ok a => P a | Err _ => True end) w.
Abbreviation yields := (yields_in (fun _ => True)).
Definition moves {T S A} `{!Has T S} (R : T -> T -> Prop) (db : T) (m : M S A) : Prop :=
  forall env w, part w = db -> wp env m (fun _ w' => R db (part w')) w.

Section yields.
Context {T S : Type} `{!Has T S} {E : Env -> Prop} (db : T).

Lemma yields_mono {A} (m : M S A) (P Q : A -> Prop) : yields_in E db m P -> (forall a, P a -> Q a) -> yields_in E db m Q.
Proof. intros Hm H env w HE Hw. eapply wp_mono; [|by apply Hm]. intros [a|e] w' []; auto. Qed.
Lemma yields_leaves {A} (m : M S A) : leaves T m -> yields_in E db m (fun _ => True).
Proof. intros Hm env w HE Hw. apply wp_leaves; [done|]. intros [a|e] w' ->; by rewrite Hw. Qed.
Lemma yields_ret {A} (a : A) : yields_in E db (ret (S:=S) a) (fun b => b = a).
Proof. by intros env w HE Hw. Qed.
Lemma yields_fail {A} e : yields_in E db (fail (S:=S) (A:=A) e) (fun _ => False).
Proof. by intros env w HE Hw. Qed.
Lemma yields_lift {A} (r : outcome A) : yields_in E db (lift (S:=S) r) (fun a => r = Ok a).
Proof. intros env w HE Hw. rewrite wp_lift. by destruct r. Qed.
Lemma yields_now : yields_in E db (now (S:=S)) (fun t => exists env n, E env /\ t = env_now env n).
Proof. intros env w HE Hw. rewrite wp_now. split; [exact Hw|eauto]. Qed.
Lemma yields_query {A} what (q : T -> outcome A) : yields_in E db (query (S:=S) what q) (fun a => q db = Ok a).
Proof. intros env w HE Hw. apply wp_read. intros r [->| ->]; split; try done. rewrite Hw. by destruct (q db). Qed.
Lemma yields_bind {A B} (m : M S A) (k : A -> M S B) P Q :
  yields_in E db m P -> (forall a, P a -> yields_in E db (k a) Q) -> yields_in E db (bind m k) Q.
Proof.
  intros Hm Hk env w HE Hw. apply wp_bind. eapply wp_mono; [|by apply Hm]. intros [a|e] w' [Hw' Ha]; [by apply Hk|done].
Qed.
Lemma yields_mapped {A} f (m : M S A) P : yields_in E db m P -> yields_in E db (mapped f m) P.
Proof. intros Hm env w HE Hw. apply wp_mapped. eapply wp_mono; [|by apply Hm]. by intros [a|e] w' []. Qed.
Lemma yields_attempt {A} (m : M S A) P :
  yields_in E db m P -> yields_in E db (attempt m) (fun r => match r with Ok a => P a | Err _ => True end).
Proof. intros Hm env w HE Hw. apply wp_attempt. by apply Hm. Qed.
(** A loop that only reads keeps what holds of its accumulator. *)
Lemma yields_foldM {X A} (body : X -> A -> M S A) xs a (P : A -> Prop) :
  (forall x a, x ∈ xs -> P a -> yields_in E db (body x a) P) -> P a -> yields_in E db (foldM body xs a) P.
Proof.
  intros Hb Ha env w HE Hw. eapply wp_mono; [|apply (wp_foldM env (fun a w' => part w' = db /\ P a) (fun _ w' => part w' = db))].
  - by intros [b|e] w' H.
  - intros x b w1 Hx [Hw1 Hp]. eapply wp_mono; [|by apply Hb]. by intros [c|e] w2 [].
  - done.
Qed.
(** A loop that collects one answer for each element. *)
Lemma yields_collect {X Y} (body : X -> list Y -> M S (list Y)) xs (P : X -> Y -> Prop) :
  (forall x out, x ∈ xs -> yields_in E db (body x out) (fun out' => exists y, out' = out ++ [y] /\ P x y)) ->
  yields_in E db (foldM body xs []) (Forall2 P xs).
Proof.
  intros Hb. assert (Hgen : forall todo done_ out, xs = done_ ++ todo -> Forall2 P done_ out ->
    yields_in E db (foldM body todo out) (Forall2 P xs)).
  { induction todo as [|x todo IH]; intros done_ out Exs Hout; cbn [foldM].
    - eapply yields_mono; [apply yields_ret|]. intros out' ->. by rewrite Exs, app_nil_r.
    - eapply yields_bind; [apply Hb; rewrite Exs; set_solver|]. intros out' (y & -> & Hy).
      apply (IH (done_ ++ [x])); [by rewrite Exs, <- app_assoc|]. by apply Forall2_app; [|constructor]. }
  by apply (Hgen xs [] []).
Qed.
Lemma yields_leave {A} (m : M S A) P env w : yields_in E db m P -> E env -> part w = db -> wp env m (fun _ w' => part w' = db) w.
Proof. intros Hm HE Hw. eapply wp_mono; [|by apply Hm]. by intros r w' []. Qed.
End yields.

(** What holds in every environment holds in some. *)
Lemma yields_weaken {T S A} `{!Has T S} (E E' : Env -> Prop) (db : T) (m : M S A) P : (forall env, E' env -> E env) ->
  yields_in E db m P -> yields_in E' db m P.
Proof. intros HE Hm env w H. apply Hm. auto. Qed.

Section moves.
Context {T S : Type} `{!Has T S} (R : T -> T -> Prop) `{!PreOrder R} (db : T).

Lemma moves_yields {A} (m : M S A) P : yields db m P -> moves R db m.
Proof. intros Hm env w Hw. eapply wp_mono; [|by apply Hm]. intros r w' [-> _]. reflexivity. Qed.
Lemma moves_ret {A} (a : A) : moves R db (ret (S:=S) a).
Proof. eapply moves_yields, yields_ret. Qed.
Lemma moves_fail {A} e : moves R db (fail (S:=S) (A:=A) e).
Proof. eapply moves_yields, yields_fail. Qed.
(** First read, then move. *)
Lemma moves_bind {A B} (m : M S A) (k : A -> M S B) P :
  yields db m P -> (forall a, P a -> moves R db (k a)) -> moves R db (bind m k).
Proof.
  intros Hm Hk env w Hw. apply wp_bind. eapply wp_mono; [|by apply Hm]. intros [a|e] w' [Hw' Ha]; [by apply Hk|].
  rewrite Hw'. reflexivity.
Qed.
(** First move, then move on. *)
Lemma moves_then {A B} (m : M S A) (k : A -> M S B) :
  moves R db m -> (forall db' a, R db db' -> moves R db' (k a)) -> moves R db (bind m k).
Proof.
  intros Hm Hk env w Hw. apply wp_bind. eapply wp_mono; [|by apply Hm]. intros [a|e] w' Ha; [|done].
  eapply wp_mono; [|by eapply Hk]. intros r w2 Hr. by transitivity (part w').
Qed.
Lemma moves_mapped {A} f (m : M S A) : moves R db m -> moves R db (mapped f m).
Proof. intros Hm env w Hw. apply wp_mapped. by apply Hm. Qed.
Lemma moves_attempt {A} (m : M S A) : moves R db m -> moves R db (attempt m).
Proof. intros Hm env w Hw. apply wp_attempt. by apply Hm. Qed.
Lemma moves_sql {A} what (q : T -> outcome A * T) : R db (snd (q db)) -> moves R db (sql (S:=S) what q).
Proof. intros Hq env w Hw. apply wp_write; intros w' ->; rewrite Hw; [reflexivity|done]. Qed.
(** A statement whose effect on the state the rest of the operation relies on. *)
Lemma moves_sql_then {A B} f what (q : T -> outcome A * T) (k : A -> M S B) : R db (snd (q db)) ->
  (forall a, fst (q db) = Ok a -> moves R (snd (q db)) (k a)) -> moves R db (bind (mapped f (sql what q)) k).
Proof.
  intros Hq Hk env w Hw. apply wp_bind, wp_mapped, wp_write; intros w' Hw'; rewrite Hw in *; cbn [or_fault]; [by rewrite Hw'|].
  destruct (fst (q db)) as [a|e] eqn:E; cbn [or_fault]; [|by rewrite Hw']. eapply wp_mono; [|by apply (Hk a eq_refl)].
  intros r w2 H. by transitivity (snd (q db)).
Qed.
Lemma moves_foldM {X A} (body : X -> A -> M S A) xs a :
  (forall x a db', x ∈ xs -> R db db' -> moves R db' (body x a)) -> moves R db (foldM body xs a).
Proof.
  intros Hb env w Hw. eapply wp_mono; [|apply (wp_foldM env (fun _ w' => R db (part w')) (fun _ w' => R db (part w')))].
  - by intros [].
  - intros x b w1 Hx Hr. eapply wp_mono; [|by apply (Hb x b (part w1))]. intros [c|e] w2 H; by transitivity (part w1).
  - rewrite Hw. reflexivity.
Qed.
(** A statement at the end of an operation, and the answer. *)
Lemma moves_last {A B} f (m : M S A) (b : B) : moves R db m -> moves R db (mapped f m ;;; ret b).
Proof. intros H. apply moves_then; [by apply moves_mapped|]. intros db' x _ env w <-. rewrite wp_ret. reflexivity. Qed.
End moves.

Lemma moves_mono {T S A} `{!Has T S} (R R' : T -> T -> Prop) db (m : M S A) :
  (forall x, R db x -> R' db x) -> moves R db m -> moves R' db m.
Proof. intros H Hm env w Hw. eapply wp_mono; [|by apply Hm]. intros r w'. apply H. Qed.

Lemma guard_false b e u : guard b e = Ok u -> b = false.
Proof. by destruct b. Qed.

(** One rule for what a [yields] or [moves] goal begins with; what was read comes into the
    context. *)
Ltac y_head :=
  match goal with
  | |- yields_in _ _ (lift _) _ => apply yields_lift
  | |- yields_in _ _ now _ => apply yields_now
  | |- yields_in _ _ rand _ => apply yields_leaves, leaves_rand
  | |- yields_in _ _ (ret _) _ => apply yields_ret
  | |- yields_in _ _ (fail _) _ => apply yields_fail
  | |- yields_in _ _ (query _ _) _ => apply yields_query
  | |- yields_in _ _ (mapped _ _) _ => apply yields_mapped; y_head
  | |- yields_in _ _ (attempt _) _ => apply yields_attempt; y_head
  | |- yields_in _ _ _ _ => solve [eauto with yields]
  end.
Create HintDb yields.
Ltac m_step :=
  match goal with
  | |- moves _ _ (ret _) => apply moves_ret; typeclasses eauto
  | |- moves _ _ (fail _) => apply moves_fail; typeclasses eauto
  | |- moves _ _ (bind _ _) => eapply moves_bind; [typeclasses eauto|y_head|cbv beta]
  | |- moves _ _ (mapped _ _) => apply moves_mapped
  | |- yields_in _ _ (bind _ _) _ => eapply yields_bind; [y_head|cbv beta]
  end.
(** All the reads in front, and what they found. *)
Ltac reads := repeat (m_step; intros).
Ltac facts := repeat match goal with
  | H : _ /\ _ |- _ => destruct H
  | H : guard _ _ = Ok _ |- _ => apply guard_false in H
  | H : exists _, _ |- _ => destruct H
  end.

(** Symbolic execution: one rule for the effect in front of the goal. *)
Ltac wp_step :=
  match goal with
  | |- wp _ (bind _ _) _ _ => apply wp_bind
  | |- wp _ (attempt _) _ _ => apply wp_attempt
  | |- wp _ (ret _) _ _ => rewrite wp_ret
  | |- wp _ (fail _) _ _ => rewrite wp_fail
  | |- wp _ (lift _) _ _ => rewrite wp_lift
  | |- wp _ now _ _ => rewrite wp_now
  | |- wp _ rand _ _ => rewrite wp_rand
  | |- wp _ (record _) _ _ => rewrite wp_record
  | |- wp _ (query _ _) _ _ => apply wp_query
  | |- wp _ (sql _ _) _ _ => apply wp_sql
  end.

(** ** Calls written down

    [m] is one call of another component: whatever else it does, the call and its answer
    are appended to a list of calls. *)
Definition logs {C S A} `{!Has (list C) S} (m : M S A) (c : outcome A -> C) : Prop :=
  forall env w, wp env m (fun r w' => part w' = part (T:=list C) w ++ [c r]) w.

Lemma wp_logs {C S A} `{!Has (list C) S} env (m : M S A) (c : outcome A -> C) (Q : outcome A -> World S -> Prop) w :
  logs m c ->
  (forall r w', fst (m env w) = r -> part w' = part (T:=list C) w ++ [c r] -> Q r w') -> wp env m Q w.
Proof.
  intros Hm H. specialize (Hm env w). unfold wp in *. destruct (m env w) as [r w'] eqn:E. by apply H.
Qed.

(** The answer of the database to the statement in front of the goal. *)
Ltac wp_io :=
  match goal with
  | |- if env_io ?e ?n then _ else _ => destruct (env_io e n)
  end.
(** Run effects; a failing one ends in a goal that [auto] is tried on. *)
Ltac wp_go :=
  repeat (wp_step || (wp_io; [solve [auto | simpl; auto with go]|]); cbv beta iota; simpl).
