(* ===== verification/Regex.v ===== *)
(** Go regular expressions, the part of [regexp] (RE2 syntax) the code uses: classes of
    bytes, concatenation, alternatives and repetition, matched against the whole text
    ([^...$]).  Matching is by derivatives; [re_match_spec] relates it to the language. *)
From stdpp Require Import base tactics numbers strings list gmap.
From Stdlib Require Import ZArith Lia.
From Stdlib Require Ascii.
From S2P Require Import Prelude GoLang.

Inductive regex :=
| RVoid
| REps
| RCls (p : Ascii.ascii -> bool)
| RAlt (r s : regex)
| RSeq (r s : regex)
| RStar (r : regex).

(** [r?] and [r{0,n}] *)
Definition ROpt (r : regex) : regex := RAlt r REps.
Fixpoint RUpto (n : nat) (r : regex) : regex :=
  match n with
  | O => REps
  | S n' => ROpt (RSeq r (RUpto n' r))
  end.

Fixpoint nullable (r : regex) : bool :=
  match r with
  | RVoid | RCls _ => false
  | REps | RStar _ => true
  | RAlt r s => nullable r || nullable s
  | RSeq r s => nullable r && nullable s
  end.

(** Constructors that drop what matches nothing. *)
Definition alt (r s : regex) : regex :=
  match r, s with
  | RVoid, _ => s
  | _, RVoid => r
  | _, _ => RAlt r s
  end.
Definition seq (r s : regex) : regex :=
  match r, s with
  | RVoid, _ | _, RVoid => RVoid
  | REps, _ => s
  | _, _ => RSeq r s
  end.

Fixpoint deriv (c : Ascii.ascii) (r : regex) : regex :=
  match r with
  | RVoid | REps => RVoid
  | RCls p => if p c then REps else RVoid
  | RAlt r s => alt (deriv c r) (deriv c s)
  | RSeq r s =>
      if nullable r then alt (seq (deriv c r) s) (deriv c s) else seq (deriv c r) s
  | RStar r => seq (deriv c r) (RStar r)
  end.

Fixpoint re_match_l (r : regex) (s : list Ascii.ascii) : bool :=
  match s with
  | [] => nullable r
  | c :: s' => re_match_l (deriv c r) s'
  end.
(** [regexp.MatchString] for a pattern anchored at both ends. *)
Definition re_match (r : regex) (s : string) : bool := re_match_l r (bytes_of s).

(** Byte classes. *)
Definition in_range (lo hi : Z) (c : Ascii.ascii) : bool := (lo <=? code c) && (code c <=? hi).
Definition is_lower : Ascii.ascii -> bool := in_range 97 122.
Definition is_upper : Ascii.ascii -> bool := in_range 65 90.
Definition is_digit : Ascii.ascii -> bool := in_range 48 57.
Definition is_hyphen (c : Ascii.ascii) : bool := code c =? 45.
Definition is_dot (c : Ascii.ascii) : bool := code c =? 46.
Definition is_underscore (c : Ascii.ascii) : bool := code c =? 95.
(** [[a-z0-9]] and [[a-z0-9-]] *)
Definition alnum (c : Ascii.ascii) : bool := is_lower c || is_digit c.
Definition alnum_hyphen (c : Ascii.ascii) : bool := alnum c || is_hyphen c.

(** * The language of an expression *)

Inductive lang : regex -> list Ascii.ascii -> Prop :=
| lang_eps : lang REps []
| lang_cls p c : p c = true -> lang (RCls p) [c]
| lang_alt_l r s w : lang r w -> lang (RAlt r s) w
| lang_alt_r r s w : lang s w -> lang (RAlt r s) w
| lang_seq r s u v : lang r u -> lang s v -> lang (RSeq r s) (u ++ v)
| lang_star_nil r : lang (RStar r) []
| lang_star_cons r c u v : lang r (c :: u) -> lang (RStar r) v -> lang (RStar r) (c :: u ++ v).

#[export] Hint Constructors lang : go.

Lemma lang_void w : ~ lang RVoid w.
Proof. intros H. inversion H. Qed.

Lemma lang_eps_inv w : lang REps w <-> w = [].
Proof. split; [by inversion 1|intros ->; constructor]. Qed.

Lemma lang_cls_inv p w : lang (RCls p) w <-> exists c, w = [c] /\ p c = true.
Proof. split; [inversion 1; subst; eauto|intros (c & -> & Hc); by constructor]. Qed.

Lemma lang_alt_inv r s w : lang (RAlt r s) w <-> lang r w \/ lang s w.
Proof. split; [inversion 1; subst; eauto|intros [?|?]; eauto with go]. Qed.

Lemma lang_seq_inv r s w : lang (RSeq r s) w <-> exists u v, w = u ++ v /\ lang r u /\ lang s v.
Proof. split; [inversion 1; subst; eauto 6|intros (u & v & -> & ? & ?); by constructor]. Qed.

(** Every character of a match is in a class of the expression. *)
Fixpoint in_classes (P : Ascii.ascii -> Prop) (r : regex) : Prop :=
  match r with
  | RVoid | REps => True
  | RCls p => forall c, p c = true -> P c
  | RAlt r s | RSeq r s => in_classes P r /\ in_classes P s
  | RStar r => in_classes P r
  end.
Lemma lang_chars P r w : lang r w -> in_classes P r -> Forall P w.
Proof.
  intros H. induction H; simpl; intros Hc; try (constructor; by auto); try naive_solver.
  - apply Forall_app. naive_solver.
  - apply Forall_app in IHlang1 as [? ?] || idtac. specialize (IHlang1 Hc). apply Forall_cons in IHlang1 as [? ?]. constructor; [done|].
    apply Forall_app. naive_solver.
Qed.

Lemma nullable_spec r : nullable r = true <-> lang r [].
Proof.
  induction r; simpl.
  - split; [done|]. intros H. by apply lang_void in H.
  - by rewrite lang_eps_inv.
  - rewrite lang_cls_inv. split; [done|by intros (? & ? & ?)].
  - by rewrite orb_true_iff, lang_alt_inv, IHr1, IHr2.
  - rewrite andb_true_iff, lang_seq_inv, IHr1, IHr2. split.
    + intros [? ?]. exists [], []. auto.
    + intros (u & v & E & ? & ?). symmetry in E. apply app_eq_nil in E as [-> ->]. auto.
  - split; auto with go.
Qed.

Lemma alt_lang r s w : lang (alt r s) w <-> lang r w \/ lang s w.
Proof.
  pose proof (lang_void w).
  destruct r; simpl; try destruct s; simpl; rewrite ?lang_alt_inv; naive_solver.
Qed.

Lemma seq_lang r s w : lang (seq r s) w <-> lang (RSeq r s) w.
Proof.
  assert (H0 : forall r, ~ lang (RSeq RVoid r) w).
  { intros r' H. apply lang_seq_inv in H as (? & ? & _ & H & _). by apply lang_void in H. }
  assert (H1 : forall r, ~ lang (RSeq r RVoid) w).
  { intros r' H. apply lang_seq_inv in H as (? & ? & _ & _ & H). by apply lang_void in H. }
  assert (H2 : forall s, lang (RSeq REps s) w <-> lang s w).
  { intros s'. rewrite lang_seq_inv. split.
    - intros (u & v & -> & Hu & Hv). by apply lang_eps_inv in Hu as ->.
    - intros ?. exists [], w. split_and!; auto with go. }
  pose proof (lang_void w) as H3.
  destruct r; simpl; try (destruct s; simpl); rewrite ?H2; split; intros H;
    solve [done | by apply H0 in H | by apply H1 in H | by apply H3 in H].
Qed.

Lemma deriv_spec c r w : lang (deriv c r) w <-> lang r (c :: w).
Proof.
  revert w. induction r as [| |p|r IHr s IHs|r IHr s IHs|r IHr]; intros w; simpl.
  - split; intros H; by apply lang_void in H.
  - rewrite lang_eps_inv. split; [intros H; by apply lang_void in H|done].
  - rewrite lang_cls_inv. destruct (p c) eqn:E.
    + rewrite lang_eps_inv. split; [intros ->; eauto|by intros (? & [= -> ->] & ?)].
    + split; [intros H; by apply lang_void in H|]. intros (? & [= -> ->] & ?). congruence.
  - by rewrite alt_lang, lang_alt_inv, IHr, IHs.
  - assert (Hseq : lang (RSeq (deriv c r) s) w <->
              exists u v, w = u ++ v /\ lang r (c :: u) /\ lang s v).
    { rewrite lang_seq_inv. by setoid_rewrite IHr. }
    assert (Hgoal : lang (RSeq r s) (c :: w) <->
              lang (RSeq (deriv c r) s) w \/ (nullable r = true /\ lang s (c :: w))).
    { rewrite lang_seq_inv, Hseq, nullable_spec. split.
      - intros ([|d u] & v & E & Hu & Hv); simpl in E; [subst; auto|].
        injection E as -> ->. eauto 8.
      - intros [(u & v & -> & Hu & Hv)|[Hu Hv]]; [by exists (c :: u), v|by exists [], (c :: w)]. }
    rewrite Hgoal. destruct (nullable r).
    + rewrite alt_lang, seq_lang, IHs. naive_solver.
    + rewrite seq_lang. naive_solver.
  - rewrite seq_lang, lang_seq_inv. split.
    + intros (u & v & -> & Hu & Hv). apply IHr in Hu. by constructor.
    + inversion 1; subst. eexists _, _. split_and!; eauto. by apply IHr.
Qed.

(** The matcher decides the language. *)
Lemma re_match_spec r s : re_match r s = true <-> lang r (bytes_of s).
Proof.
  unfold re_match. generalize (bytes_of s) as w. intros w. revert r.
  induction w as [|c w IH]; intros r; simpl; [apply nullable_spec|].
  by rewrite IH, deriv_spec.
Qed.

Lemma lang_upto_cls n p w :
  lang (RUpto n (RCls p)) w <-> (length w <= n)%nat /\ Forall (fun c => p c = true) w.
Proof.
  revert w. induction n as [|n IH]; intros w; simpl.
  - rewrite lang_eps_inv. split; [intros ->; split; [simpl; lia|constructor]|].
    intros [? _]. destruct w; [done|simpl in *; lia].
  - unfold ROpt. rewrite lang_alt_inv, lang_eps_inv, lang_seq_inv. split.
    + intros [(u & v & -> & Hu & Hv)| ->]; [|split; [simpl; lia|constructor]].
      apply lang_cls_inv in Hu as (c & -> & Hc). apply IH in Hv as [? ?].
      split; [simpl; lia|by constructor].
    + intros [Hl Hw]. destruct w as [|c w]; [by right|left].
      apply Forall_cons in Hw as [? ?]. exists [c], w. split_and!; [done|by constructor|].
      apply IH. simpl in Hl. split; [lia|done].
Qed.

Lemma lang_star_cls p w : lang (RStar (RCls p)) w <-> Forall (fun c => p c = true) w.
Proof.
  split.
  - remember (RStar (RCls p)) as r eqn:E. induction 1; try done; injection E as ->.
    apply lang_cls_inv in H as (d & [= -> ->] & Hd). simpl. constructor; auto.
  - induction 1 as [|c w Hc Hw IH]; [constructor|].
    apply (lang_star_cons (RCls p) c [] w); [by constructor|done].
Qed.
