(* ===== verification/Kernel.v ===== *)
(** The cross-cutting primitives under internal/kernel: the error taxonomy ([fault]),
    identifiers ([ids]), name validation ([validate]), list cursors ([page]) and the scope of a
    request ([scope]).

    [encoding/base32] and [encoding/base64] are modelled on bits: bytes are spelled out
    most significant bit first and regrouped by five or by six, the last group padded
    with zeros, which is what their unpadded encodings do. *)
From stdpp Require Import base tactics numbers strings list gmap.
From Stdlib Require Import ZArith Lia.
From Stdlib Require Ascii.
From S2P Require Import Prelude GoLang Effects Regex.

(** * kernel/fault *)

(* go: internal/kernel/fault/fault.go newFault *)
Definition newFault (kind : Kind) (code message : string) : error := EFault kind code message.
(* go: internal/kernel/fault/fault.go Invalid *)
Definition Invalid := newFault KindInvalid.
(* go: internal/kernel/fault/fault.go NotFound *)
Definition NotFound := newFault KindNotFound.
(* go: internal/kernel/fault/fault.go Conflict *)
Definition Conflict := newFault KindConflict.
(* go: internal/kernel/fault/fault.go Unauthenticated *)
Definition Unauthenticated := newFault KindUnauthenticated.
(* go: internal/kernel/fault/fault.go Forbidden *)
Definition Forbidden := newFault KindForbidden.
(* go: internal/kernel/fault/fault.go TooMany *)
Definition TooMany := newFault KindTooMany.
(* go: internal/kernel/fault/fault.go Unavailable *)
Definition Unavailable := newFault KindUnavailable.
(* go: internal/kernel/fault/fault.go Internal *)
Definition Internal (cause : error) : error := EInternal cause.

(** [errors.As(err, &f)]: the outermost fault of the chain. *)
Fixpoint errors_As (err : error) : option error :=
  match err with
  | EFault _ _ _ | EInternal _ => Some err
  | EWrap _ c => errors_As c
  | ESentinel _ | EText _ => None
  end.
(* go: internal/kernel/fault/fault.go From *)
Definition From (err : error) : error :=
  match errors_As err with Some f => f | None => Internal err end.

Definition kind_of (err : error) : Kind :=
  match From err with EFault k _ _ => k | _ => KindInternal end.
Definition code_of (err : error) : string :=
  match From err with EFault _ c _ => c | _ => "internal_error" end.

(** * Bits of bytes *)

Fixpoint to_bits (n : nat) (b : Z) : list bool :=
  match n with
  | O => []
  | S n' => Z.testbit b (Z.of_nat n') :: to_bits n' b
  end.
Definition of_bits (l : list bool) : Z := fold_left (fun acc b => 2 * acc + Z.b2z b) l 0.
(** Groups of [k] bits; [pad] completes the last one with zeros, otherwise it is dropped. *)
Fixpoint groups (fuel : nat) (k : nat) (pad : bool) (l : list bool) : list (list bool) :=
  match fuel with
  | O => []
  | S fuel' =>
      match l with
      | [] => []
      | _ :: _ =>
          if (length l <? k)%nat
          then if pad then [l ++ replicate (k - length l) false] else []
          else take k l :: groups fuel' k pad (drop k l)
      end
  end.
Definition regroup (k : nat) (pad : bool) (l : list bool) : list (list bool) :=
  groups (S (length l)) k pad l.
Definition byte_bits (bs : list Z) : list bool := concat (map (to_bits 8) bs).
Definition nth_char (alphabet : list Ascii.ascii) (v : Z) : Ascii.ascii :=
  nth (Z.to_nat v) alphabet Ascii.zero.

(** * kernel/ids *)

Definition base32_alphabet : list Ascii.ascii := bytes_of "0123456789abcdefghjkmnpqrstvwxyz".
Definition base32_encode (bs : list Z) : string :=
  of_bytes (map (fun g => nth_char base32_alphabet (of_bits g)) (regroup 5 true (byte_bits bs))).

(** The oracle answers [rand.Read] with as many bytes as it likes; [buf] holds eight. *)
Definition read_bytes (n : nat) (bs : list Z) : list Z :=
  take n (map (fun b => b mod 256) bs ++ replicate n 0).
(* go: internal/kernel/ids/ids.go New *)
Definition ids_New {S} (prefix : string) : M S string :=
  let! buf := rand in
  ret (prefix +:+ "-" +:+ base32_encode (read_bytes 8 buf)).
(* go: internal/kernel/ids/ids.go HasPrefix *)
Definition ids_HasPrefix (id prefix : string) : bool := has_prefix id (prefix +:+ "-").

(** * kernel/validate *)

(* go: internal/kernel/validate/validate.go namePattern *)
Definition namePattern : regex :=
  RSeq (RCls alnum) (ROpt (RSeq (RUpto 61 (RCls alnum_hyphen)) (RCls alnum))).

(* go: internal/kernel/validate/validate.go Name *)
Definition validate_Name (field value : string) : outcome unit :=
  if is_empty value then Err (Invalid ("invalid_" +:+ field) (field +:+ " must not be empty"))
  else if negb (re_match namePattern value) then
    Err (Invalid ("invalid_" +:+ field) (field +:+
      " must be 1-63 characters of lowercase letters, digits, or hyphens, starting and ending with a letter or digit"))
  else Ok tt.

(* go: internal/kernel/validate/validate.go OneOf *)
Definition validate_OneOf (field value : string) (allowed : list string) : outcome unit :=
  if existsb (fun a => String.eqb value a) allowed then Ok tt
  else Err (Invalid ("invalid_" +:+ field) (field +:+ " must be one of: " +:+ join allowed ", ")).

(** What [namePattern] is meant to accept: a DNS label. *)
Definition label (s : string) : bool :=
  (1 <=? slen s) && (slen s <=? 63) && forallb alnum_hyphen (bytes_of s) &&
  match head (bytes_of s) with Some c => alnum c | None => false end &&
  match last (bytes_of s) with Some c => alnum c | None => false end.

(** * kernel/scope

    Who is calling, as the front door leaves it in the request's context. *)

(* go: kernel/scope/scope.go Scope *)
Record Scope := MkScope { sc_ProjectID : string; sc_TokenID : string; sc_TokenName : string; sc_UserID : string; sc_Role : string }.

(** * kernel/page *)

Definition page_Default : Z := 100.
Definition page_Max : Z := 500.

(* go: internal/kernel/page/page.go Cursor *)
Record Cursor := { cur_Order : string; cur_ID : string }.
(* go: internal/kernel/page/page.go Window *)
Record Window := { win_Limit : Z; win_After : Cursor }.
Definition no_cursor : Cursor := {| cur_Order := ""; cur_ID := "" |}.

(* go: internal/kernel/page/page.go Cursor.Empty *)
Definition Cursor_Empty (c : Cursor) : bool := is_empty (cur_Order c) && is_empty (cur_ID c).

Definition base64_alphabet : list Ascii.ascii :=
  bytes_of "ABCDEFGHIJKLMNOPQRSTUVWXYZabcdefghijklmnopqrstuvwxyz0123456789-_".
Definition std64_alphabet : list Ascii.ascii :=
  bytes_of "ABCDEFGHIJKLMNOPQRSTUVWXYZabcdefghijklmnopqrstuvwxyz0123456789+/".
(** The unpadded encoding with an alphabet; [base64.RawURLEncoding] and [base64.RawStdEncoding]. *)
Definition base64_encode_with (alphabet : list Ascii.ascii) (bs : list Z) : string :=
  of_bytes (map (fun g => nth_char alphabet (of_bits g)) (regroup 6 true (byte_bits bs))).
Definition base64_encode : list Z -> string := base64_encode_with base64_alphabet.
Fixpoint char_index (alphabet : list Ascii.ascii) (c : Ascii.ascii) : option Z :=
  match alphabet with
  | [] => None
  | d :: l => if code d =? code c then Some 0 else option_map Z.succ (char_index l c)
  end.
Fixpoint all_some {A} (l : list (option A)) : option (list A) :=
  match l with
  | [] => Some []
  | Some a :: l' => option_map (cons a) (all_some l')
  | None :: _ => None
  end.
(** Unpadded decoding: line breaks are skipped, and a last group of a
    single character is corrupt input. *)
Definition is_line_break (c : Ascii.ascii) : bool := (code c =? 10) || (code c =? 13).
Definition base64_decode_with (alphabet : list Ascii.ascii) (s : string) : option (list Z) :=
  let chars := List.filter (fun c => negb (is_line_break c)) (bytes_of s) in
  if len chars mod 4 =? 1 then None
  else
    match all_some (map (char_index alphabet) chars) with
    | Some vs => Some (map of_bits (regroup 8 false (concat (map (to_bits 6) vs))))
    | None => None
    end.
Definition base64_decode : string -> option (list Z) := base64_decode_with base64_alphabet.
Definition string_bytes (s : string) : list Z := map code (bytes_of s).
Definition bytes_string (bs : list Z) : string :=
  of_bytes (map (fun b => Ascii.ascii_of_N (Z.to_N b)) bs).

(* go: internal/kernel/page/page.go Encode *)
Definition page_Encode (order id : string) : string :=
  if is_empty order && is_empty id then ""
  else base64_encode (string_bytes (order +:+ nul +:+ id)).

(** [strings.Cut(s, "\x00")] *)
Definition cut_nul (s : string) : option (string * string) :=
  match index_byte s Ascii.zero with
  | Some i => Some (str_take (Z.of_nat i) s, str_drop (Z.of_nat i + 1) s)
  | None => None
  end.
Definition bad_cursor : error := EText "after is not a cursor this platform handed out".
(* go: internal/kernel/page/page.go Decode *)
Definition page_Decode (raw : string) : outcome Cursor :=
  match base64_decode raw with
  | None => Err bad_cursor
  | Some blob =>
      match cut_nul (bytes_string blob) with
      | Some (order, id) => Ok {| cur_Order := order; cur_ID := id |}
      | None => Err bad_cursor
      end
  end.

(** [page.From] on the values of the query parameters [limit] and [after] ("" when the
    parameter is absent). *)
(* go: internal/kernel/page/page.go From *)
Definition page_From (q_limit q_after : string) (fallback ceiling : Z) : outcome Window :=
  try limit :=
    (if is_empty q_limit then Ok fallback
     else match atoi q_limit with
          | Some limit =>
              if limit <=? 0 then Err (EText "limit must be a positive whole number") else Ok limit
          | None => Err (EText "limit must be a positive whole number")
          end) in
  let limit := if ceiling <? limit then ceiling else limit in
  try after := (if is_empty q_after then Ok no_cursor else page_Decode q_after) in
  Ok {| win_Limit := limit; win_After := after |}.

(* go: internal/kernel/page/back.go Back *)
Definition page_Back (after : Cursor) : outcome Z :=
  if Cursor_Empty after then Ok 0
  else match atoi (cur_ID after) with
       | Some id => if id <=? 0 then Err bad_cursor else Ok id
       | None => Err bad_cursor
       end.
(* go: internal/kernel/page/back.go Backward *)
Definition page_Backward (id : Z) : string := page_Encode "" (itoa id).

Example ids_example : base32_encode [1; 2; 3; 4; 5; 6; 7; 255] = "041061050r3zy".
Proof. vm_compute. reflexivity. Qed.
Example page_example : page_Decode (page_Encode "2024" "i-1") = Ok {| cur_Order := "2024"; cur_ID := "i-1" |}.
Proof. vm_compute. reflexivity. Qed.

(** * Names *)

Lemma validate_OneOf_ok field value allowed : validate_OneOf field value allowed = Ok tt <-> value ∈ allowed.
Proof.
  unfold validate_OneOf. destruct (existsb _ allowed) eqn:E.
  - split; [intros _|done]. apply existsb_exists in E as (x & Hx & ->%String.eqb_eq). by apply list_elem_of_In.
  - split; [done|]. intros Hin. rewrite existsb_false, Forall_forall in E. specialize (E value Hin).
    by rewrite String.eqb_refl in E.
Qed.

Lemma validate_Name_fault field value e :
  validate_Name field value = Err e -> kind_of e = KindInvalid /\ code_of e = "invalid_" +:+ field.
Proof.
  unfold validate_Name. destruct (is_empty value); [by intros [= <-]|].
  destruct (negb _); [by intros [= <-]|done].
Qed.

(** A letter or digit at both ends, and up to 61 bytes of a class between. *)
Lemma lang_label (p : Ascii.ascii -> bool) w :
  lang (RSeq (RCls alnum) (ROpt (RSeq (RUpto 61 (RCls p)) (RCls alnum)))) w <->
  exists c, (w = [c] /\ alnum c = true) \/
    exists u d, w = c :: u ++ [d] /\ alnum c = true /\ alnum d = true /\
      (length u <= 61)%nat /\ Forall (fun x => p x = true) u.
Proof.
  unfold ROpt. rewrite lang_seq_inv.
  setoid_rewrite lang_cls_inv. setoid_rewrite lang_alt_inv. setoid_rewrite lang_eps_inv.
  setoid_rewrite lang_seq_inv. setoid_rewrite lang_upto_cls. setoid_rewrite lang_cls_inv.
  split.
  - intros (? & v & -> & (c & -> & Hc) & [(u & ? & -> & [Hl Hu] & (d & -> & Hd))| ->]).
    + exists c. right. exists u, d. done.
    + exists c. left. done.
  - intros (c & [[-> Hc]|(u & d & -> & Hc & Hd & Hl & Hu)]).
    + exists [c], []. split_and!; [done|eauto|by right].
    + exists [c], (u ++ [d]). split_and!; [done|eauto|left]. exists u, [d]. eauto 6.
Qed.
Lemma lang_name w :
  lang namePattern w <->
  exists c, (w = [c] /\ alnum c = true) \/
    exists u d, w = c :: u ++ [d] /\ alnum c = true /\ alnum d = true /\
      (length u <= 61)%nat /\ Forall (fun x => alnum_hyphen x = true) u.
Proof. apply lang_label. Qed.

(** The pattern of [validate.Name] accepts exactly the labels. *)
Lemma namePattern_label s : re_match namePattern s = true <-> label s = true.
Proof.
  rewrite re_match_spec, lang_name. unfold label, slen. rewrite <- length_bytes_of.
  generalize (bytes_of s) as w. intros w. rewrite !andb_true_iff, !Z.leb_le. split.
  - intros (c & [[-> Hc]|(u & d & -> & Hc & Hd & Hl & Hu)]).
    + simpl. unfold alnum_hyphen. rewrite Hc. split_and!; simpl; auto; lia.
    + assert (Hw : forallb alnum_hyphen (c :: u ++ [d]) = true).
      { simpl. rewrite forallb_app. simpl. unfold alnum_hyphen at 1 3. rewrite Hc, Hd. simpl.
        rewrite andb_true_r. apply forallb_forall. intros x Hx.
        rewrite Forall_forall in Hu. apply Hu. by apply list_elem_of_In. }
      rewrite Hw, app_comm_cons, last_snoc, length_app. simpl.
      split_and!; auto; simpl; lia.
  - intros [[[[Hl1 Hl2] Hall] Hh] Hlast]. destruct w as [|c w]; [simpl in *; lia|].
    exists c. simpl in Hh. destruct w as [|c' w'] using rev_ind; [by left|right].
    rewrite app_comm_cons, last_snoc in Hlast. exists w', c'.
    rewrite app_comm_cons, length_app in *. simpl in Hl2.
    split_and!; auto; [lia|]. rewrite Forall_forall. intros x Hx.
    rewrite forallb_forall in Hall. apply Hall. apply list_elem_of_In. set_solver.
Qed.

(** * Regrouping bits *)

Lemma length_to_bits n b : length (to_bits n b) = n.
Proof. induction n; simpl; congruence. Qed.

Lemma of_bits_app l l' : of_bits (l ++ l') = of_bits l * 2 ^ len l' + of_bits l'.
Proof.
  unfold of_bits. rewrite fold_left_app.
  generalize (fold_left (fun acc b => 2 * acc + Z.b2z b) l 0) as a.
  induction l' as [|b l' IH] using rev_ind; intros a; simpl; [lia|].
  rewrite !fold_left_app, length_app. simpl. rewrite IH, Nat2Z.inj_add, Z.pow_add_r by lia. lia.
Qed.

Lemma of_bits_bound l : 0 <= of_bits l < 2 ^ len l.
Proof.
  induction l as [|b l IH] using rev_ind; [unfold of_bits; simpl; lia|].
  rewrite of_bits_app, length_app, Nat2Z.inj_add, Z.pow_add_r by lia.
  replace (of_bits [b]) with (Z.b2z b) by (unfold of_bits; simpl; lia).
  change (2 ^ len [b]) with 2. destruct b; simpl; lia.
Qed.

Lemma of_to_bits n b : of_bits (to_bits n b) = b mod 2 ^ Z.of_nat n.
Proof.
  induction n as [|n IH]; simpl; [by rewrite Z.mod_1_r|].
  change (Z.testbit b (Z.of_nat n) :: to_bits n b) with ([Z.testbit b (Z.of_nat n)] ++ to_bits n b).
  rewrite of_bits_app, IH, length_to_bits.
  replace (of_bits [Z.testbit b (Z.of_nat n)]) with (Z.b2z (Z.testbit b (Z.of_nat n)))
    by (unfold of_bits; simpl; lia).
  rewrite Nat2Z.inj_succ, Z.pow_succ_r, (Z.mul_comm 2), Z.rem_mul_r by lia.
  rewrite Z.testbit_spec' by lia. lia.
Qed.

Lemma to_bits_ext n b c :
  (forall i, 0 <= i < Z.of_nat n -> Z.testbit b i = Z.testbit c i) -> to_bits n b = to_bits n c.
Proof.
  induction n as [|n IH]; simpl; intros H; [done|].
  rewrite H by lia. f_equal. apply IH. intros. apply H. lia.
Qed.

Lemma to_of_bits l : to_bits (length l) (of_bits l) = l.
Proof.
  induction l as [|b l IH]; simpl; [done|].
  change (b :: l) with ([b] ++ l). rewrite of_bits_app.
  replace (of_bits [b]) with (Z.b2z b) by (unfold of_bits; simpl; lia).
  pose proof (of_bits_bound l) as Hb. cbn [app]. f_equal.
  - rewrite Z.testbit_eqb by lia.
    rewrite Z.div_add_l, (Z.div_small (of_bits l)) by lia. by destruct b.
  - etransitivity; [|exact IH]. apply to_bits_ext. intros i Hi.
    rewrite <- (Z.mod_pow2_bits_low _ (len l)) by lia.
    by rewrite Z.add_comm, Z.mod_add, Z.mod_small by lia.
Qed.

Lemma length_concat_const (gs : list (list bool)) k :
  Forall (fun g => length g = k) gs -> length (concat gs) = (k * length gs)%nat.
Proof. induction 1 as [|g gs Hg _ IH]; simpl; [lia|]. rewrite length_app, IH, Hg. lia. Qed.

(** Padding completes the groups with fewer than [k] zeros and changes nothing else. *)
Lemma regroup_pad k l : (0 < k)%nat ->
  exists z, (z < k)%nat /\ concat (regroup k true l) = l ++ replicate z false /\
    Forall (fun g => length g = k) (regroup k true l).
Proof.
  intros Hk. unfold regroup. assert (Hf : (length l < S (length l))%nat) by lia. revert Hf.
  generalize (S (length l)) as fuel. intros fuel. revert l.
  induction fuel as [|fuel IH]; intros l Hf; [lia|]. simpl.
  destruct l as [|b l]; [exists O; rewrite app_nil_r; split_and!; auto; lia|].
  destruct (Nat.ltb_spec (length (b :: l)) k) as [Hlt|Hge].
  - exists (k - length (b :: l))%nat. cbn [length concat] in *.
    split_and!; [lia|by rewrite app_nil_r|].
    constructor; [|done]. rewrite length_app, length_replicate. cbn [length]. lia.
  - destruct (IH (drop k (b :: l))) as (z & Hz & Hc & Hall).
    { rewrite length_drop. cbn [length] in *. lia. }
    exists z. split_and!; [done| |].
    + cbn [concat]. by rewrite Hc, app_assoc, take_drop.
    + constructor; [|done]. rewrite length_take. lia.
Qed.

(** Cutting a list of groups of [k] bits into groups of [k] bits. *)
Lemma regroup_concat k (gs : list (list bool)) r :
  Forall (fun g => length g = k) gs -> (length r < k)%nat ->
  regroup k false (concat gs ++ r) = gs.
Proof.
  intros Hgs Hr. unfold regroup.
  assert (Hf : (length (concat gs ++ r) < S (length (concat gs ++ r)))%nat) by lia. revert Hf.
  generalize (S (length (concat gs ++ r))) as fuel. intros fuel. revert gs Hgs.
  induction fuel as [|fuel IH]; intros gs Hgs Hf; [lia|]. destruct gs as [|g gs]; simpl.
  - destruct r; [done|]. rewrite (proj2 (Nat.ltb_lt _ _)) by done. done.
  - apply Forall_cons in Hgs as [Hg Hgs]. simpl in Hf. rewrite <- app_assoc in *.
    rewrite length_app in Hf.
    destruct (g ++ concat gs ++ r) as [|b l] eqn:E.
    { apply app_eq_nil in E as [-> _]. simpl in Hg. lia. }
    rewrite <- E, length_app, (proj2 (Nat.ltb_ge _ _)) by lia. f_equal.
    + by rewrite take_app_length'.
    + rewrite drop_app_length' by done. apply IH; [done|]. lia.
Qed.

(** * Cursors *)

(** Sixty-four distinct characters, none of them a line break. *)
Definition good_alphabet (alphabet : list Ascii.ascii) : bool :=
  forallb (fun n => bool_decide (char_index alphabet (nth_char alphabet (Z.of_nat n)) = Some (Z.of_nat n)) &&
    negb (is_line_break (nth_char alphabet (Z.of_nat n)))) (List.seq 0 64).

Section base64.
Context (alphabet : list Ascii.ascii) (Ha : good_alphabet alphabet = true).

Lemma base64_char v : 0 <= v < 64 ->
  char_index alphabet (nth_char alphabet v) = Some v /\ is_line_break (nth_char alphabet v) = false.
Proof.
  intros Hv. unfold good_alphabet in Ha. rewrite forallb_forall in Ha. specialize (Ha (Z.to_nat v)).
  rewrite Z2Nat.id in Ha by lia. apply andb_true_iff in Ha as [H1 H2].
  - by breflect.
  - apply List.in_seq. lia.
Qed.

Lemma base64_chars vs : Forall (fun v => 0 <= v < 64) vs ->
  all_some (map (char_index alphabet) (map (nth_char alphabet) vs)) = Some vs /\
  List.filter (fun c => negb (is_line_break c)) (map (nth_char alphabet) vs)
    = map (nth_char alphabet) vs.
Proof.
  induction 1 as [|v vs Hv _ [IH1 IH2]]; cbn [map all_some List.filter]; [done|].
  destruct (base64_char v Hv) as [-> ->]. cbn [negb]. by rewrite IH1, IH2.
Qed.

(** The two directions of unpadded base64. *)
Lemma base64_with_roundtrip bs :
  Forall (fun b => 0 <= b < 256) bs -> base64_decode_with alphabet (base64_encode_with alphabet bs) = Some bs.
Proof.
  intros Hbs. unfold base64_decode_with, base64_encode_with. rewrite bytes_of_of.
  destruct (regroup_pad 6 (byte_bits bs)) as (z & Hz & Hc & Hg); [lia|].
  set (gs := regroup 6 true (byte_bits bs)) in *.
  rewrite <- (map_map of_bits (nth_char alphabet)).
  destruct (base64_chars (map of_bits gs)) as [H1 H2].
  { apply Forall_forall. intros v Hv. apply list_elem_of_fmap in Hv as (g & -> & Hgin).
    rewrite Forall_forall in Hg. pose proof (of_bits_bound g).
    rewrite (Hg g Hgin) in *. change (2 ^ Z.of_nat 6) with 64 in *. lia. }
  rewrite H2, H1, !length_map.
  assert (Hlen : (6 * length gs = 8 * length bs + z)%nat).
  { rewrite <- (length_concat_const gs 6 Hg), Hc, length_app, length_replicate.
    unfold byte_bits. rewrite (length_concat_const _ 8), length_map; [done|].
    apply Forall_forall. intros g Hin. apply list_elem_of_fmap in Hin as (? & -> & _).
    apply length_to_bits. }
  destruct (Z.eqb_spec (len gs mod 4) 1) as [E|_].
  { exfalso. pose proof (Z.div_mod (len gs) 4). lia. }
  f_equal. rewrite map_map, (map_ext_in _ id), map_id.
  2:{ intros g Hin. apply list_elem_of_In in Hin. rewrite Forall_forall in Hg.
      rewrite <- (Hg g Hin) at 1. apply to_of_bits. }
  rewrite Hc. unfold byte_bits. rewrite regroup_concat.
  - rewrite map_map, (map_ext_in _ id), map_id; [done|].
    intros b Hin. apply list_elem_of_In in Hin. rewrite Forall_forall in Hbs.
    rewrite of_to_bits. apply Z.mod_small. by apply Hbs.
  - apply Forall_forall. intros g Hin. apply list_elem_of_fmap in Hin as (? & -> & _).
    apply length_to_bits.
  - rewrite length_replicate. lia.
Qed.
End base64.

Lemma base64_roundtrip bs :
  Forall (fun b => 0 <= b < 256) bs -> base64_decode (base64_encode bs) = Some bs.
Proof. apply base64_with_roundtrip. vm_compute. reflexivity. Qed.

Lemma code_bound c : 0 <= code c < 256.
Proof.
  unfold code. pose proof (Ascii.N_ascii_bounded c). lia.
Qed.

Lemma bytes_string_bytes s : bytes_string (string_bytes s) = s.
Proof.
  unfold bytes_string, string_bytes. rewrite map_map, (map_ext _ id), map_id; [apply of_bytes_of|].
  intros c. unfold code. by rewrite N2Z.id, Ascii.ascii_N_embedding.
Qed.

Lemma string_bytes_bound s : Forall (fun b => 0 <= b < 256) (string_bytes s).
Proof.
  apply Forall_forall. intros b Hb. apply list_elem_of_fmap in Hb as (c & -> & _). apply code_bound.
Qed.

Definition no_nul (s : string) : Prop := Ascii.zero ∉ bytes_of s.

Lemma index_byte_app l l' c : c ∉ l -> index_byte_l (l ++ c :: l') c = Some (length l).
Proof.
  induction l as [|d l IH]; simpl; intros H; [by rewrite Z.eqb_refl|].
  destruct (Z.eqb_spec (code d) (code c)) as [E|_].
  - apply code_inj in E as ->. set_solver.
  - rewrite IH by set_solver. done.
Qed.

Lemma cut_nul_app order id : no_nul order -> cut_nul (order +:+ nul +:+ id) = Some (order, id).
Proof.
  intros H. unfold cut_nul, index_byte. rewrite !bytes_of_app. simpl.
  rewrite index_byte_app by done. rewrite str_take_spec. unfold str_drop. rewrite !bytes_of_app. simpl.
  replace (Z.to_nat (Z.of_nat (length (bytes_of order)) + 1)) with (S (length (bytes_of order))) by lia.
  rewrite Nat2Z.id, take_app_length.
  rewrite <- (Nat.add_1_r (length (bytes_of order))), drop_app_add'; [|done]. simpl. rewrite drop_0 || idtac.
  by rewrite !of_bytes_of.
Qed.

Lemma page_Decode_Encode order id :
  no_nul order -> (order <> "" \/ id <> "") ->
  page_Decode (page_Encode order id) = Ok {| cur_Order := order; cur_ID := id |}.
Proof.
  intros Hn Hne. unfold page_Encode.
  destruct (is_empty order && is_empty id) eqn:E.
  { breflect. unfold is_empty in *. breflect. naive_solver. }
  unfold page_Decode. rewrite base64_roundtrip by apply string_bytes_bound.
  by rewrite bytes_string_bytes, cut_nul_app.
Qed.

Lemma page_From_limit q_limit q_after fallback ceiling w : 1 <= fallback -> 1 <= ceiling ->
  page_From q_limit q_after fallback ceiling = Ok w -> 1 <= win_Limit w <= ceiling.
Proof.
  intros Hf Hc H. unfold page_From in H.
    destruct (if is_empty q_limit then _ else _) as [limit|] eqn:E; [|done]. simpl in H.
    destruct (if is_empty q_after then _ else _); [|done]. injection H as <-. simpl.
    assert (1 <= limit).
    { destruct (is_empty q_limit); [by injection E as <-|].
      destruct (atoi q_limit) as [z|]; [|done]. destruct (Z.leb_spec z 0); [done|].
      injection E as <-. lia. }
    destruct (Z.ltb_spec ceiling limit); lia.
Qed.

(** * Properties *)

(** [validate.Name] accepts a value exactly when it is a label of 1 to 63 lowercase
    letters, digits or hyphens that starts and ends with a letter or digit; everything
    else is refused as an invalid field. *)
Theorem validate_Name_spec field value :
  (validate_Name field value = Ok tt <-> label value = true) /\
  (label value = false -> exists msg,
     validate_Name field value = Err (Invalid ("invalid_" +:+ field) msg)).
Proof.
  pose proof (namePattern_label value) as Hl. unfold validate_Name.
  destruct (is_empty value) eqn:E.
  - apply is_empty_spec in E as ->. split; [split; done|eauto].
  - destruct (re_match namePattern value); simpl; [|split; [split; [done|naive_solver]|eauto]].
    split; [tauto|]. intros H. rewrite (proj1 Hl eq_refl) in H. done.
Qed.

(** a cursor handed out for a row (its order text free of NUL) comes back from the query
    string as the same cursor, and a backward cursor as the same positive id; the limit of
    an accepted window is between one and the ceiling. *)
Theorem page_roundtrip fallback ceiling (Hf : 1 <= fallback) (Hc : 1 <= ceiling) :
  (forall q order id, no_nul order -> order <> "" \/ id <> "" -> q = page_Encode order id ->
     page_From "" q fallback ceiling =
       Ok {| win_Limit := Z.min fallback ceiling;
             win_After := {| cur_Order := order; cur_ID := id |} |}) /\
  (forall id, 0 < id <= max_int64 ->
     exists c, page_Decode (page_Backward id) = Ok c /\ page_Back c = Ok id) /\
  (forall q_limit q_after w, page_From q_limit q_after fallback ceiling = Ok w ->
     1 <= win_Limit w <= ceiling).
Proof.
  split_and!.
  - intros q order id Hn Hne ->. pose proof (page_Decode_Encode order id Hn Hne) as Hd.
    unfold page_From. simpl. destruct (is_empty (page_Encode order id)) eqn:E.
    { apply is_empty_spec in E. rewrite E in Hd. done. }
    rewrite Hd. simpl. do 2 f_equal. destruct (Z.ltb_spec ceiling fallback); lia.
  - intros id Hid. exists {| cur_Order := ""; cur_ID := itoa id |}.
    assert (Hi : itoa id <> "").
    { intros E. assert (H : atoi (itoa id) = Some id).
      { apply atoi_itoa. unfold in_int64, min_int64, max_int64, two63 in *. lia. }
      by rewrite E in H. }
    split; [apply page_Decode_Encode; [unfold no_nul; set_solver|auto]|].
    unfold page_Back, Cursor_Empty. simpl. destruct (is_empty (itoa id)) eqn:E.
    { by apply is_empty_spec in E. }
    rewrite atoi_itoa by (unfold in_int64, min_int64, max_int64, two63 in *; lia).
    by rewrite (proj2 (Z.leb_gt _ _)) by lia.
  - intros q_limit q_after w. by apply page_From_limit.
Qed.

Lemma page_roundtrip_witness :
  page_From "" (page_Encode "2024-05-01T10:00:00Z" "i-1") page_Default page_Max =
    Ok {| win_Limit := 100;
          win_After := {| cur_Order := "2024-05-01T10:00:00Z"; cur_ID := "i-1" |} |}.
Proof.
  destruct (page_roundtrip page_Default page_Max) as [H _]; [done|done|].
  apply H; [|by left|reflexivity]. unfold no_nul. vm_compute.
  intros Hin. repeat (apply elem_of_cons in Hin as [Hin|Hin]; [discriminate Hin|]).
  by apply not_elem_of_nil in Hin.
Defined.
