(* ===== verification/Httpx.v ===== *)
(** Answers of the HTTP API (internal/kernel/httpx): what a handler writes, and what is written
    for its error.

    A handler is a computation that gives the answer it writes; the JSON a request carries is
    given to it as what [Decode] made of it, a value or the error of a malformed body.  The
    text of the JSON and the headers are left out. *)
From stdpp Require Import base tactics numbers strings list gmap.
From Stdlib Require Import ZArith.
From S2P Require Import Prelude GoLang Effects Kernel.

(** The status and the body, [None] for [WriteHeader] alone. *)
Record Reply (B : Type) := MkReply { rp_Status : Z; rp_Body : option B }.
Arguments MkReply {B} _ _.
Arguments rp_Status {B} _.
Arguments rp_Body {B} _.

(* go: kernel/httpx/json.go Write *)
Definition Write {S B} (status : Z) (body : B) : M S (Reply B) := ret (MkReply status (Some body)).
(** [w.WriteHeader(status)] *)
Definition WriteHeader {S B} (status : Z) : M S (Reply B) := ret (MkReply status None).

Definition StatusOK : Z := 200.
Definition StatusCreated : Z := 201.
Definition StatusAccepted : Z := 202.
Definition StatusNoContent : Z := 204.

(* go: kernel/httpx/errors.go statusFor *)
Definition statusFor (kind : Kind) : Z :=
  match kind with
  | KindInvalid => 400 | KindNotFound => 404 | KindConflict => 409 | KindUnauthenticated => 401
  | KindForbidden => 403 | KindUnavailable => 503 | KindTooMany => 429 | KindInternal => 500
  end.
(** The status of the answer written for an error. *)
(* go: kernel/httpx/errors.go WriteFault *)
Definition WriteFault (err : error) : Z := statusFor (kind_of err).

(** The status a wrapped handler answers with. *)
(* go: kernel/httpx/errors.go Wrap *)
Definition Wrap {S B} (h : M S (Reply B)) : M S Z :=
  let! r := attempt h in
  ret (match r with Ok a => rp_Status a | Err err => WriteFault err end).

(** The window a list handler was asked for. *)
Definition window_from (q_limit q_after : string) : outcome Window :=
  or_fault (fun err => Invalid "invalid_page" (error_text err)) (page_From q_limit q_after page_Default page_Max).
