(* ===== verification/Tables.v ===== *)
(** Rows of a table that belong to somebody: what a statement on one owner's rows leaves of the
    rows of all others. *)
From stdpp Require Import base tactics sets strings list gmap sorting.
From Stdlib Require Import ZArith Lia Sorted.
From S2P Require Import Prelude GoLang.

Section rows.
Context {R : Type}.

Lemma filter_ext_elem (p q : R -> bool) l : (forall x, x ∈ l -> p x = q x) -> List.filter p l = List.filter q l.
Proof. intros H. apply List.filter_ext_in. intros x Hx. apply H. by apply list_elem_of_In. Qed.

(** Rows that go and were not looked at. *)
Lemma filter_gone (keep foreign : R -> bool) l : (forall x, x ∈ l -> keep x = false -> foreign x = false) ->
  List.filter foreign (List.filter keep l) = List.filter foreign l.
Proof.
  intros H. induction l as [|x l IH]; [done|]. simpl. destruct (keep x) eqn:Ek; simpl.
  - destruct (foreign x); rewrite IH by set_solver; done.
  - rewrite (H x), IH by set_solver. done.
Qed.

(** Rows that change and are not looked at, before or after. *)
Lemma filter_changed (foreign : R -> bool) (f : R -> R) l : (forall x, x ∈ l -> foreign (f x) = foreign x) ->
  (forall x, x ∈ l -> foreign x = true -> f x = x) -> List.filter foreign (map f l) = List.filter foreign l.
Proof.
  intros Hf Hs. induction l as [|x l IH]; [done|]. simpl. rewrite (Hf x), IH by set_solver.
  destruct (foreign x) eqn:E; [|done]. by rewrite (Hs x) by (done || set_solver).
Qed.

Lemma filter_none (p : R -> bool) l : (forall x, x ∈ l -> p x = false) -> List.filter p l = [].
Proof. intros H. induction l as [|x l IH]; [done|]. simpl. rewrite (H x), IH by set_solver. done. Qed.
Lemma filter_all (p : R -> bool) l : (forall x, x ∈ l -> p x = true) -> List.filter p l = l.
Proof. intros H. induction l as [|x l IH]; [done|]. simpl. rewrite (H x), IH by set_solver. done. Qed.
Lemma filter_true (l : list R) : List.filter (fun _ => true) l = l.
Proof. by apply filter_all. Qed.
Lemma filter_andb (p q : R -> bool) l : List.filter (fun x => p x && q x) l = List.filter q (List.filter p l).
Proof. induction l as [|x l IH]; [done|]. simpl. destruct (p x); simpl; by rewrite IH. Qed.
Lemma filter_comm (p q : R -> bool) l : List.filter p (List.filter q l) = List.filter q (List.filter p l).
Proof. rewrite <- !filter_andb. apply filter_ext_elem. intros x _. apply andb_comm. Qed.
Lemma filter_filter_le (p q : R -> bool) l : len (List.filter p (List.filter q l)) <= len (List.filter p l).
Proof. induction l as [|x l IH]; [done|]. simpl. destruct (q x); simpl; destruct (p x); simpl; lia. Qed.
Lemma filter_map_le (p : R -> bool) (f : R -> R) l : (forall r, r ∈ l -> p (f r) = true -> p r = true) ->
  len (List.filter p (map f l)) <= len (List.filter p l).
Proof.
  intros H. induction l as [|x l IH]; [done|]. simpl. specialize (IH ltac:(intros; apply H; set_solver)). destruct (p (f x)) eqn:E.
  - rewrite (H x) by (done || set_solver). simpl. lia.
  - destruct (p x); simpl; lia.
Qed.
End rows.

(** A table whose rows have an id and an owner. *)
Section owned.
Context {R : Type} (id_of owner_of : R -> string).

Definition others_rows (p : string) (rows : list R) : list R := List.filter (fun r => negb (String.eqb (owner_of r) p)) rows.

Lemma same_id rows r x : unique_by (fun r => Some (id_of r)) rows -> r ∈ rows -> x ∈ rows -> String.eqb (id_of x) (id_of r) = true -> x = r.
Proof. intros Hu Hr Hx E%String.eqb_eq. apply (unique_by_eq _ _ x r (id_of r) Hu); congruence. Qed.

Lemma others_insert rows r : others_rows (owner_of r) (rows ++ [r]) = others_rows (owner_of r) rows.
Proof. unfold others_rows. rewrite List.filter_app. simpl. by rewrite String.eqb_refl, app_nil_r. Qed.
Lemma others_delete rows r : unique_by (fun r => Some (id_of r)) rows -> r ∈ rows ->
  others_rows (owner_of r) (List.filter (fun x => negb (String.eqb (id_of x) (id_of r))) rows) = others_rows (owner_of r) rows.
Proof.
  intros Hu Hr. apply filter_gone. intros x Hx E%negb_false_iff. rewrite (same_id rows r x) by done. by rewrite String.eqb_refl.
Qed.
Lemma others_update rows r f : unique_by (fun r => Some (id_of r)) rows -> r ∈ rows -> (forall x, owner_of (f x) = owner_of x) ->
  others_rows (owner_of r) (map (fun x => if String.eqb (id_of x) (id_of r) then f x else x) rows) = others_rows (owner_of r) rows.
Proof.
  intros Hu Hr Hf. apply filter_changed; intros x Hx; (destruct (String.eqb (id_of x) (id_of r)) eqn:E; [|done]); [by rewrite Hf|].
  rewrite (same_id rows r x) by done. by rewrite String.eqb_refl.
Qed.
(** A statement on the rows of one owner. *)
Lemma others_delete_owned p (gone : R -> bool) rows : (forall r, r ∈ rows -> gone r = true -> owner_of r = p) ->
  others_rows p (List.filter (fun r => negb (gone r)) rows) = others_rows p rows.
Proof. intros H. apply filter_gone. intros x Hx E%negb_false_iff. by rewrite (H x Hx E), String.eqb_refl. Qed.
End owned.

(** * Rows in order *)

Lemma sorted_snoc {A} (R : A -> A -> Prop) l x : StronglySorted R l -> (forall y, y ∈ l -> R y x) -> StronglySorted R (l ++ [x]).
Proof.
  intros Hl Hx. induction Hl as [|y l Hl IH Hf]; simpl; [by repeat constructor|]. constructor; [apply IH; set_solver|].
  apply Forall_app. split; [done|]. constructor; [apply Hx; set_solver|done].
Qed.
Lemma sorted_bfilter {A} (R : A -> A -> Prop) (p : A -> bool) l : StronglySorted R l -> StronglySorted R (List.filter p l).
Proof.
  intros H. induction H as [|x l Hl IH Hf]; simpl; [constructor|]. destruct (p x); [|done]. constructor; [done|by apply Forall_filter_bool].
Qed.
Lemma sorted_weaken {A} (R R' : A -> A -> Prop) l : (forall x y, R x y -> R' x y) -> StronglySorted R l -> StronglySorted R' l.
Proof. intros HR H. induction H as [|x l Hl IH Hf]; constructor; [done|]. eapply Forall_impl; [exact Hf|auto]. Qed.
Lemma sorted_rev {A} (R R' : A -> A -> Prop) l : (forall x y, R x y -> R' y x) -> StronglySorted R l -> StronglySorted R' (rev l).
Proof.
  intros HR H. induction H as [|x l Hl IH Hf]; [constructor|]. simpl. apply sorted_snoc; [done|]. rewrite Forall_forall in Hf.
  intros y Hy. apply HR, Hf. by rewrite list_elem_of_In, in_rev, <- list_elem_of_In.
Qed.
Lemma sorted_take {A} (R : A -> A -> Prop) n l : StronglySorted R l -> StronglySorted R (take n l).
Proof.
  intros H. revert n. induction H as [|x l Hl IH Hf]; intros [|n]; simpl; try constructor; [done|by apply Forall_take].
Qed.

(** Rows whose numbers ascend, as AUTOINCREMENT gives them: sorting by the number either way. *)
Section numbered.
Context {A : Type} (key : A -> Z).
#[local] Instance ascending_weak : WeakOrder (fun a b => key a <? key b).
Proof. constructor; intros; breflect; lia. Qed.
#[local] Instance descending_weak : WeakOrder (fun a b => key b <? key a).
Proof. constructor; intros; breflect; lia. Qed.
Lemma ascending_by rows a b : StronglySorted (fun a b => key a < key b) rows -> a ∈ rows -> b ∈ rows -> key a = key b -> a = b.
Proof.
  intros H. induction H as [|x l Hl IH Hf]; [set_solver|]. rewrite Forall_forall in Hf.
  intros [->|Ha]%elem_of_cons [->|Hb]%elem_of_cons E; [done| | |by apply IH].
  - specialize (Hf b Hb). lia.
  - specialize (Hf a Ha). lia.
Qed.
Lemma oldest_by rows : StronglySorted (fun a b => key a < key b) rows -> sliceStable (fun a b => key a <? key b) rows = rows.
Proof.
  intros Hs. apply (sorted_unique (fun a b => key a <? key b)).
  - apply (sliceStable_sorted _ _).
  - eapply sorted_weaken; [|exact Hs]. intros. apply Z.ltb_ge. cbn in *. lia.
  - apply sliceStable_perm.
  - intros x y Hx Hy H1 H2. rewrite sliceStable_perm in Hx, Hy. breflect. eapply ascending_by; [done..|lia].
Qed.
Lemma newest_by rows : StronglySorted (fun a b => key a < key b) rows -> sliceStable (fun a b => key b <? key a) rows = rev rows.
Proof.
  intros Hs. apply (sorted_unique (fun a b => key b <? key a)).
  - apply (sliceStable_sorted _ _).
  - eapply sorted_rev; [|exact Hs]. intros. apply Z.ltb_ge. cbn in *. lia.
  - rewrite sliceStable_perm. apply Permutation_rev.
  - intros x y Hx Hy H1 H2. rewrite sliceStable_perm in Hx, Hy. breflect. eapply ascending_by; [done..|lia].
Qed.
End numbered.
