(* ===== verification/Paging.v ===== *)
(** Listings that are handed out page by page (the SQL and the handlers of every module's list
    follow one pattern): the rows behind a cursor, ordered by a text and then by the id, cut at
    the limit, and the cursor of the next page.  A client that follows the cursors sees every
    row once. *)
From stdpp Require Import base tactics numbers strings list gmap sorting.
From Stdlib Require Import ZArith Lia Sorted.
From Stdlib Require Ascii.
From S2P Require Import Prelude GoLang Effects Regex Kernel Tables.

Lemma sorted_filter {R} (less : R -> R -> bool) (q : R -> bool) l : sorted_by less l -> sorted_by less (List.filter q l).
Proof.
  intros H. induction H as [|x l Hs IH Hf]; simpl; [constructor|]. destruct (q x); [|done].
  constructor; [done|]. rewrite Forall_forall in *. intros y [Hy _]%elem_of_filter_bool. by apply Hf.
Qed.

(** * Pages *)

Section listing.
Context {R : Type} (order id : R -> string).

(** [ORDER BY order, id] *)
Definition by_cursor : R -> R -> bool := by_key order str_ltb (by_key id str_ltb (fun _ _ => false)).
Definition listed (p : R -> bool) (rows : list R) : list R := sliceStable by_cursor (List.filter p rows).
(** [? = '' OR order > ? OR (order = ? AND id > ?)] *)
Definition behind (after : Cursor) (i : R) : bool :=
  is_empty (cur_Order after) || str_ltb (cur_Order after) (order i)
  || String.eqb (order i) (cur_Order after) && str_ltb (cur_ID after) (id i).
(** [... LIMIT ?] *)
Definition page_rows (p : R -> bool) (window : Window) (rows : list R) : list R :=
  take (Z.to_nat (win_Limit window)) (listed (fun i => p i && behind (win_After window) i) rows).
(** What a handler answers: the rows, and the cursor of the last one if the page is full. *)
Definition page_reply (window : Window) (rows : list R) : list R * string :=
  (rows, match last rows with
         | Some i => if len rows =? win_Limit window then page_Encode (order i) (id i) else ""
         | None => ""
         end).

(** A client that follows the cursors. *)
Fixpoint follow {S} (get : string -> M S (list R * string)) (fuel : nat) (q_after : string) : M S (list R) :=
  match fuel with
  | O => ret []
  | Datatypes.S fuel' =>
      let! ' (rows, next) := get q_after in
      if is_empty next then ret rows
      else let! rest := follow get fuel' next in ret (rows ++ rest)
  end.

#[export] Instance by_cursor_weak : WeakOrder by_cursor.
Proof. unfold by_cursor. typeclasses eauto. Qed.

(** The condition of the next page's query behind row [x] is the order itself. *)
Definition after_row (x i : R) : bool :=
  str_ltb (order x) (order i) || String.eqb (order i) (order x) && str_ltb (id x) (id i).

Lemma after_by_cursor x i : after_row x i = by_cursor x i.
Proof.
  unfold after_row, by_cursor, by_key. destruct (decide (order x = order i)) as [E|E].
  - rewrite E, String.eqb_refl, (wo_irrefl (less:=str_ltb)). simpl. case_decide as Ei; [|done].
    by rewrite Ei, (wo_irrefl (less:=str_ltb)).
  - by rewrite (proj2 (String.eqb_neq _ _)), orb_false_r.
Qed.

Lemma incomparable x y : by_cursor x y = false -> by_cursor y x = false -> id x = id y.
Proof.
  intros H1 H2. apply by_key_incomparable in H1 as (_ & H1 & H3); [|typeclasses eauto|done].
  by apply by_key_incomparable in H1 as (? & _); [|typeclasses eauto|].
Qed.

Section rows.
Context (rows : list R) (Hid : unique_by (fun i => Some (id i)) rows).

Lemma listed_filter (p q : R -> bool) : listed (fun i => p i && q i) rows = List.filter q (listed p rows).
Proof.
  unfold listed. apply (sorted_unique by_cursor).
  - apply (sliceStable_sorted by_cursor _).
  - apply sorted_filter, (sliceStable_sorted by_cursor _).
  - rewrite sliceStable_perm, filter_andb. apply filter_perm. symmetry. apply sliceStable_perm.
  - intros x y Hx Hy H1 H2. rewrite sliceStable_perm in Hx, Hy.
    apply elem_of_filter_bool in Hx as [Hx _], Hy as [Hy _].
    apply (unique_by_eq _ _ x y (id x) Hid); [done|done|done|]. by rewrite (incomparable x y).
Qed.

Lemma listed_ids p : NoDup (map id (listed p rows)).
Proof.
  unfold listed. rewrite sliceStable_perm. apply NoDup_map_filter. unfold unique_by in Hid. by rewrite omap_total in Hid.
Qed.

(** Behind a row of a sorted list come the rows after it. *)
Lemma filter_after x l1 l2 : sorted_by by_cursor (l1 ++ x :: l2) -> NoDup (map id (l1 ++ x :: l2)) ->
  List.filter (after_row x) (l1 ++ x :: l2) = l2.
Proof.
  intros Hs Hn. assert (Hneq : forall y, y ∈ l1 ++ l2 -> id y <> id x).
  { intros y Hy E. rewrite map_app in Hn. simpl in Hn. rewrite <- Permutation_middle in Hn. apply NoDup_cons in Hn as [Hn _].
    apply Hn. rewrite <- map_app, <- E. apply list_elem_of_fmap. eauto. }
  rewrite List.filter_app. simpl. rewrite after_by_cursor, wo_irrefl.
  rewrite (filter_none _ l1), (filter_all _ l2); [done| |]; intros y Hy; rewrite after_by_cursor.
  - destruct (by_cursor x y) eqn:E; [done|]. exfalso. apply (Hneq y); [set_solver|]. apply incomparable; [|done].
    apply StronglySorted_app_1_r in Hs. by apply (sorted_by_head by_cursor x l2).
  - induction l1 as [|z l1 IH]; [set_solver|]. apply elem_of_cons in Hy as [->|Hy].
    + apply (sorted_by_head by_cursor z (l1 ++ x :: l2)); [done|set_solver].
    + apply IH; [by apply StronglySorted_inv in Hs as [? _]|by apply NoDup_cons in Hn as [_ ?]|set_solver|done].
Qed.

(** The page behind the rows [l1] of a listing [l1 ++ l2]. *)
Lemma page_rows_behind p window l1 l2 : listed p rows = l1 ++ l2 ->
  List.filter (behind (win_After window)) (l1 ++ l2) = l2 ->
  page_rows p window rows = take (Z.to_nat (win_Limit window)) l2.
Proof. intros E Hb. unfold page_rows. by rewrite listed_filter, E, Hb. Qed.

(** The cursor of a row points behind it. *)
Lemma behind_row p l1 x l2 : order x <> "" -> listed p rows = (l1 ++ [x]) ++ l2 ->
  List.filter (behind {| cur_Order := order x; cur_ID := id x |}) ((l1 ++ [x]) ++ l2) = l2.
Proof.
  intros Hx E. rewrite <- app_assoc in *. simpl in *. rewrite <- (filter_after x l1 l2) at 2.
  - apply List.filter_ext. intros i. unfold behind, after_row. simpl. by rewrite (proj2 (is_empty_false (order x))).
  - rewrite <- E. apply (sliceStable_sorted by_cursor _).
  - rewrite <- E. apply listed_ids.
Qed.

Lemma next_page q_limit window x : order x <> "" -> no_nul (order x) ->
  page_From q_limit "" page_Default page_Max = Ok window ->
  let next := page_Encode (order x) (id x) in
  is_empty next = false /\
  page_From q_limit next page_Default page_Max =
    Ok {| win_Limit := win_Limit window; win_After := {| cur_Order := order x; cur_ID := id x |} |}.
Proof.
  intros Hx Hn Hw next. pose proof (page_Decode_Encode (order x) (id x) Hn (or_introl Hx)) as Hd.
  fold next in Hd. destruct (is_empty next) eqn:E; [apply is_empty_spec in E; by rewrite E in Hd|]. split; [done|].
  unfold page_From in *. destruct (if is_empty q_limit then _ else _) as [limit|]; [|done]. simpl in *.
  rewrite E, Hd. by injection Hw as <-.
Qed.
End rows.

(** A handler that lists the rows [p] of a table [rows] page by page. *)
Definition pages {S} (env : Env) (inv : World S -> Prop) (rows : World S -> list R) (p : R -> bool)
    (q_limit : string) (get : string -> M S (list R * string)) : Prop :=
  forall q_after window w, page_From q_limit q_after page_Default page_Max = Ok window -> inv w ->
  wp env (get q_after) (fun r w' => r = Ok (page_reply window (page_rows p window (rows w))) /\
                                    rows w' = rows w /\ inv w') w.

Lemma follow_run {S} env inv (rows : World S -> list R) p q_limit window get fuel :
  pages env inv rows p q_limit get ->
  (forall w, inv w -> unique_by (fun i => Some (id i)) (rows w)) ->
  (forall w x, inv w -> x ∈ rows w -> p x = true -> order x <> "" /\ no_nul (order x)) ->
  page_From q_limit "" page_Default page_Max = Ok window ->
  forall q_after after l1 l2 w,
  page_From q_limit q_after page_Default page_Max = Ok {| win_Limit := win_Limit window; win_After := after |} ->
  inv w -> listed p (rows w) = l1 ++ l2 ->
  List.filter (behind after) (l1 ++ l2) = l2 -> (length l2 < fuel)%nat ->
  wp env (follow get fuel q_after) (fun r w' => r = Ok l2 /\ rows w' = rows w) w.
Proof.
  intros Hget Hid Hord Hwin. pose proof (page_From_limit q_limit "" page_Default page_Max window ltac:(done) ltac:(done) Hwin) as Hlim.
  induction fuel as [|fuel IH]; intros q_after after l1 l2 w Hp Hinv Eo Hb Hf; [lia|]. simpl.
  apply wp_bind. eapply wp_mono; [|by apply Hget]. intros r w1 (-> & Hw1 & Hinv1). cbv beta iota.
  rewrite (page_rows_behind _ (Hid w Hinv) p _ l1 l2) by done. cbn [win_Limit page_reply].
  set (n := Z.to_nat (win_Limit window)). 
  destruct (last (take n l2)) as [x|] eqn:El.
  - apply last_Some in El as [l3 E3].
    assert (Esplit : l2 = (l3 ++ [x]) ++ drop n l2) by (by rewrite <- E3, take_drop).
    assert (Hx : order x <> "" /\ no_nul (order x)).
    { apply (Hord w); [done|..]; assert (Hl : x ∈ listed p (rows w)) by (rewrite Eo, Esplit; set_solver);
        unfold listed in Hl; rewrite sliceStable_perm in Hl; by apply elem_of_filter_bool in Hl as []. }
    destruct (len (take n l2) =? win_Limit window) eqn:En.
    + destruct (next_page q_limit window x (proj1 Hx) (proj2 Hx) Hwin) as [E1 E2]. rewrite E1. apply wp_bind. breflect.
      assert (Eo1 : listed p (rows w1) = ((l1 ++ l3) ++ [x]) ++ drop n l2).
      { rewrite Hw1, Eo, Esplit at 1. by rewrite <- !app_assoc. }
      eapply wp_mono; [|apply (IH _ {| cur_Order := order x; cur_ID := id x |} ((l1 ++ l3) ++ [x]) (drop n l2)); try done].
      * intros r w2 [-> Hw2]. rewrite wp_ret. split; [|congruence]. by rewrite take_drop.
      * apply (behind_row (rows w1)) with (p := p); [by apply Hid|apply Hx|exact Eo1].
      * rewrite length_drop. pose proof (f_equal length Esplit) as Hl. rewrite !length_app in Hl. simpl in Hl.
        rewrite length_drop in Hl. lia.
    + simpl. rewrite wp_ret. split; [|done]. breflect. rewrite length_take in En. f_equal. apply take_ge. lia.
  - simpl. rewrite wp_ret. split; [|done]. apply last_None in El. rewrite El.
    destruct l2; [done|]. unfold n in El. destruct (Z.to_nat _) eqn:?; [lia|done].
Qed.

(** Following the cursors from the first page gives the whole listing. *)
Lemma follow_all {S} env inv (rows : World S -> list R) p q_limit window get fuel (w : World S) :
  pages env inv rows p q_limit get ->
  (forall w, inv w -> unique_by (fun i => Some (id i)) (rows w)) ->
  (forall w x, inv w -> x ∈ rows w -> p x = true -> order x <> "" /\ no_nul (order x)) ->
  page_From q_limit "" page_Default page_Max = Ok window -> inv w -> (length (rows w) < fuel)%nat ->
  wp env (follow get fuel "") (fun r w' => r = Ok (listed p (rows w)) /\ rows w' = rows w) w.
Proof.
  intros Hget Hid Hord Hwin Hinv Hf.
  apply (follow_run _ inv _ p q_limit window get fuel Hget Hid Hord Hwin "" no_cursor [] (listed p (rows w))); try done.
  - unfold page_From in *. destruct (if is_empty q_limit then _ else _); [|done]. simpl in *. by injection Hwin as <-.
  - by apply filter_all.
  - unfold listed. rewrite sliceStable_length. eapply Nat.le_lt_trans; [apply filter_bool_length_le|done].
Qed.
End listing.

(** * Texts a cursor can carry *)

Lemma digits_no_nul width n c : c ∈ padded width n -> 48 <= code c.
Proof.
  revert n. induction width as [|k IH]; simpl; intros n; [set_solver|].
  intros [H| ->%list_elem_of_singleton]%elem_of_app; [by eapply IH|].
  pose proof (Z.mod_pos_bound n 10). rewrite code_digit; lia.
Qed.

Lemma trim_zeros_incl l c : c ∈ trim_zeros l -> c ∈ l.
Proof. induction l as [|d l IH]; simpl; [done|]. case_match; set_solver. Qed.

Lemma no_nul_app s t : no_nul s -> no_nul t -> no_nul (s +:+ t).
Proof. unfold no_nul. rewrite bytes_of_app. set_solver. Qed.

Lemma no_nul_digits l : (forall c, c ∈ l -> 48 <= code c) -> no_nul (of_bytes l).
Proof. intros H Hin. rewrite bytes_of_of in Hin. specialize (H _ Hin). by vm_compute in H. Qed.

Lemma no_nul_lit s : forallb (fun c => negb (code c =? 0)) (bytes_of s) = true -> no_nul s.
Proof.
  intros H Hin. rewrite forallb_forall in H. apply list_elem_of_In in Hin. by specialize (H _ Hin).
Qed.

Lemma rfc3339nano_no_nul t : no_nul (rfc3339nano t).
Proof.
  unfold rfc3339nano. destruct (civil _) as [[year month] day]. cbv zeta.
  assert (Hp : forall width n, no_nul (of_bytes (padded width n))) by (intros; apply no_nul_digits, digits_no_nul).
  repeat (apply no_nul_app; [by (apply Hp || apply no_nul_lit)|]).
  apply no_nul_app; [|by apply no_nul_lit]. destruct (rev _) as [|c l] eqn:E; [by apply no_nul_lit|].
  apply no_nul_app; [by apply no_nul_lit|]. apply no_nul_digits. intros d Hd. rewrite <- E, list_elem_of_In, <- in_rev, <- list_elem_of_In in Hd.
  apply trim_zeros_incl in Hd. rewrite list_elem_of_In, <- in_rev, <- list_elem_of_In in Hd. by eapply digits_no_nul.
Qed.

Lemma rfc3339nano_not_empty t : rfc3339nano t <> "".
Proof.
  unfold rfc3339nano. destruct (civil _) as [[year month] day]. cbv zeta. intros E.
  apply (f_equal bytes_of) in E. rewrite !bytes_of_app in E. simpl in E.
  repeat match type of E with _ ++ _ = [] => apply app_eq_nil in E as [? E] | _ :: _ = [] => discriminate E end.
Qed.

Lemma name_no_nul field s : validate_Name field s = Ok tt -> s <> "" /\ no_nul s.
Proof.
  unfold validate_Name. destruct (is_empty s) eqn:E; [done|]. destruct (re_match namePattern s) eqn:Em; [|done]. intros _.
  split; [intros ->; discriminate|]. apply namePattern_label in Em. unfold label in Em.
  rewrite !andb_true_iff in Em. destruct Em as [[[_ Hf] _] _]. apply no_nul_lit, forallb_forall. intros c Hc.
  rewrite forallb_forall in Hf. specialize (Hf c Hc). apply negb_true_iff, Z.eqb_neq. intros Ec.
  assert (E0 : c = Ascii.zero).
  { rewrite <- (Ascii.ascii_N_embedding c). unfold code in Ec. by replace (Ascii.N_of_ascii c) with 0%N by lia. }
  by rewrite E0 in Hf.
Qed.
