(* ===== verification/Encoding.v ===== *)
(** The encodings and digests of the standard library the program builds on: padded base64,
    [encoding/hex], [net.SplitHostPort], and [crypto/sha256] with HMAC and [crypto/pbkdf2] over
    it; words of 32 bits are integers modulo 2^32. *)
From stdpp Require Import base tactics numbers strings list.
From Stdlib Require Import ZArith Lia.
From Stdlib Require Ascii.
From S2P Require Import Prelude GoLang Effects Kernel.

(** * Encodings *)

(** [base64.StdEncoding.DecodeString]: line breaks are skipped, and the last group of four may
    end in one or two padding characters. *)
Definition pad_char : Ascii.ascii := Ascii.ascii_of_N 61.
Fixpoint std64_groups (fuel : nat) (s : list Ascii.ascii) : option (list Z) :=
  match fuel with
  | O => None
  | S fuel' =>
      match s with
      | [] => Some []
      | [a; b; c; d] =>
          match char_index std64_alphabet a, char_index std64_alphabet b with
          | Some x, Some y =>
              if code d =? code pad_char then
                if code c =? code pad_char then Some [x * 4 + y / 16]
                else match char_index std64_alphabet c with
                     | Some z => Some [x * 4 + y / 16; y mod 16 * 16 + z / 4]
                     | None => None
                     end
              else match char_index std64_alphabet c, char_index std64_alphabet d with
                   | Some z, Some w => Some [x * 4 + y / 16; y mod 16 * 16 + z / 4; z mod 4 * 64 + w]
                   | _, _ => None
                   end
          | _, _ => None
          end
      | a :: b :: c :: d :: s' =>
          match char_index std64_alphabet a, char_index std64_alphabet b,
                char_index std64_alphabet c, char_index std64_alphabet d with
          | Some x, Some y, Some z, Some w =>
              option_map (app [x * 4 + y / 16; y mod 16 * 16 + z / 4; z mod 4 * 64 + w]) (std64_groups fuel' s')
          | _, _, _, _ => None
          end
      | _ => None
      end
  end.
Definition std64_decode (s : string) : option (list Z) :=
  let chars := List.filter (fun c => negb (is_line_break c)) (bytes_of s) in
  std64_groups (S (length chars)) chars.

Definition find_byte (c : Z) (l : list Ascii.ascii) : option nat := index_byte_l l (Ascii.ascii_of_N (Z.to_N c)).
Definition rfind_byte (c : Z) (l : list Ascii.ascii) : option nat :=
  match find_byte c (rev l) with Some i => Some (length l - S i)%nat | None => None end.
(** [net.SplitHostPort], of which only the host is used: [None] stands for every error. *)
Definition SplitHost (hostport : string) : option string :=
  let l := bytes_of hostport in
  match rfind_byte 58 l with
  | None => None
  | Some i =>
      let bracketed := match l with c :: _ => code c =? 91 | [] => false end in
      let parts :=
        if bracketed
        then match find_byte 93 l with
             | None => None
             | Some e => if (S e =? i)%nat then Some (take (e - 1) (drop 1 l), 1%nat, S e) else None
             end
        else
          let host := take i l in
          match find_byte 58 host with Some _ => None | None => Some (host, 0%nat, 0%nat) end in
      match parts with
      | None => None
      | Some (host, j, k) =>
          match find_byte 91 (drop j l), find_byte 93 (drop k l) with
          | None, None => Some (of_bytes host)
          | _, _ => None
          end
      end
  end.

(** * Digests *)

Definition two32 : Z := 4294967296.
Definition add32 (x y : Z) : Z := (x + y) mod two32.
Definition rotr (n x : Z) : Z := Z.lor (Z.shiftr x n) (Z.shiftl x (32 - n) mod two32).

(** The first 32 bits of the fractional parts of the cube roots of the first 64 primes. *)
Definition round_constants : list Z := [
  1116352408; 1899447441; 3049323471; 3921009573; 961987163; 1508970993; 2453635748; 2870763221;
  3624381080; 310598401; 607225278; 1426881987; 1925078388; 2162078206; 2614888103; 3248222580;
  3835390401; 4022224774; 264347078; 604807628; 770255983; 1249150122; 1555081692; 1996064986;
  2554220882; 2821834349; 2952996808; 3210313671; 3336571891; 3584528711; 113926993; 338241895;
  666307205; 773529912; 1294757372; 1396182291; 1695183700; 1986661051; 2177026350; 2456956037;
  2730485921; 2820302411; 3259730800; 3345764771; 3516065817; 3600352804; 4094571909; 275423344;
  430227734; 506948616; 659060556; 883997877; 958139571; 1322822218; 1537002063; 1747873779;
  1955562222; 2024104815; 2227730452; 2361852424; 2428436474; 2756734187; 3204031479; 3329325298
].
(** The same of the square roots of the first eight. *)
Definition initial_hash : list Z := [
  1779033703; 3144134277; 1013904242; 2773480762; 1359893119; 2600822924; 528734635; 1541459225
].

(** The message schedule, newest word first. *)
Fixpoint schedule (n : nat) (w : list Z) : list Z :=
  match n with
  | O => w
  | S n' =>
      let at_ i := nth i w 0 in
      let x := at_ 14%nat in let y := at_ 1%nat in
      let s0 := Z.lxor (Z.lxor (rotr 7 x) (rotr 18 x)) (Z.shiftr x 3) in
      let s1 := Z.lxor (Z.lxor (rotr 17 y) (rotr 19 y)) (Z.shiftr y 10) in
      schedule n' (add32 (add32 (at_ 15%nat) s0) (add32 (at_ 6%nat) s1) :: w)
  end.

Definition compress_round (st : list Z) (kw : Z * Z) : list Z :=
  match st with
  | [a; b; c; d; e; f; g; h] =>
      let s1 := Z.lxor (Z.lxor (rotr 6 e) (rotr 11 e)) (rotr 25 e) in
      let ch := Z.lxor (Z.land e f) (Z.land (two32 - 1 - e) g) in
      let t1 := add32 (add32 h s1) (add32 ch (add32 (fst kw) (snd kw))) in
      let s0 := Z.lxor (Z.lxor (rotr 2 a) (rotr 13 a)) (rotr 22 a) in
      let maj := Z.lxor (Z.lxor (Z.land a b) (Z.land a c)) (Z.land b c) in
      [add32 t1 (add32 s0 maj); a; b; c; add32 d t1; e; f; g]
  | _ => st
  end.

(** Big-endian words of a block, and bytes of a word. *)
Fixpoint be_words (bs : list Z) : list Z :=
  match bs with
  | a :: b :: c :: d :: rest => (((a * 256 + b) * 256 + c) * 256 + d) :: be_words rest
  | _ => []
  end.
Definition be_bytes (n : nat) (w : Z) : list Z :=
  map (fun i => Z.shiftr w (8 * Z.of_nat i) mod 256) (rev (seq 0 n)).

Definition compress (st : list Z) (block : list Z) : list Z :=
  let w := rev (schedule 48 (rev (be_words block))) in
  zip_with add32 st (fold_left compress_round (zip round_constants w) st).

Fixpoint blocks (fuel : nat) (bs : list Z) : list (list Z) :=
  match fuel, bs with
  | S fuel', _ :: _ => take 64 bs :: blocks fuel' (drop 64 bs)
  | _, _ => []
  end.

Definition sha256_padding (bs : list Z) : list Z :=
  bs ++ [128] ++ repeat 0 (Z.to_nat ((55 - len bs) mod 64)) ++ be_bytes 8 (8 * len bs).

(** [sha256.Sum256] *)
Definition sha256 (bs : list Z) : list Z :=
  let padded := sha256_padding bs in
  concat (map (be_bytes 4) (fold_left compress (blocks (length padded) padded) initial_hash)).

(** [hex.EncodeToString] *)
Definition hex_alphabet : list Ascii.ascii := bytes_of "0123456789abcdef".
Definition hex_encode (bs : list Z) : string :=
  of_bytes (concat (map (fun b => [nth_char hex_alphabet (b / 16); nth_char hex_alphabet (b mod 16)]) bs)).

Example sha256_abc :
  hex_encode (sha256 (string_bytes "abc")) = "ba7816bf8f01cfea414140de5dae2223b00361a396177a9cb410ff61f20015ad".
Proof. vm_compute. reflexivity. Qed.
Example sha256_two_blocks :
  hex_encode (sha256 (string_bytes "abcdbcdecdefdefgefghfghighijhijkijkljklmklmnlmnomnopnopq"))
  = "248d6a61d20638b8e5c026930c3e6039a33ce45964ff2167f6ecedd419db06c1".
Proof. vm_compute. reflexivity. Qed.

(** [hex.DecodeString]: digits of either case, two to a byte. *)
Definition hex_digit (c : Ascii.ascii) : option Z :=
  if (48 <=? code c) && (code c <=? 57) then Some (code c - 48)
  else if (97 <=? code c) && (code c <=? 102) then Some (code c - 87)
  else if (65 <=? code c) && (code c <=? 70) then Some (code c - 55)
  else None.
Fixpoint hex_pairs (l : list Ascii.ascii) : option (list Z) :=
  match l with
  | [] => Some []
  | c :: d :: l' =>
      match hex_digit c, hex_digit d with
      | Some x, Some y => option_map (cons (x * 16 + y)) (hex_pairs l')
      | _, _ => None
      end
  | [_] => None
  end.
Definition hex_decode (s : string) : option (list Z) := hex_pairs (bytes_of s).

(** HMAC-SHA-256. *)
Definition hmac (key msg : list Z) : list Z :=
  let key := if 64 <? len key then sha256 key else key in
  let block := key ++ repeat 0 (64 - length key) in
  sha256 (map (Z.lxor 92) block ++ sha256 (map (Z.lxor 54) block ++ msg)).

(** [pbkdf2.Key(sha256.New, password, salt, rounds, 32)]: one block. *)
Definition pbkdf2 (password : string) (salt : list Z) (rounds : Z) : list Z :=
  let key := string_bytes password in
  let u1 := hmac key (salt ++ [0; 0; 0; 1]) in
  fst (Z.iter (rounds - 1) (fun tu : list Z * list Z => let u := hmac key (snd tu) in (zip_with Z.lxor (fst tu) u, u)) (u1, u1)).

Example pbkdf2_two_rounds :
  hex_encode (pbkdf2 "password" (string_bytes "salt") 2) = "ae4d0c95af6b46d32d0adff928f06dd02a303f8ef3c251dfd6e2d85a95474c43".
Proof. vm_compute. reflexivity. Qed.

(** [hkdf.Key(sha256.New, secret, salt, info, 32)]: extract, then expand to one block. *)
Definition hkdf (secret salt : list Z) (info : string) : list Z :=
  hmac (hmac salt secret) (string_bytes info ++ [1]).
Example hkdf_example :
  hex_encode (hkdf (repeat 11 22) (map Z.of_nat (seq 0 13)) "") = "b2a3d45126d31fb6828ef00d76c6d54e9c2bd4785e49c6ad86e327d89d0de940".
Proof. vm_compute. reflexivity. Qed.

Lemma hex_digit_nth v : 0 <= v < 16 -> hex_digit (nth_char hex_alphabet v) = Some v.
Proof.
  intros Hv. assert (H : forallb (fun n => bool_decide (hex_digit (nth_char hex_alphabet (Z.of_nat n)) = Some (Z.of_nat n))) (seq 0 16) = true)
    by (vm_compute; reflexivity).
  rewrite forallb_forall in H. specialize (H (Z.to_nat v)). rewrite Z2Nat.id in H by lia.
  apply (bool_decide_eq_true_1 _), H, List.in_seq. lia.
Qed.

Lemma hex_roundtrip bs : Forall (fun b => 0 <= b < 256) bs -> hex_decode (hex_encode bs) = Some bs.
Proof.
  intros H. unfold hex_decode, hex_encode. rewrite bytes_of_of. induction H as [|b bs Hb _ IH]; [done|].
  cbn [map concat app hex_pairs]. pose proof (Z.div_mod b 16 ltac:(lia)) as Hd. pose proof (Z.mod_pos_bound b 16 ltac:(lia)).
  assert (0 <= b / 16 < 16) by (split; [apply Z.div_pos; lia|apply Z.div_lt_upper_bound; lia]).
  rewrite !hex_digit_nth by lia. rewrite IH. simpl. repeat f_equal. lia.
Qed.
