(* ===== verification/Sealed.v ===== *)
(** Sealing at rest (internal/kernel/sealed): a stream cut into frames of 64 KiB, each sealed with
    AES-256-GCM under a key derived from the sealing key and a random salt, the frame's number
    as the nonce and a flag that marks the last frame as additional data.

    The cipher is the interface [AEAD]; [hkdf] and SHA-256 are Encoding.v's.  A reader is the
    bytes it will give and how it ends; the writers of the model do not fail. *)
From stdpp Require Import base tactics numbers strings list gmap.
From Stdlib Require Import ZArith Lia.
From S2P Require Import Prelude GoLang Effects Kernel Encoding.

(** * The cipher (crypto/cipher) *)

(** [Seal nonce plain flag] and [Open] under a frame key. *)
Record AEAD := {
  aead_Seal : list Z -> Z -> list Z -> Z -> list Z;
  aead_Open : list Z -> Z -> list Z -> Z -> option (list Z);
}.

Definition KeyBytes : Z := 32.
Definition FrameSize : Z := 64 * 1024.
Definition saltBytes : Z := 16.
Definition tagBytes : Z := 16.
Definition version : Z := 1.
Definition info : string := "marstack backup v1".
Definition magic : list Z := string_bytes "MSBK".

(** What the standard library promises of GCM: opening gives back what was sealed, and nothing else
    opens to it; a sealed frame is a tag longer. *)
Class GCM (c : AEAD) : Prop := {
  open_seal fk n p flag : aead_Open c fk n (aead_Seal c fk n p flag) flag = Some p;
  open_only fk n ct flag p : aead_Open c fk n ct flag = Some p -> ct = aead_Seal c fk n p flag;
  seal_length fk n p flag : len (aead_Seal c fk n p flag) = len p + tagBytes;
  seal_bytes fk n p flag : Forall (fun b => 0 <= b < 256) p -> Forall (fun b => 0 <= b < 256) (aead_Seal c fk n p flag);
}.

Definition ErrCorrupt : error := ESentinel "the sealed stream does not decrypt".
Definition ErrTruncated : error := ESentinel "the sealed stream ends before its final frame".

(** * Readers *)

(** [Broken] is a reader that fails after its bytes. *)
Inductive ending := AtEOF | Broken (e : error).
Record reader := MkReader { rd_bytes : list Z; rd_end : ending }.

(** [io.ReadFull(r, buf)] with a buffer of [n] bytes. *)
Inductive readErr := ErrEOF | ErrUnexpectedEOF | ErrOther (e : error).
Definition ReadFull (n : Z) (r : reader) : list Z * option readErr * reader :=
  let got := take (Z.to_nat n) (rd_bytes r) in
  let rest := MkReader (drop (Z.to_nat n) (rd_bytes r)) (rd_end r) in
  if len got =? n then (got, None, rest)
  else (got, Some match rd_end r with
                  | Broken e => ErrOther e
                  | AtEOF => if len got =? 0 then ErrEOF else ErrUnexpectedEOF
                  end, rest).

(** * Keys *)

(* go: kernel/sealed/sealed.go Key *)
Definition Key : Type := list Z.

(* go: kernel/sealed/sealed.go ParseKey *)
Definition ParseKey (text : string) : outcome Key :=
  match hex_decode (trim_space text) with
  | None => Err (EWrap "the key is not hex" (EText "encoding/hex: invalid byte"))
  | Some raw =>
      if negb (len raw =? KeyBytes)
      then Err (EText ("the key is " +:+ itoa (len raw) +:+ " bytes, want " +:+ itoa KeyBytes +:+ " as "
                       +:+ itoa (KeyBytes * 2) +:+ " hex characters"))
      else Ok raw
  end.

(* go: kernel/sealed/sealed.go NewKey *)
Definition NewKey {S} : M S (Key * string) :=
  let! raw := rand in
  let k := read_bytes (Z.to_nat KeyBytes) raw in
  ret (k, hex_encode k).

(* go: kernel/sealed/sealed.go Key.ID *)
Definition ID (k : Key) : string := hex_encode (take 8 (sha256 k)).

(** The key of the frames, which [NewGCM] is given. *)
(* go: kernel/sealed/sealed.go Key.frameKey *)
Definition frameKey (k : Key) (salt : list Z) : list Z := hkdf k salt info.

(** The twelve bytes of the nonce are the number of the frame in big endian, so the number itself
    stands for them. *)
(* go: kernel/sealed/sealed.go nonceFor *)
Definition nonceFor (frame : Z) : Z := frame mod two64.

(** * Sealing *)

Section cipher.
Context (c : AEAD).

(** The loop of [Seal]: what is written, how much was read, and the error it ends with. *)
(* go: kernel/sealed/sealed.go:110-134 ReadFull *)
Fixpoint seal_frames (fuel : nat) (fk : list Z) (frame total : Z) (src : reader) : list Z * Z * option error :=
  match fuel with
  | O => ([], total, Some (EText "out of fuel"))
  | S fuel' =>
      let '(plain, readErr, rest) := ReadFull FrameSize src in
      let last := match readErr with Some _ => true | None => false end in
      let flag := if last then 1 else 0 in
      let sealed := aead_Seal c fk (nonceFor frame) plain flag in
      let written := if (0 <? len plain) || last then sealed else [] in
      match readErr with
      | Some ErrEOF | Some ErrUnexpectedEOF => (written, total + len plain, None)
      | Some (ErrOther e) => (written, total + len plain, Some (EWrap "read the plaintext" e))
      | None =>
          let '(more, total', err) := seal_frames fuel' fk (frame + 1) (total + len plain) rest in
          (written ++ more, total', err)
      end
  end.

Definition header (salt : list Z) : list Z := magic ++ [version] ++ salt.

(** [Seal] with the salt it drew. *)
Definition seal_with (salt : list Z) (src : reader) (k : Key) : list Z * Z * option error :=
  let '(frames, total, err) := seal_frames (S (length (rd_bytes src))) (frameKey k salt) 0 0 src in
  (header salt ++ frames, total, err).

(* go: kernel/sealed/sealed.go Seal *)
Definition Seal {S} (src : reader) (k : Key) : M S (list Z * Z * option error) :=
  let! raw := rand in
  ret (seal_with (read_bytes (Z.to_nat saltBytes) raw) src k).

(** * Opening *)

(** One frame: its plaintext and whether it was the last. *)
(* go: kernel/sealed/sealed.go opener.unseal *)
Definition unseal (fk : list Z) (frame : Z) (buf : list Z) (last : bool) : outcome (list Z * bool) :=
  match aead_Open c fk (nonceFor frame) buf (if last then 1 else 0) with
  | None => Err ErrCorrupt
  | Some opened => Ok (opened, last)
  end.

(* go: kernel/sealed/sealed.go opener.next *)
Definition next (fk : list Z) (frame : Z) (src : reader) : outcome (list Z * bool * reader) :=
  let '(buf, err, rest) := ReadFull (FrameSize + tagBytes) src in
  match err with
  | Some ErrEOF => Err ErrTruncated
  | Some (ErrOther e) => Err (EWrap "read a frame" e)
  | _ =>
      if len buf <? tagBytes then Err ErrTruncated
      else
        let short := len buf <? FrameSize + tagBytes in
        let r := match unseal fk frame buf short with
                 | Ok r => Ok r
                 | Err e => if short then Err e else unseal fk frame buf true
                 end in
        match r with Ok (opened, done) => Ok (opened, done, rest) | Err e => Err e end
  end.

(** Reading the opened stream to its end: what [Read] has given, and the error it stopped with. *)
(* go: kernel/sealed/sealed.go opener.Read *)
Fixpoint read_frames (fuel : nat) (fk : list Z) (frame : Z) (src : reader) : list Z * option error :=
  match fuel with
  | O => ([], Some (EText "out of fuel"))
  | S fuel' =>
      match next fk frame src with
      | Err e => ([], Some e)
      | Ok (opened, true, _) => (opened, None)
      | Ok (opened, false, rest) =>
          let '(more, err) := read_frames fuel' fk (frame + 1) rest in (opened ++ more, err)
      end
  end.

(** [Open] looks at the header; the rest of the stream is read frame by frame under the key it
    leaves. *)
(* go: kernel/sealed/sealed.go Open *)
Definition Open (src : reader) (k : Key) : outcome (list Z * reader) :=
  let '(head, err, rest) := ReadFull (len magic + 1 + saltBytes) src in
  match err with
  | Some _ => Err ErrTruncated
  | None =>
      if negb (bool_decide (take (length magic) head = magic)) then Err ErrCorrupt
      else
        let v := nth (length magic) head 0 in
        if negb (v =? version)
        then Err (EText ("the sealed stream is version " +:+ itoa v +:+ ", this build reads " +:+ itoa version))
        else Ok (frameKey k (drop (length magic + 1) head), rest)
  end.
(** [io.ReadAll] of the reader [Open] gives. *)
Definition read_opened (opened : list Z * reader) : list Z * option error :=
  read_frames (S (length (rd_bytes (snd opened)))) (fst opened) 0 (snd opened).
Definition open_all (src : reader) (k : Key) : list Z * option error :=
  match Open src k with Err e => ([], Some e) | Ok opened => read_opened opened end.

(** * Measuring *)

(* go: kernel/sealed/sealed.go Measured *)
Record Measured := MkMeasured { ms_Size : Z; ms_Checksum : string }.

(** [io.LimitReader(src, n)] *)
Definition LimitReader (src : reader) (n : Z) : reader :=
  if len (rd_bytes src) <? n then src else MkReader (take (Z.to_nat n) (rd_bytes src)) AtEOF.

(** [measure]: [move] says what it wrote, how much, and whether it failed; the digest is of what
    was read. *)
(* go: kernel/sealed/sealed.go measure *)
Definition measure (src : reader) (limit : Z) (move : reader -> list Z * Z * option error) : list Z * outcome Measured :=
  let bounded := LimitReader src (limit + 1) in
  let '(written, size, err) := move bounded in
  (written, match err with
            | Some e => Err (EWrap "write the sealed stream" e)
            | None => if limit <? size then Err (EText ("the stream is larger than " +:+ itoa limit +:+ " bytes"))
                      else Ok (MkMeasured size (hex_encode (sha256 (rd_bytes bounded))))
            end).

(** [io.Copy] *)
Definition copy_all (src : reader) : list Z * Z * option error :=
  (rd_bytes src, len (rd_bytes src), match rd_end src with AtEOF => None | Broken e => Some e end).

(* go: kernel/sealed/sealed.go SealMeasured *)
Definition SealMeasured {S} (src : reader) (k : Key) (limit : Z) : M S (list Z * outcome Measured) :=
  let! raw := rand in
  ret (measure src limit (fun r => seal_with (read_bytes (Z.to_nat saltBytes) raw) r k)).
(* go: kernel/sealed/sealed.go CopyMeasured *)
Definition CopyMeasured (src : reader) (limit : Z) : list Z * outcome Measured := measure src limit copy_all.

(** * The keyring (keyring.go) *)

Definition ErrNoKey : error := ESentinel "this control plane holds no key to seal with".
Definition ErrKeyMissing : error := ESentinel "this control plane does not hold the key it was sealed with".

(** A ring that may be nil is an option. *)
(* go: kernel/sealed/keyring.go Keyring *)
Record Keyring := MkKeyring { kr_active : option Key; kr_byID : gmap string Key }.

(* go: kernel/sealed/keyring.go NewKeyring *)
Definition NewKeyring (keys : list Key) : Keyring :=
  MkKeyring (head keys) (fold_left (fun m k => <[ID k := k]> m) keys ∅).
(* go: kernel/sealed/keyring.go Keyring.Active *)
Definition Active (r : option Keyring) : option Key := match r with Some r => kr_active r | None => None end.
(* go: kernel/sealed/keyring.go Keyring.Sealing *)
Definition Sealing (r : option Keyring) : bool := match Active r with Some _ => true | None => false end.
(* go: kernel/sealed/keyring.go Keyring.ActiveID *)
Definition ActiveID (r : option Keyring) : string := match Active r with Some k => ID k | None => "" end.
(* go: kernel/sealed/keyring.go Keyring.Find *)
Definition Find (r : option Keyring) (id : string) : option Key :=
  match r with Some r => kr_byID r !! id | None => None end.

(* go: kernel/sealed/keyring.go SealBytes *)
Definition SealBytes {S} (plaintext : list Z) (k : Key) : M S string :=
  let! ' (out, _, err) := Seal (MkReader plaintext AtEOF) k in
  match err with Some e => fail e | None => ret (hex_encode out) end.
(* go: kernel/sealed/keyring.go OpenBytes *)
Definition OpenBytes (text : string) (k : Key) : outcome (list Z) :=
  match hex_decode text with
  | None => Err (EWrap "the sealed value is not hex" (EText "encoding/hex: invalid byte"))
  | Some raw => match open_all (MkReader raw AtEOF) k with
                | (plain, None) => Ok plain
                | (_, Some e) => Err e
                end
  end.

(** Values go through [encoding/json]: a parameter. *)
Section json.
Context {V : Type} (Marshal : V -> outcome (list Z)) (Unmarshal : list Z -> V -> outcome V).

(* go: kernel/sealed/keyring.go SealJSON *)
Definition SealJSON {S} (value : V) (keys : option Keyring) : M S (string * string) :=
  match Active keys with
  | None => fail ErrNoKey
  | Some active =>
      let! plain := lift (or_fault (EWrap "encode before sealing") (Marshal value)) in
      let! blob := SealBytes plain active in
      ret (blob, ActiveID keys)
  end.
(** [into] is the value the caller wants filled; the text of a missing key has its id last. *)
(* go: kernel/sealed/keyring.go OpenJSON *)
Definition OpenJSON (blob keyID : string) (keys : option Keyring) (into : V) : outcome V :=
  if is_empty blob then Ok into
  else match Find keys keyID with
       | None => Err (EWrap keyID ErrKeyMissing)
       | Some k => try plain := OpenBytes blob k in Unmarshal plain into
       end.
End json.
End cipher.

(** * Facts *)

Lemma FrameSize_nat : Z.of_nat (Z.to_nat FrameSize) = FrameSize.
Proof. apply Z2Nat.id. vm_compute. discriminate. Qed.
Lemma FrameSize_pos : 0 < FrameSize.
Proof. reflexivity. Qed.
#[global] Opaque FrameSize.
(** The constant stays out of the context, where every [done] would look at it. *)
Ltac flia := pose proof FrameSize_nat; pose proof FrameSize_pos; lia.
Ltac fnia := pose proof FrameSize_nat; pose proof FrameSize_pos; nia.

(** Reading a whole buffer, or everything there is. *)
Lemma ReadFull_full n bs e : 0 <= n -> n <= len bs ->
  ReadFull n (MkReader bs e) = (take (Z.to_nat n) bs, None, MkReader (drop (Z.to_nat n) bs) e).
Proof.
  intros Hn Hl. unfold ReadFull. simpl. rewrite (proj2 (Z.eqb_eq _ _)); [done|]. rewrite length_take. lia.
Qed.
Lemma ReadFull_short n bs e : len bs < n ->
  ReadFull n (MkReader bs e) = (bs, Some match e with Broken e => ErrOther e | AtEOF => if len bs =? 0 then ErrEOF else ErrUnexpectedEOF end,
    MkReader [] e).
Proof.
  intros Hl. unfold ReadFull. simpl. rewrite take_ge, drop_ge by lia. by rewrite (proj2 (Z.eqb_neq _ _)) by lia.
Qed.
Lemma ReadFull_app n bs rest e : len bs = n -> ReadFull n (MkReader (bs ++ rest) e) = (bs, None, MkReader rest e).
Proof.
  intros Hl. rewrite ReadFull_full; [|lia|rewrite length_app; lia]. replace (Z.to_nat n) with (length bs) by lia.
  by rewrite take_app_length, drop_app_length.
Qed.

(** The frames a stream is cut into: number, flag and contents. *)
Fixpoint frames_of (fuel : nat) (frame : Z) (bs : list Z) : list (Z * Z * list Z) :=
  match fuel with
  | O => []
  | S fuel' =>
      if FrameSize <=? len bs
      then (frame, 0, take (Z.to_nat FrameSize) bs) :: frames_of fuel' (frame + 1) (drop (Z.to_nat FrameSize) bs)
      else [(frame, 1, bs)]
  end.
Definition frames (plain : list Z) : list (Z * Z * list Z) := frames_of (S (length plain)) 0 plain.

Section facts.
Context (c : AEAD).

Definition seal_frame (fk : list Z) (f : Z * Z * list Z) : list Z :=
  let '(i, flag, p) := f in aead_Seal c fk (nonceFor i) p flag.

(** What [Seal] writes is its frames, sealed one after the other. *)
Lemma seal_frames_spec fuel fk i t bs : (length bs < fuel)%nat ->
  seal_frames c fuel fk i t (MkReader bs AtEOF) = (concat (map (seal_frame fk) (frames_of fuel i bs)), t + len bs, None).
Proof.
  revert i t bs. induction fuel as [|fuel IH]; intros i t bs Hf; [flia|]. cbn [seal_frames frames_of].
  pose proof FrameSize_pos as Hp. destruct (Z.leb_spec FrameSize (len bs)) as [Hl|Hl].
  - rewrite ReadFull_full by flia. rewrite IH by (rewrite length_drop; flia). rewrite length_take. cbn [map concat seal_frame].
    assert (E : (0 <? Z.of_nat (Z.to_nat FrameSize `min` length bs)) = true) by (apply Z.ltb_lt; flia). rewrite E. simpl.
    f_equal. f_equal. rewrite length_drop. flia.
  - rewrite ReadFull_short by done. rewrite orb_true_r. cbn [map concat seal_frame]. rewrite app_nil_r.
    by destruct (len bs =? 0).
Qed.

Lemma read_sealed `{!GCM c} fuel fuel2 fk i bs : (length bs < fuel)%nat ->
  (length (concat (map (seal_frame fk) (frames_of fuel i bs))) < fuel2)%nat ->
  read_frames c fuel2 fk i (MkReader (concat (map (seal_frame fk) (frames_of fuel i bs))) AtEOF) = (bs, None).
Proof.
  pose proof FrameSize_pos as Hp.
  revert fuel2 i bs. induction fuel as [|fuel IH]; intros fuel2 i bs Hf Hf2; [flia|].
  destruct fuel2 as [|fuel2]; [flia|]. cbn [frames_of] in *. destruct (Z.leb_spec FrameSize (len bs)) as [Hl|Hl].
  - cbn [map concat seal_frame] in *. set (F := aead_Seal c fk (nonceFor i) _ 0) in *.
    assert (HF : len F = FrameSize + tagBytes) by (unfold F; rewrite seal_length, length_take; flia).
    cbn [read_frames]. unfold next. rewrite ReadFull_app by done. rewrite HF. change tagBytes with 16 in *.
    rewrite (proj2 (Z.ltb_ge _ 16)) by flia. rewrite Z.ltb_irrefl. unfold unseal, F. rewrite open_seal.
    rewrite length_app in Hf2. rewrite IH by (rewrite ?length_drop; flia). by rewrite take_drop.
  - cbn [map concat seal_frame] in *. rewrite app_nil_r in *. set (F := aead_Seal c fk (nonceFor i) _ 1) in *.
    assert (HF : len F = len bs + tagBytes) by (unfold F; apply seal_length).
    cbn [read_frames]. unfold next. change tagBytes with 16 in *. rewrite ReadFull_short by flia.
    rewrite (proj2 (Z.eqb_neq (len F) 0)) by flia. rewrite (proj2 (Z.ltb_ge (len F) 16)) by flia.
    rewrite (proj2 (Z.ltb_lt (len F) _)) by flia. unfold unseal, F. by rewrite open_seal.
Qed.

(** The frame with a number is where its number says. *)
Definition frame_at (plain : list Z) (j flag : Z) (p : list Z) : Prop :=
  0 <= j /\
  (flag = 0 /\ FrameSize * (j + 1) <= len plain /\ p = take (Z.to_nat FrameSize) (drop (Z.to_nat (FrameSize * j)) plain) \/
   flag = 1 /\ FrameSize * j <= len plain < FrameSize * (j + 1) /\ p = drop (Z.to_nat (FrameSize * j)) plain).

Lemma frames_at fuel i plain j flag p : 0 <= i -> FrameSize * i <= len plain ->
  (j, flag, p) ∈ frames_of fuel i (drop (Z.to_nat (FrameSize * i)) plain) -> frame_at plain j flag p.
Proof.
  pose proof FrameSize_pos as Hp.
  revert i. induction fuel as [|fuel IH]; intros i Hi Hl; cbn [frames_of]; [by intros H%elem_of_nil|]. rewrite length_drop.
  destruct (Z.leb_spec FrameSize (Z.of_nat (length plain - Z.to_nat (FrameSize * i)))) as [Hc|Hc].
  - rewrite elem_of_cons. intros [[= -> -> ->]|Hin].
    + split; [done|]. left. split; [done|]. split; [fnia|done].
    + apply (IH (i + 1)); [flia|fnia|]. rewrite drop_drop in Hin.
      replace (Z.to_nat (FrameSize * (i + 1))) with (Z.to_nat (FrameSize * i) + Z.to_nat FrameSize)%nat by fnia. exact Hin.
  - rewrite list_elem_of_singleton. intros [= -> -> ->]. split; [done|]. right. split; [done|]. split; [fnia|done].
Qed.

Lemma frame_number plain j flag p : frame_at plain j flag p -> len plain < two63 -> 0 <= j < two64.
Proof.
  pose proof FrameSize_pos as Hp. unfold two63, two64. intros [Hj Hc] Hl. split; [done|].
  assert (FrameSize * j <= len plain) by (destruct Hc as [(_ & H & _)|(_ & H & _)]; flia). fnia.
Qed.

(** Only the frames of [plain] open. *)
Definition unforged (k : Key) (plain : list Z) : Prop :=
  forall salt n ct flag p, aead_Open c (frameKey k salt) n ct flag = Some p ->
    exists j, n = nonceFor j /\ (j, flag, p) ∈ frames plain.

Lemma read_unforged k salt plain fuel j src (Hu : unforged k plain) (Hlen : len plain < two63) (Hj : 0 <= j) :
  FrameSize * j <= len plain ->
  let '(got, err) := read_frames c fuel (frameKey k salt) j src in
  exists rest, drop (Z.to_nat (FrameSize * j)) plain = got ++ rest /\ (err = None -> rest = []).
Proof.
  pose proof FrameSize_pos as Hp. 
  revert j src Hj. induction fuel as [|fuel IH]; intros j src Hj Hl; cbn [read_frames]; [by eexists|].
  assert (Hun : forall buf last o d, unseal c (frameKey k salt) j buf last = Ok (o, d) -> d = last /\ frame_at plain j (if last then 1 else 0) o).
  { intros buf last o d. unfold unseal. destruct (aead_Open _ _ _ _ _) as [p|] eqn:E; [|done]. intros [= -> <-].
    split; [done|]. apply Hu in E as (j' & Ej & Hin). apply (frames_at _ 0) in Hin; [|flia|flia].
    assert (j' = j) as ->; [|exact Hin]. pose proof (frame_number _ _ _ _ Hin Hlen) as Hj'. unfold nonceFor in Ej.
    rewrite !Z.mod_small in Ej; [done|exact Hj'|]. unfold two64. split; [flia|]. clear -Hp Hl Hlen Hj. unfold two63 in Hlen. nia. }
  assert (Hnx : match next c (frameKey k salt) j src with
    | Ok (o, d, _) => frame_at plain j (if d then 1 else 0) o | Err _ => True end).
  { clear -Hun. unfold next. destruct (ReadFull _ src) as [[buf err] rest].
    assert (Htry : match (match unseal c (frameKey k salt) j buf (len buf <? FrameSize + tagBytes) with
                          | Ok r => Ok r
                          | Err e => if len buf <? FrameSize + tagBytes then Err e else unseal c (frameKey k salt) j buf true
                          end) with Ok (o, d) => frame_at plain j (if d then 1 else 0) o | Err _ => True end).
    { set (short := _ <? _). destruct (unseal _ _ _ _ short) as [[o d]|e] eqn:E1; [apply Hun in E1 as [-> H]; exact H|].
      destruct short; [exact I|]. destruct (unseal _ _ _ _ true) as [[o d]|e1] eqn:E2; [apply Hun in E2 as [-> H]; exact H|exact I]. }
    destruct err as [[| |e]|]; try exact I; (destruct (_ <? tagBytes); [exact I|]); cbv zeta;
      destruct (match unseal _ _ _ _ _ with Ok _ => _ | Err _ => _ end) as [[o d]|e1]; exact Htry. }
  destruct (next _ _ _ _) as [[[o d] rest]|e]; [|by eexists]. destruct Hnx as [_ Hf]. destruct d.
  - destruct Hf as [[? _]|(_ & _ & ->)]; [done|]. exists []. by rewrite app_nil_r.
  - destruct Hf as [(_ & Hb & ->)|[? _]]; [|done]. specialize (IH (j + 1) rest ltac:(flia) Hb).
    destruct (read_frames _ _ _ _ _) as [more err]. destruct IH as (tail & Ht & He). exists tail. split; [|done].
    rewrite <- app_assoc, <- Ht. replace (Z.to_nat (FrameSize * (j + 1))) with (Z.to_nat (FrameSize * j) + Z.to_nat FrameSize)%nat by fnia.
    by rewrite <- drop_drop, take_drop.
Qed.
End facts.

Lemma length_magic : length magic = 4%nat.
Proof. reflexivity. Qed.

(** What [Open] makes of a header that is whole. *)
Lemma open_all_header c salt body e k : len salt = saltBytes ->
  open_all c (MkReader (header salt ++ body) e) k = read_frames c (S (length body)) (frameKey k salt) 0 (MkReader body e).
Proof.
  intros Hs. unfold open_all, Open. rewrite ReadFull_app.
  2:{ unfold header. rewrite !length_app, length_magic. simpl. flia. }
  change (header salt) with ([77; 83; 66; 75; 1] ++ salt). change (take (length magic) ([77; 83; 66; 75; 1] ++ salt)) with magic.
  rewrite bool_decide_eq_true_2 by done. reflexivity.
Qed.

(** Small values: what [SealBytes] gives back opens with the key, and only its caller drew. *)
Lemma byte_frames c `{!GCM c} fk fuel i bs : Forall (fun b => 0 <= b < 256) bs ->
  Forall (fun b => 0 <= b < 256) (concat (map (seal_frame c fk) (frames_of fuel i bs))).
Proof.
  revert i bs. induction fuel as [|fuel IH]; intros i bs Hb; cbn [frames_of map concat]; [constructor|].
  destruct (FrameSize <=? len bs); cbn [map concat seal_frame]; apply Forall_app; split;
    [apply seal_bytes, Forall_take, Hb|apply IH, Forall_drop, Hb|by apply seal_bytes|constructor].
Qed.

Lemma read_bytes_range n bs : Forall (fun b => 0 <= b < 256) (read_bytes n bs) /\ length (read_bytes n bs) = n.
Proof.
  unfold read_bytes. split.
  - apply Forall_take, Forall_app. split; [|apply Forall_replicate; flia].
    apply Forall_forall. intros b (x & -> & _)%list_elem_of_fmap. apply Z.mod_pos_bound. flia.
  - rewrite length_take, length_app, length_map, length_replicate. flia.
Qed.

Lemma SealBytes_wp {S} c `{!GCM c} env plaintext k (Q : outcome string -> World S -> Prop) w :
  Forall (fun b => 0 <= b < 256) plaintext ->
  (forall text, OpenBytes c text k = Ok plaintext -> Q (Ok text) (tick w)) -> wp env (SealBytes c plaintext k) Q w.
Proof.
  intros Hp HQ. unfold SealBytes, Seal. apply wp_bind, wp_bind. rewrite wp_rand, wp_ret. set (salt := read_bytes _ _).
  destruct (read_bytes_range (Z.to_nat saltBytes) (env_rand env (w_step w))) as [Hr Hl]. fold salt in Hr, Hl.
  unfold seal_with. rewrite seal_frames_spec by (cbn [rd_bytes]; lia). rewrite wp_ret. apply HQ. unfold OpenBytes.
  rewrite hex_roundtrip.
  - rewrite open_all_header by (rewrite Hl; reflexivity). cbn [rd_bytes].
    by rewrite (read_sealed c _ _ _ 0 plaintext (Nat.lt_succ_diag_r _) (Nat.lt_succ_diag_r _)).
  - apply Forall_app. split; [|by apply byte_frames]. unfold header. apply Forall_app. split; [exact (string_bytes_bound "MSBK")|].
    constructor; [unfold version; lia|exact Hr].
Qed.

Lemma seal_frames_ends c fuel fk i t src : (length (rd_bytes src) < fuel)%nat ->
  snd (seal_frames c fuel fk i t src) <> Some (EText "out of fuel").
Proof.
  pose proof FrameSize_pos as Hp. revert i t src. induction fuel as [|fuel IH]; intros i t [bs e] Hf; [simpl in Hf; flia|].
  cbn [rd_bytes] in Hf. cbn [seal_frames]. destruct (Z.leb_spec FrameSize (len bs)) as [Hl|Hl].
  - rewrite ReadFull_full by flia. cbv beta iota zeta. specialize (IH (i + 1) (t + len (take (Z.to_nat FrameSize) bs)) (MkReader (drop (Z.to_nat FrameSize) bs) e)).
    cbn [rd_bytes] in IH. rewrite length_drop in IH. destruct (seal_frames _ _ _ _ _ _) as [[more total] err]. apply IH. flia.
  - rewrite ReadFull_short by done. destruct e as [|e]; [by destruct (len bs =? 0)|]. by simpl.
Qed.

Lemma ReadFull_rest n r buf err rest : ReadFull n r = (buf, err, rest) ->
  buf = take (Z.to_nat n) (rd_bytes r) /\ rd_bytes rest = drop (Z.to_nat n) (rd_bytes r).
Proof. unfold ReadFull. destruct (_ =? n); by intros [= <- <- <-]. Qed.

(** A frame that is read takes some bytes away. *)
Lemma next_shrinks c fk j src o d rest : next c fk j src = Ok (o, d, rest) -> (length (rd_bytes rest) < length (rd_bytes src))%nat.
Proof.
  unfold next. destruct (ReadFull _ src) as [[buf err] rest0] eqn:ER. apply ReadFull_rest in ER as [Hb Hr].
  assert (Hdrop : (len buf <? tagBytes) = false -> (length (rd_bytes rest0) < length (rd_bytes src))%nat).
  { intros H%Z.ltb_ge. rewrite Hb, length_take in H. rewrite Hr, length_drop.
    pose proof FrameSize_pos. change tagBytes with 16 in *. lia. }
  intros H. enough (rest = rest0 /\ (len buf <? tagBytes) = false) as [-> E] by exact (Hdrop E). clear -H.
  destruct (len buf <? tagBytes); [destruct err as [[| |e]|]; discriminate H|]. cbv zeta in H.
  destruct (match unseal _ _ _ _ _ with Ok _ => _ | Err _ => _ end) as [[o' d']|e']; destruct err as [[| |e]|];
    try discriminate H; injection H as _ _ <-; auto.
Qed.

Lemma read_frames_ends c fuel fk j src : (length (rd_bytes src) < fuel)%nat ->
  snd (read_frames c fuel fk j src) <> Some (EText "out of fuel").
Proof.
  revert j src. induction fuel as [|fuel IH]; intros j src Hf; [flia|]. cbn [read_frames].
  destruct (next c fk j src) as [[[o d] rest]|e] eqn:E.
  - apply next_shrinks in E. destruct d; [done|]. specialize (IH (j + 1) rest ltac:(flia)). by destruct (read_frames _ _ _ _ _).
  - intros [= ->]. revert E. unfold next, unseal, ErrTruncated, ErrCorrupt. destruct (ReadFull _ src) as [[buf err] rest].
    repeat case_match; congruence.
Qed.

(** ** What was measured is what was moved *)

(** A copy that moves everything, or fails with its reader. *)
Definition whole (move : reader -> list Z * Z * option error) : Prop := forall bs e,
  match e with
  | AtEOF => exists out, move (MkReader bs e) = (out, len bs, None)
  | Broken _ => exists x, snd (move (MkReader bs e)) = Some x
  end.
Lemma whole_copy : whole copy_all.
Proof. intros bs [|e]; by eexists. Qed.
Lemma seal_frames_broken c fuel fk i t bs e : (length bs < fuel)%nat -> exists x, snd (seal_frames c fuel fk i t (MkReader bs (Broken e))) = Some x.
Proof.
  pose proof FrameSize_pos as Hp. revert i t bs. induction fuel as [|fuel IH]; intros i t bs Hf; [lia|]. cbn [seal_frames].
  destruct (Z.leb_spec FrameSize (len bs)) as [Hl|Hl].
  - rewrite ReadFull_full by flia. cbv beta iota zeta.
    destruct (IH (i + 1) (t + len (take (Z.to_nat FrameSize) bs)) (drop (Z.to_nat FrameSize) bs)) as [x Hx]; [rewrite length_drop; flia|].
    destruct (seal_frames _ _ _ _ _ _) as [[more total] err]. by exists x.
  - rewrite ReadFull_short by done. by eexists.
Qed.
Lemma whole_seal c salt k : whole (fun r => seal_with c salt r k).
Proof.
  intros bs [|e]; unfold seal_with; cbn [rd_bytes].
  - rewrite seal_frames_spec by lia. by eexists.
  - destruct (seal_frames_broken c (S (length bs)) (frameKey k salt) 0 0 bs e) as [x Hx]; [lia|].
    destruct (seal_frames _ _ _ _ _ _) as [[more total] err]. by exists x.
Qed.
Lemma measure_ok src limit move m : 0 <= limit -> whole move -> snd (measure src limit move) = Ok m ->
  rd_end src = AtEOF /\ len (rd_bytes src) <= limit /\ fst (measure src limit move) = fst (fst (move src)) /\
  m = MkMeasured (len (rd_bytes src)) (hex_encode (sha256 (rd_bytes src))).
Proof.
  intros Hl Hw. destruct src as [bs e]. unfold measure, LimitReader. cbn [rd_bytes rd_end]. destruct (Z.ltb_spec (len bs) (limit + 1)) as [Hb|Hb].
  - specialize (Hw bs e). destruct e as [|e].
    + destruct Hw as [out ->]. rewrite (proj2 (Z.ltb_ge _ _)) by lia. cbn [fst snd rd_bytes]. intros [= <-]. split_and!; [done|lia|done|done].
    + destruct Hw as [x Hx]. destruct (move _) as [[out n] err]. cbn [fst snd] in *. by subst err.
  - specialize (Hw (take (Z.to_nat (limit + 1)) bs) AtEOF) as [out ->]. cbn [fst snd]. rewrite length_take.
    by rewrite (proj2 (Z.ltb_lt _ _)) by lia.
Qed.
(** What was sealed whole opens again. *)
Lemma open_sealed c `{!GCM c} salt bs k : len salt = saltBytes ->
  exists opened, Open (MkReader (fst (fst (seal_with c salt (MkReader bs AtEOF) k))) AtEOF) k = Ok opened /\ read_opened c opened = (bs, None).
Proof.
  intros Hs. unfold seal_with. rewrite seal_frames_spec by (cbn [rd_bytes]; lia). cbn [fst rd_bytes].
  pose proof (open_all_header c salt (concat (map (seal_frame c (frameKey k salt)) (frames_of (S (length bs)) 0 bs))) AtEOF k Hs) as Ho.
  rewrite (read_sealed c _ _ _ 0 bs (Nat.lt_succ_diag_r _) (Nat.lt_succ_diag_r _)) in Ho.
  unfold open_all in Ho. destruct (Open _ k) as [opened|e]; [by exists opened|done].
Qed.

(** * Properties *)

(** C30: [sealed_roundtrip]: whatever was sealed opens again to the same bytes with the same key,
    whatever its length, and [Seal] counted them. *)
Theorem sealed_roundtrip c `{!GCM c} salt plain k (Hs : len salt = saltBytes) :
  let '(out, total, err) := seal_with c salt (MkReader plain AtEOF) k in
  err = None /\ total = len plain /\ open_all c (MkReader out AtEOF) k = (plain, None).
Proof.
  unfold seal_with. rewrite seal_frames_spec by (cbn [rd_bytes]; lia). split; [done|]. split; [done|].
  rewrite open_all_header by done. cbn [rd_bytes]. apply read_sealed; [done|apply Nat.lt_succ_diag_r..].
Qed.

(** A cipher that keeps the promises: a tag that tells the flag, and nothing hidden. *)
Definition demo_tag (flag : Z) : list Z := (flag mod 256) :: replicate 15 0.
Definition demo : AEAD := {|
  aead_Seal _ _ p flag := p ++ demo_tag flag;
  aead_Open _ _ ct flag := if bool_decide (drop (length ct - 16) ct = demo_tag flag) then Some (take (length ct - 16) ct) else None;
|}.
#[export] Instance demo_gcm : GCM demo.
Proof.
  split; simpl.
  - intros _ _ p flag. rewrite length_app. replace (length p + length (demo_tag flag) - 16)%nat with (length p) by (simpl; lia).
    by rewrite drop_app_length, bool_decide_eq_true_2, take_app_length.
  - intros _ _ ct flag p. case_bool_decide as E; [|done]. intros [= <-]. by rewrite <- E, take_drop.
  - intros _ _ p flag. rewrite length_app. simpl. unfold tagBytes. lia.
  - intros _ _ p flag Hp. apply Forall_app. split; [done|]. constructor; [apply Z.mod_pos_bound; lia|].
    apply Forall_replicate. lia.
Defined.

Lemma sealed_roundtrip_witness :
  let '(out, _, _) := seal_with demo (replicate 16 7) (MkReader [104; 105] AtEOF) [1] in
  open_all demo (MkReader out AtEOF) [1] = ([104; 105], None).
Proof.
  pose proof (sealed_roundtrip demo (replicate 16 7) [104; 105] [1] ltac:(reflexivity)) as H.
  destruct (seal_with _ _ _ _) as [[out total] err]. apply H.
Defined.


(** A cipher under which one frame opens and no other. *)
Definition vault : AEAD := {|
  aead_Seal _ _ p _ := p;
  aead_Open _ n ct flag := if bool_decide (n = 0 /\ flag = 1 /\ ct = replicate 20 9) then Some [104; 105] else None;
|}.

(** C32: [sealed_terminates]: the loops of sealing and of opening end on every input, whatever the
    cipher: one round per byte is enough. *)
Theorem sealed_terminates c salt src k :
  snd (seal_with c salt src k) <> Some (EText "out of fuel") /\
  snd (open_all c src k) <> Some (EText "out of fuel").
Proof.
  split.
  - unfold seal_with. pose proof (seal_frames_ends c (S (length (rd_bytes src))) (frameKey k salt) 0 0 src ltac:(lia)) as H.
    by destruct (seal_frames _ _ _ _ _ _) as [[out total] err].
  - unfold open_all, Open, read_opened. destruct (ReadFull _ src) as [[head err] rest]. destruct err; [done|]. destruct (negb _); [done|].
    destruct (negb _); [done|]. apply read_frames_ends. lia.
Qed.
