(* ===== verification/Certs.v ===== *)
(** Certificates (internal/kernel/certs): what is checked of a certificate and its key, how the
    pair is stored as one text and taken apart again, and when it needs attention.

    Reading X.509 and PEM is the Go standard library's: [X509] and [PEM] say what the code relies
    on. *)
From stdpp Require Import base tactics numbers strings list.
From Stdlib Require Import ZArith Lia.
From Stdlib Require Ascii.
From S2P Require Import Prelude GoLang Time Effects Kernel.

Definition newline : Ascii.ascii := Ascii.ascii_of_N 10.
Definition newline_text : string := of_bytes [newline].

(** * The standard library *)

(** [tls.X509KeyPair] and the leaf it parses: the subject's common name and [NotAfter], or the
    text of the error. *)
Class X509 := { KeyPair : string -> string -> outcome (string * Z) }.

(** A PEM block: its type, its headers and its bytes. *)
Record Block := MkBlock { bl_Type : string; bl_Headers : list (string * string); bl_Bytes : string }.
(** [pem.Decode] gives the next block and what follows it; [pem.EncodeToMemory] prints one. *)
Class PEM := { pem_Decode : string -> option (Block * string); pem_Encode : Block -> string }.
(** What the documentation promises: what was printed is read first, what follows it is left
    over, an empty text holds no block, the text left over is shorter, and a printed block ends in
    one line break after a character that is none. *)
Class PEMLaws `{PEM} := {
  pem_roundtrip : forall b rest, pem_Decode (pem_Encode b +:+ rest) = Some (b, rest);
  pem_empty : pem_Decode "" = None;
  pem_shorter : forall s b rest, pem_Decode s = Some (b, rest) -> (String.length rest < String.length s)%nat;
  pem_line : forall b, exists s c, bytes_of (pem_Encode b) = bytes_of s ++ [c; newline] /\ c <> newline;
}.

(** * Certificates *)

(* go: kernel/certs/certs.go MaxPEMBytes *)
Definition MaxPEMBytes : Z := 128 * 1024.
(* go: kernel/certs/certs.go Summary *)
Record Summary := MkSummary { sm_Subject : string; sm_ExpiresAt : string }.

(** [t.Format(time.RFC3339)] *)
Definition rfc3339 (t : Z) : string := rfc3339nano (t - t mod second).

(* go: kernel/certs/certs.go Inspect *)
Definition Inspect `{X509} (certPEM keyPEM : string) : outcome Summary :=
  if (MaxPEMBytes <? slen certPEM) || (MaxPEMBytes <? slen keyPEM)
  then Err (EText "a certificate or key longer than 128 KiB is not one")
  else match KeyPair certPEM keyPEM with
    | Err err => Err (EWrap "the certificate and key are not a usable pair" err)
    | Ok (subject, notAfter) => Ok (MkSummary subject (rfc3339 notAfter))
    end.

(** [strings.TrimRight(s, "\n")] *)
Fixpoint drop_newlines (l : list Ascii.ascii) : list Ascii.ascii :=
  match l with [] => [] | c :: l' => if code c =? 10 then drop_newlines l' else l end.
Definition trim_newlines (s : string) : string := of_bytes (rev (drop_newlines (rev (bytes_of s)))).

(* go: kernel/certs/certs.go Bundle *)
Definition Bundle (certPEM keyPEM : string) : string :=
  trim_newlines certPEM +:+ newline_text +:+ trim_newlines keyPEM +:+ newline_text.

Definition CertificateType : string := "CERTIFICATE".
(** The loop of [Split]; the text left over gets shorter, so its length is fuel enough. *)
(* go: kernel/certs/certs.go:91-106 Decode *)
Fixpoint split_blocks `{PEM} (fuel : nat) (rest chain key : string) : string * string :=
  match fuel with
  | O => (chain, key)
  | S fuel => match pem_Decode rest with
    | None => (chain, key)
    | Some (block, rest) =>
        let encoded := pem_Encode block in
        if String.eqb (bl_Type block) CertificateType then split_blocks fuel rest (chain +:+ encoded) key
        else split_blocks fuel rest chain (key +:+ encoded)
    end
  end.
(* go: kernel/certs/certs.go Split *)
Definition Split `{PEM} (bundled : string) : string * string := split_blocks (S (String.length bundled)) bundled "" "".

Definition Expiring : string := "expiring".
Definition Expired : string := "expired".
Definition Fresh : string := "fresh".
Definition ExpiryWarning : Z := 14 * 24 * hour.

(** Both layouts of the code read the same texts: [time.Parse] takes a fraction of a second
    whether the layout has one or not. *)
(* go: kernel/certs/certs.go Life *)
Definition Life (expiresAt : string) (at_ : Z) : string * Z * bool :=
  if is_empty expiresAt then (Fresh, 0, false)
  else match parse_time expiresAt with
    | None => (Fresh, 0, false)
    | Some t =>
        let left := time_sub t at_ in
        if left <=? 0 then (Expired, left, true)
        else if left <=? ExpiryWarning then (Expiring, left, true)
        else (Fresh, left, true)
    end.
Example Life_example :
  let at_ := 1709210096 * second in
  map (fun d => fst (fst (Life (rfc3339 (at_ + d)) at_))) [-1; 0; second; 14 * 24 * hour; 14 * 24 * hour + second]
  = [Expired; Expired; Expiring; Expiring; Fresh].
Proof. vm_compute. reflexivity. Qed.

(** * What was bundled comes apart again *)

Lemma drop_newlines_end l c : c <> newline -> rev (drop_newlines (rev (l ++ [c; newline]))) = l ++ [c].
Proof.
  intros Hc. rewrite rev_app_distr. cbn [rev app drop_newlines].
  change (code newline =? 10) with true. cbv iota.
  destruct (Z.eqb_spec (code c) 10) as [E|_]; [exfalso; apply Hc, code_inj; by rewrite E|].
  simpl. by rewrite rev_involutive.
Qed.

Section bundle.
Context `{PEMLaws}.

Definition printed (bs : list Block) : string := fold_right (fun b s => pem_Encode b +:+ s) "" bs.

Lemma printed_snoc bs b : printed (bs ++ [b]) = printed bs +:+ pem_Encode b.
Proof.
  apply bytes_of_inj. induction bs as [|a bs IH]; simpl; [by rewrite bytes_of_app, app_nil_r|].
  by rewrite !bytes_of_app, IH, bytes_of_app, <- app_assoc.
Qed.

(** What was printed loses its last line break to [TrimRight] and gets it back from [Bundle]. *)
Lemma trim_printed bs : bs <> [] -> trim_newlines (printed bs) +:+ newline_text = printed bs.
Proof.
  intros Hne. destruct bs as [|b bs _] using rev_ind; [done|]. rewrite printed_snoc.
  destruct (pem_line b) as (s & c & E & Hc). apply bytes_of_inj. unfold trim_newlines, newline_text.
  rewrite bytes_of_app, !bytes_of_of, bytes_of_app, E, app_assoc, drop_newlines_end by done. by rewrite <- !app_assoc.
Qed.

Lemma split_printed bs : forall fuel rest chain key, (length bs <= fuel)%nat ->
  Forall (fun b => bl_Type b = CertificateType) bs ->
  split_blocks fuel (printed bs +:+ rest) chain key = split_blocks (fuel - length bs) rest (chain +:+ printed bs) key.
Proof.
  induction bs as [|b bs IH]; intros fuel rest chain key Hf Hall; simpl.
  - rewrite Nat.sub_0_r. f_equal. apply bytes_of_inj. by rewrite bytes_of_app, app_nil_r.
  - destruct fuel as [|fuel]; [simpl in Hf; lia|]. apply Forall_cons in Hall as [Hb Hall]. cbn [split_blocks].
    replace ((pem_Encode b +:+ printed bs) +:+ rest) with (pem_Encode b +:+ (printed bs +:+ rest))
      by (apply bytes_of_inj; by rewrite !bytes_of_app, app_assoc).
    rewrite pem_roundtrip, Hb, String.eqb_refl, IH by (simpl in Hf; lia || done). f_equal.
    apply bytes_of_inj. by rewrite !bytes_of_app, app_assoc.
Qed.

Lemma split_keys bs : forall fuel chain key, (length bs < fuel)%nat ->
  Forall (fun b => bl_Type b <> CertificateType) bs ->
  split_blocks fuel (printed bs) chain key = (chain, key +:+ printed bs).
Proof.
  induction bs as [|b bs IH]; intros fuel chain key Hf Hall; (destruct fuel as [|fuel]; [simpl in Hf; lia|]); cbn [split_blocks printed fold_right].
  - rewrite pem_empty. f_equal. apply bytes_of_inj. by rewrite bytes_of_app, app_nil_r.
  - apply Forall_cons in Hall as [Hb Hall]. rewrite pem_roundtrip, (proj2 (String.eqb_neq _ _)) by done.
    fold (printed bs). rewrite IH by (simpl in Hf; lia || done). f_equal. apply bytes_of_inj. by rewrite !bytes_of_app, app_assoc.
Qed.

Lemma printed_length bs : (length bs <= String.length (printed bs))%nat.
Proof.
  rewrite <- length_bytes_of. induction bs as [|b bs IH]; simpl; [lia|]. rewrite bytes_of_app, length_app.
  destruct (pem_line b) as (s & c & -> & _). rewrite length_app. simpl. lia.
Qed.

(** A chain of certificates and a key that [pem] prints come back from the bundle as they were. *)
Lemma split_bundle certs keys : certs <> [] -> keys <> [] ->
  Forall (fun b => bl_Type b = CertificateType) certs -> Forall (fun b => bl_Type b <> CertificateType) keys ->
  Split (Bundle (printed certs) (printed keys)) = (printed certs, printed keys).
Proof.
  intros Hc Hk Hcs Hks. assert (E : Bundle (printed certs) (printed keys) = printed certs +:+ printed keys).
  { unfold Bundle. rewrite <- (trim_printed certs Hc) at 2. rewrite <- (trim_printed keys Hk) at 2.
    apply bytes_of_inj. by rewrite !bytes_of_app, <- !app_assoc. }
  unfold Split. rewrite E. pose proof (printed_length certs). pose proof (printed_length keys).
  assert (String.length (printed certs +:+ printed keys) = String.length (printed certs) + String.length (printed keys))%nat as ->.
  { rewrite <- !length_bytes_of, bytes_of_app. apply length_app. }
  rewrite split_printed, split_keys by (done || lia). f_equal.
Qed.

(** Reading blocks comes to its end whatever the text: more fuel changes nothing. *)
Lemma split_enough : forall fuel rest chain key, (String.length rest < fuel)%nat ->
  split_blocks fuel rest chain key = split_blocks (S (String.length rest)) rest chain key.
Proof.
  assert (Hgen : forall n fuel fuel' rest chain key, (String.length rest < n)%nat -> (String.length rest < fuel)%nat ->
    (String.length rest < fuel')%nat -> split_blocks fuel rest chain key = split_blocks fuel' rest chain key).
  { induction n as [|n IH]; intros fuel fuel' rest chain key Hn Hf Hf'; [lia|].
    destruct fuel as [|fuel]; [lia|]. destruct fuel' as [|fuel']; [lia|]. cbn [split_blocks].
    destruct (pem_Decode rest) as [[b rest']|] eqn:E; [|done]. pose proof (pem_shorter _ _ _ E).
    destruct (String.eqb _ _); apply IH; lia. }
  intros. apply (Hgen (S (String.length rest))); lia.
Qed.
End bundle.

(** * A codec with the promises of PEM, for concrete runs *)

Module Toy.
Definition mark (n : N) : Ascii.ascii := Ascii.ascii_of_N n.
Definition enc_str (s : string) : list Ascii.ascii := concat (map (fun c => [mark 120; c]) (bytes_of s)) ++ [mark 46].
Definition enc (l : list string) : list Ascii.ascii := concat (map enc_str l) ++ [mark 101; newline].
Fixpoint dec (cur : list Ascii.ascii) (acc : list string) (l : list Ascii.ascii) : option (list string * list Ascii.ascii) :=
  match l with
  | c :: l' => if code c =? 46 then dec [] (acc ++ [of_bytes cur]) l'
               else match l' with
                    | d :: l'' => if code c =? 120 then dec (cur ++ [d]) acc l'' else if code c =? 101 then Some (acc, l'') else None
                    | [] => None
                    end
  | [] => None
  end.
Fixpoint flat (l : list (string * string)) : list string := match l with (a, b) :: l => a :: b :: flat l | [] => [] end.
Fixpoint paired (l : list string) : list (string * string) := match l with a :: b :: l => (a, b) :: paired l | _ => [] end.

Definition encode (b : Block) : string := of_bytes (enc (bl_Type b :: bl_Bytes b :: flat (bl_Headers b))).
Definition decode (s : string) : option (Block * string) :=
  match dec [] [] (bytes_of s) with
  | Some (ty :: bytes :: hs, rest) => Some (MkBlock ty (paired hs) bytes, of_bytes rest)
  | _ => None
  end.

Lemma dec_str s acc rest cur : dec cur acc (enc_str s ++ rest) = dec [] (acc ++ [of_bytes (cur ++ bytes_of s)]) rest.
Proof.
  unfold enc_str. revert cur. induction (bytes_of s) as [|c l IH]; intros cur; [by rewrite app_nil_r|].
  cbn [map concat app]. cbn [dec]. change (code (mark 120) =? 46) with false. change (code (mark 120) =? 120) with true. cbv iota.
  by rewrite IH, <- app_assoc.
Qed.
Lemma dec_enc l acc rest : dec [] acc (enc l ++ rest) = Some (acc ++ l, rest).
Proof.
  unfold enc. rewrite <- app_assoc. revert acc. induction l as [|s l IH]; intros acc; [by rewrite app_nil_r|].
  cbn [map concat]. rewrite <- app_assoc, dec_str, IH. simpl. by rewrite of_bytes_of, <- app_assoc.
Qed.
Lemma dec_shorter l : forall cur acc a rest, dec cur acc l = Some (a, rest) -> (length rest < length l)%nat.
Proof.
  induction l as [l IH] using (induction_ltof1 _ (@length _)). intros cur acc a rest. destruct l as [|c [|d l]]; cbn [dec]; [done|by destruct (_ =? _)|].
  destruct (code c =? 46); [|destruct (code c =? 120); [|destruct (code c =? 101); [|done]]]; intros Hd.
  - apply (IH (d :: l)) in Hd; unfold ltof in *; simpl in *; lia.
  - apply (IH l) in Hd; unfold ltof in *; simpl in *; lia.
  - injection Hd as <- <-. simpl. lia.
Qed.
Lemma paired_flat l : paired (flat l) = l.
Proof. induction l as [|[a b] l IH]; [done|]. simpl. by rewrite IH. Qed.

#[export] Instance pem : PEM := {| pem_Decode := decode; pem_Encode := encode |}.
#[export] Instance pem_laws : PEMLaws.
Proof.
  split; simpl.
  - intros [ty hs bytes] rest. unfold decode, encode. rewrite bytes_of_app, bytes_of_of, dec_enc. simpl. by rewrite paired_flat, of_bytes_of.
  - done.
  - intros s b rest. unfold decode. destruct (dec _ _ _) as [[[|ty [|bytes hs]] r]|] eqn:E; intros H; try done. injection H as <- <-.
    apply dec_shorter in E. rewrite length_bytes_of in E. by rewrite <- length_bytes_of, bytes_of_of.
  - intros b. unfold encode, enc. exists (of_bytes (concat (map enc_str (bl_Type b :: bl_Bytes b :: flat (bl_Headers b))))), (mark 101).
    rewrite !bytes_of_of. split; [done|]. intros H. vm_compute in H. discriminate.
Qed.
End Toy.
