(* ===== verification/CertWatch.v ===== *)
(** Certificates that need attention, as the modules that present certificates watch them
    (platform/balancer/expiry.go and platform/forward/expiry.go do the same): a map in memory of
    the state last told of each certificate, and a sweep that tells what changed. *)
From stdpp Require Import base tactics numbers strings list gmap.
From Stdlib Require Import ZArith Lia.
From S2P Require Import Prelude GoLang Time Effects Kernel Certs.

(** [T] owns the map: [get] and [put] read it and make it. *)
Section watch.
Context {S T : Type} `{!Has T S} (get : T -> gmap string string) (put : gmap string string -> T).

(** Under the mutex: forget the certificate, or note the state; whether it is a new one. *)
Definition note_expiry (id state : string) : M S bool :=
  locked (fun t => if is_empty state then (false, put (delete id (get t)))
    else if bool_decide (get t !! id = Some state) then (false, t)
    else (true, put (<[id := state]> (get t)))).
Definition forget_expiry (held : list string) : M S unit :=
  locked (fun t => (tt, put (filter (fun e => e.1 ∈ held) (get t)))).

(** What is watched: the id of a row, whether it has a certificate, its expiry, and the event that
    tells of it. *)
Context {R : Type} (id_of : R -> string) (present : R -> bool) (expires : R -> string) (event_of : R -> string -> Z -> Entry).

Definition watch_one (b : R) (told : Z) : M S Z :=
  if negb (present b) then ret told
  else
    let! at_ := now in
    let '(state, remaining, readable) := Life (expires b) at_ in
    if negb readable || String.eqb state Fresh then note_expiry (id_of b) "" ;;; ret told
    else
      let! first := note_expiry (id_of b) state in
      if first : bool then record (event_of b state remaining) ;;; ret (told + 1) else ret told.

(** * What a sweep does, at one time *)

Context (clock : Z).
Definition at_time (env : Env) : Prop := forall n, env_now env n = clock.

(** The state a certificate is to be told in, and how long it has left. *)
Definition attention (b : R) : option (string * Z) :=
  let '(state, remaining, readable) := Life (expires b) clock in
  if present b && readable && negb (String.eqb state Fresh) then Some (state, remaining) else None.
(** The event of a row, given what was told before. *)
Definition news (e : gmap string string) (b : R) : list Entry :=
  match attention b with
  | Some (state, remaining) => if bool_decide (e !! id_of b = Some state) then [] else [event_of b state remaining]
  | None => []
  end.
(** What is remembered of a row once the sweep has seen it. *)
Definition remembered (b : R) (e : gmap string string) : option string :=
  match attention b with
  | Some (state, _) => Some state
  | None => if present b then None else e !! id_of b
  end.
(** What a sweep over the rows tells and remembers: [e] before, [e'] after. *)
Definition swept (rows : list R) (e e' : gmap string string) (evs evs' : list Entry) (told : Z) : Prop :=
  let new := concat (map (news e) rows) in
  told = len new /\ evs' = evs ++ new /\ (forall b, b ∈ rows -> e' !! id_of b = remembered b e) /\
  (forall id, id ∉ map id_of rows -> e' !! id = None).

Lemma life_state text t : let '(state, _, _) := Life text t in is_empty state = false.
Proof. unfold Life. destruct (is_empty text); [done|]. destruct (parse_time text); [|done]. cbv zeta. destruct (_ <=? 0); [done|]. by destruct (_ <=? _). Qed.

(** Right after a sweep there is nothing to tell. *)
Lemma swept_news rows e e' evs evs' told : swept rows e e' evs evs' told -> concat (map (news e') rows) = [].
Proof.
  clear dependent put. clear dependent get. clear dependent T.
  intros (_ & _ & Hin & _). assert (Hv : forall b, b ∈ rows -> news e' b = []).
  { intros b Hb. specialize (Hin b Hb). unfold news, remembered in *. destruct (attention b) as [[st rem]|]; [|done]. by rewrite bool_decide_eq_true_2. }
  clear Hin. induction rows as [|b rows IH]; [done|]. simpl. rewrite Hv by set_solver. apply IH. intros x Hx. apply Hv. set_solver.
Qed.

(** [U] is what the map is apart from: the tables. *)
Context (Hget : forall e, get (put e) = e).
Context {U : Type} `{!Has U S, !Apart T U S}.

(** A critical section on what was told: the tables and the events stay. *)
Lemma wp_told {A} env (f : T -> A * T) (Q : outcome A -> World S -> Prop) w :
  (forall w', part w' = snd (f (part w)) -> part w' = part (T:=U) w -> w_events w' = w_events w -> Q (Ok (fst (f (part w)))) w') ->
  wp env (locked f) Q w.
Proof.
  intros HQ. unfold wp, locked. change (hget (w_st w)) with (part (T:=T) w). destruct (f _) as [a t] eqn:E.
  apply HQ; unfold part; simpl; [by rewrite hget_hput|apply apart|done].
Qed.

Definition seen_one (b : R) (e e' : gmap string string) : Prop :=
  e' !! id_of b = remembered b e /\ forall id, id <> id_of b -> e' !! id = e !! id.

Lemma watch_one_wp env b told (w : World S) : at_time env ->
  wp env (watch_one b told) (fun r w' => r = Ok (told + len (news (get (part w)) b)) /\
    w_events w' = w_events w ++ news (get (part w)) b /\ seen_one b (get (part w)) (get (part w')) /\
    part w' = part (T:=U) w) w.
Proof.
  intros Henv. unfold watch_one, news, seen_one, remembered, attention. destruct (present b) eqn:Ep; cbn [negb].
  2:{ rewrite wp_ret. destruct (Life _ _) as [[st rem] rd]. cbn [andb]. by rewrite app_nil_r, Z.add_0_r. }
  apply wp_bind. rewrite wp_now. cbn beta iota. rewrite (Henv (w_step w)). pose proof (life_state (expires b) clock) as Hst.
  destruct (Life _ _) as [[st rem] rd]. cbn [andb].
  change (part (T:=T) (tick w)) with (part (T:=T) w). destruct (negb rd || String.eqb st Fresh) eqn:E.
  - assert (E' : rd && negb (String.eqb st Fresh) = false) by (rewrite <- negb_true_iff, negb_andb, negb_involutive; done). rewrite E'.
    apply wp_bind, wp_told. intros w' H1 H2 H3. rewrite wp_ret. cbn [fst snd] in *. change (is_empty "") with true in H1. cbv iota in H1.
    rewrite H3. cbn [length]. rewrite app_nil_r, Z.add_0_r. split_and!; [done..| | |exact H2]; rewrite H1; cbn [snd]; rewrite Hget.
    + by rewrite lookup_delete_eq.
    + intros id Hne. by rewrite lookup_delete_ne.
  - assert (E' : rd && negb (String.eqb st Fresh) = true) by (rewrite <- negb_false_iff, negb_andb, negb_involutive; done). rewrite E'.
    apply wp_bind, wp_told. intros w' H1 H2 H3. cbn beta iota. rewrite Hst in *. cbv iota in H1 |- *.
    change (part (T:=T) (tick w)) with (part (T:=T) w) in *. destruct (bool_decide (get (part w) !! id_of b = Some st)) eqn:Eb; cbn [fst snd] in *.
    + rewrite wp_ret, H3. cbn [length]. rewrite app_nil_r, Z.add_0_r. split_and!; [done..| | |exact H2]; rewrite H1; [by apply bool_decide_eq_true in Eb|done].
    + apply wp_bind. rewrite wp_record. cbn beta iota. rewrite wp_ret. cbn [w_events length]. rewrite H3.
      change (part (T:=T) (MkWorld (w_st w') (w_step w') (w_events (tick w) ++ [event_of b st rem]))) with (part (T:=T) w').
      split_and!; [done..| | |exact H2]; rewrite H1, Hget.
      * by rewrite lookup_insert_eq.
      * intros id Hne. by rewrite lookup_insert_ne.
Qed.

(** The whole loop: every row once, each judged by what was told before the sweep. *)
Lemma watch_loop env bs : at_time env -> NoDup (map id_of bs) -> forall told (w : World S),
  wp env (foldM watch_one bs told) (fun r w' =>
    let new := concat (map (news (get (part w))) bs) in
    r = Ok (told + len new) /\ w_events w' = w_events w ++ new /\ part w' = part (T:=U) w /\
    (forall b, b ∈ bs -> get (part w') !! id_of b = remembered b (get (part w))) /\
    (forall id, id ∉ map id_of bs -> get (part w') !! id = get (part w) !! id)) w.
Proof.
  intros Henv. induction bs as [|b bs IH]; intros Hnd told w; cbn [foldM map concat].
  - rewrite wp_ret, app_nil_r. cbn [length]. rewrite Z.add_0_r. split_and!; [done..|set_solver|done].
  - simpl in Hnd. apply NoDup_cons in Hnd as [Hn Hnd]. apply wp_bind. eapply wp_mono; [|by apply watch_one_wp].
    intros r w1 (-> & Hev & [Hme Hothers] & Hdb). eapply wp_mono; [|by apply IH].
    assert (Hsame : forall x, x ∈ bs -> id_of x <> id_of b).
    { intros x Hx E. apply Hn. rewrite <- E. by apply list_elem_of_fmap_2. }
    assert (Hnews : map (news (get (part w1))) bs = map (news (get (part w))) bs).
    { apply map_ext_in. intros x Hx%list_elem_of_In. unfold news. by rewrite (Hothers (id_of x)) by auto. }
    intros r w2 (-> & Hev2 & Hdb2 & Hin & Hout). rewrite Hnews in *. split_and!.
    + rewrite length_app, Nat2Z.inj_add. f_equal. lia.
    + by rewrite Hev2, Hev, app_assoc.
    + congruence.
    + intros x [->|Hx]%elem_of_cons; [by rewrite Hout|]. rewrite Hin by done. unfold remembered. by rewrite (Hothers (id_of x)) by auto.
    + intros id Hid. rewrite Hout by set_solver. apply Hothers. set_solver.
Qed.

(** The sweep over the rows it read. *)
Definition watch_all (known : list R) : M S Z :=
  let! told := foldM watch_one known 0 in
  forget_expiry (map id_of known) ;;;
  ret told.
Lemma watch_all_wp env bs (w : World S) : at_time env -> NoDup (map id_of bs) ->
  wp env (watch_all bs) (fun r w' => part w' = part (T:=U) w /\
    exists told, r = Ok told /\ swept bs (get (part w)) (get (part w')) (w_events w) (w_events w') told) w.
Proof.
  intros Henv Hnd. unfold watch_all. apply wp_bind. eapply wp_mono; [|by apply watch_loop].
  intros r w2 (-> & Hev2 & Hdb2 & Hin & Hout). cbn beta iota. apply wp_bind, wp_told. intros w3 Ht3 Hdb3 Hev3. rewrite wp_ret.
  split; [congruence|]. exists (0 + len (concat (map (news (get (part w))) bs))). split; [done|]. cbn [fst snd] in *. rewrite Ht3, Hget, Hev3. split_and!; [lia|done|..].
  - intros b Hb. rewrite map_lookup_filter, (Hin b Hb). destruct (remembered b _); [|done]. simpl. rewrite option_guard_True; [done|].
    by apply list_elem_of_fmap_2.
  - intros id Hid. rewrite map_lookup_filter. destruct (get (part w2) !! id); [|done]. simpl. by rewrite option_guard_False.
Qed.
End watch.
