(* ===== verification/Netip.v ===== *)
(** The package [net/netip] of the Go standard library, the part the address allocation
    uses: addresses and prefixes of both families as numbers, masking, containment,
    overlap, the successor of an address, and the text forms. *)
From stdpp Require Import base tactics numbers strings list gmap.
From Stdlib Require Import ZArith Lia.
From Stdlib Require Ascii.
From S2P Require Import Prelude GoLang.

(** * Addresses *)

(** A valid [netip.Addr] without zone: its family and its value. The zero [Addr] is [None]
    where it can occur. *)
Record Addr := MkAddr { a_is6 : bool; a_val : Z }.
#[export] Instance Addr_eq_dec : EqDecision Addr.
Proof. solve_decision. Defined.

Definition family_width (is6 : bool) : Z := if is6 then 128 else 32.
Definition BitLen (a : Addr) : Z := family_width (a_is6 a).
Definition Is4 (a : Addr) : bool := negb (a_is6 a).
Definition addr_wf (a : Addr) : Prop := 0 <= a_val a < 2 ^ BitLen a.
Definition addr_wfb (a : Addr) : bool := (0 <=? a_val a) && (a_val a <? 2 ^ BitLen a).

Definition Next (a : Addr) : option Addr :=
  if a_val a + 1 <? 2 ^ BitLen a then Some (MkAddr (a_is6 a) (a_val a + 1)) else None.
Definition Prev (a : Addr) : option Addr :=
  if 0 <? a_val a then Some (MkAddr (a_is6 a) (a_val a - 1)) else None.
(** [Is4In6]: ::ffff:0:0/96 *)
Definition Is4In6 (a : Addr) : bool := a_is6 a && (Z.shiftr (a_val a) 32 =? 65535).
(** [IsPrivate]: RFC 1918 or fc00::/7 *)
Definition IsPrivate (a : Addr) : bool :=
  if a_is6 a then Z.shiftr (a_val a) 121 =? 126
  else (Z.shiftr (a_val a) 24 =? 10) || (Z.shiftr (a_val a) 20 =? 2753)
       || (Z.shiftr (a_val a) 16 =? 49320).

(** Big-endian bytes. *)
Fixpoint be_bytes (n : nat) (v : Z) : list Z :=
  match n with
  | O => []
  | S n' => Z.shiftr v (8 * Z.of_nat n') mod 256 :: be_bytes n' v
  end.
Definition be_value (l : list Z) : Z := fold_left (fun acc b => acc * 256 + b) l 0.
Definition AsSlice (a : Addr) : list Z := be_bytes (Z.to_nat (BitLen a / 8)) (a_val a).
Definition AddrFromSlice (l : list Z) : option Addr :=
  if (length l =? 4)%nat then Some (MkAddr false (be_value l))
  else if (length l =? 16)%nat then Some (MkAddr true (be_value l))
  else None.

(** * Prefixes *)

Record Prefix := PrefixFrom { p_addr : Addr; p_bits : Z }.
#[export] Instance Prefix_eq_dec : EqDecision Prefix.
Proof. solve_decision. Defined.

(** The number of addresses of a prefix. *)
Definition host_size (p : Prefix) : Z := 2 ^ (BitLen (p_addr p) - p_bits p).
Definition prefix_wf (p : Prefix) : Prop :=
  addr_wf (p_addr p) /\ 0 <= p_bits p <= BitLen (p_addr p).
Definition mask (a : Addr) (bits : Z) : Addr :=
  let h := 2 ^ (BitLen a - bits) in MkAddr (a_is6 a) (a_val a / h * h).
Definition Masked (p : Prefix) : Prefix := PrefixFrom (mask (p_addr p) (p_bits p)) (p_bits p).
Definition Contains (p : Prefix) (a : Addr) : bool :=
  Bool.eqb (a_is6 (p_addr p)) (a_is6 a) &&
  (a_val (p_addr p) / host_size p =? a_val a / host_size p).
Definition Overlaps (p o : Prefix) : bool :=
  if decide (p = o) then true
  else if negb (Bool.eqb (Is4 (p_addr p)) (Is4 (p_addr o))) then false
  else let minBits := if p_bits p <? p_bits o then p_bits p else p_bits o in
       if minBits =? 0 then true
       else bool_decide (mask (p_addr p) minBits = mask (p_addr o) minBits).

(** * Parsing *)

Definition dot : Ascii.ascii := Ascii.ascii_of_N 46.
Definition colon : Ascii.ascii := Ascii.ascii_of_N 58.
Definition slash : Ascii.ascii := Ascii.ascii_of_N 47.

(** [parseIPv4Fields]: the state is the value and number of digits of the current octet
    and the octets before it, the last one first. *)
Fixpoint parse4 (val digLen : Z) (fields : list Z) (prevDot first : bool)
    (s : list Ascii.ascii) : option (list Z) :=
  match s with
  | [] => if (length fields =? 3)%nat then Some (rev (val :: fields)) else None
  | c :: s' =>
      if (48 <=? code c) && (code c <=? 57) then
        if (digLen =? 1) && (val =? 0) then None
        else let val' := val * 10 + (code c - 48) in
             if 255 <? val' then None else parse4 val' (digLen + 1) fields false false s'
      else if code c =? code dot then
        if first || prevDot || match s' with [] => true | _ => false end then None
        else if (length fields =? 3)%nat then None
        else parse4 0 0 (val :: fields) true false s'
      else None
  end.
Definition parse4_fields (s : list Ascii.ascii) : option (list Z) := parse4 0 0 [] false true s.

Definition hex_digit (c : Ascii.ascii) : option Z :=
  if (48 <=? code c) && (code c <=? 57) then Some (code c - 48)
  else if (97 <=? code c) && (code c <=? 102) then Some (code c - 87)
  else if (65 <=? code c) && (code c <=? 70) then Some (code c - 55)
  else None.
(** The leading hexadecimal digits of [s]: their number, value and the rest; [None] for a
    group of more than four digits. *)
Fixpoint hex_group (off acc : Z) (s : list Ascii.ascii) : option (Z * Z * list Ascii.ascii) :=
  match s with
  | c :: s' =>
      match hex_digit c with
      | Some d => if 3 <? off then None else hex_group (off + 1) (acc * 16 + d) s'
      | None => Some (off, acc, s)
      end
  | [] => Some (off, acc, [])
  end.
(** The groups of an IPv6 address: the bytes read so far, the position of the ellipsis. *)
Fixpoint parse6_groups (fuel : nat) (ip : list Z) (ellipsis : option nat)
    (s : list Ascii.ascii) : option (list Z * option nat * list Ascii.ascii) :=
  match fuel with
  | O => Some (ip, ellipsis, s)
  | S fuel' =>
      match hex_group 0 0 s with
      | None => None
      | Some (off, acc, rest) =>
          if off =? 0 then None
          else
            match rest with
            | c :: rest' =>
                if code c =? code dot then
                  if match ellipsis with None => negb (length ip =? 12)%nat | Some _ => false end
                  then None
                  else if (16 <? length ip + 4)%nat then None
                  else match parse4_fields s with
                       | Some f => Some (ip ++ f, ellipsis, [])
                       | None => None
                       end
                else
                  let ip' := ip ++ [acc / 256; acc mod 256] in
                  if negb (code c =? code colon) then None
                  else
                    match rest' with
                    | [] => None
                    | d :: rest'' =>
                        if code d =? code colon then
                          match ellipsis with
                          | Some _ => None
                          | None =>
                              match rest'' with
                              | [] => Some (ip', Some (length ip'), [])
                              | _ => parse6_groups fuel' ip' (Some (length ip')) rest''
                              end
                          end
                        else parse6_groups fuel' ip' ellipsis rest'
                    end
            | [] => Some (ip ++ [acc / 256; acc mod 256], ellipsis, [])
            end
      end
  end.
Definition parse6_finish (r : option (list Z * option nat * list Ascii.ascii)) : option Addr :=
  match r with
  | Some (ip, ellipsis, []) =>
      if (length ip <? 16)%nat then
        match ellipsis with
        | None => None
        | Some e =>
            Some (MkAddr true (be_value (take e ip ++ replicate (16 - length ip) 0 ++ drop e ip)))
        end
      else match ellipsis with
           | Some _ => None
           | None => Some (MkAddr true (be_value ip))
           end
  | _ => None
  end.
Definition parse6 (s : list Ascii.ascii) : option Addr :=
  match s with
  | c :: d :: s' =>
      if (code c =? code colon) && (code d =? code colon) then
        match s' with
        | [] => Some (MkAddr true 0)
        | _ => parse6_finish (parse6_groups 8 [] (Some O) s')
        end
      else parse6_finish (parse6_groups 8 [] None s)
  | _ => parse6_finish (parse6_groups 8 [] None s)
  end.
(** [ParseAddr] for an address without zone; one with a zone ("%") is refused by
    [ParsePrefix] and here. *)
Fixpoint addr_kind (s : list Ascii.ascii) : option bool :=
  match s with
  | [] => None
  | c :: s' =>
      if code c =? code dot then Some false
      else if code c =? code colon then Some true
      else if code c =? 37 then None else addr_kind s'
  end.
Definition ParseAddr (s : list Ascii.ascii) : option Addr :=
  match addr_kind s with
  | Some false => option_map (fun f => MkAddr false (be_value f)) (parse4_fields s)
  | Some true => parse6 s
  | None => None
  end.
(** The text before and after the last slash. *)
Definition split_last_slash (s : list Ascii.ascii) : option (list Ascii.ascii * list Ascii.ascii) :=
  match index_byte_l (rev s) slash with
  | Some i => Some (take (length s - S i) s, drop (length s - i) s)
  | None => None
  end.
Definition ParsePrefix (cidr : string) : option Prefix :=
  match split_last_slash (bytes_of cidr) with
  | None => None
  | Some (host, bitsStr) =>
      match ParseAddr host with
      | None => None
      | Some ip =>
          if (1 <? len bitsStr) &&
             match bitsStr with c :: _ => (code c <? 49) || (57 <? code c) | [] => false end
          then None
          else match atoi (of_bytes bitsStr) with
               | Some bits => if (bits <? 0) || (BitLen ip <? bits) then None
                              else Some (PrefixFrom ip bits)
               | None => None
               end
      end
  end.

(** * Text *)

Definition hex_char (d : Z) : Ascii.ascii :=
  Ascii.ascii_of_N (Z.to_N (if d <? 10 then 48 + d else 87 + d)).
Fixpoint hex_digits (fuel : nat) (n : Z) : list Ascii.ascii :=
  match fuel with
  | O => []
  | S fuel' => if n <? 16 then [hex_char n] else hex_digits fuel' (n / 16) ++ [hex_char (n mod 16)]
  end.
Definition string4 (v : Z) : string := join (map itoa (be_bytes 4 v)) ".".
Fixpoint hextets (n : nat) (v : Z) : list Z :=
  match n with
  | O => []
  | S n' => Z.shiftr v (16 * Z.of_nat n') mod 65536 :: hextets n' v
  end.
Fixpoint zero_run (l : list Z) : nat :=
  match l with
  | x :: l' => if x =? 0 then S (zero_run l') else O
  | [] => O
  end.
(** The first longest run of at least two zero groups: its start and end. *)
Fixpoint longest_run (i : nat) (l : list Z) (best : nat * nat) : nat * nat :=
  match l with
  | [] => best
  | _ :: l' =>
      let r := zero_run l in
      longest_run (S i) l'
        (if ((2 <=? r) && (snd best - fst best <? r))%nat then (i, (i + r)%nat) else best)
  end.
Definition string6 (v : Z) : string :=
  let hs := hextets 8 v in
  let '(zs, ze) := longest_run 0 hs (O, O) in
  let text l := join (map (fun h => of_bytes (hex_digits 4 h)) l) ":" in
  if (zs =? ze)%nat then text hs
  else text (take zs hs) +:+ "::" +:+ text (drop ze hs).
Definition addr_String (a : Addr) : string :=
  if a_is6 a then
    if Is4In6 a then "::ffff:" +:+ string4 (a_val a mod 2 ^ 32) else string6 (a_val a)
  else string4 (a_val a).
Definition prefix_String (p : Prefix) : string := addr_String (p_addr p) +:+ "/" +:+ itoa (p_bits p).

Example parse_v4 : ParsePrefix "10.20.0.0/16" = Some (PrefixFrom (MkAddr false 169082880) 16).
Proof. vm_compute. reflexivity. Qed.
Example parse_v6 : option_map prefix_String (ParsePrefix "fd00:0:0:1::/64") = Some "fd00:0:0:1::/64".
Proof. vm_compute. reflexivity. Qed.
Example parse_v6_mixed : option_map prefix_String (ParsePrefix "1:0:0:2::10.0.0.1/8")
  = Some "1::2:0:0:a00:1/8".
Proof. vm_compute. reflexivity. Qed.
Example parse_refused : map ParsePrefix ["10.0.0/8"; "10.0.0.0/33"; "10.0.0.01/8"; "::1::/8"; "10.0.0.0"; "1.2.3.4/08"]
  = [None; None; None; None; None; None].
Proof. vm_compute. reflexivity. Qed.

(** * Lemmas *)

Lemma addr_wfb_spec a : addr_wfb a = true <-> addr_wf a.
Proof. unfold addr_wfb, addr_wf. rewrite andb_true_iff, Z.leb_le, Z.ltb_lt. tauto. Qed.

Lemma host_size_pos p : prefix_wf p -> 0 < host_size p.
Proof. intros [_ ?]. unfold host_size. apply Z.pow_pos_nonneg; lia. Qed.

Lemma BitLen_nonneg a : 0 <= BitLen a.
Proof. unfold BitLen, family_width. destruct (a_is6 a); lia. Qed.

(** The address space is a whole number of blocks of any prefix length. *)
Lemma block_count p : prefix_wf p -> 2 ^ BitLen (p_addr p) = 2 ^ p_bits p * host_size p.
Proof. intros [_ ?]. unfold host_size. rewrite <- Z.pow_add_r by lia. f_equal. lia. Qed.

Lemma Masked_wf p : prefix_wf p -> prefix_wf (Masked p).
Proof.
  intros Hwf. pose proof (host_size_pos p Hwf) as Hs. destruct Hwf as [Ha Hb].
  split; [|done]. unfold addr_wf, Masked, mask, BitLen in *. simpl.
  fold (BitLen (p_addr p)) in *. change (2 ^ (BitLen (p_addr p) - p_bits p)) with (host_size p).
  pose proof (Z.mul_div_le (a_val (p_addr p)) (host_size p) Hs).
  assert (0 <= a_val (p_addr p) / host_size p) by (apply Z.div_pos; lia). nia.
Qed.

Definition masked (p : Prefix) : Prop := a_val (p_addr p) mod host_size p = 0.

Lemma Masked_masked p : prefix_wf p -> masked (Masked p).
Proof.
  intros Hwf. pose proof (host_size_pos p Hwf) as H. apply (Z.mod_mul _ (host_size p)). lia.
Qed.

Lemma masked_val p : prefix_wf p -> masked p ->
  a_val (p_addr p) = a_val (p_addr p) / host_size p * host_size p.
Proof.
  intros Hwf Hm. pose proof (host_size_pos p Hwf). unfold masked in Hm.
  pose proof (Z.div_mod (a_val (p_addr p)) (host_size p)). lia.
Qed.

(** A masked prefix contains the addresses from its own to the last of its block. *)
Lemma Contains_spec p a : prefix_wf p -> masked p ->
  Contains p a = true <->
  a_is6 a = a_is6 (p_addr p) /\
  a_val (p_addr p) <= a_val a < a_val (p_addr p) + host_size p.
Proof.
  intros Hwf Hm. pose proof (host_size_pos p Hwf) as Hs. pose proof (masked_val p Hwf Hm) as Hv.
  unfold Contains. rewrite andb_true_iff, Bool.eqb_true_iff, Z.eqb_eq.
  set (q := a_val (p_addr p) / host_size p) in *. rewrite Hv. split.
  - intros [-> Hq]. split; [done|].
    pose proof (Z.div_mod (a_val a) (host_size p)). pose proof (Z.mod_pos_bound (a_val a) (host_size p)).
    rewrite <- Hq in *. nia.
  - intros [-> Hr]. split; [done|]. apply Z.div_unique with (a_val a - q * host_size p); [left|]; lia.
Qed.

Lemma Contains_self p : Contains p (p_addr p) = true.
Proof. unfold Contains. by rewrite Bool.eqb_reflx, Z.eqb_refl. Qed.

Lemma host_size_mono p b : 0 <= b <= p_bits p -> p_bits p <= BitLen (p_addr p) ->
  2 ^ (BitLen (p_addr p) - b) = 2 ^ (p_bits p - b) * host_size p.
Proof. intros. unfold host_size. rewrite <- Z.pow_add_r by lia. f_equal. lia. Qed.

Lemma overlap_le p o : prefix_wf p -> prefix_wf o -> masked p -> masked o ->
  p_bits p <= p_bits o -> a_is6 (p_addr p) = a_is6 (p_addr o) ->
  (mask (p_addr p) (p_bits p) = mask (p_addr o) (p_bits p) <->
   exists a, Contains p a = true /\ Contains o a = true).
Proof.
  intros Hp Ho Hmp Hmo Hb Hfam.
  assert (HB : BitLen (p_addr p) = BitLen (p_addr o)) by (unfold BitLen; by rewrite Hfam).
  pose proof (host_size_pos p Hp) as Hsp. pose proof (host_size_pos o Ho) as Hso.
  assert (Hk : host_size p = 2 ^ (p_bits o - p_bits p) * host_size o).
  { destruct Hp, Ho. rewrite <- host_size_mono by lia. unfold host_size. by rewrite HB. }
  assert (Hkp : 0 < 2 ^ (p_bits o - p_bits p)) by (apply Z.pow_pos_nonneg; lia).
  unfold mask. rewrite <- HB. change (2 ^ (BitLen (p_addr p) - p_bits p)) with (host_size p).
  split.
  - intros H. injection H as _ Hq. exists (p_addr o). split; [|apply Contains_self].
    apply Contains_spec; [done|done|]. split; [done|].
    pose proof (masked_val p Hp Hmp).
    pose proof (Z.div_mod (a_val (p_addr o)) (host_size p)).
    pose proof (Z.mod_pos_bound (a_val (p_addr o)) (host_size p)). nia.
  - intros (a & Ha1 & Ha2). rewrite Hfam. f_equal.
    unfold Contains in Ha1, Ha2. apply andb_true_iff in Ha1 as [_ Ha1], Ha2 as [_ Ha2].
    breflect. f_equal. rewrite Ha1, Hk, (Z.mul_comm _ (host_size o)), <- !Z.div_div by lia.
    congruence.
Qed.

Lemma mask_zero p o : prefix_wf p -> prefix_wf o -> a_is6 (p_addr p) = a_is6 (p_addr o) ->
  mask (p_addr p) 0 = mask (p_addr o) 0.
Proof.
  intros [Hp _] [Ho _] Hf. unfold mask. rewrite Hf. f_equal.
  unfold addr_wf, BitLen in *. rewrite Hf in *. rewrite !Z.sub_0_r, !Z.div_small by lia. done.
Qed.

Lemma Contains_family p o a : Contains p a = true -> Contains o a = true ->
  a_is6 (p_addr p) = a_is6 (p_addr o).
Proof.
  unfold Contains. intros H1 H2. apply andb_true_iff in H1 as [H1 _], H2 as [H2 _].
  apply Bool.eqb_prop in H1, H2. congruence.
Qed.

(** Two valid masked prefixes overlap exactly when some address is in both. *)
Lemma Overlaps_spec p o : prefix_wf p -> prefix_wf o -> masked p -> masked o ->
  Overlaps p o = true <-> exists a, Contains p a = true /\ Contains o a = true.
Proof.
  intros Hp Ho Hmp Hmo. unfold Overlaps.
  destruct (decide (p = o)) as [->|Hne].
  { split; [|done]. intros _. exists (p_addr o). split; apply Contains_self. }
  unfold Is4. destruct (Bool.eqb (negb (a_is6 (p_addr p))) (negb (a_is6 (p_addr o)))) eqn:Ef; simpl.
  2:{ split; [done|]. intros (a & Ha1 & Ha2). pose proof (Contains_family _ _ _ Ha1 Ha2) as E.
      by rewrite E, Bool.eqb_reflx in Ef. }
  apply Bool.eqb_prop, (f_equal negb) in Ef. rewrite !negb_involutive in Ef.
  destruct (Z.ltb_spec (p_bits p) (p_bits o)) as [Hlt|Hge].
  - rewrite <- overlap_le by (auto; lia).
    destruct (Z.eqb_spec (p_bits p) 0) as [E|_]; [|apply bool_decide_eq_true].
    rewrite E. split; [|done]. intros _. by apply mask_zero.
  - transitivity (exists a, Contains o a = true /\ Contains p a = true); [|naive_solver].
    rewrite <- overlap_le by (auto; lia).
    destruct (Z.eqb_spec (p_bits o) 0) as [E|_].
    + rewrite E. split; [|done]. intros _. by apply mask_zero.
    + rewrite bool_decide_eq_true. split; intros; by symmetry.
Qed.
