(* ===== verification/Ipam.v ===== *)
(** Address management (internal/platform/network/ipam.go): the arithmetic on prefixes, the
    search for a free slice, block or address, and the names derived from random bytes.

    The maps keyed by the text of an address or prefix are lists of the addresses and
    prefixes themselves: the text [netip] prints is canonical, so two texts are equal
    exactly when the values are.  The scanning loops run at most [2^129] rounds, one more
    than twice the number of addresses there are ([scan_spec] and [nextAddress_spec] show
    they always leave by a [return]). *)
From stdpp Require Import base tactics numbers strings list gmap.
From Stdlib Require Import ZArith Lia.
From Stdlib Require Ascii.
From S2P Require Import Prelude GoLang Effects Netip.

(** * Constants (types.go) *)

Definition DefaultName : string := "default".
Definition DefaultCIDR : string := "10.20.0.0/16".
Definition SupernetCIDR : string := "10.0.0.0/8".
Definition ProjectBits : Z := 16.
Definition SliceBits : Z := 26.
Definition SliceBitsV6 : Z := 64.
Definition bridgePrefix : string := "msbr-".
Definition reservedSlices : nat := 1.

(** More rounds than there are addresses. *)
Definition rounds : positive := Z.to_pos (2 ^ 129).

(* go: platform/network/ipam.go parsePrefix *)
Definition parsePrefix (cidr : string) : outcome Prefix :=
  match ParsePrefix cidr with
  | None => Err (EWrap ("parse " +:+ quoted cidr) (EText "invalid prefix"))
  | Some prefix =>
      if Is4In6 (p_addr prefix)
      then Err (EText (quoted cidr +:+ " is an IPv4 address written as IPv6; write it as IPv4"))
      else Ok (Masked prefix)
  end.

(** The zero [Addr] that [Next] gives past the end of the address space is [None]. *)
(* go: platform/network/ipam.go gatewayOf *)
Definition gatewayOf (prefix : Prefix) : option Addr := Next (p_addr prefix).

(* go: platform/network/ipam.go sliceBitsFor *)
Definition sliceBitsFor (network : Prefix) : Z :=
  if Is4 (p_addr network) then SliceBits else SliceBitsV6.

(** The loop of [addPowerOfTwo]: add [carry] to byte [i] and ripple the carry to the left.
    Gives the bytes and the carry left over. *)
Fixpoint ripple (i : nat) (carry : Z) (raw : list Z) : list Z * Z :=
  let x := nth i raw 0 in
  let sum := (x + carry) mod 256 in
  let raw' := <[i := sum]> raw in
  if negb (sum <? x) then (raw', 0)
  else match i with
       | O => (raw', 1)
       | S i' => ripple i' 1 raw'
       end.

(* go: platform/network/ipam.go addPowerOfTwo *)
Definition addPowerOfTwo (addr : Addr) (exponent : Z) : Addr * bool :=
  let raw := AsSlice addr in
  let byteIndex := len raw - 1 - exponent / 8 in
  if byteIndex <? 0 then (addr, true)
  else
    let '(raw, carry) := ripple (Z.to_nat byteIndex) (2 ^ (exponent mod 8)) raw in
    if negb (carry =? 0) then (addr, true)
    else match AddrFromSlice raw with
         | Some out => (out, false)
         | None => (addr, false)
         end.

(* go: platform/network/ipam.go advance *)
Definition advance (prefix : Prefix) : outcome Prefix :=
  let width := BitLen (p_addr prefix) in
  let '(next, carried) := addPowerOfTwo (p_addr prefix) (width - p_bits prefix) in
  if carried : bool then Err (EText ("address space exhausted after " +:+ prefix_String prefix))
  else Ok (PrefixFrom next (p_bits prefix)).

(** The loop shared by [nextSlice] and [freePrefix]: step through the blocks inside
    [within] until one is free. *)
(* go: platform/network/ipam.go:49-60 Contains *)
Definition scan_step (within : Prefix) (free : Prefix -> bool) (none_left : error)
    (candidate : Prefix) : Prefix + outcome Prefix :=
  if Contains within (p_addr candidate) then
    if free candidate then inr (Ok candidate)
    else match advance candidate with
         | Ok next => inl next
         | Err e => inr (Err e)
         end
  else inr (Err none_left).
Definition scan (within : Prefix) (free : Prefix -> bool) (none_left : error)
    (candidate : Prefix) : outcome Prefix :=
  match while_pos rounds (scan_step within free none_left) candidate with
  | inr r => r
  | inl _ => Err none_left
  end.

(** [for range reservedSlices] of [nextSlice] *)
Fixpoint skip_slices (n : nat) (candidate : Prefix) : outcome Prefix :=
  match n with
  | O => Ok candidate
  | S n' => try next := advance candidate in skip_slices n' next
  end.

(* go: platform/network/ipam.go nextSlice *)
Definition nextSlice (network : Prefix) (taken : list Prefix) : outcome Prefix :=
  let bits := sliceBitsFor network in
  if bits <=? p_bits network
  then Err (EText ("network " +:+ prefix_String network +:+ " is too small to slice into /"
                   +:+ itoa bits))
  else
    let candidate := Masked (PrefixFrom (p_addr network) bits) in
    try candidate := skip_slices reservedSlices candidate in
    scan network (fun c => negb (bool_decide (c ∈ taken)))
      (EText ("network " +:+ prefix_String network +:+ " has no free /" +:+ itoa bits
              +:+ " slice left")) candidate.

(* go: platform/network/ipam.go isBroadcast *)
Definition isBroadcast (slice : Prefix) (addr : Addr) : bool :=
  if negb (Is4 (p_addr slice)) then false
  else
    let '(last, carried) := addPowerOfTwo (p_addr slice) (32 - p_bits slice) in
    if carried : bool then false else bool_decide (Some addr = Prev last).

Definition address_step (slice : Prefix) (taken : list Addr) (candidate : option Addr)
    : option Addr + option Addr :=
  match candidate with
  | None => inr None
  | Some a =>
      if negb (Contains slice a) then inr None
      else if isBroadcast slice a then inr None
      else if negb (bool_decide (a ∈ taken)) then inr (Some a)
      else inl (Next a)
  end.
(* go: platform/network/ipam.go nextAddress *)
Definition nextAddress (slice : Prefix) (taken : list Addr) : outcome Addr :=
  match while_pos rounds (address_step slice taken) (Next (p_addr slice)) with
  | inr (Some a) => Ok a
  | _ => Err (EText ("slice " +:+ prefix_String slice +:+ " has no free address left"))
  end.

(** [fmt.Sprintf("%02x", b)] *)
Definition hex02 (b : Z) : string := of_bytes [hex_char (b / 16); hex_char (b mod 16)].
(* go: platform/network/ipam.go randomMAC *)
Definition randomMAC {S} : M S string :=
  let! buf := rand in
  ret (join ("02" :: map hex02 (take 5 (map (fun b => b mod 256) buf ++ replicate 5 0))) ":").

(* go: platform/network/ipam.go bridgeName *)
Definition bridgeName (networkID : string) : string :=
  let suffix := match index_byte networkID (Ascii.ascii_of_N 45) with
                | Some idx => str_drop (Z.of_nat idx + 1) networkID
                | None => networkID
                end in
  let suffix := if 8 <? slen suffix then str_take 8 suffix else suffix in
  bridgePrefix +:+ suffix.

(* go: platform/network/ipam.go overlapsAny *)
Definition overlapsAny (candidate : Prefix) (taken : list Prefix) : bool :=
  existsb (fun other => Overlaps other candidate) taken.

(* go: platform/network/ipam.go freePrefix *)
Definition freePrefix (supernet : Prefix) (bits : Z) (taken : list Prefix) : outcome Prefix :=
  if bits <? p_bits supernet
  then Err (EText ("supernet " +:+ prefix_String supernet +:+ " cannot hold a /" +:+ itoa bits))
  else scan supernet (fun c => negb (overlapsAny c taken))
         (EText ("supernet " +:+ prefix_String supernet +:+ " has no free /" +:+ itoa bits +:+ " left"))
         (Masked (PrefixFrom (p_addr supernet) bits)).

Example nextSlice_first :
  (try n := parsePrefix "10.20.0.0/16" in
   try s := nextSlice n [] in Ok (prefix_String s)) = Ok "10.20.0.64/26".
Proof. vm_compute. reflexivity. Qed.
Example nextAddress_first :
  (try s := parsePrefix "fd00:1::/64" in
   try a := nextAddress s [] in Ok (addr_String a)) = Ok "fd00:1::1".
Proof. vm_compute. reflexivity. Qed.

(** * Adding a power of two *)

Lemma be_value_acc l acc : fold_left (fun acc b => acc * 256 + b) l acc =
  acc * 256 ^ len l + be_value l.
Proof.
  unfold be_value. revert acc. induction l as [|b l IH]; intros acc; [simpl; lia|].
  cbn [fold_left length]. rewrite (IH (acc * 256 + b)), (IH (0 * 256 + b)).
  rewrite Nat2Z.inj_succ, Z.pow_succ_r by lia. lia.
Qed.

Lemma be_value_app l l' : be_value (l ++ l') = be_value l * 256 ^ len l' + be_value l'.
Proof. unfold be_value at 1. rewrite fold_left_app, be_value_acc. done. Qed.

Lemma be_value_cons b l : be_value (b :: l) = b * 256 ^ len l + be_value l.
Proof. unfold be_value at 1. cbn [fold_left]. rewrite be_value_acc. lia. Qed.

Definition bytes (l : list Z) : Prop := Forall (fun b => 0 <= b < 256) l.

Lemma be_value_bound l : bytes l -> 0 <= be_value l < 256 ^ len l.
Proof.
  induction 1 as [|b l Hb _ IH]; [unfold be_value; simpl; lia|].
  rewrite be_value_cons. cbn [length]. rewrite Nat2Z.inj_succ, Z.pow_succ_r by lia. nia.
Qed.

Lemma be_bytes_spec n v :
  length (be_bytes n v) = n /\ bytes (be_bytes n v) /\ be_value (be_bytes n v) = v mod 256 ^ Z.of_nat n.
Proof.
  induction n as [|n (Hl & Hb & Hv)]; [split_and!; [done|constructor|by rewrite Z.mod_1_r]|].
  cbn [be_bytes]. split_and!.
  - simpl. by rewrite Hl.
  - constructor; [apply Z.mod_pos_bound; lia|done].
  - rewrite be_value_cons, Hl, Hv, Nat2Z.inj_succ, Z.pow_succ_r, (Z.mul_comm 256) by lia.
    rewrite Z.rem_mul_r by lia. rewrite Z.shiftr_div_pow2 by lia.
    replace (2 ^ (8 * Z.of_nat n)) with (256 ^ Z.of_nat n); [lia|].
    rewrite Z.pow_mul_r by lia. done.
Qed.

Lemma be_value_insert i raw x s : raw !! i = Some x ->
  be_value (<[i := s]> raw) = be_value raw + (s - x) * 256 ^ (len raw - 1 - Z.of_nat i).
Proof.
  intros Hx. pose proof (lookup_lt_Some _ _ _ Hx) as Hi.
  assert (Hr : be_value raw = be_value (take i raw ++ x :: drop (S i) raw))
    by (by rewrite take_drop_middle).
  rewrite insert_take_drop, Hr by done. rewrite !be_value_app, !be_value_cons. cbn [length].
  replace (len raw - 1 - Z.of_nat i) with (len (drop (S i) raw)) by (rewrite length_drop; lia). ring.
Qed.

Lemma bytes_insert i raw s : bytes raw -> 0 <= s < 256 -> bytes (<[i := s]> raw).
Proof. intros. by apply Forall_insert. Qed.

Lemma ripple_spec i carry raw :
  (i < length raw)%nat -> bytes raw -> 0 <= carry < 256 ->
  let '(raw', c) := ripple i carry raw in
  length raw' = length raw /\ bytes raw' /\ (c = 0 \/ c = 1) /\
  be_value raw' + c * 256 ^ len raw = be_value raw + carry * 256 ^ (len raw - 1 - Z.of_nat i).
Proof.
  revert carry raw. induction i as [|i IH]; intros carry raw Hi Hb Hc.
  all: destruct (lookup_lt_is_Some_2 raw _ Hi) as [x Hx]; cbn [ripple]; rewrite (nth_lookup_Some _ _ 0 _ Hx).
  all: assert (Hx' : 0 <= x < 256) by (unfold bytes in Hb; rewrite Forall_lookup in Hb; eauto).
  all: pose proof (Z.mod_pos_bound (x + carry) 256) as Hm.
  all: pose proof (Z.div_mod (x + carry) 256) as Hdm.
  all: set (sum := (x + carry) mod 256) in *.
  all: assert (Hq : (x + carry) / 256 = 0 \/ (x + carry) / 256 = 1) by lia.
  all: fold sum; destruct (Z.ltb_spec sum x) as [Hw|Hw]; cbn [negb].
  - rewrite length_insert, (be_value_insert _ _ _ _ Hx).
    split_and!; [done|by (apply bytes_insert; [done|lia])|by right|].
    assert (Hp : 256 ^ len raw = 256 * 256 ^ (len raw - 1 - Z.of_nat 0))
      by (rewrite <- Z.pow_succ_r by lia; f_equal; lia).
    rewrite Hp. replace sum with (x + carry - 256) by lia. ring.
  - rewrite length_insert, (be_value_insert _ _ _ _ Hx).
    split_and!; [done|by (apply bytes_insert; [done|lia])|by left|].
    replace sum with (x + carry) by lia. ring.
  - specialize (IH 1 (<[S i := sum]> raw)).
    destruct (ripple i 1 (<[S i := sum]> raw)) as [raw' c].
    destruct IH as (Hl & Hb' & Hc' & Hv); [rewrite length_insert; lia|by (apply bytes_insert; [done|lia])|lia|].
    rewrite length_insert in *. split_and!; auto.
    rewrite Hv, (be_value_insert _ _ _ _ Hx).
    replace (len raw - 1 - Z.of_nat i) with (Z.succ (len raw - 1 - Z.of_nat (S i))) by lia.
    rewrite Z.pow_succ_r by lia. replace sum with (x + carry - 256) by lia. ring.
  - rewrite length_insert, (be_value_insert _ _ _ _ Hx).
    split_and!; [done|by (apply bytes_insert; [done|lia])|by left|].
    replace sum with (x + carry) by lia. ring.
Qed.

Lemma width_cases a : BitLen a = 32 /\ a_is6 a = false \/ BitLen a = 128 /\ a_is6 a = true.
Proof. unfold BitLen, family_width. destruct (a_is6 a); auto. Qed.

Lemma AsSlice_spec a : addr_wf a ->
  8 * len (AsSlice a) = BitLen a /\ bytes (AsSlice a) /\ be_value (AsSlice a) = a_val a /\
  (length (AsSlice a) = if a_is6 a then 16 else 4)%nat.
Proof.
  intros Ha. unfold AsSlice.
  destruct (be_bytes_spec (Z.to_nat (BitLen a / 8)) (a_val a)) as (Hl & Hb & Hv).
  rewrite Hl, Hv. unfold addr_wf in Ha.
  assert (Hs : forall n w, 256 ^ n = 2 ^ w -> BitLen a = w -> a_val a mod 256 ^ n = a_val a).
  { intros n w -> <-. by apply Z.mod_small. }
  destruct (width_cases a) as [[E ->]|[E ->]]; rewrite E in *; split_and!; auto;
    (eapply Hs; [|reflexivity]; reflexivity).
Qed.

Lemma AddrFromSlice_len l is6 : (length l = if is6 : bool then 16 else 4)%nat ->
  AddrFromSlice l = Some (MkAddr is6 (be_value l)).
Proof. unfold AddrFromSlice. intros ->. by destruct is6. Qed.

Lemma addPowerOfTwo_eq a e (Ha : addr_wf a) (He : 0 <= e) :
  addPowerOfTwo a e =
    if a_val a + 2 ^ e <? 2 ^ BitLen a then (MkAddr (a_is6 a) (a_val a + 2 ^ e), false)
    else (a, true).
Proof.
  destruct (AsSlice_spec a Ha) as (Hl & Hb & Hv & Hn). unfold addPowerOfTwo, addr_wf in *.
  assert (He8 : e = 8 * (e / 8) + e mod 8) by (apply Z.div_mod; lia).
  pose proof (Z.mod_pos_bound e 8). pose proof (Z.div_pos e 8).
  destruct (Z.ltb_spec (len (AsSlice a) - 1 - e / 8) 0) as [Hlt|Hge].
  { rewrite (proj2 (Z.ltb_ge _ _)); [done|].
    assert (2 ^ BitLen a <= 2 ^ e) by (apply Z.pow_le_mono_r; lia). lia. }
  assert (Hcarry : 0 <= 2 ^ (e mod 8) < 256).
  { split; [apply Z.pow_nonneg; lia|]. change 256 with (2 ^ 8). apply Z.pow_lt_mono_r; lia. }
  pose proof (ripple_spec (Z.to_nat (len (AsSlice a) - 1 - e / 8)) (2 ^ (e mod 8)) (AsSlice a)) as Hr.
  destruct (ripple _ _ _) as [raw' c]. destruct Hr as (Hl' & Hb' & Hc & Heq); [lia|done|done|].
  rewrite Z2Nat.id in Heq by lia.
  assert (Hpow : 2 ^ (e mod 8) * 256 ^ (len (AsSlice a) - 1 - (len (AsSlice a) - 1 - e / 8)) = 2 ^ e).
  { replace (_ - _ - (_ - _)) with (e / 8) by lia. change 256 with (2 ^ 8).
    rewrite <- Z.pow_mul_r, <- Z.pow_add_r by lia. f_equal. lia. }
  rewrite Hpow, Hv in Heq.
  assert (Hspace : 256 ^ len (AsSlice a) = 2 ^ BitLen a).
  { change 256 with (2 ^ 8). rewrite <- Z.pow_mul_r by lia. by rewrite Hl. }
  rewrite Hspace in Heq. pose proof (be_value_bound raw' Hb') as Hbd.
  rewrite Hl', Hspace in Hbd.
  destruct Hc as [-> | ->]; cbn [negb Z.eqb].
  - rewrite (AddrFromSlice_len raw' (a_is6 a)) by congruence.
    rewrite (proj2 (Z.ltb_lt _ _)) by lia. do 2 f_equal. lia.
  - by rewrite (proj2 (Z.ltb_ge _ _)) by lia.
Qed.

(** * Scanning for a block *)

(** The blocks of [bits] that lie inside a prefix. *)
Definition block_of (within : Prefix) (bits : Z) (c : Prefix) : Prop :=
  p_bits c = bits /\ prefix_wf c /\ masked c /\ Contains within (p_addr c) = true.

Lemma addr_size a : addr_wf a -> 0 <= a_val a < Zpos rounds /\ 2 ^ BitLen a < Zpos rounds.
Proof.
  unfold addr_wf. intros Ha.
  assert (2 ^ BitLen a <= 2 ^ 128) 
    by (apply Z.pow_le_mono_r; [lia|destruct (width_cases a) as [[-> _]|[-> _]]; lia]).
  assert (2 ^ 128 < Zpos rounds) by reflexivity. lia.
Qed.

Lemma advance_spec p : prefix_wf p ->
  advance p =
    if a_val (p_addr p) + host_size p <? 2 ^ BitLen (p_addr p)
    then Ok (PrefixFrom (MkAddr (a_is6 (p_addr p)) (a_val (p_addr p) + host_size p)) (p_bits p))
    else Err (EText ("address space exhausted after " +:+ prefix_String p)).
Proof.
  intros [Ha Hb]. unfold advance. rewrite addPowerOfTwo_eq by first [done|lia].
  fold (host_size p). by destruct (_ <? _).
Qed.

(** The block after a block. *)
Lemma next_block p : prefix_wf p -> masked p ->
  a_val (p_addr p) + host_size p < 2 ^ BitLen (p_addr p) ->
  let q := PrefixFrom (MkAddr (a_is6 (p_addr p)) (a_val (p_addr p) + host_size p)) (p_bits p) in
  prefix_wf q /\ masked q.
Proof.
  intros Hwf Hm Hlt q. pose proof (host_size_pos p Hwf). destruct Hwf as [[Ha1 Ha2] Hb].
  split; [split; [|done]; unfold q, addr_wf; simpl; change (BitLen _) with (BitLen (p_addr p)); lia|].
  unfold masked in *. change (host_size q) with (host_size p). simpl.
  rewrite <- (Z.mul_1_l (host_size p)) at 1. rewrite Z.mod_add by lia. done.
Qed.

(** Two blocks of the same size and family start a whole number of blocks apart. *)
Lemma blocks_apart p q : prefix_wf p -> prefix_wf q -> masked p -> masked q ->
  p_bits p = p_bits q -> a_is6 (p_addr p) = a_is6 (p_addr q) ->
  p = q \/ a_val (p_addr p) + host_size p <= a_val (p_addr q) \/
  a_val (p_addr q) + host_size q <= a_val (p_addr p).
Proof.
  intros Hp Hq Hmp Hmq Hb Hf. pose proof (host_size_pos p Hp).
  assert (Hh : host_size q = host_size p) by (unfold host_size, BitLen; by rewrite Hb, Hf).
  pose proof (masked_val p Hp Hmp) as Ep. pose proof (masked_val q Hq Hmq) as Eq.
  rewrite Hh in *. set (x := a_val (p_addr p) / host_size p) in *.
  set (y := a_val (p_addr q) / host_size p) in *.
  destruct (Z.lt_trichotomy x y) as [|[Hxy|]]; [right; left; nia| |right; right; nia].
  left. assert (Hv : a_val (p_addr p) = a_val (p_addr q)) by congruence.
  clear - Hb Hf Hv. destruct p as [[f v] b], q as [[f' v'] b']. simpl in *. congruence.
Qed.

Section scan.
Context (within : Prefix) (free : Prefix -> bool) (none_left : error) (c0 : Prefix).
Hypothesis (Hw : prefix_wf within) (Hm : masked within).
Hypothesis (Hw0 : prefix_wf c0) (Hm0 : masked c0).
Hypothesis (Hf0 : a_is6 (p_addr c0) = a_is6 (p_addr within)).
Hypothesis (Hle : a_val (p_addr within) <= a_val (p_addr c0)).

Local Definition scan_inv (c : Prefix) : Prop :=
  p_bits c = p_bits c0 /\ prefix_wf c /\ masked c /\ a_is6 (p_addr c) = a_is6 (p_addr within) /\
  a_val (p_addr c0) <= a_val (p_addr c) /\
  forall c', block_of within (p_bits c0) c' ->
    a_val (p_addr c0) <= a_val (p_addr c') < a_val (p_addr c) -> free c' = false.

Local Definition scan_post (r : outcome Prefix) : Prop :=
  match r with
  | Ok r => block_of within (p_bits c0) r /\ free r = true /\
      a_val (p_addr c0) <= a_val (p_addr r) /\
      forall c, block_of within (p_bits c0) c ->
        a_val (p_addr c0) <= a_val (p_addr c) < a_val (p_addr r) -> free c = false
  | Err _ => forall c, block_of within (p_bits c0) c ->
      a_val (p_addr c0) <= a_val (p_addr c) -> free c = false
  end.

Local Lemma block_family c : block_of within (p_bits c0) c -> a_is6 (p_addr c) = a_is6 (p_addr within).
Proof. intros (_ & _ & _ & H). apply Contains_spec in H as [? _]; auto. Qed.

(** Every block before the end of the one being looked at has been looked at. *)
Local Lemma scan_seen c c' : scan_inv c -> free c = false -> block_of within (p_bits c0) c' ->
  a_val (p_addr c0) <= a_val (p_addr c') < a_val (p_addr c) + host_size c -> free c' = false.
Proof.
  intros (Eb & Hwc & Hmc & Hf & _ & Hseen) Hno Hc' [H1 H2].
  pose proof (block_family c' Hc') as Hf'. destruct Hc' as (Eb' & Hwc' & Hmc' & Hin) eqn:E0.
  destruct (blocks_apart c' c) as [->|[H|H]]; auto; [congruence|congruence| |lia].
  apply Hseen; [done|]. pose proof (host_size_pos c' Hwc'). lia.
Qed.

Local Lemma scan_step_ok c : scan_inv c ->
  match scan_step within free none_left c with inl c' => scan_inv c' | inr r => scan_post r end.
Proof.
  intros Hinv. pose proof Hinv as (Eb & Hwc & Hmc & Hf & Hlo & Hseen). unfold scan_step.
  destruct (Contains within (p_addr c)) eqn:Hin.
  - destruct (free c) eqn:Hfree; [split_and!; auto; split_and!; auto|].
    rewrite advance_spec by done. destruct (Z.ltb_spec (a_val (p_addr c) + host_size c) (2 ^ BitLen (p_addr c))) as [Hlt|Hge].
    + pose proof (next_block c Hwc Hmc Hlt) as [Hwn Hmn]. pose proof (host_size_pos c Hwc).
      split_and!; auto; [simpl; lia|]. intros c' Hc' Hr. eapply scan_seen; eauto.
    + intros c' Hc' Hlo'. eapply scan_seen; eauto. split; [done|].
      pose proof (block_family c' Hc') as Hf'. destruct Hc' as (_ & [[_ Hv] _] & _).
      unfold BitLen in *. rewrite Hf', <- Hf in Hv. lia.
  - intros c' Hc' Hlo'. apply Hseen; [done|]. split; [done|].
    destruct Hc' as (_ & _ & _ & Hin'). apply Contains_spec in Hin' as [_ Hin']; auto.
    assert (~ a_val (p_addr c) < a_val (p_addr within) + host_size within).
    { intros Hc. rewrite (proj2 (Contains_spec within (p_addr c) Hw Hm)) in Hin; [done|].
      split; [done|lia]. }
    lia.
Qed.

(** The scan ends, with the first free block of its range or, when it gives up, having
    seen that none is free. *)
Lemma scan_spec : scan_post (scan within free none_left c0).
Proof.
  unfold scan.
  destruct (while_pos_terminates (scan_step within free none_left) scan_inv (fun _ => scan_post)
    scan_step_ok (fun c => 2 ^ BitLen (p_addr c) - a_val (p_addr c)))
    with (p := rounds) (s := c0) as (r & c & -> & _ & H); auto.
  - intros c (_ & [[_ Hv] _] & _). lia.
  - intros c c' (_ & Hwc & _) Hs. unfold scan_step in Hs. rewrite advance_spec in Hs by done.
    destruct (Contains _ _); [|done]. destruct (free c); [done|].
    destruct (_ <? _); [|done]. injection Hs as <-. simpl. pose proof (host_size_pos c Hwc).
    change (BitLen (MkAddr _ _)) with (BitLen (p_addr c)). lia.
  - split_and!; auto; lia.
  - destruct Hw0 as [Ha _]. pose proof (addr_size (p_addr c0) Ha). lia.
Qed.
End scan.

(** * Slices and project blocks *)

#[local] Opaque rounds scan addPowerOfTwo.

Lemma sliceBitsFor_width p : 0 <= sliceBitsFor p <= BitLen (p_addr p).
Proof.
  unfold sliceBitsFor, Is4, SliceBits, SliceBitsV6.
  destruct (width_cases (p_addr p)) as [[-> ->]|[-> ->]]; simpl; lia.
Qed.

(** The first block of a prefix starts where the prefix does. *)
Lemma first_block network bits : prefix_wf network -> masked network ->
  p_bits network <= bits <= BitLen (p_addr network) ->
  let c := PrefixFrom (p_addr network) bits in
  Masked c = c /\ prefix_wf c /\ masked c /\
  host_size network = 2 ^ (bits - p_bits network) * host_size c.
Proof.
  intros Hwf Hm Hb c. assert (Hwc : prefix_wf c).
  { destruct Hwf as [? ?]. split; [done|]. simpl. lia. }
  pose proof (host_size_pos c Hwc) as Hs.
  assert (Hk : host_size network = 2 ^ (bits - p_bits network) * host_size c).
  { destruct Hwf as [_ ?]. apply (host_size_mono c); simpl; lia. }
  assert (Hmc : masked c).
  { unfold masked. simpl. rewrite (masked_val network Hwf Hm), Hk, Z.mul_assoc. apply Z.mod_mul. lia. }
  split_and!; auto. unfold Masked, mask. change (2 ^ _) with (host_size c).
  pose proof (masked_val c Hwc Hmc) as Hv. rewrite <- Hv. unfold c. simpl. by destruct (p_addr network).
Qed.

(** A slice of [network] for a node: one of its blocks, the reserved first one apart. *)
Definition node_slice (network c : Prefix) : Prop :=
  block_of network (sliceBitsFor network) c /\ p_addr c <> p_addr network.

Lemma block_start network bits c : prefix_wf network -> masked network ->
  block_of network bits c ->
  a_is6 (p_addr c) = a_is6 (p_addr network) /\
  a_val (p_addr network) <= a_val (p_addr c) < a_val (p_addr network) + host_size network.
Proof. intros Hwf Hm (_ & _ & _ & Hin). by apply Contains_spec in Hin. Qed.

(** A network no larger than one slice has no slice to give. *)
Lemma no_node_slice network c : prefix_wf network -> masked network ->
  sliceBitsFor network <= p_bits network -> ~ node_slice network c.
Proof.
  intros Hwf Hm Hb [Hc Hne]. apply Hne. pose proof (block_start _ _ _ Hwf Hm Hc) as [Hf Hr].
  destruct Hc as (Eb & Hwc & Hmc & _). pose proof (host_size_pos network Hwf) as Hs.
  assert (HB : BitLen (p_addr c) = BitLen (p_addr network)) by (unfold BitLen; by rewrite Hf).
  assert (Hk : host_size c = 2 ^ (p_bits network - p_bits c) * host_size network).
  { destruct Hwf, Hwc. unfold host_size. rewrite HB, <- Z.pow_add_r by lia. f_equal. lia. }
  pose proof (masked_val c Hwc Hmc) as Vc. pose proof (masked_val network Hwf Hm) as Vn.
  rewrite Hk in Vc. set (x := a_val (p_addr c) / _) in Vc. rewrite Z.mul_assoc in Vc.
  assert (a_val (p_addr c) = a_val (p_addr network)).
  { set (y := x * 2 ^ (p_bits network - p_bits c)) in *.
    set (z := a_val (p_addr network) / host_size network) in *. clearbody y z.
    assert (y = z) by nia. congruence. }
  destruct (p_addr c), (p_addr network). simpl in *. congruence.
Qed.

(** The search of [nextSlice]. *)
Lemma nextSlice_search network taken (Hwf : prefix_wf network) (Hm : masked network) :
  match nextSlice network taken with
  | Ok c => node_slice network c /\ (c ∉ taken) /\
      forall c', node_slice network c' -> a_val (p_addr c') < a_val (p_addr c) -> c' ∈ taken
  | Err _ => forall c, node_slice network c -> c ∈ taken
  end.
Proof.
  unfold nextSlice. destruct (Z.leb_spec (sliceBitsFor network) (p_bits network)) as [Hb|Hb].
  { intros c Hc. by apply no_node_slice in Hc. }
  pose proof (sliceBitsFor_width network) as HB.
  destruct (first_block network (sliceBitsFor network) Hwf Hm) as (EM & Hwc & Hmc & Hk); [lia|].
  set (c0 := PrefixFrom (p_addr network) (sliceBitsFor network)) in *. rewrite EM.
  pose proof (host_size_pos c0 Hwc) as Hs.
  assert (Htwo : 2 * host_size c0 <= host_size network).
  { rewrite Hk. apply Z.mul_le_mono_nonneg_r; [lia|]. change 2 with (2 ^ 1) at 1.
    apply Z.pow_le_mono_r; lia. }
  assert (Hspace : a_val (p_addr network) + host_size network <= 2 ^ BitLen (p_addr network)).
  { pose proof (masked_val network Hwf Hm) as V. pose proof (block_count network Hwf) as Hn.
    pose proof (host_size_pos network Hwf). destruct Hwf as [[_ Hlt] _].
    rewrite Hn in *. rewrite V in Hlt |- *. set (q := a_val _ / _) in *. clearbody q.
    assert (q < 2 ^ p_bits network) by nia. nia. }
  unfold skip_slices, reservedSlices. rewrite advance_spec by done.
  rewrite (proj2 (Z.ltb_lt _ _)) by (simpl; lia). cbn [obind].
  destruct (next_block c0 Hwc Hmc) as [Hwn Hmn]; [simpl; lia|]. cbn zeta in Hwn, Hmn.
  set (c1 := PrefixFrom (MkAddr (a_is6 (p_addr c0)) (a_val (p_addr c0) + host_size c0)) (p_bits c0)) in *.
  set (none := EText _).
  pose proof (scan_spec network (fun c => negb (bool_decide (c ∈ taken))) none c1 Hwf Hm) as H.
  unfold scan_post in H. 
  assert (V1 : a_val (p_addr c1) = a_val (p_addr network) + host_size c0) by done.
  change (p_bits c1) with (sliceBitsFor network) in H.
  specialize (H Hwn Hmn eq_refl ltac:(lia)).
  assert (Hafter : forall c, node_slice network c -> a_val (p_addr c1) <= a_val (p_addr c)).
  { intros c [Hc Hne]. pose proof (block_start _ _ _ Hwf Hm Hc) as [Hf Hr].
    destruct Hc as (Eb & Hwc' & Hmc' & _). rewrite V1. pose proof (host_size_pos c Hwc').
    destruct (blocks_apart c0 c Hwc Hwc' Hmc Hmc' (eq_sym Eb) (eq_sym Hf)) as [<-|[?|?]];
      [done| |]; change (p_addr c0) with (p_addr network) in *; lia. }
  destruct (scan _ _ _ _) as [c|e].
  - destruct H as (Hc & Hfree & Hlo & Hmin). breflect. split_and!; [|done|].
    + split; [done|]. intros E. rewrite E, V1 in Hlo. lia.
    + intros c' Hc' Hlt. pose proof (Hafter c' Hc'). destruct Hc' as [Hc' _].
      specialize (Hmin c' Hc' ltac:(lia)). by breflect.
  - intros c Hc. pose proof (Hafter c Hc) as Hlo. destruct Hc as [Hc _].
    specialize (H c Hc Hlo). by breflect.
Qed.

(** The search of [freePrefix]. *)
Lemma freePrefix_search supernet bits taken
  (Hwf : prefix_wf supernet) (Hm : masked supernet) (Hbits : bits <= BitLen (p_addr supernet)) :
  match freePrefix supernet bits taken with
  | Ok c => block_of supernet bits c /\ overlapsAny c taken = false /\
      forall c', block_of supernet bits c' -> a_val (p_addr c') < a_val (p_addr c) ->
        overlapsAny c' taken = true
  | Err _ => bits < p_bits supernet \/
      forall c, block_of supernet bits c -> overlapsAny c taken = true
  end.
Proof.
  unfold freePrefix. destruct (Z.ltb_spec bits (p_bits supernet)) as [Hb|Hb]; [by left|].
  destruct (first_block supernet bits Hwf Hm) as (-> & Hwc & Hmc & _); [lia|].
  set (c0 := PrefixFrom _ _) in *. set (none := EText _).
  pose proof (scan_spec supernet (fun c => negb (overlapsAny c taken)) none c0 Hwf Hm) as H.
  unfold scan_post in H. 
  specialize (H Hwc Hmc eq_refl ltac:(unfold c0; simpl; lia)).
  change (p_bits c0) with bits in H.
  assert (Hlo : forall c, block_of supernet bits c -> a_val (p_addr c0) <= a_val (p_addr c)).
  { intros c Hc. apply (block_start _ _ _ Hwf Hm Hc). }
  destruct (scan _ _ _ _) as [c|e].
  - destruct H as (Hc & Hfree & _ & Hmin). split_and!; [done|by apply negb_true_iff|].
    intros c' Hc' Hlt. pose proof (Hlo c' Hc'). specialize (Hmin c' Hc' ltac:(lia)).
    by apply negb_false_iff.
  - right. intros c Hc. apply negb_false_iff. auto.
Qed.

(** * Addresses of a slice *)

(** The addresses of a slice a workload may be given: not the first, which is the network
    itself, and in IPv4 not the last, which is the broadcast address. *)
Definition usable (slice : Prefix) (a : Addr) : Prop :=
  Contains slice a = true /\ addr_wf a /\ a <> p_addr slice /\
  ~ (Is4 a = true /\ a_val a + 1 = a_val (p_addr slice) + host_size slice).

Section next_address.
Context (slice : Prefix) (taken : list Addr).
Hypothesis (Hw : prefix_wf slice) (Hm : masked slice).
Hypothesis Htop : a_val (p_addr slice) + host_size slice < 2 ^ BitLen (p_addr slice).

Lemma isBroadcast_spec a : isBroadcast slice a = true <->
  Is4 a = true /\ a_is6 (p_addr slice) = a_is6 a /\ a_val a + 1 = a_val (p_addr slice) + host_size slice.
Proof.
  pose proof (host_size_pos slice Hw). destruct Hw as [Ha Hb]. unfold isBroadcast, Is4.
  destruct (a_is6 (p_addr slice)) eqn:E6; simpl; [split; [done|intros (H1 & H2 & _); rewrite <- H2 in H1; done]|].
  assert (EB : BitLen (p_addr slice) = 32) by (unfold BitLen; by rewrite E6).
  rewrite addPowerOfTwo_eq by (rewrite ?EB in *; first [done|lia]).
  unfold host_size in *. rewrite EB in *. rewrite (proj2 (Z.ltb_lt _ _)) by lia.
  rewrite bool_decide_eq_true. unfold Prev. cbn [a_val a_is6]. destruct Ha as [Ha _].
  rewrite (proj2 (Z.ltb_lt 0 _)) by lia. rewrite E6. split.
  - intros [= ->]. simpl. split_and!; auto. lia.
  - intros (H1 & H2 & H3). destruct a as [b v]. simpl in *. subst b. do 2 f_equal. lia.
Qed.

Local Definition addr_inv (c : option Addr) : Prop :=
  let low := a_val (p_addr slice) in
  match c with
  | Some a => addr_wf a /\ a_is6 a = a_is6 (p_addr slice) /\ low < a_val a /\
      forall a', usable slice a' -> a_val a' < a_val a -> a' ∈ taken
  | None => forall a', usable slice a' -> a' ∈ taken
  end.
Local Definition addr_post (c : option Addr) (r : option Addr) : Prop :=
  match r with
  | Some a => usable slice a /\ (a ∉ taken) /\
      forall a', usable slice a' -> a_val a' < a_val a -> a' ∈ taken
  | None => forall a', usable slice a' -> a' ∈ taken
  end.

Local Lemma usable_range a : usable slice a ->
  a_is6 a = a_is6 (p_addr slice) /\ addr_wf a /\
  a_val (p_addr slice) < a_val a < a_val (p_addr slice) + host_size slice.
Proof.
  intros (Hc & Ha & Hne & _). apply Contains_spec in Hc as [Hf Hr]; auto. split_and!; auto; [|lia].
  destruct (Z.eq_dec (a_val a) (a_val (p_addr slice))) as [Hv|]; [|lia].
  exfalso. apply Hne. destruct a, (p_addr slice). simpl in *. congruence.
Qed.

(** The addresses up to the one being looked at, once that one is known to be taken. *)
Local Lemma addr_inv_next a : addr_inv (Some a) -> a ∈ taken -> addr_inv (Next a).
Proof.
  intros ([Ha1 Ha2] & Hf & Hlo & Hmin) Hin. unfold Next.
  assert (Hseen : forall a', usable slice a' -> a_val a' <= a_val a -> a' ∈ taken).
  { intros a' Hu Hle. destruct (Z.eq_dec (a_val a') (a_val a)) as [Hv|]; [|apply Hmin; [done|lia]].
    pose proof (usable_range a' Hu) as [Hf' _].
    replace a' with a; [done|]. destruct a, a'. simpl in *. congruence. }
  destruct (Z.ltb_spec (a_val a + 1) (2 ^ BitLen a)); simpl.
  - split_and!; [split; simpl; [lia|done]|done|lia|]. intros a' Hu Hlt. apply Hseen; [done|lia].
  - intros a' Hu. apply Hseen; [done|]. destruct (usable_range a' Hu) as (Hf' & [_ Hv] & _).
    unfold BitLen in *. rewrite Hf', <- Hf in Hv. lia.
Qed.

Local Lemma address_step_ok c : addr_inv c ->
  match address_step slice taken c with inl c' => addr_inv c' | inr r => addr_post c r end.
Proof.
  destruct c as [a|]; simpl; [|done]. intros Hinv. pose proof Hinv as (Ha & Hf & Hlo & Hmin).
  destruct (Contains slice a) eqn:Hc; simpl.
  - destruct (isBroadcast slice a) eqn:Hb; simpl.
    + apply isBroadcast_spec in Hb as (H4 & _ & Hb). intros a' Hu. apply Hmin; [done|].
      pose proof (usable_range a' Hu) as (Hf' & _ & Hr). destruct Hu as (_ & _ & _ & Hnb).
      unfold Is4 in *. rewrite Hf', <- Hf in Hnb.
      destruct (Z.eq_dec (a_val a' + 1) (a_val (p_addr slice) + host_size slice)); [tauto|lia].
    + destruct (bool_decide_reflect (a ∈ taken)) as [Hin|Hin]; simpl; [by apply addr_inv_next|].
      split_and!; auto. split_and!; auto; [intros ->; lia|]. intros [H4 Hv].
      rewrite (proj2 (isBroadcast_spec a)) in Hb; [done|]. auto.
  - intros a' Hu. apply Hmin; [done|]. pose proof (usable_range a' Hu) as (Hf' & _ & Hr).
    destruct (Z.lt_ge_cases (a_val a) (a_val (p_addr slice) + host_size slice)); [|lia].
    rewrite (proj2 (Contains_spec slice a Hw Hm)) in Hc; [done|]. split; [done|lia].
Qed.

Lemma nextAddress_loop :
  exists r c, while_pos rounds (address_step slice taken) (Next (p_addr slice)) = inr r /\
    addr_inv c /\ addr_post c r.
Proof.
  apply (while_pos_terminates (address_step slice taken) addr_inv addr_post address_step_ok
    (fun c => match c with Some a => 2 ^ BitLen a - a_val a | None => 0 end)).
  - intros [a|]; simpl; [|lia]. intros ([_ Hv] & _). lia.
  - intros [a|] c'; simpl; [|done]. intros ([Hv1 Hv2] & _). do 3 (case_match; try done).
    intros [= <-]. unfold Next. destruct (_ <? _); [|lia].
    change (BitLen (MkAddr _ _)) with (BitLen a). cbn [a_val]. lia.
  - pose proof (host_size_pos slice Hw). unfold Next. rewrite (proj2 (Z.ltb_lt _ _)) by lia.
    destruct Hw as [[Ha1 Ha2] _].
    split_and!; [split; [simpl; lia|change (BitLen (MkAddr _ _)) with (BitLen (p_addr slice)); simpl; lia]|done|simpl; lia|].
    intros a' Hu Hlt. pose proof (usable_range a' Hu) as (_ & _ & Hr). simpl in Hlt. lia.
  - destruct Hw as [Ha _]. pose proof (addr_size (p_addr slice) Ha). unfold Next.
    destruct (_ <? _); simpl; [change (BitLen (MkAddr _ _)) with (BitLen (p_addr slice))|]; lia.
Qed.
End next_address.

(** What [nextAddress] gives is an address of the slice that was not taken. *)
Lemma nextAddress_in slice taken a : nextAddress slice taken = Ok a ->
  Contains slice a = true /\ (a ∉ taken) /\ a_val (p_addr slice) < a_val a.
Proof.
  set (above := fun c => forall b, c = Some b -> a_val (p_addr slice) < a_val b).
  set (good := fun r => forall b, r = Some b ->
    Contains slice b = true /\ (b ∉ taken) /\ a_val (p_addr slice) < a_val b).
  assert (Hnext : forall b, a_val (p_addr slice) <= a_val b -> above (Next b)).
  { intros b Hb b'. unfold Next. destruct (_ <? _); [|done]. intros [= <-]. simpl. lia. }
  assert (Hstep : forall c, above c ->
    match address_step slice taken c with inl c' => above c' | inr r => good r end).
  { intros [b|] Hb; [|done]. simpl. specialize (Hb b eq_refl).
    destruct (Contains slice b) eqn:Hc; simpl; [|done]. destruct (isBroadcast slice b); [done|].
    destruct (bool_decide_reflect (b ∈ taken)); simpl; [apply Hnext; lia|]. by intros b' [= <-]. }
  unfold nextAddress.
  pose proof (while_pos_inv (address_step slice taken) above (fun _ => good) Hstep rounds
    (Next (p_addr slice)) (Hnext _ (Z.le_refl _))) as H.
  destruct (while_pos _ _ _) as [c|[b|]]; [done| |done].
  destruct H as (_ & _ & H). intros [= <-]. auto.
Qed.

(** * Prefixes read from text *)

Lemma parse4_bytes val digLen fields prevDot first s l : 0 <= val < 256 -> bytes fields ->
  parse4 val digLen fields prevDot first s = Some l -> bytes l /\ length l = 4%nat.
Proof.
  revert val digLen fields prevDot first.
  induction s as [|c s IH]; cbn [parse4]; intros val digLen fields prevDot first Hv Hf H.
  - case_hyp H; [|done]. injection H as <-. apply Nat.eqb_eq in E. split.
    + change (bytes (rev (val :: fields))). unfold bytes. rewrite <- (Permutation_rev (val :: fields)). by constructor.
    + change (length (rev (val :: fields)) = 4%nat). rewrite length_rev. simpl. lia.
  - destruct ((48 <=? code c) && (code c <=? 57)) eqn:Ec.
    + case_hyp H; [done|]. breflect.
      destruct (Z.ltb_spec 255 (val * 10 + (code c - 48))); [done|].
      eapply IH; [|exact Hf|exact H]. lia.
    + case_hyp H; [|done]. destruct (_ || _); [done|]. destruct (_ =? _)%nat; [done|].
      eapply IH; [|constructor; [exact Hv|exact Hf]|exact H]. lia.
Qed.

Lemma hex_digit_bound c d : hex_digit c = Some d -> 0 <= d < 16.
Proof. unfold hex_digit. intros H. repeat (case_hyp H; breflect; [injection H as <-; lia|]). done. Qed.

Lemma hex_group_bound off acc s o a r : 0 <= off -> 0 <= acc < 16 ^ off -> off <= 4 ->
  hex_group off acc s = Some (o, a, r) -> 0 <= a < 65536.
Proof.
  revert off acc. induction s as [|c s IH]; cbn [hex_group]; intros off acc Ho Ha H4 H.
  - injection H as <- <- <-. assert (16 ^ off <= 16 ^ 4) by (apply Z.pow_le_mono_r; lia). lia.
  - destruct (hex_digit c) as [d|] eqn:Ed.
    + destruct (Z.ltb_spec 3 off); [done|]. apply hex_digit_bound in Ed.
      eapply IH in H; [exact H|lia| |lia]. rewrite Z.pow_add_r by lia. lia.
    + injection H as <- <- <-. assert (16 ^ off <= 16 ^ 4) by (apply Z.pow_le_mono_r; lia). lia.
Qed.

Lemma group_bytes acc ip : 0 <= acc < 65536 -> bytes ip -> bytes (ip ++ [acc / 256; acc mod 256]).
Proof.
  intros Ha Hi. apply Forall_app. split; [done|]. repeat constructor; try (apply Z.mod_pos_bound; lia).
  - apply Z.div_pos; lia.
  - apply Z.div_lt_upper_bound; lia.
Qed.

Lemma parse6_groups_bytes fuel ip ellipsis s ip' e' r : bytes ip -> (length ip + 2 * fuel <= 16)%nat ->
  parse6_groups fuel ip ellipsis s = Some (ip', e', r) -> bytes ip' /\ (length ip' <= 16)%nat.
Proof.
  revert ip ellipsis s. induction fuel as [|fuel IH]; cbn [parse6_groups]; intros ip ellipsis s Hb Hl H.
  { injection H as <- <- <-. split; [done|lia]. }
  destruct (hex_group 0 0 s) as [[[off acc] rest]|] eqn:Eg; [|done].
  apply hex_group_bound in Eg; [|lia..]. pose proof (group_bytes acc ip Eg Hb) as Hg.
  assert (Hgl : length (ip ++ [acc / 256; acc mod 256]) = (length ip + 2)%nat) by (rewrite length_app; done).
  destruct (off =? 0); [done|]. destruct rest as [|c rest'].
  { injection H as <- <- <-. split; [done|lia]. }
  destruct (code c =? code dot).
  { case_match; [done|]. destruct (Nat.ltb_spec 16 (length ip + 4)); [done|].
    destruct (parse4_fields s) as [f|] eqn:E4; [|done]. injection H as <- <- <-.
    apply parse4_bytes in E4 as [Hf Hfl]; [|lia|constructor].
    rewrite length_app. split; [by apply Forall_app|lia]. }
  cbn zeta in H. destruct (negb _); [done|]. destruct rest' as [|d rest'']; [done|].
  destruct (code d =? code colon); [destruct ellipsis; [done|]|].
  - destruct rest''; [injection H as <- <- <-; split; [done|lia]|]. eapply IH in H; auto. lia.
  - eapply IH in H; auto. lia.
Qed.

Lemma parse6_finish_wf e s a : parse6_finish (parse6_groups 8 [] e s) = Some a -> addr_wf a.
Proof.
  intros H. destruct (parse6_groups 8 [] e s) as [[[ip' e'] r]|] eqn:Eg; [|done].
  apply parse6_groups_bytes in Eg as [Hb Hl]; [|constructor|simpl; lia].
  unfold parse6_finish in H. destruct r; [|done].
  assert (Hwf : forall l, bytes l -> length l = 16%nat -> addr_wf (MkAddr true (be_value l))).
  { intros l Hlb Hll. unfold addr_wf, BitLen. cbn [a_val a_is6 family_width].
    replace (2 ^ 128) with (256 ^ len l) by (rewrite Hll; reflexivity). by apply be_value_bound. }
  destruct (Nat.ltb_spec (length ip') 16).
  - destruct e' as [e'|]; [|done]. injection H as <-. apply Hwf.
    + repeat (apply Forall_app; split); [by apply Forall_take| |by apply Forall_drop].
      apply Forall_replicate. lia.
    + rewrite !length_app, length_replicate, length_take, length_drop. lia.
  - destruct e'; [done|]. injection H as <-. apply Hwf; [done|lia].
Qed.

Lemma parse6_wf s a : parse6 s = Some a -> addr_wf a.
Proof.
  unfold parse6. destruct s as [|c [|d s]]; [apply parse6_finish_wf..|].
  destruct (_ && _); [|apply parse6_finish_wf]. destruct s; [|apply parse6_finish_wf].
  intros [= <-]. done.
Qed.
Lemma ParseAddr_wf s a : ParseAddr s = Some a -> addr_wf a.
Proof.
  unfold ParseAddr. destruct (addr_kind s) as [[]|]; [apply parse6_wf| |done].
  destruct (parse4_fields s) as [f|] eqn:E; [|done]. simpl. intros [= <-].
  apply parse4_bytes in E as [Hf Hl]; [|lia|constructor]. unfold addr_wf, BitLen. cbn [a_val a_is6 family_width].
  replace (2 ^ 32) with (256 ^ len f) by (rewrite Hl; reflexivity). by apply be_value_bound.
Qed.

Lemma ParsePrefix_wf s p : ParsePrefix s = Some p -> prefix_wf p.
Proof.
  unfold ParsePrefix. intros H. destruct (split_last_slash _) as [[h b]|]; [|done].
  destruct (ParseAddr h) as [ip|] eqn:Ea; [|done]. apply ParseAddr_wf in Ea.
  destruct ((1 <? len b) && _); [done|]. destruct (atoi _) as [bits|]; [|done].
  destruct (_ || _) eqn:Eb; [done|]. injection H as <-. breflect. split; [done|simpl; lia].
Qed.

(** Masking does not bring an address into ::ffff:0:0/96. *)
Lemma Masked_Is4In6 p : prefix_wf p -> Is4In6 (p_addr p) = false -> Is4In6 (p_addr (Masked p)) = false.
Proof.
  intros Hp. pose proof (host_size_pos p Hp) as Hs. destruct Hp as [Ha Hb]. unfold Is4In6, Masked, mask, BitLen in *.
  destruct (a_is6 (p_addr p)) eqn:E6; cbn [p_addr a_is6 a_val andb]; rewrite ?E6; [|done]. cbn [andb].
  rewrite !Z.shiftr_div_pow2 by lia. cbn [family_width] in *.
  destruct (Z.le_gt_cases 96 (p_bits p)) as [H96|H96].
  - replace (2 ^ 32) with (2 ^ (128 - p_bits p) * 2 ^ (p_bits p - 96))
      by (rewrite <- Z.pow_add_r by lia; f_equal; lia).
    rewrite <- !Z.div_div by (apply Z.pow_nonzero || apply Z.pow_pos_nonneg; lia).
    rewrite Z.div_mul by (apply Z.pow_nonzero; lia). done.
  - intros _. apply Z.eqb_neq.
    replace (2 ^ (128 - p_bits p)) with (2 ^ (95 - p_bits p) * 2 * 2 ^ 32).
    2:{ rewrite <- (Z.mul_assoc _ 2), <- Z.pow_succ_r, <- Z.pow_add_r by lia. f_equal. lia. }
    rewrite !Z.mul_assoc, Z.div_mul by lia. lia.
Qed.

(** What [parsePrefix] accepts is a valid masked prefix that it accepts again. *)
Lemma parsePrefix_ok s p : parsePrefix s = Ok p ->
  prefix_wf p /\ masked p /\ Is4In6 (p_addr p) = false.
Proof.
  unfold parsePrefix. destruct (ParsePrefix s) as [q|] eqn:E; [|done].
  apply ParsePrefix_wf in E. destruct (Is4In6 (p_addr q)) eqn:E4; [done|]. intros [= <-].
  split_and!; [by apply Masked_wf|by apply Masked_masked|by apply Masked_Is4In6].
Qed.

(** * Properties *)

(** C5: [nextSlice] gives the first slice of the network, after the reserved one that holds
    the gateway, that no node holds; it fails only when every slice is taken (in
    particular when the network is no larger than a slice).  It always ends. *)
Theorem nextSlice_spec network taken (Hwf : prefix_wf network) (Hm : masked network) :
  match nextSlice network taken with
  | Ok c => node_slice network c /\ (c ∉ taken) /\
      forall c', node_slice network c' -> a_val (p_addr c') < a_val (p_addr c) -> c' ∈ taken
  | Err _ => forall c, node_slice network c -> c ∈ taken
  end.
Proof. by apply nextSlice_search. Qed.

Definition net16 : Prefix := PrefixFrom (MkAddr false 169082880) 16.
Lemma net16_wf : prefix_wf net16 /\ masked net16.
Proof. split; [split; [by apply addr_wfb_spec|]|reflexivity]. unfold net16, BitLen. simpl. lia. Qed.

Lemma nextSlice_witness :
  exists c, nextSlice net16 [PrefixFrom (MkAddr false 169082944) 26] = Ok c /\
    c ∉ [PrefixFrom (MkAddr false 169082944) 26].
Proof.
  pose proof (nextSlice_spec net16 [PrefixFrom (MkAddr false 169082944) 26]
    (proj1 net16_wf) (proj2 net16_wf)) as H.
  exists (PrefixFrom (MkAddr false 169083008) 26). split; [vm_compute; reflexivity|].
  replace (nextSlice _ _) with (Ok (PrefixFrom (MkAddr false 169083008) 26)) in H
    by (vm_compute; reflexivity).
  exact (proj1 (proj2 H)).
Defined.


(** [freePrefix] gives the first block of the supernet that overlaps none of the taken
    prefixes, and fails only when every block overlaps one (or the block asked for is
    larger than the supernet).  It always ends. *)
Theorem freePrefix_spec supernet bits taken
  (Hwf : prefix_wf supernet) (Hm : masked supernet) (Hbits : bits <= BitLen (p_addr supernet)) :
  match freePrefix supernet bits taken with
  | Ok c => block_of supernet bits c /\ overlapsAny c taken = false /\
      forall c', block_of supernet bits c' -> a_val (p_addr c') < a_val (p_addr c) ->
        overlapsAny c' taken = true
  | Err _ => bits < p_bits supernet \/
      forall c, block_of supernet bits c -> overlapsAny c taken = true
  end.
Proof. by apply freePrefix_search. Qed.

Definition super8 : Prefix := PrefixFrom (MkAddr false 167772160) 8.
Lemma super8_wf : prefix_wf super8 /\ masked super8.
Proof. split; [split; [by apply addr_wfb_spec|]|reflexivity]. unfold super8, BitLen. simpl. lia. Qed.

Lemma freePrefix_witness :
  exists c, freePrefix super8 16 [PrefixFrom (MkAddr false 167772160) 15] = Ok c /\
    block_of super8 16 c.
Proof.
  pose proof (freePrefix_spec super8 16 [PrefixFrom (MkAddr false 167772160) 15]
    (proj1 super8_wf) (proj2 super8_wf)) as H.
  exists (PrefixFrom (MkAddr false 167903232) 16). split; [vm_compute; reflexivity|].
  replace (freePrefix _ _ _) with (Ok (PrefixFrom (MkAddr false 167903232) 16)) in H
    by (vm_compute; reflexivity).
  apply H. vm_compute. discriminate.
Defined.

(** [addPowerOfTwo] is addition in the address space of the family: it gives the address
    [2^exponent] further on, or reports a carry, leaving the address alone, exactly when
    that address does not exist. *)
Theorem addPowerOfTwo_spec a e (Ha : addr_wf a) (He : 0 <= e) :
  addPowerOfTwo a e =
    if a_val a + 2 ^ e <? 2 ^ BitLen a then (MkAddr (a_is6 a) (a_val a + 2 ^ e), false)
    else (a, true).
Proof. by apply addPowerOfTwo_eq. Qed.

Lemma addPowerOfTwo_witness :
  addPowerOfTwo (MkAddr false 169083903) 6 = (MkAddr false 169083967, false) /\
  addPowerOfTwo (MkAddr false 4294967295) 0 = (MkAddr false 4294967295, true).
Proof. split; (etransitivity; [apply addPowerOfTwo_spec; [by apply addr_wfb_spec|lia]|reflexivity]). Defined.


(** [nextAddress] gives the lowest address of the slice a workload may use (not the
    network address, not the IPv4 broadcast address) that is not taken; it fails only when
    every usable address is taken.  It always ends, also in a /64 of 2^64 addresses. *)
Theorem nextAddress_spec slice taken (Hw : prefix_wf slice) (Hm : masked slice)
  (Htop : a_val (p_addr slice) + host_size slice < 2 ^ BitLen (p_addr slice)) :
  match nextAddress slice taken with
  | Ok a => usable slice a /\ (a ∉ taken) /\
      forall a', usable slice a' -> a_val a' < a_val a -> a' ∈ taken
  | Err _ => forall a, usable slice a -> a ∈ taken
  end.
Proof.
  unfold nextAddress. destruct (nextAddress_loop slice taken Hw Hm Htop) as (r & c & -> & _ & H).
  by destruct r.
Qed.

Definition slice26 : Prefix := PrefixFrom (MkAddr false 169082944) 26.
Lemma slice26_wf : prefix_wf slice26 /\ masked slice26 /\
  a_val (p_addr slice26) + host_size slice26 < 2 ^ BitLen (p_addr slice26).
Proof.
  split_and!; [split; [by apply addr_wfb_spec|]|reflexivity|reflexivity].
  unfold slice26, BitLen. simpl. lia.
Qed.

Lemma nextAddress_witness :
  exists a, nextAddress slice26 [MkAddr false 169082945] = Ok a /\ a ∉ [MkAddr false 169082945].
Proof.
  pose proof (nextAddress_spec slice26 [MkAddr false 169082945] (proj1 slice26_wf)
    (proj1 (proj2 slice26_wf)) (proj2 (proj2 slice26_wf))) as H.
  exists (MkAddr false 169082946). split; [vm_compute; reflexivity|].
  replace (nextAddress _ _) with (Ok (MkAddr false 169082946)) in H
    by (vm_compute; reflexivity).
  exact (proj1 (proj2 H)).
Defined.
