(* ===== verification/Network.v ===== *)
(** The network module (internal/platform/network): networks, the slice of a network each
    node routes, and the addresses handed to instances.

    The columns [cidr], [cidr6], [ip] and [ip6] hold the text of a prefix or an address; the
    model keeps the value, [None] for the empty text.  Reading a column back parses the text
    again, [parse_stored], which relies on [netip] parsing what it printed. *)
From stdpp Require Import base tactics numbers strings list gmap.
From Stdlib Require Import ZArith Lia.
From S2P Require Import Prelude GoLang Effects Kernel Netip Ipam.

(** * Data (types.go) *)

(* go: platform/network/types.go Network *)
Record Network := MkNetwork {
  nw_ID : string; nw_ProjectID : string; nw_Name : string;
  nw_CIDR : Prefix; nw_Gateway : string;
  nw_CIDR6 : option Prefix; nw_Gateway6 : string;
  nw_Bridge : string; nw_CreatedAt : Z;
}.
(* go: platform/network/types.go Network.DualStack *)
Definition DualStack (n : Network) : bool := bool_decide (is_Some (nw_CIDR6 n)).
(* go: platform/network/types.go Slice *)
Record Slice := MkSlice {
  sl_NetworkID : string; sl_NodeID : string;
  sl_CIDR : Prefix; sl_CIDR6 : option Prefix; sl_CreatedAt : Z;
}.
(* go: platform/network/types.go NIC *)
Record NIC := MkNIC {
  nic_InstanceID : string; nic_NetworkID : string; nic_Device : Z; nic_NodeID : string;
  nic_IP : Addr; nic_IP6 : option Addr; nic_MAC : string; nic_CreatedAt : Z;
}.
Definition MaxNICs : Z := 4.
(* go: platform/network/types.go CreateParams *)
Record CreateParams := MkCreateParams {
  cp_ProjectID : string; cp_Name : string; cp_CIDR : string; cp_CIDR6 : string;
}.

(** The tables of the module. *)
Record NetDB := MkNetDB {
  db_networks : list Network; db_slices : list Slice; db_nics : list NIC;
}.
Definition empty_db : NetDB := MkNetDB [] [] [].

(** * Repository (repository.go) *)

Definition errNotFound : error := ESentinel "network not found".
Definition errNameTaken : error := ESentinel "network name already exists".
Definition errCIDRTaken : error := ESentinel "address already allocated".

(** The text of a stored prefix, parsed again. *)
Definition parse_stored (p : Prefix) : outcome Prefix :=
  if Is4In6 (p_addr p)
  then Err (EText (quoted (prefix_String p) +:+ " is an IPv4 address written as IPv6; write it as IPv4"))
  else Ok (Masked p).

Section repository.
Context {S : Type} `{!Has NetDB S}.

(** The primary key, and the indexes [networks_name_unique] on (project, name) and
    [networks_cidr_unique] on the range. *)
Definition network_clash (n m : Network) : bool :=
  String.eqb (nw_ID m) (nw_ID n)
  || (String.eqb (nw_ProjectID m) (nw_ProjectID n) && String.eqb (nw_Name m) (nw_Name n))
  || bool_decide (nw_CIDR m = nw_CIDR n).
(* go: platform/network/repository.go repository.insertNetwork *)
Definition insertNetwork (n : Network) : M S unit :=
  sql "insert network" (fun db =>
    let '(r, rows) := insert_row (network_clash n) errNameTaken n (db_networks db) in
    (r, MkNetDB rows (db_slices db) (db_nics db))).
(* go: platform/network/repository.go repository.networkByName *)
Definition networkByName (projectID name : string) : M S Network :=
  query "read network" (fun db =>
    select_one (fun n => String.eqb (nw_ProjectID n) projectID && String.eqb (nw_Name n) name)
      errNotFound (db_networks db)).
(* go: platform/network/repository.go repository.network *)
Definition network (id : string) : M S Network :=
  query "read network" (fun db =>
    select_one (fun n => String.eqb (nw_ID n) id) errNotFound (db_networks db)).
Definition by_name : Network -> Network -> bool := by_key nw_Name str_ltb (fun _ _ => false).
(* go: platform/network/repository.go repository.listNetworks *)
Definition listNetworks : M S (list Network) :=
  query "list networks" (fun db => Ok (sliceStable by_name (db_networks db))).
(* go: platform/network/repository.go repository.listNetworksIn *)
Definition listNetworksIn (projectID : string) : M S (list Network) :=
  query "list networks in project" (fun db =>
    Ok (sliceStable by_name
          (List.filter (fun n => String.eqb (nw_ProjectID n) projectID) (db_networks db)))).
Definition slice_of (networkID nodeID : string) (s : Slice) : bool :=
  String.eqb (sl_NetworkID s) networkID && String.eqb (sl_NodeID s) nodeID.
(* go: platform/network/repository.go repository.slice *)
Definition slice (networkID nodeID : string) : M S Slice :=
  query "read slice" (fun db => select_one (slice_of networkID nodeID) errNotFound (db_slices db)).
Definition slices_in (networkID : string) (db : NetDB) : list Slice :=
  List.filter (fun s => String.eqb (sl_NetworkID s) networkID) (db_slices db).
(* go: platform/network/repository.go repository.takenSlices *)
Definition takenSlices (networkID : string) : M S (list Prefix) :=
  query "list slices" (fun db => Ok (map sl_CIDR (slices_in networkID db))).
(* go: platform/network/repository.go repository.takenSlices6 *)
Definition takenSlices6 (networkID : string) : M S (list Prefix) :=
  query "list second slices" (fun db => Ok (omap sl_CIDR6 (slices_in networkID db))).
Definition nics_in (networkID : string) (db : NetDB) : list NIC :=
  List.filter (fun c => String.eqb (nic_NetworkID c) networkID) (db_nics db).
(* go: platform/network/repository.go repository.takenAddresses6 *)
Definition takenAddresses6 (networkID : string) : M S (list Addr) :=
  query "list second addresses" (fun db => Ok (omap nic_IP6 (nics_in networkID db))).
(* go: platform/network/repository.go repository.slicesExcept *)
Definition slicesExcept (networkID nodeID : string) : M S (list Slice) :=
  query "list peer slices" (fun db =>
    Ok (sliceStable (by_key (fun s => prefix_String (sl_CIDR s)) str_ltb (fun _ _ => false))
          (List.filter (fun s => negb (String.eqb (sl_NodeID s) nodeID)) (slices_in networkID db)))).
(** The primary key (network, node) and the index [node_slices_cidr_unique]. *)
Definition slice_clash (s t : Slice) : bool :=
  String.eqb (sl_NetworkID t) (sl_NetworkID s)
  && (String.eqb (sl_NodeID t) (sl_NodeID s) || bool_decide (sl_CIDR t = sl_CIDR s)).
(* go: platform/network/repository.go repository.insertSlice *)
Definition insertSlice (s : Slice) : M S unit :=
  sql "insert slice" (fun db =>
    let '(r, rows) := insert_row (slice_clash s) errCIDRTaken s (db_slices db) in
    (r, MkNetDB (db_networks db) rows (db_nics db))).
(* go: platform/network/repository.go repository.countNICs *)
Definition countNICs (networkID : string) : M S Z :=
  query "count nics" (fun db => Ok (len (nics_in networkID db))).
(** One transaction. *)
(* go: platform/network/repository.go repository.deleteNetwork *)
Definition deleteNetwork (id : string) : M S unit :=
  sql "delete network" (fun db =>
    (Ok tt, MkNetDB (List.filter (fun n => negb (String.eqb (nw_ID n) id)) (db_networks db))
                    (List.filter (fun s => negb (String.eqb (sl_NetworkID s) id)) (db_slices db))
                    (db_nics db))).
Definition by_device : NIC -> NIC -> bool := by_key nic_Device Z.ltb (fun _ _ => false).
Definition nics_held (instanceID : string) (db : NetDB) : list NIC :=
  sliceStable by_device
    (List.filter (fun c => String.eqb (nic_InstanceID c) instanceID) (db_nics db)).
(* go: platform/network/repository.go repository.nic *)
Definition nic (instanceID : string) : M S NIC :=
  query "read nic" (fun db =>
    match nics_held instanceID db with c :: _ => Ok c | [] => Err errNotFound end).
(* go: platform/network/repository.go repository.takenAddresses *)
Definition takenAddresses (networkID : string) : M S (list Addr) :=
  query "list addresses" (fun db => Ok (map nic_IP (nics_in networkID db))).
(** The primary key (instance, network) and the indexes [nics_address_unique] on (network,
    ip) and [nics_device_unique] on (instance, device). *)
Definition nic_clash (c d : NIC) : bool :=
  (String.eqb (nic_InstanceID d) (nic_InstanceID c) && String.eqb (nic_NetworkID d) (nic_NetworkID c))
  || (String.eqb (nic_NetworkID d) (nic_NetworkID c) && bool_decide (nic_IP d = nic_IP c))
  || (String.eqb (nic_InstanceID d) (nic_InstanceID c) && (nic_Device d =? nic_Device c)).
(* go: platform/network/repository.go repository.insertNIC *)
Definition insertNIC (c : NIC) : M S unit :=
  sql "insert nic" (fun db =>
    let '(r, rows) := insert_row (nic_clash c) errCIDRTaken c (db_nics db) in
    (r, MkNetDB (db_networks db) (db_slices db) rows)).
(* go: platform/network/repository.go repository.nicsOnNode *)
Definition nicsOnNode (nodeID : string) : M S (list NIC) :=
  query "list nics on node" (fun db =>
    Ok (sliceStable (by_key (fun c => addr_String (nic_IP c)) str_ltb (fun _ _ => false))
          (List.filter (fun c => String.eqb (nic_NodeID c) nodeID) (db_nics db)))).
(* go: platform/network/repository.go repository.nicsOf *)
Definition nicsOf (instanceID : string) : M S (list NIC) :=
  query "list the nics of an instance" (fun db => Ok (nics_held instanceID db)).
(** A map read off rows: a later row overwrites an earlier one. *)
(* go: platform/network/repository.go repository.allAddresses *)
Definition allAddresses : M S (gmap string Addr) :=
  query "list all addresses" (fun db =>
    Ok (fold_left (fun m c => <[nic_InstanceID c := nic_IP c]> m) (db_nics db) ∅)).
(* go: platform/network/repository.go repository.allAddresses6 *)
Definition allAddresses6 : M S (gmap string Addr) :=
  query "list all second addresses" (fun db =>
    Ok (fold_left (fun m c =>
          match nic_IP6 c, m !! nic_InstanceID c with
          | Some ip, None => <[nic_InstanceID c := ip]> m
          | _, _ => m
          end) (sliceStable by_device (db_nics db)) ∅)).
(* go: platform/network/repository.go repository.deleteNIC *)
Definition deleteNIC (instanceID : string) : M S unit :=
  sql "delete nic" (fun db =>
    (Ok tt, MkNetDB (db_networks db) (db_slices db)
              (List.filter (fun c => negb (String.eqb (nic_InstanceID c) instanceID)) (db_nics db)))).
End repository.

(** * Service (service.go) *)

(* go: platform/network/service.go translate *)
Definition translate (err : error) : error :=
  if errors_Is err "network not found"
  then NotFound "network_not_found" "no network with that id exists"
  else if errors_Is err "network name already exists"
  then Conflict "network_name_taken" "a network with that name already exists"
  else if errors_Is err "address already allocated"
  then Conflict "address_taken" "that address was allocated by another request"
  else Internal err.

(** The part of [create] that reads the two ranges of a request. *)
(* go: platform/network/service.go:29-71 create *)
Definition create_ranges (params : CreateParams) : outcome (Prefix * option Prefix) :=
  try _ := validate_Name "name" (cp_Name params) in
  let cidr := if is_empty (cp_CIDR params) then DefaultCIDR else cp_CIDR params in
  try prefix := or_fault (fun err => Invalid "invalid_cidr" (error_text err)) (parsePrefix cidr) in
  try _ := guard (sliceBitsFor prefix <=? p_bits prefix)
    (Invalid "invalid_cidr" ("the network must be larger than a single node slice, which is /"
       +:+ itoa (sliceBitsFor prefix) +:+ " here")) in
  try _ := guard (negb (Is4 (p_addr prefix)) && negb (IsPrivate (p_addr prefix)))
    (Invalid "invalid_cidr" "an IPv6 network must be a unique local address block under fc00::/7; a globally routable prefix handed to instances is not something this allocates for you") in
  if is_empty (cp_CIDR6 params) then Ok (prefix, None)
  else
    try second := or_fault (fun err => Invalid "invalid_cidr6" (error_text err))
                    (parsePrefix (cp_CIDR6 params)) in
    try _ := guard (Bool.eqb (Is4 (p_addr second)) (Is4 (p_addr prefix)))
      (Invalid "invalid_cidr6" "the second range must be the other address family; a network carries at most one range per family and an instance takes one address from each") in
    try _ := guard (negb (Is4 (p_addr second)) && negb (IsPrivate (p_addr second)))
      (Invalid "invalid_cidr6" "an IPv6 range must be a unique local address block under fc00::/7") in
    try _ := guard (sliceBitsFor second <=? p_bits second)
      (Invalid "invalid_cidr6" ("the second range must be larger than a single node slice, which is /"
         +:+ itoa (sliceBitsFor second) +:+ " here")) in
    Ok (prefix, Some second).

(** The ranges of a network. *)
Definition ranges (n : Network) : list Prefix := nw_CIDR n :: option_list (nw_CIDR6 n).

(** The loops of [create] over the ranges of the networks there are. *)
Definition range_clash (prefix : Prefix) (second : option Prefix) (taken : Prefix) : bool :=
  match parse_stored taken with
  | Err _ => false
  | Ok held => Overlaps held prefix
               || match second with Some p6 => Overlaps held p6 | None => false end
  end.
(* go: platform/network/service.go:77-92 range *)
Definition check_overlaps (prefix : Prefix) (second : option Prefix) (existing : list Network)
    : outcome unit :=
  match List.find (fun nr => range_clash prefix second (snd nr))
          (concat (map (fun other => map (pair other) (ranges other)) existing)) with
  | Some (other, taken) =>
      Err (Conflict "network_overlaps" ("the range overlaps network " +:+ nw_Name other +:+ " ("
        +:+ prefix_String taken +:+ "), and every node routes to a peer slice by its prefix, so two networks cannot share one"))
  | None => Ok tt
  end.

(** The text of an address that may be the zero [Addr]. *)
Definition gateway_text (a : option Addr) : string :=
  match a with Some a => addr_String a | None => "invalid IP" end.

Section service.
Context {S : Type} `{!Has NetDB S}.

(** A call to the repository whose error is translated. *)
Definition translated {A} (m : M S A) : M S A := mapped translate m.

(* go: platform/network/service.go service.create *)
Definition create (params : CreateParams) : M S Network :=
  let! ' (prefix, second) := lift (create_ranges params) in
  let! existing := translated listNetworks in
  lift (check_overlaps prefix second existing) ;;;
  let! id := ids_New "nw" in
  let! created := now in
  let n := {| nw_ID := id; nw_ProjectID := cp_ProjectID params; nw_Name := cp_Name params;
              nw_CIDR := prefix; nw_Gateway := gateway_text (gatewayOf prefix);
              nw_CIDR6 := second;
              nw_Gateway6 := match second with Some p6 => gateway_text (gatewayOf p6) | None => "" end;
              nw_Bridge := bridgeName id; nw_CreatedAt := created |} in
  translated (insertNetwork n) ;;;
  ret n.

(* go: platform/network/service.go service.existsIn *)
Definition existsIn (id projectID : string) : M S bool :=
  let! r := attempt (network id) in
  match r with
  | Ok n => ret (String.eqb (nw_ProjectID n) projectID)
  | Err e => if errors_Is e "network not found" then ret false else fail e
  end.

(* go: platform/network/service.go service.nicOf *)
Definition nicOf (instanceID : string) : M S NIC := translated (nic instanceID).

(* go: platform/network/service.go service.get *)
Definition get (id : string) : M S Network := translated (network id).

(* go: platform/network/service.go service.getIn *)
Definition getIn (id projectID : string) : M S Network :=
  let! n := get id in
  lift (guard (negb (String.eqb (nw_ProjectID n) projectID))
          (NotFound "network_not_found" "no network with that id exists")) ;;;
  ret n.

(* go: platform/network/service.go service.remove *)
Definition remove (id projectID : string) : M S unit :=
  getIn id projectID ;;;
  let! attached := translated (countNICs id) in
  lift (guard (0 <? attached)
          (Conflict "network_in_use" "the network still has addresses handed out to instances")) ;;;
  translated (deleteNetwork id).

(* go: platform/network/service.go service.freeDefaultCIDR *)
Definition freeDefaultCIDR : M S Prefix :=
  let! existing := translated listNetworks in
  let taken := omap (fun other => match parse_stored (nw_CIDR other) with
                                  | Ok prefix => Some prefix | Err _ => None end) existing in
  let! preferred := lift (or_fault Internal (parsePrefix DefaultCIDR)) in
  if negb (overlapsAny preferred taken) then ret preferred
  else
    let! supernet := lift (or_fault Internal (parsePrefix SupernetCIDR)) in
    lift (or_fault (fun err => Conflict "address_space_exhausted" (error_text err))
            (freePrefix supernet ProjectBits taken)).

(** The text of the prefix found is parsed again by [create]. *)
(* go: platform/network/service.go service.ensureDefaultFor *)
Definition ensureDefaultFor (projectID : string) : M S Network :=
  let! r := attempt (networkByName projectID DefaultName) in
  match r with
  | Ok existing => ret existing
  | Err e =>
      if negb (errors_Is e "network not found") then fail (translate e)
      else
        let! cidr := freeDefaultCIDR in
        create {| cp_ProjectID := projectID; cp_Name := DefaultName;
                  cp_CIDR := prefix_String cidr; cp_CIDR6 := "" |}
  end.

(* go: platform/network/service.go service.listAll *)
Definition listAll : M S (list Network) := translated listNetworks.
(* go: platform/network/service.go service.listIn *)
Definition listIn (projectID : string) : M S (list Network) := translated (listNetworksIn projectID).

(** The second range of the slice [ensureSlice] makes. *)
(* go: platform/network/service.go:272-288 DualStack *)
Definition second_slice (networkID : string) (n : Network) : M S (option Prefix) :=
  match nw_CIDR6 n with
  | None => ret None
  | Some cidr6 =>
      let! second := lift (or_fault Internal (parse_stored cidr6)) in
      let! taken6 := translated (takenSlices6 networkID) in
      let! chosen := lift (or_fault (fun err => Conflict "network_exhausted" (error_text err))
                             (nextSlice second taken6)) in
      ret (Some chosen)
  end.

(* go: platform/network/service.go service.ensureSlice *)
Definition ensureSlice (networkID nodeID : string) : M S Slice :=
  let! r := attempt (slice networkID nodeID) in
  match r with
  | Ok existing => ret existing
  | Err e =>
      if negb (errors_Is e "network not found") then fail (translate e)
      else
        let! n := get networkID in
        let! prefix := lift (or_fault Internal (parse_stored (nw_CIDR n))) in
        let! taken := translated (takenSlices networkID) in
        let! candidate := lift (or_fault (fun err => Conflict "network_exhausted" (error_text err))
                                  (nextSlice prefix taken)) in
        let! created := now in
        let! second := second_slice networkID n in
        let s := {| sl_NetworkID := networkID; sl_NodeID := nodeID; sl_CIDR := candidate;
                    sl_CIDR6 := second; sl_CreatedAt := created |} in
        let! r := attempt (insertSlice s) in
        match r with
        | Ok _ => ret s
        | Err e => if errors_Is e "address already allocated" then slice networkID nodeID
                   else fail (translate e)
        end
  end.

(** The loop of [allocate] over the interfaces an instance holds: the one it has on the
    network, or the first free device number. *)
(* go: platform/network/service.go:304-312 range *)
Fixpoint free_device (networkID : string) (device : Z) (held : list NIC) : NIC + Z :=
  match held with
  | [] => inr device
  | n :: held' =>
      if String.eqb (nic_NetworkID n) networkID then inl n
      else free_device networkID (if device <=? nic_Device n then nic_Device n + 1 else device) held'
  end.

(** The second address of the interface [allocate] makes. *)
(* go: platform/network/service.go:343-360 CIDR6 *)
Definition second_address (networkID : string) (s : Slice) : M S (option Addr) :=
  match sl_CIDR6 s with
  | None => ret None
  | Some cidr6 =>
      let! prefix6 := lift (or_fault Internal (parse_stored cidr6)) in
      let! taken6 := translated (takenAddresses6 networkID) in
      let! chosen := lift (or_fault (fun err => Conflict "slice_exhausted" (error_text err))
                             (nextAddress prefix6 taken6)) in
      ret (Some chosen)
  end.

(* go: platform/network/service.go service.allocate *)
Definition allocate (instanceID networkID nodeID : string) : M S NIC :=
  let! held := translated (nicsOf instanceID) in
  match free_device networkID 0 held with
  | inl n => ret n
  | inr device =>
      lift (guard (MaxNICs <=? device)
              (Conflict "too_many_nics" ("an instance carries at most " +:+ itoa MaxNICs +:+ " interfaces"))) ;;;
      let! s := ensureSlice networkID nodeID in
      let! prefix := lift (or_fault Internal (parse_stored (sl_CIDR s))) in
      let! taken := translated (takenAddresses networkID) in
      let! address := lift (or_fault (fun err => Conflict "slice_exhausted" (error_text err))
                              (nextAddress prefix taken)) in
      let! mac := randomMAC in
      let! second := second_address networkID s in
      let! created := now in
      let c := {| nic_InstanceID := instanceID; nic_NetworkID := networkID; nic_Device := device;
                  nic_NodeID := nodeID; nic_IP := address; nic_IP6 := second; nic_MAC := mac;
                  nic_CreatedAt := created |} in
      translated (insertNIC c) ;;;
      ret c
  end.

(* go: platform/network/service.go service.release *)
Definition release (instanceID : string) : M S unit := translated (deleteNIC instanceID).

(* go: platform/network/module.go NodeNetwork *)
Record NodeNetwork := MkNodeNetwork {
  nn_Network : Network; nn_Slice : Slice; nn_NICs : list NIC; nn_Peers : list Slice;
}.

(* go: platform/network/service.go service.nodeView *)
Definition nodeView (nodeID : string) : M S (list NodeNetwork) :=
  let! nics := translated (nicsOnNode nodeID) in
  let order := fold_left (fun order c =>
    if bool_decide (nic_NetworkID c ∈ order) then order else order ++ [nic_NetworkID c]) nics [] in
  foldM (fun networkID views =>
    let! n := get networkID in
    let! s := ensureSlice networkID nodeID in
    let! peers := translated (slicesExcept networkID nodeID) in
    ret (views ++ [{| nn_Network := n; nn_Slice := s;
                      nn_NICs := List.filter (fun c => String.eqb (nic_NetworkID c) networkID) nics;
                      nn_Peers := peers |}])) order [].
End service.

(** * The requests the module serves *)

Inductive request :=
| ReqCreate (params : CreateParams)
| ReqRemove (id projectID : string)
| ReqEnsureDefault (projectID : string)
| ReqAllocate (instanceID networkID nodeID : string)
| ReqRelease (instanceID : string)
| ReqNodeView (nodeID : string).

Definition serve {S} `{!Has NetDB S} (r : request) : M S unit :=
  match r with
  | ReqCreate params => create params ;;; ret tt
  | ReqRemove id projectID => remove id projectID
  | ReqEnsureDefault projectID => ensureDefaultFor projectID ;;; ret tt
  | ReqAllocate instanceID networkID nodeID => allocate instanceID networkID nodeID ;;; ret tt
  | ReqRelease instanceID => release instanceID
  | ReqNodeView nodeID => nodeView nodeID ;;; ret tt
  end.
(** Requests one after the other; a request that fails does not stop the next. *)
Definition serve_all {S} `{!Has NetDB S} (rs : list request) : M S unit :=
  foldM (fun r _ => attempt (serve r) ;;; ret tt) rs tt.

(** The addresses of an interface. *)
Definition addresses (c : NIC) : list Addr := nic_IP c :: option_list (nic_IP6 c).

(** * The invariant *)

(** A range that [create] accepts. *)
Definition range_ok (p : Prefix) : Prop :=
  prefix_wf p /\ masked p /\ Is4In6 (p_addr p) = false /\ p_bits p < sliceBitsFor p.

(** A network's ranges are of different families. *)
Definition network_ok (n : Network) : Prop :=
  range_ok (nw_CIDR n) /\
  forall p6, nw_CIDR6 n = Some p6 ->
    range_ok p6 /\ Is4 (p_addr p6) <> Is4 (p_addr (nw_CIDR n)).

(** A node's slice is cut from the ranges of its network. *)
Definition slice_ok (nets : list Network) (s : Slice) : Prop :=
  exists n, n ∈ nets /\ nw_ID n = sl_NetworkID s /\ node_slice (nw_CIDR n) (sl_CIDR s) /\
    forall p6, sl_CIDR6 s = Some p6 -> exists r6, nw_CIDR6 n = Some r6 /\ node_slice r6 p6.

(** An interface's addresses are of the slice its node has of its network. *)
Definition nic_ok (slices : list Slice) (c : NIC) : Prop :=
  0 <= nic_Device c < MaxNICs /\
  exists s, s ∈ slices /\ sl_NetworkID s = nic_NetworkID c /\ sl_NodeID s = nic_NodeID c /\
    Contains (sl_CIDR s) (nic_IP c) = true /\
    forall a, nic_IP6 c = Some a -> exists p6, sl_CIDR6 s = Some p6 /\ Contains p6 a = true.

Definition disjoint_ranges (n m : Network) : Prop :=
  forall r r', r ∈ ranges n -> r' ∈ ranges m -> Overlaps r r' = false.

Record net_inv (db : NetDB) : Prop := {
  ni_net_id : unique_by (fun n => Some (nw_ID n)) (db_networks db);
  ni_net_name : unique_by (fun n => Some (nw_ProjectID n, nw_Name n)) (db_networks db);
  ni_net_ok n : n ∈ db_networks db -> network_ok n;
  ni_net_disjoint n m : n ∈ db_networks db -> m ∈ db_networks db -> nw_ID n <> nw_ID m ->
    disjoint_ranges n m;
  ni_slice_ok s : s ∈ db_slices db -> slice_ok (db_networks db) s;
  ni_slice_node : unique_by (fun s => Some (sl_NetworkID s, sl_NodeID s)) (db_slices db);
  ni_slice_cidr : unique_by (fun s => Some (sl_NetworkID s, sl_CIDR s)) (db_slices db);
  ni_slice_cidr6 : unique_by (fun s => pair (sl_NetworkID s) <$> sl_CIDR6 s) (db_slices db);
  ni_nic_ok c : c ∈ db_nics db -> nic_ok (db_slices db) c;
  ni_nic_net : unique_by (fun c => Some (nic_InstanceID c, nic_NetworkID c)) (db_nics db);
  ni_nic_device : unique_by (fun c => Some (nic_InstanceID c, nic_Device c)) (db_nics db);
  ni_nic_ip : unique_by (fun c => Some (nic_NetworkID c, nic_IP c)) (db_nics db);
  ni_nic_ip6 : unique_by (fun c => pair (nic_NetworkID c) <$> nic_IP6 c) (db_nics db);
}.

Lemma net_inv_empty : net_inv empty_db.
Proof. split; simpl; auto with go; set_solver. Qed.

(** ** Ranges *)

Lemma parse_stored_ok p : prefix_wf p -> masked p -> Is4In6 (p_addr p) = false -> parse_stored p = Ok p.
Proof.
  intros Hp Hm H4. unfold parse_stored. rewrite H4. f_equal. unfold Masked, mask.
  change (2 ^ _) with (host_size p). rewrite <- (masked_val p Hp Hm). by destruct p as [[] ?].
Qed.

Lemma range_ok_stored p : range_ok p -> parse_stored p = Ok p.
Proof. intros (Hp & Hm & H4 & _). by apply parse_stored_ok. Qed.

Lemma create_ranges_ok params p second : create_ranges params = Ok (p, second) ->
  range_ok p /\ forall p6, second = Some p6 -> range_ok p6 /\ Is4 (p_addr p6) <> Is4 (p_addr p).
Proof.
  unfold create_ranges. destruct (validate_Name _ _); [|done]. cbn [obind].
  destruct (parsePrefix (if is_empty _ then _ else _)) as [q|] eqn:Eq; [|done]. apply parsePrefix_ok in Eq as (Hq & Hqm & Hq4).
  cbn [or_fault obind]. unfold guard. destruct (Z.leb_spec (sliceBitsFor q) (p_bits q)); [done|]. cbn [obind].
  destruct (_ && _); [done|]. cbn [obind]. destruct (is_empty (cp_CIDR6 params)).
  { intros [= <- <-]. done. }
  destruct (parsePrefix (cp_CIDR6 params)) as [q6|] eqn:E6; [|done]. apply parsePrefix_ok in E6 as (H6 & H6m & H64).
  cbn [or_fault obind]. destruct (Bool.eqb _ _) eqn:Ef; [done|]. apply Bool.eqb_false_iff in Ef. cbn [obind].
  destruct (_ && _); [done|]. cbn [obind].
  destruct (Z.leb_spec (sliceBitsFor q6) (p_bits q6)); [done|]. cbn [obind]. intros [= <- <-].
  split; [done|]. intros p6 [= <-]. done.
Qed.

Lemma check_overlaps_ok p second existing :
  (forall n, n ∈ existing -> network_ok n) -> check_overlaps p second existing = Ok tt ->
  forall n r, n ∈ existing -> r ∈ ranges n ->
    Overlaps r p = false /\ forall p6, second = Some p6 -> Overlaps r p6 = false.
Proof.
  intros Hok. unfold check_overlaps.
  destruct (List.find _ _) as [[? ?]|] eqn:E; [done|]. intros _ n r Hn Hr.
  assert (Hin : (n, r) ∈ concat (map (fun other => map (pair other) (ranges other)) existing)).
  { rewrite list_elem_of_In, in_concat. exists (map (pair n) (ranges n)).
    split; [apply in_map_iff; eexists; split; [done|by apply list_elem_of_In]|].
    apply in_map_iff. eexists. split; [done|by apply list_elem_of_In]. }
  pose proof (find_none_elem _ _ _ E Hin) as Hc. unfold range_clash in Hc. cbn [snd] in Hc.
  rewrite range_ok_stored in Hc.
  - apply orb_false_iff in Hc as [H1 H2]. split; [done|]. by intros p6 ->.
  - destruct (Hok n Hn) as [H1 H6]. unfold ranges in Hr. apply elem_of_cons in Hr as [->|Hr]; [done|].
    destruct (nw_CIDR6 n) as [r6|] eqn:Er; [|set_solver]. apply list_elem_of_singleton in Hr as ->. by apply H6.
Qed.

(** Every address of a slice of a network is an address of the network. *)
Lemma slice_contained range p a : range_ok range -> node_slice range p -> Contains p a = true ->
  Contains range a = true.
Proof.
  intros (Hr & Hrm & _ & Hb) [(Eb & Hp & Hpm & Hin) _] Ha.
  apply Contains_spec in Hin as [Hf Hin]; auto. apply Contains_spec in Ha as [Hfa Ha]; auto.
  apply Contains_spec; auto. split; [congruence|].
  assert (Hk : host_size range = 2 ^ (p_bits p - p_bits range) * host_size p).
  { destruct Hr as [_ Hr], Hp as [_ Hp]. unfold host_size, BitLen in *. rewrite Hf in *.
    rewrite <- Z.pow_add_r by lia. f_equal. lia. }
  pose proof (masked_val p Hp Hpm) as Vp. pose proof (masked_val range Hr Hrm) as Vr.
  pose proof (host_size_pos p Hp). rewrite Hk in *.
  set (x := a_val (p_addr p) / host_size p) in *.
  set (y := a_val (p_addr range) / _) in *. set (k := 2 ^ _) in *. clearbody x y k.
  assert (x + 1 <= (y + 1) * k) by nia. nia.
Qed.

Lemma ranges_ok n r : network_ok n -> r ∈ ranges n -> range_ok r.
Proof.
  intros [H1 H6] Hr. unfold ranges in Hr. apply elem_of_cons in Hr as [->|Hr]; [done|].
  destruct (nw_CIDR6 n) as [r6|]; [|set_solver]. apply list_elem_of_singleton in Hr as ->. by apply H6.
Qed.

(** An address of an interface lies in the range of its network it was cut from. *)
Lemma address_range db c a : net_inv db -> c ∈ db_nics db -> a ∈ addresses c ->
  exists n r, n ∈ db_networks db /\ nw_ID n = nic_NetworkID c /\ Contains r a = true /\
    (nic_IP c = a /\ r = nw_CIDR n \/ nic_IP6 c = Some a /\ nw_CIDR6 n = Some r).
Proof.
  intros Hinv Hc Ha. destruct (ni_nic_ok _ Hinv c Hc) as (_ & s & Hs & Esn & Esd & Hip & Hip6).
  destruct (ni_slice_ok _ Hinv s Hs) as (n & Hn & En & Hsl & Hsl6).
  pose proof (ni_net_ok _ Hinv n Hn) as Hok. unfold addresses in Ha. apply elem_of_cons in Ha as [->|Ha].
  - exists n, (nw_CIDR n). split_and!; [done|congruence| |by left].
    eapply slice_contained; [exact (proj1 Hok)|exact Hsl|done].
  - destruct (nic_IP6 c) as [a6|] eqn:E6; [|set_solver]. apply list_elem_of_singleton in Ha as ->.
    destruct (Hip6 _ eq_refl) as (p6 & Ep & Hc6). destruct (Hsl6 _ Ep) as (r6 & Er & Hns).
    exists n, r6. split_and!; [done|congruence| |by right].
    eapply slice_contained; [|exact Hns|done]. by apply (proj2 Hok).
Qed.

Lemma Contains_is6 p a : Contains p a = true -> a_is6 (p_addr p) = a_is6 a.
Proof. unfold Contains. intros H. apply andb_true_iff in H as [H _]. by apply Bool.eqb_prop. Qed.

Lemma unique_address db c d a : net_inv db -> c ∈ db_nics db -> d ∈ db_nics db ->
  a ∈ addresses c -> a ∈ addresses d -> c = d.
Proof.
  intros Hinv Hc Hd Hac Had.
  destruct (address_range _ _ _ Hinv Hc Hac) as (n & r & Hn & En & Hr & Hcase).
  destruct (address_range _ _ _ Hinv Hd Had) as (m & q & Hm & Em & Hq & Dcase).
  pose proof (ni_net_ok _ Hinv n Hn) as Hnok. pose proof (ni_net_ok _ Hinv m Hm) as Hmok.
  assert (Hrn : r ∈ ranges n) by (destruct Hcase as [[_ ->]|[_ Er]]; unfold ranges; rewrite ?Er; set_solver).
  assert (Hqm : q ∈ ranges m) by (destruct Dcase as [[_ ->]|[_ Er]]; unfold ranges; rewrite ?Er; set_solver).
  assert (n = m) as <-.
  { destruct (decide (nw_ID n = nw_ID m)) as [E|Hne].
    - eapply (unique_by_eq _ _ n m (nw_ID m)); [apply (ni_net_id _ Hinv)|done|done|simpl; congruence|done].
    - pose proof (ni_net_disjoint _ Hinv n m Hn Hm Hne r q Hrn Hqm) as Hov.
      destruct (ranges_ok _ _ Hnok Hrn) as (? & ? & _), (ranges_ok _ _ Hmok Hqm) as (? & ? & _).
      assert (Overlaps r q = true) by (apply Overlaps_spec; eauto). congruence. }
  apply Contains_is6 in Hr, Hq. destruct Hnok as [_ Hfam]. unfold Is4 in Hfam.
  destruct Hcase as [[Ec ->]|[Ec Er]], Dcase as [[Ed ->]|[Ed Eq]].
  - apply (unique_by_eq _ _ c d (nic_NetworkID c, a) (ni_nic_ip _ Hinv)); simpl; congruence.
  - destruct (Hfam _ Eq) as [_ Hf]. congruence.
  - destruct (Hfam _ Er) as [_ Hf]. congruence.
  - apply (unique_by_eq _ _ c d (nic_NetworkID c, a) (ni_nic_ip6 _ Hinv)); auto;
      rewrite ?Ec, ?Ed; simpl; congruence.
Qed.

(** ** Statements *)

(** A row of a table that no row clashed with. *)
Lemma clash_free {R} (clash : R -> bool) rows x : existsb clash rows = false -> x ∈ rows -> clash x = false.
Proof. intros H Hx. apply existsb_false in H. rewrite Forall_forall in H. auto. Qed.

Local Ltac clash_refl H :=
  rewrite ?bool_decide_true in H by done; simpl in H; rewrite ?orb_true_r in H; done.

Lemma insert_network_inv db n : net_inv db -> network_ok n ->
  (forall m, m ∈ db_networks db -> disjoint_ranges m n) ->
  existsb (network_clash n) (db_networks db) = false ->
  net_inv (MkNetDB (db_networks db ++ [n]) (db_slices db) (db_nics db)).
Proof.
  intros [] Hok Hdis Hcl.
  assert (Hfree : forall m, m ∈ db_networks db ->
    nw_ID m <> nw_ID n /\ (nw_ProjectID m, nw_Name m) <> (nw_ProjectID n, nw_Name n)).
  { intros m Hm. pose proof (clash_free _ _ _ Hcl Hm) as H. unfold network_clash in H.
    breflect. split; [done|]. intros [= E1 E2]. rewrite E1, E2, !String.eqb_refl in *. done. }
  assert (Hsym : forall m, disjoint_ranges m n -> m ∈ db_networks db -> disjoint_ranges n m).
  { intros m H Hm r r' Hr Hr'. specialize (H r' r Hr' Hr). apply not_true_iff_false. intros Ht.
    destruct (ranges_ok _ _ Hok Hr) as (? & ? & _), (ranges_ok _ _ (ni_net_ok0 _ Hm) Hr') as (? & ? & _).
    apply Overlaps_spec in Ht as (a & ? & ?); auto.
    assert (Overlaps r' r = true) by (apply Overlaps_spec; eauto). congruence. }
  split; simpl; auto.
  - apply unique_by_app; [done|]. intros x k Hx [= <-] [= E]. by destruct (Hfree x Hx).
  - apply unique_by_app; [done|]. intros x k Hx [= <-] [= E1 E2]. destruct (Hfree x Hx) as [_ []]. congruence.
  - intros x. rewrite elem_of_app, list_elem_of_singleton. intros [?| ->]; auto.
  - intros x y. rewrite !elem_of_app, !list_elem_of_singleton. intros [Hx| ->] [Hy| ->] Hne; auto; done.
  - intros s Hs. destruct (ni_slice_ok0 s Hs) as (m & Hm & ?). exists m. split; [set_solver|done].
Qed.

Lemma insert_slice_inv db s : net_inv db -> slice_ok (db_networks db) s ->
  (forall t p6, t ∈ db_slices db -> sl_NetworkID t = sl_NetworkID s -> sl_CIDR6 s = Some p6 ->
     sl_CIDR6 t <> Some p6) ->
  existsb (slice_clash s) (db_slices db) = false ->
  net_inv (MkNetDB (db_networks db) (db_slices db ++ [s]) (db_nics db)).
Proof.
  intros [] Hok H6 Hcl.
  assert (Hfree : forall t, t ∈ db_slices db ->
    (sl_NetworkID t, sl_NodeID t) <> (sl_NetworkID s, sl_NodeID s) /\
    (sl_NetworkID t, sl_CIDR t) <> (sl_NetworkID s, sl_CIDR s)).
  { intros t Ht. pose proof (clash_free _ _ _ Hcl Ht) as H. unfold slice_clash in H.
    split; intros [= E1 E2]; rewrite E1, E2, ?String.eqb_refl in H; clash_refl H. }
  split; simpl; auto.
  - intros x. rewrite elem_of_app, list_elem_of_singleton. intros [?| ->]; auto.
  - apply unique_by_app; [done|]. intros t k Ht [= <-] [= E1 E2]. destruct (Hfree t Ht) as [[] _]. congruence.
  - apply unique_by_app; [done|]. intros t k Ht [= <-] [= E1 E2]. destruct (Hfree t Ht) as [_ []]. congruence.
  - apply unique_by_app; [done|]. intros t k Ht Et Es.
    destruct (sl_CIDR6 t) as [t6|] eqn:E6, (sl_CIDR6 s) as [s6|] eqn:Es6; simplify_eq/=.
    eapply (H6 t s6 Ht); congruence.
  - intros c Hc. destruct (ni_nic_ok0 c Hc) as (? & t & Ht & ?). split; [done|]. exists t. split; [set_solver|done].
Qed.

Lemma insert_nic_inv db c : net_inv db -> nic_ok (db_slices db) c ->
  (forall d a, d ∈ db_nics db -> nic_NetworkID d = nic_NetworkID c -> nic_IP6 c = Some a ->
     nic_IP6 d <> Some a) ->
  existsb (nic_clash c) (db_nics db) = false ->
  net_inv (MkNetDB (db_networks db) (db_slices db) (db_nics db ++ [c])).
Proof.
  intros [] Hok H6 Hcl.
  assert (Hfree : forall d, d ∈ db_nics db ->
    (nic_InstanceID d, nic_NetworkID d) <> (nic_InstanceID c, nic_NetworkID c) /\
    (nic_InstanceID d, nic_Device d) <> (nic_InstanceID c, nic_Device c) /\
    (nic_NetworkID d, nic_IP d) <> (nic_NetworkID c, nic_IP c)).
  { intros d Hd. pose proof (clash_free _ _ _ Hcl Hd) as H. unfold nic_clash in H.
    split_and!; intros [= E1 E2]; rewrite E1, E2, ?String.eqb_refl, ?Z.eqb_refl in H; clash_refl H. }
  split; simpl; auto.
  - intros x. rewrite elem_of_app, list_elem_of_singleton. intros [?| ->]; auto.
  - apply unique_by_app; [done|]. intros d k Hd [= <-] [= E1 E2]. destruct (Hfree d Hd) as ([] & _). congruence.
  - apply unique_by_app; [done|]. intros d k Hd [= <-] [= E1 E2]. destruct (Hfree d Hd) as (_ & [] & _). congruence.
  - apply unique_by_app; [done|]. intros d k Hd [= <-] [= E1 E2]. destruct (Hfree d Hd) as (_ & _ & []). congruence.
  - apply unique_by_app; [done|]. intros d k Hd Ed Ec.
    destruct (nic_IP6 d) as [d6|] eqn:E6, (nic_IP6 c) as [c6|] eqn:Ec6; simplify_eq/=.
    eapply (H6 d c6 Hd); congruence.
Qed.

(** A network without interfaces goes with its slices. *)
Lemma delete_network_inv db id : net_inv db -> nics_in id db = [] ->
  net_inv (MkNetDB (List.filter (fun n => negb (String.eqb (nw_ID n) id)) (db_networks db))
             (List.filter (fun s => negb (String.eqb (sl_NetworkID s) id)) (db_slices db)) (db_nics db)).
Proof.
  intros [] Hno. split; simpl; auto with go.
  - intros n [Hn _]%elem_of_filter_bool. auto.
  - intros n m [Hn _]%elem_of_filter_bool [Hm _]%elem_of_filter_bool. auto.
  - intros s [Hs Hid]%elem_of_filter_bool. breflect. destruct (ni_slice_ok0 s Hs) as (n & Hn & En & ?).
    exists n. split_and!; auto; [|by destruct H..]. apply elem_of_filter_bool. split; [done|].
    rewrite En. by apply negb_true_iff, String.eqb_neq.
  - intros c Hc. destruct (ni_nic_ok0 c Hc) as (? & s & Hs & Es & ?). split; [done|]. exists s.
    split_and!; auto; [|by destruct H0 as (?&?&?)..]. apply elem_of_filter_bool. split; [done|].
    apply negb_true_iff, String.eqb_neq. rewrite Es. intros E.
    assert (Hin : c ∈ nics_in id db) by (apply elem_of_filter_bool; split; [done|by apply String.eqb_eq]).
    rewrite Hno in Hin. set_solver.
Qed.

Lemma delete_nics_inv db (p : NIC -> bool) : net_inv db ->
  net_inv (MkNetDB (db_networks db) (db_slices db) (List.filter p (db_nics db))).
Proof.
  intros []. split; simpl; auto with go. intros c [Hc _]%elem_of_filter_bool. auto.
Qed.

#[local] Opaque rounds nextAddress nextSlice freePrefix parsePrefix.

(** ** Operations

    Each lemma runs one operation from a world whose
    tables satisfy the invariant, under any clock, random source and I/O failures. *)
Section operations.
Context {S : Type} `{!Has NetDB S} (env : Env).
Implicit Types w : World S.

Abbreviation db_of w := (part (T:=NetDB) w).

Lemma list_networks_elem n db : n ∈ sliceStable by_name (db_networks db) <-> n ∈ db_networks db.
Proof. by rewrite sliceStable_perm. Qed.

Lemma create_inv params w : net_inv (db_of w) ->
  wp env (create params) (fun _ w' => net_inv (db_of w')) w.
Proof.
  intros Hinv. unfold create. apply wp_bind. rewrite wp_lift.
  destruct (create_ranges params) as [[p second]|e] eqn:Er; [|done].
  apply create_ranges_ok in Er as [Hp H6]. apply wp_bind, wp_mapped, wp_read.
  intros r [->| ->]; [done|]. cbn [or_fault]. apply wp_bind. rewrite wp_lift.
  destruct (check_overlaps p second _) as [[]|e] eqn:Ec; [|done].
  assert (Hdis := fun Hok => check_overlaps_ok _ _ _ Hok Ec). clear Ec.
  apply wp_bind. unfold ids_New. apply wp_bind. rewrite wp_rand, wp_ret. apply wp_bind. rewrite wp_now.
  set (n := MkNetwork _ _ _ _ _ _ _ _ _). apply wp_bind, wp_mapped, wp_write.
  { by intros w' ->. }
  change (db_of (tick (tick (tick w)))) with (db_of w). intros w'. unfold insert_row.
  destruct (existsb _ _) eqn:Ex; cbn [fst snd or_fault]; [intros ->; by destruct (db_of w)|].
  rewrite wp_ret. intros ->. apply insert_network_inv; auto; [done|].
  intros m Hm r r' Hr Hr'. destruct (Hdis) with (n := m) (r := r) as [Hd1 Hd6]; auto.
  - intros x Hx. apply list_networks_elem in Hx. by apply (ni_net_ok _ Hinv).
  - by apply list_networks_elem.
  - unfold ranges in Hr'. apply elem_of_cons in Hr' as [->|Hr']; [done|].
    unfold n in Hr'. simpl in Hr'. destruct second as [q|]; [|set_solver].
    apply list_elem_of_singleton in Hr' as ->. auto.
Qed.

Lemma nics_in_empty id db : guard (0 <? len (nics_in id db)) (Conflict "network_in_use"
    "the network still has addresses handed out to instances") = Ok tt -> nics_in id db = [].
Proof. unfold guard. destruct (Z.ltb_spec 0 (len (nics_in id db))); [done|]. destruct (nics_in id db); [done|simpl in *; lia]. Qed.

(** [get] and [getIn] only read. *)
Lemma get_wp id (Q : outcome Network -> World S -> Prop) w :
  (forall r w', part w' = db_of w ->
     match r with Ok n => n ∈ db_networks (db_of w) /\ nw_ID n = id | Err _ => True end -> Q r w') ->
  wp env (get id) Q w.
Proof.
  intros H. apply wp_mapped, wp_read. intros r Hr. apply H; [done|].
  destruct Hr as [->| ->]; [done|]. destruct (select_one _ _ _) as [n|] eqn:E; simpl; [|done].
  apply select_one_ok in E as [? E]. split; [done|by apply String.eqb_eq].
Qed.

Lemma remove_inv id projectID w : net_inv (db_of w) ->
  wp env (remove id projectID) (fun _ w' => net_inv (db_of w')) w.
Proof.
  intros Hinv. unfold remove, getIn. apply wp_bind, wp_bind, get_wp. intros [n|e] w1 Hw1 _; [|by rewrite Hw1].
  apply wp_bind. rewrite wp_lift. unfold guard at 1. destruct (negb _); [by rewrite Hw1|].
  rewrite wp_ret. apply wp_bind, wp_mapped, wp_read. intros r [->| ->]; cbn [or_fault];
    [change (db_of (tick w1)) with (db_of w1); by rewrite Hw1|].
  apply wp_bind. rewrite wp_lift. destruct (guard _ _) as [[]|] eqn:Eg;
    [|change (db_of (tick w1)) with (db_of w1); by rewrite Hw1].
  apply nics_in_empty in Eg. apply wp_mapped, wp_write; change (db_of (tick w1)) with (db_of w1); rewrite Hw1 in *.
  - by intros w' ->.
  - intros w' ->. by apply delete_network_inv.
Qed.

Lemma freeDefaultCIDR_reads (Q : outcome Prefix -> World S -> Prop) w :
  (forall r w', part w' = db_of w -> Q r w') -> wp env freeDefaultCIDR Q w.
Proof.
  intros H. unfold freeDefaultCIDR. apply wp_bind, wp_mapped, wp_read.
  intros r [->| ->]; cbn [or_fault]; [by apply H|]. apply wp_bind. rewrite wp_lift.
  destruct (or_fault Internal (parsePrefix DefaultCIDR)); [|by apply H]. case_match; [by apply H|].
  apply wp_bind. rewrite wp_lift. destruct (or_fault Internal (parsePrefix SupernetCIDR)); by apply H.
Qed.

Lemma ensureDefaultFor_inv projectID w : net_inv (db_of w) ->
  wp env (ensureDefaultFor projectID) (fun _ w' => net_inv (db_of w')) w.
Proof.
  intros Hinv. unfold ensureDefaultFor. apply wp_bind, wp_attempt, wp_read. intros [n|e] _; [done|].
  case_match; [done|]. apply wp_bind, freeDefaultCIDR_reads. intros [p|e'] w' Hw'; [|by rewrite Hw'].
  apply create_inv. by rewrite Hw'.
Qed.

Lemma slices_in_elem id s db : s ∈ slices_in id db <-> s ∈ db_slices db /\ sl_NetworkID s = id.
Proof. unfold slices_in. rewrite elem_of_filter_bool. by rewrite String.eqb_eq. Qed.

Lemma nics_in_elem id c db : c ∈ nics_in id db <-> c ∈ db_nics db /\ nic_NetworkID c = id.
Proof. unfold nics_in. rewrite elem_of_filter_bool. by rewrite String.eqb_eq. Qed.

Lemma nextSlice_in network taken c : range_ok network -> nextSlice network taken = Ok c ->
  node_slice network c /\ c ∉ taken.
Proof.
  intros (Hw & Hm & _) H. pose proof (nextSlice_search network taken Hw Hm) as Hs. rewrite H in Hs.
  by destruct Hs as (? & ? & _).
Qed.

Lemma second_slice_wp networkID n (Q : outcome (option Prefix) -> World S -> Prop) w :
  network_ok n ->
  (forall r w', part w' = db_of w ->
     match r with
     | Ok (Some p6) => exists r6, nw_CIDR6 n = Some r6 /\ node_slice r6 p6 /\
         forall s, s ∈ db_slices (db_of w) -> sl_NetworkID s = networkID -> sl_CIDR6 s <> Some p6
     | _ => True
     end -> Q r w') ->
  wp env (second_slice networkID n) Q w.
Proof.
  intros Hn H. unfold second_slice. destruct (nw_CIDR6 n) as [c6|] eqn:E6; [|by apply H].
  destruct (proj2 Hn c6 E6) as [Hok _]. rewrite (range_ok_stored _ Hok). apply wp_bind. rewrite wp_lift.
  cbn [or_fault]. apply wp_bind, wp_mapped, wp_read. intros r [->| ->]; cbn [or_fault]; [by apply H|].
  apply wp_bind. rewrite wp_lift. destruct (nextSlice _ _) as [p6|e] eqn:En; cbn [or_fault]; [|by apply H].
  apply nextSlice_in in En as [Hns Hnew]; [|done]. rewrite wp_ret. apply H; [done|].
  exists c6. split_and!; auto. intros s Hs Es E. apply Hnew, list_elem_of_omap. exists s.
  split; [|done]. by apply slices_in_elem.
Qed.

(** The slice [ensureSlice] answers with is the node's. *)
Lemma ensureSlice_wp networkID nodeID w : net_inv (db_of w) ->
  wp env (ensureSlice networkID nodeID) (fun r w' =>
    net_inv (db_of w') /\ db_networks (db_of w') = db_networks (db_of w) /\
    db_nics (db_of w') = db_nics (db_of w) /\
    match r with
    | Ok s => s ∈ db_slices (db_of w') /\ sl_NetworkID s = networkID /\ sl_NodeID s = nodeID
    | Err _ => True
    end) w.
Proof.
  assert (Hkey : forall s db, select_one (slice_of networkID nodeID) errNotFound (db_slices db) = Ok s ->
    s ∈ db_slices db /\ sl_NetworkID s = networkID /\ sl_NodeID s = nodeID).
  { intros s db E. apply select_one_ok in E as [? E]. unfold slice_of in E. by breflect. }
  intros Hinv. unfold ensureSlice. apply wp_bind, wp_attempt, wp_read. intros r Hr.
  destruct r as [s|e]; [destruct Hr as [?|Hr]; [done|]; rewrite wp_ret; do 3 (split; [done|]); by apply Hkey|].
  clear Hr. case_match; [done|].
  apply wp_bind, get_wp. intros [n|?] w1 Hw1 Hn; [|rewrite Hw1; auto]. destruct Hn as [Hn Hid].
  change (db_of (tick w)) with (db_of w) in *. pose proof (ni_net_ok _ Hinv n Hn) as Hok.
  rewrite (range_ok_stored (nw_CIDR n)) by exact (proj1 Hok). apply wp_bind. rewrite wp_lift. cbn [or_fault].
  apply wp_bind, wp_mapped, wp_read. intros r [->| ->]; cbn [or_fault];
    change (part (tick w1)) with (db_of w1); [rewrite Hw1; auto|].
  apply wp_bind. rewrite wp_lift. destruct (nextSlice _ _) as [c|?] eqn:Ec; cbn [or_fault];
    change (part (tick w1)) with (db_of w1); [|rewrite Hw1; auto].
  apply nextSlice_in in Ec as [Hns _]; [|exact (proj1 Hok)]. apply wp_bind. rewrite wp_now.
  apply wp_bind, second_slice_wp; [done|]. change (part (tick (tick w1))) with (db_of w1). rewrite Hw1.
  intros [c6|?] w2 Hw2 H6; [|rewrite Hw2; auto].
  set (s := MkSlice _ _ _ _ _). apply wp_bind, wp_attempt, wp_write; rewrite Hw2.
  { intros w' Hw'. change (errors_Is (io_error _) _) with false. cbn match. rewrite wp_fail, Hw'. auto. }
  intros w' Hw'. unfold insert_row in *. destruct (existsb _ _) eqn:Ex; cbn [fst snd] in *.
  - assert (Hdb : db_of w' = db_of w) by (rewrite Hw'; by destruct (db_of w)).
    change (errors_Is errCIDRTaken _) with true. cbn match. apply wp_read. intros r Hr.
    change (part (tick w')) with (db_of w'). rewrite Hdb. do 3 (split; [done|]).
    destruct r as [t|]; [|done]. destruct Hr as [?|Hr]; [done|]. rewrite Hdb in Hr. by apply Hkey.
  - rewrite wp_ret, Hw'. cbn [db_networks db_slices db_nics]. split_and!; auto; [|set_solver].
    apply insert_slice_inv; auto.
    + exists n. split_and!; auto. cbn. intros p6 ->. destruct H6 as (r6 & ? & ? & _). eauto.
    + cbn. intros t p6 Ht Et -> E. destruct H6 as (_ & _ & _ & H6). by apply (H6 t).
Qed.

Lemma free_device_inl networkID device held c : free_device networkID device held = inl c ->
  c ∈ held /\ nic_NetworkID c = networkID.
Proof.
  revert device. induction held as [|d held IH]; simpl; intros device H; [done|].
  destruct (String.eqb_spec (nic_NetworkID d) networkID); [injection H as <-; set_solver|].
  destruct (IH _ H). set_solver.
Qed.

Lemma free_device_inr networkID device held k : free_device networkID device held = inr k -> device <= k.
Proof.
  revert device. induction held as [|d held IH]; simpl; intros device H; [injection H as <-; lia|].
  destruct (String.eqb _ _); [done|]. apply IH in H. destruct (Z.leb_spec device (nic_Device d)); lia.
Qed.

Lemma nics_held_elem instanceID c db : c ∈ nics_held instanceID db <->
  c ∈ db_nics db /\ nic_InstanceID c = instanceID.
Proof. unfold nics_held. by rewrite sliceStable_perm, elem_of_filter_bool, String.eqb_eq. Qed.

Lemma stored_in p q taken a : node_slice p q ->
  (try x := parse_stored q in nextAddress x taken) = Ok a -> Contains q a = true /\ a ∉ taken.
Proof.
  intros [(_ & Hq & Hm & _) _]. unfold parse_stored. destruct (Is4In6 _) eqn:E; [done|].
  assert (Masked q = q) as ->.
  { pose proof (parse_stored_ok q Hq Hm E) as H. unfold parse_stored in H. rewrite E in H. congruence. }
  cbn [obind]. intros H. by apply nextAddress_in in H as (? & ? & _).
Qed.

Lemma second_address_wp networkID s (Q : outcome (option Addr) -> World S -> Prop) w :
  slice_ok (db_networks (db_of w)) s ->
  (forall r w', part w' = db_of w ->
     match r with
     | Ok (Some a) => (exists p6, sl_CIDR6 s = Some p6 /\ Contains p6 a = true) /\
         forall c, c ∈ db_nics (db_of w) -> nic_NetworkID c = networkID -> nic_IP6 c <> Some a
     | _ => True
     end -> Q r w') ->
  wp env (second_address networkID s) Q w.
Proof.
  intros (n & _ & _ & _ & Hs6) H. unfold second_address. destruct (sl_CIDR6 s) as [c6|]; [|by apply H].
  destruct (Hs6 c6 eq_refl) as (r6 & _ & Hns). pose proof (fun taken a => stored_in r6 c6 taken a Hns) as Hin.
  apply wp_bind. rewrite wp_lift. destruct (parse_stored c6) as [q|]; cbn [or_fault obind] in *; [|by apply H].
  apply wp_bind, wp_mapped, wp_read. intros r [->| ->]; cbn [or_fault]; [by apply H|].
  apply wp_bind. rewrite wp_lift. destruct (nextAddress q _) as [a|] eqn:En; cbn [or_fault]; [|by apply H].
  apply Hin in En as [Hc Hnew]. rewrite wp_ret. apply H; [done|]. split; [eauto|].
  intros c Hin' Ec E. apply Hnew, list_elem_of_omap. exists c. split; [|done]. by apply nics_in_elem.
Qed.

(** What [allocate] does to the table of interfaces: nothing when the instance is on the
    network already or when it fails, and otherwise one row more. *)
Definition allocated (instanceID networkID nodeID : string) (db db' : NetDB) (r : outcome NIC) : Prop :=
  match r with
  | Ok c =>
      nic_InstanceID c = instanceID /\ nic_NetworkID c = networkID /\
      (db' = db /\ c ∈ db_nics db \/
       db_nics db' = db_nics db ++ [c] /\ nic_NodeID c = nodeID /\ nic_ok (db_slices db') c)
  | Err _ => db_nics db' = db_nics db
  end.

Lemma allocate_wp instanceID networkID nodeID w : net_inv (db_of w) ->
  wp env (allocate instanceID networkID nodeID) (fun r w' =>
    net_inv (db_of w') /\ allocated instanceID networkID nodeID (db_of w) (db_of w') r) w.
Proof.
  intros Hinv. unfold allocate. apply wp_bind, wp_mapped, wp_read. intros r [->| ->]; cbn [or_fault]; [done|].
  destruct (free_device _ _ _) as [c|k] eqn:Ek.
  { apply free_device_inl in Ek as [Hc Hn]. apply nics_held_elem in Hc as [? ?]. rewrite wp_ret.
    split; [done|]. unfold allocated. auto. }
  apply free_device_inr in Ek. apply wp_bind. rewrite wp_lift. unfold guard.
  destruct (Z.leb_spec MaxNICs k); [done|]. apply wp_bind.
  eapply wp_mono; [|apply ensureSlice_wp; exact Hinv].
  intros [s|e] w1 (Hinv1 & _ & Enics & Hs); [|done]. destruct Hs as (Hs & Hsn & Hsd).
  change (db_nics (db_of w1) = db_nics (db_of w)) in Enics. unfold allocated. rewrite <- Enics.
  pose proof (ni_slice_ok _ Hinv1 s Hs) as Hok. pose proof Hok as (n & _ & _ & Hns & _).
  pose proof (fun taken a => stored_in _ _ taken a Hns) as Hin.
  apply wp_bind. rewrite wp_lift. destruct (parse_stored (sl_CIDR s)) as [q|]; cbn [or_fault obind] in *; [|auto].
  apply wp_bind, wp_mapped, wp_read. intros r [->| ->]; cbn [or_fault]; [auto|].
  apply wp_bind. rewrite wp_lift. destruct (nextAddress q _) as [a|] eqn:En; cbn [or_fault]; [|auto].
  apply Hin in En as [Hc _]. apply wp_bind. unfold randomMAC. apply wp_bind. rewrite wp_rand, wp_ret.
  apply wp_bind, second_address_wp; [done|].
  change (part (tick (tick w1))) with (db_of w1). intros [a6|?] w2 Hw2 H6; [|by rewrite Hw2].
  apply wp_bind. rewrite wp_now. set (c := MkNIC _ _ _ _ _ _ _ _).
  apply wp_bind, wp_mapped, wp_write; change (part (tick w2)) with (db_of w2); rewrite Hw2; cbn [or_fault].
  { by intros w' ->. }
  assert (Hcok : nic_ok (db_slices (db_of w1)) c).
  { split; [simpl; lia|]. exists s. split_and!; auto. cbn. intros b ->. by destruct H6 as [? _]. }
  intros w' Hw'. unfold insert_row in *. destruct (existsb _ _) eqn:Ex; cbn [fst snd or_fault] in *.
  - rewrite Hw'. by destruct (db_of w1).
  - rewrite wp_ret, Hw'. cbn [db_nics db_slices]. split.
    + apply insert_nic_inv; auto. cbn. intros d b Hd Ed ->. destruct H6 as [_ H6]. by apply H6.
    + split_and!; auto.
Qed.

Lemma release_inv instanceID w : net_inv (db_of w) ->
  wp env (release instanceID) (fun _ w' => net_inv (db_of w')) w.
Proof.
  intros Hinv. apply wp_mapped, wp_write; [by intros w' ->|]. intros w' ->. by apply delete_nics_inv.
Qed.

Lemma nodeView_inv nodeID w : net_inv (db_of w) ->
  wp env (nodeView nodeID) (fun _ w' => net_inv (db_of w')) w.
Proof.
  intros Hinv. unfold nodeView. apply wp_bind, wp_mapped, wp_read. intros [nics|] _; cbn [or_fault]; [|done].
  eapply wp_mono; [|apply (wp_foldM env (fun _ w' => net_inv (db_of w')) (fun _ w' => net_inv (db_of w')))].
  - by intros [].
  - intros id views w1 _ H1. apply wp_bind, get_wp. intros [n|] w2 Hw2 _; [|by rewrite Hw2].
    apply wp_bind. eapply wp_mono; [|apply ensureSlice_wp; by rewrite Hw2].
    intros [s|] w3 (H3 & _); [|done]. apply wp_bind, wp_mapped, wp_read. by intros [] _.
  - done.
Qed.

Lemma serve_inv r w : net_inv (db_of w) -> wp env (serve r) (fun _ w' => net_inv (db_of w')) w.
Proof.
  intros Hinv. destruct r; cbn [serve].
  - apply wp_bind. eapply wp_mono; [|by apply create_inv]. by intros [].
  - by apply remove_inv.
  - apply wp_bind. eapply wp_mono; [|by apply ensureDefaultFor_inv]. by intros [].
  - apply wp_bind. eapply wp_mono; [|by apply allocate_wp]. by intros [] ? [].
  - by apply release_inv.
  - apply wp_bind. eapply wp_mono; [|by apply nodeView_inv]. by intros [].
Qed.

Lemma serve_all_inv rs w : net_inv (db_of w) -> wp env (serve_all rs) (fun _ w' => net_inv (db_of w')) w.
Proof.
  intros Hinv. unfold serve_all.
  eapply wp_mono; [|apply (wp_foldM env (fun _ w' => net_inv (db_of w')) (fun _ w' => net_inv (db_of w')))].
  - by intros [].
  - intros r _ w1 _ H1. apply wp_bind, wp_attempt. eapply wp_mono; [|by apply serve_inv]. done.
  - done.
Qed.
End operations.

(** * Properties *)

(** C1: [addresses_unique]: whatever requests the module serves, under any clock, random
    source and pattern of database failures, no address of either family is held by two
    interfaces, over all the networks and projects of the platform. *)
Theorem addresses_unique env rs (w w' : World NetDB) c d a
  (Hempty : w_st w = empty_db) (Hrun : w' = snd (serve_all rs env w))
  (Hc : c ∈ db_nics (w_st w')) (Hd : d ∈ db_nics (w_st w')) (Hne : c <> d) :
  a ∈ addresses c -> a ∉ addresses d.
Proof.
  intros Hac Had. apply Hne.
  pose proof (serve_all_inv env rs w) as H. unfold wp, part, hget, Has_refl in H. rewrite Hempty in H.
  specialize (H net_inv_empty). destruct (serve_all rs env w) as [r w1]. simpl in Hrun. subst w1.
  by eapply unique_address.
Qed.

(** A run: the default network of a project, two instances on it. *)
Definition env0 : Env := {| env_now := Z.of_nat; env_rand n := [Z.of_nat n]; env_io _ := false |}.
Definition world0 : World NetDB := MkWorld empty_db O [].
Definition net0 : string := "nw-0c00000000000".
Definition run0 : list request :=
  [ReqEnsureDefault "prj-1"; ReqAllocate "i-1" net0 "nd-1"; ReqAllocate "i-2" net0 "nd-1"].

Lemma addresses_unique_witness :
  let db := w_st (snd (serve_all run0 env0 world0)) in
  exists c d, db_nics db = [c; d] /\ addresses c = [MkAddr false 169082945] /\ MkAddr false 169082945 ∉ addresses d.
Proof.
  pose proof (addresses_unique env0 run0 world0 (snd (serve_all run0 env0 world0))) as H.
  destruct (snd (serve_all run0 env0 world0)) as [db n ev] eqn:E. vm_compute in E. injection E as <- <- <-.
  do 2 eexists. split; [reflexivity|]. split; [reflexivity|].
  eapply H; [reflexivity|reflexivity|apply list_elem_of_here|apply list_elem_of_further, list_elem_of_here|discriminate|apply list_elem_of_here].
Defined.

(** C2: [serve_keeps_invariant]: every request keeps the tables well formed, also when the
    database fails half way: networks of all projects have pairwise disjoint ranges, a
    node's slice is its own block of its network's range, interfaces lie in their node's
    slice, carry distinct devices from 0 to 3 and distinct addresses. *)
Theorem serve_keeps_invariant env r (w : World NetDB) (Hinv : net_inv (w_st w)) :
  net_inv (w_st (snd (serve r env w))).
Proof.
  pose proof (serve_inv env r w Hinv) as H. unfold wp in H. by destruct (serve r env w).
Qed.

Lemma serve_keeps_invariant_witness :
  net_inv (w_st (snd (serve (ReqEnsureDefault "prj-1") env0 world0))).
Proof. apply serve_keeps_invariant. apply net_inv_empty. Defined.

(** [allocate_spec]: an instance that is on the network already keeps its interface and
    nothing is written; otherwise success adds exactly the interface returned, in the
    slice of the node asked for, and a failure adds none. *)
Theorem allocate_spec env instanceID networkID nodeID (w : World NetDB) (Hinv : net_inv (w_st w)) :
  let '(r, w') := allocate instanceID networkID nodeID env w in
  allocated instanceID networkID nodeID (w_st w) (w_st w') r /\
  forall c, c ∈ db_nics (w_st w) -> nic_InstanceID c = instanceID -> nic_NetworkID c = networkID ->
    env_io env (w_step w) = false -> r = Ok c /\ w_st w' = w_st w.
Proof.
  pose proof (allocate_wp env instanceID networkID nodeID w Hinv) as H. unfold wp in H.
  destruct (allocate instanceID networkID nodeID env w) as [r w'] eqn:E. split; [apply H|].
  intros c Hc Ei En Hio. revert E. unfold allocate, bind at 1, translated, mapped, bind at 1, attempt, nicsOf, query, sql.
  rewrite Hio. cbn [lift or_fault]. rewrite hput_hget.
  destruct (free_device networkID 0 _) as [d|k] eqn:Ek.
  - apply free_device_inl in Ek as [Hd Ed]. apply nics_held_elem in Hd as [Hd Eid]. intros [= <- <-].
    split; [|done]. f_equal. apply (unique_by_eq _ _ d c (instanceID, networkID) (ni_nic_net _ Hinv)); [done|done|simpl; congruence..].
  - exfalso. assert (Hin : c ∈ nics_held instanceID (hget (w_st w))) by (by apply nics_held_elem).
    revert Ek Hin. generalize 0. induction (nics_held _ _) as [|x l IH]; [set_solver|]. simpl.
    intros z. destruct (String.eqb_spec (nic_NetworkID x) networkID); [done|].
    intros Ek [->|Hin]%elem_of_cons; [done|]. eauto.
Qed.

Lemma allocate_spec_witness :
  let w := snd (serve_all run0 env0 world0) in
  allocated "i-1" net0 "nd-1" (w_st w) (w_st (snd (allocate "i-1" net0 "nd-1" env0 w)))
    (fst (allocate "i-1" net0 "nd-1" env0 w)).
Proof.
  intros w. assert (Hinv : net_inv (w_st w)).
  { pose proof (serve_all_inv env0 run0 world0 net_inv_empty) as H. unfold wp in H. unfold w.
    by destruct (serve_all run0 env0 world0). }
  pose proof (allocate_spec env0 "i-1" net0 "nd-1" w Hinv) as H.
  destruct (allocate "i-1" net0 "nd-1" env0 w) as [r w']. exact (proj1 H).
Defined.

(** [remove_spec]: a network is removed only from its own project and only when none of
    its addresses is held; its slices go with it, and nothing else changes.  In every
    other case the tables stay as they are. *)
Theorem remove_spec env id projectID (w : World NetDB) :
  let '(r, w') := remove id projectID env w in
  match r with
  | Ok _ =>
      (exists n, n ∈ db_networks (w_st w) /\ nw_ID n = id /\ nw_ProjectID n = projectID) /\
      (forall c, c ∈ db_nics (w_st w) -> nic_NetworkID c <> id) /\
      (forall n, n ∈ db_networks (w_st w') <-> n ∈ db_networks (w_st w) /\ nw_ID n <> id) /\
      (forall s, s ∈ db_slices (w_st w') <-> s ∈ db_slices (w_st w) /\ sl_NetworkID s <> id) /\
      db_nics (w_st w') = db_nics (w_st w)
  | Err _ => w_st w' = w_st w
  end.
Proof.
  enough (H : wp env (remove id projectID) (fun r w' => match r with
    | Ok _ => (exists n, n ∈ db_networks (w_st w) /\ nw_ID n = id /\ nw_ProjectID n = projectID) /\
        nics_in id (w_st w) = [] /\ w_st w' = MkNetDB
          (List.filter (fun n => negb (String.eqb (nw_ID n) id)) (db_networks (w_st w)))
          (List.filter (fun s => negb (String.eqb (sl_NetworkID s) id)) (db_slices (w_st w)))
          (db_nics (w_st w))
    | Err _ => w_st w' = w_st w end) w).
  { unfold wp in H. destruct (remove id projectID env w) as [[[]|e] w']; [|done].
    destruct H as (Hn & Hno & ->). split; [done|]. split_and!; [|intros..|done].
    - intros c Hc E. assert (c ∈ nics_in id (w_st w)) as Hin by (by apply nics_in_elem). rewrite Hno in Hin. set_solver.
    - cbn. by rewrite elem_of_filter_bool, negb_true_iff, String.eqb_neq.
    - cbn. by rewrite elem_of_filter_bool, negb_true_iff, String.eqb_neq. }
  unfold remove, getIn. apply wp_bind, wp_bind, get_wp. intros [n|e] w1 Hw1 Hn; [|exact Hw1].
  apply wp_bind. rewrite wp_lift. unfold guard at 1. destruct (String.eqb_spec (nw_ProjectID n) projectID); [|exact Hw1].
  cbn [negb]. rewrite wp_ret. apply wp_bind, wp_mapped, wp_read. intros r [->| ->]; cbn [or_fault]; [exact Hw1|].
  apply wp_bind. rewrite wp_lift. destruct (guard _ _) as [[]|] eqn:Eg; [|exact Hw1].
  apply nics_in_empty in Eg. change (w_st w1 = w_st w) in Hw1. change (nics_in id (w_st w1) = []) in Eg.
  apply wp_mapped, wp_write; change (part (tick w1)) with (w_st w1); rewrite Hw1 in *.
  - by intros w' Hw'.
  - intros w' Hw'. cbn [fst or_fault]. destruct Hn. split_and!; eauto.
Qed.

(** A network whose IPv4 range is its second one. *)
Definition six_first : CreateParams :=
  {| cp_ProjectID := "prj-1"; cp_Name := "lab"; cp_CIDR := "fd00:1::/48"; cp_CIDR6 := "10.20.0.0/16" |}.

Definition stuck_db : NetDB := Eval vm_compute in w_st (snd (create six_first env0 world0)).

(** [default_network_stuck]: [freeDefaultCIDR] looks only at the first range of the
    networks there are.  Once some project has a network whose second range is
    10.20.0.0/16, which [create] accepts, every other project's default network is given
    that same range, and [create] refuses it: no new project gets a default network, and
    asking again does not help. *)
Theorem default_network_stuck :
  w_st (snd (create six_first env0 world0)) = stuck_db /\
  forall env (w : World NetDB), w_st w = stuck_db ->
  exists e, fst (ensureDefaultFor "prj-2" env w) = Err e /\
    (code_of e = "network_overlaps" \/ exists what, e = Internal (io_error what)).
Proof.
  split; [vm_compute; reflexivity|]. intros env w Hw.
  enough (H : wp env (ensureDefaultFor "prj-2") (fun r _ => exists e, r = Err e /\
    (code_of e = "network_overlaps" \/ exists what, e = Internal (io_error what))) w).
  { unfold wp in H. by destruct (ensureDefaultFor "prj-2" env w). }
  unfold ensureDefaultFor. apply wp_bind, wp_attempt, wp_read.
  change (part w) with (w_st w). rewrite Hw.
  intros r Hr. destruct r as [n|e]; [exfalso; destruct Hr as [Hr|Hr]; [done|vm_compute in Hr; done]|].
  destruct (negb _) eqn:Ee.
  { rewrite wp_fail. eexists. split; [reflexivity|]. right. destruct Hr as [Hr|Hr]; injection Hr as ->;
    [eexists; vm_compute; reflexivity|vm_compute in Ee; done]. }
  clear Hr Ee. apply wp_bind. unfold freeDefaultCIDR. apply wp_bind, wp_mapped, wp_read.
  change (part (tick w)) with (w_st w). rewrite Hw.
  intros r [->| ->]; cbn [or_fault]; [eexists; split; [reflexivity|right; eexists; vm_compute; reflexivity]|].
  apply wp_bind. rewrite wp_lift.
  replace (or_fault Internal (parsePrefix DefaultCIDR)) with (Ok (PrefixFrom (MkAddr false 169082880) 16)) by (vm_compute; reflexivity).
  replace (negb (overlapsAny _ _)) with true by (vm_compute; reflexivity). rewrite wp_ret.
  unfold create. apply wp_bind. rewrite wp_lift.
  replace (create_ranges _) with (Ok (PrefixFrom (MkAddr false 169082880) 16, None : option Prefix)) by (vm_compute; reflexivity).
  apply wp_bind, wp_mapped, wp_read. change (part (tick (tick w))) with (w_st w). rewrite Hw.
  intros r [->| ->]; cbn [or_fault]; [eexists; split; [reflexivity|right; eexists; vm_compute; reflexivity]|].
  apply wp_bind. rewrite wp_lift. set (c := check_overlaps _ _ _). vm_compute in c. unfold c.
  eexists. split; [reflexivity|]. left. vm_compute. reflexivity.
Qed.
