(* ===== verification/Quota.v ===== *)
(** Project quotas (internal/platform/quota): the limits set on a project, what it already
    holds, and the admission of what it asks for next.

    What a project holds is counted by other modules; they are the interface [Usage], and
    the project directory the interface [Projects]. *)
From stdpp Require Import base tactics numbers strings list gmap.
From Stdlib Require Import ZArith Lia.
From S2P Require Import Prelude GoLang Effects Kernel.

(** * Data (types.go) *)

Definition Unlimited : Z := 0.
Definition MaxLimit : Z := Z.shiftl 1 24.

(* go: platform/quota/types.go Limits *)
Record Limits := MkLimits {
  lim_Instances : Z; lim_VCPU : Z; lim_MemoryMiB : Z; lim_Volumes : Z; lim_VolumeGiB : Z;
}.
(* go: platform/quota/types.go Consumed *)
Record Consumed := MkConsumed {
  con_Instances : Z; con_VCPU : Z; con_MemoryMiB : Z; con_Volumes : Z; con_VolumeGiB : Z;
}.
(* go: platform/quota/types.go Claim *)
Record Claim := MkClaim {
  clm_Instances : Z; clm_VCPU : Z; clm_MemoryMiB : Z; clm_Volumes : Z; clm_VolumeGiB : Z;
}.
#[export] Instance Limits_eq_dec : EqDecision Limits.
Proof. solve_decision. Defined.
Definition no_limits : Limits := MkLimits 0 0 0 0 0.
Definition no_consumed : Consumed := MkConsumed 0 0 0 0 0.
Definition no_claim : Claim := MkClaim 0 0 0 0 0.

(* go: platform/quota/types.go Quota *)
Record Quota := MkQuota { q_ProjectID : string; q_Limits : Limits; q_UpdatedAt : Z }.
(* go: platform/quota/types.go Report *)
Record Report := MkReport {
  rep_ProjectID : string; rep_Limits : Limits; rep_Consumed : Consumed; rep_UpdatedAt : Z;
}.

(* go: platform/quota/types.go Limits.Empty *)
Definition Empty (l : Limits) : bool := bool_decide (l = no_limits).

(* go: platform/quota/types.go dimension *)
Record dimension := MkDimension {
  d_name : string; d_unit : string; d_limit : Z; d_consumed : Z; d_claim : Z;
}.

(* go: platform/quota/types.go Limits.against *)
Definition against (l : Limits) (consumed : Consumed) (claim : Claim) : list dimension := [
  MkDimension "instances" "" (lim_Instances l) (con_Instances consumed) (clm_Instances claim);
  MkDimension "vcpu" "" (lim_VCPU l) (con_VCPU consumed) (clm_VCPU claim);
  MkDimension "memory" "MiB" (lim_MemoryMiB l) (con_MemoryMiB consumed) (clm_MemoryMiB claim);
  MkDimension "volumes" "" (lim_Volumes l) (con_Volumes consumed) (clm_Volumes claim);
  MkDimension "volume capacity" "GiB" (lim_VolumeGiB l) (con_VolumeGiB consumed) (clm_VolumeGiB claim)
].

(** * Interfaces (service.go) *)

(* go: platform/quota/service.go Usage *)
Record Usage (S : Type) := { InProject : string -> M S Consumed }.
Arguments InProject {S} _ _.
(* go: platform/quota/service.go Projects *)
Record Projects (S : Type) := { Exists : string -> M S bool }.
Arguments Exists {S} _ _.

(** * Repository (repository.go) *)

Definition QuotaDB : Type := list Quota.
Definition errNotFound : error := ESentinel "no quota set".

Section repository.
Context {S : Type} `{!Has QuotaDB S}.

Definition of_project (projectID : string) (q : Quota) : bool := String.eqb (q_ProjectID q) projectID.
(* go: platform/quota/repository.go repository.upsert *)
Definition upsert (q : Quota) : M S unit :=
  sql "write quota" (fun db : QuotaDB =>
    (Ok tt, if existsb (of_project (q_ProjectID q)) db
            then map (fun r => if of_project (q_ProjectID q) r then q else r) db
            else db ++ [q])).
(* go: platform/quota/repository.go repository.byProject *)
Definition byProject (projectID : string) : M S Quota :=
  query "read quota" (fun db : QuotaDB => select_one (of_project projectID) errNotFound db).
(* go: platform/quota/repository.go repository.list *)
Definition list_quotas : M S (list Quota) :=
  query "list quotas" (fun db : QuotaDB =>
    Ok (sliceStable (by_key q_ProjectID str_ltb (fun _ _ => false)) db)).
(* go: platform/quota/repository.go repository.delete *)
Definition delete (projectID : string) : M S unit :=
  sql "delete quota" (fun db : QuotaDB => delete_where (of_project projectID) errNotFound db).
End repository.

(** * Service (service.go) *)

(* go: platform/quota/service.go refusal *)
Definition refusal (d : dimension) : string :=
  let unit := if is_empty (d_unit d) then "" else " " +:+ d_unit d in
  let allowance := if is_empty (d_unit d) then itoa (d_limit d) +:+ " " +:+ d_name d
                   else itoa (d_limit d) +:+ " " +:+ d_unit d +:+ " of " +:+ d_name d in
  "the project is limited to " +:+ allowance +:+ " and already holds " +:+ itoa (d_consumed d)
  +:+ unit +:+ ", so " +:+ itoa (d_claim d) +:+ unit +:+ " more would not fit".

(** The loop of [set] over the limits. *)
(* go: platform/quota/service.go:40-49 against *)
Fixpoint check_limits (ds : list dimension) : outcome unit :=
  match ds with
  | [] => Ok tt
  | d :: ds' =>
      if d_limit d <? 0 then Err (Invalid "invalid_limit" ("the limit on " +:+ d_name d +:+ " cannot be negative"))
      else if MaxLimit <? d_limit d
      then Err (Invalid "invalid_limit" ("a limit on " +:+ d_name d +:+ " beyond " +:+ itoa MaxLimit +:+ " is the same as none"))
      else check_limits ds'
  end.

(** The loop of [admit] over the dimensions. *)
(* go: platform/quota/service.go:148-155 against *)
Fixpoint check_claim (ds : list dimension) : outcome unit :=
  match ds with
  | [] => Ok tt
  | d :: ds' =>
      if (d_limit d =? Unlimited) || (d_claim d =? 0) then check_claim ds'
      else if d_limit d <? wrap64 (d_consumed d + d_claim d)
      then Err (Conflict "quota_exceeded" (refusal d))
      else check_claim ds'
  end.

Section service.
Context {S : Type} `{!Has QuotaDB S}.
Context (usage : option (Usage S)) (projects : option (Projects S)).

(* go: platform/quota/service.go service.set *)
Definition set_quota (projectID : string) (limits : Limits) : M S Quota :=
  lift (check_limits (against limits no_consumed no_claim)) ;;;
  match projects with
  | None => fail (Unavailable "projects_unavailable" "the platform cannot confirm the project exists")
  | Some p =>
      let! exists_ := mapped Internal (Exists p projectID) in
      lift (guard (negb exists_) (NotFound "project_not_found" "no project with that id exists")) ;;;
      let! updated := now in
      let q := {| q_ProjectID := projectID; q_Limits := limits; q_UpdatedAt := updated |} in
      mapped Internal (upsert q) ;;;
      ret q
  end.

(* go: platform/quota/service.go service.limitsOf *)
Definition limitsOf (projectID : string) : M S Limits :=
  let! r := attempt (byProject projectID) in
  match r with
  | Ok q => ret (q_Limits q)
  | Err e => if errors_Is e "no quota set" then ret no_limits else fail (Internal e)
  end.

(* go: platform/quota/service.go service.consumed *)
Definition consumed (projectID : string) : M S Consumed :=
  match usage with
  | None => fail (Unavailable "usage_unavailable" "the platform cannot measure what a project already holds")
  | Some u => mapped Internal (InProject u projectID)
  end.

(* go: platform/quota/service.go service.report *)
Definition report (projectID : string) : M S Report :=
  let! limits := limitsOf projectID in
  let! used := consumed projectID in
  let! r := attempt (byProject projectID) in
  ret {| rep_ProjectID := projectID; rep_Limits := limits; rep_Consumed := used;
         rep_UpdatedAt := match r with Ok q => q_UpdatedAt q | Err _ => zero_time end |}.

(* go: platform/quota/service.go service.reports *)
Definition reports : M S (list Report) :=
  let! quotas := mapped Internal list_quotas in
  foldM (fun q rs =>
    let! used := consumed (q_ProjectID q) in
    ret (rs ++ [{| rep_ProjectID := q_ProjectID q; rep_Limits := q_Limits q;
                   rep_Consumed := used; rep_UpdatedAt := q_UpdatedAt q |}])) quotas [].

(* go: platform/quota/service.go service.admit *)
Definition admit_claim (projectID : string) (claim : Claim) : M S unit :=
  let! limits := limitsOf projectID in
  if Empty limits then ret tt
  else
    let! used := consumed projectID in
    lift (check_claim (against limits used claim)).

(* go: platform/quota/service.go service.remove *)
Definition remove (projectID : string) : M S unit :=
  mapped (fun e => if errors_Is e "no quota set"
                   then NotFound "quota_not_found" "that project has no limits set"
                   else Internal e) (delete projectID).
End service.

(** * What admission promises *)

(** Limits that [set_quota] accepts. *)
Definition limits_ok (l : Limits) : Prop :=
  Forall (fun d => 0 <= d_limit d <= MaxLimit) (against l no_consumed no_claim).

(** One row per project, each with limits in range. *)
Definition quota_inv (db : QuotaDB) : Prop :=
  unique_by (fun q => Some (q_ProjectID q)) db /\ forall q, q ∈ db -> limits_ok (q_Limits q).

(** The limits in force for a project: none when no row says otherwise. *)
Definition in_force (db : QuotaDB) (projectID : string) : Limits :=
  match List.find (of_project projectID) db with Some q => q_Limits q | None => no_limits end.

(** In every dimension that is limited and asked for, what the project holds and what it
    asks for fit together, in numbers that do not wrap. *)
Definition fits (l : Limits) (used : Consumed) (claim : Claim) : Prop :=
  Forall (fun d => d_limit d = 0 \/ d_claim d = 0 \/ d_consumed d + d_claim d <= d_limit d)
    (against l used claim).

(** Amounts a request may carry and a project may hold: the sum of two stays an [int]. *)
Definition measured (used : Consumed) (claim : Claim) : Prop :=
  Forall (fun d => 0 <= d_consumed d < 2 ^ 62 /\ 0 <= d_claim d < 2 ^ 62) (against no_limits used claim).

Lemma check_limits_spec ds : check_limits ds = Ok tt <-> Forall (fun d => 0 <= d_limit d <= MaxLimit) ds.
Proof.
  induction ds as [|d ds IH]; simpl; [by split|]. rewrite Forall_cons, <- IH.
  destruct (Z.ltb_spec (d_limit d) 0); [split; [done|lia]|].
  destruct (Z.ltb_spec MaxLimit (d_limit d)); [split; [done|lia]|]. intuition lia.
Qed.

Lemma check_claim_spec ds :
  Forall (fun d => 0 <= d_consumed d < 2 ^ 62 /\ 0 <= d_claim d < 2 ^ 62) ds ->
  check_claim ds = Ok tt <->
  Forall (fun d => d_limit d = 0 \/ d_claim d = 0 \/ d_consumed d + d_claim d <= d_limit d) ds.
Proof.
  induction 1 as [|d ds [Hc Hk] _ IH]; simpl; [by split|]. rewrite Forall_cons, <- IH. unfold Unlimited.
  rewrite wrap64_small by (unfold in_int64, min_int64, max_int64, two63; lia).
  destruct (Z.eqb_spec (d_limit d) 0), (Z.eqb_spec (d_claim d) 0); simpl; try (intuition lia).
  destruct (Z.ltb_spec (d_limit d) (d_consumed d + d_claim d)); intuition (done || lia).
Qed.

Lemma check_claim_error ds e : check_claim ds = Err e -> code_of e = "quota_exceeded".
Proof.
  induction ds as [|d ds IH]; simpl; [done|]. destruct (_ || _); [auto|].
  destruct (_ <? _); [|auto]. by intros [= <-].
Qed.

Section admission.
Context {S : Type} `{!Has QuotaDB S} (usage : option (Usage S)) (projects : option (Projects S)) (env : Env).

Lemma limitsOf_wp projectID (Q : outcome Limits -> World S -> Prop) w :
  (forall r w', part w' = part (T:=QuotaDB) w ->
     r = Ok (in_force (part w) projectID) \/ (exists e, r = Err (Internal e)) -> Q r w') ->
  wp env (limitsOf projectID) Q w.
Proof.
  intros H. unfold limitsOf. apply wp_bind, wp_attempt, wp_read. intros r [->| ->].
  - simpl. apply H; eauto.
  - unfold select_one, in_force in *. destruct (List.find _ _); apply H; auto.
Qed.

Lemma upsert_inv q w : quota_inv (part w) -> limits_ok (q_Limits q) ->
  wp env (upsert (S:=S) q) (fun r w' => quota_inv (part w') /\
    match r with Ok _ => in_force (part w') (q_ProjectID q) = q_Limits q
               | Err _ => part w' = part (T:=QuotaDB) w end) w.
Proof.
  intros [Hu Hl] Hq. apply wp_write; [by intros w' ->|]. intros w' ->. cbn [fst snd].
  set (p := of_project (q_ProjectID q)). set (db := part w) in *. destruct (existsb p db) eqn:Ex.
  - set (f := fun r => if p r then q else r).
    assert (Hid : forall r, q_ProjectID (f r) = q_ProjectID r).
    { intros r. unfold f, p, of_project. by destruct (String.eqb_spec (q_ProjectID r) (q_ProjectID q)). }
    split; [split|].
    + unfold unique_by in *. rewrite omap_total in *. rewrite map_map. by rewrite (map_ext _ _ Hid).
    + intros r (x & -> & Hx)%list_elem_of_fmap. unfold f. destruct (p x); auto.
    + unfold in_force. clear -Ex. induction db as [|r db IH]; [done|]. simpl in *.
      assert (Er : f r = if p r then q else r) by done. rewrite Er. destruct (p r) eqn:Ep.
      * unfold of_project. by rewrite String.eqb_refl.
      * unfold p in Ep. rewrite Ep. by apply IH.
  - rewrite existsb_false, Forall_forall in Ex. split; [split|].
    + apply unique_by_app; [done|]. intros x k Hx [= <-] [= E]. specialize (Ex x Hx).
      unfold p, of_project in Ex. by rewrite E, String.eqb_refl in Ex.
    + intros r. rewrite elem_of_app, list_elem_of_singleton. intros [?| ->]; auto.
    + unfold in_force. clear -Ex. induction db as [|r db IH]; simpl.
      * unfold of_project. by rewrite String.eqb_refl.
      * pose proof (Ex r ltac:(set_solver)) as Er. unfold p in Er. rewrite Er. apply IH. intros. apply Ex. set_solver.
Qed.

End admission.

(** * Properties *)

(** An answer of the accounting that does not touch the quotas. *)
Definition usage_reads {S} `{!Has QuotaDB S} (u : Usage S) (used : World S -> Consumed) : Prop :=
  forall env projectID w, wp env (InProject u projectID)
    (fun r w' => part w' = part (T:=QuotaDB) w /\ match r with Ok c => c = used w | Err _ => True end) w.


Definition used_most : Consumed := MkConsumed 9 4 4096 0 0.
Definition db_ten : QuotaDB := [MkQuota "prj-1" (MkLimits 10 0 0 0 0) 0].
Definition fixed_usage : Usage QuotaDB := {| InProject _ := ret used_most |}.
Definition quota_env : Env := {| env_now _ := 0; env_rand _ := []; env_io _ := false |}.


(** [set_quota_spec]: a limit outside 0 .. 2^24, an unknown project or a failing database
    changes nothing; otherwise the limits asked for are in force from then on.  There is
    always at most one row per project, with limits in range. *)
Theorem set_quota_spec {S} `{!Has QuotaDB S} (projects : option (Projects S)) env projectID limits (w : World S)
  (Hprojects : forall p id w, projects = Some p -> wp env (Exists p id) (fun _ w' => part w' = part (T:=QuotaDB) w) w)
  (Hinv : quota_inv (part w)) :
  wp env (set_quota projects projectID limits) (fun r w' => quota_inv (part w') /\
    match r with
    | Ok q => limits_ok limits /\ q_Limits q = limits /\ in_force (part w') projectID = limits
    | Err _ => part w' = part (T:=QuotaDB) w
    end) w.
Proof.
  unfold set_quota. apply wp_bind. rewrite wp_lift. destruct (check_limits _) as [[]|e] eqn:El; [|done].
  apply check_limits_spec in El. destruct projects as [p|]; [|by rewrite wp_fail].
  apply wp_bind, wp_mapped. eapply wp_mono; [|by apply Hprojects].
  intros [[]|e] w1 Hw1; cbn [or_fault]; [| |by rewrite Hw1]; apply wp_bind; rewrite wp_lift; cbn [guard negb];
    [|by rewrite Hw1].
  apply wp_bind. rewrite wp_now. apply wp_bind, wp_mapped.
  assert (Hi : quota_inv (part (T:=QuotaDB) (tick w1))) by (change (quota_inv (part w1)); by rewrite Hw1).
  eapply wp_mono; [|apply upsert_inv; [exact Hi|exact El]]. change (part (tick w1)) with (part (T:=QuotaDB) w1).
  intros [[]|e] w2 [Hw2 Hr]; cbn [or_fault]; [rewrite wp_ret|rewrite Hr, Hw1]; auto.
Qed.

Lemma set_quota_spec_witness :
  in_force (w_st (snd (set_quota (Some {| Exists _ := ret true |}) "prj-1" (MkLimits 5 0 0 0 0)
    quota_env (MkWorld db_ten O [])))) "prj-1" = MkLimits 5 0 0 0 0.
Proof.
  pose proof (set_quota_spec (Some {| Exists _ := ret true |}) quota_env "prj-1" (MkLimits 5 0 0 0 0)
    (MkWorld db_ten O [])) as H.
  destruct H as [_ (_ & _ & H)]; [by intros p id w [= <-]| |exact H].
  split; [repeat constructor; set_solver|]. intros q ->%list_elem_of_singleton.
  unfold limits_ok, against. repeat constructor; vm_compute; discriminate.
Defined.
