(* ===== verification/Scheduler.v ===== *)
(** The scheduler (internal/platform/scheduler): one pass places the pending instances,
    releases those a node that stopped answering holds, and empties the draining nodes.

    The modules it drives are the interfaces [NodeSource], [InstanceSource],
    [AddressSource], [LoadSource] and [DeviceSource]; log lines are left out. *)
From stdpp Require Import base tactics numbers strings list gmap.
From Stdlib Require Import ZArith Lia Sorted.
From S2P Require Import Prelude GoLang Effects Kernel.

(** * Data *)

Definition DefaultStrandedGrace : Z := 2 * minute.
Definition movableIsolation : string := "container".

(* go: platform/scheduler/scheduler.go Candidate *)
Record Candidate := MkCandidate {
  c_ID : string; c_Name : string; c_Zone : string; c_Labels : gmap string string;
}.
(* go: platform/scheduler/scheduler.go Pending *)
Record Pending := MkPending {
  p_ID : string; p_ProjectID : string; p_Name : string; p_NetworkID : string;
  p_Group : string; p_Strict : bool; p_Selector : gmap string string;
  p_Extra : list string; p_Device : string;
}.
(* go: platform/scheduler/scheduler.go Stranded *)
Record Stranded := MkStranded {
  s_ID : string; s_ProjectID : string; s_Name : string; s_NodeID : string;
  s_Isolation : string; s_Migrating : bool; s_DiskParked : bool;
}.
(* go: platform/scheduler/scheduler.go Load *)
Record Load := MkLoad { MemoryFreeMiB : Z; Fresh : bool }.

(** * Interfaces *)

Section interfaces.
Context (S : Type).
(* go: platform/scheduler/scheduler.go NodeSource *)
Record NodeSource := {
  ReadyNodes : M S (list Candidate);
  UnreachableNodes : Z -> M S (list string);
  DrainingNodes : M S (list string);
  FinishDraining : string -> M S unit;
}.
(* go: platform/scheduler/scheduler.go InstanceSource *)
Record InstanceSource := {
  PendingPlacement : M S (list Pending);
  AssignedCounts : M S (gmap string Z);
  GroupCounts : string -> M S (gmap string Z);
  HoldPlacement : string -> string -> M S unit;
  Assign : string -> string -> M S unit;
  StrandedOn : list string -> M S (list Stranded);
  BeginMigration : string -> string -> M S unit;
  ReleasePlacement : string -> string -> M S unit;
}.
(* go: platform/scheduler/scheduler.go AddressSource *)
Record AddressSource := { Allocate : string -> string -> string -> M S unit }.
(* go: platform/scheduler/scheduler.go LoadSource *)
Record LoadSource := { NodeLoad : M S (gmap string Load) }.
(* go: platform/scheduler/scheduler.go DeviceSource *)
Record DeviceSource := {
  FreeDevice : string -> string -> M S (string * bool);
  ClaimDevice : string -> string -> string -> M S string;
}.
End interfaces.
Arguments ReadyNodes {S}. Arguments UnreachableNodes {S}. Arguments DrainingNodes {S}.
Arguments FinishDraining {S}. Arguments PendingPlacement {S}. Arguments AssignedCounts {S}.
Arguments GroupCounts {S}. Arguments HoldPlacement {S}. Arguments Assign {S}.
Arguments StrandedOn {S}. Arguments BeginMigration {S}. Arguments ReleasePlacement {S}.
Arguments Allocate {S}. Arguments NodeLoad {S}. Arguments FreeDevice {S}. Arguments ClaimDevice {S}.

(** What the scheduler remembers between passes: the workloads it has reported. *)
(* go: platform/scheduler/scheduler.go Scheduler *)
Record SchedState := MkSched { sch_stranded : gset string; sch_stuckDraining : gset string }.

(** * Choosing a node *)

(** [m[k]] of a map of integers. *)
Definition count (m : gmap string Z) (k : string) : Z := default 0 (m !! k).
Definition incr (m : gmap string Z) (k : string) (n : Z) : gmap string Z := <[k := count m k + n]> m.

(* go: platform/scheduler/scheduler.go Candidate.matches *)
Definition matches (c : Candidate) (selector : gmap string string) : bool :=
  forallb (fun kv => String.eqb (default "" (c_Labels c !! fst kv)) (snd kv)) (map_to_list selector).

(* go: platform/scheduler/scheduler.go matching *)
Definition matching (candidates : list Candidate) (selector : gmap string string) : list Candidate :=
  if decide (selector = ∅) then candidates
  else List.filter (fun c => matches c selector) candidates.

Definition zone_totals (candidates : list Candidate) (members : gmap string Z) : gmap string Z :=
  fold_left (fun byZone c => incr byZone (c_Zone c) (count members (c_ID c))) candidates ∅.

Definition no_load : Load := MkLoad 0 false.
(** The [less] function of [bestFor]. *)
(* go: platform/scheduler/scheduler.go:518-536 SliceStable *)
Definition better (byZone counts members : gmap string Z) (load : gmap string Load)
    (left right : Candidate) : bool :=
  let zi := count byZone (c_Zone left) in let zj := count byZone (c_Zone right) in
  if negb (zi =? zj) then zi <? zj
  else
    let mi := count members (c_ID left) in let mj := count members (c_ID right) in
    if negb (mi =? mj) then mi <? mj
    else
      let li := default no_load (load !! c_ID left) in
      let lj := default no_load (load !! c_ID right) in
      if Fresh li && Fresh lj && negb (MemoryFreeMiB li =? MemoryFreeMiB lj)
      then MemoryFreeMiB lj <? MemoryFreeMiB li
      else
        let ci := count counts (c_ID left) in let cj := count counts (c_ID right) in
        if negb (ci =? cj) then ci <? cj
        else str_ltb (c_Name left) (c_Name right).

(** [None] is the panic of indexing an empty list. *)
(* go: platform/scheduler/scheduler.go bestFor *)
Definition bestFor (candidates : list Candidate) (counts : gmap string Z) (load : gmap string Load)
    (members : gmap string Z) : option (Candidate * bool) :=
  let byZone := zone_totals candidates members in
  match sliceStable (better byZone counts members load) candidates with
  | c :: _ => Some (c, count members (c_ID c) =? 0)
  | [] => None
  end.

(* go: platform/scheduler/scheduler.go describe *)
Definition describe (selector : gmap string string) : string :=
  let keys := sliceStable str_ltb (map fst (map_to_list selector)) in
  join (map (fun key => key +:+ "=" +:+ default "" (selector !! key)) keys) " ".

(* go: platform/scheduler/scheduler.go carriesItsDisk *)
Definition carriesItsDisk (isolation : string) : bool :=
  String.eqb isolation "vm" || String.eqb isolation "microvm" || String.eqb isolation "sandbox".

(** [for id := range s.set { if !seen[id] { delete(s.set, id) } }] *)
Definition forget (held seen : gset string) : gset string := held ∩ seen.

Section scheduler.
Context {S : Type} `{!Has SchedState S}.
Context (nodes : NodeSource S) (instances : InstanceSource S) (addresses : option (AddressSource S)).
Context (loads : option (LoadSource S)) (devices : option (DeviceSource S)) (has_events : bool).

(* go: platform/scheduler/scheduler.go Scheduler.note *)
Definition note (e : Entry) : M S unit := if has_events then record e else ret tt.

(** Run on the scheduler's own memory, under its mutex. *)
Definition on_memory {A} (f : SchedState -> A * SchedState) : M S A :=
  fun _ w => let '(a, m) := f (part w) in (Ok a, with_st w (hput m (w_st w))).

(* go: platform/scheduler/scheduler.go Scheduler.forgetUnstuck *)
Definition forgetUnstuck (seen : gset string) : M S unit :=
  on_memory (fun m => (tt, MkSched (sch_stranded m) (forget (sch_stuckDraining m) seen))).
(* go: platform/scheduler/scheduler.go Scheduler.alreadyStuckDraining *)
Definition alreadyStuckDraining (instanceID : string) : M S bool :=
  on_memory (fun m => (bool_decide (instanceID ∈ sch_stuckDraining m),
    MkSched (sch_stranded m) ({[instanceID]} ∪ sch_stuckDraining m))).
(* go: platform/scheduler/scheduler.go Scheduler.alreadyStranded *)
Definition alreadyStranded (instanceID : string) : M S bool :=
  on_memory (fun m => (bool_decide (instanceID ∈ sch_stranded m),
    MkSched ({[instanceID]} ∪ sch_stranded m) (sch_stuckDraining m))).
(* go: platform/scheduler/scheduler.go Scheduler.forgetRecovered *)
Definition forgetRecovered (seen : gset string) : M S unit :=
  on_memory (fun m => (tt, MkSched (forget (sch_stranded m) seen) (sch_stuckDraining m))).

Definition entry (project kind subject node message : string) (severity : Severity) : Entry :=
  {| ev_ProjectID := project; ev_Kind := kind; ev_Subject := subject; ev_NodeID := node;
     ev_Message := message; ev_Severity := severity |}.

(** The loop of [releaseStranded]. *)
(* go: platform/scheduler/scheduler.go:296-332 range *)
Definition release_one (i : Stranded) (seen : gset string) : M S (gset string) :=
  let seen := {[s_ID i]} ∪ seen in
  if negb (String.eqb (s_Isolation i) movableIsolation) then
    let! known := alreadyStranded (s_ID i) in
    if known then ret seen
    else
      note (entry (s_ProjectID i) "instance.stranded" (s_ID i) (s_NodeID i)
              ("its node stopped answering, and isolation " +:+ s_Isolation i
               +:+ " cannot be moved without losing its disk") SevError) ;;;
      ret seen
  else
    let! r := attempt (ReleasePlacement instances (s_ID i) (s_NodeID i)) in
    match r with
    | Err _ => ret seen
    | Ok _ =>
        note (entry (s_ProjectID i) "instance.rescheduled" (s_ID i) (s_NodeID i)
                "released from a node that stopped answering, waiting for a new one" Warn) ;;;
        ret seen
    end.
(* go: platform/scheduler/scheduler.go Scheduler.releaseStranded *)
Definition releaseStranded : M S unit :=
  let! lost := UnreachableNodes nodes DefaultStrandedGrace in
  if (len lost =? 0) then forgetRecovered ∅
  else
    let! stranded := StrandedOn instances lost in
    let! seen := foldM release_one stranded ∅ in
    forgetRecovered seen.

(* go: platform/scheduler/scheduler.go Scheduler.noteBlocked *)
Definition noteBlocked (i : Stranded) : M S unit :=
  let! known := alreadyStuckDraining (s_ID i) in
  if known then ret tt
  else note (entry (s_ProjectID i) "instance.drain_blocked" (s_ID i) (s_NodeID i)
               ("its node is draining, and nothing here knows how to carry the disk of isolation "
                +:+ s_Isolation i) SevError).

(* go: platform/scheduler/scheduler.go Scheduler.carryDisk *)
Definition carryDisk (i : Stranded) : M S bool :=
  if s_DiskParked i then ret false
  else
    let! r := attempt (BeginMigration instances (s_ID i) (s_NodeID i)) in
    match r with
    | Err _ => ret true
    | Ok _ =>
        if s_Migrating i then ret true
        else
          note (entry (s_ProjectID i) "instance.migrating" (s_ID i) (s_NodeID i)
                  "its node is draining, so it is being stopped and its disk carried to another node" Warn) ;;;
          ret true
    end.

(** The release that ends the loop body of [emptyDraining]; the loop carries the number of
    workloads stuck on each node and the workloads seen. *)
Definition move_off (i : Stranded) (st : gmap string Z * gset string) : M S (gmap string Z * gset string) :=
  let '(stuck, seen) := st in
  let! r := attempt (ReleasePlacement instances (s_ID i) (s_NodeID i)) in
  match r with
  | Err _ => ret (incr stuck (s_NodeID i) 1, seen)
  | Ok _ =>
      note (entry (s_ProjectID i) "instance.moved" (s_ID i) (s_NodeID i)
              "released from a draining node, waiting for a new one" Info) ;;;
      ret (stuck, seen)
  end.
(** The first loop of [emptyDraining]. *)
(* go: platform/scheduler/scheduler.go:355-386 range *)
Definition empty_one (i : Stranded) (st : gmap string Z * gset string) : M S (gmap string Z * gset string) :=
  let '(stuck, seen) := st in
  let seen := {[s_ID i]} ∪ seen in
  if negb (String.eqb (s_Isolation i) movableIsolation) then
    if negb (carriesItsDisk (s_Isolation i)) then
      noteBlocked i ;;;
      ret (incr stuck (s_NodeID i) 1, seen)
    else
      let! carried := carryDisk i in
      if carried then ret (incr stuck (s_NodeID i) 1, seen)
      else move_off i (stuck, seen)
  else move_off i (stuck, seen).
(** The second loop of [emptyDraining]. *)
(* go: platform/scheduler/scheduler.go:390-406 range *)
Definition finish_one (stuck : gmap string Z) (nodeID : string) (_ : unit) : M S unit :=
  if 0 <? count stuck nodeID then ret tt
  else
    let! r := attempt (FinishDraining nodes nodeID) in
    match r with
    | Err _ => ret tt
    | Ok _ => note (entry "" "node.drained" nodeID nodeID
                      "nothing movable is left on it, and it stays unschedulable" Info)
    end.
(* go: platform/scheduler/scheduler.go Scheduler.emptyDraining *)
Definition emptyDraining : M S unit :=
  let! draining := DrainingNodes nodes in
  if (len draining =? 0) then forgetUnstuck ∅
  else
    let! held := StrandedOn instances draining in
    let! ' (stuck, seen) := foldM empty_one held (∅, ∅) in
    forgetUnstuck seen ;;;
    foldM (finish_one stuck) draining tt.

(** The members of a group, counted once per pass: the counts and the cache they are in. *)
(* go: platform/scheduler/scheduler.go Scheduler.membersOf *)
Definition membersOf (cache : gmap string (gmap string Z)) (group : string)
    : M S (gmap string Z * gmap string (gmap string Z)) :=
  if is_empty group then ret (∅, cache)
  else match cache !! group with
       | Some known => ret (known, cache)
       | None =>
           let! members := GroupCounts instances group in
           ret (members, <[group := members]> cache)
       end.

(* go: platform/scheduler/scheduler.go Scheduler.holdUnmatched *)
Definition holdUnmatched (p : Pending) : M S unit :=
  let! _ := attempt (HoldPlacement instances (p_ID p) ("no ready node carries " +:+ describe (p_Selector p))) in ret tt.
(* go: platform/scheduler/scheduler.go Scheduler.hold *)
Definition hold (p : Pending) : M S unit :=
  let! _ := attempt (HoldPlacement instances (p_ID p)
    ("every ready node already runs a member of placement group " +:+ p_Group p)) in ret tt.
(* go: platform/scheduler/scheduler.go Scheduler.holdWithout *)
Definition holdWithout (p : Pending) : M S unit :=
  let! _ := attempt (HoldPlacement instances (p_ID p) ("no ready node has a free " +:+ p_Device p)) in ret tt.

(* go: platform/scheduler/scheduler.go Scheduler.carrying *)
Definition carrying (eligible : list Candidate) (kind : string) : M S (list Candidate) :=
  match devices with
  | None => ret []
  | Some d =>
      foldM (fun one held =>
        let! r := attempt (FreeDevice d (c_ID one) kind) in
        match r with
        | Err _ => ret held
        | Ok (free, found) => ret (if found && negb (is_empty free) then held ++ [one] else held)
        end) eligible []
  end.

(** The addresses of a placed instance, one per network. *)
(* go: platform/scheduler/scheduler.go:266-274 addresses *)
Definition allocate_addresses (p : Pending) (nodeID : string) : M S unit :=
  match addresses with
  | None => ret tt
  | Some a =>
      if is_empty (p_NetworkID p) then ret tt
      else foldM (fun networkID _ => let! _ := attempt (Allocate a (p_ID p) networkID nodeID) in ret tt)
             (p_NetworkID p :: p_Extra p) tt
  end.

(** What a pass carries from one pending instance to the next: the instances each node
    holds, and the members of the groups seen. *)
Definition tally : Type := gmap string Z * gmap string (gmap string Z).

(** A node has been chosen: claim the device, assign, count, and allocate addresses. The
    map of the members of the group is the one in the cache. *)
(* go: platform/scheduler/scheduler.go:238-274 ClaimDevice *)
Definition place_on (p : Pending) (target : Candidate) (members : gmap string Z) (t : tally) : M S tally :=
  let '(counts, groups) := t in
  let! claimed :=
    match devices with
    | Some d => if negb (is_empty (p_Device p))
                then attempt (ClaimDevice d (c_ID target) (p_Device p) (p_ID p)) else ret (Ok "")
    | None => ret (Ok "")
    end in
  match claimed with
  | Err _ => ret t
  | Ok _ =>
      let! r := attempt (Assign instances (p_ID p) (c_ID target)) in
      match r with
      | Err _ => ret t
      | Ok _ =>
          let counts := incr counts (c_ID target) 1 in
          let groups := if is_empty (p_Group p) then groups
                        else <[p_Group p := incr members (c_ID target) 1]> groups in
          note (entry (p_ProjectID p) "instance.placed" (p_ID p) (c_ID target)
                  ("scheduled onto " +:+ c_Name target) Info) ;;;
          allocate_addresses p (c_ID target) ;;;
          ret (counts, groups)
      end
  end.

(** The loop of [Tick] over the pending instances. *)
(* go: platform/scheduler/scheduler.go:212-275 range *)
Definition place (candidates : list Candidate) (load : gmap string Load) (p : Pending) (t : tally) : M S tally :=
  let '(counts, groups) := t in
  let! ' (members, groups) := membersOf groups (p_Group p) in
  let eligible := matching candidates (p_Selector p) in
  if (len eligible =? 0) then holdUnmatched p ;;; ret (counts, groups)
  else
    let! eligible := if is_empty (p_Device p) then ret eligible else carrying eligible (p_Device p) in
    if (len eligible =? 0) then holdWithout p ;;; ret (counts, groups)
    else
      match bestFor eligible counts load members with
      | None => ret (counts, groups)
      | Some (target, room) =>
          if p_Strict p && negb (is_empty (p_Group p)) && negb room
          then hold p ;;; ret (counts, groups)
          else place_on p target members (counts, groups)
      end.

(* go: platform/scheduler/scheduler.go Scheduler.Tick *)
Definition Tick : M S unit :=
  releaseStranded ;;;
  emptyDraining ;;;
  let! pending := PendingPlacement instances in
  if (len pending =? 0) then ret tt
  else
    let! candidates := ReadyNodes nodes in
    if (len candidates =? 0) then ret tt
    else
      let! load :=
        match loads with
        | None => ret ∅
        | Some l => let! r := attempt (NodeLoad l) in
                    match r with Ok measured => ret measured | Err _ => ret ∅ end
        end in
      let! counts := AssignedCounts instances in
      foldM (place candidates load) pending (counts, ∅) ;;;
      ret tt.
End scheduler.

(** * The calls of a pass

    What the scheduler asks of the other modules, in the order it asks it, with the
    answers. *)
Inductive call :=
| CallReady (r : outcome (list Candidate))
| CallUnreachable (r : outcome (list string))
| CallDraining (r : outcome (list string))
| CallFinish (nodeID : string) (r : outcome unit)
| CallPending (r : outcome (list Pending))
| CallCounts (r : outcome (gmap string Z))
| CallGroup (group : string) (r : outcome (gmap string Z))
| CallHold (instanceID : string) (r : outcome unit)
| CallAssign (instanceID nodeID : string) (r : outcome unit)
| CallStranded (nodeIDs : list string) (r : outcome (list Stranded))
| CallBegin (instanceID nodeID : string) (r : outcome unit)
| CallRelease (instanceID nodeID : string) (r : outcome unit)
| CallAllocate (instanceID networkID nodeID : string) (r : outcome unit)
| CallLoad (r : outcome (gmap string Load))
| CallFree (nodeID kind : string) (r : outcome (string * bool))
| CallClaim (nodeID kind instanceID : string) (r : outcome string).

Abbreviation Trace := (list call).

(** The modules around the scheduler, written down. The identifiers of pending instances
    are the keys of a table, and a count is not negative. *)
Class Logged {S} `{!Has Trace S} (nodes : NodeSource S) (instances : InstanceSource S)
    (addresses : option (AddressSource S)) (loads : option (LoadSource S))
    (devices : option (DeviceSource S)) : Prop := {
  log_ready : logs (ReadyNodes nodes) CallReady;
  log_unreachable g : logs (UnreachableNodes nodes g) CallUnreachable;
  log_draining : logs (DrainingNodes nodes) CallDraining;
  log_finish n : logs (FinishDraining nodes n) (CallFinish n);
  log_pending : logs (PendingPlacement instances) CallPending;
  log_counts : logs (AssignedCounts instances) CallCounts;
  log_group g : logs (GroupCounts instances g) (CallGroup g);
  log_hold i m : logs (HoldPlacement instances i m) (CallHold i);
  log_assign i n : logs (Assign instances i n) (CallAssign i n);
  log_stranded ns : logs (StrandedOn instances ns) (CallStranded ns);
  log_begin i n : logs (BeginMigration instances i n) (CallBegin i n);
  log_release i n : logs (ReleasePlacement instances i n) (CallRelease i n);
  log_allocate a i nw n : addresses = Some a -> logs (Allocate a i nw n) (CallAllocate i nw n);
  log_load l : loads = Some l -> logs (NodeLoad l) CallLoad;
  log_free d n k : devices = Some d -> logs (FreeDevice d n k) (CallFree n k);
  log_claim d n k i : devices = Some d -> logs (ClaimDevice d n k i) (CallClaim n k i);
  pending_keys env w ps : fst (PendingPlacement instances env w) = Ok ps -> NoDup (map p_ID ps);
  group_counts env w g m : fst (GroupCounts instances g env w) = Ok m -> forall n, 0 <= count m n;
}.

(** A node was read to have a free device of a kind, and the device was claimed. *)
Definition device_held (before : Trace) (instanceID kind nodeID : string) : Prop :=
  (exists address, address <> "" /\ CallFree nodeID kind (Ok (address, true)) ∈ before) /\
  (exists address, CallClaim nodeID kind instanceID (Ok address) ∈ before).

(** No member of the group ran on the node when the pass counted them, and none was put
    there since. *)
Definition group_clear (before : Trace) (pending : list Pending) (group nodeID : string) : Prop :=
  (exists m, CallGroup group (Ok m) ∈ before /\ count m nodeID = 0) /\
  forall q, q ∈ pending -> p_Group q = group -> CallAssign (p_ID q) nodeID (Ok tt) ∉ before.

(** The rules of a pass: which calls may follow the calls [before]. *)
Definition allowed (before : Trace) (c : call) : Prop :=
  match c with
  | CallAssign id node _ =>
      exists pending candidates p t,
        CallPending (Ok pending) ∈ before /\ CallReady (Ok candidates) ∈ before /\
        p ∈ pending /\ p_ID p = id /\ t ∈ candidates /\ c_ID t = node /\
        matches t (p_Selector p) = true /\
        (p_Device p <> "" -> device_held before id (p_Device p) node) /\
        (p_Strict p = true -> p_Group p <> "" -> group_clear before pending (p_Group p) node)
  | CallRelease id node _ =>
      exists asked held i,
        CallStranded asked (Ok held) ∈ before /\ i ∈ held /\ s_ID i = id /\ s_NodeID i = node /\
        (CallUnreachable (Ok asked) ∈ before /\ s_Isolation i = movableIsolation \/
         CallDraining (Ok asked) ∈ before /\
           (s_Isolation i = movableIsolation \/
            carriesItsDisk (s_Isolation i) = true /\ s_DiskParked i = true))
  | CallFinish node _ =>
      exists draining held,
        CallDraining (Ok draining) ∈ before /\ node ∈ draining /\
        CallStranded draining (Ok held) ∈ before /\
        forall i, i ∈ held -> s_NodeID i = node -> CallRelease (s_ID i) node (Ok tt) ∈ before
  | _ => True
  end.
(** Every call of the trace was allowed when it was made. *)
Definition lawful (t : Trace) : Prop := forall before c after, t = before ++ c :: after -> allowed before c.

(** * Choosing a node *)

Lemma zone_totals_spec candidates members :
  forall z, count (zone_totals candidates members) z =
    fold_left (fun acc c => if String.eqb (c_Zone c) z then acc + count members (c_ID c) else acc) candidates 0.
Proof.
  intros z. unfold zone_totals.
  assert (H : forall m acc, count m z = acc ->
    count (fold_left (fun byZone c => incr byZone (c_Zone c) (count members (c_ID c))) candidates m) z =
    fold_left (fun acc c => if String.eqb (c_Zone c) z then acc + count members (c_ID c) else acc) candidates acc).
  { induction candidates as [|c l IH]; simpl; [done|]. intros m acc Hm. apply IH. unfold incr, count.
    destruct (String.eqb_spec (c_Zone c) z) as [->|Hne].
    - rewrite lookup_insert_eq. simpl. unfold count in Hm. by rewrite Hm.
    - by rewrite lookup_insert_ne. }
  apply H. done.
Qed.

Lemma bestFor_some candidates counts load members : candidates <> [] ->
  is_Some (bestFor candidates counts load members).
Proof.
  intros Hne. unfold bestFor. destruct (sliceStable _ _) eqn:E; [|eauto].
  pose proof (sliceStable_length (better (zone_totals candidates members) counts members load) candidates) as H.
  rewrite E in H. by destruct candidates.
Qed.

Lemma bestFor_elem candidates counts load members c room :
  bestFor candidates counts load members = Some (c, room) ->
  c ∈ candidates /\ room = (count members (c_ID c) =? 0).
Proof.
  unfold bestFor. destruct (sliceStable _ _) as [|x l] eqn:E; [done|]. intros [= <- <-]. split; [|done].
  rewrite <- (sliceStable_perm (better (zone_totals candidates members) counts members load) candidates), E. set_solver.
Qed.

(** The keys [better] compares first. *)
Definition spread (byZone members : gmap string Z) : Candidate -> Candidate -> bool :=
  by_key (fun c => count byZone (c_Zone c)) Z.ltb
    (by_key (fun c => count members (c_ID c)) Z.ltb (fun _ _ => false)).
Definition free_memory (load : gmap string Load) (c : Candidate) : Z :=
  MemoryFreeMiB (default no_load (load !! c_ID c)).
Definition has_fresh_load (load : gmap string Load) (c : Candidate) : Prop :=
  Fresh (default no_load (load !! c_ID c)) = true.
Definition spread_then_memory (byZone members : gmap string Z) (load : gmap string Load)
    : Candidate -> Candidate -> bool :=
  by_key (fun c => count byZone (c_Zone c)) Z.ltb
    (by_key (fun c => count members (c_ID c)) Z.ltb
      (by_key (free_memory load) (fun x y => y <? x) (fun _ _ => false))).

Lemma better_spread byZone counts members load x y :
  (spread byZone members x y = true -> better byZone counts members load x y = true) /\
  (better byZone counts members load x y = true -> spread byZone members y x = false).
Proof.
  unfold spread, better, by_key. split; repeat case_decide; try congruence; repeat (case_match; breflect); try done; try lia;
    intros; breflect; try lia; try (apply Z.ltb_ge; lia).
Qed.

Lemma better_memory byZone counts members load x y :
  has_fresh_load load x -> has_fresh_load load y ->
  (spread_then_memory byZone members load x y = true -> better byZone counts members load x y = true) /\
  (better byZone counts members load x y = true -> spread_then_memory byZone members load y x = false).
Proof.
  unfold has_fresh_load, spread_then_memory, better, by_key, free_memory. intros Hx Hy. rewrite Hx, Hy. cbn [andb].
  split; repeat case_decide; try congruence; repeat (case_match; breflect); try done; try lia;
    intros; breflect; try lia; try (apply Z.ltb_ge; lia).
Qed.

(** * The rules are kept *)

Lemma lawful_nil : lawful [].
Proof. intros [] ? ? H; discriminate. Qed.

Lemma lawful_snoc t c : lawful t -> allowed t c -> lawful (t ++ [c]).
Proof.
  intros Ht Hc before d after H. destruct after as [|x after' _] using rev_ind.
  - apply app_inj_tail in H as [-> ->]. done.
  - rewrite app_comm_cons, app_assoc in H. apply app_inj_tail in H as [-> _]. by eapply Ht.
Qed.

Definition is_assign (c : call) : bool := match c with CallAssign _ _ _ => true | _ => false end.
(** A lawful trace in which nothing has been assigned yet. *)
Definition quiet (t : Trace) : Prop := lawful t /\ Forall (fun c => is_assign c = false) t.

Lemma quiet_snoc t c : quiet t -> allowed t c -> is_assign c = false -> quiet (t ++ [c]).
Proof. intros [Hl Hn] Ha Hc. split; [by apply lawful_snoc|]. apply Forall_app. auto. Qed.

Lemma quiet_no_assign t i n r : quiet t -> CallAssign i n r ∉ t.
Proof. intros [_ Hn] Hin. rewrite Forall_forall in Hn. by specialize (Hn _ Hin). Qed.

(** The cache counts at least the members a group was read to have and those put since. *)
Definition cache_ok (pending : list Pending) (groups : gmap string (gmap string Z)) (t : Trace) : Prop :=
  forall g, g <> "" ->
  match groups !! g with
  | Some members =>
      (exists m, CallGroup g (Ok m) ∈ t /\ forall n, 0 <= count m n <= count members n) /\
      forall n q, q ∈ pending -> p_Group q = g -> CallAssign (p_ID q) n (Ok tt) ∈ t -> 0 < count members n
  | None => forall n q, q ∈ pending -> p_Group q = g -> CallAssign (p_ID q) n (Ok tt) ∉ t
  end.
Definition placing (pending : list Pending) (candidates : list Candidate)
    (groups : gmap string (gmap string Z)) (t : Trace) : Prop :=
  lawful t /\ CallPending (Ok pending) ∈ t /\ CallReady (Ok candidates) ∈ t /\ cache_ok pending groups t.

Lemma cache_ok_call pending groups t c : cache_ok pending groups t ->
  (forall i n, c <> CallAssign i n (Ok tt)) -> cache_ok pending groups (t ++ [c]).
Proof.
  intros Hc Hn g Hg. specialize (Hc g Hg). destruct (groups !! g) as [members|].
  - destruct Hc as [(m & Hm & Hle) Ha]. split; [exists m; set_solver|]. intros n q Hq Eg Hin. apply (Ha n q); auto.
    apply elem_of_app in Hin as [?|E%list_elem_of_singleton]; [done|]. by destruct (Hn (p_ID q) n).
  - intros n q Hq Eg [Hin|E%list_elem_of_singleton]%elem_of_app; [by apply (Hc n q)|]. by destruct (Hn (p_ID q) n).
Qed.

Lemma placing_call pending candidates groups t c : placing pending candidates groups t ->
  allowed t c -> (forall i n, c <> CallAssign i n (Ok tt)) -> placing pending candidates groups (t ++ [c]).
Proof.
  intros (Hl & Hp & Hr & Hc) Ha Hn. split_and!; [by apply lawful_snoc|set_solver..|by apply cache_ok_call].
Qed.

Section rules.
Context {S : Type} `{!Has SchedState S, !Has Trace S, !Apart SchedState Trace S}.
Context (nodes : NodeSource S) (instances : InstanceSource S) (addresses : option (AddressSource S)).
Context (loads : option (LoadSource S)) (devices : option (DeviceSource S)) (has_events : bool).
Context `{HL : !Logged nodes instances addresses loads devices} (env : Env).
Implicit Types w : World S.

Abbreviation trace w := (part (T:=Trace) w).

Lemma wp_note e (Q : outcome unit -> World S -> Prop) w :
  (forall w', trace w' = trace w -> Q (Ok tt) w') -> wp env (note has_events e) Q w.
Proof. intros H. unfold note. destruct has_events; apply H; done. Qed.

Lemma wp_memory {A} (f : SchedState -> A * SchedState) (Q : outcome A -> World S -> Prop) w :
  (forall a w', trace w' = trace w -> Q (Ok a) w') -> wp env (on_memory f) Q w.
Proof.
  intros H. unfold wp, on_memory. destruct (f (part w)) as [a m]. apply H. unfold part. simpl. apply apart.
Qed.

(** ** Stranded workloads *)

Lemma release_one_rule lost stranded i seen w : i ∈ stranded -> quiet (trace w) ->
  CallUnreachable (Ok lost) ∈ trace w -> CallStranded lost (Ok stranded) ∈ trace w ->
  wp env (release_one instances has_events i seen) (fun _ w' =>
    quiet (trace w') /\ CallUnreachable (Ok lost) ∈ trace w' /\ CallStranded lost (Ok stranded) ∈ trace w') w.
Proof.
  intros Hi Hq Hu Hs. unfold release_one. destruct (String.eqb_spec (s_Isolation i) movableIsolation) as [Hm|]; cbn [negb].
  - apply wp_bind, wp_attempt. eapply wp_logs; [apply log_release|]. intros r w1 _ Hw1.
    assert (Hq1 : quiet (trace w1)).
    { rewrite Hw1. apply quiet_snoc; [done| |done]. exists lost, stranded, i. split_and!; auto. }
    destruct r; [apply wp_bind, wp_note; intros w2 Hw2; rewrite wp_ret, Hw2|rewrite wp_ret]; rewrite Hw1 in *; set_solver.
  - apply wp_bind, wp_memory. intros [] w1 Hw1; [rewrite wp_ret, Hw1; auto|].
    apply wp_bind, wp_note. intros w2 Hw2. rewrite wp_ret, Hw2, Hw1. auto.
Qed.

Lemma releaseStranded_rule w : quiet (trace w) ->
  wp env (releaseStranded nodes instances has_events) (fun _ w' => quiet (trace w')) w.
Proof.
  intros Hq. unfold releaseStranded. apply wp_bind. eapply wp_logs; [apply log_unreachable|].
  intros r w1 _ Hw1. assert (Hq1 : quiet (trace w1)) by (rewrite Hw1; by apply quiet_snoc).
  destruct r as [lost|]; [|done]. case_match; [apply wp_memory; by intros ? ? ->|].
  apply wp_bind. eapply wp_logs; [apply log_stranded|]. intros r w2 _ Hw2.
  assert (Hq2 : quiet (trace w2)) by (rewrite Hw2; by apply quiet_snoc). destruct r as [stranded|]; [|done].
  apply wp_bind. eapply wp_mono; [|apply (wp_foldM env
    (fun _ w' => quiet (trace w') /\ CallUnreachable (Ok lost) ∈ trace w' /\ CallStranded lost (Ok stranded) ∈ trace w')
    (fun _ w' => quiet (trace w')))].
  - intros [seen|e] w' H'; [|done]. apply wp_memory. intros ? w'' ->. by destruct H'.
  - intros i seen w' Hi (? & ? & ?). eapply wp_mono; [|by eapply release_one_rule].
    intros [] ? (? & ? & ?); auto.
  - rewrite Hw2, Hw1 in *. split; [done|set_solver].
Qed.

(** ** Draining nodes *)

(** Every workload handled so far keeps its node, or was let go of. *)
Definition emptied (draining : list string) (held : list Stranded) (done : list Stranded)
    (stuck : gmap string Z) (t : Trace) : Prop :=
  quiet t /\ CallDraining (Ok draining) ∈ t /\ CallStranded draining (Ok held) ∈ t /\
  (forall n, 0 <= count stuck n) /\
  forall i, i ∈ done -> 0 < count stuck (s_NodeID i) \/ CallRelease (s_ID i) (s_NodeID i) (Ok tt) ∈ t.

Lemma count_incr m k n k' : count (incr m k n) k' = if decide (k = k') then count m k' + n else count m k'.
Proof.
  unfold incr, count. case_decide as E; [subst; by rewrite lookup_insert_eq|by rewrite lookup_insert_ne].
Qed.

Lemma emptied_stuck draining held done i stuck t :
  emptied draining held done stuck t -> emptied draining held (done ++ [i]) (incr stuck (s_NodeID i) 1) t.
Proof.
  intros (Hq & Hd & Hs & Hp & Ha). split_and!; auto.
  - intros n. rewrite count_incr. specialize (Hp n). case_decide; lia.
  - intros j [Hj| ->%list_elem_of_singleton]%elem_of_app; rewrite count_incr.
    + destruct (Ha j Hj); [left; case_decide; lia|by right].
    + left. rewrite decide_True by done. specialize (Hp (s_NodeID i)). lia.
Qed.

Lemma emptied_call draining held done stuck t c :
  emptied draining held done stuck t -> allowed t c -> is_assign c = false ->
  emptied draining held done stuck (t ++ [c]).
Proof.
  intros (Hq & Hd & Hs & Hp & Ha) Hc Hn. split_and!; auto; [by apply quiet_snoc|set_solver..|].
  intros j Hj. destruct (Ha j Hj); [by left|right; set_solver].
Qed.

Lemma move_off_rule draining held done i stuck seen w : i ∈ held ->
  emptied draining held done stuck (trace w) ->
  s_Isolation i = movableIsolation \/ carriesItsDisk (s_Isolation i) = true /\ s_DiskParked i = true ->
  wp env (move_off instances has_events i (stuck, seen)) (fun r w' =>
    match r with Ok (stuck', _) => emptied draining held (done ++ [i]) stuck' (trace w') | Err _ => lawful (trace w') end) w.
Proof.
  intros Hi He Hmov. unfold move_off. apply wp_bind, wp_attempt.
  eapply wp_logs; [apply log_release|]. intros r w1 _ Hw1.
  assert (He1 : emptied draining held done stuck (trace w1)).
  { rewrite Hw1. apply emptied_call; [done| |done]. pose proof He as (_ & Hd & Hs & _).
    exists draining, held, i. split_and!; auto. }
  destruct r as [[]|e]; [|rewrite wp_ret; by apply emptied_stuck].
  apply wp_bind, wp_note. intros w2 Hw2. rewrite wp_ret, Hw2.
  destruct He1 as (Hq & Hd & Hs & Hp & Ha). split_and!; auto.
  intros j [Hj| ->%list_elem_of_singleton]%elem_of_app; [auto|]. right. rewrite Hw1. set_solver.
Qed.

Lemma empty_one_rule draining held done i stuck seen w : i ∈ held ->
  emptied draining held done stuck (trace w) ->
  wp env (empty_one instances has_events i (stuck, seen)) (fun r w' =>
    match r with Ok (stuck', _) => emptied draining held (done ++ [i]) stuck' (trace w') | Err _ => lawful (trace w') end) w.
Proof.
  intros Hi He. unfold empty_one.
  destruct (String.eqb_spec (s_Isolation i) movableIsolation) as [Hm|]; cbn [negb]; [eapply move_off_rule; eauto|].
  destruct (carriesItsDisk (s_Isolation i)) eqn:Hc; cbn [negb].
  - apply wp_bind. unfold carryDisk. destruct (s_DiskParked i) eqn:Hp.
    { rewrite wp_ret. eapply move_off_rule; eauto. }
    apply wp_bind, wp_attempt. eapply wp_logs; [apply log_begin|]. intros r w1 _ Hw1.
    assert (He1 : emptied draining held done stuck (trace w1)) by (rewrite Hw1; by apply emptied_call).
    destruct r; [|rewrite !wp_ret; by apply emptied_stuck].
    destruct (s_Migrating i); [rewrite !wp_ret; by apply emptied_stuck|].
    apply wp_bind, wp_note. intros w2 Hw2. rewrite !wp_ret, Hw2. by apply emptied_stuck.
  - apply wp_bind. unfold noteBlocked. apply wp_bind, wp_memory. intros [] w1 Hw1.
    + rewrite !wp_ret, Hw1. by apply emptied_stuck.
    + apply wp_note. intros w2 Hw2. rewrite wp_ret, Hw2, Hw1. by apply emptied_stuck.
Qed.

Lemma finish_one_rule draining held stuck n w : n ∈ draining -> emptied draining held held stuck (trace w) ->
  wp env (finish_one nodes has_events stuck n tt) (fun _ w' => emptied draining held held stuck (trace w')) w.
Proof.
  intros Hn He. unfold finish_one. destruct (Z.ltb_spec 0 (count stuck n)) as [|Hz]; [done|].
  apply wp_bind, wp_attempt. eapply wp_logs; [apply log_finish|]. intros r w1 _ Hw1.
  assert (He1 : emptied draining held held stuck (trace w1)).
  { rewrite Hw1. apply emptied_call; [done| |done]. destruct He as (_ & Hd & Hs & _ & Ha).
    exists draining, held. split_and!; auto. intros i Hi <-. destruct (Ha i Hi); [lia|done]. }
  destruct r; [apply wp_note; by intros w2 ->|done].
Qed.

Lemma emptyDraining_rule w : quiet (trace w) ->
  wp env (emptyDraining nodes instances has_events) (fun r w' =>
    match r with Ok _ => quiet (trace w') | Err _ => lawful (trace w') end) w.
Proof.
  intros Hq. unfold emptyDraining. apply wp_bind. eapply wp_logs; [apply log_draining|].
  intros r w1 _ Hw1. assert (Hq1 : quiet (trace w1)) by (rewrite Hw1; by apply quiet_snoc).
  destruct r as [draining|]; [|by destruct Hq1]. case_match; [apply wp_memory; by intros ? ? ->|].
  apply wp_bind. eapply wp_logs; [apply log_stranded|]. intros r w2 _ Hw2.
  assert (Hq2 : quiet (trace w2)) by (rewrite Hw2; by apply quiet_snoc). destruct r as [held|]; [|by destruct Hq2].
  assert (He : emptied draining held [] ∅ (trace w2)).
  { split_and!; auto; [rewrite Hw2, Hw1; set_solver..|done|set_solver]. }
  apply wp_bind. eapply wp_mono; [|apply (wp_foldM_done env
    (fun done st w' => emptied draining held done (fst st) (trace w')) (fun _ w' => lawful (trace w')))]; [| |exact He].
  - intros [[stuck seen]|e] w' H'; [|done]. apply wp_bind, wp_memory. intros ? w3 Hw3.
    eapply wp_mono; [|apply (wp_foldM env (fun _ w' => emptied draining held held stuck (trace w')) (fun _ w' => lawful (trace w')))].
    + intros [] ? Hx; [by destruct Hx|done].
    + intros n [] w4 Hn He4. eapply wp_mono; [|by apply finish_one_rule]. intros [] ? Hx; [done|by destruct Hx as [[]]].
    + by rewrite Hw3.
  - intros done i rest [stuck seen] w' E Hd. eapply wp_mono; [|apply (empty_one_rule draining held done); [rewrite E; set_solver|exact Hd]].
    intros [[]|] ? Hx; exact Hx.
Qed.

(** ** Placing *)

Lemma membersOf_rule pending candidates groups g w : placing pending candidates groups (trace w) ->
  wp env (membersOf instances groups g) (fun r w' =>
    match r with
    | Ok (members, groups') => placing pending candidates groups' (trace w') /\
        (g <> "" -> groups' !! g = Some members)
    | Err _ => lawful (trace w')
    end) w.
Proof.
  intros Hpl. unfold membersOf, is_empty. destruct (String.eqb_spec g "") as [->|Hg]; [by rewrite wp_ret|].
  destruct (groups !! g) as [members|] eqn:Eg; [by rewrite wp_ret|].
  apply wp_bind. eapply wp_logs; [apply log_group|]. intros r w1 Er Hw1.
  assert (Hpl1 : placing pending candidates groups (trace w1)) by (rewrite Hw1; by apply placing_call).
  destruct r as [m|]; [|by destruct Hpl1]. rewrite wp_ret. split; [|intros _; apply lookup_insert_eq].
  destruct Hpl1 as (Hl & Hp & Hr & Hc). split_and!; auto. intros g' Hg'. specialize (Hc g' Hg').
  destruct (decide (g = g')) as [<-|Hne]; [|by rewrite lookup_insert_ne].
  rewrite lookup_insert_eq. rewrite Eg in Hc. split.
  - exists m. split; [rewrite Hw1; set_solver|]. intros n. pose proof (group_counts _ _ _ _ Er n). lia.
  - intros n q Hq Eq Hin. by destruct (Hc n q).
Qed.

Lemma carrying_rule pending candidates groups eligible kind w : placing pending candidates groups (trace w) ->
  wp env (carrying devices eligible kind) (fun r w' =>
    match r with
    | Ok held => placing pending candidates groups (trace w') /\
        forall x, x ∈ held -> x ∈ eligible /\ is_Some devices /\
          exists address, address <> "" /\ CallFree (c_ID x) kind (Ok (address, true)) ∈ trace w'
    | Err _ => lawful (trace w')
    end) w.
Proof.
  intros Hpl. unfold carrying. destruct devices as [d|] eqn:Ed; [|rewrite wp_ret; set_solver].
  apply (wp_foldM env (fun held w' => placing pending candidates groups (trace w') /\
    forall x, x ∈ held -> x ∈ eligible /\ is_Some (Some d) /\
      exists address, address <> "" /\ CallFree (c_ID x) kind (Ok (address, true)) ∈ trace w')
    (fun _ w' => lawful (trace w'))); [|set_solver].
  intros one held w1 Hone [Hpl1 Hh]. apply wp_bind, wp_attempt.
  eapply wp_logs; [by eapply log_free|]. intros r w2 _ Hw2.
  assert (Hpl2 : placing pending candidates groups (trace w2)) by (rewrite Hw2; by apply placing_call).
  assert (Hh2 : forall x, x ∈ held -> x ∈ eligible /\ is_Some (Some d) /\
      exists address, address <> "" /\ CallFree (c_ID x) kind (Ok (address, true)) ∈ trace w2).
  { intros x Hx. destruct (Hh x Hx) as (? & ? & a & ? & ?). split_and!; auto. exists a. rewrite Hw2. set_solver. }
  destruct r as [[free []]|e]; rewrite wp_ret; cbn [andb]; auto.
  unfold is_empty. destruct (String.eqb_spec free ""); cbn [negb]; auto. split; [done|].
  intros x [Hx| ->%list_elem_of_singleton]%elem_of_app; [auto|]. split_and!; eauto. exists free. rewrite Hw2. set_solver.
Qed.

Lemma matching_elem candidates selector c : c ∈ matching candidates selector ->
  c ∈ candidates /\ matches c selector = true.
Proof.
  unfold matching. case_decide as E.
  - intros Hc. split; [done|]. unfold matches. rewrite E, map_to_list_empty. done.
  - intros [? ?]%elem_of_filter_bool. done.
Qed.

Lemma allocate_addresses_rule pending candidates groups p n w : placing pending candidates groups (trace w) ->
  wp env (allocate_addresses addresses p n) (fun r w' =>
    match r with Ok _ => placing pending candidates groups (trace w') | Err _ => lawful (trace w') end) w.
Proof.
  intros Hpl. unfold allocate_addresses. destruct addresses as [a|] eqn:Ea; [|done]. case_match; [done|].
  apply (wp_foldM env (fun _ w' => placing pending candidates groups (trace w')) (fun _ w' => lawful (trace w'))); [|done].
  intros nw [] w1 _ Hpl1. apply wp_bind, wp_attempt. eapply wp_logs; [by eapply log_allocate|].
  intros r w2 _ Hw2. rewrite wp_ret, Hw2. by apply placing_call.
Qed.

(** One more instance of the group on the node. *)
Lemma placing_assigned pending candidates groups members p n t :
  placing pending candidates groups t -> p ∈ pending -> NoDup (map p_ID pending) ->
  (p_Group p <> "" -> groups !! p_Group p = Some members) ->
  allowed t (CallAssign (p_ID p) n (Ok tt)) ->
  placing pending candidates
    (if is_empty (p_Group p) then groups else <[p_Group p := incr members n 1]> groups)
    (t ++ [CallAssign (p_ID p) n (Ok tt)]).
Proof.
  intros (Hl & Hpe & Hr & Hc) Hp Hnd Hg Ha. split_and!; [by apply lawful_snoc|set_solver..|].
  assert (Hkey : forall q, q ∈ pending -> p_ID q = p_ID p -> q = p)
    by (intros q Hq E; by apply (NoDup_map_inj p_ID pending)).
  assert (Hsame : forall g, g <> p_Group p -> forall n' q, q ∈ pending -> p_Group q = g ->
    CallAssign (p_ID q) n' (Ok tt) ∈ t ++ [CallAssign (p_ID p) n (Ok tt)] -> CallAssign (p_ID q) n' (Ok tt) ∈ t).
  { intros g Hne n' q Hq Eg [?|E%list_elem_of_singleton]%elem_of_app; [done|].
    injection E as E _. apply Hkey in E; [congruence|done]. }
  intros g Hne. specialize (Hc g Hne).
  assert (Hlook : (if is_empty (p_Group p) then groups else <[p_Group p := incr members n 1]> groups) !! g =
    if decide (g = p_Group p) then Some (incr members n 1) else groups !! g).
  { unfold is_empty. destruct (String.eqb_spec (p_Group p) "") as [E|E].
    - rewrite decide_False; congruence.
    - case_decide as Eg; [subst; by rewrite lookup_insert_eq|by rewrite lookup_insert_ne]. }
  rewrite Hlook. case_decide as Eg; [subst g|].
  - rewrite (Hg Hne) in Hc. destruct Hc as [(m & Hm & Hle) Has]. split.
    + exists m. split; [set_solver|]. intros n'. rewrite count_incr. specialize (Hle n'). case_decide; lia.
    + intros n' q Hq Eq [Hin|E%list_elem_of_singleton]%elem_of_app; rewrite count_incr.
      * specialize (Has n' q Hq Eq Hin). case_decide; lia.
      * injection E as _ ->. rewrite decide_True by done. specialize (Hle n). lia.
  - destruct (groups !! g) as [known|].
    + destruct Hc as [(m & Hm & Hle) Has]. split; [exists m; set_solver|]. intros n' q Hq Eq Hin.
      apply (Has n' q Hq Eq). by eapply Hsame.
    + intros n' q Hq Eq Hin. apply (Hc n' q Hq Eq). by eapply Hsame.
Qed.

(** A node that may take an instance. *)
Definition suitable (candidates : list Candidate) (p : Pending) (target : Candidate)
    (members : gmap string Z) (t : Trace) : Prop :=
  target ∈ candidates /\ matches target (p_Selector p) = true /\
  (p_Device p <> "" -> is_Some devices /\
     exists address, address <> "" /\ CallFree (c_ID target) (p_Device p) (Ok (address, true)) ∈ t) /\
  (p_Strict p = true -> p_Group p <> "" -> count members (c_ID target) = 0).

Lemma suitable_allowed pending candidates groups p target members t r :
  placing pending candidates groups t -> p ∈ pending -> suitable candidates p target members t ->
  (p_Group p <> "" -> groups !! p_Group p = Some members) ->
  (p_Device p <> "" -> exists a, CallClaim (c_ID target) (p_Device p) (p_ID p) (Ok a) ∈ t) ->
  allowed t (CallAssign (p_ID p) (c_ID target) r).
Proof.
  intros (Hl & Hpe & Hr & Hc) Hp (Ht & Hm & Hd & Hs) Hg Hcl. exists pending, candidates, p, target.
  split_and!; auto.
  - intros Hne. destruct (Hd Hne) as [_ ?]. split; auto.
  - intros Hst Hne. specialize (Hc _ Hne). rewrite (Hg Hne) in Hc. destruct Hc as [(m & Hm' & Hle) Ha].
    specialize (Hs Hst Hne). split; [exists m; split; [done|specialize (Hle (c_ID target)); lia]|].
    intros q Hq Eq Hin. specialize (Ha _ q Hq Eq Hin). lia.
Qed.

Lemma place_on_rule pending candidates groups counts p target members w :
  placing pending candidates groups (trace w) -> p ∈ pending -> NoDup (map p_ID pending) ->
  suitable candidates p target members (trace w) ->
  (p_Group p <> "" -> groups !! p_Group p = Some members) ->
  wp env (place_on instances addresses devices has_events p target members (counts, groups)) (fun r w' =>
    match r with Ok (_, groups') => placing pending candidates groups' (trace w') | Err _ => lawful (trace w') end) w.
Proof.
  intros Hpl Hp Hnd Hsu Hg. unfold place_on. apply wp_bind.
  set (claim := match devices with Some _ => _ | None => _ end).
  assert (Hclaim : wp env claim (fun r w' => exists c, r = Ok c /\ placing pending candidates groups (trace w') /\
    match c with
    | Ok _ => suitable candidates p target members (trace w') /\
        (p_Device p <> "" -> exists a, CallClaim (c_ID target) (p_Device p) (p_ID p) (Ok a) ∈ trace w')
    | Err _ => True
    end) w).
  { unfold claim, is_empty, suitable. destruct Hsu as (Ht & Hm & Hd & Hs).
    destruct devices as [d|] eqn:Ed; [destruct (String.eqb_spec (p_Device p) "") as [E|E]|]; cbn [negb].
    - rewrite wp_ret. eexists. split; [done|]. split; [done|]. split; [split_and!; auto|done].
    - apply wp_attempt. eapply wp_logs; [by eapply log_claim|]. intros r w1 _ Hw1. eexists. split; [done|].
      rewrite Hw1. split; [by apply placing_call|]. destruct r as [a|]; [|done]. split; [|intros _; exists a; set_solver].
      split_and!; auto. intros Hne. destruct (Hd Hne) as [? (a' & ? & ?)]. split; [done|]. exists a'. set_solver.
    - rewrite wp_ret. eexists. split; [done|]. split; [done|]. split; [split_and!; auto|].
      intros Hne. destruct (Hd Hne) as [[] _]. done. }
  clearbody claim. eapply wp_mono; [|exact Hclaim].
  intros r w1 (c & -> & Hpl1 & Hc). destruct c as [a|]; [|by rewrite wp_ret]. destruct Hc as [Hsu1 Hcl].
  apply wp_bind, wp_attempt. eapply wp_logs; [apply log_assign|]. intros r w2 _ Hw2.
  pose proof (suitable_allowed _ _ _ _ _ _ _ r Hpl1 Hp Hsu1 Hg Hcl) as Hal.
  destruct r as [[]|e]; [|rewrite wp_ret, Hw2; by apply placing_call].
  apply wp_bind, wp_note. intros w3 Hw3. apply wp_bind.
  eapply wp_mono; [|apply (allocate_addresses_rule pending candidates
    (if is_empty (p_Group p) then groups else <[p_Group p := incr members (c_ID target) 1]> groups))].
  - intros [[]|e] w4 H4; [by rewrite wp_ret|done].
  - rewrite Hw3, Hw2. by apply placing_assigned.
Qed.

Lemma place_rule pending candidates load p counts groups w :
  placing pending candidates groups (trace w) -> p ∈ pending -> NoDup (map p_ID pending) ->
  wp env (place instances addresses devices has_events candidates load p (counts, groups)) (fun r w' =>
    match r with Ok (_, groups') => placing pending candidates groups' (trace w') | Err _ => lawful (trace w') end) w.
Proof.
  intros Hpl Hp Hnd. unfold place. apply wp_bind. eapply wp_mono; [|by apply (membersOf_rule pending candidates)].
  intros [[members groups1]|e] w1 H1; [|done]. destruct H1 as [Hpl1 Hg].
  assert (Hhold : forall reason w', placing pending candidates groups1 (trace w') ->
    wp env (let! _ := attempt (HoldPlacement instances (p_ID p) reason) in ret tt) (fun r w' =>
      r = Ok tt /\ placing pending candidates groups1 (trace w')) w').
  { intros reason w' H. apply wp_bind, wp_attempt. eapply wp_logs; [apply log_hold|]. intros r w2 _ Hw2.
    rewrite wp_ret, Hw2. split; [done|]. by apply placing_call. }
  case_match; [apply wp_bind; eapply wp_mono; [|by apply Hhold]; by intros ? ? [-> ?]|].
  apply wp_bind.
  set (narrow := if is_empty (p_Device p) then _ else _).
  assert (Hn : wp env narrow (fun r w' => match r with
    | Ok el => placing pending candidates groups1 (trace w') /\
        forall x, x ∈ el -> x ∈ candidates /\ matches x (p_Selector p) = true /\
          (p_Device p <> "" -> is_Some devices /\
            exists address, address <> "" /\ CallFree (c_ID x) (p_Device p) (Ok (address, true)) ∈ trace w')
    | Err _ => lawful (trace w') end) w1).
  { unfold narrow, is_empty. destruct (String.eqb_spec (p_Device p) "") as [E|E].
    - rewrite wp_ret. split; [done|]. intros x Hx%matching_elem. destruct Hx. split_and!; auto. by rewrite E.
    - eapply wp_mono; [|by apply (carrying_rule pending candidates groups1)]. intros [el|] w2 H2; [|done].
      destruct H2 as [? H2]. split; [done|]. intros x Hx. destruct (H2 x Hx) as (Hm%matching_elem & ? & ?).
      destruct Hm. split_and!; auto. }
  clearbody narrow. eapply wp_mono; [|exact Hn]. intros [el|e] w2 H2; [|done]. destruct H2 as [Hpl2 Hel].
  case_match; [apply wp_bind; eapply wp_mono; [|by apply Hhold]; by intros ? ? [-> ?]|].
  destruct (bestFor el counts load members) as [[target room]|] eqn:Eb; [|by rewrite wp_ret].
  apply bestFor_elem in Eb as [Ht Hroom]. destruct (p_Strict p && negb (is_empty (p_Group p)) && negb room) eqn:Est.
  { apply wp_bind; eapply wp_mono; [|by apply Hhold]; by intros ? ? [-> ?]. }
  apply (place_on_rule pending candidates); auto. destruct (Hel target Ht) as (? & ? & ?). split_and!; auto.
  intros Hs Hne. unfold is_empty in Est. rewrite Hs, (proj2 (String.eqb_neq _ _) Hne) in Est. cbn in Est.
  apply negb_false_iff in Est. rewrite Est in Hroom. by apply Z.eqb_eq.
Qed.

Lemma Tick_rule w : trace w = [] ->
  wp env (Tick nodes instances addresses loads devices has_events) (fun _ w' => lawful (trace w')) w.
Proof.
  intros Hw. assert (Hq : quiet (trace w)) by (rewrite Hw; split; [apply lawful_nil|constructor]).
  unfold Tick. apply wp_bind. eapply wp_mono; [|by apply releaseStranded_rule]. intros [_|] w1 Hq1; [|by destruct Hq1].
  apply wp_bind. eapply wp_mono; [|by apply emptyDraining_rule]. intros [_|] w2 Hq2; [|done].
  apply wp_bind. eapply wp_logs; [apply log_pending|]. intros r w3 Er Hw3.
  assert (Hq3 : quiet (trace w3)) by (rewrite Hw3; by apply quiet_snoc). destruct r as [pending|]; [|by destruct Hq3].
  pose proof (pending_keys _ _ _ Er) as Hnd. case_match; [by destruct Hq3|].
  apply wp_bind. eapply wp_logs; [apply log_ready|]. intros r w4 _ Hw4.
  assert (Hq4 : quiet (trace w4)) by (rewrite Hw4; by apply quiet_snoc). destruct r as [candidates|]; [|by destruct Hq4].
  case_match; [by destruct Hq4|]. apply wp_bind.
  set (measure := match loads with Some _ => _ | None => _ end).
  assert (Hm : wp env measure (fun r w' => exists l, r = Ok l /\ exists c, trace w' = trace w4 ++ c /\
    quiet (trace w')) w4).
  { unfold measure. destruct loads as [l|] eqn:El; [|rewrite wp_ret; eexists; split; [done|]; exists []; by rewrite app_nil_r].
    apply wp_bind, wp_attempt. eapply wp_logs; [by eapply log_load|]. intros r w5 _ Hw5.
    assert (quiet (trace w5)) by (rewrite Hw5; by apply quiet_snoc).
    destruct r; rewrite wp_ret; eexists; eauto. }
  clearbody measure. eapply wp_mono; [|exact Hm]. intros ? w5 (load & -> & c5 & Hw5 & Hq5).
  apply wp_bind. eapply wp_logs; [apply log_counts|]. intros r w6 _ Hw6.
  assert (Hq6 : quiet (trace w6)) by (rewrite Hw6; by apply quiet_snoc). destruct r as [counts|]; [|by destruct Hq6].
  apply wp_bind. eapply wp_mono; [|apply (wp_foldM env
    (fun t w' => placing pending candidates (snd t) (trace w')) (fun _ w' => lawful (trace w')))].
  - intros [t|] w7 H7; [by destruct H7|done].
  - intros p [cs groups] w7 Hp H7. eapply wp_mono; [|by apply (place_rule pending)]. intros [[]|] ? Hx; exact Hx.
  - split_and!; [by destruct Hq6|rewrite Hw6, Hw5, Hw4, Hw3; set_solver..|].
    intros g _. cbn [snd]. rewrite lookup_empty. intros n q _ _. by apply quiet_no_assign.
Qed.
End rules.

(** * A small cluster

    Two nodes, one of which is draining, and one instance of a strict group to place: a
    concrete [Logged] world for the witnesses below. *)
Module Demo.
Definition state : Type := SchedState * Trace.
#[local] Instance has_memory : Has SchedState state.
Proof. by refine {| hget := fst; hput m s := (m, snd s) |}; intros; destruct s. Defined.
#[local] Instance has_trace : Has Trace state.
Proof. by refine {| hget := snd; hput t s := (fst s, t) |}; intros; destruct s. Defined.
#[local] Instance memory_apart : Apart SchedState Trace state.
Proof. done. Defined.

Definition answer {A} (c : outcome A -> call) (r : outcome A) : M state A :=
  fun _ w => (r, with_st w (fst (w_st w), snd (w_st w) ++ [c r])).
Lemma answer_logs {A} (c : outcome A -> call) r : logs (answer c r) c.
Proof. done. Qed.

Definition node_a : Candidate := MkCandidate "n-a" "a" "z1" ∅.
Definition pending_1 : Pending := MkPending "i-1" "prj-1" "web" "" "pg-1" true ∅ [] "".
Definition on_b : Stranded := MkStranded "i-2" "prj-1" "db" "n-b" "container" false false.
Definition nodes : NodeSource state := {|
  ReadyNodes := answer CallReady (Ok [node_a]);
  UnreachableNodes _ := answer CallUnreachable (Ok []);
  DrainingNodes := answer CallDraining (Ok ["n-b"]);
  FinishDraining n := answer (CallFinish n) (Ok tt) |}.
Definition instances : InstanceSource state := {|
  PendingPlacement := answer CallPending (Ok [pending_1]);
  AssignedCounts := answer CallCounts (Ok ∅);
  GroupCounts g := answer (CallGroup g) (Ok ∅);
  HoldPlacement i _ := answer (CallHold i) (Ok tt);
  Assign i n := answer (CallAssign i n) (Ok tt);
  StrandedOn ns := answer (CallStranded ns) (Ok [on_b]);
  BeginMigration i n := answer (CallBegin i n) (Ok tt);
  ReleasePlacement i n := answer (CallRelease i n) (Ok tt) |}.
#[local] Instance logged : Logged nodes instances None None None.
Proof.
  split; try done.
  - intros env w ps [= <-]. apply NoDup_singleton.
  - intros env w g m [= <-] n. done.
Qed.
Definition env : Env := {| env_now _ := 0; env_rand _ := []; env_io _ := false |}.
Definition world : World state := MkWorld (MkSched ∅ ∅, []) O [].
Definition after : World state := snd (Tick nodes instances None None None true env world).
Definition calls : Trace := Eval vm_compute in snd (w_st after).
End Demo.

(** * Properties *)

(** C3: [assignments_lawful]: whatever the other modules answer, a pass assigns an instance
    only if it was pending, and only to a node that was ready and carries the labels it
    selects; a device it asks for was seen free on that node and has been claimed for it;
    and an instance of a strict placement group goes only to a node that held no member
    of the group when they were counted and was given none since. *)
Theorem assignments_lawful {S} `{!Has SchedState S, !Has Trace S, !Apart SchedState Trace S}
  nodes instances addresses loads devices has_events
  (HL : Logged (S:=S) nodes instances addresses loads devices) env (w : World S) before id node r after
  (Hstart : part (T:=Trace) w = [])
  (Hcall : part (T:=Trace) (snd (Tick nodes instances addresses loads devices has_events env w))
           = before ++ CallAssign id node r :: after) :
  exists pending candidates p t,
    CallPending (Ok pending) ∈ before /\ CallReady (Ok candidates) ∈ before /\
    p ∈ pending /\ p_ID p = id /\ t ∈ candidates /\ c_ID t = node /\
    matches t (p_Selector p) = true /\
    (p_Device p <> "" -> device_held before id (p_Device p) node) /\
    (p_Strict p = true -> p_Group p <> "" -> group_clear before pending (p_Group p) node).
Proof.
  pose proof (Tick_rule nodes instances addresses loads devices has_events env w Hstart) as H.
  unfold wp in H. destruct (Tick _ _ _ _ _ _ _ _) as [res w']. exact (H _ _ _ Hcall).
Qed.

Lemma assignments_lawful_witness :
  exists before after, part (T:=Trace) (H:=Demo.has_trace) Demo.after = before ++ CallAssign "i-1" "n-a" (Ok tt) :: after /\
    exists pending, CallPending (Ok pending) ∈ before.
Proof.
  exists (take 9 Demo.calls), (drop 10 Demo.calls). split; [vm_compute; reflexivity|].
  destruct (assignments_lawful (Has0:=Demo.has_memory) (Has1:=Demo.has_trace) (Apart0:=Demo.memory_apart)
    Demo.nodes Demo.instances None None None true Demo.logged
    Demo.env Demo.world (take 9 Demo.calls) "i-1" "n-a" (Ok tt) (drop 10 Demo.calls) eq_refl ltac:(vm_compute; reflexivity))
    as (pending & _ & _ & _ & Hp & _).
  exists pending. exact Hp.
Defined.

(** C4: [releases_lawful]: a pass takes an instance away from its node only if the node
    stopped answering and the instance is a container, which has no disk there, or the node
    is draining and the instance is a container or has its disk parked already. *)
Theorem releases_lawful {S} `{!Has SchedState S, !Has Trace S, !Apart SchedState Trace S}
  nodes instances addresses loads devices has_events
  (HL : Logged (S:=S) nodes instances addresses loads devices) env (w : World S) before id node r after
  (Hstart : part (T:=Trace) w = [])
  (Hcall : part (T:=Trace) (snd (Tick nodes instances addresses loads devices has_events env w))
           = before ++ CallRelease id node r :: after) :
  exists asked held i,
    CallStranded asked (Ok held) ∈ before /\ i ∈ held /\ s_ID i = id /\ s_NodeID i = node /\
    (CallUnreachable (Ok asked) ∈ before /\ s_Isolation i = "container" \/
     CallDraining (Ok asked) ∈ before /\
       (s_Isolation i = "container" \/ carriesItsDisk (s_Isolation i) = true /\ s_DiskParked i = true)).
Proof.
  pose proof (Tick_rule nodes instances addresses loads devices has_events env w Hstart) as H.
  unfold wp in H. destruct (Tick _ _ _ _ _ _ _ _) as [res w']. exact (H _ _ _ Hcall).
Qed.

Lemma releases_lawful_witness :
  exists before after, part (T:=Trace) (H:=Demo.has_trace) Demo.after = before ++ CallRelease "i-2" "n-b" (Ok tt) :: after /\
    exists asked held, CallStranded asked (Ok held) ∈ before.
Proof.
  exists (take 3 Demo.calls), (drop 4 Demo.calls). split; [vm_compute; reflexivity|].
  destruct (releases_lawful (Has0:=Demo.has_memory) (Has1:=Demo.has_trace) (Apart0:=Demo.memory_apart)
    Demo.nodes Demo.instances None None None true Demo.logged
    Demo.env Demo.world (take 3 Demo.calls) "i-2" "n-b" (Ok tt) (drop 4 Demo.calls) eq_refl ltac:(vm_compute; reflexivity))
    as (asked & held & _ & Hs & _).
  exists asked, held. exact Hs.
Defined.

(** [drains_lawful]: a drain is declared finished only for a draining node, and only after
    every workload the node held was released in this pass. *)
Theorem drains_lawful {S} `{!Has SchedState S, !Has Trace S, !Apart SchedState Trace S}
  nodes instances addresses loads devices has_events
  (HL : Logged (S:=S) nodes instances addresses loads devices) env (w : World S) before node r after
  (Hstart : part (T:=Trace) w = [])
  (Hcall : part (T:=Trace) (snd (Tick nodes instances addresses loads devices has_events env w))
           = before ++ CallFinish node r :: after) :
  exists draining held,
    CallDraining (Ok draining) ∈ before /\ node ∈ draining /\
    CallStranded draining (Ok held) ∈ before /\
    forall i, i ∈ held -> s_NodeID i = node -> CallRelease (s_ID i) node (Ok tt) ∈ before.
Proof.
  pose proof (Tick_rule nodes instances addresses loads devices has_events env w Hstart) as H.
  unfold wp in H. destruct (Tick _ _ _ _ _ _ _ _) as [res w']. exact (H _ _ _ Hcall).
Qed.

Lemma drains_lawful_witness :
  exists before after, part (T:=Trace) (H:=Demo.has_trace) Demo.after = before ++ CallFinish "n-b" (Ok tt) :: after /\
    exists draining, "n-b" ∈ draining /\ CallDraining (Ok draining) ∈ before.
Proof.
  exists (take 4 Demo.calls), (drop 5 Demo.calls). split; [vm_compute; reflexivity|].
  destruct (drains_lawful (Has0:=Demo.has_memory) (Has1:=Demo.has_trace) (Apart0:=Demo.memory_apart)
    Demo.nodes Demo.instances None None None true Demo.logged
    Demo.env Demo.world (take 4 Demo.calls) "n-b" (Ok tt) (drop 5 Demo.calls) eq_refl ltac:(vm_compute; reflexivity))
    as (draining & _ & Hd & Hn & _).
  exists draining. split; [exact Hn|exact Hd].
Defined.

(** C7: [bestFor_spreads]: the node chosen is a candidate whose zone holds the fewest members
    of the group; among those it holds the fewest members itself; and among those, when the
    load of every candidate is fresh, it has the most free memory.  The node has room
    exactly when it holds no member. *)
Theorem bestFor_spreads candidates counts load members (Hne : candidates <> []) :
  let zone c := count (zone_totals candidates members) (c_Zone c) in
  let held c := count members (c_ID c) in
  exists c, bestFor candidates counts load members = Some (c, held c =? 0) /\ c ∈ candidates /\
    forall d, d ∈ candidates ->
      zone c < zone d \/
      zone c = zone d /\ held c < held d \/
      zone c = zone d /\ held c = held d /\
        (Forall (has_fresh_load load) candidates -> free_memory load d <= free_memory load c).
Proof.
  intros zone held. destruct (bestFor_some candidates counts load members Hne) as [[c room] Eb].
  pose proof (bestFor_elem _ _ _ _ _ _ Eb) as [Hc ->]. exists c. split_and!; [done|done|]. intros d Hd.
  set (byZone := zone_totals candidates members) in *.
  assert (Hhead : forall lt, WeakOrder lt -> forall P,
    (forall x y, P x -> P y -> lt x y = true -> better byZone counts members load x y = true) ->
    (forall x y, P x -> P y -> better byZone counts members load x y = true -> lt y x = false) ->
    Forall P candidates -> lt d c = false).
  { intros lt Hlt P H1 H2 HP. pose proof (sliceStable_coarse _ lt P H1 H2 _ HP) as Hs. unfold bestFor in Eb.
    fold byZone in Eb. destruct (sliceStable _ candidates) as [|x l] eqn:E; [done|]. injection Eb as -> _.
    rewrite <- (sliceStable_perm (better byZone counts members load)), E in Hd.
    apply elem_of_cons in Hd as [->|Hd]; [apply wo_irrefl|]. by eapply sorted_by_head. }
  pose proof (Hhead (spread byZone members) _ (fun _ => True)
    (fun x y _ _ => proj1 (better_spread _ _ _ _ _ _)) (fun x y _ _ => proj2 (better_spread _ _ _ _ _ _))) as Hs.
  specialize (Hs ltac:(by apply Forall_true)). unfold spread, by_key in Hs. fold (zone c) (zone d) (held c) (held d) in Hs.
  destruct (decide (zone d = zone c)) as [Ez|]; [|left; apply Z.ltb_ge in Hs; lia]. right.
  destruct (decide (held d = held c)) as [Eh|]; [|left; apply Z.ltb_ge in Hs; lia]. right.
  split_and!; [done|done|]. intros Hfresh.
  pose proof (Hhead (spread_then_memory byZone members load) _ (has_fresh_load load)
    (fun x y Hx Hy => proj1 (better_memory _ _ _ _ _ _ Hx Hy)) (fun x y Hx Hy => proj2 (better_memory _ _ _ _ _ _ Hx Hy)) Hfresh) as Hm.
  unfold spread_then_memory, by_key in Hm. fold (zone c) (zone d) (held c) (held d) in Hm.
  rewrite !decide_True in Hm by done. case_decide; [lia|]. by apply Z.ltb_ge in Hm; lia.
Qed.

Lemma bestFor_spreads_witness :
  exists c, bestFor [Demo.node_a] ∅ ∅ ∅ = Some (c, true) /\ c ∈ [Demo.node_a].
Proof.
  destruct (bestFor_spreads [Demo.node_a] ∅ ∅ ∅ ltac:(discriminate)) as (c & H & Hc & _).
  exists c. split; [exact H|exact Hc].
Defined.

Definition strict_nodes : list Candidate :=
  [MkCandidate "n-1" "a" "z1" ∅; MkCandidate "n-2" "b" "z2" ∅; MkCandidate "n-3" "c" "z2" ∅;
   MkCandidate "n-4" "d" "z2" ∅].
Definition strict_members : gmap string Z := {["n-1" := 1; "n-2" := 1; "n-3" := 1]}.

(** [strict_hold_with_room]: an instance of a strict group may be held with the reason
    that every ready node already runs a member although one does not: the zone with the
    fewest members is looked at first, and only its best node is tried for room. *)
Theorem strict_hold_with_room :
  (exists c, bestFor strict_nodes ∅ ∅ strict_members = Some (c, false)) /\
  exists d, d ∈ strict_nodes /\ count strict_members (c_ID d) = 0.
Proof.
  split; [eexists; vm_compute; reflexivity|]. exists (MkCandidate "n-4" "d" "z2" ∅).
  split; [unfold strict_nodes; set_solver|vm_compute; reflexivity].
Qed.

Definition mixed_a : Candidate := MkCandidate "n-a" "a" "z" ∅.
Definition mixed_b : Candidate := MkCandidate "n-b" "b" "z" ∅.
Definition mixed_c : Candidate := MkCandidate "n-c" "c" "z" ∅.
Definition mixed_load : gmap string Load := {["n-a" := MkLoad 100 true; "n-b" := MkLoad 200 true]}.
Definition mixed_counts : gmap string Z := {["n-a" := 1; "n-b" := 3; "n-c" := 2]}.

(** [better_cycles]: with the load of one node stale, the comparison of [bestFor] goes
    round in a circle, so it is no order a sort can use: the node chosen depends on the
    order in which the candidates are listed. *)
Theorem better_cycles :
  let less := better ∅ mixed_counts ∅ mixed_load in
  less mixed_b mixed_a = true /\ less mixed_c mixed_b = true /\ less mixed_a mixed_c = true /\
  bestFor [mixed_a; mixed_b; mixed_c] mixed_counts mixed_load ∅ = Some (mixed_b, true) /\
  bestFor [mixed_c; mixed_a; mixed_b] mixed_counts mixed_load ∅ = Some (mixed_a, true).
Proof. vm_compute. split_and!; reflexivity. Qed.
