(* ===== verification/Float64.v ===== *)
(** The type [float64] of Go: IEEE 754 binary64, round to nearest even, with the operations
    the autoscaler and the rate limiter use.  The arithmetic is that of [SpecFloat]; the
    conversion of a float out of the range of [int] is the one of amd64, which gives the
    smallest integer. *)
From stdpp Require Import base tactics numbers strings list.
From Stdlib Require Import ZArith Lia.
From Stdlib Require Import SpecFloat.
From Stdlib Require Ascii.
From S2P Require Import Prelude GoLang.

Definition float64 : Type := spec_float.
Definition prec : Z := 53.
Definition emax : Z := 1024.
Definition fadd : float64 -> float64 -> float64 := SFadd prec emax.
Definition fsub : float64 -> float64 -> float64 := SFsub prec emax.
Definition fmul : float64 -> float64 -> float64 := SFmul prec emax.
Definition fdiv : float64 -> float64 -> float64 := SFdiv prec emax.
Definition fltb : float64 -> float64 -> bool := SFltb.
Definition fleb : float64 -> float64 -> bool := SFleb.
(** [float64(n)] *)
Definition of_int (n : Z) : float64 := binary_normalize prec emax n 0 false.
(** The constant [n/d], rounded once. *)
Definition of_ratio (n d : Z) : float64 := fdiv (of_int n) (of_int d).

(** [math.Ceil] *)
Definition fceil (x : float64) : float64 :=
  match x with
  | S754_finite s m e =>
      if 0 <=? e then x
      else
        let v := (if s then Zneg m else Zpos m) in
        let c := - ((- v) / 2 ^ (- e)) in
        if c =? 0 then S754_zero s else of_int c
  | _ => x
  end.
(** [math.Abs] *)
Definition fabs (x : float64) : float64 := SFabs x.

(** The value of a finite float, truncated towards zero. *)
Definition truncated (s : bool) (m : positive) (e : Z) : Z :=
  let a := if 0 <=? e then Zpos m * 2 ^ e else Zpos m / 2 ^ (- e) in
  if s then - a else a.
(** [int(x)] *)
Definition to_int (x : float64) : Z :=
  match x with
  | S754_zero _ => 0
  | S754_finite s m e =>
      if emax <? e then min_int64
      else
        let v := truncated s m e in
        if (min_int64 <=? v) && (v <=? max_int64) then v else min_int64
  | S754_infinity _ | S754_nan => min_int64
  end.

(** [strconv.FormatFloat(x, 'f', 1, 64)]: the value in tenths, rounded half to even. *)
Definition tenths (m : positive) (e : Z) : Z :=
  if 0 <=? e then Zpos m * 2 ^ e * 10
  else
    let d := 2 ^ (- e) in
    let q := Zpos m * 10 / d in
    let r := Zpos m * 10 mod d in
    if (d <? 2 * r) || ((2 * r =? d) && Z.odd q) then q + 1 else q.
Definition minus_sign : string := "-".
Definition format_f1 (x : float64) : string :=
  match x with
  | S754_nan => "NaN"
  | S754_infinity s => if s then "-Inf" else "+Inf"
  | S754_zero s => (if s then minus_sign else "") +:+ "0.0"
  | S754_finite s m e =>
      let t := tenths m e in
      (if s then minus_sign else "") +:+ itoa (t / 10) +:+ "." +:+ itoa (t mod 10)
  end.

Example ceil_example : to_int (fceil (fmul (of_int 3) (of_ratio 13 10))) = 4.
Proof. vm_compute. reflexivity. Qed.
Example format_example : format_f1 (of_ratio 1234 100) = "12.3" /\ format_f1 (of_ratio 1 4) = "0.2".
Proof. vm_compute. split; reflexivity. Qed.

(** A converted float is an [int]. *)
Lemma to_int_range x : in_int64 (to_int x).
Proof.
  unfold in_int64. assert (min_int64 <= min_int64 <= max_int64) by (unfold min_int64, max_int64, two63; lia).
  destruct x as [s|s| |s m e]; simpl; auto; [unfold min_int64, max_int64, two63; lia|].
  destruct (emax <? e); [done|]. destruct (_ && _) eqn:E; [|done]. breflect. lia.
Qed.
