(* ===== verification/Autoscale.v ===== *)
(** The autoscaler (internal/platform/autoscale): the policies, the decision for one service,
    and the sweep that applies the decisions. *)
From stdpp Require Import base tactics numbers strings list gmap.
From Stdlib Require Import ZArith Lia SpecFloat.
From S2P Require Import Prelude GoLang Effects Kernel Float64.

(** * Data (types.go) *)

Definition MinReplicas : Z := 1.
Definition MaxReplicas : Z := 32.
Definition MinTarget : Z := 1.
Definition MaxTarget : Z := 100.
Definition DeadbandRatio : float64 := Eval vm_compute in of_ratio 15 100.
Definition MaxStep : Z := 4.
Definition Warmup : Z := 90 * second.
Definition Cooldown : Z := 3 * minute.
Definition StaleLoad : Z := 60 * second.

(* go: platform/autoscale/types.go Policy *)
Record Policy := MkPolicy {
  pol_ID : string; pol_ProjectID : string; pol_ServiceID : string;
  pol_Min : Z; pol_Max : Z; pol_TargetCPU : Z; pol_TargetMemory : Z;
  pol_LastAt : Z; pol_LastReason : string; pol_CreatedAt : Z; pol_UpdatedAt : Z;
}.
(* go: platform/autoscale/types.go PolicyParams *)
Record PolicyParams := MkPolicyParams {
  pp_ProjectID : string; pp_ServiceID : string; pp_Min : Z; pp_Max : Z;
  pp_TargetCPU : Z; pp_TargetMemory : Z;
}.
(* go: platform/autoscale/types.go Member *)
Record Member := MkMember { mem_InstanceID : string; mem_CreatedAt : Z }.
(* go: platform/autoscale/types.go Group *)
Record Group := MkGroup {
  grp_ServiceID : string; grp_ProjectID : string; grp_Name : string;
  grp_Replicas : Z; grp_Settled : bool; grp_Members : list Member;
}.
(* go: platform/autoscale/types.go Sample *)
Record Sample := MkSample {
  smp_CPUPercent : float64; smp_MemoryPercent : float64; smp_MemoryKnown : bool; smp_ReportedAt : Z;
}.

(** * Decision (decide.go) *)

(* go: platform/autoscale/decide.go Decision *)
Record Decision := MkDecision { dec_Replicas : Z; dec_Reason : string; dec_Act : bool }.
Definition stay (reason : string) : Decision := MkDecision 0 reason false.

(* go: platform/autoscale/decide.go pressure *)
Record pressure := MkPressure { prs_name : string; prs_average : float64; prs_target : float64 }.
(* go: platform/autoscale/decide.go pressure.demand *)
Definition demand (p : pressure) : float64 := fdiv (prs_average p) (prs_target p).
(* go: platform/autoscale/decide.go round *)
Definition round (value : float64) : string := format_f1 value.
(* go: platform/autoscale/decide.go pressure.String *)
Definition pressure_String (p : pressure) : string :=
  "average " +:+ prs_name p +:+ " " +:+ round (prs_average p) +:+ "% against a target of "
  +:+ round (prs_target p) +:+ "%".

(* go: platform/autoscale/decide.go step *)
Definition step (from to : Z) : Z :=
  if wrap64 (from + MaxStep) <? to then wrap64 (from + MaxStep)
  else if to <? wrap64 (from - MaxStep) then wrap64 (from - MaxStep)
  else to.
(* go: platform/autoscale/decide.go clamp *)
Definition clamp (value low high : Z) : Z :=
  if value <? low then low else if high <? value then high else value.

(* go: platform/autoscale/decide.go hardestPressed *)
Definition hardestPressed (policy : Policy) (cpu memory : float64) : option pressure :=
  let candidates :=
    (if 0 <? pol_TargetCPU policy then [MkPressure "cpu" cpu (of_int (pol_TargetCPU policy))] else [])
    ++ (if 0 <? pol_TargetMemory policy then [MkPressure "memory" memory (of_int (pol_TargetMemory policy))] else []) in
  match candidates with
  | [] => None
  | first :: rest =>
      Some (fold_left (fun worst candidate =>
        if fltb (demand worst) (demand candidate) then candidate else worst) rest first)
  end.

Definition one : float64 := Eval vm_compute in of_int 1.
(* go: platform/autoscale/decide.go reasonFor *)
Definition reasonFor (worst : pressure) (replicas : Z) (policy : Policy) : string :=
  if fltb one (demand worst) && (pol_Max policy <=? replicas)
  then pressure_String worst +:+ ", but already at the maximum of " +:+ itoa (pol_Max policy)
  else if fltb (demand worst) one && (replicas <=? pol_Min policy)
  then pressure_String worst +:+ ", but already at the minimum of " +:+ itoa (pol_Min policy)
  else pressure_String worst +:+ ", which does not move the replica count".

(** What the loop of [decide] adds up: CPU, memory and the number of warm members. *)
Record totals := MkTotals { tot_cpu : float64; tot_memory : float64; tot_ready : Z }.
Definition zero_totals : totals := MkTotals (S754_zero false) (S754_zero false) 0.
(* go: platform/autoscale/decide.go:40-57 range *)
Fixpoint add_members (policy : Policy) (samples : gmap string Sample) (now : Z)
    (members : list Member) (t : totals) : Decision + totals :=
  match members with
  | [] => inr t
  | member :: rest =>
      if time_sub now (mem_CreatedAt member) <? Warmup then add_members policy samples now rest t
      else
        match samples !! mem_InstanceID member with
        | None => inl (stay ("the load of " +:+ mem_InstanceID member +:+ " is missing or stale, and scaling on a guess is worse than not scaling"))
        | Some sample =>
            if StaleLoad <? time_sub now (smp_ReportedAt sample)
            then inl (stay ("the load of " +:+ mem_InstanceID member +:+ " is missing or stale, and scaling on a guess is worse than not scaling"))
            else if (0 <? pol_TargetMemory policy) && negb (smp_MemoryKnown sample)
            then inl (stay ("how much memory " +:+ mem_InstanceID member +:+ " was given is not known, so a share of it cannot be worked out"))
            else add_members policy samples now rest
                   (MkTotals (fadd (tot_cpu t) (smp_CPUPercent sample))
                      (fadd (tot_memory t) (smp_MemoryPercent sample)) (tot_ready t + 1))
        end
  end.

(* go: platform/autoscale/decide.go decide *)
Definition decide (policy : Policy) (group : Group) (samples : gmap string Sample) (now : Z) : Decision :=
  if negb (grp_Settled group) then stay "the service has not reached its replica count yet"
  else if negb (time_is_zero (pol_LastAt policy)) && (time_sub now (pol_LastAt policy) <? Cooldown)
  then stay "waiting out the cooldown after the last change"
  else
    match add_members policy samples now (grp_Members group) zero_totals with
    | inl d => d
    | inr t =>
        if tot_ready t =? 0 then stay "every replica is still warming up"
        else
          match hardestPressed policy (fdiv (tot_cpu t) (of_int (tot_ready t)))
                  (fdiv (tot_memory t) (of_int (tot_ready t))) with
          | None => stay "this policy names no target to scale against"
          | Some worst =>
              if fleb (fabs (fsub (demand worst) one)) DeadbandRatio
              then stay (pressure_String worst +:+ ", which is close enough to leave alone")
              else
                let wanted := to_int (fceil (fmul (of_int (grp_Replicas group)) (demand worst))) in
                let wanted := step (grp_Replicas group) wanted in
                let wanted := clamp wanted (pol_Min policy) (pol_Max policy) in
                if wanted =? grp_Replicas group
                then stay (reasonFor worst (grp_Replicas group) policy)
                else MkDecision wanted (pressure_String worst) true
          end
    end.

(** * Interfaces (service.go) *)

Section interfaces.
Context (S : Type).
(* go: platform/autoscale/service.go Services *)
Record Services := {
  GroupOf : string -> string -> M S Group;
  Groups : M S (list Group);
  Scale : string -> string -> Z -> M S unit;
}.
(* go: platform/autoscale/service.go Load *)
Record LoadOf := { SamplesOf : M S (gmap string Sample) }.
End interfaces.
Arguments GroupOf {S}. Arguments Groups {S}. Arguments Scale {S}. Arguments SamplesOf {S}.

(** * Repository (repository.go) *)

Definition PolicyDB : Type := list Policy.
Definition errNotFound : error := ESentinel "autoscale policy not found".

Section repository.
Context {S : Type} `{!Has PolicyDB S}.

(** The columns an upsert takes from the row it would have inserted; a new row has never
    been scaled. *)
Definition updated_policy (p old : Policy) : Policy :=
  MkPolicy (pol_ID old) (pol_ProjectID old) (pol_ServiceID old) (pol_Min p) (pol_Max p)
    (pol_TargetCPU p) (pol_TargetMemory p) (pol_LastAt old) (pol_LastReason old)
    (pol_CreatedAt old) (pol_UpdatedAt p).
Definition fresh_policy (p : Policy) : Policy :=
  MkPolicy (pol_ID p) (pol_ProjectID p) (pol_ServiceID p) (pol_Min p) (pol_Max p)
    (pol_TargetCPU p) (pol_TargetMemory p) zero_time (pol_LastReason p)
    (pol_CreatedAt p) (pol_UpdatedAt p).
Definition of_service (serviceID : string) (p : Policy) : bool := String.eqb (pol_ServiceID p) serviceID.
(* go: platform/autoscale/repository.go repository.upsert *)
Definition upsert (p : Policy) : M S unit :=
  sql "save the policy" (fun db : PolicyDB =>
    (Ok tt, if existsb (of_service (pol_ServiceID p)) db
            then map (fun r => if of_service (pol_ServiceID p) r then updated_policy p r else r) db
            else db ++ [fresh_policy p])).
Definition with_id (id : string) (f : Policy -> Policy) (db : PolicyDB) : PolicyDB :=
  map (fun p => if String.eqb (pol_ID p) id then f p else p) db.
Definition set_last (reason : string) (at_ updated : Z) (p : Policy) : Policy :=
  MkPolicy (pol_ID p) (pol_ProjectID p) (pol_ServiceID p) (pol_Min p) (pol_Max p)
    (pol_TargetCPU p) (pol_TargetMemory p) at_ reason (pol_CreatedAt p) updated.
(* go: platform/autoscale/repository.go repository.setReason *)
Definition setReason (id reason : string) : M S unit :=
  sql "record a reason" (fun db : PolicyDB =>
    (Ok tt, with_id id (fun p => set_last reason (pol_LastAt p) (pol_UpdatedAt p) p) db)).
(* go: platform/autoscale/repository.go repository.setDecision *)
Definition setDecision (id reason : string) (at_ : Z) : M S unit :=
  sql "record a decision" (fun db : PolicyDB => (Ok tt, with_id id (set_last reason at_ at_) db)).
(* go: platform/autoscale/repository.go repository.delete *)
Definition delete (id : string) : M S unit :=
  sql "delete the policy" (fun db : PolicyDB =>
    (Ok tt, List.filter (fun p => negb (String.eqb (pol_ID p) id)) db)).
(* go: platform/autoscale/repository.go repository.byService *)
Definition byService (serviceID : string) : M S Policy :=
  query "list policies" (fun db : PolicyDB => select_one (of_service serviceID) errNotFound db).
(* go: platform/autoscale/repository.go repository.listIn *)
Definition list_in (projectID : string) : M S (list Policy) :=
  query "list policies" (fun db : PolicyDB =>
    Ok (sliceStable (by_key pol_ServiceID str_ltb (fun _ _ => false))
          (List.filter (fun p => String.eqb (pol_ProjectID p) projectID) db))).
(* go: platform/autoscale/repository.go repository.all *)
Definition all : M S (list Policy) :=
  query "list policies" (fun db : PolicyDB =>
    Ok (sliceStable (by_key pol_ID str_ltb (fun _ _ => false)) db)).
End repository.

(** * Service (service.go) *)

(** The checks of [set]. *)
(* go: platform/autoscale/service.go:54-80 Min *)
Definition check_policy (params : PolicyParams) : outcome unit :=
  try _ := guard ((pp_Min params <? MinReplicas) || (MaxReplicas <? pp_Min params))
    (Invalid "invalid_min" ("min must be between " +:+ itoa MinReplicas +:+ " and " +:+ itoa MaxReplicas)) in
  try _ := guard ((pp_Max params <? pp_Min params) || (MaxReplicas <? pp_Max params))
    (Invalid "invalid_max" ("max must be between min and " +:+ itoa MaxReplicas)) in
  try _ := guard ((pp_TargetCPU params =? 0) && (pp_TargetMemory params =? 0))
    (Invalid "invalid_target" "name a target cpu percent, a target memory percent, or both: a policy with neither has nothing to scale against") in
  let check name target :=
    if target =? 0 then Ok tt
    else guard ((target <? MinTarget) || (MaxTarget <? target))
           (Invalid "invalid_target" ("the target " +:+ name +:+ " percent must be between "
              +:+ itoa MinTarget +:+ " and " +:+ itoa MaxTarget)) in
  try _ := check "cpu" (pp_TargetCPU params) in
  check "memory" (pp_TargetMemory params).

Section service.
Context {S : Type} `{!Has PolicyDB S}.
Context (services : option (Services S)) (load : option (LoadOf S)) (has_events : bool).

Definition not_scaled : error := NotFound "autoscale_not_found" "this service does not scale itself".
(* go: platform/autoscale/service.go service.policyOf *)
Definition policyOf (projectID serviceID : string) : M S Policy :=
  let! serviceID :=
    match services with
    | Some s => let! group := GroupOf s projectID serviceID in ret (grp_ServiceID group)
    | None => ret serviceID
    end in
  let! policy := mapped (fun e => if errors_Is e "autoscale policy not found" then not_scaled else e)
                   (byService serviceID) in
  lift (guard (negb (String.eqb (pol_ProjectID policy) projectID)) not_scaled) ;;;
  ret policy.

(* go: platform/autoscale/service.go service.set *)
Definition set_policy (params : PolicyParams) : M S Policy :=
  match services with
  | None => fail (NotFound "service_not_found" "no service with that id exists")
  | Some s =>
      let! group := GroupOf s (pp_ProjectID params) (pp_ServiceID params) in
      lift (check_policy params) ;;;
      let! at_ := now in
      let! id := ids_New "as" in
      upsert (MkPolicy id (pp_ProjectID params) (grp_ServiceID group) (pp_Min params) (pp_Max params)
                (pp_TargetCPU params) (pp_TargetMemory params) zero_time "" at_ at_) ;;;
      policyOf (pp_ProjectID params) (grp_ServiceID group)
  end.

(* go: platform/autoscale/service.go service.clear *)
Definition clear_policy (projectID serviceID : string) : M S unit :=
  let! policy := policyOf projectID serviceID in
  delete (pol_ID policy).

(* go: platform/autoscale/service.go service.listIn *)
Definition listIn (projectID : string) : M S (list Policy) := list_in projectID.

(* go: platform/autoscale/service.go service.note *)
Definition note (policy : Policy) (kind subject message : string) (severity : Severity) : M S unit :=
  if has_events
  then record {| ev_ProjectID := pol_ProjectID policy; ev_Kind := kind; ev_Subject := subject;
                 ev_NodeID := ""; ev_Message := message; ev_Severity := severity |}
  else ret tt.

(** [s.services] is not nil here. *)
(* go: platform/autoscale/service.go service.apply *)
Definition apply (s : Services S) (policy : Policy) (group : Group) (samples : gmap string Sample) : M S bool :=
  let! at_ := now in
  let decision := decide policy group samples at_ in
  if negb (dec_Act decision) then
    (if negb (String.eqb (dec_Reason decision) (pol_LastReason policy))
     then let! _ := attempt (setReason (pol_ID policy) (dec_Reason decision)) in ret tt
     else ret tt) ;;;
    ret false
  else
    let! r := attempt (Scale s (pol_ProjectID policy) (pol_ServiceID policy) (dec_Replicas decision)) in
    match r with
    | Err _ => ret false
    | Ok _ =>
        let! decided := now in
        let! _ := attempt (setDecision (pol_ID policy) (dec_Reason decision) decided) in
        let direction := if dec_Replicas decision <? grp_Replicas group then "down" else "up" in
        note policy "service.scaled" (pol_ServiceID policy)
          (grp_Name group +:+ " scaled " +:+ direction +:+ " from " +:+ itoa (grp_Replicas group)
           +:+ " to " +:+ itoa (dec_Replicas decision) +:+ ": " +:+ dec_Reason decision) Info ;;;
        ret true
    end.

(* go: platform/autoscale/service.go service.sweep *)
Definition sweep : M S Z :=
  match services, load with
  | Some s, Some l =>
      let! policies := all in
      if (len policies =? 0) then ret 0
      else
        let! groups := Groups s in
        let byService := fold_left (fun m group => <[grp_ServiceID group := group]> m) groups
                           (∅ : gmap string Group) in
        let! samples := SamplesOf l in
        foldM (fun policy changed =>
          match byService !! pol_ServiceID policy with
          | None => let! _ := attempt (delete (pol_ID policy)) in ret changed
          | Some group =>
              let! scaled := apply s policy group samples in
              ret (if scaled : bool then changed + 1 else changed)
          end) policies 0
  | _, _ => ret 0
  end.
End service.

(** * What a policy promises *)

(** A policy [set_policy] accepts. *)
Definition target_ok (target : Z) : Prop := target = 0 \/ MinTarget <= target <= MaxTarget.
Definition policy_ok (p : Policy) : Prop :=
  MinReplicas <= pol_Min p /\ pol_Min p <= pol_Max p /\ pol_Max p <= MaxReplicas /\
  target_ok (pol_TargetCPU p) /\ target_ok (pol_TargetMemory p) /\
  (pol_TargetCPU p <> 0 \/ pol_TargetMemory p <> 0).
Definition policies_ok (db : PolicyDB) : Prop :=
  unique_by (fun p => Some (pol_ServiceID p)) db /\ forall p, p ∈ db -> policy_ok p.

(** The members that have had time to warm up. *)
Definition warm (now : Z) (m : Member) : Prop := Warmup <= time_sub now (mem_CreatedAt m).
(** A member whose load is known and recent. *)
Definition measured (policy : Policy) (samples : gmap string Sample) (now : Z) (m : Member) : Prop :=
  exists sample, samples !! mem_InstanceID m = Some sample /\
    time_sub now (smp_ReportedAt sample) <= StaleLoad /\
    (0 < pol_TargetMemory policy -> smp_MemoryKnown sample = true).

(** When [decide] decides to act, and how far it goes. *)
Definition acts_well (policy : Policy) (group : Group) (samples : gmap string Sample) (now : Z) (n : Z) : Prop :=
  grp_Settled group = true /\
  (pol_LastAt policy = zero_time \/ Cooldown <= time_sub now (pol_LastAt policy)) /\
  (exists m, m ∈ grp_Members group /\ warm now m) /\
  (forall m, m ∈ grp_Members group -> warm now m -> measured policy samples now m) /\
  n <> grp_Replicas group /\
  pol_Min policy <= n <= pol_Max policy /\
  (pol_Min policy <= grp_Replicas group <= pol_Max policy -> Z.abs (n - grp_Replicas group) <= MaxStep).

Lemma add_members_ok policy samples now members t t' :
  add_members policy samples now members t = inr t' ->
  (forall m, m ∈ members -> warm now m -> measured policy samples now m) /\
  tot_ready t <= tot_ready t' /\
  (tot_ready t' <> tot_ready t -> exists m, m ∈ members /\ warm now m).
Proof.
  revert t. induction members as [|m members IH]; simpl; intros t H.
  { injection H as <-. split_and!; [set_solver|lia|done]. }
  destruct (Z.ltb_spec (time_sub now (mem_CreatedAt m)) Warmup) as [Hcold|Hwarm].
  - destruct (IH t H) as (H1 & H2 & H3). split_and!; [|done|].
    + intros x [->|Hx]%elem_of_cons Hw; [unfold warm in Hw; lia|auto].
    + intros Hne. destruct (H3 Hne) as (x & ? & ?). exists x. set_solver.
  - destruct (samples !! mem_InstanceID m) as [sample|] eqn:Es; [|done].
    destruct (Z.ltb_spec StaleLoad (time_sub now (smp_ReportedAt sample))); [done|].
    destruct ((0 <? pol_TargetMemory policy) && negb (smp_MemoryKnown sample)) eqn:Em; [done|].
    destruct (IH _ H) as (H1 & H2 & H3). cbn [tot_ready] in *. split_and!; [|lia|].
    + intros x [->|Hx]%elem_of_cons Hw; [|auto]. exists sample. split_and!; [done|lia|].
      intros Hp. rewrite (proj2 (Z.ltb_lt _ _)) in Em by done. cbn in Em. by apply negb_false_iff.
    + intros _. exists m. split; [set_solver|exact Hwarm].
Qed.

Lemma step_bound from to : in_int64 (from - MaxStep) -> in_int64 (from + MaxStep) ->
  Z.abs (step from to - from) <= MaxStep.
Proof.
  intros H1 H2. unfold step. rewrite !wrap64_small by done. unfold MaxStep in *.
  destruct (Z.ltb_spec (from + 4) to); [lia|]. destruct (Z.ltb_spec to (from - 4)); lia.
Qed.

Lemma decide_ok policy group samples now : policy_ok policy ->
  dec_Act (decide policy group samples now) = true ->
  acts_well policy group samples now (dec_Replicas (decide policy group samples now)).
Proof.
  intros (Hmin & Hle & Hmax & _). unfold decide.
  destruct (grp_Settled group) eqn:Es; cbn [negb]; [|done].
  destruct (negb _ && _) eqn:Ec; [done|].
  destruct (add_members _ _ _ _ _) as [d|t] eqn:Ea.
  { intros Hact. exfalso. revert Ea Hact. generalize zero_totals. induction (grp_Members group) as [|m l IH]; [done|].
    cbn [add_members]. intros t0. repeat case_match; try done; [apply IH| |..]; try apply IH; by intros [= <-]. }
  apply add_members_ok in Ea as (Hm & Hr & Hsome). cbn [zero_totals tot_ready] in *.
  destruct (Z.eqb_spec (tot_ready t) 0); [done|]. destruct (hardestPressed _ _ _) as [worst|]; [|done].
  destruct (fleb _ _); [done|]. cbn zeta.
  set (w := to_int _). destruct (Z.eqb_spec (clamp (step (grp_Replicas group) w) (pol_Min policy) (pol_Max policy)) (grp_Replicas group)); [done|].
  intros _. cbn [dec_Replicas]. unfold acts_well. split_and!; auto.
  - apply andb_false_iff in Ec as [Ec|Ec]; [left|right; by apply Z.ltb_ge].
    apply negb_false_iff in Ec. by apply Z.eqb_eq.
  - unfold clamp. destruct (Z.ltb_spec (step (grp_Replicas group) w) (pol_Min policy)); [lia|]. case_match; breflect; lia.
  - unfold clamp. destruct (Z.ltb_spec (step (grp_Replicas group) w) (pol_Min policy)); [lia|]. case_match; breflect; lia.
  - intros Hin. unfold MinReplicas, MaxReplicas in *.
    pose proof (step_bound (grp_Replicas group) w) as Hst. unfold in_int64, min_int64, max_int64, two63, MaxStep in *.
    specialize (Hst ltac:(lia) ltac:(lia)). unfold clamp.
    destruct (Z.ltb_spec (step (grp_Replicas group) w) (pol_Min policy)); [lia|]. case_match; breflect; lia.
Qed.

(** ** The policies stay well formed *)

Lemma check_policy_ok params id project service at_ reason created updated :
  check_policy params = Ok tt ->
  policy_ok (MkPolicy id project service (pp_Min params) (pp_Max params) (pp_TargetCPU params)
    (pp_TargetMemory params) at_ reason created updated).
Proof.
  unfold check_policy, guard, obind. intros H. unfold policy_ok, target_ok; cbn.
  destruct (_ || _) eqn:E1 in H; [done|]. destruct (_ || _) eqn:E2 in H; [done|].
  destruct (_ && _) eqn:E3 in H; [done|]. breflect. apply andb_false_iff in E3.
  assert (Hc : forall t (b : bool), (if t =? 0 then Ok tt else if b then Err (EText "") else Ok tt) = Ok tt ->
    t = 0 \/ b = false). { intros t [] Ht; destruct (Z.eqb_spec t 0); auto; done. }
  destruct (Z.eqb_spec (pp_TargetCPU params) 0), (Z.eqb_spec (pp_TargetMemory params) 0);
    repeat (case_hyp H; [done|]); breflect; destruct E3 as [E3|E3]; try discriminate E3; lia.
Qed.

(** * The calls of a sweep *)

Inductive call :=
| CallGroups (r : outcome (list Group))
| CallSamples (r : outcome (gmap string Sample))
| CallScale (projectID serviceID : string) (replicas : Z) (r : outcome unit).

Definition keeps {S A} `{!Has PolicyDB S} (m : M S A) : Prop :=
  forall env w, wp env m (fun _ w' => part w' = part (T:=PolicyDB) w) w.

(** The services and the load readings, written down; they do not touch the policies. *)
Class Logged {S} `{!Has PolicyDB S, !Has (list call) S} (s : Services S) (l : LoadOf S) : Prop := {
  log_groups : logs (Groups s) CallGroups;
  log_samples : logs (SamplesOf l) CallSamples;
  log_scale p i n : logs (Scale s p i n) (CallScale p i n);
  keep_groups : keeps (Groups s);
  keep_samples : keeps (SamplesOf l);
  keep_scale p i n : keeps (Scale s p i n);
}.

(** A change of the replica count that the policy and the load called for. *)
Definition warranted (policies : PolicyDB) (t : list call) (c : call) : Prop :=
  match c with
  | CallScale projectID serviceID n _ =>
      exists policy groups group samples at_,
        policy ∈ policies /\ pol_ProjectID policy = projectID /\ pol_ServiceID policy = serviceID /\
        CallGroups (Ok groups) ∈ t /\ group ∈ groups /\ grp_ServiceID group = serviceID /\
        CallSamples (Ok samples) ∈ t /\ acts_well policy group samples at_ n
  | _ => True
  end.

Lemma with_id_ok id f db : (forall p, pol_ServiceID (f p) = pol_ServiceID p) ->
  (forall p, policy_ok p -> policy_ok (f p)) -> policies_ok db -> policies_ok (with_id id f db).
Proof.
  intros Hs Hok [Hu Hp]. split.
  - unfold unique_by in *. rewrite omap_total in *. unfold with_id. rewrite map_map.
    rewrite (map_ext _ pol_ServiceID); [done|]. intros p. by destruct (String.eqb _ _).
  - intros p (q & -> & Hq)%list_elem_of_fmap. destruct (String.eqb _ _); auto.
Qed.

Lemma upsert_rows_ok p db : policies_ok db -> policy_ok p ->
  policies_ok (if existsb (of_service (pol_ServiceID p)) db
    then map (fun r => if of_service (pol_ServiceID p) r then updated_policy p r else r) db
    else db ++ [fresh_policy p]).
Proof.
  intros [Hu Hp] Hok. destruct (existsb _ _) eqn:Ex.
  - split.
    + unfold unique_by in *. rewrite omap_total in *. rewrite map_map. rewrite (map_ext _ pol_ServiceID); [done|].
      intros r. unfold of_service. by destruct (String.eqb _ _).
    + intros r (q & -> & Hq)%list_elem_of_fmap. destruct (of_service _ q); [exact Hok|auto].
  - rewrite existsb_false, Forall_forall in Ex. split.
    + apply unique_by_app; [done|]. intros q k Hq [= <-] [= E]. specialize (Ex q Hq).
      unfold of_service in Ex. by rewrite E, String.eqb_refl in Ex.
    + intros q. rewrite elem_of_app, list_elem_of_singleton. intros [?| ->]; [auto|exact Hok].
Qed.

Section sweeping.
Context {S : Type} `{!Has PolicyDB S, !Has (list call) S, !Apart PolicyDB (list call) S}.
Context (s : Services S) (l : LoadOf S) (has_events : bool) `{HL : !Logged s l} (env : Env).
Context (policies : PolicyDB) (groups : list Group) (samples : gmap string Sample).
Hypothesis policies_are_ok : policies_ok policies.
Implicit Types w : World S.
Abbreviation trace w := (part (T:=list call) w).

Definition sweep_ok (w : World S) : Prop :=
  policies_ok (part w) /\ CallGroups (Ok groups) ∈ trace w /\ CallSamples (Ok samples) ∈ trace w /\
  forall c, c ∈ trace w -> warranted policies (trace w) c.

Lemma sweep_ok_write {A} what (q : PolicyDB -> outcome A * PolicyDB) (Q : outcome A -> World S -> Prop) w :
  sweep_ok w -> (forall db, policies_ok db -> policies_ok (snd (q db))) ->
  (forall r w', sweep_ok w' -> Q r w') -> wp env (sql what q) Q w.
Proof.
  intros (Hp & Ht) Hq HQ. apply (wp_write_apart env (U:=list call)); intros w' Hw' Hw''; apply HQ; split;
    rewrite ?Hw', ?Hw''; auto.
Qed.

Lemma warranted_mono t t' c : (forall x, x ∈ t -> x ∈ t') -> warranted policies t c -> warranted policies t' c.
Proof.
  intros Hsub. destruct c; simpl; auto. intros (p & gs & g & sm & a & ? & ? & ? & ? & ? & ? & ? & ?).
  exists p, gs, g, sm, a. split_and!; auto.
Qed.

Lemma apply_rule policy group w : sweep_ok w -> policy ∈ policies -> group ∈ groups ->
  grp_ServiceID group = pol_ServiceID policy ->
  wp env (apply has_events s policy group samples) (fun _ w' => sweep_ok w') w.
Proof.
  intros Hw Hp Hg Eg. unfold apply. apply wp_bind. rewrite wp_now. set (at_ := env_now _ _).
  destruct (dec_Act (decide policy group samples at_)) eqn:Ed; cbn [negb].
  - apply decide_ok in Ed; [|by apply policies_are_ok].
    assert (Hs : forall Q : outcome unit -> World S -> Prop, (forall r w', sweep_ok w' -> Q r w') ->
      wp env (Scale s (pol_ProjectID policy) (pol_ServiceID policy) (dec_Replicas (decide policy group samples at_))) Q (tick w)).
    { intros Q HQ. pose proof (keep_scale (pol_ProjectID policy) (pol_ServiceID policy)
        (dec_Replicas (decide policy group samples at_)) env (tick w)) as Hk.
      pose proof (log_scale (pol_ProjectID policy) (pol_ServiceID policy)
        (dec_Replicas (decide policy group samples at_)) env (tick w)) as Hl.
      unfold wp in *. destruct (Scale _ _ _ _ env (tick w)) as [r w']. apply HQ.
      destruct Hw as (Hpo & Hgr & Hsm & Hall). change (trace (tick w)) with (trace w) in Hl.
      split_and!; [by rewrite Hk|rewrite Hl; set_solver..|]. rewrite Hl.
      intros c [Hc| ->%list_elem_of_singleton]%elem_of_app.
      - eapply warranted_mono; [|by apply Hall]. set_solver.
      - exists policy, groups, group, samples, at_. split_and!; auto; set_solver. }
    apply wp_bind, wp_attempt, Hs. intros [[]|e] w1 H1; [|by rewrite wp_ret].
    apply wp_bind. rewrite wp_now. apply wp_bind, wp_attempt, sweep_ok_write; [done| |].
    + intros db Hdb. by apply with_id_ok.
    + intros r w2 H2. unfold note. destruct has_events; exact H2.
  - apply wp_bind. destruct (negb _); [|by rewrite !wp_ret]. apply wp_bind, wp_attempt, sweep_ok_write; [done| |].
    + intros db Hdb. by apply with_id_ok.
    + intros r w1 H1. by rewrite !wp_ret.
Qed.
End sweeping.

Lemma groups_by_service (groups : list Group) k g :
  fold_left (fun m group => <[grp_ServiceID group := group]> m) groups (∅ : gmap string Group) !! k = Some g ->
  g ∈ groups /\ grp_ServiceID g = k.
Proof.
  assert (H : forall m, fold_left (fun m group => <[grp_ServiceID group := group]> m) groups m !! k = Some g ->
    g ∈ groups /\ grp_ServiceID g = k \/ (m : gmap string Group) !! k = Some g).
  { induction groups as [|x l IH]; simpl; [auto|]. intros m Hm. destruct (IH _ Hm) as [[? ?]|Hx]; [set_solver|].
    destruct (decide_rel eq (grp_ServiceID x) k) as [E|E].
    - rewrite E, lookup_insert_eq in Hx. injection Hx as ->. set_solver.
    - rewrite lookup_insert_ne in Hx by done. auto. }
  intros Hm. by destruct (H _ Hm) as [?|?].
Qed.

Section sweep_rule.
Context {S : Type} `{!Has PolicyDB S, !Has (list call) S, !Apart PolicyDB (list call) S}.
Context (s : Services S) (l : LoadOf S) (has_events : bool) `{HL : !Logged s l} (env : Env).
Abbreviation trace w := (part (T:=list call) w).

Lemma sweep_rule (w : World S) : policies_ok (part w) -> trace w = [] ->
  wp env (sweep (Some s) (Some l) has_events) (fun _ w' =>
    policies_ok (part w') /\ forall c, c ∈ trace w' -> warranted (part w) (trace w') c) w.
Proof.
  intros Hp Ht. unfold sweep. apply wp_bind, wp_read. intros r [->| ->].
  { change (trace (tick w)) with (trace w). rewrite Ht. split; [done|set_solver]. }
  case_match; [rewrite wp_ret; change (trace (tick w)) with (trace w); rewrite Ht; split; [done|set_solver]|].
  assert (Hcalls : forall {A} (m : M S A) (c : outcome A -> call) w0 (Q : outcome A -> World S -> Prop),
    keeps m -> logs m c -> (forall r w', part w' = part (T:=PolicyDB) w0 -> trace w' = trace w0 ++ [c r] -> Q r w') ->
    wp env m Q w0).
  { intros A m c w0 Q Hk Hl HQ. specialize (Hk env w0). specialize (Hl env w0). unfold wp in *.
    destruct (m env w0). auto. }
  apply wp_bind. eapply Hcalls; [apply keep_groups|apply log_groups|]. intros r w1 Hd1 Hw1.
  change (trace (tick w)) with (trace w) in Hw1. rewrite Ht in Hw1. change (part (tick w)) with (part (T:=PolicyDB) w) in Hd1.
  destruct r as [groups|]; [|rewrite Hd1, Hw1; split; [done|]; intros c ->%list_elem_of_singleton; done].
  apply wp_bind. eapply Hcalls; [apply keep_samples|apply log_samples|]. intros r w2 Hd2 Hw2.
  rewrite Hw1 in Hw2. rewrite Hd1 in Hd2.
  assert (Hfirst : forall t c, c ∈ trace w2 -> warranted (part w) t c).
  { intros t c. rewrite Hw2. cbn. intros [->|[->|?]%elem_of_cons]%elem_of_cons; set_solver. }
  destruct r as [samples|]; [|rewrite Hd2; auto].
  eapply wp_mono; [|apply (wp_foldM env (fun _ w' => sweep_ok (part w) groups samples w')
    (fun _ w' => sweep_ok (part w) groups samples w'))].
  - intros [] w' (H1 & _ & _ & H2); auto.
  - intros policy changed w3 Hpol H3.
    assert (Hin : policy ∈ part (T:=PolicyDB) w) by (by rewrite sliceStable_perm in Hpol).
    destruct (_ !! pol_ServiceID policy) as [group|] eqn:Eg.
    + apply groups_by_service in Eg as [Hg Eg]. apply wp_bind. eapply wp_mono; [|by eapply (apply_rule s l)].
      intros [] w4 H4; [by rewrite wp_ret|done].
    + apply wp_bind, wp_attempt, (sweep_ok_write env (part w) groups samples); [done| |].
      * intros db [Hu Hq]. split; [by apply unique_by_filter|]. intros p [? _]%elem_of_filter_bool. auto.
      * intros r w4 H4. by rewrite wp_ret.
  - split_and!; [by rewrite Hd2|rewrite Hw2; set_solver..|auto].
Qed.
End sweep_rule.

(** * Properties *)


Definition busy_policy : Policy := MkPolicy "as-1" "prj-1" "svc-1" 1 8 50 0 zero_time "" 0 0.
Definition busy_group : Group := MkGroup "svc-1" "prj-1" "web" 2 true [MkMember "i-1" 0; MkMember "i-2" 0].
Definition reading (percent : float64) : Sample := MkSample percent (of_int 0) false (200 * second).
Definition busy_samples : gmap string Sample := {["i-1" := reading (of_int 90); "i-2" := reading (of_int 80)]}.
Lemma busy_policy_ok : policy_ok busy_policy.
Proof. unfold policy_ok, target_ok, busy_policy, MinReplicas, MaxReplicas, MinTarget, MaxTarget. cbn. lia. Qed.


(** [sweep_warranted]: whatever the other modules answer and however the database fails, a
    sweep asks for a replica count only for a service that exists and has a policy, and
    only one that policy and the readings of this sweep call for.  The policies stay well
    formed: one per service, 1 <= min <= max <= 32, and a target to scale against. *)
Theorem sweep_warranted {S} `{!Has PolicyDB S, !Has (list call) S, !Apart PolicyDB (list call) S}
  s l has_events (HL : Logged (S:=S) s l) env (w : World S)
  (Hp : policies_ok (part w)) (Hstart : part (T:=list call) w = []) :
  let w' := snd (sweep (Some s) (Some l) has_events env w) in
  policies_ok (part w') /\
  forall c, c ∈ part (T:=list call) w' -> warranted (part w) (part w') c.
Proof.
  pose proof (sweep_rule s l has_events env w Hp Hstart) as H. unfold wp in H.
  by destruct (sweep _ _ _ env w).
Qed.

Module Demo.
Definition state : Type := PolicyDB * list call.
#[local] Instance has_policies : Has PolicyDB state.
Proof. by refine {| hget := fst; hput p s := (p, snd s) |}; intros; destruct s. Defined.
#[local] Instance has_calls : Has (list call) state.
Proof. by refine {| hget := snd; hput t s := (fst s, t) |}; intros; destruct s. Defined.
#[local] Instance policies_apart : Apart PolicyDB (list call) state.
Proof. done. Defined.
Definition answer {A} (c : outcome A -> call) (r : outcome A) : M state A :=
  fun _ w => (r, with_st w (fst (w_st w), snd (w_st w) ++ [c r])).
Definition services : Services state := {|
  GroupOf _ _ := ret busy_group;
  Groups := answer CallGroups (Ok [busy_group]);
  Scale p i n := answer (CallScale p i n) (Ok tt) |}.
Definition load : LoadOf state := {| SamplesOf := answer CallSamples (Ok busy_samples) |}.
#[local] Instance logged : Logged services load.
Proof. split; done. Qed.
Definition env : Env := {| env_now _ := 210 * second; env_rand _ := []; env_io _ := false |}.
Definition world : World state := MkWorld ([busy_policy], []) O [].
End Demo.

Lemma sweep_warranted_witness :
  let w' := snd (sweep (Has0:=Demo.has_policies) (Some Demo.services) (Some Demo.load) true Demo.env Demo.world) in
  snd (w_st w') = [CallGroups (Ok [busy_group]); CallSamples (Ok busy_samples); CallScale "prj-1" "svc-1" 4 (Ok tt)] /\
  policies_ok (fst (w_st w')).
Proof.
  split; [vm_compute; reflexivity|].
  assert (Hp : policies_ok [busy_policy]).
  { split; [repeat constructor; set_solver|]. intros p ->%list_elem_of_singleton. apply busy_policy_ok. }
  exact (proj1 (sweep_warranted (Has0:=Demo.has_policies) (Has1:=Demo.has_calls) (Apart0:=Demo.policies_apart)
    Demo.services Demo.load true Demo.logged Demo.env Demo.world Hp eq_refl)).
Defined.

(** [set_policy_spec]: setting a policy keeps the policies well formed, and what it returns
    is within bounds and belongs to the caller's project; a policy that is set again keeps
    the time of its last change, so setting it is no way around the cooldown. *)
Theorem set_policy_spec {S} `{!Has PolicyDB S} (s : Services S) params env (w : World S)
  (Hkeep : forall p i, keeps (GroupOf s p i)) (Hp : policies_ok (part w)) :
  wp env (set_policy (Some s) params) (fun r w' => policies_ok (part w') /\
    (forall old new, old ∈ part (T:=PolicyDB) w -> new ∈ part (T:=PolicyDB) w' ->
       pol_ServiceID new = pol_ServiceID old -> pol_LastAt new = pol_LastAt old) /\
    match r with Ok p => policy_ok p /\ pol_ProjectID p = pp_ProjectID params | Err _ => True end) w.
Proof.
  assert (Hsame : forall db, policies_ok db -> forall old new : Policy, old ∈ db -> new ∈ db ->
    pol_ServiceID new = pol_ServiceID old -> pol_LastAt new = pol_LastAt old).
  { intros db [Hu _] old new Ho Hn E. f_equal.
    apply (unique_by_eq _ db new old (pol_ServiceID old) Hu); simpl; auto; congruence. }
  unfold set_policy. apply wp_bind. eapply wp_mono; [|apply Hkeep]. intros [group|e] w1 Hw1; [|rewrite Hw1; eauto].
  apply wp_bind. rewrite wp_lift. destruct (check_policy params) as [[]|e] eqn:Ec; [|rewrite Hw1; eauto].
  apply wp_bind. rewrite wp_now. apply wp_bind. unfold ids_New. apply wp_bind. rewrite wp_rand, wp_ret.
  set (p := MkPolicy _ _ _ _ _ _ _ _ _ _ _).
  assert (Hok : policy_ok p) by (by apply check_policy_ok).
  assert (Hlast : forall old new, old ∈ part (T:=PolicyDB) w ->
    new ∈ (if existsb (of_service (pol_ServiceID p)) (part w)
           then map (fun r => if of_service (pol_ServiceID p) r then updated_policy p r else r) (part w)
           else part (T:=PolicyDB) w ++ [fresh_policy p]) ->
    pol_ServiceID new = pol_ServiceID old -> pol_LastAt new = pol_LastAt old).
  { intros old new Ho Hn E. destruct (existsb _ _) eqn:Ex.
    - apply list_elem_of_fmap in Hn as (r & -> & Hr).
      assert (Hs : pol_ServiceID r = pol_ServiceID old) by (by destruct (of_service _ r)).
      rewrite (Hsame _ Hp r old Hr Ho) by done. by destruct (of_service _ r).
    - apply elem_of_app in Hn as [Hn| ->%list_elem_of_singleton]; [by eapply Hsame|].
      rewrite existsb_false, Forall_forall in Ex. specialize (Ex old Ho). unfold of_service in Ex.
      apply String.eqb_neq in Ex. by destruct Ex. }
  apply wp_bind, wp_write; change (part (tick (tick w1))) with (part (T:=PolicyDB) w1); rewrite Hw1.
  { intros w2 ->. eauto. }
  intros w2 Hw2. cbn [fst snd] in *. unfold policyOf.
  apply wp_bind, wp_bind. eapply wp_mono; [|apply Hkeep]. intros [g|e] w3 Hw3; rewrite Hw2 in Hw3.
  2:{ rewrite Hw3. split_and!; auto. by apply upsert_rows_ok. }
  rewrite wp_ret. apply wp_bind, wp_mapped, wp_read. intros r Hr.
  pose proof (upsert_rows_ok p _ Hp Hok) as Hdb. set (db := if existsb _ _ then _ else _) in *.
  change (part (tick w3)) with (part (T:=PolicyDB) w3) in Hr. rewrite Hw3 in Hr.
  destruct r as [q|e]; cbn [or_fault]; change (part (tick w3)) with (part (T:=PolicyDB) w3); rewrite ?Hw3; [|auto].
  destruct Hr as [Hr|Hr]; [done|]. apply wp_bind. rewrite wp_lift. unfold guard.
  destruct (String.eqb_spec (pol_ProjectID q) (pp_ProjectID params)); cbn [negb]; rewrite ?wp_ret;
    change (part (tick w3)) with (part (T:=PolicyDB) w3); rewrite Hw3; [|auto].
  split_and!; auto. symmetry in Hr. unfold select_one in Hr.
  destruct (List.find _ db) as [q'|] eqn:Ef; [|done]. injection Hr as ->. apply find_some_elem in Ef as [Hq _].
  by apply Hdb.
Qed.

Lemma set_policy_spec_witness :
  exists p, fst (set_policy (Has0:=Demo.has_policies) (Some Demo.services) (MkPolicyParams "prj-1" "svc-1" 2 6 70 0)
    Demo.env Demo.world) = Ok p /\ policy_ok p /\ pol_Max p = 6.
Proof.
  pose proof (set_policy_spec (Has0:=Demo.has_policies) Demo.services (MkPolicyParams "prj-1" "svc-1" 2 6 70 0)
    Demo.env Demo.world) as H.
  destruct H as (_ & _ & H); [done| |].
  { split; [repeat constructor; set_solver|]. intros p ->%list_elem_of_singleton. apply busy_policy_ok. }
  destruct (set_policy _ _ _ _) as [r w'] eqn:E. vm_compute in E. injection E as <- <-.
  eexists. split; [reflexivity|]. split; [exact (proj1 H)|reflexivity].
Defined.

(** A reading of 2^80 percent, which nothing refuses. *)
Definition absurd_samples : gmap string Sample :=
  {["i-1" := reading (of_int (2 ^ 80)); "i-2" := reading (of_int (2 ^ 80))]}.

(** [overload_scales_down]: the wanted count is a float converted to an [int] before it is
    bounded.  Beyond the range of [int] the conversion gives the smallest integer, so the
    highest load there is scales the service down. *)
Theorem overload_scales_down :
  let group := MkGroup "svc-1" "prj-1" "web" 6 true [MkMember "i-1" 0; MkMember "i-2" 0] in
  let d := decide busy_policy group absurd_samples (210 * second) in
  dec_Act d = true /\ dec_Replicas d = 2.
Proof. vm_compute. split; reflexivity. Qed.
