(* ===== verification/InstanceSpec.v ===== *)
(** What an instance may be (internal/platform/instance: types.go, env.go and [normalize] of
    service.go): the parameters of a create request, their validation and their defaults.

    A Go map is visited in no particular order; the model visits it in the order of its
    list of pairs, which only decides which of several errors is reported. *)
From stdpp Require Import base tactics numbers strings list gmap.
From Stdlib Require Import ZArith Lia.
From Stdlib Require Ascii.
From S2P Require Import Prelude GoLang Effects Regex Kernel Encoding.

(** * Constants (types.go) *)

Definition IsolationContainer : string := "container".
Definition IsolationVM : string := "vm".
Definition IsolationMicroVM : string := "microvm".
Definition IsolationSandbox : string := "sandbox".
(* go: platform/instance/types.go AllIsolations *)
Definition AllIsolations : list string :=
  [IsolationContainer; IsolationVM; IsolationMicroVM; IsolationSandbox].
Definition DesiredRunning : string := "running".
Definition DesiredStopped : string := "stopped".
Definition ObservedPending : string := "pending".
Definition ObservedRunning : string := "running".
Definition ObservedStopped : string := "stopped".
Definition ObservedFailed : string := "failed".
(* go: platform/instance/types.go AllObservedStates *)
Definition AllObservedStates : list string :=
  [ObservedPending; ObservedRunning; ObservedStopped; ObservedFailed].
Definition RestartNever : string := "never".
Definition RestartOnFailure : string := "on-failure".
Definition RestartAlways : string := "always".
Definition DefaultRestartPolicy : string := RestartAlways.
(* go: platform/instance/types.go AllRestartPolicies *)
Definition AllRestartPolicies : list string := [RestartNever; RestartOnFailure; RestartAlways].

Definition MaxObservedMessage : Z := 512.
Definition MinVCPU : Z := 1.
Definition MaxVCPU : Z := 256.
Definition MinMemoryMiB : Z := 128.
Definition MaxMemoryMiB : Z := 1024 * 1024.
Definition DefaultVCPU : Z := 1.
Definition DefaultMemoryMiB : Z := 512.
Definition MaxCommandArgs : Z := 64.
Definition MaxNodeSelector : Z := 8.
Definition MaxExtraNetworks : Z := 3.
Definition MaxFiles : Z := 16.
Definition MaxFileBytes : Z := 128 * 1024.
Definition MaxFilePathLen : Z := 4096.
Definition MaxEnv : Z := 64.
Definition MaxEnvNameLen : Z := 128.
Definition MaxEnvValueLen : Z := 4096.
Definition DefaultDiskGiB : Z := 10.
Definition MaxDiskGiB : Z := 2048.

(* go: platform/instance/types.go File *)
Record File := MkFile { f_Path : string; f_Content : string; f_Mode : string }.
(* go: platform/instance/types.go CreateParams *)
Record CreateParams := MkCreateParams {
  cp_Device : string; cp_ProjectID : string; cp_Name : string; cp_Group : string; cp_Strict : bool;
  cp_NodeSelector : gmap string string; cp_Env : gmap string string; cp_Files : list File;
  cp_ExtraNetworks : list string; cp_Keys : list string; cp_Isolation : string;
  cp_Image : string; cp_ISO : string; cp_Kernel : string; cp_DiskGiB : Z;
  cp_FirewallID : string; cp_Command : list string; cp_NetworkID : string;
  cp_RestartPolicy : string; cp_VCPU : Z; cp_MemoryMiB : Z;
}.

(** * Environment and files (env.go) *)

Definition letter (c : Ascii.ascii) : bool :=
  ((65 <=? code c) && (code c <=? 90)) || ((97 <=? code c) && (code c <=? 122)).
Definition name_start (c : Ascii.ascii) : bool := letter c || (code c =? 95).
Definition name_char (c : Ascii.ascii) : bool := name_start c || ((48 <=? code c) && (code c <=? 57)).
(* go: platform/instance/env.go envNamePattern *)
Definition envNamePattern : regex := RSeq (RCls name_start) (RStar (RCls name_char)).

(** The first error of a list of checks. *)
Fixpoint each {A} (check : A -> outcome unit) (l : list A) : outcome unit :=
  match l with
  | [] => Ok tt
  | a :: l' => try _ := check a in each check l'
  end.

(* go: platform/instance/env.go validateEnv *)
Definition validateEnv (env : gmap string string) : outcome unit :=
  try _ := guard (MaxEnv <? Z.of_nat (size env))
    (Invalid "invalid_env" ("an instance carries at most " +:+ itoa MaxEnv +:+ " environment variables, and "
       +:+ itoa (Z.of_nat (size env)) +:+ " were given")) in
  each (fun nv =>
    let '(name, value) := nv in
    try _ := guard (negb (re_match envNamePattern name) || (MaxEnvNameLen <? slen name))
      (Invalid "invalid_env" (quoted name +:+ " is not an environment variable name: use letters, digits and underscores, not starting with a digit, at most "
         +:+ itoa MaxEnvNameLen +:+ " characters")) in
    guard (MaxEnvValueLen <? slen value)
      (Invalid "invalid_env" ("the value of " +:+ name +:+ " is " +:+ itoa (slen value) +:+ " bytes, and the limit is "
         +:+ itoa MaxEnvValueLen)))
    (map_to_list env).

(* go: platform/instance/env.go namesOf *)
Definition namesOf (env : gmap string string) : list string :=
  sliceStable str_ltb (map fst (map_to_list env)).

(** [path.IsAbs] and [path.Clean] *)
Definition path_sep : Ascii.ascii := Ascii.ascii_of_N 47.
Definition IsAbs (p : string) : bool := has_prefix p "/".
Fixpoint split_path (s : list Ascii.ascii) (cur : list Ascii.ascii) : list (list Ascii.ascii) :=
  match s with
  | [] => [rev cur]
  | c :: s' => if code c =? code path_sep then rev cur :: split_path s' [] else split_path s' (c :: cur)
  end.
(** The elements of a cleaned path, the last one first. *)
Definition clean_step (rooted : bool) (out : list string) (element : string) : list string :=
  if is_empty element || String.eqb element "." then out
  else if String.eqb element ".." then
    match out with
    | last :: out' => if String.eqb last ".." then ".." :: out else out'
    | [] => if rooted then [] else [".."]
    end
  else element :: out.
Definition path_Clean (p : string) : string :=
  let rooted := IsAbs p in
  let out := rev (fold_left (clean_step rooted) (map of_bytes (split_path (bytes_of p) [])) []) in
  let body := join out "/" in
  if rooted then "/" +:+ body else if is_empty body then "." else body.

(** [strconv.ParseUint(mode, 8, 32)] *)
Fixpoint parse_octal (acc : Z) (l : list Ascii.ascii) : option Z :=
  match l with
  | [] => Some acc
  | c :: l' => if (48 <=? code c) && (code c <=? 55) then parse_octal (acc * 8 + (code c - 48)) l' else None
  end.
Definition ParseUint8 (s : string) : option Z :=
  match bytes_of s with
  | [] => None
  | l => match parse_octal 0 l with Some n => if n <? 2 ^ 32 then Some n else None | None => None end
  end.
(* go: platform/instance/env.go parseMode *)
Definition parseMode (mode : string) : outcome Z :=
  if is_empty mode then Ok 384
  else
    let bad := Err (Invalid "invalid_files" ("a file mode is three or four octal digits, like 0644, and " +:+ mode +:+ " is not")) in
    match ParseUint8 mode with
    | Some parsed => if 511 <? parsed then bad else Ok parsed
    | None => bad
    end.

(** The loop of [validateFiles]; [seen] are the paths of the files before. *)
(* go: platform/instance/env.go:93-119 range *)
Fixpoint check_files (seen : list string) (files : list File) : outcome unit :=
  match files with
  | [] => Ok tt
  | f :: rest =>
      try _ := guard (negb (IsAbs (f_Path f)) || negb (String.eqb (path_Clean (f_Path f)) (f_Path f)))
        (Invalid "invalid_files" (quoted (f_Path f) +:+ " is not an absolute cleaned path, and a relative one has no meaning before the workload has a working directory")) in
      try _ := guard (MaxFilePathLen <? slen (f_Path f))
        (Invalid "invalid_files" "a file path is longer than the limit") in
      try _ := guard (bool_decide (f_Path f ∈ seen))
        (Invalid "invalid_files" ("two files both write " +:+ f_Path f +:+ ", and which one wins would be undefined")) in
      match std64_decode (f_Content f) with
      | None => Err (Invalid "invalid_files" ("the content of " +:+ f_Path f +:+ " is not base64"))
      | Some raw =>
          try _ := guard (MaxFileBytes <? len raw)
            (Invalid "invalid_files" (f_Path f +:+ " is " +:+ itoa (len raw) +:+ " bytes, and the limit is "
               +:+ itoa MaxFileBytes +:+ ": a config file is not a disk image")) in
          try _ := parseMode (f_Mode f) in
          check_files (f_Path f :: seen) rest
      end
  end.
(* go: platform/instance/env.go validateFiles *)
Definition validateFiles (files : list File) : outcome unit :=
  try _ := guard (MaxFiles <? len files)
    (Invalid "invalid_files" ("an instance carries at most " +:+ itoa MaxFiles +:+ " files, and "
       +:+ itoa (len files) +:+ " were given")) in
  check_files [] files.

(* go: platform/instance/env.go pathsOf *)
Definition pathsOf (files : list File) : list string := sliceStable str_ltb (map f_Path files).

(** * Defaults and checks (service.go) *)

(* go: platform/instance/service.go checkDevice *)
Definition checkDevice (kind isolation : string) : outcome string :=
  let kind := to_lower (trim_space kind) in
  if is_empty kind then Ok ""
  else if negb (String.eqb kind "gpu") && negb (String.eqb kind "accelerator")
  then Err (Invalid "invalid_device" ("a workload may ask for a gpu or an accelerator, not " +:+ kind))
  else if negb (String.eqb isolation "vm")
  then Err (Invalid "device_needs_a_vm" "a device is handed to a guest through vfio, which needs its own kernel: only isolation vm can be given one")
  else Ok kind.

(** The loop over the networks beyond the first. *)
(* go: platform/instance/service.go:524-531 range *)
Fixpoint check_twice (seen : list string) (networks : list string) : outcome unit :=
  match networks with
  | [] => Ok tt
  | id :: rest =>
      try _ := guard (bool_decide (id ∈ seen))
        (Invalid "invalid_networks" "a network is named twice, and a second interface onto the same network would carry two addresses out of one slice") in
      check_twice (id :: seen) rest
  end.

Definition with_device (d : string) (p : CreateParams) : CreateParams :=
  MkCreateParams d (cp_ProjectID p) (cp_Name p) (cp_Group p) (cp_Strict p) (cp_NodeSelector p) (cp_Env p)
    (cp_Files p) (cp_ExtraNetworks p) (cp_Keys p) (cp_Isolation p) (cp_Image p) (cp_ISO p) (cp_Kernel p)
    (cp_DiskGiB p) (cp_FirewallID p) (cp_Command p) (cp_NetworkID p) (cp_RestartPolicy p) (cp_VCPU p) (cp_MemoryMiB p).
(** The last assignments of [normalize]: the disk, the restart policy and the size. *)
Definition with_defaults (disk : Z) (policy : string) (vcpu memory : Z) (p : CreateParams) : CreateParams :=
  MkCreateParams (cp_Device p) (cp_ProjectID p) (cp_Name p) (cp_Group p) (cp_Strict p) (cp_NodeSelector p) (cp_Env p)
    (cp_Files p) (cp_ExtraNetworks p) (cp_Keys p) (cp_Isolation p) (cp_Image p) (cp_ISO p) (cp_Kernel p)
    disk (cp_FirewallID p) (cp_Command p) (cp_NetworkID p) policy vcpu memory.

(** The checks of [normalize] that come before the first assignment. *)
(* go: platform/instance/service.go:509-572 normalize *)
Definition check_params (params : CreateParams) : outcome unit :=
  try _ := validate_Name "name" (cp_Name params) in
  try _ := validateEnv (cp_Env params) in
  try _ := validateFiles (cp_Files params) in
  try _ := guard (MaxExtraNetworks <? len (cp_ExtraNetworks params))
    (Invalid "invalid_networks" ("an instance takes at most " +:+ itoa MaxExtraNetworks +:+ " networks beyond its first")) in
  try _ := check_twice (if is_empty (cp_NetworkID params) then [] else [cp_NetworkID params]) (cp_ExtraNetworks params) in
  try _ := (if is_empty (cp_Group params) then Ok tt else validate_Name "placement_group" (cp_Group params)) in
  try _ := guard (cp_Strict params && is_empty (cp_Group params))
    (Invalid "invalid_placement" "strict placement without a group has nothing to spread away from") in
  try _ := guard (MaxNodeSelector <? Z.of_nat (size (cp_NodeSelector params)))
    (Invalid "invalid_node_selector" ("a node selector names at most " +:+ itoa MaxNodeSelector +:+ " labels, and "
       +:+ itoa (Z.of_nat (size (cp_NodeSelector params))) +:+ " were given")) in
  try _ := each (fun kv =>
      try _ := validate_Name "node_selector_key" (fst kv) in
      validate_Name "node_selector_value" (snd kv)) (map_to_list (cp_NodeSelector params)) in
  try _ := validate_OneOf "isolation" (cp_Isolation params) AllIsolations in
  try _ := guard (is_empty (cp_Image params) && is_empty (cp_ISO params))
    (Invalid "invalid_image" "image must not be empty, unless an iso is given to boot from instead") in
  try _ := guard (negb (is_empty (cp_ISO params)) && negb (String.eqb (cp_Isolation params) IsolationVM))
    (Invalid "invalid_iso" "only isolation vm can attach an iso, because nothing else emulates optical media") in
  try _ := guard (negb (is_empty (cp_Kernel params)) && negb (String.eqb (cp_Isolation params) IsolationMicroVM)
                  && negb (String.eqb (cp_Isolation params) IsolationSandbox))
    (Invalid "invalid_kernel" "only microvm and sandbox boot a kernel directly") in
  guard (negb (cp_DiskGiB params =? 0) && negb (String.eqb (cp_Isolation params) IsolationVM))
    (Invalid "invalid_disk" "only isolation vm has a disk of its own to size").

Definition or_default (value fallback : Z) : Z := if value =? 0 then fallback else value.
(* go: platform/instance/service.go normalize *)
Definition normalize (params : CreateParams) : outcome CreateParams :=
  try _ := check_params params in
  try device := checkDevice (cp_Device params) (cp_Isolation params) in
  let params := with_device device params in
  let disk := if is_empty (cp_Image params) && (cp_DiskGiB params =? 0) then DefaultDiskGiB
              else cp_DiskGiB params in
  try _ := guard ((disk <? 0) || (MaxDiskGiB <? disk))
    (Invalid "invalid_disk" ("disk_gib must be between 1 and " +:+ itoa MaxDiskGiB)) in
  let policy := if is_empty (cp_RestartPolicy params) then DefaultRestartPolicy else cp_RestartPolicy params in
  try _ := validate_OneOf "restart_policy" policy AllRestartPolicies in
  try _ := guard (MaxCommandArgs <? len (cp_Command params))
    (Invalid "invalid_command" ("command must have at most " +:+ itoa MaxCommandArgs +:+ " arguments")) in
  let vcpu := or_default (cp_VCPU params) DefaultVCPU in
  let memory := or_default (cp_MemoryMiB params) DefaultMemoryMiB in
  try _ := guard ((vcpu <? MinVCPU) || (MaxVCPU <? vcpu))
    (Invalid "invalid_vcpu" ("vcpu must be between " +:+ itoa MinVCPU +:+ " and " +:+ itoa MaxVCPU)) in
  try _ := guard ((memory <? MinMemoryMiB) || (MaxMemoryMiB <? memory))
    (Invalid "invalid_memory" ("memory_mib must be between " +:+ itoa MinMemoryMiB +:+ " and " +:+ itoa MaxMemoryMiB)) in
  Ok (with_defaults disk policy vcpu memory params).

Example clean_example :
  path_Clean "/etc//app/../x/./y/" = "/etc/x/y" /\ path_Clean "/.." = "/" /\ path_Clean "a/../../b" = "../b".
Proof. vm_compute. split_and!; reflexivity. Qed.
Example std64_example : std64_decode "aGVsbG8=" = Some (string_bytes "hello") /\ std64_decode "aGVsbG8" = None.
Proof. vm_compute. split; reflexivity. Qed.
Example mode_example : parseMode "0644" = Ok 420 /\ parseMode "" = Ok 384.
Proof. vm_compute. split; reflexivity. Qed.

(** * What [normalize] accepts *)

(** A file an agent can write: an absolute cleaned path, contents that decode to at most the
    limit, and permission bits. *)
Definition file_ok (f : File) : Prop :=
  IsAbs (f_Path f) = true /\ path_Clean (f_Path f) = f_Path f /\ slen (f_Path f) <= MaxFilePathLen /\
  (exists raw, std64_decode (f_Content f) = Some raw /\ len raw <= MaxFileBytes) /\
  (exists mode, parseMode (f_Mode f) = Ok mode /\ mode <= 511).

(** A request with every default filled in. *)
Record well_formed (p : CreateParams) : Prop := {
  wf_env : Z.of_nat (size (cp_Env p)) <= MaxEnv /\ forall name value, cp_Env p !! name = Some value ->
    re_match envNamePattern name = true /\ slen name <= MaxEnvNameLen /\ slen value <= MaxEnvValueLen;
  wf_files : len (cp_Files p) <= MaxFiles /\ NoDup (map f_Path (cp_Files p)) /\ Forall file_ok (cp_Files p);
  wf_isolation : cp_Isolation p ∈ AllIsolations;
  wf_image : cp_Image p <> "" \/ cp_ISO p <> "";
  wf_iso : cp_ISO p <> "" -> cp_Isolation p = IsolationVM;
  wf_kernel : cp_Kernel p <> "" -> cp_Isolation p = IsolationMicroVM \/ cp_Isolation p = IsolationSandbox;
  wf_disk : 0 <= cp_DiskGiB p <= MaxDiskGiB /\ (cp_DiskGiB p <> 0 -> cp_Isolation p = IsolationVM) /\
    (cp_Image p = "" -> 0 < cp_DiskGiB p);
  wf_device : cp_Device p = "" \/ (cp_Device p = "gpu" \/ cp_Device p = "accelerator") /\ cp_Isolation p = IsolationVM;
  wf_policy : cp_RestartPolicy p ∈ AllRestartPolicies;
  wf_command : len (cp_Command p) <= MaxCommandArgs;
  wf_vcpu : MinVCPU <= cp_VCPU p <= MaxVCPU;
  wf_memory : MinMemoryMiB <= cp_MemoryMiB p <= MaxMemoryMiB;
  wf_strict : cp_Strict p = true -> cp_Group p <> "";
  wf_networks : NoDup (cp_ExtraNetworks p) /\ (cp_NetworkID p <> "" -> cp_NetworkID p ∉ cp_ExtraNetworks p) /\
    len (cp_ExtraNetworks p) <= MaxExtraNetworks;
}.

(** Everything else is as it was asked for. *)
Definition same_request (p q : CreateParams) : Prop :=
  q = with_defaults (cp_DiskGiB q) (cp_RestartPolicy q) (cp_VCPU q) (cp_MemoryMiB q) (with_device (cp_Device q) p).

Lemma check_twice_ok seen networks : check_twice seen networks = Ok tt <->
  NoDup networks /\ forall x, x ∈ networks -> x ∉ seen.
Proof.
  revert seen. induction networks as [|x l IH]; simpl; intros seen.
  - split; [|done]. split; [constructor|set_solver].
  - rewrite obind_ok. setoid_rewrite IH. rewrite NoDup_cons. split.
    + intros ([] & Hg & Hnd & Hs). apply guard_ok, bool_decide_eq_false in Hg. set_solver.
    + intros [[Hx Hnd] Hs]. exists tt. split; [apply guard_ok, bool_decide_eq_false; set_solver|].
      split; [done|]. set_solver.
Qed.

Lemma each_ok {A} (check : A -> outcome unit) l : each check l = Ok tt <-> Forall (fun a => check a = Ok tt) l.
Proof.
  induction l as [|a l IH]; simpl; [split; [constructor|done]|]. rewrite obind_ok, Forall_cons, <- IH.
  split; [intros ([] & ? & ?); auto|intros [? ?]; by exists tt].
Qed.

Lemma validateEnv_ok env : validateEnv env = Ok tt -> Z.of_nat (size env) <= MaxEnv /\
  forall name value, env !! name = Some value ->
    re_match envNamePattern name = true /\ slen name <= MaxEnvNameLen /\ slen value <= MaxEnvValueLen.
Proof.
  unfold validateEnv. rewrite obind_ok. intros ([] & Hs%guard_ok & He). breflect. split; [done|].
  intros name value Hl. rewrite each_ok, Forall_forall in He. rewrite <- elem_of_map_to_list in Hl.
  specialize (He _ Hl). simpl in He. rewrite obind_ok in He. destruct He as ([] & H1%guard_ok & H2%guard_ok).
  breflect. split_and!; done || lia.
Qed.

Lemma parseMode_ok mode n : parseMode mode = Ok n -> n <= 511.
Proof.
  unfold parseMode. destruct (is_empty mode); [intros [= <-]; lia|]. cbv zeta. case_match; [|done].
  case_match; [done|]. intros [= <-]. breflect. lia.
Qed.

Lemma check_files_ok seen files : check_files seen files = Ok tt ->
  NoDup (map f_Path files) /\ Forall file_ok files /\ forall f, f ∈ files -> f_Path f ∉ seen.
Proof.
  revert seen. induction files as [|f files IH]; intros seen; simpl.
  - intros _. split_and!; [constructor|constructor|set_solver].
  - rewrite !obind_ok. intros ([] & Ha%guard_ok & H). rewrite !obind_ok in H.
    destruct H as ([] & Hl%guard_ok & H). rewrite !obind_ok in H. destruct H as ([] & Hs%guard_ok & H).
    destruct (std64_decode (f_Content f)) as [raw|] eqn:Eraw; [|done].
    rewrite !obind_ok in H. destruct H as ([] & Hb%guard_ok & H). rewrite !obind_ok in H.
    destruct H as (mode & Hm & H). destruct (IH _ H) as (Hnd & Hf & Hseen). breflect. split_and!.
    + apply NoDup_cons. split; [|done]. intros (g & Eg & Hg)%list_elem_of_fmap. apply (Hseen g Hg). set_solver.
    + constructor; [|done]. unfold file_ok. rewrite Eraw. pose proof (parseMode_ok _ _ Hm). naive_solver.
    + intros g [->|Hg]%elem_of_cons; [done|]. specialize (Hseen g Hg). set_solver.
Qed.

Lemma validateFiles_ok files : validateFiles files = Ok tt ->
  len files <= MaxFiles /\ NoDup (map f_Path files) /\ Forall file_ok files.
Proof.
  unfold validateFiles. rewrite obind_ok. intros ([] & Hs%guard_ok & H%check_files_ok). breflect. naive_solver.
Qed.

#[local] Opaque validateEnv validateFiles.

(** The checks, one by one. *)
Lemma check_params_ok p : check_params p = Ok tt ->
  validateEnv (cp_Env p) = Ok tt /\ validateFiles (cp_Files p) = Ok tt /\
  cp_Isolation p ∈ AllIsolations /\ (cp_Image p <> "" \/ cp_ISO p <> "") /\
  (cp_ISO p <> "" -> cp_Isolation p = IsolationVM) /\
  (cp_Kernel p <> "" -> cp_Isolation p = IsolationMicroVM \/ cp_Isolation p = IsolationSandbox) /\
  (cp_DiskGiB p <> 0 -> cp_Isolation p = IsolationVM) /\
  (cp_Strict p = true -> cp_Group p <> "") /\
  NoDup (cp_ExtraNetworks p) /\ (cp_NetworkID p <> "" -> cp_NetworkID p ∉ cp_ExtraNetworks p) /\
  len (cp_ExtraNetworks p) <= MaxExtraNetworks.
Proof.
  unfold check_params. rewrite !obind_ok. intros (_ & _ & H).
  repeat setoid_rewrite obind_ok in H.
  destruct H as ([] & Henv & [] & Hfiles & [] & Hlen & [] & Htw & _ & _ & [] & Hst & [] & _ & _ & _ & [] & Hiso & [] & Him & [] & Hi & [] & Hk & Hd).
  rewrite guard_ok in *. rewrite validate_OneOf_ok in Hiso. rewrite check_twice_ok in Htw. destruct Htw as [Hnd Hs].
  repeat match goal with H : _ && _ = false |- _ => apply andb_false_iff in H end.
  rewrite !negb_false_iff, ?is_empty_spec, ?is_empty_false in *.
  split_and!; auto.
  - intros Hne. destruct Hi as [H|H]; [done|by apply String.eqb_eq].
  - intros Hne. destruct Hk as [[H|H]%andb_false_iff|H]; rewrite ?negb_false_iff, ?is_empty_spec in *; [done|left|right]; by apply String.eqb_eq.
  - intros Hne. destruct Hd as [H|H]; breflect; done.
  - intros Ht. destruct Hst as [H|H]; [congruence|done].
  - intros Hne Hin. apply (Hs _ Hin). rewrite (proj2 (is_empty_false _)) by done. set_solver.
  - by apply Z.ltb_ge.
Qed.

Lemma checkDevice_ok kind isolation d : checkDevice kind isolation = Ok d ->
  (d = "" \/ (d = "gpu" \/ d = "accelerator") /\ isolation = IsolationVM) /\ checkDevice d isolation = Ok d.
Proof.
  unfold checkDevice at 1. cbv zeta. set (k := to_lower (trim_space kind)). clearbody k.
  destruct (is_empty k) eqn:Ek; [intros [= <-]; auto|].
  destruct (String.eqb_spec k "gpu") as [->|]; [|destruct (String.eqb_spec k "accelerator") as [->|]]; simpl; try done.
  all: destruct (String.eqb_spec isolation "vm") as [->|]; simpl; [|done].
  all: intros [= <-]; split; [auto|reflexivity].
Qed.

(** The checks look at neither the device, the restart policy nor the size, and the disk only
    matters when it is asked for. *)
Lemma check_params_defaults p device disk policy vcpu memory :
  check_params p = Ok tt -> (disk <> 0 -> cp_Isolation p = IsolationVM) ->
  check_params (with_defaults disk policy vcpu memory (with_device device p)) = Ok tt.
Proof.
  unfold check_params. simpl. intros H Hdisk.
  repeat (rewrite obind_ok in H; destruct H as ([] & Hg & H); rewrite Hg; clear Hg; simpl).
  rewrite guard_ok. apply andb_false_iff. destruct (Z.eqb_spec disk 0) as [|Hne]; [by left|right].
  by rewrite (Hdisk Hne).
Qed.

Lemma normalize_ok p q : normalize p = Ok q ->
  check_params p = Ok tt /\ exists device disk policy vcpu memory,
    q = with_defaults disk policy vcpu memory (with_device device p) /\
    checkDevice (cp_Device p) (cp_Isolation p) = Ok device /\
    disk = (if is_empty (cp_Image p) && (cp_DiskGiB p =? 0) then DefaultDiskGiB else cp_DiskGiB p) /\
    0 <= disk <= MaxDiskGiB /\ policy ∈ AllRestartPolicies /\ len (cp_Command p) <= MaxCommandArgs /\
    MinVCPU <= vcpu <= MaxVCPU /\ MinMemoryMiB <= memory <= MaxMemoryMiB.
Proof.
  unfold normalize. intros H. rewrite obind_ok in H. destruct H as ([] & Hc & H).
  rewrite obind_ok in H. destruct H as (device & Hdev & H). cbv zeta in H. cbn [cp_Image cp_DiskGiB cp_RestartPolicy cp_Command cp_VCPU cp_MemoryMiB with_device] in H.
  rewrite obind_ok in H. destruct H as ([] & Hdisk%guard_ok & H).
  rewrite obind_ok in H. destruct H as ([] & Hpol%validate_OneOf_ok & H).
  rewrite obind_ok in H. destruct H as ([] & Hcmd%guard_ok & H).
  rewrite obind_ok in H. destruct H as ([] & Hv%guard_ok & H).
  rewrite obind_ok in H. destruct H as ([] & Hm%guard_ok & H). injection H as <-.
  split; [done|]. do 5 eexists. split; [reflexivity|]. breflect. split_and!; done || lia.
Qed.

(** A disk is only there for a virtual machine, and always there for one without an image. *)
Lemma disk_vm p disk : check_params p = Ok tt ->
  disk = (if is_empty (cp_Image p) && (cp_DiskGiB p =? 0) then DefaultDiskGiB else cp_DiskGiB p) ->
  (disk <> 0 -> cp_Isolation p = IsolationVM) /\ (cp_Image p = "" -> disk <> 0).
Proof.
  intros Hc Edisk. pose proof (check_params_ok _ Hc) as (_ & _ & _ & Him & Hi & _ & Hd & _).
  destruct (is_empty (cp_Image p)) eqn:E; simpl in Edisk.
  - apply String.eqb_eq in E. destruct (Z.eqb_spec (cp_DiskGiB p) 0) as [E0|E0]; subst disk.
    + split; [|done]. intros _. apply Hi. naive_solver.
    + by split; [intros _; apply Hd|].
  - apply is_empty_false in E. subst disk. split; [apply Hd|done].
Qed.


#[local] Opaque check_params.

Lemma normalize_run p device disk policy vcpu memory :
  check_params p = Ok tt -> checkDevice device (cp_Isolation p) = Ok device ->
  (disk <> 0 -> cp_Isolation p = IsolationVM) -> (cp_Image p = "" -> disk <> 0) ->
  0 <= disk <= MaxDiskGiB -> policy ∈ AllRestartPolicies -> len (cp_Command p) <= MaxCommandArgs ->
  MinVCPU <= vcpu <= MaxVCPU -> MinMemoryMiB <= memory <= MaxMemoryMiB ->
  let q := with_defaults disk policy vcpu memory (with_device device p) in normalize q = Ok q.
Proof.
  intros Hc Hdev Hvm Himg Hdisk Hpol Hcmd Hv Hm q. unfold normalize.
  unfold q at 1. rewrite check_params_defaults by done. simpl. rewrite Hdev. simpl.
  assert (Ed : is_empty (cp_Image p) && (disk =? 0) = false).
  { apply andb_false_iff. destruct (is_empty (cp_Image p)) eqn:E; [right|by left].
    apply String.eqb_eq in E. apply Z.eqb_neq. auto. }
  assert (Ep : is_empty policy = false).
  { apply is_empty_false. intros ->. cbv in Hpol. set_solver. }
  rewrite Ed, Ep, (proj2 (validate_OneOf_ok _ _ _) Hpol). unfold or_default.
  rewrite (proj2 (Z.eqb_neq vcpu 0)), (proj2 (Z.eqb_neq memory 0)) by (unfold MinVCPU, MinMemoryMiB in *; lia).
  rewrite !(proj2 (guard_ok _ _)); [done|..]; rewrite ?orb_false_iff, ?Z.ltb_ge; lia.
Qed.

(** defaults are filled in once: normalizing what was normalized changes nothing. *)
Theorem normalize_idempotent p q : normalize p = Ok q -> normalize q = Ok q.
Proof.
  intros (Hc & device & disk & policy & vcpu & memory & -> & Hdev & Edisk & Hdisk & Hpol & Hcmd & Hv & Hm)%normalize_ok.
  destruct (disk_vm _ _ Hc Edisk). apply checkDevice_ok in Hdev as [_ Hdev]. by apply normalize_run.
Qed.

Definition demo_params : CreateParams :=
  MkCreateParams " GPU" "p1" "web" "" false {["zone" := "a"]} {["HOME" := "/root"]}
    [MkFile "/etc/app.conf" "aGVsbG8=" "0600"] ["net2"] [] "vm" "" "debian.iso" "" 0 "" ["run"] "net1" "" 0 0.
Definition demo_normal : CreateParams := with_defaults 10 "always" 1 512 (with_device "gpu" demo_params).


Lemma normalize_idempotent_witness : normalize demo_normal = Ok demo_normal.
Proof. apply (normalize_idempotent demo_params). vm_compute. reflexivity. Defined.
