(* ===== verification/Instance.v ===== *)
(** Instances (internal/platform/instance): the table [instances], the directory of parked
    disks, every operation of the service and the migration of a disk between nodes.

    The other modules an instance needs are the interfaces of [Deps], [None] where the Go
    field may be nil.  The columns of list and map type, which the code stores as JSON, and
    the times, which it stores as RFC 3339 text, hold their values; the text of a time is
    [created_text], which the ORDER BY and the cursors of the code go by. *)
From stdpp Require Import base tactics numbers strings list gmap sorting.
From Stdlib Require Import ZArith Lia Sorted.
From S2P Require Import Prelude GoLang Effects Kernel Paging InstanceSpec.

(** * Data *)

(** The columns of an instance that no statement but the INSERT writes. *)
(* go: platform/instance/types.go:90-127 Instance *)
Record Fixed := MkFixed {
  fx_ProjectID : string; fx_Name : string; fx_Isolation : string; fx_Image : string; fx_ISO : string;
  fx_Kernel : string; fx_DiskGiB : Z; fx_FirewallID : string; fx_Command : list string;
  fx_NetworkID : string; fx_RestartPolicy : string; fx_Device : string; fx_Group : string;
  fx_Strict : bool; fx_NodeSelector : gmap string string; fx_EnvSealed : string;
  fx_SealKeyID : string; fx_EnvNames : list string; fx_FilesSealed : string;
  fx_FilePaths : list string; fx_ExtraNetworks : list string; fx_SSHKeys : list string;
  fx_CreatedAt : Z;
}.
(** [NodeID] is the empty text where the column is NULL; [ExitCode] is a nullable column. *)
(* go: platform/instance/types.go Instance *)
Record Instance := MkInstance {
  in_ID : string; in_Fixed : Fixed; in_VCPU : Z; in_MemoryMiB : Z; in_RestartCount : Z;
  in_Desired : string; in_Observed : string; in_ObservedMessage : string; in_ExitCode : option Z;
  in_Migrating : bool; in_DiskParked : bool; in_DiskFrom : string; in_NodeID : string;
  in_UpdatedAt : Z;
}.
(* go: platform/instance/types.go Footprint *)
Record Footprint := MkFootprint { fp_Instances : Z; fp_VCPU : Z; fp_MemoryMiB : Z }.

(** The table, and the files below the directory [parkedDir] of the data directory. *)
Record InstState := MkInstState { db_instances : list Instance; parked_files : gmap string string }.

Definition errNameTaken : error := ESentinel "instance name already exists".
Definition errNotFound : error := ESentinel "instance not found".
Definition errAlreadyPlaced : error := ESentinel "instance is already placed on a node".
Definition ErrNoKey : error := ESentinel "this control plane holds no key to seal with".
Definition MaxParkedDiskBytes : Z := 68719476736.

Definition in_ProjectID (i : Instance) : string := fx_ProjectID (in_Fixed i).
Definition in_Name (i : Instance) : string := fx_Name (in_Fixed i).
Definition created_text (i : Instance) : string := rfc3339nano (fx_CreatedAt (in_Fixed i)).

(** The SET clauses of the UPDATE statements. *)
Definition set_observed (observed message : string) (restarts : Z) (exitCode : option Z) (at_ : Z) (i : Instance) : Instance :=
  MkInstance (in_ID i) (in_Fixed i) (in_VCPU i) (in_MemoryMiB i) restarts (in_Desired i) observed message exitCode
    (in_Migrating i) (in_DiskParked i) (in_DiskFrom i) (in_NodeID i) at_.
Definition set_node (nodeID : string) (at_ : Z) (i : Instance) : Instance :=
  MkInstance (in_ID i) (in_Fixed i) (in_VCPU i) (in_MemoryMiB i) (in_RestartCount i) (in_Desired i) (in_Observed i)
    (in_ObservedMessage i) (in_ExitCode i) (in_Migrating i) (in_DiskParked i) (in_DiskFrom i) nodeID at_.
Definition set_migrating (migrating parked : bool) (from : string) (at_ : Z) (i : Instance) : Instance :=
  MkInstance (in_ID i) (in_Fixed i) (in_VCPU i) (in_MemoryMiB i) (in_RestartCount i) (in_Desired i) (in_Observed i)
    (in_ObservedMessage i) (in_ExitCode i) migrating parked from (in_NodeID i) at_.
Definition set_size (vcpu memory at_ : Z) (i : Instance) : Instance :=
  MkInstance (in_ID i) (in_Fixed i) vcpu memory (in_RestartCount i) (in_Desired i) (in_Observed i)
    (in_ObservedMessage i) (in_ExitCode i) (in_Migrating i) (in_DiskParked i) (in_DiskFrom i) (in_NodeID i) at_.
Definition set_desired (desired : string) (at_ : Z) (i : Instance) : Instance :=
  MkInstance (in_ID i) (in_Fixed i) (in_VCPU i) (in_MemoryMiB i) (in_RestartCount i) desired (in_Observed i)
    (in_ObservedMessage i) (in_ExitCode i) (in_Migrating i) (in_DiskParked i) (in_DiskFrom i) (in_NodeID i) at_.
Definition set_pending (message : string) (at_ : Z) (i : Instance) : Instance :=
  MkInstance (in_ID i) (in_Fixed i) (in_VCPU i) (in_MemoryMiB i) (in_RestartCount i) (in_Desired i) ObservedPending
    message (in_ExitCode i) (in_Migrating i) (in_DiskParked i) (in_DiskFrom i) "" at_.
Definition set_message (message : string) (at_ : Z) (i : Instance) : Instance :=
  MkInstance (in_ID i) (in_Fixed i) (in_VCPU i) (in_MemoryMiB i) (in_RestartCount i) (in_Desired i) (in_Observed i)
    message (in_ExitCode i) (in_Migrating i) (in_DiskParked i) (in_DiskFrom i) (in_NodeID i) at_.

(** * Interfaces (module.go) *)

Section interfaces.
Context (S : Type).
(* go: platform/instance/module.go Networks *)
Record Networks := {
  DefaultNetworkID : string -> M S string;
  NetworkExistsIn : string -> string -> M S bool;
  ReleaseAddress : string -> M S unit;
}.
(** Volumes, Forwards, Balancers, Logs, Execs and Alerts have this one method. *)
(* go: platform/instance/module.go Volumes *)
Record Releaser := { ReleaseInstance : string -> M S unit }.
(* go: platform/instance/module.go Devices *)
Record Devices := { ReleaseDevice : string -> M S unit; AddressOf : string -> M S string }.
(* go: platform/instance/module.go Keys *)
Record Keys := { ResolveKeys : string -> list string -> M S (list string) }.
(* go: platform/instance/module.go Quota *)
Record Quota := {
  AdmitInstance : string -> Z -> Z -> M S unit;
  AdmitGrowth : string -> Z -> Z -> M S unit;
}.
(* go: platform/instance/module.go Firewalls *)
Record Firewalls := { FirewallExistsIn : string -> string -> M S bool }.
(** [sealed.SealJSON] at the two types it is used at, and the id of the active key. *)
Record Keyring := {
  SealEnvJSON : gmap string string -> M S (string * string);
  SealFilesJSON : list File -> M S (string * string);
  ActiveID : string;
}.
(** The fields of [service] that [Use...] sets. *)
(* go: platform/instance/service.go service *)
Record Deps := {
  d_networks : option Networks; d_keys : option Keys; d_quota : option Quota;
  d_volumes : option Releaser; d_forwards : option Releaser; d_balancers : option Releaser;
  d_logs : option Releaser; d_execs : option Releaser; d_alerts : option Releaser;
  d_devices : option Devices; d_firewalls : option Firewalls; d_sealing : option Keyring;
  d_dataDir : string; d_events : bool;
}.
End interfaces.
Arguments DefaultNetworkID {S}. Arguments NetworkExistsIn {S}. Arguments ReleaseAddress {S}.
Arguments ReleaseInstance {S}. Arguments ReleaseDevice {S}. Arguments AddressOf {S}.
Arguments ResolveKeys {S}. Arguments AdmitInstance {S}. Arguments AdmitGrowth {S}.
Arguments FirewallExistsIn {S}. Arguments SealEnvJSON {S}. Arguments SealFilesJSON {S}.
Arguments ActiveID {S}. Arguments d_networks {S}. Arguments d_keys {S}. Arguments d_quota {S}.
Arguments d_volumes {S}. Arguments d_forwards {S}. Arguments d_balancers {S}. Arguments d_logs {S}.
Arguments d_execs {S}. Arguments d_alerts {S}. Arguments d_devices {S}. Arguments d_firewalls {S}.
Arguments d_sealing {S}. Arguments d_dataDir {S}. Arguments d_events {S}.

(** * Repository (repository.go) *)

Definition has_id (id : string) (i : Instance) : bool := String.eqb (in_ID i) id.
Definition named (projectID name : string) (i : Instance) : bool :=
  String.eqb (in_ProjectID i) projectID && String.eqb (in_Name i) name.
Definition on_node (nodeID : string) (i : Instance) : bool := String.eqb (in_NodeID i) nodeID.
Definition placed (i : Instance) : bool := negb (is_empty (in_NodeID i)).
(** [desired_state = 'running' OR migrating = 1] *)
Definition wanted (i : Instance) : bool := String.eqb (in_Desired i) DesiredRunning || in_Migrating i.
(** [ORDER BY created_at, id] *)
Abbreviation ordered := (listed created_text in_ID).
Definition in_project (projectID : string) (i : Instance) : bool := String.eqb (in_ProjectID i) projectID.
(** [GROUP BY node_id] over the rows that have a node. *)
Definition counts_by_node (rows : list Instance) : gmap string Z :=
  fold_left (fun m i => if placed i then <[in_NodeID i := default 0 (m !! in_NodeID i) + 1]> m else m) rows ∅.

Section repository.
Context {S : Type} `{!Has InstState S}.

(** A read of the table, and a statement that changes it. *)
Definition reads {A} (what : string) (q : list Instance -> outcome A) : M S A :=
  query what (fun st => q (db_instances st)).
Definition writes (what : string) (q : list Instance -> outcome unit * list Instance) : M S unit :=
  sql what (fun st => let '(r, rows) := q (db_instances st) in (r, MkInstState rows (parked_files st))).

(* go: platform/instance/repository.go repository.nameTaken *)
Definition nameTaken (projectID name : string) : M S bool :=
  reads "check instance name" (fun rows => Ok (existsb (named projectID name) rows)).
(** The primary key and the index [instances_name_unique]. *)
Definition instance_clash (i j : Instance) : bool := has_id (in_ID i) j || named (in_ProjectID i) (in_Name i) j.
(* go: platform/instance/repository.go repository.insert *)
Definition insert (i : Instance) : M S unit :=
  let! taken := nameTaken (in_ProjectID i) (in_Name i) in
  if taken : bool then fail errNameTaken
  else writes "insert instance" (insert_row (instance_clash i) errNameTaken i).
(* go: platform/instance/repository.go repository.pageIn *)
Definition pageIn_rows (projectID : string) (window : Window) : M S (list Instance) :=
  reads "list instances in project" (fun rows =>
    Ok (page_rows created_text in_ID (in_project projectID) window rows)).
(* go: platform/instance/repository.go repository.byName *)
Definition byName (projectID name : string) : M S Instance :=
  reads "get instance by name" (select_one (named projectID name) errNotFound).
(* go: platform/instance/repository.go repository.get *)
Definition get_row (id : string) : M S Instance :=
  reads "get instance" (select_one (has_id id) errNotFound).
(* go: platform/instance/repository.go repository.footprintIn *)
Definition footprintIn_rows (projectID : string) : M S Footprint :=
  reads "measure the project" (fun rows =>
    let mine := List.filter (fun i => String.eqb (in_ProjectID i) projectID) rows in
    Ok (MkFootprint (len mine) (foldr Z.add 0 (map in_VCPU mine)) (foldr Z.add 0 (map in_MemoryMiB mine)))).
(* go: platform/instance/repository.go repository.listIn *)
Definition listIn_rows (projectID : string) : M S (list Instance) :=
  reads "list instances in project" (fun rows => Ok (ordered (in_project projectID) rows)).
(* go: platform/instance/repository.go repository.list *)
Definition list_rows : M S (list Instance) :=
  reads "list instances" (fun rows => Ok (ordered (fun _ => true) rows)).
(* go: platform/instance/repository.go repository.listPendingPlacement *)
Definition listPendingPlacement : M S (list Instance) :=
  reads "list instances pending placement" (fun rows => Ok (ordered (fun i => wanted i && negb (placed i)) rows)).
(* go: platform/instance/repository.go repository.listByNode *)
Definition listByNode_rows (nodeID : string) : M S (list Instance) :=
  reads "list instances by node" (fun rows => Ok (ordered (on_node nodeID) rows)).
(* go: platform/instance/repository.go repository.setObserved *)
Definition setObserved (instanceID nodeID observed message : string) (restarts : Z) (exitCode : option Z) (at_ : Z)
    : M S unit :=
  writes "set observed state" (update_where (fun i => has_id instanceID i && on_node nodeID i)
    (set_observed observed message restarts exitCode at_) errNotFound).
(* go: platform/instance/repository.go repository.assignedCounts *)
Definition assignedCounts_rows : M S (gmap string Z) :=
  reads "count instances per node" (fun rows => Ok (counts_by_node rows)).
(* go: platform/instance/repository.go repository.assign *)
Definition assign_row (id nodeID : string) (at_ : Z) : M S unit :=
  writes "assign instance" (update_where (fun i => has_id id i && negb (placed i)) (set_node nodeID at_) errAlreadyPlaced).
(* go: platform/instance/repository.go repository.listRunningOn *)
Definition listRunningOn (nodeID : string) : M S (list Instance) :=
  reads "list instances on node" (fun rows => Ok (ordered (fun i => wanted i && on_node nodeID i) rows)).
(* go: platform/instance/repository.go repository.setMigrating *)
Definition setMigrating (id : string) (migrating parked : bool) (from : string) (at_ : Z) : M S unit :=
  writes "set the migration flags" (update_where (has_id id) (set_migrating migrating parked from at_) errNotFound).
(* go: platform/instance/repository.go repository.releasePlacement *)
Definition releasePlacement_row (id nodeID : string) (at_ : Z) : M S unit :=
  writes "release placement" (update_where (fun i => has_id id i && on_node nodeID i)
    (set_pending "the node it ran on stopped reporting, so it is being placed again" at_) errNotFound).
(* go: platform/instance/repository.go repository.setSize *)
Definition setSize (id : string) (vcpu memory at_ : Z) : M S unit :=
  writes "resize instance" (update_where (has_id id) (set_size vcpu memory at_) errNotFound).
(* go: platform/instance/repository.go repository.setDesired *)
Definition setDesired_row (id desired : string) (at_ : Z) : M S unit :=
  writes "update desired state" (update_where (has_id id) (set_desired desired at_) errNotFound).
(* go: platform/instance/repository.go repository.delete *)
Definition delete_row (id : string) : M S unit := writes "delete instance" (delete_where (has_id id) errNotFound).
(* go: platform/instance/repository.go repository.groupCounts *)
Definition groupCounts_rows (group : string) : M S (gmap string Z) :=
  reads "count a placement group" (fun rows =>
    Ok (counts_by_node (List.filter (fun i => String.eqb (fx_Group (in_Fixed i)) group) rows))).
(** An UPDATE whose count of rows is not looked at. *)
(* go: platform/instance/repository.go repository.setObservedMessage *)
Definition setObservedMessage (id message : string) (at_ : Z) : M S unit :=
  writes "record why a placement was held" (fun rows =>
    (Ok tt, map (fun i => if has_id id i then set_message message at_ i else i) rows)).
End repository.

(** * Service (service.go) *)

(* go: platform/instance/service.go translate *)
Definition translate (err : error) : error :=
  if errors_Is err "instance not found" then NotFound "instance_not_found" "no instance with that id exists"
  else if errors_Is err "instance name already exists"
  then Conflict "instance_name_taken" "an instance with that name already exists"
  else if errors_Is err "instance is already placed on a node"
  then Conflict "instance_already_placed" "the instance is already placed on a node"
  else Internal err.

(** The event of a transition, [None] when nothing changed. *)
(* go: platform/instance/service.go service.noteTransition *)
Definition transition_entry (before after : Instance) : option Entry :=
  let restarted := in_RestartCount before <? in_RestartCount after in
  if String.eqb (in_Observed before) (in_Observed after) && negb restarted then None
  else
    let '(kind, severity, message) :=
      if restarted then ("instance.restarted", Warn, "restart " +:+ itoa (in_RestartCount after) +:+ ": " +:+ in_ObservedMessage after)
      else if String.eqb (in_Observed after) ObservedRunning then ("instance.running", Info, in_ObservedMessage after)
      else if String.eqb (in_Observed after) ObservedFailed then ("instance.failed", SevError, in_ObservedMessage after)
      else if String.eqb (in_Observed after) ObservedStopped then ("instance.stopped", Info, in_ObservedMessage after)
      else if String.eqb (in_Observed after) ObservedPending then ("instance.pending", Warn, in_ObservedMessage after)
      else ("instance." +:+ in_Observed after, Info, in_ObservedMessage after) in
    Some {| ev_ProjectID := in_ProjectID after; ev_Kind := kind; ev_Subject := in_ID after;
            ev_NodeID := in_NodeID after; ev_Severity := severity;
            ev_Message := if is_empty message then "observed " +:+ in_Observed before +:+ " to " +:+ in_Observed after
                          else message |}.

(* go: platform/instance/migrate.go parkedName *)
Definition parkedName (instanceID : string) : outcome string :=
  if is_empty instanceID || existsb (fun c => (code c =? 47) || (code c =? 46)) (bytes_of instanceID)
  then Err (EText ("refusing to park a disk for " +:+ quoted instanceID))
  else Ok (instanceID +:+ ".qcow2").

Section service.
Context {S : Type} `{!Has InstState S} (deps : Deps S).

Definition translated {A} (m : M S A) : M S A := mapped translate m.
Definition when_some {D A} (d : option D) (m : D -> M S A) (otherwise : A) : M S A :=
  match d with Some d => m d | None => ret otherwise end.

(* go: platform/instance/service.go service.get *)
Definition get (id : string) : M S Instance := translated (get_row id).
(* go: platform/instance/service.go service.list *)
Definition list_all : M S (list Instance) := translated list_rows.
(* go: platform/instance/service.go service.footprintIn *)
Definition footprintIn (projectID : string) : M S Footprint := translated (footprintIn_rows projectID).
(* go: platform/instance/service.go service.listIn *)
Definition listIn (projectID : string) : M S (list Instance) := translated (listIn_rows projectID).
(* go: platform/instance/service.go service.pageIn *)
Definition pageIn (projectID : string) (window : Window) : M S (list Instance) :=
  translated (pageIn_rows projectID window).

(* go: platform/instance/service.go service.getIn *)
Definition getIn (ref projectID : string) : M S Instance :=
  let by_name :=
    let! r := attempt (byName projectID ref) in
    match r with
    | Ok i => ret i
    | Err _ => fail (NotFound "instance_not_found" "no instance with that name or id exists")
    end in
  let! r := attempt (get_row ref) in
  match r with
  | Ok i => if String.eqb (in_ProjectID i) projectID then ret i else by_name
  | Err e => if negb (errors_Is e "instance not found") then fail (translate e) else by_name
  end.

(** The loop of [checkNetworks]. *)
(* go: platform/instance/service.go service.checkNetworks *)
Definition checkNetworks (projectID networkID : string) (extra : list string) : M S unit :=
  when_some (d_networks deps) (fun networks =>
    foldM (fun id _ =>
      if is_empty id then ret tt
      else
        let! known := NetworkExistsIn networks id projectID in
        lift (guard (negb known) (Invalid "unknown_network" ("no network with id " +:+ id
          +:+ " exists, and a typo here would silently mean an instance that never gets an address"))))
      (networkID :: extra) tt) tt.

(* go: platform/instance/service.go service.authorizedKeys *)
Definition authorizedKeys (params normalized : CreateParams) : M S (list string) :=
  match cp_Keys params with
  | [] => ret []
  | _ =>
      if negb (String.eqb (cp_Isolation normalized) IsolationVM)
      then fail (Invalid "keys_unsupported" ("only isolation vm boots cloud-init, so a key given to a "
             +:+ cp_Isolation normalized +:+ " would be accepted and never installed"))
      else match d_keys deps with
           | None => fail (Unavailable "keys_unavailable" "the platform cannot look up ssh keys")
           | Some keys => ResolveKeys keys (cp_ProjectID params) (cp_Keys params)
           end
  end.

(** [sealed.SealJSON] with a ring that may be nil. *)
Definition with_ring {A} (m : Keyring S -> M S A) : M S A :=
  match d_sealing deps with Some ring => m ring | None => fail ErrNoKey end.
(* go: platform/instance/env.go sealEnv *)
Definition sealEnv (env : gmap string string) : M S (string * string) :=
  if (size env =? 0)%nat then ret ("", "")
  else mapped (fun err =>
    if errors_Is err "this control plane holds no key to seal with"
    then Conflict "no_sealing_key" "this control plane has no key to seal an environment with, and storing credentials in the clear is not something it will do quietly: start it with --backup-key-file, or leave env off"
    else Internal (EWrap "seal the environment" err)) (with_ring (fun ring => SealEnvJSON ring env)).
(* go: platform/instance/env.go sealFiles *)
Definition sealFiles (files : list File) : M S string :=
  if (length files =? 0)%nat then ret ""
  else mapped (fun err =>
    if errors_Is err "this control plane holds no key to seal with"
    then Conflict "no_sealing_key" "this control plane has no key to seal a config file with, and a config file is where credentials end up: start it with --backup-key-file, or leave files off"
    else Internal (EWrap "seal the files" err))
    (let! ' (blob, _) := with_ring (fun ring => SealFilesJSON ring files) in ret blob).

(** The checks of [create] against the other modules; the answer is the network. *)
(* go: platform/instance/service.go:95-125 AdmitInstance *)
Definition admit_create (params normalized : CreateParams) : M S string :=
  when_some (d_quota deps) (fun quota =>
    AdmitInstance quota (cp_ProjectID params) (cp_VCPU normalized) (cp_MemoryMiB normalized)) tt ;;;
  let! networkID :=
    (if is_empty (cp_NetworkID normalized)
     then when_some (d_networks deps) (fun networks => DefaultNetworkID networks (cp_ProjectID params)) ""
     else ret (cp_NetworkID normalized)) in
  checkNetworks (cp_ProjectID params) networkID (cp_ExtraNetworks normalized) ;;;
  (if is_empty (cp_FirewallID normalized) then ret tt
   else when_some (d_firewalls deps) (fun firewalls =>
     let! known := FirewallExistsIn firewalls (cp_FirewallID normalized) (cp_ProjectID params) in
     lift (guard (negb known) (Invalid "unknown_firewall"
       "no firewall with that id exists, and a typo here would silently mean no rules"))) tt) ;;;
  ret networkID.

(* go: platform/instance/service.go service.create *)
Definition create (params : CreateParams) : M S Instance :=
  let! normalized := lift (normalize params) in
  let! authorized := authorizedKeys params normalized in
  let! networkID := admit_create params normalized in
  let! ' (envSealed, envKeyID) := sealEnv (cp_Env normalized) in
  let! filesSealed := sealFiles (cp_Files normalized) in
  let sealKeyID := if is_empty filesSealed then envKeyID
                   else match d_sealing deps with Some ring => ActiveID ring | None => "" end in
  let! created := now in
  let! id := ids_New "i" in
  let i := MkInstance id (MkFixed (cp_ProjectID params) (cp_Name normalized) (cp_Isolation normalized)
               (cp_Image normalized) (cp_ISO normalized) (cp_Kernel normalized) (cp_DiskGiB normalized)
               (cp_FirewallID normalized) (cp_Command normalized) networkID (cp_RestartPolicy normalized)
               (cp_Device normalized) (cp_Group normalized) (cp_Strict params) (cp_NodeSelector normalized)
               envSealed sealKeyID (namesOf (cp_Env normalized)) filesSealed (pathsOf (cp_Files normalized))
               (cp_ExtraNetworks normalized) authorized created)
             (cp_VCPU normalized) (cp_MemoryMiB normalized) 0 DesiredRunning ObservedPending "" None
             false false "" "" created in
  translated (insert i) ;;;
  ret i.

(* go: platform/instance/service.go service.setDesired *)
Definition setDesired (id projectID desired : string) : M S Instance :=
  let! i := getIn id projectID in
  let! at_ := now in
  translated (setDesired_row (in_ID i) desired at_) ;;;
  get (in_ID i).

(* go: platform/instance/service.go service.resize *)
Definition resize (id projectID : string) (vcpu memoryMiB : Z) : M S Instance :=
  let! i := getIn id projectID in
  let vcpu := if vcpu =? 0 then in_VCPU i else vcpu in
  let memory := if memoryMiB =? 0 then in_MemoryMiB i else memoryMiB in
  if (vcpu =? in_VCPU i) && (memory =? in_MemoryMiB i) then ret i
  else
    lift (guard ((vcpu <? MinVCPU) || (MaxVCPU <? vcpu))
      (Invalid "invalid_vcpu" ("vcpu must be between " +:+ itoa MinVCPU +:+ " and " +:+ itoa MaxVCPU))) ;;;
    lift (guard ((memory <? MinMemoryMiB) || (MaxMemoryMiB <? memory))
      (Invalid "invalid_memory" ("memory_mib must be between " +:+ itoa MinMemoryMiB +:+ " and " +:+ itoa MaxMemoryMiB))) ;;;
    when_some (d_quota deps) (fun quota =>
      AdmitGrowth quota projectID (Z.max (vcpu - in_VCPU i) 0) (Z.max (memory - in_MemoryMiB i) 0)) tt ;;;
    let! at_ := now in
    translated (setSize (in_ID i) vcpu memory at_) ;;;
    get (in_ID i).

(* go: platform/instance/service.go service.listByNode *)
Definition listByNode (nodeID : string) : M S (list Instance) := translated (listByNode_rows nodeID).

(* go: platform/instance/service.go service.noteTransition *)
Definition noteTransition (before after : Instance) : M S unit :=
  if d_events deps
  then match transition_entry before after with Some e => record e | None => ret tt end
  else ret tt.

(* go: platform/instance/service.go service.reportObserved *)
Definition reportObserved (nodeID instanceID observed message : string) (restarts : Z) (exitCode : option Z)
    : M S Instance :=
  lift (validate_OneOf "observed_state" observed AllObservedStates) ;;;
  lift (guard (MaxObservedMessage <? slen message)
    (Invalid "invalid_message" ("message must be at most " +:+ itoa MaxObservedMessage +:+ " characters"))) ;;;
  lift (guard (restarts <? 0) (Invalid "invalid_restarts" "restarts must not be negative")) ;;;
  let! before := attempt (get_row instanceID) in
  let! at_ := now in
  mapped (fun err =>
    if errors_Is err "instance not found"
    then NotFound "instance_not_on_node" "no instance with that id is assigned to this node"
    else translate err) (setObserved instanceID nodeID observed message restarts exitCode at_) ;;;
  let! after := get instanceID in
  match before with
  | Ok b => noteTransition b after ;;; ret after
  | Err _ => ret after
  end.

(* go: platform/instance/service.go service.pendingPlacement *)
Definition pendingPlacement : M S (list Instance) := translated listPendingPlacement.
(* go: platform/instance/service.go service.assignedCounts *)
Definition assignedCounts : M S (gmap string Z) := translated assignedCounts_rows.
(* go: platform/instance/service.go service.strandedOn *)
Definition strandedOn (nodeIDs : list string) : M S (list Instance) :=
  foldM (fun nodeID stranded =>
    let! instances := translated (listRunningOn nodeID) in ret (stranded ++ instances)) nodeIDs [].
(* go: platform/instance/service.go service.releasePlacement *)
Definition releasePlacement (id nodeID : string) : M S unit :=
  let! at_ := now in
  translated (releasePlacement_row id nodeID at_) ;;;
  when_some (d_networks deps) (fun networks => ReleaseAddress networks id) tt.
(* go: platform/instance/service.go service.assign *)
Definition assign (id nodeID : string) : M S unit :=
  let! at_ := now in translated (assign_row id nodeID at_).
(* go: platform/instance/service.go service.groupCounts *)
Definition groupCounts (group : string) : M S (gmap string Z) := translated (groupCounts_rows group).
(* go: platform/instance/service.go service.holdPlacement *)
Definition holdPlacement (id reason : string) : M S unit :=
  let! at_ := now in translated (setObservedMessage id reason at_).

(** * Migration (migrate.go)

    The directory of parked disks is a map from file names to contents.  Every call of the
    operating system may fail; a failed [io.Copy] leaves the partial file as it was created,
    whose content nothing ever reads. *)

(** [filepath.Join] and [os.MkdirAll] *)
(* go: platform/instance/migrate.go service.parkDir *)
Definition parkDir : M S unit :=
  if is_empty (d_dataDir deps) then fail (EText "this control plane has nowhere to park a disk")
  else query "create the migration directory" (fun _ : InstState => Ok tt).
(** A call that changes the directory. *)
Definition on_files (what : string) (f : gmap string string -> gmap string string) : M S unit :=
  sql what (fun st => (Ok tt, MkInstState (db_instances st) (f (parked_files st)))).
(** [_ = root.Remove(name)] *)
Definition discard (name : string) : M S unit := attempt (on_files "remove" (delete name)) ;;; ret tt.
(** [os.Rename], which replaces the target. *)
Definition moved (from to : string) (files : gmap string string) : gmap string string :=
  match files !! from with Some content => <[to := content]> (delete from files) | None => files end.

(* go: platform/instance/migrate.go service.forgetParked *)
Definition forgetParked (id : string) : M S unit :=
  let! r := attempt parkDir in
  match r with
  | Err _ => ret tt
  | Ok _ => match parkedName id with Err _ => ret tt | Ok name => discard name end
  end.

(* go: platform/instance/migrate.go service.beginMigration *)
Definition beginMigration (id nodeID : string) : M S unit :=
  let! i := translated (get_row id) in
  lift (guard (negb (String.eqb (in_NodeID i) nodeID))
    (Conflict "instance_moved" "the instance is no longer on the node it was being moved off")) ;;;
  if in_Migrating i then ret tt
  else
    let! t1 := now in
    translated (setDesired_row id DesiredStopped t1) ;;;
    let! t2 := now in
    setMigrating id true false "" t2.

Definition not_on_node : error := NotFound "instance_not_on_node" "no instance with that id is assigned to this node".

(** A call whose failure removes the partial file. *)
Definition or_discard (partial : string) (m : M S unit) : M S unit :=
  let! r := attempt m in
  match r with Ok _ => ret tt | Err e => discard partial ;;; fail (Internal e) end.

(** The part of [parkDisk] that writes the file. *)
(* go: platform/instance/migrate.go:81-112 partial *)
Definition park_file (name content : string) : M S unit :=
  let partial := name +:+ ".part" in
  mapped Internal (query "open the migration directory" (fun _ : InstState => Ok tt)) ;;;
  mapped Internal (on_files "create the parked disk" <[partial := ""]>) ;;;
  let written := str_take (MaxParkedDiskBytes + 1) content in
  or_discard partial (on_files "write the parked disk" <[partial := written]>) ;;;
  or_discard partial (query "close the parked disk" (fun _ : InstState => Ok tt)) ;;;
  if MaxParkedDiskBytes <? slen written
  then discard partial ;;;
    fail (Invalid "disk_too_large" ("a disk being moved must be at most " +:+ itoa MaxParkedDiskBytes +:+ " bytes"))
  else or_discard partial (on_files "place the parked disk" (moved partial name)).

(* go: platform/instance/migrate.go service.parkDisk *)
Definition parkDisk (nodeID id content : string) : M S unit :=
  let! i := translated (get_row id) in
  lift (guard (negb (String.eqb (in_NodeID i) nodeID)) not_on_node) ;;;
  lift (guard (negb (in_Migrating i)) (Conflict "not_migrating"
    "this instance is not being moved, so there is nowhere for a disk to go")) ;;;
  mapped Internal parkDir ;;;
  let! name := lift (or_fault (fun err => Invalid "invalid_instance" (error_text err)) (parkedName id)) in
  park_file name content ;;;
  let! at_ := now in
  setMigrating id true true nodeID at_.

(** The answer is the content of the file. *)
(* go: platform/instance/migrate.go service.parkedDisk *)
Definition parkedDisk (nodeID id : string) : M S string :=
  let! i := translated (get_row id) in
  lift (guard (negb (String.eqb (in_NodeID i) nodeID)) not_on_node) ;;;
  lift (guard (negb (in_Migrating i) || negb (in_DiskParked i))
    (NotFound "no_parked_disk" "there is no disk waiting for this instance")) ;;;
  lift (guard (String.eqb nodeID (in_DiskFrom i)) (Conflict "disk_came_from_here"
    "this is the node that handed the disk over, and taking it back would end the move where it started")) ;;;
  mapped Internal parkDir ;;;
  let! name := lift (or_fault (fun err => Invalid "invalid_instance" (error_text err)) (parkedName id)) in
  mapped Internal (query "open the migration directory" (fun _ : InstState => Ok tt)) ;;;
  mapped (fun _ => NotFound "no_parked_disk" "the disk that was waiting for this instance is gone")
    (query "open" (fun st => match parked_files st !! name with Some content => Ok content | None => Err errNotFound end)).

(* go: platform/instance/migrate.go service.finishMigration *)
Definition finishMigration (nodeID id : string) : M S Instance :=
  let! i := translated (get_row id) in
  lift (guard (negb (String.eqb (in_NodeID i) nodeID)) not_on_node) ;;;
  if negb (in_Migrating i) then ret i
  else
    let! t1 := now in
    translated (setMigrating id false false "" t1) ;;;
    let! t2 := now in
    translated (setDesired_row id DesiredRunning t2) ;;;
    forgetParked id ;;;
    get id.

(** What is cleaned up behind a deleted instance, in order. *)
(* go: platform/instance/service.go:325-372 ReleaseInstance *)
Definition cleanups (id : string) : list (string * M S unit) :=
  let releasing (what : string) (r : option (Releaser S)) :=
    match r with Some r => [(what, ReleaseInstance r id)] | None => [] end in
  match d_devices deps with Some d => [(" was deleted but its device was kept", ReleaseDevice d id)] | None => [] end ++
  releasing " was deleted but its alerts were kept" (d_alerts deps) ++
  releasing " was deleted but its commands were kept" (d_execs deps) ++
  match d_networks deps with
  | None => []
  | Some networks =>
      [(" was deleted but its address was not released", ReleaseAddress networks id)] ++
      releasing " was deleted but its volumes stayed attached to it" (d_volumes deps) ++
      releasing " was deleted but its published ports stayed" (d_forwards deps) ++
      releasing " was deleted but stayed a balancer backend" (d_balancers deps) ++
      releasing " was deleted but its log was kept" (d_logs deps)
  end.

(* go: platform/instance/service.go service.delete *)
Definition delete (ref projectID : string) : M S unit :=
  let! found := getIn ref projectID in
  let id := in_ID found in
  translated (delete_row id) ;;;
  forgetParked id ;;;
  foldM (fun step _ => mapped (fun err => Internal (EWrap ("instance " +:+ id +:+ fst step) err)) (snd step))
    (cleanups id) tt.
End service.

(** * Listing (handler.go)

    The answer is the page and the cursor of the next one, empty on the last page. *)
(* go: platform/instance/handler.go handler.list *)
Definition list_page {S} `{!Has InstState S} (projectID q_limit q_after : string) : M S (list Instance * string) :=
  let! window := lift (or_fault (fun err => Invalid "invalid_page" (error_text err))
                         (page_From q_limit q_after page_Default page_Max)) in
  let! instances := pageIn projectID window in
  ret (page_reply created_text in_ID window instances).

(** * The requests the module serves *)

Inductive request :=
| ReqCreate (params : CreateParams)
| ReqSetDesired (id projectID desired : string)
| ReqResize (id projectID : string) (vcpu memoryMiB : Z)
| ReqDelete (ref projectID : string)
| ReqReport (nodeID instanceID observed message : string) (restarts : Z) (exitCode : option Z)
| ReqAssign (id nodeID : string)
| ReqHold (id reason : string)
| ReqRelease (id nodeID : string)
| ReqBegin (id nodeID : string)
| ReqPark (nodeID id content : string)
| ReqTake (nodeID id : string)
| ReqFinish (nodeID id : string).

Definition serve {S} `{!Has InstState S} (deps : Deps S) (r : request) : M S unit :=
  match r with
  | ReqCreate params => create deps params ;;; ret tt
  | ReqSetDesired id projectID desired => setDesired id projectID desired ;;; ret tt
  | ReqResize id projectID vcpu memoryMiB => resize deps id projectID vcpu memoryMiB ;;; ret tt
  | ReqDelete ref projectID => delete deps ref projectID
  | ReqReport nodeID instanceID observed message restarts exitCode =>
      reportObserved deps nodeID instanceID observed message restarts exitCode ;;; ret tt
  | ReqAssign id nodeID => assign id nodeID
  | ReqHold id reason => holdPlacement id reason
  | ReqRelease id nodeID => releasePlacement deps id nodeID
  | ReqBegin id nodeID => beginMigration id nodeID
  | ReqPark nodeID id content => parkDisk deps nodeID id content
  | ReqTake nodeID id => parkedDisk deps nodeID id ;;; ret tt
  | ReqFinish nodeID id => finishMigration deps nodeID id ;;; ret tt
  end.
(** Requests one after the other; a request that fails does not stop the next. *)
Definition serve_all {S} `{!Has InstState S} (deps : Deps S) (rs : list request) : M S unit :=
  foldM (fun r _ => attempt (serve deps r) ;;; ret tt) rs tt.

(** * The invariant *)

Definition sized (i : Instance) : Prop :=
  MinVCPU <= in_VCPU i <= MaxVCPU /\ MinMemoryMiB <= in_MemoryMiB i <= MaxMemoryMiB.
(** A disk that is said to be parked is there, and only while the instance moves. *)
Definition parked_ok (files : gmap string string) (i : Instance) : Prop :=
  in_DiskParked i = true -> in_Migrating i = true /\ exists name, parkedName (in_ID i) = Ok name /\ is_Some (files !! name).

Record inst_inv (st : InstState) : Prop := {
  ii_id : unique_by (fun i => Some (in_ID i)) (db_instances st);
  ii_name : unique_by (fun i => Some (in_ProjectID i, in_Name i)) (db_instances st);
  ii_sized i : i ∈ db_instances st -> sized i;
  ii_parked i : i ∈ db_instances st -> parked_ok (parked_files st) i;
}.

(** ** Who may change what

    What a request may do to a row: [i] is the row before it and [j] after it. *)
Definition addressed (ref projectID : string) (i : Instance) : Prop :=
  in_ProjectID i = projectID /\ (in_ID i = ref \/ in_Name i = ref).
Definition held_by (id nodeID : string) (i : Instance) : Prop := in_ID i = id /\ in_NodeID i = nodeID.

Definition resizes (r : request) (i : Instance) : Prop :=
  match r with ReqResize ref projectID _ _ => addressed ref projectID i | _ => False end.
Definition steers (r : request) (i j : Instance) : Prop :=
  match r with
  | ReqSetDesired ref projectID desired => addressed ref projectID i /\ in_Desired j = desired
  | ReqBegin id nodeID => held_by id nodeID i /\ in_Migrating i = false /\ in_Desired j = DesiredStopped
  | ReqFinish nodeID id => held_by id nodeID i /\ in_Migrating i = true /\ in_Desired j = DesiredRunning
  | _ => False
  end.
Definition observes (r : request) (i j : Instance) : Prop :=
  match r with
  | ReqReport nodeID id observed message restarts exitCode => held_by id nodeID i /\
      (in_Observed j, in_ObservedMessage j, in_RestartCount j, in_ExitCode j) = (observed, message, restarts, exitCode)
  | ReqRelease id nodeID => held_by id nodeID i /\ in_Observed j = ObservedPending /\
      (in_RestartCount j, in_ExitCode j) = (in_RestartCount i, in_ExitCode i)
  | ReqHold id reason => in_ID i = id /\ in_ObservedMessage j = reason /\
      (in_Observed j, in_RestartCount j, in_ExitCode j) = (in_Observed i, in_RestartCount i, in_ExitCode i)
  | _ => False
  end.
Definition moves (r : request) (i j : Instance) : Prop :=
  let after := (in_Migrating j, in_DiskParked j, in_DiskFrom j) in
  match r with
  | ReqBegin id nodeID => held_by id nodeID i /\ in_Migrating i = false /\ after = (true, false, "")
  | ReqPark nodeID id _ => held_by id nodeID i /\ in_Migrating i = true /\ after = (true, true, nodeID)
  | ReqFinish nodeID id => held_by id nodeID i /\ in_Migrating i = true /\ after = (false, false, "")
  | _ => False
  end.
Definition places (r : request) (i j : Instance) : Prop :=
  match r with
  | ReqAssign id nodeID => held_by id "" i /\ in_NodeID j = nodeID
  | ReqRelease id nodeID => held_by id nodeID i /\ in_NodeID j = ""
  | _ => False
  end.
Record may_change (r : request) (i j : Instance) : Prop := {
  mc_id : in_ID j = in_ID i;
  mc_fixed : in_Fixed j = in_Fixed i;
  mc_size : (in_VCPU j, in_MemoryMiB j) = (in_VCPU i, in_MemoryMiB i) \/ resizes r i;
  mc_desired : in_Desired j = in_Desired i \/ steers r i j;
  mc_observed : (in_Observed j, in_ObservedMessage j, in_RestartCount j, in_ExitCode j) =
      (in_Observed i, in_ObservedMessage i, in_RestartCount i, in_ExitCode i) \/ observes r i j;
  mc_move : (in_Migrating j, in_DiskParked j, in_DiskFrom j) = (in_Migrating i, in_DiskParked i, in_DiskFrom i) \/ moves r i j;
  mc_node : in_NodeID j = in_NodeID i \/ places r i j;
}.
(** The row a create request adds. *)
Definition created (r : request) (j : Instance) : Prop :=
  match r with
  | ReqCreate params => in_ProjectID j = cp_ProjectID params /\ in_Name j = cp_Name params /\ sized j /\
      in_NodeID j = "" /\ in_Desired j = DesiredRunning /\ in_Observed j = ObservedPending /\
      in_RestartCount j = 0 /\ in_Migrating j = false /\ in_DiskParked j = false
  | _ => False
  end.
Definition deleted (r : request) (i : Instance) : Prop :=
  match r with ReqDelete ref projectID => addressed ref projectID i | _ => False end.
(** A parked disk stays as it is or goes, unless the request parks it. *)
Definition parks (r : request) (id : string) : Prop :=
  match r with ReqPark _ id' _ => id' = id | _ => False end.
Definition files_kept (r : request) (files files' : gmap string string) : Prop :=
  forall id name, parkedName id = Ok name -> files' !! name = files !! name \/ files' !! name = None \/ parks r id.
Record evolves (r : request) (st0 st : InstState) : Prop := {
  ev_rows j : j ∈ db_instances st -> (exists i, i ∈ db_instances st0 /\ may_change r i j) \/ created r j;
  ev_gone i : i ∈ db_instances st0 -> (exists j, j ∈ db_instances st /\ in_ID j = in_ID i) \/ deleted r i;
  ev_files : files_kept r (parked_files st0) (parked_files st);
}.
Definition good (r : request) (st0 st : InstState) : Prop := inst_inv st /\ evolves r st0 st.

Lemma may_change_refl r i : may_change r i i.
Proof. constructor; auto. Qed.

Lemma good_refl r st : inst_inv st -> good r st st.
Proof.
  intros H. split; [done|]. split; [intros j Hj; left|intros i Hi; left|intros id name; by left]; eauto using may_change_refl.
Qed.

Lemma unique_map {K} (key : Instance -> K) (g : Instance -> Instance) rows :
  (forall i, i ∈ rows -> key (g i) = key i) ->
  unique_by (fun i => Some (key i)) rows -> unique_by (fun i => Some (key i)) (map g rows).
Proof.
  intros Hg. unfold unique_by. rewrite !omap_total, map_map. intros H.
  replace (map (fun i => key (g i)) rows) with (map key rows); [done|].
  apply map_ext_in. intros i Hi%list_elem_of_In. by rewrite Hg.
Qed.

(** An UPDATE keeps a good state good. *)
Lemma good_update r st0 st p f :
  good r st0 st -> (forall j, ~ created r j) ->
  (forall i0 i, i0 ∈ db_instances st0 -> i ∈ db_instances st -> p i = true -> may_change r i0 i ->
     may_change r i0 (f i) /\ sized (f i) /\ parked_ok (parked_files st) (f i)) ->
  good r st0 (MkInstState (map (fun i => if p i then f i else i) (db_instances st)) (parked_files st)).
Proof.
  intros [Hinv [Hev Hgone Hfiles]] Hnc Hf.
  assert (Hrow : forall i, i ∈ db_instances st -> p i = true ->
    exists i0, i0 ∈ db_instances st0 /\ may_change r i0 i /\ may_change r i0 (f i) /\ sized (f i) /\ parked_ok (parked_files st) (f i)).
  { intros i Hi Hp. destruct (Hev i Hi) as [(i0 & Hi0 & Hm)|Hc]; [|by destruct (Hnc i)].
    exists i0. destruct (Hf i0 i) as (? & ? & ?); auto. }
  assert (Hkey : forall i, i ∈ db_instances st -> in_ID (if p i then f i else i) = in_ID i /\
    in_Fixed (if p i then f i else i) = in_Fixed i).
  { intros i Hi. destruct (p i) eqn:Ep; [|done]. destruct (Hrow i Hi Ep) as (i0 & _ & H1 & H2 & _).
    destruct H1, H2. split; congruence. }
  split; [constructor; simpl|split; simpl].
  - apply unique_map; [|apply Hinv]. intros i Hi. by apply Hkey.
  - apply unique_map; [|apply Hinv]. intros i Hi. unfold in_ProjectID, in_Name. by rewrite (proj2 (Hkey i Hi)).
  - intros j (i & -> & Hi)%list_elem_of_fmap. destruct (p i) eqn:Ep; [|by apply Hinv].
    by destruct (Hrow i Hi Ep) as (? & _ & _ & _ & ? & _).
  - intros j (i & -> & Hi)%list_elem_of_fmap. destruct (p i) eqn:Ep; [|by apply Hinv].
    by destruct (Hrow i Hi Ep) as (? & _ & _ & _ & _ & ?).
  - intros j (i & -> & Hi)%list_elem_of_fmap. destruct (p i) eqn:Ep; [|by apply Hev].
    destruct (Hrow i Hi Ep) as (i0 & ? & _ & ? & _). left. eauto.
  - intros i0 Hi0. destruct (Hgone i0 Hi0) as [(j & Hj & E)|]; [left|by right].
    exists (if p j then f j else j). split; [|by rewrite (proj1 (Hkey j Hj))].
    apply list_elem_of_fmap. eauto.
  - done.
Qed.

(** The directory may change where no row relies on it. *)
Lemma good_files r st0 st files : good r st0 st -> files_kept r (parked_files st) files ->
  (forall i, i ∈ db_instances st -> parked_ok (parked_files st) i -> parked_ok files i) ->
  good r st0 (MkInstState (db_instances st) files).
Proof.
  intros [[] []] Hk Hf. split; [constructor; simpl; auto|]. split; simpl; auto.
  intros id name En. destruct (Hk id name En) as [->|]; [|by right]. by apply ev_files0.
Qed.

(** ** Names of parked disks *)

Lemma parkedName_ok id name : parkedName id = Ok name -> name = id +:+ ".qcow2".
Proof. unfold parkedName. case_match; [done|]. by intros [= <-]. Qed.

Lemma bytes_suffix_inj s t u v : s +:+ u = t +:+ v -> length (bytes_of u) = length (bytes_of v) -> s = t.
Proof.
  intros E Hl. apply (f_equal bytes_of) in E. rewrite !bytes_of_app in E. apply bytes_of_inj. by apply app_inj_2 in E as [? _].
Qed.

Lemma parkedName_inj id id' name : parkedName id = Ok name -> parkedName id' = Ok name -> id = id'.
Proof. intros ->%parkedName_ok E%parkedName_ok. by apply (bytes_suffix_inj _ _ _ _ E). Qed.

Lemma partial_not_parked id name other : parkedName id = Ok name -> name <> other +:+ ".part".
Proof.
  intros ->%parkedName_ok E. apply (f_equal (fun s => last (bytes_of s))) in E. rewrite !bytes_of_app in E.
  rewrite !last_app in E. by vm_compute in E.
Qed.

(** * Rules *)

Create HintDb quiet.

(** [m] leaves the instances alone. *)
Definition quiet {S A} `{!Has InstState S} (m : M S A) : Prop := steps (fun w w' => part w' = part (T:=InstState) w) m.
(** The other modules do not write the table of instances. *)
Definition quiet_opt {S D} `{!Has InstState S} (d : option D) (P : D -> Prop) : Prop := forall x, d = Some x -> P x.
Class Deaf {S} `{!Has InstState S} (deps : Deps S) : Prop := {
  deaf_networks : quiet_opt (d_networks deps) (fun n => (forall p, quiet (DefaultNetworkID n p)) /\
    (forall i p, quiet (NetworkExistsIn n i p)) /\ forall i, quiet (ReleaseAddress n i));
  deaf_keys : quiet_opt (d_keys deps) (fun k => forall p names, quiet (ResolveKeys k p names));
  deaf_quota : quiet_opt (d_quota deps) (fun q => (forall p v m, quiet (AdmitInstance q p v m)) /\
    forall p v m, quiet (AdmitGrowth q p v m));
  deaf_firewalls : quiet_opt (d_firewalls deps) (fun f => forall i p, quiet (FirewallExistsIn f i p));
  deaf_sealing : quiet_opt (d_sealing deps) (fun k => (forall e, quiet (SealEnvJSON k e)) /\ forall f, quiet (SealFilesJSON k f));
  deaf_cleanups id : Forall (fun step => quiet (snd step)) (cleanups deps id);
}.

Section rules.
Context {S : Type} `{!Has InstState S} (deps : Deps S) `{!Deaf deps} (env : Env).
Abbreviation st w := (part (T:=InstState) w).
Implicit Types (w : World S).

#[local] Instance quiet_pre : PreOrder (fun w w' : World S => st w' = st w).
Proof. split; [done|]. intros x y z H1 H2. by rewrite H2. Qed.

Lemma wp_quiet {A} (m : M S A) (Q : outcome A -> World S -> Prop) w :
  quiet m -> (forall r w', st w' = st w -> Q r w') -> wp env m Q w.
Proof. intros Hm HQ. specialize (Hm env w). unfold wp. destruct (m env w). by apply HQ. Qed.

Lemma quiet_mapped {A} f (m : M S A) : quiet m -> quiet (mapped f m).
Proof.
  intros Hm. apply steps_bind; [typeclasses eauto|by apply steps_attempt|]. intros x. apply steps_lift. typeclasses eauto.
Qed.

Lemma quiet_reads {A} what (q : list Instance -> outcome A) : quiet (reads what q).
Proof. apply steps_query. done. Qed.

Lemma wp_reads {A} what (q : list Instance -> outcome A) (Q : outcome A -> World S -> Prop) w :
  (forall r w', st w' = st w -> r = Err (io_error what) \/ r = q (db_instances (st w)) -> Q r w') ->
  wp env (reads what q) Q w.
Proof. intros H. apply wp_read. intros r Hr. by apply H. Qed.

Lemma wp_writes what q (Q : outcome unit -> World S -> Prop) w :
  (forall w', st w' = st w -> Q (Err (io_error what)) w') ->
  (forall w', st w' = MkInstState (snd (q (db_instances (st w)))) (parked_files (st w)) ->
     Q (fst (q (db_instances (st w)))) w') ->
  wp env (writes what q) Q w.
Proof.
  intros H1 H2. apply wp_write; [done|]. simpl. destruct (q _) as [res rows]. simpl in *. done.
Qed.

(** An UPDATE under a good state. *)
Lemma wp_update what r st0 p f e (Q : outcome unit -> World S -> Prop) w :
  good r st0 (st w) -> (forall j, ~ created r j) ->
  (forall i0 i, i0 ∈ db_instances st0 -> i ∈ db_instances (st w) -> p i = true -> may_change r i0 i ->
     may_change r i0 (f i) /\ sized (f i) /\ parked_ok (parked_files (st w)) (f i)) ->
  (forall o w', good r st0 (st w') -> parked_files (st w') = parked_files (st w) ->
     (o <> Ok tt -> st w' = st w) ->
     (o = Ok tt -> db_instances (st w') = map (fun i => if p i then f i else i) (db_instances (st w))) -> Q o w') ->
  wp env (writes what (update_where p f e)) Q w.
Proof.
  intros Hg Hnc Hf HQ. apply wp_writes; [intros w' Hw'; apply HQ; rewrite Hw'; done|].
  intros w' Hw'. rewrite update_where_rows in Hw'. apply HQ; rewrite Hw'; simpl; auto.
  - by apply good_update.
  - intros Hne. unfold update_where in Hne. destruct (existsb p _) eqn:E; [done|]. rewrite existsb_false, Forall_forall in E.
    destruct (st w) as [rows files]; simpl in *. f_equal. rewrite <- (map_id rows) at 2. apply map_ext_in.
    intros i Hi%list_elem_of_In. by rewrite (E i Hi).
Qed.

Lemma get_row_rule id (Q : outcome Instance -> World S -> Prop) w :
  (forall o w', st w' = st w -> match o with Ok i => i ∈ db_instances (st w) /\ in_ID i = id | Err _ => True end -> Q o w') ->
  wp env (get_row id) Q w.
Proof.
  intros H. apply wp_reads. intros o w' Hw' Ho. apply H; [done|]. destruct o as [i|]; [|done].
  destruct Ho as [?|Ho]; [done|]. symmetry in Ho. apply select_one_ok in Ho as [? Ep]. unfold has_id in Ep. by breflect.
Qed.

Lemma translated_row_rule id (Q : outcome Instance -> World S -> Prop) w :
  (forall o w', st w' = st w -> match o with Ok i => i ∈ db_instances (st w) /\ in_ID i = id | Err _ => True end -> Q o w') ->
  wp env (translated (get_row id)) Q w.
Proof.
  intros H. apply wp_mapped, get_row_rule. intros o w' Hw' Ho. apply H; [done|]. by destruct o.
Qed.

Lemma getIn_rule ref projectID (Q : outcome Instance -> World S -> Prop) w :
  (forall o w', st w' = st w ->
     match o with Ok i => i ∈ db_instances (st w) /\ addressed ref projectID i | Err _ => True end -> Q o w') ->
  wp env (getIn ref projectID) Q w.
Proof.
  intros H. unfold getIn. apply wp_bind, wp_attempt, get_row_rule. intros o w1 Hw1 Ho.
  assert (Hname : wp env (let! r := attempt (byName projectID ref) in match r with Ok i => ret i
    | Err _ => fail (NotFound "instance_not_found" "no instance with that name or id exists") end) Q w1).
  { apply wp_bind, wp_attempt, wp_reads. intros o2 w2 Hw2 Ho2. destruct o2 as [i|].
    - rewrite wp_ret. apply H; [congruence|]. destruct Ho2 as [?|Ho2]; [done|]. symmetry in Ho2.
      rewrite Hw1 in Ho2. apply select_one_ok in Ho2 as [? Ep]. unfold named in Ep. breflect. unfold addressed. auto.
    - rewrite wp_fail. apply H; [congruence|done]. }
  destruct o as [i|e].
  - destruct (String.eqb_spec (in_ProjectID i) projectID) as [Ep|]; [|done].
    rewrite wp_ret. apply H; [done|]. unfold addressed. naive_solver.
  - case_match; [|done]. rewrite wp_fail. by apply H.
Qed.

Lemma quiet_get id : quiet (get id).
Proof. apply quiet_mapped, quiet_reads. Qed.

Lemma same_row st0 x i : inst_inv st0 -> x ∈ db_instances st0 -> i ∈ db_instances st0 -> in_ID i = in_ID x -> i = x.
Proof. intros H Hx Hi E. by apply (unique_by_eq _ _ i x (in_ID x) (ii_id _ H)); simpl; rewrite ?E. Qed.

(** The first UPDATE of a request. *)
Lemma wp_update1 what r p f e (Q : outcome unit -> World S -> Prop) w :
  inst_inv (st w) -> (forall j, ~ created r j) ->
  (forall i, i ∈ db_instances (st w) -> p i = true -> may_change r i (f i) /\ sized (f i) /\ parked_ok (parked_files (st w)) (f i)) ->
  (forall o w', good r (st w) (st w') -> parked_files (st w') = parked_files (st w) -> (o <> Ok tt -> st w' = st w) ->
     (o = Ok tt -> db_instances (st w') = map (fun i => if p i then f i else i) (db_instances (st w))) -> Q o w') ->
  wp env (writes what (update_where p f e)) Q w.
Proof.
  intros Hinv Hnc Hf HQ. apply (wp_update what r (st w)); auto using good_refl.
  intros i0 i Hi0 Hi Hp Hm. rewrite (same_row (st w) i i0) by (auto; by symmetry; apply Hm). by apply Hf.
Qed.

Lemma quiet_ret {A} (a : A) : quiet (ret a).
Proof. by intros ? ?. Qed.
Lemma quiet_fail {A} e : quiet (fail (A:=A) e).
Proof. by intros ? ?. Qed.
Lemma quiet_lift {A} (o : outcome A) : quiet (lift o).
Proof. by intros ? ?. Qed.
Lemma quiet_bind {A B} (m : M S A) (k : A -> M S B) : quiet m -> (forall a, quiet (k a)) -> quiet (bind m k).
Proof. apply steps_bind. typeclasses eauto. Qed.
Lemma quiet_foldM {X A} (body : X -> A -> M S A) xs a : (forall x a, x ∈ xs -> quiet (body x a)) -> quiet (foldM body xs a).
Proof. apply steps_foldM. typeclasses eauto. Qed.
Lemma quiet_when {D A} (d : option D) (m : D -> M S A) (a : A) :
  (forall x, d = Some x -> quiet (m x)) -> quiet (when_some d m a).
Proof. destruct d; simpl; [auto|]. intros _. apply quiet_ret. Qed.
Lemma quiet_query {A} what (q : InstState -> outcome A) : quiet (query what q).
Proof. apply steps_query. done. Qed.
Lemma quiet_attempt {A} (m : M S A) : quiet m -> quiet (attempt m).
Proof. apply steps_attempt. Qed.
Hint Resolve quiet_ret quiet_fail quiet_lift quiet_bind quiet_foldM quiet_when quiet_query quiet_attempt
  quiet_mapped quiet_reads quiet_get : quiet.

(** What an UPDATE of other columns keeps. *)
Ltac row_kept Hinv Hi := split; [exact (ii_sized _ Hinv _ Hi)|exact (ii_parked _ Hinv _ Hi)].
Ltac may_right := constructor; simpl; auto; right; simpl; unfold held_by; auto.

(** *** One rule per request *)

Lemma assign_rule id nodeID w : inst_inv (st w) ->
  wp env (assign id nodeID) (fun _ w' => good (ReqAssign id nodeID) (st w) (st w')) w.
Proof.
  intros Hinv. apply wp_bind. rewrite wp_now. apply wp_mapped. change (st w) with (st (tick w)).
  apply (wp_update1 _ (ReqAssign id nodeID)); auto.
  intros i Hi Hp. unfold has_id, placed in Hp. breflect. apply is_empty_spec in H0.
  split; [may_right|row_kept Hinv Hi].
Qed.

Lemma hold_rule id reason w : inst_inv (st w) ->
  wp env (holdPlacement id reason) (fun _ w' => good (ReqHold id reason) (st w) (st w')) w.
Proof.
  intros Hinv. apply wp_bind. rewrite wp_now. apply wp_mapped. change (st w) with (st (tick w)).
  apply wp_writes; intros w' ->; [by apply good_refl|]. simpl.
  apply good_update; [by apply good_refl|auto|]. intros i0 i Hi0 Hi Hp Hm.
  rewrite (same_row _ i i0 Hinv Hi Hi0) by (symmetry; apply Hm). unfold has_id in Hp. breflect.
  split; [may_right|row_kept Hinv Hi].
Qed.

Lemma release_rule id nodeID w : inst_inv (st w) ->
  wp env (releasePlacement deps id nodeID) (fun _ w' => good (ReqRelease id nodeID) (st w) (st w')) w.
Proof.
  intros Hinv. apply wp_bind. rewrite wp_now. apply wp_bind, wp_mapped. change (st w) with (st (tick w)).
  apply (wp_update1 _ (ReqRelease id nodeID)); auto.
  - intros i Hi Hp. unfold has_id, on_node in Hp. breflect. split; [|row_kept Hinv Hi].
    constructor; simpl; auto; right; simpl; unfold held_by; auto.
  - intros o w' Hg _ _ _. destruct o; simpl; [|done]. apply wp_quiet; [|intros ? ? ->; done].
    apply quiet_when. intros n E. by apply (deaf_networks n E).
Qed.

Lemma report_rule nodeID id observed message restarts exitCode w : inst_inv (st w) ->
  wp env (reportObserved deps nodeID id observed message restarts exitCode)
    (fun _ w' => good (ReqReport nodeID id observed message restarts exitCode) (st w) (st w')) w.
Proof.
  intros Hinv. unfold reportObserved.
  do 3 (apply wp_bind; rewrite wp_lift; case_match; [|by apply good_refl]).
  apply wp_bind, wp_attempt, get_row_rule. intros before w1 Hw1 _.
  apply wp_bind. rewrite wp_now. apply wp_bind, wp_mapped. rewrite <- Hw1.
  change (st w1) with (st (tick w1)). rewrite <- Hw1 in Hinv.
  apply (wp_update1 _ (ReqReport nodeID id observed message restarts exitCode)); auto.
  - intros i Hi Hp. unfold has_id, on_node in Hp. breflect. split; [may_right|row_kept Hinv Hi].
  - intros o w' Hg _ _ _. destruct o; simpl; [|done]. apply wp_quiet; [|intros ? ? ->; done].
    apply quiet_bind; [apply quiet_get|]. intros after. destruct before; auto with quiet.
    apply quiet_bind; auto with quiet. intros. unfold noteTransition. case_match; auto with quiet.
    case_match; auto with quiet. by intros ? ?.
Qed.

Lemma setDesired_rule ref projectID desired w : inst_inv (st w) ->
  wp env (setDesired ref projectID desired) (fun _ w' => good (ReqSetDesired ref projectID desired) (st w) (st w')) w.
Proof.
  intros Hinv. apply wp_bind, getIn_rule. intros [x|] w1 Hw1 Hx; [|rewrite Hw1; by apply good_refl].
  apply wp_bind. rewrite wp_now. apply wp_bind, wp_mapped. rewrite <- Hw1 in *. change (st w1) with (st (tick w1)).
  apply (wp_update1 _ (ReqSetDesired ref projectID desired)); auto.
  - intros i Hi Hp. unfold has_id in Hp. breflect. destruct Hx as [Hx Ha].
    rewrite (same_row _ x i Hinv Hx Hi Hp) in *. split; [may_right|row_kept Hinv Hx].
  - intros o w' Hg _ _ _. destruct o; simpl; [|done]. apply wp_quiet; [|intros ? ? ->; done]. auto with quiet.
Qed.

Lemma resize_rule ref projectID vcpu memory w : inst_inv (st w) ->
  wp env (resize deps ref projectID vcpu memory) (fun _ w' => good (ReqResize ref projectID vcpu memory) (st w) (st w')) w.
Proof.
  intros Hinv. unfold resize. apply wp_bind, getIn_rule. intros [x|] w1 Hw1 Hx; [|rewrite Hw1; by apply good_refl].
  destruct Hx as [Hx Ha]. cbv zeta. set (v := if vcpu =? 0 then _ else _). set (m := if memory =? 0 then _ else _).
  rewrite <- Hw1 in *. case_match; [by apply good_refl|].
  apply wp_bind. rewrite wp_lift. unfold guard. destruct (_ || _) eqn:Ev; [by apply good_refl|].
  apply wp_bind. rewrite wp_lift. destruct ((m <? _) || _) eqn:Em; [by apply good_refl|]. breflect.
  apply wp_bind, wp_quiet; [apply quiet_when; intros q E; by apply (deaf_quota q E)|].
  intros [|] w2 Hw2; rewrite <- Hw2 in *; [|by apply good_refl].
  apply wp_bind. rewrite wp_now. apply wp_bind, wp_mapped. change (st w2) with (st (tick w2)).
  apply (wp_update1 _ (ReqResize ref projectID vcpu memory)); auto.
  - intros i Hi Hp. unfold has_id in Hp. breflect. rewrite (same_row _ x i Hinv Hx Hi Hp) in *.
    split; [may_right|]. split; [unfold sized; simpl; lia|exact (ii_parked _ Hinv _ Hx)].
  - intros o w' Hg _ _ _. destruct o; simpl; [|done]. apply wp_quiet; [|intros ? ? ->; done]. auto with quiet.
Qed.

Lemma begin_rule id nodeID w : inst_inv (st w) ->
  wp env (beginMigration id nodeID) (fun _ w' => good (ReqBegin id nodeID) (st w) (st w')) w.
Proof.
  intros Hinv. unfold beginMigration. apply wp_bind, translated_row_rule.
  intros [x|] w1 Hw1 Hx; rewrite <- Hw1 in *; [|by apply good_refl]. destruct Hx as [Hx Eid].
  apply wp_bind. rewrite wp_lift. unfold guard. destruct (negb _) eqn:En; [by apply good_refl|]. breflect.
  destruct (in_Migrating x) eqn:Em; [by apply good_refl|].
  assert (Hrow : forall i, i ∈ db_instances (st w1) -> in_ID i = id -> i = x).
  { intros i Hi E. apply (same_row _ x i Hinv Hx Hi). congruence. }
  assert (Hpark : in_DiskParked x = false).
  { destruct (in_DiskParked x) eqn:E; [|done]. destruct (ii_parked _ Hinv _ Hx E). congruence. }
  apply wp_bind. rewrite wp_now. apply wp_bind, wp_mapped. change (st w1) with (st (tick w1)).
  apply (wp_update1 _ (ReqBegin id nodeID)); auto.
  - intros i Hi Hp. unfold has_id in Hp. breflect. rewrite (Hrow i Hi Hp) in *. split; [may_right|row_kept Hinv Hx].
  - intros o w2 Hg _ _ _. destruct o; simpl; [|done]. apply wp_bind. rewrite wp_now. change (st w2) with (st (tick w2)) in Hg.
    apply (wp_update _ (ReqBegin id nodeID) (st (tick w1))); auto.
    intros i0 i Hi0 Hi Hp Hm. unfold has_id in Hp. breflect. pose proof Hm as [E1 E2 E3 E4 E5 E6 E7].
    rewrite (Hrow i0 Hi0) in * by congruence. split; [|split; [exact (ii_sized _ (proj1 Hg) _ Hi)|done]].
    constructor; simpl; auto. right. simpl. unfold held_by. auto.
Qed.

(** A change of the directory that keeps the files of the instances. *)
Lemma wp_files what r st0 f (Q : outcome unit -> World S -> Prop) w :
  good r st0 (st w) -> files_kept r (parked_files (st w)) (f (parked_files (st w))) ->
  (forall i, i ∈ db_instances (st w) -> parked_ok (parked_files (st w)) i -> parked_ok (f (parked_files (st w))) i) ->
  (forall o w', good r st0 (st w') -> db_instances (st w') = db_instances (st w) ->
     parked_files (st w') = (match o with Ok _ => f (parked_files (st w)) | Err _ => parked_files (st w) end) -> Q o w') ->
  wp env (on_files what f) Q w.
Proof.
  intros Hg Hk Hf HQ. apply wp_write; intros w' Hw'; apply HQ; rewrite Hw'; try done. by apply good_files.
Qed.

Lemma parked_ok_other files files' i : (forall id name, parkedName id = Ok name -> files' !! name = files !! name) ->
  parked_ok files i -> parked_ok files' i.
Proof. intros Hf Hp Ht. destruct (Hp Ht) as (? & name & En & Hs). split; [done|]. exists name. by rewrite (Hf _ _ En). Qed.

Lemma discard_rule r st0 partial (Q : outcome unit -> World S -> Prop) w :
  good r st0 (st w) -> (forall id name, parkedName id = Ok name -> name <> partial) ->
  (forall w', good r st0 (st w') -> db_instances (st w') = db_instances (st w) -> Q (Ok tt) w') ->
  wp env (discard partial) Q w.
Proof.
  intros Hg Hp HQ. apply wp_bind, wp_attempt. apply (wp_files _ r st0); [done| | |].
  - intros id name E. left. apply lookup_delete_ne. intros Ep. by apply (Hp id name).
  - intros i _. apply parked_ok_other. intros id name E. apply lookup_delete_ne. intros Ep. by apply (Hp id name).
  - intros o w' Hg' Hr _. rewrite wp_ret. by apply HQ.
Qed.

Lemma wp_or_discard partial (m : M S unit) (Q : outcome unit -> World S -> Prop) w :
  wp env m (fun o w' => match o with
    | Ok _ => Q (Ok tt) w'
    | Err e => wp env (discard partial) (fun o w'' => match o with Ok _ => Q (Err (Internal e)) w'' | Err _ => False end) w'
    end) w -> wp env (or_discard partial m) Q w.
Proof.
  intros H. apply wp_bind, wp_attempt. eapply wp_mono; [|exact H]. intros [[]|e] w'; [done|]. intros Hd. apply wp_bind.
  eapply wp_mono; [|exact Hd]. by intros [[]|e'] w'' HQ.
Qed.

(** The file appears under its name last, and only the partial file is written before. *)
Lemma park_file_rule r st0 id name content w : parkedName id = Ok name -> parks r id -> good r st0 (st w) ->
  wp env (park_file name content) (fun o w' => good r st0 (st w') /\ db_instances (st w') = db_instances (st w) /\
    (o = Ok tt -> parked_files (st w') !! name = Some content)) w.
Proof.
  intros Hname Hparks Hg. unfold park_file. set (partial := name +:+ ".part").
  assert (Hp : forall id name, parkedName id = Ok name -> name <> partial) by (intros; by eapply partial_not_parked).
  assert (Hkeep : forall c files i, parked_ok files i -> parked_ok (<[partial := c]> files) i).
  { intros c files i. apply parked_ok_other. intros j n E. apply lookup_insert_ne. intros <-. by apply (Hp j partial). }
  assert (Hfiles : forall c files, files_kept r files (<[partial := c]> files)).
  { intros c files j n E. left. apply lookup_insert_ne. intros <-. by apply (Hp j partial). }
  apply wp_bind, wp_mapped, wp_read. intros o _. change (st (tick w)) with (st w). destruct o; simpl; [|done].
  apply wp_bind, wp_mapped, (wp_files _ r st0); [done|auto|auto|]. change (st (tick w)) with (st w).
  intros o w1 Hg1 Hr1 _. destruct o as [[]|]; simpl; [|done]. rewrite <- Hr1. clear Hg Hr1.
  set (written := str_take _ _).
  apply wp_bind, wp_or_discard, (wp_files _ r st0); [done|auto|auto|]. intros o w2 Hg2 Hr2 Hf2.
  destruct o as [[]|]; [|apply (discard_rule r st0); auto; intros; split_and!; congruence || done].
  rewrite <- Hr2. clear Hg1 Hr2.
  apply wp_bind, wp_or_discard, wp_read. change (st (tick w2)) with (st w2). intros o _.
  destruct o; [|apply (discard_rule r st0); auto; intros; split_and!; congruence || done].
  destruct (MaxParkedDiskBytes <? slen written) eqn:El.
  { apply wp_bind, (discard_rule r st0); [done|done|]. intros w3 Hg3 Hr3. rewrite wp_fail. split_and!; congruence || done. }
  assert (Hm : moved partial name (parked_files (st w2)) = <[name := content]> (base.delete partial (parked_files (st w2)))).
  { unfold moved. rewrite Hf2, lookup_insert_eq. breflect. f_equal. by apply str_take_small. }
  apply wp_or_discard, (wp_files _ r st0); [done| | |].
  - change (st (tick w2)) with (st w2). rewrite Hm. intros j n E. destruct (decide (n = name)) as [->|Hne].
    + right; right. by rewrite (parkedName_inj _ _ _ E Hname).
    + left. rewrite lookup_insert_ne by done. rewrite lookup_delete_ne; [done|]. intros <-. by apply (Hp j partial).
  - change (st (tick w2)) with (st w2). rewrite Hm. intros i Hi Hpi Ht. destruct (Hpi Ht) as (Hmig & n & En & Hs).
    split; [done|]. exists n. split; [done|]. destruct (decide (n = name)) as [->|Hne]; [by rewrite lookup_insert_eq|].
    rewrite lookup_insert_ne by done. rewrite lookup_delete_ne; [done|]. intros <-. by apply (Hp (in_ID i) partial).
  - change (st (tick w2)) with (st w2). intros o w3 Hg3 Hr3 Hf3. destruct o as [[]|].
    + split_and!; [done..|]. intros _. by rewrite Hf3, Hm, lookup_insert_eq.
    + apply (discard_rule r st0); auto. intros; split_and!; congruence || done.
Qed.

(** The disk of [id], as long as it is there, is [content], handed over by [nodeID]. *)
Definition carries (id nodeID content : string) (s : InstState) : Prop :=
  exists name, parkedName id = Ok name /\
    (parked_files s !! name = Some content \/ parked_files s !! name = None) /\
    forall x, x ∈ db_instances s -> in_ID x = id -> in_DiskParked x = true -> in_DiskFrom x = nodeID.

Lemma park_rule nodeID id content w : inst_inv (st w) ->
  wp env (parkDisk deps nodeID id content) (fun o w' => good (ReqPark nodeID id content) (st w) (st w') /\
    (o = Ok tt -> carries id nodeID content (st w'))) w.
Proof.
  intros Hinv. unfold parkDisk. apply wp_bind, translated_row_rule.
  intros [x|] w1 Hw1 Hx; rewrite <- Hw1 in *; [|split; [by apply good_refl|done]]. destruct Hx as [Hx Eid].
  apply wp_bind. rewrite wp_lift. unfold guard. destruct (negb (String.eqb _ _)) eqn:En; [split; [by apply good_refl|done]|].
  apply wp_bind. rewrite wp_lift. destruct (negb (in_Migrating x)) eqn:Em; [split; [by apply good_refl|done]|]. breflect.
  apply wp_bind, wp_mapped, wp_quiet.
  { unfold parkDir. case_match; auto with quiet. }
  intros o w2 Hw2. rewrite <- Hw2 in *. destruct o as [[]|]; simpl; [|split; [by apply good_refl|done]].
  apply wp_bind. rewrite wp_lift. destruct (parkedName id) as [name|] eqn:Ename; simpl; [|split; [by apply good_refl|done]].
  apply wp_bind. eapply wp_mono; [|apply (park_file_rule (ReqPark nodeID id content) (st w2) id); [done|done|by apply good_refl]].
  intros o w3 (Hg & Hr & Hf). destruct o as [[]|]; [|split; [done|done]]. specialize (Hf eq_refl).
  apply wp_bind. rewrite wp_now. change (st w3) with (st (tick w3)) in *.
  apply (wp_update _ (ReqPark nodeID id content) (st w2)); auto.
  - intros i0 i Hi0 Hi Hp Hm. unfold has_id in Hp. breflect. pose proof Hm as [E1 E2 E3 E4 E5 E6 E7].
    assert (i0 = x) as -> by (apply (same_row _ x i0 Hinv Hx Hi0); congruence).
    split; [|split; [exact (ii_sized _ (proj1 Hg) _ Hi)|]].
    + constructor; simpl; auto. right. simpl. unfold held_by. auto.
    + intros _. split; [done|]. exists name. rewrite Hf. simpl. split; [congruence|done].
  - intros o w4 Hg4 Hf4 _ Hrows. split; [done|]. intros Eo. exists name. split; [done|]. rewrite Hf4. split; [by left|].
    intros j Hj Ej _. rewrite (Hrows Eo) in Hj. apply list_elem_of_fmap in Hj as (y & -> & _). unfold has_id in *.
    destruct (String.eqb_spec (in_ID y) id) as [|Hy]; [done|]. simpl in Ej. congruence.
Qed.

Lemma quiet_parkDir : quiet (parkDir deps).
Proof. unfold parkDir. case_match; auto with quiet. Qed.

(** A disk is handed out only as it was parked, to the node the instance is on, which is not
    the one it came from. *)
Lemma take_rule nodeID id w :
  wp env (parkedDisk deps nodeID id) (fun o w' => st w' = st w /\ forall content, o = Ok content ->
    exists x name, x ∈ db_instances (st w) /\ held_by id nodeID x /\ in_Migrating x = true /\ in_DiskParked x = true /\
      in_DiskFrom x <> nodeID /\ parkedName id = Ok name /\ parked_files (st w) !! name = Some content) w.
Proof.
  unfold parkedDisk. apply wp_bind, translated_row_rule. intros [x|] w1 Hw1 Hx; [|done]. destruct Hx as [Hx Eid].
  apply wp_bind. rewrite wp_lift. unfold guard. destruct (negb (String.eqb _ _)) eqn:En; [done|].
  apply wp_bind. rewrite wp_lift. destruct (negb (in_Migrating x) || _) eqn:Em; [done|].
  apply wp_bind. rewrite wp_lift. destruct (String.eqb nodeID _) eqn:Ef; [done|]. breflect.
  apply wp_bind, wp_mapped, wp_quiet; [apply quiet_parkDir|].
  intros o w2 Hw2. rewrite Hw1 in Hw2. destruct o as [[]|]; [|done].
  apply wp_bind. rewrite wp_lift. destruct (parkedName id) as [name|] eqn:Ename; [|done].
  apply wp_bind, wp_mapped, wp_read. intros o _. change (st (tick w2)) with (st w2). destruct o; [|done].
  apply wp_mapped, wp_read. change (st (tick w2)) with (st w2). intros o Ho. change (st (tick (tick w2))) with (st w2).
  destruct Ho as [->| ->]; [done|]. rewrite Hw2. destruct (parked_files (st w) !! name) as [c|] eqn:Ec; [|done].
  split; [done|]. intros c' [= <-]. exists x, name. unfold held_by. split_and!; auto.
Qed.

Lemma forgetParked_rule r st0 id (Q : outcome unit -> World S -> Prop) w :
  good r st0 (st w) -> (forall i, i ∈ db_instances (st w) -> in_ID i = id -> in_DiskParked i = false) ->
  (forall w', good r st0 (st w') -> db_instances (st w') = db_instances (st w) -> Q (Ok tt) w') ->
  wp env (forgetParked deps id) Q w.
Proof.
  intros Hg Hid HQ. unfold forgetParked. apply wp_bind, wp_attempt, wp_quiet; [apply quiet_parkDir|].
  intros o w1 Hw1. rewrite <- Hw1 in *. destruct o; [|rewrite wp_ret; auto].
  destruct (parkedName id) as [name|] eqn:En; [|rewrite wp_ret; auto].
  apply wp_bind, wp_attempt, (wp_files _ r st0); [done| | |].
  - intros j n E. destruct (decide (n = name)) as [->|]; [right; left; apply lookup_delete_eq|left; by apply lookup_delete_ne].
  - intros i Hi Hp Ht. destruct (Hp Ht) as (Hm & n & Ei & Hs). split; [done|]. exists n. split; [done|].
    rewrite lookup_delete_ne; [done|]. intros <-. specialize (Hid i Hi). rewrite Ht in Hid.
    by discriminate Hid; apply (parkedName_inj _ _ name).
  - intros o w' Hg' Hr _. rewrite wp_ret. by apply HQ.
Qed.

Lemma finish_rule nodeID id w : inst_inv (st w) ->
  wp env (finishMigration deps nodeID id) (fun _ w' => good (ReqFinish nodeID id) (st w) (st w')) w.
Proof.
  intros Hinv. unfold finishMigration. apply wp_bind, translated_row_rule.
  intros [x|] w1 Hw1 Hx; rewrite <- Hw1 in *; [|by apply good_refl]. destruct Hx as [Hx Eid].
  apply wp_bind. rewrite wp_lift. unfold guard. destruct (negb (String.eqb _ _)) eqn:En; [by apply good_refl|].
  destruct (negb (in_Migrating x)) eqn:Em; [by apply good_refl|]. breflect.
  assert (Hrow : forall i, i ∈ db_instances (st w1) -> in_ID i = id -> i = x).
  { intros i Hi E. apply (same_row _ x i Hinv Hx Hi). congruence. }
  apply wp_bind. rewrite wp_now. apply wp_bind, wp_mapped. change (st w1) with (st (tick w1)).
  apply (wp_update1 _ (ReqFinish nodeID id)); auto.
  { intros i Hi Hp. unfold has_id in Hp. breflect. rewrite (Hrow i Hi Hp) in *. split; [may_right|].
    split; [exact (ii_sized _ Hinv _ Hx)|done]. }
  intros o w2 Hg _ _ Hrows. destruct o as [[]|]; [|done]. specialize (Hrows eq_refl).
  apply wp_bind. rewrite wp_now. apply wp_bind, wp_mapped. change (st w2) with (st (tick w2)) in *.
  apply (wp_update _ (ReqFinish nodeID id) (st (tick w1))); auto.
  { intros i0 i Hi0 Hi Hp Hm. unfold has_id in Hp. breflect. pose proof Hm as [E1 E2 E3 E4 E5 E6 E7].
    rewrite (Hrow i0 Hi0) in * by congruence. split; [|row_kept (proj1 Hg) Hi].
    constructor; simpl; auto. right. simpl. unfold held_by. auto. }
  intros o w3 Hg3 _ _ Hrows3. destruct o as [[]|]; [|done]. specialize (Hrows3 eq_refl).
  apply wp_bind, (forgetParked_rule (ReqFinish nodeID id) (st (tick w1))); [done| |].
  - intros i Hi E. rewrite Hrows3, Hrows, map_map in Hi. apply list_elem_of_fmap in Hi as (y & -> & _).
    unfold has_id in *. destruct (String.eqb_spec (in_ID y) id) as [Ey|Ey]; simpl in *.
    + by rewrite (proj2 (String.eqb_eq _ _) Ey).
    + rewrite (proj2 (String.eqb_neq _ _) Ey) in *. done.
  - intros w4 Hg4 _. apply wp_quiet; [apply quiet_get|]. by intros ? ? ->.
Qed.

Lemma delete_rule ref projectID w : inst_inv (st w) ->
  wp env (delete deps ref projectID) (fun _ w' => good (ReqDelete ref projectID) (st w) (st w')) w.
Proof.
  intros Hinv. unfold delete. apply wp_bind, getIn_rule. intros [x|] w1 Hw1 Hx; rewrite <- Hw1 in *; [|by apply good_refl].
  destruct Hx as [Hx Ha]. apply wp_bind, wp_mapped, wp_writes; [intros w' ->; by apply good_refl|].
  rewrite delete_where_rows. intros w2 Hw2.
  assert (Hg : good (ReqDelete ref projectID) (st w1) (st w2)).
  { rewrite Hw2. split; [constructor; simpl|split; simpl].
    - apply unique_by_filter, Hinv.
    - apply unique_by_filter, Hinv.
    - intros i [Hi _]%elem_of_filter_bool. by apply Hinv.
    - intros i [Hi _]%elem_of_filter_bool. by apply Hinv.
    - intros j [Hj _]%elem_of_filter_bool. left. eauto using may_change_refl.
    - intros i Hi. destruct (has_id (in_ID x) i) eqn:E; unfold has_id in E; breflect.
      + right. by rewrite (same_row _ x i Hinv Hx Hi E).
      + left. exists i. split; [|done]. apply elem_of_filter_bool. unfold has_id.
        by rewrite (proj2 (String.eqb_neq _ _) E).
    - intros id name _. by left. }
  destruct (fst _) as [[]|]; [|done].
  apply wp_bind, (forgetParked_rule (ReqDelete ref projectID) (st w1)); [done| |].
  - intros i Hi E. rewrite Hw2 in Hi. simpl in Hi. apply elem_of_filter_bool in Hi as [_ Hi].
    unfold has_id in Hi. breflect. done.
  - intros w3 Hg3 _. apply wp_quiet; [|by intros ? ? ->]. apply quiet_foldM. intros step a Hstep.
    apply quiet_mapped. pose proof (deaf_cleanups (in_ID x)) as Hq. rewrite Forall_forall in Hq. by apply Hq.
Qed.

Lemma good_insert r st0 i : inst_inv st0 -> created r i -> existsb (instance_clash i) (db_instances st0) = false ->
  sized i -> in_DiskParked i = false -> good r st0 (MkInstState (db_instances st0 ++ [i]) (parked_files st0)).
Proof.
  intros Hinv Hc Hx Hs Hp. rewrite existsb_false, Forall_forall in Hx.
  split; [constructor; simpl|split; simpl].
  - apply unique_by_app; [apply Hinv|]. intros j k Hj [= <-] [= E]. specialize (Hx j Hj).
    unfold instance_clash, has_id in Hx. by rewrite E, String.eqb_refl in Hx.
  - apply unique_by_app; [apply Hinv|]. intros j k Hj [= <-] [= E1 E2]. specialize (Hx j Hj).
    unfold instance_clash, named in Hx. by rewrite E1, E2, !String.eqb_refl, orb_true_r in Hx.
  - intros j [Hj| ->%list_elem_of_singleton]%elem_of_app; [by apply Hinv|done].
  - intros j [Hj| ->%list_elem_of_singleton]%elem_of_app; [by apply Hinv|]. intros Ht. congruence.
  - intros j [Hj| ->%list_elem_of_singleton]%elem_of_app; [left; eauto using may_change_refl|by right].
  - intros j Hj. left. exists j. split; [set_solver|done].
  - intros id name _. by left.
Qed.

Lemma quiet_admit params normalized : quiet (admit_create deps params normalized).
Proof.
  unfold admit_create. apply quiet_bind.
  { apply quiet_when. intros q E. by apply (deaf_quota q E). }
  intros _. apply quiet_bind.
  { case_match; auto with quiet. apply quiet_when. intros n E. by apply (deaf_networks n E). }
  intros networkID. apply quiet_bind.
  { apply quiet_when. intros n E. apply quiet_foldM. intros id a _. case_match; auto with quiet.
    apply quiet_bind; [by apply (deaf_networks n E)|auto with quiet]. }
  intros _. apply quiet_bind; [|auto with quiet]. case_match; auto with quiet. apply quiet_when. intros f E.
  apply quiet_bind; [by apply (deaf_firewalls f E)|auto with quiet].
Qed.

Lemma quiet_authorized params normalized : quiet (authorizedKeys deps params normalized).
Proof.
  unfold authorizedKeys. repeat (case_match; auto with quiet). by apply (deaf_keys k).
Qed.

Lemma quiet_sealing (e : gmap string string) files : quiet (sealEnv deps e) /\ quiet (sealFiles deps files).
Proof.
  unfold sealEnv, sealFiles, with_ring. split; case_match; auto with quiet; apply quiet_mapped.
  - case_match; auto with quiet. by apply (deaf_sealing k).
  - apply quiet_bind; [|intros []; auto with quiet]. case_match; auto with quiet. by apply (deaf_sealing k).
Qed.

Lemma create_rule params w : inst_inv (st w) ->
  wp env (create deps params) (fun _ w' => good (ReqCreate params) (st w) (st w')) w.
Proof.
  intros Hinv. unfold create. apply wp_bind. rewrite wp_lift.
  destruct (normalize params) as [q|] eqn:En; [|by apply good_refl].
  apply normalize_ok in En as (_ & device & disk & policy & vcpu & memory & -> & _ & _ & _ & _ & _ & Hv & Hm).
  apply wp_bind, wp_quiet; [apply quiet_authorized|]. intros [keys|] w1 Hw1; rewrite <- Hw1 in *; [|by apply good_refl].
  apply wp_bind, wp_quiet; [apply quiet_admit|]. intros [net|] w2 Hw2; rewrite <- Hw2 in *; [|by apply good_refl].
  apply wp_bind, wp_quiet; [by apply (quiet_sealing _ [])|]. intros [[env_ key]|] w3 Hw3; rewrite <- Hw3 in *; [|by apply good_refl].
  apply wp_bind, wp_quiet; [by apply (quiet_sealing ∅)|]. intros [files|] w4 Hw4; rewrite <- Hw4 in *; [|by apply good_refl].
  cbv zeta. apply wp_bind. rewrite wp_now. apply wp_bind. unfold ids_New. apply wp_bind. rewrite wp_rand, wp_ret.
  set (i := MkInstance _ _ _ _ _ _ _ _ _ _ _ _ _ _).
  assert (Hs : sized i) by done.
  apply wp_bind, wp_mapped. change (st w4) with (st (tick (tick w4))) in *. set (w5 := tick (tick w4)) in *. clearbody w5.
  apply wp_bind, wp_reads. intros o w6 Hw6 Ho. rewrite <- Hw6 in *. destruct o as [[]|]; [by apply good_refl| |by apply good_refl].
  apply wp_writes; [intros w7 ->; by apply good_refl|]. intros w7 Hw7. unfold insert_row in *.
  destruct (existsb (instance_clash i) (db_instances (st w6))) eqn:Ex; simpl in *.
  { replace (st w7) with (st w6) by (rewrite Hw7; by destruct (st w6)). by apply good_refl. }
  rewrite wp_ret, Hw7. by apply good_insert.
Qed.

Lemma serve_rule r w : inst_inv (st w) -> wp env (serve deps r) (fun _ w' => good r (st w) (st w')) w.
Proof.
  intros Hinv. destruct r; cbn [serve].
  - apply wp_bind. eapply wp_mono; [|by apply create_rule]. by intros [].
  - apply wp_bind. eapply wp_mono; [|by apply setDesired_rule]. by intros [].
  - apply wp_bind. eapply wp_mono; [|by apply resize_rule]. by intros [].
  - by apply delete_rule.
  - apply wp_bind. eapply wp_mono; [|by apply report_rule]. by intros [].
  - by apply assign_rule.
  - by apply hold_rule.
  - by apply release_rule.
  - by apply begin_rule.
  - eapply wp_mono; [|by apply park_rule]. by intros ? ? [].
  - apply wp_bind. eapply wp_mono; [|apply take_rule]. intros [] w' [E _]; [rewrite wp_ret|]; rewrite E; by apply good_refl.
  - apply wp_bind. eapply wp_mono; [|by apply finish_rule]. by intros [].
Qed.

(** Requests that do not park it again leave it so. *)
Lemma carries_kept r st0 st1 id nodeID content : ~ parks r id -> inst_inv st1 -> evolves r st0 st1 ->
  carries id nodeID content st0 -> carries id nodeID content st1.
Proof.
  intros Hr Hinv [Hrows _ Hfiles] (name & En & Hc & Hfrom). exists name. split; [done|].
  split; [destruct (Hfiles id name En) as [->|[->|?]]; [done|by right|done]|].
  intros j Hj Ej Hp. destruct (Hrows j Hj) as [(i & Hi & [E1 _ _ _ _ Hm _])|Hcr].
  - destruct Hm as [[= _ E2 E3]|Hm]; [rewrite E3; apply Hfrom; congruence|]. exfalso.
    destruct r; simpl in Hm; try done; destruct Hm as ([Hid _] & _ & [= _ E2 E3]); try congruence.
  - exfalso. destruct r; simpl in Hcr; try done. destruct Hcr as (_ & _ & _ & _ & _ & _ & _ & _ & E). congruence.
Qed.

Lemma serve_all_rule rs w : inst_inv (st w) -> wp env (serve_all deps rs) (fun _ w' => inst_inv (st w')) w.
Proof.
  intros Hinv. unfold serve_all.
  eapply wp_mono; [|apply (wp_foldM env (fun _ w' => inst_inv (st w')) (fun _ w' => inst_inv (st w')))].
  - by intros [].
  - intros r _ w1 _ H1. apply wp_bind, wp_attempt. eapply wp_mono; [|by apply serve_rule]. by intros o w' [? _].
  - done.
Qed.
End rules.

(** * Properties *)

Section properties.
Context {S : Type} `{!Has InstState S}.
Abbreviation st w := (part (T:=InstState) w).

(** What a report changes and what is recorded. *)
Lemma report_run (deps : Deps S) env nodeID id observed message restarts exitCode (w : World S) :
  inst_inv (st w) ->
  wp env (reportObserved deps nodeID id observed message restarts exitCode) (fun o w' =>
    match o with
    | Err _ => w_events w' = w_events w
    | Ok after => exists b, b ∈ db_instances (st w) /\ held_by id nodeID b /\
        (exists at_, after = set_observed observed message restarts exitCode at_ b) /\
        after ∈ db_instances (st w') /\
        w_events w' = w_events w ++
          (if d_events deps && negb (env_io env (w_step w)) then option_list (transition_entry b after) else [])
    end) w.
Proof.
  intros Hinv. unfold reportObserved.
  do 3 (apply wp_bind; rewrite wp_lift; case_match; [|done]).
  apply wp_bind, wp_attempt. eapply wp_mono with (P := fun o w1 => w1 = tick w /\ forall b, o = Ok b <->
    env_io env (w_step w) = false /\ b ∈ db_instances (st w) /\ in_ID b = id).
  2:{ apply wp_query. change (hget (w_st w)) with (st w). destruct (env_io env (w_step w)); (split; [done|]).
      - naive_solver.
      - intros b. split.
        + intros [Hb E]%select_one_ok. unfold has_id in E. by breflect.
        + intros (_ & Hb & E). unfold select_one. destruct (List.find _ _) as [c|] eqn:Ef.
          * apply find_some_elem in Ef as [Hc Ec]. unfold has_id in Ec. breflect. f_equal.
            apply (same_row (st w)); [done|done|done|congruence].
          * pose proof (find_none_elem _ _ _ Ef Hb) as Hn. unfold has_id in Hn. breflect. congruence. }
  intros before w1 [-> Hbefore]. apply wp_bind. rewrite wp_now. apply wp_bind, wp_mapped, wp_sql.
  set (w2 := tick (tick w)). destruct (env_io env (w_step w2)); [done|].
  change (hget (w_st w2)) with (st w). set (upd := update_where _ _ _ _).
  destruct upd as [o rows] eqn:Eu. simpl. destruct o as [[]|]; [|done].
  assert (Hex : exists b, b ∈ db_instances (st w) /\ held_by id nodeID b).
  { assert (Hf : fst upd = Ok tt) by (by rewrite Eu). apply update_where_ok in Hf as (b & Hb & E).
    exists b. unfold has_id, on_node in E. breflect. done. }
  destruct Hex as (b & Hb & Hheld).
  assert (Hrows : rows = map (fun i => if has_id id i && on_node nodeID i then set_observed observed message restarts exitCode (env_now env (w_step (tick w))) i else i)
    (db_instances (st w))) by (rewrite <- (update_where_rows _ _ errNotFound); fold upd; by rewrite Eu).
  apply wp_bind, wp_mapped, wp_query. simpl.
  match goal with |- if ?b then _ else _ => destruct b end; [done|]. rewrite hget_hput. simpl db_instances.
  destruct (select_one (has_id id) errNotFound rows) as [after|] eqn:Esel; [|done]. simpl or_fault. cbv iota beta.
  apply select_one_ok in Esel as [Hafter Eid]. unfold has_id in Eid. breflect.
  assert (Ha : exists at_, after = set_observed observed message restarts exitCode at_ b).
  { exists (env_now env (w_step (tick w))). rewrite Hrows in Hafter. apply list_elem_of_fmap in Hafter as (y & Ey & Hy).
    destruct Hheld as [Hbid Hbn]. assert (y = b) as ->.
    { apply (same_row (st w)); [done|done|done|]. rewrite Hbid, <- Eid, Ey. by case_match. }
    rewrite Ey. unfold has_id, on_node. by rewrite (proj2 (String.eqb_eq _ _) Hbid), (proj2 (String.eqb_eq _ _) Hbn). }
  set (w3 := tick _).
  assert (Hst : after ∈ db_instances (st w3)).
  { unfold st, w3, part. simpl. by rewrite hget_hput. }
  assert (Hev : w_events w3 = w_events w) by done. clearbody w3.
  destruct before as [b0|e].
  - destruct (proj1 (Hbefore b0) eq_refl) as (Hio & Hb0 & Eb0).
    rewrite (same_row (st w) b b0 Hinv Hb Hb0) by (destruct Hheld; congruence).
    apply wp_bind. unfold noteTransition. rewrite Hio. destruct (d_events deps); simpl.
    + destruct (transition_entry b after) as [ev|] eqn:Et; simpl; [rewrite wp_record|]; rewrite ?wp_ret;
        (exists b; do 4 (split; [done|]); rewrite Et; simpl; by rewrite ?Hev, ?app_nil_r).
    + rewrite wp_ret. exists b. do 4 (split; [done|]). by rewrite app_nil_r.
  - rewrite wp_ret. exists b. do 4 (split; [done|]). rewrite Hev.
    destruct (env_io env (w_step w)) eqn:Hio; [by rewrite andb_false_r, app_nil_r|].
    exfalso. by specialize (proj2 (Hbefore b) (conj eq_refl (conj Hb (proj1 Hheld)))).
Qed.
End properties.

(** ** A run *)

Module Demo.
(** A control plane without the optional modules, whose networks answer that every network
    exists and that the default one is [net-1]. *)
Definition networks : Networks InstState := {|
  DefaultNetworkID _ := ret "net-1"; NetworkExistsIn _ _ := ret true; ReleaseAddress _ := ret tt |}.
Definition deps : Deps InstState := {|
  d_networks := Some networks; d_keys := None; d_quota := None; d_volumes := None; d_forwards := None; d_balancers := None;
  d_logs := None; d_execs := None; d_alerts := None; d_devices := None; d_firewalls := None; d_sealing := None;
  d_dataDir := "data"; d_events := true |}.

#[export] Instance deps_deaf : Deaf deps.
Proof.
  constructor; try (intros x [=]; fail).
  - intros n [= <-]. split_and!; by intros ? ? ?.
  - intros id. simpl. constructor; [by intros ? ?|constructor].
Qed.

(** Every statement succeeds but those of [faults]. *)
Definition env_but (faults : list nat) : Env :=
  {| env_now n := Z.of_nat n * second; env_rand n := [Z.of_nat n]; env_io n := bool_decide (n ∈ faults) |}.
Definition env : Env := env_but [].
Definition empty : World InstState := MkWorld (MkInstState [] ∅) O [].
Definition params : CreateParams :=
  MkCreateParams "" "prj-1" "web" "" false ∅ ∅ [] [] [] "vm" "debian" "" "" 0 "" [] "" "" 2 1024.
Definition id : string := "i-0400000000000".
(** An instance that runs on node [nd-a]. *)
Definition running : World InstState := Eval vm_compute in
  snd (serve_all deps [ReqCreate params; ReqAssign id "nd-a"; ReqReport "nd-a" id "running" "" 0 None] env empty).
(** The same, on its way off that node. *)
Definition leaving : World InstState := Eval vm_compute in snd (serve deps (ReqBegin id "nd-a") env running).
Definition steps_between : list request := [ReqRelease id "nd-a"; ReqAssign id "nd-b"; ReqHold id "waiting"].

Lemma reachable rs w0 : inst_inv (w_st w0) -> inst_inv (w_st (snd (serve_all deps rs env w0))).
Proof.
  intros H. pose proof (serve_all_rule deps env rs w0 H) as Hr. unfold wp in Hr. by destruct (serve_all deps rs env w0).
Qed.

Lemma empty_inv : inst_inv (w_st empty).
Proof. constructor; simpl; auto with go; set_solver. Qed.

Lemma running_inv : inst_inv (w_st running).
Proof.
  replace running with (snd (serve_all deps [ReqCreate params; ReqAssign id "nd-a"; ReqReport "nd-a" id "running" "" 0 None] env empty))
    by (vm_compute; reflexivity). apply reachable, empty_inv.
Qed.

Lemma leaving_inv : inst_inv (w_st leaving).
Proof.
  replace leaving with (snd (serve_all deps [ReqBegin id "nd-a"] env running)) by (vm_compute; reflexivity).
  apply reachable, running_inv.
Qed.
End Demo.

(** C9: [serve_authority]: every request keeps the instances well formed (ids and names
    within a project unique, sizes within bounds, a disk that is said to be parked really
    there and only while its instance moves) and changes only what is its to change, also
    when the database or the disk fails half way: a node only its own instances, a project
    only its own, a placement only from or to no node, nothing the columns fixed at
    creation; rows appear only by a create and go only by a delete. *)
Theorem serve_authority {S} `{!Has InstState S} (deps : Deps S) (Hdeaf : Deaf deps) env r (w : World S)
    (Hinv : inst_inv (part w)) :
  let w' := snd (serve deps r env w) in
  inst_inv (part w') /\ evolves r (part (T:=InstState) w) (part w').
Proof. pose proof (serve_rule deps env r w Hinv) as H. unfold wp in H. by destruct (serve deps r env w). Qed.

Lemma serve_authority_witness :
  let w' := snd (serve Demo.deps (ReqPark "nd-a" Demo.id "disk") Demo.env Demo.leaving) in
  inst_inv (w_st w') /\ evolves (ReqPark "nd-a" Demo.id "disk") (w_st Demo.leaving) (w_st w').
Proof. apply (serve_authority Demo.deps Demo.deps_deaf), Demo.leaving_inv. Defined.

(** C10: [parked_disk_travels]: the disk a node is handed is byte for byte the one that was
    parked last, whatever was requested in between, and it is never handed back to the
    node that parked it. *)
Theorem parked_disk_travels {S} `{!Has InstState S} (deps : Deps S) (Hdeaf : Deaf deps) env from to id content taken rs
    (w w1 w2 w3 : World S) a (Hinv : inst_inv (part w))
    (Hpark : parkDisk deps from id content env w = (Ok tt, w1))
    (Hrun : serve_all deps rs env w1 = (a, w2)) (Hrs : forall r, r ∈ rs -> ~ parks r id)
    (Htake : parkedDisk deps to id env w2 = (Ok taken, w3)) :
  taken = content /\ to <> from.
Proof.
  pose proof (park_rule deps env from id content w Hinv) as H1. unfold wp in H1. rewrite Hpark in H1.
  destruct H1 as [[Hinv1 _] Hc1]. specialize (Hc1 eq_refl).
  assert (H2 : inst_inv (part w2) /\ carries id from content (part w2)).
  { assert (Hr : wp env (serve_all deps rs) (fun _ w' => inst_inv (part w') /\ carries id from content (part w')) w1).
    { unfold serve_all. eapply wp_mono; [|apply (wp_foldM env (fun _ w' => inst_inv (part w') /\ carries id from content (part w'))
        (fun _ w' => inst_inv (part w') /\ carries id from content (part w')))]; [by intros []| |done].
      intros r _ v Hr [Hi Hc]. apply wp_bind, wp_attempt. eapply wp_mono; [|by apply serve_rule].
      intros o v' [Hi' Hev]. simpl. rewrite wp_ret. split; [done|]. eapply carries_kept; eauto. }
    unfold wp in Hr. by rewrite Hrun in Hr. }
  destruct H2 as [Hinv2 (name & En & Hf & Hfrom)].
  pose proof (take_rule deps env to id w2) as H3. unfold wp in H3. rewrite Htake in H3.
  destruct H3 as [_ H3]. destruct (H3 _ eq_refl) as (x & n & Hx & [Ex _] & _ & Hp & Hne & En' & Hl).
  assert (n = name) as -> by congruence. split; [destruct Hf; congruence|]. rewrite <- (Hfrom x Hx Ex Hp). by apply not_eq_sym.
Qed.

Lemma parked_disk_travels_witness :
  let parked := parkDisk Demo.deps "nd-a" Demo.id "disk" Demo.env Demo.leaving in
  let landed := serve_all Demo.deps Demo.steps_between Demo.env (snd parked) in
  fst (parkedDisk Demo.deps "nd-b" Demo.id Demo.env (snd landed)) = Ok "disk" /\ "disk" = "disk" /\ "nd-b" <> "nd-a".
Proof.
  intros parked landed. split; [vm_compute; reflexivity|].
  apply (parked_disk_travels Demo.deps Demo.deps_deaf Demo.env "nd-a" "nd-b" Demo.id "disk" "disk" Demo.steps_between
    Demo.leaving (snd parked) (snd landed) (snd (parkedDisk Demo.deps "nd-b" Demo.id Demo.env (snd landed))) (Ok tt)).
  - exact Demo.leaving_inv.
  - vm_compute. reflexivity.
  - vm_compute. reflexivity.
  - intros r Hr. assert (E : forall r, r ∈ Demo.steps_between -> parks r Demo.id -> False) by (unfold Demo.steps_between; set_solver).
    intros Hp. exact (E r Hr Hp).
  - vm_compute. reflexivity.
Defined.

(** [reportObserved_spec]: a report is accepted only from the node the instance is on, it
    sets exactly what was observed, and one event is recorded when the state or the
    restart count moved and none otherwise (none either when the row could not be read
    before the report). *)
Theorem reportObserved_spec {S} `{!Has InstState S} (deps : Deps S) env nodeID id observed message restarts exitCode
    (w : World S) (Hinv : inst_inv (part w)) :
  let '(o, w') := reportObserved deps nodeID id observed message restarts exitCode env w in
  match o with
  | Err _ => w_events w' = w_events w
  | Ok after => exists b, b ∈ db_instances (part w) /\ held_by id nodeID b /\
      (exists at_, after = set_observed observed message restarts exitCode at_ b) /\
      after ∈ db_instances (part w') /\
      w_events w' = w_events w ++
        (if d_events deps && negb (env_io env (w_step w)) then option_list (transition_entry b after) else [])
  end.
Proof. exact (report_run deps env nodeID id observed message restarts exitCode w Hinv). Qed.

Lemma reportObserved_spec_witness :
  exists b after, held_by Demo.id "nd-a" b /\ fst (reportObserved Demo.deps "nd-a" Demo.id "failed" "boom" 1 (Some 2) Demo.env Demo.running) = Ok after /\
    w_events (snd (reportObserved Demo.deps "nd-a" Demo.id "failed" "boom" 1 (Some 2) Demo.env Demo.running)) =
      w_events Demo.running ++ option_list (transition_entry b after).
Proof.
  pose proof (reportObserved_spec Demo.deps Demo.env "nd-a" Demo.id "failed" "boom" 1 (Some 2) Demo.running Demo.running_inv) as H.
  destruct (reportObserved Demo.deps "nd-a" Demo.id "failed" "boom" 1 (Some 2) Demo.env Demo.running) as [[after|e] w'] eqn:E.
  - destruct H as (b & _ & Hb & _ & _ & Hev). exists b, after. exact (conj Hb (conj eq_refl Hev)).
  - vm_compute in E. discriminate E.
Defined.

(** C11: [listing_complete]: a client that follows the cursors of the list handler sees every
    instance of its project exactly once, in the order of the listing, whatever page size
    it asks for. *)
Theorem listing_complete {S} `{!Has InstState S} env projectID q_limit window (w : World S) fuel
    (Hio : forall n, env_io env n = false) (Hinv : inst_inv (part w))
    (Hlimit : page_From q_limit "" page_Default page_Max = Ok window)
    (Hfuel : (length (db_instances (part w)) < fuel)%nat) :
  fst (follow (list_page projectID q_limit) fuel "" env w) = fst (listIn projectID env w) /\
  fst (listIn projectID env w) = Ok (ordered (in_project projectID) (db_instances (part w))).
Proof.
  assert (E2 : fst (listIn projectID env w) = Ok (ordered (in_project projectID) (db_instances (part w)))).
  { unfold listIn, translated, mapped, attempt, bind, lift, listIn_rows, reads, query, sql. by rewrite Hio. }
  split; [|done]. rewrite E2.
  pose proof (follow_all created_text in_ID env (fun w => inst_inv (part w)) (fun w => db_instances (part w)) (in_project projectID)
    q_limit window (list_page projectID q_limit) fuel w) as H.
  unfold wp in H. destruct (follow _ fuel "" env w) as [r w']. apply H; auto.
  - intros q_after win w1 Hp H1. unfold list_page. apply wp_bind. rewrite wp_lift, Hp. apply wp_bind, wp_mapped.
    unfold pageIn_rows, reads. apply wp_query. rewrite Hio. simpl. rewrite wp_ret. split_and!; done.
  - intros w1 H1. apply H1.
  - intros w1 x _ _ _. split; [apply rfc3339nano_not_empty|apply rfc3339nano_no_nul].
Qed.

Lemma listing_complete_witness :
  let w := snd (serve_all Demo.deps [ReqCreate Demo.params; ReqCreate (MkCreateParams "" "prj-1" "db" "" false ∅ ∅ [] [] [] "vm" "debian" "" "" 0 "" [] "" "" 2 1024)] Demo.env Demo.empty) in
  fst (follow (list_page "prj-1" "1") 3 "" Demo.env w) = fst (listIn "prj-1" Demo.env w) /\
  fst (listIn "prj-1" Demo.env w) = Ok (ordered (in_project "prj-1") (db_instances (w_st w))).
Proof.
  intros w. refine (listing_complete Demo.env "prj-1" "1" {| win_Limit := 1; win_After := no_cursor |} w 3 _ _ _ _).
  - intros n. reflexivity.
  - apply Demo.reachable, Demo.empty_inv.
  - vm_compute. reflexivity.
  - vm_compute. lia.
Defined.

(** [migration_half_done]: a migration begins and ends with two updates each, and nothing
    undoes the first when the second fails.  Begun half way, the instance is stopped without
    being marked as moving: it is neither pending nor listed on the node it is to be taken
    off, so no later pass takes it up again.  Finished half way, the mark is gone before the
    instance is started again: the call that is repeated answers with success, and the
    instance stays stopped. *)
Theorem migration_half_done :
  (let '(r, w') := beginMigration Demo.id "nd-a" (Demo.env_but [w_step Demo.running + 4]%nat) Demo.running in
   (exists e, r = Err e) /\ map in_Desired (db_instances (w_st w')) = [DesiredStopped] /\
   map in_Migrating (db_instances (w_st w')) = [false] /\
   fst (strandedOn ["nd-a"] Demo.env w') = Ok [] /\ fst (pendingPlacement Demo.env w') = Ok []) /\
  (let landing := snd (serve_all Demo.deps [ReqRelease Demo.id "nd-a"; ReqAssign Demo.id "nd-b"] Demo.env Demo.leaving) in
   let '(r, w') := finishMigration Demo.deps "nd-b" Demo.id (Demo.env_but [w_step landing + 4]%nat) landing in
   (exists e, r = Err e) /\
   exists i, finishMigration Demo.deps "nd-b" Demo.id Demo.env w' = (Ok i, tick w') /\ in_Desired i = DesiredStopped).
Proof. vm_compute. split; [split; [by eexists|repeat split]|split; [by eexists|by eexists]]. Qed.

(** [default_network_twice]: the check that no network is named twice looks at the network
    asked for, before the default one is filled in: a request without a network that names
    the default one as a further network is accepted with that network twice. *)
Theorem default_network_twice :
  exists i, fst (create Demo.deps (MkCreateParams "" "prj-1" "web" "" false ∅ ∅ [] ["net-1"] [] "vm" "debian" "" "" 0 "" [] "" "" 2 1024)
    Demo.env Demo.empty) = Ok i /\ fx_NetworkID (in_Fixed i) ∈ fx_ExtraNetworks (in_Fixed i).
Proof. eexists. split; [vm_compute; reflexivity|]. apply list_elem_of_here. Qed.
