(* ===== verification/Node.v ===== *)
(** Nodes (internal/platform/node): registration and heartbeats, cordon and drain, labels,
    and the ledger of the devices instances are given.

    The labels of a node are a map, its rows of the table [node_labels]; the times hold
    their values. *)
From stdpp Require Import base tactics numbers strings list gmap.
From Stdlib Require Import ZArith Lia.
From Stdlib Require Ascii.
From S2P Require Import Prelude GoLang Effects Regex Kernel Netip.

(** * Data (types.go, device.go) *)

Definition ReadyWindow : Z := 30 * second.
Definition MaxLabels : Z := 32.
Definition MaxDevicesPerNode : Z := 64.
Definition minCPUs : Z := 1.
Definition minMemoryMiB : Z := 128.

(* go: platform/node/types.go Node *)
Record Node := MkNode {
  nd_ID : string; nd_Schedulable : bool; nd_Draining : bool; nd_Name : string; nd_Zone : string;
  nd_Address : string; nd_Arch : string; nd_OS : string; nd_CPUs : Z; nd_MemoryMiB : Z;
  nd_AgentVersion : string; nd_Labels : gmap string string; nd_RegisteredAt : Z; nd_LastSeenAt : Z;
}.
(* go: platform/node/types.go RegisterParams *)
Record RegisterParams := MkRegister {
  rg_Name : string; rg_Zone : string; rg_Address : string; rg_Arch : string; rg_OS : string;
  rg_CPUs : Z; rg_MemoryMiB : Z; rg_AgentVersion : string;
}.
(* go: platform/node/device.go Device *)
Record Device := MkDevice {
  dv_NodeID : string; dv_Address : string; dv_Kind : string; dv_Vendor : string; dv_Product : string;
  dv_Driver : string; dv_Ready : bool; dv_InstanceID : string;
}.
(** The tables [nodes], whose rows have no labels of their own, [node_labels] and
    [node_devices]. *)
Record NodeDB := MkNodeDB {
  db_nodes : list Node; db_labels : gmap string (gmap string string); db_devices : list Device;
}.

Definition errNotFound : error := ESentinel "node not found".

(* go: platform/node/types.go Node.Matches *)
Definition Matches (n : Node) (selector : gmap string string) : bool :=
  forallb (fun kv => String.eqb (default "" (nd_Labels n !! fst kv)) (snd kv)) (map_to_list selector).
(** [true] for [StatusReady], [false] for [StatusUnreachable]. *)
(* go: platform/node/types.go Node.StatusAt *)
Definition StatusAt (n : Node) (now : Z) : bool := time_sub now (nd_LastSeenAt n) <=? ReadyWindow.

Definition with_labels (labels : gmap string string) (n : Node) : Node :=
  MkNode (nd_ID n) (nd_Schedulable n) (nd_Draining n) (nd_Name n) (nd_Zone n) (nd_Address n) (nd_Arch n) (nd_OS n)
    (nd_CPUs n) (nd_MemoryMiB n) (nd_AgentVersion n) labels (nd_RegisteredAt n) (nd_LastSeenAt n).
Definition with_flags (schedulable draining : bool) (n : Node) : Node :=
  MkNode (nd_ID n) schedulable draining (nd_Name n) (nd_Zone n) (nd_Address n) (nd_Arch n) (nd_OS n)
    (nd_CPUs n) (nd_MemoryMiB n) (nd_AgentVersion n) (nd_Labels n) (nd_RegisteredAt n) (nd_LastSeenAt n).
Definition with_report (p : RegisterParams) (seen : Z) (n : Node) : Node :=
  MkNode (nd_ID n) (nd_Schedulable n) (nd_Draining n) (nd_Name n) (rg_Zone p) (rg_Address p) (rg_Arch p) (rg_OS p)
    (rg_CPUs p) (rg_MemoryMiB p) (rg_AgentVersion p) (nd_Labels n) (nd_RegisteredAt n) seen.
Definition with_seen (seen : Z) (n : Node) : Node :=
  MkNode (nd_ID n) (nd_Schedulable n) (nd_Draining n) (nd_Name n) (nd_Zone n) (nd_Address n) (nd_Arch n) (nd_OS n)
    (nd_CPUs n) (nd_MemoryMiB n) (nd_AgentVersion n) (nd_Labels n) (nd_RegisteredAt n) seen.
Definition with_holder (instanceID : string) (d : Device) : Device :=
  MkDevice (dv_NodeID d) (dv_Address d) (dv_Kind d) (dv_Vendor d) (dv_Product d) (dv_Driver d) (dv_Ready d) instanceID.
Definition as_missing (d : Device) : Device :=
  MkDevice (dv_NodeID d) (dv_Address d) (dv_Kind d) (dv_Vendor d) (dv_Product d) "missing" false (dv_InstanceID d).

(** * Repository (repository.go) *)

Definition node_id (id : string) (n : Node) : bool := String.eqb (nd_ID n) id.
Definition node_named (name : string) (n : Node) : bool := String.eqb (nd_Name n) name.
Definition device_at (nodeID address : string) (d : Device) : bool :=
  String.eqb (dv_NodeID d) nodeID && String.eqb (dv_Address d) address.
Definition by_address : Device -> Device -> bool := by_key dv_Address str_ltb (fun _ _ => false).

(** The holders of the devices of a node, by address. *)
Definition holders (nodeID : string) (rows : list Device) : gmap string string :=
  fold_left (fun m d => if String.eqb (dv_NodeID d) nodeID then <[dv_Address d := dv_InstanceID d]> m else m) rows ∅.
(** The INSERT of a reported device, under the primary key (node, address). *)
Definition insert_device (nodeID : string) (taken : gmap string string) (one : Device) (rows : list Device)
    : outcome (list Device) :=
  if existsb (device_at nodeID (dv_Address one)) rows
  then Err (EWrap "insert a device" (EText "UNIQUE constraint failed"))
  else Ok (rows ++ [MkDevice nodeID (dv_Address one) (dv_Kind one) (dv_Vendor one) (dv_Product one) (dv_Driver one)
                      (dv_Ready one) (default "" (taken !! dv_Address one))]).
Fixpoint insert_devices (nodeID : string) (taken : gmap string string) (held rows : list Device)
    : outcome (list Device) :=
  match held with
  | [] => Ok rows
  | one :: rest => try rows := insert_device nodeID taken one rows in insert_devices nodeID taken rest rows
  end.
(** One transaction: a violated key rolls all of it back. *)
(* go: platform/node/repository.go repository.replaceDevices *)
Definition replaced_devices (nodeID : string) (held rows : list Device) : outcome (list Device) :=
  let taken := holders nodeID rows in
  let rows := List.filter (fun d => negb (String.eqb (dv_NodeID d) nodeID && is_empty (dv_InstanceID d))) rows in
  let reported address := existsb (fun one => String.eqb (dv_Address one) address) held in
  let missing d := String.eqb (dv_NodeID d) nodeID && negb (is_empty (default "" (taken !! dv_Address d)))
                   && bool_decide (is_Some (taken !! dv_Address d)) && negb (reported (dv_Address d)) in
  let rows := map (fun d => if missing d then as_missing d else d) rows in
  let rows := List.filter (fun d => negb (String.eqb (dv_NodeID d) nodeID && reported (dv_Address d))) rows in
  insert_devices nodeID taken held rows.

Section repository.
Context {S : Type} `{!Has NodeDB S}.

Definition on_nodes (what : string) (q : list Node -> outcome unit * list Node) : M S unit :=
  sql what (fun db => let '(r, rows) := q (db_nodes db) in (r, MkNodeDB rows (db_labels db) (db_devices db))).
Definition on_devices {A} (what : string) (q : list Device -> outcome A * list Device) : M S A :=
  sql what (fun db => let '(r, rows) := q (db_devices db) in (r, MkNodeDB (db_nodes db) (db_labels db) rows)).

(* go: platform/node/repository.go repository.findByName *)
Definition findByName (name : string) : M S Node :=
  query "find node by name" (fun db => select_one (node_named name) errNotFound (db_nodes db)).
(** The primary key and the index [nodes_name_unique]. *)
(* go: platform/node/repository.go repository.insert *)
Definition insert (n : Node) : M S unit :=
  on_nodes "insert node" (insert_row (fun m => node_id (nd_ID n) m || node_named (nd_Name n) m)
    (EWrap "insert node" (EText "UNIQUE constraint failed")) n).
(* go: platform/node/repository.go repository.setSchedulable *)
Definition setSchedulable (id : string) (schedulable draining : bool) : M S unit :=
  on_nodes "set the node schedulable flag" (update_where (node_id id) (with_flags schedulable draining) errNotFound).
(** An UPDATE whose count of rows is not looked at. *)
(* go: platform/node/repository.go repository.setDraining *)
Definition setDraining_row (id : string) (draining : bool) : M S unit :=
  on_nodes "set the node draining flag" (fun rows =>
    (Ok tt, map (fun n => if node_id id n then with_flags (nd_Schedulable n) draining n else n) rows)).
(* go: platform/node/repository.go repository.updateOnRegister *)
Definition updateOnRegister (id : string) (p : RegisterParams) (seen : Z) : M S unit :=
  on_nodes "update node on register" (update_where (node_id id) (with_report p seen) errNotFound).
(* go: platform/node/repository.go repository.touch *)
Definition touch (id : string) (now : Z) : M S unit :=
  on_nodes "touch node" (update_where (node_id id) (with_seen now) errNotFound).
(* go: platform/node/repository.go repository.get *)
Definition get_row (id : string) : M S Node :=
  query "get node" (fun db => select_one (node_id id) errNotFound (db_nodes db)).
(* go: platform/node/repository.go repository.list *)
Definition list_rows : M S (list Node) :=
  query "list nodes" (fun db => Ok (sliceStable (by_key nd_Name str_ltb (fun _ _ => false)) (db_nodes db))).
(* go: platform/node/repository.go repository.labelsFor *)
Definition labelsFor (nodeID : string) : M S (gmap string string) :=
  query "read node labels" (fun db => Ok (default ∅ (db_labels db !! nodeID))).
(* go: platform/node/repository.go repository.allLabels *)
Definition allLabels : M S (gmap string (gmap string string)) :=
  query "read every node label" (fun db => Ok (db_labels db)).
(** One transaction. *)
(* go: platform/node/repository.go repository.replaceLabels *)
Definition replaceLabels (nodeID : string) (labels : gmap string string) : M S unit :=
  sql "write node label" (fun db => (Ok tt, MkNodeDB (db_nodes db) (<[nodeID := labels]> (db_labels db)) (db_devices db))).
(* go: platform/node/repository.go repository.replaceDevices *)
Definition replaceDevices (nodeID : string) (held : list Device) : M S unit :=
  on_devices "replace a device" (fun rows =>
    match replaced_devices nodeID held rows with Ok rows' => (Ok tt, rows') | Err e => (Err e, rows) end).
(* go: platform/node/repository.go repository.devices *)
Definition devices_rows : M S (list Device) :=
  query "list devices" (fun db => Ok (sliceStable (by_key dv_NodeID str_ltb by_address) (db_devices db))).
(* go: platform/node/repository.go repository.devicesOn *)
Definition devicesOn (nodeID : string) : M S (list Device) :=
  query "list devices" (fun db =>
    Ok (sliceStable by_address (List.filter (fun d => String.eqb (dv_NodeID d) nodeID) (db_devices db)))).
(* go: platform/node/repository.go repository.devicesOfInstance *)
Definition devicesOfInstance (instanceID : string) : M S (list Device) :=
  query "list devices" (fun db =>
    Ok (sliceStable by_address (List.filter (fun d => String.eqb (dv_InstanceID d) instanceID) (db_devices db)))).
(* go: platform/node/repository.go repository.claimDevice *)
Definition claimDevice (nodeID address instanceID : string) : M S bool :=
  on_devices "claim a device" (fun rows =>
    let free d := device_at nodeID address d && is_empty (dv_InstanceID d) in
    (Ok (existsb free rows), map (fun d => if free d then with_holder instanceID d else d) rows)).
(* go: platform/node/repository.go repository.releaseDevice *)
Definition releaseDevice (instanceID : string) : M S unit :=
  on_devices "release a device" (fun rows =>
    (Ok tt, map (fun d => if String.eqb (dv_InstanceID d) instanceID then with_holder "" d else d) rows)).
End repository.

(** * Service (service.go, device.go) *)

(* go: platform/node/service.go translate *)
Definition translate (err : error) : error :=
  if errors_Is err "node not found" then NotFound "node_not_found" "no node with that id exists" else Internal err.

(** Whether [netip.ParseAddr] accepts a text: an IPv6 address may carry a zone. *)
Definition is_addr (text : string) : bool :=
  let s := bytes_of text in
  match addr_kind s, index_byte_l s (Ascii.ascii_of_N 37) with
  | Some true, Some i => (Datatypes.S i <? length s)%nat && match parse6 (take i s) with Some _ => true | None => false end
  | _, _ => match ParseAddr s with Some _ => true | None => false end
  end.

(** The first error of a list of checks. *)
Fixpoint each {A} (check : A -> outcome unit) (l : list A) : outcome unit :=
  match l with [] => Ok tt | a :: l' => try _ := check a in each check l' end.
(* go: platform/node/service.go validateLabels *)
Definition validateLabels (labels : gmap string string) : outcome unit :=
  try _ := guard (MaxLabels <? Z.of_nat (size labels))
    (Invalid "too_many_labels" ("a node carries at most " +:+ itoa MaxLabels +:+ " labels, and "
       +:+ itoa (Z.of_nat (size labels)) +:+ " were given")) in
  each (fun kv => try _ := validate_Name "label_key" (fst kv) in validate_Name "label_value" (snd kv)) (map_to_list labels).
(* go: platform/node/service.go validateRegister *)
Definition validateRegister (p : RegisterParams) : outcome unit :=
  try _ := validate_Name "name" (rg_Name p) in
  try _ := (if is_empty (rg_Zone p) then Ok tt else validate_Name "zone" (rg_Zone p)) in
  try _ := guard (negb (is_empty (rg_Address p)) && negb (is_addr (rg_Address p)))
    (Invalid "invalid_address" "address must be a bare IP the other nodes can reach") in
  try _ := guard (is_empty (rg_Arch p)) (Invalid "invalid_arch" "arch must not be empty") in
  try _ := guard (is_empty (rg_OS p)) (Invalid "invalid_os" "os must not be empty") in
  try _ := guard (rg_CPUs p <? minCPUs) (Invalid "invalid_cpus" ("cpus must be at least " +:+ itoa minCPUs)) in
  guard (rg_MemoryMiB p <? minMemoryMiB) (Invalid "invalid_memory" ("memory_mib must be at least " +:+ itoa minMemoryMiB)).

(** The loop of [setDevices], which trims the addresses. *)
(* go: platform/node/device.go:30-36 range *)
Fixpoint trim_devices (nodeID : string) (held : list Device) : outcome (list Device) :=
  match held with
  | [] => Ok []
  | d :: rest =>
      let address := trim_space (dv_Address d) in
      if is_empty address then Err (Invalid "invalid_device" "a device with no address is not one")
      else
        try rest := trim_devices nodeID rest in
        Ok (MkDevice nodeID address (dv_Kind d) (dv_Vendor d) (dv_Product d) (dv_Driver d) (dv_Ready d) (dv_InstanceID d) :: rest)
  end.

(** A device that can be given away. *)
Definition offered (kind : string) (d : Device) : bool :=
  String.eqb (dv_Kind d) kind && dv_Ready d && is_empty (dv_InstanceID d).

Section service.
Context {S : Type} `{!Has NodeDB S}.

Definition translated {A} (m : M S A) : M S A := mapped translate m.

(* go: platform/node/service.go service.get *)
Definition get (id : string) : M S Node :=
  let! n := translated (get_row id) in
  let! labels := translated (labelsFor (nd_ID n)) in
  ret (with_labels labels n).
(* go: platform/node/service.go service.cordon *)
Definition cordon (id : string) (schedulable : bool) : M S Node :=
  let! found := get id in
  translated (setSchedulable (nd_ID found) schedulable false) ;;;
  get (nd_ID found).
(* go: platform/node/service.go service.drain *)
Definition drain (id : string) : M S Node :=
  let! found := get id in
  translated (setSchedulable (nd_ID found) false true) ;;;
  get (nd_ID found).
(* go: platform/node/service.go service.setDraining *)
Definition setDraining (id : string) (draining : bool) : M S unit := translated (setDraining_row id draining).

(* go: platform/node/service.go service.register *)
Definition register (p : RegisterParams) : M S Node :=
  lift (validateRegister p) ;;;
  let! seen := now in
  let! r := attempt (findByName (rg_Name p)) in
  match r with
  | Ok existing =>
      translated (updateOnRegister (nd_ID existing) p seen) ;;;
      ret (with_report p seen existing)
  | Err e =>
      if errors_Is e "node not found" then
        let! id := ids_New "n" in
        let n := MkNode id true false (rg_Name p) (rg_Zone p) (rg_Address p) (rg_Arch p) (rg_OS p) (rg_CPUs p)
                   (rg_MemoryMiB p) (rg_AgentVersion p) ∅ seen seen in
        translated (insert n) ;;;
        ret n
      else fail (translate e)
  end.

(* go: platform/node/service.go service.heartbeat *)
Definition heartbeat (id : string) : M S Node :=
  let! seen := now in
  translated (touch id seen) ;;;
  get id.
(* go: platform/node/service.go service.list *)
Definition list_all : M S (list Node) :=
  let! nodes := translated list_rows in
  let! byNode := translated allLabels in
  ret (map (fun n => with_labels (default ∅ (byNode !! nd_ID n)) n) nodes).
(* go: platform/node/service.go service.setLabels *)
Definition setLabels (id : string) (labels : gmap string string) : M S Node :=
  lift (validateLabels labels) ;;;
  let! found := get id in
  translated (replaceLabels (nd_ID found) labels) ;;;
  get (nd_ID found).

(* go: platform/node/module.go Module.NodesUnreachableFor *)
Definition NodesUnreachableFor (grace : Z) : M S (list Node) :=
  let! nodes := list_all in
  let! t := now in
  ret (List.filter (fun n => negb (StatusAt n t) && (grace <=? time_sub t (nd_LastSeenAt n))) nodes).
(* go: platform/node/module.go Module.ReadyNodes *)
Definition ReadyNodes : M S (list Node) :=
  let! nodes := list_all in
  let! t := now in
  ret (List.filter (fun n => StatusAt n t && nd_Schedulable n) nodes).
(* go: platform/node/module.go Module.DrainingNodes *)
Definition DrainingNodes : M S (list Node) :=
  let! nodes := list_all in ret (List.filter nd_Draining nodes).
(* go: platform/node/module.go Module.FinishDraining *)
Definition FinishDraining (nodeID : string) : M S unit := setDraining nodeID false.

(* go: platform/node/device.go service.setDevices *)
Definition setDevices (nodeID : string) (held : list Device) : M S unit :=
  lift (guard (MaxDevicesPerNode <? len held)
    (Invalid "too_many_devices" ("a node reports at most " +:+ itoa MaxDevicesPerNode +:+ " devices"))) ;;;
  let! held := lift (trim_devices nodeID held) in
  replaceDevices nodeID held.
(* go: platform/node/device.go service.FreeDevice *)
Definition FreeDevice (nodeID kind : string) : M S (string * bool) :=
  let! held := devicesOn nodeID in
  ret (match List.find (offered kind) held with Some d => (dv_Address d, true) | None => ("", false) end).
(** The second loop of [ClaimDevice]. *)
(* go: platform/node/device.go:74-85 range *)
Fixpoint claim_first (nodeID kind instanceID : string) (held : list Device) : M S string :=
  match held with
  | [] => fail (Conflict "no_free_device" ("every " +:+ kind +:+ " on " +:+ nodeID +:+ " is already given to another workload"))
  | d :: rest =>
      if negb (offered kind d) then claim_first nodeID kind instanceID rest
      else
        let! taken := claimDevice nodeID (dv_Address d) instanceID in
        if taken : bool then ret (dv_Address d) else claim_first nodeID kind instanceID rest
  end.
(* go: platform/node/device.go service.ClaimDevice *)
Definition ClaimDevice (nodeID kind instanceID : string) : M S string :=
  let! held := devicesOn nodeID in
  match List.find (fun d => String.eqb (dv_InstanceID d) instanceID) held with
  | Some d => ret (dv_Address d)
  | None => claim_first nodeID kind instanceID held
  end.
(* go: platform/node/device.go service.ReleaseInstance *)
Definition ReleaseInstance (instanceID : string) : M S unit := releaseDevice instanceID.
(* go: platform/node/device.go service.DevicesOf *)
Definition DevicesOf (instanceID : string) : M S (list Device) := devicesOfInstance instanceID.
(* go: platform/node/module.go Module.AddressOf *)
Definition AddressOf (instanceID : string) : M S string :=
  let! held := DevicesOf instanceID in
  ret (match held with d :: _ => dv_Address d | [] => "" end).
End service.

(** * The requests the module serves *)

Inductive request :=
| ReqRegister (p : RegisterParams)
| ReqHeartbeat (id : string)
| ReqCordon (id : string) (schedulable : bool)
| ReqDrain (id : string)
| ReqFinishDraining (id : string)
| ReqSetLabels (id : string) (labels : gmap string string)
| ReqSetDevices (nodeID : string) (held : list Device)
| ReqClaim (nodeID kind instanceID : string)
| ReqReleaseInstance (instanceID : string).

Definition serve {S} `{!Has NodeDB S} (r : request) : M S unit :=
  match r with
  | ReqRegister p => register p ;;; ret tt
  | ReqHeartbeat id => heartbeat id ;;; ret tt
  | ReqCordon id schedulable => cordon id schedulable ;;; ret tt
  | ReqDrain id => drain id ;;; ret tt
  | ReqFinishDraining id => FinishDraining id
  | ReqSetLabels id labels => setLabels id labels ;;; ret tt
  | ReqSetDevices nodeID held => setDevices nodeID held
  | ReqClaim nodeID kind instanceID => ClaimDevice nodeID kind instanceID ;;; ret tt
  | ReqReleaseInstance instanceID => ReleaseInstance instanceID
  end.

Example addr_example : is_addr "10.0.0.1" = true /\ is_addr "fe80::1%eth0" = true /\ is_addr "fe80::1%" = false /\ is_addr "10.0.0.1%a" = false.
Proof. vm_compute. split_and!; reflexivity. Qed.

(** * The invariant and the ledger *)

Definition device_key (d : Device) : string * string := (dv_NodeID d, dv_Address d).
Abbreviation unique_devices rows := (unique_by (fun d => Some (device_key d)) rows).
(** A node as [register] accepts it. *)
Definition node_ok (n : Node) : Prop :=
  label (nd_Name n) = true /\ nd_Arch n <> "" /\ nd_OS n <> "" /\ minCPUs <= nd_CPUs n /\ minMemoryMiB <= nd_MemoryMiB n.
Record node_inv (db : NodeDB) : Prop := {
  ni_id : unique_by (fun n => Some (nd_ID n)) (db_nodes db);
  ni_name : unique_by (fun n => Some (nd_Name n)) (db_nodes db);
  ni_ok n : n ∈ db_nodes db -> node_ok n;
  ni_device : unique_devices (db_devices db);
}.

(** What a request may change of a node: [m] is the row before it and [n] after it. *)
Definition flags (n : Node) : bool * bool := (nd_Schedulable n, nd_Draining n).
Definition report (n : Node) := (nd_Zone n, nd_Address n, nd_Arch n, nd_OS n, nd_CPUs n, nd_MemoryMiB n, nd_AgentVersion n).
Definition steers (r : request) (m n : Node) : Prop :=
  match r with
  | ReqCordon id schedulable => nd_ID m = id /\ flags n = (schedulable, false)
  | ReqDrain id => nd_ID m = id /\ flags n = (false, true)
  | ReqFinishDraining id => nd_ID m = id /\ flags n = (nd_Schedulable m, false)
  | _ => False
  end.
Definition reports (r : request) (m : Node) : Prop :=
  match r with ReqRegister p => nd_Name m = rg_Name p | _ => False end.
Definition seen_by (r : request) (m : Node) : Prop :=
  match r with ReqRegister p => nd_Name m = rg_Name p | ReqHeartbeat id => nd_ID m = id | _ => False end.
Record may_change (r : request) (m n : Node) : Prop := {
  mc_fixed : (nd_ID n, nd_Name n, nd_RegisteredAt n) = (nd_ID m, nd_Name m, nd_RegisteredAt m);
  mc_flags : flags n = flags m \/ steers r m n;
  mc_report : report n = report m \/ reports r m;
  mc_seen : nd_LastSeenAt n = nd_LastSeenAt m \/ seen_by r m;
}.
Definition joined (r : request) (n : Node) : Prop :=
  match r with ReqRegister p => nd_Name n = rg_Name p /\ flags n = (true, false) | _ => False end.
(** A device keeps its holder unless the holder is released, and is only ever given to an
    instance that claims it, free, ready and of the kind asked for. *)
Definition kept (ds ds' : list Device) (d : Device) : Prop :=
  exists d', d' ∈ ds' /\ device_key d' = device_key d /\ dv_InstanceID d' = dv_InstanceID d.
Definition given (r : request) (ds : list Device) (d : Device) : Prop :=
  match r with
  | ReqClaim nodeID kind instanceID => dv_InstanceID d = instanceID /\ dv_NodeID d = nodeID /\
      exists d0, d0 ∈ ds /\ device_key d0 = device_key d /\ offered kind d0 = true
  | _ => False
  end.
Record ledger (r : request) (ds ds' : list Device) : Prop := {
  lg_kept d : d ∈ ds -> dv_InstanceID d <> "" -> kept ds ds' d \/ r = ReqReleaseInstance (dv_InstanceID d);
  lg_given d : d ∈ ds' -> dv_InstanceID d <> "" -> kept ds' ds d \/ given r ds d;
}.
Record evolves (r : request) (db0 db : NodeDB) : Prop := {
  ev_rows n : n ∈ db_nodes db -> (exists m, m ∈ db_nodes db0 /\ may_change r m n) \/ joined r n;
  ev_stay m : m ∈ db_nodes db0 -> exists n, n ∈ db_nodes db /\ nd_ID n = nd_ID m;
  ev_ledger : ledger r (db_devices db0) (db_devices db);
}.
Definition good (r : request) (db0 db : NodeDB) : Prop := node_inv db /\ evolves r db0 db.

Lemma kept_refl ds d : d ∈ ds -> kept ds ds d.
Proof. intros Hd. by exists d. Qed.

Lemma ledger_refl r ds : ledger r ds ds.
Proof. split; intros d Hd _; left; by apply kept_refl. Qed.

Lemma node_change_refl r n : may_change r n n.
Proof. constructor; auto. Qed.

Lemma node_good_refl r db : node_inv db -> good r db db.
Proof. intros H. split; [done|]. constructor; eauto using node_change_refl, ledger_refl. Qed.

(** ** The report of a node's devices *)

Lemma holders_fold nodeID rows : unique_devices rows -> forall (m0 : gmap string string) a i,
  (forall d, d ∈ rows -> dv_NodeID d = nodeID -> m0 !! dv_Address d = None) ->
  fold_left (fun m d => if String.eqb (dv_NodeID d) nodeID then <[dv_Address d := dv_InstanceID d]> m else m) rows m0 !! a = Some i <->
  m0 !! a = Some i \/ exists d, d ∈ rows /\ dv_NodeID d = nodeID /\ dv_Address d = a /\ dv_InstanceID d = i.
Proof.
  unfold unique_by. induction rows as [|d rows IH]; simpl; intros Hu m0 a i Hm; [split; [auto|set_solver]|].
  apply NoDup_cons in Hu as [Hd Hu]. assert (Hnew : forall e, e ∈ rows -> dv_NodeID e = dv_NodeID d -> dv_Address e <> dv_Address d).
  { intros e He E1 E2. apply Hd. apply list_elem_of_omap. exists e. split; [done|]. unfold device_key. congruence. }
  destruct (String.eqb_spec (dv_NodeID d) nodeID) as [E|E].
  - rewrite IH; [|done|].
    + destruct (decide (a = dv_Address d)) as [->|Ha].
      * rewrite lookup_insert_eq. split.
        -- intros [[= <-]|(e & He & E1 & E2 & _)]; [right; exists d; set_solver|]. exfalso. apply (Hnew e); congruence || done.
        -- intros [H|(e & He & E1 & E2 & <-)]; [rewrite Hm in H; [done|set_solver|done]|].
           apply elem_of_cons in He as [->|He]; [by left|]. exfalso. apply (Hnew e); congruence || done.
      * rewrite lookup_insert_ne by done. split; [set_solver|]. intros [H|(e & He & E1 & E2 & E3)]; [by left|right].
        apply elem_of_cons in He as [->|He]; [congruence|]. eauto.
    + intros e He E1. rewrite lookup_insert_ne; [apply Hm; set_solver|]. intros E2. apply (Hnew e); congruence || done.
  - rewrite IH; [|done|set_solver]. split; [set_solver|]. intros [H|(e & He & E1 & E2 & E3)]; [by left|right].
    apply elem_of_cons in He as [->|He]; [done|]. eauto.
Qed.

Lemma holders_spec nodeID rows a i : unique_devices rows ->
  holders nodeID rows !! a = Some i <-> exists d, d ∈ rows /\ dv_NodeID d = nodeID /\ dv_Address d = a /\ dv_InstanceID d = i.
Proof. intros Hu. unfold holders. rewrite holders_fold; [|done|done]. rewrite lookup_empty. naive_solver. Qed.

Lemma insert_devices_ok nodeID taken held rows rows' : unique_devices rows ->
  insert_devices nodeID taken held rows = Ok rows' ->
  unique_devices rows' /\ rows' = rows ++ map (fun one => MkDevice nodeID (dv_Address one) (dv_Kind one) (dv_Vendor one)
    (dv_Product one) (dv_Driver one) (dv_Ready one) (default "" (taken !! dv_Address one))) held.
Proof.
  revert rows. induction held as [|one held IH]; simpl; intros rows Hu H; [injection H as <-; by rewrite app_nil_r|].
  unfold insert_device in H at 1. destruct (existsb _ rows) eqn:Ex; [done|]. simpl in H.
  apply IH in H as [Hu' ->].
  - split; [done|]. by rewrite <- app_assoc.
  - apply unique_by_app; [done|]. intros d k Hd [= <-] [= E1 E2]. rewrite existsb_false, Forall_forall in Ex.
    specialize (Ex d Hd). unfold device_at in Ex. by rewrite <- E1, <- E2, !String.eqb_refl in Ex.
Qed.

Lemma unique_device_map (g : Device -> Device) rows : (forall d, device_key (g d) = device_key d) ->
  unique_devices rows -> unique_devices (map g rows).
Proof.
  intros Hg. unfold unique_by. rewrite !omap_total, map_map. intros H.
  by rewrite (map_ext _ device_key) by done.
Qed.

Lemma device_key_eq d d' : device_key d' = device_key d <-> dv_NodeID d' = dv_NodeID d /\ dv_Address d' = dv_Address d.
Proof. unfold device_key. split; [by intros [= ? ?]|by intros [-> ->]]. Qed.

Lemma replaced_ok nodeID held ds ds' r : unique_devices ds -> replaced_devices nodeID held ds = Ok ds' ->
  unique_devices ds' /\ ledger r ds ds'.
Proof.
  intros Hu. unfold replaced_devices. cbv zeta.
  set (keep := fun d => negb (String.eqb (dv_NodeID d) nodeID && is_empty (dv_InstanceID d))).
  set (reported := fun address => existsb (fun one => String.eqb (dv_Address one) address) held).
  match goal with |- context [map ?f (List.filter keep ds)] => set (mark := f) end.
  set (stay := fun d => negb (String.eqb (dv_NodeID d) nodeID && reported (dv_Address d))).
  assert (Hmark : forall d, device_key (mark d) = device_key d /\ dv_InstanceID (mark d) = dv_InstanceID d)
    by (intros d; unfold mark; by case_match).
  assert (Hu2 : unique_devices (List.filter stay (map mark (List.filter keep ds)))).
  { apply unique_by_filter, unique_device_map; [by intros; apply Hmark|]. by apply unique_by_filter. }
  intros [Hu' ->]%insert_devices_ok; [|done]. split; [done|].
  assert (Hrows : forall d, d ∈ List.filter stay (map mark (List.filter keep ds)) -> exists d0, d0 ∈ ds /\ device_key d0 = device_key d /\ dv_InstanceID d0 = dv_InstanceID d).
  { intros d [Hd _]%elem_of_filter_bool. apply list_elem_of_fmap in Hd as (d0 & -> & [Hd0 _]%elem_of_filter_bool).
    exists d0. destruct (Hmark d0). done. }
  split; intros d Hd Hi; left.
  - destruct (stay d) eqn:Es.
    + exists (mark d). destruct (Hmark d) as [E1 E2]. split; [|done]. apply elem_of_app. left. apply elem_of_filter_bool.
      split.
      * apply list_elem_of_fmap. exists d. split; [done|]. apply elem_of_filter_bool. split; [done|].
        unfold keep. rewrite (proj2 (String.eqb_neq (dv_InstanceID d) "") Hi : is_empty _ = false). by rewrite andb_false_r.
      * apply device_key_eq in E1 as [E1 E1']. unfold stay. rewrite E1, E1'. exact Es.
    + unfold stay in Es. breflect. subst nodeID. unfold reported in *.
      apply existsb_exists in H0 as (one & Hone%list_elem_of_In & Ea). breflect.
      eexists. split; [apply elem_of_app; right; apply list_elem_of_fmap; exists one; split; [reflexivity|done]|].
      split; [apply device_key_eq; simpl; auto|]. simpl.
      rewrite (proj2 (holders_spec (dv_NodeID d) ds (dv_Address one) (dv_InstanceID d) Hu)); [done|]. eauto.
  - apply elem_of_app in Hd as [Hd|Hd]; [by apply Hrows|].
    apply list_elem_of_fmap in Hd as (one & -> & Hone). simpl in Hi.
    destruct (holders nodeID ds !! dv_Address one) as [i|] eqn:Ei; [|done].
    apply holders_spec in Ei as (d0 & Hd0 & E1 & E2 & E3); [|done]. exists d0. split; [done|].
    split; [apply device_key_eq; simpl; auto|]. done.
Qed.

(** ** Statements *)

Lemma good_nodes r db rows :
  node_inv db -> unique_by (fun n => Some (nd_ID n)) rows -> unique_by (fun n => Some (nd_Name n)) rows ->
  (forall n, n ∈ rows -> node_ok n) ->
  (forall n, n ∈ rows -> (exists m, m ∈ db_nodes db /\ may_change r m n) \/ joined r n) ->
  (forall m, m ∈ db_nodes db -> exists n, n ∈ rows /\ nd_ID n = nd_ID m) ->
  good r db (MkNodeDB rows (db_labels db) (db_devices db)).
Proof. intros [] **. split; [by constructor|]. constructor; auto using ledger_refl. Qed.

(** An UPDATE of the nodes that keeps a good table good. *)
Lemma node_good_update r db p f : node_inv db ->
  (forall n, n ∈ db_nodes db -> p n = true -> may_change r n (f n) /\ node_ok (f n)) ->
  good r db (MkNodeDB (map (fun n => if p n then f n else n) (db_nodes db)) (db_labels db) (db_devices db)).
Proof.
  intros Hinv Hf.
  assert (Hk : forall n, n ∈ db_nodes db -> let n' := if p n then f n else n in
    nd_ID n' = nd_ID n /\ nd_Name n' = nd_Name n /\ may_change r n n' /\ node_ok n').
  { intros n Hn. simpl. destruct (p n) eqn:Ep; [|split_and!; auto using node_change_refl; by apply Hinv].
    destruct (Hf n Hn Ep) as [[E] ?]. naive_solver. }
  apply good_nodes; [done| | | | |].
  - unfold unique_by. rewrite omap_total, map_map. pose proof (ni_id _ Hinv) as Hu. unfold unique_by in Hu. rewrite omap_total in Hu.
    erewrite map_ext_in; [exact Hu|]. intros n Hn%list_elem_of_In. by apply Hk.
  - unfold unique_by. rewrite omap_total, map_map. pose proof (ni_name _ Hinv) as Hu. unfold unique_by in Hu. rewrite omap_total in Hu.
    erewrite map_ext_in; [exact Hu|]. intros n Hn%list_elem_of_In. by apply Hk.
  - intros n (m & -> & Hm)%list_elem_of_fmap. by apply Hk.
  - intros n (m & -> & Hm)%list_elem_of_fmap. left. exists m. split; [done|]. by apply Hk.
  - intros m Hm. eexists. split; [apply list_elem_of_fmap; by exists m|]. by apply Hk.
Qed.

Lemma good_devices r db rows : node_inv db -> unique_devices rows -> ledger r (db_devices db) rows ->
  good r db (MkNodeDB (db_nodes db) (db_labels db) rows).
Proof. intros [] **. split; [by constructor|]. constructor; simpl; eauto using node_change_refl. Qed.

Section rules.
Context {S : Type} `{!Has NodeDB S} (env : Env).
Abbreviation st w := (part (T:=NodeDB) w).
Implicit Types (w : World S).

Lemma wp_nodes what r q (Q : outcome unit -> World S -> Prop) w : node_inv (st w) ->
  good r (st w) (MkNodeDB (snd (q (db_nodes (st w)))) (db_labels (st w)) (db_devices (st w))) ->
  (forall o w', good r (st w) (st w') -> Q o w') -> wp env (on_nodes what q) Q w.
Proof.
  intros Hinv Hg HQ. apply wp_write; intros w' Hw'; apply HQ; rewrite Hw'; [by apply node_good_refl|].
  by destruct (q _).
Qed.

Lemma wp_devices {A} what r (q : list Device -> outcome A * list Device) (Q : outcome A -> World S -> Prop) w :
  good r (st w) (MkNodeDB (db_nodes (st w)) (db_labels (st w)) (snd (q (db_devices (st w))))) -> node_inv (st w) ->
  (forall o w', good r (st w) (st w') ->
    (o = Err (io_error what) /\ st w' = st w) \/
    (o = fst (q (db_devices (st w))) /\ db_devices (st w') = snd (q (db_devices (st w)))) -> Q o w') ->
  wp env (on_devices what q) Q w.
Proof.
  intros Hg Hinv HQ. apply wp_write; intros w' Hw'.
  - apply HQ; rewrite Hw'; [by apply node_good_refl|auto].
  - destruct (q _) as [a rows] eqn:E. simpl in *. apply HQ; rewrite Hw'; [done|auto].
Qed.

Lemma get_rule id (Q : outcome Node -> World S -> Prop) w :
  (forall o w', st w' = st w -> match o with Ok n => nd_ID n = id | Err _ => True end -> Q o w') ->
  wp env (get id) Q w.
Proof.
  intros HQ. unfold get. apply wp_bind, wp_mapped, wp_read. intros r Hr. change (st (tick w)) with (st w) in *.
  destruct r as [n|e]; simpl; [|by apply HQ].
  apply wp_bind, wp_mapped, wp_read. intros r _. destruct r; simpl; [rewrite wp_ret|]; apply HQ; try done. simpl.
  destruct Hr as [?|Hr]; [done|]. symmetry in Hr. apply select_one_ok in Hr as [_ E]. unfold node_id in E. by breflect.
Qed.

Lemma get_good id r db w : good r db (st w) -> wp env (get id) (fun _ w' => good r db (st w')) w.
Proof. intros Hg. apply get_rule. by intros o w' -> _. Qed.

(** A request that finds its node and sets its flags. *)
Lemma flags_rule r id schedulable draining w : node_inv (st w) ->
  (forall n, n ∈ db_nodes (st w) -> nd_ID n = id -> may_change r n (with_flags schedulable draining n)) ->
  wp env (let! found := get id in translated (setSchedulable (nd_ID found) schedulable draining) ;;; get (nd_ID found))
    (fun _ w' => good r (st w) (st w')) w.
Proof.
  intros Hinv Hm. apply wp_bind, get_rule. intros [found|] w1 Hw1 Hid; rewrite <- Hw1 in *; [|by apply node_good_refl].
  apply wp_bind, wp_mapped, (wp_nodes _ r); [done| |].
  - rewrite update_where_rows. apply node_good_update; [done|]. intros n Hn Hp. unfold node_id in Hp. breflect.
    split; [apply Hm; congruence|exact (ni_ok _ Hinv n Hn)].
  - intros o w' Hg. destruct o; simpl; [|done]. by apply get_good.
Qed.

Lemma register_rule p w : node_inv (st w) ->
  wp env (register p) (fun _ w' => good (ReqRegister p) (st w) (st w')) w.
Proof.
  intros Hinv. unfold register. apply wp_bind. rewrite wp_lift. destruct (validateRegister p) as [[]|] eqn:Ev; [|by apply node_good_refl].
  assert (Hok : label (rg_Name p) = true /\ rg_Arch p <> "" /\ rg_OS p <> "" /\ minCPUs <= rg_CPUs p /\ minMemoryMiB <= rg_MemoryMiB p).
  { revert Ev. unfold validateRegister. destruct (validate_Name "name" _) eqn:En; [|done]. cbn [obind].
    destruct (if is_empty (rg_Zone p) then _ else _); [|done]. cbn [obind]. unfold guard.
    destruct (negb _ && _); [done|]. cbn [obind]. destruct (is_empty (rg_Arch p)) eqn:Ea; [done|]. cbn [obind].
    destruct (is_empty (rg_OS p)) eqn:Eo; [done|]. cbn [obind]. destruct (rg_CPUs p <? minCPUs) eqn:Ec; [done|]. cbn [obind].
    destruct (rg_MemoryMiB p <? minMemoryMiB) eqn:Em; [done|]. intros _. breflect. split; [|unfold is_empty in *; breflect; done].
    apply namePattern_label. unfold validate_Name in En. destruct (is_empty (rg_Name p)); [done|]. by destruct (re_match _ _). }
  apply wp_bind. rewrite wp_now. apply wp_bind, wp_attempt, wp_read. change (st (tick w)) with (st w).
  intros r Hr. set (w1 := tick (tick w)). assert (Hw1 : st w1 = st w) by done.
  set (seen := env_now env (w_step w)). clearbody w1 seen. rewrite <- Hw1 in *. destruct r as [m|e].
  - destruct Hr as [?|Hr]; [done|]. symmetry in Hr. apply select_one_ok in Hr as [Hm En]. unfold node_named in En. breflect.
    apply wp_bind, wp_mapped, (wp_nodes _ (ReqRegister p)); [done| |].
    + rewrite update_where_rows. apply node_good_update; [done|]. intros n Hn Hp. unfold node_id in Hp. breflect.
      assert (n = m) as -> by (by apply (unique_by_eq _ _ n m (nd_ID m) (ni_id _ Hinv)); simpl; rewrite ?Hp).
      split; [by constructor; simpl; auto|]. unfold node_ok. simpl. rewrite En. exact Hok.
    + intros o w' Hg. by destruct o.
  - destruct (errors_Is e "node not found") eqn:Ee; [|by apply node_good_refl].
    apply wp_bind. unfold ids_New. apply wp_bind. rewrite wp_rand, wp_ret. set (n := MkNode _ _ _ _ _ _ _ _ _ _ _ _ _ _).
    apply wp_bind, wp_mapped. change (st w1) with (st (tick w1)) in *.
    apply (wp_nodes _ (ReqRegister p)); [done| |intros o w' Hg; by destruct o].
    unfold insert_row. destruct (existsb _ _) eqn:Ex; simpl; [destruct (st (tick w1)); by apply node_good_refl|].
    rewrite existsb_false, Forall_forall in Ex. apply good_nodes; [done|..].
    + apply unique_by_app; [apply Hinv|]. intros x k Hx [= <-] [= E]. specialize (Ex x Hx). unfold node_id in Ex.
      by rewrite <- E, String.eqb_refl in Ex.
    + apply unique_by_app; [apply Hinv|]. intros x k Hx [= <-] [= E]. specialize (Ex x Hx). unfold node_named in Ex.
      rewrite <- E in Ex. simpl in Ex. by rewrite String.eqb_refl, orb_true_r in Ex.
    + intros x [Hx| ->%list_elem_of_singleton]%elem_of_app; [by apply Hinv|exact Hok].
    + intros x [Hx| ->%list_elem_of_singleton]%elem_of_app; [left; eauto using node_change_refl|by right].
    + intros x Hx. exists x. split; [set_solver|done].
Qed.

Lemma heartbeat_rule id w : node_inv (st w) -> wp env (heartbeat id) (fun _ w' => good (ReqHeartbeat id) (st w) (st w')) w.
Proof.
  intros Hinv. apply wp_bind. rewrite wp_now. apply wp_bind, wp_mapped. change (st w) with (st (tick w)).
  apply (wp_nodes _ (ReqHeartbeat id)); [done| |].
  - rewrite update_where_rows. apply node_good_update; [done|]. intros n Hn Hp. unfold node_id in Hp. breflect.
    split; [by constructor; simpl; auto|exact (ni_ok _ Hinv n Hn)].
  - intros o w' Hg. destruct o; simpl; [|done]. by apply get_good.
Qed.

Lemma finishDraining_rule id w : node_inv (st w) -> wp env (FinishDraining id) (fun _ w' => good (ReqFinishDraining id) (st w) (st w')) w.
Proof.
  intros Hinv. apply wp_mapped, (wp_nodes _ (ReqFinishDraining id)); [done| |by intros [] w' Hg].
  simpl. apply (node_good_update _ _ (node_id id) (fun n => with_flags (nd_Schedulable n) false n)); [done|]. intros n Hn Hp.
  unfold node_id in Hp. breflect. split; [constructor; simpl; auto; right; done|exact (ni_ok _ Hinv n Hn)].
Qed.

Lemma labels_rule id labels w : node_inv (st w) ->
  wp env (setLabels id labels) (fun _ w' => good (ReqSetLabels id labels) (st w) (st w')) w.
Proof.
  intros Hinv. unfold setLabels. apply wp_bind. rewrite wp_lift. destruct (validateLabels labels); [|by apply node_good_refl].
  apply wp_bind, get_rule. intros [found|] w1 Hw1 _; rewrite <- Hw1 in *; [|by apply node_good_refl].
  apply wp_bind, wp_mapped, wp_write; intros w2 Hw2; simpl; [rewrite Hw2; by apply node_good_refl|].
  apply get_good. rewrite Hw2. destruct Hinv. split; [by constructor|].
  constructor; simpl; eauto using node_change_refl, ledger_refl.
Qed.

Lemma setDevices_rule nodeID held w : node_inv (st w) ->
  wp env (setDevices nodeID held) (fun _ w' => good (ReqSetDevices nodeID held) (st w) (st w')) w.
Proof.
  intros Hinv. unfold setDevices. apply wp_bind. rewrite wp_lift. case_match; [|by apply node_good_refl].
  apply wp_bind. rewrite wp_lift. case_match; [|by apply node_good_refl].
  apply (wp_devices _ (ReqSetDevices nodeID held)); [|done|done]. simpl.
  destruct (replaced_devices nodeID _ _) eqn:Er; simpl.
  - apply (replaced_ok _ _ _ _ (ReqSetDevices nodeID held)) in Er as [? ?]; [|apply Hinv]. by apply good_devices.
  - destruct (st w). by apply node_good_refl.
Qed.

Lemma releaseInstance_rule instanceID w : node_inv (st w) ->
  wp env (ReleaseInstance instanceID) (fun _ w' => good (ReqReleaseInstance instanceID) (st w) (st w')) w.
Proof.
  intros Hinv. apply (wp_devices _ (ReqReleaseInstance instanceID)); [|done|done]. simpl.
  apply good_devices; [done|apply unique_device_map; [by intros d; case_match|apply Hinv]|].
  split; intros d Hd Hi.
  - destruct (String.eqb_spec (dv_InstanceID d) instanceID) as [->|Hne]; [by right|left]. exists d. split; [|done].
    apply list_elem_of_fmap. exists d. by rewrite (proj2 (String.eqb_neq _ _) Hne).
  - left. apply list_elem_of_fmap in Hd as (d0 & -> & Hd0). exists d0. by destruct (String.eqb _ _) in *.
Qed.

(** What a claim ends with. *)
Definition claimed (nodeID instanceID : string) (db0 : NodeDB) (o : outcome string) (db : NodeDB) : Prop :=
  match o with
  | Ok address => exists d, d ∈ db_devices db /\ device_key d = (nodeID, address) /\ dv_InstanceID d = instanceID
  | Err _ => db = db0
  end.

Lemma claimDevice_good nodeID kind instanceID db d : node_inv db -> d ∈ db_devices db -> dv_NodeID d = nodeID -> offered kind d = true ->
  let free x := device_at nodeID (dv_Address d) x && is_empty (dv_InstanceID x) in
  existsb free (db_devices db) = true /\
  (forall x, x ∈ db_devices db -> free x = true -> x = d) /\
  good (ReqClaim nodeID kind instanceID) db (MkNodeDB (db_nodes db) (db_labels db)
    (map (fun x => if free x then with_holder instanceID x else x) (db_devices db))).
Proof.
  intros Hinv Hd En Ho free. assert (Hfd : free d = true).
  { unfold free, device_at. rewrite En, !String.eqb_refl. unfold offered in Ho. by breflect. }
  assert (Huniq : forall x, x ∈ db_devices db -> free x = true -> x = d).
  { intros x Hx Hf. unfold free, device_at in Hf. breflect.
    apply (unique_by_eq _ _ x d (device_key d) (ni_device _ Hinv)); [done|done| |done]. f_equal. by apply device_key_eq; subst. }
  split; [apply existsb_exists; exists d; split; [by apply list_elem_of_In|done]|]. split; [done|].
  apply good_devices; [done|apply unique_device_map; [by intros x; case_match|apply Hinv]|].
  split; intros x Hx Hi.
  - left. exists x. split; [|done]. apply list_elem_of_fmap. exists x. split; [|done].
    unfold free. rewrite (proj2 (String.eqb_neq (dv_InstanceID x) "") Hi : is_empty _ = false). by rewrite andb_false_r.
  - apply list_elem_of_fmap in Hx as (x0 & -> & Hx0). destruct (free x0) eqn:Ef; [|left; by apply kept_refl].
    right. rewrite (Huniq x0 Hx0 Ef) in *. simpl. split_and!; [done|done|]. by exists d.
Qed.

Lemma claim_first_rule nodeID kind instanceID held w : node_inv (st w) ->
  (forall d, d ∈ held -> d ∈ db_devices (st w) /\ dv_NodeID d = nodeID) ->
  wp env (claim_first nodeID kind instanceID held) (fun o w' =>
    good (ReqClaim nodeID kind instanceID) (st w) (st w') /\ claimed nodeID instanceID (st w) o (st w')) w.
Proof.
  intros Hinv. induction held as [|d held IH]; simpl; intros Hheld; [rewrite wp_fail; split; [by apply node_good_refl|done]|].
  destruct (offered kind d) eqn:Eo; simpl; [|apply IH; set_solver].
  destruct (Hheld d) as [Hd En]; [set_solver|].
  destruct (claimDevice_good nodeID kind instanceID (st w) d Hinv Hd En Eo) as (Hex & Huniq & Hg).
  apply wp_bind, (wp_devices _ (ReqClaim nodeID kind instanceID)); [exact Hg|done|].
  intros o w' Hg' [[-> Hw']|[-> Hdev]]; [by split|]. simpl. rewrite Hex. rewrite wp_ret. split; [done|].
  exists (with_holder instanceID d). rewrite Hdev. simpl. split; [|split; [unfold device_key; simpl; congruence|done]].
  apply list_elem_of_fmap. exists d. split; [|done].
  assert (device_at nodeID (dv_Address d) d && is_empty (dv_InstanceID d) = true) as ->; [|done].
  unfold device_at. rewrite En, !String.eqb_refl. unfold offered in Eo. by breflect.
Qed.

Lemma claim_rule nodeID kind instanceID w : node_inv (st w) ->
  wp env (ClaimDevice nodeID kind instanceID) (fun o w' =>
    good (ReqClaim nodeID kind instanceID) (st w) (st w') /\ claimed nodeID instanceID (st w) o (st w')) w.
Proof.
  intros Hinv. unfold ClaimDevice. apply wp_bind, wp_read. change (st (tick w)) with (st w). intros r Hr.
  destruct r as [held|e]; [|split; [by apply node_good_refl|done]]. destruct Hr as [?|[= ->]]; [done|].
  set (held := sliceStable _ _).
  assert (Hheld : forall d, d ∈ held -> d ∈ db_devices (st (tick w)) /\ dv_NodeID d = nodeID).
  { intros d Hd. unfold held in Hd. rewrite sliceStable_perm, elem_of_filter_bool in Hd. by rewrite String.eqb_eq in Hd. }
  destruct (List.find _ held) as [d|] eqn:Ef.
  - apply find_some_elem in Ef as [Hd Ei]. breflect. destruct (Hheld d Hd). rewrite wp_ret. split; [by apply node_good_refl|].
    exists d. split_and!; [done|unfold device_key; congruence|done].
  - by apply (claim_first_rule _ _ _ held (tick w)).
Qed.

Lemma node_serve_rule r w : node_inv (st w) -> wp env (serve r) (fun _ w' => good r (st w) (st w')) w.
Proof.
  intros Hinv. destruct r; cbn [serve].
  - apply wp_bind. eapply wp_mono; [|by apply register_rule]. by intros [].
  - apply wp_bind. eapply wp_mono; [|by apply heartbeat_rule]. by intros [].
  - apply wp_bind. eapply wp_mono; [|apply (flags_rule (ReqCordon id schedulable)); [done|]]; [by intros []|].
    intros n _ E. constructor; auto. right. by split.
  - apply wp_bind. eapply wp_mono; [|apply (flags_rule (ReqDrain id)); [done|]]; [by intros []|].
    intros n _ E. constructor; auto. right. by split.
  - by apply finishDraining_rule.
  - apply wp_bind. eapply wp_mono; [|by apply labels_rule]. by intros [].
  - by apply setDevices_rule.
  - apply wp_bind. eapply wp_mono; [|by apply claim_rule]. by intros [] ? [].
  - by apply releaseInstance_rule.
Qed.
End rules.

(** * Properties *)


Module Demo.
Definition env : Env := {| env_now _ := 0; env_rand n := [Z.of_nat n]; env_io _ := false |}.
Definition card (nodeID address : string) : Device := MkDevice nodeID address "gpu" "nv" "x" "vfio" true "".
Definition node_row (id name : string) : Node := MkNode id true false name "" "" "amd64" "linux" 8 16384 "1" ∅ 0 0.
Definition db : NodeDB := MkNodeDB [node_row "n-a" "a"; node_row "n-b" "b"] ∅ [card "n-a" "0000:01:00.0"; card "n-b" "0000:02:00.0"].
Definition world : World NodeDB := MkWorld db O [].
Lemma nodes_inv : node_inv db.
Proof.
  constructor; simpl.
  - unfold unique_by; simpl. by repeat constructor; set_solver.
  - unfold unique_by; simpl. by repeat constructor; set_solver.
  - intros n Hn. rewrite !elem_of_cons in Hn. destruct Hn as [->|[->|Hn]]; [vm_compute; done..|set_solver].
  - unfold unique_by; simpl. by repeat constructor; set_solver.
Qed.
End Demo.


(** [ClaimDevice_spec]: an instance that holds a device of the node is answered with it;
    otherwise it is given the device that [FreeDevice] names, and refused exactly when
    [FreeDevice] finds none. *)
Theorem ClaimDevice_spec {S} `{!Has NodeDB S} env nodeID kind instanceID (w : World S) (Hinv : node_inv (part w))
    (Hio : forall n, env_io env n = false) :
  let '(o, w') := ClaimDevice nodeID kind instanceID env w in
  match List.find (fun d => String.eqb (dv_InstanceID d) instanceID)
          (sliceStable by_address (List.filter (fun d => String.eqb (dv_NodeID d) nodeID) (db_devices (part w)))) with
  | Some d => o = Ok (dv_Address d) /\ part w' = part (T:=NodeDB) w
  | None =>
      match fst (FreeDevice nodeID kind env w) with
      | Ok (address, true) => o = Ok address /\
          exists d, d ∈ db_devices (part w') /\ device_key d = (nodeID, address) /\ dv_InstanceID d = instanceID
      | Ok (_, false) => (exists text, o = Err (Conflict "no_free_device" text)) /\ part w' = part (T:=NodeDB) w
      | Err _ => False
      end
  end.
Proof.
  pose proof (claim_rule env nodeID kind instanceID w Hinv) as Hrule. unfold wp in Hrule.
  destruct (ClaimDevice nodeID kind instanceID env w) as [o w'] eqn:E. destruct Hrule as [_ Hclaimed].
  revert E. unfold ClaimDevice, FreeDevice, devicesOn, query, sql, bind, ret. rewrite Hio. simpl. rewrite hput_hget.
  change (hget (w_st w)) with (part (T:=NodeDB) w). set (held := sliceStable _ _).
  assert (Hheld : forall d, d ∈ held -> d ∈ db_devices (part w) /\ dv_NodeID d = nodeID).
  { intros d Hd. unfold held in Hd. rewrite sliceStable_perm, elem_of_filter_bool in Hd. by rewrite String.eqb_eq in Hd. }
  destruct (List.find _ held) as [d|] eqn:Ef; [intros [= <- <-]; by destruct w|]. clear Ef.
  replace (with_st (tick w) (w_st w)) with (tick w) by (by destruct w). intros E.
  assert (Hstep : part (tick w) = part (T:=NodeDB) w) by done.
  induction held as [|d held IH]; simpl in *; [injection E as <- <-; eauto|].
  destruct (offered kind d) eqn:Eo; simpl in E; [|apply IH; [set_solver|exact E]].
  destruct (Hheld d) as [Hd En]; [set_solver|].
  destruct (claimDevice_good nodeID kind instanceID (part w) d Hinv Hd En Eo) as (Hex & _ & _).
  unfold claimDevice, on_devices, sql, bind in E. rewrite Hio in E. simpl in E.
  change (hget (w_st w)) with (part (T:=NodeDB) w) in E. rewrite Hex in E. injection E as <- <-. split; [done|].
  exact Hclaimed.
Qed.

Lemma ClaimDevice_spec_witness :
  exists w', ClaimDevice "n-b" "gpu" "i-1" Demo.env Demo.world = (Ok "0000:02:00.0", w') /\
  exists d, d ∈ db_devices (w_st w') /\ device_key d = ("n-b", "0000:02:00.0") /\ dv_InstanceID d = "i-1".
Proof.
  pose proof (ClaimDevice_spec Demo.env "n-b" "gpu" "i-1" Demo.world Demo.nodes_inv (fun n => eq_refl)) as H.
  destruct (ClaimDevice "n-b" "gpu" "i-1" Demo.env Demo.world) as [o w']. exists w'.
  destruct H as [-> H]. split; [reflexivity|exact H].
Defined.

(** [moved_instance_reads_old_device]: a device is released only when its instance is
    deleted.  An instance that was moved to another node and claimed a device there holds
    two, and [AddressOf], which looks at the lowest address over all nodes, gives the new
    node the address of a device of the old one. *)
Theorem moved_instance_reads_old_device :
  let w1 := snd (ClaimDevice "n-a" "gpu" "i-1" Demo.env Demo.world) in
  let '(o, w2) := ClaimDevice "n-b" "gpu" "i-1" Demo.env w1 in
  o = Ok "0000:02:00.0" /\ fst (AddressOf "i-1" Demo.env w2) = Ok "0000:01:00.0".
Proof. vm_compute. by split. Qed.
