(* ===== verification/ServiceSet.v ===== *)
(** Services (internal/platform/service): sets of replicas made from a template, kept at
    their count by a reconciler that replaces lost and failed replicas and rolls a new
    revision out one replica at a time.

    The instances a service is made of are behind the interface [Workloads]; log lines are
    left out.  The columns of list and map type, stored as JSON, hold their values. *)
From stdpp Require Import base tactics numbers strings list gmap sorting.
From Stdlib Require Import ZArith Lia Sorted.
From S2P Require Import Prelude GoLang Effects Regex Kernel InstanceSpec.

(** * Data (types.go) *)

Definition MaxReplicas : Z := 32.
Definition MaxNameLength : Z := 40.
Definition SuffixLength : Z := 6.
Definition MaxCreatePerPass : Z := 4.
Definition MaxReplacePerPass : Z := 1.
Definition MaxReapAttempts : Z := 3.
Definition StateRunning : string := "running".
Definition StateFailed : string := "failed".

(* go: platform/service/types.go Template *)
Record Template := MkTemplate {
  t_Isolation : string; t_Image : string; t_ISO : string; t_Kernel : string; t_DiskGiB : Z;
  t_FirewallID : string; t_Command : list string; t_NetworkID : string; t_RestartPolicy : string;
  t_VCPU : Z; t_MemoryMiB : Z; t_Group : string; t_Strict : bool; t_NodeSelector : gmap string string;
  t_ExtraNetworks : list string; t_Env : gmap string string; t_EnvSealed : string; t_EnvKeyID : string;
  t_EnvNames : list string; t_Files : list File; t_FilesSealed : string; t_FilePaths : list string;
  t_Keys : list string;
}.
(* go: platform/service/types.go Member *)
Record Member := MkMember { mb_InstanceID : string; mb_Revision : Z; mb_State : string; mb_CreatedAt : Z }.
(* go: platform/service/types.go Service *)
Record Service := MkService {
  sv_ID : string; sv_ProjectID : string; sv_Name : string; sv_Replicas : Z; sv_Revision : Z;
  sv_Template : Template; sv_Members : list Member; sv_Reaped : Z; sv_Blocked : string;
  sv_CreatedAt : Z; sv_UpdatedAt : Z;
}.
(* go: platform/service/types.go CreateParams *)
Record CreateParams := MkCreate { cp_ProjectID : string; cp_Name : string; cp_Replicas : Z; cp_Template : Template }.
(* go: platform/service/types.go UpdateParams *)
Record UpdateParams := MkUpdate { up_ProjectID : string; up_ID : string; up_Template : Template }.
(* go: platform/service/types.go Workload *)
Record Workload := MkWorkload {
  wl_ProjectID : string; wl_Name : string; wl_Template : Template; wl_Env : gmap string string; wl_Files : list File;
}.

(** The table [services], whose rows have no members of their own, and [service_members],
    whose rows have no state. *)
Record SvcDB := MkSvcDB { db_services : list Service; db_members : list (string * Member) }.

Definition errNotFound : error := ESentinel "service not found".
Definition errNameUsed : error := ESentinel "service name already used".
Definition ErrNoKey : error := ESentinel "this control plane holds no key to seal with".
Definition ErrKeyMissing : error := ESentinel "this control plane does not hold the key it was sealed with".

Definition with_members (members : list Member) (s : Service) : Service :=
  MkService (sv_ID s) (sv_ProjectID s) (sv_Name s) (sv_Replicas s) (sv_Revision s) (sv_Template s) members
    (sv_Reaped s) (sv_Blocked s) (sv_CreatedAt s) (sv_UpdatedAt s).
Definition with_replicas (replicas at_ : Z) (s : Service) : Service :=
  MkService (sv_ID s) (sv_ProjectID s) (sv_Name s) replicas (sv_Revision s) (sv_Template s) (sv_Members s)
    (sv_Reaped s) (sv_Blocked s) (sv_CreatedAt s) at_.
Definition with_template (t : Template) (revision at_ : Z) (s : Service) : Service :=
  MkService (sv_ID s) (sv_ProjectID s) (sv_Name s) (sv_Replicas s) revision t (sv_Members s)
    (sv_Reaped s) (sv_Blocked s) (sv_CreatedAt s) at_.
Definition with_reaped (reaped : Z) (s : Service) : Service :=
  MkService (sv_ID s) (sv_ProjectID s) (sv_Name s) (sv_Replicas s) (sv_Revision s) (sv_Template s) (sv_Members s)
    reaped (sv_Blocked s) (sv_CreatedAt s) (sv_UpdatedAt s).
Definition with_blocked (reason : string) (at_ : Z) (s : Service) : Service :=
  MkService (sv_ID s) (sv_ProjectID s) (sv_Name s) (sv_Replicas s) (sv_Revision s) (sv_Template s) (sv_Members s)
    (sv_Reaped s) reason (sv_CreatedAt s) at_.
Definition with_state (state : string) (m : Member) : Member :=
  MkMember (mb_InstanceID m) (mb_Revision m) state (mb_CreatedAt m).
(** The template as it is stored: the secrets sealed, their names in the clear. *)
Definition with_sealed (envSealed envKeyID : string) (filesSealed : string) (t : Template) : Template :=
  MkTemplate (t_Isolation t) (t_Image t) (t_ISO t) (t_Kernel t) (t_DiskGiB t) (t_FirewallID t) (t_Command t)
    (t_NetworkID t) (t_RestartPolicy t) (t_VCPU t) (t_MemoryMiB t) (t_Group t) (t_Strict t) (t_NodeSelector t)
    (t_ExtraNetworks t) ∅ envSealed envKeyID (namesOf (t_Env t)) [] filesSealed (pathsOf (t_Files t)) (t_Keys t).

(** * Interfaces *)

Section interfaces.
Context (S : Type).
(* go: platform/service/service.go Workloads *)
Record Workloads := {
  CreateWorkload : Workload -> M S string;
  DeleteWorkload : string -> string -> M S unit;
  StatesOf : list string -> M S (gmap string string);
}.
(* go: platform/service/service.go Registry *)
Record Registry := { ExistsIn : string -> string -> M S bool }.
(** [sealed.SealJSON] and [sealed.OpenJSON] at the two types they are used at. *)
Record Keyring := {
  SealEnvJSON : gmap string string -> M S (string * string);
  SealFilesJSON : list File -> M S (string * string);
  OpenEnvJSON : string -> string -> M S (gmap string string);
  OpenFilesJSON : string -> string -> M S (list File);
  ActiveID : string;
}.
(** The fields of [service] that [Use...] sets. *)
(* go: platform/service/service.go service *)
Record Deps := {
  d_workloads : option Workloads; d_networks : option Registry; d_firewalls : option Registry;
  d_sealing : option Keyring; d_events : bool;
}.
End interfaces.
Arguments CreateWorkload {S}. Arguments DeleteWorkload {S}. Arguments StatesOf {S}. Arguments ExistsIn {S}.
Arguments SealEnvJSON {S}. Arguments SealFilesJSON {S}. Arguments OpenEnvJSON {S}. Arguments OpenFilesJSON {S}.
Arguments ActiveID {S}. Arguments d_workloads {S}. Arguments d_networks {S}. Arguments d_firewalls {S}.
Arguments d_sealing {S}. Arguments d_events {S}.

(** * Repository (repository.go) *)

Definition service_id (id : string) (s : Service) : bool := String.eqb (sv_ID s) id.
Definition in_project (projectID : string) (s : Service) : bool := String.eqb (sv_ProjectID s) projectID.
Definition service_named (projectID name : string) (s : Service) : bool :=
  in_project projectID s && String.eqb (sv_Name s) name.
Definition member_text (m : Member) : string := rfc3339nano (mb_CreatedAt m).
(** [ORDER BY created_at, instance_id] *)
Definition by_age : Member -> Member -> bool := by_key member_text str_ltb (by_key mb_InstanceID str_ltb (fun _ _ => false)).
Definition members_in (serviceID : string) (rows : list (string * Member)) : list Member :=
  sliceStable by_age (map snd (List.filter (fun r => String.eqb (fst r) serviceID) rows)).

Section repository.
Context {S : Type} `{!Has SvcDB S}.

Definition on_services (what : string) (q : list Service -> outcome unit * list Service) : M S unit :=
  sql what (fun db => let '(r, rows) := q (db_services db) in (r, MkSvcDB rows (db_members db))).
Definition on_members (what : string) (q : list (string * Member) -> outcome unit * list (string * Member)) : M S unit :=
  sql what (fun db => let '(r, rows) := q (db_members db) in (r, MkSvcDB (db_services db) rows)).
(** An UPDATE whose count of rows is not looked at. *)
Definition update_any (p : Service -> bool) (f : Service -> Service) (rows : list Service) : outcome unit * list Service :=
  (Ok tt, map (fun s => if p s then f s else s) rows).

(** The primary key and the index [services_name_unique]. *)
Definition service_clash (s t : Service) : bool := service_id (sv_ID s) t || service_named (sv_ProjectID s) (sv_Name s) t.
(* go: platform/service/repository.go repository.insert *)
Definition insert (s : Service) : M S unit :=
  on_services "insert service" (insert_row (service_clash s) errNameUsed (with_members [] s)).
(* go: platform/service/repository.go repository.setReplicas *)
Definition setReplicas (id : string) (replicas at_ : Z) : M S unit :=
  on_services "set replicas" (update_where (service_id id) (with_replicas replicas at_) errNotFound).
(* go: platform/service/repository.go repository.setTemplate *)
Definition setTemplate (id : string) (t : Template) (revision at_ : Z) : M S unit :=
  on_services "set the template" (update_where (service_id id) (with_template t revision at_) errNotFound).
(* go: platform/service/repository.go repository.setReaped *)
Definition setReaped (id : string) (reaped : Z) : M S unit :=
  on_services "set the replacement count" (update_any (service_id id) (with_reaped reaped)).
(* go: platform/service/repository.go repository.setBlocked *)
Definition setBlocked (id reason : string) (at_ : Z) : M S unit :=
  on_services "set the blocked reason" (update_any (service_id id) (with_blocked reason at_)).
(* go: platform/service/repository.go repository.membersOf *)
Definition membersOf_rows (serviceID : string) : M S (list Member) :=
  query "list members" (fun db => Ok (members_in serviceID (db_members db))).
(** The rows of one query, each with its members. *)
(* go: platform/service/repository.go repository.load *)
Definition load (select : list Service -> list Service) : M S (list Service) :=
  let! rows := query "list services" (fun db => Ok (select (db_services db))) in
  foldM (fun s services =>
    let! members := membersOf_rows (sv_ID s) in ret (services ++ [with_members members s])) rows [].
(* go: platform/service/repository.go repository.listIn *)
Definition listIn_rows (projectID : string) : M S (list Service) :=
  load (fun rows => sliceStable (by_key sv_Name str_ltb (fun _ _ => false)) (List.filter (in_project projectID) rows)).
(* go: platform/service/repository.go repository.all *)
Definition all_rows : M S (list Service) := load (sliceStable (by_key sv_ID str_ltb (fun _ _ => false))).
Definition first_of (found : list Service) : outcome Service :=
  match found with s :: _ => Ok s | [] => Err errNotFound end.
(* go: platform/service/repository.go repository.byID *)
Definition byID (projectID id : string) : M S Service :=
  let! found := load (List.filter (fun s => in_project projectID s && service_id id s)) in lift (first_of found).
(* go: platform/service/repository.go repository.byName *)
Definition byName (projectID name : string) : M S Service :=
  let! found := load (List.filter (service_named projectID name)) in lift (first_of found).
(** The primary key (service, instance). *)
Definition member_at (serviceID instanceID : string) (r : string * Member) : bool :=
  String.eqb (fst r) serviceID && String.eqb (mb_InstanceID (snd r)) instanceID.
(* go: platform/service/repository.go repository.addMember *)
Definition addMember (serviceID instanceID : string) (revision at_ : Z) : M S unit :=
  on_members "add a member" (insert_row (member_at serviceID instanceID)
    (EWrap "add a member" (EText "UNIQUE constraint failed")) (serviceID, MkMember instanceID revision "" at_)).
(* go: platform/service/repository.go repository.removeMember *)
Definition removeMember (serviceID instanceID : string) : M S unit :=
  on_members "remove a member" (fun rows => (Ok tt, List.filter (fun r => negb (member_at serviceID instanceID r)) rows)).
(** One transaction. *)
(* go: platform/service/repository.go repository.delete *)
Definition delete (id : string) : M S unit :=
  sql "delete service" (fun db =>
    if existsb (service_id id) (db_services db)
    then (Ok tt, MkSvcDB (List.filter (fun s => negb (service_id id s)) (db_services db))
                   (List.filter (fun r => negb (String.eqb (fst r) id)) (db_members db)))
    else (Err errNotFound, db)).
End repository.

(** * Service (service.go) *)

(* go: platform/service/service.go translate *)
Definition translate (err : error) : error :=
  if errors_Is err "service not found" then NotFound "service_not_found" "no service with that name or id exists"
  else if errors_Is err "service name already used"
  then Conflict "service_name_taken" "a service with that name already exists in this project"
  else err.

(* go: platform/service/service.go checkSelector *)
Definition checkSelector (selector : gmap string string) : outcome unit :=
  try _ := guard (MaxNodeSelector <? Z.of_nat (size selector))
    (Invalid "invalid_node_selector" ("a node selector names at most " +:+ itoa MaxNodeSelector +:+ " labels, and "
       +:+ itoa (Z.of_nat (size selector)) +:+ " were given")) in
  each (fun kv =>
    try _ := validate_Name "node_selector_key" (fst kv) in
    validate_Name "node_selector_value" (snd kv)) (map_to_list selector).
(* go: platform/service/env.go checkEnv *)
Definition checkEnv (env : gmap string string) : outcome unit :=
  try _ := guard (MaxEnv <? Z.of_nat (size env))
    (Invalid "invalid_env" ("a service carries at most " +:+ itoa MaxEnv +:+ " environment variables, and "
       +:+ itoa (Z.of_nat (size env)) +:+ " were given")) in
  each (fun kv => guard (negb (re_match envNamePattern (fst kv)))
    (Invalid "invalid_env" (quoted (fst kv) +:+ " is not an environment variable name"))) (map_to_list env).
(* go: platform/service/service.go checkTemplate *)
Definition checkTemplate (t : Template) : outcome unit :=
  try _ := checkSelector (t_NodeSelector t) in
  try _ := checkEnv (t_Env t) in
  try _ := guard (MaxExtraNetworks <? len (t_ExtraNetworks t))
    (Invalid "invalid_networks" ("a replica takes at most " +:+ itoa MaxExtraNetworks +:+ " networks beyond its first")) in
  try _ := guard (MaxFiles <? len (t_Files t))
    (Invalid "invalid_files" ("a service carries at most " +:+ itoa MaxFiles +:+ " files, and "
       +:+ itoa (len (t_Files t)) +:+ " were given")) in
  guard (is_empty (t_Image t) && is_empty (t_ISO t))
    (Invalid "invalid_template" "a service needs an image or an iso to make replicas from").
(* go: platform/service/service.go checkReplicas *)
Definition checkReplicas (replicas : Z) : outcome unit :=
  guard ((replicas <? 0) || (MaxReplicas <? replicas))
    (Invalid "invalid_replicas" ("replicas must be between 0 and " +:+ itoa MaxReplicas)).

(* go: platform/service/service.go allRunning *)
Definition allRunning (present : list Member) : bool :=
  forallb (fun m => String.eqb (mb_State m) StateRunning) present && (0 <? len present).
(* go: platform/service/service.go partition *)
Definition partition (present : list Member) (revision : Z) (staleFirst : bool) : list Member :=
  let fresh := List.filter (fun m => mb_Revision m =? revision) present in
  let stale := List.filter (fun m => negb (mb_Revision m =? revision)) present in
  match stale with
  | [] => present
  | _ => if staleFirst then stale ++ fresh else fresh ++ stale
  end.
(* go: platform/service/service.go clip *)
Definition clip (value : string) (limit : Z) : string := if slen value <=? limit then value else str_take limit value.

Section service.
Context {S : Type} `{!Has SvcDB S} (deps : Deps S).

Definition translated {A} (m : M S A) : M S A := mapped translate m.
Definition when_some {D A} (d : option D) (m : D -> M S A) (otherwise : A) : M S A :=
  match d with Some d => m d | None => ret otherwise end.

(** The inner loop of [checkReferences]. *)
(* go: platform/service/service.go:74-91 group.ids *)
Definition check_ids (projectID : string) (registry : option (Registry S)) (ids : list string) : M S unit :=
  when_some registry (fun registry =>
    foldM (fun id _ =>
      if is_empty id then ret tt
      else
        let! known := ExistsIn registry id projectID in
        lift (guard (negb known) (Invalid "unknown_reference" ("nothing with id " +:+ id
          +:+ " exists in this project, and a template that names it would retire a working replica to make one that cannot start"))))
      ids tt) tt.
(* go: platform/service/service.go service.checkReferences *)
Definition checkReferences (projectID : string) (t : Template) : M S unit :=
  check_ids projectID (d_networks deps) (t_NetworkID t :: t_ExtraNetworks t) ;;;
  check_ids projectID (d_firewalls deps) [t_FirewallID t].

Definition with_ring {A} (e : error) (m : Keyring S -> M S A) : M S A :=
  match d_sealing deps with Some ring => m ring | None => fail e end.
(* go: platform/service/env.go sealEnv *)
Definition sealEnv (env : gmap string string) : M S (string * string) :=
  if (size env =? 0)%nat then ret ("", "")
  else mapped (fun err =>
    if errors_Is err "this control plane holds no key to seal with"
    then Conflict "no_sealing_key" "this control plane has no key to seal an environment with, and every replica would carry it: start it with --backup-key-file, or leave env off"
    else Internal (EWrap "seal the environment" err)) (with_ring ErrNoKey (fun ring => SealEnvJSON ring env)).
(* go: platform/service/env.go sealFiles *)
Definition sealFiles (files : list File) : M S string :=
  if (length files =? 0)%nat then ret ""
  else mapped (fun err =>
    if errors_Is err "this control plane holds no key to seal with"
    then Conflict "no_sealing_key" "this control plane has no key to seal a config file with, and every replica would carry it: start it with --backup-key-file, or leave files off"
    else Internal (EWrap "seal the files" err))
    (let! ' (blob, _) := with_ring ErrNoKey (fun ring => SealFilesJSON ring files) in ret blob).
(* go: platform/service/env.go openEnv *)
Definition openEnv (blob keyID : string) : M S (gmap string string) :=
  if is_empty blob then ret ∅
  else mapped (fun err =>
    if errors_Is err "this control plane does not hold the key it was sealed with"
    then Conflict "env_key_missing" ("this service's environment was sealed with key " +:+ keyID +:+ ", which this control plane does not hold")
    else Internal (EWrap "unseal the environment" err)) (with_ring ErrKeyMissing (fun ring => OpenEnvJSON ring blob keyID)).
(* go: platform/service/env.go openFiles *)
Definition openFiles (blob keyID : string) : M S (list File) :=
  if is_empty blob then ret []
  else mapped (fun err =>
    if errors_Is err "this control plane does not hold the key it was sealed with"
    then Conflict "seal_key_missing" ("this service's files were sealed with key " +:+ keyID +:+ ", which this control plane does not hold")
    else Internal (EWrap "unseal the files" err)) (with_ring ErrKeyMissing (fun ring => OpenFilesJSON ring blob keyID)).
(* go: platform/service/service.go service.sealTemplate *)
Definition sealTemplate (t : Template) : M S Template :=
  let! ' (envSealed, envKeyID) := sealEnv (t_Env t) in
  let! filesSealed := sealFiles (t_Files t) in
  let envKeyID := if negb (is_empty filesSealed) && is_empty envKeyID
                  then match d_sealing deps with Some ring => ActiveID ring | None => "" end else envKeyID in
  ret (with_sealed envSealed envKeyID filesSealed t).

(* go: platform/service/service.go service.note *)
Definition note (s : Service) (kind subject message : string) (severity : Severity) : M S unit :=
  if d_events deps
  then record {| ev_ProjectID := sv_ProjectID s; ev_Kind := kind; ev_Subject := subject; ev_NodeID := "";
                 ev_Message := message; ev_Severity := severity |}
  else ret tt.

(* go: platform/service/service.go service.withStates *)
Definition withStates (services : list Service) : M S (list Service) :=
  when_some (d_workloads deps) (fun workloads =>
    foldM (fun s done =>
      match sv_Members s with
      | [] => ret (done ++ [s])
      | members =>
          let! states := StatesOf workloads (map mb_InstanceID members) in
          ret (done ++ [with_members (map (fun m => with_state (default "" (states !! mb_InstanceID m)) m) members) s])
      end) services []) services.

(* go: platform/service/service.go service.find *)
Definition find (projectID id : string) : M S Service :=
  let! r := attempt (byID projectID id) in
  let! s := match r with
            | Ok s => ret s
            | Err e => if errors_Is e "service not found" then translated (byName projectID id) else fail (translate e)
            end in
  let! found := withStates [s] in
  match found with s :: _ => ret s | [] => fail errNotFound end.

(* go: platform/service/service.go service.create *)
Definition create (params : CreateParams) : M S Service :=
  lift (validate_Name "name" (cp_Name params)) ;;;
  lift (guard (MaxNameLength <? slen (cp_Name params)) (Invalid "invalid_name" ("a service name must be at most "
    +:+ itoa MaxNameLength +:+ " characters, because every replica name is built from it"))) ;;;
  lift (checkReplicas (cp_Replicas params)) ;;;
  lift (checkTemplate (cp_Template params)) ;;;
  checkReferences (cp_ProjectID params) (cp_Template params) ;;;
  let! template := sealTemplate (cp_Template params) in
  let! at_ := now in
  let! id := ids_New "svc" in
  let s := MkService id (cp_ProjectID params) (cp_Name params) (cp_Replicas params) 1 template [] 0 "" at_ at_ in
  translated (insert s) ;;;
  ret s.

(* go: platform/service/service.go service.update *)
Definition update (params : UpdateParams) : M S Service :=
  lift (checkTemplate (up_Template params)) ;;;
  let! s := find (up_ProjectID params) (up_ID params) in
  checkReferences (up_ProjectID params) (up_Template params) ;;;
  let! template := sealTemplate (up_Template params) in
  let! at_ := now in
  translated (setTemplate (sv_ID s) template (sv_Revision s + 1) at_) ;;;
  translated (setReaped (sv_ID s) 0) ;;;
  note s "service.revision_published" (sv_ID s) (sv_Name s +:+ " is now on revision " +:+ itoa (sv_Revision s + 1)
    +:+ ", and replicas will be replaced one at a time") Info ;;;
  find (up_ProjectID params) (sv_ID s).

(* go: platform/service/service.go service.scale *)
Definition scale (projectID id : string) (replicas : Z) : M S Service :=
  lift (checkReplicas replicas) ;;;
  let! s := find projectID id in
  let! at_ := now in
  translated (setReplicas (sv_ID s) replicas at_) ;;;
  find projectID (sv_ID s).

(* go: platform/service/service.go service.membersOf *)
Definition membersOf (projectID serviceID : string) : M S (list string) :=
  let! s := find projectID serviceID in ret (map mb_InstanceID (sv_Members s)).
(* go: platform/service/service.go service.listIn *)
Definition listIn (projectID : string) : M S (list Service) :=
  let! services := translated (listIn_rows projectID) in withStates services.

(* go: platform/service/service.go service.remove *)
Definition remove (projectID id : string) : M S unit :=
  let! s := find projectID id in
  when_some (d_workloads deps) (fun workloads =>
    foldM (fun m _ => mapped (fun err => Internal (EWrap ("service " +:+ sv_Name s +:+ " could not delete replica "
        +:+ mb_InstanceID m +:+ ", so nothing was removed") err))
      (DeleteWorkload workloads (sv_ProjectID s) (mb_InstanceID m))) (sv_Members s) tt) tt ;;;
  translated (delete (sv_ID s)).

(** ** Reconciling *)

(** [if err := m; err != nil { log.Warn(...) }] *)
Definition quietly {A} (m : M S A) : M S unit := attempt m ;;; ret tt.

(* go: platform/service/service.go service.block *)
Definition block (s : Service) (reason : string) : M S unit :=
  let reason := clip reason (MaxNameLength * 8) in
  if String.eqb (sv_Blocked s) reason then ret tt
  else
    let! at_ := now in
    quietly (setBlocked (sv_ID s) reason at_) ;;;
    note s "service.blocked" (sv_ID s) (sv_Name s +:+ " cannot reach " +:+ itoa (sv_Replicas s)
      +:+ " replicas: " +:+ reason) SevError.
(* go: platform/service/service.go service.clearBlocked *)
Definition clearBlocked (s : Service) : M S unit :=
  if is_empty (sv_Blocked s) then ret tt
  else let! at_ := now in quietly (setBlocked (sv_ID s) "" at_).

(* go: platform/service/service.go replicaName *)
Definition replicaName (name : string) : M S string :=
  let! suffix := ids_New "r" in
  let suffix := if SuffixLength + 2 <? slen suffix then str_drop (slen suffix - SuffixLength) suffix else suffix in
  ret (name +:+ "-" +:+ suffix).

(* go: platform/service/service.go service.livingMembers *)
Definition livingMembers (s : Service) : M S (list Member) :=
  foldM (fun m present =>
    if negb (is_empty (mb_State m)) then ret (present ++ [m])
    else
      removeMember (sv_ID s) (mb_InstanceID m) ;;;
      note s "service.replica_lost" (mb_InstanceID m) ("replica of " +:+ sv_Name s
        +:+ " no longer exists, making a replacement") Warn ;;;
      ret present) (sv_Members s) [].

(** Deleting a replica and taking it out of the service, in the three loops that do: [false]
    where either fails, which is only logged. *)
(* go: platform/service/service.go:408-417 removeMember *)
Definition drop_member (workloads : Workloads S) (s : Service) (m : Member) : M S bool :=
  let! r := attempt (DeleteWorkload workloads (sv_ProjectID s) (mb_InstanceID m)) in
  match r with
  | Err _ => ret false
  | Ok _ =>
      let! r := attempt (removeMember (sv_ID s) (mb_InstanceID m)) in
      ret (match r with Ok _ => true | Err _ => false end)
  end.

Section passes.
Context (workloads : Workloads S).

(** The members left, the number replaced, and whether the service is given up on. *)
(* go: platform/service/service.go service.reapFailed *)
Definition reapFailed (s : Service) (present : list Member) : M S (list Member * Z * bool) :=
  let failed := List.filter (fun m => String.eqb (mb_State m) StateFailed) present in
  let kept := List.filter (fun m => negb (String.eqb (mb_State m) StateFailed)) present in
  match failed with
  | [] => ret (present, 0, false)
  | _ =>
      if MaxReapAttempts <=? sv_Reaped s
      then
        block s ("replaced " +:+ itoa (sv_Reaped s)
          +:+ " replicas and they keep failing, so the rest are left alone until the template or the image is fixed") ;;;
        ret (present, 0, true)
      else
        let! r := for_each (fun m reaped =>
          if reaped =? MaxReplacePerPass then ret (Break reaped)
          else
            let! dropped := drop_member workloads s m in
            if negb dropped then ret (Break reaped)
            else
              note s "service.replica_failed" (mb_InstanceID m) (sv_Name s
                +:+ " replaced a replica that had failed, attempt " +:+ itoa (sv_Reaped s + (reaped + 1))
                +:+ " of " +:+ itoa MaxReapAttempts) Warn ;;;
              ret (Next (R:=Empty_set) (reaped + 1))) failed 0 in
        let reaped := match r with inl n => n | inr e => match e with end end in
        if reaped =? 0 then ret (present, 0, false)
        else
          quietly (setReaped (sv_ID s) (sv_Reaped s + reaped)) ;;;
          ret (kept ++ drop (Z.to_nat reaped) failed, reaped, false)
  end.

(* go: platform/service/service.go service.retireStale *)
Definition retireStale (s : Service) (present : list Member) : M S (list Member * Z) :=
  let ordered := partition present (sv_Revision s) true in
  let! r := for_each (fun m retired =>
    if retired =? MaxReplacePerPass then ret (Break retired)
    else if mb_Revision m =? sv_Revision s then ret (Break retired)
    else
      let! dropped := drop_member workloads s m in
      if negb dropped then ret (Break retired)
      else
        note s "service.replica_retired" (mb_InstanceID m) (sv_Name s +:+ " retired a replica on revision "
          +:+ itoa (mb_Revision m) +:+ " to make room for revision " +:+ itoa (sv_Revision s)) Info ;;;
        ret (Next (R:=Empty_set) (retired + 1))) ordered 0 in
  let retired := match r with inl n => n | inr e => match e with end end in
  if retired =? 0 then ret (present, 0) else ret (drop (Z.to_nat retired) ordered, retired).

(* go: platform/service/service.go service.growTo *)
Definition growTo (s : Service) (present : list Member) : M S Z :=
  let wanted := Z.min (sv_Replicas s - len present) MaxCreatePerPass in
  let t := sv_Template s in
  let! r := attempt (openEnv (t_EnvSealed t) (t_EnvKeyID t)) in
  match r with
  | Err e => block s (error_text e) ;;; ret 0
  | Ok env =>
  let! r := attempt (openFiles (t_FilesSealed t) (t_EnvKeyID t)) in
  match r with
  | Err e => block s (error_text e) ;;; ret 0
  | Ok files =>
  let! r := for_each (fun _ created =>
    let! name := replicaName (sv_Name s) in
    let! r := attempt (CreateWorkload workloads (MkWorkload (sv_ProjectID s) name t env files)) in
    match r with
    | Err e => block s (error_text e) ;;; ret (Return created)
    | Ok id =>
        let! at_ := now in
        addMember (sv_ID s) id (sv_Revision s) at_ ;;;
        note s "service.replica_added" id (sv_Name s +:+ " grew to " +:+ itoa (len present + (created + 1))
          +:+ " of " +:+ itoa (sv_Replicas s)) Info ;;;
        ret (Next (created + 1))
    end) (replicate (Z.to_nat wanted) tt) 0 in
  match r with inr created => ret created | inl created => clearBlocked s ;;; ret created end
  end end.

(** The loop from the last member down to the count, which a non-negative count ends before
    the list does. *)
(* go: platform/service/service.go service.shrinkTo *)
Definition shrinkTo (s : Service) (present : list Member) : M S Z :=
  let ordered := partition present (sv_Revision s) false in
  let! removed := foldM (fun m removed =>
    let! dropped := drop_member workloads s m in
    if negb dropped then ret removed
    else
      note s "service.replica_removed" (mb_InstanceID m) (sv_Name s +:+ " shrank to "
        +:+ itoa (len present - (removed + 1)) +:+ " of " +:+ itoa (sv_Replicas s)) Info ;;;
      ret (removed + 1)) (rev (drop (Z.to_nat (sv_Replicas s)) ordered)) 0 in
  clearBlocked s ;;;
  ret removed.

(* go: platform/service/service.go service.settle *)
Definition settle (s : Service) (present : list Member) : M S unit :=
  clearBlocked s ;;;
  if (sv_Reaped s =? 0) || negb (allRunning present) then ret tt
  else quietly (setReaped (sv_ID s) 0).

(* go: platform/service/service.go service.reconcileOne *)
Definition reconcileOne (s : Service) : M S (Z * Z) :=
  let! present := livingMembers s in
  if sv_Replicas s <? len present
  then let! removed := shrinkTo s present in ret (0, removed)
  else
    let! ' (present, reaped, gaveUp) := reapFailed s present in
    if gaveUp : bool then ret (0, reaped)
    else
      let! ' (present, retired) :=
        if len present =? sv_Replicas s then retireStale s present else ret (present, 0) in
      if len present <? sv_Replicas s
      then let! created := growTo s present in ret (created, retired + reaped)
      else settle s present ;;; ret (0, retired + reaped).
End passes.

(* go: platform/service/service.go service.reconcile *)
Definition reconcile : M S (Z * Z) :=
  when_some (d_workloads deps) (fun workloads =>
    let! services := translated all_rows in
    let! services := withStates services in
    foldM (fun s counts =>
      let! r := attempt (reconcileOne workloads s) in
      ret (match r with Err _ => counts | Ok (up, down) => (fst counts + up, snd counts + down) end))
      services (0, 0)) (0, 0).

(** * Module (module.go) *)

(* go: platform/service/module.go Module.Describe *)
Definition Describe (projectID serviceID : string) : M S Service := find projectID serviceID.
(* go: platform/service/module.go Module.All *)
Definition All : M S (list Service) := let! services := translated all_rows in withStates services.
(* go: platform/service/module.go Module.Scale *)
Definition Scale (projectID serviceID : string) (replicas : Z) : M S unit :=
  scale projectID serviceID replicas ;;; ret tt.
(* go: platform/service/module.go Module.Settled *)
Definition Settled (s : Service) : bool := (len (sv_Members s) =? sv_Replicas s) && allRunning (sv_Members s).
(* go: platform/service/module.go Module.MembersOf *)
Definition MembersOf (projectID serviceID : string) : M S (list string) := membersOf projectID serviceID.
(* go: platform/service/module.go Module.Reconcile *)
Definition Reconcile : M S unit := quietly reconcile.
End service.

(** * What one pass asks of the instances *)

(** A call to [Workloads] and its answer. *)
Inductive call :=
| Created (wl : Workload) (r : outcome string)
| Deleted (projectID instanceID : string) (r : outcome unit).

(** Each call to the instances is written down with its answer, and touches no service. *)
Record Logged {S} `{!Has SvcDB S, !Has (list call) S} (W : Workloads S) : Prop := {
  lg_create wl : logs (CreateWorkload W wl) (Created wl);
  lg_delete p i : logs (DeleteWorkload W p i) (Deleted p i);
}.
Arguments lg_create {S _ _ W}. Arguments lg_delete {S _ _ W}.
(** Opening sealed secrets makes no such call. *)
Record QuietRing {S} `{!Has (list call) S} (ring : Keyring S) : Prop := {
  qr_env blob key : leaves (list call) (OpenEnvJSON ring blob key);
  qr_files blob key : leaves (list call) (OpenFilesJSON ring blob key);
}.
Arguments qr_env {S _ ring}. Arguments qr_files {S _ ring}.

Definition is_failed (m : Member) : bool := String.eqb (mb_State m) StateFailed.
Definition living (s : Service) : list Member := List.filter (fun m => negb (is_empty (mb_State m))) (sv_Members s).
(** The members beyond the count, those of older revisions first. *)
Definition surplus (s : Service) : list Member :=
  rev (drop (Z.to_nat (sv_Replicas s)) (partition (living s) (sv_Revision s) false)).
Definition deleted (calls : list call) : list (string * string) :=
  omap (fun c => match c with Deleted p i _ => Some (p, i) | _ => None end) calls.
Definition gone (calls : list call) : list call :=
  List.filter (fun c => match c with Deleted _ _ (Ok _) => true | _ => false end) calls.
Definition created (calls : list call) : list Workload :=
  omap (fun c => match c with Created wl _ => Some wl | _ => None end) calls.

(** What a pass over a service that is not over its count may do away with: a failed replica
    while it is not given up on, or one of an older revision while the count is met. *)
Definition expendable (s : Service) (m : Member) : Prop :=
  is_failed m = true /\ sv_Reaped s < MaxReapAttempts \/
  mb_Revision m <> sv_Revision s /\ len (living s) = sv_Replicas s.
(** A replica is made from the template in force. *)
Definition from_template (s : Service) (wl : Workload) : Prop :=
  wl_ProjectID wl = sv_ProjectID s /\ wl_Template wl = sv_Template s /\
  exists suffix, wl_Name wl = sv_Name s +:+ "-" +:+ suffix.

Record lawful (s : Service) (calls : list call) : Prop := {
  lw_surplus : sv_Replicas s < len (living s) ->
    created calls = [] /\ deleted calls = map (fun m => (sv_ProjectID s, mb_InstanceID m)) (surplus s);
  lw_deleted p i : len (living s) <= sv_Replicas s -> (p, i) ∈ deleted calls ->
    p = sv_ProjectID s /\ exists m, m ∈ living s /\ mb_InstanceID m = i /\ expendable s m;
  lw_pace : len (living s) <= sv_Replicas s -> len (deleted calls) <= 2;
  lw_created : Forall (from_template s) (created calls);
  lw_count : len (living s) <= sv_Replicas s ->
    len (created calls) <= MaxCreatePerPass /\
    len (living s) - len (gone calls) + len (created calls) <= sv_Replicas s;
  lw_given_up : len (living s) <= sv_Replicas s -> MaxReapAttempts <= sv_Reaped s ->
    existsb is_failed (living s) = true -> calls = [];
}.

Section pass.
Context {S : Type} `{!Has SvcDB S, !Has (list call) S, !Apart SvcDB (list call) S}.
Context (deps : Deps S) (W : Workloads S) (HW : Logged W) (Hring : forall ring, d_sealing deps = Some ring -> QuietRing ring).
Context (env : Env).
Abbreviation calls w := (part (T:=list call) w).
Implicit Types (w : World S) (s : Service).

Lemma name_rule name (Q : outcome string -> World S -> Prop) w :
  (forall suffix w', calls w' = calls w -> Q (Ok (name +:+ "-" +:+ suffix)) w') -> wp env (replicaName name) Q w.
Proof.
  intros HQ. unfold replicaName, ids_New. apply wp_bind, wp_bind. rewrite wp_rand, !wp_ret. by apply HQ.
Qed.

Lemma silent_ring {A} (e : error) (open : Keyring S -> M S A) :
  (forall ring, QuietRing ring -> leaves (list call) (open ring)) -> leaves (list call) (with_ring deps e open).
Proof. intros Ho. unfold with_ring. destruct (d_sealing deps) as [ring|] eqn:E; auto with leaves. Qed.

Lemma silent_openEnv blob key : leaves (list call) (openEnv deps blob key).
Proof. unfold openEnv. case_match; auto with leaves. apply leaves_mapped, silent_ring. by intros ring [He _]. Qed.

Lemma silent_openFiles blob key : leaves (list call) (openFiles deps blob key).
Proof. unfold openFiles. case_match; auto with leaves. apply leaves_mapped, silent_ring. by intros ring [_ Hf]. Qed.

(** It makes no call, and whatever fails in it is only logged. *)
Definition hushed (m : M S unit) : Prop := forall (Q : outcome unit -> World S -> Prop) w,
  (forall w', calls w' = calls w -> Q (Ok tt) w') -> wp env m Q w.

Lemma hushed_note s kind subject message sev : hushed (note deps s kind subject message sev).
Proof. intros Q w HQ. unfold note. case_match; by apply HQ. Qed.

Lemma hushed_quietly {A} (m : M S A) : leaves (list call) m -> hushed (quietly m).
Proof.
  intros Hm Q w HQ. unfold quietly. apply wp_bind, wp_attempt, wp_leaves; [done|]. intros r w' Hw'.
  rewrite wp_ret. by apply HQ.
Qed.

Lemma hushed_block s reason : hushed (block deps s reason).
Proof.
  intros Q w HQ. unfold block. case_match; [by apply HQ|]. apply wp_bind. rewrite wp_now.
  apply wp_bind, hushed_quietly; [apply leaves_sql|]. intros w1 Hw1. apply hushed_note. intros w2 Hw2.
  apply HQ. by rewrite Hw2, Hw1.
Qed.

Lemma hushed_clear s : hushed (clearBlocked s).
Proof.
  intros Q w HQ. unfold clearBlocked. case_match; [by apply HQ|]. apply wp_bind. rewrite wp_now.
  apply hushed_quietly; [apply leaves_sql|]. intros w1 Hw1. by apply HQ.
Qed.

Lemma hushed_settle s present : hushed (settle s present).
Proof.
  intros Q w HQ. unfold settle. apply wp_bind, hushed_clear. intros w1 Hw1. case_match; [by apply HQ|].
  apply hushed_quietly; [apply leaves_sql|]. intros w2 Hw2. apply HQ. by rewrite Hw2, Hw1.
Qed.

(** The members of the service that still are. *)
Lemma living_rule s (Q : outcome (list Member) -> World S -> Prop) w :
  (forall r w', calls w' = calls w -> match r with Ok present => present = living s | Err _ => True end -> Q r w') ->
  wp env (livingMembers deps s) Q w.
Proof.
  intros HQ. unfold livingMembers. eapply wp_mono; [|eapply (wp_foldM_done _ (fun done present w' =>
    present = List.filter (fun m => negb (is_empty (mb_State m))) done /\ calls w' = calls w)
    (fun _ w' => calls w' = calls w))]; [|intros done m rest present w1 Hms [-> Hw1]|done].
  - intros [present|e] w' H; apply HQ; naive_solver.
  - rewrite List.filter_app. simpl. destruct (negb _) eqn:En; [rewrite wp_ret; by rewrite Hw1|]. rewrite app_nil_r.
    apply wp_bind, wp_leaves; [apply leaves_sql|]. intros [[]|] w2 Hw2; [|congruence].
    apply wp_bind, hushed_note. intros w3 Hw3. rewrite wp_ret. split; [done|congruence].
Qed.

Lemma drop_rule s m (Q : outcome bool -> World S -> Prop) w :
  (forall b o w', calls w' = calls w ++ [Deleted (sv_ProjectID s) (mb_InstanceID m) o] ->
     (b = true -> o = Ok tt) -> Q (Ok b) w') ->
  wp env (drop_member W s m) Q w.
Proof.
  intros HQ. unfold drop_member. apply wp_bind, wp_attempt.
  eapply (wp_logs _ _ _ _ _ (lg_delete HW (sv_ProjectID s) (mb_InstanceID m))). intros r w1 _ Hw1.
  destruct r as [[]|e]; [|rewrite wp_ret; by eapply HQ].
  apply wp_bind, wp_attempt, wp_leaves; [apply leaves_sql|]. intros r w2 Hw2. rewrite wp_ret.
  eapply HQ; [by rewrite Hw2|done].
Qed.

(** A loop whose body has had enough. *)
Lemma wp_done_loop {X R} (body : X -> Z -> M S (flow Z R)) xs n (Q : outcome (Z + R) -> World S -> Prop) w :
  (forall x w, body x n env w = (Ok (Break n), w)) -> Q (Ok (inl n)) w -> wp env (for_each body xs n) Q w.
Proof. intros Hb HQ. destruct xs as [|x xs]; [done|]. unfold wp, for_each, bind. by rewrite Hb. Qed.

(** A loop that does away with at most one member. *)
Definition dropped (s : Service) (present : list Member) (may : Member -> Prop)
    (present' : list Member) (n : Z) (cs : list call) : Prop :=
  n = 0 /\ present' = present /\ cs = [] \/
  exists m o, m ∈ present /\ may m /\ cs = [Deleted (sv_ProjectID s) (mb_InstanceID m) o] /\
    (n = 0 /\ present' = present \/ n = 1 /\ o = Ok tt /\ len present' = len present - 1).

Lemma filter_split {A} (p : A -> bool) l :
  List.filter p l ++ List.filter (fun x => negb (p x)) l ≡ₚ l.
Proof.
  induction l as [|x l IH]; [done|]. simpl. destruct (p x); simpl; [by rewrite IH|].
  rewrite <- Permutation_middle. by rewrite IH.
Qed.

Lemma partition_perm present revision first : partition present revision first ≡ₚ present.
Proof.
  unfold partition. pose proof (filter_split (fun m => mb_Revision m =? revision) present) as Hp.
  destruct (List.filter (fun m => negb _) _) as [|m l] eqn:E; [done|]. destruct first; [|exact Hp].
  by rewrite Permutation_app_comm.
Qed.

Lemma reap_rule s present (Q : outcome (list Member * Z * bool) -> World S -> Prop) w :
  (forall present' n gaveUp cs w', calls w' = calls w ++ cs ->
     (if gaveUp : bool then cs = [] else
        dropped s present (fun m => is_failed m = true /\ sv_Reaped s < MaxReapAttempts) present' n cs /\
        (existsb is_failed present = true -> sv_Reaped s < MaxReapAttempts)) ->
     Q (Ok (present', n, gaveUp)) w') ->
  wp env (reapFailed deps W s present) Q w.
Proof.
  intros HQ. unfold reapFailed.
  pose proof (filter_split (fun m => String.eqb (mb_State m) StateFailed) present) as Hp.
  assert (Hf : forall m, m ∈ List.filter (fun m => String.eqb (mb_State m) StateFailed) present ->
    m ∈ present /\ is_failed m = true) by (intros m; by rewrite elem_of_filter_bool).
  destruct (List.filter (fun m => String.eqb _ _) present) as [|m failed] eqn:Ef.
  { rewrite wp_ret. eapply HQ; [by rewrite app_nil_r|]. split; [by left|]. intros (m & Hm & Em)%existsb_exists.
    assert (Hm' : m ∈ []); [|by apply not_elem_of_nil in Hm']. rewrite <- Ef. apply elem_of_filter_bool. split; [by apply list_elem_of_In|done]. }
  destruct (Hf m) as [Hm Em]; [set_solver|]. destruct (MaxReapAttempts <=? sv_Reaped s) eqn:Er; breflect.
  { apply wp_bind, hushed_block. intros w1 Hw1. rewrite wp_ret. eapply (HQ _ _ _ []); [by rewrite app_nil_r|done]. }
  apply wp_bind. cbn [for_each]. change (0 =? MaxReplacePerPass) with false. cbv iota. apply wp_bind, wp_bind, drop_rule.
  intros b o w1 Hw1 Hb.
  destruct b; simpl.
  - apply wp_bind, hushed_note. intros w2 Hw2. rewrite wp_ret. apply wp_done_loop; [done|].
    change (0 + 1 =? 0) with false. cbv iota. apply wp_bind, hushed_quietly; [apply leaves_sql|]. intros w3 Hw3.
    rewrite wp_ret. eapply HQ; [by rewrite Hw3, Hw2, Hw1|]. split; [|done]. right. exists m, o.
    split_and!; [done|done|done|done|]. right. split_and!; [done|by apply Hb|].
    apply Permutation_length in Hp. rewrite length_app in *. simpl in *.
    change (drop (Z.to_nat (0 + 1)) (m :: failed)) with (drop 0 failed). rewrite drop_0. lia.
  - rewrite wp_ret. eapply HQ; [by rewrite Hw1|]. split; [|done]. right. exists m, o. split_and!; auto.
Qed.

Lemma retire_rule s present (Q : outcome (list Member * Z) -> World S -> Prop) w :
  (forall present' n cs w', calls w' = calls w ++ cs ->
     dropped s present (fun m => mb_Revision m <> sv_Revision s) present' n cs -> Q (Ok (present', n)) w') ->
  wp env (retireStale deps W s present) Q w.
Proof.
  intros HQ. unfold retireStale. pose proof (partition_perm present (sv_Revision s) true) as Hp.
  destruct (partition present (sv_Revision s) true) as [|m rest].
  { apply wp_bind. cbn [for_each]. rewrite !wp_ret. eapply HQ; [by rewrite app_nil_r|by left]. }
  assert (Hm : m ∈ present) by (rewrite <- Hp; set_solver).
  apply wp_bind. cbn [for_each]. change (0 =? MaxReplacePerPass) with false. cbv iota.
  destruct (mb_Revision m =? sv_Revision s) eqn:Er; breflect.
  { apply wp_bind. rewrite !wp_ret. eapply HQ; [by rewrite app_nil_r|by left]. }
  apply wp_bind, wp_bind, drop_rule. intros b o w1 Hw1 Hb. destruct b; simpl.
  - apply wp_bind, hushed_note. intros w2 Hw2. rewrite wp_ret. apply wp_done_loop; [done|].
    change (0 + 1 =? 0) with false. cbv iota. rewrite wp_ret. eapply HQ; [by rewrite Hw2, Hw1|]. right. exists m, o.
    split_and!; [done|done|done|]. right. split_and!; [done|by apply Hb|].
    apply Permutation_length in Hp. simpl in Hp.
    change (drop (Z.to_nat (0 + 1)) (m :: rest)) with (drop 0 rest). rewrite drop_0. lia.
  - rewrite !wp_ret. simpl. eapply HQ; [by rewrite Hw1|]. right. exists m, o. split_and!; auto.
Qed.

(** Growing asks for one replica after the other, each from the template, until one fails. *)
Lemma grow_rule s present (Q : outcome Z -> World S -> Prop) w :
  len present < sv_Replicas s ->
  (forall r cs w', calls w' = calls w ++ cs -> deleted cs = [] -> gone cs = [] -> Forall (from_template s) (created cs) ->
     len (created cs) <= Z.min (sv_Replicas s - len present) MaxCreatePerPass -> Q r w') ->
  wp env (growTo deps W s present) Q w.
Proof.
  intros Hlt HQ. unfold growTo.
  assert (Hno : forall r w', calls w' = calls w -> Q r w').
  { intros r w' Hw'. eapply (HQ r []); [by rewrite app_nil_r|done..|simpl; unfold MaxCreatePerPass; lia]. }
  apply wp_bind, wp_attempt, wp_leaves; [apply silent_openEnv|]. intros [env1|e] w1 Hw1.
  2:{ apply wp_bind, hushed_block. intros w2 Hw2. rewrite wp_ret. apply Hno. congruence. }
  apply wp_bind, wp_attempt, wp_leaves; [apply silent_openFiles|]. intros [files|e] w2 Hw2.
  2:{ apply wp_bind, hushed_block. intros w3 Hw3. rewrite wp_ret. apply Hno. congruence. }
  apply wp_bind. match goal with |- context [for_each ?f _ _] => set (body := f) end.
  set (ok cs := deleted cs = [] /\ gone cs = [] /\ Forall (from_template s) (created cs)).
  assert (Hloop : forall n done w0, wp env (for_each body (replicate n tt) done)
    (fun _ w' => exists cs, calls w' = calls w0 ++ cs /\ ok cs /\ (length (created cs) <= n)%nat) w0).
  { induction n as [|n IH]; intros done w0; simpl.
    { rewrite wp_ret. exists []. by rewrite app_nil_r. }
    apply wp_bind. unfold body at 1. apply wp_bind, name_rule. intros suffix w3 Hw3. apply wp_bind, wp_attempt.
    eapply (wp_logs _ _ _ _ _ (lg_create HW _)). intros r w4 _ Hw4. rewrite Hw3 in Hw4.
    set (c := Created _ r) in Hw4.
    assert (Hc : forall cs, ok cs -> ok (c :: cs)).
    { intros cs (E1 & E2 & E3). split_and!; [exact E1|exact E2|]. simpl. constructor; [|exact E3]. split_and!; [done..|]. by exists suffix. }
    destruct r as [id|e].
    2:{ apply wp_bind, hushed_block. intros w5 Hw5. rewrite !wp_ret. exists [c]. rewrite Hw5, Hw4.
        split_and!; [done|apply Hc; done|simpl; lia]. }
    apply wp_bind. rewrite wp_now. apply wp_bind, wp_leaves; [apply leaves_sql|]. intros [[]|e] w5 Hw5.
    2:{ exists [c]. rewrite Hw5. split_and!; [exact Hw4|apply Hc; done|simpl; lia]. }
    apply wp_bind, hushed_note. intros w6 Hw6. rewrite wp_ret. eapply wp_mono; [|apply IH].
    intros r w7 (cs & Hw7 & Hcs & Hn). exists (c :: cs). rewrite Hw7, Hw6, Hw5. change (calls (tick w4)) with (calls w4).
    rewrite Hw4, <- app_assoc. split_and!; [done|by apply Hc|simpl; lia]. }
  eapply wp_mono; [|apply Hloop]. intros r w3 (cs & Hw3 & (E1 & E2 & E3) & Hn).
  assert (Hdone : forall r w', calls w' = calls w3 -> Q r w').
  { intros r' w' Hw'. eapply (HQ r' cs); [by rewrite Hw', Hw3, Hw2, Hw1|done..|]. unfold MaxCreatePerPass in *; lia. }
  destruct r as [[n|n]|e]; [|by rewrite wp_ret; apply Hdone|by apply Hdone].
  apply wp_bind, hushed_clear. intros w4 Hw4. rewrite wp_ret. by apply Hdone.
Qed.

(** Shrinking asks for every member beyond the count to go, whatever fails. *)
Lemma shrink_rule s present (Q : outcome Z -> World S -> Prop) w :
  (forall r cs w', calls w' = calls w ++ cs -> created cs = [] ->
     deleted cs = map (fun m => (sv_ProjectID s, mb_InstanceID m))
       (rev (drop (Z.to_nat (sv_Replicas s)) (partition present (sv_Revision s) false))) -> Q (Ok r) w') ->
  wp env (shrinkTo deps W s present) Q w.
Proof.
  intros HQ. unfold shrinkTo. apply wp_bind. eapply wp_mono; [|eapply (wp_foldM_done _ (fun done _ w' =>
    exists cs, calls w' = calls w ++ cs /\ created cs = [] /\
      deleted cs = map (fun m => (sv_ProjectID s, mb_InstanceID m)) done) (fun _ _ => False))].
  - intros [n|e] w1; [|done]. intros (cs & Hw1 & Ec & Ed). apply wp_bind, hushed_clear. intros w2 Hw2. rewrite wp_ret.
    eapply HQ; [by rewrite Hw2, Hw1|done|done].
  - intros done m rest n w1 _ (cs & Hw1 & Ec & Ed). apply wp_bind, drop_rule. intros b o w2 Hw2 _.
    assert (Hcs : exists cs, calls w2 = calls w ++ cs /\ created cs = [] /\
      deleted cs = map (fun m => (sv_ProjectID s, mb_InstanceID m)) (done ++ [m])).
    { eexists. rewrite Hw2, Hw1, <- app_assoc. split; [reflexivity|]. unfold created, deleted in *.
      by rewrite !omap_app, map_app, Ec, Ed. }
    destruct b; simpl; [|by rewrite wp_ret]. apply wp_bind, hushed_note. intros w3 Hw3. rewrite wp_ret. by rewrite Hw3.
  - exists []. by rewrite app_nil_r.
Qed.

Lemma idle_lawful s : len (living s) <= sv_Replicas s -> lawful s [].
Proof. intros Hs. split; simpl; try done; intros; unfold MaxCreatePerPass; try lia. set_solver. Qed.

Lemma dropped_facts s present may present' n cs : dropped s present may present' n cs ->
  created cs = [] /\ len present' = len present - n /\ (n = 0 -> present' = present) /\ 0 <= n <= len (gone cs) /\ len (deleted cs) <= 1 /\
  (forall p i, (p, i) ∈ deleted cs -> p = sv_ProjectID s /\ exists m, m ∈ present /\ mb_InstanceID m = i /\ may m).
Proof.
  intros [(-> & -> & ->)|(m & o & Hm & Hmay & -> & Hn)]; [split_and!; simpl; try done; try lia; set_solver|].
  split; [done|]. split; [naive_solver lia|]. split; [naive_solver lia|].
  split; [destruct Hn as [(-> & _)|(-> & -> & _)]; simpl; lia|]. split; [simpl; lia|].
  intros p i [= -> ->]%list_elem_of_singleton. eauto.
Qed.

Lemma pass_rule s w : wp env (reconcileOne deps W s)
  (fun r w' => exists cs, calls w' = calls w ++ cs /\ (lawful s cs \/ cs = [] /\ exists e, r = Err e)) w.
Proof.
  unfold reconcileOne. apply wp_bind, living_rule. intros [present|e] w1 Hw1 Hpresent.
  2:{ exists []. rewrite app_nil_r. eauto. }
  subst present. destruct (sv_Replicas s <? len (living s)) eqn:Eover; breflect.
  { apply wp_bind, shrink_rule. intros r cs w2 Hw2 Ec Ed. rewrite wp_ret. exists cs. rewrite Hw2, Hw1. split; [done|].
    left. split; try (intros; lia); [done|by rewrite Ec]. }
  apply wp_bind, reap_rule. intros present' reaped gaveUp cs1 w2 Hw2 Hreap. destruct gaveUp.
  { subst cs1. rewrite wp_ret. exists []. rewrite Hw2, Hw1. split; [done|]. left. by apply idle_lawful. }
  destruct Hreap as [(Ec1 & Hlen & Hsame & Hn & Hd & Hmay)%dropped_facts Hgive].
  apply wp_bind. set (post := fun r w' => exists retired present'' cs2, r = Ok (present'', retired) /\ calls w' = calls w2 ++ cs2 /\
    dropped s present' (fun m => mb_Revision m <> sv_Revision s /\ len present' = sv_Replicas s) present'' retired cs2).
  enough (Hretire : wp env (if len present' =? sv_Replicas s then retireStale deps W s present' else ret (present', 0)) post w2).
  { eapply wp_mono; [|exact Hretire]. intros r w3 (retired & present'' & cs2 & -> & Hw3 & Hdrop).
    apply dropped_facts in Hdrop as (Ec2 & Hlen2 & _ & Hn2 & Hd2 & Hmay2).
    assert (Hlaw : forall r cs3 w', calls w' = calls w3 ++ cs3 -> deleted cs3 = [] -> gone cs3 = [] ->
      Forall (from_template s) (created cs3) ->
      len (created cs3) <= Z.max 0 (Z.min (sv_Replicas s - len present'') MaxCreatePerPass) ->
      exists cs, calls w' = calls w ++ cs /\ (lawful s cs \/ cs = [] /\ exists e : error, r = Err (A:=Z * Z) e)).
    { intros r cs3 w' Hw' Ed3 Eg3 Ht3 Hc3. exists (cs1 ++ cs2 ++ cs3). rewrite Hw', Hw3, Hw2, Hw1, <- !app_assoc. split; [done|]. left.
      assert (Ecr : created (cs1 ++ cs2 ++ cs3) = created cs3) by (unfold created in *; by rewrite !omap_app, Ec1, Ec2).
      assert (Ede : deleted (cs1 ++ cs2 ++ cs3) = deleted cs1 ++ deleted cs2)
        by (unfold deleted in *; by rewrite !omap_app, Ed3, app_nil_r).
      assert (Ego : gone (cs1 ++ cs2 ++ cs3) = gone cs1 ++ gone cs2)
        by (unfold gone in *; by rewrite !List.filter_app, Eg3, app_nil_r).
      split; rewrite ?Ecr, ?Ede, ?Ego, ?length_app; intros; try lia; [|done| |].
      - apply elem_of_app in H0 as [Hp|Hp]; [apply Hmay in Hp as (-> & m & Hm & Ei & Hx)|apply Hmay2 in Hp as (-> & m & Hm & Ei & Hx)].
        + split; [done|]. exists m. split_and!; [done..|]. by left.
        + assert (reaped = 0) as ->; [lia|]. rewrite Hsame in Hm, Hx by done. split; [done|]. exists m. by split_and!; [..|right].
      - unfold MaxCreatePerPass in *. lia.
      - exfalso. apply Hgive in H1. lia. }
    destruct (len present'' <? sv_Replicas s) eqn:Egrow; breflect.
    - apply wp_bind, grow_rule; [done|]. intros r cs3 w4 Hw4 Ed3 Eg3 Ht3 Hc3. destruct r; [rewrite wp_ret|]; eapply Hlaw; eauto; lia.
    - apply wp_bind, hushed_settle. intros w4 Hw4. rewrite wp_ret. eapply (Hlaw _ []); [by rewrite app_nil_r|done..|simpl; lia]. }
  unfold post. destruct (len present' =? sv_Replicas s) eqn:Emet; breflect.
  - apply retire_rule. intros present'' n cs2 w3 Hw3 Hdrop. exists n, present'', cs2. split_and!; [done|done|].
    destruct Hdrop as [?|(m & o & Hm & Hne & Hrest)]; [by left|right]. exists m, o. split_and!; [done|done|done|apply Hrest..].
  - rewrite wp_ret. exists 0, present', []. rewrite app_nil_r. split_and!; [done|done|by left].
Qed.
End pass.

(** * Requests and the invariant of the tables *)

Inductive request :=
| ReqCreate (p : CreateParams)
| ReqUpdate (p : UpdateParams)
| ReqScale (projectID id : string) (replicas : Z)
| ReqRemove (projectID id : string)
| ReqReconcile.

Definition serve {S} `{!Has SvcDB S} (deps : Deps S) (r : request) : M S unit :=
  match r with
  | ReqCreate p => create deps p ;;; ret tt
  | ReqUpdate p => update deps p ;;; ret tt
  | ReqScale projectID id replicas => Scale deps projectID id replicas
  | ReqRemove projectID id => remove deps projectID id
  | ReqReconcile => Reconcile deps
  end.

(** A row of [services]: counts in bounds, and no secret in the clear. *)
Record service_ok (s : Service) : Prop := {
  so_name : label (sv_Name s) = true /\ slen (sv_Name s) <= MaxNameLength;
  so_replicas : 0 <= sv_Replicas s <= MaxReplicas;
  so_revision : 1 <= sv_Revision s;
  so_reaped : 0 <= sv_Reaped s <= MaxReapAttempts;
  so_sealed : t_Env (sv_Template s) = ∅ /\ t_Files (sv_Template s) = [];
}.
Definition service_key (s : Service) : string * string := (sv_ProjectID s, sv_Name s).
Definition member_key (r : string * Member) : string * string := (fst r, mb_InstanceID (snd r)).
Record svc_inv (db : SvcDB) : Prop := {
  si_id : unique_by (fun s => Some (sv_ID s)) (db_services db);
  si_name : unique_by (fun s => Some (service_key s)) (db_services db);
  si_ok s : s ∈ db_services db -> service_ok s;
  si_member : unique_by (fun r => Some (member_key r)) (db_members db);
  si_revision r : r ∈ db_members db ->
    exists s, s ∈ db_services db /\ sv_ID s = fst r /\ mb_Revision (snd r) <= sv_Revision s;
}.

Definition named_by (projectID id : string) (s : Service) : Prop :=
  sv_ProjectID s = projectID /\ (sv_ID s = id \/ sv_Name s = id).
(** What a request may change of a service: [s] is the row before it and [t] after it. *)
Record may_change (r : request) (s t : Service) : Prop := {
  mc_fixed : (sv_ID t, sv_ProjectID t, sv_Name t, sv_CreatedAt t) = (sv_ID s, sv_ProjectID s, sv_Name s, sv_CreatedAt s);
  mc_template : (sv_Template t, sv_Revision t) = (sv_Template s, sv_Revision s) \/
    exists p, r = ReqUpdate p /\ named_by (up_ProjectID p) (up_ID p) s /\ sv_Revision t = sv_Revision s + 1;
  mc_replicas : sv_Replicas t = sv_Replicas s \/
    exists projectID id, r = ReqScale projectID id (sv_Replicas t) /\ named_by projectID id s;
  mc_reaped : sv_Reaped t = sv_Reaped s \/ r = ReqReconcile \/
    sv_Reaped t = 0 /\ exists p, r = ReqUpdate p /\ named_by (up_ProjectID p) (up_ID p) s;
  mc_blocked : sv_Blocked t = sv_Blocked s \/ r = ReqReconcile;
}.
Definition born (r : request) (t : Service) : Prop :=
  match r with
  | ReqCreate p => service_key t = (cp_ProjectID p, cp_Name p) /\ sv_Replicas t = cp_Replicas p /\
      sv_Revision t = 1 /\ sv_Reaped t = 0 /\ sv_Blocked t = ""
  | _ => False
  end.
Record evolves (r : request) (db0 db : SvcDB) : Prop := {
  ev_service t : t ∈ db_services db -> (exists s, s ∈ db_services db0 /\ may_change r s t) \/ born r t;
  ev_stay s : s ∈ db_services db0 -> (exists t, t ∈ db_services db /\ may_change r s t) \/
    exists projectID id, r = ReqRemove projectID id /\ named_by projectID id s;
  ev_member x : x ∈ db_members db -> x ∈ db_members db0 \/
    r = ReqReconcile /\ exists s, s ∈ db_services db0 /\ sv_ID s = fst x /\ mb_Revision (snd x) = sv_Revision s;
}.
Definition good (r : request) (db0 db : SvcDB) : Prop := svc_inv db /\ evolves r db0 db.

(** The collaborators know nothing of the tables. *)
Class Deaf {S} `{!Has SvcDB S} (deps : Deps S) : Prop := {
  deaf_workloads : if_some (d_workloads deps) (fun W => (forall wl, leaves SvcDB (CreateWorkload W wl)) /\
    (forall p i, leaves SvcDB (DeleteWorkload W p i)) /\ forall ids, leaves SvcDB (StatesOf W ids));
  deaf_networks : if_some (d_networks deps) (fun n => forall i p, leaves SvcDB (ExistsIn n i p));
  deaf_firewalls : if_some (d_firewalls deps) (fun n => forall i p, leaves SvcDB (ExistsIn n i p));
  deaf_sealing : if_some (d_sealing deps) (fun k => (forall e, leaves SvcDB (SealEnvJSON k e)) /\
    (forall f, leaves SvcDB (SealFilesJSON k f)) /\ (forall b i, leaves SvcDB (OpenEnvJSON k b i)) /\
    forall b i, leaves SvcDB (OpenFilesJSON k b i));
}.

Lemma svc_change_refl r s : may_change r s s.
Proof. constructor; auto. Qed.

Lemma svc_good_refl r db : svc_inv db -> good r db db.
Proof. intros H. split; [done|]. constructor; eauto using svc_change_refl. Qed.

Lemma good_map r db0 db p f : good r db0 db ->
  (forall t, t ∈ db_services db -> p t = true -> service_ok (f t) /\ sv_Revision t <= sv_Revision (f t) /\
     sv_ID (f t) = sv_ID t /\ service_key (f t) = service_key t /\
     (forall s, s ∈ db_services db0 -> may_change r s t -> may_change r s (f t)) /\ (born r t -> born r (f t))) ->
  good r db0 (MkSvcDB (map (fun t => if p t then f t else t) (db_services db)) (db_members db)).
Proof.
  intros [Hinv [Hs Hst Hm]] Hf. set (g := fun t => if p t then f t else t).
  assert (Hg : forall t, t ∈ db_services db -> service_ok (g t) /\ sv_Revision t <= sv_Revision (g t) /\
     sv_ID (g t) = sv_ID t /\ service_key (g t) = service_key t /\
     (forall s, s ∈ db_services db0 -> may_change r s t -> may_change r s (g t)) /\ (born r t -> born r (g t))).
  { intros t Ht. unfold g. destruct (p t) eqn:Ep; [by apply Hf|]. split; [by apply Hinv|]. split_and!; auto; lia. }
  assert (Hu : forall K (k : Service -> K), (forall t, t ∈ db_services db -> k (g t) = k t) ->
    unique_by (fun t => Some (k t)) (db_services db) -> unique_by (fun t => Some (k t)) (map g (db_services db))).
  { intros K k Hk. unfold unique_by. rewrite !omap_total, map_map.
    by rewrite (map_ext_in (fun t => k (g t)) k) by (intros t Ht%list_elem_of_In; by apply Hk). }
  split; constructor; simpl.
  - apply Hu; [apply Hg|apply Hinv].
  - apply Hu; [apply Hg|apply Hinv].
  - intros t' (t & -> & Ht)%list_elem_of_fmap. by apply Hg.
  - apply Hinv.
  - intros x Hx. destruct (si_revision _ Hinv x Hx) as (t & Ht & E & Hle). exists (g t).
    split; [by apply list_elem_of_fmap_2|]. destruct (Hg t Ht) as (_ & ? & Eg & _).
    rewrite Eg. split; [done|lia].
  - intros t' (t & -> & Ht)%list_elem_of_fmap. destruct (Hg t Ht) as (_ & _ & _ & _ & Hmay & Hborn).
    destruct (Hs t Ht) as [(s & Hin & Hc)|Hb]; [left; exists s; auto|right; auto].
  - intros s Hin. destruct (Hst s Hin) as [(t & Ht & E)|?]; [left|by right]. exists (g t).
    split; [by apply list_elem_of_fmap_2|]. by apply Hg.
  - exact Hm.
Qed.

Lemma good_members_filter r db0 db p : good r db0 db ->
  good r db0 (MkSvcDB (db_services db) (List.filter p (db_members db))).
Proof.
  intros [[] []]. split; constructor; simpl; auto.
  - by apply unique_by_filter.
  - intros x [Hx _]%elem_of_filter_bool. auto.
  - intros x [Hx _]%elem_of_filter_bool. auto.
Qed.

Lemma good_member_add r db0 db serviceID instanceID revision at_ : r = ReqReconcile -> good r db0 db ->
  (exists s, s ∈ db_services db0 /\ sv_ID s = serviceID /\ sv_Revision s = revision) ->
  good r db0 (MkSvcDB (db_services db) (snd (insert_row (member_at serviceID instanceID)
    (EWrap "add a member" (EText "UNIQUE constraint failed")) (serviceID, MkMember instanceID revision "" at_) (db_members db)))).
Proof.
  intros -> Hg (s & Hin & Eid & Erev). unfold insert_row. destruct (existsb _ _) eqn:Ex; [by destruct db|].
  rewrite existsb_false, Forall_forall in Ex. destruct Hg as [Hinv [Hs Hst Hm]].
  destruct (Hst s Hin) as [(t & Ht & Hc)|(? & ? & ? & _)]; [|done]. split; constructor; simpl; try apply Hinv; auto.
  - apply unique_by_app; [apply Hinv|]. intros x k Hx [= <-] [= E1 E2]. specialize (Ex x Hx). unfold member_at in Ex.
    by rewrite <- E1, <- E2, !String.eqb_refl in Ex.
  - intros x [Hx| ->%list_elem_of_singleton]%elem_of_app; [by apply Hinv|]. exists t. split; [done|]. simpl.
    destruct Hc as [[= ? ? ? ?] [[= _ ?]|(p & ? & _)] _ _ _]; [|done]. split; [congruence|lia].
  - intros x [Hx| ->%list_elem_of_singleton]%elem_of_app; [by apply Hm|]. right. eauto.
Qed.

Section rules.
Context {S : Type} `{!Has SvcDB S} (deps : Deps S) `{!Deaf deps}.
Abbreviation st w := (part (T:=SvcDB) w).
Implicit Types (w : World S) (s t : Service).

Lemma leaves_some {D A} (d : option D) (m : D -> M S A) a :
  if_some d (fun d => leaves SvcDB (m d)) -> leaves SvcDB (when_some d m a).
Proof. intros Hd. destruct d; simpl; [by apply Hd|apply leaves_ret]. Qed.

Lemma leaves_check registry projectID ids : if_some registry (fun n => forall i p, leaves SvcDB (ExistsIn n i p)) ->
  leaves SvcDB (check_ids projectID registry ids).
Proof.
  intros Hn. apply leaves_some. intros n En. apply leaves_foldM. intros id _. destruct (is_empty id); [apply leaves_ret|].
  apply leaves_bind; [by apply Hn|]. intros known. apply leaves_lift.
Qed.

Lemma leaves_references projectID (t : Template) : leaves SvcDB (checkReferences deps projectID t).
Proof. apply leaves_bind; [apply leaves_check, deaf_networks|]. intros []. apply leaves_check, deaf_firewalls. Qed.

Lemma leaves_ring {A} (e : error) (m : Keyring S -> M S A) :
  if_some (d_sealing deps) (fun k => leaves SvcDB (m k)) -> leaves SvcDB (with_ring deps e m).
Proof. intros Hd. unfold with_ring. destruct (d_sealing deps); [by apply Hd|apply leaves_fail]. Qed.

Lemma leaves_openEnv blob key : leaves SvcDB (openEnv deps blob key).
Proof.
  unfold openEnv. destruct (is_empty blob); [apply leaves_ret|]. apply leaves_mapped, leaves_ring. intros k Hk.
  by apply (deaf_sealing k Hk).
Qed.

Lemma leaves_openFiles blob key : leaves SvcDB (openFiles deps blob key).
Proof.
  unfold openFiles. destruct (is_empty blob); [apply leaves_ret|]. apply leaves_mapped, leaves_ring. intros k Hk.
  by apply (deaf_sealing k Hk).
Qed.

Lemma leaves_sealEnv env : leaves SvcDB (sealEnv deps env).
Proof.
  unfold sealEnv. case_match; [apply leaves_ret|]. apply leaves_mapped, leaves_ring. intros k Hk.
  by apply (deaf_sealing k Hk).
Qed.

Lemma leaves_sealFiles files : leaves SvcDB (sealFiles deps files).
Proof.
  unfold sealFiles. case_match; [apply leaves_ret|]. apply leaves_mapped, leaves_bind; [|intros []; apply leaves_ret].
  apply leaves_ring. intros k Hk. by apply (deaf_sealing k Hk).
Qed.

Lemma leaves_note s kind subject message sev : leaves SvcDB (note deps s kind subject message sev).
Proof. unfold note. case_match; [apply leaves_record|apply leaves_ret]. Qed.
Hint Resolve leaves_references leaves_openEnv leaves_openFiles leaves_sealEnv leaves_sealFiles leaves_note : leaves.

(** No secret stays in the clear. *)
Lemma sealTemplate_rule env (t : Template) (Q : outcome Template -> World S -> Prop) w :
  (forall o w', st w' = st w -> match o with Ok t' => t_Env t' = ∅ /\ t_Files t' = [] | Err _ => True end -> Q o w') ->
  wp env (sealTemplate deps t) Q w.
Proof.
  intros HQ. unfold sealTemplate. apply wp_bind, wp_leaves; [auto with leaves|]. intros [[envSealed envKeyID]|e] w1 Hw1; [|by apply HQ].
  apply wp_bind, wp_leaves; [auto with leaves|]. intros [filesSealed|e] w2 Hw2; [|apply HQ; [congruence|done]].
  rewrite wp_ret. apply HQ; [congruence|done].
Qed.

(** The services read are rows of the table, with some members. *)
Definition read_of (t s : Service) : Prop := exists members, s = with_members members t.

Lemma load_rule env select (Q : outcome (list Service) -> World S -> Prop) w :
  (forall o w', st w' = st w ->
     match o with Ok l => Forall (fun s => exists t, t ∈ select (db_services (st w)) /\ read_of t s) l | Err _ => True end -> Q o w') ->
  wp env (load select) Q w.
Proof.
  intros HQ. unfold load. apply wp_bind, wp_read. intros r [->| ->]; [by apply HQ|].
  eapply wp_mono; [|eapply (wp_foldM _ (fun l w' => st w' = st w /\
    Forall (fun s => exists t, t ∈ select (db_services (st w)) /\ read_of t s) l) (fun _ w' => st w' = st w))]; [| |done].
  - intros [l|e] w' H; apply HQ; naive_solver.
  - intros s l w1 Hs [Hw1 Hl]. apply wp_bind, wp_read. intros r _. change (st (tick w1)) with (st w1).
    destruct r; [rewrite wp_ret|done]. split; [done|]. apply Forall_app. split; [done|]. constructor; [|done].
    exists s. split; [done|]. by eexists.
Qed.

Lemma states_rule env services (Q : outcome (list Service) -> World S -> Prop) w :
  (forall o w', st w' = st w -> match o with Ok l => Forall2 read_of services l | Err _ => True end -> Q o w') ->
  wp env (withStates deps services) Q w.
Proof.
  intros HQ. assert (Hrefl : forall s, read_of s s) by (intros []; by eexists).
  unfold withStates. pose proof deaf_workloads as HW. destruct (d_workloads deps) as [W|]; simpl.
  2:{ rewrite wp_ret. apply HQ; [done|]. clear HQ. induction services; constructor; auto. }
  destruct (HW W eq_refl) as (_ & _ & Hstates).
  eapply wp_mono; [|eapply (wp_foldM_done _ (fun done l w' => st w' = st w /\ Forall2 read_of done l)
    (fun _ w' => st w' = st w))]; [| |done].
  - intros [l|e] w' H; apply HQ; naive_solver.
  - intros done s rest l w1 _ [Hw1 Hl]. destruct (sv_Members s) as [|m ms] eqn:Em.
    + rewrite wp_ret. split; [done|]. apply Forall2_app; [done|]. by repeat constructor.
    + apply wp_bind, wp_leaves; [apply Hstates|]. intros [states|e] w2 Hw2; [|congruence]. rewrite wp_ret.
      split; [congruence|]. apply Forall2_app; [done|]. constructor; [by eexists|constructor].
Qed.

Lemma first_rule env select (Q : outcome Service -> World S -> Prop) w :
  (forall o w', st w' = st w ->
     match o with Ok s => exists t, t ∈ select (db_services (st w)) /\ read_of t s | Err _ => True end -> Q o w') ->
  wp env (let! found := load select in lift (first_of found)) Q w.
Proof.
  intros HQ. apply wp_bind, load_rule. intros [l|e] w' Hw' Hl; [|by apply HQ]. rewrite wp_lift. apply HQ; [done|].
  destruct l as [|s l]; simpl; [done|]. by apply Forall_inv in Hl.
Qed.

Lemma find_rule env projectID id (Q : outcome Service -> World S -> Prop) w :
  (forall o w', st w' = st w ->
     match o with Ok s => exists t, t ∈ db_services (st w) /\ read_of t s /\ named_by projectID id t | Err _ => True end -> Q o w') ->
  wp env (find deps projectID id) Q w.
Proof.
  intros HQ. unfold find. apply wp_bind, wp_attempt, first_rule. intros o w1 Hw1 Ho.
  set (found := fun o => match o with Ok s => exists t, t ∈ db_services (st w) /\ read_of t s /\ named_by projectID id t | Err _ => True end).
  assert (Hrest : forall o w2, st w2 = st w -> found o -> wp env (lift o) (fun r w' => match r with
    | Ok s => wp env (let! l := withStates deps [s] in match l with s :: _ => ret s | [] => fail errNotFound end) Q w'
    | Err e => Q (Err e) w' end) w2).
  { intros [s|e] w2 Hw2 Hs; rewrite wp_lift; [|by apply HQ]. apply wp_bind, states_rule. intros [l|e] w3 Hw3 Hl; [|apply HQ; [congruence|done]].
    inversion Hl as [|? s' ? l' Hread Hnil]; subst. rewrite wp_ret. apply HQ; [congruence|].
    destruct Hs as (t & Ht & [ms ->] & Hn). exists t. split; [done|]. split; [|done]. destruct Hread as [ms' ->]. by exists ms'. }
  apply wp_bind. destruct o as [s|e].
  - apply Hrest; [done|]. destruct Ho as (t & [Ht Ep]%elem_of_filter_bool & Hr). unfold in_project, service_id in Ep. breflect.
    exists t. unfold named_by. auto.
  - destruct (errors_Is e "service not found"); [|by apply (Hrest (Err _))].
    apply wp_mapped, first_rule. intros o w2 Hw2 Ho2. rewrite Hw1 in *. specialize (Hrest (or_fault translate o) w2).
    rewrite wp_lift in Hrest. apply Hrest; [congruence|]. destruct o as [s|]; [|done]. simpl.
    destruct Ho2 as (t & [Ht Ep]%elem_of_filter_bool & Hr). unfold service_named, in_project in Ep. breflect.
    exists t. unfold named_by. auto.
Qed.

Lemma leaves_find projectID id : leaves SvcDB (find deps projectID id).
Proof.
  intros env w. pose proof (find_rule env projectID id (fun _ w' => st w' = st w) w) as H. unfold wp in H.
  destruct (find deps projectID id env w). by apply H.
Qed.

(** ** One rule for each request *)

Definition changes {A} (r : request) (m : M S A) : Prop :=
  forall env w, svc_inv (st w) -> wp env m (fun _ w' => good r (st w) (st w')) w.

Lemma changes_unit {A} r (m : M S A) : changes r m -> changes r (m ;;; ret tt).
Proof. intros Hm env w Hinv. apply wp_bind. eapply wp_mono; [|by apply Hm]. by intros []. Qed.

Lemma checked_name name e : validate_Name "name" name = Ok tt ->
  guard (MaxNameLength <? slen name) e = Ok tt -> label name = true /\ slen name <= MaxNameLength.
Proof.
  intros Hn Hg. split.
  - apply namePattern_label. unfold validate_Name in Hn. destruct (is_empty name); [done|]. by destruct (re_match _ _).
  - unfold guard in Hg. destruct (MaxNameLength <? slen name) eqn:E; [done|]. by breflect.
Qed.

Lemma checked_replicas n : checkReplicas n = Ok tt -> 0 <= n <= MaxReplicas.
Proof.
  unfold checkReplicas, guard. destruct ((n <? 0) || (MaxReplicas <? n)) eqn:E; [done|]. intros _. breflect. lia.
Qed.

Lemma create_changes p : changes (ReqCreate p) (create deps p).
Proof.
  intros env w Hinv. pose proof (svc_good_refl (ReqCreate p) _ Hinv) as Hg. unfold create.
  apply wp_bind. rewrite wp_lift. destruct (validate_Name _ _) as [[]|] eqn:En; [|done].
  apply wp_bind. rewrite wp_lift. destruct (guard _ _) as [[]|] eqn:El; [|done].
  apply wp_bind. rewrite wp_lift. destruct (checkReplicas _) as [[]|] eqn:Er; [|done].
  apply wp_bind. rewrite wp_lift. destruct (checkTemplate _) as [[]|]; [|done].
  apply wp_bind, wp_leaves; [apply leaves_references|]. intros [[]|e] w1 Hw1; rewrite <- Hw1 in *; [|done].
  apply wp_bind, sealTemplate_rule. intros [template|e] w2 Hw2 Hsealed; rewrite <- Hw2 in *; [|done].
  apply wp_bind. rewrite wp_now. apply wp_bind. unfold ids_New. apply wp_bind. rewrite wp_rand, wp_ret.
  set (s := MkService _ _ _ _ _ _ _ _ _ _ _). set (w3 := tick (tick w2)). change (st w2) with (st w3) in *.
  assert (Hok : service_ok s).
  { split; simpl; [by eapply checked_name|by apply checked_replicas|lia|unfold MaxReapAttempts; lia|done]. }
  apply wp_bind, wp_mapped. apply wp_write; intros w4 Hw4.
  { simpl. rewrite Hw4. exact Hg. }
  assert (Hst : st w4 = MkSvcDB (snd (insert_row (service_clash s) errNameUsed s (db_services (st w3)))) (db_members (st w3)))
    by (rewrite Hw4; by destruct (insert_row _ _ _ _)). clear Hw4.
  assert (Hgood : good (ReqCreate p) (st w3) (st w4)); [|by destruct (fst _)].
  rewrite Hst. unfold insert_row. destruct (existsb _ _) eqn:Ex; simpl; [by destruct (st w3)|].
  rewrite existsb_false, Forall_forall in Ex. destruct Hinv. split; constructor; simpl; auto.
  - apply unique_by_app; [done|]. intros x k Hx [= <-] [= E]. specialize (Ex x Hx). unfold service_clash, service_id in Ex.
    rewrite <- E in Ex. simpl in Ex. by rewrite String.eqb_refl in Ex.
  - apply unique_by_app; [done|]. intros x k Hx [= <-] [= E1 E2]. specialize (Ex x Hx).
    unfold service_clash, service_named, in_project in Ex. rewrite <- E1, <- E2 in Ex.
    by rewrite !String.eqb_refl, orb_true_r in Ex.
  - intros x [Hx| ->%list_elem_of_singleton]%elem_of_app; auto.
  - intros x Hx. destruct (si_revision0 x Hx) as (t & Ht & E). exists t. split; [set_solver|done].
  - intros x [Hx| ->%list_elem_of_singleton]%elem_of_app; [left; eauto using svc_change_refl|by right].
  - intros x Hx. left. exists x. split; [set_solver|apply svc_change_refl].
Qed.

Lemma scale_changes projectID id replicas : changes (ReqScale projectID id replicas) (scale deps projectID id replicas).
Proof.
  intros env w Hinv. pose proof (svc_good_refl (ReqScale projectID id replicas) _ Hinv) as Hg. unfold scale.
  apply wp_bind. rewrite wp_lift. destruct (checkReplicas replicas) as [[]|] eqn:Er; [|done]. apply checked_replicas in Er.
  apply wp_bind, find_rule. intros [s|e] w1 Hw1 Hs; rewrite <- Hw1 in *; [|done]. destruct Hs as (t & Ht & [ms ->] & Hn).
  apply wp_bind. rewrite wp_now. change (st w1) with (st (tick w1)) in *.
  apply wp_bind, wp_mapped. apply wp_write; intros w2 Hw2; [simpl; by rewrite Hw2|].
  assert (Hgood : good (ReqScale projectID id replicas) (st (tick w1)) (st w2)).
  2:{ destruct (fst _); simpl; [|done]. apply wp_leaves; [apply leaves_find|]. by intros r w3 ->. }
  assert (Hst : st w2 = MkSvcDB (map (fun x => if service_id (sv_ID t) x then with_replicas replicas (env_now env (w_step w1)) x else x)
    (db_services (st (tick w1)))) (db_members (st (tick w1)))).
  { rewrite Hw2. pose proof (update_where_rows (service_id (sv_ID t)) (with_replicas replicas (env_now env (w_step w1))) errNotFound
      (db_services (st (tick w1)))) as E. destruct (update_where _ _ _ _). simpl in *. by rewrite E. }
  rewrite Hst. apply good_map; [done|]. intros x Hx Ep. unfold service_id in Ep. breflect.
  assert (x = t) as -> by (by apply (unique_by_eq _ _ _ _ (sv_ID t) (si_id _ Hinv)); simpl; congruence).
  destruct (si_ok _ Hinv t Ht). split; [by constructor|]. split_and!; [simpl; lia|done|done| |done].
  intros s Hs [Hf Ht1 Ht2 Ht3 Ht4]. constructor; [exact Hf|exact Ht1| |exact Ht3|exact Ht4]. right. exists projectID, id.
  simpl. split; [done|]. injection Hf as E1 E2 E3 _. unfold named_by in *. simpl in *. by rewrite <- E1, <- E2, <- E3.
Qed.

(** The row a service was before the request. *)
Lemma origin r db0 db s t : svc_inv db0 -> good r db0 db -> (forall p, r <> ReqCreate p) ->
  s ∈ db_services db0 -> t ∈ db_services db -> sv_ID t = sv_ID s -> may_change r s t.
Proof.
  intros Hinv [_ [Hs _ _]] Hr Hin Ht E. destruct (Hs t Ht) as [(s' & Hs' & Hc)|Hb].
  - assert (s' = s) as ->; [|done]. pose proof (mc_fixed _ _ _ Hc) as Hf. injection Hf as E1 _ _ _.
    by apply (unique_by_eq _ _ _ _ (sv_ID s) (si_id _ Hinv)); simpl; congruence.
  - destruct r; try done. by destruct (Hr p).
Qed.

(** What an UPDATE of the row of [s] must not do. *)
Definition allowed (r : request) (db0 : SvcDB) (s : Service) (f : Service -> Service) : Prop :=
  forall t, service_ok t -> may_change r s t -> service_ok (f t) /\ sv_Revision t <= sv_Revision (f t) /\
    sv_ID (f t) = sv_ID t /\ service_key (f t) = service_key t /\ may_change r s (f t).

Lemma allowed_map r db0 db s f : svc_inv db0 -> good r db0 db -> (forall p, r <> ReqCreate p) -> s ∈ db_services db0 ->
  allowed r db0 s f ->
  good r db0 (MkSvcDB (map (fun t => if service_id (sv_ID s) t then f t else t) (db_services db)) (db_members db)).
Proof.
  intros Hinv Hg Hr Hin Hf. apply good_map; [done|]. intros t Ht Ep. unfold service_id in Ep. breflect.
  assert (Hc : may_change r s t) by by eapply origin.
  destruct (Hf t) as (Hok & Hrev & Eid & Ekey & Hmay); [by apply Hg|done|]. split_and!; [done..| |].
  - intros s' Hs' Hc'. assert (s' = s) as ->; [|done]. pose proof (mc_fixed _ _ _ Hc') as Hf'. injection Hf' as E1 _ _ _.
    by apply (unique_by_eq _ _ _ _ (sv_ID s) (si_id _ Hinv)); simpl; congruence.
  - intros Hb. destruct r; try done. by destruct (Hr p).
Qed.

Lemma set_preserves r db0 s what f e : svc_inv db0 -> (forall p, r <> ReqCreate p) -> s ∈ db_services db0 -> allowed r db0 s f ->
  preserves (good r db0) (on_services (S:=S) what (update_where (service_id (sv_ID s)) f e)) /\
  preserves (good r db0) (on_services (S:=S) what (update_any (service_id (sv_ID s)) f)).
Proof.
  intros Hinv Hr Hin Hf. split; apply preserves_sql; intros db Hg.
  - pose proof (update_where_rows (service_id (sv_ID s)) f e (db_services db)) as E.
    destruct (update_where _ _ _ _). simpl in *. rewrite E. by apply allowed_map.
  - simpl. by apply allowed_map.
Qed.

Lemma update_changes p : changes (ReqUpdate p) (update deps p).
Proof.
  intros env w Hinv. pose proof (svc_good_refl (ReqUpdate p) _ Hinv) as Hg. unfold update.
  apply wp_bind. rewrite wp_lift. destruct (checkTemplate _) as [[]|]; [|done].
  apply wp_bind, find_rule. intros [s|e] w1 Hw1 Hs; rewrite <- Hw1 in *; [|done]. destruct Hs as (t & Ht & [ms ->] & Hn).
  apply wp_bind, wp_leaves; [apply leaves_references|]. intros [[]|e] w2 Hw2; rewrite <- Hw2 in *; [|done].
  apply wp_bind, sealTemplate_rule. intros [template|e] w3 Hw3 Hsealed; rewrite <- Hw3 in *; [|done].
  clear Hw1 Hw2 Hw3. assert (Hr : forall q, ReqUpdate p <> ReqCreate q) by done.
  assert (Hset : allowed (ReqUpdate p) (st w3) t (with_template template (sv_Revision t + 1) (env_now env (w_step w3)))).
  { intros x [] [Hf Hm1 Hm2 Hm3 Hm4]. pose proof (so_revision _ (si_ok _ Hinv t Ht)) as Hrev.
    split; [constructor; simpl; auto; lia|]. split; [simpl; destruct Hm1 as [[= _ ->]|(? & _ & _ & ->)]; lia|].
    split_and!; [done|done|]. constructor; simpl; auto. right. by exists p. }
  assert (Hreap : allowed (ReqUpdate p) (st w3) t (with_reaped 0)).
  { intros x [] [Hf Hm1 Hm2 Hm3 Hm4]. split; [constructor; simpl; auto; unfold MaxReapAttempts; lia|].
    split; [simpl; lia|]. split_and!; [done|done|]. constructor; simpl; auto. right. right. split; [done|]. by exists p. }
  apply wp_bind. rewrite wp_now. change (st w3) with (st (tick w3)) in *. revert Hg.
  apply (preserves_bind (good (ReqUpdate p) (st (tick w3)))); [|intros _].
  { apply preserves_mapped. by apply (set_preserves _ _ t). }
  apply preserves_bind; [apply preserves_mapped; by apply (set_preserves _ _ t _ _ errNotFound)|intros _].
  apply preserves_leaves, leaves_bind; [apply leaves_note|]. intros _. apply leaves_find.
Qed.

Lemma delete_good r projectID id db0 db t : r = ReqRemove projectID id -> good r db0 db -> svc_inv db0 -> t ∈ db_services db0 ->
  named_by projectID id t ->
  good r db0 (MkSvcDB (List.filter (fun s => negb (service_id (sv_ID t) s)) (db_services db))
    (List.filter (fun x => negb (String.eqb (fst x) (sv_ID t))) (db_members db))).
Proof.
  intros -> Hg Hinv0 Ht0 Hn. destruct Hg as [[] [Hs Hst Hm]]. split; constructor; simpl.
  - by apply unique_by_filter.
  - by apply unique_by_filter.
  - intros s [Hin _]%elem_of_filter_bool. auto.
  - by apply unique_by_filter.
  - intros x [Hx Ex]%elem_of_filter_bool. destruct (si_revision0 x Hx) as (s & Hin & E & Hle). exists s.
    split; [|done]. apply elem_of_filter_bool. split; [done|]. unfold service_id. by rewrite E.
  - intros s [Hin _]%elem_of_filter_bool. auto.
  - intros s Hin. destruct (String.eqb_spec (sv_ID s) (sv_ID t)) as [E|E].
    + right. exists projectID, id. split; [done|]. assert (s = t) as ->; [|done].
      by apply (unique_by_eq _ _ _ _ (sv_ID t) (si_id _ Hinv0)); simpl; congruence.
    + destruct (Hst s Hin) as [(x & Hx & Hc)|?]; [left|by right]. exists x. split; [|done]. apply elem_of_filter_bool.
      split; [done|]. pose proof (mc_fixed _ _ _ Hc) as Hf. injection Hf as E1 _ _ _. unfold service_id.
      rewrite E1. by rewrite (proj2 (String.eqb_neq _ _) E).
  - intros x [Hx _]%elem_of_filter_bool. auto.
Qed.

Lemma remove_changes projectID id : changes (ReqRemove projectID id) (remove deps projectID id).
Proof.
  intros env w Hinv. pose proof (svc_good_refl (ReqRemove projectID id) _ Hinv) as Hg. unfold remove.
  apply wp_bind, find_rule. intros [s|e] w1 Hw1 Hs; rewrite <- Hw1 in *; [|done]. destruct Hs as (t & Ht & [ms ->] & Hn).
  apply wp_bind, wp_leaves.
  { apply leaves_some. intros W HW. apply leaves_foldM. intros m _. apply leaves_mapped. by apply (deaf_workloads W HW). }
  intros [[]|e] w2 Hw2; rewrite <- Hw2 in *; [|done]. apply wp_mapped. clear Hw1 Hw2. revert Hg.
  apply (preserves_sql (good (ReqRemove projectID id) (st w2))). intros db Hg. simpl.
  destruct (existsb _ _); [|done]. by eapply delete_good.
Qed.

(** ** A pass *)

Section pass_keeps.
Context (db0 : SvcDB) (Hinv : svc_inv db0) (t : Service) (Ht : t ∈ db_services db0) (ms : list Member).
Context (W : Workloads S) (HW : d_workloads deps = Some W).
Abbreviation s := (with_members ms t).
Abbreviation G := (good ReqReconcile db0).

Lemma keeps_remove instanceID : preserves G (removeMember (sv_ID t) instanceID).
Proof. apply preserves_sql. intros db Hg. by apply good_members_filter. Qed.

Lemma keeps_add instanceID at_ : preserves G (addMember (sv_ID t) instanceID (sv_Revision t) at_).
Proof.
  apply preserves_sql. intros db Hg.
  assert (good ReqReconcile db0 (MkSvcDB (db_services db) (snd (insert_row (member_at (sv_ID t) instanceID)
    (EWrap "add a member" (EText "UNIQUE constraint failed")) (sv_ID t, MkMember instanceID (sv_Revision t) "" at_) (db_members db))))) as H
    by (apply good_member_add; eauto). by destruct (insert_row _ _ _ _).
Qed.

Lemma keeps_blocked reason at_ : preserves G (setBlocked (sv_ID t) reason at_).
Proof.
  apply (set_preserves _ _ t _ _ errNotFound); [done|done|done|].
  intros x [] [Hf Hm1 Hm2 Hm3 Hm4]. split; [constructor; simpl; auto|]. split; [simpl; lia|].
  split_and!; [done|done|]. constructor; simpl; auto.
Qed.

Lemma keeps_reaped n : 0 <= n <= MaxReapAttempts -> preserves G (setReaped (sv_ID t) n).
Proof.
  intros Hn. apply (set_preserves _ _ t _ _ errNotFound); [done|done|done|].
  intros x [] [Hf Hm1 Hm2 Hm3 Hm4]. split; [constructor; simpl; auto|]. split; [simpl; lia|].
  split_and!; [done|done|]. constructor; simpl; auto.
Qed.

Lemma keeps_quietly {A} (m : M S A) : preserves G m -> preserves G (quietly m).
Proof. intros Hm. apply preserves_bind; [by apply preserves_attempt|]. intros _. apply preserves_ret. Qed.

Lemma keeps_block reason : preserves G (block deps s reason).
Proof.
  unfold block. destruct (String.eqb _ _); [apply preserves_ret|].
  apply preserves_bind; [apply preserves_leaves, leaves_now|]. intros at_.
  apply preserves_bind; [apply keeps_quietly, keeps_blocked|]. intros _. apply preserves_leaves, leaves_note.
Qed.

Lemma keeps_clear : preserves G (clearBlocked s).
Proof.
  unfold clearBlocked. destruct (is_empty _); [apply preserves_ret|].
  apply preserves_bind; [apply preserves_leaves, leaves_now|]. intros at_. apply keeps_quietly, keeps_blocked.
Qed.

Lemma keeps_drop m : preserves G (drop_member W s m).
Proof.
  unfold drop_member. apply preserves_bind; [apply preserves_attempt, preserves_leaves; by apply (deaf_workloads W HW)|].
  intros [[]|e]; [|apply preserves_ret]. apply preserves_bind; [apply preserves_attempt, keeps_remove|]. intros. apply preserves_ret.
Qed.
Hint Resolve keeps_remove keeps_add keeps_quietly keeps_block keeps_clear keeps_drop : preserves.
Hint Resolve leaves_openEnv leaves_openFiles leaves_note : leaves.

Lemma keeps_living : preserves G (livingMembers deps s).
Proof.
  apply preserves_foldM. intros m present _. destruct (negb _); [apply preserves_ret|].
  apply preserves_bind; [apply keeps_remove|]. intros _. auto with preserves leaves.
Qed.

Lemma keeps_shrink present : preserves G (shrinkTo deps W s present).
Proof.
  apply preserves_bind; [|intros; auto with preserves].
  apply preserves_foldM. intros m n _. apply preserves_bind; [apply keeps_drop|]. intros []; simpl; auto with preserves leaves.
Qed.

Lemma keeps_reap present : preserves G (reapFailed deps W s present).
Proof.
  unfold reapFailed. destruct (List.filter _ _) as [|m failed] eqn:Ef; [apply preserves_ret|].
  destruct (MaxReapAttempts <=? sv_Reaped s) eqn:Er; breflect; [auto with preserves|].
  assert (Hre : 0 <= sv_Reaped t) by (by apply (si_ok _ Hinv t Ht)). simpl in Er.
  intros env w Hg. apply wp_bind. eapply wp_mono; [|apply (wp_for_each env (fun n w' => 0 <= n <= MaxReplacePerPass /\ G (st w'))
    (fun (e : Empty_set) _ => False) (fun _ w' => G (st w')))].
  - intros [[n|[]]|e] w1 H; [|done]. destruct H as [Hn H1]. destruct (n =? 0); [by apply preserves_ret|].
    revert H1. apply (preserves_bind G); [apply keeps_quietly, keeps_reaped|intros; apply preserves_ret].
    simpl. unfold MaxReplacePerPass in Hn. lia.
  - intros x n w1 _ [Hn H1]. destruct (n =? MaxReplacePerPass) eqn:En; breflect; [done|].
    apply wp_bind. eapply wp_mono; [|by apply keeps_drop]. intros [[]|e] w2 H2; simpl; [|done..].
    apply wp_bind, wp_leaves; [apply leaves_note|]. intros [[]|e] w3 Hw3; [rewrite wp_ret; split; [lia|]|]; by rewrite Hw3.
  - split; [unfold MaxReplacePerPass; lia|done].
Qed.

Lemma keeps_retire present : preserves G (retireStale deps W s present).
Proof.
  apply preserves_bind; [|intros [n|[]]; cbv zeta; destruct (n =? 0); apply preserves_ret].
  apply preserves_for_each. intros m n _. destruct (n =? _); [apply preserves_ret|]. destruct (_ =? _); [apply preserves_ret|].
  apply preserves_bind; [apply keeps_drop|]. intros []; simpl; auto with preserves leaves.
Qed.

Lemma keeps_grow present : preserves G (growTo deps W s present).
Proof.
  unfold growTo. apply preserves_bind; [auto with preserves leaves|]. intros [env|e]; [|auto with preserves].
  apply preserves_bind; [auto with preserves leaves|]. intros [files|e]; [|auto with preserves].
  apply preserves_bind; [|intros []; auto with preserves].
  apply preserves_for_each. intros _ n _. apply preserves_bind; [apply preserves_leaves; unfold replicaName, ids_New; auto 8 with leaves|].
  intros name. apply preserves_bind; [apply preserves_attempt, preserves_leaves; by apply (deaf_workloads W HW)|].
  intros [id|e]; [|auto with preserves]. apply preserves_bind; [auto with preserves leaves|]. intros at_.
  apply preserves_bind; [apply keeps_add|]. intros _. auto with preserves leaves.
Qed.

Lemma keeps_one : preserves G (reconcileOne deps W s).
Proof.
  unfold reconcileOne. apply preserves_bind; [apply keeps_living|]. intros present.
  destruct (_ <? _); [apply preserves_bind; [apply keeps_shrink|]; intros; apply preserves_ret|].
  apply preserves_bind; [apply keeps_reap|]. intros [[present1 reaped] []]; [apply preserves_ret|].
  apply preserves_bind; [destruct (_ =? _); [apply keeps_retire|apply preserves_ret]|]. intros [present2 retired].
  destruct (_ <? _); [apply preserves_bind; [apply keeps_grow|]; intros; apply preserves_ret|].
  apply preserves_bind; [|intros; apply preserves_ret]. unfold settle. apply preserves_bind; [apply keeps_clear|]. intros _.
  destruct (_ || _); [apply preserves_ret|]. apply keeps_quietly, keeps_reaped. unfold MaxReapAttempts. lia.
Qed.
End pass_keeps.

Lemma reconcile_changes : changes ReqReconcile (reconcile deps).
Proof.
  intros env w Hinv. pose proof (svc_good_refl ReqReconcile _ Hinv) as Hg. unfold reconcile.
  destruct (d_workloads deps) as [W|] eqn:HW; simpl; [|done].
  apply wp_bind, wp_mapped, load_rule. intros [l|e] w1 Hw1 Hl; [|simpl; by rewrite Hw1].
  apply wp_bind, states_rule. intros [l'|e] w2 Hw2 Hl'; [|by rewrite Hw2, Hw1].
  assert (Hread : forall s, s ∈ l' -> exists t ms, t ∈ db_services (st w) /\ s = with_members ms t).
  { intros s Hs. apply list_elem_of_lookup in Hs as [i Hi].
    destruct (Forall2_lookup_r _ _ _ _ _ Hl' Hi) as (s0 & Hs0 & [ms' ->]).
    pose proof (Forall_lookup_1 _ _ _ _ Hl Hs0) as (t & Ht & [ms ->]). rewrite sliceStable_perm in Ht. by exists t, ms'. }
  assert (Hg2 : good ReqReconcile (st w) (st w2)) by (by rewrite Hw2, Hw1). revert Hg2. apply (preserves_foldM (good ReqReconcile (st w))).
  intros s counts Hs. destruct (Hread s Hs) as (t & ms & Ht & ->).
  apply preserves_bind; [|intros; apply preserves_ret]. apply preserves_attempt. by apply keeps_one.
Qed.

Lemma svc_serve_rule r : changes r (serve deps r).
Proof.
  destruct r; simpl.
  - apply changes_unit, create_changes.
  - apply changes_unit, update_changes.
  - apply changes_unit, scale_changes.
  - apply remove_changes.
  - intros env w Hinv. unfold Reconcile, quietly. apply wp_bind, wp_attempt.
    eapply wp_mono; [|by apply reconcile_changes]. by intros [].
Qed.
End rules.

(** * Properties *)



Module Demo.
Definition template : Template :=
  MkTemplate "container" "nginx" "" "" 0 "" [] "net-1" "always" 1 128 "" false ∅ [] ∅ "" "" [] [] "" [] [].
Definition member (id : string) (revision : Z) (state : string) : Member := MkMember id revision state 0.
(** Two replicas of three, one of them failed, on an older revision. *)
Definition web : Service :=
  MkService "svc-1" "prj-1" "web" 3 2 template [member "i-1" 1 "running"; member "i-2" 1 "failed"] 0 "" 0 0.
Definition db : SvcDB :=
  MkSvcDB [with_members [] web] [("svc-1", member "i-1" 1 ""); ("svc-1", member "i-2" 1 "")].
Definition env : Env := {| env_now _ := 0; env_rand n := [0; 0; 0; 0; 0; 0; Z.of_nat n; 0]; env_io _ := false |}.

Definition state : Type := SvcDB * list call.
#[local] Existing Instance Has_fst.
#[local] Existing Instance Has_snd.
Definition answer {A} (c : outcome A -> call) (r : outcome A) : M state A :=
  fun _ w => (r, with_st w (fst (w_st w), snd (w_st w) ++ [c r])).
Definition workloads : Workloads state := {|
  CreateWorkload wl := answer (Created wl) (Ok (wl_Name wl));
  DeleteWorkload p i := answer (Deleted p i) (Ok tt);
  StatesOf ids := ret (list_to_map (map (fun i => (i, "running")) ids)) |}.
Definition deps : Deps state := {|
  d_workloads := Some workloads; d_networks := None; d_firewalls := None; d_sealing := None; d_events := true |}.
Definition world : World state := MkWorld (db, []) O [].

Lemma logged : Logged (Has0:=Has_fst _ _) (Has1:=Has_snd _ _) workloads.
Proof. split; done. Qed.
Lemma services_deaf : Deaf (Has0:=Has_fst _ _) deps.
Proof. split; try (intros x [=]; fail). intros x [= <-]. done. Qed.
Lemma no_ring ring : d_sealing deps = Some ring -> QuietRing (Has0:=Has_snd _ _) ring.
Proof. done. Qed.
Lemma services_inv : svc_inv db.
Proof.
  constructor; simpl.
  - unfold unique_by; simpl. by repeat constructor; set_solver.
  - unfold unique_by; simpl. by repeat constructor; set_solver.
  - intros s ->%list_elem_of_singleton. by constructor.
  - unfold unique_by; simpl. by repeat constructor; set_solver.
  - intros r Hr. exists (with_members [] web). split; [set_solver|].
    rewrite !elem_of_cons in Hr. by destruct Hr as [->|[->|Hr%not_elem_of_nil]].
Qed.
End Demo.


