(* ===== verification/Rollout.v ===== *)
(** Services without faults: what the passes of the reconciler (internal/platform/service)
    lead to while the database answers and the instances are well.

    [ServiceSet] bounds what one pass may do whatever fails; here one pass is shown to refine
    a step of an abstract machine on the replicas of each service ([next]), and the machine
    to reach the published revision, so that a rollout comes to its end. *)
From stdpp Require Import base tactics numbers strings list gmap sorting.
From Stdlib Require Import ZArith Lia.
From S2P Require Import Prelude GoLang Effects Kernel ServiceSet.

(** * The instances *)

(** The instances that exist, with their observed states. *)
Abbreviation fleet := (gmap string string).
(** A state in which a replica counts and is not replaced. *)
Definition live (state : string) : Prop := state <> "" /\ state <> StateFailed.
Definition clean (env : Env) : Prop := forall n, env_io env n = false.

(** The instances do as they are asked: the contract of [Workloads] while nothing fails. *)
Record Obedient {S} `{!Has fleet S} (W : Workloads S) : Prop := {
  ob_create wl env w : clean env -> wp env (CreateWorkload W wl) (fun r w' => exists id state,
    r = Ok id /\ part (T:=fleet) w !! id = None /\ live state /\ part w' = <[id:=state]> (part (T:=fleet) w)) w;
  ob_delete p i env w : clean env -> is_Some (part (T:=fleet) w !! i) ->
    wp env (DeleteWorkload W p i) (fun r w' => r = Ok tt /\ part w' = base.delete i (part (T:=fleet) w)) w;
  ob_states ids env w : clean env -> wp env (StatesOf W ids) (fun r w' => part w' = part (T:=fleet) w /\
    exists states, r = Ok states /\ forall i, i ∈ ids -> default "" (states !! i) = default "" (part (T:=fleet) w !! i)) w;
}.

(** * The abstract machine *)

(** A replica: its instance and its revision. *)
Abbreviation replica := (string * Z)%type.
Definition stale (revision : Z) (k : replica) : bool := negb (snd k =? revision).

(** One step of a service that is to have [R] replicas of [revision]. *)
Inductive next (R revision : Z) (ks ks' : list replica) : Prop :=
| next_shrink kept dropped :
    R < len ks -> ks ≡ₚ kept ++ dropped -> len kept = R -> ks' ≡ₚ kept ->
    (forall k d, k ∈ kept -> stale revision k = true -> d ∈ dropped -> stale revision d = true) ->
    next R revision ks ks'
| next_grow ids :
    len ks < R -> len ids = Z.min (R - len ks) MaxCreatePerPass -> ks' ≡ₚ map (fun i => (i, revision)) ids ++ ks ->
    next R revision ks ks'
| next_roll id k rest :
    len ks = R -> ks ≡ₚ k :: rest -> stale revision k = true -> ks' ≡ₚ (id, revision) :: rest ->
    next R revision ks ks'
| next_stay : len ks = R -> Forall (fun k => stale revision k = false) ks -> ks' ≡ₚ ks -> next R revision ks ks'.

(** How many steps it takes at most. *)
Definition behind (revision : Z) (ks : list replica) : Z := len (List.filter (stale revision) ks).
Definition distance (R revision : Z) (ks : list replica) : Z :=
  (if R <? len ks then 1 else 0) + (Z.max 0 (R - len ks) + 3) / 4 + behind revision ks.

Lemma behind_perm revision ks ks' : ks ≡ₚ ks' -> behind revision ks = behind revision ks'.
Proof. intros E. unfold behind. f_equal. induction E; simpl; repeat case_match; simpl; lia. Qed.

Lemma behind_app revision ks ks' : behind revision (ks ++ ks') = behind revision ks + behind revision ks'.
Proof. unfold behind. rewrite List.filter_app, length_app. lia. Qed.

Lemma behind_fresh revision ids : behind revision (map (fun i => (i, revision)) ids) = 0.
Proof. unfold behind. induction ids as [|i ids IH]; [done|]. simpl. unfold stale at 1. simpl. by rewrite Z.eqb_refl. Qed.

Lemma behind_zero revision ks : behind revision ks = 0 <-> Forall (fun k => stale revision k = false) ks.
Proof.
  unfold behind. split.
  - intros E. induction ks as [|k ks IH]; [constructor|]. simpl in E. destruct (stale revision k) eqn:Ek; simpl in E; [lia|].
    constructor; auto.
  - intros H. induction H as [|k ks Hk _ IH]; [done|]. simpl. by rewrite Hk.
Qed.

Lemma distance_perm R revision ks ks' : ks ≡ₚ ks' -> distance R revision ks = distance R revision ks'.
Proof. intros E. unfold distance. by rewrite (behind_perm _ _ _ E), (Permutation_length E). Qed.

Lemma distance_nonneg R revision ks : 0 <= distance R revision ks.
Proof.
  unfold distance. assert (0 <= behind revision ks) by (unfold behind; lia).
  assert (0 <= (Z.max 0 (R - len ks) + 3) / 4) by (apply Z.div_pos; lia). destruct (R <? len ks); lia.
Qed.

Lemma distance_zero R revision ks : 0 <= R ->
  distance R revision ks = 0 <-> len ks = R /\ Forall (fun k => stale revision k = false) ks.
Proof.
  intros HR. rewrite <- behind_zero. unfold distance. assert (0 <= behind revision ks) by (unfold behind; lia).
  assert (Hd : 0 <= (Z.max 0 (R - len ks) + 3) / 4) by (apply Z.div_pos; lia). split.
  - destruct (R <? len ks) eqn:E; breflect; [lia|]. intros H0. split; [|lia].
    assert (Hz : (Z.max 0 (R - len ks) + 3) / 4 = 0) by lia. apply Z.div_small_iff in Hz; lia.
  - intros [<- ->]. rewrite Z.ltb_irrefl, Z.sub_diag. done.
Qed.

Lemma distance_over R revision ks : R < len ks -> distance R revision ks = 1 + behind revision ks.
Proof.
  intros H. unfold distance. rewrite (proj2 (Z.ltb_lt _ _) H). rewrite Z.max_l by lia. change ((0 + 3) / 4) with 0. lia.
Qed.

Lemma distance_under R revision ks : len ks <= R -> distance R revision ks = (R - len ks + 3) / 4 + behind revision ks.
Proof. intros H. unfold distance. rewrite (proj2 (Z.ltb_ge _ _) H). rewrite Z.max_r by lia. lia. Qed.

Lemma distance_met R revision ks : len ks = R -> distance R revision ks = behind revision ks.
Proof. intros <-. rewrite distance_under by lia. rewrite Z.sub_diag. done. Qed.

Lemma behind_cons revision k ks : behind revision (k :: ks) = (if stale revision k then 1 else 0) + behind revision ks.
Proof. unfold behind. simpl. destruct (stale revision k); simpl; lia. Qed.

(** Every step but the last one is progress, and none loses a replica that is needed. *)
Lemma next_progress R revision ks ks' : 0 <= R -> next R revision ks ks' ->
  distance R revision ks' <= Z.max 0 (distance R revision ks - 1) /\ Z.min R (len ks) <= len ks'.
Proof.
  intros HR Hn. pose proof (distance_nonneg R revision ks) as Hpos.
  destruct Hn as [kept dropped Hlt E Hk E' _|ids Hlt Hids E'|id k rest Hlen E Hs E'|Hlen Hf E'];
    rewrite (distance_perm _ _ _ _ E'), (Permutation_length E').
  - rewrite (distance_met _ _ _ Hk), (distance_over _ _ _ Hlt), (behind_perm _ _ _ E), behind_app.
    assert (0 <= behind revision dropped) by (unfold behind; lia). lia.
  - unfold MaxCreatePerPass in *. rewrite (distance_under R revision ks) by lia.
    rewrite distance_under by (rewrite length_app, length_map; lia). rewrite behind_app, behind_fresh, length_app, length_map.
    assert (0 <= behind revision ks) by (unfold behind; lia).
    assert ((R - Z.of_nat (length ids + length ks) + 3) / 4 <= (R - len ks + 3) / 4 - 1); [|split; lia].
    destruct (decide (R - len ks <= 4)).
    + replace (R - Z.of_nat (length ids + length ks)) with 0 by lia.
      assert (1 <= (R - len ks + 3) / 4) by (apply Z.div_le_lower_bound; lia). change ((0 + 3) / 4) with 0. lia.
    + replace (R - Z.of_nat (length ids + length ks) + 3) with ((R - len ks + 3) + (-1) * 4) by lia.
      rewrite Z.div_add by lia. lia.
  - pose proof (Permutation_length E) as El. simpl in El. rewrite (distance_met R revision ks) by done.
    rewrite distance_met by (simpl in *; lia). rewrite (behind_perm _ _ _ E), !behind_cons, Hs. unfold stale. simpl.
    rewrite Z.eqb_refl. simpl. assert (0 <= behind revision rest) by (unfold behind; lia). lia.
  - pose proof (proj2 (distance_zero R revision ks HR) (conj Hlen Hf)). lia.
Qed.

(** * The tables behind the machine *)

Definition key (m : Member) : replica := (mb_InstanceID m, mb_Revision m).
Definition row_id (r : string * Member) : string := mb_InstanceID (snd r).
Definition of_service (serviceID : string) (r : string * Member) : bool := String.eqb (fst r) serviceID.
(** The replicas of a service, and the rows of the other services. *)
Definition mine (serviceID : string) (rows : list (string * Member)) : list replica :=
  map (fun r => key (snd r)) (List.filter (of_service serviceID) rows).
Definition others (serviceID : string) (rows : list (string * Member)) : list (string * Member) :=
  List.filter (fun r => negb (of_service serviceID r)) rows.
(** No instance is a member twice, and every member is there and well. *)
Record fleet_ok (rows : list (string * Member)) (fl : fleet) : Prop := {
  fo_unique : NoDup (map row_id rows);
  fo_live r : r ∈ rows -> exists state, fl !! row_id r = Some state /\ live state;
}.
(** What a pass does not touch of a service. *)
Definition core (s : Service) := (sv_ID s, sv_ProjectID s, sv_Name s, sv_Replicas s, sv_Revision s, sv_Template s).

Lemma mine_others serviceID other rows : other <> serviceID -> mine other (others serviceID rows) = mine other rows.
Proof.
  intros Hne. unfold mine, others. f_equal. induction rows as [|r rows IH]; [done|]. simpl.
  destruct (of_service serviceID r) eqn:E; simpl; [|by rewrite IH].
  rewrite IH. destruct (of_service other r) eqn:E'; [|done]. unfold of_service in *. breflect. congruence.
Qed.

Lemma filter_ids {A} (f : A -> string) (x : A) l : NoDup (map f l) -> x ∈ l ->
  exists l1 l2, l = l1 ++ x :: l2 /\ List.filter (fun y => negb (String.eqb (f y) (f x))) l = l1 ++ l2.
Proof.
  intros Hnd Hx. apply list_elem_of_split in Hx as (l1 & l2 & ->). exists l1, l2. split; [done|].
  rewrite map_app in Hnd. simpl in Hnd. apply NoDup_app in Hnd as (_ & H1 & H2).
  apply NoDup_cons in H2 as [H2 _]. rewrite List.filter_app. simpl. rewrite String.eqb_refl. simpl.
  assert (Hall : forall l, (forall y, y ∈ l -> f y <> f x) -> List.filter (fun y => negb (String.eqb (f y) (f x))) l = l).
  { clear. induction l as [|y l IH]; intros H; [done|]. simpl. rewrite (proj2 (String.eqb_neq _ _)) by (apply H; set_solver).
    simpl. f_equal. apply IH. set_solver. }
  rewrite !Hall; [done|..].
  - intros y Hy E. apply H2. rewrite <- E. by apply list_elem_of_fmap_2.
  - intros y Hy E. apply (H1 (f y)); [by apply list_elem_of_fmap_2|]. rewrite E. set_solver.
Qed.

(** The replicas of one service within the tables [db0]: the rest stands as it was. *)
Record stand (db0 : SvcDB) (serviceID : string) (ks : list replica) (db : SvcDB) (fl : fleet) : Prop := {
  sd_services : map core (db_services db) = map core (db_services db0);
  sd_others : others serviceID (db_members db) = others serviceID (db_members db0);
  sd_fleet : fleet_ok (db_members db) fl;
  sd_mine : mine serviceID (db_members db) ≡ₚ ks;
}.

Lemma stand_perm db0 serviceID ks ks' db fl : ks ≡ₚ ks' -> stand db0 serviceID ks db fl -> stand db0 serviceID ks' db fl.
Proof. intros E []. split; try done. by rewrite <- E. Qed.

(** A member is taken out, and its instance deleted. *)
Lemma stand_drop db0 serviceID m ks db fl : stand db0 serviceID (key m :: ks) db fl ->
  is_Some (fl !! mb_InstanceID m) /\
  stand db0 serviceID ks
    (MkSvcDB (db_services db) (List.filter (fun r => negb (member_at serviceID (mb_InstanceID m) r)) (db_members db)))
    (base.delete (mb_InstanceID m) fl).
Proof.
  intros [Hs Ho [Hnd Hlive] Hm].
  assert (Hin : key m ∈ mine serviceID (db_members db)) by (rewrite Hm; set_solver).
  unfold mine in Hin. apply list_elem_of_fmap in Hin as (r & Ekey & [Hr Er]%elem_of_filter_bool).
  unfold key in Ekey. injection Ekey as Eid Erev. unfold of_service in Er. breflect.
  destruct (filter_ids row_id r (db_members db) Hnd Hr) as (l1 & l2 & El & Ef).
  assert (Efilter : List.filter (fun x => negb (member_at serviceID (mb_InstanceID m) x)) (db_members db) = l1 ++ l2).
  { rewrite <- Ef. apply List.filter_ext_in. intros x Hx%list_elem_of_In. unfold member_at, row_id. rewrite Eid. f_equal.
    destruct (String.eqb_spec (mb_InstanceID (snd x)) (mb_InstanceID (snd r))) as [E|E]; [|by rewrite andb_false_r].
    assert (x = r) as -> by (by apply (NoDup_map_inj row_id (db_members db))).
    by rewrite Er, String.eqb_refl. }
  rewrite Efilter. split; [destruct (Hlive r Hr) as (state & E & _); rewrite Eid; by exists state|].
  rewrite El in *. split; simpl.
  - done.
  - rewrite <- Ho. unfold others. rewrite !List.filter_app. simpl.
    assert (of_service serviceID r = true) as -> by (unfold of_service; by rewrite Er, String.eqb_refl). done.
  - rewrite map_app in Hnd. simpl in Hnd. split.
    + rewrite map_app. rewrite <- Permutation_middle in Hnd. by apply NoDup_cons in Hnd as [_ ?].
    + intros x Hx. destruct (Hlive x) as (state & E & Hl); [set_solver|]. exists state. split; [|done].
      rewrite lookup_delete_ne; [done|]. rewrite Eid. intros E'. rewrite <- Permutation_middle in Hnd.
      apply NoDup_cons in Hnd as [Hnd _]. apply Hnd. rewrite <- map_app. apply list_elem_of_fmap. exists x. done.
  - unfold mine in *. rewrite !List.filter_app, map_app in *. simpl in Hm.
    assert (of_service serviceID r = true) as E by (unfold of_service; by rewrite Er, String.eqb_refl). rewrite E in Hm. simpl in Hm. rewrite <- Permutation_middle in Hm. unfold key in Hm at 1. rewrite <- Eid, <- Erev in Hm.
    by apply Permutation_cons_inv in Hm.
Qed.

(** A new instance becomes a member. *)
Lemma stand_add db0 serviceID instanceID revision at_ state ks db fl e : stand db0 serviceID ks db fl ->
  fl !! instanceID = None -> live state ->
  fst (insert_row (member_at serviceID instanceID) e (serviceID, MkMember instanceID revision "" at_) (db_members db)) = Ok tt /\
  stand db0 serviceID ((instanceID, revision) :: ks)
    (MkSvcDB (db_services db) (snd (insert_row (member_at serviceID instanceID) e
       (serviceID, MkMember instanceID revision "" at_) (db_members db)))) (<[instanceID:=state]> fl).
Proof.
  intros [Hs Ho [Hnd Hlive] Hm] Hnew Hst.
  assert (Hfresh : forall r, r ∈ db_members db -> row_id r <> instanceID).
  { intros r Hr E. destruct (Hlive r Hr) as (st & Est & _). rewrite E in Est. congruence. }
  unfold insert_row. destruct (existsb _ _) eqn:Ex.
  { exfalso. apply existsb_exists in Ex as (r & Hr%list_elem_of_In & Er). unfold member_at in Er. breflect. by apply (Hfresh r). }
  simpl. split; [done|]. split; simpl.
  - done.
  - unfold others in *. rewrite List.filter_app, Ho. simpl. unfold of_service. simpl. rewrite String.eqb_refl. simpl. by rewrite app_nil_r.
  - split.
    + rewrite map_app. apply NoDup_app. split_and!; [done| |apply NoDup_singleton].
      intros i Hi ->%list_elem_of_singleton. apply list_elem_of_fmap in Hi as (r & E & Hr). by apply (Hfresh r).
    + intros r [Hr| ->%list_elem_of_singleton]%elem_of_app.
      * destruct (Hlive r Hr) as (st & Est & Hl). exists st. split; [|done]. rewrite lookup_insert_ne; [done|].
        intros E. by apply (Hfresh r).
      * exists state. split; [|done]. apply lookup_insert_eq.
  - unfold mine in *. rewrite List.filter_app, map_app, Hm. simpl. unfold of_service. simpl. rewrite String.eqb_refl. simpl.
    unfold key. simpl. by rewrite <- Permutation_cons_append.
Qed.

(** * Triples

    While the database answers, [m] started in [P] ends without an error in [Q]. *)
Definition triple {S A} `{!Has SvcDB S, !Has fleet S} (P : SvcDB -> fleet -> Prop) (m : M S A)
    (Q : A -> SvcDB -> fleet -> Prop) : Prop :=
  forall env w, clean env -> P (part w) (part w) ->
    wp env m (fun r w' => exists a, r = Ok a /\ Q a (part w') (part w')) w.

Section triples.
Context {S : Type} `{!Has SvcDB S, !Has fleet S, !Apart SvcDB fleet S}.
Implicit Types (P : SvcDB -> fleet -> Prop).

Lemma t_bind {A B} P (R : A -> SvcDB -> fleet -> Prop) Q (m : M S A) (k : A -> M S B) :
  triple P m R -> (forall a, triple (R a) (k a) Q) -> triple P (bind m k) Q.
Proof.
  intros Hm Hk env w Henv HP. apply wp_bind. eapply wp_mono; [|by apply Hm].
  intros r w' (a & -> & Ha). by apply Hk.
Qed.

Lemma t_ret {A} P Q (a : A) : (forall db fl, P db fl -> Q a db fl) -> triple (S:=S) P (ret a) Q.
Proof. intros H env w _ HP. rewrite wp_ret. eauto. Qed.

Lemma t_conseq {A} P P' (Q Q' : A -> SvcDB -> fleet -> Prop) (m : M S A) :
  (forall db fl, P db fl -> P' db fl) -> (forall a db fl, Q' a db fl -> Q a db fl) -> triple P' m Q' -> triple P m Q.
Proof. intros HP HQ Hm env w Henv H. eapply wp_mono; [|apply Hm; auto]. intros r w' (a & -> & Ha). eauto. Qed.

Lemma t_pre {A} P P' (Q : A -> SvcDB -> fleet -> Prop) (m : M S A) :
  (forall db fl, P db fl -> P' db fl) -> triple P' m Q -> triple P m Q.
Proof. intros HP. by apply t_conseq. Qed.

Lemma t_pure {A} (X : Prop) P Q (m : M S A) : (X -> triple P m Q) -> triple (fun db fl => X /\ P db fl) m Q.
Proof. intros H env w Henv [HX HP]. by apply H. Qed.

Lemma t_ex {X A} (P : X -> SvcDB -> fleet -> Prop) Q (m : M S A) :
  (forall x, triple (P x) m Q) -> triple (fun db fl => exists x, P x db fl) m Q.
Proof. intros H env w Henv [x HP]. by apply (H x). Qed.

Lemma t_attempt {A} P Q (m : M S A) : triple P m Q -> triple P (attempt m) (fun r db fl => exists a, r = Ok a /\ Q a db fl).
Proof.
  intros Hm env w Henv HP. apply wp_attempt. eapply wp_mono; [|by apply Hm]. intros r w' (a & -> & Ha). eauto.
Qed.

Lemma t_now P : triple (S:=S) P now (fun _ => P).
Proof. intros env w _ HP. rewrite wp_now. by eexists. Qed.

Lemma t_name P name : triple (S:=S) P (replicaName name) (fun _ => P).
Proof. intros env w _ HP. unfold replicaName, ids_New. apply wp_bind, wp_bind. rewrite wp_rand, !wp_ret. by eexists. Qed.

Lemma t_note P deps s kind subject message sev : triple (S:=S) P (note deps s kind subject message sev) (fun _ => P).
Proof. intros env w _ HP. unfold note. destruct (d_events deps); by exists tt. Qed.

(** A statement on the services. *)
Lemma t_sql {A} P Q what (q : SvcDB -> outcome A * SvcDB) :
  (forall db fl, P db fl -> exists a, fst (q db) = Ok a /\ Q a (snd (q db)) fl) -> triple (S:=S) P (sql what q) Q.
Proof.
  intros Hq env w Henv HP. apply wp_sql. rewrite Henv. destruct (Hq _ _ HP) as (a & E & HQ). exists a. split; [exact E|].
  unfold part in *. simpl. rewrite hget_hput. by rewrite (apart (T:=SvcDB) (U:=fleet)).
Qed.

Lemma t_query {A} P Q what (q : SvcDB -> outcome A) :
  (forall db fl, P db fl -> exists a, q db = Ok a /\ Q a db fl) -> triple (S:=S) P (query what q) Q.
Proof. intros Hq. apply t_sql. simpl. exact Hq. Qed.

Lemma t_foldM {X A} (I : list X -> A -> SvcDB -> fleet -> Prop) (body : X -> A -> M S A) xs a :
  (forall done x rest a, xs = done ++ x :: rest -> triple (I done a) (body x a) (I (done ++ [x]))) ->
  triple (I [] a) (foldM body xs a) (I xs).
Proof.
  intros Hb. enough (H : forall done rest a, xs = done ++ rest -> triple (I done a) (foldM body rest a) (I xs)) by (by apply H).
  intros done rest. revert done. induction rest as [|x rest IH]; intros done b E; simpl.
  - rewrite app_nil_r in E. subst. by apply t_ret.
  - eapply t_bind; [by eapply Hb|]. intros c. apply IH. by rewrite <- app_assoc.
Qed.
End triples.

(** * One pass refines one step *)

Section pass.
Context {S : Type} `{!Has SvcDB S, !Has fleet S, !Apart SvcDB fleet S}.
Context (deps : Deps S) (W : Workloads S) `{!Deaf deps} (HW : d_workloads deps = Some W) (Hfleet : Obedient W).
Context (db0 : SvcDB) (s : Service) (HR : 0 <= sv_Replicas s).
(** The secrets of the service open. *)
Context (Henv : forall P, triple P (openEnv deps (t_EnvSealed (sv_Template s)) (t_EnvKeyID (sv_Template s))) (fun _ => P)).
Context (Hfiles : forall P, triple P (openFiles deps (t_FilesSealed (sv_Template s)) (t_EnvKeyID (sv_Template s))) (fun _ => P)).

Abbreviation sid := (sv_ID s).
Abbreviation R := (sv_Replicas s).
Abbreviation rev_ := (sv_Revision s).
Definition has (ms : list Member) : SvcDB -> fleet -> Prop := stand db0 sid (map key ms).

Lemma has_perm ms ms' db fl : ms ≡ₚ ms' -> has ms db fl -> has ms' db fl.
Proof. intros E. apply stand_perm. by rewrite E. Qed.

Lemma t_delete P p i : triple (fun db fl => is_Some (fl !! i) /\ P db (base.delete i fl)) (DeleteWorkload W p i) (fun _ => P).
Proof.
  intros env w Hclean [Hin HP]. destruct (deaf_workloads W HW) as (_ & Hdeaf & _). specialize (Hdeaf p i env w).
  pose proof (ob_delete W Hfleet p i env w Hclean Hin) as Hdel. unfold wp in *.
  destruct (DeleteWorkload W p i env w) as [r w1]. simpl in Hdeaf. destruct Hdel as [-> ->]. rewrite Hdeaf. eauto.
Qed.

Lemma t_create P wl : triple P (CreateWorkload W wl) (fun id db fl => exists fl0 state, P db fl0 /\ fl0 !! id = None /\
  live state /\ fl = <[id:=state]> fl0).
Proof.
  intros env w Hclean HP. destruct (deaf_workloads W HW) as (Hdeaf & _). specialize (Hdeaf wl env w).
  pose proof (ob_create W Hfleet wl env w Hclean) as Hc. unfold wp in *.
  destruct (CreateWorkload W wl env w) as [r w1]. simpl in Hdeaf. destruct Hc as (id & state & -> & Hnew & Hl & ->).
  rewrite Hdeaf. exists id. split; [done|]. eauto 10.
Qed.

Lemma t_drop m ms : triple (has (m :: ms)) (drop_member W s m) (fun b db fl => b = true /\ has ms db fl).
Proof.
  set (out db := MkSvcDB (db_services db) (List.filter (fun r => negb (member_at sid (mb_InstanceID m) r)) (db_members db))).
  unfold drop_member. apply (t_bind _ (fun r db fl => r = Ok tt /\ has ms (out db) fl)).
  - eapply t_conseq; [| |apply t_attempt, (t_delete (fun db fl => has ms (out db) fl))].
    + intros db fl Hs. by apply stand_drop.
    + intros r db fl ([] & -> & H). done.
  - intros r. apply t_pure. intros ->. apply (t_bind _ (fun r db fl => r = Ok tt /\ has ms db fl)).
    + eapply t_conseq; [| |apply t_attempt, (t_sql (fun db fl => has ms (out db) fl) (fun _ => has ms))]; [done| |].
      * intros r db fl ([] & -> & H). done.
      * intros db fl H. exists tt. done.
    + intros r. apply t_ret. intros db fl [-> H]. done.
Qed.

Lemma t_core what ks f : (forall x, core (f x) = core x) ->
  triple (S:=S) (stand db0 sid ks) (quietly (on_services what (update_any (service_id sid) f))) (fun _ => stand db0 sid ks).
Proof.
  intros Hf. unfold quietly. eapply t_bind; [apply t_attempt, (t_sql _ (fun _ => stand db0 sid ks))|intros r; apply t_ret].
  - intros db fl [Hs Ho Hfl Hm]. exists tt. split; [done|]. split; [|done..]. simpl. rewrite <- Hs, map_map.
    apply map_ext. intros x. by case_match.
  - intros db fl (_ & _ & H). exact H.
Qed.

Lemma t_clear ks : triple (S:=S) (stand db0 sid ks) (clearBlocked s) (fun _ => stand db0 sid ks).
Proof.
  unfold clearBlocked. case_match; [by apply t_ret|]. eapply t_bind; [apply t_now|]. intros at_. by apply t_core.
Qed.

Lemma t_settle ks present : triple (S:=S) (stand db0 sid ks) (settle s present) (fun _ => stand db0 sid ks).
Proof.
  unfold settle. eapply t_bind; [apply t_clear|]. intros []. case_match; [by apply t_ret|]. by apply t_core.
Qed.

Lemma t_living P : Forall (fun m => live (mb_State m)) (sv_Members s) ->
  triple (S:=S) P (livingMembers deps s) (fun present db fl => present = sv_Members s /\ P db fl).
Proof.
  intros Hl. unfold livingMembers. eapply t_conseq; [| |apply (t_foldM (fun done present db fl => present = done /\ P db fl))]; [done|done|].
  intros done m rest present E. apply t_pure. intros ->. rewrite E in Hl.
  apply Forall_app in Hl as [_ [[Hne _] _]%Forall_cons]. unfold is_empty. rewrite (proj2 (String.eqb_neq _ _) Hne). by apply t_ret.
Qed.

Lemma t_reap present P : Forall (fun m => live (mb_State m)) present ->
  triple (S:=S) P (reapFailed deps W s present) (fun r db fl => r = (present, 0, false) /\ P db fl).
Proof.
  intros Hl. unfold reapFailed.
  assert (List.filter (fun m => String.eqb (mb_State m) StateFailed) present = []) as ->; [|by apply t_ret].
  induction Hl as [|m present [_ Hne] _ IH]; [done|]. simpl. by rewrite (proj2 (String.eqb_neq _ _) Hne).
Qed.

Lemma t_shrink present :
  triple (has present) (shrinkTo deps W s present) (fun _ => has (take (Z.to_nat R) (partition present rev_ false))).
Proof.
  set (ordered := partition present rev_ false). set (kept := take (Z.to_nat R) ordered). set (surplus := rev (drop (Z.to_nat R) ordered)).
  unfold shrinkTo. apply (t_bind _ (fun _ => has kept)); [|intros removed; eapply t_bind; [apply t_clear|intros []; by apply t_ret]].
  fold ordered. fold surplus.
  eapply t_conseq; [| |apply (t_foldM (fun done _ db fl => forall rest, surplus = done ++ rest -> has (rest ++ kept) db fl))].
  - intros db fl H rest E. simpl in E. rewrite <- E. eapply has_perm; [|exact H].
    rewrite <- (partition_perm present rev_ false). fold ordered. rewrite <- (take_drop (Z.to_nat R) ordered) at 1.
    fold kept. unfold surplus. rewrite Permutation_app_comm. by rewrite <- (Permutation_rev (drop _ _)).
  - intros n db fl H. apply (H []). by rewrite app_nil_r.
  - intros done m rest n E. apply (t_bind _ (fun b db fl => b = true /\ has (rest ++ kept) db fl)).
    + eapply t_conseq; [| |apply (t_drop m (rest ++ kept))]; [|done]. intros db fl H. apply (H (m :: rest)). exact E.
    + intros b. apply t_pure. intros ->. simpl. eapply t_bind; [apply t_note|]. intros []. apply t_ret.
      intros db fl H rest' E'. rewrite E in E'. rewrite <- app_assoc in E'. simplify_list_eq. exact H.
Qed.

Lemma partition_head present m rest : partition present rev_ true = m :: rest -> stale rev_ (key m) = false ->
  Forall (fun k => stale rev_ k = false) (map key present).
Proof.
  unfold partition, stale. simpl. intros E Em. set (old m := negb (mb_Revision m =? rev_)) in *.
  destruct (List.filter old present) as [|m' old'] eqn:Ef.
  - apply Forall_forall. intros k (x & -> & Hx)%list_elem_of_fmap. simpl. destruct (old x) eqn:Eo; [|done].
    assert (Hin : x ∈ List.filter old present) by (by apply elem_of_filter_bool). rewrite Ef in Hin. set_solver.
  - simpl in E. injection E as -> _. assert (Hin : m ∈ List.filter old present) by (rewrite Ef; set_solver).
    apply elem_of_filter_bool in Hin as [_ Hin]. unfold old in Hin. congruence.
Qed.

Definition retired_to (present present' : list Member) (n : Z) : Prop :=
  n = 0 /\ present' = present /\ Forall (fun k => stale rev_ k = false) (map key present) \/
  n = 1 /\ exists m, stale rev_ (key m) = true /\ present ≡ₚ m :: present'.

Lemma t_retire present : triple (has present) (retireStale deps W s present)
  (fun r db fl => retired_to present (fst r) (snd r) /\ has (fst r) db fl).
Proof.
  unfold retireStale. pose proof (partition_perm present rev_ true) as Hp.
  destruct (partition present rev_ true) as [|m rest] eqn:Ep.
  { apply Permutation_nil in Hp as ->. eapply t_bind; [cbn [for_each]; by apply (t_ret _ (fun r db fl => r = inl 0 /\ has [] db fl))|].
    intros r. apply t_pure. intros ->. apply t_ret. intros db fl H. split; [|done]. left. split_and!; [done|done|constructor]. }
  cbn [for_each]. change (0 =? MaxReplacePerPass) with false. cbv iota.
  destruct (mb_Revision m =? rev_) eqn:Er; breflect.
  { eapply t_bind; [eapply t_bind; [by apply (t_ret _ (fun r db fl => r = Break 0 /\ has present db fl))|]|].
    - intros r. apply t_pure. intros ->. by apply (t_ret _ (fun r db fl => r = inl 0 /\ has present db fl)).
    - intros r. apply t_pure. intros ->. apply t_ret. intros db fl H. split; [|done]. left. split_and!; [done|done|].
      apply (partition_head present m rest Ep). unfold stale. simpl. rewrite Er. by rewrite Z.eqb_refl. }
  assert (Hstale : stale rev_ (key m) = true) by (unfold stale; simpl; by apply negb_true_iff, Z.eqb_neq).
  apply (t_bind _ (fun r db fl => r = inl 1 /\ has rest db fl)).
  - apply (t_bind _ (fun r db fl => r = Next 1 /\ has rest db fl)).
    + apply (t_bind _ (fun b db fl => b = true /\ has rest db fl)).
      * eapply t_conseq; [| |apply (t_drop m rest)]; [|done]. intros db fl. apply has_perm. by rewrite Hp.
      * intros b. apply t_pure. intros ->. simpl. eapply t_bind; [apply t_note|]. intros []. by apply t_ret.
    + intros r. apply t_pure. intros ->. destruct rest as [|m' rest']; cbn [for_each]; [by apply t_ret|].
      change (1 =? MaxReplacePerPass) with true. cbv iota.
      eapply t_bind; [by apply (t_ret _ (fun r db fl => r = Break 1 /\ has (m' :: rest') db fl))|].
      intros r. apply t_pure. intros ->. by apply t_ret.
  - intros r. apply t_pure. intros ->. cbv iota zeta. change (1 =? 0) with false. cbv iota. apply t_ret. intros db fl H.
    simpl. change (drop (Z.to_nat 1) (m :: rest)) with (drop 0 rest). rewrite drop_0. split; [|done]. right.
    split; [done|]. exists m. split; [done|]. by rewrite Hp.
Qed.

(** The loop that makes replicas makes as many as it is to. *)
Lemma t_grow_loop n (present : list Member) c ks env files : triple (stand db0 sid ks)
  (for_each (fun (_ : unit) created =>
    let! name := replicaName (sv_Name s) in
    let! r := attempt (CreateWorkload W (MkWorkload (sv_ProjectID s) name (sv_Template s) env files)) in
    match r with
    | Err e => block deps s (error_text e) ;;; ret (Return created)
    | Ok id =>
        let! at_ := now in
        addMember sid id rev_ at_ ;;;
        note deps s "service.replica_added" id (sv_Name s +:+ " grew to " +:+ itoa (len present + (created + 1))
          +:+ " of " +:+ itoa R) Info ;;;
        ret (Next (created + 1))
    end) (replicate n tt) c)
  (fun r db fl => (exists c', r = inl c') /\ exists ids : list string, length ids = n /\ stand db0 sid (map (fun i => (i, rev_)) ids ++ ks) db fl).
Proof.
  revert c ks. induction n as [|n IH]; intros c ks; simpl.
  { apply t_ret. intros db fl H. split; [eauto|]. by exists []. }
  eapply t_bind; [eapply t_bind; [apply t_name|]; intros name|].
  - apply (t_bind _ (fun r db fl => exists id, r = Ok id /\ exists fl0 state, stand db0 sid ks db fl0 /\ fl0 !! id = None /\
      live state /\ fl = <[id:=state]> fl0)); [apply t_attempt, t_create|].
    intros [id|e]; [|intros ? ? ? (? & ? & _); done].
    eapply t_bind; [apply t_now|]. intros at_. apply (t_bind _ (fun _ => stand db0 sid ((id, rev_) :: ks))).
    + apply t_sql. intros db fl (id' & [= <-] & fl0 & state & Hs & Hnew & Hl & ->). exists tt.
      destruct (stand_add _ _ id rev_ at_ state _ _ _ (EWrap "add a member" (EText "UNIQUE constraint failed")) Hs Hnew Hl) as [E H].
      destruct (insert_row _ _ _ _) as [o rows]. simpl in *. subst o. done.
    + intros []. eapply t_bind; [apply t_note|]. intros [].
      apply (t_ret _ (fun f db fl => (exists c', f = Next c') /\ exists id, stand db0 sid ((id, rev_) :: ks) db fl)). eauto.
  - intros f. apply t_pure. intros [c' ->]. intros env' w Hclean [id Hs].
    eapply wp_mono; [|by apply (IH c' ((id, rev_) :: ks))]. intros r w' (a & -> & He & ids & Hn & Hs').
    eexists. split; [done|]. split; [done|]. exists (ids ++ [id]). rewrite length_app, map_app, <- app_assoc. simpl. split; [lia|done].
Qed.

Lemma t_grow present : len present < R -> triple (has present) (growTo deps W s present)
  (fun _ db fl => exists ids : list string, len ids = Z.min (R - len present) MaxCreatePerPass /\
     stand db0 sid (map (fun i => (i, rev_)) ids ++ map key present) db fl).
Proof.
  intros Hlt. unfold growTo. apply (t_bind _ (fun r db fl => (exists v, r = Ok v) /\ has present db fl)).
  { eapply t_conseq; [| |apply t_attempt, (Henv (has present))]; [done|]. intros r db fl (v & -> & H). eauto. }
  intros r. apply t_pure. intros [env ->]. apply (t_bind _ (fun r db fl => (exists v, r = Ok v) /\ has present db fl)).
  { eapply t_conseq; [| |apply t_attempt, (Hfiles (has present))]; [done|]. intros r db fl (v & -> & H). eauto. }
  intros r. apply t_pure. intros [files ->]. eapply t_bind; [apply t_grow_loop|]. intros r. apply t_pure. intros [c ->].
  apply t_ex. intros ids. apply t_pure. intros Hn. eapply t_bind; [apply t_clear|]. intros []. apply t_ret.
  intros db fl H. exists ids. split; [|done]. unfold MaxCreatePerPass in *. lia.
Qed.

Lemma partition_last n present m m' :
  m ∈ take n (partition present rev_ false) -> stale rev_ (key m) = true -> m' ∈ drop n (partition present rev_ false) ->
  stale rev_ (key m') = true.
Proof.
  intros Hm Hs Hm'.
  assert (exists fresh old, partition present rev_ false = fresh ++ old /\
    (forall x, x ∈ fresh -> stale rev_ (key x) = false) /\ forall x, x ∈ old -> stale rev_ (key x) = true) as (fresh & old & E & Hf & Ho).
  { unfold partition, stale, key. simpl. set (is_old m := negb (mb_Revision m =? rev_)).
    destruct (List.filter is_old present) as [|x old] eqn:Ef.
    - exists present, []. rewrite app_nil_r. split_and!; [done| |set_solver]. intros x Hx. destruct (is_old x) eqn:Eo; [|done].
      assert (Hin : x ∈ List.filter is_old present) by (by apply elem_of_filter_bool). rewrite Ef in Hin. set_solver.
    - eexists _, _. split; [reflexivity|]. split.
      + intros y [_ Hy]%elem_of_filter_bool. by rewrite Hy.
      + intros y Hy. rewrite <- Ef in Hy. by apply elem_of_filter_bool in Hy as [_ Hy]. }
  rewrite E in *. destruct (decide (n <= length fresh)%nat).
  - rewrite take_app_le in Hm by done. rewrite Hf in Hs; [done|]. eapply subseteq_take, Hm.
  - rewrite drop_app_ge in Hm' by lia. apply Ho. eapply subseteq_drop, Hm'.
Qed.

(** The pass over one service. *)
Lemma t_one : Forall (fun m => live (mb_State m)) (sv_Members s) ->
  triple (has (sv_Members s)) (reconcileOne deps W s) (fun _ db fl => exists ks,
    next R rev_ (map key (sv_Members s)) ks /\ stand db0 sid ks db fl).
Proof.
  intros Hl. set (ms := sv_Members s). unfold reconcileOne.
  eapply t_bind; [apply (t_living _ Hl)|]. intros present. apply t_pure. intros ->. fold ms.
  destruct (R <? len ms) eqn:Eover; breflect.
  { eapply t_bind; [apply t_shrink|]. intros n. apply t_ret. intros db fl H. eexists. split; [|exact H].
    pose proof (partition_perm ms rev_ false) as Hp.
    apply (next_shrink _ _ _ _ (map key (take (Z.to_nat R) (partition ms rev_ false))) (map key (drop (Z.to_nat R) (partition ms rev_ false)))).
    - by rewrite length_map.
    - by rewrite <- map_app, take_drop, Hp.
    - rewrite length_map, length_take, (Permutation_length Hp). lia.
    - done.
    - intros k d (m & -> & Hm)%list_elem_of_fmap Hk (m' & -> & Hm')%list_elem_of_fmap. by eapply partition_last. }
  eapply t_bind; [by apply t_reap|]. intros [[present reaped] gaveUp]. apply t_pure. intros [= -> -> ->]. cbv iota.
  apply (t_bind _ (fun r db fl => (len ms = R /\ retired_to ms (fst r) (snd r) \/ len ms < R /\ r = (ms, 0)) /\ has (fst r) db fl)).
  { destruct (len ms =? R) eqn:Em; breflect.
    - eapply t_conseq; [| |apply t_retire]; [done|]. intros r db fl [H1 H2]. auto.
    - apply t_ret. intros db fl H. split; [|done]. right. split; [lia|done]. }
  intros [present retired]. apply t_pure. simpl. intros Hcase. destruct (len present <? R) eqn:Egrow; breflect.
  - eapply t_bind; [by apply t_grow|]. intros n. apply t_ex. intros ids. apply t_pure. intros Hn. apply t_ret.
    intros db fl H. eexists. split; [|exact H]. destruct Hcase as [[Hm [(_ & -> & _)|(_ & m & Hst & Hp)]]|[Hm [= -> ->]]]; [lia| |].
    + pose proof (Permutation_length Hp) as Hlen. simpl in Hlen. unfold MaxCreatePerPass in Hn.
      destruct ids as [|id [|]]; simpl in Hn; [lia| |lia]. apply (next_roll _ _ _ _ id (key m) (map key present)).
      * by rewrite length_map.
      * by rewrite Hp.
      * done.
      * done.
    + apply (next_grow _ _ _ _ ids); by rewrite ?length_map.
  - eapply t_bind; [apply t_settle|]. intros []. apply t_ret. intros db fl H. eexists. split; [|exact H].
    destruct Hcase as [[Hm [(_ & -> & Hf)|(_ & m & Hst & Hp)]]|[Hm [= -> ->]]]; [|apply Permutation_length in Hp; simpl in Hp; lia|lia].
    apply next_stay; [by rewrite length_map|done|done].
Qed.
End pass.

(** ** The pass over all services *)

(** The secrets of a service open. *)
Definition openable {S} `{!Has SvcDB S, !Has fleet S} (deps : Deps S) (t : Template) : Prop :=
  (forall P, triple (S:=S) P (openEnv deps (t_EnvSealed t) (t_EnvKeyID t)) (fun _ => P)) /\
  (forall P, triple (S:=S) P (openFiles deps (t_FilesSealed t) (t_EnvKeyID t)) (fun _ => P)).

Record healthy (db : SvcDB) (fl : fleet) : Prop := {
  hl_unique : unique_by (fun s => Some (sv_ID s)) (db_services db);
  hl_replicas s : s ∈ db_services db -> 0 <= sv_Replicas s;
  hl_fleet : fleet_ok (db_members db) fl;
}.

Section all.
Context {S : Type} `{!Has SvcDB S, !Has fleet S, !Apart SvcDB fleet S}.
Context (deps : Deps S) (W : Workloads S) `{!Deaf deps} (HW : d_workloads deps = Some W) (Hfleet : Obedient W).

Lemma t_mapped {A} P Q f (m : M S A) : triple P m Q -> triple P (mapped f m) Q.
Proof.
  intros Hm env w Henv HP. apply wp_mapped. eapply wp_mono; [|by apply Hm]. intros r w' (a & -> & Ha). by exists a.
Qed.

Lemma t_states P ids : triple P (StatesOf W ids) (fun states db fl => P db fl /\
  forall i, i ∈ ids -> default "" (states !! i) = default "" (fl !! i)).
Proof.
  intros env w Hclean HP. destruct (deaf_workloads W HW) as (_ & _ & Hdeaf). specialize (Hdeaf ids env w).
  pose proof (ob_states W Hfleet ids env w Hclean) as Hst. unfold wp in *.
  destruct (StatesOf W ids env w) as [r w1]. simpl in Hdeaf. destruct Hst as (Efl & states & -> & Hs).
  exists states. split; [done|]. rewrite Hdeaf, Efl. done.
Qed.

Definition loaded (db : SvcDB) (s : Service) : Service := with_members (members_in (sv_ID s) (db_members db)) s.
Definition by_id : Service -> Service -> bool := by_key sv_ID str_ltb (fun _ _ => false).

Lemma t_load db0 fl0 : triple (S:=S) (fun db fl => db = db0 /\ fl = fl0) all_rows
  (fun l db fl => l = map (loaded db0) (sliceStable by_id (db_services db0)) /\ db = db0 /\ fl = fl0).
Proof.
  unfold all_rows, load. apply (t_bind _ (fun rows db fl => rows = sliceStable by_id (db_services db0) /\ db = db0 /\ fl = fl0)).
  { apply t_query. intros db fl [-> ->]. eauto. }
  intros rows. apply t_pure. intros ->.
  eapply t_conseq; [| |apply (t_foldM (fun done l db fl => l = map (loaded db0) done /\ db = db0 /\ fl = fl0))]; [done|done|].
  intros done s rest l _. apply t_pure. intros ->.
  apply (t_bind _ (fun members db fl => members = members_in (sv_ID s) (db_members db0) /\ db = db0 /\ fl = fl0)).
  - apply t_query. intros db fl [-> ->]. eauto.
  - intros members. apply t_pure. intros ->. apply t_ret. intros db fl H. by rewrite map_app.
Qed.

(** A service as a pass sees it: its row, its members and their states. *)
Definition snapshot (s s' : Service) : Prop := exists members,
  s' = with_members members s /\ map key members = map key (sv_Members s) /\
  Forall (fun m => live (mb_State m)) members.

Lemma members_mine serviceID rows : map key (members_in serviceID rows) ≡ₚ mine serviceID rows.
Proof. unfold members_in, mine, of_service. rewrite sliceStable_perm, map_map. done. Qed.

Lemma loaded_live db0 fl s m : fleet_ok (db_members db0) fl -> m ∈ sv_Members (loaded db0 s) ->
  exists state, fl !! mb_InstanceID m = Some state /\ live state.
Proof.
  intros [_ Hlive] Hm. unfold loaded, members_in in Hm. simpl in Hm. rewrite sliceStable_perm in Hm.
  apply list_elem_of_fmap in Hm as (r & -> & [Hr _]%elem_of_filter_bool). by apply Hlive.
Qed.

Lemma t_withStates db0 fl0 rows : fleet_ok (db_members db0) fl0 ->
  triple (S:=S) (fun db fl => db = db0 /\ fl = fl0) (withStates deps (map (loaded db0) rows))
    (fun l db fl => Forall2 snapshot (map (loaded db0) rows) l /\ db = db0 /\ fl = fl0).
Proof.
  intros Hfl. unfold withStates. rewrite HW. simpl.
  eapply t_conseq; [| |apply (t_foldM (fun done l db fl => Forall2 snapshot done l /\ db = db0 /\ fl = fl0))]; [done|done|].
  intros done s rest l E. apply t_pure. intros Hl.
  assert (Hs : s ∈ map (loaded db0) rows) by (rewrite E; set_solver). apply list_elem_of_fmap in Hs as (s0 & -> & _).
  assert (Hok : forall s', snapshot (loaded db0 s0) s' -> Forall2 snapshot (done ++ [loaded db0 s0]) (l ++ [s'])).
  { intros s' Hs'. apply Forall2_app; [done|]. by constructor. }
  destruct (sv_Members (loaded db0 s0)) as [|m ms] eqn:Em.
  { apply t_ret. intros db fl H. split; [|done]. apply Hok. exists []. rewrite Em. split_and!; [|done|constructor].
    rewrite <- Em. by destruct s0. }
  eapply t_bind; [apply t_states|]. intros states. apply (t_pre _ (fun db fl => (forall i, i ∈ map mb_InstanceID (m :: ms) ->
    default "" (states !! i) = default "" (fl0 !! i)) /\ db = db0 /\ fl = fl0)); [naive_solver|].
  apply t_pure. intros Hst. apply t_ret. intros db fl H. split; [|done]. apply Hok.
  exists (map (fun m => with_state (default "" (states !! mb_InstanceID m)) m) (m :: ms)). rewrite Em. split_and!; [done| |].
  - rewrite map_map. by apply map_ext.
  - apply Forall_forall. intros m' (m0 & -> & Hm0)%list_elem_of_fmap. simpl.
    rewrite Hst by (by apply list_elem_of_fmap_2). rewrite <- Em in Hm0.
    by destruct (loaded_live db0 fl0 s0 m0 Hfl Hm0) as (state & -> & Hlive).
Qed.

(** The services that had their turn took a step, the others stand as they were. *)
Record turned (db0 : SvcDB) (done : list Service) (db : SvcDB) (fl : fleet) : Prop := {
  tn_core : map core (db_services db) = map core (db_services db0);
  tn_fleet : fleet_ok (db_members db) fl;
  tn_done s : s ∈ done -> next (sv_Replicas s) (sv_Revision s) (mine (sv_ID s) (db_members db0)) (mine (sv_ID s) (db_members db));
  tn_rest i : (forall s, s ∈ done -> sv_ID s <> i) -> mine i (db_members db) = mine i (db_members db0);
}.

Lemma next_perm R revision ks ks1 ks' ks1' : ks ≡ₚ ks1 -> ks' ≡ₚ ks1' -> next R revision ks ks' -> next R revision ks1 ks1'.
Proof.
  intros E E' [kept dropped H1 H2 H3 H4 H5|ids H1 H2 H3|id k rest H1 H2 H3 H4|H1 H2 H3]; pose proof (Permutation_length E) as El.
  - apply (next_shrink _ _ _ _ kept dropped); [by rewrite <- El|by rewrite <- E|done|by rewrite <- E'|done].
  - apply (next_grow _ _ _ _ ids); [by rewrite <- El|by rewrite <- El|by rewrite <- E', <- E].
  - apply (next_roll _ _ _ _ id k rest); [by rewrite <- El|by rewrite <- E|done|by rewrite <- E'].
  - apply next_stay; [by rewrite <- El|by rewrite <- E|by rewrite <- E', <- E].
Qed.

Lemma t_turn db0 done s s' : 0 <= sv_Replicas s -> openable deps (sv_Template s) ->
  (forall x, x ∈ done -> sv_ID x <> sv_ID s) -> snapshot (loaded db0 s) s' ->
  triple (turned db0 done) (attempt (reconcileOne deps W s')) (fun r db fl => (exists n, r = Ok n) /\ turned db0 (done ++ [s]) db fl).
Proof.
  intros HR [He Hf] Hnew (ms & -> & Hkeys & Hlive). set (snap := with_members ms (loaded db0 s)).
  apply (t_pre _ (fun db fl => exists base, (map core (db_services base) = map core (db_services db0) /\
    (forall x, x ∈ done -> next (sv_Replicas x) (sv_Revision x) (mine (sv_ID x) (db_members db0)) (mine (sv_ID x) (db_members base))) /\
    (forall i, (forall x, x ∈ done -> sv_ID x <> i) -> mine i (db_members base) = mine i (db_members db0))) /\
    stand base (sv_ID s) (map key ms) db fl)).
  { intros db fl [Hc Hfl Hd Hr]. exists db. split; [done|]. split; [done|done|done|].
    rewrite (Hr _ Hnew), Hkeys. symmetry. apply members_mine. }
  apply t_ex. intros base. apply t_pure. intros (Hcore & Hd & Hr).
  pose proof (t_attempt _ _ _ (t_one deps W HW Hfleet base snap HR He Hf Hlive)) as H.
  eapply t_conseq; [| |exact H]; [done|]. intros r db fl (n & -> & ks & Hnext & [Hs Ho Hfl Hm]).
  change (sv_ID snap) with (sv_ID s) in *. split; [eauto|]. split.
  - by rewrite Hs.
  - done.
  - intros x [Hx| ->%list_elem_of_singleton]%elem_of_app.
    + rewrite <- (mine_others (sv_ID s) (sv_ID x) (db_members db)), Ho, mine_others by (by apply Hnew). by apply Hd.
    + simpl in *. eapply next_perm; [| |exact Hnext]; [rewrite Hkeys; apply members_mine|by symmetry].
  - intros i Hi. assert (sv_ID s <> i) by (apply Hi; set_solver).
    rewrite <- (mine_others (sv_ID s) i (db_members db)), Ho, mine_others by done. apply Hr. intros x Hx. apply Hi. set_solver.
Qed.

Lemma t_reconcile db0 fl0 : healthy db0 fl0 -> (forall s, s ∈ db_services db0 -> openable deps (sv_Template s)) ->
  triple (fun db fl => db = db0 /\ fl = fl0) (reconcile deps) (fun _ => turned db0 (sliceStable by_id (db_services db0))).
Proof.
  intros [Hu HR Hfl] Hopen. unfold reconcile. rewrite HW. simpl. set (rows := sliceStable by_id (db_services db0)).
  eapply t_bind; [apply t_mapped, t_load|]. intros l. apply t_pure. intros ->. fold rows.
  eapply t_bind; [by apply t_withStates|]. intros l. apply t_pure. intros Hl.
  assert (Hids : NoDup (map sv_ID rows)).
  { unfold rows. rewrite sliceStable_perm. unfold unique_by in Hu. by rewrite omap_total in Hu. }
  assert (Hlen : length l = length rows) by (apply Forall2_length in Hl; by rewrite length_map in Hl).
  apply (t_conseq _ (turned db0 (take (length (@nil Service)) rows)) _ (fun _ => turned db0 (take (length l) rows)));
    [|intros n db fl H; by rewrite Hlen, firstn_all in H|].
  { intros db fl [-> ->]. split; [done|done|set_solver|done]. }
  apply (t_foldM (fun done _ => turned db0 (take (length done) rows))).
  intros done s' rest counts El.
  assert (Hat : l !! length done = Some s') by (rewrite El; by apply list_lookup_middle).
  destruct (Forall2_lookup_r _ _ _ _ _ Hl Hat) as (ls & Hls & Hsnap).
  rewrite list_lookup_fmap in Hls. destruct (rows !! length done) as [s|] eqn:Hs; [|done]. injection Hls as <-.
  assert (Hin : s ∈ db_services db0).
  { apply list_elem_of_lookup_2 in Hs. unfold rows in Hs. by rewrite sliceStable_perm in Hs. }
  assert (Hnew : forall x, x ∈ take (length done) rows -> sv_ID x <> sv_ID s).
  { intros x Hx E. rewrite <- (take_drop_middle rows (length done) s Hs), map_app in Hids. simpl in Hids.
    rewrite <- Permutation_middle in Hids. apply NoDup_cons in Hids as [Hn _]. apply Hn. apply elem_of_app. left.
    rewrite <- E. by apply list_elem_of_fmap_2. }
  rewrite length_app. simpl. rewrite Nat.add_1_r, (take_S_r _ _ _ Hs).
  eapply t_bind; [by apply t_turn; [apply HR|apply Hopen|..]|]. intros r. apply t_pure. intros [n ->]. by apply t_ret.
Qed.
End all.

(** * Passes in a row *)

Section passes.
Context {S : Type} `{!Has SvcDB S, !Has fleet S, !Apart SvcDB fleet S}.
Context (deps : Deps S) (W : Workloads S) `{!Deaf deps} (HW : d_workloads deps = Some W) (Hfleet : Obedient W).
Abbreviation db_ w := (part (T:=SvcDB) w).
Abbreviation fleet_ w := (part (T:=fleet) w).
Implicit Types (w : World S).

Lemma healthy_core db0 db fl : map core (db_services db) = map core (db_services db0) -> fleet_ok (db_members db) fl ->
  forall fl0, healthy db0 fl0 -> healthy db fl.
Proof.
  intros Hc Hfl fl0 [Hu HR _].
  assert (Hids : forall A (f : _ -> A), map (fun s => f (core s)) (db_services db) = map (fun s => f (core s)) (db_services db0))
    by (intros A f; rewrite <- !(map_map core f); by rewrite Hc).
  split; [|intros s Hs|done].
  - unfold unique_by in *. rewrite !omap_total in *. assert (E : map sv_ID (db_services db) = map sv_ID (db_services db0)) by exact (Hids _ (fun c => c.1.1.1.1.1)). by rewrite E.
  - assert (Hin : core s ∈ map core (db_services db0)) by (rewrite <- Hc; by apply list_elem_of_fmap_2).
    apply list_elem_of_fmap in Hin as (s0 & E & Hs0). unfold core in E. injection E as _ _ _ -> _ _. by apply HR.
Qed.

(** What a pass does to every service. *)
Definition stepped (db db' : SvcDB) : Prop := forall s, s ∈ db_services db ->
  next (sv_Replicas s) (sv_Revision s) (mine (sv_ID s) (db_members db)) (mine (sv_ID s) (db_members db')).
Definition all_openable (db : SvcDB) : Prop := forall s, s ∈ db_services db -> openable deps (sv_Template s).

Lemma reconcile_spec env w : clean env -> healthy (db_ w) (fleet_ w) -> all_openable (db_ w) ->
  wp env (reconcile deps) (fun r w' => (exists n, r = Ok n) /\ healthy (db_ w') (fleet_ w') /\
    map core (db_services (db_ w')) = map core (db_services (db_ w)) /\ stepped (db_ w) (db_ w')) w.
Proof.
  intros Hclean Hh Hopen. eapply wp_mono; [|by apply (t_reconcile deps W HW Hfleet (db_ w) (fleet_ w) Hh Hopen)].
  intros r w' (n & -> & [Hc Hfl Hd _]). split; [eauto|]. split; [by eapply healthy_core|]. split; [done|].
  intros s Hs. apply Hd. by rewrite sliceStable_perm.
Qed.

(** [n] passes; between two of them the instances may go from any well state to any other,
    and the rest of the control plane may do what it likes but to the services. *)
Inductive passes : nat -> World S -> World S -> Prop :=
| passes_O w : passes O w w
| passes_S n env w w1 w' : clean env -> db_ w1 = db_ (snd (reconcile deps env w)) ->
    fleet_ok (db_members (db_ w1)) (fleet_ w1) -> passes n w1 w' -> passes (Datatypes.S n) w w'.

Lemma same_core s db db' : map core (db_services db') = map core (db_services db) -> s ∈ db_services db ->
  exists s', s' ∈ db_services db' /\ core s' = core s.
Proof.
  intros E Hs. assert (Hin : core s ∈ map core (db_services db')) by (rewrite E; by apply list_elem_of_fmap_2).
  apply list_elem_of_fmap in Hin as (s' & ? & ?). eauto.
Qed.

Lemma core_openable db db' : map core (db_services db') = map core (db_services db) -> all_openable db -> all_openable db'.
Proof.
  intros E Ho s Hs. symmetry in E. destruct (same_core _ _ _ E Hs) as (s0 & Hs0 & Ec).
  unfold core in Ec. injection Ec as _ _ _ _ _ Et. rewrite <- Et. by apply Ho.
Qed.

Lemma passes_progress n w w' : passes n w w' -> healthy (db_ w) (fleet_ w) -> all_openable (db_ w) ->
  map core (db_services (db_ w')) = map core (db_services (db_ w)) /\
  forall s, s ∈ db_services (db_ w) -> let ks := mine (sv_ID s) (db_members (db_ w)) in
    let ks' := mine (sv_ID s) (db_members (db_ w')) in
    distance (sv_Replicas s) (sv_Revision s) ks' <= Z.max 0 (distance (sv_Replicas s) (sv_Revision s) ks - Z.of_nat n) /\
    Z.min (sv_Replicas s) (len ks) <= len ks'.
Proof.
  intros Hp. induction Hp as [w|n env w w1 w' Hclean Hdb Hfl Hp IH]; intros Hh Hopen.
  { split; [done|]. intros s Hs ks ks'. subst ks ks'.
    pose proof (distance_nonneg (sv_Replicas s) (sv_Revision s) (mine (sv_ID s) (db_members (db_ w)))). lia. }
  pose proof (reconcile_spec env w Hclean Hh Hopen) as Hspec. unfold wp in Hspec.
  destruct (reconcile deps env w) as [r w2]. destruct Hspec as (_ & Hh2 & Hc & Hst). simpl in Hdb. rewrite <- Hdb in *.
  destruct IH as [Hc' IH]; [destruct Hh2; by constructor|by eapply core_openable|].
  split; [by rewrite Hc'|]. intros s Hs ks ks'. destruct (same_core _ _ _ Hc Hs) as (s1 & Hs1 & Ec).
  unfold core in Ec. injection Ec as Ei _ _ ER Erev _. specialize (IH s1 Hs1). rewrite Ei, ER, Erev in IH.
  pose proof (next_progress _ _ _ _ (hl_replicas _ _ Hh s Hs) (Hst s Hs)) as [Hd Hn]. subst ks ks'.
  destruct IH as [IH1 IH2]. split; lia.
Qed.

Lemma passes_exist n w : healthy (db_ w) (fleet_ w) -> all_openable (db_ w) -> forall env, clean env -> exists w', passes n w w'.
Proof.
  revert w. induction n as [|n IH]; intros w Hh Hopen env Hclean; [exists w; constructor|].
  pose proof (reconcile_spec env w Hclean Hh Hopen) as Hspec. unfold wp in Hspec.
  destruct (reconcile deps env w) as [r w1] eqn:E. destruct Hspec as (_ & Hh1 & Hc & _).
  destruct (IH w1 Hh1 (core_openable _ _ Hc Hopen) env Hclean) as [w' Hp]. exists w'.
  apply (passes_S n env w w1 w'); [done|by rewrite E|apply Hh1|done].
Qed.
End passes.

(** * Properties *)

(** C15: [reconcile_refines]: while nothing fails, a pass over all services (tables, members,
    states, loops and calls) refines the abstract machine: it returns without an error, and
    takes every service one step: over its count to exactly its count, the outdated replicas
    going first; short of it, up to four new replicas of the published revision; at its
    count, one outdated replica against one of the published revision; else nothing.  Ids,
    counts, revisions and templates stay, and every member is a living instance again. *)
Theorem reconcile_refines {S} `{!Has SvcDB S, !Has fleet S, !Apart SvcDB fleet S} (deps : Deps S) (W : Workloads S)
    (Hdeaf : Deaf deps) (HW : d_workloads deps = Some W) (Hfleet : Obedient W) env (w : World S)
    (Hclean : clean env) (Hh : healthy (part w) (part w)) (Hopen : all_openable deps (part w)) :
  let '(r, w') := reconcile deps env w in
  (exists counts, r = Ok counts) /\ healthy (part w') (part w') /\
  map core (db_services (part w')) = map core (db_services (part w)) /\ stepped (part w) (part w').
Proof.
  pose proof (reconcile_spec deps W HW Hfleet env w Hclean Hh Hopen) as H. unfold wp in H.
  by destruct (reconcile deps env w).
Qed.

(** C16: [rollout_converges]: a rollout comes to its end.  However the instances change between
    the passes, as long as they are there and do not fail, and nothing else fails: after as
    many passes as [distance] says (one if there are replicas too many, one for every four
    that are missing, one for every outdated replica) every service has exactly its count
    of replicas, all of its published revision; and at the end of no number of passes it has
    fewer replicas than it had, or than its count. *)
Theorem rollout_converges {S} `{!Has SvcDB S, !Has fleet S, !Apart SvcDB fleet S} (deps : Deps S) (W : Workloads S)
    (Hdeaf : Deaf deps) (HW : d_workloads deps = Some W) (Hfleet : Obedient W) n (w w' : World S)
    (Hh : healthy (part w) (part w)) (Hopen : all_openable deps (part w)) (Hp : passes deps n w w') s
    (Hs : s ∈ db_services (part w)) :
  let ks := mine (sv_ID s) (db_members (part w)) in let ks' := mine (sv_ID s) (db_members (part w')) in
  Z.min (sv_Replicas s) (len ks) <= len ks' /\
  (distance (sv_Replicas s) (sv_Revision s) ks <= Z.of_nat n ->
   len ks' = sv_Replicas s /\ Forall (fun k => snd k = sv_Revision s) ks').
Proof.
  destruct (passes_progress deps W HW Hfleet n w w' Hp Hh Hopen) as [_ H]. destruct (H s Hs) as [Hd Hn].
  split; [done|]. intros Hdist. pose proof (distance_nonneg (sv_Replicas s) (sv_Revision s) (mine (sv_ID s) (db_members (part w')))).
  destruct (proj1 (distance_zero _ (sv_Revision s) (mine (sv_ID s) (db_members (part w'))) (hl_replicas _ _ Hh s Hs))) as [Hlen Hf]; [lia|].
  split; [done|]. eapply Forall_impl; [exact Hf|]. intros k Hk. unfold stale in Hk. by breflect.
Qed.

Module Calm.
Definition state : Type := SvcDB * fleet.
#[local] Existing Instance Has_fst.
#[local] Existing Instance Has_snd.
#[local] Existing Instance Apart_pair.
Definition with_fleet (fl : fleet) (w : World state) : World state := with_st w (fst (w_st w), fl).
(** A fleet on which everything works at once. *)
Definition workloads : Workloads state := {|
  CreateWorkload wl := fun _ w => let fl := snd (w_st w) in
    let id := fresh (elements (dom fl)) in (Ok id, with_fleet (<[id:="running"]> fl) w);
  DeleteWorkload p i := fun _ w => (Ok tt, with_fleet (base.delete i (snd (w_st w))) w);
  StatesOf ids := fun _ w => (Ok (snd (w_st w)), w) |}.
Definition deps : Deps state := {|
  d_workloads := Some workloads; d_networks := None; d_firewalls := None; d_sealing := None; d_events := true |}.
(** Two outdated replicas of three. *)
Definition rolling : Service := MkService "svc-1" "prj-1" "web" 3 2 Demo.template [] 0 "" 0 0.
Definition db : SvcDB := MkSvcDB [rolling] [("svc-1", Demo.member "i-1" 1 ""); ("svc-1", Demo.member "i-2" 1 "")].
Definition world : World state := MkWorld (db, {["i-1" := "running"; "i-2" := "stopped"]}) O [].

Lemma obedient : Obedient (Has0:=Has_snd _ _) workloads.
Proof.
  split.
  - intros wl env w _. eexists _, "running". split; [reflexivity|]. split; [|split; [done|reflexivity]].
    apply not_elem_of_dom. intros H. apply elem_of_elements in H. by apply infinite_is_fresh in H.
  - intros p i env w _ _. done.
  - intros ids env w _. split; [done|]. eexists. split; [reflexivity|done].
Qed.
Lemma calm_deaf : Deaf (Has0:=Has_fst _ _) deps.
Proof. split; try (intros x [=]; fail). intros x [= <-]. split_and!; by intros. Qed.
Lemma well : healthy db {["i-1" := "running"; "i-2" := "stopped"]}.
Proof.
  split.
  - unfold unique_by; simpl. by repeat constructor; set_solver.
  - by intros s ->%list_elem_of_singleton.
  - split; [simpl; by repeat constructor; set_solver|]. intros r Hr. unfold db in Hr. simpl in Hr. rewrite !elem_of_cons in Hr.
    destruct Hr as [->|[->|Hr%not_elem_of_nil]]; [eexists; split; [reflexivity|done]..|done].
Qed.
Lemma opens : all_openable (Has0:=Has_fst _ _) (Has1:=Has_snd _ _) deps db.
Proof.
  intros s ->%list_elem_of_singleton. split; intros P; by apply (t_ret (Has0:=Has_fst _ _) (Has1:=Has_snd _ _)).
Qed.
Lemma clean_env : clean Demo.env.
Proof. by intros n. Qed.
End Calm.

Lemma reconcile_refines_witness :
  exists counts w', reconcile (Has0:=Has_fst _ _) Calm.deps Demo.env Calm.world = (Ok counts, w') /\
  stepped Calm.db (fst (w_st w')).
Proof.
  pose proof (reconcile_refines (Has0:=Has_fst _ _) (Has1:=Has_snd _ _) (Apart0:=Apart_pair _ _) Calm.deps Calm.workloads Calm.calm_deaf
    eq_refl Calm.obedient Demo.env Calm.world Calm.clean_env Calm.well Calm.opens) as H.
  destruct (reconcile _ _ _) as [r w']. destruct H as ([counts ->] & _ & _ & Hst).
  exists counts, w'. split; [reflexivity|exact Hst].
Defined.

(** Three passes: one for the replica that is missing, one for each outdated one. *)
Lemma rollout_converges_witness :
  exists w', passes (Has0:=Has_fst _ _) (Has1:=Has_snd _ _) Calm.deps 3 Calm.world w' /\
  len (mine "svc-1" (db_members (fst (w_st w')))) = 3 /\
  Forall (fun k => snd k = 2) (mine "svc-1" (db_members (fst (w_st w')))).
Proof.
  destruct (passes_exist (Has0:=Has_fst _ _) (Has1:=Has_snd _ _) (Apart0:=Apart_pair _ _) Calm.deps Calm.workloads (Deaf0:=Calm.calm_deaf)
    eq_refl Calm.obedient 3 Calm.world Calm.well Calm.opens Demo.env Calm.clean_env) as [w' Hp].
  exists w'. split; [exact Hp|].
  assert (Hin : Calm.rolling ∈ db_services Calm.db) by (apply list_elem_of_singleton; reflexivity).
  apply (proj2 (rollout_converges (Has0:=Has_fst _ _) (Has1:=Has_snd _ _) (Apart0:=Apart_pair _ _) Calm.deps Calm.workloads Calm.calm_deaf
    eq_refl Calm.obedient 3 Calm.world w' Calm.well Calm.opens Hp Calm.rolling Hin)).
  vm_compute. discriminate.
Defined.
