(* ===== verification/AgentViews.v ===== *)
(** The data a node's agent works with: what the control plane's API answers
    (internal/agent/client.go) and what the runtimes and the datapath are handed
    (internal/workload), with their interfaces. *)
From stdpp Require Import base tactics numbers strings list gmap.
From Stdlib Require Import ZArith.
From S2P Require Import Prelude GoLang Effects Float64.

(** * What the control plane answers (agent/client.go) *)

(* go: agent/client.go nodeView *)
Record nodeView := MkNodeView { no_ID : string; no_Name : string; no_Zone : string; no_Address : string; no_Status : string }.
(* go: agent/client.go fileView *)
Record fileView := MkFileView { fv_Path : string; fv_Content : string; fv_Mode : string }.
(* go: agent/client.go instanceView *)
Record instanceView := MkInstanceView {
  iv_DeviceAddress : string; iv_ID : string; iv_Name : string; iv_Isolation : string; iv_Image : string;
  iv_ISO : string; iv_Kernel : string; iv_FirewallID : string; iv_DiskGiB : Z; iv_Command : list string;
  iv_VCPU : Z; iv_MemoryMiB : Z; iv_RestartPolicy : string; iv_RestartCount : Z; iv_SSHKeys : list string;
  iv_Env : gmap string string; iv_Files : list fileView; iv_DesiredState : string; iv_ObservedState : string;
  iv_ObservedMessage : string; iv_ExitCode : option Z; iv_Migrating : bool; iv_DiskParked : bool;
}.
(* go: agent/client.go nicView *)
Record nicView := MkNicView { nv_InstanceID : string; nv_Device : Z; nv_IP : string; nv_IP6 : string; nv_MAC : string }.
(* go: agent/client.go peerView *)
Record peerView := MkPeerView { pv_NodeID : string; pv_Slice : string }.
(* go: agent/client.go networkView *)
Record networkView := MkNetworkView {
  nw_NetworkID : string; nw_Name : string; nw_Bridge : string; nw_CIDR : string; nw_Gateway : string; nw_CIDR6 : string;
  nw_Gateway6 : string; nw_Slice : string; nw_Slice6 : string; nw_NICs : list nicView; nw_Peers : list peerView;
}.
(* go: agent/client.go dnsRecordView *)
Record dnsRecordView := MkDnsRecordView { dr_FQDN : string; dr_IP : string }.
(* go: agent/client.go snapshotView *)
Record snapshotView := MkSnapshotView { sn_Name : string; sn_State : string }.
(* go: agent/client.go volumeView *)
Record volumeView := MkVolumeView {
  vv_ID : string; vv_Name : string; vv_SizeGiB : Z; vv_InstanceID : string; vv_RestoreFrom : string; vv_BackupID : string;
  vv_CloneFrom : string; vv_CloneSnap : string; vv_Detaching : bool; vv_Encrypted : bool; vv_Snapshots : list snapshotView;
}.
(* go: agent/client.go forwardView *)
Record forwardView := MkForwardView {
  fw_ID : string; fw_InstanceID : string; fw_Protocol : string; fw_NodePort : Z; fw_TargetPort : Z; fw_Address : string;
  fw_Certificate : string; fw_PrivateKey : string;
}.
(* go: agent/client.go forwardView.terminatesTLS *)
Definition forward_terminatesTLS (f : forwardView) : bool :=
  negb (is_empty (fw_Certificate f)) && negb (is_empty (fw_PrivateKey f)).
(* go: agent/client.go firewallRuleView *)
Record firewallRuleView := MkFirewallRuleView { fr_Protocol : string; fr_FromPort : Z; fr_ToPort : Z; fr_Source : string }.
(* go: agent/client.go firewallView *)
Record firewallView := MkFirewallView { fi_ID : string; fi_Name : string; fi_Rules : list firewallRuleView }.
(* go: agent/client.go balancerBackendView *)
Record balancerBackendView := MkBackendView { bb_InstanceID : string; bb_Address : string; bb_Healthy : bool }.
(* go: agent/client.go balancerRouteView *)
Record balancerRouteView := MkRouteView { br_Host : string; br_Path : string; br_Service : string; br_Backends : list balancerBackendView }.
(* go: agent/client.go balancerView *)
Record balancerView := MkBalancerView {
  bv_ID : string; bv_Name : string; bv_Protocol : string; bv_ListenPort : Z; bv_TargetPort : Z; bv_Algorithm : string;
  bv_Check : string; bv_CheckPath : string; bv_Rise : Z; bv_Fall : Z; bv_Backends : list balancerBackendView;
  bv_Routes : list balancerRouteView; bv_Certificate : string; bv_PrivateKey : string;
}.
(* go: agent/client.go balancerView.terminatesTLS *)
Definition balancer_terminatesTLS (b : balancerView) : bool :=
  negb (is_empty (bv_Certificate b)) && negb (is_empty (bv_PrivateKey b)).
(* go: agent/client.go balancerView.runsInUserspace *)
Definition runsInUserspace (b : balancerView) : bool := balancer_terminatesTLS b || (0 <? len (bv_Routes b)).
(* go: agent/client.go healthReportBody *)
Record healthReportBody := MkHealthReport { hr_BalancerID : string; hr_InstanceID : string; hr_Healthy : bool; hr_Reason : string }.
(** The desired state as it was read, and as it is kept on disk. *)
(* go: agent/cache.go cachedState *)
Record cachedState := MkCached {
  ca_NodeID : string; ca_SavedAt : Z; ca_Instances : list instanceView; ca_Networks : list networkView;
  ca_Records : list dnsRecordView; ca_Nodes : list nodeView; ca_Volumes : list volumeView;
  ca_Forwards : list forwardView; ca_Balancers : list balancerView; ca_Firewalls : list firewallView;
}.
Definition with_instances (l : list instanceView) (c : cachedState) : cachedState :=
  MkCached (ca_NodeID c) (ca_SavedAt c) l (ca_Networks c) (ca_Records c) (ca_Nodes c) (ca_Volumes c) (ca_Forwards c)
    (ca_Balancers c) (ca_Firewalls c).

(** * What the node is handed (workload/workload.go) *)

Definition PhaseAbsent : string := "absent".
Definition PhaseRunning : string := "running".
Definition PhaseExited : string := "exited".
Definition PhaseFailed : string := "failed".
Definition ErrUnstartable : string := "this workload can never start as it is configured".

(* go: workload/workload.go NetworkConfig *)
Record NetworkConfig := MkNetworkConfig {
  nc_Bridge : string; nc_BridgeAddr : string; nc_BridgeAddr6 : string; nc_IP : string; nc_Prefix : Z; nc_Gateway : string;
  nc_IP6 : string; nc_Prefix6 : Z; nc_Gateway6 : string; nc_MAC : string; nc_Nameserver : string; nc_SearchDomain : string;
}.
(* go: workload/workload.go Disk *)
Record Disk := MkDisk { dk_ID : string; dk_Name : string; dk_SizeGiB : Z; dk_KeyFile : string }.
(* go: workload/workload.go FileDrop *)
Record FileDrop := MkFileDrop { fd_Path : string; fd_Content : list Z; fd_Mode : Z }.
(* go: workload/workload.go Spec *)
Record Spec := MkSpec {
  sp_DeviceAddress : string; sp_InstanceID : string; sp_Name : string; sp_Isolation : string; sp_Image : string;
  sp_ISO : string; sp_Kernel : string; sp_DiskGiB : Z; sp_Volumes : list Disk; sp_Command : list string; sp_VCPU : Z;
  sp_MemoryMiB : Z; sp_SSHKeys : list string; sp_Env : gmap string string; sp_Files : list FileDrop;
  sp_Network : option NetworkConfig; sp_Extra : list NetworkConfig;
}.
(* go: workload/workload.go State *)
Record State := MkState { st_Phase : string; st_Message : string; st_ExitCode : Z }.
(* go: workload/workload.go Route *)
Record Route := MkRoute { ro_Slice : string; ro_Via : string }.
(* go: workload/workload.go Keep *)
Record Keep := MkKeep { ke_Bridges : list string; ke_Instances : list string }.
(* go: workload/workload.go Filter *)
Record Filter := MkFilter {
  fl_InstanceID : string; fl_Isolation : string; fl_Bridge : string; fl_IP : string; fl_IP6 : string; fl_MAC : string; fl_Device : Z;
}.
(* go: workload/workload.go Publish *)
Record Publish := MkPublish {
  pu_Protocol : string; pu_NodePort : Z; pu_TargetPort : Z; pu_Address : string; pu_Targets : list string; pu_Algorithm : string;
}.
(* go: workload/workload.go GuardRule *)
Record GuardRule := MkGuardRule { gr_Protocol : string; gr_FromPort : Z; gr_ToPort : Z; gr_Source : string }.
(* go: workload/workload.go Guard *)
Record Guard := MkGuard { gu_InstanceID : string; gu_Isolation : string; gu_IP : string; gu_Rules : list GuardRule }.
(* go: workload/workload.go Egress *)
Record Egress := MkEgress { eg_Bridge : string; eg_Gateway : string; eg_Gateway6 : string }.

(* go: workload/workload.go SnapshotPlan *)
Record SnapshotPlan := MkSnapshotPlan { sl_VolumeID : string; sl_Wanted : list string; sl_RestoreTo : string; sl_KeyFile : string }.
(* go: workload/workload.go SnapshotFile *)
Record SnapshotFile := MkSnapshotFile { sf_Name : string; sf_Bytes : Z }.
(* go: workload/workload.go SnapshotState *)
Record SnapshotState := MkSnapshotState { ss_VolumeID : string; ss_Present : list SnapshotFile; ss_Restored : string; ss_Error : string }.
(* go: workload/workload.go GrowPlan *)
Record GrowPlan := MkGrowPlan { gp_VolumeID : string; gp_SizeGiB : Z; gp_KeyFile : string }.
(* go: workload/workload.go Released *)
Record Released := MkReleased { rl_VolumeID : string; rl_Gone : bool; rl_Reason : string }.
(* go: workload/workload.go RegistryCredential *)
Record RegistryCredential := MkCredential { rc_Host : string; rc_Username : string; rc_Password : string }.

(** ** What is reported *)

(* go: agent/client.go reportedSnapshotBody *)
Record reportedSnapshotBody := MkReportedSnapshot { rb_Name : string; rb_SizeBytes : Z }.
(* go: agent/client.go reportedVolumeBody *)
Record reportedVolumeBody := MkReportedVolume {
  rv_VolumeID : string; rv_Detached : bool; rv_Snapshots : list reportedSnapshotBody; rv_Restored : string; rv_Error : string;
}.
(* go: agent/client.go backupView *)
Record backupView := MkBackupView { bk_ID : string; bk_VolumeID : string; bk_Name : string; bk_State : string }.
(* go: agent/client.go transferView *)
Record transferView := MkTransfer { tv_Direct : bool; tv_URL : string; tv_Key : string; tv_ExpiresAt : string }.
(* go: agent/client.go uploadedBody *)
Record uploadedBody := MkUploaded { ub_SizeBytes : Z; ub_Checksum : string }.
(* go: agent/client.go imageView *)
Record imageView := MkImageView { im_ID : string; im_Name : string; im_Kind : string; im_Arch : string; im_Source : string; im_Checksum : string }.
(* go: agent/client.go instanceUsageBody *)
Record instanceUsageBody := MkInstanceUsage { iu_InstanceID : string; iu_CPUPercent : float64; iu_MemoryUsedMiB : Z }.
(* go: agent/client.go usageBody *)
Record usageBody := MkUsage { us_CPUPercent : float64; us_MemoryUsedMiB : Z; us_MemoryMiB : Z; us_Instances : list instanceUsageBody }.
(* go: agent/client.go stagedImageBody *)
Record stagedImageBody := MkStaged { si_ImageID : string; si_SizeBytes : Z }.
(* go: agent/client.go deviceBody *)
Record deviceBody := MkDevice { de_Address : string; de_Kind : string; de_Vendor : string; de_Product : string; de_Driver : string; de_Ready : bool }.
(* go: agent/client.go registryView *)
Record registryView := MkRegistryView { ry_Host : string; ry_Username : string; ry_Password : string }.
(* go: agent/client.go acmeChallengeView *)
Record acmeChallengeView := MkChallenge { ac_Token : string; ac_Authorization : string }.

Section interfaces.
Context (S : Type).
(** ** What a runtime may be able to do; a stream of bytes is its contents. *)

(* go: workload/workload.go VolumeKeeper *)
Record VolumeKeeper := {
  PruneVolumes : list string -> M S unit;
  SyncSnapshots : list SnapshotPlan -> M S (list SnapshotState);
  GrowVolume : GrowPlan -> M S unit;
}.
(* go: workload/workload.go VolumeArchiver *)
Record VolumeArchiver := {
  ar_HasVolume : string -> M S bool;
  ExportVolume : string -> string -> M S (list Z);
  ImportVolume : string -> list Z -> M S unit;
}.
(* go: workload/workload.go VolumeCloner *)
Record VolumeCloner := {
  cl_HasVolume : string -> M S bool;
  CloneVolume : string -> string -> string -> M S unit;
}.
(* go: workload/workload.go DiskCarrier *)
Record DiskCarrier := {
  HasDisk : string -> M S bool;
  ExportDisk : string -> M S (list Z);
  ImportDisk : string -> list Z -> M S unit;
  Forget : string -> M S unit;
}.
(** A runtime, with the optional interfaces it is asked for ([resizer] and [registryAuthority]
    are those of agent/reconcile.go). *)
(* go: workload/workload.go Runtime *)
Record Runtime := {
  rt_List : M S (list string);
  rt_Start : Spec -> M S unit;
  rt_Stop : string -> M S unit;
  rt_Status : string -> M S State;
  rt_Remove : string -> M S unit;
  rt_Resize : option (string -> Z -> Z -> M S unit);
  rt_Keeper : option VolumeKeeper;
  rt_Archiver : option VolumeArchiver;
  rt_Cloner : option VolumeCloner;
  rt_Carrier : option DiskCarrier;
  rt_SyncDisks : option (string -> list Disk -> M S Z);
  rt_ReleaseDisks : option (string -> list Disk -> list Disk -> M S (list Released));
  rt_Sample : option (string -> M S (option (float64 * Z)));
  rt_LogPath : option (string -> M S (option string));
  rt_UseCredentials : option (list RegistryCredential -> M S unit);
}.
(** The calls of the agent's HTTP client.  Every one may fail. *)
(* go: agent/client.go client *)
Record Client := {
  c_assignedInstances : string -> M S (list instanceView);
  c_nodeNetworks : string -> M S (list networkView);
  c_dnsRecords : M S (list dnsRecordView);
  c_nodes : M S (list nodeView);
  c_volumes : string -> M S (list volumeView);
  c_forwards : string -> M S (list forwardView);
  c_balancers : string -> M S (list balancerView);
  c_firewalls : string -> M S (list firewallView);
  c_images : string -> M S (list imageView);
  c_registries : string -> M S (list registryView);
  c_challenges : string -> M S (list acmeChallengeView);
  c_pendingBackups : string -> M S (list backupView);
  c_volumeKey : string -> string -> M S string;
  c_backupTransfer : string -> string -> string -> M S transferView;
  c_fetchBackup : string -> string -> M S (list Z);
  c_takeDisk : string -> string -> M S (list Z);
  c_parkDisk : string -> string -> list Z -> M S unit;
  c_diskLanded : string -> string -> M S unit;
  c_uploadBackup : string -> string -> list Z -> M S unit;
  c_reportUploaded : string -> string -> uploadedBody -> M S unit;
  c_failBackup : string -> string -> string -> M S unit;
  c_reportStatus : string -> string -> string -> string -> Z -> option Z -> M S unit;
  c_reportVolumes : string -> list reportedVolumeBody -> M S unit;
  c_reportHealth : string -> list healthReportBody -> M S unit;
  c_reportUsage : string -> usageBody -> M S unit;
  c_reportLogs : string -> string -> list string -> M S unit;
  c_reportImages : string -> list stagedImageBody -> M S unit;
  c_reportDevices : string -> list deviceBody -> M S unit;
}.
(* go: workload/workload.go Resolver *)
Record Resolver := {
  rs_Listen : string -> M S unit;
  rs_Update : gmap string (list string) -> M S unit;
}.
(* go: workload/workload.go Datapath *)
Record Datapath := {
  ApplyEgress : list Egress -> M S unit;
  ApplyRoutes : list Route -> M S unit;
  ApplyForwards : list Publish -> M S unit;
  ApplyGuards : list Guard -> M S unit;
  ApplyFilters : list Filter -> M S unit;
  Prune : Keep -> M S unit;
}.
End interfaces.
Arguments PruneVolumes {S}. Arguments SyncSnapshots {S}. Arguments GrowVolume {S}.
Arguments ar_HasVolume {S}. Arguments ExportVolume {S}. Arguments ImportVolume {S}.
Arguments cl_HasVolume {S}. Arguments CloneVolume {S}. Arguments HasDisk {S}. Arguments ExportDisk {S}.
Arguments ImportDisk {S}. Arguments Forget {S}. Arguments rt_List {S}. Arguments rt_Start {S}.
Arguments rt_Stop {S}. Arguments rt_Status {S}. Arguments rt_Remove {S}. Arguments rt_Resize {S}.
Arguments rt_Keeper {S}. Arguments rt_Archiver {S}. Arguments rt_Cloner {S}. Arguments rt_Carrier {S}.
Arguments rt_SyncDisks {S}. Arguments rt_ReleaseDisks {S}. Arguments rt_Sample {S}. Arguments rt_LogPath {S}.
Arguments rt_UseCredentials {S}. Arguments c_assignedInstances {S}. Arguments c_nodeNetworks {S}.
Arguments c_dnsRecords {S}. Arguments c_nodes {S}. Arguments c_volumes {S}. Arguments c_forwards {S}.
Arguments c_balancers {S}. Arguments c_firewalls {S}. Arguments c_images {S}. Arguments c_registries {S}.
Arguments c_challenges {S}. Arguments c_pendingBackups {S}. Arguments c_volumeKey {S}.
Arguments c_backupTransfer {S}. Arguments c_fetchBackup {S}. Arguments c_takeDisk {S}.
Arguments c_parkDisk {S}. Arguments c_diskLanded {S}. Arguments c_uploadBackup {S}.
Arguments c_reportUploaded {S}. Arguments c_failBackup {S}. Arguments c_reportStatus {S}.
Arguments c_reportVolumes {S}. Arguments c_reportHealth {S}. Arguments c_reportUsage {S}.
Arguments c_reportLogs {S}. Arguments c_reportImages {S}. Arguments c_reportDevices {S}.
Arguments rs_Listen {S}. Arguments rs_Update {S}. Arguments ApplyEgress {S}. Arguments ApplyRoutes {S}.
Arguments ApplyForwards {S}. Arguments ApplyGuards {S}. Arguments ApplyFilters {S}. Arguments Prune {S}.
