(* ===== verification/Agent.v ===== *)
(** The agent's care for the workloads of its node (internal/agent: restart.go, fence.go,
    files.go, cache.go and the workload half of reconcile.go): what is started, restarted,
    stopped and removed, the back-off between attempts, and the fence a node puts around
    itself when it loses the control plane.

    The runtimes are behind the interface [Runtime].  Log lines are left out; the runtimes
    of the node, a map in the code, are a list of pairs whose order nothing depends on. *)
From stdpp Require Import base tactics numbers strings list gmap.
From Stdlib Require Import ZArith Lia.
From S2P Require Import Prelude GoLang Effects Kernel Encoding AgentViews.

(** * Constants and memory *)

Definition minRestartBackoff : Z := 1 * second.
Definition maxRestartBackoff : Z := 60 * second.
Definition stableFor : Z := 60 * second.
Definition fenceIsolation : string := "container".
Definition restartOnFailure : string := "on-failure".
Definition restartAlways : string := "always".
Definition desiredRunning : string := "running".
Definition desiredStopped : string := "stopped".
Definition observedPending : string := "pending".
Definition observedRunning : string := "running".
Definition observedStopped : string := "stopped".
Definition observedFailed : string := "failed".

(* go: agent/restart.go restartState *)
Record restartState := MkRestart {
  rs_attempts : Z; rs_nextAttempt : Z; rs_startedAt : Z; rs_haltedByUser : bool; rs_startFailure : string; rs_unstartable : string;
}.
Definition new_restart : restartState := MkRestart 0 zero_time zero_time false "" "".
(** The fields of [Agent] that the workloads depend on. *)
Record Memory := MkMemory { me_restarts : gmap string restartState; me_fencedFor : gmap string Z; me_lastContact : Z; me_nodeID : string }.
Definition with_restarts (r : gmap string restartState) (m : Memory) : Memory :=
  MkMemory r (me_fencedFor m) (me_lastContact m) (me_nodeID m).
Definition with_fenced (f : gmap string Z) (m : Memory) : Memory :=
  MkMemory (me_restarts m) f (me_lastContact m) (me_nodeID m).
Definition with_contact (t : Z) (m : Memory) : Memory :=
  MkMemory (me_restarts m) (me_fencedFor m) t (me_nodeID m).
Definition with_node (id : string) (m : Memory) : Memory :=
  MkMemory (me_restarts m) (me_fencedFor m) (me_lastContact m) id.

(** * Restarts (restart.go) *)

(** The doubling of [backoffFor], for the attempts after the first. *)
Fixpoint double_backoff (rounds : nat) (backoff : Z) : Z :=
  match rounds with
  | O => backoff
  | S rounds =>
      let backoff := wrap64 (backoff * 2) in
      if maxRestartBackoff <=? backoff then maxRestartBackoff else double_backoff rounds backoff
  end.
(* go: agent/restart.go backoffFor *)
Definition backoffFor (attempt : Z) : Z := double_backoff (Z.to_nat (attempt - 1)) minRestartBackoff.
(* go: agent/restart.go shouldRestart *)
Definition shouldRestart (policy : string) (exitCode : Z) : bool :=
  if String.eqb policy restartAlways then true
  else if String.eqb policy restartOnFailure then negb (exitCode =? 0)
  else false.

Section restarts.
Context {S : Type} `{!Has Memory S}.

(** A critical section on the state of one instance, made when it is not there. *)
(* go: agent/restart.go Agent.restartStateOf *)
Definition restartStateOf {A} (instanceID : string) (f : restartState -> A * restartState) : M S A :=
  locked (fun m => let '(a, s) := f (default new_restart (me_restarts m !! instanceID)) in
                   (a, with_restarts (<[instanceID := s]> (me_restarts m)) m)).
(* go: agent/restart.go Agent.noteHaltedByUser *)
Definition noteHaltedByUser (instanceID : string) : M S unit :=
  restartStateOf instanceID (fun s => (tt, MkRestart 0 zero_time (rs_startedAt s) true (rs_startFailure s) (rs_unstartable s))).
(* go: agent/restart.go Agent.takeHaltedByUser *)
Definition takeHaltedByUser (instanceID : string) : M S bool :=
  restartStateOf instanceID (fun s => (rs_haltedByUser s,
    MkRestart (rs_attempts s) (rs_nextAttempt s) (rs_startedAt s) false (rs_startFailure s) (rs_unstartable s))).
(* go: agent/restart.go Agent.noteStarted *)
Definition noteStarted (instanceID : string) : M S unit :=
  let! now_ := now in
  restartStateOf instanceID (fun s => (tt, MkRestart (rs_attempts s) (rs_nextAttempt s) now_ false "" (rs_unstartable s))).
(* go: agent/restart.go Agent.noteStartFailure *)
Definition noteStartFailure (instanceID reason : string) : M S unit :=
  restartStateOf instanceID (fun s => (tt,
    MkRestart (rs_attempts s) (rs_nextAttempt s) (rs_startedAt s) (rs_haltedByUser s) reason (rs_unstartable s))).
(* go: agent/restart.go Agent.noteUnstartable *)
Definition noteUnstartable (instanceID reason : string) : M S bool :=
  restartStateOf instanceID (fun s => (is_empty (rs_unstartable s),
    MkRestart (rs_attempts s) (rs_nextAttempt s) (rs_startedAt s) (rs_haltedByUser s) (rs_startFailure s) reason)).
(* go: agent/restart.go Agent.unstartable *)
Definition unstartable (instanceID : string) : M S (string * bool) :=
  restartStateOf instanceID (fun s => ((rs_unstartable s, negb (is_empty (rs_unstartable s))), s)).
(* go: agent/restart.go Agent.forgetRestarts *)
Definition forgetRestarts (assigned : list instanceView) : M S unit :=
  locked (fun m => (tt, with_restarts (filter (fun kv => kv.1 ∈ map iv_ID assigned) (me_restarts m)) m)).
(* go: agent/restart.go Agent.lastStartFailure *)
Definition lastStartFailure (instanceID : string) : M S string := restartStateOf instanceID (fun s => (rs_startFailure s, s)).
(** The state after one more restart at [now_]. *)
Definition restarted (now_ : Z) (s : restartState) : restartState :=
  let attempts := if negb (time_is_zero (rs_startedAt s)) && (stableFor <=? time_sub now_ (rs_startedAt s)) then 0 else rs_attempts s in
  let attempts := attempts + 1 in
  MkRestart attempts (time_add now_ (backoffFor attempts)) (rs_startedAt s) (rs_haltedByUser s) (rs_startFailure s) (rs_unstartable s).
(* go: agent/restart.go Agent.noteRestart *)
Definition noteRestart (instanceID : string) : M S Z :=
  let! now_ := now in
  restartStateOf instanceID (fun s => let s := restarted now_ s in (rs_attempts s, s)).
(* go: agent/restart.go Agent.restartAllowed *)
Definition restartAllowed (instanceID : string) : M S (bool * Z) :=
  let! now_ := now in
  restartStateOf instanceID (fun s =>
    let wait := time_sub (rs_nextAttempt s) now_ in (if 0 <? wait then (false, wait) else (true, 0), s)).
(* go: agent/restart.go Agent.restartAttempts *)
Definition restartAttempts (instanceID : string) : M S Z := restartStateOf instanceID (fun s => (rs_attempts s, s)).

(** * Contact and fence (fence.go) *)

(* go: agent/fence.go Agent.noteContact *)
Definition noteContact : M S unit := let! now_ := now in locked (fun m => (tt, with_contact now_ m)).
(* go: agent/fence.go Agent.silentFor *)
Definition silentFor : M S (Z * bool) :=
  let! last := locked (fun m => (me_lastContact m, m)) in
  if time_is_zero last then ret (0, false) else let! now_ := now in ret (time_sub now_ last, true).
(* go: agent/fence.go Agent.fenced *)
Definition fenced (fenceAfter : Z) : M S (Z * bool) :=
  let! ' (silence, spoken) := silentFor in
  if negb spoken then ret (0, true) else ret (silence, fenceAfter <=? silence).
(* go: agent/fence.go Agent.noteFenced *)
Definition noteFenced (instanceID : string) (silence : Z) : M S unit :=
  locked (fun m => (tt, with_fenced (<[instanceID := silence]> (me_fencedFor m)) m)).
(* go: agent/fence.go Agent.takeFenced *)
Definition takeFenced (instanceID : string) : M S (Z * bool) :=
  locked (fun m => match me_fencedFor m !! instanceID with
    | Some silence => ((silence, true), with_fenced (base.delete instanceID (me_fencedFor m)) m)
    | None => ((0, false), m)
    end).
(* go: agent/agent.go Agent.currentNodeID *)
Definition currentNodeID : M S string := locked (fun m => (me_nodeID m, m)).
(* go: agent/agent.go Agent.setNodeID *)
Definition setNodeID (id : string) : M S unit := locked (fun m => (tt, with_node id m)).
End restarts.

(** * Files (files.go) *)

Definition octal_digit (c : Ascii.ascii) : option Z :=
  if (48 <=? code c) && (code c <=? 55) then Some (code c - 48) else None.
(** [strconv.ParseUint(s, 8, 32)], for which a value of more than 32 bits is an error. *)
Definition parse_octal (s : string) : option Z :=
  match bytes_of s with
  | [] => None
  | l => fold_left (fun acc c => match acc, octal_digit c with
           | Some n, Some d => if n * 8 + d <? 2 ^ 32 then Some (n * 8 + d) else None
           | _, _ => None end) l (Some 0)
  end.
(** One round of the loop; the text of the decoder's error is left at its beginning. *)
Definition file_drop (v : fileView) : outcome FileDrop :=
  match std64_decode (fv_Content v) with
  | None => Err (EWrap ("decode the content of " +:+ fv_Path v) (EText "illegal base64 data"))
  | Some content =>
      let mode := if is_empty (fv_Mode v) then Some 384 else parse_octal (fv_Mode v) in
      match mode with
      | Some mode =>
          if 511 <? mode then Err (EText ("the mode of " +:+ fv_Path v +:+ " is not three or four octal digits"))
          else Ok (MkFileDrop (fv_Path v) content mode)
      | None => Err (EText ("the mode of " +:+ fv_Path v +:+ " is not three or four octal digits"))
      end
  end.
(* go: agent/files.go fileDrops *)
Fixpoint fileDrops (views : list fileView) : outcome (list FileDrop) :=
  match views with
  | [] => Ok []
  | v :: views => try drop := file_drop v in try drops := fileDrops views in Ok (drop :: drops)
  end.

(** * Workloads (reconcile.go) *)

(** The characters are decoded as UTF-8, of which only the ASCII ones can be allowed. *)
(* go: agent/reconcile.go safeInstanceID *)
Definition safeInstanceID (id : string) : bool :=
  ids_HasPrefix id "i" && negb (40 <? slen id) &&
  forallb (fun c => ((97 <=? code c) && (code c <=? 122)) || ((48 <=? code c) && (code c <=? 57))) (drop 2 (bytes_of id)).
(* go: agent/reconcile.go Agent.usableInstances *)
Definition usableInstances (assigned : list instanceView) : list instanceView :=
  List.filter (fun i => safeInstanceID (iv_ID i)) assigned.
(* go: agent/cache.go unmovable *)
Definition unmovable (assigned : list instanceView) : list instanceView :=
  List.filter (fun i => negb (String.eqb (iv_Isolation i) fenceIsolation)) assigned.
(* go: agent/reconcile.go exitCodeOf *)
Definition exitCodeOf (state : State) (observed : string) : option Z :=
  if negb (String.eqb (st_Phase state) PhaseExited) then None
  else if negb (String.eqb observed observedStopped) && negb (String.eqb observed observedFailed) then None
  else Some (st_ExitCode state).
(* go: agent/reconcile.go sameExit *)
Definition sameExit (held seen : option Z) : bool :=
  match held, seen with
  | Some h, Some s => h =? s
  | None, None => true
  | _, _ => false
  end.
(* go: agent/reconcile.go primary *)
Definition primary (nics : list NetworkConfig) : option NetworkConfig := head nics.
(* go: agent/reconcile.go extras *)
Definition extras (nics : list NetworkConfig) : list NetworkConfig := tail nics.

Section workloads.
Context {S : Type} `{!Has Memory S}.

Definition quietly {A} (m : M S A) : M S unit := attempt m ;;; ret tt.

(* go: agent/reconcile.go Agent.resizeInPlace *)
Definition resizeInPlace (runtime : Runtime S) (spec : Spec) : M S unit :=
  match rt_Resize runtime with
  | Some resize => quietly (resize (sp_InstanceID spec) (sp_VCPU spec) (sp_MemoryMiB spec))
  | None => ret tt
  end.

(* go: agent/reconcile.go Agent.start *)
Definition start (runtime : Runtime S) (spec : Spec) (note : string) : M S (string * string) :=
  let id := sp_InstanceID spec in
  let! ' (silence, found) := takeFenced id in
  let note := if found : bool
              then "restarted after this node was fenced for " +:+ duration_string (round_second silence) else note in
  let! r := attempt (rt_Start runtime spec) in
  match r with
  | Err err =>
      noteStartFailure id (error_text err) ;;;
      if errors_Is err ErrUnstartable
      then noteUnstartable id (error_text err) ;;; ret (observedFailed, error_text err)
      else ret (observedFailed, error_text err)
  | Ok _ =>
      let! r := attempt (rt_Status runtime id) in
      match r with
      | Err err => ret (observedFailed, "started but could not be inspected: " +:+ error_text err)
      | Ok after =>
          if negb (String.eqb (st_Phase after) PhaseRunning) then ret (observedFailed, st_Message after)
          else noteStarted id ;;; ret (observedRunning, note)
      end
  end.

(* go: agent/reconcile.go Agent.handleExit *)
Definition handleExit (runtime : Runtime S) (spec : Spec) (state : State) (policy : string) : M S (string * string) :=
  let id := sp_InstanceID spec in
  let! halted := takeHaltedByUser id in
  if halted : bool then start runtime spec ""
  else
    let! failure := lastStartFailure id in
    let message := if negb (is_empty failure) then failure else st_Message state in
    if negb (shouldRestart policy (st_ExitCode state))
    then ret (if st_ExitCode state =? 0 then (observedStopped, message) else (observedFailed, message))
    else
      let! ' (allowed, wait) := restartAllowed id in
      if negb allowed
      then
        let! attempts := restartAttempts id in
        ret (observedFailed, message +:+ ", restarting in " +:+ duration_string (round_second wait)
               +:+ " (attempt " +:+ itoa (attempts + 1) +:+ ")")
      else
        let! attempt_ := noteRestart id in
        let! r := attempt (rt_Remove runtime id) in
        match r with
        | Err err => ret (observedFailed, "could not clear the exited workload: " +:+ error_text err)
        | Ok _ => start runtime spec ("restarted after " +:+ message)
        end.

(* go: agent/reconcile.go Agent.ensureRunning *)
Definition ensureRunning (runtime : Runtime S) (spec : Spec) (state : State) (policy : string) : M S (string * string) :=
  let id := sp_InstanceID spec in
  if String.eqb (st_Phase state) PhaseRunning then resizeInPlace runtime spec ;;; ret (observedRunning, st_Message state)
  else if String.eqb (st_Phase state) PhaseExited then handleExit runtime spec state policy
  else
    let! ' (reason, refused) := unstartable id in
    if refused : bool then ret (observedFailed, reason)
    else
      let! ' (allowed, wait) := restartAllowed id in
      if negb allowed
      then
        let! failure := lastStartFailure id in
        let! attempts := restartAttempts id in
        ret (observedFailed, failure +:+ ", trying again in " +:+ duration_string (round_second wait)
               +:+ " (attempt " +:+ itoa (attempts + 1) +:+ ")")
      else
        let! ' (observed, message) := start runtime spec "" in
        if String.eqb observed observedFailed
        then let! n := noteRestart id in ret (observed, message)
        else ret (observed, message).

(* go: agent/reconcile.go Agent.ensureStopped *)
Definition ensureStopped (runtime : Runtime S) (instanceID : string) (state : State) : M S (string * string) :=
  noteHaltedByUser instanceID ;;;
  if String.eqb (st_Phase state) PhaseRunning
  then
    let! r := attempt (rt_Stop runtime instanceID) in
    match r with
    | Err err => ret (observedFailed, error_text err)
    | Ok _ => ret (observedStopped, "")
    end
  else ret (observedStopped, "").

(** [a.runtimes[isolation]] *)
Definition runtimes_at (runtimes : list (string * Runtime S)) (isolation : string) : option (Runtime S) :=
  option_map snd (List.find (fun r => String.eqb (fst r) isolation) runtimes).
(* go: agent/agent.go Agent.runtimeFor *)
Definition runtimeFor := runtimes_at.

Definition spec_of (i : instanceView) (drops : list FileDrop) (nics : list NetworkConfig) (disks : list Disk) : Spec :=
  MkSpec (iv_DeviceAddress i) (iv_ID i) (iv_Name i) (iv_Isolation i) (iv_Image i) (iv_ISO i) (iv_Kernel i) (iv_DiskGiB i)
    disks (iv_Command i) (iv_VCPU i) (iv_MemoryMiB i) (iv_SSHKeys i) (iv_Env i) drops (primary nics) (extras nics).

Context (runtimes : list (string * Runtime S)).

(** What was observed, the message, and the exit code. *)
(* go: agent/reconcile.go Agent.reconcileOne *)
Definition reconcileOne (i : instanceView) (nics : list NetworkConfig) (disks : list Disk) : M S (string * string * option Z) :=
  match runtimeFor runtimes (iv_Isolation i) with
  | None => ret (observedFailed, "this node has no runtime for isolation " +:+ iv_Isolation i, None)
  | Some runtime =>
  match fileDrops (iv_Files i) with
  | Err err => ret (observedFailed, "could not read the config files: " +:+ error_text err, None)
  | Ok drops =>
  let spec := spec_of i drops nics disks in
  let! r := attempt (rt_Status runtime (iv_ID i)) in
  match r with
  | Err err => ret (observedFailed, "could not inspect the workload: " +:+ error_text err, None)
  | Ok state =>
      if String.eqb (iv_DesiredState i) desiredRunning
      then
        match nics with
        | [] => ret (observedPending, "waiting for an address", None)
        | _ =>
            let! ' (observed, message) := ensureRunning runtime spec state (iv_RestartPolicy i) in
            ret (observed, message, exitCodeOf state observed)
        end
      else if String.eqb (iv_DesiredState i) desiredStopped
      then
        let! ' (observed, message) := ensureStopped runtime (iv_ID i) state in
        ret (observed, message, exitCodeOf state observed)
      else ret (observedFailed, "unknown desired state " +:+ iv_DesiredState i, None)
  end end end.

(** Everything on the node that is not assigned to it is removed. *)
(* go: agent/reconcile.go Agent.collectGarbage *)
Definition collectGarbage (datapath : option (Datapath S)) (assigned : list instanceView) (networks : list networkView) : M S unit :=
  let instanceIDs := map iv_ID assigned in
  foldM (fun r _ =>
    let! present := attempt (rt_List (snd r)) in
    match present with
    | Err _ => ret tt
    | Ok present =>
        foldM (fun id _ =>
          if existsb (String.eqb id) instanceIDs then ret tt else quietly (rt_Remove (snd r) id)) present tt
    end) runtimes tt ;;;
  match datapath with
  | None => ret tt
  | Some d => quietly (Prune d (MkKeep (map nw_Bridge networks) instanceIDs))
  end.

(* go: agent/fence.go Agent.fence *)
Definition fence (silence : Z) : M S unit :=
  match runtimeFor runtimes fenceIsolation with
  | None => ret tt
  | Some runtime =>
  let! r := attempt (rt_List runtime) in
  match r with
  | Err _ => ret tt
  | Ok present =>
  foldM (fun id _ =>
    let! r := attempt (rt_Status runtime id) in
    match r with
    | Err _ => ret tt
    | Ok observed =>
        if negb (String.eqb (st_Phase observed) PhaseRunning) then ret tt
        else
          let! r := attempt (rt_Stop runtime id) in
          match r with Err _ => ret tt | Ok _ => noteFenced id silence end
    end) present tt
  end end.
End workloads.

(** * What a pass does to one workload *)

Inductive action := Leave | ResizeIt | StopIt | StartIt | RestartIt.

(** The decision, from the assignment, what is remembered of the workload, the time and the
    state the runtime reports. *)
Definition decision (i : instanceView) (nics : list NetworkConfig) (s : restartState) (now_ : Z) (state : State) : action :=
  let due := rs_nextAttempt s <=? now_ in
  if String.eqb (iv_DesiredState i) desiredRunning
  then
    if (length nics =? 0)%nat then Leave
    else if String.eqb (st_Phase state) PhaseRunning then ResizeIt
    else if String.eqb (st_Phase state) PhaseExited
    then if rs_haltedByUser s then StartIt
         else if shouldRestart (iv_RestartPolicy i) (st_ExitCode state) && due then RestartIt else Leave
    else if is_empty (rs_unstartable s) && due then StartIt else Leave
  else if String.eqb (iv_DesiredState i) desiredStopped && String.eqb (st_Phase state) PhaseRunning then StopIt
  else Leave.

(** A call to a runtime and its answer. *)
Inductive call :=
| Listed (r : outcome (list string))
| Started (spec : Spec) (r : outcome unit)
| Stopped (instanceID : string) (r : outcome unit)
| Statused (instanceID : string) (r : outcome State)
| Removed (instanceID : string) (r : outcome unit)
| Resized (instanceID : string) (vcpu memoryMiB : Z) (r : outcome unit).

(** Every call is written down, and none touches what the agent remembers. *)
Record Logged {S} `{!Has Memory S, !Has (list call) S} (R : Runtime S) : Prop := {
  lr_list : logs (rt_List R) Listed /\ leaves Memory (rt_List R);
  lr_start spec : logs (rt_Start R spec) (Started spec) /\ leaves Memory (rt_Start R spec);
  lr_stop id : logs (rt_Stop R id) (Stopped id) /\ leaves Memory (rt_Stop R id);
  lr_status id : logs (rt_Status R id) (Statused id) /\ leaves Memory (rt_Status R id);
  lr_remove id : logs (rt_Remove R id) (Removed id) /\ leaves Memory (rt_Remove R id);
  lr_resize resize : rt_Resize R = Some resize -> forall id vcpu memory,
    logs (resize id vcpu memory) (Resized id vcpu memory) /\ leaves Memory (resize id vcpu memory);
}.

Definition started (spec : Spec) (cs : list call) : Prop :=
  (exists e, cs = [Started spec (Err e)]) \/ exists r, cs = [Started spec (Ok tt); Statused (sp_InstanceID spec) r].
(** The calls an action makes. *)
Definition carried_out (spec : Spec) (a : action) (cs : list call) : Prop :=
  match a with
  | Leave => cs = []
  | ResizeIt => cs = [] \/ exists r, cs = [Resized (sp_InstanceID spec) (sp_VCPU spec) (sp_MemoryMiB spec) r]
  | StopIt => exists r, cs = [Stopped (sp_InstanceID spec) r]
  | StartIt => started spec cs
  | RestartIt => (exists e, cs = [Removed (sp_InstanceID spec) (Err e)]) \/
      exists cs', cs = Removed (sp_InstanceID spec) (Ok tt) :: cs' /\ started spec cs'
  end.
(** What is remembered of a workload. *)
Definition remembered (instanceID : string) (m : Memory) : restartState := default new_restart (me_restarts m !! instanceID).
(** The attempts and when the next one may be made. *)
Definition pace (s : restartState) : Z * Z := (rs_attempts s, rs_nextAttempt s).
(** What an action leaves in the memory: the pace moves only with an attempt that is counted,
    or is forgotten when the workload is to be stopped. *)
Definition paced (reading : Z -> Prop) (i : instanceView) (a : action) (s s' : restartState) : Prop :=
  match a with
  | Leave | ResizeIt => if String.eqb (iv_DesiredState i) desiredStopped then rs_haltedByUser s' = true /\ pace s' = (0, zero_time) else s' = s
  | StopIt => rs_haltedByUser s' = true /\ pace s' = (0, zero_time)
  | RestartIt => exists t, reading t /\ pace s' = pace (restarted t s)
  | StartIt => pace s' = pace s \/ exists t s1, reading t /\ rs_startedAt s1 = rs_startedAt s /\ rs_attempts s1 = rs_attempts s /\ pace s' = pace (restarted t s1)
  end.
(** A state the runtime answered last. *)
Definition seen_running (cs : list call) (state : State) : Prop :=
  st_Phase state = PhaseRunning \/ exists id after, last cs = Some (Statused id (Ok after)) /\ st_Phase after = PhaseRunning.

Section pass_rules.
Context {S : Type} `{!Has Memory S, !Has (list call) S, !Apart Memory (list call) S}.
Context (env : Env) (R : Runtime S) (HR : Logged R).
Abbreviation calls w := (part (T:=list call) w).
Abbreviation mem w := (part (T:=Memory) w).
Abbreviation rem id w := (remembered id (mem w)).
Implicit Types (w : World S).

Definition reading (t : Z) : Prop := exists n, t = env_now env n.

(** A section on the state of one workload. *)
Lemma on_rule {A} id (f : restartState -> A * restartState) (Q : outcome A -> World S -> Prop) w :
  (forall w', calls w' = calls w -> rem id w' = snd (f (rem id w)) -> me_fencedFor (mem w') = me_fencedFor (mem w) ->
     Q (Ok (fst (f (rem id w)))) w') ->
  wp env (restartStateOf id f) Q w.
Proof.
  intros HQ. unfold restartStateOf, wp, locked. fold (mem w).
  change (hget (w_st w)) with (mem w) in *. change (default new_restart (me_restarts (mem w) !! id)) with (rem id w).
  destruct (f (rem id w)) as [a s] eqn:E. apply HQ; unfold part; simpl.
  - apply apart.
  - rewrite hget_hput. unfold remembered. simpl. by rewrite lookup_insert_eq.
  - by rewrite hget_hput.
Qed.

(** A call: it is written down, the memory stays. *)
Lemma call_rule {A} (m : M S A) c (Q : outcome A -> World S -> Prop) w : logs m c /\ leaves Memory m ->
  (forall r w', calls w' = calls w ++ [c r] -> mem w' = mem w -> Q r w') -> wp env m Q w.
Proof.
  intros [Hlog Hmem] HQ. specialize (Hlog env w). specialize (Hmem env w). unfold wp in *.
  destruct (m env w) as [r w']. by apply HQ.
Qed.

Lemma takeFenced_rule id (Q : outcome (Z * bool) -> World S -> Prop) w :
  (forall r w', calls w' = calls w -> me_restarts (mem w') = me_restarts (mem w) -> Q (Ok r) w') -> wp env (takeFenced id) Q w.
Proof.
  intros HQ. unfold takeFenced, wp, locked. change (hget (w_st w)) with (mem w).
  destruct (me_fencedFor (mem w) !! id); apply HQ; unfold part; simpl; try apply apart; by rewrite hget_hput.
Qed.

Lemma rem_eq id w w' : me_restarts (mem w') = me_restarts (mem w) -> rem id w' = rem id w.
Proof. unfold remembered. by intros ->. Qed.

(** Starting: the calls, and that neither the pace nor the time of the last start go back. *)
Lemma start_rule spec note s (Q : outcome (string * string) -> World S -> Prop) w :
  rem (sp_InstanceID spec) w = s ->
  (forall observed message cs w', calls w' = calls w ++ cs -> started spec cs ->
     pace (rem (sp_InstanceID spec) w') = pace s ->
     (observed = observedRunning -> exists id after, last cs = Some (Statused id (Ok after)) /\ st_Phase after = PhaseRunning) ->
     (observed <> observedRunning -> observed = observedFailed /\ rs_startedAt (rem (sp_InstanceID spec) w') = rs_startedAt s) ->
     Q (Ok (observed, message)) w') ->
  wp env (start R spec note) Q w.
Proof.
  intros Es HQ. unfold start. set (id := sp_InstanceID spec) in *.
  apply wp_bind, takeFenced_rule. intros [silence found] w1 Hc1 Hm1. apply (rem_eq id) in Hm1. rewrite Es in Hm1.
  apply wp_bind, wp_attempt, (call_rule _ _ _ _ (lr_start R HR spec)). intros [[]|err] w2 Hc2 Hm2; rewrite Hc1 in Hc2.
  - apply wp_bind, wp_attempt, (call_rule _ _ _ _ (lr_status R HR id)). intros [after|err] w3 Hc3 Hm3; rewrite Hc2, <- app_assoc in Hc3; simpl in Hc3.
    + assert (Hr3 : rem id w3 = s) by (by rewrite Hm3, Hm2). clear Hm3 Hm2.
      destruct (String.eqb (st_Phase after) PhaseRunning) eqn:Ep; simpl; breflect.
      * apply wp_bind. unfold noteStarted. apply wp_bind. rewrite wp_now.
        apply on_rule. intros w4 Hc4 Hr4 _. rewrite wp_ret. eapply HQ; [rewrite Hc4; exact Hc3| | | |].
        -- right. eauto.
        -- change (mem (tick w3)) with (mem w3) in Hr4. rewrite Hr3 in Hr4. by rewrite Hr4.
        -- intros _. by exists id, after.
        -- intros []. done.
      * rewrite wp_ret. eapply HQ; [exact Hc3| |by rewrite Hr3| |].
        -- right. eauto.
        -- intros [=].
        -- intros _. by rewrite Hr3.
    + rewrite wp_ret. assert (Hr3 : rem id w3 = s) by (by rewrite Hm3, Hm2). eapply HQ; [exact Hc3| |by rewrite Hr3| |].
      * right. eauto.
      * intros [=].
      * intros _. by rewrite Hr3.
  - assert (Hr2 : rem id w2 = s) by (by rewrite Hm2). apply wp_bind, on_rule. intros w3 Hc3 Hr3 _. rewrite Hr2 in Hr3.
    assert (Hst : forall w', calls w' = calls w3 -> pace (rem id w') = pace s -> rs_startedAt (rem id w') = rs_startedAt s ->
      Q (Ok (observedFailed, error_text err)) w').
    { intros w' Hc' Hp' Hs'. eapply HQ; [rewrite Hc', Hc3; exact Hc2|by left; exists err|exact Hp'|intros [=]|done]. }
    destruct (errors_Is err ErrUnstartable).
    + apply wp_bind, on_rule. intros w4 Hc4 Hr4 _. rewrite wp_ret. rewrite Hr3 in Hr4. apply Hst; [done|by rewrite Hr4..].
    + rewrite wp_ret. apply Hst; [done|by rewrite Hr3..].
Qed.

(** What reading the state of one workload leaves. *)
Lemma peek_rule {A} id (f : restartState -> A) (Q : outcome A -> World S -> Prop) w :
  (forall w', calls w' = calls w -> rem id w' = rem id w -> Q (Ok (f (rem id w))) w') ->
  wp env (restartStateOf id (fun s => (f s, s))) Q w.
Proof. intros HQ. apply on_rule. intros w' Hc Hr _. by apply HQ. Qed.

Lemma allowed_rule id (Q : outcome (bool * Z) -> World S -> Prop) w :
  (forall now_ wait w', reading now_ -> calls w' = calls w -> rem id w' = rem id w ->
     Q (Ok (rs_nextAttempt (rem id w) <=? now_, wait)) w') ->
  wp env (restartAllowed id) Q w.
Proof.
  intros HQ. unfold restartAllowed. apply wp_bind. rewrite wp_now. set (now_ := env_now env (w_step w)).
  apply on_rule. intros w' Hc Hr _. simpl in Hr.
  change (mem (tick w)) with (mem w) in *. change (calls (tick w)) with (calls w) in *.
  assert (Hd : (0 <? time_sub (rs_nextAttempt (rem id w)) now_) = negb (rs_nextAttempt (rem id w) <=? now_)).
  { unfold time_sub, min_int64, max_int64, two63. destruct (Z.leb_spec (rs_nextAttempt (rem id w)) now_); simpl.
    - apply Z.ltb_ge. lia.
    - apply Z.ltb_lt. lia. }
  simpl. rewrite Hd. destruct (rs_nextAttempt (rem id w) <=? now_) eqn:E; simpl.
  - specialize (HQ now_ 0 w' ltac:(by eexists) Hc Hr). by rewrite E in HQ.
  - specialize (HQ now_ (time_sub (rs_nextAttempt (rem id w)) now_) w' ltac:(by eexists) Hc Hr). by rewrite E in HQ.
Qed.

Lemma noteRestart_rule id (Q : outcome Z -> World S -> Prop) w :
  (forall t w', reading t -> calls w' = calls w -> rem id w' = restarted t (rem id w) -> Q (Ok (rs_attempts (restarted t (rem id w)))) w') ->
  wp env (noteRestart id) Q w.
Proof.
  intros HQ. unfold noteRestart. apply wp_bind. rewrite wp_now. apply on_rule. intros w' Hc Hr _. simpl in *.
  apply HQ; [by eexists|exact Hc|exact Hr].
Qed.

(** ** The table, branch by branch *)

(** What a branch of the table ends with. *)
Definition branch (i : instanceView) (spec : Spec) (state : State) (a : action) (s : restartState) w (r : outcome (string * string)) w' : Prop :=
  exists observed message cs, r = Ok (observed, message) /\ calls w' = calls w ++ cs /\ carried_out spec a cs /\
    paced reading i a s (rem (sp_InstanceID spec) w') /\ (observed = observedRunning -> seen_running cs state).

Lemma branch_leave i spec (state : State) w w' observed message : String.eqb (iv_DesiredState i) desiredStopped = false ->
  calls w' = calls w -> rem (sp_InstanceID spec) w' = rem (sp_InstanceID spec) w -> (observed = observedRunning -> False) ->
  branch i spec state Leave (rem (sp_InstanceID spec) w) w (Ok (observed, message)) w'.
Proof.
  intros Hd Hc Hr Ho. exists observed, message, []. rewrite app_nil_r. split_and!; [done|done|done| |by intros ?%Ho].
  simpl. by rewrite Hd.
Qed.

Section to_run.
Context (i : instanceView) (nics : list NetworkConfig) (spec : Spec) (state : State).
Hypothesis (Hrun : iv_DesiredState i = desiredRunning) (Hnics : nics <> []).
Abbreviation id := (sp_InstanceID spec).
Definition decided s w r w' : Prop := exists now_, reading now_ /\ branch i spec state (decision i nics s now_ state) s w r w'.

Lemma decision_run s now_ : decision i nics s now_ state =
  if String.eqb (st_Phase state) PhaseRunning then ResizeIt
  else if String.eqb (st_Phase state) PhaseExited
  then if rs_haltedByUser s then StartIt
       else if shouldRestart (iv_RestartPolicy i) (st_ExitCode state) && (rs_nextAttempt s <=? now_) then RestartIt else Leave
  else if is_empty (rs_unstartable s) && (rs_nextAttempt s <=? now_) then StartIt else Leave.
Proof. unfold decision. rewrite Hrun, String.eqb_refl. by destruct nics. Qed.

Lemma some_reading : reading (env_now env 0).
Proof. by exists 0%nat. Qed.

Lemma not_stopped : String.eqb (iv_DesiredState i) desiredStopped = false.
Proof. by rewrite Hrun. Qed.

Lemma exit_rule w : st_Phase state = PhaseExited ->
  wp env (handleExit R spec state (iv_RestartPolicy i)) (decided (rem id w) w) w.
Proof.
  intros Hphase. set (s := rem id w).
  assert (Hdec : forall now_, decision i nics s now_ state = if rs_haltedByUser s then StartIt
    else if shouldRestart (iv_RestartPolicy i) (st_ExitCode state) && (rs_nextAttempt s <=? now_) then RestartIt else Leave)
    by (intros; by rewrite decision_run, Hphase).
  unfold handleExit. apply wp_bind, on_rule. intros w1 Hc1 Hr1 _. fold s in Hr1. simpl fst. simpl snd in Hr1.
  fold s. destruct (rs_haltedByUser s) eqn:Eh.
  { eapply start_rule; [reflexivity|]. intros observed message cs w2 Hc2 Hcs Hp Hobs _. exists (env_now env 0).
    split; [apply some_reading|]. rewrite Hdec. exists observed, message, cs. rewrite Hc2, Hc1. split_and!; [done|done|done| |].
    - left. by rewrite Hp, Hr1.
    - intros Ho. right. auto. }
  assert (Hr1' : rem id w1 = s) by (rewrite Hr1; clear -Eh; destruct s; simpl in *; by subst). clear Hr1.
  assert (Hleave : forall observed message now_ w', reading now_ -> decision i nics s now_ state = Leave -> calls w' = calls w ->
    rem id w' = s -> (observed = observedRunning -> False) -> decided s w (Ok (observed, message)) w').
  { intros observed message now_ w' Hn Hd Hc Hr Ho. exists now_. split; [done|]. rewrite Hd. unfold s. apply branch_leave; auto using not_stopped. }
  apply wp_bind, peek_rule. intros w2 Hc2 Hr2. rewrite Hr1' in *. rewrite Hc1 in Hc2.
  destruct (shouldRestart _ _) eqn:Es; simpl negb; cbv iota.
  2:{ rewrite wp_ret. destruct (st_ExitCode state =? 0); (eapply Hleave; [apply some_reading|by rewrite Hdec|done|done|by intros [=]]). }
  apply wp_bind, allowed_rule. intros now_ wait w3 Hn Hc3 Hr3. rewrite Hr2 in *. rewrite Hc2 in Hc3.
  destruct (rs_nextAttempt s <=? now_) eqn:Edue; simpl negb; cbv iota.
  2:{ apply wp_bind, peek_rule. intros w4 Hc4 Hr4. rewrite wp_ret.
      eapply Hleave; [exact Hn|by rewrite Hdec, Edue|congruence|congruence|by intros [=]]. }
  apply wp_bind, noteRestart_rule. intros t w4 Ht Hc4 Hr4. rewrite Hr3 in *. rewrite Hc3 in Hc4.
  apply wp_bind, wp_attempt, (call_rule _ _ _ _ (lr_remove R HR id)). intros [[]|err] w5 Hc5 Hm5; rewrite Hc4 in Hc5.
  - eapply start_rule; [reflexivity|]. intros observed message' cs w6 Hc6 Hcs Hp Hobs _. exists now_. split; [done|].
    rewrite Hdec, Edue. exists observed, message', (Removed id (Ok tt) :: cs). rewrite Hc6, Hc5, <- app_assoc.
    split_and!; [done|done| | |].
    + right. eauto.
    + exists t. split; [done|]. rewrite Hp, Hm5. by rewrite Hr4.
    + intros Ho. right. destruct (Hobs Ho) as (i' & after & Hl & Ha). exists i', after. split; [|done].
      rewrite last_cons. by rewrite Hl.
  - rewrite wp_ret. exists now_. split; [done|]. rewrite Hdec, Edue. eexists _, _, [Removed id (Err err)].
    split_and!; [done|exact Hc5| | |intros [=]].
    + left. eauto.
    + exists t. split; [done|]. by rewrite Hm5, Hr4.
Qed.

Lemma run_rule w : wp env (ensureRunning R spec state (iv_RestartPolicy i)) (decided (rem id w) w) w.
Proof.
  set (s := rem id w). unfold ensureRunning. destruct (String.eqb (st_Phase state) PhaseRunning) eqn:Erun; breflect.
  { assert (Hdone : forall w' cs, calls w' = calls w ++ cs -> mem w' = mem w -> carried_out spec ResizeIt cs ->
      decided s w (Ok (observedRunning, st_Message state)) w').
    { intros w' cs Hc Hm Hcs. exists (env_now env 0). split; [apply some_reading|]. rewrite decision_run, Erun. simpl.
      exists observedRunning, (st_Message state), cs. split_and!; [done|done|done| |by left]. unfold paced. rewrite not_stopped. by rewrite Hm. }
    unfold resizeInPlace. apply wp_bind. destruct (rt_Resize R) as [resize|] eqn:Er.
    - unfold quietly. apply wp_bind, wp_attempt, (call_rule _ _ _ _ (lr_resize R HR resize Er id (sp_VCPU spec) (sp_MemoryMiB spec))).
      intros r w1 Hc1 Hm1. rewrite !wp_ret. eapply Hdone; [exact Hc1|done|]. right. eauto.
    - rewrite !wp_ret. apply (Hdone w []); [by rewrite app_nil_r|done|]. by left. }
  destruct (String.eqb (st_Phase state) PhaseExited) eqn:Eexit; breflect; [by apply exit_rule|].
  assert (Hdec : forall now_, decision i nics s now_ state = if is_empty (rs_unstartable s) && (rs_nextAttempt s <=? now_) then StartIt else Leave).
  { intros. rewrite decision_run. by rewrite (proj2 (String.eqb_neq _ _) Erun), (proj2 (String.eqb_neq _ _) Eexit). }
  assert (Hleave : forall observed message now_ w', reading now_ -> decision i nics s now_ state = Leave -> calls w' = calls w ->
    rem id w' = s -> (observed = observedRunning -> False) -> decided s w (Ok (observed, message)) w').
  { intros observed message now_ w' Hn Hd Hc Hr Ho. exists now_. split; [done|]. rewrite Hd. unfold s. apply branch_leave; auto using not_stopped. }
  apply wp_bind. unfold unstartable. apply (peek_rule id (fun s => (rs_unstartable s, negb (is_empty (rs_unstartable s))))). intros w1 Hc1 Hr1. fold s in Hr1 |- *.
  destruct (is_empty (rs_unstartable s)) eqn:Eu; simpl negb; cbv iota.
  2:{ rewrite wp_ret. eapply Hleave; [apply some_reading|by rewrite Hdec|done|done|by intros [=]]. }
  apply wp_bind, allowed_rule. intros now_ wait w2 Hn Hc2 Hr2. rewrite Hr1 in *. rewrite Hc1 in Hc2.
  destruct (rs_nextAttempt s <=? now_) eqn:Edue; simpl negb; cbv iota.
  2:{ apply wp_bind, peek_rule. intros w3 Hc3 Hr3. rewrite Hr2 in *. apply wp_bind, peek_rule. intros w4 Hc4 Hr4. rewrite wp_ret.
      eapply Hleave; [exact Hn|by rewrite Hdec, Edue|congruence|congruence|by intros [=]]. }
  apply wp_bind. eapply start_rule; [exact Hr2|]. intros observed message cs w3 Hc3 Hcs Hp Hobs Hfail.
  rewrite Hc2 in Hc3. destruct (String.eqb observed observedFailed) eqn:Ef; [apply String.eqb_eq in Ef|].
  - apply wp_bind, noteRestart_rule. intros t w4 Ht Hc4 Hr4. rewrite wp_ret. exists now_. split; [done|]. rewrite Hdec, Edue.
    exists observed, message, cs. rewrite Hc4. split_and!; [done|done|done| |].
    + right. exists t, (rem id w3). destruct Hfail as [_ Hst]; [by subst|]. split_and!; [done|done| |by rewrite Hr4].
      by injection Hp.
    + subst. intros [=].
  - rewrite wp_ret. exists now_. split; [done|]. rewrite Hdec, Edue. exists observed, message, cs.
    split_and!; [done|done|done|by left|]. intros Ho. right. auto.
Qed.
End to_run.

Lemma stop_rule i nics spec state w : iv_DesiredState i = desiredStopped ->
  wp env (ensureStopped R (sp_InstanceID spec) state) (decided i nics spec state (rem (sp_InstanceID spec) w) w) w.
Proof.
  intros Hstop. set (s := rem (sp_InstanceID spec) w).
  assert (Hdec : forall now_, decision i nics s now_ state = if String.eqb (st_Phase state) PhaseRunning then StopIt else Leave).
  { intros. unfold decision. rewrite Hstop. simpl. by destruct (String.eqb _ _). }
  unfold ensureStopped. apply wp_bind, on_rule. intros w1 Hc1 Hr1 _. simpl in Hr1.
  assert (Hhalt : rs_haltedByUser (rem (sp_InstanceID spec) w1) = true /\ pace (rem (sp_InstanceID spec) w1) = (0, zero_time))
    by (by rewrite Hr1). clear Hr1.
  destruct (String.eqb (st_Phase state) PhaseRunning) eqn:Ep.
  - apply wp_bind, wp_attempt, (call_rule _ _ _ _ (lr_stop R HR (sp_InstanceID spec))). intros r w2 Hc2 Hm2. rewrite Hc1 in Hc2.
    assert (Hok : forall observed message, (observed = observedRunning -> False) ->
      decided i nics spec state s w (Ok (observed, message)) w2).
    { intros observed message Ho. exists (env_now env 0). split; [by exists 0%nat|]. rewrite Hdec.
      exists observed, message, [Stopped (sp_InstanceID spec) r]. split_and!; [done|exact Hc2|by exists r| |by intros ?%Ho].
      unfold paced. by rewrite Hm2. }
    destruct r as [[]|err]; rewrite wp_ret; apply Hok; intros [=].
  - rewrite wp_ret. exists (env_now env 0). split; [by exists 0%nat|]. rewrite Hdec. exists observedStopped, "", [].
    rewrite app_nil_r. split_and!; [done|done|done| |intros [=]]. unfold paced. by rewrite Hstop.
Qed.

(** What the table says of one pass over a workload whose state the runtime answers. *)
Definition by_table (i : instanceView) (nics : list NetworkConfig) (spec : Spec) (w w' : World S) (observed : string) : Prop :=
  exists answer cs, calls w' = calls w ++ Statused (iv_ID i) answer :: cs /\
  match answer with
  | Err _ => cs = [] /\ rem (iv_ID i) w' = rem (iv_ID i) w /\ observed = observedFailed
  | Ok state => exists now_, reading now_ /\ let a := decision i nics (rem (iv_ID i) w) now_ state in
      carried_out spec a cs /\ paced reading i a (rem (iv_ID i) w) (rem (iv_ID i) w') /\
      (observed = observedRunning -> seen_running cs state)
  end.

Lemma match_nil {A B} (l : list A) (a b : B) : l = [] -> match l with [] => a | _ => b end = a.
Proof. by intros ->. Qed.
Lemma match_cons {A B} (l : list A) (a b : B) : l <> [] -> match l with [] => a | _ => b end = b.
Proof. by destruct l. Qed.

Lemma status_rule i nics disks drops (Q : outcome (string * string * option Z) -> World S -> Prop) w :
  (forall observed message code w', by_table i nics (spec_of i drops nics disks) w w' observed -> Q (Ok (observed, message, code)) w') ->
  wp env (let spec := spec_of i drops nics disks in
    let! r := attempt (rt_Status R (iv_ID i)) in
    match r with
    | Err err => ret (observedFailed, "could not inspect the workload: " +:+ error_text err, None)
    | Ok state =>
        if String.eqb (iv_DesiredState i) desiredRunning
        then
          match nics with
          | [] => ret (observedPending, "waiting for an address", None)
          | _ =>
              let! ' (observed, message) := ensureRunning R spec state (iv_RestartPolicy i) in
              ret (observed, message, exitCodeOf state observed)
          end
        else if String.eqb (iv_DesiredState i) desiredStopped
        then
          let! ' (observed, message) := ensureStopped R (iv_ID i) state in
          ret (observed, message, exitCodeOf state observed)
        else ret (observedFailed, "unknown desired state " +:+ iv_DesiredState i, None)
    end) Q w.
Proof.
  intros HQ. cbv zeta. set (spec := spec_of i drops nics disks).
  apply wp_bind, wp_attempt, (call_rule _ _ _ _ (lr_status R HR (iv_ID i))). intros [state|err] w1 Hc1 Hm1.
  2:{ rewrite wp_ret. apply HQ. exists (Err err), []. split; [exact Hc1|]. by rewrite Hm1. }
  assert (Hdone : forall r w', decided i nics spec state (rem (iv_ID i) w1) w1 r w' ->
    exists observed message, r = Ok (observed, message) /\ by_table i nics spec w w' observed).
  { intros r w' (now_ & Hn & observed & message & cs & -> & Hc & Hcs & Hp & Hs). exists observed, message. split; [done|].
    exists (Ok state), cs. rewrite Hc, Hc1, <- app_assoc. split; [done|]. exists now_. rewrite Hm1 in *. done. }
  assert (Hleave : forall observed message code, (forall s now_, decision i nics s now_ state = Leave) ->
    String.eqb (iv_DesiredState i) desiredStopped = false -> (observed = observedRunning -> False) ->
    wp env (ret (observed, message, code)) Q w1).
  { intros observed message code Hd Hs Ho. rewrite wp_ret. apply HQ. exists (Ok state), []. split; [exact Hc1|].
    exists (env_now env 0). split; [by exists 0%nat|]. cbv zeta. rewrite Hd. split; [done|]. split; [|by intros ?%Ho].
    unfold paced. rewrite Hs. by rewrite Hm1. }
  destruct (String.eqb (iv_DesiredState i) desiredRunning) eqn:Erun.
  - apply String.eqb_eq in Erun. destruct (decide (nics = [])) as [En|En].
    { rewrite match_nil by done. apply Hleave; [|by rewrite Erun|by intros [=]]. intros. unfold decision. by rewrite Erun, En. }
    rewrite match_cons by done. apply wp_bind. eapply wp_mono; [|by apply (run_rule i nics spec state Erun)].
    intros r w2 Hd. destruct (Hdone _ _ Hd) as (observed & message & -> & Ht). rewrite wp_ret. by apply HQ.
  - destruct (String.eqb (iv_DesiredState i) desiredStopped) eqn:Estop.
    + apply String.eqb_eq in Estop. apply wp_bind. eapply wp_mono; [|apply (stop_rule i nics spec state _ Estop)].
      intros r w2 Hd. destruct (Hdone _ _ Hd) as (observed & message & -> & Ht). rewrite wp_ret. by apply HQ.
    + apply Hleave; [|done|by intros [=]]. intros. unfold decision. by rewrite Erun, Estop.
Qed.
End pass_rules.

(** * Back-off *)

Lemma double_backoff_spec rounds b : 0 < b < 60 * second ->
  double_backoff rounds b = Z.min (b * 2 ^ Z.of_nat rounds) maxRestartBackoff.
Proof.
  revert b. induction rounds as [|n IH]; intros b Hb; cbn [double_backoff].
  - unfold maxRestartBackoff. change (2 ^ Z.of_nat 0) with 1. lia.
  - assert (Hw : wrap64 (b * 2) = b * 2) by (apply wrap64_small; unfold in_int64, min_int64, max_int64, two63, second in *; lia).
    rewrite Hw, Nat2Z.inj_succ, Z.pow_succ_r by lia. assert (Hpow : 0 < 2 ^ Z.of_nat n) by lia.
    destruct (Z.leb_spec maxRestartBackoff (b * 2)); unfold maxRestartBackoff in *; [nia|].
    rewrite IH by lia. unfold maxRestartBackoff. f_equal. lia.
Qed.

(** The waits double from one second up to a minute, for every number of attempts. *)
Lemma backoffFor_spec attempt : backoffFor attempt = Z.min (2 ^ Z.max 0 (attempt - 1) * second) (60 * second).
Proof.
  unfold backoffFor. rewrite double_backoff_spec by (unfold minRestartBackoff, second; lia).
  rewrite ZifyInst.of_nat_to_nat_eq. unfold minRestartBackoff, maxRestartBackoff. f_equal. lia.
Qed.

(** After a run that was stable once, every attempt counts as the first until one succeeds:
    [noteRestart] looks at how long ago the last start that succeeded was, not at how long
    that run lasted. *)
Lemma backoff_stays_at_one s ts t : negb (time_is_zero (rs_startedAt s)) = true ->
  Forall (fun t => stableFor <= time_sub t (rs_startedAt s)) (ts ++ [t]) ->
  pace (fold_left (fun s t => restarted t s) (ts ++ [t]) s) = (1, time_add t second).
Proof.
  intros Hstart. revert s Hstart. induction ts as [|u ts IH]; intros s Hstart Ht; simpl in *;
    apply Forall_cons in Ht as [Hu Ht].
  - unfold restarted. rewrite Hstart, (proj2 (Z.leb_le _ _) Hu). done.
  - by apply IH.
Qed.

(** * Sweeps over what a runtime has *)

Section sweep_rules.
Context {S : Type} `{!Has Memory S, !Has (list call) S, !Apart Memory (list call) S}.
Context (env : Env).
Abbreviation calls w := (part (T:=list call) w).
Abbreviation mem w := (part (T:=Memory) w).
Implicit Types (w : World S).

Definition listings (cs : list call) : list (outcome (list string)) := omap (fun c => match c with Listed r => Some r | _ => None end) cs.
Definition removals (cs : list call) : list string := omap (fun c => match c with Removed id _ => Some id | _ => None end) cs.
Definition fetched (r : outcome (list string)) : list string := match r with Ok l => l | Err _ => [] end.
Definition is_sweep (c : call) : Prop := match c with Listed _ | Removed _ _ => True | _ => False end.
Definition unassigned (assigned : list instanceView) (id : string) : bool := negb (existsb (String.eqb id) (map iv_ID assigned)).

Lemma listings_app cs cs' : listings (cs ++ cs') = listings cs ++ listings cs'.
Proof. apply omap_app. Qed.
Lemma removals_app cs cs' : removals (cs ++ cs') = removals cs ++ removals cs'.
Proof. apply omap_app. Qed.
Lemma unassigned_app assigned l l' :
  List.filter (unassigned assigned) (l ++ l') = List.filter (unassigned assigned) l ++ List.filter (unassigned assigned) l'.
Proof. apply List.filter_app. Qed.

(** What the sweep asks one runtime for. *)
Lemma remove_rule R (HR : Logged R) assigned present w :
  wp env (foldM (fun id _ => if existsb (String.eqb id) (map iv_ID assigned) then ret tt else quietly (rt_Remove R id)) present tt)
    (fun r w' => r = Ok tt /\ mem w' = mem w /\ exists cs, calls w' = calls w ++ cs /\ Forall is_sweep cs /\ listings cs = [] /\
       removals cs = List.filter (unassigned assigned) present) w.
Proof.
  eapply wp_mono; [|eapply (wp_foldM_done env (fun done _ w' => mem w' = mem w /\ exists cs, calls w' = calls w ++ cs /\
    Forall is_sweep cs /\ listings cs = [] /\ removals cs = List.filter (unassigned assigned) done) (fun _ _ => False))].
  - by intros [[]|e] w'.
  - intros done id rest [] w1 _ (Hm & cs & Hc & Hs & Hl & Hr).
    pose proof (unassigned_app assigned done [id]) as Ef. simpl in Ef. unfold unassigned at 3 in Ef. destruct (existsb _ _).
    + rewrite wp_ret. split; [done|]. exists cs. rewrite Ef, app_nil_r. done.
    + unfold quietly. apply wp_bind, wp_attempt, (call_rule env _ _ _ _ (lr_remove R HR id)). intros r w2 Hc2 Hm2. rewrite wp_ret.
      split; [congruence|]. exists (cs ++ [Removed id r]). rewrite Hc2, Hc, <- app_assoc. split_and!; [done| | |].
      * apply Forall_app. by split; [|constructor].
      * by rewrite listings_app, Hl.
      * by rewrite removals_app, Hr, Ef.
  - split; [done|]. exists []. rewrite app_nil_r. by split_and!.
Qed.

Lemma garbage_rule (runtimes : list (string * Runtime S)) (HR : Forall (fun r => Logged (snd r)) runtimes) assigned w :
  wp env (foldM (fun r _ =>
    let! present := attempt (rt_List (snd r)) in
    match present with
    | Err _ => ret tt
    | Ok present => foldM (fun id _ => if existsb (String.eqb id) (map iv_ID assigned) then ret tt else quietly (rt_Remove (snd r) id)) present tt
    end) runtimes tt)
    (fun r w' => r = Ok tt /\ mem w' = mem w /\ exists cs, calls w' = calls w ++ cs /\ Forall is_sweep cs /\
       length (listings cs) = length runtimes /\
       removals cs = List.filter (unassigned assigned) (concat (map fetched (listings cs)))) w.
Proof.
  eapply wp_mono; [|eapply (wp_foldM_done env (fun done _ w' => mem w' = mem w /\ exists cs, calls w' = calls w ++ cs /\
    Forall is_sweep cs /\ length (listings cs) = length done /\
    removals cs = List.filter (unassigned assigned) (concat (map fetched (listings cs)))) (fun _ _ => False))].
  - by intros [[]|e] w'.
  - intros done r rest [] w1 E (Hm & cs & Hc & Hs & Hl & Hr).
    assert (HR' : Logged (snd r)) by (apply (proj1 (Forall_forall _ _) HR); rewrite E; set_solver).
    apply wp_bind, wp_attempt, (call_rule env _ _ _ _ (lr_list _ HR')). intros [present|err] w2 Hc2 Hm2.
    + eapply wp_mono; [|by apply remove_rule]. intros r' w3 (-> & Hm3 & cs' & Hc3 & Hs' & Hl' & Hr').
      split; [congruence|]. exists (cs ++ [Listed (Ok present)] ++ cs').
      rewrite Hc3, Hc2, Hc, !listings_app, !removals_app, Hl', Hr', !length_app, !map_app, !concat_app, unassigned_app, <- Hr, <- !app_assoc.
      simpl. rewrite !app_nil_r. split_and!; [done| |lia|done]. apply Forall_app. by split; [|constructor].
    + rewrite wp_ret. split; [congruence|]. exists (cs ++ [Listed (Err err)]).
      rewrite Hc2, Hc, !listings_app, !removals_app, !length_app, !map_app, !concat_app, unassigned_app, <- Hr, <- !app_assoc.
      simpl. split_and!; [done| |lia|done]. apply Forall_app. by split; [|constructor].
  - split; [done|]. exists []. rewrite app_nil_r. by split_and!.
Qed.

(** What a fence asks of one workload, and what it asks of all of them. *)
Definition stop_calls (id : string) (cs : list call) : Prop :=
  (exists r, cs = [Statused id r] /\ forall st, r = Ok st -> st_Phase st <> PhaseRunning) \/
  exists st r, cs = [Statused id (Ok st); Stopped id r] /\ st_Phase st = PhaseRunning.
(** The workloads whose stop was answered with success. *)
Definition stopped_well (cs : list call) : list string := omap (fun c => match c with Stopped id (Ok _) => Some id | _ => None end) cs.

Lemma stop_all_rule R (HR : Logged R) silence present w :
  wp env (foldM (fun id _ =>
    let! r := attempt (rt_Status R id) in
    match r with
    | Err _ => ret tt
    | Ok observed =>
        if negb (String.eqb (st_Phase observed) PhaseRunning) then ret tt
        else
          let! r := attempt (rt_Stop R id) in
          match r with Err _ => ret tt | Ok _ => noteFenced id silence end
    end) present tt)
    (fun r w' => r = Ok tt /\ exists css, calls w' = calls w ++ concat css /\ Forall2 stop_calls present css /\
       mem w' = with_fenced (fold_left (fun f id => <[id := silence]> f) (stopped_well (concat css)) (me_fencedFor (mem w))) (mem w)) w.
Proof.
  set (fenced_by cs := fold_left (fun f id => <[id := silence]> f) (stopped_well cs) (me_fencedFor (mem w))).
  eapply wp_mono; [|eapply (wp_foldM_done env (fun done _ w' => exists css, calls w' = calls w ++ concat css /\ Forall2 stop_calls done css /\
    mem w' = with_fenced (fenced_by (concat css)) (mem w)) (fun _ _ => False))].
  - by intros [[]|e] w'.
  - intros done id rest [] w1 E (css & Hc & Hs & Hm).
    assert (Hstep : forall w' cs, calls w' = calls w1 ++ cs -> stop_calls id cs ->
      mem w' = with_fenced (fold_left (fun f id => <[id := silence]> f) (stopped_well cs) (me_fencedFor (mem w1))) (mem w1) ->
      exists css, calls w' = calls w ++ concat css /\ Forall2 stop_calls (done ++ [id]) css /\ mem w' = with_fenced (fenced_by (concat css)) (mem w)).
    { intros w' cs Hc' Hs' Hm'. exists (css ++ [cs]). rewrite concat_app. simpl. rewrite app_nil_r, Hc', Hc, <- app_assoc.
      split_and!; [done|apply Forall2_app; [done|by constructor]|]. rewrite Hm', Hm. unfold with_fenced, fenced_by, stopped_well. simpl.
      by rewrite omap_app, fold_left_app. }
    apply wp_bind, wp_attempt, (call_rule env _ _ _ _ (lr_status R HR id)). intros [st|err] w2 Hc2 Hm2.
    2:{ rewrite wp_ret. apply (Hstep _ [Statused id (Err err)]); [done|left; exists (Err err); done|]. rewrite Hm2. simpl. by destruct (mem w1). }
    destruct (String.eqb (st_Phase st) PhaseRunning) eqn:Ep; simpl negb; cbv iota.
    2:{ rewrite wp_ret. apply (Hstep _ [Statused id (Ok st)]); [done| |rewrite Hm2; simpl; by destruct (mem w1)].
        left. exists (Ok st). split; [done|]. intros st' [= <-]. by apply String.eqb_neq. }
    apply String.eqb_eq in Ep.
    apply wp_bind, wp_attempt, (call_rule env _ _ _ _ (lr_stop R HR id)). intros [[]|err] w3 Hc3 Hm3; rewrite Hc2, <- app_assoc in Hc3; simpl in Hc3.
    + unfold noteFenced, wp, locked. eapply Hstep; [|right; exists st, (Ok tt); done|].
      * unfold part. simpl. rewrite apart. exact Hc3.
      * unfold part at 1. simpl. rewrite hget_hput. fold (mem w3). by rewrite Hm3, Hm2.
    + rewrite wp_ret. eapply Hstep; [exact Hc3|right; exists st, (Err err); done|]. rewrite Hm3, Hm2. simpl. by destruct (mem w1).
  - exists []. simpl. rewrite app_nil_r. split_and!; [done|done|]. by destruct (mem w).
Qed.
End sweep_rules.

Section properties.
Context {S : Type} `{!Has Memory S, !Has (list call) S, !Apart Memory (list call) S}.
Abbreviation calls w := (part (T:=list call) w).
Abbreviation mem w := (part (T:=Memory) w).


Lemma stop_calls_in present css : Forall2 stop_calls present css ->
  (forall id, id ∈ present -> exists answer, Statused id answer ∈ concat css /\
     forall st, answer = Ok st -> st_Phase st = PhaseRunning -> exists r, Stopped id r ∈ concat css) /\
  (forall c, c ∈ concat css -> exists id, id ∈ present /\
     ((exists r, c = Statused id r) \/ (exists r st, c = Stopped id r /\ Statused id (Ok st) ∈ concat css /\ st_Phase st = PhaseRunning))).
Proof.
  induction 1 as [|id cs present css Hs _ [IH1 IH2]]; [set_solver|]. simpl. split.
  - intros id' [->|Hid]%elem_of_cons.
    + destruct Hs as [(r & -> & Hr)|(st & r & -> & Hst)].
      * exists r. split; [set_solver|]. intros st Es Hp. by apply Hr in Es.
      * exists (Ok st). split; [set_solver|]. intros _ _ _. exists r. set_solver.
    + destruct (IH1 id' Hid) as (answer & Ha & Hst). exists answer. split; [set_solver|]. intros st Es Hp.
      destruct (Hst st Es Hp) as [r Hr]. exists r. set_solver.
  - intros c [Hc|Hc]%elem_of_app.
    + exists id. split; [set_solver|]. destruct Hs as [(r & -> & _)|(st & r & -> & Hst)]; [left; set_solver|].
      apply elem_of_cons in Hc as [->|Hc]; [left; eauto|]. apply list_elem_of_singleton in Hc as ->. right. exists r, st. set_solver.
    + destruct (IH2 c Hc) as (id' & Hid & Hcase). exists id'. split; [set_solver|]. destruct Hcase as [?|(r & st & -> & Hst & Hp)]; [by left|].
      right. exists r, st. set_solver.
Qed.

Lemma fenced_lookup (silence : Z) ids f id :
  fold_left (fun f id => <[id := silence]> f) ids f !! id = if bool_decide (id ∈ ids) then Some silence else (f : gmap string Z) !! id.
Proof.
  revert f. induction ids as [|i ids IH]; intros f; simpl; [done|]. rewrite IH.
  destruct (decide (id = i)) as [->|Hne]; [rewrite lookup_insert_eq|rewrite lookup_insert_ne by done];
    repeat case_bool_decide; set_solver.
Qed.


(** [collectGarbage_exact]: every runtime is asked what it has, and exactly the workloads among
    the answers that are not assigned to the node are removed, in that order; a runtime that
    does not answer loses nothing, and one failing removal does not keep the others. *)
Theorem collectGarbage_exact (runtimes : list (string * Runtime S)) (HR : Forall (fun r => Logged (snd r)) runtimes)
    (d : option (Datapath S)) (Hd : if_some d (fun d => forall k, leaves (list call) (Prune d k) /\ leaves Memory (Prune d k)))
    assigned networks env (w : World S) :
  let '(r, w') := collectGarbage runtimes d assigned networks env w in
  r = Ok tt /\ mem w' = mem w /\ exists cs, calls w' = calls w ++ cs /\ Forall is_sweep cs /\
  length (listings cs) = length runtimes /\
  removals cs = List.filter (unassigned assigned) (concat (map fetched (listings cs))).
Proof.
  enough (H : wp env (collectGarbage runtimes d assigned networks) (fun r w' => r = Ok tt /\ mem w' = mem w /\
    exists cs, calls w' = calls w ++ cs /\ Forall is_sweep cs /\ length (listings cs) = length runtimes /\
    removals cs = List.filter (unassigned assigned) (concat (map fetched (listings cs)))) w) by (unfold wp in H; by destruct (collectGarbage _ _ _ _ _ _)).
  unfold collectGarbage. apply wp_bind. eapply wp_mono; [|by apply garbage_rule]. intros r w1 (-> & Hm & cs & Hc & Hrest).
  destruct d as [d|]; [|rewrite wp_ret; eauto 6]. destruct (Hd d eq_refl (MkKeep (map nw_Bridge networks) (map iv_ID assigned))) as [Hd1 Hd2].
  unfold quietly. apply wp_bind, wp_attempt. specialize (Hd1 env w1). specialize (Hd2 env w1). unfold wp.
  destruct (Prune _ _ _ _) as [r' w2]. simpl in *. split; [done|]. split; [congruence|]. exists cs. by rewrite Hd1.
Qed.
End properties.

(** * A node with two containers, one of which is not assigned to it *)

Module Demo.
Definition state : Type := Memory * list call.
#[local] Existing Instance Has_fst.
#[local] Existing Instance Has_snd.
#[local] Existing Instance Apart_pair.
Definition say {A} (c : outcome A -> call) (r : outcome A) : M state A :=
  fun _ w => (r, with_st w (fst (w_st w), snd (w_st w) ++ [c r])).
Definition runtime : Runtime state := {|
  rt_List := say Listed (Ok ["i-one"; "i-two"]);
  rt_Start spec := say (Started spec) (Err (EText "no image"));
  rt_Stop id := say (Stopped id) (if String.eqb id "i-one" then Ok tt else Err (EText "busy"));
  rt_Status id := say (Statused id) (Ok (MkState (if String.eqb id "i-one" then PhaseRunning else PhaseAbsent) "" 0));
  rt_Remove id := say (Removed id) (Ok tt);
  rt_Resize := None; rt_Keeper := None; rt_Archiver := None; rt_Cloner := None; rt_Carrier := None; rt_SyncDisks := None;
  rt_ReleaseDisks := None; rt_Sample := None; rt_LogPath := None; rt_UseCredentials := None |}.
Definition runtimes : list (string * Runtime state) := [(fenceIsolation, runtime)].
Definition env : Env := {| env_now n := 1000 * second + Z.of_nat n; env_rand _ := []; env_io _ := false |}.
Definition world : World state := MkWorld (MkMemory ∅ ∅ zero_time "n-1", []) O [].
Definition two : instanceView := MkInstanceView "" "i-two" "two" fenceIsolation "web" "" "" "" 0 [] 1 128 restartAlways 0 []
  ∅ [] desiredRunning observedPending "" None false false.
Definition nics : list NetworkConfig := [MkNetworkConfig "br0" "10.0.0.1/16" "" "10.0.1.2" 24 "10.0.0.1" "" 0 "" "" "10.0.0.1" "net.internal"].

Lemma runtimes_logged : Forall (fun r => Logged (Has0:=Has_fst _ _) (Has1:=Has_snd _ _) (snd r)) runtimes.
Proof. repeat constructor; simpl; try done. Qed.
End Demo.



Lemma collectGarbage_exact_witness :
  exists cs w', collectGarbage (S:=Demo.state) Demo.runtimes None [Demo.two] [] Demo.env Demo.world = (Ok tt, w') /\
  snd (w_st w') = cs /\ removals cs = ["i-one"].
Proof.
  pose proof (collectGarbage_exact (Has0:=Has_fst _ _) (Has1:=Has_snd _ _) (Apart0:=Apart_pair _ _) Demo.runtimes Demo.runtimes_logged None
    ltac:(intros d [=]) [Demo.two] [] Demo.env Demo.world) as H.
  destruct (collectGarbage _ _ _ _ _ _) as [r w'] eqn:E. destruct H as (-> & _ & cs & Hc & _).
  exists cs, w'. split; [reflexivity|]. split; [exact Hc|]. vm_compute in E. injection E as <-.
  vm_compute in Hc. subst cs. reflexivity.
Defined.

