(* ===== verification/NodePlan.v ===== *)
(** What a node derives from the desired state before it touches anything (the planning half
    of internal/agent/reconcile.go): the interfaces of every instance, egress, routes,
    anti-spoofing filters, firewall guards, published ports and TLS endpoints, the zone of
    the resolver, and the files a runtime may keep.

    Everything here is a function of the views; the loop that applies it is in NodeLoop.v.
    A Go map from string is a [gmap]; the datapath is only ever handed lists, whose order is
    that of the views. *)
From stdpp Require Import base tactics numbers strings list gmap sorting.
From Stdlib Require Import ZArith Lia.
From S2P Require Import Prelude GoLang Effects Netip AgentViews.

(** * Interfaces *)

(* go: agent/reconcile.go bridgeAddress6 *)
Definition bridgeAddress6 (n : networkView) : string :=
  if is_empty (nw_CIDR6 n) || is_empty (nw_Gateway6 n) then ""
  else match ParsePrefix (nw_CIDR6 n) with
       | None => ""
       | Some prefix => nw_Gateway6 n +:+ "/" +:+ itoa (p_bits prefix)
       end.
(* go: agent/reconcile.go sliceBits6 *)
Definition sliceBits6 (n : networkView) : Z :=
  match ParsePrefix (nw_Slice6 n) with None => 0 | Some prefix => p_bits prefix end.
(* go: agent/reconcile.go attachedNIC *)
Record attachedNIC := MkAttached { at_device : Z; at_config : NetworkConfig }.
Definition dnsSuffix : string := "internal".

Definition config_of (n : networkView) (network slice : Prefix) (nic : nicView) : NetworkConfig :=
  MkNetworkConfig (nw_Bridge n) (nw_Gateway n +:+ "/" +:+ itoa (p_bits network)) (bridgeAddress6 n) (nv_IP nic) (p_bits slice)
    (nw_Gateway n) (nv_IP6 nic) (sliceBits6 n) (nw_Gateway6 n) (nv_MAC nic) (nw_Gateway n) (nw_Name n +:+ "." +:+ dnsSuffix).
(** [m[k] = append(m[k], v)] *)
Definition push {A} (m : gmap string (list A)) (k : string) (v : A) : gmap string (list A) :=
  <[k := default [] (m !! k) ++ [v]]> m.
(** The interfaces of one network; one whose ranges cannot be read is skipped. *)
Definition attach (attached : gmap string (list attachedNIC)) (n : networkView) : gmap string (list attachedNIC) :=
  match ParsePrefix (nw_CIDR n) with
  | None => attached
  | Some network =>
  match ParsePrefix (nw_Slice n) with
  | None => attached
  | Some slice =>
      fold_left (fun m nic => push m (nv_InstanceID nic) (MkAttached (nv_Device nic) (config_of n network slice nic))) (nw_NICs n) attached
  end end.
(** [a.device - b.device < 0], in the integers of 64 bits. *)
Definition before_device (a b : attachedNIC) : bool := wrap64 (at_device a - at_device b) <? 0.
(* go: agent/reconcile.go Agent.interfacesByInstance *)
Definition interfacesByInstance (networks : list networkView) : gmap string (list NetworkConfig) :=
  (fun nics => map at_config (sliceStable before_device nics)) <$> fold_left attach networks ∅.

(** * Datapath *)

(* go: agent/reconcile.go isolationsOf *)
Definition isolationsOf (assigned : list instanceView) : gmap string string :=
  fold_left (fun m i => <[iv_ID i := iv_Isolation i]> m) assigned ∅.
(* go: agent/reconcile.go:309-312 zone *)
Definition zone_of (records : list dnsRecordView) : gmap string (list string) :=
  fold_left (fun m r => push m (dr_FQDN r) (dr_IP r)) records ∅.
(* go: agent/reconcile.go:321-332 wanted *)
Definition egress_of (networks : list networkView) : list Egress :=
  omap (fun n => match ParsePrefix (nw_CIDR n) with
    | None => None
    | Some prefix => Some (MkEgress (nw_Bridge n) (nw_Gateway n +:+ "/" +:+ itoa (p_bits prefix)) (bridgeAddress6 n))
    end) networks.
Definition peers_of (networks : list networkView) : list peerView := concat (map nw_Peers networks).
Definition node_addresses (nodes : list nodeView) : gmap string string := fold_left (fun m n => <[no_ID n := no_Address n]> m) nodes ∅.
(* go: agent/reconcile.go:344-366 routes *)
Definition routes_of (networks : list networkView) (nodes : list nodeView) : list Route :=
  omap (fun peer => match node_addresses nodes !! pv_NodeID peer with
    | Some via => if is_empty via then None else Some (MkRoute (pv_Slice peer) via)
    | None => None
    end) (peers_of networks).
(* go: agent/reconcile.go:383-396 filters *)
Definition filters_of (networks : list networkView) (isolations : gmap string string) : list Filter :=
  concat (map (fun n => map (fun nic => MkFilter (nv_InstanceID nic) (default "" (isolations !! nv_InstanceID nic)) (nw_Bridge n)
    (nv_IP nic) (nv_IP6 nic) (nv_MAC nic) (nv_Device nic)) (nw_NICs n)) networks).

(** ** Guards *)

Definition guard_rule (r : firewallRuleView) : GuardRule := MkGuardRule (fr_Protocol r) (fr_FromPort r) (fr_ToPort r) (fr_Source r).
(* go: agent/reconcile.go:412-424 rules *)
Definition rule_sets (firewalls : list firewallView) : gmap string (list GuardRule) :=
  fold_left (fun m f => <[fi_ID f := map guard_rule (fi_Rules f)]> m) firewalls ∅.
Definition nic_addresses (nic : nicView) : list string := nv_IP nic :: if is_empty (nv_IP6 nic) then [] else [nv_IP6 nic].
Definition push_addresses (m : gmap string (list string)) (nic : nicView) : gmap string (list string) :=
  fold_left (fun m a => push m (nv_InstanceID nic) a) (nic_addresses nic) m.
(* go: agent/reconcile.go:426-434 addresses *)
Definition instance_addresses (networks : list networkView) : gmap string (list string) :=
  fold_left push_addresses (concat (map nw_NICs networks)) ∅.
(* go: agent/reconcile.go:436-458 guards *)
Definition guards_of (assigned : list instanceView) (networks : list networkView) (firewalls : list firewallView) : list Guard :=
  concat (map (fun i =>
    if is_empty (iv_FirewallID i) then []
    else match rule_sets firewalls !! iv_FirewallID i with
         | None => []
         | Some set => map (fun address => MkGuard (iv_ID i) (iv_Isolation i) address set)
                           (default [] (instance_addresses networks !! iv_ID i))
         end) assigned).

(** ** Published ports *)

(* go: runtime/tlsproxy/route.go EndpointRoute *)
Record EndpointRoute := MkEndpointRoute { er_Host : string; er_Path : string; er_Targets : list string }.
(* go: runtime/tlsproxy/tlsproxy.go Endpoint *)
Record Endpoint := MkEndpoint {
  ep_ID : string; ep_ListenPort : Z; ep_TargetPort : Z; ep_Certificate : string; ep_PrivateKey : string;
  ep_Targets : list string; ep_Routes : list EndpointRoute;
}.
(* go: agent/reconcile.go healthyAddresses *)
Definition healthyAddresses (backends : list balancerBackendView) : list string :=
  map bb_Address (List.filter (fun b => bb_Healthy b && negb (is_empty (bb_Address b))) backends).
(* go: agent/reconcile.go endpointRoutes *)
Definition endpointRoutes (routes : list balancerRouteView) : list EndpointRoute :=
  map (fun one => MkEndpointRoute (br_Host one) (br_Path one) (healthyAddresses (br_Backends one))) routes.
Definition endpoint_of_forward (f : forwardView) : Endpoint :=
  MkEndpoint (fw_ID f) (fw_NodePort f) (fw_TargetPort f) (fw_Certificate f) (fw_PrivateKey f) [fw_Address f] [].
Definition publish_of_forward (f : forwardView) : Publish :=
  MkPublish (fw_Protocol f) (fw_NodePort f) (fw_TargetPort f) (fw_Address f) [] "".
Definition endpoint_of_balancer (b : balancerView) : Endpoint :=
  MkEndpoint (bv_ID b) (bv_ListenPort b) (bv_TargetPort b) (bv_Certificate b) (bv_PrivateKey b)
    (healthyAddresses (bv_Backends b)) (endpointRoutes (bv_Routes b)).
Definition publish_of_balancer (b : balancerView) : Publish :=
  MkPublish (bv_Protocol b) (bv_ListenPort b) (bv_TargetPort b) "" (healthyAddresses (bv_Backends b)) (bv_Algorithm b).
(** The ports the kernel forwards, and the endpoints a process of the node listens on. *)
(* go: agent/reconcile.go:469-517 published *)
Definition published_of (forwards : list forwardView) (balancers : list balancerView) : list Publish :=
  map publish_of_forward (List.filter (fun f => negb (forward_terminatesTLS f)) forwards) ++
  map publish_of_balancer
    (List.filter (fun b => negb (runsInUserspace b) && negb (length (healthyAddresses (bv_Backends b)) =? 0)%nat) balancers).
(* go: agent/reconcile.go:470-503 terminating *)
Definition terminating_of (forwards : list forwardView) (balancers : list balancerView) : list Endpoint :=
  map endpoint_of_forward (List.filter forward_terminatesTLS forwards) ++
  map endpoint_of_balancer (List.filter runsInUserspace balancers).

(** * What the tables hold *)

Lemma fold_insert_lookup {A V} (key : A -> string) (value : A -> V) l m k :
  fold_left (fun m x => <[key x := value x]> m) l m !! k =
  match last (List.filter (fun x => String.eqb (key x) k) l) with Some x => Some (value x) | None => (m : gmap string V) !! k end.
Proof.
  revert m. induction l as [|x l IH]; intros m; simpl; [done|]. rewrite IH. destruct (String.eqb (key x) k) eqn:E.
  - apply String.eqb_eq in E. rewrite last_cons. destruct (last _); [done|]. by rewrite E, lookup_insert_eq.
  - apply String.eqb_neq in E. destruct (last _); [done|]. by rewrite lookup_insert_ne.
Qed.

Lemma push_lookup {A} (m : gmap string (list A)) k v k' :
  default [] (push m k v !! k') = default [] (m !! k') ++ (if String.eqb k k' then [v] else []).
Proof.
  unfold push. destruct (String.eqb k k') eqn:E.
  - apply String.eqb_eq in E. subst. by rewrite lookup_insert_eq.
  - apply String.eqb_neq in E. rewrite lookup_insert_ne by done. by rewrite app_nil_r.
Qed.

Lemma fold_push_lookup {A B} (key : A -> string) (value : A -> B) l m k :
  default [] (fold_left (fun m x => push m (key x) (value x)) l m !! k) =
  default [] (m !! k) ++ map value (List.filter (fun x => String.eqb (key x) k) l).
Proof.
  revert m. induction l as [|x l IH]; intros m; simpl; [by rewrite app_nil_r|].
  rewrite IH, push_lookup, <- app_assoc. by destruct (String.eqb (key x) k).
Qed.

(** The interfaces an instance has on a network. *)
Definition nics_of (instanceID : string) (n : networkView) : list nicView :=
  List.filter (fun nic => String.eqb (nv_InstanceID nic) instanceID) (nw_NICs n).

Lemma nics_of_all instanceID networks :
  List.filter (fun nic => String.eqb (nv_InstanceID nic) instanceID) (concat (map nw_NICs networks)) = concat (map (nics_of instanceID) networks).
Proof. induction networks as [|n networks IH]; [done|]. simpl. by rewrite List.filter_app, IH. Qed.

Lemma instance_addresses_spec networks instanceID :
  default [] (instance_addresses networks !! instanceID) = concat (map nic_addresses (concat (map (nics_of instanceID) networks))).
Proof.
  rewrite <- nics_of_all. unfold instance_addresses. generalize (concat (map nw_NICs networks)). intros nics.
  enough (H : forall m, default [] (fold_left push_addresses nics m !! instanceID) =
    default [] (m !! instanceID) ++ concat (map nic_addresses (List.filter (fun nic => String.eqb (nv_InstanceID nic) instanceID) nics))) by apply H.
  induction nics as [|nic nics IH]; intros m; simpl; [by rewrite app_nil_r|]. rewrite IH. clear IH. unfold push_addresses.
  rewrite (fold_push_lookup (fun _ => nv_InstanceID nic) (fun a => a)), map_id, <- app_assoc. f_equal.
  destruct (String.eqb (nv_InstanceID nic) instanceID).
  - rewrite map_cons. cbn [concat]. f_equal. induction (nic_addresses nic) as [|a l IH]; [done|]. simpl. by rewrite IH.
  - by induction (nic_addresses nic).
Qed.

(** * Theorems *)

(** A firewall as the list of the node tells it; the last of those with the same id counts. *)
Definition firewall_at (firewalls : list firewallView) (id : string) : option firewallView :=
  last (List.filter (fun f => String.eqb (fi_ID f) id) firewalls).

Lemma rule_sets_lookup firewalls id : rule_sets firewalls !! id = (fun f => map guard_rule (fi_Rules f)) <$> firewall_at firewalls id.
Proof. unfold rule_sets, firewall_at. rewrite (fold_insert_lookup fi_ID). by destruct (last _). Qed.

(** [guards_exact]: the guards of a node are exactly these: for every instance assigned to it
    that names a firewall of the list, every address of either family it has on any network
    is guarded, with the rules of that firewall in their order.  No other address is
    guarded; an instance whose firewall is not in the list has none. *)
Theorem guards_exact assigned networks firewalls g :
  g ∈ guards_of assigned networks firewalls <->
  exists i f n nic, i ∈ assigned /\ iv_FirewallID i <> "" /\ firewall_at firewalls (iv_FirewallID i) = Some f /\
    n ∈ networks /\ nic ∈ nw_NICs n /\ nv_InstanceID nic = iv_ID i /\
    (gu_IP g = nv_IP nic \/ (gu_IP g = nv_IP6 nic /\ nv_IP6 nic <> "")) /\
    gu_InstanceID g = iv_ID i /\ gu_Isolation g = iv_Isolation i /\ gu_Rules g = map guard_rule (fi_Rules f).
Proof.
  unfold guards_of. rewrite list_elem_of_In, in_concat. setoid_rewrite <- list_elem_of_In.
  assert (Haddr : forall i a, a ∈ default [] (instance_addresses networks !! iv_ID i) <->
    exists n nic, n ∈ networks /\ nic ∈ nw_NICs n /\ nv_InstanceID nic = iv_ID i /\ (a = nv_IP nic \/ (a = nv_IP6 nic /\ nv_IP6 nic <> ""))).
  { intros i a. rewrite instance_addresses_spec, list_elem_of_In, in_concat. setoid_rewrite <- list_elem_of_In.
    assert (Hin : forall nic, a ∈ nic_addresses nic <-> a = nv_IP nic \/ (a = nv_IP6 nic /\ nv_IP6 nic <> "")).
    { intros nic. unfold nic_addresses. pose proof (is_empty_spec (nv_IP6 nic)) as He. destruct (is_empty (nv_IP6 nic)).
      - destruct He as [He _]. specialize (He eq_refl). set_solver.
      - assert (nv_IP6 nic <> "") by (intros E; by apply He in E). set_solver. }
    split.
    - intros (l & Hl & Ha). apply list_elem_of_fmap in Hl as (nic & -> & Hnic). rewrite list_elem_of_In, in_concat in Hnic.
      setoid_rewrite <- list_elem_of_In in Hnic. destruct Hnic as (l & Hl & Hnic). apply list_elem_of_fmap in Hl as (n & -> & Hn).
      apply elem_of_filter_bool in Hnic as [Hnic E%String.eqb_eq]. exists n, nic. by rewrite <- Hin.
    - intros (n & nic & Hn & Hnic & E & Ha). exists (nic_addresses nic). rewrite Hin. split; [|done].
      apply list_elem_of_fmap. exists nic. split; [done|]. rewrite list_elem_of_In, in_concat. exists (nics_of (iv_ID i) n).
      rewrite <- !list_elem_of_In. split; [by apply list_elem_of_fmap_2|]. apply elem_of_filter_bool. by rewrite E, String.eqb_refl. }
  split.
  - intros (l & Hl & Hg). apply list_elem_of_fmap in Hl as (i & -> & Hi). destruct (is_empty (iv_FirewallID i)) eqn:Ee; [set_solver|].
    rewrite rule_sets_lookup in Hg. destruct (firewall_at firewalls (iv_FirewallID i)) as [f|] eqn:Ef; simpl in Hg; [|set_solver].
    apply list_elem_of_fmap in Hg as (a & -> & Ha). apply Haddr in Ha as (n & nic & Hn & Hnic & E & Ha).
    exists i, f, n, nic. split_and!; try done. intros E'. apply is_empty_spec in E'. congruence.
  - intros (i & f & n & nic & Hi & He & Ef & Hn & Hnic & E & Ha & E1 & E2 & E3). eexists. split.
    + apply list_elem_of_fmap. exists i. split; [reflexivity|done].
    + assert (is_empty (iv_FirewallID i) = false) as -> by (destruct (is_empty _) eqn:E'; [by apply is_empty_spec in E'|done]).
      rewrite rule_sets_lookup, Ef. simpl. apply list_elem_of_fmap. exists (gu_IP g). split; [destruct g; simpl in *; congruence|].
      apply Haddr. eauto 6.
Qed.

(** The interfaces an instance has on a network whose ranges can be read. *)
Definition attached_on (instanceID : string) (n : networkView) : list attachedNIC :=
  match ParsePrefix (nw_CIDR n), ParsePrefix (nw_Slice n) with
  | Some network, Some slice => map (fun nic => MkAttached (nv_Device nic) (config_of n network slice nic)) (nics_of instanceID n)
  | _, _ => []
  end.

Lemma attach_lookup n m instanceID : default [] (attach m n !! instanceID) = default [] (m !! instanceID) ++ attached_on instanceID n.
Proof.
  unfold attach, attached_on. destruct (ParsePrefix (nw_CIDR n)) as [network|]; [|by rewrite app_nil_r].
  destruct (ParsePrefix (nw_Slice n)) as [slice|]; [|by rewrite app_nil_r]. apply (fold_push_lookup nv_InstanceID).
Qed.

Lemma attach_all_lookup networks m instanceID :
  default [] (fold_left attach networks m !! instanceID) = default [] (m !! instanceID) ++ concat (map (attached_on instanceID) networks).
Proof.
  revert m. induction networks as [|n networks IH]; intros m; simpl; [by rewrite app_nil_r|]. by rewrite IH, attach_lookup, app_assoc.
Qed.

#[local] Instance device_order : WeakOrder (fun a b : attachedNIC => at_device a <? at_device b).
Proof. split; intros *; rewrite ?Z.ltb_lt, ?Z.ltb_ge; lia. Qed.

(** Slots of interfaces are small numbers. *)
Definition small_device (a : attachedNIC) : Prop := 0 <= at_device a < two63.

Lemma sorted_devices nics : Forall small_device nics ->
  StronglySorted (fun a b => at_device a <= at_device b) (sliceStable before_device nics).
Proof.
  intros Hs. assert (Hd : forall a b, small_device a -> small_device b -> before_device a b = (at_device a <? at_device b)).
  { unfold before_device, small_device. intros a b Ha Hb. rewrite wrap64_small by (unfold in_int64, min_int64, max_int64; lia).
    destruct (Z.ltb_spec (at_device a - at_device b) 0), (Z.ltb_spec (at_device a) (at_device b)); lia || done. }
  pose proof (sliceStable_coarse before_device (fun a b => at_device a <? at_device b) small_device) as H.
  assert (H1 : sorted_by (fun a b => at_device a <? at_device b) (sliceStable before_device nics)).
  { apply H; [| |done]; intros x y Hx Hy; rewrite Hd by done; [done|]. rewrite Z.ltb_lt, Z.ltb_ge. lia. }
  clear H. rename H1 into H. unfold sorted_by in H. induction H as [|a l Hl IH Ha]; constructor; [done|]. eapply Forall_impl; [exact Ha|]. simpl. intros b. rewrite Z.ltb_ge. done.
Qed.

(** [interfaces_exact]: an instance is handed exactly the interfaces it has on the networks
    whose ranges can be read, in the order of their slots, so that the first one is that of
    the lowest slot. *)
Theorem interfaces_exact networks instanceID
    (Hsmall : forall n nic, n ∈ networks -> nic ∈ nw_NICs n -> 0 <= nv_Device nic < two63) :
  exists nics, default [] (interfacesByInstance networks !! instanceID) = map at_config nics /\
  nics ≡ₚ concat (map (attached_on instanceID) networks) /\
  StronglySorted (fun a b => at_device a <= at_device b) nics.
Proof.
  pose proof (attach_all_lookup networks ∅ instanceID) as H. rewrite lookup_empty in H. simpl in H.
  unfold interfacesByInstance. rewrite lookup_fmap. exists (sliceStable before_device (concat (map (attached_on instanceID) networks))).
  split; [|split].
  - rewrite <- H. by destruct (fold_left attach networks ∅ !! instanceID).
  - apply sliceStable_perm.
  - apply sorted_devices, Forall_forall. intros a Ha. rewrite list_elem_of_In, in_concat in Ha. destruct Ha as (l & Hl & Ha).
    rewrite <- !list_elem_of_In in *. apply list_elem_of_fmap in Hl as (n & -> & Hn). unfold attached_on in Ha.
    destruct (ParsePrefix (nw_CIDR n)) as [network|]; [|set_solver]. destruct (ParsePrefix (nw_Slice n)) as [slice|]; [|set_solver].
    apply list_elem_of_fmap in Ha as (nic & -> & Hnic). apply elem_of_filter_bool in Hnic as [Hnic _]. by apply (Hsmall n).
Qed.

Lemma interfaces_exact_witness :
  let n := MkNetworkView "net-1" "default" "br1" "10.20.0.0/16" "10.20.0.1" "" "" "10.20.3.0/24" ""
             [MkNicView "i-1" 1 "10.20.3.9" "" "02:00"; MkNicView "i-2" 0 "10.20.3.2" "" "02:01"; MkNicView "i-1" 0 "10.20.3.4" "" "02:02"] [] in
  exists nics, default [] (interfacesByInstance [n] !! "i-1") = map at_config nics /\ map nc_IP (map at_config nics) = ["10.20.3.4"; "10.20.3.9"].
Proof.
  intros n. destruct (interfaces_exact [n] "i-1") as (nics & E & _).
  { intros n' nic ->%list_elem_of_singleton Hnic. simpl in Hnic. rewrite !elem_of_cons in Hnic. unfold two63.
    destruct Hnic as [->|[->|[->|Hn%not_elem_of_nil]]]; simpl; lia. }
  exists nics. split; [exact E|]. rewrite <- E. vm_compute. reflexivity.
Defined.
