(* ===== verification/Health.v ===== *)
(** Health checks of balancer backends as a node makes them (internal/agent/health.go): which
    backends are probed, how the outcome of the probes settles into a verdict, and what is
    reported.  The network is behind the interface [Dialer]. *)
From stdpp Require Import base tactics numbers strings list gmap.
From Stdlib Require Import ZArith Lia.
From S2P Require Import Prelude GoLang Effects AgentViews.

Definition checkKindNone : string := "none".
Definition checkKindHTTP : string := "http".

(* go: agent/health.go probeState *)
Record probeState := MkProbe { pb_passes : Z; pb_failures : Z; pb_verdict : bool; pb_settled : bool; pb_lastError : string }.
Definition new_probe : probeState := MkProbe 0 0 false false "".
Abbreviation Probes := (gmap string probeState).
(* go: agent/health.go probeTarget *)
Record probeTarget := MkTarget {
  pt_balancerID : string; pt_instanceID : string; pt_address : string; pt_port : Z; pt_kind : string; pt_path : string;
  pt_rise : Z; pt_fall : Z;
}.

(** * What is probed *)

(** The backends of one balancer, each instance once. *)
Fixpoint backend_targets (b : balancerView) (mine : list string) (seen : list string) (backends : list balancerBackendView) : list probeTarget :=
  match backends with
  | [] => []
  | backend :: rest =>
      if negb (existsb (String.eqb (bb_InstanceID backend)) mine) || is_empty (bb_Address backend) then backend_targets b mine seen rest
      else if existsb (String.eqb (bb_InstanceID backend)) seen then backend_targets b mine seen rest
      else MkTarget (bv_ID b) (bb_InstanceID backend) (bb_Address backend) (bv_TargetPort b) (bv_Check b) (bv_CheckPath b) (bv_Rise b) (bv_Fall b)
             :: backend_targets b mine (bb_InstanceID backend :: seen) rest
  end.
(* go: agent/health.go probeTargets *)
Definition probeTargets (balancers : list balancerView) (mine : list string) : list probeTarget :=
  concat (map (fun b =>
    if is_empty (bv_Check b) || String.eqb (bv_Check b) checkKindNone then []
    else backend_targets b mine [] (bv_Backends b ++ concat (map br_Backends (bv_Routes b)))) balancers).

(** * Probes *)

(** [net.JoinHostPort]: a host with a colon is put in brackets. *)
Definition JoinHostPort (host port : string) : string :=
  match index_byte host (Ascii.ascii_of_N 58) with
  | Some _ => "[" +:+ host +:+ "]:" +:+ port
  | None => host +:+ ":" +:+ port
  end.

(** The network: opening a connection, whether a URL can be asked for, and asking for it. *)
Record Dialer (S : Type) := {
  dl_tcp : string -> M S unit;
  dl_valid : string -> bool;
  dl_get : string -> M S Z;
}.
Arguments dl_tcp {S}. Arguments dl_valid {S}. Arguments dl_get {S}.

Definition key_of (target : probeTarget) : string := pt_balancerID target +:+ "/" +:+ pt_instanceID target.

(** The counters after one more outcome. *)
(* go: agent/health.go:146-153 failures *)
Definition counted (err : option error) (s : probeState) : probeState :=
  match err with
  | None => MkProbe (pb_passes s + 1) 0 (pb_verdict s) (pb_settled s) (pb_lastError s)
  | Some e => MkProbe 0 (pb_failures s + 1) (pb_verdict s) (pb_settled s) (error_text e)
  end.
(** The verdict when a threshold is reached. *)
(* go: agent/health.go:155-160 verdict *)
Definition judged (rise fall : Z) (s : probeState) : probeState :=
  if rise <=? pb_passes s then MkProbe (pb_passes s) (pb_failures s) true true (pb_lastError s)
  else if fall <=? pb_failures s then MkProbe (pb_passes s) (pb_failures s) false true (pb_lastError s)
  else s.
Definition of_count (count needed : Z) : string := itoa count +:+ " of " +:+ itoa needed.
(* go: agent/health.go reasonFor *)
Definition reasonFor (state : probeState) (target : probeTarget) : string :=
  if negb (pb_settled state) && (0 <? pb_passes state) then "passed " +:+ of_count (pb_passes state) (pt_rise target) +:+ " needed to come up"
  else if negb (pb_settled state) then "failed " +:+ of_count (pb_failures state) (pt_fall target) +:+ " needed to go down: " +:+ pb_lastError state
  else if pb_verdict state && (0 <? pb_failures state)
  then "failed " +:+ of_count (pb_failures state) (pt_fall target) +:+ " needed to go down, still up: " +:+ pb_lastError state
  else if pb_verdict state then ""
  else if 0 <? pb_passes state then "passed " +:+ of_count (pb_passes state) (pt_rise target) +:+ " needed to come back up"
  else pb_lastError state.

Section probes.
Context {S : Type} `{!Has Probes S}.
Context (net : Dialer S).

(* go: agent/health.go probeTCP *)
Definition probeTCP (target : probeTarget) : M S unit :=
  mapped (fun _ => EText "tcp connect refused or timed out") (dl_tcp net (JoinHostPort (pt_address target) (itoa (pt_port target)))).
(* go: agent/health.go probeHTTP *)
Definition probeHTTP (target : probeTarget) : M S unit :=
  let url := "http://" +:+ JoinHostPort (pt_address target) (itoa (pt_port target)) +:+ pt_path target in
  if negb (dl_valid net url) then fail (EText "could not build the probe request")
  else
    let! status := mapped (fun _ => EText "http request failed or timed out") (dl_get net url) in
    if (status <? 200) || (399 <? status) then fail (EText ("http status " +:+ itoa status)) else ret tt.
(* go: agent/health.go probe *)
Definition probe (target : probeTarget) : M S unit :=
  if String.eqb (pt_kind target) checkKindHTTP then probeHTTP target else probeTCP target.

(* go: agent/health.go Agent.probeStateOf *)
Definition probeStateOf {A} (key : string) (f : probeState -> A * probeState) : M S A :=
  locked (fun m : Probes => let '(a, s) := f (default new_probe (m !! key)) in (a, <[key := s]> m)).
(* go: agent/health.go Agent.forgetProbes *)
Definition forgetProbes (wanted : list string) : M S unit :=
  locked (fun m : Probes => (tt, filter (fun kv => kv.1 ∈ wanted) m)).
(** The verdict, the reason and whether it changed. *)
(* go: agent/health.go Agent.settle *)
Definition settle (target : probeTarget) : M S (bool * string * bool) :=
  let! r := attempt (probe target) in
  let err := match r with Ok _ => None | Err e => Some e end in
  probeStateOf (key_of target) (fun s =>
    let s' := judged (pt_rise target) (pt_fall target) (counted err s) in
    ((pb_verdict s', reasonFor s' target, negb (pb_settled s) || xorb (pb_verdict s) (pb_verdict s')), s')).

Context (currentNodeID : M S string) (reportHealth : string -> list healthReportBody -> M S unit).

(* go: agent/health.go Agent.runProbes *)
Definition runProbes (balancers : list balancerView) (assigned : list instanceView) : M S unit :=
  let targets := probeTargets balancers (map iv_ID assigned) in
  forgetProbes (map key_of targets) ;;;
  match targets with
  | [] => ret tt
  | _ =>
      let! reports := foldM (fun target reports =>
        let! ' (verdict, reason, changed) := settle target in
        ret (reports ++ [MkHealthReport (pt_balancerID target) (pt_instanceID target) verdict reason])) targets [] in
      let! nodeID := currentNodeID in
      attempt (reportHealth nodeID reports) ;;; ret tt
  end.
End probes.

(** * The verdict as a function of the outcomes so far

    A history lists the outcomes of the probes of one target, the latest last. *)

Definition need (rise fall : Z) (v : bool) : nat := Z.to_nat (if v then rise else fall).
(** At some moment there were enough outcomes [v] in a row, and never since enough of the
    opposite ones. *)
Definition settled_as (rise fall : Z) (v : bool) (h : list bool) : Prop := exists h1 h2,
  h = h1 ++ replicate (need rise fall v) v ++ h2 /\
  forall p q, h2 <> p ++ replicate (need rise fall (negb v)) (negb v) ++ q.
(** The outcomes [v] at the end. *)
Fixpoint run_rev (v : bool) (h : list bool) : nat :=
  match h with b :: h' => if Bool.eqb b v then S (run_rev v h') else O | [] => O end.
Definition run (v : bool) (h : list bool) : nat := run_rev v (rev h).

Lemma run_snoc v h b : run v (h ++ [b]) = if Bool.eqb b v then S (run v h) else O.
Proof. unfold run. rewrite rev_app_distr. done. Qed.

Lemma run_spec v h : exists h', h = h' ++ replicate (run v h) v /\ forall h'', h' <> h'' ++ [v].
Proof.
  induction h as [|b h IH] using rev_ind; [exists []; split; [done|by intros []]|]. rewrite run_snoc.
  destruct (Bool.eqb b v) eqn:E.
  - apply Bool.eqb_prop in E as ->. destruct IH as (h' & Eh & Hn). exists h'. split; [|done].
    rewrite replicate_S_end, app_assoc. by rewrite <- Eh.
  - exists (h ++ [b]). split; [by rewrite app_nil_r|]. intros h'' [_ ->]%app_inj_tail. by destruct v.
Qed.

Lemma run_at_least v h n : (n <= run v h)%nat <-> exists h', h = h' ++ replicate n v.
Proof.
  split.
  - intros Hn. destruct (run_spec v h) as (h' & Eh & _). exists (h' ++ replicate (run v h - n) v).
    rewrite Eh at 1. rewrite <- app_assoc, <- replicate_add. do 2 f_equal. lia.
  - intros [h' ->]. induction n as [|n IH]; [lia|]. rewrite replicate_S_end, app_assoc, run_snoc, Bool.eqb_reflx. lia.
Qed.

Section hysteresis.
Context (rise fall : Z) (Hrise : 1 <= rise) (Hfall : 1 <= fall).
Abbreviation needed := (need rise fall).

Lemma need_pos v : (1 <= needed v)%nat.
Proof. unfold need. destruct v; lia. Qed.

(** A run of [b]s in [h ++ [c]] that is not one of [h] is at the end. *)
Lemma infix_snoc n (b c : bool) h p q : (1 <= n)%nat -> h ++ [c] = p ++ replicate n b ++ q ->
  (exists q', h = p ++ replicate n b ++ q') \/ (c = b /\ (n <= run b (h ++ [c]))%nat).
Proof.
  intros Hn E. destruct q as [|x q _] using rev_ind.
  - right. split; [|apply run_at_least; exists p; by rewrite app_nil_r in E].
    destruct n as [|n]; [lia|]. rewrite app_nil_r, replicate_S_end, app_assoc in E. by apply app_inj_tail in E as [_ ->].
  - left. exists q. rewrite !app_assoc in E. apply app_inj_tail in E as [E _]. by rewrite <- !app_assoc in E.
Qed.

Lemma settled_reached v h : (needed v <= run v (h ++ [v]))%nat ->
  settled_as rise fall v (h ++ [v]) /\ ~ settled_as rise fall (negb v) (h ++ [v]).
Proof.
  intros Hr. pose proof (proj1 (run_at_least _ _ _) Hr) as [h' Eh]. split.
  - exists h', []. rewrite app_nil_r. split; [done|]. intros p q E. pose proof (need_pos (negb v)).
    destruct (needed (negb v)); [lia|]. by destruct p.
  - intros (h1 & h2 & E & Hno). rewrite negb_involutive in Hno. rewrite Eh in E.
    (* the run of [v]s at the end lies behind the last opposite outcome *)
    assert (Hcut : exists p, h2 = p ++ replicate (needed v) v).
    { clear -E Hrise Hfall. pose proof (need_pos (negb v)) as Hpos. destruct (needed (negb v)) as [|k]; [lia|].
      rewrite replicate_S_end in E. revert h2 E. generalize (needed v). intros n. induction n as [|n IH]; intros h2 E; [exists h2; by rewrite app_nil_r|].
      rewrite (replicate_S_end n v) in E. destruct h2 as [|x h2 _] using rev_ind.
      - rewrite app_nil_r, !app_assoc in E. apply app_inj_tail in E as [_ E]. by destruct v.
      - rewrite !app_assoc in E. apply app_inj_tail in E as [E <-]. destruct (IH h2) as [p ->]; [by rewrite <- !app_assoc in *|].
        exists p. by rewrite (replicate_S_end n v), app_assoc. }
    destruct Hcut as [p ->]. apply (Hno p []). by rewrite app_nil_r.
Qed.

Lemma settled_kept v b h : (run b (h ++ [b]) < needed b)%nat ->
  settled_as rise fall v (h ++ [b]) <-> settled_as rise fall v h.
Proof.
  intros Hr. split.
  - intros (h1 & h2 & E & Hno). destruct (infix_snoc _ _ _ _ _ _ (need_pos v) E) as [[q Eq]|[-> Hle]]; [|lia].
    exists h1, q. split; [done|]. intros p q' ->. apply (Hno p (q' ++ [b])). rewrite Eq in E. clear -E.
    rewrite <- !app_assoc in E. apply app_inv_head, app_inv_head in E. by rewrite <- E.
  - intros (h1 & h2 & -> & Hno). exists h1, (h2 ++ [b]). rewrite <- !app_assoc. split; [done|]. intros p q E.
    destruct (infix_snoc _ _ _ _ _ _ (need_pos (negb v)) E) as [[q' Eq]|[-> Hle]]; [by eapply Hno|].
    assert (Hle' : (needed (negb v) <= run (negb v) ((h1 ++ replicate (needed v) v ++ h2) ++ [negb v]))%nat); [|lia].
    apply run_at_least. apply run_at_least in Hle as [h' E']. exists (h1 ++ replicate (needed v) v ++ h').
    rewrite <- !app_assoc. by rewrite <- E'.
Qed.

(** What is remembered of a target after a history. *)
Record holds (h : list bool) (s : probeState) : Prop := {
  ho_passes : pb_passes s = Z.of_nat (run true h);
  ho_failures : pb_failures s = Z.of_nat (run false h);
  ho_true : pb_verdict s = true <-> settled_as rise fall true h;
  ho_false : pb_settled s && negb (pb_verdict s) = true <-> settled_as rise fall false h;
}.

Lemma holds_new : holds [] new_probe.
Proof.
  assert (H : forall v, ~ settled_as rise fall v []).
  { intros v (h1 & h2 & E & _). pose proof (need_pos v). destruct (needed v); [lia|]. by destruct h1. }
  split; try done; simpl; (split; [done|]); intros Hs; by apply H in Hs.
Qed.

Lemma holds_step h s err : holds h s ->
  let b := match err with None => true | Some _ => false end in
  holds (h ++ [b]) (judged rise fall (counted err s)).
Proof.
  intros [Hp Hf Ht Hn] b.
  assert (Hcount : pb_passes (counted err s) = Z.of_nat (run true (h ++ [b])) /\ pb_failures (counted err s) = Z.of_nat (run false (h ++ [b]))).
  { rewrite !run_snoc. subst b. destruct err; simpl; lia. }
  assert (Hsame : pb_verdict (counted err s) = pb_verdict s /\ pb_settled (counted err s) = pb_settled s) by (by destruct err).
  destruct Hcount as [Ep Ef], Hsame as [Ev Es]. set (c := counted err s) in *.
  assert (Hother : run (negb b) (h ++ [b]) = 0%nat) by (rewrite run_snoc; by destruct b).
  unfold judged. destruct (Z.leb_spec rise (pb_passes c)).
  { assert (Hb : b = true) by (destruct b; [done|]; simpl in Hother; lia).
    rewrite Hb in *. destruct (settled_reached true h) as [H1 H2]; [unfold need; lia|]. split; simpl in *; try done; tauto. }
  destruct (Z.leb_spec fall (pb_failures c)).
  { assert (Hb : b = false) by (destruct b; [|done]; simpl in Hother; lia).
    rewrite Hb in *. destruct (settled_reached false h) as [H1 H2]; [unfold need; lia|]. split; simpl in *; try done; tauto. }
  assert (Hr : (run b (h ++ [b]) < needed b)%nat) by (unfold need; destruct b; lia).
  split; [done|done|..]; rewrite settled_kept by done; by rewrite Ev, ?Es.
Qed.
End hysteresis.

(** * Theorems *)

(** The network does not touch what the agent remembers. *)
Record Deaf {S} `{!Has Probes S} (net : Dialer S) : Prop := {
  df_tcp a : leaves Probes (dl_tcp net a);
  df_get u : leaves Probes (dl_get net u);
}.

Lemma probe_leaves {S} `{!Has Probes S} (net : Dialer S) target : Deaf net -> leaves Probes (probe net target).
Proof.
  intros [Ht Hg]. unfold probe, probeHTTP, probeTCP. destruct (String.eqb _ _); [|by auto with leaves].
  cbv zeta. destruct (dl_valid net _); simpl; [|by auto with leaves]. apply leaves_bind; [by auto with leaves|]. intros status.
  destruct (_ || _); auto with leaves.
Qed.

(** C21: [probe_hysteresis]: a backend is reported as healthy exactly when at some moment [rise]
    probes in a row went well and never since have [fall] in a row failed, for every history
    of outcomes, whatever the network answers; probing one backend does not touch what is
    remembered of the others. *)
Theorem probe_hysteresis {S} `{!Has Probes S} (net : Dialer S) (Hnet : Deaf net)
    (target : probeTarget) (Hrise : 1 <= pt_rise target) (Hfall : 1 <= pt_fall target) h env (w : World S)
    (Hh : holds (pt_rise target) (pt_fall target) h (default new_probe (part (T:=Probes) w !! key_of target))) :
  exists b verdict reason changed w', settle net target env w = (Ok (verdict, reason, changed), w') /\
  (b = true <-> exists w1, probe net target env w = (Ok tt, w1)) /\
  holds (pt_rise target) (pt_fall target) (h ++ [b]) (default new_probe (part (T:=Probes) w' !! key_of target)) /\
  (verdict = true <-> settled_as (pt_rise target) (pt_fall target) true (h ++ [b])) /\
  (forall key, key <> key_of target -> part (T:=Probes) w' !! key = part (T:=Probes) w !! key).
Proof.
  unfold settle, probeStateOf, bind, attempt, locked. pose proof (probe_leaves net target Hnet env w) as Hleave.
  destruct (probe net target env w) as [r w1] eqn:Eprobe. simpl in Hleave. unfold part in *. rewrite Hleave.
  set (s := default new_probe (hget (w_st w) !! key_of target)) in *.
  set (err := match r with Ok _ => None | Err e => Some e end).
  pose proof (holds_step _ _ Hrise Hfall h s err Hh) as Hs. cbv zeta in Hs.
  set (s' := judged (pt_rise target) (pt_fall target) (counted err s)) in *.
  exists (match err with None => true | Some _ => false end). eexists (pb_verdict s'), _, _, _. split; [reflexivity|]. simpl.
  rewrite hget_hput. split_and!.
  - subst err. destruct r as [[]|e]; split; [by eauto|done|done|]. intros [w2 [=]].
  - by rewrite lookup_insert_eq.
  - apply (ho_true _ _ _ _ Hs).
  - intros key Hne. by rewrite lookup_insert_ne.
Qed.

Module Demo.
Definition net : Dialer Probes := {|
  dl_tcp a := if String.eqb a "10.0.0.7:80" then ret tt else fail (EText "refused");
  dl_valid _ := true; dl_get _ := ret 200 |}.
Definition target : probeTarget := MkTarget "lb-1" "i-1" "10.0.0.7" 80 "tcp" "" 1 2.
Definition env : Env := {| env_now _ := 0; env_rand _ := []; env_io _ := false |}.
Definition world : World Probes := MkWorld ∅ O [].
Lemma deaf : Deaf net.
Proof. split; intros a; simpl; [destruct (String.eqb _ _)|]; auto with leaves. Qed.
End Demo.

Lemma probe_hysteresis_witness : exists verdict reason changed w',
  settle Demo.net Demo.target Demo.env Demo.world = (Ok (verdict, reason, changed), w') /\ (verdict = true <-> settled_as 1 2 true ([] ++ [true])).
Proof.
  destruct (probe_hysteresis Demo.net Demo.deaf Demo.target ltac:(simpl; lia) ltac:(simpl; lia) [] Demo.env Demo.world
    (holds_new 1 2 ltac:(lia) ltac:(lia))) as (b & verdict & reason & changed & w' & E & Hb & _ & Hv & _).
  exists verdict, reason, changed, w'. split; [exact E|].
  replace true with b at 3; [exact Hv|]. apply Hb. eexists. reflexivity.
Defined.
