(* ===== verification/Router.v ===== *)
(** The user-space proxy of a node (internal/runtime/tlsproxy): the routing table of a
    balancer, the choice of the backend, and the manager that keeps the listeners in step
    with the endpoints the control plane wants.

    The HTTP and TLS machinery of the standard library is not modelled: [os_listen] opens a
    port, [keypair] tells whether a certificate and a key fit, and [sum256] is SHA-256 in
    hexadecimal. *)
From stdpp Require Import base tactics numbers strings list gmap sorting.
From Stdlib Require Import ZArith Lia.
From S2P Require Import Prelude GoLang Effects Kernel Encoding NodePlan.

(** * Hosts and paths *)

(* go: runtime/tlsproxy/route.go hostOnly *)
Definition hostOnly (host : string) : string :=
  let host := to_lower (trim_space host) in
  match SplitHost host with Some bare => bare | None => host end.
(* go: runtime/tlsproxy/route.go underPath *)
Definition underPath (path prefix : string) : bool :=
  if is_empty prefix then true
  else String.eqb path prefix || has_prefix path (prefix +:+ "/").

Example hostOnly_examples : map hostOnly ["App.test"; "app.test:8443"; " app.test "; "[::1]:80"; "::1"; "[::1]"]
  = ["app.test"; "app.test"; "app.test"; "::1"; "::1"; "[::1]"].
Proof. reflexivity. Qed.

(** * Routes *)

(* go: runtime/tlsproxy/route.go compiledRoute *)
Record compiledRoute := MkRoute { cr_host : string; cr_path : string; cr_targets : list string; cr_next : Z }.
(** [next.Add(1) - 1] on 64 unsigned bits. *)
Definition take_ticket (next : Z) : Z * Z := let n := (next + 1) mod two64 in ((n - 1) mod two64, n).
(** The target of one request and the next ticket. *)
(* go: runtime/tlsproxy/tlsproxy.go listener.pick *)
Definition pick_from (targets : list string) (next : Z) : option string * Z :=
  match targets with
  | [] => (None, next)
  | _ => let '(index, next) := take_ticket next in (nth_error targets (Z.to_nat (index mod len targets)), next)
  end.
(* go: runtime/tlsproxy/route.go compiledRoute.pick *)
Definition route_pick (r : compiledRoute) : option string * compiledRoute :=
  let '(t, next) := pick_from (cr_targets r) (cr_next r) in (t, MkRoute (cr_host r) (cr_path r) (cr_targets r) next).
Definition compiled (one : EndpointRoute) : compiledRoute :=
  MkRoute (to_lower (trim_space (er_Host one))) (trim_suffix (er_Path one) "/") (er_Targets one) 0.
(** The comparison of the sort. *)
Definition more_specific : compiledRoute -> compiledRoute -> bool :=
  by_key (fun r => is_empty (cr_host r)) (fun x y => negb x && y)
    (by_key (fun r => slen (cr_path r)) (fun x y => y <? x)
      (by_key cr_host str_ltb (by_key cr_path str_ltb (fun _ _ => false)))).
(* go: runtime/tlsproxy/route.go compileRoutes *)
Definition compileRoutes (routes : list EndpointRoute) : list compiledRoute := sliceStable more_specific (map compiled routes).
Definition applies (host path : string) (one : compiledRoute) : bool :=
  (is_empty (cr_host one) || String.eqb (cr_host one) (hostOnly host)) && underPath path (cr_path one).
(* go: runtime/tlsproxy/route.go routeTable.match *)
Definition route_match (routes : list compiledRoute) (host path : string) : option compiledRoute :=
  List.find (applies host path) routes.

(** * Listeners *)

(** The socket is its port and, when it speaks TLS, the certificate and key it was opened with. *)
(* go: runtime/tlsproxy/tlsproxy.go listener *)
Record listener := MkListener {
  ls_fingerprint : string; ls_targets : list string; ls_targetPort : Z; ls_next : Z; ls_table : option (list compiledRoute);
  ls_routeHash : string; ls_port : Z; ls_pair : option (string * string);
}.
Abbreviation Listeners := (gmap string listener).

(** What the node offers. *)
Record Ports (S : Type) := {
  os_listen : Z -> M S unit;
  os_close : Z -> M S unit;
  keypair : string -> string -> bool;
  sum256 : list Ascii.ascii -> string;
}.
Arguments os_listen {S}. Arguments os_close {S}. Arguments keypair {S}. Arguments sum256 {S}.

Definition sep : list Ascii.ascii := [Ascii.zero].
Definition bool_text (b : bool) : string := if b then "true" else "false".
Definition has_routes (e : Endpoint) : bool := (0 <? len (ep_Routes e)).
Definition fingerprint_input (e : Endpoint) : list Ascii.ascii :=
  bytes_of (itoa (ep_ListenPort e)) ++ sep ++ bytes_of (ep_Certificate e) ++ sep ++ bytes_of (ep_PrivateKey e) ++ sep ++
  bytes_of (bool_text (has_routes e)).
Fixpoint routes_input (routes : list EndpointRoute) : list Ascii.ascii :=
  match routes with
  | [] => []
  | one :: rest =>
      bytes_of (er_Host one) ++ sep ++ bytes_of (er_Path one) ++ sep ++
      concat (map (fun target => bytes_of target ++ sep) (er_Targets one)) ++ [Ascii.ascii_of_N 1] ++ routes_input rest
  end.

Section manager.
Context {S : Type} `{!Has Listeners S}.
Context (ports : Ports S).

(* go: runtime/tlsproxy/tlsproxy.go Endpoint.fingerprint *)
Definition fingerprint (e : Endpoint) : string := sum256 ports (fingerprint_input e).
(* go: runtime/tlsproxy/route.go routesFingerprint *)
Definition routesFingerprint (routes : list EndpointRoute) : string := sum256 ports (routes_input routes).

(* go: runtime/tlsproxy/tlsproxy.go Manager.shutdown *)
Definition shutdown (id : string) (l : listener) : M S unit :=
  attempt (os_close ports (ls_port l)) ;;; locked (fun m : Listeners => (tt, base.delete id m)).
Definition secured (e : Endpoint) : bool := negb (is_empty (ep_Certificate e)) || negb (is_empty (ep_PrivateKey e)).
Definition pair_of (e : Endpoint) : option (string * string) :=
  if secured e then Some (ep_Certificate e, ep_PrivateKey e) else None.
(* go: runtime/tlsproxy/tlsproxy.go Manager.start *)
Definition start_listener (e : Endpoint) : M S listener :=
  if negb (secured e) && negb (has_routes e)
  then fail (EText ("balancer " +:+ ep_ID e +:+ ": without a certificate and without routes there is nothing for a userspace listener to do"))
  else if secured e && negb (keypair ports (ep_Certificate e) (ep_PrivateKey e))
  then fail (EWrap ("balancer " +:+ ep_ID e +:+ ": load the certificate") (EText "no such key pair"))
  else
    mapped (EWrap ("balancer " +:+ ep_ID e +:+ ": listen on " +:+ itoa (ep_ListenPort e))) (os_listen ports (ep_ListenPort e)) ;;;
    ret (MkListener (fingerprint e) (ep_Targets e) (ep_TargetPort e) 0
           (if has_routes e then Some (compileRoutes (ep_Routes e)) else None)
           (if has_routes e then routesFingerprint (ep_Routes e) else "") (ep_ListenPort e) (pair_of e)).
(** A listener that stays up takes the targets, and the routes when they are other ones. *)
(* go: runtime/tlsproxy/tlsproxy.go:78-87 existing *)
Definition refreshed (e : Endpoint) (l : listener) : listener :=
  let hash := routesFingerprint (ep_Routes e) in
  let same := String.eqb hash (ls_routeHash l) in
  MkListener (ls_fingerprint l) (ep_Targets e) (ls_targetPort l) (ls_next l)
    (if same then ls_table l else Some (compileRoutes (ep_Routes e))) (if same then ls_routeHash l else hash) (ls_port l) (ls_pair l).
(* go: runtime/tlsproxy/tlsproxy.go:77-98 existing *)
Definition apply_one (e : Endpoint) (failed : list error) : M S (list error) :=
  let! existing := locked (fun m : Listeners => (m !! ep_ID e, m)) in
  let restart := 
    let! r := attempt (start_listener e) in
    match r with
    | Err err => ret (failed ++ [err])
    | Ok started => locked (fun m : Listeners => (failed, <[ep_ID e := started]> m))
    end in
  match existing with
  | Some l =>
      if String.eqb (ls_fingerprint l) (fingerprint e)
      then locked (fun m : Listeners => (failed, <[ep_ID e := refreshed e l]> m))
      else shutdown (ep_ID e) l ;;; restart
  | None => restart
  end.
(** The errors that are joined; without one the manager answers with success. *)
(* go: runtime/tlsproxy/tlsproxy.go Manager.Apply *)
Definition Apply (wanted : list Endpoint) : M S (list error) :=
  let! failed := foldM apply_one wanted [] in
  let! running := locked (fun m : Listeners => (map_to_list m, m)) in
  foldM (fun x _ => if existsb (String.eqb (fst x)) (map ep_ID wanted) then ret tt else shutdown (fst x) (snd x)) running tt ;;;
  ret failed.
End manager.

(** * The best route *)

#[local] Instance empty_last : TotalOrder (fun x y : bool => negb x && y).
Proof. split; [split|]; [by intros []|by intros [] [] []|by intros [] [] []|by intros [] []]. Qed.
#[local] Instance longer_first : TotalOrder (fun x y : Z => y <? x) := Zgtb_total.
#[local] Instance more_specific_weak : WeakOrder more_specific.
Proof. unfold more_specific. tc_solve. Qed.

Lemma underPath_spec path prefix : underPath path prefix = true <->
  prefix = "" \/ path = prefix \/ exists rest, path = prefix +:+ "/" +:+ rest.
Proof.
  unfold underPath. destruct (is_empty prefix) eqn:Ee; [apply is_empty_spec in Ee; tauto|].
  rewrite orb_true_iff, String.eqb_eq, has_prefix_spec. split.
  - intros [->|[rest E]]; [tauto|]. right. right. exists (of_bytes rest). rewrite <- (of_bytes_of path), E.
    rewrite !bytes_of_app, <- (bytes_of_of (_ ++ rest)) at 1. apply bytes_of_inj. by rewrite !bytes_of_app, !bytes_of_of, <- !app_assoc.
  - intros [->|[->|[rest ->]]]; [done|by left|]. right. exists (bytes_of rest). by rewrite !bytes_of_app, <- app_assoc.
Qed.

(** Two prefixes of one path that are as long as each other are the same. *)
Lemma underPath_length path p q : underPath path p = true -> underPath path q = true -> slen p = slen q -> p = q.
Proof.
  assert (Hpre : forall p, underPath path p = true -> p = "" \/ exists r, bytes_of path = bytes_of p ++ r).
  { intros p0 H. apply underPath_spec in H as [->|[->|[rest ->]]]; [by left|right; exists []; by rewrite app_nil_r|].
    right. eexists. by rewrite bytes_of_app. }
  intros [->|[r Hp]]%Hpre [->|[r' Hq]]%Hpre Hl; try done; unfold slen in Hl; simpl in Hl.
  - destruct q; [done|simpl in Hl; lia].
  - destruct p; [done|simpl in Hl; lia].
  - apply bytes_of_inj. rewrite Hp in Hq. apply app_inj_1 in Hq; [by destruct Hq|]. rewrite !length_bytes_of. lia.
Qed.

(** The sort puts the routes of the same request in the order of their claim to it. *)
Lemma find_sorted {A} (less : A -> A -> bool) `{!WeakOrder less} (p : A -> bool) l r :
  List.find p (sliceStable less l) = Some r -> forall r', r' ∈ l -> p r' = true -> less r' r = false.
Proof.
  intros Hf r' Hr' Hp. pose proof (sliceStable_sorted less l) as Hs. rewrite <- (sliceStable_perm less l) in Hr'.
  revert Hf Hr' Hs. generalize (sliceStable less l). intros s. induction s as [|x s IH]; simpl; [done|]. intros Hf Hr' Hs.
  destruct (p x) eqn:Ep.
  - injection Hf as <-. apply elem_of_cons in Hr' as [->|Hr']; [apply wo_irrefl|]. by eapply sorted_by_head.
  - apply elem_of_cons in Hr' as [->|Hr']; [congruence|]. apply IH; [done|done|]. by apply StronglySorted_inv in Hs as [? _].
Qed.


(** * Fairness *)

Lemma pick_from_nth targets next : targets <> [] -> 0 <= next < two64 ->
  pick_from targets next = (nth_error targets (Z.to_nat (next mod len targets)), (next + 1) mod two64).
Proof.
  intros Ht Hn. unfold pick_from, take_ticket. destruct targets as [|t ts] eqn:E; [done|]. rewrite <- E. f_equal. f_equal. f_equal. f_equal.
  unfold two64 in *. destruct (decide (next = 18446744073709551615)) as [->|]; [done|]. rewrite (Z.mod_small (next + 1)) by lia.
  rewrite Z.mod_small by lia. lia.
Qed.

(** * The listeners *)

Definition no_byte (c : Z) (s : string) : Prop := forall b, b ∈ bytes_of s -> code b <> c.
Definition clean_route (one : EndpointRoute) : Prop :=
  no_byte 0 (er_Host one) /\ no_byte 0 (er_Path one) /\ Forall (fun t => no_byte 0 t /\ no_byte 1 t) (er_Targets one).
(** What the control plane checks before it hands an endpoint out. *)
Definition clean (e : Endpoint) : Prop :=
  in_int64 (ep_ListenPort e) /\ no_byte 0 (ep_Certificate e) /\ no_byte 0 (ep_PrivateKey e) /\ Forall clean_route (ep_Routes e).

Lemma cut_at_nul s t r r' : no_byte 0 s -> no_byte 0 t -> bytes_of s ++ sep ++ r = bytes_of t ++ sep ++ r' -> s = t /\ r = r'.
Proof.
  unfold no_byte. intros Hs Ht E. enough (H : bytes_of s = bytes_of t /\ r = r') by (destruct H; split; [by apply bytes_of_inj|done]).
  revert Hs Ht E. generalize (bytes_of s) (bytes_of t). intros a. induction a as [|x a IH]; intros [|y b] Hs Ht E; simpl in *.
  - by injection E.
  - injection E as <- _. by destruct (Ht Ascii.zero); [set_solver|].
  - injection E as -> _. by destruct (Hs Ascii.zero); [set_solver|].
  - injection E as -> E. destruct (IH b) as [-> ->]; [set_solver|set_solver|done|done].
Qed.

Lemma no_byte_itoa n : no_byte 0 (itoa n).
Proof. intros b Hb. pose proof (itoa_bytes n b Hb). lia. Qed.

Lemma cut_targets ts ts' r r' : Forall (fun t => no_byte 0 t /\ no_byte 1 t) ts -> Forall (fun t => no_byte 0 t /\ no_byte 1 t) ts' ->
  concat (map (fun t => bytes_of t ++ sep) ts) ++ Ascii.ascii_of_N 1 :: r = concat (map (fun t => bytes_of t ++ sep) ts') ++ Ascii.ascii_of_N 1 :: r' ->
  ts = ts' /\ r = r'.
Proof.
  intros H. revert ts'. induction H as [|t ts [Ht0 Ht1] _ IH]; intros ts' H' E; destruct H' as [|t' ts' [Ht0' Ht1'] H']; simpl in E.
  - by injection E.
  - destruct (bytes_of t') as [|b l] eqn:Eb; simpl in E; injection E as E _; [done|]. subst. by destruct (Ht1' (Ascii.ascii_of_N 1)); [rewrite Eb; set_solver|].
  - destruct (bytes_of t) as [|b l] eqn:Eb; simpl in E; injection E as E _; [done|]. subst. by destruct (Ht1 (Ascii.ascii_of_N 1)); [rewrite Eb; set_solver|].
  - rewrite <- !app_assoc in E. apply cut_at_nul in E as [-> E]; [|done..]. destruct (IH ts' H' E) as [-> ->]. done.
Qed.

Lemma routes_input_inj a b : Forall clean_route a -> Forall clean_route b -> routes_input a = routes_input b -> a = b.
Proof.
  intros Ha. revert b. induction Ha as [|x a (Hh & Hp & Ht) _ IH]; intros b Hb E; destruct Hb as [|y b (Hh' & Hp' & Ht') Hb]; [done|..].
  - simpl in E. destruct (bytes_of (er_Host y)); done.
  - simpl in E. destruct (bytes_of (er_Host x)); done.
  - simpl in E. apply cut_at_nul in E as [E1 E]; [|done..]. apply cut_at_nul in E as [E2 E]; [|done..].
    apply cut_targets in E as [E3 E]; [|done..]. f_equal; [|by apply IH]. destruct x, y. simpl in *. congruence.
Qed.

Lemma fingerprint_input_inj e e' : clean e -> clean e' -> fingerprint_input e = fingerprint_input e' ->
  ep_ListenPort e = ep_ListenPort e' /\ ep_Certificate e = ep_Certificate e' /\ ep_PrivateKey e = ep_PrivateKey e' /\ has_routes e = has_routes e'.
Proof.
  intros (Hp & Hc & Hk & _) (Hp' & Hc' & Hk' & _) E. unfold fingerprint_input in E.
  apply cut_at_nul in E as [E1 E]; [|apply no_byte_itoa..]. apply cut_at_nul in E as [E2 E]; [|done..]. apply cut_at_nul in E as [E3 E]; [|done..].
  split_and!; [by apply itoa_inj|done|done|]. by destruct (has_routes e), (has_routes e').
Qed.

Section in_step.
Context {S : Type} `{!Has Listeners S}.
Context (ports : Ports S) (env : Env).
(** Opening and closing ports leaves the books of the manager alone; no two inputs share a
    hash; and the port of the backends belongs to the id, which the control plane never
    changes. *)
Context (Hlisten : forall p, leaves Listeners (os_listen ports p)) (Hclose : forall p, leaves Listeners (os_close ports p)).
Context (Hsum : forall a b, sum256 ports a = sum256 ports b -> a = b).
Context (port_of : string -> Z).
Abbreviation running w := (part (T:=Listeners) w).
Implicit Types (w : World S).

Definition route_key (r : compiledRoute) : string * string * list string := (cr_host r, cr_path r, cr_targets r).
(** The listener routes as [routes] say, whatever tickets were drawn from it. *)
Definition routes_as (routes : list EndpointRoute) (l : listener) : Prop :=
  exists table, ls_table l = Some table /\ map route_key table = map route_key (compileRoutes routes).
(** What a listener that was opened for some endpoint looks like. *)
Definition opened_for (l : listener) : Prop := exists e, clean e /\ ls_fingerprint l = fingerprint ports e /\
  ls_port l = ep_ListenPort e /\ ls_pair l = pair_of e /\
  (has_routes e = true -> exists routes, Forall clean_route routes /\ ls_routeHash l = routesFingerprint ports routes /\ routes_as routes l).
Definition steady (m : Listeners) : Prop := forall id l, m !! id = Some l -> ls_targetPort l = port_of id /\ opened_for l.
(** The listener does what the endpoint says. *)
Record serves (e : Endpoint) (l : listener) : Prop := {
  se_port : ls_port l = ep_ListenPort e;
  se_pair : ls_pair l = pair_of e;
  se_targets : ls_targets l = ep_Targets e;
  se_target_port : ls_targetPort l = ep_TargetPort e;
  se_routes : has_routes e = true -> routes_as (ep_Routes e) l;
}.
Definition sound (e : Endpoint) : Prop := clean e /\ ep_TargetPort e = port_of (ep_ID e).

Lemma refreshed_serves e l : sound e -> ls_targetPort l = port_of (ep_ID e) -> opened_for l -> ls_fingerprint l = fingerprint ports e ->
  serves e (refreshed ports e l) /\ opened_for (refreshed ports e l).
Proof.
  intros [Hc Htp] Hl (e0 & Hc0 & Ef & Ep & Es & Hroutes) Efp. rewrite Ef in Efp. apply Hsum in Efp.
  destruct (fingerprint_input_inj e0 e Hc0 Hc Efp) as (E1 & E2 & E3 & E4).
  assert (Er : forall routes, Forall clean_route routes -> ls_routeHash l = routesFingerprint ports routes -> routes_as routes l ->
    routes_as (ep_Routes e) (refreshed ports e l)).
  { intros routes Hcr Eh (table & Et & Ek). unfold routes_as, refreshed. simpl. destruct (String.eqb _ _) eqn:E.
    - apply String.eqb_eq in E. rewrite Eh in E. apply Hsum, routes_input_inj in E; [|apply Hc|done]. rewrite E. eauto.
    - eauto. }
  assert (Ho : has_routes e = true -> routes_as (ep_Routes e) (refreshed ports e l)).
  { intros H. rewrite <- E4 in H. destruct (Hroutes H) as (routes & Hcr & Eh & Has). by eapply Er. }
  split.
  - split; simpl; [by rewrite Ep| |done|by rewrite Hl, Htp|done]. rewrite Es. unfold pair_of, secured. by rewrite E2, E3.
  - exists e0. split_and!; [done|done|done|done|]. intros H. exists (ep_Routes e). split; [apply Hc|]. rewrite E4 in H. split; [|by apply Ho].
    simpl. destruct (String.eqb _ _) eqn:E; [|done]. by apply String.eqb_eq in E.
Qed.

Lemma listener_rule e (Q : outcome listener -> World S -> Prop) w : sound e ->
  (forall err w', running w' = running w -> Q (Err err) w') ->
  (forall l w', running w' = running w -> serves e l -> opened_for l -> Q (Ok l) w') -> wp env (start_listener ports e) Q w.
Proof.
  intros [Hc Htp] Herr Hok. unfold start_listener. destruct (_ && _); [by apply Herr|]. destruct (_ && _); [by apply Herr|].
  apply wp_bind, wp_mapped, wp_leaves; [apply Hlisten|]. intros [[]|err] w1 H1; simpl; [|by apply Herr]. rewrite wp_ret.
  apply Hok; [done| |].
  - split; simpl; try done. intros ->. by eexists.
  - exists e. split_and!; try done. simpl. intros ->. exists (ep_Routes e). split; [apply Hc|]. split; [done|]. by eexists.
Qed.

Lemma apply_one_rule e failed w : sound e -> steady (running w) ->
  wp env (apply_one ports e failed) (fun r w' => exists failed', r = Ok failed' /\ steady (running w') /\
    (forall id, id <> ep_ID e -> running w' !! id = running w !! id) /\
    match running w' !! ep_ID e with Some l => serves e l | None => failed' <> [] end /\ (failed <> [] -> failed' <> []) /\
    (forall l, running w !! ep_ID e = Some l -> ls_fingerprint l = fingerprint ports e -> running w' !! ep_ID e = Some (refreshed ports e l))) w.
Proof.
  intros Hs Hst. unfold apply_one. apply wp_bind, wp_locked. intros w1 H1 _. simpl in *.
  (* what starting it again does when it does not run any more *)
  assert (Hrestart : forall w2, running w2 = base.delete (ep_ID e) (running w) -> wp env (
    let! r := attempt (start_listener ports e) in
    match r with
    | Err err => ret (failed ++ [err])
    | Ok started => locked (fun m : Listeners => (failed, <[ep_ID e := started]> m))
    end) (fun r w' => exists failed', r = Ok failed' /\ steady (running w') /\
    (forall id, id <> ep_ID e -> running w' !! id = running w !! id) /\
    match running w' !! ep_ID e with Some l => serves e l | None => failed' <> [] end /\ (failed <> [] -> failed' <> [])) w2).
  { intros w2 H2. apply wp_bind, wp_attempt, listener_rule; [done|..].
    - intros err w3 H3. rewrite wp_ret. exists (failed ++ [err]). split; [done|]. rewrite H3, H2, lookup_delete_eq. split_and!.
      + intros id l [_ Hl]%lookup_delete_Some. by apply Hst.
      + intros id Hid. by rewrite lookup_delete_ne.
      + by destruct failed.
      + by destruct failed.
    - intros l w3 H3 Hl Hopen. apply wp_locked. intros w4 H4 _. simpl in *. exists failed. split; [done|].
      rewrite H4, H3, H2, lookup_insert_eq. split_and!; [|intros id Hid; by rewrite lookup_insert_ne, lookup_delete_ne|done|done].
      intros id l' [[<- <-]|[Hne Hl']]%lookup_insert_Some.
      + split; [|done]. rewrite (se_target_port _ _ Hl). apply Hs.
      + apply lookup_delete_Some in Hl' as [_ Hl']. by apply Hst. }
  destruct (running w !! ep_ID e) as [l|] eqn:El.
  - destruct (String.eqb (ls_fingerprint l) (fingerprint ports e)) eqn:Efp.
    + apply String.eqb_eq in Efp. apply wp_locked. intros w2 H2 _. simpl in *. exists failed. split; [done|].
      destruct (Hst _ _ El) as [Htp Hopen]. destruct (refreshed_serves e l Hs Htp Hopen Efp) as [Hl' Hopen'].
      rewrite H2, H1, lookup_insert_eq. split_and!; [|intros id Hid; by rewrite lookup_insert_ne|done|done|].
      * intros id l' [[<- <-]|[Hne Hl]]%lookup_insert_Some; [split; done|by apply Hst].
      * intros l' [= <-] _. done.
    + apply String.eqb_neq in Efp. apply wp_bind. unfold shutdown. apply wp_bind, wp_attempt, wp_leaves; [apply Hclose|].
      intros r w2 H2. apply wp_locked. intros w3 H3 _. simpl in *. eapply wp_mono; [|apply Hrestart].
      * intros r' w4 (failed' & -> & ?). exists failed'. split; [done|]. destruct_and!. split_and!; try done. intros l' [= <-] E. done.
      * by rewrite H3, H2, H1.
  - eapply wp_mono; [|apply Hrestart].
    + intros r' w4 (failed' & -> & ?). exists failed'. split; [done|]. destruct_and!. by split_and!.
    + rewrite H1. symmetry. by apply delete_id.
Qed.

Lemma shutdown_all_rule xs (keep : list string) w :
  wp env (foldM (fun x _ => if existsb (String.eqb (fst x)) keep then ret tt else shutdown ports (fst x) (snd x)) xs tt)
    (fun r w' => r = Ok tt /\ forall id, running w' !! id =
       if bool_decide (id ∈ map fst xs) && negb (existsb (String.eqb id) keep) then None else running w !! id) w.
Proof.
  eapply wp_mono; [|eapply (wp_foldM_done env (fun done _ w' => forall id, running w' !! id =
    if bool_decide (id ∈ map fst done) && negb (existsb (String.eqb id) keep) then None else running w !! id) (fun _ _ => False))].
  - by intros [[]|e] w'.
  - intros done x rest [] w1 _ H1.
    assert (Hsame : forall id, id <> fst x -> bool_decide (id ∈ map fst (done ++ [x])) = bool_decide (id ∈ map fst done)).
    { intros id Hne. apply bool_decide_ext. rewrite map_app. set_solver. }
    assert (Hx : bool_decide (fst x ∈ map fst (done ++ [x])) = true) by (apply bool_decide_eq_true; rewrite map_app; set_solver).
    destruct (existsb (String.eqb (fst x)) keep) eqn:Ek.
    + rewrite wp_ret. intros id. destruct (decide (id = fst x)) as [->|Hne]; [by rewrite H1, Ek, !andb_false_r|]. by rewrite Hsame.
    + unfold shutdown. apply wp_bind, wp_attempt, wp_leaves; [apply Hclose|]. intros r w2 H2. apply wp_locked. intros w3 H3 _. simpl in *. intros id.
      rewrite H3, H2. destruct (decide (id = fst x)) as [->|Hne]; [by rewrite lookup_delete_eq, Hx, Ek|]. by rewrite lookup_delete_ne, Hsame.
  - by intros id.
Qed.

End in_step.

Module Demo.
Definition ports : Ports Listeners := {|
  os_listen p := if p =? 443 then ret tt else fail (EText "address already in use"); os_close _ := ret tt;
  keypair _ _ := true; sum256 := of_bytes |}.
Definition env : Env := {| env_now _ := 0; env_rand _ := []; env_io _ := false |}.
Definition world : World Listeners := MkWorld ∅ O [].
Definition site : Endpoint := MkEndpoint "lb-1" 443 80 "cert" "key" [] [MkEndpointRoute "app.test" "/api" ["10.0.0.1"]].
Definition busy : Endpoint := MkEndpoint "lb-2" 8443 80 "cert" "key" ["10.0.0.2"] [].
Lemma sounds : Forall (sound (fun _ => 80)) [site; busy].
Proof.
  assert (Hb : forall c s, forallb (fun b => negb (code b =? c)) (bytes_of s) = true -> no_byte c s).
  { intros c s H b Hb%list_elem_of_In. rewrite forallb_forall in H. specialize (H b Hb). by breflect. }
  repeat constructor; simpl; try lia; try (unfold in_int64, min_int64, max_int64, two63; simpl; lia); apply Hb; reflexivity.
Qed.
End Demo.

