(* ===== verification/NodeLogs.v ===== *)
(** Shipping the logs of workloads off a node (internal/agent/logs.go): what is read behind the
    offset, how it is cut into lines, and that nothing is lost or sent twice.

    A log file is its bytes at the moment it is read; the length that is measured and the
    bytes that are read are taken from the same moment. *)
From stdpp Require Import base tactics numbers strings list gmap.
From Stdlib Require Import ZArith Lia.
From S2P Require Import Prelude GoLang Effects AgentViews Agent.

Definition maxShipBytes : nat := Z.to_nat 65536.
Definition maxShipLines : nat := 500.
Definition maxHeldLineSize : Z := 8 * 1024.
Abbreviation Offsets := (gmap string Z).
Abbreviation bytes := (list Ascii.ascii).

Definition newline : Ascii.ascii := Ascii.ascii_of_N 10.
Definition carriage : Ascii.ascii := Ascii.ascii_of_N 13.

(** * Lines *)

Fixpoint drop_carriage (l : bytes) : bytes :=
  match l with c :: l' => if code c =? code carriage then drop_carriage l' else l | [] => [] end.
(** [bytes.TrimRight(raw, CR)] *)
Definition trim_carriage (raw : bytes) : bytes := rev (drop_carriage (rev raw)).
(** The loop of [splitLines]: at most as many lines as the fuel, and what they consume. *)
Fixpoint take_lines (fuel : nat) (buffer : bytes) : list string * nat :=
  match fuel with
  | O => ([], O)
  | S fuel =>
      match index_byte_l buffer newline with
      | None => ([], O)
      | Some next =>
          let '(lines, consumed) := take_lines fuel (drop (S next) buffer) in
          (of_bytes (trim_carriage (take next buffer)) :: lines, (S next + consumed)%nat)
      end
  end.
(* go: agent/logs.go splitLines *)
Definition splitLines (buffer : bytes) (more : bool) : list string * nat :=
  match index_byte_l buffer newline with
  | None => if more && (maxHeldLineSize <=? len buffer) then ([of_bytes buffer], length buffer) else ([], O)
  | Some _ => take_lines maxShipLines buffer
  end.
(** What is read of a file that is there, from an offset. *)
Definition read_from (content : bytes) (offset : Z) : list string * Z :=
  let offset := if len content <? offset then 0 else offset in
  if len content =? offset then ([], offset)
  else
    let rest := drop (Z.to_nat offset) content in
    let buffer := take maxShipBytes rest in
    let '(lines, consumed) := splitLines buffer (len buffer <? len content - offset) in
    (lines, offset + Z.of_nat consumed).

Section shipping.
Context {S : Type} `{!Has Offsets S, !Has Memory S}.
(** The file at a path, [None] when there is none. *)
Context (read_file : string -> M S (option bytes)).

(* go: agent/logs.go Agent.keepOffset *)
Definition keepOffset (instanceID : string) (offset : Z) : M S unit :=
  locked (fun m : Offsets => (tt, <[instanceID := offset]> m)).
(* go: agent/logs.go Agent.readSince *)
Definition readSince (instanceID path : string) : M S (list string * Z) :=
  let! file := read_file path in
  match file with
  | None => ret ([], 0)
  | Some content =>
      let! offset := locked (fun m : Offsets => (default 0 (m !! instanceID), m)) in
      ret (read_from content offset)
  end.
(* go: agent/logs.go Agent.forgetLogs *)
Definition forgetLogs (assigned : list instanceView) : M S unit :=
  locked (fun m : Offsets => (tt, filter (fun kv => kv.1 ∈ map iv_ID assigned) m)).

Context (runtimes : list (string * Runtime S)) (reportLogs : string -> string -> list string -> M S unit).

(** The body of the loop. *)
Definition shipOne (i : instanceView) : M S unit :=
  match runtimeFor runtimes (iv_Isolation i) with
  | None => ret tt
  | Some runtime =>
  match rt_LogPath runtime with
  | None => ret tt
  | Some logPath =>
      let! has := logPath (iv_ID i) in
      match has with
      | None => ret tt
      | Some path =>
          let! r := attempt (readSince (iv_ID i) path) in
          match r with
          | Err _ => ret tt
          | Ok ([], _) => ret tt
          | Ok (lines, next) =>
              let! nodeID := currentNodeID in
              let! r := attempt (reportLogs nodeID (iv_ID i) lines) in
              match r with Err _ => ret tt | Ok _ => keepOffset (iv_ID i) next end
          end
      end
  end end.
(* go: agent/logs.go Agent.shipLogs *)
Definition shipLogs (assigned : list instanceView) : M S unit := foldM (fun i _ => shipOne i) assigned tt.
End shipping.

(** * Lines that cover a text

    The lines are the text cut at its line breaks, each without the carriage returns before
    the break; a stretch without a break that is too long to hold back is a line of its own. *)

Definition unbroken (raw : bytes) : Prop := newline ∉ raw.
Inductive covers : list string -> bytes -> Prop :=
| covers_nil : covers [] []
| covers_line raw lines rest : unbroken raw -> covers lines rest ->
    covers (of_bytes (trim_carriage raw) :: lines) (raw ++ newline :: rest)
| covers_long raw lines rest : unbroken raw -> maxHeldLineSize <= len raw -> covers lines rest ->
    covers (of_bytes raw :: lines) (raw ++ rest).

Lemma covers_app lines lines' text text' : covers lines text -> covers lines' text' -> covers (lines ++ lines') (text ++ text').
Proof.
  intros H H'. induction H; simpl; [done|..].
  - rewrite <- app_assoc. by constructor.
  - rewrite <- app_assoc. by constructor.
Qed.

Lemma index_byte_spec l c i : index_byte_l l c = Some i -> exists r, l = take i l ++ c :: r /\ c ∉ take i l /\ (i < length l)%nat /\ r = drop (S i) l.
Proof.
  revert i. induction l as [|d l IH]; intros i; simpl; [done|]. destruct (code d =? code c) eqn:E.
  - intros [= <-]. apply Z.eqb_eq, code_inj in E as ->. exists l. simpl. split_and!; [done|set_solver|lia|done].
  - destruct (index_byte_l l c) as [k|]; [|done]. simpl. intros [= <-]. destruct (IH k eq_refl) as (r & El & Hn & Hk & Er).
    exists r. simpl. split_and!; [by f_equal| |lia|done]. intros [->|Hin]%elem_of_cons; [by rewrite Z.eqb_refl in E|done].
Qed.

Lemma index_byte_none l c : index_byte_l l c = None -> c ∉ l.
Proof.
  induction l as [|d l IH]; simpl; [set_solver|]. destruct (code d =? code c) eqn:E; [done|].
  destruct (index_byte_l l c); [done|]. intros _ [->|Hin]%elem_of_cons; [by rewrite Z.eqb_refl in E|by apply IH].
Qed.

Lemma take_lines_covers fuel buffer : let '(lines, consumed) := take_lines fuel buffer in
  (consumed <= length buffer)%nat /\ covers lines (take consumed buffer).
Proof.
  revert buffer. induction fuel as [|fuel IH]; intros buffer; simpl; [split; [lia|constructor]|].
  destruct (index_byte_l buffer newline) as [next|] eqn:E; [|split; [lia|constructor]].
  destruct (index_byte_spec _ _ _ E) as (r & El & Hn & Hlt & Er). specialize (IH (drop (S next) buffer)).
  destruct (take_lines fuel _) as [lines consumed]. destruct IH as [Hle Hc]. rewrite length_drop in Hle. split; [lia|].
  assert (Et : take (S next + consumed) buffer = take next buffer ++ newline :: take consumed (drop (S next) buffer)).
  { rewrite El at 1. rewrite take_app_ge by (rewrite length_take; lia). f_equal. rewrite length_take, Nat.min_l by lia.
    replace (S next + consumed - next)%nat with (S consumed) by lia. simpl. by rewrite Er. }
  simpl in Et. rewrite Et. by constructor.
Qed.

Lemma splitLines_covers buffer more : let '(lines, consumed) := splitLines buffer more in
  (consumed <= length buffer)%nat /\ covers lines (take consumed buffer) /\
  (consumed = O -> unbroken buffer /\ (more = true -> len buffer < maxHeldLineSize)) /\ (consumed = O <-> lines = []).
Proof.
  unfold splitLines. destruct (index_byte_l buffer newline) as [next|] eqn:E.
  - pose proof (take_lines_covers maxShipLines buffer) as H. unfold maxShipLines in *. remember 499%nat as n eqn:En. clear En.
    simpl in *. rewrite E in *. destruct (take_lines n _) as [lines consumed]. destruct H as [H1 H2]. by split_and!.
  - apply index_byte_none in E. destruct more; simpl.
    + destruct (Z.leb_spec maxHeldLineSize (len buffer)).
      * split_and!; [done| |intros H0; unfold maxHeldLineSize in *; lia|split; [|done]; unfold maxHeldLineSize in *; lia].
        rewrite take_ge by done. pose proof (covers_long buffer [] [] E H covers_nil) as Hc. by rewrite app_nil_r in Hc.
      * split_and!; [lia|constructor|done|done].
    + split_and!; [lia|constructor|done|done].
Qed.

(** One read: what it takes, and that it only comes back empty-handed when no line ends. *)
Lemma read_from_spec content offset : 0 <= offset <= len content ->
  let '(lines, next) := read_from content offset in
  offset <= next <= len content /\ covers lines (take (Z.to_nat (next - offset)) (drop (Z.to_nat offset) content)) /\
  (lines = [] -> next = offset /\ unbroken (drop (Z.to_nat offset) content)).
Proof.
  intros Ho. unfold read_from. rewrite (proj2 (Z.ltb_ge _ _)) by lia. cbv zeta. destruct (Z.eqb_spec (len content) offset) as [<-|Hne].
  { rewrite Z.sub_diag. split_and!; [lia|lia|constructor|]. intros _. split; [done|]. rewrite drop_ge by lia. unfold unbroken. set_solver. }
  set (rest := drop (Z.to_nat offset) content). set (buffer := take maxShipBytes rest).
  set (more := len buffer <? len content - offset). pose proof (splitLines_covers buffer more) as H.
  destruct (splitLines buffer more) as [lines consumed]. destruct H as (H1 & H2 & H3 & H4).
  assert (Hrest : length rest = (length content - Z.to_nat offset)%nat) by apply length_drop.
  assert (Hbuf : length buffer = (maxShipBytes `min` length rest)%nat) by apply length_take.
  replace (Z.to_nat (offset + Z.of_nat consumed - offset)) with consumed by lia. split_and!; [lia|lia| |].
  - unfold buffer in H2. rewrite take_take, Nat.min_l in H2 by lia. done.
  - intros ->. rewrite (proj2 H4 eq_refl) in *. split; [lia|]. destruct (H3 eq_refl) as [Hu Hm].
    replace rest with buffer; [done|]. unfold buffer. apply take_ge. destruct (Z.ltb_spec (len buffer) (len content - offset)) as [Hl|Hl].
    + specialize (Hm eq_refl). unfold maxHeldLineSize, maxShipBytes in *. lia.
    + lia.
Qed.

(** * Theorems *)

(** A report that was sent and its answer. *)
Inductive report := Reported (instanceID : string) (lines : list string) (r : outcome unit).
(** The lines of an instance that were taken. *)
Definition shipped (instanceID : string) (l : list report) : list string :=
  concat (map (fun x => match x with Reported id lines (Ok _) => if String.eqb id instanceID then lines else [] | _ => [] end) l).

Section properties.
Context {S : Type} `{!Has Offsets S, !Has Memory S, !Has (list report) S}.
Context `{!Apart Offsets Memory S, !Apart Memory Offsets S, !Apart Offsets (list report) S, !Apart Memory (list report) S}.
Abbreviation offsets w := (part (T:=Offsets) w).
Abbreviation reports w := (part (T:=list report) w).
Context (read_file : string -> M S (option bytes)) (runtimes : list (string * Runtime S)) (reportLogs : string -> string -> list string -> M S unit).
(** The runtimes and the files do not touch the offsets; reports are written down. *)
Context (Hpaths : forall r logPath, r ∈ runtimes -> rt_LogPath (snd r) = Some logPath -> forall id, leaves Offsets (logPath id) /\ leaves (list report) (logPath id)).
Context (Hread : forall path, leaves Offsets (read_file path) /\ leaves (list report) (read_file path)).
Context (Hreport : forall n id lines, logs (reportLogs n id lines) (Reported id lines) /\ leaves Offsets (reportLogs n id lines)).

Lemma shipped_app id l l' : shipped id (l ++ l') = shipped id l ++ shipped id l'.
Proof. unfold shipped. by rewrite map_app, concat_app. Qed.

(** What a round over one instance leaves: nothing changed, a report that was refused, or one
    that was taken and the offset behind it. *)
Definition round_of (i : instanceView) (content : bytes) (w w' : World S) : Prop :=
  let before := default 0 (offsets w !! iv_ID i) in
  (reports w' = reports w /\ offsets w' = offsets w) \/
  exists lines next r, read_from content before = (lines, next) /\ lines <> [] /\
    reports w' = reports w ++ [Reported (iv_ID i) lines r] /\
    offsets w' = match r with Ok _ => <[iv_ID i := next]> (offsets w) | Err _ => offsets w end.

Lemma round_rule (i : instanceView) (content : bytes) env (w : World S)
    (Hcontent : forall path env w, match fst (read_file path env w) with Ok (Some c) => c = content | _ => True end) :
  wp env (shipOne read_file runtimes reportLogs i) (fun _ w' => round_of i content w w') w.
Proof.
  assert (Hidle : forall w', reports w' = reports w -> offsets w' = offsets w -> round_of i content w w') by (by left).
  unfold shipOne. destruct (runtimeFor runtimes (iv_Isolation i)) as [R|] eqn:ER; [|by apply Hidle].
  destruct (rt_LogPath R) as [logPath|] eqn:EL; [|by apply Hidle].
  assert (HR : exists r, r ∈ runtimes /\ snd r = R).
  { unfold runtimeFor, runtimes_at in ER. destruct (List.find _ runtimes) as [r|] eqn:Ef; [|done]. injection ER as <-.
    apply find_some_elem in Ef as [Hin _]. eauto. }
  destruct HR as (r0 & Hr0 & <-). destruct (Hpaths r0 logPath Hr0 EL (iv_ID i)) as [Hp1 Hp2].
  apply wp_bind. specialize (Hp1 env w). specialize (Hp2 env w). unfold wp at 1. destruct (logPath (iv_ID i) env w) as [[[path|]|e] w1]; simpl in *;
    [|by apply Hidle|by apply Hidle].
  apply wp_bind, wp_attempt. unfold readSince. apply wp_bind. destruct (Hread path) as [Hf1 Hf2]. specialize (Hf1 env w1). specialize (Hf2 env w1).
  pose proof (Hcontent path env w1) as Hc. unfold wp at 1. destruct (read_file path env w1) as [[[c|]|e] w2]; simpl in *;
    [|by apply Hidle; congruence|by apply Hidle; congruence].
  subst c. apply wp_bind, wp_peek. rewrite wp_ret, Hf1, Hp1.
  destruct (read_from content (default 0 (offsets w !! iv_ID i))) as [[|line lines] next] eqn:Erf; [by apply Hidle; congruence|].
  apply wp_bind. unfold currentNodeID. apply wp_peek. apply wp_bind, wp_attempt. destruct (Hreport (me_nodeID (part w2)) (iv_ID i) (line :: lines)) as [Hl Ho].
  specialize (Hl env w2). specialize (Ho env w2). unfold wp in Hl. unfold wp at 1. destruct (reportLogs _ _ _ env w2) as [r w3]. simpl in *.
  assert (Hdone : forall w', reports w' = reports w3 -> offsets w' = match r with Ok _ => <[iv_ID i := next]> (offsets w) | Err _ => offsets w end ->
    round_of i content w w').
  { intros w' Hr' Ho'. right. exists (line :: lines), next, r. split_and!; [done|done| |done]. by rewrite Hr', Hl, Hf2, Hp2. }
  destruct r as [[]|e].
  - apply (wp_locked_apart env (T:=Offsets) (U:=list report)). intros w4 H4 H4'. simpl in *. apply Hdone; [done|]. by rewrite H4, Ho, Hf1, Hp1.
  - apply Hdone; [done|congruence].
Qed.

(** C20: [shipping_lossless]: as long as a log only grows, the lines of an instance that were taken
    so far are exactly the lines of its log before the offset, in their order, none lost and
    none sent twice, whatever fails; the offset moves only with a report that was taken, and
    the other instances are not touched. *)
Theorem shipping_lossless (i : instanceView) (content : bytes) env (w : World S)
    (Hcontent : forall path env w, match fst (read_file path env w) with Ok (Some c) => c = content | _ => True end)
    (Hoffset : 0 <= default 0 (offsets w !! iv_ID i) <= len content)
    (Hcovers : covers (shipped (iv_ID i) (reports w)) (take (Z.to_nat (default 0 (offsets w !! iv_ID i))) content)) :
  let '(r, w') := shipOne read_file runtimes reportLogs i env w in
  let before := default 0 (offsets w !! iv_ID i) in let after := default 0 (offsets w' !! iv_ID i) in
  before <= after <= len content /\
  covers (shipped (iv_ID i) (reports w')) (take (Z.to_nat after) content) /\
  (after <> before -> exists lines, reports w' = reports w ++ [Reported (iv_ID i) lines (Ok tt)]) /\
  (forall id, id <> iv_ID i -> shipped id (reports w') = shipped id (reports w) /\ offsets w' !! id = offsets w !! id).
Proof.
  pose proof (round_rule i content env w Hcontent) as H. unfold wp in H. destruct (shipOne _ _ _ _ _ _) as [r' w'].
  destruct H as [[Hr Ho]|(lines & next & r & Erf & Hne & Hr & Ho)]; rewrite Hr, Ho; cbv zeta; [split_and!; try done; lia|].
  set (before := default 0 (offsets w !! iv_ID i)) in *. pose proof (read_from_spec content before Hoffset) as Hspec. rewrite Erf in Hspec.
  destruct Hspec as (Hnext & Hc & _). rewrite shipped_app.
  assert (Hothers : forall id, id <> iv_ID i -> shipped id (reports w) ++ shipped id [Reported (iv_ID i) lines r] = shipped id (reports w)).
  { intros id Hid. unfold shipped at 2. simpl. destruct r; simpl; [|by rewrite app_nil_r].
    rewrite (proj2 (String.eqb_neq _ _)) by done. by rewrite app_nil_r. }
  destruct r as [[]|e].
  - rewrite lookup_insert_eq. simpl. split_and!; [lia|lia| |by eauto|intros id Hid; split; [rewrite shipped_app; by apply Hothers|by rewrite lookup_insert_ne]].
    unfold shipped at 2. simpl. rewrite String.eqb_refl, app_nil_r.
    assert (Et : take (Z.to_nat next) content = take (Z.to_nat before) content ++ take (Z.to_nat (next - before)) (drop (Z.to_nat before) content)).
    { replace (Z.to_nat next) with (Z.to_nat before + Z.to_nat (next - before))%nat by lia. by rewrite take_take_drop. }
    rewrite Et. by apply covers_app.
  - unfold shipped at 2. simpl. rewrite app_nil_r. fold before. split_and!; [lia|lia|done|done|intros id Hid; split; [rewrite shipped_app; by apply Hothers|done]].
Qed.
End properties.

Module Demo.
Definition state : Type := Offsets * Memory * list report.
Definition has_offsets : Has Offsets state.
Proof. by refine {| hget s := fst (fst s); hput t s := (t, snd (fst s), snd s) |}; intros; destruct s as [[] ?]. Defined.
Definition has_memory : Has Memory state.
Proof. by refine {| hget s := snd (fst s); hput t s := (fst (fst s), t, snd s) |}; intros; destruct s as [[] ?]. Defined.
Definition has_reports : Has (list report) state := Has_snd _ _.
#[local] Existing Instance has_offsets.
#[local] Existing Instance has_memory.
#[local] Existing Instance has_reports.
Definition content : bytes := bytes_of "one" ++ [carriage; newline] ++ bytes_of "two" ++ [newline] ++ bytes_of "thr".
Definition runtime : Runtime state := {|
  rt_List := ret []; rt_Start _ := ret tt; rt_Stop _ := ret tt; rt_Status _ := ret (MkState PhaseRunning "" 0); rt_Remove _ := ret tt;
  rt_Resize := None; rt_Keeper := None; rt_Archiver := None; rt_Cloner := None; rt_Carrier := None; rt_SyncDisks := None;
  rt_ReleaseDisks := None; rt_Sample := None; rt_LogPath := Some (fun id => ret (Some id)); rt_UseCredentials := None |}.
Definition runtimes : list (string * Runtime state) := [(fenceIsolation, runtime)].
Definition read_file : string -> M state (option bytes) := fun _ => ret (Some content).
Definition reportLogs : string -> string -> list string -> M state unit :=
  fun _ id lines _ w => (Ok tt, with_st w (fst (w_st w), snd (w_st w) ++ [Reported id lines (Ok tt)])).
Definition world : World state := MkWorld (∅, MkMemory ∅ ∅ zero_time "n-1", []) O [].

Lemma reads : forall path env w, match fst (read_file path env w) with Ok (Some c) => c = content | _ => True end.
Proof. done. Qed.
Lemma paths_leave r logPath : r ∈ runtimes -> rt_LogPath (snd r) = Some logPath -> forall id,
  leaves Offsets (logPath id) /\ leaves (list report) (logPath id).
Proof. intros ->%list_elem_of_singleton [= <-] id. split; auto with leaves. Qed.
Lemma files_leave path : leaves Offsets (read_file path) /\ leaves (list report) (read_file path).
Proof. split; apply leaves_ret. Qed.
Lemma reports_logged n id lines : logs (reportLogs n id lines) (Reported id lines) /\ leaves Offsets (reportLogs n id lines).
Proof. by split; intros env w. Qed.
End Demo.

(** Two lines are shipped, the unfinished third is held back. *)
Lemma shipping_lossless_witness :
  exists w', snd (shipOne (Has0:=Demo.has_offsets) (Has1:=Demo.has_memory) Demo.read_file Demo.runtimes Demo.reportLogs Agent.Demo.two Agent.Demo.env Demo.world) = w' /\
  shipped "i-two" (snd (w_st w')) = ["one"; "two"] /\
  covers (shipped "i-two" (snd (w_st w'))) (take 9 Demo.content).
Proof.
  assert (Hb : @Apart Offsets (list report) Demo.state Demo.has_offsets Demo.has_reports) by done.
  pose proof (shipping_lossless (Has0:=Demo.has_offsets) (Has1:=Demo.has_memory) (Has2:=Demo.has_reports) (Apart2:=Hb)
    Demo.read_file Demo.runtimes Demo.reportLogs Demo.paths_leave Demo.files_leave Demo.reports_logged Agent.Demo.two Demo.content Agent.Demo.env
    Demo.world Demo.reads) as H.
  destruct (shipOne _ _ _ _ _ _) as [r w'] eqn:E. exists w'. split; [reflexivity|].
  assert (Hs : shipped "i-two" (snd (w_st w')) = ["one"; "two"] /\ default 0 (fst (fst (w_st w')) !! "i-two") = 9).
  { replace w' with (snd (shipOne (Has0:=Demo.has_offsets) (Has1:=Demo.has_memory) Demo.read_file Demo.runtimes Demo.reportLogs Agent.Demo.two Agent.Demo.env Demo.world))
      by (rewrite E; reflexivity). vm_compute. split; reflexivity. }
  split; [apply Hs|]. destruct H as (_ & Hc & _).
  - split; [discriminate|vm_compute; discriminate].
  - constructor.
  - unfold part in Hc. simpl hget in Hc. change (iv_ID Agent.Demo.two) with "i-two" in Hc. rewrite (proj2 Hs) in Hc. exact Hc.
Defined.
