(* ===== verification/NodeLoop.v ===== *)
(** One round of a node's agent (internal/agent: reconcile.go, cache.go, carry.go, clone.go,
    hotplug.go, backup.go, volumekey.go, usage.go, devices.go): the desired state is read,
    kept, and applied to the volumes, the disks that move, the datapath and the workloads;
    and what a node does that cannot reach the control plane.

    The control plane is the record [Client], the runtimes are [Runtime]s, and what the node
    itself answers (its devices, its key directory, its load) is the record [Host].  Log
    lines are left out.  Sealing a backup for a direct upload is a parameter.  The cache is a
    file that holds a desired state: it is written whole or not at all, because the new one
    is renamed over it. *)
From stdpp Require Import base tactics numbers strings list gmap.
From Stdlib Require Import ZArith Lia.
From S2P Require Import Prelude GoLang Effects Float64 Kernel Netip AgentViews Agent NodePlan Health NodeLogs.

(** * What the loop works with *)

(* go: agent/usage.go sampleMark *)
Record sampleMark := MkMark { mk_seconds : float64; mk_at : Z }.
Abbreviation Marks := (gmap string sampleMark).
(** The cache file. *)
Abbreviation Saved := (option cachedState).
(** The key of the node itself among the marks. *)
Definition nodeMark : string := nul +:+ "node".
Definition KeyRoot : string := "/run/marstack/keys".

Record Catalog (S : Type) := {
  ct_Replace : list imageView -> M S unit;
  ct_Prune : list string -> M S unit;
  ct_Staged : M S (list stagedImageBody);
}.
Arguments ct_Replace {S}. Arguments ct_Prune {S}. Arguments ct_Staged {S}.
Record Proxy (S : Type) := {
  px_Apply : list Endpoint -> M S (list error);
  px_UseChallenges : gmap string string -> M S unit;
}.
Arguments px_Apply {S}. Arguments px_UseChallenges {S}.
(** What the node answers for itself: the PCI devices, whether a key is in its place and
    putting it there, and the busy seconds and memory of the machine. *)
Record Host (S : Type) := {
  ho_devices : M S (list deviceBody);
  ho_key_exists : string -> M S bool;
  ho_key_write : string -> string -> M S unit;
  ho_busySeconds : M S (option float64);
  ho_memoryMiB : M S (option (Z * Z));
  ho_CPUs : Z;
  ho_seal : transferView -> list Z -> M S uploadedBody;
  ho_read_file : string -> M S (option bytes);
}.
Arguments ho_devices {S}. Arguments ho_key_exists {S}. Arguments ho_key_write {S}. Arguments ho_busySeconds {S}.
Arguments ho_memoryMiB {S}. Arguments ho_CPUs {S}. Arguments ho_seal {S}. Arguments ho_read_file {S}.

(** The agent: its configuration and what it was built with. *)
(* go: agent/agent.go Agent *)
Record Node (S : Type) := {
  nd_FenceAfter : Z;
  nd_StateDir : string;
  nd_client : Client S;
  nd_runtimes : list (string * Runtime S);
  nd_datapath : option (Datapath S);
  nd_resolver : option (Resolver S);
  nd_tls : option (Proxy S);
  nd_catalog : option (Catalog S);
  nd_net : Dialer S;
  nd_host : Host S;
}.
Arguments nd_FenceAfter {S}. Arguments nd_StateDir {S}. Arguments nd_client {S}. Arguments nd_runtimes {S}. Arguments nd_datapath {S}.
Arguments nd_resolver {S}. Arguments nd_tls {S}. Arguments nd_catalog {S}. Arguments nd_net {S}. Arguments nd_host {S}.

Definition has_id {A} (key : A -> string) (id : string) (l : list A) : option A := List.find (fun x => String.eqb (key x) id) l.

(* go: agent/volumekey.go safeVolumeID *)
Definition safeVolumeID (id : string) : bool :=
  ids_HasPrefix id "vol" && negb (slen id <=? 4) && negb (40 <? slen id) &&
  forallb (fun c => ((97 <=? code c) && (code c <=? 122)) || ((48 <=? code c) && (code c <=? 57))) (drop 4 (bytes_of id)).
(* go: agent/hotplug.go everyDisk *)
Definition everyDisk (instanceID : string) (volumes : list volumeView) : list Disk :=
  map (fun v => MkDisk (vv_ID v) (vv_Name v) (vv_SizeGiB v) "") (List.filter (fun v => String.eqb (vv_InstanceID v) instanceID) volumes).

Section node.
Context {S : Type} `{!Has Memory S, !Has Probes S, !Has Marks S, !Has Offsets S, !Has Saved S}.
Context (a : Node S).
Abbreviation client := (nd_client a).
Abbreviation runtimes := (nd_runtimes a).
Abbreviation host := (nd_host a).

(** The runtimes that can do something. *)
Definition able {X} (f : Runtime S -> option X) : list X := omap (fun r => f (snd r)) runtimes.

(** * Volumes *)

(* go: agent/volumekey.go Agent.volumeKeyFile *)
Definition volumeKeyFile (volumeID : string) : M S string :=
  if negb (safeVolumeID volumeID) then fail (EText ("refusing a volume with id " +:+ quoted volumeID))
  else
    let path := KeyRoot +:+ "/" +:+ volumeID in
    let! there := ho_key_exists host path in
    if there : bool then ret path
    else
      let! nodeID := currentNodeID in
      let! key := c_volumeKey client nodeID volumeID in
      if is_empty key then fail (EText ("the control plane returned an empty key for " +:+ volumeID))
      else ho_key_write host volumeID key ;;; ret path.

(** The file of the key of a volume that has one. *)
Definition key_if_encrypted (v : volumeView) : M S string := if vv_Encrypted v then volumeKeyFile (vv_ID v) else ret "".

(* go: agent/reconcile.go Agent.disksByInstance *)
Definition disksByInstance (volumes : list volumeView) : M S (gmap string (list Disk)) :=
  foldM (fun v byInstance =>
    if is_empty (vv_InstanceID v) || vv_Detaching v then ret byInstance
    else
      let! r := attempt (key_if_encrypted v) in
      match r with
      | Err _ => ret byInstance
      | Ok path => ret (push byInstance (vv_InstanceID v) (MkDisk (vv_ID v) (vv_Name v) (vv_SizeGiB v) path))
      end) volumes ∅.

(* go: agent/reconcile.go Agent.tidyVolumes *)
Definition tidyVolumes (volumes : list volumeView) : M S unit :=
  foldM (fun keeper _ => quietly (PruneVolumes keeper (map vv_ID volumes))) (able rt_Keeper) tt.

(* go: agent/reconcile.go Agent.volumeIsBusy *)
Definition volumeIsBusy (v : volumeView) (assigned : list instanceView) : M S bool :=
  if is_empty (vv_InstanceID v) then ret false
  else match has_id iv_ID (vv_InstanceID v) assigned with
  | None => ret true
  | Some i =>
      match runtimeFor runtimes (iv_Isolation i) with
      | None => ret true
      | Some runtime =>
          let! r := attempt (rt_Status runtime (iv_ID i)) in
          match r with Err _ => ret true | Ok state => ret (String.eqb (st_Phase state) PhaseRunning) end
      end
  end.

(** The plans of the volumes that are not in use. *)
Definition snapshot_plans (volumes : list volumeView) (assigned : list instanceView) : M S (list (SnapshotPlan * GrowPlan)) :=
  foldM (fun v plans =>
    let! busy := volumeIsBusy v assigned in
    if busy : bool then ret plans
    else
      let! r := attempt (key_if_encrypted v) in
      match r with
      | Err _ => ret plans
      | Ok path => ret (plans ++ [(MkSnapshotPlan (vv_ID v) (map sn_Name (vv_Snapshots v)) (vv_RestoreFrom v) path,
                                   MkGrowPlan (vv_ID v) (vv_SizeGiB v) path)])
      end) volumes [].
Definition reported_state (s : SnapshotState) : reportedVolumeBody :=
  MkReportedVolume (ss_VolumeID s) false (map (fun f => MkReportedSnapshot (sf_Name f) (sf_Bytes f)) (ss_Present s)) (ss_Restored s) (ss_Error s).
(* go: agent/reconcile.go Agent.applySnapshots *)
Definition applySnapshots (volumes : list volumeView) (assigned : list instanceView) (report : bool) : M S unit :=
  match volumes with
  | [] => ret tt
  | _ =>
      let! plans := snapshot_plans volumes assigned in
      match plans with
      | [] => ret tt
      | _ =>
          let! reports := foldM (fun keeper reports =>
            foldM (fun plan _ => quietly (GrowVolume keeper (snd plan))) plans tt ;;;
            let! states := SyncSnapshots keeper (map fst plans) in
            ret (reports ++ map reported_state states)) (able rt_Keeper) [] in
          if negb report || (length reports =? 0)%nat then ret tt
          else let! nodeID := currentNodeID in quietly (c_reportVolumes client nodeID reports)
      end
  end.

(* go: agent/backup.go Agent.restoreVolume *)
Definition restoreVolume (nodeID : string) (v : volumeView) (archiver : VolumeArchiver S) : M S unit :=
  let! r := attempt (c_fetchBackup client nodeID (vv_BackupID v)) in
  match r with Err _ => ret tt | Ok content => quietly (ImportVolume archiver (vv_ID v) content) end.
(* go: agent/backup.go Agent.restoreVolumes *)
Definition restoreVolumes (nodeID : string) (volumes : list volumeView) (assigned : list instanceView) : M S unit :=
  match able rt_Archiver with
  | [] => ret tt
  | archivers =>
      foldM (fun v _ =>
        if is_empty (vv_BackupID v) then ret tt
        else
          let! busy := volumeIsBusy v assigned in
          if busy : bool then ret tt
          else foldM (fun archiver _ =>
            let! there := ar_HasVolume archiver (vv_ID v) in
            if there : bool then ret tt else restoreVolume nodeID v archiver) archivers tt) volumes tt
  end.

(* go: agent/backup.go Agent.reportBackupFailure *)
Definition reportBackupFailure (nodeID : string) (b : backupView) (message : string) : M S unit :=
  quietly (c_failBackup client nodeID (bk_ID b) message).
(** The archiver that has the volume copies it off the node. *)
Definition copy_off (nodeID : string) (b : backupView) (keyFile : string) (archiver : VolumeArchiver S) : M S unit :=
  let! r := attempt (ExportVolume archiver (bk_VolumeID b) keyFile) in
  match r with
  | Err err => reportBackupFailure nodeID b (error_text err)
  | Ok content =>
      let! r := attempt (c_backupTransfer client nodeID (bk_ID b) "upload") in
      match r with
      | Err _ => ret tt
      | Ok direct =>
          if tv_Direct direct
          then
            let! r := attempt (ho_seal host direct content) in
            match r with Err _ => ret tt | Ok landed => quietly (c_reportUploaded client nodeID (bk_ID b) landed) end
          else quietly (c_uploadBackup client nodeID (bk_ID b) content)
      end
  end.
(* go: agent/backup.go Agent.runBackup *)
Fixpoint runBackup (nodeID : string) (b : backupView) (keyFile : string) (archivers : list (VolumeArchiver S)) : M S unit :=
  match archivers with
  | [] => reportBackupFailure nodeID b "this node holds no file for that volume"
  | archiver :: rest =>
      let! there := ar_HasVolume archiver (bk_VolumeID b) in
      if there : bool then copy_off nodeID b keyFile archiver else runBackup nodeID b keyFile rest
  end.
(** The map of the code keeps the last volume of an id. *)
Definition volume_by_id (id : string) (volumes : list volumeView) : option volumeView :=
  last (List.filter (fun v => String.eqb (vv_ID v) id) volumes).
(* go: agent/backup.go Agent.runBackups *)
Definition runBackups (nodeID : string) (volumes : list volumeView) (assigned : list instanceView) : M S unit :=
  match able rt_Archiver with
  | [] => ret tt
  | archivers =>
      let! r := attempt (c_pendingBackups client nodeID) in
      match r with
      | Err _ => ret tt
      | Ok pending =>
          foldM (fun b _ =>
            match volume_by_id (bk_VolumeID b) volumes with
            | None => ret tt
            | Some v =>
                let! busy := volumeIsBusy v assigned in
                if busy : bool then ret tt
                else
                  let! r := attempt (key_if_encrypted v) in
                  match r with
                  | Err err => reportBackupFailure nodeID b ("the key of this encrypted volume could not be placed: " +:+ error_text err)
                  | Ok keyFile => runBackup nodeID b keyFile archivers
                  end
            end) pending tt
      end
  end.

(* go: agent/clone.go Agent.cloneVolumes *)
Definition cloneVolumes (volumes : list volumeView) (assigned : list instanceView) : M S unit :=
  match able rt_Cloner with
  | [] => ret tt
  | cloners =>
      foldM (fun v _ =>
        if is_empty (vv_CloneFrom v) || is_empty (vv_CloneSnap v) then ret tt
        else
          let! busy := volumeIsBusy v assigned in
          if busy : bool then ret tt
          else foldM (fun cloner _ =>
            let! there := cl_HasVolume cloner (vv_ID v) in
            if there : bool then ret tt
            else
              let! source := cl_HasVolume cloner (vv_CloneFrom v) in
              if source : bool then quietly (CloneVolume cloner (vv_ID v) (vv_CloneFrom v) (vv_CloneSnap v)) else ret tt) cloners tt) volumes tt
  end.

(** * Disks that move (carry.go) *)

(* go: agent/carry.go Agent.carrierFor *)
Definition carrierFor (isolation : string) : option (DiskCarrier S) :=
  match runtimeFor runtimes isolation with Some runtime => rt_Carrier runtime | None => None end.
(* go: agent/carry.go Agent.handOverDisk *)
Definition handOverDisk (nodeID : string) (i : instanceView) (carrier : DiskCarrier S) : M S unit :=
  let! there := HasDisk carrier (iv_ID i) in
  if negb there then ret tt
  else if negb (String.eqb (iv_ObservedState i) observedStopped) && negb (String.eqb (iv_ObservedState i) observedFailed) then ret tt
  else
    let! r := attempt (ExportDisk carrier (iv_ID i)) in
    match r with
    | Err _ => ret tt
    | Ok content =>
        let! r := attempt (c_parkDisk client nodeID (iv_ID i) content) in
        match r with Err _ => ret tt | Ok _ => quietly (Forget carrier (iv_ID i)) end
    end.
(* go: agent/carry.go Agent.takeDisk *)
Definition takeDisk (nodeID : string) (i : instanceView) (carrier : DiskCarrier S) : M S unit :=
  let! there := HasDisk carrier (iv_ID i) in
  if there : bool then quietly (c_diskLanded client nodeID (iv_ID i))
  else
    let! r := attempt (c_takeDisk client nodeID (iv_ID i)) in
    match r with
    | Err _ => ret tt
    | Ok content =>
        let! r := attempt (ImportDisk carrier (iv_ID i) content) in
        match r with Err _ => ret tt | Ok _ => quietly (c_diskLanded client nodeID (iv_ID i)) end
    end.
(* go: agent/carry.go Agent.carryDisks *)
Definition carryDisks (nodeID : string) (assigned : list instanceView) : M S unit :=
  foldM (fun i _ =>
    if negb (iv_Migrating i) then ret tt
    else match carrierFor (iv_Isolation i) with
         | None => ret tt
         | Some carrier => if iv_DiskParked i then takeDisk nodeID i carrier else handOverDisk nodeID i carrier
         end) assigned tt.

(** * Disks of running guests (hotplug.go) *)

(* go: agent/hotplug.go Agent.plugDisks *)
Definition plugDisks (i : instanceView) (disks : list Disk) : M S unit :=
  if (length disks =? 0)%nat || negb (String.eqb (iv_DesiredState i) desiredRunning) then ret tt
  else match runtimeFor runtimes (iv_Isolation i) with
  | None => ret tt
  | Some runtime =>
  match rt_SyncDisks runtime with
  | None => ret tt
  | Some syncDisks =>
      let! r := attempt (rt_Status runtime (iv_ID i)) in
      match r with
      | Err _ => ret tt
      | Ok state => if negb (String.eqb (st_Phase state) PhaseRunning) then ret tt else quietly (syncDisks (iv_ID i) disks)
      end
  end end.
Definition reported_release (one : Released) : reportedVolumeBody :=
  if rl_Gone one then MkReportedVolume (rl_VolumeID one) true [] "" "" else MkReportedVolume (rl_VolumeID one) false [] "" (rl_Reason one).
(* go: agent/hotplug.go Agent.releaseDisks *)
Definition releaseDisks (i : instanceView) (keep : list Disk) (volumes : list volumeView) (report : bool) : M S unit :=
  if negb report || negb (String.eqb (iv_DesiredState i) desiredRunning) then ret tt
  else match runtimeFor runtimes (iv_Isolation i) with
  | None => ret tt
  | Some runtime =>
  match rt_ReleaseDisks runtime with
  | None => ret tt
  | Some release =>
      if negb (existsb (fun v => String.eqb (vv_InstanceID v) (iv_ID i) && vv_Detaching v) volumes) then ret tt
      else
        let! r := attempt (rt_Status runtime (iv_ID i)) in
        match r with
        | Err _ => ret tt
        | Ok state =>
            if negb (String.eqb (st_Phase state) PhaseRunning) then ret tt
            else
              let! r := attempt (release (iv_ID i) keep (everyDisk (iv_ID i) volumes)) in
              match r with
              | Err _ | Ok [] => ret tt
              | Ok released =>
                  let! nodeID := currentNodeID in quietly (c_reportVolumes client nodeID (map reported_release released))
              end
        end
  end end.

(** * Usage *)

Definition hundred : float64 := of_int 100.
Definition of_nanoseconds (d : Z) : float64 :=
  fadd (of_int (d / second)) (fdiv (of_int (d mod second)) (of_int second)).
(** [Duration.Seconds] adds the seconds and the rest apart; the duration is not negative here,
    or the result is not looked at. *)
(* go: agent/usage.go Agent.cpuPercent *)
Definition cpuPercent (key : string) (seconds : float64) : M S float64 :=
  let! now_ := now in
  let! previous := locked (fun m : Marks => (m !! key, <[key := MkMark seconds now_]> m)) in
  match previous with
  | None => ret (of_int 0)
  | Some previous =>
      let elapsed := time_sub now_ (mk_at previous) in
      if (elapsed <=? 0) || fltb seconds (mk_seconds previous) then ret (of_int 0)
      else ret (fmul (fdiv (fsub seconds (mk_seconds previous)) (of_nanoseconds elapsed)) hundred)
  end.
(* go: agent/usage.go Agent.forgetMarks *)
Definition forgetMarks (assigned : list instanceView) : M S unit :=
  locked (fun m : Marks => (tt, filter (fun kv => kv.1 ∈ nodeMark :: map iv_ID assigned) m)).
(* go: agent/usage_linux.go Agent.sampleNode *)
Definition sampleNode : M S (option (float64 * Z * Z)) :=
  let! busy := ho_busySeconds host in
  match busy with
  | None => ret None
  | Some busy =>
      let! memory := ho_memoryMiB host in
      match memory with
      | None => ret None
      | Some (total, available) =>
          let! percent := cpuPercent nodeMark busy in
          ret (Some (fdiv percent (of_int (Z.max (ho_CPUs host) 1)), total - available, total))
      end
  end.
(* go: agent/usage.go Agent.reportUsage *)
Definition reportUsage (assigned : list instanceView) : M S unit :=
  let! node := sampleNode in
  match node with
  | None => ret tt
  | Some (percent, used, total) =>
      let! samples := foldM (fun i samples =>
        match runtimeFor runtimes (iv_Isolation i) with
        | None => ret samples
        | Some runtime =>
        match rt_Sample runtime with
        | None => ret samples
        | Some sample =>
            let! taken := sample (iv_ID i) in
            match taken with
            | None => ret samples
            | Some (seconds, memory) =>
                let! percent := cpuPercent (iv_ID i) seconds in
                ret (samples ++ [MkInstanceUsage (iv_ID i) percent memory])
            end
        end end) assigned [] in
      let! nodeID := currentNodeID in
      quietly (c_reportUsage client nodeID (MkUsage percent used total samples))
  end.

(** * Images, registries, challenges, devices *)

(* go: agent/reconcile.go Agent.refreshCatalog *)
Definition refreshCatalog : M S unit :=
  match nd_catalog a with
  | None => ret tt
  | Some catalog =>
      let! nodeID := currentNodeID in
      let! r := attempt (c_images client nodeID) in
      match r with Err _ => ret tt | Ok images => ct_Replace catalog images end
  end.
(* go: agent/reconcile.go Agent.tidyImages *)
Definition tidyImages (assigned : list instanceView) (report : bool) : M S unit :=
  match nd_catalog a with
  | None => ret tt
  | Some catalog =>
      quietly (ct_Prune catalog (concat (map (fun i => [iv_Image i; iv_ISO i; iv_Kernel i]) assigned))) ;;;
      if negb report then ret tt
      else
        let! r := attempt (ct_Staged catalog) in
        match r with
        | Err _ => ret tt
        | Ok staged => let! nodeID := currentNodeID in quietly (c_reportImages client nodeID staged)
        end
  end.
(* go: agent/reconcile.go Agent.refreshRegistries *)
Definition refreshRegistries : M S unit :=
  let! nodeID := currentNodeID in
  if is_empty nodeID then ret tt
  else
    let! r := attempt (c_registries client nodeID) in
    match r with
    | Err _ => ret tt
    | Ok held =>
        let logins := map (fun one => MkCredential (ry_Host one) (ry_Username one) (ry_Password one)) held in
        foldM (fun use _ => use logins) (able rt_UseCredentials) tt
    end.
(* go: agent/reconcile.go Agent.refreshChallenges *)
Definition refreshChallenges : M S unit :=
  match nd_tls a with
  | None => ret tt
  | Some tls =>
      let! nodeID := currentNodeID in
      if is_empty nodeID then ret tt
      else
        let! r := attempt (c_challenges client nodeID) in
        match r with
        | Err _ => ret tt
        | Ok held => px_UseChallenges tls (fold_left (fun m one => <[ac_Token one := ac_Authorization one]> m) held ∅)
        end
  end.
(* go: agent/devices.go Agent.reportDevices *)
Definition reportDevices : M S unit :=
  let! nodeID := currentNodeID in
  if is_empty nodeID then ret tt
  else
    let! r := attempt (ho_devices host) in
    match r with Err _ => ret tt | Ok held => quietly (c_reportDevices client nodeID held) end.

(** * The datapath *)

(** What is asked of the datapath, when there is one. *)
Definition on_datapath (f : Datapath S -> M S unit) : M S unit :=
  match nd_datapath a with None => ret tt | Some d => quietly (f d) end.
(* go: agent/reconcile.go Agent.serveDNS *)
Definition serveDNS (networks : list networkView) (records : list dnsRecordView) : M S unit :=
  match nd_resolver a with
  | None => ret tt
  | Some resolver =>
      foldM (fun n _ => quietly (rs_Listen resolver (nw_Gateway n))) networks tt ;;;
      rs_Update resolver (zone_of records)
  end.
(* go: agent/reconcile.go Agent.applyEgress *)
Definition applyEgress (networks : list networkView) : M S unit := on_datapath (fun d => ApplyEgress d (egress_of networks)).
(* go: agent/reconcile.go Agent.applyRoutes *)
Definition applyRoutes (networks : list networkView) (nodes : list nodeView) : M S unit :=
  if (length (peers_of networks) =? 0)%nat || (length (routes_of networks nodes) =? 0)%nat then ret tt
  else on_datapath (fun d => ApplyRoutes d (routes_of networks nodes)).
(* go: agent/reconcile.go Agent.applyFilters *)
Definition applyFilters (networks : list networkView) (isolations : gmap string string) : M S unit :=
  on_datapath (fun d => ApplyFilters d (filters_of networks isolations)).
(* go: agent/reconcile.go Agent.applyGuards *)
Definition applyGuards (assigned : list instanceView) (networks : list networkView) (firewalls : list firewallView) : M S unit :=
  on_datapath (fun d => ApplyGuards d (guards_of assigned networks firewalls)).
(* go: agent/reconcile.go Agent.applyForwards *)
Definition applyForwards (forwards : list forwardView) (balancers : list balancerView) : M S unit :=
  match nd_datapath a with
  | None => ret tt
  | Some d =>
      quietly (ApplyForwards d (published_of forwards balancers)) ;;;
      match nd_tls a with
      | None => ret tt
      | Some tls => quietly (px_Apply tls (terminating_of forwards balancers))
      end
  end.

(** * One round *)

(* go: agent/reconcile.go Agent.readDesired *)
Definition readDesired : M S cachedState :=
  let! nodeID := currentNodeID in
  let! assigned := mapped (EWrap "assigned instances") (c_assignedInstances client nodeID) in
  let assigned := usableInstances assigned in
  let! networks := mapped (EWrap "node network view") (c_nodeNetworks client nodeID) in
  let! records := mapped (EWrap "dns records") (c_dnsRecords client) in
  let! nodes := mapped (EWrap "nodes") (c_nodes client) in
  let! volumes := mapped (EWrap "volumes") (c_volumes client nodeID) in
  let! forwards := mapped (EWrap "forwards") (c_forwards client nodeID) in
  let! balancers := mapped (EWrap "balancers") (c_balancers client nodeID) in
  let! firewalls := mapped (EWrap "firewalls") (c_firewalls client nodeID) in
  ret (MkCached "" zero_time assigned networks records nodes volumes forwards balancers firewalls).

(** The workload half: every instance is brought to its desired state and what was seen is
    reported when it is news. *)
Definition apply_instance (state : cachedState) (report : bool) (interfaces : gmap string (list NetworkConfig))
    (disks : gmap string (list Disk)) (i : instanceView) : M S unit :=
  let mine := default [] (disks !! iv_ID i) in
  plugDisks i mine ;;;
  releaseDisks i mine (ca_Volumes state) report ;;;
  let! ' (observed, message, exitCode) := reconcileOne runtimes i (default [] (interfaces !! iv_ID i)) mine in
  let! restarts := restartAttempts (iv_ID i) in
  if negb report then ret tt
  else if String.eqb (iv_ObservedState i) observed && String.eqb (iv_ObservedMessage i) message && (iv_RestartCount i =? restarts) &&
          sameExit (iv_ExitCode i) exitCode then ret tt
  else let! nodeID := currentNodeID in quietly (c_reportStatus client nodeID (iv_ID i) observed message restarts exitCode).

(* go: agent/reconcile.go Agent.applyDesired *)
Definition applyDesired (state : cachedState) (report : bool) : M S unit :=
  match runtimes with
  | [] => ret tt
  | _ =>
  let assigned := ca_Instances state in
  collectGarbage runtimes (nd_datapath a) assigned (ca_Networks state) ;;;
  tidyVolumes (ca_Volumes state) ;;;
  let! nodeID := currentNodeID in
  restoreVolumes nodeID (ca_Volumes state) assigned ;;;
  applySnapshots (ca_Volumes state) assigned report ;;;
  (if report then let! nodeID := currentNodeID in runBackups nodeID (ca_Volumes state) assigned else ret tt) ;;;
  tidyImages assigned report ;;;
  (if report
   then
     forgetMarks assigned ;;;
     (let! nodeID := currentNodeID in carryDisks nodeID assigned) ;;;
     cloneVolumes (ca_Volumes state) assigned ;;;
     reportUsage assigned ;;;
     shipLogs (ho_read_file host) runtimes (c_reportLogs client) assigned ;;;
     forgetLogs assigned ;;;
     forgetRestarts assigned ;;;
     runProbes (nd_net a) currentNodeID (c_reportHealth client) (ca_Balancers state) assigned
   else ret tt) ;;;
  serveDNS (ca_Networks state) (ca_Records state) ;;;
  let interfaces := interfacesByInstance (ca_Networks state) in
  let! disks := disksByInstance (ca_Volumes state) in
  applyEgress (ca_Networks state) ;;;
  applyRoutes (ca_Networks state) (ca_Nodes state) ;;;
  applyFilters (ca_Networks state) (isolationsOf assigned) ;;;
  applyForwards (ca_Forwards state) (ca_Balancers state) ;;;
  applyGuards assigned (ca_Networks state) (ca_Firewalls state) ;;;
  foldM (fun i _ => apply_instance state report interfaces disks i) assigned tt
  end.

(* go: agent/cache.go Agent.saveState *)
Definition saveState (state : cachedState) : M S unit :=
  if is_empty (nd_StateDir a) then ret tt
  else
    let! nodeID := currentNodeID in
    let! now_ := now in
    let kept := MkCached nodeID now_ (ca_Instances state) (ca_Networks state) (ca_Records state) (ca_Nodes state)
                  (ca_Volumes state) (ca_Forwards state) (ca_Balancers state) (ca_Firewalls state) in
    quietly (sql "write the desired state" (fun _ : Saved => (Ok tt, Some kept))).
(* go: agent/cache.go Agent.loadState *)
Definition loadState : M S cachedState :=
  if is_empty (nd_StateDir a) then fail (EText "no state directory is configured")
  else
    let! state := query "read the desired state" (fun s : Saved => match s with Some c => Ok c | None => Err (EText "no such file") end) in
    if is_empty (ca_NodeID state) then fail (EText "the cached desired state has no node id") else ret state.

(* go: agent/reconcile.go Agent.reconcile *)
Definition reconcile : M S unit :=
  match runtimes with
  | [] => ret tt
  | _ =>
      refreshCatalog ;;; refreshRegistries ;;; refreshChallenges ;;; reportDevices ;;;
      let! r := attempt readDesired in
      match r with
      | Err _ =>
          let! ' (silence, cut) := fenced (nd_FenceAfter a) in
          if cut : bool then fence runtimes silence else ret tt
      | Ok state => noteContact ;;; saveState state ;;; applyDesired state true
      end
  end.
(* go: agent/agent.go Agent.reconcileTick *)
Definition reconcileTick : M S unit :=
  let! nodeID := currentNodeID in if is_empty nodeID then ret tt else reconcile.

(* go: agent/cache.go Agent.reconcileFromCache *)
Definition reconcileFromCache : M S unit :=
  let! ' (silence, cut) := fenced (nd_FenceAfter a) in
  (if cut : bool then fence runtimes silence else ret tt) ;;;
  let! r := attempt loadState in
  match r with
  | Err _ => ret tt
  | Ok state =>
      setNodeID (ca_NodeID state) ;;;
      let state := if cut : bool then with_instances (unmovable (ca_Instances state)) state else state in
      applyDesired state false
  end.
End node.

(** * A node that is cut off

    The calls to the runtimes are written down; everything else a round does leaves that
    record alone. *)

Section cut_off.
Context {S : Type} `{!Has Memory S, !Has Probes S, !Has Marks S, !Has Offsets S, !Has Saved S, !Has (list call) S}.
Context `{!Apart Memory (list call) S, !Apart Probes (list call) S, !Apart Marks (list call) S, !Apart Offsets (list call) S,
  !Apart Saved (list call) S}.
Abbreviation calls w := (part (T:=list call) w).
Abbreviation silent m := (leaves (list call) m).

(** The reads and the writes of the client. *)
Definition reads_silent (c : Client S) : Prop :=
  (forall n, silent (c_assignedInstances c n)) /\ (forall n, silent (c_nodeNetworks c n)) /\ silent (c_dnsRecords c) /\
    silent (c_nodes c) /\ (forall n, silent (c_volumes c n)) /\ (forall n, silent (c_forwards c n)) /\ (forall n, silent (c_balancers c n)) /\
    (forall n, silent (c_firewalls c n)) /\ (forall n, silent (c_images c n)) /\ (forall n, silent (c_registries c n)) /\ (forall n, silent (c_challenges c n)) /\
    (forall n, silent (c_pendingBackups c n)) /\ (forall n v, silent (c_volumeKey c n v)) /\ (forall n b v, silent (c_backupTransfer c n b v)) /\
    (forall n b, silent (c_fetchBackup c n b)) /\ (forall n i, silent (c_takeDisk c n i)).
Definition writes_silent (c : Client S) : Prop :=
  (forall n i b, silent (c_parkDisk c n i b)) /\ (forall n i, silent (c_diskLanded c n i)) /\
    (forall n i b, silent (c_uploadBackup c n i b)) /\ (forall n i u, silent (c_reportUploaded c n i u)) /\ (forall n i m, silent (c_failBackup c n i m)) /\
    (forall n i o m r e, silent (c_reportStatus c n i o m r e)) /\ (forall n l, silent (c_reportVolumes c n l)) /\ (forall n l, silent (c_reportHealth c n l)) /\
    (forall n b, silent (c_reportUsage c n b)) /\ (forall n i l, silent (c_reportLogs c n i l)) /\ (forall n l, silent (c_reportImages c n l)) /\
    (forall n l, silent (c_reportDevices c n l)).

(** Nothing but the runtimes' own calls is on the record. *)
Record Unrecorded (a : Node S) : Prop := {
  ur_runtimes : Forall (fun r => Logged (snd r)) (nd_runtimes a);
  ur_keeper k : k ∈ able a rt_Keeper -> (forall l, silent (PruneVolumes k l)) /\ (forall l, silent (SyncSnapshots k l)) /\ (forall p, silent (GrowVolume k p));
  ur_archiver k : k ∈ able a rt_Archiver -> (forall i, silent (ar_HasVolume k i)) /\ (forall i f, silent (ExportVolume k i f)) /\ (forall i c, silent (ImportVolume k i c));
  ur_cloner k : k ∈ able a rt_Cloner -> (forall i, silent (cl_HasVolume k i)) /\ (forall i f s, silent (CloneVolume k i f s));
  ur_carrier k : k ∈ able a rt_Carrier -> (forall i, silent (HasDisk k i)) /\ (forall i, silent (ExportDisk k i)) /\ (forall i c, silent (ImportDisk k i c)) /\ (forall i, silent (Forget k i));
  ur_sync k : k ∈ able a rt_SyncDisks -> forall i l, silent (k i l);
  ur_release k : k ∈ able a rt_ReleaseDisks -> forall i l l', silent (k i l l');
  ur_sample k : k ∈ able a rt_Sample -> forall i, silent (k i);
  ur_log k : k ∈ able a rt_LogPath -> forall i, silent (k i);
  ur_use k : k ∈ able a rt_UseCredentials -> forall l, silent (k l);
  ur_datapath d : nd_datapath a = Some d -> (forall l, silent (ApplyEgress d l)) /\ (forall l, silent (ApplyRoutes d l)) /\ (forall l, silent (ApplyForwards d l)) /\
    (forall l, silent (ApplyGuards d l)) /\ (forall l, silent (ApplyFilters d l)) /\ (forall k, silent (Prune d k));
  ur_resolver r : nd_resolver a = Some r -> (forall s, silent (rs_Listen r s)) /\ (forall z, silent (rs_Update r z));
  ur_tls t : nd_tls a = Some t -> (forall l, silent (px_Apply t l)) /\ (forall m, silent (px_UseChallenges t m));
  ur_catalog c : nd_catalog a = Some c -> (forall l, silent (ct_Replace c l)) /\ (forall l, silent (ct_Prune c l)) /\ silent (ct_Staged c);
  ur_net : (forall s, silent (dl_tcp (nd_net a) s)) /\ (forall s, silent (dl_get (nd_net a) s));
  ur_host : silent (ho_devices (nd_host a)) /\ (forall p, silent (ho_key_exists (nd_host a) p)) /\ (forall p k, silent (ho_key_write (nd_host a) p k)) /\
    silent (ho_busySeconds (nd_host a)) /\ silent (ho_memoryMiB (nd_host a)) /\ (forall t c, silent (ho_seal (nd_host a) t c)) /\
    (forall p, silent (ho_read_file (nd_host a) p));
  ur_reads : reads_silent (nd_client a);
  ur_writes : writes_silent (nd_client a);
}.

Context (a : Node S) (Ha : Unrecorded a).
(** A property of calls that only a start can violate. *)
Context (P : call -> Prop) (may_start : Spec -> Prop).
Context (Plisted : forall r, P (Listed r)) (Pstopped : forall i r, P (Stopped i r)) (Pstatused : forall i r, P (Statused i r))
  (Premoved : forall i r, P (Removed i r)) (Presized : forall i v m r, P (Resized i v m r))
  (Pstarted : forall spec r, may_start spec -> P (Started spec r)).
Abbreviation keeps m := (preserves (T:=list call) (Forall P) m).

Lemma keeps_logged {A} (m : M S A) c : logs m c -> (forall r, P (c r)) -> keeps m.
Proof. intros Hm Hc env w Hw. specialize (Hm env w). unfold wp in *. destruct (m env w) as [r w']. rewrite Hm. apply Forall_app. by split; [|constructor]. Qed.

Lemma runtime_logged isolation R : runtimeFor (nd_runtimes a) isolation = Some R -> Logged R /\ exists r, r ∈ nd_runtimes a /\ snd r = R.
Proof.
  unfold runtimeFor, runtimes_at. destruct (List.find _ _) as [r|] eqn:Ef; [|done]. intros [= <-]. apply find_some_elem in Ef as [Hin _].
  split; [by apply (proj1 (Forall_forall _ _) (ur_runtimes a Ha))|eauto].
Qed.

Lemma able_in {X} (f : Runtime S -> option X) isolation R x : runtimeFor (nd_runtimes a) isolation = Some R -> f R = Some x -> x ∈ able a f.
Proof. intros HR Hx. destruct (runtime_logged _ _ HR) as [_ (r & Hr & <-)]. unfold able. apply list_elem_of_omap. eauto. Qed.

Lemma keeps_list R : Logged R -> keeps (rt_List R).
Proof. intros HR. eapply keeps_logged; [apply (lr_list R HR)|auto]. Qed.
Lemma keeps_stop R i : Logged R -> keeps (rt_Stop R i).
Proof. intros HR. eapply keeps_logged; [apply (lr_stop R HR)|auto]. Qed.
Lemma keeps_status R i : Logged R -> keeps (rt_Status R i).
Proof. intros HR. eapply keeps_logged; [apply (lr_status R HR)|auto]. Qed.
Lemma keeps_removal R i : Logged R -> keeps (rt_Remove R i).
Proof. intros HR. eapply keeps_logged; [apply (lr_remove R HR)|auto]. Qed.
Lemma keeps_start R spec : Logged R -> may_start spec -> keeps (rt_Start R spec).
Proof. intros HR Hs. eapply keeps_logged; [apply (lr_start R HR)|auto]. Qed.

(** What is not a call to a runtime. *)
Lemma keeps_silent {A} (m : M S A) : silent m -> keeps m.
Proof. apply preserves_leaves. Qed.

Ltac field := solve [ apply (ur_reads a Ha) | apply (ur_writes a Ha) | apply (ur_host a Ha) | apply (ur_net a Ha)
  | eapply (ur_keeper a Ha); eassumption | eapply (ur_archiver a Ha); eassumption | eapply (ur_cloner a Ha); eassumption
  | eapply (ur_carrier a Ha); eassumption | eapply (ur_datapath a Ha); eassumption | eapply (ur_resolver a Ha); eassumption
  | eapply (ur_archiver a Ha); match goal with E : able a rt_Archiver = _ |- _ => rewrite E; eassumption end
  | eapply (ur_cloner a Ha); match goal with E : able a rt_Cloner = _ |- _ => rewrite E; eassumption end
  | eapply (ur_tls a Ha); eassumption | eapply (ur_catalog a Ha); eassumption ].
#[local] Hint Extern 1 (leaves (list call) _) => field : leaves.
#[local] Hint Extern 3 (preserves _ (match able a ?f with _ => _ end)) => let E := fresh "E" in destruct (able a f) eqn:E : preserves.
#[local] Hint Resolve keeps_list keeps_stop keeps_status keeps_removal : preserves.
Ltac keep := auto 30 with preserves leaves.

Lemma keeps_quieted {A} (m : M S A) : keeps m -> keeps (quietly m).
Proof. intros Hm. unfold quietly. keep. Qed.
#[local] Hint Resolve keeps_quieted : preserves.

Lemma keeps_node : keeps currentNodeID.
Proof. unfold currentNodeID. keep. Qed.
#[local] Hint Resolve keeps_node : preserves.

Lemma keeps_key v : keeps (volumeKeyFile a v).
Proof. unfold volumeKeyFile. keep. Qed.
#[local] Hint Resolve keeps_key : preserves.
Lemma keeps_key_if v : keeps (key_if_encrypted a v).
Proof. unfold key_if_encrypted. keep. Qed.
#[local] Hint Resolve keeps_key_if : preserves.
Lemma keeps_disks l : keeps (disksByInstance a l).
Proof. unfold disksByInstance. keep. Qed.
#[local] Hint Resolve keeps_disks : preserves.
Lemma keeps_tidy_volumes l : keeps (tidyVolumes a l).
Proof. unfold tidyVolumes. keep. Qed.
#[local] Hint Resolve keeps_tidy_volumes : preserves.
Lemma keeps_at {A} isolation (none : M S A) (k : Runtime S -> M S A) : keeps none ->
  (forall R, Logged R -> runtimeFor (nd_runtimes a) isolation = Some R -> keeps (k R)) ->
  keeps (match runtimeFor (nd_runtimes a) isolation with None => none | Some R => k R end).
Proof. intros Hn Hk. destruct (runtimeFor _ _) as [R|] eqn:E; [|done]. apply Hk; [|done]. by apply (runtime_logged isolation). Qed.
#[local] Hint Extern 3 (preserves _ (match runtimeFor _ _ with _ => _ end)) => apply keeps_at; [|intros] : preserves.
Lemma keeps_busy v l : keeps (volumeIsBusy a v l).
Proof. unfold volumeIsBusy. keep. Qed.
#[local] Hint Resolve keeps_busy : preserves.
Lemma keeps_plans v l : keeps (snapshot_plans a v l).
Proof. unfold snapshot_plans. keep. Qed.
#[local] Hint Resolve keeps_plans : preserves.
Lemma keeps_snapshots v l r : keeps (applySnapshots a v l r).
Proof. unfold applySnapshots. keep. Qed.
#[local] Hint Resolve keeps_snapshots : preserves.
Lemma keeps_failure n b m : keeps (reportBackupFailure a n b m).
Proof. unfold reportBackupFailure. keep. Qed.
#[local] Hint Resolve keeps_failure : preserves.
Lemma keeps_restore n v l : keeps (restoreVolumes a n v l).
Proof. unfold restoreVolumes, restoreVolume. keep. Qed.
#[local] Hint Resolve keeps_restore : preserves.
Lemma keeps_copy n b f k : k ∈ able a rt_Archiver -> keeps (copy_off a n b f k).
Proof. unfold copy_off. intros Hk. keep. Qed.
#[local] Hint Resolve keeps_copy : preserves.
Lemma keeps_backup n b f l : (forall k, k ∈ l -> k ∈ able a rt_Archiver) -> keeps (runBackup a n b f l).
Proof.
  induction l as [|k l IH]; intros Hl; simpl; [keep|]. assert (Hk : k ∈ able a rt_Archiver) by (apply Hl; left).
  apply preserves_bind; [keep|]. intros [|]; [keep|]. apply IH. intros. apply Hl. by right.
Qed.
Lemma keeps_backups n v l : keeps (runBackups a n v l).
Proof.
  unfold runBackups. destruct (able a rt_Archiver) as [|k ks] eqn:E; [keep|].
  assert (Hb : forall b f, keeps (runBackup a n b f (k :: ks))) by (intros; apply keeps_backup; by rewrite E). keep.
Qed.
#[local] Hint Resolve keeps_backups : preserves.
Lemma keeps_clones v l : keeps (cloneVolumes a v l).
Proof. unfold cloneVolumes. keep. Qed.
#[local] Hint Resolve keeps_clones : preserves.
Lemma carrier_able isolation k : carrierFor a isolation = Some k -> k ∈ able a rt_Carrier.
Proof. unfold carrierFor. destruct (runtimeFor _ _) as [R|] eqn:E; [|done]. by eapply able_in. Qed.
Lemma keeps_hand_over n i k : k ∈ able a rt_Carrier -> keeps (handOverDisk a n i k).
Proof. unfold handOverDisk. intros Hk. keep. Qed.
#[local] Hint Resolve keeps_hand_over : preserves.
Lemma keeps_take n i k : k ∈ able a rt_Carrier -> keeps (takeDisk a n i k).
Proof. unfold takeDisk. intros Hk. keep. Qed.
#[local] Hint Resolve keeps_take : preserves.
Lemma keeps_carry n l : keeps (carryDisks a n l).
Proof.
  unfold carryDisks. apply preserves_foldM. intros i _ _. destruct (negb _); [keep|]. destruct (carrierFor a _) as [k|] eqn:E; [|keep].
  apply carrier_able in E. keep.
Qed.
#[local] Hint Resolve keeps_carry : preserves.
#[local] Hint Extern 1 (leaves (list call) (?f _ _)) => match goal with E : rt_SyncDisks _ = Some f |- _ => apply (ur_sync a Ha); eapply able_in; eassumption end : leaves.
#[local] Hint Extern 1 (leaves (list call) (?f _ _ _)) => match goal with E : rt_ReleaseDisks _ = Some f |- _ => apply (ur_release a Ha); eapply able_in; eassumption end : leaves.
#[local] Hint Extern 1 (leaves (list call) (?f _)) => match goal with
  | E : rt_Sample _ = Some f |- _ => apply (ur_sample a Ha); eapply able_in; eassumption
  | E : rt_LogPath _ = Some f |- _ => apply (ur_log a Ha); eapply able_in; eassumption
  | E : f ∈ able a rt_UseCredentials |- _ => by apply (ur_use a Ha)
  end : leaves.
#[local] Hint Extern 3 (preserves _ (match rt_SyncDisks ?R with _ => _ end)) => let E := fresh "E" in destruct (rt_SyncDisks R) eqn:E : preserves.
#[local] Hint Extern 3 (preserves _ (match rt_ReleaseDisks ?R with _ => _ end)) => let E := fresh "E" in destruct (rt_ReleaseDisks R) eqn:E : preserves.
#[local] Hint Extern 3 (preserves _ (match rt_Sample ?R with _ => _ end)) => let E := fresh "E" in destruct (rt_Sample R) eqn:E : preserves.
#[local] Hint Extern 3 (preserves _ (match rt_LogPath ?R with _ => _ end)) => let E := fresh "E" in destruct (rt_LogPath R) eqn:E : preserves.
#[local] Hint Extern 3 (preserves _ (match nd_datapath a with _ => _ end)) => let E := fresh "E" in destruct (nd_datapath a) eqn:E : preserves.
#[local] Hint Extern 3 (preserves _ (match nd_resolver a with _ => _ end)) => let E := fresh "E" in destruct (nd_resolver a) eqn:E : preserves.
#[local] Hint Extern 3 (preserves _ (match nd_tls a with _ => _ end)) => let E := fresh "E" in destruct (nd_tls a) eqn:E : preserves.
#[local] Hint Extern 3 (preserves _ (match nd_catalog a with _ => _ end)) => let E := fresh "E" in destruct (nd_catalog a) eqn:E : preserves.
Lemma keeps_plug i l : keeps (plugDisks a i l).
Proof. unfold plugDisks. keep. Qed.
#[local] Hint Resolve keeps_plug : preserves.
Lemma keeps_release i l v r : keeps (releaseDisks a i l v r).
Proof. unfold releaseDisks. keep. Qed.
#[local] Hint Resolve keeps_release : preserves.
Lemma keeps_percent k s : keeps (cpuPercent k s).
Proof. unfold cpuPercent. keep. Qed.
#[local] Hint Resolve keeps_percent : preserves.
Lemma keeps_sampled : keeps (sampleNode a).
Proof. unfold sampleNode. keep. Qed.
#[local] Hint Resolve keeps_sampled : preserves.
Lemma keeps_usage l : keeps (reportUsage a l).
Proof. unfold reportUsage. keep. Qed.
#[local] Hint Resolve keeps_usage : preserves.
Lemma keeps_refresh_catalog : keeps (refreshCatalog a).
Proof. unfold refreshCatalog. keep. Qed.
#[local] Hint Resolve keeps_refresh_catalog : preserves.
Lemma keeps_images l r : keeps (tidyImages a l r).
Proof. unfold tidyImages. keep. Qed.
#[local] Hint Resolve keeps_images : preserves.
Lemma keeps_registries : keeps (refreshRegistries a).
Proof. unfold refreshRegistries. keep. Qed.
#[local] Hint Resolve keeps_registries : preserves.
Lemma keeps_challenges : keeps (refreshChallenges a).
Proof. unfold refreshChallenges. keep. Qed.
#[local] Hint Resolve keeps_challenges : preserves.
Lemma keeps_devices : keeps (reportDevices a).
Proof. unfold reportDevices. keep. Qed.
#[local] Hint Resolve keeps_devices : preserves.
Lemma keeps_dns n r : keeps (serveDNS a n r).
Proof. unfold serveDNS. keep. Qed.
#[local] Hint Resolve keeps_dns : preserves.
Lemma keeps_egress n : keeps (applyEgress a n).
Proof. unfold applyEgress, on_datapath. keep. Qed.
#[local] Hint Resolve keeps_egress : preserves.
Lemma keeps_routes n l : keeps (applyRoutes a n l).
Proof. unfold applyRoutes, on_datapath. keep. Qed.
#[local] Hint Resolve keeps_routes : preserves.
Lemma keeps_filters n l : keeps (applyFilters a n l).
Proof. unfold applyFilters, on_datapath. keep. Qed.
#[local] Hint Resolve keeps_filters : preserves.
Lemma keeps_guards i n l : keeps (applyGuards a i n l).
Proof. unfold applyGuards, on_datapath. keep. Qed.
#[local] Hint Resolve keeps_guards : preserves.
Lemma keeps_forwards f b : keeps (applyForwards a f b).
Proof. unfold applyForwards. keep. Qed.
#[local] Hint Resolve keeps_forwards : preserves.
Lemma keeps_marks l : keeps (forgetMarks l).
Proof. unfold forgetMarks. keep. Qed.
#[local] Hint Resolve keeps_marks : preserves.
Lemma keeps_logs l : keeps (shipLogs (ho_read_file (nd_host a)) (nd_runtimes a) (c_reportLogs (nd_client a)) l).
Proof. unfold shipLogs, shipOne, readSince, keepOffset. keep. Qed.
#[local] Hint Resolve keeps_logs : preserves.
Lemma keeps_offsets l : keeps (forgetLogs l).
Proof. unfold forgetLogs. keep. Qed.
#[local] Hint Resolve keeps_offsets : preserves.
Lemma keeps_restarts l : keeps (forgetRestarts l).
Proof. unfold forgetRestarts. keep. Qed.
#[local] Hint Resolve keeps_restarts : preserves.
Lemma keeps_probes b l : keeps (runProbes (nd_net a) currentNodeID (c_reportHealth (nd_client a)) b l).
Proof. unfold runProbes, settle, probe, probeHTTP, probeTCP, probeStateOf, forgetProbes. keep. Qed.
#[local] Hint Resolve keeps_probes : preserves.
Lemma keeps_read : keeps (readDesired a).
Proof. unfold readDesired. keep. Qed.
#[local] Hint Resolve keeps_read : preserves.
Lemma keeps_save s : keeps (saveState a s).
Proof. unfold saveState. keep. Qed.
#[local] Hint Resolve keeps_save : preserves.
Lemma keeps_load : keeps (loadState a).
Proof. unfold loadState. keep. Qed.
#[local] Hint Resolve keeps_load : preserves.
Lemma keeps_state {A} i (f : restartState -> A * restartState) : keeps (restartStateOf i f).
Proof. unfold restartStateOf. keep. Qed.
#[local] Hint Resolve keeps_state : preserves.
Lemma keeps_taken i : keeps (takeFenced i).
Proof. unfold takeFenced. keep. Qed.
#[local] Hint Resolve keeps_taken : preserves.
Lemma keeps_started i : keeps (noteStarted i).
Proof. unfold noteStarted. keep. Qed.
#[local] Hint Resolve keeps_started : preserves.
Lemma keeps_allowed i : keeps (restartAllowed i).
Proof. unfold restartAllowed. keep. Qed.
#[local] Hint Resolve keeps_allowed : preserves.
Lemma keeps_restart i : keeps (noteRestart i).
Proof. unfold noteRestart. keep. Qed.
#[local] Hint Resolve keeps_restart : preserves.
Lemma keeps_fenced f : keeps (fenced f).
Proof. unfold fenced, silentFor. keep. Qed.
#[local] Hint Resolve keeps_fenced : preserves.
Lemma keeps_resize R spec : Logged R -> keeps (resizeInPlace R spec).
Proof.
  intros HR. unfold resizeInPlace. destruct (rt_Resize R) as [f|] eqn:E; [|keep]. apply keeps_quieted.
  eapply keeps_logged; [by apply (lr_resize R HR)|auto].
Qed.
Lemma keeps_begin R spec note : Logged R -> may_start spec -> keeps (start R spec note).
Proof. intros HR Hs. pose proof (keeps_start R spec HR Hs). unfold start, noteStartFailure, noteUnstartable. keep. Qed.
#[local] Hint Resolve keeps_resize keeps_begin : preserves.
Lemma keeps_exit R spec s p : Logged R -> may_start spec -> keeps (handleExit R spec s p).
Proof. unfold handleExit, takeHaltedByUser, lastStartFailure, restartAttempts. intros HR Hs. keep. Qed.
#[local] Hint Resolve keeps_exit : preserves.
Lemma keeps_running R spec s p : Logged R -> may_start spec -> keeps (ensureRunning R spec s p).
Proof. unfold ensureRunning, unstartable, lastStartFailure, restartAttempts. intros HR Hs. keep. Qed.
#[local] Hint Resolve keeps_running : preserves.
Lemma keeps_stopped R i s : Logged R -> keeps (ensureStopped R i s).
Proof. unfold ensureStopped, noteHaltedByUser. intros HR. keep. Qed.
#[local] Hint Resolve keeps_stopped : preserves.
(** The spec of an instance may be started, whatever is put into it. *)
Definition startable (i : instanceView) : Prop := forall drops nics disks, may_start (spec_of i drops nics disks).
Lemma keeps_workload i n d : startable i -> keeps (reconcileOne (nd_runtimes a) i n d).
Proof. unfold reconcileOne, startable. intros Hs. keep. Qed.
#[local] Hint Resolve keeps_workload : preserves.
Lemma keeps_instance st r n d i : startable i -> keeps (apply_instance a st r n d i).
Proof. unfold apply_instance, restartAttempts. intros Hs. keep. Qed.
#[local] Hint Resolve keeps_instance : preserves.
Lemma keeps_runtimes {A} (body : string * Runtime S -> A -> M S A) x :
  (forall r x, Logged (snd r) -> keeps (body r x)) -> keeps (foldM body (nd_runtimes a) x).
Proof. intros Hb. apply preserves_foldM. intros r y Hr. apply Hb. by apply (proj1 (Forall_forall _ _) (ur_runtimes a Ha)). Qed.
Lemma keeps_garbage l n : keeps (collectGarbage (nd_runtimes a) (nd_datapath a) l n).
Proof. unfold collectGarbage. apply preserves_bind; [apply keeps_runtimes; intros r x Hr; keep|keep]. Qed.
#[local] Hint Resolve keeps_garbage : preserves.
Lemma keeps_fence s : keeps (fence (nd_runtimes a) s).
Proof. unfold fence, noteFenced. keep. Qed.
#[local] Hint Resolve keeps_fence : preserves.
Lemma keeps_apply st r : Forall startable (ca_Instances st) -> keeps (applyDesired a st r).
Proof.
  intros Hs. assert (Hall : forall i, i ∈ ca_Instances st -> startable i) by (by apply Forall_forall).
  unfold applyDesired. destruct (nd_runtimes a) as [|r0 rs] eqn:E; [keep|]. rewrite <- E. keep.
Qed.

(** Enough silence to be fenced: the control plane was never heard, or not for the time the
    node is configured with, at any moment the clock is read. *)
Definition cut (env : Env) (m : Memory) : Prop :=
  me_lastContact m = zero_time \/ forall n, nd_FenceAfter a <= time_sub (env_now env n) (me_lastContact m).

Lemma fenced_rule env (Q : outcome (Z * bool) -> World S -> Prop) w : cut env (part (T:=Memory) w) ->
  (forall silence w', calls w' = calls w -> Q (Ok (silence, true)) w') -> wp env (fenced (nd_FenceAfter a)) Q w.
Proof.
  intros Hcut HQ. unfold fenced, silentFor. apply wp_bind, wp_bind, wp_peek. destruct (time_is_zero _) eqn:Ez.
  - rewrite !wp_ret. simpl. by apply HQ.
  - destruct Hcut as [Hcut|Hcut]; [unfold time_is_zero in Ez; breflect; done|]. apply wp_bind. rewrite wp_now, !wp_ret.
    specialize (Hcut (w_step w)). rewrite (proj2 (Z.leb_le _ _) Hcut). by apply HQ.
Qed.
End cut_off.

Section partition.
Context {S : Type} `{!Has Memory S, !Has Probes S, !Has Marks S, !Has Offsets S, !Has Saved S, !Has (list call) S}.
Context `{!Apart Memory (list call) S, !Apart Probes (list call) S, !Apart Marks (list call) S, !Apart Offsets (list call) S,
  !Apart Saved (list call) S}.
Abbreviation calls w := (part (T:=list call) w).

Definition container_spec (spec : Spec) : Prop := sp_Isolation spec = fenceIsolation.
(** The call starts no container. *)
Definition starts_no_container (c : call) : Prop := match c with Started spec _ => ~ container_spec spec | _ => True end.
(** Rounds of the agent one after the other. *)
Fixpoint ticks (a : Node S) (n : nat) : M S unit := match n with O => ret tt | Datatypes.S n => reconcileTick a ;;; ticks a n end.

Lemma unmovable_startable l : Forall (startable (fun spec => ~ container_spec spec)) (unmovable l).
Proof.
  apply Forall_forall. intros i [_ Hi]%elem_of_filter_bool drops nics disks. unfold container_spec. simpl. by breflect.
Qed.

Lemma keeps_cut_reconcile (a : Node S) (Ha : Unrecorded a) (Hcut : forall n env w, exists e w', c_assignedInstances (nd_client a) n env w = (Err e, w')) :
  preserves (T:=list call) (Forall starts_no_container) (reconcile a).
Proof.
  unfold reconcile. destruct (nd_runtimes a) as [|r rs] eqn:E; [auto with preserves|]. rewrite <- E. clear E r rs.
  pose proof (keeps_refresh_catalog a Ha starts_no_container). pose proof (keeps_registries a Ha starts_no_container).
  pose proof (keeps_challenges a Ha starts_no_container). pose proof (keeps_devices a Ha starts_no_container).
  do 4 (apply preserves_bind; [done|intros _]).
  intros env w Hw. apply wp_bind, wp_attempt. unfold readDesired. apply wp_bind. unfold currentNodeID at 1. apply wp_peek.
  apply wp_bind, wp_mapped. destruct (Hcut (me_nodeID (part w)) env w) as (e & w1 & E).
  pose proof (proj1 (ur_reads a Ha) (me_nodeID (part w)) env w) as Hl. unfold wp at 1. rewrite E in *. simpl in *.
  refine (preserves_bind _ _ _ (keeps_fenced starts_no_container (nd_FenceAfter a)) _ env w1 _); [|by rewrite Hl].
  intros [silence [|]]; [|auto with preserves]. by apply keeps_fence.
Qed.

(** C19: [partition_starts_no_container]: a node that comes up without the control plane, or lost it
    for long enough, never starts a container: not from the desired state it kept on disk, and
    not in any number of rounds while the control plane does not answer, whatever the
    runtimes say and whatever fails.  So what the control plane hands to another node in the
    meantime does not run twice.  (Machines, whose disks are on the node, may be started.) *)
Theorem partition_starts_no_container (a : Node S) (Ha : Unrecorded a)
    (Hcut : forall n env w, exists e w', c_assignedInstances (nd_client a) n env w = (Err e, w')) env (w : World S) n :
  cut a env (part (T:=Memory) w) -> calls w = [] ->
  let '(_, w') := (reconcileFromCache a ;;; ticks a n) env w in Forall starts_no_container (calls w').
Proof.
  intros Hsilent Hw.
  assert (Hticks : preserves (T:=list call) (Forall starts_no_container) (ticks a n)).
  { induction n as [|n IH]; simpl; [auto with preserves|]. apply preserves_bind; [|done]. unfold reconcileTick.
    apply preserves_bind; [apply keeps_node|]. intros nodeID. destruct (is_empty nodeID); [auto with preserves|]. by apply keeps_cut_reconcile. }
  enough (H : wp env (reconcileFromCache a) (fun _ w' => Forall starts_no_container (calls w')) w).
  { unfold wp, bind in *. destruct (reconcileFromCache a env w) as [[[]|e] w1]; [|done]. specialize (Hticks env w1 H). unfold wp in Hticks.
    by destruct (ticks a n env w1). }
  unfold reconcileFromCache. apply wp_bind, fenced_rule; [done|]. intros silence w1 H1.
  assert (Hrest : preserves (T:=list call) (Forall starts_no_container) (fence (nd_runtimes a) silence ;;;
    let! r := attempt (loadState a) in
    match r with
    | Err _ => ret tt
    | Ok state => setNodeID (ca_NodeID state) ;;; applyDesired a (with_instances (unmovable (ca_Instances state)) state) false
    end)); [|apply Hrest; by rewrite H1, Hw].
  apply preserves_bind; [by apply keeps_fence|]. intros _. apply preserves_bind; [apply preserves_attempt, keeps_load|]. intros [state|e]; [|auto with preserves].
  apply preserves_bind; [unfold setNodeID; auto with preserves leaves|]. intros _.
  apply (keeps_apply a Ha starts_no_container (fun spec => ~ container_spec spec)); try done. apply unmovable_startable.
Qed.
End partition.

(** * A node that comes up alone, with one container and one machine in its cache *)

Module Demo.
Definition state : Type := Memory * (Probes * (Marks * (Offsets * (Saved * list call)))).
Definition h1 : Has Memory state := Has_fst _ _.
Definition h2 : Has Probes state := Has_in_snd _ (Has_fst _ _).
Definition h3 : Has Marks state := Has_in_snd _ (Has_in_snd _ (Has_fst _ _)).
Definition h4 : Has Offsets state := Has_in_snd _ (Has_in_snd _ (Has_in_snd _ (Has_fst _ _))).
Definition h5 : Has Saved state := Has_in_snd _ (Has_in_snd _ (Has_in_snd _ (Has_in_snd _ (Has_fst _ _)))).
Definition h6 : Has (list call) state := Has_in_snd _ (Has_in_snd _ (Has_in_snd _ (Has_in_snd _ (Has_snd _ _)))).
#[local] Existing Instance h1. #[local] Existing Instance h2. #[local] Existing Instance h3.
#[local] Existing Instance h4. #[local] Existing Instance h5. #[local] Existing Instance h6.

Definition say {A} (c : outcome A -> call) (r : outcome A) : M state A :=
  fun _ w => (r, with_st w (hput (hget (T:=list call) (w_st w) ++ [c r]) (w_st w))).
(** Nothing is there and everything can be started. *)
Definition runtime : Runtime state := {|
  rt_List := say Listed (Ok []); rt_Start spec := say (Started spec) (Ok tt); rt_Stop id := say (Stopped id) (Ok tt);
  rt_Status id := say (Statused id) (Ok (MkState PhaseAbsent "" 0)); rt_Remove id := say (Removed id) (Ok tt);
  rt_Resize := None; rt_Keeper := None; rt_Archiver := None; rt_Cloner := None; rt_Carrier := None; rt_SyncDisks := None;
  rt_ReleaseDisks := None; rt_Sample := None; rt_LogPath := None; rt_UseCredentials := None |}.
Definition none {A} : M state A := fail (EText "call control plane: no route to host").
Definition client : Client state := {|
  c_assignedInstances _ := none; c_nodeNetworks _ := none; c_dnsRecords := none; c_nodes := none; c_volumes _ := none; c_forwards _ := none;
  c_balancers _ := none; c_firewalls _ := none; c_images _ := none; c_registries _ := none; c_challenges _ := none; c_pendingBackups _ := none;
  c_volumeKey _ _ := none; c_backupTransfer _ _ _ := none; c_fetchBackup _ _ := none; c_takeDisk _ _ := none; c_parkDisk _ _ _ := none;
  c_diskLanded _ _ := none; c_uploadBackup _ _ _ := none; c_reportUploaded _ _ _ := none; c_failBackup _ _ _ := none;
  c_reportStatus _ _ _ _ _ _ := none; c_reportVolumes _ _ := none; c_reportHealth _ _ := none; c_reportUsage _ _ := none;
  c_reportLogs _ _ _ := none; c_reportImages _ _ := none; c_reportDevices _ _ := none |}.
Definition host : Host state := {|
  ho_devices := ret []; ho_key_exists _ := ret true; ho_key_write _ _ := ret tt; ho_busySeconds := ret None; ho_memoryMiB := ret None;
  ho_CPUs := 4; ho_seal _ _ := none; ho_read_file _ := ret None |}.
Definition node : Node state := {|
  nd_FenceAfter := 60 * second; nd_StateDir := "/var/lib/marstack"; nd_client := client;
  nd_runtimes := [(fenceIsolation, runtime); ("microvm", runtime)]; nd_datapath := None; nd_resolver := None; nd_tls := None; nd_catalog := None;
  nd_net := {| dl_tcp _ := ret tt; dl_valid _ := true; dl_get _ := ret 200 |}; nd_host := host |}.
Definition instance (id isolation : string) : instanceView := MkInstanceView "" id id isolation "web" "" "" "" 0 [] 1 128 restartAlways 0 []
  ∅ [] desiredRunning observedRunning "" None false false.
Definition network : networkView := MkNetworkView "net-1" "default" "br1" "10.20.0.0/16" "10.20.0.1" "" "" "10.20.3.0/24" ""
  [MkNicView "i-box" 0 "10.20.3.2" "" "02:00"; MkNicView "i-vm" 0 "10.20.3.3" "" "02:01"] [].
Definition cached : cachedState := MkCached "n-1" 0 [instance "i-box" fenceIsolation; instance "i-vm" "microvm"] [network] [] [] [] [] [] [].
Definition env : Env := {| env_now n := 1000 * second + Z.of_nat n; env_rand _ := []; env_io _ := false |}.
Definition world : World state := MkWorld (MkMemory ∅ ∅ zero_time "", (∅, (∅, (∅, (Some cached, []))))) O [].

Lemma quiet : Unrecorded node.
Proof.
  split; try (intros k Hk; apply list_elem_of_omap in Hk as ([] & Hr & Ek); simpl in Hr; rewrite !elem_of_cons in Hr;
    destruct Hr as [[= -> ->]|[[= -> ->]|Hr%not_elem_of_nil]]; done); try done.
  repeat constructor; done.
Qed.
End Demo.

(** The machine is started, the container is not. *)
Lemma partition_starts_no_container_witness :
  let w' := snd ((reconcileFromCache (Has0:=Demo.h1) (Has1:=Demo.h2) (Has2:=Demo.h3) (Has3:=Demo.h4) (Has4:=Demo.h5) Demo.node ;;;
                  ticks (Has0:=Demo.h1) (Has1:=Demo.h2) (Has2:=Demo.h3) (Has3:=Demo.h4) (Has4:=Demo.h5) Demo.node 2) Demo.env Demo.world) in
  Forall starts_no_container (@hget _ _ Demo.h6 (w_st w')) /\
  map sp_InstanceID (omap (fun c => match c with Started spec (Ok _) => Some spec | _ => None end) (@hget _ _ Demo.h6 (w_st w'))) = ["i-vm"].
Proof.
  assert (A1 : @Apart Memory (list call) Demo.state Demo.h1 Demo.h6) by done.
  assert (A2 : @Apart Probes (list call) Demo.state Demo.h2 Demo.h6) by done.
  assert (A3 : @Apart Marks (list call) Demo.state Demo.h3 Demo.h6) by done.
  assert (A4 : @Apart Offsets (list call) Demo.state Demo.h4 Demo.h6) by done.
  assert (A5 : @Apart Saved (list call) Demo.state Demo.h5 Demo.h6) by done.
  pose proof (partition_starts_no_container (Has0:=Demo.h1) (Has1:=Demo.h2) (Has2:=Demo.h3) (Has3:=Demo.h4) (Has4:=Demo.h5) (Has5:=Demo.h6)
    Demo.node Demo.quiet (fun n env w => ex_intro _ _ (ex_intro _ w eq_refl)) Demo.env Demo.world 2 (or_introl eq_refl) eq_refl) as H.
  split; [|vm_compute; reflexivity].
  destruct (bind _ _ _ _) as [r w']. exact H.
Defined.
