(* ===== verification/Interval.v ===== *)
(** Durations written by people (internal/kernel/interval) and the rate limiter
    (internal/kernel/ratelimit).

    [ParseDuration] is [time.ParseDuration] of the standard library: 64-bit words with its
    overflow checks, and the fraction through [float64]. *)
From stdpp Require Import base tactics numbers strings list gmap.
From Stdlib Require Import ZArith Lia.
From Stdlib Require Ascii.
From S2P Require Import Prelude GoLang Effects Float64.

(** * time.ParseDuration *)

(** [leadingInt]: the digits at the front; [None] when they exceed 2^63. *)
Fixpoint leadingInt (x : Z) (l : list Ascii.ascii) : option (Z * list Ascii.ascii) :=
  match l with
  | [] => Some (x, [])
  | c :: l' =>
      if (48 <=? code c) && (code c <=? 57) then
        if two63 / 10 <? x then None
        else let x' := x * 10 + (code c - 48) in
             if two63 <? x' then None else leadingInt x' l'
      else Some (x, l)
  end.

(** [leadingFraction]: the digits after the point and their scale; those that do not fit are
    dropped. *)
Fixpoint leadingFraction (x scale : Z) (overflow : bool) (l : list Ascii.ascii)
    : Z * Z * list Ascii.ascii :=
  match l with
  | [] => (x, scale, [])
  | c :: l' =>
      if (48 <=? code c) && (code c <=? 57) then
        if overflow || (max_int64 / 10 <? x) then leadingFraction x scale true l'
        else let x' := x * 10 + (code c - 48) in
             if two63 <? x' then leadingFraction x scale true l'
             else leadingFraction x' (scale * 10) false l'
      else (x, scale, l)
  end.

(** The unit: everything up to the next digit or point. *)
Fixpoint leadingUnit (l : list Ascii.ascii) : list Ascii.ascii * list Ascii.ascii :=
  match l with
  | [] => ([], [])
  | c :: l' =>
      if (code c =? 46) || ((48 <=? code c) && (code c <=? 57)) then ([], l)
      else let '(u, rest) := leadingUnit l' in (c :: u, rest)
  end.

Definition unitMap : list (string * Z) :=
  [("ns", 1); ("us", 1000); ("µs", 1000); ("μs", 1000); ("ms", 1000000); ("s", second); ("m", minute); ("h", hour)].
Definition unit_of (u : list Ascii.ascii) : option Z :=
  snd <$> List.find (fun e => String.eqb (fst e) (of_bytes u)) unitMap.

(** One term of the sum: a number, a fraction and a unit. *)
Definition duration_term (l : list Ascii.ascii) : option (Z * list Ascii.ascii) :=
  match leadingInt 0 l with
  | None => None
  | Some (v, l1) =>
      let pre := negb (length l1 =? length l)%nat in
      let '(f, scale, post, l2) :=
        match l1 with
        | c :: l' => if code c =? 46
                     then let '(f, scale, l2) := leadingFraction 0 1 false l' in
                          (f, scale, negb (length l2 =? length l')%nat, l2)
                     else (0, 1, false, l1)
        | [] => (0, 1, false, l1)
        end in
      if negb pre && negb post then None
      else let '(u, rest) := leadingUnit l2 in
           match unit_of u with
           | None => None
           | Some unit =>
               if two63 / unit <? v then None
               else let v1 := v * unit in
                    let v2 := if 0 <? f
                              then v1 + to_int (fmul (of_int f) (fdiv (of_int unit) (of_int scale))) else v1 in
                    if two63 <? v2 then None else Some (v2, rest)
           end
  end.

Fixpoint duration_sum (fuel : nat) (d : Z) (l : list Ascii.ascii) : option Z :=
  match l, fuel with
  | [], _ => Some d
  | _, O => None
  | _, S fuel' =>
      match duration_term l with
      | None => None
      | Some (v, rest) => if two63 <? d + v then None else duration_sum fuel' (d + v) rest
      end
  end.

Definition ParseDuration (s : string) : option Z :=
  let '(neg, l) := match bytes_of s with
                   | c :: l' => if code c =? 45 then (true, l') else if code c =? 43 then (false, l') else (false, c :: l')
                   | [] => (false, [])
                   end in
  match l with
  | [] => None
  | _ => if String.eqb (of_bytes l) "0" then Some 0
         else match duration_sum (length l) 0 l with
              | None => None
              | Some d => if neg then Some (wrap64 (- d)) else if max_int64 <? d then None else Some d
              end
  end.

Example ParseDuration_example :
  map ParseDuration ["1h30m"; "1.5h"; "-250ms"; ".5s"; "12h0m0s"; "5"; "1d"; "9223372036854775808ns"; "-9223372036854775808ns"; "1e3s"; "0"]
  = [Some (90 * minute); Some (90 * minute); Some (-250000000); Some 500000000; Some (12 * hour); None; None; None; Some min_int64; None; Some 0].
Proof. vm_compute. reflexivity. Qed.

(** * interval.go *)

(* go: kernel/interval/interval.go Parse *)
Definition Parse (text : string) : outcome Z :=
  let text := trim_space text in
  if is_empty text then Ok 0
  else
    let multiplier := if has_suffix text "d" then 24 * hour
                      else if has_suffix text "w" then 7 * 24 * hour else 0 in
    if 0 <? multiplier then
      match atoi (trim_space (str_take (slen text - 1) text)) with
      | None => Err (EText (quoted text +:+ " is not a number of days or weeks"))
      | Some count => Ok (wrap64 (count * multiplier))
      end
    else
      match ParseDuration text with
      | None => Err (EText (quoted text +:+ " is not a duration such as 12h, 30d or 4w"))
      | Some parsed => Ok parsed
      end.

(* go: kernel/interval/interval.go plural *)
Definition plural (count : Z) (unit : string) : string :=
  if count =? 1 then "1 " +:+ unit else itoa count +:+ " " +:+ unit +:+ "s".

(* go: kernel/interval/interval.go Human *)
Definition Human (d : Z) : string :=
  let d := if d <? 0 then wrap64 (- d) else d in
  if d <? minute then plural (Z.quot d second) "second"
  else if d <? hour then plural (Z.quot d minute) "minute"
  else if d <? 24 * hour then plural (Z.quot d hour) "hour"
  else plural (Z.quot d (24 * hour)) "day".

Example Parse_example :
  map Parse [" 30d "; "4w"; "1h30m"; ""; "-1d"; "213504d"]
  = [Ok (720 * hour); Ok (672 * hour); Ok (90 * minute); Ok 0; Ok (-24 * hour); Ok (25 * minute + 26290448384)].
Proof. vm_compute. reflexivity. Qed.
Example Human_example : map Human [90 * second; - hour; 49 * hour] = ["1 minute"; "1 hour"; "2 days"].
Proof. vm_compute. reflexivity. Qed.

(** * The rate limiter (ratelimit.go) *)

Definition MaxTracked : Z := 4096.
Definition idle : Z := 5 * minute.

(* go: kernel/ratelimit/ratelimit.go bucket *)
Record bucket := { b_tokens : float64; b_seenAt : Z }.
(** The limiter's memory.  [lim_perSecond] and [lim_burst] do not change; a limiter for no
    requests per second is the nil one, which allows everything. *)
(* go: kernel/ratelimit/ratelimit.go Limiter *)
Record Limiter := {
  lim_perSecond : float64; lim_burst : float64;
  lim_buckets : gmap string bucket; lim_shared : bucket; lim_sweptAt : Z; lim_overflow : bool;
}.

(* go: kernel/ratelimit/ratelimit.go New *)
Definition NewLimiter (perSecond burst start : Z) : option Limiter :=
  if perSecond <=? 0 then None
  else
    let burst := if burst <=? 0 then perSecond else burst in
    Some {| lim_perSecond := of_int perSecond; lim_burst := of_int burst; lim_buckets := ∅;
            lim_shared := {| b_tokens := of_int burst; b_seenAt := start |};
            lim_sweptAt := start; lim_overflow := false |}.

(** [d.Seconds()] *)
Definition seconds (d : Z) : float64 :=
  fadd (of_int (Z.quot d second)) (fdiv (of_int (Z.rem d second)) (of_int second)).

(* go: kernel/ratelimit/ratelimit.go Limiter.sweep *)
Definition sweep (now : Z) (l : Limiter) : Limiter :=
  if time_sub now (lim_sweptAt l) <? idle then l
  else
    let kept := filter (fun kb : string * bucket => time_sub now (b_seenAt (snd kb)) < idle) (lim_buckets l) in
    {| lim_perSecond := lim_perSecond l; lim_burst := lim_burst l; lim_buckets := kept; lim_shared := lim_shared l;
       lim_sweptAt := now;
       lim_overflow := if Z.of_nat (size kept) <? MaxTracked then false else lim_overflow l |}.

(** What [Allow] does to the bucket it found. *)
(* go: kernel/ratelimit/ratelimit.go:81-91 b.tokens *)
Definition spend (l : Limiter) (now : Z) (b : bucket) : bool * Z * bucket :=
  let filled := fadd (b_tokens b) (fmul (seconds (time_sub now (b_seenAt b))) (lim_perSecond l)) in
  let tokens := if fltb (lim_burst l) filled then lim_burst l else filled in
  if fltb tokens (of_int 1)
  then (false, wrap64 (to_int (fmul (fdiv (fsub (of_int 1) tokens) (lim_perSecond l)) (of_int second)) + second),
        {| b_tokens := tokens; b_seenAt := now |})
  else (true, 0, {| b_tokens := fsub tokens (of_int 1); b_seenAt := now |}).

(* go: kernel/ratelimit/ratelimit.go Limiter.Allow *)
Definition Allow (key : string) (now : Z) (lim : option Limiter) : bool * Z * option Limiter :=
  match lim with
  | None => (true, 0, None)
  | Some l0 =>
      let l := sweep now l0 in
      let own b := let '(ok, wait, b') := spend l now b in
        (ok, wait, Some {| lim_perSecond := lim_perSecond l; lim_burst := lim_burst l;
                           lim_buckets := <[key := b']> (lim_buckets l); lim_shared := lim_shared l;
                           lim_sweptAt := lim_sweptAt l; lim_overflow := lim_overflow l |}) in
      match lim_buckets l !! key with
      | Some b => own b
      | None =>
          if Z.of_nat (size (lim_buckets l)) <? MaxTracked
          then own {| b_tokens := lim_burst l; b_seenAt := now |}
          else let '(ok, wait, b') := spend l now (lim_shared l) in
               (ok, wait, Some {| lim_perSecond := lim_perSecond l; lim_burst := lim_burst l;
                                  lim_buckets := lim_buckets l; lim_shared := b';
                                  lim_sweptAt := lim_sweptAt l; lim_overflow := true |})
      end
  end.

(* go: kernel/ratelimit/ratelimit.go Limiter.Tracked *)
Definition Tracked (lim : option Limiter) : Z :=
  match lim with Some l => Z.of_nat (size (lim_buckets l)) | None => 0 end.
(* go: kernel/ratelimit/ratelimit.go Limiter.Overflowed *)
Definition Overflowed (lim : option Limiter) : bool :=
  match lim with Some l => lim_overflow l | None => false end.

(** * Facts *)

Lemma drop_spaces_nonspace c l : is_space c = false -> drop_spaces (c :: l) = c :: l.
Proof. intros H. simpl. by rewrite H. Qed.

Lemma trim_space_word c l d : is_space c = false -> is_space d = false ->
  trim_space (of_bytes (c :: l ++ [d])) = of_bytes (c :: l ++ [d]).
Proof.
  intros Hc Hd. unfold trim_space. rewrite bytes_of_of. rewrite (drop_spaces_nonspace c) by done.
  rewrite app_comm_cons, rev_app_distr. simpl rev at 2. simpl app. rewrite (drop_spaces_nonspace d) by done.
  simpl rev. by rewrite rev_app_distr, rev_involutive.
Qed.

Lemma digit_not_space b : 45 <= code b <= 57 -> is_space b = false.
Proof. intros H. unfold is_space.
  rewrite (proj2 (Z.leb_gt (code b) 13)), (proj2 (Z.eqb_neq (code b) 32)) by lia. by rewrite andb_false_r.
Qed.

Lemma itoa_shape z : in_int64 z -> exists c l, bytes_of (itoa z) = c :: l.
Proof.
  intros Hz. destruct (bytes_of (itoa z)) as [|c l] eqn:E; [|eauto].
  assert (Ez : itoa z = "") by (apply bytes_of_inj; by rewrite E).
  pose proof (atoi_itoa z Hz) as H. rewrite Ez in H. discriminate.
Qed.

Lemma trim_itoa z : in_int64 z -> trim_space (itoa z) = itoa z.
Proof.
  intros Hz. destruct (itoa_shape z Hz) as (c & l & E).
  pose proof (itoa_bytes z) as Hb. rewrite E in Hb. rewrite <- (of_bytes_of (itoa z)), E.
  destruct (rev l) as [|d r] eqn:El.
  - assert (l = []) as -> by (rewrite <- (rev_involutive l), El; done).
    unfold trim_space. rewrite bytes_of_of. rewrite drop_spaces_nonspace by (apply digit_not_space, Hb; set_solver).
    change (rev [c]) with [c]. rewrite drop_spaces_nonspace by (apply digit_not_space, Hb; set_solver). done.
  - assert (El' : l = rev r ++ [d]) by (rewrite <- (rev_involutive l), El; done). subst l.
    apply trim_space_word; apply digit_not_space, Hb; rewrite ?elem_of_cons, ?elem_of_app; set_solver.
Qed.

Lemma str_take_app s c : str_take (slen (s +:+ c) - slen c) (s +:+ c) = s.
Proof.
  rewrite str_take_spec, bytes_of_app. unfold slen.
  replace (Z.to_nat _) with (length (bytes_of s)).
  - by rewrite take_app_length, of_bytes_of.
  - rewrite !length_bytes_of. assert (String.length (s +:+ c) = String.length s + String.length c)%nat.
    { rewrite <- !length_bytes_of, bytes_of_app. apply length_app. } lia.
Qed.

Lemma has_suffix_app s t u : has_suffix (s +:+ t) u = has_prefix_l (rev (bytes_of t) ++ rev (bytes_of s)) (rev (bytes_of u)).
Proof. unfold has_suffix. by rewrite bytes_of_app, rev_app_distr. Qed.

Lemma sweep_tracked now l : (size (lim_buckets (sweep now l)) <= size (lim_buckets l))%nat.
Proof. unfold sweep. destruct (_ <? _); [done|]. simpl. apply map_subseteq_size, map_filter_subseteq. Qed.

Lemma sweep_keeps now l key b : lim_buckets l !! key = Some b -> time_sub now (b_seenAt b) < idle ->
  lim_buckets (sweep now l) !! key = Some b.
Proof. intros Hb Hn. unfold sweep. destruct (_ <? _); [done|]. simpl. by apply map_lookup_filter_Some. Qed.

(** * Properties *)

(** C40: [Parse_days]: a number of days is that many times 24 hours wherever the product fits the
    64 bits of a duration, and wraps around where it does not: [Parse] does not notice. *)
Theorem Parse_days n (Hn : in_int64 n) : Parse (itoa n +:+ "d") = Ok (wrap64 (n * (24 * hour))).
Proof.
  unfold Parse.
  assert (Et : trim_space (itoa n +:+ "d") = itoa n +:+ "d").
  { destruct (itoa_shape n Hn) as (c & l & E). pose proof (itoa_bytes n) as Hb. rewrite E in Hb.
    rewrite <- (of_bytes_of (itoa n +:+ "d")), bytes_of_app, E.
    apply (trim_space_word c l (Ascii.ascii_of_N 100)); [apply digit_not_space, Hb; set_solver|done]. }
  rewrite Et. assert (En : is_empty (itoa n +:+ "d") = false).
  { destruct (itoa_shape n Hn) as (c & l & E). unfold is_empty. apply String.eqb_neq. intros H.
    apply (f_equal bytes_of) in H. rewrite bytes_of_app, E in H. discriminate. }
  rewrite En, has_suffix_app.
  assert (E0 : has_prefix_l (rev (bytes_of "d") ++ rev (bytes_of (itoa n))) (rev (bytes_of "d")) = true)
    by (apply has_prefix_l_spec; eauto).
  rewrite E0. change (0 <? 24 * hour) with true. cbv beta iota zeta.
  change 1 with (slen "d"). by rewrite str_take_app, trim_itoa, atoi_itoa.
Qed.

Lemma Parse_days_witness : Parse "213504d" = Ok 1526290448384 /\ 213504 * (24 * hour) > 10 * 365 * (24 * hour).
Proof.
  split; [|vm_compute; reflexivity]. exact (Parse_days 213504 ltac:(unfold in_int64, min_int64, max_int64, two63; lia)).
Defined.

(** [limiter_isolated]: the limiter never remembers more than 4096 callers, and a request of
    one caller leaves the bucket of every other caller that is not idle as it was. *)
Theorem limiter_isolated l key now (Hl : Tracked (Some l) <= MaxTracked) :
  let lim' := snd (Allow key now (Some l)) in
  Tracked lim' <= MaxTracked /\
  forall other b, other <> key -> lim_buckets l !! other = Some b -> time_sub now (b_seenAt b) < idle ->
    exists l', lim' = Some l' /\ lim_buckets l' !! other = Some b.
Proof.
  unfold Allow. pose proof (sweep_tracked now l) as Hs. pose proof (sweep_keeps now l) as Hk.
  set (l1 := sweep now l) in *. unfold Tracked in *.
  destruct (lim_buckets l1 !! key) as [b0|] eqn:E0.
  - destruct (spend l1 now b0) as [[ok wait] b'] eqn:Es. simpl. split.
    + rewrite map_size_insert_Some by eauto. lia.
    + intros other b Ho Hb Hi. eexists. split; [done|]. simpl. rewrite lookup_insert_ne by done. by apply Hk.
  - destruct (Z.ltb_spec (Z.of_nat (size (lim_buckets l1))) MaxTracked) as [Hlt|Hge].
    + destruct (spend l1 now _) as [[ok wait] b'] eqn:Es. simpl. split.
      * rewrite map_size_insert_None by done. lia.
      * intros other b Ho Hb Hi. eexists. split; [done|]. simpl. rewrite lookup_insert_ne by done. by apply Hk.
    + destruct (spend l1 now (lim_shared l1)) as [[ok wait] b'] eqn:Es. simpl. split; [lia|].
      intros other b Ho Hb Hi. eexists. split; [done|]. by apply Hk.
Qed.

(** A burst of five sign-ins is spent, the sixth is told to wait, and a second later one more
    is granted. *)
Fixpoint asks (key : string) (times : list Z) (lim : option Limiter) : list bool :=
  match times with
  | [] => []
  | t :: times' => let '(ok, _, lim') := Allow key t lim in ok :: asks key times' lim'
  end.
Example login_burst_example :
  asks "l:10.0.0.1" [0; 0; 0; 0; 0; 0; second; second] (NewLimiter 1 5 0)
  = [true; true; true; true; true; false; true; false].
Proof. vm_compute. reflexivity. Qed.

Lemma limiter_isolated_witness :
  Tracked (snd (Allow "quiet" 0 (snd (Allow "loud" 0 (NewLimiter 10 2 0))))) <= MaxTracked.
Proof.
  destruct (snd (Allow "loud" 0 (NewLimiter 10 2 0))) as [l|] eqn:E; [|vm_compute; discriminate].
  assert (H : Tracked (Some l) <= MaxTracked) by (rewrite <- E; vm_compute; discriminate).
  exact (proj1 (limiter_isolated l "quiet" 0 H)).
Defined.
