(* ===== verification/Volume.v ===== *)
(** Volumes (internal/platform/volume): disks that outlive the instances they are attached to,
    their snapshots, the schedules that take and prune snapshots, and the keys of encrypted
    volumes.

    The three tables are one state.  Times keep their values; where the code orders or compares
    their texts so does the model ([rfc3339nano]).  The other modules are the interfaces
    [Instances], [VolumeQuota] and [Backups], [None] where the Go field may be nil. *)
From stdpp Require Import base tactics numbers strings list gmap sorting.
From Stdlib Require Import ZArith Lia Sorted.
From Stdlib Require Ascii.
From S2P Require Import Prelude GoLang Effects Regex Kernel Httpx Tables Paging Float64 Encoding Sealed.
From S2P Require Interval.

(** * Data (types.go, schedule.go) *)

Definition MinSizeGiB : Z := 1.
Definition MaxSizeGiB : Z := 4096.
Definition StateFree : string := "free".
Definition StateAttached : string := "attached".
Definition StateDetaching : string := "detaching".
Definition SnapshotPending : string := "pending".
Definition SnapshotReady : string := "ready".
Definition SnapshotFailed : string := "failed".

(* go: platform/volume/types.go Volume *)
Record Volume := MkVolume {
  v_ID : string; v_ProjectID : string; v_Name : string; v_SizeGiB : Z; v_NodeID : string; v_InstanceID : string;
  v_RestoreFrom : string; v_BackupID : string; v_CloneFrom : string; v_CloneSnap : string; v_Detaching : bool;
  v_Encrypted : bool; v_KeySealed : string; v_KeyID : string; v_CreatedAt : Z; v_UpdatedAt : Z;
}.
(* go: platform/volume/types.go Snapshot *)
Record Snapshot := MkSnapshot {
  sn_ID : string; sn_VolumeID : string; sn_Name : string; sn_State : string; sn_Message : string;
  sn_SizeBytes : Z; sn_ScheduleID : string; sn_CreatedAt : Z;
}.
(* go: platform/volume/types.go ReportedSnapshot *)
Record ReportedSnapshot := MkReportedSnapshot { rs_Name : string; rs_SizeBytes : Z }.
(* go: platform/volume/types.go NodeReport *)
Record NodeReport := MkNodeReport {
  nr_Detached : bool; nr_VolumeID : string; nr_Snapshots : list ReportedSnapshot; nr_Restored : string; nr_Error : string;
}.
(* go: platform/volume/types.go Volume.State *)
Definition State (v : Volume) : string :=
  if v_Detaching v then StateDetaching else if negb (is_empty (v_InstanceID v)) then StateAttached else StateFree.
(* go: platform/volume/types.go Footprint *)
Record Footprint := MkFootprint { fp_Volumes : Z; fp_SizeGiB : Z }.
(* go: platform/volume/types.go CreateParams *)
Record CreateParams := MkCreateParams {
  cp_ProjectID : string; cp_Name : string; cp_SizeGiB : Z; cp_BackupID : string; cp_Encrypted : bool;
}.
(* go: platform/volume/types.go Placement *)
Record Placement_ := MkPlacement {
  pl_Observed : string; pl_InstanceID : string; pl_ProjectID : string; pl_NodeID : string; pl_Isolation : string; pl_Running : bool;
}.

Definition MinEvery : Z := minute.
Definition MaxEvery : Z := 365 * 24 * hour.
Definition MinKeep : Z := 1.
Definition MaxKeep : Z := 365.
(* go: platform/volume/schedule.go Schedule *)
Record Schedule := MkSchedule {
  ss_ID : string; ss_ProjectID : string; ss_VolumeID : string; ss_Every : Z; ss_Keep : Z;
  ss_NextAt : Z; ss_LastAt : Z; ss_CreatedAt : Z; ss_UpdatedAt : Z;
}.
(* go: platform/volume/schedule.go ScheduleParams *)
Record ScheduleParams := MkScheduleParams { sp_ProjectID : string; sp_VolumeID : string; sp_Every : string; sp_Keep : Z }.

(* go: platform/volume/service.go volumeKey *)
Record volumeKey := MkVolumeKey { vk_sealedKey : string; vk_keyID : string; vk_adopted : bool }.
(* go: platform/volume/service.go volumeKey.encrypts *)
Definition encrypts (k : volumeKey) : bool := negb (is_empty (vk_sealedKey k)).
(* go: platform/volume/service.go Restorable *)
Record Restorable_ := MkRestorable { ra_SizeBytes : Z; ra_KeySealed : string; ra_KeyID : string }.

(** * Interfaces (service.go) *)

(* go: platform/volume/service.go Instances *)
Record Instances (S : Type) := { Placement : string -> string -> M S Placement_ }.
Arguments Placement {S} _ _ _.
(* go: platform/volume/service.go Quota *)
Record VolumeQuota (S : Type) := { AdmitVolume : string -> Z -> M S unit; AdmitVolumeGrowth : string -> Z -> M S unit }.
Arguments AdmitVolume {S} _ _ _.
Arguments AdmitVolumeGrowth {S} _ _ _.
(* go: platform/volume/service.go Backups *)
Record Backups (S : Type) := { Restorable : string -> string -> M S Restorable_ }.
Arguments Restorable {S} _ _ _.

(** * Repository (repository.go, schedulerepo.go)

    UNIQUE (id) and (project_id, name) of volumes, (id) and (volume_id, name) of snapshots,
    (id) and (volume_id) of snapshot_schedules. *)

Record VolumeDB := MkVolumeDB { vd_volumes : list Volume; vd_snapshots : list Snapshot; vd_schedules : list Schedule }.

Definition errNotFound : error := ESentinel "volume not found".
Definition errNameTaken : error := ESentinel "volume name already exists".
Definition errTaken : error := ESentinel "volume already attached".

Definition has_id (id : string) (v : Volume) : bool := String.eqb (v_ID v) id.
Definition named (projectID name : string) (v : Volume) : bool := String.eqb (v_ProjectID v) projectID && String.eqb (v_Name v) name.
Definition in_project (projectID : string) (v : Volume) : bool := String.eqb (v_ProjectID v) projectID.
Definition on_node (nodeID : string) (v : Volume) : bool := String.eqb (v_NodeID v) nodeID.
Definition held_by (instanceID : string) (v : Volume) : bool := String.eqb (v_InstanceID v) instanceID.
Definition snap_id (id : string) (s : Snapshot) : bool := String.eqb (sn_ID s) id.
Definition snap_of (volumeID : string) (s : Snapshot) : bool := String.eqb (sn_VolumeID s) volumeID.
Definition sched_id (id : string) (s : Schedule) : bool := String.eqb (ss_ID s) id.
Definition sched_of (volumeID : string) (s : Schedule) : bool := String.eqb (ss_VolumeID s) volumeID.
Definition volume_clash (n v : Volume) : bool := has_id (v_ID n) v || named (v_ProjectID n) (v_Name n) v.
Definition snap_clash (n s : Snapshot) : bool :=
  snap_id (sn_ID n) s || snap_of (sn_VolumeID n) s && String.eqb (sn_Name s) (sn_Name n).
Definition snap_text (s : Snapshot) : string := rfc3339nano (sn_CreatedAt s).

(** The columns an UPDATE sets. *)
Definition set_attachment (instanceID nodeID : string) (detaching : bool) (at_ : Z) (v : Volume) : Volume :=
  MkVolume (v_ID v) (v_ProjectID v) (v_Name v) (v_SizeGiB v) nodeID instanceID (v_RestoreFrom v) (v_BackupID v)
    (v_CloneFrom v) (v_CloneSnap v) detaching (v_Encrypted v) (v_KeySealed v) (v_KeyID v) (v_CreatedAt v) at_.
Definition set_restore (name : string) (at_ : Z) (v : Volume) : Volume :=
  MkVolume (v_ID v) (v_ProjectID v) (v_Name v) (v_SizeGiB v) (v_NodeID v) (v_InstanceID v) name (v_BackupID v)
    (v_CloneFrom v) (v_CloneSnap v) (v_Detaching v) (v_Encrypted v) (v_KeySealed v) (v_KeyID v) (v_CreatedAt v) at_.
Definition set_size (sizeGiB : Z) (at_ : Z) (v : Volume) : Volume :=
  MkVolume (v_ID v) (v_ProjectID v) (v_Name v) sizeGiB (v_NodeID v) (v_InstanceID v) (v_RestoreFrom v) (v_BackupID v)
    (v_CloneFrom v) (v_CloneSnap v) (v_Detaching v) (v_Encrypted v) (v_KeySealed v) (v_KeyID v) (v_CreatedAt v) at_.
Definition marked (state message : string) (size : Z) (s : Snapshot) : Snapshot :=
  MkSnapshot (sn_ID s) (sn_VolumeID s) (sn_Name s) state message size (sn_ScheduleID s) (sn_CreatedAt s).
Definition fired (at_ next : Z) (s : Schedule) : Schedule :=
  MkSchedule (ss_ID s) (ss_ProjectID s) (ss_VolumeID s) (ss_Every s) (ss_Keep s) next at_ (ss_CreatedAt s) at_.

Definition set_volumes (rows : list Volume) (db : VolumeDB) : VolumeDB := MkVolumeDB rows (vd_snapshots db) (vd_schedules db).
Definition set_snapshots (rows : list Snapshot) (db : VolumeDB) : VolumeDB := MkVolumeDB (vd_volumes db) rows (vd_schedules db).
Definition set_schedules (rows : list Schedule) (db : VolumeDB) : VolumeDB := MkVolumeDB (vd_volumes db) (vd_snapshots db) rows.

(** An UPDATE of the rows [p]. *)
Definition rewrite_rows {R} (p : R -> bool) (f : R -> R) (rows : list R) : list R := map (fun r => if p r then f r else r) rows.

Section repository.
Context {S : Type} `{!Has VolumeDB S}.

Definition volumes_sql {A} (what : string) (q : list Volume -> outcome A * list Volume) : M S A :=
  sql what (fun db => let '(r, rows) := q (vd_volumes db) in (r, set_volumes rows db)).
Definition snapshots_sql {A} (what : string) (q : list Snapshot -> outcome A * list Snapshot) : M S A :=
  sql what (fun db => let '(r, rows) := q (vd_snapshots db) in (r, set_snapshots rows db)).
Definition schedules_sql {A} (what : string) (q : list Schedule -> outcome A * list Schedule) : M S A :=
  sql what (fun db => let '(r, rows) := q (vd_schedules db) in (r, set_schedules rows db)).
Definition volumes_q {A} (what : string) (q : list Volume -> outcome A) : M S A := query what (fun db => q (vd_volumes db)).
Definition snapshots_q {A} (what : string) (q : list Snapshot -> outcome A) : M S A := query what (fun db => q (vd_snapshots db)).
Definition schedules_q {A} (what : string) (q : list Schedule -> outcome A) : M S A := query what (fun db => q (vd_schedules db)).
(** An UPDATE that does not look at how many rows it changed. *)
Definition update_volumes (what : string) (p : Volume -> bool) (f : Volume -> Volume) : M S unit :=
  volumes_sql what (fun rows => (Ok tt, rewrite_rows p f rows)).

(* go: platform/volume/repository.go repository.insert *)
Definition insert (v : Volume) : M S unit := volumes_sql "insert volume" (insert_row (volume_clash v) errNameTaken v).
(* go: platform/volume/repository.go repository.byID *)
Definition byID (id : string) : M S Volume := volumes_q "scan volume" (select_one (has_id id) errNotFound).
(* go: platform/volume/repository.go repository.footprintIn *)
Definition footprint_row (projectID : string) : M S Footprint :=
  volumes_q "measure the project" (fun rows =>
    let mine := List.filter (in_project projectID) rows in
    Ok (MkFootprint (len mine) (fold_left (fun acc v => acc + v_SizeGiB v) mine 0))).
(* go: platform/volume/repository.go repository.byName *)
Definition byName (projectID name : string) : M S Volume :=
  volumes_q "scan volume" (select_one (named projectID name) errNotFound).
(* go: platform/volume/repository.go repository.onNode *)
Definition onNode_rows (nodeID : string) : M S (list Volume) :=
  volumes_q "list volumes" (fun rows =>
    Ok (sliceStable (by_key v_Name str_ltb (fun _ _ => false)) (List.filter (on_node nodeID) rows))).
(* go: platform/volume/repository.go repository.pageIn *)
Definition pageIn_rows (projectID : string) (window : Window) : M S (list Volume) :=
  volumes_q "list volumes" (fun rows => Ok (page_rows v_Name v_ID (in_project projectID) window rows)).
(* go: platform/volume/repository.go repository.attach *)
Definition attach_row (id instanceID nodeID : string) (at_ : Z) : M S unit :=
  volumes_sql "attach volume" (update_where (fun v => has_id id v && is_empty (v_InstanceID v))
    (fun v => set_attachment instanceID nodeID (v_Detaching v) at_ v) errTaken).
(* go: platform/volume/repository.go repository.detach *)
Definition detach_row (id : string) (at_ : Z) : M S unit :=
  update_volumes "detach volume" (has_id id) (fun v => set_attachment "" (v_NodeID v) false at_ v).
(* go: platform/volume/repository.go repository.detachInstance *)
Definition detachInstance (instanceID : string) (at_ : Z) : M S unit :=
  update_volumes "detach the volumes of an instance" (held_by instanceID)
    (fun v => set_attachment "" (v_NodeID v) (v_Detaching v) at_ v).
(* go: platform/volume/repository.go repository.insertSnapshot *)
Definition insertSnapshot (s : Snapshot) : M S unit := snapshots_sql "insert snapshot" (insert_row (snap_clash s) errNameTaken s).
(* go: platform/volume/repository.go repository.snapshot *)
Definition snapshot_row (id : string) : M S Snapshot := snapshots_q "scan snapshot" (select_one (snap_id id) errNotFound).
(* go: platform/volume/repository.go repository.snapshots *)
Definition snapshots_rows (volumeID : string) : M S (list Snapshot) :=
  snapshots_q "list snapshots" (fun rows =>
    Ok (if is_empty volumeID then sliceStable (by_key sn_VolumeID str_ltb (by_key sn_Name str_ltb (fun _ _ => false))) rows
        else sliceStable (by_key sn_Name str_ltb (fun _ _ => false)) (List.filter (snap_of volumeID) rows))).
(* go: platform/volume/repository.go repository.snapshotsPageIn *)
Definition snapshotsPage_rows (projectID : string) (window : Window) : M S (list Snapshot) :=
  query "list snapshots in project" (fun db : VolumeDB =>
    Ok (page_rows snap_text sn_ID
          (fun s => existsb (fun v => has_id (sn_VolumeID s) v && in_project projectID v) (vd_volumes db)) window (vd_snapshots db))).
(* go: platform/volume/repository.go repository.markSnapshot *)
Definition markSnapshot (id state message : string) (size : Z) : M S unit :=
  snapshots_sql "mark snapshot" (fun rows => (Ok tt, rewrite_rows (snap_id id) (marked state message size) rows)).
(* go: platform/volume/repository.go repository.deleteSnapshot *)
Definition deleteSnapshot (id : string) : M S unit := snapshots_sql "delete snapshot" (delete_where (snap_id id) errNotFound).
(* go: platform/volume/repository.go repository.setRestore *)
Definition setRestore (id name : string) (at_ : Z) : M S unit :=
  update_volumes "record the restore" (has_id id) (set_restore name at_).
(* go: platform/volume/repository.go repository.setDetaching *)
Definition setDetaching (id : string) (at_ : Z) : M S unit :=
  update_volumes "mark the volume detaching" (has_id id) (fun v => set_attachment (v_InstanceID v) (v_NodeID v) true at_ v).
(* go: platform/volume/repository.go repository.clearDetaching *)
Definition clearDetaching (id : string) (at_ : Z) : M S unit :=
  update_volumes "clear the detaching mark" (has_id id) (fun v => set_attachment (v_InstanceID v) (v_NodeID v) false at_ v).
(** One transaction: the snapshots and the volume, or neither. *)
(* go: platform/volume/repository.go repository.delete *)
Definition delete_row (id : string) : M S unit :=
  sql "delete volume" (fun db => match delete_where (has_id id) errNotFound (vd_volumes db) with
    | (Ok _, rows) => (Ok tt, MkVolumeDB rows (List.filter (fun s => negb (snap_of id s)) (vd_snapshots db)) (vd_schedules db))
    | (Err e, _) => (Err e, db) end).
(* go: platform/volume/repository.go repository.setSize *)
Definition setSize (id : string) (sizeGiB at_ : Z) : M S unit :=
  update_volumes "record the new size" (has_id id) (set_size sizeGiB at_).

(** The column [every_seconds]: [int(sc.Every.Seconds())]. *)
Definition every_stored (every : Z) : Z := wrap64 (to_int (Interval.seconds every) * second).
(** INSERT ... ON CONFLICT (volume_id) DO UPDATE; a clash of the id is an error. *)
(* go: platform/volume/schedulerepo.go repository.upsertSchedule *)
Definition upsertSchedule (sc : Schedule) : M S unit :=
  schedules_sql "upsert snapshot schedule" (fun rows =>
    if existsb (sched_of (ss_VolumeID sc)) rows
    then (Ok tt, rewrite_rows (sched_of (ss_VolumeID sc)) (fun old => MkSchedule (ss_ID old) (ss_ProjectID old) (ss_VolumeID old)
            (every_stored (ss_Every sc)) (ss_Keep sc) (ss_NextAt sc) (ss_LastAt old) (ss_CreatedAt old) (ss_UpdatedAt sc)) rows)
    else insert_row (sched_id (ss_ID sc)) (EText "UNIQUE constraint failed: snapshot_schedules.id")
           (MkSchedule (ss_ID sc) (ss_ProjectID sc) (ss_VolumeID sc) (every_stored (ss_Every sc)) (ss_Keep sc)
              (ss_NextAt sc) (ss_LastAt sc) (ss_CreatedAt sc) (ss_UpdatedAt sc)) rows).
(* go: platform/volume/schedulerepo.go repository.scheduleOf *)
Definition scheduleOf (volumeID : string) : M S Schedule :=
  schedules_q "read snapshot schedule" (select_one (sched_of volumeID) errNotFound).
(* go: platform/volume/schedulerepo.go repository.deleteSchedule *)
Definition deleteSchedule (volumeID : string) : M S unit :=
  schedules_sql "delete snapshot schedule" (fun rows => (Ok tt, List.filter (fun s => negb (sched_of volumeID s)) rows)).
(* go: platform/volume/schedulerepo.go repository.schedulesIn *)
Definition schedulesIn_rows (projectID : string) : M S (list Schedule) :=
  schedules_q "list snapshot schedules" (fun rows =>
    Ok (sliceStable (by_key (fun s => rfc3339nano (ss_CreatedAt s)) str_ltb (fun _ _ => false))
         (List.filter (fun s => String.eqb (ss_ProjectID s) projectID) rows))).
(* go: platform/volume/schedulerepo.go repository.schedulesDue *)
Definition schedulesDue (at_ : Z) : M S (list Schedule) :=
  schedules_q "list snapshot schedules" (fun rows =>
    Ok (sliceStable (by_key (fun s => rfc3339nano (ss_NextAt s)) str_ltb (fun _ _ => false))
         (List.filter (fun s => negb (str_ltb (rfc3339nano at_) (rfc3339nano (ss_NextAt s)))) rows))).
(* go: platform/volume/schedulerepo.go repository.markScheduleFired *)
Definition markScheduleFired (id : string) (at_ next : Z) : M S unit :=
  schedules_sql "mark snapshot schedule fired" (fun rows => (Ok tt, rewrite_rows (sched_id id) (fired at_ next) rows)).
(* go: platform/volume/schedulerepo.go repository.pendingSnapshotsForVolume *)
Definition pendingSnapshotsForVolume (volumeID : string) : M S Z :=
  snapshots_q "count pending snapshots" (fun rows =>
    Ok (len (List.filter (fun s => snap_of volumeID s && String.eqb (sn_State s) SnapshotPending) rows))).
(** [ORDER BY created_at DESC] *)
Definition newest_first (a b : Snapshot) : bool := str_ltb (snap_text b) (snap_text a).
Definition made_by (scheduleID : string) (s : Snapshot) : bool := String.eqb (sn_ScheduleID s) scheduleID.
(* go: platform/volume/schedulerepo.go repository.snapshotsBySchedule *)
Definition snapshotsBySchedule (scheduleID : string) : M S (list Snapshot) :=
  snapshots_q "list snapshots made by a schedule" (fun rows => Ok (sliceStable newest_first (List.filter (made_by scheduleID) rows))).
End repository.

(* go: platform/volume/service.go translate *)
Definition translate (err : error) : error :=
  if errors_Is err "volume not found" then NotFound "volume_not_found" "no volume with that name or id exists"
  else if errors_Is err "volume name already exists" then Conflict "volume_name_taken" "a volume with that name already exists"
  else if errors_Is err "volume already attached" then Conflict "volume_attached" "the volume was attached by someone else"
  else err.

(** * Service (service.go) *)

Section service.
Context {S : Type} `{!Has VolumeDB S}.
Context (c : AEAD) (keys : option Keyring).
Context (instances : option (Instances S)) (quota : option (VolumeQuota S)) (backups : option (Backups S)).

(* go: platform/volume/service.go service.mintKey *)
Definition mintKey (wanted : bool) : M S volumeKey :=
  if negb wanted then ret (MkVolumeKey "" "" false)
  else match Active keys with
    | None => fail (Unavailable "no_encryption_key"
        "this control plane holds no key to protect a volume key with, so an encrypted volume would only look encrypted; start it with --backup-key-file")
    | Some active =>
        let! raw := rand in
        let! wrapped := mapped Internal (SealBytes c (read_bytes (Z.to_nat KeyBytes) raw) active) in
        ret (MkVolumeKey wrapped (Sealed.ID active) false)
    end.

(* go: platform/volume/service.go service.guardFor *)
Definition guardFor (params : CreateParams) : M S volumeKey :=
  if is_empty (cp_BackupID params) then mintKey (cp_Encrypted params)
  else match backups with
    | None => fail (Unavailable "backups_unavailable" "the platform cannot look up backups")
    | Some b =>
        let! envelope := Restorable b (cp_BackupID params) (cp_ProjectID params) in
        if is_empty (ra_KeySealed envelope) then
          if cp_Encrypted params then fail (Conflict "backup_not_encrypted"
            "that backup holds a plaintext volume, and the node writes a restore byte for byte, so the result would be a plaintext disk claiming to be encrypted")
          else ret (MkVolumeKey "" "" false)
        else match Sealed.Find keys (ra_KeyID envelope) with
          | None => fail (Unavailable "key_missing" ("that backup's volume key was sealed with key " +:+ ra_KeyID envelope
                      +:+ ", which this control plane does not hold"))
          | Some _ => ret (MkVolumeKey (ra_KeySealed envelope) (ra_KeyID envelope) true)
          end
    end.

Definition admit_volume (projectID : string) (sizeGiB : Z) : M S unit :=
  match quota with Some q => AdmitVolume q projectID sizeGiB | None => ret tt end.
Definition size_fault : error := Invalid "invalid_size" "size_gib must be between 1 and 4096".

(* go: platform/volume/service.go service.create *)
Definition create (params : CreateParams) : M S Volume :=
  lift (validate_Name "name" (cp_Name params)) ;;;
  lift (guard ((cp_SizeGiB params <? MinSizeGiB) || (MaxSizeGiB <? cp_SizeGiB params)) size_fault) ;;;
  admit_volume (cp_ProjectID params) (cp_SizeGiB params) ;;;
  let! g := guardFor params in
  let! at_ := now in
  let! id := ids_New "vol" in
  let v := MkVolume id (cp_ProjectID params) (cp_Name params) (cp_SizeGiB params) "" "" "" (cp_BackupID params) "" "" false
             (encrypts g) (vk_sealedKey g) (vk_keyID g) at_ at_ in
  mapped translate (insert v) ;;;
  ret v.

(* go: platform/volume/service.go service.ownedSnapshot *)
Definition ownedSnapshot (id projectID : string) : M S Snapshot :=
  let! snap := mapped translate (snapshot_row id) in
  let! v := mapped translate (byID (sn_VolumeID snap)) in
  lift (guard (negb (String.eqb (v_ProjectID v) projectID)) (NotFound "snapshot_not_found" "no snapshot with that id exists")) ;;;
  ret snap.

(* go: platform/volume/service.go service.clone *)
Definition clone (snapshotID projectID name : string) : M S Volume :=
  lift (validate_Name "name" name) ;;;
  let! snap := ownedSnapshot snapshotID projectID in
  lift (guard (negb (String.eqb (sn_State snap) SnapshotReady)) (Conflict "snapshot_not_ready"
    ("the snapshot is " +:+ sn_State snap +:+ " and there is nothing to copy yet"))) ;;;
  let! source := mapped translate (byID (sn_VolumeID snap)) in
  lift (guard (is_empty (v_NodeID source)) (Conflict "volume_not_placed"
    "a snapshot lives inside the disk file on the node that holds the volume, and this volume is not on a node, so there is nothing to copy from")) ;;;
  lift (guard (v_Encrypted source) (Conflict "volume_encrypted"
    "copying an encrypted volume would either need its key on a second disk or write the contents out in the clear, and neither is something to do quietly: restore it onto a volume of its own instead")) ;;;
  admit_volume projectID (v_SizeGiB source) ;;;
  let! at_ := now in
  let! id := ids_New "vol" in
  let v := MkVolume id projectID name (v_SizeGiB source) (v_NodeID source) "" "" "" (v_ID source) (sn_Name snap) false
             false "" "" at_ at_ in
  mapped translate (insert v) ;;;
  ret v.

(* go: platform/volume/service.go service.resolveIn *)
Definition resolveIn (nameOrID projectID : string) : M S Volume :=
  let! r := attempt (byName projectID nameOrID) in
  match r with
  | Ok v => ret v
  | Err err =>
      if negb (errors_Is err "volume not found") then fail (translate err)
      else
        let! v := mapped translate (byID nameOrID) in
        lift (guard (negb (String.eqb (v_ProjectID v) projectID))
          (NotFound "volume_not_found" "no volume with that name or id exists")) ;;;
        ret v
  end.

(* go: platform/volume/service.go service.footprintIn *)
Definition footprintIn (projectID : string) : M S Footprint := mapped translate (footprint_row projectID).
(* go: platform/volume/service.go service.pageIn *)
Definition pageIn (projectID : string) (window : Window) : M S (list Volume) := mapped translate (pageIn_rows projectID window).
(* go: platform/volume/service.go service.onNode *)
Definition onNode (nodeID : string) : M S (list Volume) := mapped translate (onNode_rows nodeID).

(* go: platform/volume/service.go service.attach *)
Definition attach (nameOrID projectID instanceRef : string) : M S Volume :=
  let! v := resolveIn nameOrID projectID in
  match instances with
  | None => fail (Unavailable "instances_unavailable" "the platform cannot look up where an instance runs")
  | Some i =>
      let! placed := Placement i instanceRef projectID in
      let instanceID := pl_InstanceID placed in
      if String.eqb (v_InstanceID v) instanceID then
        if v_Detaching v then
          let! at_ := now in
          mapped translate (clearDetaching (v_ID v) at_) ;;;
          ret (set_attachment (v_InstanceID v) (v_NodeID v) false (v_UpdatedAt v) v)
        else ret v
      else
        lift (guard (negb (is_empty (v_InstanceID v))) (Conflict "volume_attached"
          ("the volume is attached to " +:+ v_InstanceID v +:+ ", and a disk cannot have two writers"))) ;;;
        lift (guard (negb (String.eqb (pl_ProjectID placed) projectID))
          (NotFound "instance_not_found" "no instance with that name or id exists")) ;;;
        lift (guard (is_empty (pl_NodeID placed)) (Conflict "instance_unplaced"
          "the instance has no node yet, and a volume lives on the node it is attached to")) ;;;
        lift (guard (negb (String.eqb (pl_Isolation placed) "vm")) (Invalid "unsupported_isolation"
          "only isolation vm takes a volume today, because the others have no second disk")) ;;;
        lift (guard (negb (is_empty (v_NodeID v)) && negb (String.eqb (v_NodeID v) (pl_NodeID placed))) (Conflict "volume_elsewhere"
          ("the volume holds data on node " +:+ v_NodeID v +:+ " and cannot follow an instance to " +:+ pl_NodeID placed))) ;;;
        let! at_ := now in
        mapped translate (attach_row (v_ID v) instanceID (pl_NodeID placed) at_) ;;;
        ret (set_attachment instanceID (pl_NodeID placed) (v_Detaching v) (v_UpdatedAt v) v)
  end.

(* go: platform/volume/service.go service.holdsIt *)
Definition holdsIt (v : Volume) : M S bool :=
  match instances with
  | None => ret false
  | Some i =>
      let! r := attempt (Placement i (v_InstanceID v) (v_ProjectID v)) in
      ret (match r with
           | Err _ => false
           | Ok placed => String.eqb (pl_Observed placed) "running" && negb (is_empty (pl_NodeID placed))
           end)
  end.

(* go: platform/volume/service.go service.detach *)
Definition detach (nameOrID projectID : string) : M S Volume :=
  let! v := resolveIn nameOrID projectID in
  if is_empty (v_InstanceID v) then ret v
  else
    let! held := holdsIt v in
    if held : bool then
      let! at_ := now in
      mapped translate (setDetaching (v_ID v) at_) ;;;
      ret (set_attachment (v_InstanceID v) (v_NodeID v) true (v_UpdatedAt v) v)
    else
      let! at_ := now in
      mapped translate (detach_row (v_ID v) at_) ;;;
      ret (set_attachment "" (v_NodeID v) false (v_UpdatedAt v) v).

(* go: platform/volume/service.go service.releaseInstance *)
Definition releaseInstance (instanceID : string) : M S unit :=
  let! at_ := now in mapped translate (detachInstance instanceID at_).

(* go: platform/volume/service.go service.idle *)
Definition idle (v : Volume) (action : string) : M S unit :=
  match instances with
  | None => ret tt
  | Some i =>
      if is_empty (v_InstanceID v) then ret tt
      else
        let! placed := Placement i (v_InstanceID v) (v_ProjectID v) in
        lift (guard (pl_Running placed) (Conflict "instance_running"
          ("stop " +:+ v_InstanceID v +:+ " first: writing to a disk while qemu has it open would " +:+ action
             +:+ " an image that is changing underneath")))
  end.
(* go: platform/volume/service.go service.quiet *)
Definition quiet (v : Volume) (action : string) : M S unit :=
  lift (guard (is_empty (v_NodeID v)) (Conflict "volume_empty"
    ("the volume has never been attached, so there is nothing on disk to " +:+ action))) ;;;
  idle v action.

(* go: platform/volume/service.go service.snapshotWithSchedule *)
Definition snapshotWithSchedule (nameOrID projectID name scheduleID : string) : M S Snapshot :=
  let! v := resolveIn nameOrID projectID in
  lift (validate_Name "name" name) ;;;
  quiet v "snapshot" ;;;
  let! id := ids_New "snap" in
  let! at_ := now in
  let snap := MkSnapshot id (v_ID v) name SnapshotPending "" 0 scheduleID at_ in
  mapped (fun err => if errors_Is err "volume name already exists"
                     then Conflict "snapshot_name_taken" "the volume already has a snapshot with that name"
                     else translate err) (insertSnapshot snap) ;;;
  ret snap.
(* go: platform/volume/service.go service.snapshot *)
Definition snapshot (nameOrID projectID name : string) : M S Snapshot := snapshotWithSchedule nameOrID projectID name "".
(* go: platform/volume/service.go service.snapshots *)
Definition snapshots (volumeID : string) : M S (list Snapshot) := mapped translate (snapshots_rows volumeID).
(* go: platform/volume/service.go service.snapshotsPageIn *)
Definition snapshotsPageIn (projectID : string) (window : Window) : M S (list Snapshot) :=
  mapped translate (snapshotsPage_rows projectID window).

(* go: platform/volume/service.go service.removeSnapshot *)
Definition removeSnapshot (id projectID : string) : M S unit :=
  ownedSnapshot id projectID ;;;
  mapped translate (deleteSnapshot id).

(* go: platform/volume/service.go service.restore *)
Definition restore (snapshotID projectID : string) : M S Volume :=
  let! snap := ownedSnapshot snapshotID projectID in
  lift (guard (negb (String.eqb (sn_State snap) SnapshotReady)) (Conflict "snapshot_not_ready"
    ("the snapshot is " +:+ sn_State snap +:+ " and cannot be restored yet"))) ;;;
  let! v := mapped translate (byID (sn_VolumeID snap)) in
  quiet v "restore" ;;;
  let! at_ := now in
  mapped translate (setRestore (v_ID v) (sn_Name snap) at_) ;;;
  ret (set_restore (sn_Name snap) (v_UpdatedAt v) v).

(** What a node says about one snapshot it was told of. *)
(* go: platform/volume/service.go:455-468 snap.Name *)
Definition judge_snapshot (present : gmap string Z) (reportError : string) (snap : Snapshot) : M S unit :=
  match present !! sn_Name snap with
  | Some size => mapped translate (markSnapshot (sn_ID snap) SnapshotReady "" size)
  | None => if negb (is_empty reportError)
            then mapped translate (markSnapshot (sn_ID snap) SnapshotFailed reportError 0)
            else ret tt
  end.
(* go: platform/volume/service.go:430-475 reported *)
Definition report_one (nodeID : string) (reported : NodeReport) : M S unit :=
  let! r := attempt (byID (nr_VolumeID reported)) in
  match r with
  | Err _ => ret tt
  | Ok v =>
      if negb (String.eqb (v_NodeID v) nodeID) then ret tt
      else
        (if nr_Detached reported && v_Detaching v
         then let! at_ := now in mapped translate (detach_row (v_ID v) at_) else ret tt) ;;;
        let present : gmap string Z := fold_left (fun m f => <[rs_Name f := rs_SizeBytes f]> m) (nr_Snapshots reported) ∅ in
        let! known := mapped translate (snapshots_rows (v_ID v)) in
        foldM (fun snap _ => judge_snapshot present (nr_Error reported) snap) known tt ;;;
        (if negb (is_empty (nr_Restored reported)) && String.eqb (nr_Restored reported) (v_RestoreFrom v)
         then let! at_ := now in mapped translate (setRestore (v_ID v) "" at_) else ret tt)
  end.
(* go: platform/volume/service.go service.report *)
Definition report (nodeID : string) (reports : list NodeReport) : M S unit :=
  foldM (fun reported _ => report_one nodeID reported) reports tt.

(* go: platform/volume/service.go service.remove *)
Definition remove (nameOrID projectID : string) : M S unit :=
  let! v := resolveIn nameOrID projectID in
  lift (guard (negb (is_empty (v_InstanceID v))) (Conflict "volume_attached"
    ("detach the volume from " +:+ v_InstanceID v +:+ " before deleting it"))) ;;;
  mapped translate (delete_row (v_ID v)).

(* go: platform/volume/service.go service.keyForNode *)
Definition keyForNode (volumeID nodeID : string) : M S string :=
  let! v := mapped translate (byID volumeID) in
  lift (guard (negb (String.eqb (v_NodeID v) nodeID)) (NotFound "volume_not_found" "no volume with that id is held here")) ;;;
  lift (guard (negb (v_Encrypted v)) (Conflict "volume_not_encrypted" "that volume carries no key")) ;;;
  match Sealed.Find keys (v_KeyID v) with
  | None => fail (Unavailable "key_missing" ("the volume key was sealed with key " +:+ v_KeyID v
                    +:+ ", which this control plane does not hold"))
  | Some key =>
      let! raw := lift (or_fault Internal (OpenBytes c (v_KeySealed v) key)) in
      ret (hex_encode raw)
  end.

(* go: platform/volume/service.go service.resize *)
Definition resize (nameOrID projectID : string) (sizeGiB : Z) : M S Volume :=
  let! v := resolveIn nameOrID projectID in
  lift (guard ((sizeGiB <? MinSizeGiB) || (MaxSizeGiB <? sizeGiB)) size_fault) ;;;
  if sizeGiB =? v_SizeGiB v then ret v
  else
    lift (guard (sizeGiB <? v_SizeGiB v) (Conflict "volume_shrink"
      ("the volume is " +:+ itoa (v_SizeGiB v) +:+ " GiB, and shrinking it to " +:+ itoa sizeGiB
         +:+ " would mean deciding which bytes to lose"))) ;;;
    idle v "resize" ;;;
    match quota with Some q => AdmitVolumeGrowth q (v_ProjectID v) (sizeGiB - v_SizeGiB v) | None => ret tt end ;;;
    let! at_ := now in
    mapped translate (setSize (v_ID v) sizeGiB at_) ;;;
    ret (set_size sizeGiB (v_UpdatedAt v) v).

(** * Schedules (schedule.go) *)

(* go: platform/volume/schedule.go service.setSchedule *)
Definition setSchedule (params : ScheduleParams) : M S Schedule :=
  let! every := lift (or_fault (fun err => Invalid "invalid_interval" (error_text err)) (Interval.Parse (sp_Every params))) in
  lift (guard ((every <? MinEvery) || (MaxEvery <? every))
    (Invalid "invalid_interval" "the interval must be between 1m0s and 8760h0m0s")) ;;;
  lift (guard ((sp_Keep params <? MinKeep) || (MaxKeep <? sp_Keep params)) (Invalid "invalid_keep"
    "keep must be between 1 and 365, because a schedule that keeps nothing snapshots for no reason")) ;;;
  let! v := resolveIn (sp_VolumeID params) (sp_ProjectID params) in
  let! at_ := now in
  let! id := ids_New "ssc" in
  let! existing := attempt (scheduleOf (v_ID v)) in
  let fresh := MkSchedule id (sp_ProjectID params) (v_ID v) every (sp_Keep params) (time_add at_ every) zero_time at_ at_ in
  let! sc := match existing with
    | Ok old => ret (MkSchedule (ss_ID old) (sp_ProjectID params) (v_ID v) every (sp_Keep params) (time_add at_ every)
                       (ss_LastAt old) (ss_CreatedAt old) at_)
    | Err err => if errors_Is err "volume not found" then ret fresh else fail (Internal err)
    end in
  mapped Internal (upsertSchedule sc) ;;;
  ret sc.

(* go: platform/volume/schedule.go service.clearSchedule *)
Definition clearSchedule (volumeID projectID : string) : M S unit :=
  let! v := resolveIn volumeID projectID in
  mapped translate (deleteSchedule (v_ID v)).
(* go: platform/volume/schedule.go service.schedulesIn *)
Definition schedulesIn (projectID : string) : M S (list Schedule) := mapped translate (schedulesIn_rows projectID).

(** [now.Format("20060102-150405")] *)
Definition stamp_text (t : Z) : string :=
  let seconds := t / second in
  let '(year, month, day) := civil (seconds / 86400) in
  let s := seconds mod 86400 in
  let field width n := of_bytes (padded width n) in
  field 4%nat year +:+ field 2%nat month +:+ field 2%nat day +:+ "-" +:+
  field 2%nat (s / 3600) +:+ field 2%nat (s / 60 mod 60) +:+ field 2%nat (s mod 60).

(* go: platform/volume/schedule.go service.fire *)
Definition fire (sc : Schedule) (at_ : Z) : M S bool :=
  markScheduleFired (ss_ID sc) at_ (time_add at_ (ss_Every sc)) ;;;
  let! waiting := pendingSnapshotsForVolume (ss_VolumeID sc) in
  if 0 <? waiting then ret false
  else
    let! r := attempt (snapshotWithSchedule (ss_VolumeID sc) (ss_ProjectID sc) ("auto-" +:+ stamp_text at_) (ss_ID sc)) in
    ret (match r with Ok _ => true | Err _ => false end).

(* go: platform/volume/schedule.go service.retain *)
Definition retain (sc : Schedule) : M S Z :=
  let! made := snapshotsBySchedule (ss_ID sc) in
  let keepable := List.filter (fun snap => String.eqb (sn_State snap) SnapshotReady) made in
  if len keepable <=? ss_Keep sc then ret 0
  else foldM (fun snap pruned => deleteSnapshot (sn_ID snap) ;;; ret (pruned + 1)) (drop (Z.to_nat (ss_Keep sc)) keepable) 0.

(** The counts of a sweep that fails are only logged. *)
(* go: platform/volume/schedule.go service.sweep *)
Definition sweep : M S (Z * Z) :=
  let! at_ := now in
  let! due := schedulesDue at_ in
  foldM (fun sc acc =>
    let! fired := fire sc at_ in
    let! gone := retain sc in
    ret (fst acc + (if fired : bool then 1 else 0), snd acc + gone)) due (0, 0).
End service.

(** * Handlers (handler.go)

    A request is its caller's scope, its path values and what [Decode] made of its body. *)

(* go: platform/volume/handler.go createRequest *)
Record createRequest := MkCreateRequest { cr_Name : string; cr_SizeGiB : Z; cr_BackupID : string; cr_Encrypted : bool }.
(* go: platform/volume/handler.go attachRequest *)
Record attachRequest := MkAttachRequest { ar_InstanceID : string }.
(* go: platform/volume/handler.go snapshotRequest *)
Record snapshotRequest := MkSnapshotRequest { sr_Name : string }.
(* go: platform/volume/handler.go reportedSnapshot *)
Record reportedSnapshot := MkReported { rp_Name : string; rp_SizeBytes : Z }.
(* go: platform/volume/handler.go reportedVolume *)
Record reportedVolume := MkReportedVolume {
  rv_VolumeID : string; rv_Detached : bool; rv_Snapshots : list reportedSnapshot; rv_Restored : string; rv_Error : string;
}.
(* go: platform/volume/handler.go reportRequest *)
Record reportRequest := MkReportRequest { rr_Volumes : list reportedVolume }.
(* go: platform/volume/handler.go snapshotResponse *)
Record snapshotResponse := MkSnapshotResponse {
  so_ID : string; so_VolumeID : string; so_Name : string; so_State : string; so_Message : string; so_SizeBytes : Z; so_CreatedAt : string;
}.
(* go: platform/volume/handler.go toSnapshotResponse *)
Definition toSnapshotResponse (s : Snapshot) : snapshotResponse :=
  MkSnapshotResponse (sn_ID s) (sn_VolumeID s) (sn_Name s) (sn_State s) (sn_Message s) (sn_SizeBytes s) (rfc3339nano (sn_CreatedAt s)).
(* go: platform/volume/handler.go response *)
Record response := MkResponse {
  o_ID : string; o_Name : string; o_SizeGiB : Z; o_State : string; o_NodeID : string; o_InstanceID : string; o_Detaching : bool;
  o_RestoreFrom : string; o_BackupID : string; o_CloneFrom : string; o_CloneSnap : string; o_Encrypted : bool; o_KeyID : string;
  o_Snapshots : list snapshotResponse; o_CreatedAt : string; o_UpdatedAt : string;
}.
Definition response_with (snaps : list snapshotResponse) (v : Volume) : response :=
  MkResponse (v_ID v) (v_Name v) (v_SizeGiB v) (State v) (v_NodeID v) (v_InstanceID v) (v_Detaching v) (v_RestoreFrom v)
    (v_BackupID v) (v_CloneFrom v) (v_CloneSnap v) (v_Encrypted v) (v_KeyID v) snaps
    (rfc3339nano (v_CreatedAt v)) (rfc3339nano (v_UpdatedAt v)).
(* go: platform/volume/handler.go toResponse *)
Definition toResponse (v : Volume) : response := response_with [] v.
(* go: platform/volume/handler.go scheduleRequest *)
Record scheduleRequest := MkScheduleRequest { sq_Every : string; sq_Keep : Z }.
(* go: platform/volume/handler.go scheduleResponse *)
Record scheduleResponse := MkScheduleResponse {
  sp_ID : string; sp_Volume : string; sp_EveryText : string; sp_Kept : Z; sp_NextAt : string; sp_LastAt : string; sp_CreatedAt : string;
}.
(* go: platform/volume/handler.go toScheduleResponse *)
Definition toScheduleResponse (s : Schedule) : scheduleResponse :=
  MkScheduleResponse (ss_ID s) (ss_VolumeID s) (duration_String (ss_Every s)) (ss_Keep s) (rfc3339nano (ss_NextAt s))
    (if time_is_zero (ss_LastAt s) then "" else rfc3339nano (ss_LastAt s)) (rfc3339nano (ss_CreatedAt s)).

Inductive body :=
| BVolume (v : response)
| BVolumes (vs : list response) (next : string)
| BSnapshot (s : snapshotResponse)
| BSnapshots (ss : list snapshotResponse) (next : string)
| BSchedule (s : scheduleResponse)
| BSchedules (ss : list scheduleResponse)
| BKey (volumeID key : string).

Section handlers.
Context {S : Type} `{!Has VolumeDB S}.
Context (c : AEAD) (keys : option Keyring).
Context (instances : option (Instances S)) (quota : option (VolumeQuota S)) (backups : option (Backups S)).

(* go: platform/volume/handler.go handler.create *)
Definition handle_create (sc : Scope) (req : outcome createRequest) : M S (Reply body) :=
  let! req := lift req in
  let! v := create c keys quota backups (MkCreateParams (sc_ProjectID sc) (cr_Name req) (cr_SizeGiB req) (cr_BackupID req) (cr_Encrypted req)) in
  Write StatusCreated (BVolume (toResponse v)).
(* go: platform/volume/handler.go handler.list *)
Definition handle_list (sc : Scope) (q_limit q_after : string) : M S (Reply body) :=
  let! window := lift (window_from q_limit q_after) in
  let! volumes := pageIn (sc_ProjectID sc) window in
  Write StatusOK (BVolumes (map toResponse volumes) (snd (page_reply v_Name v_ID window volumes))).
(* go: platform/volume/handler.go handler.get *)
Definition handle_get (sc : Scope) (id : string) : M S (Reply body) :=
  let! v := resolveIn id (sc_ProjectID sc) in
  Write StatusOK (BVolume (toResponse v)).
(* go: platform/volume/handler.go handler.attach *)
Definition handle_attach (sc : Scope) (id : string) (req : outcome attachRequest) : M S (Reply body) :=
  let! req := lift req in
  let! v := attach instances id (sc_ProjectID sc) (ar_InstanceID req) in
  Write StatusOK (BVolume (toResponse v)).
(* go: platform/volume/handler.go handler.detach *)
Definition handle_detach (sc : Scope) (id : string) : M S (Reply body) :=
  let! v := detach instances id (sc_ProjectID sc) in
  Write StatusOK (BVolume (toResponse v)).
(* go: platform/volume/handler.go handler.delete *)
Definition handle_delete (sc : Scope) (id : string) : M S (Reply body) :=
  remove id (sc_ProjectID sc) ;;;
  WriteHeader StatusNoContent.
(* go: platform/volume/handler.go handler.listForNode *)
Definition handle_listForNode (nodeID : string) : M S (Reply body) :=
  let! volumes := onNode nodeID in
  let! out := foldM (fun v out =>
    let! snaps := snapshots (v_ID v) in
    ret (out ++ [response_with (map toSnapshotResponse snaps) v])) volumes [] in
  Write StatusOK (BVolumes out "").
(* go: platform/volume/handler.go handler.snapshot *)
Definition handle_snapshot (sc : Scope) (id : string) (req : outcome snapshotRequest) : M S (Reply body) :=
  let! req := lift req in
  let! snap := snapshot instances id (sc_ProjectID sc) (sr_Name req) in
  Write StatusCreated (BSnapshot (toSnapshotResponse snap)).
(* go: platform/volume/handler.go handler.listSnapshots *)
Definition handle_listSnapshots (sc : Scope) (id q_limit q_after : string) : M S (Reply body) :=
  if negb (is_empty id) then
    let! v := resolveIn id (sc_ProjectID sc) in
    let! snaps := snapshots (v_ID v) in
    Write StatusOK (BSnapshots (map toSnapshotResponse snaps) "")
  else
    let! window := lift (window_from q_limit q_after) in
    let! snaps := snapshotsPageIn (sc_ProjectID sc) window in
    Write StatusOK (BSnapshots (map toSnapshotResponse snaps) (snd (page_reply snap_text sn_ID window snaps))).
(* go: platform/volume/handler.go handler.deleteSnapshot *)
Definition handle_deleteSnapshot (sc : Scope) (id : string) : M S (Reply body) :=
  removeSnapshot id (sc_ProjectID sc) ;;;
  WriteHeader StatusNoContent.
(* go: platform/volume/handler.go handler.clone *)
Definition handle_clone (sc : Scope) (id : string) (req : outcome snapshotRequest) : M S (Reply body) :=
  let! req := lift req in
  let! made := clone quota id (sc_ProjectID sc) (sr_Name req) in
  Write StatusCreated (BVolume (toResponse made)).
(* go: platform/volume/handler.go handler.restore *)
Definition handle_restore (sc : Scope) (id : string) : M S (Reply body) :=
  let! v := restore instances id (sc_ProjectID sc) in
  Write StatusOK (BVolume (toResponse v)).
(* go: platform/volume/handler.go handler.report *)
Definition handle_report (nodeID : string) (req : outcome reportRequest) : M S (Reply body) :=
  let! req := lift req in
  report nodeID (map (fun one => MkNodeReport (rv_Detached one) (rv_VolumeID one)
      (map (fun s => MkReportedSnapshot (rp_Name s) (rp_SizeBytes s)) (rv_Snapshots one)) (rv_Restored one) (rv_Error one))
    (rr_Volumes req)) ;;;
  WriteHeader StatusNoContent.
(* go: platform/volume/handler.go handler.nodeKey *)
Definition handle_nodeKey (nodeID id : string) : M S (Reply body) :=
  let! key := keyForNode c keys id nodeID in
  Write StatusOK (BKey id key).
(* go: platform/volume/handler.go handler.resize *)
Definition handle_resize (sc : Scope) (id : string) (req : outcome Z) : M S (Reply body) :=
  let! size := lift req in
  let! v := resize instances quota id (sc_ProjectID sc) size in
  Write StatusOK (BVolume (toResponse v)).
(* go: platform/volume/handler.go handler.setSchedule *)
Definition handle_setSchedule (sc : Scope) (id : string) (req : outcome scheduleRequest) : M S (Reply body) :=
  let! req := lift req in
  let! made := setSchedule (MkScheduleParams (sc_ProjectID sc) id (sq_Every req) (sq_Keep req)) in
  Write StatusOK (BSchedule (toScheduleResponse made)).
(* go: platform/volume/handler.go handler.clearSchedule *)
Definition handle_clearSchedule (sc : Scope) (id : string) : M S (Reply body) :=
  clearSchedule id (sc_ProjectID sc) ;;;
  WriteHeader StatusNoContent.
(* go: platform/volume/handler.go handler.listSchedules *)
Definition handle_listSchedules (sc : Scope) : M S (Reply body) :=
  let! schedules := schedulesIn (sc_ProjectID sc) in
  Write StatusOK (BSchedules (map toScheduleResponse schedules)).
End handlers.

(** What reaches the module: the requests of a caller's scope, those of a node, the release of
    a deleted instance's volumes, and the ticker's sweep. *)
Inductive request :=
| ReqCreate (sc : Scope) (req : outcome createRequest)
| ReqList (sc : Scope) (q_limit q_after : string)
| ReqGet (sc : Scope) (id : string)
| ReqAttach (sc : Scope) (id : string) (req : outcome attachRequest)
| ReqDetach (sc : Scope) (id : string)
| ReqDelete (sc : Scope) (id : string)
| ReqSnapshot (sc : Scope) (id : string) (req : outcome snapshotRequest)
| ReqListSnapshots (sc : Scope) (id q_limit q_after : string)
| ReqDeleteSnapshot (sc : Scope) (id : string)
| ReqClone (sc : Scope) (id : string) (req : outcome snapshotRequest)
| ReqRestore (sc : Scope) (id : string)
| ReqResize (sc : Scope) (id : string) (req : outcome Z)
| ReqSetSchedule (sc : Scope) (id : string) (req : outcome scheduleRequest)
| ReqClearSchedule (sc : Scope) (id : string)
| ReqListSchedules (sc : Scope)
| ReqListForNode (nodeID : string)
| ReqNodeKey (nodeID id : string)
| ReqReport (nodeID : string) (req : outcome reportRequest)
| ReqRelease (instanceID : string)
| ReqSweep.

Definition noted {S A} (m : M S A) : M S (Reply body) := m ;;; WriteHeader StatusOK.

(* go: platform/volume/module.go Module.Routes *)
Definition serve {S} `{!Has VolumeDB S} (c : AEAD) (keys : option Keyring)
    (instances : option (Instances S)) (quota : option (VolumeQuota S)) (backups : option (Backups S)) (r : request)
    : M S (Reply body) :=
  match r with
  | ReqCreate sc req => handle_create c keys quota backups sc req
  | ReqList sc l a => handle_list sc l a
  | ReqGet sc id => handle_get sc id
  | ReqAttach sc id req => handle_attach instances sc id req
  | ReqDetach sc id => handle_detach instances sc id
  | ReqDelete sc id => handle_delete sc id
  | ReqSnapshot sc id req => handle_snapshot instances sc id req
  | ReqListSnapshots sc id l a => handle_listSnapshots sc id l a
  | ReqDeleteSnapshot sc id => handle_deleteSnapshot sc id
  | ReqClone sc id req => handle_clone quota sc id req
  | ReqRestore sc id => handle_restore instances sc id
  | ReqResize sc id req => handle_resize instances quota sc id req
  | ReqSetSchedule sc id req => handle_setSchedule sc id req
  | ReqClearSchedule sc id => handle_clearSchedule sc id
  | ReqListSchedules sc => handle_listSchedules sc
  | ReqListForNode nodeID => handle_listForNode nodeID
  | ReqNodeKey nodeID id => handle_nodeKey c keys nodeID id
  | ReqReport nodeID req => handle_report nodeID req
  | ReqRelease instanceID => noted (releaseInstance instanceID)
  | ReqSweep => noted (sweep instances)
  end.

(** * The state machine the module promises

    Who moves the tables: a tenant through the API, a node with its reports, the deletion of an
    instance, or the ticker. *)
Inductive actor := Tenant (projectID : string) | NodeOf (nodeID : string) | Deletion (instanceID : string) | Ticker.

Section machine.
(** What the answers of [Placement] are known to satisfy. *)
Context (placed : Placement_ -> Prop).

(** What an actor may do to one volume. *)
Inductive touched_by : actor -> Volume -> Volume -> Prop :=
| T_attach p pl at_ v : v_ProjectID v = p -> v_InstanceID v = "" -> placed pl -> pl_ProjectID pl = p -> pl_NodeID pl <> "" ->
    pl_Isolation pl = "vm" -> (v_NodeID v = "" \/ v_NodeID v = pl_NodeID pl) ->
    touched_by (Tenant p) v (set_attachment (pl_InstanceID pl) (pl_NodeID pl) (v_Detaching v) at_ v)
| T_let_go p at_ v : v_ProjectID v = p -> touched_by (Tenant p) v (set_attachment "" (v_NodeID v) false at_ v)
| T_mark p b at_ v : v_ProjectID v = p -> touched_by (Tenant p) v (set_attachment (v_InstanceID v) (v_NodeID v) b at_ v)
| T_detached n at_ v : v_NodeID v = n -> v_Detaching v = true -> touched_by (NodeOf n) v (set_attachment "" (v_NodeID v) false at_ v)
| T_released i at_ v : v_InstanceID v = i -> touched_by (Deletion i) v (set_attachment "" (v_NodeID v) (v_Detaching v) at_ v)
| T_restore p name at_ v : v_ProjectID v = p -> v_NodeID v <> "" -> touched_by (Tenant p) v (set_restore name at_ v)
| T_restored n at_ v : v_NodeID v = n -> touched_by (NodeOf n) v (set_restore "" at_ v)
| T_grow p size at_ v : v_ProjectID v = p -> v_SizeGiB v < size <= MaxSizeGiB -> touched_by (Tenant p) v (set_size size at_ v).

(** What an actor may do to one snapshot. *)
Definition judged_snap (db : VolumeDB) (a : actor) (s s' : Snapshot) : Prop := exists n v state message size,
  a = NodeOf n /\ v ∈ vd_volumes db /\ v_ID v = sn_VolumeID s /\ v_NodeID v = n /\
  state ∈ [SnapshotReady; SnapshotFailed] /\ s' = marked state message size s.

Definition same_or (f : Volume -> Volume -> Prop) (v v' : Volume) : Prop := v' = v \/ f v v'.

Inductive change (a : actor) (db : VolumeDB) : VolumeDB -> Prop :=
| C_touch vs : Forall2 (same_or (touched_by a)) (vd_volumes db) vs -> change a db (set_volumes vs db)
| C_create p v : a = Tenant p -> v_ProjectID v = p -> existsb (volume_clash v) (vd_volumes db) = false ->
    MinSizeGiB <= v_SizeGiB v <= MaxSizeGiB -> v_InstanceID v = "" -> v_Detaching v = false -> v_RestoreFrom v = "" ->
    v_Encrypted v = negb (is_empty (v_KeySealed v)) -> v_Name v <> "" -> no_nul (v_Name v) -> v_ID v <> "" ->
    change a db (set_volumes (vd_volumes db ++ [v]) db)
| C_remove p v : a = Tenant p -> v ∈ vd_volumes db -> v_ProjectID v = p -> v_InstanceID v = "" ->
    change a db (MkVolumeDB (List.filter (fun x => negb (has_id (v_ID v) x)) (vd_volumes db))
                   (List.filter (fun s => negb (snap_of (v_ID v) s)) (vd_snapshots db)) (vd_schedules db))
| C_snapshot s v : v ∈ vd_volumes db -> v_ID v = sn_VolumeID s -> v_NodeID v <> "" -> sn_State s = SnapshotPending ->
    existsb (snap_clash s) (vd_snapshots db) = false ->
    (a = Tenant (v_ProjectID v) /\ sn_ScheduleID s = "" \/
     a = Ticker /\ exists sc, sc ∈ vd_schedules db /\ ss_ID sc = sn_ScheduleID s /\ ss_ProjectID sc = v_ProjectID v) ->
    change a db (set_snapshots (vd_snapshots db ++ [s]) db)
| C_judge ss : Forall2 (fun s s' => s' = s \/ judged_snap db a s s') (vd_snapshots db) ss -> change a db (set_snapshots ss db)
| C_forget s : s ∈ vd_snapshots db ->
    (exists v, a = Tenant (v_ProjectID v) /\ v ∈ vd_volumes db /\ v_ID v = sn_VolumeID s) \/
    (a = Ticker /\ sn_State s = SnapshotReady /\ exists sc, sc ∈ vd_schedules db /\ ss_ID sc = sn_ScheduleID s) ->
    change a db (set_snapshots (List.filter (fun x => negb (snap_id (sn_ID s) x)) (vd_snapshots db)) db)
| C_schedule v scs : a = Tenant (v_ProjectID v) -> v ∈ vd_volumes db ->
    List.filter (fun s => negb (sched_of (v_ID v) s)) scs = List.filter (fun s => negb (sched_of (v_ID v) s)) (vd_schedules db) ->
    Forall (fun s => sched_of (v_ID v) s = true -> MinKeep <= ss_Keep s <= MaxKeep) scs ->
    unique_by (fun s => Some (ss_ID s)) scs -> unique_by (fun s => Some (ss_VolumeID s)) scs ->
    change a db (set_schedules scs db)
| C_fired id at_ next : a = Ticker -> change a db (set_schedules (rewrite_rows (sched_id id) (fired at_ next) (vd_schedules db)) db).

Definition history (a : actor) : VolumeDB -> VolumeDB -> Prop := rtc (change a).
#[export] Instance history_preorder a : PreOrder (history a).
Proof. unfold history. typeclasses eauto. Qed.
End machine.

(** * Well-formed tables *)

Record vols_inv (db : VolumeDB) : Prop := {
  vi_id : unique_by (fun v => Some (v_ID v)) (vd_volumes db);
  vi_name : unique_by (fun v => Some (v_ProjectID v, v_Name v)) (vd_volumes db);
  vi_size : Forall (fun v => MinSizeGiB <= v_SizeGiB v <= MaxSizeGiB) (vd_volumes db);
  vi_placed : Forall (fun v => v_InstanceID v <> "" -> v_NodeID v <> "") (vd_volumes db);
  vi_key : Forall (fun v => v_Encrypted v = negb (is_empty (v_KeySealed v))) (vd_volumes db);
  vi_text : Forall (fun v => v_ID v <> "" /\ v_Name v <> "" /\ no_nul (v_Name v)) (vd_volumes db);
  vi_snap_id : unique_by (fun s => Some (sn_ID s)) (vd_snapshots db);
  vi_snap_name : unique_by (fun s => Some (sn_VolumeID s, sn_Name s)) (vd_snapshots db);
  vi_snap_volume : Forall (fun s => exists v, v ∈ vd_volumes db /\ v_ID v = sn_VolumeID s) (vd_snapshots db);
  vi_snap_state : Forall (fun s => sn_State s ∈ [SnapshotPending; SnapshotReady; SnapshotFailed]) (vd_snapshots db);
  vi_sched_id : unique_by (fun s => Some (ss_ID s)) (vd_schedules db);
  vi_sched_volume : unique_by (fun s => Some (ss_VolumeID s)) (vd_schedules db);
  vi_keep : Forall (fun s => MinKeep <= ss_Keep s <= MaxKeep) (vd_schedules db);
}.

(** What never changes about a volume. *)
Definition identity_of (v : Volume) :=
  (v_ID v, v_ProjectID v, v_Name v, v_BackupID v, (v_CloneFrom v, v_CloneSnap v), (v_Encrypted v, v_KeySealed v, v_KeyID v), v_CreatedAt v).

Section preservation.
Context (placed : Placement_ -> Prop).

Lemma touched_identity a v v' : same_or (touched_by placed a) v v' -> identity_of v' = identity_of v.
Proof. intros [->|H]; [done|]. by destruct H. Qed.

Lemma touched_map {K} (f : Volume -> K) a vs vs' :
  (forall v v', identity_of v' = identity_of v -> f v' = f v) ->
  Forall2 (same_or (touched_by placed a)) vs vs' -> map f vs' = map f vs.
Proof. intros Hf H. induction H as [|v v' vs vs' Hv _ IH]; [done|]. simpl. f_equal; [|done]. by eapply Hf, touched_identity. Qed.

Lemma touched_forall (P : Volume -> Prop) a vs vs' :
  (forall v v', touched_by placed a v v' -> P v -> P v') ->
  Forall2 (same_or (touched_by placed a)) vs vs' -> Forall P vs -> Forall P vs'.
Proof.
  intros Hp H. induction H as [|v v' vs vs' Hv _ IH]; [done|]. intros [H1 H2]%Forall_cons. constructor; [|auto].
  destruct Hv as [->|Hv]; [done|]. by eapply Hp.
Qed.

Lemma touched_elem a vs vs' v : Forall2 (same_or (touched_by placed a)) vs vs' -> v ∈ vs ->
  exists v', v' ∈ vs' /\ same_or (touched_by placed a) v v'.
Proof.
  intros H Hv. apply list_elem_of_lookup in Hv as [i Hi]. destruct (Forall2_lookup_l _ _ _ _ _ H Hi) as (v' & Hv' & ?).
  exists v'. split; [|done]. by eapply list_elem_of_lookup_2.
Qed.

Lemma judged_map {K} (f : Snapshot -> K) db a ss ss' : (forall st m z s, f (marked st m z s) = f s) ->
  Forall2 (fun s s' => s' = s \/ judged_snap db a s s') ss ss' -> map f ss' = map f ss.
Proof.
  intros Hf H. induction H as [|s s' ss ss' Hs _ IH]; [done|]. simpl. f_equal; [|done].
  destruct Hs as [->|(n & v & st & m & z & _ & _ & _ & _ & _ & ->)]; [done|apply Hf].
Qed.

Lemma map_keys_unique {R K} (key : R -> K) rows rows' : map key rows' = map key rows ->
  unique_by (fun r => Some (key r)) rows -> unique_by (fun r => Some (key r)) rows'.
Proof. intros E. unfold unique_by. by rewrite !omap_total, E. Qed.

Lemma elem_of_map_eq {R R' K} (f : R -> K) (g : R' -> K) rows rows' y : map f rows' = map g rows -> y ∈ rows ->
  exists x, x ∈ rows' /\ f x = g y.
Proof.
  intros E Hy. assert (H : g y ∈ map f rows') by (rewrite E; by apply list_elem_of_fmap_2).
  apply list_elem_of_fmap in H as (x & -> & Hx). by exists x.
Qed.

Lemma touched_inv a db vs : vols_inv db -> Forall2 (same_or (touched_by placed a)) (vd_volumes db) vs -> vols_inv (set_volumes vs db).
Proof.
  intros [] Ht. pose proof (fun K (f : Volume -> K) Hf => touched_map f a _ _ Hf Ht) as Hmap.
  constructor; cbn [set_volumes vd_volumes vd_snapshots vd_schedules]; try done.
  - eapply map_keys_unique; [|done]. apply Hmap. by intros v v' [= -> _ _ _ _ _ _ _ _ _].
  - eapply map_keys_unique; [|done]. apply Hmap. by intros v v' [= _ -> -> _ _ _ _ _ _ _].
  - eapply touched_forall; [|done|done]. intros v v' H ?. destruct H; simpl in *; try done. lia.
  - eapply touched_forall; [|done|done]. intros v v' H ?. by destruct H.
  - eapply touched_forall; [|done|done]. intros v v' H ?. by destruct H.
  - eapply touched_forall; [|done|done]. intros v v' H ?. by destruct H.
  - eapply Forall_impl; [exact vi_snap_volume0|]. intros s (v & Hv & Hid). destruct (touched_elem _ _ _ v Ht Hv) as (v' & Hv' & Hs).
    exists v'. split; [done|]. apply touched_identity in Hs. injection Hs as -> _ _ _ _ _ _ _ _ _. done.
Qed.

Lemma clash_unique (v : Volume) rows : existsb (volume_clash v) rows = false ->
  unique_by (fun v => Some (v_ID v)) rows -> unique_by (fun v => Some (v_ProjectID v, v_Name v)) rows ->
  unique_by (fun v => Some (v_ID v)) (rows ++ [v]) /\ unique_by (fun v => Some (v_ProjectID v, v_Name v)) (rows ++ [v]).
Proof.
  rewrite existsb_false, Forall_forall. intros Hc H1 H2. split; apply unique_by_app; try done; intros x k Hx E1 E2;
    specialize (Hc x Hx); unfold volume_clash, has_id, named in Hc; simplify_eq;
    repeat match goal with H : _ = _ :> string |- _ => rewrite H in Hc end; by rewrite !String.eqb_refl, ?orb_true_r in Hc.
Qed.

Lemma snap_clash_unique (s : Snapshot) rows : existsb (snap_clash s) rows = false ->
  unique_by (fun s => Some (sn_ID s)) rows -> unique_by (fun s => Some (sn_VolumeID s, sn_Name s)) rows ->
  unique_by (fun s => Some (sn_ID s)) (rows ++ [s]) /\ unique_by (fun s => Some (sn_VolumeID s, sn_Name s)) (rows ++ [s]).
Proof.
  rewrite existsb_false, Forall_forall. intros Hc H1 H2. split; apply unique_by_app; try done; intros x k Hx E1 E2;
    specialize (Hc x Hx); unfold snap_clash, snap_id, snap_of in Hc; simplify_eq;
    repeat match goal with H : _ = _ :> string |- _ => rewrite H in Hc end; by rewrite !String.eqb_refl, ?orb_true_r in Hc.
Qed.

Lemma change_inv a db db' : change placed a db db' -> vols_inv db -> vols_inv db'.
Proof.
  intros Hc Hi. destruct Hc; [by eapply touched_inv|..]; destruct Hi; constructor;
    cbn [set_volumes set_snapshots set_schedules vd_volumes vd_snapshots vd_schedules]; try done.
  (* create *)
  - by eapply clash_unique.
  - by eapply clash_unique.
  - by rewrite Forall_app, Forall_singleton.
  - rewrite Forall_app, Forall_singleton. split; [done|congruence].
  - by rewrite Forall_app, Forall_singleton.
  - by rewrite Forall_app, Forall_singleton.
  - eapply Forall_impl; [exact vi_snap_volume0|]. intros s (v' & ? & ?). exists v'. set_solver.
  (* remove *)
  - by apply unique_by_filter.
  - by apply unique_by_filter.
  - by apply Forall_filter_bool.
  - by apply Forall_filter_bool.
  - by apply Forall_filter_bool.
  - by apply Forall_filter_bool.
  - by apply unique_by_filter.
  - by apply unique_by_filter.
  - rewrite Forall_forall in *. intros s [Hs Hn]%elem_of_filter_bool. destruct (vi_snap_volume0 s Hs) as (v' & Hv' & Hid).
    exists v'. split; [|done]. apply elem_of_filter_bool. split; [done|]. unfold snap_of, has_id in *. by rewrite Hid.
  - by apply Forall_filter_bool.
  (* snapshot *)
  - by eapply snap_clash_unique.
  - by eapply snap_clash_unique.
  - rewrite Forall_app, Forall_singleton. split; [done|eauto].
  - rewrite Forall_app, Forall_singleton. split; [done|]. rewrite H2. set_solver.
  (* judge *)
  - eapply map_keys_unique; [|done]. by eapply judged_map.
  - eapply (map_keys_unique (fun s => (sn_VolumeID s, sn_Name s))); [|done]. by eapply judged_map.
  - rewrite Forall_forall in *. intros s Hs. destruct (elem_of_map_eq sn_VolumeID sn_VolumeID ss (vd_snapshots db) s) as (s0 & Hs0 & E).
    { symmetry. by eapply judged_map. }
    { done. }
    destruct (vi_snap_volume0 s0 Hs0) as (v & ? & ?). exists v. split; [done|congruence].
  - clear -H vi_snap_state0. induction H as [|s s' l l' Hs _ IH]; [done|]. apply Forall_cons in vi_snap_state0 as [H1 H2].
    constructor; [|auto]. destruct Hs as [->|(n & v & st & m & z & _ & _ & _ & _ & Hst & ->)]; [done|]. simpl. set_solver.
  (* forget *)
  - by apply unique_by_filter.
  - by apply unique_by_filter.
  - by apply Forall_filter_bool.
  - by apply Forall_filter_bool.
  (* schedule *)
  - rewrite Forall_forall in *. intros s Hs. destruct (sched_of (v_ID v) s) eqn:E; [by apply H2|].
    apply vi_keep0. assert (Hin : s ∈ List.filter (fun s => negb (sched_of (v_ID v) s)) scs) by (apply elem_of_filter_bool; by rewrite E).
    rewrite H1 in Hin. by apply elem_of_filter_bool in Hin as [].
  (* fired *)
  - apply unique_by_map; [|done]. intros s. by destruct (sched_id id s).
  - apply unique_by_map; [|done]. intros s. by destruct (sched_id id s).
  - apply Forall_map. eapply Forall_impl; [exact vi_keep0|]. intros s Hs. simpl. by destruct (sched_id id s).
Qed.

Lemma history_inv a db db' : history placed a db db' -> vols_inv db -> vols_inv db'.
Proof. induction 1; [done|]. intros Hi. apply IHrtc. by eapply change_inv. Qed.
End preservation.

(** * What the operations do *)

Section operations.
Context {S : Type} `{!Has VolumeDB S}.
Context (c : AEAD) (keys : option Keyring).
Context (instances : option (Instances S)) (quota : option (VolumeQuota S)) (backups : option (Backups S)).
Context (placed : Placement_ -> Prop).
Context (Hinstances : forall i ref p db, instances = Some i -> yields db (Placement i ref p) placed).
Context (Hquota : forall q p n, quota = Some q -> leaves VolumeDB (AdmitVolume q p n) /\ leaves VolumeDB (AdmitVolumeGrowth q p n)).
Context (Hbackups : forall b id p, backups = Some b -> leaves VolumeDB (Restorable b id p)).
Implicit Types db : VolumeDB.

Lemma yields_byID db id : yields db (byID (S:=S) id) (fun v => v ∈ vd_volumes db /\ v_ID v = id).
Proof.
  eapply yields_mono; [apply yields_query|]. intros v [Hv Hid]%select_one_ok. split; [done|]. by apply String.eqb_eq.
Qed.
Lemma yields_byName db p n : yields db (byName (S:=S) p n) (fun v => v ∈ vd_volumes db /\ v_ProjectID v = p).
Proof.
  eapply yields_mono; [apply yields_query|]. intros v [Hv Hid]%select_one_ok. split; [done|]. unfold named in Hid. by breflect.
Qed.
Lemma yields_resolveIn db n p : yields db (resolveIn (S:=S) n p) (fun v => v ∈ vd_volumes db /\ v_ProjectID v = p).
Proof.
  unfold resolveIn. eapply yields_bind; [apply yields_attempt, yields_byName|]. intros [v|e] Hv.
  - eapply yields_mono; [apply yields_ret|]. by intros ? ->.
  - destruct (negb _); [eapply yields_mono; [apply yields_fail|done]|].
    eapply yields_bind; [apply yields_mapped, yields_byID|]. intros v [Hin _].
    eapply yields_bind; [apply yields_lift|]. intros [] Hg. eapply yields_mono; [apply yields_ret|]. intros ? ->.
    split; [done|]. unfold guard in Hg. destruct (String.eqb_spec (v_ProjectID v) p); done.
Qed.
Lemma yields_snapshot_row db id : yields db (snapshot_row (S:=S) id) (fun s => s ∈ vd_snapshots db /\ sn_ID s = id).
Proof.
  eapply yields_mono; [apply yields_query|]. intros s [Hs Hid]%select_one_ok. split; [done|]. by apply String.eqb_eq.
Qed.
Definition owned db (id p : string) (s : Snapshot) : Prop :=
  s ∈ vd_snapshots db /\ sn_ID s = id /\ exists v, v ∈ vd_volumes db /\ v_ID v = sn_VolumeID s /\ v_ProjectID v = p.
Lemma yields_ownedSnapshot db id p : yields db (ownedSnapshot (S:=S) id p) (owned db id p).
Proof.
  unfold ownedSnapshot. eapply yields_bind; [apply yields_mapped, yields_snapshot_row|]. intros s [Hs Hid].
  eapply yields_bind; [apply yields_mapped, yields_byID|]. intros v [Hv Hvid].
  eapply yields_bind; [apply yields_lift|]. intros [] Hg. eapply yields_mono; [apply yields_ret|]. intros ? ->.
  unfold owned. split_and!; [done..|]. exists v. split_and!; try done. unfold guard in Hg. destruct (String.eqb_spec (v_ProjectID v) p); done.
Qed.
Lemma yields_idle db v a : yields db (idle instances v a) (fun _ => True).
Proof.
  unfold idle. destruct instances as [i|] eqn:E; [|eapply yields_mono; [apply yields_ret|done]].
  destruct (is_empty _); [eapply yields_mono; [apply yields_ret|done]|].
  eapply yields_bind; [by apply Hinstances|]. intros pl _. eapply yields_mono; [apply yields_lift|done].
Qed.
Lemma yields_quiet db v a : yields db (quiet instances v a) (fun _ => v_NodeID v <> "").
Proof.
  unfold quiet. eapply yields_bind; [apply yields_lift|]. intros [] Hg. eapply yields_mono; [apply yields_idle|].
  intros _ _. unfold guard in Hg. destruct (is_empty (v_NodeID v)) eqn:E; [done|]. by apply is_empty_false.
Qed.
Lemma yields_holdsIt db v : yields db (holdsIt instances v) (fun _ => True).
Proof.
  unfold holdsIt. destruct instances as [i|] eqn:E; [|eapply yields_mono; [apply yields_ret|done]].
  eapply yields_bind; [by apply yields_attempt, Hinstances|]. intros r _. eapply yields_mono; [apply yields_ret|done].
Qed.
Lemma yields_admit db p n : yields db (admit_volume quota p n) (fun _ => True).
Proof.
  unfold admit_volume. destruct quota as [q|] eqn:E; [|eapply yields_mono; [apply yields_ret|done]].
  by apply yields_leaves, Hquota.
Qed.
Lemma leaves_SealBytes plain k : leaves VolumeDB (SealBytes (S:=S) c plain k).
Proof. unfold SealBytes, Seal. auto 12 with leaves. Qed.
Lemma yields_guardFor db params : yields db (guardFor c keys backups params) (fun _ => True).
Proof.
  apply yields_leaves. unfold guardFor, mintKey. pose proof leaves_SealBytes.
  destruct backups as [b|] eqn:E; [specialize (Hbackups b (cp_BackupID params) (cp_ProjectID params) eq_refl)|]; auto 12 with leaves.
Qed.
Lemma yields_ids db prefix : yields db (ids_New (S:=S) prefix) (fun id => prefix <> "" -> id <> "").
Proof.
  unfold ids_New. eapply yields_bind; [y_head|]. intros buf _. eapply yields_mono; [y_head|]. intros id -> Hp.
  by destruct prefix.
Qed.
Hint Resolve yields_byID yields_resolveIn yields_ownedSnapshot yields_idle yields_quiet yields_holdsIt yields_admit
  yields_guardFor yields_ids : yields.

Lemma filter_rewrite {R} (p : R -> bool) (f : R -> R) l : (forall r, p (f r) = p r) ->
  List.filter (fun r => negb (p r)) (rewrite_rows p f l) = List.filter (fun r => negb (p r)) l.
Proof.
  intros Hf. unfold rewrite_rows. induction l as [|r l IH]; [done|]. simpl. destruct (p r) eqn:E; rewrite ?Hf, E; simpl; [done|by rewrite IH].
Qed.

(** ** One statement, one change *)

Section statements.
Context (a : actor) (db : VolumeDB) (Hinv : vols_inv db).

Lemma moves_update what p f : (forall v, v ∈ vd_volumes db -> p v = true -> touched_by placed a v (f v)) ->
  moves (history placed a) db (update_volumes (S:=S) what p f).
Proof.
  intros H. apply moves_sql; [typeclasses eauto|]. cbn [snd]. apply rtc_once, C_touch. unfold rewrite_rows.
  apply Forall2_fmap_r, Forall_Forall2_diag, Forall_forall. intros v Hv. unfold same_or, compose. destruct (p v) eqn:E; [right; auto|by left].
Qed.
Lemma moves_update_id what v f : v ∈ vd_volumes db -> touched_by placed a v (f v) ->
  moves (history placed a) db (update_volumes (S:=S) what (has_id (v_ID v)) f).
Proof.
  intros Hv Ht. apply moves_update. intros v' Hv' E%String.eqb_eq.
  by rewrite (unique_by_eq _ _ v' v (v_ID v) (vi_id _ Hinv) Hv' Hv) by congruence.
Qed.
Lemma moves_attach v i n at_ : v ∈ vd_volumes db -> touched_by placed a v (set_attachment i n (v_Detaching v) at_ v) ->
  moves (history placed a) db (attach_row (S:=S) (v_ID v) i n at_).
Proof.
  intros Hv Ht. apply moves_sql; [typeclasses eauto|]. unfold volumes_sql.
  pose proof (update_where_rows (fun x => has_id (v_ID v) x && is_empty (v_InstanceID x))
    (fun x => set_attachment i n (v_Detaching x) at_ x) errTaken (vd_volumes db)) as E.
  destruct (update_where _ _ _ _) as [r rows]. simpl in E. subst rows. simpl.
  apply rtc_once, C_touch, Forall2_fmap_r, Forall_Forall2_diag, Forall_forall. intros v' Hv'. unfold same_or, compose.
  destruct (_ && _) eqn:Ep; [|by left]. right. unfold has_id in Ep. breflect.
  by rewrite (unique_by_eq _ _ v' v (v_ID v) (vi_id _ Hinv) Hv' Hv) by congruence.
Qed.
Lemma moves_insert v : a = Tenant (v_ProjectID v) -> MinSizeGiB <= v_SizeGiB v <= MaxSizeGiB -> v_InstanceID v = "" ->
  v_Detaching v = false -> v_RestoreFrom v = "" -> v_Encrypted v = negb (is_empty (v_KeySealed v)) ->
  validate_Name "name" (v_Name v) = Ok tt -> v_ID v <> "" -> moves (history placed a) db (insert (S:=S) v).
Proof.
  intros Ha Hs Hi Hd Hr Hk Hn Hid. apply moves_sql; [typeclasses eauto|]. unfold insert_row.
  destruct (existsb _ _) eqn:E; simpl; [by destruct db; apply rtc_refl|].
  apply name_no_nul in Hn as [? ?]. by eapply rtc_once, C_create.
Qed.
Lemma moves_insertSnapshot s v : v ∈ vd_volumes db -> v_ID v = sn_VolumeID s -> v_NodeID v <> "" -> sn_State s = SnapshotPending ->
  (a = Tenant (v_ProjectID v) /\ sn_ScheduleID s = "" \/
   a = Ticker /\ exists sc, sc ∈ vd_schedules db /\ ss_ID sc = sn_ScheduleID s /\ ss_ProjectID sc = v_ProjectID v) ->
  moves (history placed a) db (insertSnapshot (S:=S) s).
Proof.
  intros Hv Hid Hn Hst Hw. apply moves_sql; [typeclasses eauto|]. unfold insert_row.
  destruct (existsb _ _) eqn:E; simpl; [by destruct db; apply rtc_refl|]. by eapply rtc_once, C_snapshot.
Qed.
Lemma moves_mark n id state message size : a = NodeOf n -> state ∈ [SnapshotReady; SnapshotFailed] ->
  (forall s, s ∈ vd_snapshots db -> sn_ID s = id -> exists v, v ∈ vd_volumes db /\ v_ID v = sn_VolumeID s /\ v_NodeID v = n) ->
  moves (history placed a) db (markSnapshot (S:=S) id state message size).
Proof.
  intros Ha Hst H. apply moves_sql; [typeclasses eauto|]. cbn [snd]. apply rtc_once, C_judge. unfold rewrite_rows.
  apply Forall2_fmap_r, Forall_Forall2_diag, Forall_forall. intros s Hs. unfold compose. destruct (snap_id _ _) eqn:E; [right|by left].
  apply String.eqb_eq in E. destruct (H s Hs E) as (v & Hv & Hid & Hn). exists n, v, state, message, size. done.
Qed.
Lemma moves_deleteSnapshot id : (forall s, s ∈ vd_snapshots db -> sn_ID s = id ->
    (exists v, a = Tenant (v_ProjectID v) /\ v ∈ vd_volumes db /\ v_ID v = sn_VolumeID s) \/
    (a = Ticker /\ sn_State s = SnapshotReady /\ exists sc, sc ∈ vd_schedules db /\ ss_ID sc = sn_ScheduleID s)) ->
  moves (history placed a) db (deleteSnapshot (S:=S) id).
Proof.
  intros H. apply moves_sql; [typeclasses eauto|]. unfold snapshots_sql, delete_where. destruct (existsb _ _) eqn:E; simpl.
  - apply existsb_exists in E as (s & Hs%list_elem_of_In & Hid%String.eqb_eq). subst id.
    eapply rtc_once, C_forget; [done|]. by apply H.
  - by destruct db; apply rtc_refl.
Qed.
Lemma moves_delete v : a = Tenant (v_ProjectID v) -> v ∈ vd_volumes db -> v_InstanceID v = "" ->
  moves (history placed a) db (delete_row (S:=S) (v_ID v)).
Proof.
  intros Ha Hv Hi. apply moves_sql; [typeclasses eauto|].
  pose proof (delete_where_rows (has_id (v_ID v)) errNotFound (vd_volumes db)) as E.
  destruct (delete_where _ _ _) as [[[]|e] rows]; simpl in *; [|apply rtc_refl]. subst rows. by eapply rtc_once, C_remove.
Qed.
Lemma moves_upsert v sc : a = Tenant (v_ProjectID v) -> v ∈ vd_volumes db -> ss_VolumeID sc = v_ID v -> MinKeep <= ss_Keep sc <= MaxKeep ->
  moves (history placed a) db (upsertSchedule (S:=S) sc).
Proof.
  intros Ha Hv Hid Hk. apply moves_sql; [typeclasses eauto|]. rewrite Hid. destruct (existsb _ _) eqn:E; cbn [snd].
  - apply rtc_once. eapply C_schedule; [exact Ha|exact Hv|..]; unfold rewrite_rows.
    + by apply filter_rewrite.
    + apply Forall_fmap, Forall_forall. intros s Hs. simpl. destruct (sched_of (v_ID v) s) eqn:Es; [done|]. by rewrite Es.
    + apply unique_by_map; [|apply Hinv]. intros s. by destruct (sched_of _ s).
    + apply unique_by_map; [|apply Hinv]. intros s. by destruct (sched_of _ s).
  - unfold insert_row. destruct (existsb (sched_id _) _) eqn:E2; simpl; [by destruct db; apply rtc_refl|].
    apply rtc_once. eapply C_schedule; [exact Ha|exact Hv|..].
    + rewrite List.filter_app. simpl. unfold sched_of at 2. simpl. rewrite String.eqb_refl. simpl. by rewrite app_nil_r.
    + apply Forall_app. rewrite Forall_singleton. split; [|done]. eapply Forall_impl; [apply Hinv|]. done.
    + apply unique_by_app; [apply Hinv|]. intros x k Hx [= <-] [= Ek]. rewrite existsb_false, Forall_forall in E2.
      specialize (E2 x Hx). unfold sched_id in E2. by rewrite Ek, String.eqb_refl in E2.
    + apply unique_by_app; [apply Hinv|]. intros x k Hx [= <-] [= Ek]. rewrite existsb_false, Forall_forall in E.
      specialize (E x Hx). unfold sched_of in E. by rewrite Ek, String.eqb_refl in E.
Qed.
Lemma moves_deleteSchedule v : a = Tenant (v_ProjectID v) -> v ∈ vd_volumes db ->
  moves (history placed a) db (deleteSchedule (S:=S) (v_ID v)).
Proof.
  intros Ha Hv. apply moves_sql; [typeclasses eauto|]. cbn [snd]. apply rtc_once. eapply C_schedule; [exact Ha|exact Hv|..].
  - induction (vd_schedules db) as [|s l IH]; [done|]. simpl. destruct (sched_of (v_ID v) s) eqn:Es; simpl; [done|]. rewrite Es. simpl. by rewrite IH.
  - apply Forall_filter_bool. eapply Forall_impl; [apply Hinv|]. done.
  - apply unique_by_filter, Hinv.
  - apply unique_by_filter, Hinv.
Qed.
Lemma moves_fired id at_ next : a = Ticker -> moves (history placed a) db (markScheduleFired (S:=S) id at_ next).
Proof. intros Ha. apply moves_sql; [typeclasses eauto|]. cbn [snd]. by apply rtc_once, C_fired. Qed.
End statements.

(** ** The operations *)

Section tenant.
Context (p : string) (db : VolumeDB) (Hinv : vols_inv db).
Abbreviation R := (history placed (Tenant p)).

Lemma create_moves params : cp_ProjectID params = p -> moves R db (create c keys quota backups params).
Proof.
  intros Hp. unfold create. reads. apply moves_last; [typeclasses eauto|]. facts.
  apply moves_insert; simpl; try done; [by rewrite Hp|breflect; lia|by destruct a|auto].
Qed.

Lemma clone_moves id name : moves R db (clone quota id p name).
Proof.
  unfold clone. reads. facts. apply moves_last; [typeclasses eauto|].
  apply moves_insert; simpl; try done; try (by destruct a); [|auto]. pose proof (vi_size _ Hinv) as Hs. rewrite Forall_forall in Hs. by apply Hs.
Qed.

Lemma attach_moves n ref : moves R db (attach instances n p ref).
Proof.
  unfold attach. destruct instances as [i|] eqn:E; reads.
  rename a0 into pl. facts.
  destruct (String.eqb_spec (v_InstanceID a) (pl_InstanceID pl)) as [Ei|Ei].
  - destruct (v_Detaching a); [|m_step]. reads. apply moves_last; [typeclasses eauto|].
    apply moves_update_id; [done|done|by apply T_mark].
  - reads. apply moves_last; [typeclasses eauto|]. facts. apply moves_attach; [done|done|]. breflect.
    apply (T_attach placed p pl); try done; try (by apply is_empty_spec); try (by apply is_empty_false).
    destruct (String.eqb_spec (v_NodeID a) (pl_NodeID pl)); [by right|]. left.
    apply is_empty_spec. by destruct (is_empty (v_NodeID a)).
Qed.

Lemma detach_moves n : moves R db (detach instances n p).
Proof.
  unfold detach. reads. facts. destruct (is_empty _); [m_step|]. reads.
  match goal with b : bool |- _ => destruct b end; reads; (apply moves_last; [typeclasses eauto|]);
    apply moves_update_id; try done; [by apply T_mark|by apply T_let_go].
Qed.

Lemma remove_moves n : moves R db (remove n p).
Proof.
  unfold remove. reads. facts. apply moves_delete; try done; [congruence|]. apply is_empty_spec. by breflect.
Qed.

Lemma snapshotWithSchedule_moves a n name sid :
  (a = Tenant p /\ sid = "" \/ a = Ticker /\ exists sc, sc ∈ vd_schedules db /\ ss_ID sc = sid /\ ss_ProjectID sc = p) ->
  moves (history placed a) db (snapshotWithSchedule instances n p name sid).
Proof.
  intros Ha. unfold snapshotWithSchedule. reads. facts. apply moves_last; [typeclasses eauto|].
  eapply moves_insertSnapshot; simpl; try done. subst p. exact Ha.
Qed.

Lemma removeSnapshot_moves id : moves R db (removeSnapshot id p).
Proof.
  unfold removeSnapshot. reads. destruct H as (Hs & <- & v & Hv & Hid & <-).
  apply moves_deleteSnapshot; [done|]. intros s Hs' E. left. exists v. split_and!; [done..|].
  assert (s = a) as ->; [|done]. by apply (unique_by_eq (fun s => Some (sn_ID s)) (vd_snapshots db) s a (sn_ID s) (vi_snap_id _ Hinv) Hs' Hs eq_refl); congruence.
Qed.

Lemma restore_moves id : moves R db (restore instances id p).
Proof.
  unfold restore. reads. facts. apply moves_last; [typeclasses eauto|]. destruct H as (_ & _ & v & Hv & Hid & <-).
  apply moves_update_id; [done|done|]. apply T_restore; [|done].
  by rewrite (unique_by_eq _ _ v a1 (v_ID v) (vi_id _ Hinv) Hv H1) by congruence.
Qed.

Lemma resize_moves n size : moves R db (resize instances quota n p size).
Proof.
  unfold resize. reads. facts. destruct (_ =? _) eqn:E; [m_step|]. reads. facts.
  destruct quota as [q|] eqn:Eq.
  - eapply moves_bind; [typeclasses eauto|by apply yields_leaves, Hquota|]. intros [] _. reads.
    apply moves_last; [typeclasses eauto|]. apply moves_update_id; [done|done|]. apply T_grow; [done|]. breflect. lia.
  - reads. apply moves_last; [typeclasses eauto|]. apply moves_update_id; [done|done|]. apply T_grow; [done|]. breflect. lia.
Qed.

Lemma setSchedule_moves params : sp_ProjectID params = p -> moves R db (setSchedule params).
Proof.
  intros Hp. unfold setSchedule. reads. facts.
  eapply moves_bind; [typeclasses eauto|apply yields_attempt, yields_query|]. intros existing _.
  eapply (moves_bind _ _ _ _ (fun sc => ss_VolumeID sc = v_ID a2 /\ ss_Keep sc = sp_Keep params)).
  { destruct existing as [old|e]; [|destruct (errors_Is _ _)]; (eapply yields_mono; [y_head|]); [by intros ? ->..|done]. }
  intros sc [Hv Hk]. apply moves_last; [typeclasses eauto|]. eapply moves_upsert; try done; [congruence|]. breflect. lia.
Qed.

Lemma clearSchedule_moves n : moves R db (clearSchedule n p).
Proof. unfold clearSchedule. reads. facts. apply moves_deleteSchedule; [done|congruence|done]. Qed.
End tenant.

(** *** A node's report *)

(** What a node's changes leave: whose snapshots there are, and where the volumes live. *)
Definition homes (db db' : VolumeDB) : Prop :=
  map (fun s => (sn_ID s, sn_VolumeID s)) (vd_snapshots db') = map (fun s => (sn_ID s, sn_VolumeID s)) (vd_snapshots db) /\
  map (fun v => (v_ID v, v_NodeID v)) (vd_volumes db') = map (fun v => (v_ID v, v_NodeID v)) (vd_volumes db).

Lemma node_homes n db db' : history placed (NodeOf n) db db' -> homes db db'.
Proof.
  induction 1 as [|db db1 db2 Hc _ [IH1 IH2]]; [done|]. unfold homes in *. rewrite IH1, IH2.
  inversion Hc; subst; try done; simpl; split; try done.
  - clear -H. induction H as [|v v' vs vs' Hv _ IH]; [done|]. simpl. f_equal; [|done].
    destruct Hv as [->|Hv]; [done|]. by inversion Hv; subst.
  - match goal with H : _ \/ _ |- _ => by destruct H as [[]|[]] end.
  - by eapply judged_map.
  - match goal with H : _ \/ _ |- _ => by destruct H as [(? & ? & _)|[]] end.
Qed.

Section node.
Context (n : string).

Lemma judge_moves db snap v present err : v_NodeID v = n ->
  (forall s, s ∈ vd_snapshots db -> sn_ID s = sn_ID snap -> exists v, v ∈ vd_volumes db /\ v_ID v = sn_VolumeID s /\ v_NodeID v = n) ->
  moves (history placed (NodeOf n)) db (judge_snapshot (S:=S) present err snap).
Proof.
  intros Hn H. unfold judge_snapshot. destruct (_ !! _); [|destruct (negb _); [|m_step]];
    apply moves_mapped, (moves_mark _ _ n); try done; set_solver.
Qed.

Lemma report_one_moves db reported : vols_inv db -> moves (history placed (NodeOf n)) db (report_one (S:=S) n reported).
Proof.
  intros Hinv. assert (Hne : forall v, v ∈ vd_volumes db -> v_ID v <> "").
  { pose proof (vi_text _ Hinv) as H. rewrite Forall_forall in H. intros v Hv. by apply H. }
  unfold report_one. eapply moves_bind; [typeclasses eauto|apply yields_attempt, yields_byID|].
  intros [v|e] Hv; [|m_step]. destruct Hv as [Hv _]. destruct (String.eqb_spec (v_NodeID v) n) as [Hn|Hn]; cbn [negb]; [|m_step].
  apply moves_then; [typeclasses eauto| |].
  { destruct (_ && _) eqn:E; [|m_step]. reads. apply moves_update_id; [done|done|]. apply T_detached; [done|]. by breflect. }
  intros db1 [] H1. pose proof (history_inv placed _ _ _ H1 Hinv) as Hinv1.
  destruct (node_homes _ _ _ H1) as [_ Hh1].
  assert (Hv1 : exists v1, v1 ∈ vd_volumes db1 /\ v_ID v1 = v_ID v /\ v_NodeID v1 = n).
  { destruct (elem_of_map_eq _ _ _ _ v Hh1 Hv) as (v1 & ? & [= E1 E2]). exists v1. split_and!; [done|congruence..]. }
  eapply moves_bind; [typeclasses eauto|apply yields_mapped, yields_query|]. intros known [= Hk].
  assert (Hkn : forall s, s ∈ known -> s ∈ vd_snapshots db1 /\ (is_empty (v_ID v) = false -> sn_VolumeID s = v_ID v)).
  { intros s Hs. subst known. destruct (is_empty (v_ID v)) eqn:Ei; rewrite sliceStable_perm in Hs; [done|].
    apply elem_of_filter_bool in Hs as [? E%String.eqb_eq]. done. }
  apply moves_then; [typeclasses eauto| |].
  { apply moves_foldM; [typeclasses eauto|]. intros s [] db2 Hs H2. destruct (Hkn s Hs) as [Hs1 Hsv].
    destruct (node_homes _ _ _ H2) as [Hh2 Hh2']. apply (judge_moves db2 s v); [done|]. intros s2 Hs2 Hid.
    destruct (elem_of_map_eq _ _ _ _ s2 (eq_sym Hh2) Hs2) as (s1 & Hs1' & [= E1 E2]).
    assert (s1 = s) as -> by (by apply (unique_by_eq _ _ s1 s (sn_ID s) (vi_snap_id _ Hinv1)); congruence).
    destruct Hv1 as (v1 & Hv1 & Hid1 & Hn1). destruct (elem_of_map_eq _ _ _ _ v1 Hh2' Hv1) as (v2 & Hv2 & [= E3 E4]).
    exists v2. split_and!; [done| |congruence]. rewrite E3, Hid1, <- E2. symmetry. apply Hsv, is_empty_false. by apply Hne. }
  intros db2 [] H2. destruct (_ && _); [|m_step]. reads.
  destruct (node_homes _ _ _ H2) as [_ Hh2]. destruct Hv1 as (v1 & Hv1 & Hid1 & Hn1).
  destruct (elem_of_map_eq _ _ _ _ v1 Hh2 Hv1) as (v2 & Hv2 & [= E3 E4]). rewrite <- Hid1, <- E3.
  apply moves_update_id; [by eapply history_inv|done|]. by apply T_restored; congruence.
Qed.

Lemma report_moves db reports : vols_inv db -> moves (history placed (NodeOf n)) db (report (S:=S) n reports).
Proof.
  intros Hinv. apply moves_foldM; [typeclasses eauto|]. intros reported [] db' _ H. apply report_one_moves. by eapply history_inv.
Qed.
End node.

Lemma release_moves i db : moves (history placed (Deletion i)) db (releaseInstance (S:=S) i).
Proof.
  unfold releaseInstance. reads. apply moves_update. intros v _ E%String.eqb_eq. by apply T_released.
Qed.

(** *** The ticker *)

(** What the ticker leaves of the schedules. *)
Definition same_schedules (db db' : VolumeDB) : Prop :=
  map (fun s => (ss_ID s, ss_ProjectID s)) (vd_schedules db') = map (fun s => (ss_ID s, ss_ProjectID s)) (vd_schedules db).

Lemma ticker_schedules db db' : history placed Ticker db db' -> same_schedules db db'.
Proof.
  induction 1 as [|db db1 db2 Hc _ IH]; [done|]. unfold same_schedules in *. rewrite IH.
  inversion Hc; subst; try done; simpl.
  unfold rewrite_rows. rewrite map_map. apply map_ext. intros s. by destruct (sched_id id s).
Qed.

Definition known (sc : Schedule) (db : VolumeDB) : Prop :=
  exists sc', sc' ∈ vd_schedules db /\ ss_ID sc' = ss_ID sc /\ ss_ProjectID sc' = ss_ProjectID sc.
Lemma ticker_known db db' sc : history placed Ticker db db' -> known sc db -> known sc db'.
Proof.
  intros H (sc1 & Hs & E3 & E4). destruct (elem_of_map_eq _ _ _ _ sc1 (ticker_schedules _ _ H) Hs) as (sc' & ? & [= E1 E2]).
  exists sc'. split_and!; [done|congruence..].
Qed.

Lemma fire_moves db sc at_ : vols_inv db -> known sc db -> moves (history placed Ticker) db (fire instances sc at_).
Proof.
  intros Hinv Hsc. unfold fire. apply moves_then; [typeclasses eauto|by apply moves_fired|]. intros db1 [] H1.
  destruct (ticker_known _ _ _ H1 Hsc) as (sc' & Hsc' & E1 & E2).
  eapply moves_bind; [typeclasses eauto|apply yields_query|]. intros waiting _. destruct (_ <? _); [m_step|].
  apply moves_then; [typeclasses eauto| |intros; m_step]. apply moves_attempt.
  apply snapshotWithSchedule_moves; [by eapply history_inv|]. right. split; [done|]. by exists sc'.
Qed.

(** A step of the pruning: ready snapshots of the schedule go, nothing else changes. *)
Definition pruned (sid : string) (db db' : VolumeDB) : Prop :=
  history placed Ticker db db' /\ (forall s, s ∈ vd_snapshots db' -> s ∈ vd_snapshots db) /\ vd_schedules db' = vd_schedules db.
Instance pruned_preorder sid : PreOrder (pruned sid).
Proof.
  split; [done|]. intros x y z (H1 & H2 & H3) (H4 & H5 & H6). split_and!; [by etrans|auto|congruence].
Qed.

Lemma retain_moves db sc : vols_inv db -> known sc db -> moves (history placed Ticker) db (retain (S:=S) sc).
Proof.
  intros Hinv (sc' & Hsc & Eid & _). unfold retain. eapply moves_bind; [typeclasses eauto|apply yields_query|]. intros made [= Hm].
  destruct (_ <=? _); [m_step|]. set (doomed := drop _ _).
  assert (Hd : forall s, s ∈ doomed -> s ∈ vd_snapshots db /\ sn_State s = SnapshotReady /\ sn_ScheduleID s = ss_ID sc).
  { intros s Hs. assert (Hin : s ∈ List.filter (fun snap => String.eqb (sn_State snap) SnapshotReady) made).
    { eapply elem_of_submseteq; [exact Hs|]. apply sublist_submseteq, sublist_drop. }
    apply elem_of_filter_bool in Hin as [Hin Hr%String.eqb_eq]. subst made. rewrite sliceStable_perm in Hin.
    apply elem_of_filter_bool in Hin as [? ?%String.eqb_eq]. done. }
  apply (moves_mono (pruned (ss_ID sc))); [by intros x []|].
  apply moves_foldM; [typeclasses eauto|]. intros s k db1 Hs (H1 & H2 & H3).
  destruct (Hd s Hs) as (Hs1 & Hr & Hi).
  apply moves_then; [typeclasses eauto| |intros; apply moves_ret; typeclasses eauto].
  intros env w Hw. eapply wp_mono; [|apply wp_and; [apply (moves_deleteSnapshot Ticker db1 ltac:(by eapply history_inv) (sn_ID s)); [|done]|]].
  - intros r w' [Ha Hb]. split; [exact Ha|]. exact Hb.
  - intros s' Hs' E. right. assert (s' = s) as ->.
    { apply (unique_by_eq (fun s => Some (sn_ID s)) (vd_snapshots db) s' s (sn_ID s) (vi_snap_id _ Hinv)); auto; congruence. }
    split_and!; [done..|]. exists sc'. rewrite H3. split; [done|congruence].
  - unfold deleteSnapshot, snapshots_sql. apply wp_write; intros w' Hw'; rewrite Hw'; [by rewrite Hw|]. rewrite Hw.
    unfold delete_where. destruct (existsb _ _); simpl; split; try done. by intros x [Hx _]%elem_of_filter_bool.
Qed.

Lemma sweep_moves db : vols_inv db -> moves (history placed Ticker) db (sweep instances).
Proof.
  intros Hinv. unfold sweep. eapply moves_bind; [typeclasses eauto|y_head|]. intros at_ _.
  eapply moves_bind; [typeclasses eauto|apply yields_query|]. intros due [= Hd].
  assert (Hdue : forall sc, sc ∈ due -> sc ∈ vd_schedules db).
  { intros sc Hs. subst due. rewrite sliceStable_perm in Hs. by apply elem_of_filter_bool in Hs as []. }
  clear Hd. apply moves_foldM; [typeclasses eauto|]. intros sc acc db1 Hs H1.
  assert (Hk : known sc db1) by (eapply ticker_known; [exact H1|]; exists sc; auto).
  pose proof (history_inv placed _ _ _ H1 Hinv) as Hinv1.
  apply moves_then; [typeclasses eauto|by apply fire_moves|]. intros db2 fired H2.
  apply moves_then; [typeclasses eauto| |intros; m_step].
  apply retain_moves; [by eapply history_inv|by eapply ticker_known].
Qed.

(** *** Every request *)

Definition actor_of (r : request) : actor :=
  match r with
  | ReqCreate sc _ | ReqList sc _ _ | ReqGet sc _ | ReqAttach sc _ _ | ReqDetach sc _ | ReqDelete sc _ | ReqSnapshot sc _ _
  | ReqListSnapshots sc _ _ _ | ReqDeleteSnapshot sc _ | ReqClone sc _ _ | ReqRestore sc _ | ReqResize sc _ _
  | ReqSetSchedule sc _ _ | ReqClearSchedule sc _ | ReqListSchedules sc => Tenant (sc_ProjectID sc)
  | ReqListForNode n | ReqNodeKey n _ | ReqReport n _ => NodeOf n
  | ReqRelease i => Deletion i
  | ReqSweep => Ticker
  end.

Lemma yields_reads db what {A} (q : VolumeDB -> outcome A) : yields db (query (S:=S) what q) (fun _ => True).
Proof. eapply yields_mono; [apply yields_query|done]. Qed.

Lemma serve_moves db r : vols_inv db -> moves (history placed (actor_of r)) db (serve c keys instances quota backups r).
Proof.
  intros Hinv. destruct r; cbn [actor_of serve];
    unfold handle_create, handle_list, handle_get, handle_attach, handle_detach, handle_delete, handle_listForNode, handle_snapshot,
      handle_listSnapshots, handle_deleteSnapshot, handle_clone, handle_restore, handle_report, handle_nodeKey, handle_resize,
      handle_setSchedule, handle_clearSchedule, handle_listSchedules, noted, Write, WriteHeader;
    try (eapply moves_bind; [typeclasses eauto|apply yields_lift|]; intros body _).
  all: try (apply moves_then; [typeclasses eauto| |intros; apply moves_ret; typeclasses eauto]; first
    [ by apply create_moves | by apply clone_moves | by apply attach_moves | by apply detach_moves | by apply remove_moves
    | by apply snapshotWithSchedule_moves; auto | by apply removeSnapshot_moves | by apply restore_moves | by apply resize_moves
    | by apply setSchedule_moves | by apply clearSchedule_moves | by apply report_moves | by apply release_moves | by apply sweep_moves]).
  all: eapply (moves_yields _ _ _ (fun _ => True)), yields_leaves.
  all: unfold pageIn, pageIn_rows, volumes_q, resolveIn, byName, byID, snapshots, snapshots_rows, snapshots_q, snapshotsPageIn,
      snapshotsPage_rows, schedulesIn, schedulesIn_rows, schedules_q, onNode, onNode_rows, keyForNode, resolveIn, byName, byID, volumes_q.
  all: auto 12 with leaves.
Qed.
End operations.

(** * Custody

    What a request may do to a volume, all its changes taken together. *)
Section custody.
Context (placed : Placement_ -> Prop).

Record custody (a : actor) (v v' : Volume) : Prop := {
  cu_identity : identity_of v' = identity_of v;
  cu_size : v_SizeGiB v <= v_SizeGiB v';
  cu_node : v_NodeID v' = v_NodeID v \/ (v_NodeID v = "" /\ a = Tenant (v_ProjectID v));
  cu_holder : v_InstanceID v' = v_InstanceID v \/
    (v_InstanceID v' = "" /\ (a = Tenant (v_ProjectID v) \/ a = NodeOf (v_NodeID v) /\ v_Detaching v = true \/ a = Deletion (v_InstanceID v))) \/
    (a = Tenant (v_ProjectID v) /\ exists pl, placed pl /\ pl_InstanceID pl = v_InstanceID v' /\ pl_ProjectID pl = v_ProjectID v /\
       pl_NodeID pl = v_NodeID v' /\ pl_NodeID pl <> "" /\ pl_Isolation pl = "vm");
  cu_mark : v_Detaching v' = true -> v_Detaching v = true \/ a = Tenant (v_ProjectID v);
}.

Lemma custody_refl a v : custody a v v.
Proof. constructor; auto; lia. Qed.

Lemma identity_fields v v' : identity_of v' = identity_of v -> v_ID v' = v_ID v /\ v_ProjectID v' = v_ProjectID v.
Proof. by intros [= -> -> _ _ _ _ _ _ _ _]. Qed.

Lemma custody_trans a v1 v2 v3 : custody a v1 v2 -> custody a v2 v3 -> custody a v1 v3.
Proof.
  intros [I1 S1 N1 H1 M1] [I2 S2 N2 H2 M2]. destruct (identity_fields _ _ I1) as [_ P]. rewrite P in *.
  constructor; [congruence|lia| | |].
  - destruct N1 as [N1|N1]; [|by right]. rewrite N1 in N2. destruct N2 as [N2|N2]; [by left|by right].
  - destruct H2 as [H2|[[H2 H3]|H2]]; [|right; left|right; right; exact H2].
    + rewrite H2. destruct H1 as [H1|[H1|(Ha & pl & ? & ? & ? & E & ? & ?)]]; [by left|by right; left|].
      right; right. split; [done|]. exists pl. split_and!; try done. destruct N2 as [N2|[N2 _]]; congruence.
    + split; [done|]. destruct H3 as [H3|[[H3 H4]|H3]]; [by left| |].
      * destruct (M1 H4) as [Hd|Hd]; [|by left]. destruct N1 as [N1|[_ N1]]; [|by left]. right; left. split; [congruence|done].
      * destruct H1 as [H1|[[_ H1]|[H1 _]]]; [right; right; congruence|exact H1|by left].
  - intros H. destruct (M2 H) as [Hd|Hd]; auto.
Qed.

Lemma touched_custody a v v' : touched_by placed a v v' -> custody a v v'.
Proof.
  intros H. destruct H; constructor; simpl; try lia; try (by left); try (by auto); try done.
  all: subst; try (by auto).
  - destruct H5 as [H5|H5]; [by right|by left].
  - right; right. split; [done|]. by exists pl.
  - right; left. auto.
  - right; left. auto.
Qed.

(** A volume after a history: in custody all the way, or removed by its tenant. *)
Lemma history_custody a db db' v : history placed a db db' -> vols_inv db -> v ∈ vd_volumes db ->
  (exists v', v' ∈ vd_volumes db' /\ custody a v v') \/ a = Tenant (v_ProjectID v).
Proof.
  intros H. revert v. induction H as [db|db db1 db2 Hc _ IH]; intros v Hinv Hv; [left; exists v; split; [done|apply custody_refl]|].
  assert (Hs : (exists v1, v1 ∈ vd_volumes db1 /\ custody a v v1) \/ a = Tenant (v_ProjectID v)).
  { destruct Hc; cbn [set_volumes set_snapshots set_schedules vd_volumes] in *;
      try (left; exists v; split; [set_solver|apply custody_refl]).
    - destruct (touched_elem _ _ _ _ v H Hv) as (v' & Hv' & Hs). left. exists v'. split; [done|].
      destruct Hs as [->|Hs]; [apply custody_refl|by apply touched_custody].
    - destruct (has_id (v_ID v0) v) eqn:E.
      + right. apply String.eqb_eq in E.
        assert (v = v0) as -> by (apply (unique_by_eq (fun v => Some (v_ID v)) (vd_volumes db) v v0 (v_ID v) (vi_id _ Hinv)); congruence).
        congruence.
      + left. exists v. split; [apply elem_of_filter_bool; by rewrite E|apply custody_refl]. }
  destruct Hs as [(v1 & Hv1 & Hs)|Hs]; [|by right].
  destruct (IH v1 (change_inv _ _ _ _ Hc Hinv) Hv1) as [(v2 & Hv2 & Hs2)|Ha].
  - left. exists v2. split; [done|]. by eapply custody_trans.
  - right. destruct (identity_fields _ _ (cu_identity _ _ _ Hs)) as [_ <-]. done.
Qed.
End custody.

(** * Tenants apart *)

(** What belongs to other projects than [p]. *)
Definition others (p : string) (db : VolumeDB) :=
  let vs := List.filter (fun v => negb (in_project p v)) (vd_volumes db) in
  let mine id := negb (existsb (has_id id) vs) in
  (vs, List.filter (fun s => negb (mine (sn_VolumeID s))) (vd_snapshots db),
   List.filter (fun s => negb (mine (ss_VolumeID s))) (vd_schedules db)).

Lemma filter_touched placed p vs vs' : Forall2 (same_or (touched_by placed (Tenant p))) vs vs' ->
  List.filter (fun v => negb (in_project p v)) vs' = List.filter (fun v => negb (in_project p v)) vs.
Proof.
  intros H. induction H as [|v v' vs vs' Hv _ IH]; [done|]. simpl. rewrite IH.
  destruct Hv as [->|Hv]; [done|].
  assert (Hp : v_ProjectID v = p) by (by inversion Hv). pose proof (touched_custody placed _ _ _ Hv) as Hc.
  destruct (identity_fields _ _ (cu_identity _ _ _ _ Hc)) as [_ E].
  by replace (in_project p v') with true; [replace (in_project p v) with true|]; [|unfold in_project; by rewrite ?E, Hp, String.eqb_refl..].
Qed.

Lemma filter_filter_none {A} (p q : A -> bool) l : (forall x, x ∈ l -> p x = true -> q x = true) ->
  List.filter p (List.filter q l) = List.filter p l.
Proof.
  induction l as [|x l IH]; [done|]. intros H. simpl. destruct (q x) eqn:Eq; simpl; [by rewrite IH by set_solver|].
  destruct (p x) eqn:Ep; [rewrite H in Eq by set_solver; done|]. apply IH. set_solver.
Qed.

Lemma filter_snoc_false {A} (p : A -> bool) l x : p x = false -> List.filter p (l ++ [x]) = List.filter p l.
Proof. intros H. rewrite List.filter_app. simpl. by rewrite H, app_nil_r. Qed.

Section apart.
Context (placed : Placement_ -> Prop) (p : string) (db : VolumeDB) (Hinv : vols_inv db).
Let foreign := List.filter (fun v => negb (in_project p v)) (vd_volumes db).

(** No volume of another project has the id of one of [p]'s. *)
Lemma own_id v : v ∈ vd_volumes db -> v_ProjectID v = p -> existsb (has_id (v_ID v)) foreign = false.
Proof.
  intros Hv Hp. apply existsb_false, Forall_forall. intros x [Hx Hn]%elem_of_filter_bool. unfold has_id.
  apply String.eqb_neq. intros E. assert (x = v) as -> by (apply (unique_by_eq (fun v => Some (v_ID v)) (vd_volumes db) x v (v_ID v) (vi_id _ Hinv)); congruence).
  unfold in_project in Hn. by rewrite Hp, String.eqb_refl in Hn.
Qed.

Lemma change_others db' : change placed (Tenant p) db db' -> others p db' = others p db.
Proof.
  intros Hc. unfold others. destruct Hc; cbn [set_volumes set_snapshots set_schedules vd_volumes vd_snapshots vd_schedules];
    fold foreign; try discriminate.
  - by rewrite (filter_touched placed p (vd_volumes db) vs H).
  - injection H as E. subst p0. rewrite filter_snoc_false; [done|]. unfold in_project. by rewrite H0, String.eqb_refl.
  - injection H as E. subst p0. rewrite filter_filter_none.
    2:{ intros x Hx Hn. apply negb_true_iff. pose proof (own_id v H0 H1) as Ho.
        rewrite existsb_false, Forall_forall in Ho. apply Ho. by apply elem_of_filter_bool. }
    fold foreign. f_equal. f_equal. apply filter_filter_none. intros s Hs Hm. unfold snap_of.
    destruct (String.eqb_spec (sn_VolumeID s) (v_ID v)) as [E|]; [|done]. by rewrite E, own_id in Hm.
  - destruct H4 as [[[= E] _]|[? _]]; [|done]. rewrite filter_snoc_false; [done|]. by rewrite <- H0, own_id.
  - f_equal. f_equal. induction H as [|s s' l l' Hs _ IH]; [done|]. simpl.
    destruct Hs as [->|(n & v & st & m & z & ? & _)]; [|done]. by rewrite IH.
  - destruct H0 as [(v & [= E] & Hv & Hid)|[? _]]; [|done]. f_equal. f_equal. apply filter_filter_none. intros x Hx Hm.
    apply negb_true_iff. unfold snap_id. apply String.eqb_neq. intros Ex.
    assert (x = s) as -> by (apply (unique_by_eq (fun s => Some (sn_ID s)) (vd_snapshots db) x s (sn_ID s) (vi_snap_id _ Hinv)); congruence).
    by rewrite <- Hid, own_id in Hm.
  - injection H as E. f_equal.
    assert (Hf : forall l, List.filter (fun s => negb (negb (existsb (has_id (ss_VolumeID s)) foreign))) l =
      List.filter (fun s => negb (negb (existsb (has_id (ss_VolumeID s)) foreign))) (List.filter (fun s => negb (sched_of (v_ID v) s)) l)).
    { intros l. symmetry. apply filter_filter_none. intros s Hs Hm. unfold sched_of.
      destruct (String.eqb_spec (ss_VolumeID s) (v_ID v)) as [Es|]; [|done]. by rewrite Es, own_id in Hm. }
    by rewrite Hf, H1, <- Hf.
Qed.
End apart.

Lemma history_others placed p db db' : history placed (Tenant p) db db' -> vols_inv db -> others p db' = others p db.
Proof.
  induction 1 as [|db db1 db2 Hc _ IH]; [done|]. intros Hinv. rewrite IH by (by eapply change_inv). by eapply change_others.
Qed.

(** * What a tenant is shown *)

Definition shown_to (p : string) (db : VolumeDB) (b : body) : Prop :=
  let own v := v ∈ vd_volumes db /\ v_ProjectID v = p in
  let own_snap (o : snapshotResponse) := exists s v, s ∈ vd_snapshots db /\ own v /\ v_ID v = sn_VolumeID s /\ o = toSnapshotResponse s in
  match b with
  | BVolume o => exists v, own v /\ o = toResponse v
  | BVolumes os _ => Forall (fun o => exists v, own v /\ o = toResponse v) os
  | BSnapshot o => own_snap o
  | BSnapshots os _ => Forall own_snap os
  | BSchedule o => exists s, s ∈ vd_schedules db /\ ss_ProjectID s = p /\ o = toScheduleResponse s
  | BSchedules os => Forall (fun o => exists s, s ∈ vd_schedules db /\ ss_ProjectID s = p /\ o = toScheduleResponse s) os
  | BKey _ _ => False
  end.

(** The requests that only look, and answer from the tables. *)
Definition looks (r : request) : bool :=
  match r with ReqList _ _ _ | ReqGet _ _ | ReqListSnapshots _ _ _ _ | ReqListSchedules _ => true | _ => false end.

Section looking.
Context {S : Type} `{!Has VolumeDB S}.

Lemma page_rows_elem {R} (order id : R -> string) (p : R -> bool) window rows x :
  x ∈ page_rows order id p window rows -> x ∈ rows /\ p x = true.
Proof.
  unfold page_rows. intros Hx. assert (H : x ∈ listed order id (fun i => p i && behind order id (win_After window) i) rows).
  { eapply elem_of_submseteq; [exact Hx|]. apply sublist_submseteq, sublist_take. }
  unfold listed in H. rewrite sliceStable_perm in H. apply elem_of_filter_bool in H as [? H]. by apply andb_true_iff in H as [].
Qed.

Definition answers (P : body -> Prop) (r : Reply body) : Prop := exists b, rp_Body r = Some b /\ P b.

Lemma looks_own c keys instances quota backups db r p : vols_inv db -> looks r = true -> actor_of r = Tenant p ->
  yields db (serve (S:=S) c keys instances quota backups r) (answers (shown_to p db)).
Proof.
  intros Hinv Hl Ha. destruct r; try discriminate; injection Ha as <-; cbn [serve];
    unfold handle_list, handle_get, handle_listSnapshots, handle_listSchedules, Write.
  - eapply yields_bind; [y_head|]. intros window _. eapply yields_bind; [apply yields_mapped, yields_query|]. intros vs [= <-].
    eapply yields_mono; [y_head|]. intros o ->. eexists. split; [done|]. simpl. apply Forall_fmap, Forall_forall.
    intros v [Hv Hp]%page_rows_elem. exists v. split; [|done]. split; [done|]. by apply String.eqb_eq.
  - eapply yields_bind; [apply yields_resolveIn|]. intros v Hv. eapply yields_mono; [y_head|]. intros o ->.
    eexists. split; [done|]. by exists v.
  - destruct (negb (is_empty id)) eqn:E.
    + eapply yields_bind; [apply yields_resolveIn|]. intros v [Hv Hp].
      eapply yields_bind; [apply yields_mapped, yields_query|]. intros ss [= <-]. eapply yields_mono; [y_head|]. intros o ->.
      eexists. split; [done|]. simpl. apply Forall_fmap, Forall_forall. intros s Hs.
      pose proof (vi_text _ Hinv) as Ht. rewrite Forall_forall in Ht. destruct (Ht v Hv) as [Hne _].
      rewrite (proj2 (is_empty_false _) Hne), sliceStable_perm in Hs. apply elem_of_filter_bool in Hs as [Hs Hid%String.eqb_eq].
      exists s, v. auto.
    + eapply yields_bind; [y_head|]. intros window _. eapply yields_bind; [apply yields_mapped, yields_query|]. intros ss [= <-].
      eapply yields_mono; [y_head|]. intros o ->. eexists. split; [done|]. simpl. apply Forall_fmap, Forall_forall.
      intros s [Hs Hp]%page_rows_elem. apply existsb_exists in Hp as (v & Hv%list_elem_of_In & Hp). unfold has_id, in_project in Hp.
      breflect. exists s, v. auto.
  - eapply yields_bind; [apply yields_mapped, yields_query|]. intros ss [= <-]. eapply yields_mono; [y_head|]. intros o ->.
    eexists. split; [done|]. simpl. apply Forall_fmap, Forall_forall. intros s Hs. rewrite sliceStable_perm in Hs.
    apply elem_of_filter_bool in Hs as [Hs Hp%String.eqb_eq]. by exists s.
Qed.
End looking.

(** * Retention and keys *)

Section keeping.
Context {S : Type} `{!Has VolumeDB S}.

(** The ready snapshots of a schedule, the newest first. *)
Definition ready_of (sid : string) (db : VolumeDB) : list Snapshot :=
  List.filter (fun s => String.eqb (sn_State s) SnapshotReady) (sliceStable newest_first (List.filter (made_by sid) (vd_snapshots db))).

Lemma prune_run env (gone : list Snapshot) n : forall w, Forall (fun s => s ∈ vd_snapshots (part w)) gone -> NoDup (map sn_ID gone) ->
  wp env (foldM (fun snap pruned => deleteSnapshot (S:=S) (sn_ID snap) ;;; ret (pruned + 1)) gone n) (fun r w' =>
    exists done rest, gone = done ++ rest /\
      part w' = set_snapshots (List.filter (fun s => negb (existsb (fun g => snap_id (sn_ID g) s) done)) (vd_snapshots (part w))) (part w) /\
      match r with Ok k => k = n + len gone /\ rest = [] | Err _ => rest <> [] end) w.
Proof.
  revert n. induction gone as [|g gone IH]; intros n w Hin Hnd; simpl.
  - rewrite wp_ret. exists [], []. split; [done|]. split; [|split; [lia|done]]. simpl.
    rewrite filter_all by done. by destruct (part w).
  - apply Forall_cons in Hin as [Hg Hin]. apply NoDup_cons in Hnd as [Hn Hnd]. apply wp_bind, wp_bind. unfold deleteSnapshot, snapshots_sql.
    apply wp_write.
    { intros w1 Hw1. exists [], (g :: gone). split; [done|]. split; [|done]. simpl. rewrite filter_all by done. rewrite Hw1. by destruct (part w). }
    intros w1 Hw1. revert Hw1. unfold delete_where. assert (E : existsb (snap_id (sn_ID g)) (vd_snapshots (part w)) = true).
    { apply existsb_exists. exists g. split; [by apply list_elem_of_In|]. apply String.eqb_refl. }
    rewrite E. cbn [fst snd]. intros Hw1. rewrite wp_ret.
    eapply wp_mono; [|apply IH].
    + intros r w2 (dn & rest & -> & Hw2 & Hr). exists (g :: dn), rest. split; [done|]. split.
      * rewrite Hw2, Hw1. unfold set_snapshots. cbn [vd_snapshots vd_volumes vd_schedules]. f_equal.
        rewrite <- filter_andb. apply List.filter_ext. intros s. simpl. by rewrite negb_orb.
      * destruct r; [|done]. destruct Hr as [-> ->]. split; [|done]. simpl. lia.
    + rewrite Hw1. simpl. apply Forall_forall. intros s Hs. apply elem_of_filter_bool. rewrite Forall_forall in Hin. split; [auto|].
      apply negb_true_iff, String.eqb_neq. intros Es. apply Hn. rewrite <- Es. by apply list_elem_of_fmap_2.
    + done.
Qed.

Lemma retain_wp env sc (w : World S) : vols_inv (part w) -> 0 <= ss_Keep sc ->
  wp env (retain sc) (fun r w' =>
    let doomed := drop (Z.to_nat (ss_Keep sc)) (ready_of (ss_ID sc) (part w)) in
    exists gone rest, doomed = gone ++ rest /\
      part w' = set_snapshots (List.filter (fun s => negb (existsb (fun g => snap_id (sn_ID g) s) gone)) (vd_snapshots (part w))) (part w) /\
      match r with Ok k => k = len doomed /\ rest = [] | Err _ => True end) w.
Proof.
  intros Hinv Hk. unfold retain. apply wp_bind, wp_read.
  assert (Hsame : forall d : list Snapshot, exists gone rest, d = gone ++ rest /\
      part (tick w) = set_snapshots (List.filter (fun s => negb (existsb (fun g => snap_id (sn_ID g) s) gone)) (vd_snapshots (part w))) (part w) /\ rest = d).
  { intros d. exists [], d. split; [done|]. split; [|done]. simpl. rewrite filter_all by done. change (part (tick w)) with (part (T:=VolumeDB) w). by destruct (part w). }
  intros r [->| ->]; cbv zeta.
  { destruct (Hsame (drop (Z.to_nat (ss_Keep sc)) (ready_of (ss_ID sc) (part w)))) as (gone & rest & H1 & H2 & _). eauto. }
  fold (ready_of (ss_ID sc) (part w)). set (all := ready_of _ _).
  assert (Hall : forall s, s ∈ all -> s ∈ vd_snapshots (part w)).
  { intros s Hs. unfold all, ready_of in Hs. apply elem_of_filter_bool in Hs as [Hs _]. rewrite sliceStable_perm in Hs. by apply elem_of_filter_bool in Hs as []. }
  assert (Hnd : NoDup (map sn_ID all)).
  { unfold all, ready_of. apply NoDup_map_filter. rewrite sliceStable_perm. apply NoDup_map_filter.
    pose proof (vi_snap_id _ Hinv) as H. unfold unique_by in H. by rewrite omap_total in H. }
  destruct (len all <=? ss_Keep sc) eqn:E.
  - rewrite wp_ret. breflect. rewrite drop_ge by lia. destruct (Hsame []) as (gone & rest & H1 & H2 & ->). exists gone, []. auto.
  - eapply wp_mono; [|apply prune_run].
    + intros r w' (dn & rest & H1 & H2 & H3). exists dn, rest. split; [done|]. split; [exact H2|]. destruct r; [|done]. destruct H3 as [-> ->]. by split.
    + apply Forall_forall. intros s Hs. apply Hall. eapply elem_of_submseteq; [exact Hs|]. apply sublist_submseteq, sublist_drop.
    + rewrite <- (take_drop (Z.to_nat (ss_Keep sc)) all), map_app in Hnd. by apply NoDup_app in Hnd as (_ & _ & ?).
Qed.
End keeping.

(** * Properties *)

Section properties.
Context {S : Type} `{!Has VolumeDB S}.
Context (c : AEAD) (keys : option Keyring).
Context (instances : option (Instances S)) (quota : option (VolumeQuota S)) (backups : option (Backups S)).
Context (placed : Placement_ -> Prop).
Context (Hinstances : forall i ref p db, instances = Some i -> yields db (Placement i ref p) placed).
Context (Hquota : forall q p n, quota = Some q -> leaves VolumeDB (AdmitVolume q p n) /\ leaves VolumeDB (AdmitVolumeGrowth q p n)).
Context (Hbackups : forall b id p, backups = Some b -> leaves VolumeDB (Restorable b id p)).

(** C35: [serve_lawful]: every request, report, release and sweep moves the tables only by changes its
    actor may make, and keeps them well formed, however the database fails. *)
Theorem serve_lawful env r (w : World S) (Hinv : vols_inv (part w)) :
  wp env (serve c keys instances quota backups r) (fun _ w' =>
    history placed (actor_of r) (part w) (part w') /\ vols_inv (part w')) w.
Proof.
  eapply wp_mono; [|exact (serve_moves c keys instances quota backups placed Hinstances Hquota Hbackups (part w) r Hinv env w eq_refl)].
  intros a w' H. split; [exact H|exact (history_inv placed _ _ _ H Hinv)].
Qed.


(** C34: [tenants_apart]: a request of one project leaves the volumes, the snapshots and the schedules
    of all other projects exactly as they were, and what it shows belongs to its own. *)
Theorem tenants_apart env r p (w : World S) (Hinv : vols_inv (part w)) (Hr : actor_of r = Tenant p) :
  wp env (serve c keys instances quota backups r) (fun a w' =>
    others p (part w') = others p (part w) /\
    (looks r = true -> match a with Ok o => answers (shown_to p (part w)) o | Err _ => True end)) w.
Proof.
  apply wp_and.
  - eapply wp_mono; [|exact (serve_moves c keys instances quota backups placed Hinstances Hquota Hbackups (part w) r Hinv env w eq_refl)].
    intros a w' H. rewrite Hr in H. exact (history_others placed p _ _ H Hinv).
  - destruct (looks r) eqn:E; [|unfold wp; by destruct (serve _ _ _ _ _ _ _ _)].
    eapply wp_mono; [|exact (looks_own c keys instances quota backups (part w) r p Hinv E Hr env w I eq_refl)]. by intros a w' [_ H].
Qed.

(** [retention_exact]: pruning deletes ready snapshots of the schedule beyond the newest ones it is
    to keep, the newest of them first, nothing else, and all of them unless the database
    fails. *)
Theorem retention_exact env sc (w : World S) (Hinv : vols_inv (part w)) (Hk : 0 <= ss_Keep sc) :
  wp env (retain sc) (fun r w' =>
    let doomed := drop (Z.to_nat (ss_Keep sc)) (ready_of (ss_ID sc) (part w)) in
    exists gone rest, doomed = gone ++ rest /\
      part w' = set_snapshots (List.filter (fun s => negb (existsb (fun g => snap_id (sn_ID g) s) gone)) (vd_snapshots (part w))) (part w) /\
      match r with Ok k => k = len doomed /\ rest = [] | Err _ => True end) w.
Proof. by apply retain_wp. Qed.

(** [volume_key_roundtrip]: the key minted for an encrypted volume is what its node is handed, as
    long as the key ring finds the sealing key under its id. *)
Theorem volume_key_roundtrip `{!GCM c} env env2 k (w w2 : World S) v nodeID
  (Hactive : Sealed.Active keys = Some k) (Hfind : Sealed.Find keys (Sealed.ID k) = Some k)
  (Hio : forall n, env_io env2 n = false)
  (Hrow : List.find (has_id (v_ID v)) (vd_volumes (part w2)) = Some v) (Hnode : v_NodeID v = nodeID) :
  wp env (mintKey c keys true) (fun r _ => match r with
    | Ok g => encrypts g = true /\ (v_KeySealed v = vk_sealedKey g -> v_KeyID v = vk_keyID g -> v_Encrypted v = encrypts g ->
        fst (keyForNode c keys (v_ID v) nodeID env2 w2) = Ok (hex_encode (read_bytes (Z.to_nat KeyBytes) (env_rand env (w_step w)))))
    | Err _ => True end) w.
Proof.
  unfold mintKey. cbn [negb]. rewrite Hactive. apply wp_bind. rewrite wp_rand. apply wp_bind, wp_mapped.
  apply SealBytes_wp; [done|apply read_bytes_range|]. intros text Ht. cbn [or_fault]. rewrite wp_ret. unfold encrypts. cbn [vk_sealedKey vk_keyID].
  assert (Hne : is_empty text = false).
  { apply is_empty_false. intros ->. discriminate Ht. }
  rewrite Hne. split; [done|]. intros E1 E2 E3.
  unfold keyForNode, byID, volumes_q, query, sql, mapped, attempt, bind, lift, guard, select_one. rewrite Hio. cbn [fst snd].
  change (hget (w_st w2)) with (part (T:=VolumeDB) w2). rewrite Hrow. cbn [or_fault]. rewrite Hnode, String.eqb_refl. cbn [negb].
  rewrite E3. cbn [negb]. by rewrite E2, Hfind, E1, Ht.
Qed.
End properties.

(** * A small cloud *)

Module Demo.
Definition vm_on (node : string) : Instances VolumeDB :=
  {| Placement ref p := ret (MkPlacement "running" ref p node "vm" true) |}.
Definition lost : Instances VolumeDB := {| Placement ref p := fail (io_error "read instance") |}.
Definition placed (pl : Placement_) : Prop := pl_NodeID pl = "nd-1" /\ pl_Isolation pl = "vm".
Definition vol (id project name instance : string) (detaching : bool) : Volume :=
  MkVolume id project name 10 "nd-1" instance "" "" "" "" detaching false "" "" 0 0.
Definition snap (id : string) (at_ : Z) (state : string) : Snapshot := MkSnapshot id "vol-1" id state "" 0 "ssc-1" at_.
Definition daily : Schedule := MkSchedule "ssc-1" "prj-1" "vol-1" (24 * hour) 1 0 zero_time 0 0.
Definition db : VolumeDB := MkVolumeDB [vol "vol-1" "prj-1" "data" "ins-1" true; vol "vol-2" "prj-2" "data" "" false]
  [snap "a" 0 SnapshotReady; snap "b" second SnapshotReady; snap "c" (2 * second) SnapshotPending; snap "d" (3 * second) SnapshotReady] [daily].
Definition w0 : World VolumeDB := MkWorld db O [].
Definition env : Env := {| env_now _ := 1000 * second; env_rand n := [Z.of_nat n; 7]; env_io _ := false |}.
Definition tenant (p : string) : Scope := MkScope p "tok-1" "ci" "" "member".
Definition run (i : Instances VolumeDB) (r : request) (w : World VolumeDB) : World VolumeDB :=
  snd (serve demo None (Some i) None None r env w).

Lemma db_inv : vols_inv db.
Proof.
  constructor; try (apply (bool_decide_unpack _); vm_compute; exact I).
  repeat (apply Forall_cons; split; [exists (vol "vol-1" "prj-1" "data" "ins-1" true); split; [apply list_elem_of_here|done]|]).
  constructor.
Qed.
Lemma answers i ref p d : Some (vm_on "nd-1") = Some i -> yields d (Placement i ref p) placed.
Proof. intros [= <-] e w _ Hw. simpl. unfold wp. simpl. split; [exact Hw|by split]. Qed.
Lemma no_quota (q : VolumeQuota VolumeDB) p n : None = Some q -> leaves VolumeDB (AdmitVolume q p n) /\ leaves VolumeDB (AdmitVolumeGrowth q p n).
Proof. done. Qed.
Lemma no_backups (b : Backups VolumeDB) id p : None = Some b -> leaves VolumeDB (Restorable b id p).
Proof. done. Qed.
End Demo.

Lemma serve_lawful_witness : vols_inv (w_st (Demo.run (Demo.vm_on "nd-1") (ReqAttach (Demo.tenant "prj-2") "data" (Ok (MkAttachRequest "ins-9"))) Demo.w0)).
Proof.
  pose proof (serve_lawful demo None _ None None Demo.placed Demo.answers Demo.no_quota Demo.no_backups Demo.env
    (ReqAttach (Demo.tenant "prj-2") "data" (Ok (MkAttachRequest "ins-9"))) Demo.w0 Demo.db_inv) as H.
  unfold wp in H. unfold Demo.run. destruct (serve _ _ _ _ _ _ _ _) as [r w']. exact (proj2 H).
Defined.


Lemma tenants_apart_witness : others "prj-1" (w_st (Demo.run (Demo.vm_on "nd-1") (ReqDelete (Demo.tenant "prj-1") "data") Demo.w0)) = others "prj-1" Demo.db.
Proof.
  pose proof (tenants_apart demo None _ None None Demo.placed Demo.answers Demo.no_quota Demo.no_backups Demo.env
    (ReqDelete (Demo.tenant "prj-1") "data") "prj-1" Demo.w0 Demo.db_inv eq_refl) as H.
  unfold wp in H. unfold Demo.run. destruct (serve _ _ _ _ _ _ _ _) as [r w']. exact (proj1 H).
Defined.

Lemma retention_exact_witness :
  map sn_ID (vd_snapshots (w_st (snd (retain Demo.daily Demo.env Demo.w0)))) = ["c"; "d"] /\
  exists gone, drop 1 (ready_of "ssc-1" Demo.db) = gone.
Proof.
  split; [vm_compute; reflexivity|].
  pose proof (retention_exact Demo.env Demo.daily Demo.w0 Demo.db_inv ltac:(vm_compute; discriminate)) as H.
  unfold wp in H. destruct (retain _ _ _) as [r w']. destruct H as (gone & rest & H & _). exists (gone ++ rest). exact H.
Defined.

Definition ring : Keyring := NewKeyring [replicate 32 7].
Definition sealed_volume (g : volumeKey) : Volume :=
  MkVolume "vol-3" "prj-1" "secret" 1 "nd-1" "" "" "" "" "" false (encrypts g) (vk_sealedKey g) (vk_keyID g) 0 0.
Lemma volume_key_roundtrip_witness :
  match fst (mintKey demo (Some ring) true Demo.env Demo.w0) with
  | Ok g => fst (keyForNode demo (Some ring) "vol-3" "nd-1" Demo.env (MkWorld (MkVolumeDB [sealed_volume g] [] []) O []))
            = Ok (hex_encode (read_bytes 32 [0; 7]))
  | Err _ => False end.
Proof.
  assert (Hok : exists g, fst (mintKey demo (Some ring) true Demo.env Demo.w0) = Ok g) by (eexists; vm_compute; reflexivity).
  destruct Hok as [g Hg].
  pose proof (volume_key_roundtrip demo (Some ring) Demo.env Demo.env (replicate 32 7) Demo.w0
    (MkWorld (MkVolumeDB [sealed_volume g] [] []) O []) (sealed_volume g) "nd-1" ltac:(reflexivity) ltac:(vm_compute; reflexivity)
    ltac:(reflexivity) ltac:(reflexivity) ltac:(reflexivity)) as H.
  unfold wp in H. destruct (mintKey _ _ _ _ _) as [r w']. simpl in Hg. subst r. apply H; reflexivity.
Defined.

(** [released_volume_detaches_again]: deleting an instance takes its volume off it but leaves the mark
    that the volume is being detached.  The volume can be attached to another instance, which
    keeps the mark, and the next report of the node takes it off that one too, although
    nobody asked for it. *)
Theorem released_volume_detaches_again :
  let w1 := Demo.run (Demo.vm_on "nd-1") (ReqRelease "ins-1") Demo.w0 in
  let w2 := Demo.run (Demo.vm_on "nd-1") (ReqAttach (Demo.tenant "prj-1") "data" (Ok (MkAttachRequest "ins-2"))) w1 in
  let w3 := Demo.run (Demo.vm_on "nd-1") (ReqReport "nd-1" (Ok (MkReportRequest [MkReportedVolume "vol-1" true [] "" ""]))) w2 in
  let first w := map (fun v => (v_InstanceID v, State v)) (take 1 (vd_volumes (w_st w))) in
  first w1 = [("", StateDetaching)] /\ first w2 = [("ins-2", StateDetaching)] /\ first w3 = [("", StateFree)].
Proof. vm_compute. split_and!; reflexivity. Qed.

(** [detach_blind]: a detach whose look at the instance fails, for whatever reason, lets the volume
    go at once, although the machine that writes to it may be running; it can be attached to a
    second one then. *)
Lemma detach_blind :
  let w1 := Demo.run Demo.lost (ReqDetach (Demo.tenant "prj-1") "data") Demo.w0 in
  let w2 := Demo.run (Demo.vm_on "nd-1") (ReqAttach (Demo.tenant "prj-1") "data" (Ok (MkAttachRequest "ins-2"))) w1 in
  map v_InstanceID (take 1 (vd_volumes (w_st w1))) = [""] /\ map v_InstanceID (take 1 (vd_volumes (w_st w2))) = ["ins-2"].
Proof. vm_compute. split; reflexivity. Qed.
