(* ===== verification/Balancer.v ===== *)
(** Load balancers (internal/platform/balancer): a port on every node that leads to instances, to
    the members of a service, or by host and path to several services; the health nodes report
    of the backends, and the certificates the nodes present.

    The four tables are one state; [Told] is what the process remembers of the certificates it
    has warned about.  The other modules are the interfaces [Members], [Ports] and [Services],
    [None] where the Go field may be nil. *)
From stdpp Require Import base tactics numbers strings list gmap sorting.
From Stdlib Require Import ZArith Lia Sorted.
From Stdlib Require Ascii.
From S2P Require Import Prelude GoLang Time Effects Regex Kernel Httpx Paging Tables Encoding Sealed Certs CertWatch.
From S2P Require Interval.

(** * Data (types.go) *)

Definition ProtocolTCP : string := "tcp".
Definition ProtocolUDP : string := "udp".
Definition AlgorithmRoundRobin : string := "round_robin".
Definition AlgorithmSourceHash : string := "source_hash".
Definition CheckNone : string := "none".
Definition CheckTCP : string := "tcp".
Definition CheckHTTP : string := "http".
Definition ProbePassing : string := "passing".
Definition ProbeFailing : string := "failing".
Definition ProbeUnknown : string := "unknown".
Definition MinPort : Z := 1.
Definition MaxPort : Z := 65535.
Definition MaxBackends : Z := 64.
Definition MaxThreshold : Z := 10.
Definition DefaultRise : Z := 2.
Definition DefaultFall : Z := 2.
Definition MaxPathLength : Z := 200.
Definition MaxRoutes : Z := 32.
Definition MaxHostLength : Z := 253.
Definition HealthGrace : Z := 90 * second.
Definition FamilyIPv4 : string := "ipv4".
Definition FamilyIPv6 : string := "ipv6".
(* go: platform/balancer/types.go Families *)
Definition Families : list string := [FamilyIPv4; FamilyIPv6].
(* go: platform/balancer/types.go Protocols *)
Definition Protocols : list string := [ProtocolTCP; ProtocolUDP].
(* go: platform/balancer/types.go Algorithms *)
Definition Algorithms : list string := [AlgorithmRoundRobin; AlgorithmSourceHash].
(* go: platform/balancer/types.go Checks *)
Definition Checks : list string := [CheckNone; CheckTCP; CheckHTTP].

(* go: platform/balancer/types.go TLS *)
Record TLS := MkTLS { tls_Material : string; tls_KeyID : string; tls_Subject : string; tls_ExpiresAt : string }.
(* go: platform/balancer/types.go TLS.Present *)
Definition Present (t : TLS) : bool := negb (is_empty (tls_Material t)).
Definition no_tls : TLS := MkTLS "" "" "" "".
(* go: platform/balancer/types.go Backend *)
Record Backend := MkBackend {
  be_InstanceID : string; be_Address : string; be_Running : bool; be_Healthy : bool; be_Probe : string; be_Reason : string;
  be_CheckedAt : Z; be_AddedAt : Z;
}.
(* go: platform/balancer/types.go Route *)
Record Route := MkRoute { rt_Host : string; rt_Path : string; rt_ServiceID : string; rt_Backends : list Backend }.
(* go: platform/balancer/types.go Balancer *)
Record Balancer := MkBalancer {
  b_ID : string; b_ProjectID : string; b_Name : string; b_Protocol : string; b_ListenPort : Z; b_TargetPort : Z;
  b_Algorithm : string; b_ServiceID : string; b_Family : string; b_Check : string; b_CheckPath : string; b_Rise : Z; b_Fall : Z;
  b_Backends : list Backend; b_Routes : list Route; b_TLS : TLS; b_CreatedAt : Z;
}.
(* go: platform/balancer/types.go RouteParams *)
Record RouteParams := MkRouteParams { rq_Host : string; rq_Path : string; rq_Service : string }.
(* go: platform/balancer/types.go CreateParams *)
Record CreateParams := MkCreateParams {
  cp_ProjectID : string; cp_Name : string; cp_Protocol : string; cp_ListenPort : Z; cp_TargetPort : Z; cp_Algorithm : string;
  cp_ServiceID : string; cp_Family : string; cp_Check : string; cp_CheckPath : string; cp_Rise : Z; cp_Fall : Z;
  cp_Instances : list string; cp_Routes : list RouteParams;
}.
(* go: platform/balancer/types.go Member *)
Record Member_ := MkMember { mb_ProjectID : string; mb_NodeID : string; mb_Address : string; mb_Address6 : string; mb_Running : bool }.
(* go: platform/balancer/types.go Member.AddressIn *)
Definition AddressIn (m : Member_) (family : string) : string :=
  if String.eqb family FamilyIPv6 then mb_Address6 m else mb_Address m.
(* go: platform/balancer/types.go Report *)
Record Report := MkReport { re_BalancerID : string; re_InstanceID : string; re_Healthy : bool; re_Reason : string }.

(** * Interfaces (service.go) *)

(* go: platform/balancer/service.go Members *)
Record Members (S : Type) := { Member : string -> M S Member_ }.
Arguments Member {S} _ _.
(* go: platform/balancer/service.go Ports *)
Record Ports (S : Type) := { NodePortTaken : string -> Z -> M S bool }.
Arguments NodePortTaken {S} _ _ _.
(* go: platform/balancer/service.go Services *)
Record Services (S : Type) := { MembersOf : string -> string -> M S (list string) }.
Arguments MembersOf {S} _ _ _.

(** * Repository (repository.go)

    A row of balancers is a [Balancer] without its backends and routes.  UNIQUE (id), (project_id,
    name) and (protocol, listen_port) of balancers, (balancer_id, instance_id) of balancer_backends
    and of balancer_health, (balancer_id, host, path) of balancer_routes. *)

Record BackendRow := MkBackendRow { br_Balancer : string; br_Instance : string; br_AddedAt : Z }.
Record HealthRow := MkHealthRow { hr_Balancer : string; hr_Instance : string; hr_Healthy : bool; hr_Reason : string; hr_CheckedAt : Z }.
Record RouteRow := MkRouteRow { rr_Balancer : string; rr_Host : string; rr_Path : string; rr_Service : string }.
Record BalancerDB := MkBalancerDB {
  bd_balancers : list Balancer; bd_backends : list BackendRow; bd_health : list HealthRow; bd_routes : list RouteRow;
}.
(** The map [service.expiry]: the state last told of each balancer's certificate. *)
Record Told := MkTold { expiry : gmap string string }.

Definition errNotFound : error := ESentinel "balancer not found".
Definition errPortUsed : error := ESentinel "listen port already claimed".
Definition errNameUsed : error := ESentinel "balancer name already used".

Definition with_members (backends : list Backend) (routes : list Route) (b : Balancer) : Balancer :=
  MkBalancer (b_ID b) (b_ProjectID b) (b_Name b) (b_Protocol b) (b_ListenPort b) (b_TargetPort b) (b_Algorithm b) (b_ServiceID b)
    (b_Family b) (b_Check b) (b_CheckPath b) (b_Rise b) (b_Fall b) backends routes (b_TLS b) (b_CreatedAt b).
Definition with_tls (t : TLS) (b : Balancer) : Balancer :=
  MkBalancer (b_ID b) (b_ProjectID b) (b_Name b) (b_Protocol b) (b_ListenPort b) (b_TargetPort b) (b_Algorithm b) (b_ServiceID b)
    (b_Family b) (b_Check b) (b_CheckPath b) (b_Rise b) (b_Fall b) (b_Backends b) (b_Routes b) t (b_CreatedAt b).
Definition with_backends (backends : list Backend) (b : Balancer) : Balancer := with_members backends (b_Routes b) b.
Definition with_routes (routes : list Route) (b : Balancer) : Balancer := with_members (b_Backends b) routes b.
Definition with_route_backends (backends : list Backend) (r : Route) : Route := MkRoute (rt_Host r) (rt_Path r) (rt_ServiceID r) backends.

Definition has_id (id : string) (b : Balancer) : bool := String.eqb (b_ID b) id.
Definition named (projectID name : string) (b : Balancer) : bool := String.eqb (b_ProjectID b) projectID && String.eqb (b_Name b) name.
Definition in_project (projectID : string) (b : Balancer) : bool := String.eqb (b_ProjectID b) projectID.
Definition on_port (protocol : string) (port : Z) (b : Balancer) : bool := String.eqb (b_Protocol b) protocol && (b_ListenPort b =? port).
Definition backend_of (id : string) (r : BackendRow) : bool := String.eqb (br_Balancer r) id.
Definition backend_is (id instanceID : string) (r : BackendRow) : bool := backend_of id r && String.eqb (br_Instance r) instanceID.
Definition health_of (id : string) (r : HealthRow) : bool := String.eqb (hr_Balancer r) id.
Definition health_is (id instanceID : string) (r : HealthRow) : bool := health_of id r && String.eqb (hr_Instance r) instanceID.
Definition route_of (id : string) (r : RouteRow) : bool := String.eqb (rr_Balancer r) id.
Definition route_clash (n r : RouteRow) : bool :=
  route_of (rr_Balancer n) r && String.eqb (rr_Host r) (rr_Host n) && String.eqb (rr_Path r) (rr_Path n).
Definition by_port (a b : Balancer) : bool := b_ListenPort a <? b_ListenPort b.
Definition key_of (balancerID instanceID : string) : string := balancerID +:+ "/" +:+ instanceID.

(** What the texts of SQLite's UNIQUE violations become; the index made last is checked first. *)
(* go: platform/balancer/repository.go classify *)
Definition classify (rows : list Balancer) (b : Balancer) : option error :=
  if existsb (on_port (b_Protocol b) (b_ListenPort b)) rows then Some errPortUsed
  else if existsb (named (b_ProjectID b) (b_Name b)) rows || existsb (has_id (b_ID b)) rows then Some errNameUsed
  else None.
(** A second row of the same backend is no error. *)
(* go: platform/balancer/repository.go attach *)
Definition attach (balancerID instanceID : string) (at_ : Z) (rows : list BackendRow) : list BackendRow :=
  if existsb (backend_is balancerID instanceID) rows then rows else rows ++ [MkBackendRow balancerID instanceID at_].
Fixpoint insert_routes (balancerID : string) (routes : list Route) (rows : list RouteRow) : outcome unit * list RouteRow :=
  match routes with
  | [] => (Ok tt, rows)
  | one :: routes =>
      let row := MkRouteRow balancerID (rt_Host one) (rt_Path one) (rt_ServiceID one) in
      match insert_row (route_clash row) (EText "insert a route: UNIQUE constraint failed") row rows with
      | (Ok _, rows) => insert_routes balancerID routes rows
      | (Err e, rows) => (Err e, rows)
      end
  end.
Definition save_report (at_ : Z) (rows : list HealthRow) (r : Report) : list HealthRow :=
  let row := MkHealthRow (re_BalancerID r) (re_InstanceID r) (re_Healthy r) (re_Reason r) at_ in
  if existsb (health_is (re_BalancerID r) (re_InstanceID r)) rows
  then map (fun old => if health_is (re_BalancerID r) (re_InstanceID r) old then row else old) rows
  else rows ++ [row].
Definition probe_of (healthy : bool) : string := if healthy then ProbePassing else ProbeFailing.
(** A row of balancer_backends with the row of balancer_health the LEFT JOIN finds. *)
Definition joined (health : list HealthRow) (r : BackendRow) : Backend :=
  match List.find (health_is (br_Balancer r) (br_Instance r)) health with
  | Some h => MkBackend (br_Instance r) "" false false (probe_of (hr_Healthy h)) (hr_Reason h) (hr_CheckedAt h) (br_AddedAt r)
  | None => MkBackend (br_Instance r) "" false false "" "" zero_time (br_AddedAt r)
  end.

Section repository.
Context {S : Type} `{!Has BalancerDB S}.

(** One transaction: the balancer and its backends, or neither. *)
(* go: platform/balancer/repository.go repository.insert *)
Definition insert (b : Balancer) : M S unit :=
  sql "insert balancer" (fun db => match classify (bd_balancers db) b with
    | Some e => (Err e, db)
    | None => (Ok tt, MkBalancerDB (bd_balancers db ++ [with_members [] [] b])
        (fold_left (fun rows k => attach (b_ID b) (be_InstanceID k) (b_CreatedAt b) rows) (b_Backends b) (bd_backends db))
        (bd_health db) (bd_routes db))
    end).
(* go: platform/balancer/repository.go repository.addBackend *)
Definition addBackend_row (balancerID instanceID : string) (at_ : Z) : M S unit :=
  sql "attach a backend" (fun db => (Ok tt,
    MkBalancerDB (bd_balancers db) (attach balancerID instanceID at_ (bd_backends db)) (bd_health db) (bd_routes db))).
(* go: platform/balancer/repository.go repository.removeBackend *)
Definition removeBackend_row (balancerID instanceID : string) : M S unit :=
  sql "detach a backend" (fun db => let '(r, rows) := delete_where (backend_is balancerID instanceID) errNotFound (bd_backends db) in
    (r, MkBalancerDB (bd_balancers db) rows (bd_health db) (bd_routes db))).
(* go: platform/balancer/repository.go repository.countBackends *)
Definition countBackends (balancerID : string) : M S Z :=
  query "count backends" (fun db => Ok (len (List.filter (backend_of balancerID) (bd_backends db)))).
(* go: platform/balancer/repository.go repository.backendsOf *)
Definition backendsOf (balancerID : string) : M S (list Backend) :=
  query "list backends" (fun db => Ok (map (joined (bd_health db))
    (sliceStable (by_key br_Instance str_ltb (fun _ _ => false)) (List.filter (backend_of balancerID) (bd_backends db))))).
(* go: platform/balancer/repository.go repository.routesOf *)
Definition routesOf (balancerID : string) : M S (list Route) :=
  query "list routes" (fun db => Ok (map (fun r => MkRoute (rr_Host r) (rr_Path r) (rr_Service r) [])
    (sliceStable (by_key rr_Host str_ltb (by_key rr_Path str_ltb (fun _ _ => false)))
       (List.filter (route_of balancerID) (bd_routes db))))).
(* go: platform/balancer/repository.go repository.load *)
Definition load (q : list Balancer -> list Balancer) : M S (list Balancer) :=
  let! rows := query "list balancers" (fun db => Ok (q (bd_balancers db))) in
  foldM (fun b out =>
    let! backends := backendsOf (b_ID b) in
    let! routes := routesOf (b_ID b) in
    ret (out ++ [with_members backends routes b])) rows [].
(* go: platform/balancer/repository.go repository.listIn *)
Definition listIn_rows (projectID : string) : M S (list Balancer) :=
  load (fun rows => sliceStable by_port (List.filter (in_project projectID) rows)).
(* go: platform/balancer/repository.go repository.all *)
Definition all : M S (list Balancer) := load (sliceStable by_port).
Definition first_of (found : list Balancer) : outcome Balancer := match found with b :: _ => Ok b | [] => Err errNotFound end.
(* go: platform/balancer/repository.go repository.byID *)
Definition byID (projectID id : string) : M S Balancer :=
  let! found := load (List.filter (fun b => in_project projectID b && has_id id b)) in lift (first_of found).
(* go: platform/balancer/repository.go repository.byName *)
Definition byName (projectID name : string) : M S Balancer :=
  let! found := load (List.filter (named projectID name)) in lift (first_of found).
(* go: platform/balancer/repository.go repository.portTaken *)
Definition portTaken (protocol : string) (port : Z) : M S bool :=
  query "check the listen port" (fun db => Ok (0 <? len (List.filter (on_port protocol port) (bd_balancers db)))).
(* go: platform/balancer/repository.go repository.replaceRoutes *)
Definition replaceRoutes (balancerID : string) (routes : list Route) : M S unit :=
  sql "clear the routes" (fun db =>
    match insert_routes balancerID routes (List.filter (fun r => negb (route_of balancerID r)) (bd_routes db)) with
    | (Ok _, rows) => (Ok tt, MkBalancerDB (bd_balancers db) (bd_backends db) (bd_health db) rows)
    | (Err e, _) => (Err e, db)
    end).
(* go: platform/balancer/repository.go repository.healthOf *)
Definition healthOf (balancerID : string) : M S (gmap string Backend) :=
  query "list health" (fun db => Ok (fold_left (fun m h =>
    <[hr_Instance h := MkBackend (hr_Instance h) "" false false (probe_of (hr_Healthy h)) (hr_Reason h) (hr_CheckedAt h) zero_time]> m)
    (List.filter (health_of balancerID) (bd_health db)) ∅)).
(* go: platform/balancer/repository.go repository.saveHealth *)
Definition saveHealth (reports : list Report) (at_ : Z) : M S unit :=
  sql "save a health report" (fun db => (Ok tt,
    MkBalancerDB (bd_balancers db) (bd_backends db) (fold_left (save_report at_) reports (bd_health db)) (bd_routes db))).
(* go: platform/balancer/repository.go repository.forgetHealth *)
Definition forgetHealth (balancerID instanceID : string) : M S unit :=
  sql "forget a health report" (fun db => (Ok tt, MkBalancerDB (bd_balancers db) (bd_backends db)
    (List.filter (fun h => negb (health_is balancerID instanceID h)) (bd_health db)) (bd_routes db))).
(** One transaction; a balancer that is gone rolls it back. *)
(* go: platform/balancer/repository.go repository.delete *)
Definition delete_row (id : string) : M S unit :=
  sql "delete balancer" (fun db => match delete_where (has_id id) errNotFound (bd_balancers db) with
    | (Ok _, rows) => (Ok tt, MkBalancerDB rows (List.filter (fun r => negb (backend_of id r)) (bd_backends db))
        (List.filter (fun h => negb (health_of id h)) (bd_health db)) (List.filter (fun r => negb (route_of id r)) (bd_routes db)))
    | (Err e, _) => (Err e, db)
    end).
(* go: platform/balancer/repository.go repository.releaseInstance *)
Definition releaseInstance_rows (instanceID : string) : M S unit :=
  sql "release an instance from its balancers" (fun db => (Ok tt, MkBalancerDB (bd_balancers db)
    (List.filter (fun r => negb (String.eqb (br_Instance r) instanceID)) (bd_backends db))
    (List.filter (fun h => negb (String.eqb (hr_Instance h) instanceID)) (bd_health db)) (bd_routes db))).
(* go: platform/balancer/repository.go repository.setTLS *)
Definition setTLS (id : string) (t : TLS) : M S unit :=
  sql "set the balancer certificate" (fun db => let '(r, rows) := update_where (has_id id) (with_tls t) errNotFound (bd_balancers db) in
    (r, MkBalancerDB rows (bd_backends db) (bd_health db) (bd_routes db))).
End repository.

(* go: platform/balancer/service.go translate *)
Definition translate (err : error) : error :=
  if errors_Is err "balancer not found" then NotFound "balancer_not_found" "no balancer with that name or id exists"
  else if errors_Is err "balancer name already used" then
    Conflict "balancer_name_taken" "a balancer with that name already exists in this project"
  else if errors_Is err "listen port already claimed" then Conflict "listen_port_taken" "that listen port is already claimed"
  else err.

(** * Routes (route.go) *)

Definition host_label : regex := RSeq (RCls alnum) (ROpt (RSeq (RStar (RCls alnum_hyphen)) (RCls alnum))).
(* go: platform/balancer/route.go hostPattern *)
Definition hostPattern : regex := RSeq host_label (RStar (RSeq (RCls is_dot) host_label)).
Example hostPattern_example :
  map (re_match hostPattern) ["app.example.com"; "a"; "-a"; "a-.b"; "a..b"; "a--b.c"; ""] = [true; true; false; false; false; true; false].
Proof. vm_compute. reflexivity. Qed.

Definition invalid_route (message : string) : error := Invalid "invalid_route" message.
(* go: platform/balancer/route.go describeMatch *)
Definition describeMatch (host path : string) : string :=
  (if is_empty host then "any host" else host) +:+ (if is_empty path then "/" else path).

(** One turn of the loop: the route as it will be kept. *)
(* go: platform/balancer/route.go:24-48 one.Host *)
Definition normalize_one (one : RouteParams) : outcome RouteParams :=
  let host := to_lower (trim_space (rq_Host one)) in
  let path := trim_space (rq_Path one) in
  if is_empty (rq_Service one) then Err (invalid_route "every route names the service that answers it")
  else if negb (is_empty host) && ((MaxHostLength <? slen host) || negb (re_match hostPattern host))
  then Err (invalid_route (quoted host +:+ " is not a host name"))
  else if negb (is_empty path) && negb (has_prefix path "/")
  then Err (invalid_route ("a path starts with a slash, and " +:+ path +:+ " does not"))
  else if negb (is_empty path) && (MaxPathLength <? slen path) then Err (invalid_route "a path is at most 200 characters")
  else Ok (MkRouteParams host (if is_empty path then "" else trim_suffix path "/") (rq_Service one)).
Definition route_key (one : RouteParams) : string := rq_Host one +:+ nul +:+ rq_Path one.
(* go: platform/balancer/route.go:24-58 seen *)
Fixpoint normalize_all (params : list RouteParams) (seen : list string) (out : list RouteParams) : outcome (list RouteParams) :=
  match params with
  | [] => Ok out
  | one :: params =>
      try one := normalize_one one in
      if existsb (String.eqb (route_key one)) seen
      then Err (invalid_route ("two routes match " +:+ describeMatch (rq_Host one) (rq_Path one)
                  +:+ ", and one request cannot have two answers"))
      else normalize_all params (route_key one :: seen) (out ++ [one])
  end.
(* go: platform/balancer/route.go normalizeRoutes *)
Definition normalizeRoutes (params : list RouteParams) : outcome (list RouteParams) :=
  if MaxRoutes <? len params then Err (Invalid "too_many_routes" "a balancer carries at most 32 routes")
  else normalize_all params [] [].

(** A host before none, then the longest path, then by the texts. *)
(* go: platform/balancer/route.go:74-85 left *)
Definition route_before (l r : Route) : bool :=
  if negb (Bool.eqb (is_empty (rt_Host l)) (is_empty (rt_Host r))) then negb (is_empty (rt_Host l))
  else if negb (slen (rt_Path l) =? slen (rt_Path r)) then slen (rt_Path r) <? slen (rt_Path l)
  else if negb (String.eqb (rt_Host l) (rt_Host r)) then str_ltb (rt_Host l) (rt_Host r)
  else str_ltb (rt_Path l) (rt_Path r).
(* go: platform/balancer/route.go sortRoutes *)
Definition sortRoutes (routes : list Route) : list Route := sliceStable route_before routes.
Definition kept (one : RouteParams) : Route := MkRoute (rq_Host one) (rq_Path one) (rq_Service one) [].

(** * Certificates (certificate.go) *)

Definition MaxCertificateBytes : Z := 128 * 1024.
Section certificates.
Context {S : Type} `{!X509, !PEM} (c : AEAD) (keys : option Keyring).

(* go: platform/balancer/certificate.go sealCertificate *)
Definition sealCertificate (certPEM keyPEM : string) : M S TLS :=
  let! summary := lift (or_fault (fun err => Invalid "invalid_certificate" (error_text err)) (Inspect certPEM keyPEM)) in
  match Active keys with
  | None => fail (Conflict "no_sealing_key"
      "this control plane has no key to seal a private key with, and handing one to every node from a database it cannot protect is not something it will do quietly: start it with --backup-key-file")
  | Some active =>
      let! blob := mapped (fun err => Internal (EWrap "seal the certificate" err))
        (SealBytes c (string_bytes (Bundle certPEM keyPEM)) active) in
      ret (MkTLS blob (ActiveID keys) (sm_Subject summary) (sm_ExpiresAt summary))
  end.
(* go: platform/balancer/certificate.go openCertificate *)
Definition openCertificate (t : TLS) : outcome (string * string) :=
  if negb (Present t) then Ok ("", "")
  else match Sealed.Find keys (tls_KeyID t) with
    | None => Err (Conflict "seal_key_missing" ("this balancer's certificate was sealed with key " +:+ tls_KeyID t
                +:+ ", which this control plane does not hold"))
    | Some k =>
        try plain := or_fault (fun err => Internal (EWrap "unseal the certificate" err)) (OpenBytes c (tls_Material t) k) in
        let '(certPEM, keyPEM) := Split (bytes_string plain) in
        if is_empty certPEM || is_empty keyPEM
        then Err (Internal (EText "the sealed bundle holds no certificate or no key"))
        else Ok (certPEM, keyPEM)
    end.
End certificates.

(** * Service (service.go) *)

(* go: platform/balancer/service.go checkPort *)
Definition checkPort (field : string) (port : Z) : outcome unit :=
  guard ((port <? MinPort) || (MaxPort <? port)) (Invalid ("invalid_" +:+ field) (field +:+ " must be between 1 and 65535")).
(** [strings.ContainsAny(s, " \t\r\n")] *)
Definition has_blank (s : string) : bool :=
  existsb (fun c => (code c =? 32) || (code c =? 9) || (code c =? 13) || (code c =? 10)) (bytes_of s).
(** The check path that will be kept. *)
(* go: platform/balancer/service.go checkTarget *)
Definition checkTarget (check checkPath protocol : string) : outcome string :=
  if negb (String.eqb check CheckHTTP) then
    if negb (is_empty checkPath) then Err (Invalid "check_path_unused" "check_path only means something for an http check")
    else Ok checkPath
  else
    let path := if is_empty checkPath then "/" else checkPath in
    if negb (has_prefix path "/") then Err (Invalid "invalid_check_path" "check_path must start with /")
    else if MaxPathLength <? slen path then Err (Invalid "invalid_check_path" "check_path must be at most 200 characters")
    else if has_blank path then Err (Invalid "invalid_check_path" "check_path must not contain whitespace")
    else if negb (String.eqb protocol ProtocolTCP)
    then Err (Invalid "check_unsupported" ("an http check needs a tcp balancer, and this one is " +:+ protocol))
    else Ok path.
Definition bad_threshold (value : Z) : bool := (value <? 1) || (MaxThreshold <? value).
Definition threshold_fault (field : string) : error := Invalid ("invalid_" +:+ field) (field +:+ " must be between 1 and 10").
(** The thresholds that will be kept.  Go ranges over the map of the two in an order of its own,
    which only matters for which of two faults is told: [rise_first]. *)
(* go: platform/balancer/service.go thresholds *)
Definition thresholds (rise_first : bool) (check : string) (rise fall : Z) : outcome (Z * Z) :=
  if String.eqb check CheckNone then
    if negb (rise =? 0) || negb (fall =? 0)
    then Err (Invalid "thresholds_unused" "rise and fall only mean something once a check is set")
    else Ok (rise, fall)
  else
    let rise := if rise =? 0 then DefaultRise else rise in
    let fall := if fall =? 0 then DefaultFall else fall in
    let check_rise := guard (bad_threshold rise) (threshold_fault "rise") in
    let check_fall := guard (bad_threshold fall) (threshold_fault "fall") in
    try _ := (if rise_first then check_rise else check_fall) in
    try _ := (if rise_first then check_fall else check_rise) in
    Ok (rise, fall).

(* go: platform/balancer/service.go conflictOn *)
Definition conflictOn (protocol : string) (port : Z) (holder : string) : error :=
  Conflict "listen_port_taken" ("port " +:+ itoa port +:+ "/" +:+ protocol +:+ " is already claimed by " +:+ holder
    +:+ ", and a balancer claims it on every node").
(* go: platform/balancer/service.go ownedByService *)
Definition ownedByService (b : Balancer) : error :=
  Conflict "backends_owned_by_service" ("the backends of " +:+ b_Name b +:+ " come from service " +:+ b_ServiceID b
    +:+ ", so scale that service instead").
(* go: platform/balancer/service.go service.translatePort *)
Definition translatePort (b : Balancer) (err : error) : error :=
  if errors_Is err "listen port already claimed" then conflictOn (b_Protocol b) (b_ListenPort b) "another balancer" else translate err.
Definition unknown_backend (instanceID : string) : error := Invalid "unknown_backend" ("no instance with id " +:+ instanceID +:+ " exists").

(** The port a request asks for, with its defaults. *)
Definition asked_port (params : CreateParams) : string * Z :=
  (if is_empty (cp_Protocol params) then ProtocolTCP else cp_Protocol params,
   if cp_ListenPort params =? 0 then cp_TargetPort params else cp_ListenPort params).
(** What is kept of a request: everything that can be said without asking anybody. *)
Record Checked := MkChecked {
  ck_Protocol : string; ck_Algorithm : string; ck_ListenPort : Z; ck_Check : string; ck_CheckPath : string;
  ck_Rise : Z; ck_Fall : Z; ck_Routes : list RouteParams;
}.
(** The first half of [create]. *)
(* go: platform/balancer/service.go:80-134 ProtocolTCP *)
Definition check_params (rise_first : bool) (params : CreateParams) : outcome Checked :=
  try _ := validate_Name "name" (cp_Name params) in
  let protocol := if is_empty (cp_Protocol params) then ProtocolTCP else cp_Protocol params in
  try _ := validate_OneOf "protocol" protocol Protocols in
  let algorithm := if is_empty (cp_Algorithm params) then AlgorithmRoundRobin else cp_Algorithm params in
  try _ := validate_OneOf "algorithm" algorithm Algorithms in
  try _ := checkPort "target_port" (cp_TargetPort params) in
  let listenPort := if cp_ListenPort params =? 0 then cp_TargetPort params else cp_ListenPort params in
  try _ := checkPort "listen_port" listenPort in
  let check := if is_empty (cp_Check params) then CheckNone else cp_Check params in
  try _ := validate_OneOf "check" check Checks in
  try path := checkTarget check (cp_CheckPath params) protocol in
  try limits := thresholds rise_first check (cp_Rise params) (cp_Fall params) in
  try routes := normalizeRoutes (cp_Routes params) in
  let routing := 0 <? len routes in
  try _ := guard (routing && (negb (is_empty (cp_ServiceID params)) || (0 <? len (cp_Instances params)))) (Invalid "routes_and_backends"
    "a balancer either routes by host and path or sends everything to one set of backends, and a request cannot be answered both ways") in
  try _ := guard (routing && String.eqb algorithm AlgorithmSourceHash) (Invalid "routes_pick_per_request"
    "a routing balancer chooses a backend for every request out of the route that matched, so source_hash would be accepted and then ignored") in
  try _ := guard (routing && String.eqb protocol ProtocolUDP) (Invalid "routes_need_tcp"
    "routing by host and path means reading the request, and there is no request to read in a udp datagram") in
  Ok (MkChecked protocol algorithm listenPort check path (fst limits) (snd limits) routes).

Section service.
Context {S : Type} `{!Has BalancerDB S, !Has Told S} `{!X509, !PEM}.
Context (c : AEAD) (keys : option Keyring).
Context (members : option (Members S)) (ports : option (Ports S)) (services : option (Services S)) (has_events : bool).

(* go: platform/balancer/route.go service.checkRoutes *)
Definition checkRoutes (projectID : string) (routes : list RouteParams) : M S unit :=
  match services with
  | None => ret tt
  | Some sv => foldM (fun one _ =>
      mapped (fun _ => Invalid "unknown_service" ("no service named " +:+ rq_Service one
        +:+ " exists in this project, and a route to nothing answers every request for "
        +:+ describeMatch (rq_Host one) (rq_Path one) +:+ " with a 404"))
        (MembersOf sv projectID (rq_Service one)) ;;; ret tt) routes tt
  end.

(* go: platform/balancer/service.go service.claimPort *)
Definition claimPort (protocol : string) (port : Z) : M S unit :=
  let! taken := portTaken protocol port in
  lift (guard taken (conflictOn protocol port "another balancer")) ;;;
  match ports with
  | None => ret tt
  | Some p =>
      let! published := NodePortTaken p protocol port in
      lift (guard published (conflictOn protocol port "a published port"))
  end.

(* go: platform/balancer/service.go service.checkMember *)
Definition checkMember (projectID instanceID : string) : M S unit :=
  match members with
  | None => fail (Unavailable "members_unavailable" "the platform cannot look up where an instance runs")
  | Some ms =>
      let! member := mapped (fun _ => unknown_backend instanceID) (Member ms instanceID) in
      lift (guard (negb (String.eqb (mb_ProjectID member) projectID)) (unknown_backend instanceID))
  end.

(** The backend of an instance that is a member of a service, with what nodes reported of it. *)
Definition reported (health : gmap string Backend) (id : string) : Backend :=
  match health !! id with
  | Some known => MkBackend id "" false false (be_Probe known) (be_Reason known) (be_CheckedAt known) zero_time
  | None => MkBackend id "" false false "" "" zero_time zero_time
  end.

(* go: platform/balancer/service.go service.membership *)
Definition membership (b : Balancer) : M S Balancer :=
  match services with
  | None => ret b
  | Some sv =>
      if is_empty (b_ServiceID b) then ret b
      else
        let! r := attempt (MembersOf sv (b_ProjectID b) (b_ServiceID b)) in
        match r with
        | Err _ => ret (with_backends [] b)
        | Ok ids => let! health := healthOf (b_ID b) in ret (with_backends (map (reported health) ids) b)
        end
  end.

(* go: platform/balancer/route.go service.routeMembership *)
Definition routeMembership (b : Balancer) : M S Balancer :=
  match services with
  | None => ret b
  | Some sv =>
      match b_Routes b with
      | [] => ret b
      | _ =>
          let! health := healthOf (b_ID b) in
          let! routes := foldM (fun route out =>
            let! r := attempt (MembersOf sv (b_ProjectID b) (rt_ServiceID route)) in
            ret (out ++ [with_route_backends (match r with Ok ids => map (reported health) ids | Err _ => [] end) route]))
            (b_Routes b) [] in
          ret (with_routes (sortRoutes routes) b)
      end
  end.

(** One backend, with where its instance is now. *)
(* go: platform/balancer/service.go:414-435 backend *)
Definition health_one (ms : Members S) (family check : string) (backend : Backend) : M S Backend :=
  let! r := attempt (Member ms (be_InstanceID backend)) in
  match r with
  | Err _ => ret backend
  | Ok member =>
      let address := AddressIn member family in
      let running := mb_Running member && negb (is_empty address) in
      if String.eqb check CheckNone then
        ret (MkBackend (be_InstanceID backend) address running running (be_Probe backend) (be_Reason backend)
               (be_CheckedAt backend) (be_AddedAt backend))
      else
        let! judged :=
          if is_empty (be_Probe backend) then ret (ProbeUnknown, "no report from the node holding it yet")
          else
            let! at_ := now in
            ret (if HealthGrace <? time_sub at_ (be_CheckedAt backend)
                 then (ProbeUnknown, "the last report is older than " +:+ duration_String HealthGrace)
                 else (be_Probe backend, be_Reason backend)) in
        ret (MkBackend (be_InstanceID backend) address running (running && String.eqb (fst judged) ProbePassing)
               (fst judged) (snd judged) (be_CheckedAt backend) (be_AddedAt backend))
  end.
Definition health_all (ms : Members S) (family check : string) (backends : list Backend) : M S (list Backend) :=
  foldM (fun k out => let! k := health_one ms family check k in ret (out ++ [k])) backends [].
(* go: platform/balancer/service.go service.withHealth *)
Definition withHealth (b : Balancer) : M S Balancer :=
  match members with
  | None => ret b
  | Some ms => let! backends := health_all ms (b_Family b) (b_Check b) (b_Backends b) in ret (with_backends backends b)
  end.
(* go: platform/balancer/route.go service.withRouteHealth *)
Definition withRouteHealth (b : Balancer) : M S Balancer :=
  match members with
  | None => ret b
  | Some ms =>
      let! routes := foldM (fun route out =>
        let! backends := health_all ms (b_Family b) (b_Check b) (rt_Backends route) in
        ret (out ++ [with_route_backends backends route])) (b_Routes b) [] in
      ret (with_routes routes b)
  end.
(* go: platform/balancer/service.go service.resolve *)
Definition resolve (b : Balancer) : M S Balancer :=
  let! held := membership b in
  let! held := routeMembership held in
  let! held := withHealth held in
  withRouteHealth held.

(* go: platform/balancer/service.go service.find *)
Definition find (projectID id : string) : M S Balancer :=
  let! r := attempt (byID projectID id) in
  match r with
  | Ok b => ret b
  | Err err => if errors_Is err "balancer not found" then mapped translate (byName projectID id) else fail (translate err)
  end.
(* go: platform/balancer/service.go service.get *)
Definition get (projectID id : string) : M S Balancer := let! b := find projectID id in resolve b.
Definition resolve_all (balancers : list Balancer) : M S (list Balancer) :=
  foldM (fun b out => let! b := resolve b in ret (out ++ [b])) balancers [].
(* go: platform/balancer/service.go service.listIn *)
Definition listIn (projectID : string) : M S (list Balancer) := let! rows := mapped translate (listIn_rows projectID) in resolve_all rows.
(* go: platform/balancer/service.go service.forNode *)
Definition forNode : M S (list Balancer) := let! rows := mapped translate all in resolve_all rows.

(* go: platform/balancer/service.go:188-199 seen *)
Definition check_instances (projectID : string) (instances : list string) : M S (list string) :=
  foldM (fun id seen => if existsb (String.eqb id) seen then ret seen else checkMember projectID id ;;; ret (seen ++ [id])) instances [].
(* go: platform/balancer/service.go:144-153 MembersOf *)
Definition check_service (projectID serviceID : string) : M S unit :=
  if is_empty serviceID then ret tt
  else match services with
    | None => fail (Unavailable "services_unavailable" "the platform cannot look up a service")
    | Some sv => mapped (fun _ => Invalid "unknown_service" ("no service named " +:+ serviceID +:+ " exists in this project"))
                   (MembersOf sv projectID serviceID) ;;; ret tt
    end.

(* go: platform/balancer/service.go service.create *)
Definition create (params : CreateParams) : M S Balancer :=
  let! coin := rand in
  let! k := lift (check_params (Z.even (hd 0 coin)) params) in
  checkRoutes (cp_ProjectID params) (ck_Routes k) ;;;
  lift (guard (negb (is_empty (cp_ServiceID params)) && (0 <? len (cp_Instances params))) (Invalid "backends_unused"
    "a balancer that follows a service takes its backends from that service, so naming instances as well would leave two sets of expectations")) ;;;
  check_service (cp_ProjectID params) (cp_ServiceID params) ;;;
  lift (guard (MaxBackends <? len (cp_Instances params)) (Invalid "too_many_backends" "a balancer takes at most 64 backends")) ;;;
  claimPort (ck_Protocol k) (ck_ListenPort k) ;;;
  let! at_ := now in
  let family := if is_empty (cp_Family params) then FamilyIPv4 else cp_Family params in
  lift (validate_OneOf "family" family Families) ;;;
  let! id := ids_New "lb" in
  let! instances := check_instances (cp_ProjectID params) (cp_Instances params) in
  let b := MkBalancer id (cp_ProjectID params) (cp_Name params) (ck_Protocol k) (ck_ListenPort k) (cp_TargetPort params)
             (ck_Algorithm k) (cp_ServiceID params) family (ck_Check k) (ck_CheckPath k) (ck_Rise k) (ck_Fall k)
             (map (fun i => MkBackend i "" false false "" "" zero_time at_) instances) (map kept (ck_Routes k)) no_tls at_ in
  mapped (translatePort b) (insert b) ;;;
  mapped translate (replaceRoutes (b_ID b) (b_Routes b)) ;;;
  resolve b.

(* go: platform/balancer/service.go service.addBackend *)
Definition addBackend (projectID id instanceID : string) : M S Balancer :=
  let! b := find projectID id in
  lift (guard (negb (is_empty (b_ServiceID b))) (ownedByService b)) ;;;
  checkMember projectID instanceID ;;;
  let! count := countBackends (b_ID b) in
  lift (guard (MaxBackends <=? count) (Conflict "too_many_backends" "this balancer already holds the maximum of 64 backends")) ;;;
  let! at_ := now in
  mapped translate (addBackend_row (b_ID b) instanceID at_) ;;;
  get projectID (b_ID b).

(* go: platform/balancer/service.go service.removeBackend *)
Definition removeBackend (projectID id instanceID : string) : M S unit :=
  let! b := find projectID id in
  lift (guard (negb (is_empty (b_ServiceID b))) (ownedByService b)) ;;;
  mapped translate (forgetHealth (b_ID b) instanceID) ;;;
  mapped (fun err => if errors_Is err "balancer not found"
                     then NotFound "backend_not_found" "that instance is not a backend of this balancer" else translate err)
    (removeBackend_row (b_ID b) instanceID).

(* go: platform/balancer/service.go service.remove *)
Definition remove (projectID id : string) : M S unit :=
  let! b := find projectID id in mapped translate (delete_row (b_ID b)).
(* go: platform/balancer/service.go service.releaseInstance *)
Definition releaseInstance (instanceID : string) : M S unit := mapped translate (releaseInstance_rows instanceID).
(* go: platform/balancer/service.go service.listenPortTaken *)
Definition listenPortTaken (protocol : string) (port : Z) : M S bool := portTaken protocol port.

(* go: platform/balancer/route.go service.setRoutes *)
Definition setRoutes (id projectID : string) (asked : list RouteParams) : M S Balancer :=
  let! b := get projectID id in
  lift (guard (len (b_Routes b) =? 0) (Invalid "not_a_routing_balancer"
    "this balancer sends everything on its port to one set of backends, and turning that into routing would change what the port answers with no way back")) ;;;
  let! routes := lift (normalizeRoutes asked) in
  lift (guard (len routes =? 0) (Invalid "no_routes"
    "a routing balancer with no routes is a port that answers every request with a 404: delete it instead")) ;;;
  checkRoutes projectID routes ;;;
  let replaced := map kept routes in
  mapped translate (replaceRoutes (b_ID b) replaced) ;;;
  resolve (with_routes replaced b).

(* go: platform/balancer/route.go service.hostsOf *)
Definition hostsOf (id projectID : string) : M S (list string) :=
  let! b := get projectID id in
  let hosts := fold_left (fun hosts r => if is_empty (rt_Host r) || existsb (String.eqb (rt_Host r)) hosts then hosts
                                         else hosts ++ [rt_Host r]) (b_Routes b) [] in
  lift (guard (len hosts =? 0) (Invalid "no_hosts"
    "this balancer names no host, so there is nothing to get a certificate for: give it routes with a host, or name the hosts yourself")) ;;;
  ret hosts.

(* go: platform/balancer/service.go service.setCertificate *)
Definition setCertificate (id projectID certPEM keyPEM : string) : M S Balancer :=
  let! b := get projectID id in
  let! carried := if negb (is_empty certPEM) || negb (is_empty keyPEM) then sealCertificate c keys certPEM keyPEM else ret no_tls in
  mapped translate (setTLS (b_ID b) carried) ;;;
  get projectID (b_ID b).
(* go: platform/balancer/service.go service.certificateOf *)
Definition certificateOf (b : Balancer) : outcome (string * string) := openCertificate c keys (b_TLS b).

(** ** Health *)

(* go: platform/balancer/route.go service.everyBackend *)
Definition everyBackend (b : Balancer) : M S (list Backend) :=
  let! held := membership b in
  let! held := routeMembership held in
  ret (b_Backends held ++ concat (map rt_Backends (b_Routes held))).
(** Every backend of every balancer under its key; of two the last one. *)
(* go: platform/balancer/service.go:496-505 was *)
Definition index_backends (known : list Balancer) : M S (gmap string Backend) :=
  foldM (fun b m =>
    let! backends := mapped translate (everyBackend b) in
    ret (fold_left (fun m k => <[key_of (b_ID b) (be_InstanceID k) := k]> m) backends m)) known ∅.
(** The verdict of the cache, or of a question. *)
(* go: platform/balancer/service.go service.heldBy *)
Definition heldBy (cache : gmap string bool) (nodeID instanceID : string) : M S (bool * gmap string bool) :=
  match members with
  | None => ret (false, cache)
  | Some ms =>
      match cache !! instanceID with
      | Some verdict => ret (verdict, cache)
      | None =>
          let! r := attempt (Member ms instanceID) in
          let verdict := match r with
            | Ok member => negb (is_empty (mb_NodeID member)) && String.eqb (mb_NodeID member) nodeID
            | Err _ => false
            end in
          ret (verdict, <[instanceID := verdict]> cache)
      end
  end.
Definition cut_reason (r : Report) : Report :=
  MkReport (re_BalancerID r) (re_InstanceID r) (re_Healthy r)
    (if MaxPathLength <? slen (re_Reason r) then str_take MaxPathLength (re_Reason r) else re_Reason r).
(* go: platform/balancer/service.go:478-492 wanted *)
Definition wanted_reports (nodeID : string) (known : gmap string Backend) (reports : list Report) : M S (list Report) :=
  let! acc := foldM (fun r acc =>
    let '(cache, wanted) := acc in
    if negb (bool_decide (is_Some (known !! key_of (re_BalancerID r) (re_InstanceID r)))) then ret acc
    else
      let! ' (held, cache) := heldBy cache nodeID (re_InstanceID r) in
      ret (cache, if held then wanted ++ [cut_reason r] else wanted)) reports ((∅ : gmap string bool), []) in
  ret (snd acc).

(* go: platform/balancer/service.go service.noteFlip *)
Definition noteFlip (before : Backend) (r : Report) : M S unit :=
  if negb has_events then ret tt
  else if String.eqb (be_Probe before) (probe_of (re_Healthy r)) then ret tt
  else
    let! where_ := match members with
      | Some ms => let! m := attempt (Member ms (re_InstanceID r)) in
                   ret (match m with Ok m => (mb_ProjectID m, mb_NodeID m) | Err _ => ("", "") end)
      | None => ret ("", "")
      end in
    record {| ev_ProjectID := fst where_; ev_NodeID := snd where_; ev_Subject := re_InstanceID r;
      ev_Kind := if re_Healthy r then "backend.up" else "backend.down";
      ev_Severity := if re_Healthy r then Info else Warn;
      ev_Message := "balancer " +:+ re_BalancerID r +:+ ": " +:+ (if re_Healthy r then "the probe passes" else re_Reason r) |}.
Definition no_backend : Backend := MkBackend "" "" false false "" "" zero_time zero_time.

(* go: platform/balancer/service.go service.reportHealth *)
Definition reportHealth (nodeID : string) (reports : list Report) : M S unit :=
  if len reports =? 0 then ret tt
  else
    lift (guard (MaxBackends * MaxBackends <? len reports) (Invalid "too_many_reports" "that is more reports than a node could hold")) ;;;
    let! known := mapped translate all in
    let! members_ := index_backends known in
    let! wanted := wanted_reports nodeID members_ reports in
    match wanted with
    | [] => ret tt
    | _ =>
        let! was := index_backends known in
        let! at_ := now in
        mapped translate (saveHealth wanted at_) ;;;
        foldM (fun r _ => noteFlip (default no_backend (was !! key_of (re_BalancerID r) (re_InstanceID r))) r) wanted tt
    end.

(** ** Certificates that expire (expiry.go) *)

(* go: platform/balancer/expiry.go subjectOf *)
Definition subjectOf (b : Balancer) : string := if is_empty (tls_Subject (b_TLS b)) then "this balancer" else tls_Subject (b_TLS b).
(* go: platform/balancer/expiry.go portOf *)
Definition portOf (b : Balancer) : string := itoa (b_ListenPort b) +:+ "/" +:+ b_Protocol b.
(* go: platform/balancer/expiry.go service.noteExpiry *)
Definition noteExpiry (id state : string) : M S bool := note_expiry expiry MkTold id state.
(* go: platform/balancer/expiry.go service.forgetExpiry *)
Definition forgetExpiry (held : list string) : M S unit := forget_expiry expiry MkTold held.
Definition expiry_event (b : Balancer) (state : string) (left : Z) : Entry :=
  let prefix := "balancer " +:+ b_Name b +:+ " on port " +:+ portOf b +:+ ": the certificate for " +:+ subjectOf b in
  {| ev_ProjectID := b_ProjectID b; ev_Subject := b_ID b; ev_NodeID := ""; ev_Kind := "certificate." +:+ state;
     ev_Severity := if String.eqb state Expired then SevError else Warn;
     ev_Message := if String.eqb state Expired
       then prefix +:+ " expired " +:+ Interval.Human (wrap64 (- left)) +:+ " ago, and the port answers nothing a client will trust"
       else prefix +:+ " expires in " +:+ Interval.Human left |}.
(* go: platform/balancer/expiry.go:28-60 TLS.Present *)
Definition sweep_one (b : Balancer) (told : Z) : M S Z :=
  if negb (Present (b_TLS b)) then ret told
  else
    let! at_ := now in
    let '(state, remaining, readable) := Life (tls_ExpiresAt (b_TLS b)) at_ in
    if negb readable || String.eqb state Fresh then noteExpiry (b_ID b) "" ;;; ret told
    else
      let! first := noteExpiry (b_ID b) state in
      if first : bool then record (expiry_event b state remaining) ;;; ret (told + 1) else ret told.
(* go: platform/balancer/expiry.go service.sweepCertificates *)
Definition sweepCertificates : M S Z :=
  if negb has_events then ret 0
  else
    let! known := mapped translate all in
    let! told := foldM sweep_one known 0 in
    forgetExpiry (map b_ID known) ;;;
    ret told.
End service.

(** * Handlers (handler.go)

    A request is its caller's scope, its path values and what [Decode] made of its body. *)

(* go: platform/balancer/handler.go routeRequest *)
Record routeRequest := MkRouteRequest { rrq_Host : string; rrq_Path : string; rrq_Service : string }.
(* go: platform/balancer/handler.go createRequest *)
Record createRequest := MkCreateRequest {
  cr_Name : string; cr_Protocol : string; cr_ListenPort : Z; cr_TargetPort : Z; cr_Algorithm : string; cr_Service : string;
  cr_Check : string; cr_CheckPath : string; cr_Rise : Z; cr_Fall : Z; cr_Family : string; cr_Instances : list string;
  cr_Routes : list routeRequest;
}.
(* go: platform/balancer/handler.go healthEntry *)
Record healthEntry := MkHealthEntry { he_BalancerID : string; he_InstanceID : string; he_Healthy : bool; he_Reason : string }.
(* go: platform/balancer/handler.go certificateRequest *)
Record certificateRequest := MkCertificateRequest { ct_Certificate : string; ct_PrivateKey : string }.
(* go: platform/balancer/handler.go backendResponse *)
Record backendResponse := MkBackendResponse {
  bo_InstanceID : string; bo_Address : string; bo_Healthy : bool; bo_Running : bool; bo_Probe : string; bo_Reason : string;
  bo_CheckedAt : string; bo_AddedAt : string;
}.
(* go: platform/balancer/handler.go routeResponse *)
Record routeResponse := MkRouteResponse { ro_Host : string; ro_Path : string; ro_Service : string; ro_Backends : list backendResponse }.
(* go: platform/balancer/handler.go tlsResponse *)
Record tlsResponse := MkTLSResponse { to_Subject : string; to_ExpiresAt : string }.
(* go: platform/balancer/handler.go response *)
Record response := MkResponse {
  o_ID : string; o_Name : string; o_Protocol : string; o_ListenPort : Z; o_TargetPort : Z; o_Algorithm : string; o_Service : string;
  o_Check : string; o_CheckPath : string; o_Rise : Z; o_Fall : Z; o_Backends : list backendResponse; o_Routes : list routeResponse;
  o_Family : string; o_TLS : option tlsResponse; o_CreatedAt : string;
}.
(* go: platform/balancer/handler.go nodeResponse *)
Record nodeResponse := MkNodeResponse { no_response : response; no_Certificate : string; no_PrivateKey : string }.

(* go: platform/balancer/handler.go toBackends *)
Definition toBackends (held : list Backend) : list backendResponse :=
  map (fun k => MkBackendResponse (be_InstanceID k) (be_Address k) (be_Healthy k) (be_Running k) (be_Probe k) (be_Reason k)
    (if time_is_zero (be_CheckedAt k) then "" else rfc3339nano (be_CheckedAt k)) (rfc3339nano (be_AddedAt k))) held.
(* go: platform/balancer/handler.go toRoutes *)
Definition toRoutes (held : list Route) : list routeResponse :=
  map (fun r => MkRouteResponse (rt_Host r) (rt_Path r) (rt_ServiceID r) (toBackends (rt_Backends r))) held.
(* go: platform/balancer/handler.go toResponse *)
Definition toResponse (b : Balancer) : response :=
  MkResponse (b_ID b) (b_Name b) (b_Protocol b) (b_ListenPort b) (b_TargetPort b) (b_Algorithm b) (b_ServiceID b) (b_Check b)
    (b_CheckPath b) (b_Rise b) (b_Fall b) (toBackends (b_Backends b)) (toRoutes (b_Routes b)) (b_Family b)
    (if Present (b_TLS b) then Some (MkTLSResponse (tls_Subject (b_TLS b)) (tls_ExpiresAt (b_TLS b))) else None)
    (rfc3339nano (b_CreatedAt b)).
(* go: platform/balancer/handler.go toRouteParams *)
Definition toRouteParams (asked : list routeRequest) : list RouteParams :=
  map (fun r => MkRouteParams (rrq_Host r) (rrq_Path r) (rrq_Service r)) asked.

Inductive body :=
| BBalancer (b : response)
| BBalancers (bs : list response)
| BNode (bs : list nodeResponse).

Section handlers.
Context {S : Type} `{!Has BalancerDB S, !Has Told S} `{!X509, !PEM}.
Context (c : AEAD) (keys : option Keyring).
Context (members : option (Members S)) (ports : option (Ports S)) (services : option (Services S)) (has_events : bool).

(** The parameters a request carries. *)
Definition create_params (sc : Scope) (req : createRequest) : CreateParams :=
  MkCreateParams (sc_ProjectID sc) (cr_Name req) (cr_Protocol req) (cr_ListenPort req)
    (cr_TargetPort req) (cr_Algorithm req) (cr_Service req) (cr_Family req) (cr_Check req) (cr_CheckPath req) (cr_Rise req)
    (cr_Fall req) (cr_Instances req) (toRouteParams (cr_Routes req)).
(* go: platform/balancer/handler.go handler.create *)
Definition handle_create (sc : Scope) (req : outcome createRequest) : M S (Reply body) :=
  let! req := lift req in
  let! b := create members ports services (create_params sc req) in
  Write StatusCreated (BBalancer (toResponse b)).
(* go: platform/balancer/handler.go writeList *)
Definition writeList (balancers : list Balancer) : M S (Reply body) := Write StatusOK (BBalancers (map toResponse balancers)).
(* go: platform/balancer/handler.go handler.list *)
Definition handle_list (sc : Scope) : M S (Reply body) :=
  let! balancers := listIn members services (sc_ProjectID sc) in writeList balancers.
(* go: platform/balancer/handler.go handler.get *)
Definition handle_get (sc : Scope) (id : string) : M S (Reply body) :=
  let! b := get members services (sc_ProjectID sc) id in Write StatusOK (BBalancer (toResponse b)).
(* go: platform/balancer/handler.go handler.listForNode *)
Definition handle_listForNode : M S (Reply body) :=
  let! balancers := forNode members services in
  let! out := foldM (fun b out =>
    let! pair := lift (certificateOf c keys b) in
    ret (out ++ [MkNodeResponse (toResponse b) (fst pair) (snd pair)])) balancers [] in
  Write StatusOK (BNode out).
(* go: platform/balancer/handler.go handler.setRoutes *)
Definition handle_setRoutes (sc : Scope) (id : string) (req : outcome (list routeRequest)) : M S (Reply body) :=
  let! req := lift req in
  let! b := setRoutes members services id (sc_ProjectID sc) (toRouteParams req) in
  Write StatusOK (BBalancer (toResponse b)).
(* go: platform/balancer/handler.go handler.setCertificate *)
Definition handle_setCertificate (sc : Scope) (id : string) (req : outcome certificateRequest) : M S (Reply body) :=
  let! req := lift req in
  let! b := setCertificate c keys members services id (sc_ProjectID sc) (ct_Certificate req) (ct_PrivateKey req) in
  Write StatusOK (BBalancer (toResponse b)).
(* go: platform/balancer/handler.go handler.removeCertificate *)
Definition handle_removeCertificate (sc : Scope) (id : string) : M S (Reply body) :=
  let! b := setCertificate c keys members services id (sc_ProjectID sc) "" "" in
  Write StatusOK (BBalancer (toResponse b)).
(* go: platform/balancer/handler.go handler.reportHealth *)
Definition handle_reportHealth (nodeID : string) (req : outcome (list healthEntry)) : M S (Reply body) :=
  let! req := lift req in
  reportHealth members services has_events nodeID
    (map (fun e => MkReport (he_BalancerID e) (he_InstanceID e) (he_Healthy e) (he_Reason e)) req) ;;;
  WriteHeader StatusNoContent.
(* go: platform/balancer/handler.go handler.addBackend *)
Definition handle_addBackend (sc : Scope) (id : string) (req : outcome string) : M S (Reply body) :=
  let! instanceID := lift req in
  let! b := addBackend members services (sc_ProjectID sc) id instanceID in
  Write StatusOK (BBalancer (toResponse b)).
(* go: platform/balancer/handler.go handler.removeBackend *)
Definition handle_removeBackend (sc : Scope) (id instanceID : string) : M S (Reply body) :=
  removeBackend (sc_ProjectID sc) id instanceID ;;;
  WriteHeader StatusNoContent.
(* go: platform/balancer/handler.go handler.delete *)
Definition handle_delete (sc : Scope) (id : string) : M S (Reply body) :=
  remove (sc_ProjectID sc) id ;;;
  WriteHeader StatusNoContent.

(** What reaches the module: the requests of a caller's scope, those of a node, the certificates of
    the acme module, the release of a deleted instance, and the ticker's sweep. *)
Inductive request :=
| ReqCreate (sc : Scope) (req : outcome createRequest)
| ReqList (sc : Scope)
| ReqGet (sc : Scope) (id : string)
| ReqDelete (sc : Scope) (id : string)
| ReqAddBackend (sc : Scope) (id : string) (req : outcome string)
| ReqRemoveBackend (sc : Scope) (id instanceID : string)
| ReqSetRoutes (sc : Scope) (id : string) (req : outcome (list routeRequest))
| ReqSetCertificate (sc : Scope) (id : string) (req : outcome certificateRequest)
| ReqRemoveCertificate (sc : Scope) (id : string)
| ReqListForNode (nodeID : string)
| ReqReportHealth (nodeID : string) (req : outcome (list healthEntry))
| ReqRelease (instanceID : string)
| ReqSweep.

Definition noted {A} (m : M S A) : M S (Reply body) := m ;;; WriteHeader StatusOK.

(* go: platform/balancer/module.go Module.Routes *)
Definition serve (r : request) : M S (Reply body) :=
  match r with
  | ReqCreate sc req => handle_create sc req
  | ReqList sc => handle_list sc
  | ReqGet sc id => handle_get sc id
  | ReqDelete sc id => handle_delete sc id
  | ReqAddBackend sc id req => handle_addBackend sc id req
  | ReqRemoveBackend sc id instanceID => handle_removeBackend sc id instanceID
  | ReqSetRoutes sc id req => handle_setRoutes sc id req
  | ReqSetCertificate sc id req => handle_setCertificate sc id req
  | ReqRemoveCertificate sc id => handle_removeCertificate sc id
  | ReqListForNode nodeID => handle_listForNode
  | ReqReportHealth nodeID req => handle_reportHealth nodeID req
  | ReqRelease instanceID => noted (releaseInstance instanceID)
  | ReqSweep => noted (sweepCertificates has_events)
  end.
End handlers.

(** * The state machine the module promises

    Who moves the tables: a tenant through the API, a node with its reports, the deletion of an
    instance.  [knows i m] is what the answers of [Members] are known to satisfy: [m] is a true
    account of instance [i]. *)
Inductive actor := Tenant (projectID : string) | NodeOf (nodeID : string) | Deletion (instanceID : string) | Ticker.

Definition set_balancers (rows : list Balancer) (db : BalancerDB) : BalancerDB := MkBalancerDB rows (bd_backends db) (bd_health db) (bd_routes db).
Definition set_backends (rows : list BackendRow) (db : BalancerDB) : BalancerDB := MkBalancerDB (bd_balancers db) rows (bd_health db) (bd_routes db).
Definition set_health (rows : list HealthRow) (db : BalancerDB) : BalancerDB := MkBalancerDB (bd_balancers db) (bd_backends db) rows (bd_routes db).
Definition set_routes (rows : list RouteRow) (db : BalancerDB) : BalancerDB := MkBalancerDB (bd_balancers db) (bd_backends db) (bd_health db) rows.

(** A well-formed balancer. *)
Record row_ok (b : Balancer) : Prop := {
  ro_name : validate_Name "name" (b_Name b) = Ok tt;
  ro_protocol : b_Protocol b ∈ Protocols;
  ro_algorithm : b_Algorithm b ∈ Algorithms;
  ro_family : b_Family b ∈ Families;
  ro_listen : MinPort <= b_ListenPort b <= MaxPort;
  ro_target : MinPort <= b_TargetPort b <= MaxPort;
  ro_check : b_Check b ∈ Checks;
  ro_http : b_Check b = CheckHTTP -> b_Protocol b = ProtocolTCP /\ has_prefix (b_CheckPath b) "/" = true /\
              slen (b_CheckPath b) <= MaxPathLength /\ has_blank (b_CheckPath b) = false;
  ro_limits : if String.eqb (b_Check b) CheckNone then b_Rise b = 0 /\ b_Fall b = 0
              else 1 <= b_Rise b <= MaxThreshold /\ 1 <= b_Fall b <= MaxThreshold;
  ro_bare : b_Backends b = [] /\ b_Routes b = [];
}.
(** What may lead by host and path: a stream of requests, and no backends of a service. *)
Definition may_route (b : Balancer) : Prop :=
  b_Protocol b = ProtocolTCP /\ b_Algorithm b = AlgorithmRoundRobin /\ b_ServiceID b = "".
(** A well-formed route. *)
Definition match_ok (host path : string) : Prop :=
  (host = "" \/ slen host <= MaxHostLength /\ re_match hostPattern host = true) /\
  (path = "" \/ has_prefix path "/" = true /\ slen path <= MaxPathLength).
Definition route_row (balancerID : string) (r : Route) : RouteRow := MkRouteRow balancerID (rt_Host r) (rt_Path r) (rt_ServiceID r).
Definition host_path (r : Route) : string * string := (rt_Host r, rt_Path r).

Definition slash : Ascii.ascii := Ascii.ascii_of_N 47.
Definition no_slash (s : string) : Prop := slash ∉ bytes_of s.

Section machine.
Context (knows : string -> Member_ -> Prop) (claims : string -> Z -> Prop).

Definition attachable (db : BalancerDB) (b : Balancer) (i : string) : Prop :=
  b ∈ bd_balancers db /\ b_ServiceID b = "" /\ (exists m, knows i m /\ mb_ProjectID m = b_ProjectID b) /\
  (existsb (backend_is (b_ID b) i) (bd_backends db) = true \/ len (List.filter (backend_of (b_ID b)) (bd_backends db)) < MaxBackends).

Inductive change (a : actor) (db : BalancerDB) : BalancerDB -> Prop :=
| C_create b : a = Tenant (b_ProjectID b) -> classify (bd_balancers db) b = None -> row_ok b -> claims (b_Protocol b) (b_ListenPort b) ->
    change a db (set_balancers (bd_balancers db ++ [b]) db)
| C_attach b i at_ : a = Tenant (b_ProjectID b) -> attachable db b i ->
    change a db (set_backends (attach (b_ID b) i at_ (bd_backends db)) db)
| C_detach b i : a = Tenant (b_ProjectID b) -> b ∈ bd_balancers db ->
    change a db (set_backends (List.filter (fun r => negb (backend_is (b_ID b) i r)) (bd_backends db)) db)
| C_forget b i : a = Tenant (b_ProjectID b) -> b ∈ bd_balancers db ->
    change a db (set_health (List.filter (fun h => negb (health_is (b_ID b) i h)) (bd_health db)) db)
| C_remove b : a = Tenant (b_ProjectID b) -> b ∈ bd_balancers db ->
    change a db (MkBalancerDB (List.filter (fun x => negb (has_id (b_ID b) x)) (bd_balancers db))
      (List.filter (fun r => negb (backend_of (b_ID b) r)) (bd_backends db))
      (List.filter (fun h => negb (health_of (b_ID b) h)) (bd_health db))
      (List.filter (fun r => negb (route_of (b_ID b) r)) (bd_routes db)))
| C_tls b t : a = Tenant (b_ProjectID b) -> b ∈ bd_balancers db ->
    change a db (set_balancers (map (fun x => if has_id (b_ID b) x then with_tls t x else x) (bd_balancers db)) db)
| C_routes b routes : a = Tenant (b_ProjectID b) -> b ∈ bd_balancers db -> routes = [] \/ may_route b ->
    Forall (fun r => match_ok (rt_Host r) (rt_Path r) /\ rt_ServiceID r <> "") routes -> NoDup (map host_path routes) ->
    len routes <= MaxRoutes ->
    change a db (set_routes (List.filter (fun r => negb (route_of (b_ID b) r)) (bd_routes db) ++ map (route_row (b_ID b)) routes) db)
| C_health n b r m at_ : a = NodeOf n -> b ∈ bd_balancers db -> b_ID b = re_BalancerID r -> knows (re_InstanceID r) m ->
    mb_NodeID m = n -> n <> "" -> slen (re_Reason r) <= MaxPathLength ->
    change a db (set_health (save_report at_ (bd_health db) r) db)
| C_release i : a = Deletion i ->
    change a db (MkBalancerDB (bd_balancers db) (List.filter (fun r => negb (String.eqb (br_Instance r) i)) (bd_backends db))
      (List.filter (fun h => negb (String.eqb (hr_Instance h) i)) (bd_health db)) (bd_routes db)).

Definition history (a : actor) : BalancerDB -> BalancerDB -> Prop := rtc (change a).
#[export] Instance history_preorder a : PreOrder (history a).
Proof. unfold history. typeclasses eauto. Qed.

(** * Well-formed tables *)

Definition owner (db : BalancerDB) (id : string) (P : Balancer -> Prop) : Prop := exists b, b ∈ bd_balancers db /\ b_ID b = id /\ P b.

Record bal_inv (db : BalancerDB) : Prop := {
  bi_id : unique_by (fun b => Some (b_ID b)) (bd_balancers db);
  bi_name : unique_by (fun b => Some (b_ProjectID b, b_Name b)) (bd_balancers db);
  bi_port : unique_by (fun b => Some (b_Protocol b, b_ListenPort b)) (bd_balancers db);
  bi_row : Forall row_ok (bd_balancers db);
  bi_backend : unique_by (fun r => Some (br_Balancer r, br_Instance r)) (bd_backends db);
  bi_backend_of : Forall (fun r => owner db (br_Balancer r) (fun b => b_ServiceID b = "" /\
                    exists m, knows (br_Instance r) m /\ mb_ProjectID m = b_ProjectID b)) (bd_backends db);
  bi_backends : forall id, len (List.filter (backend_of id) (bd_backends db)) <= MaxBackends;
  bi_health : unique_by (fun h => Some (hr_Balancer h, hr_Instance h)) (bd_health db);
  bi_health_of : Forall (fun h => owner db (hr_Balancer h) (fun _ => True)) (bd_health db);
  bi_reason : Forall (fun h => slen (hr_Reason h) <= MaxPathLength) (bd_health db);
  bi_route : unique_by (fun r => Some (rr_Balancer r, rr_Host r, rr_Path r)) (bd_routes db);
  bi_route_of : Forall (fun r => owner db (rr_Balancer r) may_route) (bd_routes db);
  bi_match : Forall (fun r => match_ok (rr_Host r) (rr_Path r) /\ rr_Service r <> "") (bd_routes db);
  bi_routes : forall id, len (List.filter (route_of id) (bd_routes db)) <= MaxRoutes;
}.
End machine.

Section preservation.
Context (knows : string -> Member_ -> Prop) (claims : string -> Z -> Prop).

Lemma owner_weaken db db' id (P Q : Balancer -> Prop) : owner db id P ->
  (forall b, b ∈ bd_balancers db -> b_ID b = id -> P b -> exists b', b' ∈ bd_balancers db' /\ b_ID b' = id /\ Q b') -> owner db' id Q.
Proof. intros (b & Hb & Hid & HP) H. by apply (H b). Qed.

Lemma owner_unique db b id P : bal_inv knows db -> owner db id P -> b ∈ bd_balancers db -> b_ID b = id -> P b.
Proof.
  intros Hi (b' & Hb' & Hid' & HP) Hb Hid. rewrite (unique_by_eq _ _ b b' id (bi_id _ _ Hi)) by (done || congruence). done.
Qed.

(** Rows that go leave well-formed tables. *)
Lemma shrunk_inv db p q r : bal_inv knows db ->
  bal_inv knows (MkBalancerDB (bd_balancers db) (List.filter p (bd_backends db)) (List.filter q (bd_health db)) (List.filter r (bd_routes db))).
Proof.
  intros []. constructor; cbn [bd_balancers bd_backends bd_health bd_routes]; try done;
    try (by apply unique_by_filter); try (by apply Forall_filter_bool);
    intros id; (etransitivity; [apply filter_filter_le|done]).
Qed.

Lemma bal_create_inv db b : classify (bd_balancers db) b = None -> row_ok b -> bal_inv knows db ->
  bal_inv knows (set_balancers (bd_balancers db ++ [b]) db).
Proof.
  unfold classify. destruct (existsb (on_port _ _) _) eqn:E1; [done|]. destruct (existsb (named _ _) _) eqn:E2; [done|].
  destruct (existsb (has_id _) _) eqn:E3; [done|]. intros _ Hb []. rewrite existsb_false, Forall_forall in E1, E2, E3.
  assert (Hown : forall id P, owner db id P -> owner (set_balancers (bd_balancers db ++ [b]) db) id P).
  { intros id P (x & Hx & ? & ?). exists x. simpl. split; [set_solver|done]. }
  constructor; cbn [set_balancers bd_balancers bd_backends bd_health bd_routes]; try done.
  - apply unique_by_app; [done|]. intros x k Hx Ex Eb. specialize (E3 x Hx). unfold has_id in E3.
    assert (b_ID x = b_ID b) as H by congruence. by rewrite H, String.eqb_refl in E3.
  - apply unique_by_app; [done|]. intros x k Hx Ex Eb. specialize (E2 x Hx). unfold named in E2.
    assert (b_ProjectID x = b_ProjectID b /\ b_Name x = b_Name b) as [H1 H2] by (split; congruence). by rewrite H1, H2, !String.eqb_refl in E2.
  - apply unique_by_app; [done|]. intros x k Hx Ex Eb. specialize (E1 x Hx). unfold on_port in E1.
    assert (b_Protocol x = b_Protocol b /\ b_ListenPort x = b_ListenPort b) as [H1 H2] by (split; congruence).
    by rewrite H1, H2, String.eqb_refl, Z.eqb_refl in E1.
  - by rewrite Forall_app, Forall_singleton.
  - eapply Forall_impl; [exact bi_backend_of0|]. intros r. apply Hown.
  - eapply Forall_impl; [exact bi_health_of0|]. intros r. apply Hown.
  - eapply Forall_impl; [exact bi_route_of0|]. intros r. apply Hown.
Qed.

Lemma attach_inv db b i at_ : attachable knows db b i -> bal_inv knows db ->
  bal_inv knows (set_backends (attach (b_ID b) i at_ (bd_backends db)) db).
Proof.
  intros (Hb & Hs & Hm & Hc) Hi. unfold attach. destruct (existsb (backend_is (b_ID b) i) (bd_backends db)) eqn:E; [by destruct db|].
  destruct Hc as [Hc|Hc]; [done|]. rewrite existsb_false, Forall_forall in E. destruct Hi.
  constructor; cbn [set_backends bd_balancers bd_backends bd_health bd_routes]; try done.
  - apply unique_by_app; [done|]. intros x k Hx Ex Eb. specialize (E x Hx). unfold backend_is, backend_of in E. simpl in Eb.
    assert (br_Balancer x = b_ID b /\ br_Instance x = i) as [H1 H2] by (split; congruence). by rewrite H1, H2, !String.eqb_refl in E.
  - rewrite Forall_app, Forall_singleton. split; [done|]. by exists b.
  - intros id. rewrite List.filter_app, length_app. cbn [List.filter]. unfold backend_of at 2. cbn [br_Balancer].
    destruct (String.eqb_spec (b_ID b) id) as [<-|_]; simpl; [lia|]. specialize (bi_backends0 id). lia.
Qed.

Lemma bal_remove_inv db b : bal_inv knows db ->
  bal_inv knows (MkBalancerDB (List.filter (fun x => negb (has_id (b_ID b) x)) (bd_balancers db))
      (List.filter (fun r => negb (backend_of (b_ID b) r)) (bd_backends db))
      (List.filter (fun h => negb (health_of (b_ID b) h)) (bd_health db))
      (List.filter (fun r => negb (route_of (b_ID b) r)) (bd_routes db))).
Proof.
  intros Hi. pose proof (shrunk_inv db (fun r => negb (backend_of (b_ID b) r)) (fun h => negb (health_of (b_ID b) h))
    (fun r => negb (route_of (b_ID b) r)) Hi) as Hs. destruct Hi, Hs; cbn [bd_balancers bd_backends bd_health bd_routes] in *.
  assert (Hown : forall id P, id <> b_ID b -> owner db id P ->
    exists x, x ∈ List.filter (fun x => negb (has_id (b_ID b) x)) (bd_balancers db) /\ b_ID x = id /\ P x).
  { intros id P Hid (x & Hx & Ex & HP). exists x. split; [|done]. apply elem_of_filter_bool. split; [done|].
    apply negb_true_iff, String.eqb_neq. congruence. }
  constructor; cbn [bd_balancers bd_backends bd_health bd_routes]; try done;
    try (by apply unique_by_filter); try (by apply Forall_filter_bool);
    apply Forall_forall; intros r [Hr Hn]%elem_of_filter_bool; apply negb_true_iff, String.eqb_neq in Hn;
    apply Hown; try done; [rewrite Forall_forall in bi_backend_of0|rewrite Forall_forall in bi_health_of0|rewrite Forall_forall in bi_route_of0]; auto.
Qed.

Lemma map_unique_key {R K} (key : R -> K) (f : R -> R) rows : (forall r, key (f r) = key r) ->
  unique_by (fun r => Some (key r)) rows -> unique_by (fun r => Some (key r)) (map f rows).
Proof. intros Hf. apply unique_by_map. intros r. by rewrite Hf. Qed.

Lemma tls_inv db id t : bal_inv knows db ->
  bal_inv knows (set_balancers (map (fun x => if has_id id x then with_tls t x else x) (bd_balancers db)) db).
Proof.
  intros []. set (f := fun x => if has_id id x then with_tls t x else x).
  assert (Hf : forall (K : Type) (g : Balancer -> K), (forall x, g (with_tls t x) = g x) -> forall x, g (f x) = g x).
  { intros K g Hg x. unfold f. by destruct (has_id id x). }
  assert (Hown : forall i (P : Balancer -> Prop), (forall x, P x -> P (with_tls t x)) -> owner db i P ->
    owner (set_balancers (map f (bd_balancers db)) db) i P).
  { intros i P HP (x & Hx & Ex & H). exists (f x). simpl. split; [by apply list_elem_of_fmap_2|].
    rewrite (Hf _ b_ID) by done. split; [done|]. unfold f. destruct (has_id id x); auto. }
  constructor; cbn [set_balancers bd_balancers bd_backends bd_health bd_routes]; try done.
  - apply (map_unique_key b_ID); [by apply (Hf _ b_ID)|done].
  - apply (map_unique_key (fun b => (b_ProjectID b, b_Name b))); [by apply (Hf _ (fun b => (b_ProjectID b, b_Name b)))|done].
  - apply (map_unique_key (fun b => (b_Protocol b, b_ListenPort b))); [by apply (Hf _ (fun b => (b_Protocol b, b_ListenPort b)))|done].
  - apply Forall_map. eapply Forall_impl; [exact bi_row0|]. intros x Hx. unfold f. destruct (has_id id x); [|done]. by destruct Hx.
  - eapply Forall_impl; [exact bi_backend_of0|]. intros r. by apply Hown.
  - eapply Forall_impl; [exact bi_health_of0|]. intros r. by apply Hown.
  - eapply Forall_impl; [exact bi_route_of0|]. intros r. by apply Hown.
Qed.

Lemma health_inv db b r at_ : b ∈ bd_balancers db -> b_ID b = re_BalancerID r -> slen (re_Reason r) <= MaxPathLength ->
  bal_inv knows db -> bal_inv knows (set_health (save_report at_ (bd_health db) r) db).
Proof.
  intros Hb Hid Hlen Hi. assert (Ho : owner db (re_BalancerID r) (fun _ => True)) by (by exists b). unfold save_report.
  destruct (existsb _ _) eqn:E; destruct Hi; constructor; cbn [set_health bd_balancers bd_backends bd_health bd_routes]; try done.
  - apply (map_unique_key (fun h => (hr_Balancer h, hr_Instance h))); [|done]. intros h. destruct (health_is _ _ h) eqn:Eh; [|done].
    unfold health_is, health_of in Eh. breflect. simpl. congruence.
  - apply Forall_map. eapply Forall_impl; [exact bi_health_of0|]. intros h Hh. simpl. by destruct (health_is _ _ h).
  - apply Forall_map. eapply Forall_impl; [exact bi_reason0|]. intros h Hh. simpl. by destruct (health_is _ _ h).
  - rewrite existsb_false, Forall_forall in E. apply unique_by_app; [done|]. intros x k Hx Ex Er. specialize (E x Hx).
    unfold health_is, health_of in E. simpl in Er.
    assert (hr_Balancer x = re_BalancerID r /\ hr_Instance x = re_InstanceID r) as [H1 H2] by (split; congruence).
    by rewrite H1, H2, !String.eqb_refl in E.
  - by rewrite Forall_app, Forall_singleton.
  - by rewrite Forall_app, Forall_singleton.
Qed.

Lemma route_of_rows id b routes :
  List.filter (route_of id) (map (route_row (b_ID b)) routes) = if String.eqb (b_ID b) id then map (route_row (b_ID b)) routes else [].
Proof.
  destruct (String.eqb (b_ID b) id) eqn:E.
  - apply filter_all. intros r Hr. apply list_elem_of_fmap in Hr as (x & -> & _). done.
  - apply filter_none. intros r Hr. apply list_elem_of_fmap in Hr as (x & -> & _). done.
Qed.

Lemma routes_inv db b routes : b ∈ bd_balancers db -> routes = [] \/ may_route b ->
  Forall (fun r => match_ok (rt_Host r) (rt_Path r) /\ rt_ServiceID r <> "") routes -> NoDup (map host_path routes) -> len routes <= MaxRoutes ->
  bal_inv knows db ->
  bal_inv knows (set_routes (List.filter (fun r => negb (route_of (b_ID b) r)) (bd_routes db) ++ map (route_row (b_ID b)) routes) db).
Proof.
  intros Hb Hr Hok Hnd Hlen []. constructor; cbn [set_routes bd_balancers bd_backends bd_health bd_routes]; try done.
  - unfold unique_by. rewrite omap_total, map_app. apply NoDup_app. split; [|split].
    + apply NoDup_map_filter. unfold unique_by in bi_route0. by rewrite omap_total in bi_route0.
    + intros k Hk Hk'. apply list_elem_of_fmap in Hk as (x & -> & [Hx Hn]%elem_of_filter_bool).
      apply list_elem_of_fmap in Hk' as (y & Ey & Hy). apply list_elem_of_fmap in Hy as (z & -> & _).
      apply negb_true_iff, String.eqb_neq in Hn. apply Hn. by injection Ey.
    + rewrite map_map. simpl. apply NoDup_fmap_1 with (f := fun k : string * string * string => (k.1.2, k.2)).
      rewrite <- list_fmap_compose. exact Hnd.
  - rewrite Forall_app. split; [by apply Forall_filter_bool|]. apply Forall_map, Forall_forall. intros r Hin. simpl.
    destruct Hr as [->|Hr]; [by apply elem_of_nil in Hin|]. by exists b.
  - rewrite Forall_app. split; [by apply Forall_filter_bool|]. by apply Forall_map.
  - intros id. rewrite List.filter_app, length_app, route_of_rows. pose proof (filter_filter_le (route_of id) (fun r => negb (route_of (b_ID b) r)) (bd_routes db)).
    specialize (bi_routes0 id). destruct (String.eqb_spec (b_ID b) id) as [<-|_].
    + rewrite (filter_none _ (List.filter _ _)); [rewrite length_map; simpl; lia|]. intros r [_ Hn]%elem_of_filter_bool.
      by apply negb_true_iff in Hn.
    + simpl. lia.
Qed.

Lemma bal_change_inv a db db' : change knows claims a db db' -> bal_inv knows db -> bal_inv knows db'.
Proof.
  intros Hc Hi. destruct Hc.
  - by apply bal_create_inv.
  - by apply attach_inv.
  - pose proof (shrunk_inv db (fun r => negb (backend_is (b_ID b) i r)) (fun _ => true) (fun _ => true) Hi) as H'. by rewrite !filter_true in H'.
  - pose proof (shrunk_inv db (fun _ => true) (fun h => negb (health_is (b_ID b) i h)) (fun _ => true) Hi) as H'. by rewrite !filter_true in H'.
  - by apply bal_remove_inv.
  - by apply tls_inv.
  - by apply routes_inv.
  - by eapply health_inv.
  - pose proof (shrunk_inv db (fun r => negb (String.eqb (br_Instance r) i)) (fun h => negb (String.eqb (hr_Instance h) i)) (fun _ => true) Hi) as H'.
    by rewrite filter_true in H'.
Qed.

Lemma bal_history_inv a db db' : history knows claims a db db' -> bal_inv knows db -> bal_inv knows db'.
Proof. induction 1; [done|]. intros Hi. apply IHrtc. by eapply bal_change_inv. Qed.
End preservation.

(** * What the operations do *)

(** A row with its backends and routes. *)
Definition backends_in (db : BalancerDB) (id : string) : list Backend :=
  map (joined (bd_health db)) (sliceStable (by_key br_Instance str_ltb (fun _ _ => false)) (List.filter (backend_of id) (bd_backends db))).
Definition routes_in (db : BalancerDB) (id : string) : list Route :=
  map (fun r => MkRoute (rr_Host r) (rr_Path r) (rr_Service r) [])
    (sliceStable (by_key rr_Host str_ltb (by_key rr_Path str_ltb (fun _ _ => false))) (List.filter (route_of id) (bd_routes db))).
Definition loaded (db : BalancerDB) (row : Balancer) : Balancer := with_members (backends_in db (b_ID row)) (routes_in db (b_ID row)) row.
(** A balancer is shown with other backends, of as many routes. *)
Definition same_head (b b' : Balancer) : Prop :=
  with_members [] [] b' = with_members [] [] b /\ length (b_Routes b') = length (b_Routes b).
Lemma same_head_refl b : same_head b b.
Proof. done. Qed.
Lemma same_head_trans b b' b'' : same_head b b' -> same_head b' b'' -> same_head b b''.
Proof. intros [? ?] [? ?]. split; congruence. Qed.

Lemma Forall2_eq_map {X Y} (f : X -> Y) xs ys : Forall2 (fun x y => y = f x) xs ys -> ys = map f xs.
Proof. induction 1 as [|x y xs ys -> _ IH]; [done|]. by rewrite IH. Qed.

Section reading.
Context {S : Type} `{!Has BalancerDB S}.
Context (members : option (Members S)) (services : option (Services S)).
Context (knows : string -> Member_ -> Prop).
Context (Hmembers : forall ms i (db : BalancerDB), members = Some ms -> yields db (Member ms i) (knows i)).
Context (Hservices : forall sv p id (db : BalancerDB), services = Some sv -> yields db (MembersOf sv p id) (Forall no_slash)).
Implicit Types db : BalancerDB.

Lemma yields_load db q : yields db (load (S:=S) q) (fun bs => bs = map (loaded db) (q (bd_balancers db))).
Proof.
  unfold load. eapply yields_bind; [apply yields_query|]. cbv beta. intros rows [= <-].
  eapply yields_mono; [apply (yields_collect db) with (P := fun row b => b = loaded db row)|by apply Forall2_eq_map].
  intros row out _. eapply yields_bind; [apply yields_query|]. intros backends [= <-].
  eapply yields_bind; [apply yields_query|]. intros routes [= <-]. eapply yields_mono; [apply yields_ret|]. intros ? ->. eauto.
Qed.

Definition found_in db (p : string) (b : Balancer) : Prop :=
  exists row, row ∈ bd_balancers db /\ b_ProjectID row = p /\ b = loaded db row.
Lemma yields_first db q p : (forall row, row ∈ q (bd_balancers db) -> row ∈ bd_balancers db /\ b_ProjectID row = p) ->
  yields db (let! found := load (S:=S) q in lift (first_of found)) (found_in db p).
Proof.
  intros Hq. eapply yields_bind; [apply yields_load|]. intros bs ->. eapply yields_mono; [apply yields_lift|].
  intros b. destruct (q (bd_balancers db)) as [|row rows] eqn:E; [done|]. intros [= <-]. exists row.
  destruct (Hq row) as [? ?]; [set_solver|]. done.
Qed.
Lemma bal_yields_byID db p id : yields db (byID (S:=S) p id) (found_in db p).
Proof. apply yields_first. intros row [Hr Hp]%elem_of_filter_bool. unfold in_project in Hp. by breflect. Qed.
Lemma bal_yields_byName db p n : yields db (byName (S:=S) p n) (found_in db p).
Proof. apply yields_first. intros row [Hr Hp]%elem_of_filter_bool. unfold named in Hp. by breflect. Qed.
Lemma yields_find db p n : yields db (find (S:=S) p n) (found_in db p).
Proof.
  unfold find. eapply yields_bind; [apply yields_attempt, bal_yields_byID|]. intros [b|e] Hb.
  - eapply yields_mono; [apply yields_ret|]. by intros ? ->.
  - destruct (errors_Is _ _); [apply yields_mapped, bal_yields_byName|eapply yields_mono; [apply yields_fail|done]].
Qed.

Lemma yields_true {A} db (m : M S A) P : yields db m P -> yields db m (fun _ => True).
Proof. intros H. by eapply yields_mono. Qed.
Lemma yields_MembersOf db p id : yields db (match services with Some sv => attempt (MembersOf sv p id) | None => ret (Ok []) end)
  (fun r => match r with Ok ids => Forall no_slash ids | Err _ => True end).
Proof.
  destruct services as [sv|] eqn:E; [by apply yields_attempt, Hservices|]. eapply yields_mono; [apply yields_ret|]. by intros ? ->.
Qed.

Definition slashless (b : Balancer) : Prop := Forall (fun k => no_slash (be_InstanceID k)) (b_Backends b).
Definition route_slashless (b : Balancer) : Prop := Forall (fun r => Forall (fun k => no_slash (be_InstanceID k)) (rt_Backends r)) (b_Routes b).

Lemma slashless_reported health ids : Forall no_slash ids -> Forall (fun k => no_slash (be_InstanceID k)) (map (reported health) ids).
Proof. intros H. apply Forall_map. eapply Forall_impl; [exact H|]. intros id Hid. unfold reported. simpl. by destruct (health !! id). Qed.

Lemma yields_membership db b : yields db (membership services b)
  (fun b' => same_head b b' /\ b_Routes b' = b_Routes b /\ (slashless b -> slashless b')).
Proof.
  unfold membership. destruct services as [sv|] eqn:E; [|eapply yields_mono; [apply yields_ret|by intros ? ->]].
  destruct (is_empty _); [eapply yields_mono; [apply yields_ret|by intros ? ->]|].
  eapply yields_bind; [by apply yields_attempt, Hservices|]. intros [ids|e] Hids.
  - eapply yields_bind; [apply yields_query|]. intros health _. eapply yields_mono; [apply yields_ret|]. intros ? ->.
    split; [done|]. split; [done|]. intros _. by apply slashless_reported.
  - eapply yields_mono; [apply yields_ret|]. intros ? ->. split; [done|]. split; [done|]. intros _. constructor.
Qed.

Lemma yields_routeMembership db b : yields db (routeMembership services b)
  (fun b' => same_head b b' /\ b_Backends b' = b_Backends b /\ (route_slashless b -> route_slashless b')).
Proof.
  unfold routeMembership. destruct services as [sv|] eqn:E; [|eapply yields_mono; [apply yields_ret|by intros ? ->]].
  destruct (b_Routes b) as [|r rs] eqn:Er; [eapply yields_mono; [apply yields_ret|]; intros ? ->; split_and!; done|].
  eapply yields_bind; [apply yields_query|]. intros health _. eapply yields_bind; [apply (yields_collect db) with
    (P := fun _ route' => Forall (fun k => no_slash (be_InstanceID k)) (rt_Backends route'))|].
  - intros route out _. eapply yields_bind; [by apply yields_attempt, Hservices|]. intros r0 Hr0.
    eapply yields_mono; [apply yields_ret|]. intros ? ->. eexists. split; [done|]. destruct r0; [by apply slashless_reported|constructor].
  - intros routes Hall. eapply yields_mono; [apply yields_ret|]. intros ? ->. split; [|split; [done|]].
    + split; [done|]. simpl. unfold sortRoutes. rewrite sliceStable_length, Er. symmetry. by apply Forall2_length in Hall.
    + intros _. unfold route_slashless. simpl. unfold sortRoutes. rewrite sliceStable_perm. by apply Forall2_right in Hall.
Qed.

Lemma yields_health_all db ms family check ks : (forall i, yields db (Member ms i) (knows i)) ->
  yields db (health_all ms family check ks) (Forall2 (fun k k' => be_InstanceID k' = be_InstanceID k) ks).
Proof.
  intros Hms. apply yields_collect. intros k out _. eapply yields_bind with (P := fun k' => be_InstanceID k' = be_InstanceID k).
  - unfold health_one. eapply yields_bind; [by apply yields_attempt, Hms|]. intros [m|e] _; [|eapply yields_mono; [apply yields_ret|by intros ? ->]].
    destruct (String.eqb check CheckNone); [eapply yields_mono; [apply yields_ret|by intros ? ->]|].
    eapply yields_bind with (P := fun _ => True); [|intros; eapply yields_mono; [apply yields_ret|by intros ? ->]].
    destruct (is_empty _); [eapply yields_true, yields_ret|]. eapply yields_bind; [apply yields_now|]. intros. eapply yields_true, yields_ret.
  - intros k' Hk. eapply yields_mono; [apply yields_ret|]. intros ? ->. eauto.
Qed.
Lemma yields_withHealth db b : yields db (withHealth members b) (fun b' => same_head b b' /\ b_Routes b' = b_Routes b).
Proof.
  unfold withHealth. destruct members as [ms|] eqn:E; [|eapply yields_mono; [apply yields_ret|by intros ? ->]].
  eapply yields_bind; [by apply yields_health_all; auto|]. intros ks _. eapply yields_mono; [apply yields_ret|]. intros ? ->. done.
Qed.
Lemma yields_withRouteHealth db b : yields db (withRouteHealth members b) (same_head b).
Proof.
  unfold withRouteHealth. destruct members as [ms|] eqn:E; [|eapply yields_mono; [apply yields_ret|by intros ? ->]].
  eapply yields_bind; [apply (yields_collect db) with (P := fun _ _ => True)|].
  - intros r out _. eapply yields_bind; [by apply yields_health_all; auto|]. intros ks _. eapply yields_mono; [apply yields_ret|]. intros ? ->. eauto.
  - intros routes H. eapply yields_mono; [apply yields_ret|]. intros ? ->. split; [done|]. simpl. symmetry. by apply Forall2_length in H.
Qed.
Lemma yields_resolve db b : yields db (resolve members services b) (same_head b).
Proof.
  unfold resolve. eapply yields_bind; [apply yields_membership|]. intros b1 (H1 & _ & _).
  eapply yields_bind; [apply yields_routeMembership|]. intros b2 (H2 & _ & _). eapply yields_bind; [apply yields_withHealth|]. intros b3 [H3 _].
  eapply yields_mono; [apply yields_withRouteHealth|]. intros b4 H4. by repeat (eapply same_head_trans; [eassumption|]).
Qed.
Definition shown_in db (p : string) (b : Balancer) : Prop :=
  exists row, row ∈ bd_balancers db /\ b_ProjectID row = p /\ same_head (loaded db row) b.
Lemma yields_get db p n : yields db (get members services p n) (shown_in db p).
Proof.
  unfold get. eapply yields_bind; [apply yields_find|]. intros b (row & Hr & Hp & ->). eapply yields_mono; [apply yields_resolve|].
  intros b' H. by exists row.
Qed.
Lemma yields_resolve_all db bs : yields db (resolve_all members services bs) (Forall2 same_head bs).
Proof.
  apply yields_collect. intros b out _. eapply yields_bind; [apply yields_resolve|]. intros b' H.
  eapply yields_mono; [apply yields_ret|]. intros ? ->. eauto.
Qed.

Lemma yields_checkMember db p i : yields db (checkMember members p i) (fun _ => exists m, knows i m /\ mb_ProjectID m = p).
Proof.
  unfold checkMember. destruct members as [ms|] eqn:E; [|eapply yields_mono; [apply yields_fail|done]].
  eapply yields_bind; [by apply yields_mapped, Hmembers|]. intros m Hm. eapply yields_mono; [apply yields_lift|].
  intros [] Hg%guard_false. apply negb_false_iff, String.eqb_eq in Hg. eauto.
Qed.
Lemma yields_check_instances db p insts : yields db (check_instances members p insts)
  (fun seen => Forall (fun i => exists m, knows i m /\ mb_ProjectID m = p) seen /\ NoDup seen /\ len seen <= len insts).
Proof.
  unfold check_instances. cut (forall todo seen, Forall (fun i => exists m, knows i m /\ mb_ProjectID m = p) seen -> NoDup seen ->
    yields db (foldM (fun id seen => if existsb (String.eqb id) seen then ret seen else checkMember members p id ;;; ret (seen ++ [id])) todo seen)
      (fun seen' => Forall (fun i => exists m, knows i m /\ mb_ProjectID m = p) seen' /\ NoDup seen' /\ len seen' <= len todo + len seen)).
  { intros H. eapply yields_mono; [apply H; constructor|]. simpl. intros seen. by rewrite Z.add_0_r. }
  induction todo as [|i todo IH]; intros seen Hs Hn; cbn [foldM].
  - eapply yields_mono; [apply yields_ret|]. intros ? ->. split_and!; [done..|simpl; lia].
  - destruct (existsb (String.eqb i) seen) eqn:E.
    + eapply yields_bind; [apply yields_ret|]. intros ? ->. eapply yields_mono; [by apply IH|]. simpl. intros s (?&?&?). split_and!; [done..|lia].
    + rewrite existsb_false, Forall_forall in E. eapply yields_bind with (P := fun s => s = seen ++ [i] /\ exists m, knows i m /\ mb_ProjectID m = p).
      { eapply yields_bind; [apply yields_checkMember|]. intros [] Hm. eapply yields_mono; [apply yields_ret|]. by intros ? ->. }
      intros ? [-> Hm]. eapply yields_mono; [apply IH|].
      * by rewrite Forall_app, Forall_singleton.
      * apply NoDup_app. split_and!; [done| |apply NoDup_singleton]. intros x Hx Ex%list_elem_of_singleton. subst x. specialize (E i Hx). by rewrite String.eqb_refl in E.
      * simpl. intros s (?&?&H). split_and!; [done..|]. rewrite length_app in H. simpl in H. lia.
Qed.
End reading.

(** ** What the checks let through *)

Lemma checkPort_ok field port u : checkPort field port = Ok u -> MinPort <= port <= MaxPort.
Proof. unfold checkPort. intros H%guard_false. apply orb_false_iff in H as [?%Z.ltb_ge ?%Z.ltb_ge]. lia. Qed.

Lemma checkTarget_ok check path protocol path' : checkTarget check path protocol = Ok path' ->
  check = CheckHTTP -> protocol = ProtocolTCP /\ has_prefix path' "/" = true /\ slen path' <= MaxPathLength /\ has_blank path' = false.
Proof.
  unfold checkTarget. intros H ->. rewrite String.eqb_refl in H. cbn [negb] in H. cbv zeta in H.
  destruct (has_prefix _ _) eqn:E1; [|done]. destruct (MaxPathLength <? _) eqn:E2; [done|]. destruct (has_blank _) eqn:E3; [done|].
  destruct (String.eqb_spec protocol ProtocolTCP) as [->|]; [|done]. injection H as <-. by apply Z.ltb_ge in E2.
Qed.

Lemma thresholds_ok rf check rise fall l : thresholds rf check rise fall = Ok l ->
  if String.eqb check CheckNone then fst l = 0 /\ snd l = 0 else 1 <= fst l <= MaxThreshold /\ 1 <= snd l <= MaxThreshold.
Proof.
  unfold thresholds. destruct (String.eqb check CheckNone).
  - destruct (_ || _) eqn:E; [done|]. intros [= <-]. apply orb_false_iff in E as [E1 E2]. simpl.
    destruct (Z.eqb_spec rise 0), (Z.eqb_spec fall 0); done.
  - cbv zeta. intros H. unbind H. injection H as <-. simpl. unfold bad_threshold, guard in *.
    destruct rf; repeat match goal with H : (if ?b then _ else _) = Ok _ |- _ => destruct b eqn:?; [done|clear H] end;
      repeat match goal with H : _ || _ = false |- _ => apply orb_false_iff in H as [?%Z.ltb_ge ?%Z.ltb_ge] end; lia.
Qed.

Lemma trimmed_path path : has_prefix path "/" = true -> slen path <= MaxPathLength ->
  trim_suffix path "/" = "" \/ has_prefix (trim_suffix path "/") "/" = true /\ slen (trim_suffix path "/") <= MaxPathLength.
Proof.
  intros Hp Hl. unfold trim_suffix. destruct (has_suffix path "/"); [|auto]. rewrite str_take_spec.
  apply has_prefix_spec in Hp as [r Hr]. rewrite slen_bytes in *. rewrite Hr in *. cbn [bytes_of app] in *.
  destruct (Z.to_nat _) as [|n]; [by left|right]. cbn [take]. split; [apply has_prefix_spec; exists (take n r); by rewrite bytes_of_of|]. rewrite slen_bytes, bytes_of_of.
  cbn [length] in *. rewrite length_take. lia.
Qed.

Lemma normalize_one_ok one one' : normalize_one one = Ok one' -> match_ok (rq_Host one') (rq_Path one') /\ rq_Service one' <> "".
Proof.
  unfold normalize_one. cbv zeta. set (host := to_lower _). set (path := trim_space _).
  destruct (is_empty (rq_Service one)) eqn:E0; [done|]. destruct (_ && (_ || _)) eqn:E1; [done|].
  destruct (negb (is_empty path) && negb _) eqn:E2; [done|]. destruct (negb (is_empty path) && (MaxPathLength <? _)) eqn:E3; [done|]. intros [= <-]. simpl.
  split; [|by apply is_empty_false]. split.
  - destruct (is_empty host) eqn:Eh; [left; by apply is_empty_spec|right]. cbn [negb andb] in E1. apply orb_false_iff in E1 as [?%Z.ltb_ge ?%negb_false_iff]. done.
  - destruct (is_empty path) eqn:Ep; [by left|]. cbn [negb andb] in E2, E3. apply negb_false_iff in E2. apply Z.ltb_ge in E3.
    apply trimmed_path; done.
Qed.

(** The key of a match tells hosts and paths apart: what was kept of a host has no NUL. *)
Lemma host_no_nul host : host = "" \/ slen host <= MaxHostLength /\ re_match hostPattern host = true -> no_nul host.
Proof.
  unfold no_nul. intros [->|[_ H]]; [apply not_elem_of_nil|]. intros Hin. apply re_match_spec in H.
  apply (lang_chars (fun c => c <> Ascii.zero)) in H; [|by repeat split; intros c Hc ->].
  rewrite Forall_forall in H. by apply (H _ Hin).
Qed.
Lemma route_key_inj one two : no_nul (rq_Host one) -> no_nul (rq_Host two) -> route_key one = route_key two ->
  rq_Host one = rq_Host two /\ rq_Path one = rq_Path two.
Proof.
  unfold route_key. intros H1 H2 E. pose proof (cut_nul_app _ (rq_Path one) H1) as E1. rewrite E, (cut_nul_app _ _ H2) in E1.
  by injection E1 as -> ->.
Qed.

Lemma normalize_all_ok params : forall seen out routes, normalize_all params seen out = Ok routes ->
  Forall (fun r => match_ok (rq_Host r) (rq_Path r) /\ rq_Service r <> "") out -> NoDup (map route_key out) -> seen = rev (map route_key out) ->
  Forall (fun r => match_ok (rq_Host r) (rq_Path r) /\ rq_Service r <> "") routes /\ NoDup (map route_key routes) /\ len routes = len params + len out.
Proof.
  induction params as [|one params IH]; intros seen out routes; cbn [normalize_all].
  - intros [= <-] ? ? _. split_and!; [done..|simpl; lia].
  - intros H Hall Hnd ->. unbind H. destruct (existsb _ _) eqn:E; [done|]. apply normalize_one_ok in Hok.
    rewrite existsb_false, Forall_forall in E. edestruct (IH _ _ _ H) as (?&?&Hl).
    + by rewrite Forall_app, Forall_singleton.
    + rewrite map_app. apply NoDup_app. split_and!; [done| |apply NoDup_singleton]. intros k Hk Ek%list_elem_of_singleton. subst k.
      specialize (E (route_key x)). rewrite String.eqb_refl in E. apply diff_true_false, E. apply list_elem_of_In. rewrite <- in_rev. by apply list_elem_of_In.
    + by rewrite map_app, rev_app_distr.
    + split_and!; [done..|]. rewrite Hl, length_app. simpl. lia.
Qed.
Lemma normalizeRoutes_ok params routes : normalizeRoutes params = Ok routes ->
  Forall (fun r => match_ok (rt_Host r) (rt_Path r) /\ rt_ServiceID r <> "") (map kept routes) /\
  NoDup (map host_path (map kept routes)) /\ len (map kept routes) <= MaxRoutes /\ len routes = len params.
Proof.
  unfold normalizeRoutes. destruct (MaxRoutes <? len params) eqn:E; [done|]. intros H. apply Z.ltb_ge in E.
  apply normalize_all_ok in H as (Hall & Hnd & Hlen); [|constructor..|done]. split; [by apply Forall_map|]. split; [|rewrite length_map; simpl in *; lia].
  clear -Hall Hnd. rewrite map_map. induction routes as [|r rs IH]; simpl; [constructor|]. apply Forall_cons in Hall as [[[Hh _] _] Hall].
  simpl in Hnd. apply NoDup_cons in Hnd as [Hn Hnd]. apply NoDup_cons. split; [|auto]. intros Hin. apply Hn.
  apply list_elem_of_fmap in Hin as (r' & E & Hr'). rewrite Forall_forall in Hall. destruct (Hall r' Hr') as [[Hh' _] _].
  injection E as E1 E2. unfold route_key. rewrite E1, E2. apply list_elem_of_fmap. by exists r'.
Qed.

Lemma bal_check_params_ok rf params k : check_params rf params = Ok k ->
  (forall b, b_Name b = cp_Name params -> b_Protocol b = ck_Protocol k -> b_Algorithm b = ck_Algorithm k -> b_Family b ∈ Families ->
     b_ListenPort b = ck_ListenPort k -> b_TargetPort b = cp_TargetPort params -> b_Check b = ck_Check k -> b_CheckPath b = ck_CheckPath k ->
     b_Rise b = ck_Rise k -> b_Fall b = ck_Fall k -> b_Backends b = [] -> b_Routes b = [] -> row_ok b) /\
  (map kept (ck_Routes k) = [] \/ ck_Protocol k = ProtocolTCP /\ ck_Algorithm k = AlgorithmRoundRobin /\ cp_ServiceID params = "" /\ cp_Instances params = []) /\
  Forall (fun r => match_ok (rt_Host r) (rt_Path r) /\ rt_ServiceID r <> "") (map kept (ck_Routes k)) /\
  NoDup (map host_path (map kept (ck_Routes k))) /\ len (map kept (ck_Routes k)) <= MaxRoutes.
Proof.
  unfold check_params. intros H. unbind H. injection H as <-.
  repeat match goal with H : guard _ _ = Ok ?u |- _ => apply guard_false in H | u : unit |- _ => destruct u end.
  repeat match goal with H : validate_OneOf _ _ _ = Ok _ |- _ => apply validate_OneOf_ok in H | H : checkPort _ _ = Ok _ |- _ => apply checkPort_ok in H
    | H : thresholds _ _ _ _ = Ok _ |- _ => apply thresholds_ok in H | H : normalizeRoutes _ = Ok _ |- _ => apply normalizeRoutes_ok in H as (Hm & Hd & Hl & _) end.
  cbn [ck_Protocol ck_Algorithm ck_ListenPort ck_Check ck_CheckPath ck_Rise ck_Fall ck_Routes].
  split; [|split; [|done]].
  - intros b E1 E2 E3 E4 E5 E6 E7 E8 E9 E10 E11 E12. constructor; rewrite ?E1, ?E2, ?E3, ?E5, ?E6, ?E7, ?E8, ?E9, ?E10; try done.
    intros Hc. match goal with H : checkTarget _ _ _ = Ok _ |- _ => by apply checkTarget_ok in H end.
  - match goal with |- map kept ?l = [] \/ _ => destruct l as [|r rs] eqn:Er; [by left|right] end. cbn [length] in *.
    rewrite (proj2 (Z.ltb_lt 0 (Z.of_nat (Datatypes.S (length rs))))) in * by lia. cbn [andb] in *.
    repeat match goal with H : _ || _ = false |- _ => apply orb_false_iff in H as [? ?] end.
    split_and!.
    + match goal with H : ?x ∈ Protocols |- _ = ProtocolTCP => unfold Protocols in H; apply elem_of_cons in H as [?|?%list_elem_of_singleton]; [done|] end.
      match goal with H : String.eqb ?x ProtocolUDP = false, H' : ?x = ProtocolUDP |- _ => by rewrite H', String.eqb_refl in H end.
    + match goal with H : ?x ∈ Algorithms |- _ = AlgorithmRoundRobin => unfold Algorithms in H; apply elem_of_cons in H as [?|?%list_elem_of_singleton]; [done|] end.
      match goal with H : String.eqb ?x AlgorithmSourceHash = false, H' : ?x = AlgorithmSourceHash |- _ => by rewrite H', String.eqb_refl in H end.
    + by apply is_empty_spec, negb_false_iff.
    + destruct (cp_Instances params); [done|]. by rewrite (proj2 (Z.ltb_lt _ _)) in * by (simpl; lia).
Qed.

Lemma check_params_port rf params k : check_params rf params = Ok k -> asked_port params = (ck_Protocol k, ck_ListenPort k).
Proof. unfold check_params. cbv zeta. intros Hk. unbind Hk. by injection Hk as <-. Qed.

Lemma insert_routes_ok id routes : forall rows,
  (forall r x, r ∈ routes -> x ∈ rows -> route_clash (route_row id r) x = false) -> NoDup (map host_path routes) ->
  insert_routes id routes rows = (Ok tt, rows ++ map (route_row id) routes).
Proof.
  induction routes as [|r routes IH]; intros rows Hc Hnd; cbn [insert_routes map]; [by rewrite app_nil_r|].
  apply NoDup_cons in Hnd as [Hn Hnd]. fold (route_row id r). unfold insert_row.
  rewrite (proj2 (existsb_false _ _)) by (apply Forall_forall; intros x Hx; apply Hc; [set_solver|done]). rewrite IH.
  - by rewrite <- app_assoc.
  - intros r' x Hr' [Hx|Hx%list_elem_of_singleton]%elem_of_app; [apply Hc; [set_solver|done]|]. subst x. unfold route_clash.
    cbn [route_row rr_Host rr_Path]. destruct (String.eqb_spec (rt_Host r) (rt_Host r')) as [E1|]; [|by rewrite andb_false_r].
    destruct (String.eqb_spec (rt_Path r) (rt_Path r')) as [E2|]; [|by rewrite andb_false_r].
    exfalso. apply Hn. apply list_elem_of_fmap. exists r'. unfold host_path. by rewrite E1, E2.
  - done.
Qed.

Lemma app_last_inv {A} (c : A) l l' r r' : l ++ c :: r = l' ++ c :: r' -> c ∉ r -> c ∉ r' -> l = l' /\ r = r'.
Proof.
  revert l'. induction l as [|a l IH]; intros [|a' l'] E Hr Hr'; simpl in E.
  - by injection E as ->.
  - injection E as -> E. subst r. set_solver.
  - injection E as -> E. subst r'. set_solver.
  - injection E as -> E. destruct (IH l' E Hr Hr') as [-> ->]. done.
Qed.
Lemma key_of_inj b i b' i' : no_slash i -> no_slash i' -> key_of b i = key_of b' i' -> b = b' /\ i = i'.
Proof.
  unfold key_of, no_slash. intros Hi Hi' E. apply (f_equal bytes_of) in E. rewrite !bytes_of_app in E. cbn [bytes_of app] in E.
  apply app_last_inv in E as [E1 E2]; [|done..]. split; by apply bytes_of_inj.
Qed.

Lemma fold_left_over_map {A B C} (f : A -> C -> A) (g : B -> C) l a : fold_left f (map g l) a = fold_left (fun a x => f a (g x)) l a.
Proof. revert a. induction l as [|x l IH]; intros a; [done|]. apply IH. Qed.

Section operations.
Context {S : Type} `{!Has BalancerDB S, !Has Told S, !Apart Told BalancerDB S} `{!X509, !PEM}.
Context (c : AEAD) (keys : option Keyring).
Context (members : option (Members S)) (ports : option (Ports S)) (services : option (Services S)) (has_events : bool).
Context (knows : string -> Member_ -> Prop) (claims : string -> Z -> Prop).
Context (Hmembers : forall ms i (db : BalancerDB), members = Some ms -> yields db (Member ms i) (knows i)).
Context (Hslash : forall i m, knows i m -> no_slash i).
Context (Hservices : forall sv p id (db : BalancerDB), services = Some sv -> yields db (MembersOf sv p id) (Forall no_slash)).
Context (Hports : forall ps pr n, ports = Some ps -> leaves BalancerDB (NodePortTaken ps pr n)).
Implicit Types db : BalancerDB.

Lemma bal_yields_ids db prefix : yields db (ids_New (S:=S) prefix) (fun _ => True).
Proof. apply yields_leaves. unfold ids_New. auto with leaves. Qed.
Lemma yields_checkRoutes db p routes : yields db (checkRoutes services p routes) (fun _ => True).
Proof.
  unfold checkRoutes. destruct services as [sv|] eqn:E; [|eapply yields_true, yields_ret].
  apply yields_foldM; [|done]. intros r [] _ _. eapply yields_bind; [by apply yields_mapped, Hservices|]. intros. eapply yields_true, yields_ret.
Qed.
Lemma yields_check_service db p id : yields db (check_service services p id) (fun _ => True).
Proof.
  unfold check_service. destruct (is_empty id); [eapply yields_true, yields_ret|]. destruct services as [sv|] eqn:E; [|eapply yields_true, yields_fail].
  eapply yields_bind; [by apply yields_mapped, Hservices|]. intros. eapply yields_true, yields_ret.
Qed.
Lemma yields_claimPort db pr n : yields db (claimPort (S:=S) ports pr n) (fun _ => True).
Proof.
  unfold claimPort. eapply yields_bind; [apply yields_query|]. intros taken _. eapply yields_bind; [apply yields_lift|]. intros _ _.
  destruct ports as [ps|] eqn:E; [|eapply yields_true, yields_ret]. eapply yields_bind; [by apply yields_leaves, Hports|].
  intros. eapply yields_true, yields_lift.
Qed.
Lemma bal_leaves_SealBytes plain k : leaves BalancerDB (SealBytes (S:=S) c plain k).
Proof. unfold SealBytes, Seal. auto 12 with leaves. Qed.
Lemma yields_sealCertificate db certPEM keyPEM : yields db (sealCertificate (S:=S) c keys certPEM keyPEM) (fun _ => True).
Proof. apply yields_leaves. unfold sealCertificate. pose proof bal_leaves_SealBytes. auto 12 with leaves. Qed.
Lemma yields_countBackends db id : yields db (countBackends (S:=S) id) (fun n => n = len (List.filter (backend_of id) (bd_backends db))).
Proof. eapply yields_mono; [apply yields_query|]. by intros n [= <-]. Qed.
Hint Resolve yields_find bal_yields_ids yields_checkRoutes yields_check_service yields_claimPort yields_sealCertificate yields_countBackends : yields.
Hint Extern 1 (yields _ (get _ _ _ _) _) => eapply yields_get; eassumption : yields.
Hint Extern 1 (yields _ (resolve _ _ _) _) => eapply yields_resolve; eassumption : yields.
Hint Extern 1 (yields _ (checkMember _ _ _) _) => eapply yields_checkMember; eassumption : yields.
Hint Extern 1 (yields _ (check_instances _ _ _) _) => eapply yields_check_instances; eassumption : yields.

(** ** Statements *)

Section statements.
Context (p : string) (db : BalancerDB) (Hinv : bal_inv knows db).
Abbreviation R := (history knows claims (Tenant p)).

(** The backends of a new balancer are attached one after the other. *)
Lemma attach_many b at_ ks : forall db, b ∈ bd_balancers db -> b_ProjectID b = p -> b_ServiceID b = "" ->
  Forall (fun i => exists m, knows i m /\ mb_ProjectID m = p) ks ->
  len (List.filter (backend_of (b_ID b)) (bd_backends db)) + len ks <= MaxBackends ->
  R db (set_backends (fold_left (fun rows i => attach (b_ID b) i at_ rows) ks (bd_backends db)) db).
Proof.
  induction ks as [|i ks IH]; intros d Hb Hp Hs Hk Hl; cbn [fold_left]; [destruct d; apply rtc_refl|].
  apply Forall_cons in Hk as [Hi Hk]. cbn [length] in Hl.
  apply rtc_l with (set_backends (attach (b_ID b) i at_ (bd_backends d)) d).
  - apply C_attach; [by rewrite Hp|]. split_and!; [done|done|by rewrite Hp|]. right. lia.
  - apply (IH (set_backends (attach (b_ID b) i at_ (bd_backends d)) d)); try done. cbn [set_backends bd_backends].
    unfold attach. destruct (existsb _ _); [lia|]. rewrite List.filter_app, length_app.
    assert (len (List.filter (backend_of (b_ID b)) [MkBackendRow (b_ID b) i at_]) <= 1) by (simpl; destruct (backend_of _ _); simpl; lia). lia.
Qed.

Lemma insert_moves b : b_ProjectID b = p -> row_ok (with_members [] [] b) ->
  Forall (fun k => exists m, knows (be_InstanceID k) m /\ mb_ProjectID m = p) (b_Backends b) -> len (b_Backends b) <= MaxBackends ->
  b_Backends b = [] \/ b_ServiceID b = "" -> claims (b_Protocol b) (b_ListenPort b) -> classify (bd_balancers db) b = None ->
  R db (MkBalancerDB (bd_balancers db ++ [with_members [] [] b])
        (fold_left (fun rows k => attach (b_ID b) (be_InstanceID k) (b_CreatedAt b) rows) (b_Backends b) (bd_backends db)) (bd_health db) (bd_routes db)).
Proof.
  intros Hp Hrow Hk Hl Hs Hcl Hc. set (bare := with_members [] [] b) in *.
  apply rtc_l with (set_balancers (bd_balancers db ++ [bare]) db); [by apply C_create; [rewrite <- Hp|..]|].
  destruct Hs as [->|Hs]; [apply rtc_refl|].
  pose proof (attach_many bare (b_CreatedAt b) (map be_InstanceID (b_Backends b)) (set_balancers (bd_balancers db ++ [bare]) db)) as Hm.
  cbn [set_balancers bd_balancers bd_backends] in Hm. rewrite fold_left_over_map in Hm. apply Hm; try done.
  - set_solver.
  - by apply Forall_map.
  - rewrite (filter_none _ (bd_backends db)), length_map; [simpl; lia|]. intros r Hr. apply String.eqb_neq. intros Er.
    pose proof (bi_backend_of _ _ Hinv) as Ho. rewrite Forall_forall in Ho. destruct (Ho r Hr) as (x & Hx & Ex & _).
    unfold classify in Hc. destruct (existsb (on_port _ _) _); [done|]. destruct (existsb (named _ _) _); [done|].
    destruct (existsb (has_id _) _) eqn:E; [done|]. rewrite existsb_false, Forall_forall in E. specialize (E x Hx). unfold has_id in E.
    simpl in Er. by rewrite Ex, Er, String.eqb_refl in E.
Qed.

Lemma moves_replaceRoutes b routes : b ∈ bd_balancers db -> b_ProjectID b = p -> routes = [] \/ may_route b ->
  Forall (fun r => match_ok (rt_Host r) (rt_Path r) /\ rt_ServiceID r <> "") routes -> NoDup (map host_path routes) -> len routes <= MaxRoutes ->
  moves R db (replaceRoutes (S:=S) (b_ID b) routes).
Proof.
  intros Hb Hp Hr Hok Hnd Hl. apply moves_sql; [typeclasses eauto|]. rewrite insert_routes_ok; [|clear -Hnd|done].
  - cbn [snd]. apply rtc_once. apply C_routes; try done. by rewrite Hp.
  - intros r x _ [_ Hn]%elem_of_filter_bool. apply negb_true_iff in Hn. unfold route_clash. cbn [route_row rr_Balancer]. by rewrite Hn.
Qed.
Lemma bal_moves_delete b : b ∈ bd_balancers db -> b_ProjectID b = p -> moves R db (delete_row (S:=S) (b_ID b)).
Proof.
  intros Hb Hp. apply moves_sql; [typeclasses eauto|].
  pose proof (delete_where_rows (has_id (b_ID b)) errNotFound (bd_balancers db)) as E.
  destruct (delete_where _ _ _) as [[[]|e] rows]; simpl in *; [|apply rtc_refl]. subst rows. apply rtc_once. by apply C_remove; [rewrite Hp|].
Qed.
Lemma moves_setTLS b t : b ∈ bd_balancers db -> b_ProjectID b = p -> moves R db (setTLS (S:=S) (b_ID b) t).
Proof.
  intros Hb Hp. apply moves_sql; [typeclasses eauto|].
  pose proof (update_where_rows (has_id (b_ID b)) (with_tls t) errNotFound (bd_balancers db)) as E.
  destruct (update_where _ _ _ _) as [r rows]; simpl in *. subst rows. apply rtc_once. by apply C_tls; [rewrite Hp|].
Qed.
Lemma moves_addBackend b i at_ : attachable knows db b i -> b_ProjectID b = p -> moves R db (addBackend_row (S:=S) (b_ID b) i at_).
Proof. intros Hb Hp. apply moves_sql; [typeclasses eauto|]. apply rtc_once. by apply C_attach; [rewrite Hp|]. Qed.
Lemma moves_forget_step b i : b ∈ bd_balancers db -> b_ProjectID b = p ->
  R db (MkBalancerDB (bd_balancers db) (bd_backends db) (List.filter (fun h => negb (health_is (b_ID b) i h)) (bd_health db)) (bd_routes db)).
Proof. intros Hb Hp. apply rtc_once. by apply C_forget; [rewrite Hp|]. Qed.
Lemma moves_removeBackend b i : b ∈ bd_balancers db -> b_ProjectID b = p -> moves R db (removeBackend_row (S:=S) (b_ID b) i).
Proof.
  intros Hb Hp. apply moves_sql; [typeclasses eauto|].
  pose proof (delete_where_rows (backend_is (b_ID b) i) errNotFound (bd_backends db)) as E.
  destruct (delete_where _ _ _) as [r rows]; simpl in *. subst rows. apply rtc_once. by apply C_detach; [rewrite Hp|].
Qed.

(** The name of a row and of what is shown of it are the same; so is everything but the backends. *)
Lemma shown_row b : shown_in db p b -> exists row, row ∈ bd_balancers db /\ b_ProjectID row = p /\ b_ID b = b_ID row /\
  with_members [] [] b = with_members [] [] row /\ length (b_Routes b) = length (List.filter (route_of (b_ID row)) (bd_routes db)).
Proof.
  intros (row & Hr & Hp & [E Hl]). exists row. split_and!; [done|done|by apply (f_equal b_ID) in E|exact E|].
  rewrite Hl. simpl. unfold routes_in. by rewrite length_map, sliceStable_length.
Qed.

End statements.

(** ** Operations *)

Section tenant.
Context (p : string).
Abbreviation R := (history knows claims (Tenant p)).

Lemma moves_reads {A} db (m : M S A) P : yields db m P -> moves R db m.
Proof. apply moves_yields. typeclasses eauto. Qed.

(** The end of [create]. *)
Lemma store_moves db b : bal_inv knows db -> b_ProjectID b = p -> row_ok (with_members [] [] b) ->
  Forall (fun k => exists m, knows (be_InstanceID k) m /\ mb_ProjectID m = p) (b_Backends b) -> len (b_Backends b) <= MaxBackends ->
  b_Backends b = [] \/ b_ServiceID b = "" -> claims (b_Protocol b) (b_ListenPort b) -> b_Routes b = [] \/ may_route b ->
  Forall (fun r => match_ok (rt_Host r) (rt_Path r) /\ rt_ServiceID r <> "") (b_Routes b) -> NoDup (map host_path (b_Routes b)) ->
  len (b_Routes b) <= MaxRoutes ->
  moves R db (mapped (translatePort b) (insert b) ;;; mapped translate (replaceRoutes (b_ID b) (b_Routes b)) ;;; resolve members services b).
Proof.
  intros Hinv Hp Hrow Hk Hl Hs Hcl Hmay Hok Hnd Hlr. apply moves_sql_then; [typeclasses eauto|..]; destruct (classify (bd_balancers db) b) eqn:Ec; cbn [fst snd].
  - apply rtc_refl.
  - by apply insert_moves.
  - done.
  - intros [] _. apply moves_then; [typeclasses eauto|..].
    + apply moves_mapped. apply (moves_replaceRoutes p _ (with_members [] [] b)); try done. simpl. set_solver.
    + intros. eapply moves_reads, yields_resolve; eassumption.
Qed.

Lemma bal_create_moves db params : bal_inv knows db -> cp_ProjectID params = p -> claims (fst (asked_port params)) (snd (asked_port params)) -> moves R db (create members ports services params).
Proof.
  intros Hinv Hp Hclaim. unfold create. reads. facts.
  match goal with H : check_params _ _ = Ok ?k |- _ => rewrite (check_params_port _ _ _ H) in Hclaim; apply bal_check_params_ok in H as (Hrow & Hmay & Hok & Hnd & Hl) end.
  match goal with H : validate_OneOf _ _ _ = Ok ?u |- _ => destruct u; apply validate_OneOf_ok in H; rename H into Hfam end.
  match goal with H : _ && _ = false |- _ => rename H into Hboth end.
  match goal with H : (MaxBackends <? _) = false |- _ => apply Z.ltb_ge in H end.
  apply store_moves; cbn [b_ProjectID b_Backends b_ServiceID b_Routes]; try done.
  - by apply Hrow.
  - apply Forall_map. simpl. by rewrite <- Hp.
  - rewrite length_map. lia.
  - destruct (is_empty (cp_ServiceID params)) eqn:Es; [right; by apply is_empty_spec|left]. cbn [negb andb] in Hboth. apply Z.ltb_ge in Hboth.
    match goal with H : len ?a <= len (cp_Instances params) |- map _ ?a = [] => destruct a; [done|cbn [length] in H; lia] end.
  - destruct Hmay as [->|(?&?&?&_)]; [by left|by right].
Qed.

Lemma addBackend_moves db n i : bal_inv knows db -> moves R db (addBackend members services p n i).
Proof.
  intros Hinv. unfold addBackend. reads. facts. match goal with H : found_in _ _ _ |- _ => destruct H as (row & Hr & Hp & ->) end.
  apply moves_then; [typeclasses eauto| |intros; eapply moves_reads, yields_get; eassumption].
  apply moves_mapped. apply (moves_addBackend p db row); [|done]. split_and!; [done| |rewrite Hp; eauto|right].
  - by apply is_empty_spec, negb_false_iff.
  - match goal with H : (MaxBackends <=? _) = false |- _ => apply Z.leb_gt in H end. subst. simpl in *. lia.
Qed.
Lemma removeBackend_moves db n i : bal_inv knows db -> moves R db (removeBackend (S:=S) p n i).
Proof.
  intros Hinv. unfold removeBackend. reads. facts. match goal with H : found_in _ _ _ |- _ => destruct H as (row & Hr & Hp & ->) end.
  unfold forgetHealth. apply moves_sql_then; [typeclasses eauto|apply (moves_forget_step p db row i Hr Hp)|]. intros [] _. cbn [snd].
  apply moves_mapped. by apply (moves_removeBackend p _ row).
Qed.
Lemma bal_remove_moves db n : moves R db (remove (S:=S) p n).
Proof.
  unfold remove. reads. match goal with H : found_in _ _ _ |- _ => destruct H as (row & Hr & Hp & ->) end. by apply (bal_moves_delete p db row).
Qed.
Lemma setRoutes_moves db n asked : bal_inv knows db -> moves R db (setRoutes members services n p asked).
Proof.
  intros Hinv. unfold setRoutes. reads. facts.
  match goal with H : shown_in _ _ _ |- _ => apply shown_row in H as (row & Hr & Hp & Eid & Ebare & Elen) end.
  match goal with H : normalizeRoutes _ = Ok _ |- _ => apply normalizeRoutes_ok in H as (Hok & Hnd & Hl & _) end.
  apply moves_then; [typeclasses eauto| |intros; eapply moves_reads, yields_resolve; eassumption].
  apply moves_mapped. rewrite Eid. apply (moves_replaceRoutes p db row); try done. right.
  match goal with H : (len (b_Routes _) =? 0) = false |- _ => apply Z.eqb_neq in H; rewrite Elen in H; rename H into Hne end.
  destruct (List.filter (route_of (b_ID row)) (bd_routes db)) as [|x xs] eqn:E; [done|].
  assert (Hx : x ∈ List.filter (route_of (b_ID row)) (bd_routes db)) by (rewrite E; set_solver).
  apply elem_of_filter_bool in Hx as [Hx Ex%String.eqb_eq]. pose proof (bi_route_of _ _ Hinv) as Ho. rewrite Forall_forall in Ho.
  by apply (owner_unique knows db row (rr_Balancer x)); [|auto|..].
Qed.
Lemma setCertificate_moves db n certPEM keyPEM : moves R db (setCertificate c keys members services n p certPEM keyPEM).
Proof.
  unfold setCertificate. m_step. intros b Hb. apply shown_row in Hb as (row & Hr & Hp & Eid & _).
  eapply moves_bind with (P := fun _ => True); [typeclasses eauto|destruct (_ || _); [apply yields_sealCertificate|eapply yields_true, yields_ret]|].
  intros t _. apply moves_then; [typeclasses eauto| |intros; eapply moves_reads, yields_get; eassumption].
  apply moves_mapped. rewrite Eid. by apply moves_setTLS.
Qed.
End tenant.

Lemma bal_release_moves i db : moves (history knows claims (Deletion i)) db (releaseInstance (S:=S) i).
Proof. unfold releaseInstance. apply moves_mapped, moves_sql; [typeclasses eauto|]. by apply rtc_once, C_release. Qed.

(** ** Health reports *)

Section node.
Context (n : string).
Abbreviation R := (history knows claims (NodeOf n)).

Lemma loaded_slashless db row : bal_inv knows db -> slashless (loaded db row) /\ route_slashless (loaded db row).
Proof.
  intros Hinv. split.
  - unfold slashless, loaded, backends_in. simpl. apply Forall_map, Forall_forall. intros r Hr. rewrite sliceStable_perm in Hr.
    apply elem_of_filter_bool in Hr as [Hr _]. pose proof (bi_backend_of _ _ Hinv) as Ho. rewrite Forall_forall in Ho.
    destruct (Ho r Hr) as (b & _ & _ & _ & m & Hm & _). unfold joined. destruct (List.find _ _); simpl; by eapply Hslash.
  - unfold route_slashless, loaded, routes_in. simpl. apply Forall_map, Forall_forall. intros r _. constructor.
Qed.

Lemma yields_everyBackend db row : bal_inv knows db -> yields db (everyBackend services (loaded db row)) (Forall (fun k => no_slash (be_InstanceID k))).
Proof.
  intros Hinv. destruct (loaded_slashless db row Hinv) as [H1 H2]. unfold everyBackend.
  eapply yields_bind; [eapply yields_membership; eassumption|]. intros b1 (_ & Er & Hb1).
  eapply yields_bind; [eapply yields_routeMembership; eassumption|]. intros b2 (_ & Eb & Hb2).
  eapply yields_mono; [apply yields_ret|]. intros ? ->. apply Forall_app. split.
  - rewrite Eb. by apply Hb1.
  - unfold route_slashless in *. rewrite Er in Hb2. specialize (Hb2 H2). clear -Hb2. induction Hb2 as [|r rs Hr _ IH]; simpl; [constructor|].
    apply Forall_app. done.
Qed.

(** The keys of the index are those of balancers there are. *)
Definition indexed db (m : gmap string Backend) : Prop :=
  forall k, is_Some (m !! k) -> exists b i, b ∈ bd_balancers db /\ no_slash i /\ k = key_of (b_ID b) i.
Lemma yields_index db bs : bal_inv knows db -> Forall (fun b => exists row, row ∈ bd_balancers db /\ b = loaded db row) bs ->
  yields db (index_backends services bs) (indexed db).
Proof.
  intros Hinv Hbs. unfold index_backends. apply yields_foldM; [|by intros k [? Hk]].
  intros b m Hb Hm. rewrite Forall_forall in Hbs. destruct (Hbs b Hb) as (row & Hr & ->).
  eapply yields_bind; [by apply yields_mapped, yields_everyBackend|]. intros ks Hks. eapply yields_mono; [apply yields_ret|]. intros ? ->.
  revert m Hm. induction Hks as [|k ks Hk _ IH]; intros m Hm; simpl; [done|]. apply IH. intros key Hkey.
  destruct (decide (key = key_of (b_ID row) (be_InstanceID k))) as [->|Hne]; [by exists row, (be_InstanceID k)|].
  rewrite lookup_insert_ne in Hkey by done. by apply Hm.
Qed.

(** A report that is believed: of a balancer there is, of an instance this node holds. *)
Definition believed db (r : Report) : Prop :=
  exists b m, b ∈ bd_balancers db /\ b_ID b = re_BalancerID r /\ knows (re_InstanceID r) m /\ mb_NodeID m = n /\ n <> "" /\
    slen (re_Reason r) <= MaxPathLength.
Definition held_here (i : string) : Prop := exists m, knows i m /\ mb_NodeID m = n /\ n <> "".
Lemma yields_heldBy db cache i : map_Forall (fun i v => v = true -> held_here i) cache ->
  yields db (heldBy members cache n i) (fun a => map_Forall (fun i v => v = true -> held_here i) (snd a) /\ (fst a = true -> held_here i)).
Proof.
  intros Hc. unfold heldBy. destruct members as [ms|] eqn:E; [|eapply yields_mono; [apply yields_ret|by intros ? ->]].
  destruct (cache !! i) as [v|] eqn:Ei.
  - eapply yields_mono; [apply yields_ret|]. intros ? ->. split; [done|]. by apply (Hc i v).
  - eapply yields_bind; [by apply yields_attempt, Hmembers|]. intros r Hr. eapply yields_mono; [apply yields_ret|]. intros ? ->. simpl.
    assert (Hv : match r with Ok member => negb (is_empty (mb_NodeID member)) && String.eqb (mb_NodeID member) n | Err _ => false end = true -> held_here i).
    { destruct r as [m|e]; [|done]. intros [H1 H2]%andb_true_iff. apply negb_true_iff, is_empty_false in H1. apply String.eqb_eq in H2.
      exists m. split_and!; [done|done|congruence]. }
    split; [|done]. by apply map_Forall_insert_2.
Qed.

Lemma cut_reason_short r : slen (re_Reason (cut_reason r)) <= MaxPathLength.
Proof.
  unfold cut_reason. simpl. destruct (MaxPathLength <? _) eqn:E; [|by apply Z.ltb_ge].
  rewrite str_take_spec, slen_bytes, bytes_of_of, length_take. unfold MaxPathLength. lia.
Qed.
Lemma yields_wanted db m reports : indexed db m -> yields db (wanted_reports members n m reports) (Forall (believed db)).
Proof.
  intros Hm. unfold wanted_reports. eapply yields_bind with
    (P := fun acc => map_Forall (fun i v => v = true -> held_here i) (fst acc) /\ Forall (believed db) (snd acc)).
  - apply yields_foldM; [|split; [apply map_Forall_empty|constructor]]. intros r [cache wanted] _ [Hc Hw]. simpl in Hc, Hw.
    destruct (negb _) eqn:Ek; [eapply yields_mono; [apply yields_ret|by intros ? ->]|]. apply negb_false_iff, bool_decide_eq_true in Ek.
    eapply yields_bind; [by apply yields_heldBy|]. intros [held cache'] [Hc' Hheld]. simpl in Hc', Hheld. eapply yields_mono; [apply yields_ret|]. intros ? ->.
    split; [done|]. simpl. destruct held; [|done]. apply Forall_app. split; [done|]. apply Forall_singleton.
    destruct (Hheld eq_refl) as (mm & Hk & Hn & Hne). destruct (Hm _ Ek) as (b & i & Hb & Hi & E).
    apply key_of_inj in E as [E1 E2]; [|by eapply Hslash|done]. exists b, mm. split_and!; try done. apply cut_reason_short.
  - intros acc [_ Hacc]. eapply yields_mono; [apply yields_ret|]. by intros ? ->.
Qed.

Lemma yields_noteFlip db before r : yields db (noteFlip members has_events before r) (fun _ => True).
Proof.
  unfold noteFlip. destruct (negb has_events); [eapply yields_true, yields_ret|]. destruct (String.eqb _ _); [eapply yields_true, yields_ret|].
  eapply yields_bind with (P := fun _ => True); [|intros; apply yields_leaves, leaves_record].
  destruct members as [ms|] eqn:E; [|eapply yields_true, yields_ret].
  eapply yields_bind; [by apply yields_attempt, Hmembers|]. intros. eapply yields_true, yields_ret.
Qed.

Lemma save_many at_ rs : forall db, Forall (believed db) rs -> R db (set_health (fold_left (save_report at_) rs (bd_health db)) db).
Proof.
  induction rs as [|r rs IH]; intros db Hr; [destruct db; apply rtc_refl|]. apply Forall_cons in Hr as [(b & m & Hb & Hid & Hk & Hn & Hne & Hl) Hr].
  apply rtc_l with (set_health (save_report at_ (bd_health db) r) db); [by eapply C_health|]. exact (IH (set_health _ db) Hr).
Qed.

Lemma yields_all db : yields db (all (S:=S)) (fun bs => bs = map (loaded db) (sliceStable by_port (bd_balancers db))).
Proof. apply yields_load. Qed.
Lemma all_rows db : Forall (fun b => exists row, row ∈ bd_balancers db /\ b = loaded db row) (map (loaded db) (sliceStable by_port (bd_balancers db))).
Proof. apply Forall_map, Forall_forall. intros row Hr. rewrite sliceStable_perm in Hr. by exists row. Qed.

Lemma reportHealth_moves db reports : bal_inv knows db -> moves R db (reportHealth members services has_events n reports).
Proof.
  intros Hinv. unfold reportHealth. destruct (len reports =? 0); [m_step|]. m_step. intros [] _.
  eapply moves_bind; [typeclasses eauto|apply yields_mapped, yields_all|]. intros ? ->. pose proof (all_rows db) as Hall.
  eapply moves_bind; [typeclasses eauto|by apply yields_index|]. intros m Hm.
  eapply moves_bind; [typeclasses eauto|by apply yields_wanted|]. intros wanted Hw. destruct wanted as [|r rs] eqn:Ew; [m_step|]. rewrite <- Ew in *. clear Ew.
  eapply moves_bind; [typeclasses eauto|by apply yields_index|]. intros was _. m_step. intros at_ _.
  apply moves_then; [typeclasses eauto|..].
  - apply moves_mapped, moves_sql; [typeclasses eauto|]. by apply save_many.
  - intros db' [] _. apply moves_foldM; [typeclasses eauto|]. intros r' [] db2 _ _. eapply moves_yields; [typeclasses eauto|apply yields_noteFlip].
Qed.
End node.

(** ** Every request *)

(** The port a request wants to claim. *)
Definition asks (r : request) (protocol : string) (port : Z) : Prop :=
  match r with ReqCreate sc (Ok req) => asked_port (create_params sc req) = (protocol, port) | _ => False end.
Definition actor_of (r : request) : actor :=
  match r with
  | ReqCreate sc _ | ReqList sc | ReqGet sc _ | ReqDelete sc _ | ReqAddBackend sc _ _ | ReqRemoveBackend sc _ _ | ReqSetRoutes sc _ _
  | ReqSetCertificate sc _ _ | ReqRemoveCertificate sc _ => Tenant (sc_ProjectID sc)
  | ReqListForNode n | ReqReportHealth n _ => NodeOf n
  | ReqRelease i => Deletion i
  | ReqSweep => Ticker
  end.

Lemma yields_sweep_one db b told : yields db (sweep_one (S:=S) b told) (fun _ => True).
Proof. apply yields_leaves. unfold sweep_one, noteExpiry, note_expiry. auto 12 with leaves. Qed.
Lemma yields_sweep db : yields db (sweepCertificates (S:=S) has_events) (fun _ => True).
Proof.
  unfold sweepCertificates. destruct (negb has_events); [eapply yields_true, yields_ret|].
  eapply yields_bind; [apply yields_mapped, yields_all|]. intros bs _.
  eapply yields_bind with (P := fun _ => True); [apply yields_foldM; [|done]; intros; apply yields_sweep_one|]. intros told _.
  eapply yields_bind; [apply yields_leaves; unfold forgetExpiry, forget_expiry; auto with leaves|]. intros. eapply yields_true, yields_ret.
Qed.

(** What a tenant and what a node is shown. *)
Definition listing_of db (rows : list Balancer) (bs : list Balancer) : Prop := Forall2 (fun row b => same_head (loaded db row) b) rows bs.
Lemma yields_listing db q :
  yields db (let! rows := mapped translate (load (S:=S) q) in resolve_all members services rows) (listing_of db (q (bd_balancers db))).
Proof.
  eapply yields_bind; [apply yields_mapped, yields_load|]. intros ? ->. eapply yields_mono; [eapply yields_resolve_all; eassumption|].
  intros bs Hb. exact (proj1 (Forall2_fmap_l _ _ _ _) Hb).
Qed.
Lemma yields_listIn db p : yields db (listIn members services p) (listing_of db (sliceStable by_port (List.filter (in_project p) (bd_balancers db)))).
Proof. exact (yields_listing db (fun rows => sliceStable by_port (List.filter (in_project p) rows))). Qed.
Lemma yields_forNode db : yields db (forNode members services) (listing_of db (sliceStable by_port (bd_balancers db))).
Proof. exact (yields_listing db (sliceStable by_port)). Qed.

Lemma bal_serve_moves db r : bal_inv knows db -> (forall pr n, asks r pr n -> claims pr n) -> moves (history knows claims (actor_of r)) db (serve c keys members ports services has_events r).
Proof.
  intros Hinv Hasks. destruct r; cbn [actor_of serve];
    unfold handle_create, handle_list, handle_get, handle_delete, handle_addBackend, handle_removeBackend, handle_setRoutes, handle_setCertificate,
      handle_removeCertificate, handle_listForNode, handle_reportHealth, noted, writeList, Write, WriteHeader;
    try (eapply moves_bind; [typeclasses eauto|apply yields_lift|]; intros body ->).
  all: try (apply moves_then; [typeclasses eauto| |intros; apply moves_ret; typeclasses eauto]; first
    [ apply bal_create_moves; [done|done|apply Hasks; cbn [asks]; by destruct (asked_port _)] | by apply addBackend_moves | by apply removeBackend_moves | by apply bal_remove_moves | by apply setRoutes_moves
    | by apply setCertificate_moves | by apply reportHealth_moves | by apply bal_release_moves | eapply moves_yields; [typeclasses eauto|apply yields_sweep]
    | eapply moves_yields; [typeclasses eauto|apply yields_listIn] | eapply moves_yields; [typeclasses eauto|eapply yields_get; eassumption]]).
  eapply moves_bind; [typeclasses eauto|apply yields_forNode|]. intros bs _.
  eapply moves_bind with (P := fun _ => True); [typeclasses eauto| |intros; apply moves_ret; typeclasses eauto].
  apply yields_foldM; [|done]. intros b out _ _. eapply yields_bind; [apply yields_lift|]. intros. eapply yields_true, yields_ret.
Qed.
End operations.

(** * What follows from the state machine *)

Section consequences.
Context (knows : string -> Member_ -> Prop) (claims : string -> Z -> Prop).

(** ** The other tenants *)

Definition mine (p : string) (db : BalancerDB) (id : string) : bool := existsb (fun b => has_id id b && in_project p b) (bd_balancers db).
(** All that is not project [p]'s. *)
Definition others (p : string) (db : BalancerDB) : BalancerDB :=
  MkBalancerDB (List.filter (fun b => negb (in_project p b)) (bd_balancers db))
    (List.filter (fun r => negb (mine p db (br_Balancer r))) (bd_backends db))
    (List.filter (fun h => negb (mine p db (hr_Balancer h))) (bd_health db))
    (List.filter (fun r => negb (mine p db (rr_Balancer r))) (bd_routes db)).

Lemma mine_row db b : b ∈ bd_balancers db -> mine (b_ProjectID b) db (b_ID b) = true.
Proof. intros Hb. apply existsb_exists. exists b. split; [by apply list_elem_of_In|]. unfold has_id, in_project. by rewrite !String.eqb_refl. Qed.

Lemma others_create db b : bal_inv knows db -> classify (bd_balancers db) b = None -> others (b_ProjectID b) (set_balancers (bd_balancers db ++ [b]) db) = others (b_ProjectID b) db.
Proof.
  intros Hi Hc. assert (Hm : forall id, (exists P, owner db id P) -> mine (b_ProjectID b) (set_balancers (bd_balancers db ++ [b]) db) id = mine (b_ProjectID b) db id).
  { intros id (P & x & Hx & Ex & _). unfold mine. simpl. rewrite existsb_app. simpl. rewrite orb_false_r. unfold classify in Hc.
    destruct (existsb (on_port _ _) _); [done|]. destruct (existsb (named _ _) _); [done|]. destruct (existsb (has_id _) _) eqn:E; [done|].
    rewrite existsb_false, Forall_forall in E. specialize (E x Hx). unfold has_id in *. rewrite Ex in E.
    destruct (String.eqb_spec (b_ID b) id) as [Eid|]; [by rewrite Eid, String.eqb_refl in E|]. by rewrite orb_false_r. }
  destruct Hi. unfold others. cbn [set_balancers bd_balancers bd_backends bd_health bd_routes]. f_equal.
  - rewrite List.filter_app. simpl. unfold in_project at 2. rewrite String.eqb_refl. simpl. by rewrite app_nil_r.
  - apply filter_ext_elem. intros r Hr. rewrite Forall_forall in bi_backend_of0. rewrite Hm; [done|eauto].
  - apply filter_ext_elem. intros r Hr. rewrite Forall_forall in bi_health_of0. rewrite Hm; [done|eauto].
  - apply filter_ext_elem. intros r Hr. rewrite Forall_forall in bi_route_of0. rewrite Hm; [done|eauto].
Qed.

Lemma others_remove db b : bal_inv knows db -> b ∈ bd_balancers db ->
  others (b_ProjectID b) (MkBalancerDB (List.filter (fun x => negb (has_id (b_ID b) x)) (bd_balancers db))
      (List.filter (fun r => negb (backend_of (b_ID b) r)) (bd_backends db))
      (List.filter (fun h => negb (health_of (b_ID b) h)) (bd_health db))
      (List.filter (fun r => negb (route_of (b_ID b) r)) (bd_routes db))) = others (b_ProjectID b) db.
Proof.
  intros Hi Hb. set (rows := List.filter _ (bd_balancers db)). set (p := b_ProjectID b).
  assert (Hm : forall id, id <> b_ID b -> existsb (fun x => has_id id x && in_project p x) rows = mine p db id).
  { intros id Hne. unfold mine, rows. clear -Hne. induction (bd_balancers db) as [|x l IH]; [done|]. simpl. destruct (has_id (b_ID b) x) eqn:E; simpl; rewrite IH; [|done].
    apply String.eqb_eq in E. unfold has_id at 2. rewrite E. by rewrite (proj2 (String.eqb_neq _ _)) by congruence. }
  pose proof (mine_row db b Hb) as Hme. fold p in Hme. unfold others. unfold mine at 1 2 3. cbn [bd_balancers bd_backends bd_health bd_routes]. f_equal.
  - apply filter_gone. intros x Hx E. apply negb_false_iff, String.eqb_eq in E.
    rewrite (unique_by_eq _ _ x b (b_ID b) (bi_id _ _ Hi)) by (done || congruence). unfold in_project. by rewrite String.eqb_refl.
  - rewrite (filter_ext_elem _ (fun r => negb (mine p db (br_Balancer r)))).
    + apply filter_gone. intros r _ E. apply negb_false_iff, String.eqb_eq in E. by rewrite E, Hme.
    + intros r [_ Hn]%elem_of_filter_bool. apply negb_true_iff, String.eqb_neq in Hn. by rewrite Hm.
  - rewrite (filter_ext_elem _ (fun r => negb (mine p db (hr_Balancer r)))).
    + apply filter_gone. intros r _ E. apply negb_false_iff, String.eqb_eq in E. by rewrite E, Hme.
    + intros r [_ Hn]%elem_of_filter_bool. apply negb_true_iff, String.eqb_neq in Hn. by rewrite Hm.
  - rewrite (filter_ext_elem _ (fun r => negb (mine p db (rr_Balancer r)))).
    + apply filter_gone. intros r _ E. apply negb_false_iff, String.eqb_eq in E. by rewrite E, Hme.
    + intros r [_ Hn]%elem_of_filter_bool. apply negb_true_iff, String.eqb_neq in Hn. by rewrite Hm.
Qed.

Lemma others_tls db b t : bal_inv knows db -> b ∈ bd_balancers db ->
  others (b_ProjectID b) (set_balancers (map (fun x => if has_id (b_ID b) x then with_tls t x else x) (bd_balancers db)) db) = others (b_ProjectID b) db.
Proof.
  intros Hi Hb. set (f := fun x => if has_id (b_ID b) x then with_tls t x else x). set (p := b_ProjectID b).
  assert (Hf : forall x, b_ID (f x) = b_ID x /\ b_ProjectID (f x) = b_ProjectID x) by (intros x; unfold f; by destruct (has_id _ x)).
  assert (Hm : forall id, mine p (set_balancers (map f (bd_balancers db)) db) id = mine p db id).
  { intros id. unfold mine. simpl. clear Hb Hi. induction (bd_balancers db) as [|x l IH]; [done|]. simpl. rewrite IH. destruct (Hf x) as [E1 E2].
    unfold has_id, in_project. by rewrite E1, E2. }
  unfold others. cbn [set_balancers bd_balancers bd_backends bd_health bd_routes]. f_equal; [|apply List.filter_ext; intros r; by rewrite Hm..].
  assert (Hone : forall x, x ∈ bd_balancers db -> in_project p x = false -> f x = x).
  { intros x Hx Hp. unfold f. destruct (has_id (b_ID b) x) eqn:E; [|done]. apply String.eqb_eq in E.
    rewrite (unique_by_eq _ _ x b (b_ID b) (bi_id _ _ Hi)) in Hp by (done || congruence). unfold in_project, p in Hp. by rewrite String.eqb_refl in Hp. }
  clear Hb Hi Hm. induction (bd_balancers db) as [|x l IH]; [done|]. simpl. unfold in_project at 1. rewrite (proj2 (Hf x)). fold (in_project p x).
  destruct (in_project p x) eqn:E; simpl; [|rewrite (Hone x) by (done || set_solver); f_equal]; apply IH; intros y Hy; apply Hone; set_solver.
Qed.

Lemma bal_change_others p db db' : change knows claims (Tenant p) db db' -> bal_inv knows db -> others p db' = others p db.
Proof.
  intros Hc Hi. assert (Hgone : forall b, b ∈ bd_balancers db -> Tenant p = Tenant (b_ProjectID b) -> p = b_ProjectID b /\ mine p db (b_ID b) = true).
  { intros b Hb [= ->]. split; [done|]. by apply mine_row. }
  destruct Hc as [b Ha|b i at_ Ha (Hb & _)|b i Ha Hb|b i Ha Hb|b Ha Hb|b t Ha Hb|b routes Ha Hb|n b r m at_ Ha|i Ha]; try done.
  - injection Ha as ->. by apply others_create.
  - destruct (Hgone b Hb Ha) as [_ Hm]. unfold others, set_backends. cbn [bd_balancers bd_backends bd_health bd_routes]. f_equal.
    unfold attach. destruct (existsb _ _); [done|]. rewrite List.filter_app. simpl. change (mine p _ (b_ID b)) with (mine p db (b_ID b)).
    rewrite Hm. simpl. by rewrite app_nil_r.
  - destruct (Hgone b Hb Ha) as [_ Hm]. unfold others, set_backends. cbn [bd_balancers bd_backends bd_health bd_routes]. f_equal.
    apply filter_gone. intros r _ E. apply negb_false_iff, andb_true_iff in E as [E%String.eqb_eq _].
    change (mine p _ (br_Balancer r)) with (mine p db (br_Balancer r)). by rewrite E, Hm.
  - destruct (Hgone b Hb Ha) as [_ Hm]. unfold others, set_health. cbn [bd_balancers bd_backends bd_health bd_routes]. f_equal.
    apply filter_gone. intros r _ E. apply negb_false_iff, andb_true_iff in E as [E%String.eqb_eq _].
    change (mine p _ (hr_Balancer r)) with (mine p db (hr_Balancer r)). by rewrite E, Hm.
  - injection Ha as ->. by apply others_remove.
  - injection Ha as ->. by apply others_tls.
  - destruct (Hgone b Hb Ha) as [_ Hm]. unfold others, set_routes. cbn [bd_balancers bd_backends bd_health bd_routes]. f_equal.
    rewrite List.filter_app, (filter_none _ (map _ _)), app_nil_r.
    + apply filter_gone. intros r _ E. apply negb_false_iff, String.eqb_eq in E.
      change (mine p _ (rr_Balancer r)) with (mine p db (rr_Balancer r)). by rewrite E, Hm.
    + intros r Hr. apply list_elem_of_fmap in Hr as (x & -> & _). change (mine p _ _) with (mine p db (b_ID b)). by rewrite Hm.
Qed.
Lemma bal_history_others p db db' : history knows claims (Tenant p) db db' -> bal_inv knows db -> others p db' = others p db.
Proof.
  induction 1 as [|db db1 db2 Hc _ IH]; [done|]. intros Hi. rewrite IH by (by eapply bal_change_inv). by apply bal_change_others.
Qed.

(** ** A node *)

(** A node changes nothing but the health of what it holds. *)
Definition same_but_health (P : HealthRow -> Prop) (db db' : BalancerDB) : Prop :=
  bd_balancers db' = bd_balancers db /\ bd_backends db' = bd_backends db /\ bd_routes db' = bd_routes db /\
  forall h, P h -> (h ∈ bd_health db' <-> h ∈ bd_health db).
Definition held_on (n i : string) : Prop := exists m, knows i m /\ mb_NodeID m = n /\ n <> "".

Lemma save_report_elem at_ rows r h : hr_Instance h <> re_InstanceID r -> h ∈ save_report at_ rows r <-> h ∈ rows.
Proof.
  intros Hne. unfold save_report. destruct (existsb _ _).
  - rewrite list_elem_of_fmap. split.
    + intros (x & E & Hx). destruct (health_is _ _ x); [by subst h|by subst h].
    + intros Hh. exists h. split; [|done]. unfold health_is. by rewrite (proj2 (String.eqb_neq _ _)), andb_false_r.
  - rewrite elem_of_app, list_elem_of_singleton. split; [|by left]. intros [?| ->]; [done|by simpl in Hne].
Qed.
Lemma history_node n db db' : history knows claims (NodeOf n) db db' -> same_but_health (fun h => ~ held_on n (hr_Instance h)) db db'.
Proof.
  induction 1 as [|db db1 db2 Hc _ IH]; [done|].
  inversion Hc as [b Ha|b i at_ Ha|b i Ha|b i Ha|b Ha|b t Ha|b routes Ha|n' b r m at_ Ha Hb Hid Hk Hn Hne Hl|i Ha]; subst; simplify_eq.
  destruct IH as (E1 & E2 & E3 & E4). split_and!; [done..|]. intros h Hh. rewrite E4 by done. cbn [set_health bd_health].
  apply save_report_elem. intros Ei. apply Hh. rewrite Ei. by exists m.
Qed.
End consequences.

(** * What a backend's health means *)

Lemma bal_fold_insert_lookup {X V} (key : X -> string) (val : X -> V) l k : forall m : gmap string V, NoDup (map key l) ->
  fold_left (fun m x => <[key x := val x]> m) l m !! k =
  match List.find (fun x => String.eqb (key x) k) l with Some x => Some (val x) | None => m !! k end.
Proof.
  induction l as [|x l IH]; intros m Hnd; [done|]. simpl in Hnd. apply NoDup_cons in Hnd as [Hn Hnd]. cbn [fold_left List.find].
  rewrite IH by done. destruct (String.eqb_spec (key x) k) as [E|E].
  - destruct (List.find _ l) as [y|] eqn:Ef.
    + apply find_some_elem in Ef as [Hy Ey%String.eqb_eq]. exfalso. apply Hn. rewrite E, <- Ey. by apply list_elem_of_fmap_2.
    + by rewrite E, lookup_insert_eq.
  - destruct (List.find _ l); [done|]. by rewrite lookup_insert_ne.
Qed.
Lemma find_filter {X} (p q : X -> bool) l : List.find p (List.filter q l) = List.find (fun x => q x && p x) l.
Proof. induction l as [|x l IH]; [done|]. simpl. destruct (q x); simpl; by rewrite IH. Qed.

(** The report on record for an instance behind a balancer. *)
Definition report_of (db : BalancerDB) (id i : string) : option HealthRow := List.find (health_is id i) (bd_health db).
Definition passes (db : BalancerDB) (T : Z) (id i : string) : Prop :=
  exists h, report_of db id i = Some h /\ hr_Healthy h = true /\ T - hr_CheckedAt h <= HealthGrace.
(** A backend as it comes out of the tables. *)
Definition on_record (db : BalancerDB) (id : string) (k : Backend) : Prop :=
  be_Running k = false /\ be_Healthy k = false /\
  match report_of db id (be_InstanceID k) with
  | Some h => be_Probe k = probe_of (hr_Healthy h) /\ be_CheckedAt k = hr_CheckedAt h
  | None => be_Probe k = ""
  end.

Section verdicts.
Context {S : Type} `{!Has BalancerDB S}.
Context (members : option (Members S)) (services : option (Services S)).
Context (knows : string -> Member_ -> Prop).
Context (Hmembers : forall ms i (db : BalancerDB), members = Some ms -> yields db (Member ms i) (knows i)).
Context (Hservices : forall sv p id (db : BalancerDB), services = Some sv -> yields db (MembersOf sv p id) (Forall no_slash)).
(** The time at which the request is served. *)
Context (T : Z).

(** What a backend says of its instance: it runs where it can be reached, and it is healthy if
    besides, where there is a check, the report on record passes and is not too old. *)
Definition truthful (db : BalancerDB) (id family check : string) (k : Backend) : Prop :=
  (be_Running k = true -> exists m, knows (be_InstanceID k) m /\ mb_Running m = true /\ be_Address k = AddressIn m family /\ be_Address k <> "") /\
  (be_Healthy k = true <-> be_Running k = true /\ (check = CheckNone \/ passes db T id (be_InstanceID k))).
Implicit Types db : BalancerDB.

Lemma joined_on_record db r : on_record db (br_Balancer r) (joined (bd_health db) r).
Proof. unfold on_record, joined, report_of. destruct (List.find _ _) as [h|] eqn:E; simpl; rewrite E; done. Qed.

Lemma reported_on_record db id i (health : gmap string Backend) : bal_inv knows db ->
  health = fold_left (fun m h =>
    <[hr_Instance h := MkBackend (hr_Instance h) "" false false (probe_of (hr_Healthy h)) (hr_Reason h) (hr_CheckedAt h) zero_time]> m)
    (List.filter (health_of id) (bd_health db)) ∅ ->
  on_record db id (reported health i) /\ be_InstanceID (reported health i) = i.
Proof.
  intros Hi ->. unfold reported. rewrite (bal_fold_insert_lookup hr_Instance _ _ i).
  - rewrite find_filter. change (List.find _ (bd_health db)) with (report_of db id i). rewrite lookup_empty. unfold on_record.
    destruct (report_of db id i) as [h|] eqn:E; cbn [be_InstanceID be_Running be_Healthy be_Probe be_CheckedAt]; by rewrite E.
  - pose proof (bi_health _ _ Hi) as Hu. unfold unique_by in Hu. rewrite omap_total in Hu. clear -Hu.
    induction (bd_health db) as [|h l IH]; [constructor|]. simpl in *. apply NoDup_cons in Hu as [Hn Hu].
    destruct (health_of id h) eqn:E; [|auto]. simpl. apply NoDup_cons. split; [|auto]. intros Hin. apply Hn.
    apply list_elem_of_fmap in Hin as (x & Ex & [Hx Eid%String.eqb_eq]%elem_of_filter_bool). apply String.eqb_eq in E.
    apply list_elem_of_fmap. exists x. split; [congruence|done].
Qed.

Definition rec_all db (b : Balancer) : Prop :=
  Forall (on_record db (b_ID b)) (b_Backends b) /\ Forall (fun r => Forall (on_record db (b_ID b)) (rt_Backends r)) (b_Routes b).

Lemma loaded_on_record db row : rec_all db (loaded db row).
Proof.
  split; unfold loaded, backends_in, routes_in; simpl; apply Forall_map, Forall_forall; [|intros; constructor].
  intros r Hr. rewrite sliceStable_perm in Hr. apply elem_of_filter_bool in Hr as [_ E%String.eqb_eq]. rewrite <- E. apply joined_on_record.
Qed.

Lemma membership_on_record db b : bal_inv knows db -> rec_all db b -> yields db (membership services b) (rec_all db).
Proof.
  intros Hi [Hb Hr]. unfold membership. destruct services as [sv|] eqn:E; [|eapply yields_mono; [apply yields_ret|by intros ? ->]].
  destruct (is_empty _); [eapply yields_mono; [apply yields_ret|by intros ? ->]|].
  eapply yields_bind; [by apply yields_attempt, Hservices|]. intros [ids|e] _.
  - eapply yields_bind; [apply yields_query|]. intros health [= Hh]. eapply yields_mono; [apply yields_ret|]. intros ? ->. split; [|done].
    simpl. apply Forall_map, Forall_forall. intros i _. by apply reported_on_record.
  - eapply yields_mono; [apply yields_ret|]. intros ? ->. split; [constructor|done].
Qed.
Lemma routeMembership_on_record db b : bal_inv knows db -> rec_all db b -> yields db (routeMembership services b) (rec_all db).
Proof.
  intros Hi [Hb Hr]. unfold routeMembership. destruct services as [sv|] eqn:E; [|eapply yields_mono; [apply yields_ret|by intros ? ->]].
  destruct (b_Routes b) as [|r0 rs] eqn:Er; [eapply yields_mono; [apply yields_ret|]; intros ? ->; split; [done|by rewrite Er]|].
  eapply yields_bind; [apply yields_query|]. intros health [= Hh]. eapply yields_bind; [apply (yields_collect db) with
    (P := fun _ route' => Forall (on_record db (b_ID b)) (rt_Backends route'))|].
  - intros route out _. eapply yields_bind; [by apply yields_attempt, Hservices|]. intros r1 _.
    eapply yields_mono; [apply yields_ret|]. intros ? ->. eexists. split; [done|]. destruct r1; [|constructor].
    simpl. apply Forall_map, Forall_forall. intros i _. by apply reported_on_record.
  - intros routes Hall. eapply yields_mono; [apply yields_ret|]. intros ? ->. split; [done|]. simpl. unfold sortRoutes. rewrite sliceStable_perm. by apply Forall2_right in Hall.
Qed.

Lemma fresh_enough t : (HealthGrace <? time_sub T t) = false <-> T - t <= HealthGrace.
Proof. rewrite Z.ltb_ge. unfold time_sub, min_int64, max_int64, two63, HealthGrace, second. lia. Qed.

Lemma unknown_truthful db id family check k : on_record db id k -> truthful db id family check k.
Proof. intros (H1 & H2 & _). split; rewrite ?H1, ?H2; [done|]. split; [done|by intros []]. Qed.

Lemma passes_record db id k : on_record db id k -> passes db T id (be_InstanceID k) <->
  be_Probe k = ProbePassing /\ T - be_CheckedAt k <= HealthGrace.
Proof.
  intros (_ & _ & Hk). unfold passes. destruct (report_of _ _ _) as [h|].
  - destruct Hk as [E1 E2]. rewrite E1, E2. split.
    + intros (h' & [= <-] & Hh & Ht). by rewrite Hh.
    + intros [Hp Ht]. exists h. split_and!; [done| |done]. by destruct (hr_Healthy h).
  - rewrite Hk. split; [by intros (? & ? & _)|by intros []].
Qed.

Lemma health_one_truthful db ms id family check k : (forall i, yields db (Member ms i) (knows i)) -> on_record db id k ->
  yields_in (at_time T) db (health_one ms family check k) (truthful db id family check).
Proof.
  intros Hms Hk. unfold health_one. eapply yields_bind; [apply yields_attempt; eapply (yields_weaken (fun _ => True)); [done|apply Hms]|].
  intros [m|e] Hm; [|eapply yields_mono; [apply yields_ret|]; intros ? ->; by apply unknown_truthful].
  set (running := mb_Running m && negb (is_empty (AddressIn m family))).
  assert (Hrun : running = true -> exists m, knows (be_InstanceID k) m /\ mb_Running m = true /\ AddressIn m family <> "").
  { intros [H1 H2]%andb_true_iff. exists m. split_and!; [done|done|]. by apply is_empty_false, negb_true_iff. }
  assert (Hrun' : running = true -> exists m', knows (be_InstanceID k) m' /\ mb_Running m' = true /\ AddressIn m family = AddressIn m' family /\ AddressIn m family <> "").
  { intros [H1 H2]%andb_true_iff. exists m. split_and!; [done..|]. by apply is_empty_false, negb_true_iff. }
  pose proof (passes_record db id k Hk) as Hp.
  destruct (String.eqb_spec check CheckNone) as [Ec|Ec].
  - eapply yields_mono; [apply yields_ret|]. intros ? ->. split; simpl; [done|]. split; [by auto|by intros []].
  - eapply yields_bind with (P := fun judged => fst judged = ProbePassing <-> passes db T id (be_InstanceID k)).
    + destruct (is_empty (be_Probe k)) eqn:Ep.
      * eapply yields_mono; [apply yields_ret|]. intros ? ->. rewrite Hp. apply is_empty_spec in Ep. rewrite Ep. simpl. split; [done|by intros []].
      * eapply yields_bind; [apply yields_now|]. intros t (env & n & Henv & ->). rewrite (Henv n).
        eapply yields_mono; [apply yields_ret|]. intros ? ->. rewrite Hp, <- fresh_enough. destruct (HealthGrace <? _); simpl; [split; [done|by intros []]|].
        split; [done|by intros []].
    + intros judged Hj. eapply yields_mono; [apply yields_ret|]. intros ? ->. split; simpl; [done|].
      rewrite andb_true_iff, String.eqb_eq, Hj. split; [intros []; auto|]. intros [? [?|?]]; done.
Qed.

Lemma health_all_truthful db ms id family check ks : (forall i, yields db (Member ms i) (knows i)) -> Forall (on_record db id) ks ->
  yields_in (at_time T) db (health_all ms family check ks) (fun ks' => Forall (truthful db id family check) ks').
Proof.
  intros Hms Hks. eapply yields_mono; [apply (yields_collect db) with (P := fun _ k' => truthful db id family check k')|].
  - intros k out Hk. rewrite Forall_forall in Hks. eapply yields_bind; [apply health_one_truthful; [done|by apply Hks]|].
    intros k' Hk'. eapply yields_mono; [apply yields_ret|]. intros ? ->. eauto.
  - by intros ks' Hall%Forall2_right.
Qed.

(** All backends of a balancer as it is shown. *)
Definition all_truthful db (b : Balancer) : Prop :=
  Forall (truthful db (b_ID b) (b_Family b) (b_Check b)) (b_Backends b) /\
  Forall (fun r => Forall (truthful db (b_ID b) (b_Family b) (b_Check b)) (rt_Backends r)) (b_Routes b).

Lemma resolve_truthful db b : bal_inv knows db -> rec_all db b -> yields_in (at_time T) db (resolve members services b) (all_truthful db).
Proof.
  intros Hi Hb. unfold resolve. eapply yields_bind; [eapply (yields_weaken (fun _ => True)); [done|by apply membership_on_record]|]. intros b1 H1.
  eapply yields_bind; [eapply (yields_weaken (fun _ => True)); [done|by apply routeMembership_on_record]|]. intros b2 [H2 H2'].
  unfold withHealth, withRouteHealth. destruct members as [ms|] eqn:E.
  - assert (Hms : forall i, yields db (Member ms i) (knows i)) by auto.
    eapply yields_bind with (P := fun b3 => exists ks, b3 = with_backends ks b2 /\ Forall (truthful db (b_ID b2) (b_Family b2) (b_Check b2)) ks).
    + eapply yields_bind; [by apply health_all_truthful|]. intros ks Hks. eapply yields_mono; [apply yields_ret|]. intros ? ->. eauto.
    + intros b3 (ks & -> & Hks). eapply yields_bind; [apply (yields_collect db) with
        (P := fun _ r' => Forall (truthful db (b_ID b2) (b_Family b2) (b_Check b2)) (rt_Backends r'))|].
      * intros r out Hr. rewrite Forall_forall in H2'. eapply yields_bind; [apply health_all_truthful; [done|by apply H2']|].
        intros ks' Hks'. eapply yields_mono; [apply yields_ret|]. intros ? ->. eauto.
      * intros routes Hall. eapply yields_mono; [apply yields_ret|]. intros ? ->. split; [done|]. by apply Forall2_right in Hall.
  - eapply yields_bind; [apply yields_ret|]. intros b3 ->. eapply yields_mono; [apply yields_ret|]. intros ? ->. split.
    + eapply Forall_impl; [exact H2|]. intros. by apply unknown_truthful.
    + eapply Forall_impl; [exact H2'|]. intros r Hr. eapply Forall_impl; [exact Hr|]. intros. by apply unknown_truthful.
Qed.

Lemma forNode_truthful db : bal_inv knows db -> yields_in (at_time T) db (forNode members services) (Forall (all_truthful db)).
Proof.
  intros Hi. unfold forNode. eapply yields_bind; [apply yields_mapped; eapply (yields_weaken (fun _ => True)); [done|apply yields_load]|]. intros ? ->.
  eapply yields_mono; [apply (yields_collect db) with (P := fun _ b' => all_truthful db b')|].
  - intros b out Hb. apply list_elem_of_fmap in Hb as (row & -> & _). eapply yields_bind; [apply resolve_truthful; [done|apply loaded_on_record]|].
    intros b' Hb'. eapply yields_mono; [apply yields_ret|]. intros ? ->. eauto.
  - by intros bs Hall%Forall2_right.
Qed.
End verdicts.

(** * Certificates that need attention *)

Section sweeping.
Context {S : Type} `{!Has BalancerDB S, !Has Told S, !Apart Told BalancerDB S}.

(** The rows in the order the sweep visits them. *)
Definition visited (db : BalancerDB) : list Balancer := sliceStable by_port (bd_balancers db).

Lemma visited_ids knows db : bal_inv knows db -> NoDup (map b_ID (map (loaded db) (visited db))).
Proof.
  intros Hi. rewrite map_map. cbn [loaded with_members b_ID]. unfold visited. rewrite sliceStable_perm.
  pose proof (bi_id _ _ Hi) as Hu. unfold unique_by in Hu. by rewrite omap_total in Hu.
Qed.

Lemma wp_all env (Q : outcome (list Balancer) -> World S -> Prop) w :
  (forall e w', part w' = part (T:=BalancerDB) w -> part w' = part (T:=Told) w -> w_events w' = w_events w -> Q (Err e) w') ->
  (forall w', part w' = part (T:=BalancerDB) w -> part w' = part (T:=Told) w -> w_events w' = w_events w ->
     Q (Ok (map (loaded (part w)) (visited (part w)))) w') ->
  wp env all Q w.
Proof.
  intros HE HOk.
  assert (Hq : steps (fun v v' : World S => part v' = part (T:=BalancerDB) v /\ part v' = part (T:=Told) v /\ w_events v' = w_events v) all).
  { assert (Hpre : PreOrder (fun v v' : World S => part v' = part (T:=BalancerDB) v /\ part v' = part (T:=Told) v /\ w_events v' = w_events v)).
    { split; [done|]. intros x y z (->&->&->) (->&->&->). done. }
    unfold all, load, backendsOf, routesOf.
    repeat first [exact Hpre|apply steps_bind; intros|apply steps_foldM; intros|by apply steps_query|apply steps_ret]. }
  pose proof (yields_load (part w) (sliceStable by_port) env w I eq_refl) as Hy. specialize (Hq env w). fold (visited (part w)) in Hy.
  change (load (sliceStable by_port)) with (all (S:=S)) in Hy. unfold wp in *. destruct (all env w) as [[bs|e] w']; simpl in Hq; destruct Hq as (?&?&?).
  - destruct Hy as [_ ->]. by apply HOk.
  - by apply HE.
Qed.

(** What a sweep at time [T] told, and what it remembers. *)
Definition told_of (T : Z) (w w' : World S) (told : Z) : Prop :=
  swept b_ID (fun b => Present (b_TLS b)) (fun b => tls_ExpiresAt (b_TLS b)) expiry_event T (map (loaded (part w)) (visited (part w)))
    (expiry (part w)) (expiry (part w')) (w_events w) (w_events w') told.

Lemma sweep_wp T env knows (w : World S) : at_time T env -> bal_inv knows (part w) ->
  wp env (sweepCertificates true) (fun r w' => part w' = part (T:=BalancerDB) w /\
    match r with Ok told => told_of T w w' told | Err _ => w_events w' = w_events w /\ part w' = part (T:=Told) w end) w.
Proof.
  intros Henv Hi. unfold sweepCertificates. cbn [negb]. apply wp_bind, wp_mapped, wp_all; cbn [or_fault]; [by intros e w' -> -> ->|].
  intros w1 Hdb1 Ht1 Hev1. set (rows := map (loaded (part w)) (visited (part w))).
  eapply wp_mono; [|exact (watch_all_wp expiry MkTold b_ID (fun b => Present (b_TLS b)) (fun b => tls_ExpiresAt (b_TLS b)) expiry_event T
    (fun e => eq_refl) (U:=BalancerDB) env rows w1 Henv (visited_ids knows _ Hi))].
  intros r w2 (Hdb2 & told & -> & Hs). split; [congruence|]. unfold told_of. fold rows. by rewrite <- Ht1, <- Hev1.
Qed.
End sweeping.

(** * Properties *)

Section properties.
Context {S : Type} `{!Has BalancerDB S, !Has Told S, !Apart Told BalancerDB S} `{!X509, !PEM}.
Context (c : AEAD) (keys : option Keyring).
Context (members : option (Members S)) (ports : option (Ports S)) (services : option (Services S)) (has_events : bool).
Context (knows : string -> Member_ -> Prop).
Context (Hmembers : forall ms i (db : BalancerDB), members = Some ms -> yields db (Member ms i) (knows i)).
Context (Hslash : forall i m, knows i m -> no_slash i).
Context (Hservices : forall sv p id (db : BalancerDB), services = Some sv -> yields db (MembersOf sv p id) (Forall no_slash)).
Context (Hports : forall ps pr n, ports = Some ps -> leaves BalancerDB (NodePortTaken ps pr n)).

Abbreviation run := (serve c keys members ports services has_events).
Let Hserve db r (Hi : bal_inv knows db) :=
  bal_serve_moves c keys members ports services has_events knows (asks r) Hmembers Hslash Hservices Hports db r Hi (fun pr n H => H).

(** C36: [balancers_lawful]: every request, report, release and sweep moves the tables only by changes its
    actor may make, claims no port but the one a creation asks for, and keeps them well formed: no two balancers on one port, backends only of the
    project's own instances and at most 64 of them, routes that are unambiguous and only where requests
    can be read; however the database fails. *)
Theorem balancers_lawful env r (w : World S) (Hinv : bal_inv knows (part w)) :
  wp env (run r) (fun _ w' => history knows (asks r) (actor_of r) (part w) (part w') /\ bal_inv knows (part w')) w.
Proof.
  eapply wp_mono; [|exact (Hserve (part w) r Hinv env w eq_refl)]. intros a w' Hh. split; [exact Hh|]. exact (bal_history_inv knows _ _ _ _ Hh Hinv).
Qed.

(** [balancer_tenants_apart]: a request of one project leaves the balancers, backends, reports and routes
    of all others exactly as they were, and a listing shows the project's own balancers, all of them,
    in the order of their ports. *)
Theorem balancer_tenants_apart env r p (w : World S) (Hinv : bal_inv knows (part w)) (Hr : actor_of r = Tenant p) :
  wp env (run r) (fun a w' => others p (part w') = others p (part w) /\
    match r, a with
    | ReqList _, Ok (MkReply _ (Some (BBalancers bs))) =>
        map o_ID bs = map b_ID (sliceStable by_port (List.filter (in_project p) (bd_balancers (part w))))
    | _, _ => True
    end) w.
Proof.
  apply wp_and.
  - eapply wp_mono; [|exact (Hserve (part w) r Hinv env w eq_refl)]. intros a w' Hh. rewrite Hr in Hh. exact (bal_history_others knows _ _ _ _ Hh Hinv).
  - destruct r; try (unfold wp; by destruct (run _ env w)). injection Hr as <-.
    pose proof (yields_listIn members services knows Hmembers Hservices (part w) (sc_ProjectID sc) env w I eq_refl) as Hl.
    cbn [serve]. unfold handle_list, writeList, Write. apply wp_bind. eapply wp_mono; [|exact Hl]. intros [bs|e] w' [_ Hb]; [|done].
    rewrite wp_ret. clear -Hb. induction Hb as [|row b rows bs [Hh _] _ IH]; [done|]. simpl. f_equal; [|exact IH]. by apply (f_equal b_ID) in Hh.
Qed.

(** C38: [health_from_holder]: what a node reports changes nothing but the health of instances that run on it;
    no node can take another's backends out, or bring them back. *)
Theorem health_from_holder env n r (w : World S) (Hinv : bal_inv knows (part w)) (Hr : actor_of r = NodeOf n) :
  wp env (run r) (fun _ w' => same_but_health (fun h => ~ held_on knows n (hr_Instance h)) (part w) (part w')) w.
Proof.
  eapply wp_mono; [|exact (Hserve (part w) r Hinv env w eq_refl)]. intros a w' Hh. rewrite Hr in Hh. by eapply history_node.
Qed.


(** [lost_key_blocks_every_node]: as long as one balancer carries a certificate that is sealed with a key
    the control plane does not hold, no node is handed any balancer at all. *)
Theorem lost_key_blocks_every_node env row nodeID (w : World S) (Hrow : row ∈ bd_balancers (part w))
  (Htls : Present (b_TLS row) = true) (Hlost : Sealed.Find keys (tls_KeyID (b_TLS row)) = None) :
  wp env (run (ReqListForNode nodeID)) (fun r _ => match r with Ok _ => False | Err _ => True end) w.
Proof.
  cbn [serve]. unfold handle_listForNode. apply wp_bind.
  eapply wp_mono; [|exact (yields_forNode members services knows Hmembers Hservices (part w) env w I eq_refl)].
  intros [bs|e] w' [Hw' Hl]; [|done]. assert (Hb : exists b, b ∈ bs /\ b_TLS b = b_TLS row).
  { assert (Hv : row ∈ visited (part w)) by (unfold visited; by rewrite sliceStable_perm). apply list_elem_of_lookup in Hv as [i Hv].
    destruct (Forall2_lookup_l _ _ _ _ _ Hl Hv) as (b & Hb & Hh & _). exists b. split; [by eapply list_elem_of_lookup_2|]. by apply (f_equal b_TLS) in Hh. }
  destruct Hb as (b & Hb & Etls).
  assert (Hy : yields (part (T:=BalancerDB) w) (foldM (fun b out => let! pair := lift (certificateOf c keys b) in
      ret (out ++ [MkNodeResponse (toResponse b) (fst pair) (snd pair)])) bs []) (Forall2 (fun b _ => exists pair, certificateOf c keys b = Ok pair) bs)).
  { apply yields_collect. intros x out _. eapply yields_bind; [apply yields_lift|]. intros pair Hp. eapply yields_mono; [apply yields_ret|]. intros ? ->. eexists. split; [done|by exists pair]. }
  apply wp_bind. eapply wp_mono; [|exact (Hy env w' I Hw')]. intros [out|e] w2 [_ Hall]; [|done].
  apply list_elem_of_lookup in Hb as [i Hb]. destruct (Forall2_lookup_l _ _ _ _ _ Hall Hb) as (y & _ & pair & Hp).
  unfold certificateOf, openCertificate in Hp. by rewrite Etls, Htls, Hlost in Hp.
Qed.
End properties.

Section certificate_properties.
Context {S : Type} `{!Has BalancerDB S, !Has Told S, !Apart Told BalancerDB S}.

(** [certificate_warned_once]: a sweep tells of every certificate that is about to expire or has expired
    and was not told of in that state, once, and remembers what it told; the next sweep at the same
    time tells nothing; and what is remembered is only of balancers there are. *)
Theorem certificate_warned_once (knows : string -> Member_ -> Prop) env T (w : World S) (Hinv : bal_inv knows (part w)) (HT : at_time T env) :
  wp env (sweepCertificates true) (fun r w' => match r with
    | Err _ => w_events w' = w_events w /\ part w' = part (T:=Told) w
    | Ok told => told_of T w w' told /\
        wp env (sweepCertificates true) (fun r2 w2 => w_events w2 = w_events w' /\ forall again, r2 = Ok again -> again = 0) w'
    end) w.
Proof.
  eapply wp_mono; [|by apply (sweep_wp T env knows)]. intros [told|e] w' [Hdb Hs]; [|exact Hs]. split; [exact Hs|].
  eapply wp_mono; [|apply (sweep_wp T env knows); [done|by rewrite Hdb]]. intros [again|e2] w2 [_ Hs2]; [|by destruct Hs2].
  unfold told_of in Hs2. rewrite Hdb in Hs2. destruct Hs2 as (-> & -> & _). erewrite swept_news by exact Hs.
  split; [by rewrite app_nil_r|]. by intros again [= <-].
Qed.

(** [certificate_roundtrip]: what a node is handed of a sealed certificate is the chain and the key that
    were given, block for block, as long as the key ring finds the sealing key; and sealing is refused
    only for what [Inspect] refuses. *)
Theorem certificate_roundtrip `{!X509} (c : AEAD) (keys : option Keyring) `{!GCM c, PEMLaws} env k chain key (w : World S)
  (Hactive : Sealed.Active keys = Some k) (Hfind : Sealed.Find keys (Sealed.ID k) = Some k)
  (Hchain : chain <> [] /\ Forall (fun b => bl_Type b = CertificateType) chain)
  (Hkey : key <> [] /\ Forall (fun b => bl_Type b <> CertificateType) key) :
  wp env (sealCertificate c keys (printed chain) (printed key)) (fun r _ => match r with
    | Ok t => openCertificate c keys t = Ok (printed chain, printed key)
    | Err _ => exists e, Inspect (printed chain) (printed key) = Err e
    end) w.
Proof.
  unfold sealCertificate. apply wp_bind. rewrite wp_lift. destruct (Inspect _ _) as [summary|e] eqn:Ei; cbn [or_fault]; [|by exists e].
  rewrite Hactive. apply wp_bind, wp_mapped, SealBytes_wp; [done|apply string_bytes_bound|]. intros text Ht. cbn [or_fault]. rewrite wp_ret.
  unfold openCertificate, Present. cbn [tls_Material tls_KeyID].
  assert (Hne : is_empty text = false) by (apply is_empty_false; intros ->; discriminate Ht). rewrite Hne. cbn [negb].
  unfold ActiveID. rewrite Hactive, Hfind, Ht. cbn [obind or_fault]. rewrite bytes_string_bytes.
  destruct Hchain as [Hc1 Hc2], Hkey as [Hk1 Hk2]. rewrite (split_bundle chain key Hc1 Hk1 Hc2 Hk2).
  assert (Hpr : forall bs, bs <> [] -> is_empty (printed bs) = false).
  { intros bs Hbs. apply is_empty_false. intros E. pose proof (printed_length bs) as Hl. rewrite E in Hl. destruct bs; [done|simpl in Hl; lia]. }
  by rewrite !Hpr.
Qed.

End certificate_properties.

(** * A small cloud *)

Module Demo.
Abbreviation St := (BalancerDB * Told)%type.
#[export] Instance has_db : Has BalancerDB St := Has_fst BalancerDB Told.
#[export] Instance has_told : Has Told St := Has_snd BalancerDB Told.
#[export] Instance told_apart : Apart Told BalancerDB St := Apart_pair' BalancerDB Told.
#[export] Existing Instances Toy.pem Toy.pem_laws.
#[export] Instance x509 : X509 := {| KeyPair cert key := if is_empty key then Err (EText "no key") else Ok ("app.example.com", 1709210096 * second) |}.

Definition running : Member_ := MkMember "prj-1" "nd-1" "10.0.0.2" "" true.
Definition ms : Members St := {| Member i := if String.eqb i "ins-1" then ret running else fail (EText "no such instance") |}.
Definition sv : Services St := {| MembersOf p id := if String.eqb id "web" then ret ["ins-1"] else fail (EText "no such service") |}.
Definition ps : Ports St := {| NodePortTaken pr n := ret false |}.
Definition knows (i : string) (m : Member_) : Prop := i = "ins-1" /\ m = running.
Lemma members_known m i (db : BalancerDB) : Some ms = Some m -> yields db (Member m i) (knows i).
Proof.
  intros [= <-]. simpl. destruct (String.eqb_spec i "ins-1") as [->|]; [eapply yields_mono; [apply yields_ret|by intros ? ->]|].
  eapply yields_mono; [apply yields_fail|done].
Qed.
Lemma known_slash i m : knows i m -> no_slash i.
Proof. intros [-> _]. apply (bool_decide_unpack _). vm_compute. exact I. Qed.
Lemma services_known s p id (db : BalancerDB) : Some sv = Some s -> yields db (MembersOf s p id) (Forall no_slash).
Proof.
  intros [= <-]. simpl. destruct (String.eqb id "web"); [|eapply yields_mono; [apply yields_fail|done]].
  eapply yields_mono; [apply yields_ret|]. intros ? ->. constructor; [|constructor]. by apply (known_slash _ running).
Qed.
Lemma ports_leave p pr n : Some ps = Some p -> leaves BalancerDB (NodePortTaken p pr n).
Proof. intros [= <-]. apply leaves_ret. Qed.

Definition bal (id project name : string) (port : Z) (t : TLS) : Balancer :=
  MkBalancer id project name "tcp" port 80 "round_robin" "" "ipv4" "tcp" "" 2 2 [] [] t 0.
Definition expiring : TLS := MkTLS "sealed" "key-9" "app.example.com" "2024-03-01T00:00:00Z".
(** A routing balancer and one with a backend, in two projects. *)
Definition db : BalancerDB := MkBalancerDB [bal "lb-1" "prj-1" "front" 443 expiring; bal "lb-2" "prj-2" "api" 80 no_tls] []
  [MkHealthRow "lb-1" "ins-1" true "" (1709210000 * second)] [MkRouteRow "lb-1" "app.example.com" "/v1" "web"].
Definition w0 : World St := MkWorld (db, MkTold ∅) O [].
Definition T : Z := 1709210050 * second.
Definition env : Env := {| env_now _ := T; env_rand n := [Z.of_nat n; 7]; env_io _ := false |}.
(** The database fails at the [n]-th effect. *)
Definition failing (n : nat) : Env := {| env_now _ := T; env_rand n := [Z.of_nat n; 7]; env_io k := Nat.eqb k n |}.
Definition tenant (p : string) : Scope := MkScope p "tok-1" "ci" "" "member".
Definition run_in (e : Env) (r : request) (w : World St) : outcome (Reply body) * World St :=
  serve demo None (Some ms) (Some ps) (Some sv) true r e w.
Definition run : request -> World St -> outcome (Reply body) * World St := run_in env.
Definition routing : createRequest :=
  MkCreateRequest "www" "" 8080 80 "" "" "" "" 0 0 "" [] [MkRouteRequest "www.example.com" "" "web"].
End Demo.
Import (hints) Demo.

Lemma demo_inv : bal_inv Demo.knows Demo.db.
Proof.
  assert (Hown : forall id (P : Balancer -> Prop), P (Demo.bal id "prj-1" "front" 443 Demo.expiring) -> id = "lb-1" -> owner Demo.db id P).
  { intros id P HP ->. exists (Demo.bal "lb-1" "prj-1" "front" 443 Demo.expiring). split_and!; [apply list_elem_of_here|done|done]. }
  constructor; try (apply (bool_decide_unpack _); vm_compute; exact I).
  - repeat constructor; try (apply (bool_decide_unpack _); vm_compute; exact I); vm_compute; done.
  - constructor.
  - intros id. simpl. unfold MaxBackends. lia.
  - constructor; [|constructor]. by apply Hown.
  - constructor; [|constructor]. by apply Hown.
  - intros id. simpl. unfold MaxRoutes. destruct (route_of _ _); simpl; lia.
Qed.

Lemma balancers_lawful_witness :
  bal_inv Demo.knows (part (snd (Demo.run (ReqCreate (Demo.tenant "prj-1") (Ok Demo.routing)) Demo.w0))).
Proof.
  pose proof (balancers_lawful demo None _ _ _ true Demo.knows Demo.members_known Demo.known_slash Demo.services_known Demo.ports_leave
    Demo.env (ReqCreate (Demo.tenant "prj-1") (Ok Demo.routing)) Demo.w0 demo_inv) as H.
  unfold wp in H. unfold Demo.run, Demo.run_in. destruct (serve _ _ _ _ _ _ _ _ _) as [r w']. exact (proj2 H).
Defined.

Lemma balancer_tenants_apart_witness :
  others "prj-1" (part (snd (Demo.run (ReqDelete (Demo.tenant "prj-1") "front") Demo.w0))) = others "prj-1" Demo.db.
Proof.
  pose proof (balancer_tenants_apart demo None _ _ _ true Demo.knows Demo.members_known Demo.known_slash Demo.services_known Demo.ports_leave
    Demo.env (ReqDelete (Demo.tenant "prj-1") "front") "prj-1" Demo.w0 demo_inv eq_refl) as H.
  unfold wp in H. unfold Demo.run, Demo.run_in. destruct (serve _ _ _ _ _ _ _ _ _) as [r w']. exact (proj1 H).
Defined.

Lemma health_from_holder_witness :
  same_but_health (fun h => ~ held_on Demo.knows "nd-2" (hr_Instance h)) Demo.db
    (part (snd (Demo.run (ReqReportHealth "nd-2" (Ok [MkHealthEntry "lb-1" "ins-1" false "refused"])) Demo.w0))).
Proof.
  pose proof (health_from_holder demo None _ _ _ true Demo.knows Demo.members_known Demo.known_slash Demo.services_known Demo.ports_leave
    Demo.env "nd-2" (ReqReportHealth "nd-2" (Ok [MkHealthEntry "lb-1" "ins-1" false "refused"])) Demo.w0 demo_inv eq_refl) as H.
  unfold wp in H. unfold Demo.run, Demo.run_in. destruct (serve _ _ _ _ _ _ _ _ _) as [r w']. exact H.
Defined.


Lemma certificate_warned_once_witness :
  match sweepCertificates true Demo.env Demo.w0 with (Ok told, w') => told = 1 /\ told_of Demo.T Demo.w0 w' told | _ => False end.
Proof.
  assert (Hok : exists w', sweepCertificates true Demo.env Demo.w0 = (Ok 1, w')) by (eexists; vm_compute; reflexivity). destruct Hok as [w' Hw'].
  pose proof (certificate_warned_once Demo.knows Demo.env Demo.T Demo.w0 demo_inv ltac:(intros n; reflexivity)) as H.
  unfold wp at 1 in H. rewrite Hw' in *. split; [reflexivity|]. exact (proj1 H).
Defined.

Definition ring : Keyring := NewKeyring [replicate 32 7].
Definition leaf : Block := MkBlock CertificateType [] "leaf".
Definition private : Block := MkBlock "PRIVATE KEY" [] "secret".
Lemma certificate_roundtrip_witness :
  match fst (sealCertificate demo (Some ring) (printed [leaf]) (printed [private]) Demo.env Demo.w0) with
  | Ok t => openCertificate demo (Some ring) t = Ok (printed [leaf], printed [private])
  | Err _ => False end.
Proof.
  assert (Hok : exists t, fst (sealCertificate demo (Some ring) (printed [leaf]) (printed [private]) Demo.env Demo.w0) = Ok t) by (eexists; vm_compute; reflexivity).
  destruct Hok as [t Ht].
  pose proof (certificate_roundtrip demo (Some ring) Demo.env (replicate 32 7) [leaf] [private] Demo.w0 ltac:(reflexivity) ltac:(vm_compute; reflexivity)
    ltac:(split; [discriminate|by constructor]) ltac:(split; [discriminate|by constructor])) as H.
  unfold wp in H. destruct (sealCertificate _ _ _ _ _ _) as [r w']. simpl in Ht. subst r. exact H.
Defined.

Lemma lost_key_blocks_every_node_witness : match fst (Demo.run (ReqListForNode "nd-1") Demo.w0) with Ok _ => False | Err _ => True end.
Proof.
  pose proof (lost_key_blocks_every_node demo None (Some Demo.ms) (Some Demo.ps) (Some Demo.sv) true Demo.knows Demo.members_known Demo.services_known
    Demo.env (Demo.bal "lb-1" "prj-1" "front" 443 Demo.expiring) "nd-1" Demo.w0 ltac:(apply list_elem_of_here) ltac:(reflexivity) ltac:(reflexivity)) as H.
  unfold wp in H. unfold Demo.run, Demo.run_in. destruct (serve _ _ _ _ _ _ _ _ _) as [r w']. exact H.
Defined.

(** [routing_takes_backends]: a balancer that routes by host and path takes a backend of its own, although
    creating one with both is refused: a request cannot be answered both ways. *)
Theorem routing_takes_backends :
  let w1 := snd (Demo.run (ReqAddBackend (Demo.tenant "prj-1") "front" (Ok "ins-1")) Demo.w0) in
  let both := MkCreateRequest "www" "" 8080 80 "" "" "" "" 0 0 "" ["ins-1"] [MkRouteRequest "www.example.com" "" "web"] in
  (map br_Balancer (bd_backends (part w1)), map rr_Balancer (bd_routes (part w1))) = (["lb-1"], ["lb-1"]) /\
  match fst (Demo.run (ReqCreate (Demo.tenant "prj-1") (Ok both)) Demo.w0) with Err e => code_of e = "routes_and_backends" | Ok _ => False end.
Proof. vm_compute. split; reflexivity. Qed.

(** [half_made_balancer]: a balancer is made in two transactions.  When the second fails the balancer is
    there without its routes: the port is taken, and routes are not given to it any more. *)
Theorem half_made_balancer :
  let '(r, w1) := Demo.run_in (Demo.failing 5) (ReqCreate (Demo.tenant "prj-1") (Ok Demo.routing)) Demo.w0 in
  (exists e, r = Err e) /\ map b_Name (bd_balancers (part w1)) = ["front"; "api"; "www"] /\ len (bd_routes (part w1)) = 1 /\
  match fst (Demo.run (ReqSetRoutes (Demo.tenant "prj-1") "www" (Ok [MkRouteRequest "www.example.com" "" "web"])) w1) with
  | Err e => code_of e = "not_a_routing_balancer" | Ok _ => False end.
Proof. vm_compute. split_and!; eauto. Qed.
