(* ===== verification/Forward.v ===== *)
(** Published ports (internal/platform/forward): a port of the node an instance runs on that leads
    to a port of the instance, with the certificate the node presents there.

    The table is one state; [Warned] is what the process remembers of the certificates it has
    warned about.  Where an instance runs and which ports balancers claim are the interfaces
    [Addresses] and [Balancers], [None] where the Go field may be nil. *)
From stdpp Require Import base tactics numbers strings list gmap sorting.
From Stdlib Require Import ZArith Lia Sorted.
From Stdlib Require Ascii.
From S2P Require Import Prelude GoLang Time Effects Regex Kernel Httpx Tables Encoding Sealed Certs CertWatch.
From S2P Require Interval.

(** * Data (types.go) *)

Definition ProtocolTCP : string := "tcp".
Definition ProtocolUDP : string := "udp".
Definition MinPort : Z := 1.
Definition MaxPort : Z := 65535.
Definition FamilyIPv4 : string := "ipv4".
Definition FamilyIPv6 : string := "ipv6".
(* go: platform/forward/types.go Families *)
Definition Families : list string := [FamilyIPv4; FamilyIPv6].
(* go: platform/forward/types.go Protocols *)
Definition Protocols : list string := [ProtocolTCP; ProtocolUDP].

(* go: platform/forward/types.go TLS *)
Record TLS := MkTLS { tls_Material : string; tls_KeyID : string; tls_Subject : string; tls_ExpiresAt : string }.
(* go: platform/forward/types.go TLS.Present *)
Definition Present (t : TLS) : bool := negb (is_empty (tls_Material t)).
Definition no_tls : TLS := MkTLS "" "" "" "".
(* go: platform/forward/types.go Forward *)
Record Forward := MkForward {
  f_ID : string; f_ProjectID : string; f_InstanceID : string; f_Protocol : string; f_NodePort : Z; f_TargetPort : Z;
  f_NodeID : string; f_Address : string; f_Family : string; f_TLS : TLS; f_CreatedAt : Z;
}.
(* go: platform/forward/types.go CreateParams *)
Record CreateParams := MkCreateParams {
  cp_ProjectID : string; cp_InstanceID : string; cp_Protocol : string; cp_NodePort : Z; cp_TargetPort : Z; cp_Family : string;
}.
(* go: platform/forward/types.go Endpoint *)
Record Endpoint_ := MkEndpoint { en_ProjectID : string; en_NodeID : string; en_Address : string; en_Address6 : string }.

(** * Interfaces (service.go) *)

(* go: platform/forward/service.go Addresses *)
Record Addresses (S : Type) := { Endpoint : string -> M S Endpoint_ }.
Arguments Endpoint {S} _ _.
(* go: platform/forward/service.go Balancers *)
Record Balancers (S : Type) := { ListenPortTaken : string -> Z -> M S bool }.
Arguments ListenPortTaken {S} _ _ _.

(** * Repository (repository.go)

    UNIQUE (id) and (node_id, protocol, node_port); any violation is [errPortUsed]. *)

(** The table; a record, so that it is told from other modules' lists. *)
Record ForwardDB := MkForwardDB { fd_rows : list Forward }.
(** The map [service.expiry]. *)
Record Warned := MkWarned { warned : gmap string string }.

Definition errNotFound : error := ESentinel "forward not found".
Definition errPortUsed : error := ESentinel "node port already published".

Definition with_tls (t : TLS) (f : Forward) : Forward :=
  MkForward (f_ID f) (f_ProjectID f) (f_InstanceID f) (f_Protocol f) (f_NodePort f) (f_TargetPort f) (f_NodeID f) (f_Address f)
    (f_Family f) t (f_CreatedAt f).
Definition has_id (id : string) (f : Forward) : bool := String.eqb (f_ID f) id.
Definition in_project (projectID : string) (f : Forward) : bool := String.eqb (f_ProjectID f) projectID.
Definition on_node (nodeID : string) (f : Forward) : bool := String.eqb (f_NodeID f) nodeID.
Definition of_instance (instanceID : string) (f : Forward) : bool := String.eqb (f_InstanceID f) instanceID.
Definition on_port (protocol : string) (port : Z) (f : Forward) : bool := String.eqb (f_Protocol f) protocol && (f_NodePort f =? port).
Definition by_port (a b : Forward) : bool := f_NodePort a <? f_NodePort b.
Definition clash (n f : Forward) : bool := has_id (f_ID n) f || on_node (f_NodeID n) f && on_port (f_Protocol n) (f_NodePort n) f.
Definition on_rows {A} (q : list Forward -> outcome A * list Forward) (db : ForwardDB) : outcome A * ForwardDB :=
  let '(r, rows) := q (fd_rows db) in (r, MkForwardDB rows).

Section repository.
Context {S : Type} `{!Has ForwardDB S}.

(* go: platform/forward/repository.go repository.insert *)
Definition insert (f : Forward) : M S unit := sql "insert forward" (on_rows (insert_row (clash f) errPortUsed f)).
(* go: platform/forward/repository.go repository.query *)
Definition query_rows (q : list Forward -> list Forward) : M S (list Forward) :=
  query "list forwards" (fun db => Ok (q (fd_rows db))).
(* go: platform/forward/repository.go repository.listIn *)
Definition listIn_rows (projectID : string) : M S (list Forward) :=
  query_rows (fun rows => sliceStable by_port (List.filter (in_project projectID) rows)).
(* go: platform/forward/repository.go repository.all *)
Definition all : M S (list Forward) := query_rows (sliceStable by_port).
(* go: platform/forward/repository.go repository.byID *)
Definition byID (id : string) : M S Forward :=
  let! found := query_rows (List.filter (has_id id)) in
  match found with [] => fail errNotFound | f :: _ => ret f end.
(* go: platform/forward/repository.go repository.onNode *)
Definition onNode_rows (nodeID : string) : M S (list Forward) :=
  query_rows (fun rows => sliceStable by_port (List.filter (on_node nodeID) rows)).
(* go: platform/forward/repository.go repository.portTaken *)
Definition portTaken (protocol : string) (port : Z) : M S bool :=
  query "check the node port" (fun db => Ok (0 <? len (List.filter (on_port protocol port) (fd_rows db)))).
(* go: platform/forward/repository.go repository.delete *)
Definition delete_row (id : string) : M S unit := sql "delete forward" (on_rows (delete_where (has_id id) errNotFound)).
(* go: platform/forward/repository.go repository.deleteInstance *)
Definition deleteInstance (instanceID : string) : M S unit :=
  sql "delete the forwards of an instance" (on_rows (fun rows => (Ok tt, List.filter (fun f => negb (of_instance instanceID f)) rows))).
(* go: platform/forward/repository.go repository.setTLS *)
Definition setTLS (id : string) (t : TLS) : M S unit :=
  sql "set the forward certificate" (on_rows (update_where (has_id id) (with_tls t) errNotFound)).
End repository.

(* go: platform/forward/service.go translate *)
Definition translate (err : error) : error :=
  if errors_Is err "forward not found" then NotFound "forward_not_found" "no published port with that id exists"
  else if errors_Is err "node port already published" then Conflict "node_port_taken" "that node port is already published"
  else err.

(** * Certificates (certificate.go)

    A bundle is sealed as a JSON string; [Marshal] and [Unmarshal] are [encoding/json]'s. *)

Section certificates.
Context {S : Type} `{!X509, !PEM} (c : AEAD) (Marshal : string -> outcome (list Z)) (Unmarshal : list Z -> string -> outcome string)
  (keys : option Keyring).

(* go: platform/forward/certificate.go sealCertificate *)
Definition sealCertificate (certPEM keyPEM : string) : M S TLS :=
  let! summary := lift (or_fault (fun err => Invalid "invalid_certificate" (error_text err)) (Inspect certPEM keyPEM)) in
  let! r := attempt (SealJSON c Marshal (Bundle certPEM keyPEM) keys) in
  match r with
  | Err err =>
      if errors_Is err "this control plane holds no key to seal with" then fail (Conflict "no_sealing_key"
        "this control plane has no key to seal a private key with, and handing one to every node from a database it cannot protect is not something it will do quietly: start it with --backup-key-file")
      else fail (Internal (EWrap "seal the certificate" err))
  | Ok (blob, keyID) => ret (MkTLS blob keyID (sm_Subject summary) (sm_ExpiresAt summary))
  end.
(* go: platform/forward/certificate.go openCertificate *)
Definition openCertificate (t : TLS) : outcome (string * string) :=
  if negb (Present t) then Ok ("", "")
  else match OpenJSON c Unmarshal (tls_Material t) (tls_KeyID t) keys "" with
    | Err err =>
        if errors_Is err "this control plane does not hold the key it was sealed with"
        then Err (Conflict "seal_key_missing" ("this forward's certificate was sealed with key " +:+ tls_KeyID t
               +:+ ", which this control plane does not hold"))
        else Err (Internal (EWrap "unseal the certificate" err))
    | Ok bundled =>
        let '(certPEM, keyPEM) := Split bundled in
        if is_empty certPEM || is_empty keyPEM
        then Err (Internal (EText "the sealed bundle holds no certificate or no key"))
        else Ok (certPEM, keyPEM)
    end.
End certificates.

(** * Service (service.go) *)

Definition bad_port (port : Z) : bool := (port <? MinPort) || (MaxPort <? port).
Definition foreign (f : Forward) (projectID : string) : outcome unit :=
  guard (negb (in_project projectID f)) (NotFound "forward_not_found" "no published port with that id exists").

Section service.
Context {S : Type} `{!Has ForwardDB S, !Has Warned S} `{!X509, !PEM}.
Context (c : AEAD) (Marshal : string -> outcome (list Z)) (Unmarshal : list Z -> string -> outcome string) (keys : option Keyring).
Context (addresses : option (Addresses S)) (balancers : option (Balancers S)) (has_events : bool).

(** The port that is asked for. *)
Definition asked_port (params : CreateParams) : string * Z :=
  (if is_empty (cp_Protocol params) then ProtocolTCP else cp_Protocol params,
   if cp_NodePort params =? 0 then cp_TargetPort params else cp_NodePort params).
(** What a request asks for, with its defaults. *)
(* go: platform/forward/service.go:50-69 ProtocolTCP *)
Definition check_params (params : CreateParams) : outcome CreateParams :=
  try _ := guard (is_empty (cp_InstanceID params)) (Invalid "invalid_instance" "instance_id must not be empty") in
  let protocol := if is_empty (cp_Protocol params) then ProtocolTCP else cp_Protocol params in
  try _ := validate_OneOf "protocol" protocol Protocols in
  try _ := guard (bad_port (cp_TargetPort params)) (Invalid "invalid_target_port" "target_port must be between 1 and 65535") in
  let port := if cp_NodePort params =? 0 then cp_TargetPort params else cp_NodePort params in
  try _ := guard (bad_port port) (Invalid "invalid_node_port" "node_port must be between 1 and 65535") in
  Ok (MkCreateParams (cp_ProjectID params) (cp_InstanceID params) protocol port (cp_TargetPort params) (cp_Family params)).
(* go: platform/forward/service.go:71-81 ListenPortTaken *)
Definition ask_balancers (protocol : string) (port : Z) : M S unit :=
  match balancers with
  | None => ret tt
  | Some bs =>
      let! balanced := ListenPortTaken bs protocol port in
      lift (guard balanced (Conflict "node_port_taken"
        ("port " +:+ itoa port +:+ "/" +:+ protocol +:+ " is claimed by a balancer, which holds it on every node")))
  end.
(** The address that is published, in the family that was asked for. *)
(* go: platform/forward/service.go:92-117 FamilyIPv6 *)
Definition reach (projectID family : string) (e : Endpoint_) : outcome (string * string) :=
  try _ := guard (negb (String.eqb (en_ProjectID e) projectID)) (NotFound "instance_not_found" "no instance with that id exists") in
  let family := if is_empty family then FamilyIPv4 else family in
  try _ := validate_OneOf "family" family Families in
  let address := if String.eqb family FamilyIPv6 then en_Address6 e else en_Address e in
  try _ := guard (String.eqb family FamilyIPv6 && is_empty (en_Address6 e) && negb (is_empty (en_NodeID e)))
    (Conflict "no_address_in_family" "the instance has no IPv6 address, because its network carries no IPv6 range") in
  try _ := guard (is_empty (en_NodeID e) || is_empty address)
    (Conflict "instance_unreachable" "the instance has no address yet, so there is nothing to publish") in
  Ok (family, address).
(* go: platform/forward/service.go service.create *)
Definition create (params : CreateParams) : M S Forward :=
  let! params := lift (check_params params) in
  ask_balancers (cp_Protocol params) (cp_NodePort params) ;;;
  match addresses with
  | None => fail (Unavailable "addresses_unavailable" "the platform cannot look up where an instance runs")
  | Some asked =>
      let! e := Endpoint asked (cp_InstanceID params) in
      let! ' (family, address) := lift (reach (cp_ProjectID params) (cp_Family params) e) in
      let! id := ids_New "fwd" in
      let! at_ := now in
      let f := MkForward id (cp_ProjectID params) (cp_InstanceID params) (cp_Protocol params) (cp_NodePort params)
        (cp_TargetPort params) (en_NodeID e) address family no_tls at_ in
      mapped (fun err => if errors_Is err "node port already published"
        then Conflict "node_port_taken" ("port " +:+ itoa (f_NodePort f) +:+ "/" +:+ f_Protocol f +:+ " is already published on that node")
        else translate err) (insert f) ;;;
      ret f
  end.

(* go: platform/forward/service.go service.onNode *)
Definition onNode (nodeID : string) : M S (list Forward) := mapped translate (onNode_rows nodeID).
(* go: platform/forward/service.go service.listIn *)
Definition listIn (projectID : string) : M S (list Forward) := mapped translate (listIn_rows projectID).
(* go: platform/forward/service.go service.getIn *)
Definition getIn (id projectID : string) : M S Forward :=
  let! f := mapped translate (byID id) in
  lift (foreign f projectID) ;;;
  ret f.
(* go: platform/forward/service.go service.removeAny *)
Definition removeAny (id : string) : M S unit := mapped translate (delete_row id).
(* go: platform/forward/service.go service.remove *)
Definition remove (id projectID : string) : M S unit :=
  let! f := mapped translate (byID id) in
  lift (foreign f projectID) ;;;
  removeAny (f_ID f).
(* go: platform/forward/service.go service.nodePortTaken *)
Definition nodePortTaken (protocol : string) (port : Z) : M S bool := mapped translate (portTaken protocol port).
(* go: platform/forward/service.go service.releaseInstance *)
Definition releaseInstance (instanceID : string) : M S unit := mapped translate (deleteInstance instanceID).

(* go: platform/forward/certificate.go service.certificateOf *)
Definition certificateOf (f : Forward) : outcome (string * string) := openCertificate c Unmarshal keys (f_TLS f).
(* go: platform/forward/certificate.go service.setCertificate *)
Definition setCertificate (id projectID certPEM keyPEM : string) : M S Forward :=
  let! f := getIn id projectID in
  let! carried := if negb (is_empty certPEM) || negb (is_empty keyPEM) then sealCertificate c Marshal keys certPEM keyPEM else ret no_tls in
  mapped translate (setTLS (f_ID f) carried) ;;;
  getIn id projectID.

(** ** Certificates that expire (expiry.go) *)

(* go: platform/forward/expiry.go subjectOf *)
Definition subjectOf (f : Forward) : string := if is_empty (tls_Subject (f_TLS f)) then "this port" else tls_Subject (f_TLS f).
(* go: platform/forward/expiry.go service.noteExpiry *)
Definition noteExpiry (id state : string) : M S bool := note_expiry warned MkWarned id state.
(* go: platform/forward/expiry.go service.forgetExpiry *)
Definition forgetExpiry (held : list string) : M S unit := forget_expiry warned MkWarned held.
(* go: platform/forward/expiry.go:43-58 entry *)
Definition expiry_event (f : Forward) (state : string) (left : Z) : Entry :=
  let prefix := "published port " +:+ itoa (f_NodePort f) +:+ "/" +:+ f_Protocol f +:+ ": the certificate for " +:+ subjectOf f in
  {| ev_ProjectID := f_ProjectID f; ev_Subject := f_ID f; ev_NodeID := f_NodeID f; ev_Kind := "certificate." +:+ state;
     ev_Severity := if String.eqb state Expired then SevError else Warn;
     ev_Message := if String.eqb state Expired
       then prefix +:+ " expired " +:+ Interval.Human (wrap64 (- left)) +:+ " ago, and the port answers nothing a client will trust"
       else prefix +:+ " expires in " +:+ Interval.Human left |}.
(* go: platform/forward/expiry.go:28-62 TLS.Present *)
Definition sweep_one (f : Forward) (told : Z) : M S Z :=
  if negb (Present (f_TLS f)) then ret told
  else
    let! at_ := now in
    let '(state, remaining, readable) := Life (tls_ExpiresAt (f_TLS f)) at_ in
    if negb readable || String.eqb state Fresh then noteExpiry (f_ID f) "" ;;; ret told
    else
      let! first := noteExpiry (f_ID f) state in
      if first : bool then record (expiry_event f state remaining) ;;; ret (told + 1) else ret told.
(* go: platform/forward/expiry.go service.sweepCertificates *)
Definition sweepCertificates : M S Z :=
  if negb has_events then ret 0
  else
    let! known := mapped translate all in
    let! told := foldM sweep_one known 0 in
    forgetExpiry (map f_ID known) ;;;
    ret told.
End service.

(** * Handlers (handler.go) *)

(* go: platform/forward/handler.go createRequest *)
Record createRequest := MkCreateRequest {
  cr_InstanceID : string; cr_Protocol : string; cr_NodePort : Z; cr_TargetPort : Z; cr_Family : string;
}.
(* go: platform/forward/handler.go certificateRequest *)
Record certificateRequest := MkCertificateRequest { ct_Certificate : string; ct_PrivateKey : string }.
(* go: platform/forward/handler.go tlsResponse *)
Record tlsResponse := MkTLSResponse { to_Subject : string; to_ExpiresAt : string }.
(* go: platform/forward/handler.go response *)
Record response := MkResponse {
  o_ID : string; o_InstanceID : string; o_Protocol : string; o_NodePort : Z; o_TargetPort : Z; o_NodeID : string; o_Address : string;
  o_Family : string; o_TLS : option tlsResponse; o_CreatedAt : string;
}.
(* go: platform/forward/handler.go nodeResponse *)
Record nodeResponse := MkNodeResponse { no_response : response; no_Certificate : string; no_PrivateKey : string }.
Inductive body :=
| BForward (f : response)
| BForwards (fs : list response)
| BNode (fs : list nodeResponse).

(* go: platform/forward/handler.go summarise *)
Definition summarise (t : TLS) : option tlsResponse :=
  if negb (Present t) then None else Some (MkTLSResponse (tls_Subject t) (tls_ExpiresAt t)).
(* go: platform/forward/handler.go toResponse *)
Definition toResponse (f : Forward) : response :=
  MkResponse (f_ID f) (f_InstanceID f) (f_Protocol f) (f_NodePort f) (f_TargetPort f) (f_NodeID f) (f_Address f) (f_Family f)
    (summarise (f_TLS f)) (rfc3339nano (f_CreatedAt f)).

Section handlers.
Context {S : Type} `{!Has ForwardDB S, !Has Warned S} `{!X509, !PEM}.
Context (c : AEAD) (Marshal : string -> outcome (list Z)) (Unmarshal : list Z -> string -> outcome string) (keys : option Keyring).
Context (addresses : option (Addresses S)) (balancers : option (Balancers S)) (has_events : bool).

(** The parameters a request carries. *)
Definition create_params (sc : Scope) (req : createRequest) : CreateParams :=
  MkCreateParams (sc_ProjectID sc) (cr_InstanceID req) (cr_Protocol req) (cr_NodePort req) (cr_TargetPort req) (cr_Family req).
(* go: platform/forward/handler.go handler.create *)
Definition handle_create (sc : Scope) (req : outcome createRequest) : M S (Reply body) :=
  let! req := lift req in
  let! f := create addresses balancers (create_params sc req) in
  Write StatusCreated (BForward (toResponse f)).
(* go: platform/forward/handler.go writeList *)
Definition writeList (forwards : list Forward) : M S (Reply body) := Write StatusOK (BForwards (map toResponse forwards)).
(* go: platform/forward/handler.go handler.list *)
Definition handle_list (sc : Scope) : M S (Reply body) := let! forwards := listIn (sc_ProjectID sc) in writeList forwards.
(* go: platform/forward/handler.go handler.listForNode *)
Definition handle_listForNode (nodeID : string) : M S (Reply body) :=
  let! forwards := onNode nodeID in
  let! out := foldM (fun f out =>
    let! pair := lift (certificateOf c Unmarshal keys f) in
    ret (out ++ [MkNodeResponse (toResponse f) (fst pair) (snd pair)])) forwards [] in
  Write StatusOK (BNode out).
(* go: platform/forward/handler.go handler.setCertificate *)
Definition handle_setCertificate (sc : Scope) (id : string) (req : outcome certificateRequest) : M S (Reply body) :=
  let! req := lift req in
  let! f := setCertificate c Marshal keys id (sc_ProjectID sc) (ct_Certificate req) (ct_PrivateKey req) in
  Write StatusOK (BForward (toResponse f)).
(* go: platform/forward/handler.go handler.removeCertificate *)
Definition handle_removeCertificate (sc : Scope) (id : string) : M S (Reply body) :=
  let! f := setCertificate c Marshal keys id (sc_ProjectID sc) "" "" in
  Write StatusOK (BForward (toResponse f)).
(* go: platform/forward/handler.go handler.delete *)
Definition handle_delete (sc : Scope) (id : string) : M S (Reply body) :=
  remove id (sc_ProjectID sc) ;;;
  WriteHeader StatusNoContent.

(** What reaches the module. *)
Inductive request :=
| ReqCreate (sc : Scope) (req : outcome createRequest)
| ReqList (sc : Scope)
| ReqSetCertificate (sc : Scope) (id : string) (req : outcome certificateRequest)
| ReqRemoveCertificate (sc : Scope) (id : string)
| ReqDelete (sc : Scope) (id : string)
| ReqListForNode (nodeID : string)
| ReqRelease (instanceID : string)
| ReqSweep.

Definition noted {A} (m : M S A) : M S (Reply body) := m ;;; WriteHeader StatusOK.

(* go: platform/forward/module.go Module.Routes *)
Definition serve (r : request) : M S (Reply body) :=
  match r with
  | ReqCreate sc req => handle_create sc req
  | ReqList sc => handle_list sc
  | ReqSetCertificate sc id req => handle_setCertificate sc id req
  | ReqRemoveCertificate sc id => handle_removeCertificate sc id
  | ReqDelete sc id => handle_delete sc id
  | ReqListForNode nodeID => handle_listForNode nodeID
  | ReqRelease instanceID => noted (releaseInstance instanceID)
  | ReqSweep => noted (sweepCertificates has_events)
  end.
End handlers.

(** * The state machine the module promises

    [knows i e]: [e] is a true account of where instance [i] runs, which is what the answers of
    [Addresses] are known to be; [claims protocol port]: the port may be published. *)
Inductive actor := Tenant (projectID : string) | NodeOf (nodeID : string) | Deletion (instanceID : string) | Ticker.

Definition address_in (e : Endpoint_) (family : string) : string := if String.eqb family FamilyIPv6 then en_Address6 e else en_Address e.
(** A well-formed published port. *)
Record port_ok (f : Forward) : Prop := {
  po_protocol : f_Protocol f ∈ Protocols;
  po_node_port : MinPort <= f_NodePort f <= MaxPort;
  po_target : MinPort <= f_TargetPort f <= MaxPort;
  po_family : f_Family f ∈ Families;
  po_instance : f_InstanceID f <> "";
  po_node : f_NodeID f <> "";
  po_address : f_Address f <> "";
}.

Section machine.
Context (knows : string -> Endpoint_ -> Prop) (claims : string -> Z -> Prop).

(** The port leads to where its instance was when it was published. *)
Definition leads_home (f : Forward) : Prop :=
  exists e, knows (f_InstanceID f) e /\ en_ProjectID e = f_ProjectID f /\ en_NodeID e = f_NodeID f /\ address_in e (f_Family f) = f_Address f.

Inductive change (a : actor) (db : ForwardDB) : ForwardDB -> Prop :=
| C_publish f : a = Tenant (f_ProjectID f) -> port_ok f -> leads_home f -> claims (f_Protocol f) (f_NodePort f) ->
    existsb (clash f) (fd_rows db) = false -> f_TLS f = no_tls -> change a db (MkForwardDB (fd_rows db ++ [f]))
| C_withdraw f : a = Tenant (f_ProjectID f) -> f ∈ fd_rows db ->
    change a db (MkForwardDB (List.filter (fun x => negb (has_id (f_ID f) x)) (fd_rows db)))
| C_certificate f t : a = Tenant (f_ProjectID f) -> f ∈ fd_rows db ->
    change a db (MkForwardDB (map (fun x => if has_id (f_ID f) x then with_tls t x else x) (fd_rows db)))
| C_release i : a = Deletion i -> change a db (MkForwardDB (List.filter (fun f => negb (of_instance i f)) (fd_rows db))).

Definition history (a : actor) : ForwardDB -> ForwardDB -> Prop := rtc (change a).
#[export] Instance history_preorder a : PreOrder (history a).
Proof. unfold history. typeclasses eauto. Qed.

Record fwd_inv (db : ForwardDB) : Prop := {
  fi_id : unique_by (fun f => Some (f_ID f)) (fd_rows db);
  fi_port : unique_by (fun f => Some (f_NodeID f, f_Protocol f, f_NodePort f)) (fd_rows db);
  fi_row : Forall (fun f => port_ok f /\ leads_home f) (fd_rows db);
}.
End machine.

Lemma clash_false n rows : existsb (clash n) rows = false ->
  forall f, f ∈ rows -> f_ID f <> f_ID n /\ (f_NodeID f, f_Protocol f, f_NodePort f) <> (f_NodeID n, f_Protocol n, f_NodePort n).
Proof.
  rewrite existsb_false, Forall_forall. intros H f Hf. specialize (H f Hf). unfold clash, has_id, on_node, on_port in H.
  apply orb_false_iff in H as [H1 H2]. split; [by apply String.eqb_neq|]. intros [= E1 E2 E3].
  by rewrite E1, E2, E3, !String.eqb_refl, Z.eqb_refl in H2.
Qed.

Section preservation.
Context (knows : string -> Endpoint_ -> Prop) (claims : string -> Z -> Prop).

Lemma fwd_shrunk db (p : Forward -> bool) : fwd_inv knows db -> fwd_inv knows (MkForwardDB (List.filter p (fd_rows db))).
Proof.
  intros [H1 H2 H3]. constructor; cbn [fd_rows]; [by apply unique_by_filter..|by apply Forall_filter_bool].
Qed.
Lemma fwd_change_inv a db db' : change knows claims a db db' -> fwd_inv knows db -> fwd_inv knows db'.
Proof.
  intros [f _ Hok Hhome _ Hc _|f _ _|f t _ Hf|i _] Hi; [|by apply fwd_shrunk| |by apply fwd_shrunk].
  - pose proof (clash_false _ _ Hc) as Hne. destruct Hi as [H1 H2 H3]. constructor; cbn [fd_rows].
    + apply unique_by_app; [done|]. intros y k Hy [= <-] [= E]. by destruct (Hne y Hy).
    + apply unique_by_app; [done|]. intros y k Hy [= <-] [= E1 E2 E3]. destruct (Hne y Hy) as [_ []]. congruence.
    + apply Forall_app. split; [done|]. by constructor.
  - destruct Hi as [H1 H2 H3]. constructor; cbn [fd_rows]; [apply unique_by_map; [intros x; by destruct (has_id (f_ID f) x)|done]..|].
    apply Forall_map. eapply Forall_impl; [exact H3|]. intros x [[] Hh]. destruct (has_id (f_ID f) x); (split; [by constructor|exact Hh]).
Qed.
Lemma fwd_history_inv a db db' : history knows claims a db db' -> fwd_inv knows db -> fwd_inv knows db'.
Proof. intros H. induction H as [|x y z Hc _ IH]; [done|]. intros Hi. apply IH. by eapply fwd_change_inv. Qed.

(** What the other tenants published. *)
Definition others (p : string) (db : ForwardDB) : list Forward := others_rows f_ProjectID p (fd_rows db).
Lemma fwd_change_others p db db' : change knows claims (Tenant p) db db' -> fwd_inv knows db -> others p db' = others p db.
Proof.
  intros [f [= ->] _ _ _ _|f [= ->] Hf|f t [= ->] Hf|i [=]] [Hu _ _]; unfold others; cbn [fd_rows].
  - apply others_insert.
  - by apply (others_delete f_ID).
  - by apply (others_update f_ID).
Qed.
Lemma fwd_history_others p db db' : history knows claims (Tenant p) db db' -> fwd_inv knows db -> others p db' = others p db.
Proof.
  intros H. induction H as [|x y z Hc _ IH]; [done|]. intros Hi. rewrite IH by (by eapply fwd_change_inv). by eapply fwd_change_others.
Qed.
End preservation.

(** * What the operations do *)

Section operations.
Context {S : Type} `{!Has ForwardDB S, !Has Warned S, !Apart Warned ForwardDB S} `{!X509, !PEM}.
Context (c : AEAD) (Marshal : string -> outcome (list Z)) (Unmarshal : list Z -> string -> outcome string) (keys : option Keyring).
Context (addresses : option (Addresses S)) (balancers : option (Balancers S)) (has_events : bool).
Context (knows : string -> Endpoint_ -> Prop) (claims : string -> Z -> Prop).
Context (Haddresses : forall a i (db : ForwardDB), addresses = Some a -> yields db (Endpoint a i) (knows i)).
Context (Hbalancers : forall b pr n, balancers = Some b -> leaves ForwardDB (ListenPortTaken b pr n)).

Lemma bad_port_ok port : bad_port port = false <-> MinPort <= port <= MaxPort.
Proof. unfold bad_port. rewrite orb_false_iff, !Z.ltb_ge. done. Qed.
Ltac guards := repeat match goal with
  | E : guard _ _ = Ok ?u |- _ => destruct u; apply guard_ok in E
  | E : validate_OneOf _ _ _ = Ok ?u |- _ => destruct u; apply validate_OneOf_ok in E
  | E : bad_port _ = false |- _ => apply bad_port_ok in E
  end.
(** What is asked for once the defaults are in. *)
Lemma fwd_check_params_ok params p : check_params params = Ok p ->
  cp_ProjectID p = cp_ProjectID params /\ cp_InstanceID p <> "" /\ cp_Protocol p ∈ Protocols /\
  MinPort <= cp_NodePort p <= MaxPort /\ MinPort <= cp_TargetPort p <= MaxPort /\ asked_port params = (cp_Protocol p, cp_NodePort p).
Proof.
  intros Hp. unfold check_params in Hp. cbv zeta in Hp. unbind Hp. injection Hp as <-. guards. cbn. split_and!; try done; try lia. by apply is_empty_false.
Qed.
Lemma reach_ok p family e fam address : reach p family e = Ok (fam, address) ->
  en_ProjectID e = p /\ fam ∈ Families /\ address = address_in e fam /\ en_NodeID e <> "" /\ address <> "".
Proof.
  intros Hp. unfold reach in Hp. cbv zeta in Hp. unbind Hp. injection Hp as <- <-. guards.
  match goal with E : negb _ = false |- _ => apply negb_false_iff, String.eqb_eq in E end.
  match goal with E : _ || _ = false |- _ => apply orb_false_iff in E as [E1%is_empty_false E2%is_empty_false] end. done.
Qed.

(** ** Statements *)

Lemma fwd_leaves_SealBytes plain k : leaves ForwardDB (SealBytes (S:=S) c plain k).
Proof. unfold SealBytes, Seal. auto 12 with leaves. Qed.
Lemma fwd_leaves_sealCertificate certPEM keyPEM : leaves ForwardDB (sealCertificate (S:=S) c Marshal keys certPEM keyPEM).
Proof. unfold sealCertificate, SealJSON. pose proof fwd_leaves_SealBytes. auto 14 with leaves. Qed.
Lemma yields_rows db q : yields db (query_rows (S:=S) q) (fun l => l = q (fd_rows db)).
Proof. eapply yields_mono; [apply yields_query|]. by intros l [= <-]. Qed.
Lemma fwd_yields_byID db id : yields db (byID (S:=S) id) (fun f => f ∈ fd_rows db /\ f_ID f = id).
Proof.
  eapply yields_bind; [apply yields_rows|]. intros l ->. destruct (List.filter _ _) as [|f l] eqn:E; [eapply yields_mono; [apply yields_fail|done]|].
  eapply yields_mono; [apply yields_ret|]. intros ? ->. assert (Hf : f ∈ List.filter (has_id id) (fd_rows db)) by (rewrite E; apply list_elem_of_here).
  by apply elem_of_filter_bool in Hf as [Hf ?%String.eqb_eq].
Qed.
Lemma yields_getIn db id p : yields db (getIn (S:=S) id p) (fun f => f ∈ fd_rows db /\ f_ID f = id /\ f_ProjectID f = p).
Proof.
  eapply yields_bind; [apply yields_mapped, fwd_yields_byID|]. intros f [Hf <-]. eapply yields_bind; [apply yields_lift|]. intros _ Hg%guard_false.
  eapply yields_mono; [apply yields_ret|]. intros ? ->. apply negb_false_iff, String.eqb_eq in Hg. done.
Qed.
Lemma fwd_yields_ids (db : ForwardDB) prefix : yields db (ids_New (S:=S) prefix) (fun _ => True).
Proof. apply yields_leaves. unfold ids_New. auto with leaves. Qed.
Lemma yields_ask (db : ForwardDB) pr n : yields db (ask_balancers balancers pr n) (fun _ => True).
Proof.
  unfold ask_balancers. destruct balancers as [b|] eqn:E; [|by eapply yields_mono; [apply yields_ret|]].
  eapply yields_bind; [by apply yields_leaves, Hbalancers|]. intros taken _. by eapply yields_mono; [apply yields_lift|].
Qed.
Hint Resolve fwd_yields_ids yields_ask yields_getIn fwd_yields_byID : yields.

Section tenant.
Context (p : string).
Abbreviation R := (history knows claims (Tenant p)).

Lemma fwd_moves_insert db f : f_ProjectID f = p -> port_ok f -> leads_home knows f -> claims (f_Protocol f) (f_NodePort f) -> f_TLS f = no_tls ->
  moves R db (insert (S:=S) f).
Proof.
  intros <- Hok Hh Hu Ht. apply moves_sql; [typeclasses eauto|]. unfold on_rows, insert_row. destruct (existsb _ _) eqn:E; cbn [snd].
  - destruct db. reflexivity.
  - by apply rtc_once, C_publish.
Qed.
Lemma fwd_moves_delete db f : f_ProjectID f = p -> f ∈ fd_rows db -> moves R db (delete_row (S:=S) (f_ID f)).
Proof.
  intros <- Hf. apply moves_sql; [typeclasses eauto|]. unfold on_rows. pose proof (delete_where_rows (has_id (f_ID f)) errNotFound (fd_rows db)) as E.
  destruct (delete_where _ _ _) as [r rows]. cbn [snd] in *. subst rows. by apply rtc_once, C_withdraw.
Qed.
Lemma fwd_moves_setTLS db f t : f_ProjectID f = p -> f ∈ fd_rows db -> moves R db (setTLS (S:=S) (f_ID f) t).
Proof.
  intros <- Hf. apply moves_sql; [typeclasses eauto|]. unfold on_rows.
  pose proof (update_where_rows (has_id (f_ID f)) (with_tls t) errNotFound (fd_rows db)) as E.
  destruct (update_where _ _ _ _) as [r rows]. cbn [snd] in *. subst rows. by apply rtc_once, C_certificate.
Qed.

Lemma fwd_create_moves db params : cp_ProjectID params = p -> claims (fst (asked_port params)) (snd (asked_port params)) ->
  moves R db (create addresses balancers params).
Proof.
  intros Hp Hu. unfold create. m_step. intros q Hq. apply fwd_check_params_ok in Hq as (Eq & Hi & Hpr & Hn & Ht & E). rewrite E in Hu. m_step. intros _ _.
  destruct addresses as [a|] eqn:Ea; [|m_step]. eapply moves_bind; [typeclasses eauto|by apply Haddresses|]. intros e He.
  m_step. intros [fam addr] Hr. apply reach_ok in Hr as (Ep & Hfam & -> & Hnode & Haddr).
  m_step. intros id _. m_step. intros at_ _. apply moves_last; [typeclasses eauto|].
  apply fwd_moves_insert; cbn; [congruence|by constructor| |done|done]. exists e. by rewrite Ep.
Qed.
Lemma fwd_remove_moves db id : moves R db (remove (S:=S) id p).
Proof.
  unfold remove. m_step. intros f [Hf <-]. m_step. intros _ Hg%guard_false. apply negb_false_iff, String.eqb_eq in Hg.
  unfold removeAny. by apply moves_mapped, fwd_moves_delete.
Qed.
Lemma fwd_setCertificate_moves db id certPEM keyPEM : moves R db (setCertificate c Marshal keys id p certPEM keyPEM).
Proof.
  unfold setCertificate. m_step. intros f (Hf & <- & Hp).
  eapply moves_bind with (P := fun _ => True); [typeclasses eauto|destruct (_ || _); [apply yields_leaves, fwd_leaves_sealCertificate|by eapply yields_mono; [apply yields_ret|]]|].
  intros t _. apply moves_then; [typeclasses eauto|by apply moves_mapped, fwd_moves_setTLS|]. intros. eapply moves_yields; [typeclasses eauto|apply yields_getIn].
Qed.
End tenant.

(** ** Every request *)

(** The port a request wants to publish. *)
Definition asks (r : request) (protocol : string) (port : Z) : Prop :=
  match r with ReqCreate sc (Ok req) => asked_port (create_params sc req) = (protocol, port) | _ => False end.
Definition actor_of (r : request) : actor :=
  match r with
  | ReqCreate sc _ | ReqList sc | ReqSetCertificate sc _ _ | ReqRemoveCertificate sc _ | ReqDelete sc _ => Tenant (sc_ProjectID sc)
  | ReqListForNode n => NodeOf n
  | ReqRelease i => Deletion i
  | ReqSweep => Ticker
  end.

Lemma yields_onNode db n : yields db (onNode (S:=S) n) (fun l => l = sliceStable by_port (List.filter (on_node n) (fd_rows db))).
Proof. apply yields_mapped, yields_rows. Qed.
Lemma fwd_yields_listIn db p : yields db (listIn (S:=S) p) (fun l => l = sliceStable by_port (List.filter (in_project p) (fd_rows db))).
Proof. apply yields_mapped, yields_rows. Qed.
Lemma fwd_leaves_sweep : leaves ForwardDB (sweepCertificates (S:=S) has_events).
Proof.
  unfold sweepCertificates, all, query_rows, sweep_one, noteExpiry, note_expiry, forgetExpiry, forget_expiry. auto 14 with leaves.
Qed.
(** What a node is handed: its ports with their certificates. *)
Lemma yields_handed db n : yields db (handle_listForNode (S:=S) c Unmarshal keys n) (fun r => exists out, r = MkReply StatusOK (Some (BNode out)) /\
  Forall2 (fun f o => no_response o = toResponse f /\ certificateOf c Unmarshal keys f = Ok (no_Certificate o, no_PrivateKey o))
    (sliceStable by_port (List.filter (on_node n) (fd_rows db))) out).
Proof.
  eapply yields_bind; [apply yields_onNode|]. intros l ->. eapply yields_bind; [apply yields_collect|].
  - intros f out _. eapply yields_bind; [apply yields_lift|]. intros [cert key] Hc. eapply yields_mono; [apply yields_ret|]. intros ? ->.
    eexists. split; [done|]. instantiate (1 := fun f o => no_response o = toResponse f /\ certificateOf c Unmarshal keys f = Ok (no_Certificate o, no_PrivateKey o)). done.
  - intros out Hout. eapply yields_mono; [apply yields_ret|]. intros ? ->. by exists out.
Qed.

Lemma fwd_serve_moves db r : (forall pr n, asks r pr n -> claims pr n) -> moves (history knows claims (actor_of r)) db (serve c Marshal Unmarshal keys addresses balancers has_events r).
Proof.
  intros Hasks. destruct r; cbn [actor_of serve]; [| | | | |eapply moves_yields; [typeclasses eauto|apply yields_handed]|..];
    unfold handle_create, handle_list, handle_delete, handle_setCertificate, handle_removeCertificate, noted, writeList, Write, WriteHeader;
    try (eapply moves_bind; [typeclasses eauto|apply yields_lift|]; intros body ->).
  all: apply moves_then; [typeclasses eauto| |intros; apply moves_ret; typeclasses eauto].
  - apply fwd_create_moves; [done|]. apply Hasks. cbn [asks]. by destruct (asked_port _).
  - eapply moves_yields; [typeclasses eauto|apply fwd_yields_listIn].
  - apply fwd_setCertificate_moves.
  - apply fwd_setCertificate_moves.
  - apply fwd_remove_moves.
  - apply moves_mapped, moves_sql; [typeclasses eauto|]. by apply rtc_once, C_release.
  - eapply moves_yields; [typeclasses eauto|apply yields_leaves, fwd_leaves_sweep].
Qed.
End operations.

(** * Certificates that need attention *)

Section sweeping.
Context {S : Type} `{!Has ForwardDB S, !Has Warned S, !Apart Warned ForwardDB S}.

Definition warned_of (T : Z) (w w' : World S) (told : Z) : Prop :=
  swept f_ID (fun f => Present (f_TLS f)) (fun f => tls_ExpiresAt (f_TLS f)) expiry_event T (sliceStable by_port (fd_rows (part w)))
    (warned (part w)) (warned (part w')) (w_events w) (w_events w') told.

Lemma fwd_sweep_wp T env knows (w : World S) : at_time T env -> fwd_inv knows (part w) ->
  wp env (sweepCertificates true) (fun r w' => part w' = part (T:=ForwardDB) w /\
    match r with Ok told => warned_of T w w' told | Err _ => w_events w' = w_events w /\ part w' = part (T:=Warned) w end) w.
Proof.
  intros Henv Hi. unfold sweepCertificates. cbn [negb]. apply wp_bind, wp_mapped. unfold all, query_rows.
  apply wp_read. intros r [->| ->]; cbn [or_fault]; [done|]. change (part (T:=ForwardDB) w) with (part (T:=ForwardDB) (tick w)) at 1 2.
  assert (Hnd : NoDup (map f_ID (sliceStable by_port (fd_rows (part (tick w)))))).
  { rewrite sliceStable_perm. pose proof (fi_id _ _ Hi) as Hu. unfold unique_by in Hu. by rewrite omap_total in Hu. }
  eapply wp_mono; [|exact (watch_all_wp warned MkWarned f_ID (fun f => Present (f_TLS f)) (fun f => tls_ExpiresAt (f_TLS f)) expiry_event T
    (fun e => eq_refl) (U:=ForwardDB) env _ (tick w) Henv Hnd)].
  intros r w2 (Hdb2 & told & -> & Hs). done.
Qed.
End sweeping.

(** * Properties *)

Section properties.
Context {S : Type} `{!Has ForwardDB S, !Has Warned S, !Apart Warned ForwardDB S} `{!X509, !PEM}.
Context (c : AEAD) (Marshal : string -> outcome (list Z)) (Unmarshal : list Z -> string -> outcome string) (keys : option Keyring).
Context (addresses : option (Addresses S)) (balancers : option (Balancers S)) (has_events : bool).
Context (knows : string -> Endpoint_ -> Prop).
Context (Haddresses : forall a i (db : ForwardDB), addresses = Some a -> yields db (Endpoint a i) (knows i)).
Context (Hbalancers : forall b pr n, balancers = Some b -> leaves ForwardDB (ListenPortTaken b pr n)).
Abbreviation run := (serve c Marshal Unmarshal keys addresses balancers has_events).
Let Hserve db r :=
  fwd_serve_moves c Marshal Unmarshal keys addresses balancers has_events knows (asks r) Haddresses Hbalancers db r (fun pr n H => H).

(** [published_lawful]: every request, release and sweep moves the published ports only by the changes
    its actor may make: a new port is of an instance of the caller's project, leads to the node and
    the address the instance has at that moment in the family that was asked for, is the port that was
    asked for and free on its node; no two ports of a node are the same; however the database fails. *)
Theorem published_lawful env r (w : World S) (Hinv : fwd_inv knows (part w)) :
  wp env (run r) (fun _ w' => history knows (asks r) (actor_of r) (part w) (part w') /\ fwd_inv knows (part w')) w.
Proof.
  eapply wp_mono; [|exact (Hserve (part w) r env w eq_refl)]. intros a w' Hh. split; [exact Hh|]. exact (fwd_history_inv knows (asks r) _ _ _ Hh Hinv).
Qed.

(** [published_tenants_apart]: a request of one project leaves the ports of all others as they were. *)
Theorem published_tenants_apart env r p (w : World S) (Hinv : fwd_inv knows (part w)) (Hr : actor_of r = Tenant p) :
  wp env (run r) (fun _ w' => others p (part w') = others p (part w)) w.
Proof.
  eapply wp_mono; [|exact (Hserve (part w) r env w eq_refl)]. intros a w' Hh. rewrite Hr in Hh.
  exact (fwd_history_others knows (asks r) _ _ _ Hh Hinv).
Qed.

(** [node_handed_its_ports]: a node is handed exactly the ports published on it, in their order, each with
    the certificate and key that were sealed for it; nothing changes. *)
Theorem node_handed_its_ports env n (w : World S) :
  wp env (run (ReqListForNode n)) (fun r w' => part w' = part (T:=ForwardDB) w /\ forall reply, r = Ok reply ->
    exists out, reply = MkReply StatusOK (Some (BNode out)) /\
      Forall2 (fun f o => no_response o = toResponse f /\ certificateOf c Unmarshal keys f = Ok (no_Certificate o, no_PrivateKey o))
        (sliceStable by_port (List.filter (on_node n) (fd_rows (part w)))) out) w.
Proof.
  eapply wp_mono; [|exact (yields_handed c Unmarshal keys (part w) n env w I eq_refl)]. intros r w' [Hw Hr]. split; [exact Hw|].
  intros reply ->. exact Hr.
Qed.

(** [forward_warned_once]: a sweep tells of every certificate that is about to expire or has expired and was
    not told of in that state, and the next sweep at the same time tells nothing. *)
Theorem forward_warned_once env T (w : World S) (Hinv : fwd_inv knows (part w)) (HT : at_time T env) :
  wp env (sweepCertificates true) (fun r w' => match r with
    | Err _ => w_events w' = w_events w /\ part w' = part (T:=Warned) w
    | Ok told => warned_of T w w' told /\
        wp env (sweepCertificates true) (fun r2 w2 => w_events w2 = w_events w' /\ forall again, r2 = Ok again -> again = 0) w'
    end) w.
Proof.
  eapply wp_mono; [|by apply (fwd_sweep_wp T env knows)]. intros [told|e] w' [Hdb Hs]; [|exact Hs]. split; [exact Hs|].
  eapply wp_mono; [|apply (fwd_sweep_wp T env knows); [done|by rewrite Hdb]]. intros [again|e2] w2 [_ Hs2]; [|by destruct Hs2].
  unfold warned_of in Hs2. rewrite Hdb in Hs2. destruct Hs2 as (-> & -> & _). erewrite swept_news by exact Hs.
  split; [by rewrite app_nil_r|]. by intros again [= <-].
Qed.
End properties.

(** * A small cloud *)

Module Demo.
(** The third part is where instance [ins-1] runs. *)
Abbreviation St := (ForwardDB * Warned * string)%type.
#[export] Instance has_db : Has ForwardDB St := Has_in_fst _ (Has_fst ForwardDB Warned).
#[export] Instance has_warned : Has Warned St := Has_in_fst _ (Has_snd ForwardDB Warned).
#[export] Instance warned_apart : Apart Warned ForwardDB St.
Proof. by intros t [[] ?]. Defined.
#[export] Existing Instances Toy.pem Toy.pem_laws.
#[export] Instance x509 : X509 := {| KeyPair cert key := if is_empty key then Err (EText "no key") else Ok ("app.example.com", 1709210096 * second) |}.

Definition running (node : string) : Endpoint_ := MkEndpoint "prj-1" node "10.0.0.2" "".
Definition at_node : M St string := fun _ w => (Ok (snd (w_st w)), w).
Definition asked : Addresses St := {| Endpoint i := if String.eqb i "ins-1" then let! n := at_node in ret (running n) else fail (EText "no such instance") |}.
Definition claims : Balancers St := {| ListenPortTaken pr n := ret (n =? 443) |}.
Definition knows (i : string) (e : Endpoint_) : Prop := i = "ins-1" /\ exists n, e = running n.
Lemma addresses_known a i (db : ForwardDB) : Some asked = Some a -> yields db (Endpoint a i) (knows i).
Proof.
  intros [= <-]. simpl. destruct (String.eqb_spec i "ins-1") as [->|]; [|eapply yields_mono; [apply yields_fail|done]].
  eapply yields_bind with (P := fun _ => True); [by intros env w _ Hw|]. intros n _. eapply yields_mono; [apply yields_ret|]. intros ? ->.
  split; [done|]. by exists n.
Qed.
Lemma balancers_leave b pr n : Some claims = Some b -> leaves ForwardDB (ListenPortTaken b pr n).
Proof. intros [= <-]. apply leaves_ret. Qed.

Definition Marshal (s : string) : outcome (list Z) := Ok (string_bytes s).
Definition Unmarshal (bs : list Z) (_ : string) : outcome string := Ok (bytes_string bs).
Definition port (id project node : string) (n : Z) (t : TLS) : Forward :=
  MkForward id project "ins-1" "tcp" n 80 node "10.0.0.2" "ipv4" t 0.
Definition expiring : TLS := MkTLS "sealed" "key-9" "app.example.com" "2024-03-01T00:00:00Z".
Definition db : ForwardDB := MkForwardDB [port "fwd-1" "prj-1" "nd-1" 8443 expiring].
Definition w0 : World St := MkWorld (db, MkWarned ∅, "nd-1") O [].
Definition T : Z := 1709210050 * second.
Definition env : Env := {| env_now _ := T; env_rand n := [Z.of_nat n; 7]; env_io _ := false |}.
Definition tenant (p : string) : Scope := MkScope p "tok-1" "ci" "" "member".
Definition run (r : request) (w : World St) : outcome (Reply body) * World St :=
  serve demo Marshal Unmarshal None (Some asked) (Some claims) true r env w.
Definition publish (n : Z) : request := ReqCreate (tenant "prj-1") (Ok (MkCreateRequest "ins-1" "" n 80 "")).
End Demo.
Import (hints) Demo.

Lemma demo_ports_inv : fwd_inv Demo.knows Demo.db.
Proof.
  constructor; try (apply (bool_decide_unpack _); vm_compute; exact I). constructor; [|constructor]. split.
  - constructor; try (apply (bool_decide_unpack _); vm_compute; exact I); vm_compute; done.
  - exists (Demo.running "nd-1"). split; [|done]. split; [done|]. by exists "nd-1".
Qed.

Lemma published_lawful_witness :
  let '(r, w') := Demo.run (Demo.publish 0) Demo.w0 in
  (exists reply, r = Ok reply) /\ fwd_inv Demo.knows (part w') /\ history Demo.knows (asks (Demo.publish 0)) (Tenant "prj-1") Demo.db (part w').
Proof.
  pose proof (published_lawful demo Demo.Marshal Demo.Unmarshal None (Some Demo.asked) (Some Demo.claims) true Demo.knows Demo.addresses_known Demo.balancers_leave
    Demo.env (Demo.publish 0) Demo.w0 demo_ports_inv) as Hl.
  assert (Hok : exists reply, fst (Demo.run (Demo.publish 0) Demo.w0) = Ok reply) by (eexists; vm_compute; reflexivity).
  unfold wp in Hl. unfold Demo.run in *. destruct (serve _ _ _ _ _ _ _ _ _ _) as [r w']. destruct Hl as [Hh Hi]. done.
Defined.
Lemma published_tenants_apart_witness :
  others "prj-2" (part (snd (Demo.run (ReqDelete (Demo.tenant "prj-2") "fwd-1") Demo.w0))) = others "prj-2" Demo.db.
Proof.
  pose proof (published_tenants_apart demo Demo.Marshal Demo.Unmarshal None (Some Demo.asked) (Some Demo.claims) true Demo.knows Demo.addresses_known
    Demo.balancers_leave Demo.env (ReqDelete (Demo.tenant "prj-2") "fwd-1") "prj-2" Demo.w0 demo_ports_inv eq_refl) as Hl.
  unfold wp in Hl. unfold Demo.run in *. destruct (serve _ _ _ _ _ _ _ _ _ _) as [r w']. exact Hl.
Defined.
Lemma node_handed_its_ports_witness :
  part (snd (Demo.run (ReqListForNode "nd-1") Demo.w0)) = Demo.db.
Proof.
  pose proof (node_handed_its_ports demo Demo.Marshal Demo.Unmarshal None (Some Demo.asked) (Some Demo.claims) true
    Demo.env "nd-1" Demo.w0) as Hl.
  unfold wp in Hl. unfold Demo.run in *. destruct (serve _ _ _ _ _ _ _ _ _ _) as [r w']. exact (proj1 Hl).
Defined.
Lemma forward_warned_once_witness :
  match sweepCertificates true Demo.env Demo.w0 with (Ok told, w') => told = 1 /\ warned_of Demo.T Demo.w0 w' told | _ => False end.
Proof.
  assert (Hok : exists w', sweepCertificates true Demo.env Demo.w0 = (Ok 1, w')) by (eexists; vm_compute; reflexivity). destruct Hok as [w' Hw].
  pose proof (forward_warned_once Demo.knows Demo.env Demo.T Demo.w0 demo_ports_inv ltac:(intros n; reflexivity)) as Hl.
  unfold wp in Hl. rewrite Hw in Hl |- *. split; [done|exact (proj1 Hl)].
Defined.

(** [published_port_stays_behind]: a port is published on the node its instance runs on; when the instance
    has moved, the old node is still handed the port and the new one is not.  Publishing it once
    more puts a second port beside it. *)
Theorem published_port_stays_behind :
  let w1 := snd (Demo.run (Demo.publish 8080) Demo.w0) in
  let moved := MkWorld (fst (w_st w1), "nd-2") (w_step w1) (w_events w1) in
  map f_NodeID (List.filter (on_port "tcp" 8080) (fd_rows (part w1))) = ["nd-1"] /\
  match fst (Demo.run (ReqListForNode "nd-2") moved) with Ok (MkReply _ (Some (BNode []))) => True | _ => False end /\
  map f_NodeID (List.filter (on_port "tcp" 8080) (fd_rows (part (snd (Demo.run (Demo.publish 8080) moved))))) = ["nd-1"; "nd-2"].
Proof. vm_compute. done. Qed.
