(* ===== verification/Ports.v ===== *)
(** Published ports and load balancers together (app/app.go): each module asks the other before it
    claims a port.  A balancer holds its port on every node, so no port is ever both, as long as
    requests come one after the other; when they overlap, it can be. *)
From stdpp Require Import base tactics numbers strings list gmap.
From Stdlib Require Import ZArith Lia.
From S2P Require Import Prelude GoLang Effects Kernel Httpx Certs Sealed.
From S2P Require Balancer Forward.

Abbreviation BalancerDB := Balancer.BalancerDB.
Abbreviation ForwardDB := Forward.ForwardDB.

(** * What each module asks of the other *)

(* go: platform/forward/module.go Module.NodePortTaken *)
Definition of_forwards {S} `{!Has ForwardDB S} : Balancer.Ports S := {| Balancer.NodePortTaken := Forward.nodePortTaken |}.
(* go: platform/balancer/module.go Module.ListenPortTaken *)
Definition of_balancers {S} `{!Has BalancerDB S} : Forward.Balancers S := {| Forward.ListenPortTaken := Balancer.listenPortTaken |}.

(** No balancer listens on a port that is published. *)
Definition balanced (db : BalancerDB) (pr : string) (n : Z) : bool := existsb (Balancer.on_port pr n) (Balancer.bd_balancers db).
Definition published (db : ForwardDB) (pr : string) (n : Z) : bool := existsb (Forward.on_port pr n) (Forward.fd_rows db).
Definition exclusive (bs : BalancerDB) (fs : ForwardDB) : Prop := forall pr n, balanced bs pr n && published fs pr n = false.

(** * What a history claims *)

Lemma existsb_map_same {R} (p : R -> bool) (f : R -> R) l : (forall r, p (f r) = p r) -> existsb p (map f l) = existsb p l.
Proof. intros H. induction l as [|x l IH]; [done|]. simpl. by rewrite H, IH. Qed.
Lemma existsb_filter_le {R} (p q : R -> bool) l : existsb p (List.filter q l) = true -> existsb p l = true.
Proof. intros (x & [Hx _]%List.filter_In & Hp)%existsb_exists. apply existsb_exists. eauto. Qed.
Lemma taken_length {R} (p : R -> bool) l : (0 <? len (List.filter p l)) = existsb p l.
Proof. induction l as [|x l IH]; [done|]. simpl. by destruct (p x). Qed.

Lemma balanced_history knows claims a db db' pr n : Balancer.history knows claims a db db' -> balanced db' pr n = true ->
  balanced db pr n = true \/ claims pr n.
Proof.
  intros H. induction H as [|x y z Hc _ IH]; [by left|]. intros Hz. destruct (IH Hz) as [Hy|]; [|by right].
  destruct Hc; try (by left); unfold balanced in *; cbn in Hy.
  - rewrite existsb_app in Hy. apply orb_true_iff in Hy as [Hy|Hy]; [by left|]. simpl in Hy. rewrite orb_false_r in Hy. right.
    unfold Balancer.on_port in Hy. apply andb_true_iff in Hy as [<-%String.eqb_eq <-%Z.eqb_eq]. done.
  - left. by eapply existsb_filter_le.
  - left. rewrite existsb_map_same in Hy; [done|]. intros r. by destruct (Balancer.has_id _ _).
Qed.
Lemma published_history knows claims a db db' pr n : Forward.history knows claims a db db' -> published db' pr n = true ->
  published db pr n = true \/ claims pr n.
Proof.
  intros H. induction H as [|x y z Hc _ IH]; [by left|]. intros Hz. destruct (IH Hz) as [Hy|]; [|by right].
  destruct Hc; unfold published in *; cbn in Hy.
  - rewrite existsb_app in Hy. apply orb_true_iff in Hy as [Hy|Hy]; [by left|]. simpl in Hy. rewrite orb_false_r in Hy. right.
    unfold Forward.on_port in Hy. apply andb_true_iff in Hy as [<-%String.eqb_eq <-%Z.eqb_eq]. done.
  - left. by eapply existsb_filter_le.
  - left. rewrite existsb_map_same in Hy; [done|]. intros r. by destruct (Forward.has_id _ _).
  - left. by eapply existsb_filter_le.
Qed.

Section together.
Context {S : Type} `{!Has BalancerDB S, !Has Balancer.Told S, !Has ForwardDB S, !Has Forward.Warned S}.
Context `{!Apart Balancer.Told BalancerDB S, !Apart Forward.Warned ForwardDB S}.
Context `{!Apart BalancerDB ForwardDB S, !Apart Balancer.Told ForwardDB S, !Apart ForwardDB BalancerDB S, !Apart Forward.Warned BalancerDB S}.
Context `{!X509, !PEM} (c : AEAD) (Marshal : string -> outcome (list Z)) (Unmarshal : list Z -> string -> outcome string) (keys : option Keyring).
Context (members : option (Balancer.Members S)) (services : option (Balancer.Services S)) (addresses : option (Forward.Addresses S)) (has_events : bool).
Context (knows : string -> Balancer.Member_ -> Prop) (lives : string -> Forward.Endpoint_ -> Prop).
Context (Hmembers : forall ms i (db : BalancerDB), members = Some ms -> yields db (Balancer.Member ms i) (knows i)).
Context (Hslash : forall i m, knows i m -> Balancer.no_slash i).
Context (Hservices : forall sv p id (db : BalancerDB), services = Some sv -> yields db (Balancer.MembersOf sv p id) (Forall Balancer.no_slash)).
Context (Haddresses : forall a i (db : ForwardDB), addresses = Some a -> yields db (Forward.Endpoint a i) (lives i)).
(** The other modules leave both tables alone. *)
Context (Hm : forall ms i, members = Some ms -> leaves ForwardDB (Balancer.Member ms i)).
Context (Hs : forall sv p id, services = Some sv -> leaves ForwardDB (Balancer.MembersOf sv p id)).
Context (Ha : forall a i, addresses = Some a -> leaves BalancerDB (Forward.Endpoint a i)).

(** ** The modules leave each other's tables *)

Lemma leaves_nodePortTaken pr n : leaves BalancerDB (Forward.nodePortTaken (S:=S) pr n).
Proof. unfold Forward.nodePortTaken, Forward.portTaken. auto with leaves. Qed.
Lemma leaves_listenPortTaken pr n : leaves ForwardDB (Balancer.listenPortTaken (S:=S) pr n).
Proof. unfold Balancer.listenPortTaken, Balancer.portTaken. auto with leaves. Qed.

Section balancer_leaves.
Import Balancer.
Abbreviation lv := (leaves ForwardDB).
Hint Extern 1 (leaves _ (Member _ _)) => (eapply Hm; eassumption || reflexivity) : leaves.
Hint Extern 1 (leaves _ (MembersOf _ _ _)) => (eapply Hs; eassumption || reflexivity) : leaves.
Hint Resolve leaves_nodePortTaken leaves_listenPortTaken : leaves.

Lemma lv_load q : lv (load (S:=S) q).
Proof. unfold load, backendsOf, routesOf. auto 12 with leaves. Qed.
Hint Resolve lv_load : leaves.
Lemma lv_find p id : lv (find (S:=S) p id).
Proof. unfold find, byID, byName. auto 12 with leaves. Qed.
Lemma lv_checkMember p id : lv (checkMember members p id).
Proof. unfold checkMember. destruct members eqn:E; auto 12 with leaves. Qed.
Lemma lv_membership b : lv (membership services b).
Proof. unfold membership, healthOf. destruct services eqn:E; auto 12 with leaves. Qed.
Lemma lv_routeMembership b : lv (routeMembership services b).
Proof. unfold routeMembership, healthOf. destruct services eqn:E; auto 14 with leaves. Qed.
Lemma lv_health_all ms f ch ks : (forall i, lv (Member ms i)) -> lv (health_all ms f ch ks).
Proof. intros E. unfold health_all, health_one. auto 20 with leaves. Qed.
Hint Resolve lv_find lv_checkMember lv_membership lv_routeMembership : leaves.
Lemma lv_withHealth b : lv (withHealth members b).
Proof. unfold withHealth. destruct members as [ms|] eqn:E; [|auto with leaves]. apply leaves_bind; [apply lv_health_all; intros; by apply Hm|auto with leaves]. Qed.
Lemma lv_withRouteHealth b : lv (withRouteHealth members b).
Proof.
  unfold withRouteHealth. destruct members as [ms|] eqn:E; [|auto with leaves].
  apply leaves_bind; [|auto with leaves]. apply leaves_foldM. intros. apply leaves_bind; [apply lv_health_all; intros; by apply Hm|auto with leaves].
Qed.
Hint Resolve lv_withHealth lv_withRouteHealth : leaves.
Lemma lv_resolve b : lv (resolve members services b).
Proof. unfold resolve. auto 20 with leaves. Qed.
Lemma lv_get p id : lv (get members services p id).
Proof. unfold get. pose proof lv_resolve. auto with leaves. Qed.
Hint Resolve lv_resolve lv_get : leaves.
Lemma lv_checkRoutes p rs : lv (checkRoutes services p rs).
Proof. unfold checkRoutes. destruct services eqn:E; auto 12 with leaves. Qed.
Lemma lv_check_service p id : lv (check_service services p id).
Proof. unfold check_service. destruct services eqn:E; auto 12 with leaves. Qed.
Lemma lv_claimPort pr n : lv (claimPort (S:=S) (Some of_forwards) pr n).
Proof.
  unfold claimPort, portTaken. repeat (apply leaves_bind; [|intros]); auto with leaves. cbn [NodePortTaken of_forwards].
  unfold Forward.nodePortTaken, Forward.portTaken. auto with leaves.
Qed.
Lemma lv_check_instances p ids : lv (check_instances members p ids).
Proof. unfold check_instances. auto 12 with leaves. Qed.
Lemma lv_sealCertificate cert key : lv (sealCertificate (S:=S) c keys cert key).
Proof. unfold sealCertificate, SealBytes, Seal. auto 20 with leaves. Qed.
Hint Resolve lv_checkRoutes lv_check_service lv_claimPort lv_check_instances lv_sealCertificate : leaves.
Lemma lv_create params : lv (create members (Some of_forwards) services params).
Proof. unfold create, insert, replaceRoutes, ids_New. repeat (apply leaves_bind; [auto with leaves|intros]); auto with leaves. Qed.
Lemma lv_reportHealth n reports : lv (reportHealth members services has_events n reports).
Proof.
  unfold reportHealth, all, index_backends, everyBackend, wanted_reports, heldBy, saveHealth, noteFlip.
  destruct members eqn:E; auto 24 with leaves.
Qed.
Lemma lv_sweep : lv (Balancer.sweepCertificates (S:=S) has_events).
Proof.
  unfold sweepCertificates, all, sweep_one, noteExpiry, CertWatch.note_expiry, forgetExpiry, CertWatch.forget_expiry. auto 24 with leaves.
Qed.
Hint Resolve lv_create lv_reportHealth lv_sweep : leaves.
Lemma balancer_leaves r : lv (serve c keys members (Some of_forwards) services has_events r).
Proof.
  destruct r; cbn [serve]; unfold handle_create, handle_list, handle_get, handle_delete, handle_addBackend, handle_removeBackend, handle_setRoutes,
    handle_setCertificate, handle_removeCertificate, handle_listForNode, handle_reportHealth, noted, writeList, Write, WriteHeader,
    listIn, listIn_rows, forNode, all, resolve_all, addBackend, countBackends, addBackend_row, removeBackend, forgetHealth, removeBackend_row,
    setRoutes, replaceRoutes, setCertificate, setTLS, remove, delete_row, releaseInstance, releaseInstance_rows; auto 30 with leaves.
Qed.
End balancer_leaves.

Section forward_leaves.
Import Forward.
Abbreviation lv := (leaves BalancerDB).
Lemma lv_getIn id p : lv (getIn (S:=S) id p).
Proof. unfold getIn, byID, query_rows. auto 12 with leaves. Qed.
Lemma lv_fwd_sealCertificate cert key : lv (sealCertificate (S:=S) c Marshal keys cert key).
Proof. unfold sealCertificate, SealJSON, SealBytes, Seal. auto 20 with leaves. Qed.
Lemma lv_ask pr n : lv (ask_balancers (S:=S) (Some of_balancers) pr n).
Proof.
  unfold ask_balancers. apply leaves_bind; [|auto with leaves]. cbn [ListenPortTaken of_balancers].
  unfold Balancer.listenPortTaken, Balancer.portTaken. auto with leaves.
Qed.
Hint Resolve lv_getIn lv_fwd_sealCertificate lv_ask : leaves.
Lemma lv_fwd_create params : lv (create addresses (Some of_balancers) params).
Proof.
  unfold create, insert, ids_New. apply leaves_bind; [auto with leaves|intros]. apply leaves_bind; [auto with leaves|intros].
  destruct addresses as [asked|] eqn:E; [|auto with leaves]. apply leaves_bind; [by apply Ha|auto 20 with leaves].
Qed.
Lemma lv_fwd_sweep : lv (sweepCertificates (S:=S) has_events).
Proof.
  unfold sweepCertificates, all, query_rows, sweep_one, noteExpiry, CertWatch.note_expiry, forgetExpiry, CertWatch.forget_expiry. auto 24 with leaves.
Qed.
Hint Resolve lv_fwd_create lv_fwd_sweep : leaves.
Lemma forward_leaves r : lv (serve c Marshal Unmarshal keys addresses (Some of_balancers) has_events r).
Proof.
  destruct r; cbn [serve]; unfold handle_create, handle_list, handle_delete, handle_setCertificate, handle_removeCertificate, handle_listForNode,
    noted, writeList, Write, WriteHeader, listIn, listIn_rows, onNode, onNode_rows, setCertificate, setTLS, remove, byID, query_rows, removeAny, delete_row,
    releaseInstance, deleteInstance; auto 30 with leaves.
Qed.
End forward_leaves.

(** ** A port that is taken is refused before anything happens *)

(** A computation that leaves both tables, in front of others. *)
Lemma wp_pass {A B} env (m : M S A) (k : A -> M S B) (bs : BalancerDB) (fs : ForwardDB) w (Q : outcome B -> World S -> Prop) :
  leaves BalancerDB m -> leaves ForwardDB m -> part w = bs -> part w = fs ->
  (forall e w', part w' = bs -> part w' = fs -> Q (Err e) w') ->
  (forall a w', part w' = bs -> part w' = fs -> wp env (k a) Q w') -> wp env (bind m k) Q w.
Proof.
  intros H1 H2 Hb Hf HE HK. apply wp_bind. eapply wp_mono; [|apply wp_and; [apply (wp_leaves (T:=BalancerDB) env m (fun _ w' => part w' = bs)); [done|]|
    apply (wp_leaves (T:=ForwardDB) env m (fun _ w' => part w' = fs)); [done|]]].
  - intros [a|e] w' [E1 E2]; auto.
  - intros r w' ->. done.
  - intros r w' ->. done.
Qed.

Lemma leaves_of_yields {A} (m : M S A) P : (forall db : BalancerDB, yields db m P) -> leaves BalancerDB m.
Proof. intros Hy env w. specialize (Hy (part w) env w I eq_refl). unfold wp in Hy. destruct (m env w). exact (proj1 Hy). Qed.

(** What a computation in front of a refusal leaves: both tables, whatever happens. *)
Lemma balancer_blocked env params (w : World S) : published (part w) (fst (Balancer.asked_port params)) (snd (Balancer.asked_port params)) = true ->
  wp env (Balancer.create members (Some of_forwards) services params) (fun _ w' => part w' = part (T:=BalancerDB) w) w.
Proof.
  intros Hp. unfold Balancer.create. set (bs := part (T:=BalancerDB) w). set (fs := part (T:=ForwardDB) w) in *.
  assert (Hb : part w = bs) by done. assert (Hf : part w = fs) by done. clearbody bs fs.
  apply (wp_pass env _ _ bs fs); [auto with leaves..|done|done|done|]. intros coin w1 Hb1 Hf1.
  apply wp_bind. rewrite wp_lift. destruct (Balancer.check_params _ _) as [k|] eqn:Ek; [|done].
  rewrite (Balancer.check_params_port _ _ _ Ek) in Hp. cbn [fst snd] in Hp.
  apply (wp_pass env _ _ bs fs); [by eapply leaves_of_yields; intros; apply Balancer.yields_checkRoutes|apply lv_checkRoutes|done|done|done|].
  intros _ w2 Hb2 Hf2. apply (wp_pass env _ _ bs fs); [auto with leaves..|done|done|done|]. intros _ w3 Hb3 Hf3.
  apply (wp_pass env _ _ bs fs); [by eapply leaves_of_yields; intros; apply Balancer.yields_check_service|apply lv_check_service|done|done|done|].
  intros _ w4 Hb4 Hf4. apply (wp_pass env _ _ bs fs); [auto with leaves..|done|done|done|]. intros _ w5 Hb5 Hf5.
  unfold Balancer.claimPort, Balancer.portTaken. apply wp_bind, wp_bind, wp_read. intros r [->| ->]; [done|]. apply wp_bind. rewrite wp_lift.
  destruct (guard _ _) as [[]|]; [|done]. cbn [of_forwards Balancer.NodePortTaken]. apply wp_bind, wp_mapped. unfold Forward.portTaken.
  apply wp_read. intros r [->| ->]; cbn [or_fault]; [done|]. rewrite wp_lift.
  change (part (T:=ForwardDB) (tick w5)) with (part (T:=ForwardDB) w5). rewrite Hf5, taken_length. unfold published in Hp. by rewrite Hp.
Qed.
Lemma forward_blocked env params (w : World S) : balanced (part w) (fst (Forward.asked_port params)) (snd (Forward.asked_port params)) = true ->
  wp env (Forward.create addresses (Some of_balancers) params) (fun _ w' => part w' = part (T:=ForwardDB) w) w.
Proof.
  intros Hp. unfold Forward.create. apply wp_bind. rewrite wp_lift. destruct (Forward.check_params _) as [q|] eqn:Eq; [|done].
  apply Forward.fwd_check_params_ok in Eq as (_ & _ & _ & _ & _ & Eq). rewrite Eq in Hp. cbn [fst snd] in Hp.
  unfold Forward.ask_balancers. cbn [of_balancers Forward.ListenPortTaken]. unfold Balancer.listenPortTaken, Balancer.portTaken.
  apply wp_bind, wp_bind, wp_read. intros r [->| ->]; [done|]. rewrite wp_lift, taken_length. unfold balanced in Hp. by rewrite Hp.
Qed.

(** ** Either module *)

Inductive request := ToBalancer (r : Balancer.request) | ToForward (r : Forward.request).
Definition serve (r : request) : M S unit :=
  match r with
  | ToBalancer r => Balancer.serve c keys members (Some of_forwards) services has_events r ;;; ret tt
  | ToForward r => Forward.serve c Marshal Unmarshal keys addresses (Some of_balancers) has_events r ;;; ret tt
  end.

Record ports_inv (bs : BalancerDB) (fs : ForwardDB) : Prop := {
  pi_balancers : Balancer.bal_inv knows bs;
  pi_forwards : Forward.fwd_inv lives fs;
  pi_exclusive : exclusive bs fs;
}.

Lemma balancer_keeps_apart env r (w : World S) : ports_inv (part w) (part w) ->
  wp env (Balancer.serve c keys members (Some of_forwards) services has_events r) (fun _ w' => ports_inv (part w') (part w')) w.
Proof.
  intros [Hb Hf Hx]. assert (Hports : forall ps pr n, Some of_forwards = Some ps -> leaves BalancerDB (Balancer.NodePortTaken ps pr n)).
  { intros ps pr n [= <-]. apply leaves_nodePortTaken. }
  pose proof (Balancer.bal_serve_moves c keys members (Some of_forwards) services has_events knows (Balancer.asks r) Hmembers Hslash Hservices Hports
    (part w) r Hb (fun pr n H => H) env w eq_refl) as Hh.
  pose proof (balancer_leaves r env w) as Hl.
  assert (Hblock : wp env (Balancer.serve c keys members (Some of_forwards) services has_events r)
    (fun _ w' => (exists pr n, Balancer.asks r pr n /\ published (part w) pr n = true) -> part w' = part (T:=BalancerDB) w) w).
  { destruct r as [sc [req|e]| | | | | | | | | | | |]; try (unfold wp; destruct (Balancer.serve _ _ _ _ _ _ _ _ _); by intros (? & ? & [] & _)).
    cbn [Balancer.serve Balancer.asks]. unfold Balancer.handle_create, Write. apply wp_bind. rewrite wp_lift. apply wp_bind.
    destruct (published (part w) (fst (Balancer.asked_port (Balancer.create_params sc req))) (snd (Balancer.asked_port (Balancer.create_params sc req)))) eqn:E.
    - eapply wp_mono; [|exact (balancer_blocked env _ w E)]. intros [b|e] w' Hw _; [by rewrite ?wp_ret|done].
    - unfold wp at 1. destruct (Balancer.create _ _ _ _ _ _) as [[b|e] w']; [rewrite wp_ret|]; intros (pr & n & Ea & Ep); rewrite Ea in E; simpl in E; congruence. }
  unfold wp in *. destruct (Balancer.serve _ _ _ _ _ _ _ _ _) as [a w']. cbn [snd] in Hl. constructor.
  - exact (Balancer.bal_history_inv knows _ _ _ _ Hh Hb).
  - by rewrite Hl.
  - rewrite Hl. intros pr n. apply andb_false_iff. destruct (published (part w) pr n) eqn:Ep; [left|by right].
    destruct (balanced (part w') pr n) eqn:Eb; [|done]. destruct (balanced_history _ _ _ _ _ _ _ Hh Eb) as [Eb0|Ha0].
    + specialize (Hx pr n). by rewrite Eb0, Ep in Hx.
    + rewrite Hblock in Eb by eauto. specialize (Hx pr n). by rewrite Eb, Ep in Hx.
Qed.
Lemma forward_keeps_apart env r (w : World S) : ports_inv (part w) (part w) ->
  wp env (Forward.serve c Marshal Unmarshal keys addresses (Some of_balancers) has_events r) (fun _ w' => ports_inv (part w') (part w')) w.
Proof.
  intros [Hb Hf Hx]. assert (Hports : forall b pr n, Some of_balancers = Some b -> leaves ForwardDB (Forward.ListenPortTaken b pr n)).
  { intros b pr n [= <-]. apply leaves_listenPortTaken. }
  pose proof (Forward.fwd_serve_moves c Marshal Unmarshal keys addresses (Some of_balancers) has_events lives (Forward.asks r) Haddresses Hports
    (part w) r (fun pr n H => H) env w eq_refl) as Hh.
  pose proof (forward_leaves r env w) as Hl.
  assert (Hblock : wp env (Forward.serve c Marshal Unmarshal keys addresses (Some of_balancers) has_events r)
    (fun _ w' => (exists pr n, Forward.asks r pr n /\ balanced (part w) pr n = true) -> part w' = part (T:=ForwardDB) w) w).
  { destruct r as [sc [req|e]| | | | | | |]; try (unfold wp; destruct (Forward.serve _ _ _ _ _ _ _ _ _ _); by intros (? & ? & [] & _)).
    cbn [Forward.serve Forward.asks]. unfold Forward.handle_create, Write. apply wp_bind. rewrite wp_lift. apply wp_bind.
    destruct (balanced (part w) (fst (Forward.asked_port (Forward.create_params sc req))) (snd (Forward.asked_port (Forward.create_params sc req)))) eqn:E.
    - eapply wp_mono; [|exact (forward_blocked env _ w E)]. intros [b|e] w' Hw _; [by rewrite ?wp_ret|done].
    - unfold wp at 1. destruct (Forward.create _ _ _ _ _) as [[b|e] w']; [rewrite wp_ret|]; intros (pr & n & Ea & Ep); rewrite Ea in E; simpl in E; congruence. }
  unfold wp in *. destruct (Forward.serve _ _ _ _ _ _ _ _ _ _) as [a w']. cbn [snd] in Hl. constructor.
  - by rewrite Hl.
  - exact (Forward.fwd_history_inv lives _ _ _ _ Hh Hf).
  - rewrite Hl. intros pr n. apply andb_false_iff. destruct (balanced (part w) pr n) eqn:Eb; [right|by left].
    destruct (published (part w') pr n) eqn:Ep; [|done]. destruct (published_history _ _ _ _ _ _ _ Hh Ep) as [Ep0|Ha0].
    + specialize (Hx pr n). by rewrite Eb, Ep0 in Hx.
    + rewrite Hblock in Ep by eauto. specialize (Hx pr n). by rewrite Eb, Ep in Hx.
Qed.

(** C39: [ports_never_shared]: whatever requests reach the two modules one after the other, and however the database
    fails, no balancer listens on a port that is published on any node. *)
Theorem ports_never_shared env rs (w : World S) (Hinv : ports_inv (part w) (part w)) :
  wp env (foldM (fun r _ => attempt (serve r) ;;; ret tt) rs tt) (fun _ w' => ports_inv (part w') (part w')) w.
Proof.
  eapply wp_mono; [|apply (wp_foldM env (fun _ w' => ports_inv (part w') (part w')) (fun _ _ => False))]; [by intros []| |done].
  intros r [] w1 _ Hi. apply wp_bind, wp_attempt. eapply wp_mono with (P := fun _ w' => ports_inv (part w') (part w')); [by intros a w' Hw'; rewrite wp_ret|].
  destruct r as [r|r]; cbn [serve]; apply wp_bind; [eapply wp_mono; [|by apply balancer_keeps_apart]|eapply wp_mono; [|by apply forward_keeps_apart]];
    intros [a|e] w' Hw'; rewrite ?wp_ret; exact Hw'.
Qed.
End together.

(** * A small cloud *)

Module Demo.
Abbreviation St := ((BalancerDB * Balancer.Told) * (ForwardDB * Forward.Warned))%type.
#[export] Instance has_balancers : Has BalancerDB St := Has_in_fst _ (Has_fst _ _).
#[export] Instance has_told : Has Balancer.Told St := Has_in_fst _ (Has_snd _ _).
#[export] Instance has_forwards : Has ForwardDB St := Has_in_snd _ (Has_fst _ _).
#[export] Instance has_warned : Has Forward.Warned St := Has_in_snd _ (Has_snd _ _).
#[export] Instance apart_told : Apart Balancer.Told BalancerDB St.
Proof. by intros t [[] []]. Defined.
#[export] Instance apart_warned : Apart Forward.Warned ForwardDB St.
Proof. by intros t [[] []]. Defined.
#[export] Instance apart_balancers : Apart BalancerDB ForwardDB St.
Proof. by intros t [[] []]. Defined.
#[export] Instance apart_told_forwards : Apart Balancer.Told ForwardDB St.
Proof. by intros t [[] []]. Defined.
#[export] Instance apart_forwards : Apart ForwardDB BalancerDB St.
Proof. by intros t [[] []]. Defined.
#[export] Instance apart_warned_balancers : Apart Forward.Warned BalancerDB St.
Proof. by intros t [[] []]. Defined.
#[export] Existing Instances Toy.pem Toy.pem_laws.
#[export] Instance x509 : X509 := {| KeyPair cert key := if is_empty key then Err (EText "no key") else Ok ("app.example.com", 0) |}.

Definition running : Balancer.Member_ := Balancer.MkMember "prj-1" "nd-1" "10.0.0.2" "" true.
Definition there : Forward.Endpoint_ := Forward.MkEndpoint "prj-1" "nd-1" "10.0.0.2" "".
Definition ms : Balancer.Members St := {| Balancer.Member i := if String.eqb i "ins-1" then ret running else fail (EText "no such instance") |}.
Definition ask : Forward.Addresses St := {| Forward.Endpoint i := if String.eqb i "ins-1" then ret there else fail (EText "no such instance") |}.
Definition knows (i : string) (m : Balancer.Member_) : Prop := i = "ins-1" /\ m = running.
Definition lives (i : string) (e : Forward.Endpoint_) : Prop := i = "ins-1" /\ e = there.
Lemma ms_known m i (db : BalancerDB) : Some ms = Some m -> yields db (Balancer.Member m i) (knows i).
Proof.
  intros [= <-]. simpl. destruct (String.eqb_spec i "ins-1") as [->|]; [eapply yields_mono; [apply yields_ret|by intros ? ->]|].
  eapply yields_mono; [apply yields_fail|done].
Qed.
Lemma ask_known a i (db : ForwardDB) : Some ask = Some a -> yields db (Forward.Endpoint a i) (lives i).
Proof.
  intros [= <-]. simpl. destruct (String.eqb_spec i "ins-1") as [->|]; [eapply yields_mono; [apply yields_ret|by intros ? ->]|].
  eapply yields_mono; [apply yields_fail|done].
Qed.
Lemma knows_no_slash i m : knows i m -> Balancer.no_slash i.
Proof. intros [-> _]. apply (bool_decide_unpack _). vm_compute. exact I. Qed.
Lemma ms_leave m i : Some ms = Some m -> leaves ForwardDB (Balancer.Member m i).
Proof. intros [= <-]. simpl. destruct (String.eqb _ _); [apply leaves_ret|apply leaves_fail]. Qed.
Lemma ask_leave a i : Some ask = Some a -> leaves BalancerDB (Forward.Endpoint a i).
Proof. intros [= <-]. simpl. destruct (String.eqb _ _); [apply leaves_ret|apply leaves_fail]. Qed.

Definition Marshal (s : string) : outcome (list Z) := Ok (string_bytes s).
Definition Unmarshal (bs : list Z) (_ : string) : outcome string := Ok (bytes_string bs).
Definition w0 : World St := MkWorld ((Balancer.MkBalancerDB [] [] [] [], Balancer.MkTold ∅), (Forward.MkForwardDB [], Forward.MkWarned ∅)) O [].
Definition env : Env := {| env_now _ := 1709210050 * second; env_rand n := [Z.of_nat n; 7]; env_io _ := false |}.
Definition tenant : Scope := MkScope "prj-1" "tok-1" "ci" "" "member".
Definition balance (n : Z) : Balancer.request :=
  Balancer.ReqCreate tenant (Ok (Balancer.MkCreateRequest "www" "" n 80 "" "" "" "" 0 0 "" ["ins-1"] [])).
Definition publish (n : Z) : Forward.request := Forward.ReqCreate tenant (Ok (Forward.MkCreateRequest "ins-1" "" n 80 "")).
(** A balancer and a published port want 443, then a port and a balancer 8443. *)
Definition claims : list request := [ToBalancer (balance 443); ToForward (publish 443); ToForward (publish 8443); ToBalancer (balance 8443)].
Definition serve1 (r : request) : M St unit := serve demo Marshal Unmarshal None (Some ms) None (Some ask) true r.
End Demo.
Import (hints) Demo.

Lemma demo_ports_apart : ports_inv Demo.knows Demo.lives (part Demo.w0) (part Demo.w0).
Proof.
  constructor; [constructor; try (apply (bool_decide_unpack _); vm_compute; exact I); try constructor; intros id; vm_compute; discriminate
               |constructor; try (apply (bool_decide_unpack _); vm_compute; exact I); constructor|done].
Qed.
Lemma ports_never_shared_witness :
  wp Demo.env (foldM (fun r _ => attempt (Demo.serve1 r) ;;; ret tt) Demo.claims tt) (fun _ w' => ports_inv Demo.knows Demo.lives (part w') (part w')) Demo.w0 /\
  let w' := snd (foldM (fun r _ => attempt (Demo.serve1 r) ;;; ret tt) Demo.claims tt Demo.env Demo.w0) in
  (balanced (part w') "tcp" 443, published (part w') "tcp" 443, balanced (part w') "tcp" 8443, published (part w') "tcp" 8443) = (true, false, false, true).
Proof.
  split; [|vm_compute; reflexivity].
  exact (ports_never_shared demo Demo.Marshal Demo.Unmarshal None (Some Demo.ms) None (Some Demo.ask) true Demo.knows Demo.lives
    Demo.ms_known Demo.knows_no_slash ltac:(done) Demo.ask_known Demo.ms_leave ltac:(done) Demo.ask_leave Demo.env Demo.claims Demo.w0 demo_ports_apart).
Defined.

(** [claims_can_overlap]: the question and the claim are two transactions.  When a balancer is created while a
    publication looks up where its instance runs, after it has asked about the port, both get it. *)
Theorem claims_can_overlap :
  let meanwhile := {| Forward.Endpoint i :=
    attempt (Balancer.serve demo None (Some Demo.ms) (Some of_forwards) None true (Demo.balance 443)) ;;; ret Demo.there |} in
  let '(r, w') := Forward.serve demo Demo.Marshal Demo.Unmarshal None (Some meanwhile) (Some of_balancers) true (Demo.publish 443) Demo.env Demo.w0 in
  match r with Ok reply => rp_Status reply = StatusCreated | Err _ => False end /\
  balanced (part w') "tcp" 443 = true /\ published (part w') "tcp" 443 = true.
Proof. vm_compute. done. Qed.
