(* ===== verification/Job.v ===== *)
(** Jobs (internal/platform/job): workloads that run to their end, once or on a schedule, with
    retries, a history of runs and the sweep that moves them on.

    The two tables are one state.  Instances, the registries of networks and firewalls are the
    interfaces [Workloads] and [Registry], [None] where the Go field may be nil.  Templates,
    environments and files are kept as values; [JSON] is what [encoding/json] makes of the two that
    are sealed. *)
From stdpp Require Import base tactics numbers strings list gmap sorting.
From Stdlib Require Import ZArith Lia Sorted.
From Stdlib Require Ascii.
From S2P Require Import Prelude GoLang Time Effects Regex Kernel Httpx Tables Encoding Sealed.
From S2P Require Interval InstanceSpec.

(** * Data (types.go) *)

Definition MaxNameLength : Z := 40.
Definition MaxEnv : Z := 64.
Definition MaxFiles : Z := 16.
Definition MaxNodeSelect : Z := 8.
Definition MinEvery : Z := minute.
Definition MaxEvery : Z := 365 * 24 * hour.
Definition MinRetries : Z := 0.
Definition MaxRetries : Z := 10.
Definition MinKeep : Z := 1.
Definition MaxKeep : Z := 100.
Definition MaxFirePerPass : Z := 4.
Definition RunPending : string := "pending".
Definition RunRunning : string := "running".
Definition RunSucceeded : string := "succeeded".
Definition RunFailed : string := "failed".

(* go: platform/job/types.go Template *)
Record Template := MkTemplate {
  t_Isolation : string; t_Image : string; t_Kernel : string; t_Command : list string; t_NetworkID : string; t_FirewallID : string;
  t_VCPU : Z; t_MemoryMiB : Z; t_NodeSelector : gmap string string; t_EnvNames : list string; t_FilePaths : list string;
}.
(* go: platform/job/types.go File *)
Record File := MkFile { fl_Path : string; fl_Content : string; fl_Mode : string }.
(* go: platform/job/types.go Run *)
Record Run := MkRun {
  r_ID : string; r_JobID : string; r_InstanceID : string; r_Attempt : Z; r_State : string; r_Message : string; r_ExitCode : option Z;
  r_StartedAt : Z; r_EndedAt : Z;
}.
(* go: platform/job/types.go Job *)
Record Job := MkJob {
  j_ID : string; j_ProjectID : string; j_Name : string; j_Template : Template; j_EnvSealed : string; j_FilesSealed : string;
  j_SealKeyID : string; j_Every : Z; j_Retries : Z; j_Keep : Z; j_Paused : bool; j_NextAt : Z; j_LastAt : Z; j_Runs : list Run;
  j_CreatedAt : Z; j_UpdatedAt : Z;
}.
(* go: platform/job/types.go CreateParams *)
Record CreateParams := MkCreateParams {
  cp_ProjectID : string; cp_Name : string; cp_Template : Template; cp_Env : gmap string string; cp_Files : list File; cp_Every : string;
  cp_Retries : Z; cp_Keep : Z;
}.
(* go: platform/job/types.go Workload *)
Record Workload := MkWorkload {
  wl_ProjectID : string; wl_Name : string; wl_Template : Template; wl_Env : gmap string string; wl_Files : list File;
}.

(** * Interfaces (service.go) *)

(* go: platform/job/service.go Workloads *)
Record Workloads (S : Type) := {
  Create : Workload -> M S string;
  Delete : string -> string -> M S unit;
  StateOf : string -> M S (string * option Z * string);
}.
Arguments Create {S} _ _.
Arguments Delete {S} _ _ _.
Arguments StateOf {S} _ _.
(* go: platform/job/service.go Registry *)
Record Registry (S : Type) := { ExistsIn : string -> string -> M S bool }.
Arguments ExistsIn {S} _ _ _.
(** [encoding/json] at the two types that are sealed. *)
Record JSON := {
  MarshalEnv : gmap string string -> outcome (list Z); UnmarshalEnv : list Z -> gmap string string -> outcome (gmap string string);
  MarshalFiles : list File -> outcome (list Z); UnmarshalFiles : list Z -> list File -> outcome (list File);
}.

(** * Repository (repository.go)

    A row of jobs is a [Job] without its runs; UNIQUE (id) and (project_id, name).  A row of job_runs
    is a [Run]; UNIQUE (id). *)

Record JobDB := MkJobDB { jd_jobs : list Job; jd_runs : list Run }.

Definition errNotFound : error := ESentinel "job not found".
Definition errNameUsed : error := ESentinel "job name already used".

Definition with_runs (runs : list Run) (j : Job) : Job :=
  MkJob (j_ID j) (j_ProjectID j) (j_Name j) (j_Template j) (j_EnvSealed j) (j_FilesSealed j) (j_SealKeyID j) (j_Every j) (j_Retries j)
    (j_Keep j) (j_Paused j) (j_NextAt j) (j_LastAt j) runs (j_CreatedAt j) (j_UpdatedAt j).
Definition paused_at (paused : bool) (at_ : Z) (j : Job) : Job :=
  MkJob (j_ID j) (j_ProjectID j) (j_Name j) (j_Template j) (j_EnvSealed j) (j_FilesSealed j) (j_SealKeyID j) (j_Every j) (j_Retries j)
    (j_Keep j) paused (j_NextAt j) (j_LastAt j) (j_Runs j) (j_CreatedAt j) at_.
Definition next_at (next at_ : Z) (j : Job) : Job :=
  MkJob (j_ID j) (j_ProjectID j) (j_Name j) (j_Template j) (j_EnvSealed j) (j_FilesSealed j) (j_SealKeyID j) (j_Every j) (j_Retries j)
    (j_Keep j) (j_Paused j) next at_ (j_Runs j) (j_CreatedAt j) at_.
(** What the column every_seconds keeps of a job. *)
Definition row_of (j : Job) : Job :=
  MkJob (j_ID j) (j_ProjectID j) (j_Name j) (j_Template j) (j_EnvSealed j) (j_FilesSealed j) (j_SealKeyID j)
    (Z.quot (j_Every j) second * second) (j_Retries j) (j_Keep j) (j_Paused j) (j_NextAt j) (j_LastAt j) [] (j_CreatedAt j) (j_UpdatedAt j).
Definition with_state (state : string) (exitCode : option Z) (message : string) (r : Run) : Run :=
  MkRun (r_ID r) (r_JobID r) (r_InstanceID r) (r_Attempt r) state message exitCode (r_StartedAt r) (r_EndedAt r).
Definition ended (state : string) (exitCode : option Z) (message : string) (at_ : Z) (r : Run) : Run :=
  MkRun (r_ID r) (r_JobID r) "" (r_Attempt r) state message exitCode (r_StartedAt r) at_.

Definition has_id (id : string) (j : Job) : bool := String.eqb (j_ID j) id.
Definition in_project (projectID : string) (j : Job) : bool := String.eqb (j_ProjectID j) projectID.
Definition named (projectID name : string) (j : Job) : bool := in_project projectID j && String.eqb (j_Name j) name.
Definition run_id (id : string) (r : Run) : bool := String.eqb (r_ID r) id.
Definition run_of (jobID : string) (r : Run) : bool := String.eqb (r_JobID r) jobID.
Definition clash (n j : Job) : bool := has_id (j_ID n) j || named (j_ProjectID n) (j_Name n) j.

(* go: platform/job/repository.go stamp *)
Definition stamp (at_ : Z) : string := if time_is_zero at_ then "" else rfc3339nano at_.
(** Texts are compared, not times. *)
Definition is_due (now_ : Z) (j : Job) : bool :=
  negb (j_Paused j) && (0 <? Z.quot (j_Every j) second) && negb (is_empty (stamp (j_NextAt j))) &&
  negb (str_ltb (rfc3339nano now_) (stamp (j_NextAt j))).

Section repository.
Context {S : Type} `{!Has JobDB S}.

Definition jobs_sql {A} (what : string) (q : list Job -> outcome A * list Job) : M S A :=
  sql what (fun db => let '(r, rows) := q (jd_jobs db) in (r, MkJobDB rows (jd_runs db))).
Definition runs_sql {A} (what : string) (q : list Run -> outcome A * list Run) : M S A :=
  sql what (fun db => let '(r, rows) := q (jd_runs db) in (r, MkJobDB (jd_jobs db) rows)).

(* go: platform/job/repository.go repository.insert *)
Definition insert (j : Job) : M S unit := jobs_sql "insert job" (insert_row (clash j) errNameUsed (row_of j)).
(* go: platform/job/repository.go repository.setPaused *)
Definition setPaused_row (id : string) (paused : bool) (at_ : Z) : M S unit :=
  jobs_sql "set paused" (update_where (has_id id) (paused_at paused at_) errNotFound).
(* go: platform/job/repository.go repository.setNextAt *)
Definition setNextAt (id : string) (next at_ : Z) : M S unit :=
  jobs_sql "set the next run" (fun rows => (Ok tt, map (fun j => if has_id id j then next_at next at_ j else j) rows)).
(* go: platform/job/repository.go repository.runsOf *)
Definition runsOf (jobID : string) : M S (list Run) :=
  query "list runs" (fun db => Ok (sliceStable (by_key (fun r => rfc3339nano (r_StartedAt r)) str_ltb (by_key r_ID str_ltb (fun _ _ => false)))
    (List.filter (run_of jobID) (jd_runs db)))).
(* go: platform/job/repository.go repository.load *)
Definition load (q : list Job -> list Job) : M S (list Job) :=
  let! rows := query "list jobs" (fun db => Ok (q (jd_jobs db))) in
  foldM (fun j out => let! runs := runsOf (j_ID j) in ret (out ++ [with_runs runs j])) rows [].
(* go: platform/job/repository.go repository.listIn *)
Definition listIn_rows (projectID : string) : M S (list Job) :=
  load (fun rows => sliceStable (by_key j_Name str_ltb (fun _ _ => false)) (List.filter (in_project projectID) rows)).
(* go: platform/job/repository.go repository.all *)
Definition all : M S (list Job) := load (sliceStable (by_key j_ID str_ltb (fun _ _ => false))).
(* go: platform/job/repository.go repository.due *)
Definition due (now_ : Z) (limit : Z) : M S (list Job) :=
  load (fun rows => take (Z.to_nat limit)
    (sliceStable (by_key (fun j => stamp (j_NextAt j)) str_ltb (fun _ _ => false)) (List.filter (is_due now_) rows))).
Definition first_of (found : list Job) : outcome Job := match found with j :: _ => Ok j | [] => Err errNotFound end.
(* go: platform/job/repository.go repository.byID *)
Definition byID (projectID id : string) : M S Job :=
  let! found := load (List.filter (fun j => in_project projectID j && has_id id j)) in lift (first_of found).
(* go: platform/job/repository.go repository.byName *)
Definition byName (projectID name : string) : M S Job :=
  let! found := load (List.filter (named projectID name)) in lift (first_of found).
(* go: platform/job/repository.go repository.insertRun *)
Definition insertRun (r : Run) : M S unit :=
  runs_sql "insert a run" (insert_row (run_id (r_ID r)) (EText "insert a run: UNIQUE constraint failed: job_runs.id") r).
(* go: platform/job/repository.go repository.setRunState *)
Definition setRunState (runID state : string) (exitCode : option Z) (message : string) : M S unit :=
  runs_sql "set a run state" (fun rows => (Ok tt, map (fun r => if run_id runID r then with_state state exitCode message r else r) rows)).
(* go: platform/job/repository.go repository.endRun *)
Definition endRun (runID state : string) (exitCode : option Z) (message : string) (at_ : Z) : M S unit :=
  runs_sql "end a run" (fun rows => (Ok tt, map (fun r => if run_id runID r then ended state exitCode message at_ r else r) rows)).
(* go: platform/job/repository.go repository.deleteRun *)
Definition deleteRun (runID : string) : M S unit :=
  runs_sql "delete a run" (fun rows => (Ok tt, List.filter (fun r => negb (run_id runID r)) rows)).
(** One transaction; a job that is gone rolls it back. *)
(* go: platform/job/repository.go repository.delete *)
Definition delete_row (id : string) : M S unit :=
  sql "delete job" (fun db => match delete_where (has_id id) errNotFound (jd_jobs db) with
    | (Ok _, rows) => (Ok tt, MkJobDB rows (List.filter (fun r => negb (run_of id r)) (jd_runs db)))
    | (Err e, _) => (Err e, db)
    end).
End repository.

(* go: platform/job/service.go translate *)
Definition translate (err : error) : error :=
  if errors_Is err "job not found" then NotFound "job_not_found" "no job with that name or id exists"
  else if errors_Is err "job name already used" then Conflict "job_name_taken" "a job with that name already exists in this project"
  else err.

(** * What a job may be (service.go, env.go) *)

(* go: platform/job/service.go parseEvery *)
Definition parseEvery (text : string) : outcome Z :=
  if is_empty text then Ok 0
  else
    try every := or_fault (fun err => Invalid "invalid_interval" (error_text err)) (Interval.Parse text) in
    try _ := guard ((every <? MinEvery) || (MaxEvery <? every)) (Invalid "invalid_interval"
      ("the interval must be between " +:+ duration_String MinEvery +:+ " and " +:+ duration_String MaxEvery)) in
    Ok every.
(* go: platform/job/service.go checkTemplate *)
Definition checkTemplate (t : Template) : outcome unit :=
  try _ := guard (is_empty (t_Image t)) (Invalid "invalid_template" "a job needs an image to run") in
  try _ := guard (len (t_Command t) =? 0) (Invalid "invalid_template"
    "a job needs a command: a workload that runs whatever its image starts by default never reports finishing on purpose") in
  try _ := guard (MaxNodeSelect <? Z.of_nat (size (t_NodeSelector t))) (Invalid "invalid_node_selector"
    ("a node selector names at most 8 labels, and " +:+ itoa (Z.of_nat (size (t_NodeSelector t))) +:+ " were given")) in
  InstanceSpec.each (fun kv =>
    try _ := validate_Name "node_selector_key" (fst kv) in
    validate_Name "node_selector_value" (snd kv)) (map_to_list (t_NodeSelector t)).
(* go: platform/job/env.go envNamePattern *)
Definition envNamePattern : regex := RSeq (RCls InstanceSpec.name_start) (RStar (RCls InstanceSpec.name_char)).
(* go: platform/job/env.go checkEnv *)
Definition checkEnv (env : gmap string string) : outcome unit :=
  try _ := guard (MaxEnv <? Z.of_nat (size env)) (Invalid "invalid_env" ("a job carries at most 64 environment variables, and "
    +:+ itoa (Z.of_nat (size env)) +:+ " were given")) in
  InstanceSpec.each (fun kv => guard (negb (re_match envNamePattern (fst kv)))
    (Invalid "invalid_env" (quoted (fst kv) +:+ " is not an environment variable name"))) (map_to_list env).
(* go: platform/job/env.go namesOf *)
Definition namesOf (env : gmap string string) : list string := sliceStable str_ltb (map fst (map_to_list env)).
(* go: platform/job/env.go pathsOf *)
Definition pathsOf (files : list File) : list string := sliceStable str_ltb (map fl_Path files).

(* go: platform/job/service.go active *)
Definition is_active (r : Run) : bool := String.eqb (r_State r) RunPending || String.eqb (r_State r) RunRunning.
Definition active (runs : list Run) : option Run := List.find is_active runs.
(* go: platform/job/sweep.go succeeded *)
Definition succeeded (state : string) (exitCode : option Z) : bool :=
  String.eqb state "stopped" && match exitCode with Some code => code =? 0 | None => false end.
Definition is_settled (r : Run) : bool := String.eqb (r_State r) RunSucceeded || String.eqb (r_State r) RunFailed.

(** * Service (service.go, sweep.go) *)

Section service.
Context {S : Type} `{!Has JobDB S} (c : AEAD) (js : JSON) (keys : option Keyring).
Context (workloads : option (Workloads S)) (networks firewalls : option (Registry S)) (has_events : bool).

(** ** Sealing (env.go) *)

(* go: platform/job/env.go sealEnv *)
Definition sealEnv (env : gmap string string) : M S (string * string) :=
  if (size env =? 0)%nat then ret ("", "")
  else mapped (fun err =>
    if errors_Is err "this control plane holds no key to seal with"
    then Conflict "no_sealing_key" "this control plane has no key to seal an environment with, and every run would carry it: start it with --backup-key-file, or leave env off"
    else Internal (EWrap "seal the environment" err)) (SealJSON c (MarshalEnv js) env keys).
(* go: platform/job/env.go sealFiles *)
Definition sealFiles (files : list File) : M S string :=
  if len files =? 0 then ret ""
  else mapped (fun err =>
    if errors_Is err "this control plane holds no key to seal with"
    then Conflict "no_sealing_key" "this control plane has no key to seal a config file with, and every run would carry it: start it with --backup-key-file, or leave files off"
    else Internal (EWrap "seal the files" err))
    (let! ' (blob, _) := SealJSON c (MarshalFiles js) files keys in ret blob).
(* go: platform/job/env.go openEnv *)
Definition openEnv (blob keyID : string) : outcome (gmap string string) :=
  if is_empty blob then Ok ∅
  else or_fault (fun err =>
    if errors_Is err "this control plane does not hold the key it was sealed with"
    then Conflict "env_key_missing" ("this job's environment was sealed with key " +:+ keyID +:+ ", which this control plane does not hold")
    else Internal (EWrap "unseal the environment" err)) (OpenJSON c (UnmarshalEnv js) blob keyID keys ∅).
(* go: platform/job/env.go openFiles *)
Definition openFiles (blob keyID : string) : outcome (list File) :=
  or_fault (fun err =>
    if errors_Is err "this control plane does not hold the key it was sealed with"
    then Conflict "seal_key_missing" ("this job's files were sealed with key " +:+ keyID +:+ ", which this control plane does not hold")
    else Internal (EWrap "unseal the files" err)) (OpenJSON c (UnmarshalFiles js) blob keyID keys []).

(* go: platform/job/service.go service.note *)
Definition note (j : Job) (kind subject message : string) (severity : Severity) : M S unit :=
  if has_events
  then record {| ev_ProjectID := j_ProjectID j; ev_Kind := kind; ev_Subject := subject; ev_NodeID := ""; ev_Message := message;
                 ev_Severity := severity |}
  else ret tt.

(** ** Requests *)

(* go: platform/job/service.go service.checkReferences *)
Definition checkReferences (projectID : string) (t : Template) : M S unit :=
  foldM (fun one _ =>
    match fst one with
    | None => ret tt
    | Some registry =>
        if is_empty (snd one) then ret tt
        else
          let! known := ExistsIn registry (snd one) projectID in
          lift (guard (negb known) (Invalid "unknown_reference"
            ("nothing with id " +:+ snd one +:+ " exists in this project, and every run would fail the same way")))
    end) [(networks, t_NetworkID t); (firewalls, t_FirewallID t)] tt.

Definition described (env : gmap string string) (files : list File) (t : Template) : Template :=
  MkTemplate (t_Isolation t) (t_Image t) (t_Kernel t) (t_Command t) (t_NetworkID t) (t_FirewallID t) (t_VCPU t) (t_MemoryMiB t)
    (t_NodeSelector t) (namesOf env) (pathsOf files).
(* go: platform/job/service.go service.create *)
Definition create (params : CreateParams) : M S Job :=
  lift (validate_Name "name" (cp_Name params)) ;;;
  lift (guard (MaxNameLength <? slen (cp_Name params)) (Invalid "invalid_name"
    "a job name must be at most 40 characters, because every run name is built from it")) ;;;
  lift (checkTemplate (cp_Template params)) ;;;
  lift (checkEnv (cp_Env params)) ;;;
  lift (guard (MaxFiles <? len (cp_Files params)) (Invalid "invalid_files"
    ("a job carries at most 16 files, and " +:+ itoa (len (cp_Files params)) +:+ " were given"))) ;;;
  checkReferences (cp_ProjectID params) (cp_Template params) ;;;
  let! every := lift (parseEvery (cp_Every params)) in
  lift (guard ((cp_Retries params <? MinRetries) || (MaxRetries <? cp_Retries params))
    (Invalid "invalid_retries" "retries must be between 0 and 10")) ;;;
  let keep := if cp_Keep params =? 0 then 10 else cp_Keep params in
  lift (guard ((keep <? MinKeep) || (MaxKeep <? keep)) (Invalid "invalid_keep" "keep must be between 1 and 100")) ;;;
  let! ' (envSealed, keyID) := sealEnv (cp_Env params) in
  let! filesSealed := sealFiles (cp_Files params) in
  let keyID := if negb (is_empty filesSealed) && is_empty keyID then ActiveID keys else keyID in
  let! at_ := now in
  let! id := ids_New "job" in
  let job := MkJob id (cp_ProjectID params) (cp_Name params) (described (cp_Env params) (cp_Files params) (cp_Template params)) envSealed
    filesSealed keyID every (cp_Retries params) keep false (if 0 <? every then time_add at_ every else zero_time) zero_time [] at_ at_ in
  mapped translate (insert job) ;;;
  ret job.

(* go: platform/job/service.go service.find *)
Definition find (projectID id : string) : M S Job :=
  let! r := attempt (byID projectID id) in
  let! r := match r with
    | Err err => if errors_Is err "job not found" then attempt (byName projectID id) else ret r
    | Ok _ => ret r
    end in
  lift (or_fault translate r).
(* go: platform/job/service.go service.listIn *)
Definition listIn (projectID : string) : M S (list Job) := mapped translate (listIn_rows projectID).
(* go: platform/job/service.go service.setPaused *)
Definition setPaused (projectID id : string) (paused : bool) : M S Job :=
  let! job := find projectID id in
  let! at_ := now in
  mapped translate (setPaused_row (j_ID job) paused at_) ;;;
  find projectID (j_ID job).
(* go: platform/job/service.go service.remove *)
Definition remove (projectID id : string) : M S unit :=
  let! job := find projectID id in
  foldM (fun run _ =>
    match workloads with
    | None => ret tt
    | Some ws =>
        if is_empty (r_InstanceID run) then ret tt
        else mapped (fun err => Internal (EWrap ("job " +:+ j_Name job +:+ " could not delete the workload of run " +:+ r_ID run
               +:+ ", so nothing was removed") err)) (Delete ws (j_ProjectID job) (r_InstanceID run))
    end) (j_Runs job) tt ;;;
  mapped translate (delete_row (j_ID job)).

(** ** Runs *)

(* go: platform/job/service.go runName *)
Definition runName (job : string) (attempt : Z) : M S string :=
  let! suffix := ids_New "r" in
  ret (job +:+ "-" +:+ itoa attempt +:+ "-" +:+ (if 6 <? slen suffix then str_drop (slen suffix - 6) suffix else suffix)).
(* go: platform/job/service.go service.startRun *)
Definition startRun (job : Job) (attempt_ : Z) : M S Run :=
  match workloads with
  | None => fail (Internal (EText "this control plane cannot make workloads"))
  | Some ws =>
      let! env := lift (openEnv (j_EnvSealed job) (j_SealKeyID job)) in
      let! files := if is_empty (j_FilesSealed job) then ret [] else lift (openFiles (j_FilesSealed job) (j_SealKeyID job)) in
      let! id := ids_New "run" in
      let! at_ := now in
      let run := MkRun id (j_ID job) "" attempt_ RunPending "" None at_ zero_time in
      let! name := runName (j_Name job) attempt_ in
      let! made := attempt (Create ws (MkWorkload (j_ProjectID job) name (j_Template job) env files)) in
      match made with
      | Err err =>
          let run := MkRun id (j_ID job) "" attempt_ RunFailed (error_text err) None at_ at_ in
          mapped translate (insertRun run) ;;;
          note job "job.run_failed" id (j_Name job +:+ " could not start a run: " +:+ error_text err) SevError ;;;
          ret run
      | Ok instanceID =>
          let run := MkRun id (j_ID job) instanceID attempt_ RunPending "" None at_ zero_time in
          mapped translate (insertRun run) ;;;
          note job "job.run_started" id (j_Name job +:+ " started run " +:+ id +:+ " (attempt " +:+ itoa attempt_ +:+ ")") Info ;;;
          ret run
      end
  end.
(* go: platform/job/service.go service.trigger *)
Definition trigger (projectID id : string) : M S Run :=
  let! job := find projectID id in
  lift (guard (match active (j_Runs job) with Some _ => true | None => false end) (Conflict "run_in_flight"
    "a run of this job is still going, and two at once would race each other")) ;;;
  startRun job 1.

(** ** The sweep (sweep.go) *)

(** A failing [Delete] is only logged. *)
(* go: platform/job/sweep.go service.finish *)
Definition finish (ws : Workloads S) (job : Job) (run : Run) (state : string) (exitCode : option Z) (message : string) : M S unit :=
  (if is_empty (r_InstanceID run) then ret tt
   else let! _ := attempt (Delete ws (j_ProjectID job) (r_InstanceID run)) in ret tt) ;;;
  let! at_ := now in
  endRun (r_ID run) state exitCode message at_ ;;;
  let failed := String.eqb state RunFailed in
  note job (if failed then "job.run_failed" else "job.run_succeeded") (r_ID run)
    (j_Name job +:+ " run " +:+ r_ID run +:+ " " +:+ state +:+ " on attempt " +:+ itoa (r_Attempt run)) (if failed then Warn else Info).
(* go: platform/job/sweep.go service.advance *)
Definition advance (ws : Workloads S) (job : Job) : M S Z :=
  match active (j_Runs job) with
  | None => ret 0
  | Some running =>
      if is_empty (r_InstanceID running) then ret 0
      else
        let! r := attempt (StateOf ws (r_InstanceID running)) in
        match r with
        | Err _ => finish ws job running RunFailed None "the workload of this run no longer exists" ;;; ret 0
        | Ok (state, exitCode, message) =>
            if String.eqb state "pending" then ret 0
            else if String.eqb state "running" then
              if String.eqb (r_State running) RunRunning then ret 0
              else setRunState (r_ID running) RunRunning None "" ;;; ret 0
            else if succeeded state exitCode then finish ws job running RunSucceeded exitCode message ;;; ret 1
            else if r_Attempt running <=? j_Retries job then
              finish ws job running RunFailed exitCode message ;;;
              startRun job (r_Attempt running + 1) ;;;
              ret 1
            else finish ws job running RunFailed exitCode message ;;; ret 1
        end
  end.
(* go: platform/job/sweep.go service.retain *)
Definition retain (job : Job) : M S unit :=
  let settled := List.filter is_settled (j_Runs job) in
  if len settled <=? j_Keep job then ret tt
  else foldM (fun run _ => deleteRun (r_ID run)) (take (Z.to_nat (len settled - j_Keep job)) settled) tt.
(** What one turn of the loop over the due jobs adds; what fails is logged. *)
(* go: platform/job/sweep.go:116-138 setNextAt *)
Definition fire (job : Job) (fired : Z) : M S Z :=
  let! at_ := now in
  let next := time_add at_ (j_Every job) in
  let! at_ := now in
  let! r := attempt (setNextAt (j_ID job) next at_) in
  match r with
  | Err _ => ret fired
  | Ok _ =>
      match active (j_Runs job) with
      | Some _ => note job "job.run_skipped" (j_ID job) (j_Name job +:+ " was due but its previous run is still going") Warn ;;; ret fired
      | None => let! r := attempt (startRun job 1) in ret (match r with Ok _ => fired + 1 | Err _ => fired end)
      end
  end.
(* go: platform/job/sweep.go service.fireDue *)
Definition fireDue : M S Z :=
  let! at_ := now in
  let! jobs := mapped translate (due at_ MaxFirePerPass) in
  foldM fire jobs 0.
(* go: platform/job/sweep.go service.sweep *)
Definition sweep : M S (Z * Z) :=
  match workloads with
  | None => ret (0, 0)
  | Some ws =>
      let! jobs := mapped translate all in
      let! finished := foldM (fun job finished =>
        let! done_ := attempt (advance ws job) in
        match done_ with
        | Err _ => ret finished
        | Ok done_ => let! _ := attempt (retain job) in ret (finished + done_)
        end) jobs 0 in
      let! fired := fireDue in
      ret (fired, finished)
  end.
End service.

(** * Handlers (handler.go) *)

(* go: platform/job/handler.go createRequest *)
Record createRequest := MkCreateRequest {
  cr_Name : string; cr_Isolation : string; cr_Image : string; cr_Kernel : string; cr_Command : list string; cr_NetworkID : string;
  cr_FirewallID : string; cr_VCPU : Z; cr_MemoryMiB : Z; cr_NodeSelector : gmap string string; cr_Env : gmap string string;
  cr_Files : list File; cr_Every : string; cr_Retries : Z; cr_Keep : Z;
}.
(* go: platform/job/handler.go runResponse *)
Record runResponse := MkRunResponse {
  ro_ID : string; ro_InstanceID : string; ro_Attempt : Z; ro_State : string; ro_Message : string; ro_ExitCode : option Z;
  ro_StartedAt : string; ro_EndedAt : string;
}.
(* go: platform/job/handler.go response *)
Record response := MkResponse {
  o_ID : string; o_Name : string; o_Template : Template; o_Every : string; o_Retries : Z; o_Keep : Z; o_Paused : bool;
  o_NextAt : string; o_LastAt : string; o_Runs : list runResponse; o_CreatedAt : string; o_UpdatedAt : string;
}.
(* go: platform/job/handler.go toRun *)
Definition toRun (run : Run) : runResponse :=
  MkRunResponse (r_ID run) (r_InstanceID run) (r_Attempt run) (r_State run) (r_Message run) (r_ExitCode run)
    (rfc3339nano (r_StartedAt run)) (stamp (r_EndedAt run)).
(* go: platform/job/handler.go toResponse *)
Definition toResponse (j : Job) : response :=
  MkResponse (j_ID j) (j_Name j) (j_Template j) (if 0 <? j_Every j then duration_String (j_Every j) else "") (j_Retries j) (j_Keep j)
    (j_Paused j) (stamp (j_NextAt j)) (stamp (j_LastAt j)) (map toRun (j_Runs j)) (rfc3339nano (j_CreatedAt j)) (rfc3339nano (j_UpdatedAt j)).
Inductive body :=
| BJob (j : response)
| BJobs (js : list response)
| BRun (r : runResponse)
| BRuns (rs : list runResponse).

Section handlers.
Context {S : Type} `{!Has JobDB S} (c : AEAD) (js : JSON) (keys : option Keyring).
Context (workloads : option (Workloads S)) (networks firewalls : option (Registry S)) (has_events : bool).

(** The parameters a request carries. *)
Definition create_params (sc : Scope) (req : createRequest) : CreateParams :=
  MkCreateParams (sc_ProjectID sc) (cr_Name req)
    (MkTemplate (cr_Isolation req) (cr_Image req) (cr_Kernel req) (cr_Command req) (cr_NetworkID req) (cr_FirewallID req) (cr_VCPU req)
       (cr_MemoryMiB req) (cr_NodeSelector req) [] []) (cr_Env req) (cr_Files req) (cr_Every req) (cr_Retries req) (cr_Keep req).
(* go: platform/job/handler.go handler.create *)
Definition handle_create (sc : Scope) (req : outcome createRequest) : M S (Reply body) :=
  let! req := lift req in
  let! j := create c js keys networks firewalls (create_params sc req) in
  Write StatusCreated (BJob (toResponse j)).
(* go: platform/job/handler.go handler.list *)
Definition handle_list (sc : Scope) : M S (Reply body) :=
  let! jobs := listIn (sc_ProjectID sc) in Write StatusOK (BJobs (map toResponse jobs)).
(* go: platform/job/handler.go handler.get *)
Definition handle_get (sc : Scope) (id : string) : M S (Reply body) :=
  let! j := find (sc_ProjectID sc) id in Write StatusOK (BJob (toResponse j)).
(* go: platform/job/handler.go handler.runs *)
Definition handle_runs (sc : Scope) (id : string) : M S (Reply body) :=
  let! j := find (sc_ProjectID sc) id in Write StatusOK (BRuns (map toRun (j_Runs j))).
(* go: platform/job/handler.go handler.trigger *)
Definition handle_trigger (sc : Scope) (id : string) : M S (Reply body) :=
  let! run := trigger c js keys workloads has_events (sc_ProjectID sc) id in Write StatusCreated (BRun (toRun run)).
(* go: platform/job/handler.go handler.setPaused *)
Definition handle_setPaused (sc : Scope) (id : string) (paused : bool) : M S (Reply body) :=
  let! j := setPaused (sc_ProjectID sc) id paused in Write StatusOK (BJob (toResponse j)).
(* go: platform/job/handler.go handler.delete *)
Definition handle_delete (sc : Scope) (id : string) : M S (Reply body) :=
  remove workloads (sc_ProjectID sc) id ;;;
  WriteHeader StatusNoContent.

(** What reaches the module. *)
Inductive request :=
| ReqCreate (sc : Scope) (req : outcome createRequest)
| ReqList (sc : Scope)
| ReqGet (sc : Scope) (id : string)
| ReqRuns (sc : Scope) (id : string)
| ReqTrigger (sc : Scope) (id : string)
| ReqPause (sc : Scope) (id : string)
| ReqResume (sc : Scope) (id : string)
| ReqDelete (sc : Scope) (id : string)
| ReqSweep.

(* go: platform/job/module.go Module.Routes *)
Definition serve (r : request) : M S (Reply body) :=
  match r with
  | ReqCreate sc req => handle_create sc req
  | ReqList sc => handle_list sc
  | ReqGet sc id => handle_get sc id
  | ReqRuns sc id => handle_runs sc id
  | ReqTrigger sc id => handle_trigger sc id
  | ReqPause sc id => handle_setPaused sc id true
  | ReqResume sc id => handle_setPaused sc id false
  | ReqDelete sc id => handle_delete sc id
  | ReqSweep => sweep c js keys workloads has_events ;;; WriteHeader StatusOK
  end.
End handlers.

(** * The state machine the module promises

    A run starts only when no other of its job is going, as the first attempt or as the next one
    after the last; it goes from pending to running and ends once; what has ended is only ever
    forgotten.  [Tenant] asks, [Ticker] sweeps. *)
Inductive actor := Tenant (projectID : string) | Ticker.
Definition may (a : actor) (j : Job) : Prop := match a with Tenant p => j_ProjectID j = p | Ticker => True end.

(** A well-formed row of jobs. *)
Record job_ok (j : Job) : Prop := {
  jo_name : validate_Name "name" (j_Name j) = Ok tt /\ slen (j_Name j) <= MaxNameLength;
  jo_template : checkTemplate (j_Template j) = Ok tt;
  jo_every : j_Every j = 0 \/ MinEvery <= j_Every j <= MaxEvery;
  jo_seconds : j_Every j = Z.quot (j_Every j) second * second;
  jo_retries : MinRetries <= j_Retries j <= MaxRetries;
  jo_keep : MinKeep <= j_Keep j <= MaxKeep;
  jo_bare : j_Runs j = [];
}.
(** A well-formed row of job_runs. *)
Record run_ok (r : Run) : Prop := {
  ru_state : r_State r ∈ [RunPending; RunRunning; RunSucceeded; RunFailed];
  ru_attempt : 1 <= r_Attempt r;
  ru_settled : is_active r = false -> r_InstanceID r = "";
}.

Definition set_jobs (rows : list Job) (db : JobDB) : JobDB := MkJobDB rows (jd_runs db).
Definition set_runs (rows : list Run) (db : JobDB) : JobDB := MkJobDB (jd_jobs db) rows.
Definition on_run (id : string) (f : Run -> Run) (rows : list Run) : list Run := map (fun r => if run_id id r then f r else r) rows.
Definition going (db : JobDB) (jobID : string) : list Run := List.filter (fun r => run_of jobID r && is_active r) (jd_runs db).
Definition a_run (db : JobDB) (j : Job) (id : string) : Prop := exists r, r ∈ jd_runs db /\ r_ID r = id /\ r_JobID r = j_ID j.

Inductive change (a : actor) (db : JobDB) : JobDB -> Prop :=
| C_create j : a = Tenant (j_ProjectID j) -> job_ok j -> existsb (clash j) (jd_jobs db) = false -> change a db (set_jobs (jd_jobs db ++ [j]) db)
| C_pause j paused at_ : a = Tenant (j_ProjectID j) -> j ∈ jd_jobs db ->
    change a db (set_jobs (map (fun x => if has_id (j_ID j) x then paused_at paused at_ x else x) (jd_jobs db)) db)
| C_schedule j next at_ : a = Ticker -> j ∈ jd_jobs db ->
    change a db (set_jobs (map (fun x => if has_id (j_ID j) x then next_at next at_ x else x) (jd_jobs db)) db)
| C_remove j : a = Tenant (j_ProjectID j) -> j ∈ jd_jobs db ->
    change a db (MkJobDB (List.filter (fun x => negb (has_id (j_ID j) x)) (jd_jobs db)) (List.filter (fun r => negb (run_of (j_ID j) r)) (jd_runs db)))
| C_start j r : may a j -> j ∈ jd_jobs db -> r_JobID r = j_ID j -> run_ok r -> going db (j_ID j) = [] ->
    1 <= r_Attempt r <= j_Retries j + 1 -> (a <> Ticker -> r_Attempt r = 1) -> existsb (run_id (r_ID r)) (jd_runs db) = false ->
    change a db (set_runs (jd_runs db ++ [r]) db)
| C_running j r : a = Ticker -> j ∈ jd_jobs db -> r ∈ going db (j_ID j) ->
    change a db (set_runs (on_run (r_ID r) (with_state RunRunning None "") (jd_runs db)) db)
| C_end j r state code message at_ : a = Ticker -> j ∈ jd_jobs db -> r ∈ going db (j_ID j) -> state = RunSucceeded \/ state = RunFailed ->
    change a db (set_runs (on_run (r_ID r) (ended state code message at_) (jd_runs db)) db)
| C_forget id : a = Ticker -> (forall r, r ∈ jd_runs db -> r_ID r = id -> is_settled r = true) ->
    change a db (set_runs (List.filter (fun x => negb (run_id id x)) (jd_runs db)) db).
Definition history (a : actor) : JobDB -> JobDB -> Prop := rtc (change a).
#[export] Instance history_preorder a : PreOrder (history a).
Proof. unfold history. typeclasses eauto. Qed.

Record job_inv (db : JobDB) : Prop := {
  ji_id : unique_by (fun j => Some (j_ID j)) (jd_jobs db);
  ji_name : unique_by (fun j => Some (j_ProjectID j, j_Name j)) (jd_jobs db);
  ji_row : Forall job_ok (jd_jobs db);
  ji_run : unique_by (fun r => Some (r_ID r)) (jd_runs db);
  ji_run_ok : Forall run_ok (jd_runs db);
  ji_run_of : Forall (fun r => exists j, j ∈ jd_jobs db /\ r_JobID r = j_ID j /\ r_Attempt r <= j_Retries j + 1) (jd_runs db);
  ji_one : forall id, len (going db id) <= 1;
}.

(** * The changes keep the tables well formed *)

Lemma on_run_ids id f rows : (forall r, r_ID (f r) = r_ID r) -> map r_ID (on_run id f rows) = map r_ID rows.
Proof. intros Hf. unfold on_run. rewrite map_map. apply map_ext. intros r. by destruct (run_id id r). Qed.
Lemma on_run_elem id f rows x : x ∈ on_run id f rows -> exists r, r ∈ rows /\ x = if run_id id r then f r else r.
Proof. intros (r & -> & Hr)%list_elem_of_fmap. by exists r. Qed.
Lemma going_elem db id r : r ∈ going db id <-> r ∈ jd_runs db /\ r_JobID r = id /\ is_active r = true.
Proof. unfold going. rewrite elem_of_filter_bool, andb_true_iff. unfold run_of. by rewrite String.eqb_eq. Qed.
(** Among the going runs of a job there is just the one. *)
Lemma going_one db id r : job_inv db -> r ∈ going db id -> going db id = [r].
Proof.
  intros Hi Hr. pose proof (ji_one _ Hi id) as Hl. destruct (going db id) as [|x [|y l]]; [by apply not_elem_of_nil in Hr| |cbn [length] in Hl; lia].
  by apply list_elem_of_singleton in Hr as ->.
Qed.
(** A change of one run that leaves its identity. *)
Lemma runs_inv db id f : job_inv db -> (forall r, r_ID (f r) = r_ID r /\ r_JobID (f r) = r_JobID r /\ r_Attempt (f r) = r_Attempt r) ->
  (forall r, r ∈ jd_runs db -> r_ID r = id -> is_active r = true /\ run_ok (f r)) ->
  job_inv (set_runs (on_run id f (jd_runs db)) db).
Proof.
  intros [H1 H2 H3 H4 H5 H6 H7] Hf Hr. rewrite Forall_forall in H5, H6.
  constructor; cbn [set_runs jd_jobs jd_runs]; [done..| | | |].
  - unfold unique_by in *. rewrite omap_total in *. rewrite on_run_ids; [done|]. intros r. apply Hf.
  - apply Forall_forall. intros x (r & Hx & ->)%on_run_elem. destruct (run_id id r) eqn:E; [|auto]. by apply Hr, String.eqb_eq.
  - apply Forall_forall. intros x (r & Hx & ->)%on_run_elem. destruct (H6 r Hx) as (j & Hj & Ej & Ea). exists j. split; [done|].
    destruct (run_id id r); [|done]. destruct (Hf r) as (_ & -> & ->). done.
  - intros j. unfold going. etransitivity; [|apply (H7 j)]. apply filter_map_le. intros r Hx E. destruct (run_id id r) eqn:Eid; [|done].
    apply String.eqb_eq in Eid. destruct (Hr r Hx Eid) as [Hact _]. apply andb_true_iff in E as [E1 _]. rewrite Hact, andb_true_r.
    unfold run_of in *. by destruct (Hf r) as (_ & <- & _).
Qed.
(** A change of one job that leaves what the runs rely on. *)
Lemma jobs_inv db id f : job_inv db ->
  (forall j, j_ID (f j) = j_ID j /\ j_ProjectID (f j) = j_ProjectID j /\ j_Name (f j) = j_Name j /\ j_Retries (f j) = j_Retries j) ->
  (forall j, job_ok j -> job_ok (f j)) -> job_inv (set_jobs (map (fun j => if has_id id j then f j else j) (jd_jobs db)) db).
Proof.
  intros [H1 H2 H3 H4 H5 H6 H7] Hf Hok. constructor; cbn [set_jobs jd_jobs jd_runs]; [| | |done..| |done].
  - apply unique_by_map; [|done]. intros j. destruct (has_id id j); [|done]. by destruct (Hf j) as [-> _].
  - apply unique_by_map; [|done]. intros j. destruct (has_id id j); [|done]. by destruct (Hf j) as (_ & -> & -> & _).
  - apply Forall_map. eapply Forall_impl; [exact H3|]. intros j Hj. destruct (has_id id j); auto.
  - eapply Forall_impl; [exact H6|]. intros r (j & Hj & Ej & Ea). exists (if has_id id j then f j else j).
    split; [by apply (list_elem_of_fmap_2 (fun j => if has_id id j then f j else j))|]. destruct (has_id id j); [|done].
    by destruct (Hf j) as (-> & _ & _ & ->).
Qed.

Lemma job_change_inv a db db' : change a db db' -> job_inv db -> job_inv db'.
Proof.
  intros [j _ Hok Hc|j paused at_ _ Hj|j next at_ _ Hj|j _ Hj|j r _ Hj Er Hok Hg Ha _ Hc|j r _ Hj Hr|j r state code message at_ _ Hj Hr Hst|id _ Hset] Hi.
  - rewrite existsb_false, Forall_forall in Hc. destruct Hi as [H1 H2 H3 H4 H5 H6 H7].
    constructor; cbn [set_jobs jd_jobs jd_runs]; [| | |done..| |done].
    + apply unique_by_app; [done|]. intros x k Hx [= <-] [= E]. specialize (Hc x Hx). unfold clash, has_id in Hc.
      by rewrite E, String.eqb_refl in Hc.
    + apply unique_by_app; [done|]. intros x k Hx [= <-] [= E1 E2]. specialize (Hc x Hx). unfold clash, named, in_project in Hc.
      by rewrite E1, E2, !String.eqb_refl, orb_true_r in Hc.
    + apply Forall_app. split; [done|]. by constructor.
    + eapply Forall_impl; [exact H6|]. intros r (x & Hx & ?). exists x. set_solver.
  - apply jobs_inv; [done|done|]. by intros x [].
  - apply jobs_inv; [done|done|]. by intros x [].
  - destruct Hi as [H1 H2 H3 H4 H5 H6 H7]. constructor; cbn [jd_jobs jd_runs].
    + by apply unique_by_filter.
    + by apply unique_by_filter.
    + by apply Forall_filter_bool.
    + by apply unique_by_filter.
    + by apply Forall_filter_bool.
    + rewrite Forall_forall in *. intros r [Hr Hn]%elem_of_filter_bool. destruct (H6 r Hr) as (x & Hx & Ex & ?). exists x. split; [|done].
      apply elem_of_filter_bool. split; [done|]. unfold run_of in Hn. unfold has_id. by rewrite <- Ex.
    + intros id. unfold going. cbn [set_runs jd_runs]. etransitivity; [apply filter_filter_le|apply (H7 id)].
  - rewrite existsb_false, Forall_forall in Hc. destruct Hi as [H1 H2 H3 H4 H5 H6 H7]. constructor; cbn [set_runs jd_jobs jd_runs]; [done..| | | |].
    + apply unique_by_app; [done|]. intros x k Hx [= <-] [= E]. specialize (Hc x Hx). unfold run_id in Hc. by rewrite E, String.eqb_refl in Hc.
    + apply Forall_app. split; [done|]. by constructor.
    + apply Forall_app. split; [done|]. constructor; [|constructor]. exists j. split_and!; [done|done|lia].
    + intros id. unfold going in *. cbn [set_runs jd_runs]. rewrite List.filter_app, length_app. simpl. destruct (String.eqb_spec (r_JobID r) id) as [Ej|Ej].
      * rewrite <- Ej, Er, Hg. simpl. destruct (_ && _); simpl; lia.
      * unfold run_of at 2. rewrite (proj2 (String.eqb_neq _ _) Ej). simpl. specialize (H7 id). unfold going in H7. lia.
  - apply going_elem in Hr as (Hr & _ & Hact). apply runs_inv; [done|done|]. intros x Hx E.
    rewrite (unique_by_eq _ _ x r (r_ID r) (ji_run _ Hi)) by (done || congruence). split; [done|].
    pose proof (ji_run_ok _ Hi) as Ho. rewrite Forall_forall in Ho. destruct (Ho r Hr) as [? ? ?]. constructor; cbn; [set_solver|done|done].
  - apply going_elem in Hr as (Hr & _ & Hact). apply runs_inv; [done|done|]. intros x Hx E.
    rewrite (unique_by_eq _ _ x r (r_ID r) (ji_run _ Hi)) by (done || congruence). split; [done|].
    pose proof (ji_run_ok _ Hi) as Ho. rewrite Forall_forall in Ho. destruct (Ho r Hr) as [? ? ?]. constructor; cbn; [|done|done].
    destruct Hst as [-> | ->]; set_solver.
  - destruct Hi as [H1 H2 H3 H4 H5 H6 H7]. constructor; cbn [set_runs jd_jobs jd_runs]; [done..| | | |].
    + by apply unique_by_filter.
    + by apply Forall_filter_bool.
    + by apply Forall_filter_bool.
    + intros i. unfold going. cbn [set_runs jd_runs]. etransitivity; [apply filter_filter_le|apply (H7 i)].
Qed.
Lemma job_history_inv a db db' : history a db db' -> job_inv db -> job_inv db'.
Proof. intros H. induction H as [|x y z Hc _ IH]; [done|]. intros Hi. apply IH. by eapply job_change_inv. Qed.

(** ** The other tenants *)

Definition other_jobs (p : string) (db : JobDB) : list Job := others_rows j_ProjectID p (jd_jobs db).
Definition others (p : string) (db : JobDB) : JobDB :=
  MkJobDB (other_jobs p db) (List.filter (fun r => existsb (fun j => run_of (j_ID j) r) (other_jobs p db)) (jd_runs db)).

(** The runs of a project's job are none of the others'. *)
Lemma own_run db j r : job_inv db -> j ∈ jd_jobs db -> r_JobID r = j_ID j ->
  existsb (fun x => run_of (j_ID x) r) (other_jobs (j_ProjectID j) db) = false.
Proof.
  intros Hi Hj Er. apply existsb_false, Forall_forall. intros x [Hx Hn]%elem_of_filter_bool. apply String.eqb_neq. intros E.
  assert (x = j) as -> by (apply (unique_by_eq _ _ x j (j_ID j) (ji_id _ Hi)); congruence). by rewrite String.eqb_refl in Hn.
Qed.
Lemma others_eq p db db' : other_jobs p db' = other_jobs p db ->
  List.filter (fun r => existsb (fun j => run_of (j_ID j) r) (other_jobs p db)) (jd_runs db') =
  List.filter (fun r => existsb (fun j => run_of (j_ID j) r) (other_jobs p db)) (jd_runs db) -> others p db' = others p db.
Proof. intros E1 E2. unfold others. by rewrite E1, E2. Qed.
Lemma job_change_others p db db' : change (Tenant p) db db' -> job_inv db -> others p db' = others p db.
Proof.
  intros [j [= ->] _ Hc|j paused at_ [= ->] Hj|j next at_ [=]|j [= ->] Hj|j r Hm Hj Er _ _ _ _ _|j r [=]|j r state code message at_ [=]|id [=]] Hi;
    apply others_eq; try done; unfold other_jobs; cbn [set_jobs set_runs jd_jobs jd_runs].
  - apply others_insert.
  - by apply (others_update j_ID); [apply ji_id| |].
  - by apply (others_delete j_ID); [apply ji_id|].
  - apply filter_gone. intros r Hr E%negb_false_iff%String.eqb_eq. exact (own_run db j r Hi Hj E).
  - cbn in Hm. subst p. rewrite List.filter_app. simpl. pose proof (own_run db j r Hi Hj Er) as E. unfold other_jobs in E. rewrite E. by rewrite app_nil_r.
Qed.
Lemma job_history_others p db db' : history (Tenant p) db db' -> job_inv db -> others p db' = others p db.
Proof.
  intros H. induction H as [|x y z Hc _ IH]; [done|]. intros Hi. rewrite IH by (by eapply job_change_inv). by eapply job_change_others.
Qed.

(** * What the operations do *)

Definition runs_in (db : JobDB) (id : string) : list Run :=
  sliceStable (by_key (fun r => rfc3339nano (r_StartedAt r)) str_ltb (by_key r_ID str_ltb (fun _ _ => false))) (List.filter (run_of id) (jd_runs db)).
Definition loaded (db : JobDB) (row : Job) : Job := with_runs (runs_in db (j_ID row)) row.
Lemma runs_in_elem db id r : r ∈ runs_in db id <-> r ∈ jd_runs db /\ r_JobID r = id.
Proof. unfold runs_in. rewrite sliceStable_perm, elem_of_filter_bool. unfold run_of. by rewrite String.eqb_eq. Qed.

Section reading.
Context {S : Type} `{!Has JobDB S}.

Lemma job_yields_load db q : yields db (load (S:=S) q) (fun js => js = map (loaded db) (q (jd_jobs db))).
Proof.
  eapply yields_bind; [apply yields_query|]. intros rows [= <-]. eapply yields_mono; [apply yields_collect|].
  - intros j out _. eapply yields_bind; [apply yields_query|]. intros runs [= <-]. eapply yields_mono; [apply yields_ret|]. intros ? ->.
    eexists. split; [done|]. instantiate (1 := fun j y => y = loaded db j). done.
  - intros js Hjs. induction Hjs as [|x y xs ys -> _ IH]; [done|]. simpl. by rewrite IH.
Qed.
Definition found_in db (p : string) (j : Job) : Prop := exists row, row ∈ jd_jobs db /\ j_ProjectID row = p /\ j = loaded db row.
Lemma job_yields_first db q p : (forall row, row ∈ q (jd_jobs db) -> row ∈ jd_jobs db /\ j_ProjectID row = p) ->
  yields db (let! found := load (S:=S) q in lift (first_of found)) (found_in db p).
Proof.
  intros Hq. eapply yields_bind; [apply job_yields_load|]. intros ? ->. eapply yields_mono; [apply yields_lift|].
  intros j Hj. destruct (q (jd_jobs db)) as [|row rows] eqn:E; [done|]. injection Hj as <-. exists row.
  destruct (Hq row ltac:(set_solver)). done.
Qed.
Lemma job_yields_byID db p id : yields db (byID (S:=S) p id) (found_in db p).
Proof. apply job_yields_first. intros row [Hr [Hp%String.eqb_eq _]%andb_true_iff]%elem_of_filter_bool. done. Qed.
Lemma job_yields_byName db p n : yields db (byName (S:=S) p n) (found_in db p).
Proof. apply job_yields_first. intros row [Hr [Hp%String.eqb_eq _]%andb_true_iff]%elem_of_filter_bool. done. Qed.
Lemma job_yields_find db p n : yields db (find (S:=S) p n) (found_in db p).
Proof.
  eapply yields_bind; [apply yields_attempt, job_yields_byID|]. intros r Hr.
  eapply yields_bind with (P := fun r => match r with Ok j => found_in db p j | Err _ => True end).
  - destruct r as [j|e]; [by eapply yields_mono; [apply yields_ret|]; intros ? ->|]. destruct (errors_Is _ _); [apply yields_attempt, job_yields_byName|].
    by eapply yields_mono; [apply yields_ret|]; intros ? ->.
  - intros r' Hr'. eapply yields_mono; [apply yields_lift|]. intros j Hj. by destruct r'; [injection Hj as ->|].
Qed.
Lemma job_yields_ids (db : JobDB) prefix : yields db (ids_New (S:=S) prefix) (fun _ => True).
Proof. apply yields_leaves. unfold ids_New. auto with leaves. Qed.
Lemma yields_runName (db : JobDB) n k : yields db (runName (S:=S) n k) (fun _ => True).
Proof. apply yields_leaves. unfold runName, ids_New. auto with leaves. Qed.
End reading.

Section operations.
Context {S : Type} `{!Has JobDB S} (c : AEAD) (js : JSON) (keys : option Keyring).
Context (workloads : option (Workloads S)) (networks firewalls : option (Registry S)) (has_events : bool).
Context (Hcreate : forall ws w, workloads = Some ws -> leaves JobDB (Create ws w)).
Context (Hdelete : forall ws p i, workloads = Some ws -> leaves JobDB (Delete ws p i)).
Context (Hstate : forall ws i, workloads = Some ws -> leaves JobDB (StateOf ws i)).
Context (Hnetworks : forall r i p, networks = Some r -> leaves JobDB (ExistsIn r i p)).
Context (Hfirewalls : forall r i p, firewalls = Some r -> leaves JobDB (ExistsIn r i p)).

Lemma job_leaves_note j kind subject message sev : leaves JobDB (note (S:=S) has_events j kind subject message sev).
Proof. unfold note. auto with leaves. Qed.
Lemma leaves_checkReferences p t : leaves JobDB (checkReferences networks firewalls p t).
Proof.
  unfold checkReferences. cbn [foldM fst snd]. destruct networks as [r|] eqn:E1, firewalls as [f|] eqn:E2; auto 14 with leaves.
  all: repeat (apply leaves_bind; intros); auto with leaves; destruct (is_empty _); auto with leaves; apply leaves_bind; auto with leaves.
Qed.
Lemma job_leaves_sealing env files : leaves JobDB (sealEnv (S:=S) c js keys env) /\ leaves JobDB (sealFiles (S:=S) c js keys files).
Proof. unfold sealEnv, sealFiles, SealJSON, SealBytes, Seal. split; auto 20 with leaves. Qed.
Hint Resolve job_leaves_note leaves_checkReferences : leaves.

(** A run that starts: the only statement is the new row. *)
Lemma startRun_moves (R : JobDB -> JobDB -> Prop) `{!PreOrder R} db j k : 1 <= k ->
  (forall r, r_JobID r = j_ID j -> r_Attempt r = k -> run_ok r -> existsb (run_id (r_ID r)) (jd_runs db) = false -> R db (set_runs (jd_runs db ++ [r]) db)) ->
  moves R db (startRun c js keys workloads has_events j k).
Proof.
  intros Hk HR. unfold startRun. destruct workloads as [ws|] eqn:E; [|by apply moves_fail].
  assert (Hins : forall r kind subject message sev, r_JobID r = j_ID j -> r_Attempt r = k -> run_ok r ->
    moves R db (mapped translate (insertRun r) ;;; note has_events j kind subject message sev ;;; ret (S:=S) r)).
  { intros r kind subject message sev Ej Ea Hok. apply moves_then; [done| |intros db' x _; eapply moves_yields; [done|apply yields_leaves; auto with leaves]].
    apply moves_mapped, moves_sql; [done|]. unfold insert_row. destruct (existsb _ _) eqn:Ex; cbn [snd]; [destruct db; reflexivity|]. by apply HR. }
  eapply moves_bind; [done|apply yields_lift|]. intros env _.
  eapply moves_bind with (P := fun _ => True); [done|destruct (is_empty _); [by eapply yields_mono; [apply yields_ret|]|by eapply yields_mono; [apply yields_lift|]]|].
  intros files _. eapply moves_bind; [done|apply job_yields_ids|]. intros id _. eapply moves_bind; [done|apply yields_now|]. intros at_ _.
  eapply moves_bind; [done|apply yields_runName|]. intros name _.
  eapply moves_bind with (P := fun _ => True); [done|apply yields_leaves, leaves_attempt; by apply Hcreate|].
  intros [i|e] _; apply Hins; try done; constructor; cbn; (set_solver || done).
Qed.

Hint Resolve job_yields_find job_yields_ids : yields.

Section tenant.
Context (p : string).
Abbreviation R := (history (Tenant p)).

Lemma parseEvery_ok text every : parseEvery text = Ok every -> every = 0 \/ MinEvery <= every <= MaxEvery.
Proof.
  unfold parseEvery. destruct (is_empty text); [intros [= <-]; by left|]. intros He. unbind He. injection He as <-. right.
  match goal with E : guard _ _ = Ok _ |- _ => apply guard_false, orb_false_iff in E as [E1%Z.ltb_ge E2%Z.ltb_ge] end. lia.
Qed.
Lemma whole_seconds every : every = 0 \/ MinEvery <= every <= MaxEvery ->
  let e := Z.quot every second * second in (e = 0 \/ MinEvery <= e <= MaxEvery) /\ e = Z.quot e second * second.
Proof.
  intros H e. subst e. assert (Hs : 0 < second) by reflexivity. rewrite Z.quot_mul by lia. split; [|done].
  destruct H as [->|H]; [by left|right]. assert (0 <= every) by (unfold MinEvery, minute, second in H; lia). rewrite Z.quot_div_nonneg by lia.
  pose proof (Z.mul_div_le every second Hs). pose proof (Z.mul_succ_div_gt every second Hs).
  split; [|lia]. unfold MinEvery, minute in *. assert (60 <= every / second) by (apply Z.div_le_lower_bound; lia). nia.
Qed.
Lemma job_create_moves db params : cp_ProjectID params = p -> moves R db (create c js keys networks firewalls params).
Proof.
  intros Hp. unfold create. m_step. intros [] Hname. m_step. intros _ Hlen%guard_false%Z.ltb_ge. m_step. intros [] Ht. m_step. intros [] _. m_step. intros _ _.
  eapply moves_bind; [typeclasses eauto|apply yields_leaves; auto with leaves|]. intros _ _. m_step. intros every He%parseEvery_ok.
  m_step. intros _ [Hr1%Z.ltb_ge Hr2%Z.ltb_ge]%guard_false%orb_false_iff. m_step. intros _ [Hk1%Z.ltb_ge Hk2%Z.ltb_ge]%guard_false%orb_false_iff.
  eapply moves_bind; [typeclasses eauto|apply yields_leaves; apply (job_leaves_sealing ∅ [])|]. intros [blob key] _.
  eapply moves_bind; [typeclasses eauto|apply yields_leaves; apply job_leaves_sealing; exact ∅|]. intros fblob _. m_step. intros at_ _. m_step. intros id _.
  apply moves_last; [typeclasses eauto|]. apply moves_sql; [typeclasses eauto|]. unfold insert_row. destruct (existsb _ _) eqn:Ec; cbn [snd]; [by destruct db|].
  apply rtc_once. apply C_create; [by rewrite <- Hp| |exact Ec].
  destruct (whole_seconds every He) as [He1 He2]. constructor; cbn; done || lia.
Qed.
Lemma job_setPaused_moves db id paused : moves R db (setPaused (S:=S) p id paused).
Proof.
  unfold setPaused. m_step. intros j (row & Hr & Hp & ->). m_step. intros at_ _. apply moves_then; [typeclasses eauto| |intros; eapply moves_yields; [typeclasses eauto|apply job_yields_find]].
  apply moves_mapped, moves_sql; [typeclasses eauto|].
  pose proof (update_where_rows (has_id (j_ID row)) (paused_at paused at_) errNotFound (jd_jobs db)) as E. cbn [loaded with_runs j_ID].
  destruct (update_where _ _ _ _) as [r rows]. cbn [snd] in *. subst rows. apply rtc_once. by apply C_pause; [rewrite Hp|].
Qed.
Lemma job_remove_moves db id : moves R db (remove workloads p id).
Proof.
  unfold remove. m_step. intros j (row & Hr & Hp & ->).
  eapply moves_bind with (P := fun _ => True); [typeclasses eauto| |].
  - apply yields_leaves, leaves_foldM. intros run _. destruct workloads as [ws|] eqn:E; [|auto with leaves]. destruct (is_empty _); [auto with leaves|].
    apply leaves_mapped. by apply Hdelete.
  - intros _ _. apply moves_mapped, moves_sql; [typeclasses eauto|]. cbn [loaded with_runs j_ID].
    pose proof (delete_where_rows (has_id (j_ID row)) errNotFound (jd_jobs db)) as E.
    destruct (delete_where _ _ _) as [[[]|e] rows]; cbn [snd] in *; [|apply rtc_refl]. subst rows. apply rtc_once. by apply C_remove; [rewrite Hp|].
Qed.
Lemma active_none db id : active (runs_in db id) = None -> going db id = [].
Proof.
  intros Ha. unfold going. apply filter_none. intros r Hr. unfold run_of. destruct (String.eqb_spec (r_JobID r) id) as [E|]; [|done].
  destruct (is_active r) eqn:Ea; [|done]. pose proof (find_none _ _ Ha r) as Hn. rewrite Hn in Ea; [done|]. apply list_elem_of_In. by apply runs_in_elem.
Qed.
Lemma trigger_moves db id : job_inv db -> moves R db (trigger c js keys workloads has_events p id).
Proof.
  intros Hi. unfold trigger. m_step. intros j (row & Hr & Hp & ->). m_step. intros _ Ha%guard_false. cbn [loaded with_runs j_Runs] in Ha.
  destruct (active _) eqn:E; [done|]. apply active_none in E. apply startRun_moves; [typeclasses eauto|lia|]. intros r Ej Ea Hok Hc. apply rtc_once.
  apply (C_start _ _ row); cbn [loaded with_runs j_ID] in *; try done.
  pose proof (ji_row _ Hi) as Ho. rewrite Forall_forall in Ho. destruct (Ho row Hr). unfold MinRetries in *. lia.
Qed.
End tenant.

(** ** The ticker

    What a pass does about one job moves that job's rows only; what has ended stays until it is
    forgotten. *)

Definition same_job (j row : Job) : Prop := j_ID j = j_ID row /\ j_Retries j = j_Retries row /\ j_Keep j = j_Keep row.
Definition snapshot (db : JobDB) (j : Job) : Prop := (exists row, row ∈ jd_jobs db /\ same_job j row) /\ j_Runs j = runs_in db (j_ID j).
Record on_job (k : string) (db db' : JobDB) : Prop := {
  oj_history : history Ticker db db';
  oj_others : forall id, id <> k -> List.filter (run_of id) (jd_runs db') = List.filter (run_of id) (jd_runs db);
  oj_jobs : forall row, row ∈ jd_jobs db -> exists row', row' ∈ jd_jobs db' /\ same_job row row';
}.
Definition keeps_ended (db db' : JobDB) : Prop := forall r, r ∈ jd_runs db -> is_settled r = true -> r ∈ jd_runs db'.
Definition advanced (k : string) (db db' : JobDB) : Prop := on_job k db db' /\ keeps_ended db db'.
#[local] Instance on_job_preorder k : PreOrder (on_job k).
Proof.
  split.
  - intros db. split; [apply rtc_refl|done|]. intros row Hr. by exists row.
  - intros x y z [H1 H2 H3] [H1' H2' H3']. split; [by etransitivity|intros; by rewrite H2', H2|].
    intros row Hr. destruct (H3 row Hr) as (row1 & Hr1 & E1 & E2 & E3). destruct (H3' row1 Hr1) as (row2 & Hr2 & E4 & E5 & E6).
    exists row2. split; [done|]. split_and!; congruence.
Qed.
#[local] Instance advanced_preorder k : PreOrder (advanced k).
Proof.
  split; [split; [reflexivity|by intros r]|]. intros x y z [H1 H2] [H1' H2']. split; [by transitivity y|]. intros r Hr Hs. by apply H2', Hs; apply H2.
Qed.
Lemma snapshot_other db db' k j : on_job k db db' -> j_ID j <> k -> snapshot db j -> snapshot db' j.
Proof.
  intros [_ H2 H3] Hk [(row & Hr & E1 & E2 & E3) Hruns]. split.
  - destruct (H3 row Hr) as (row' & Hr' & ? & ? & ?). exists row'. split; [done|]. split_and!; congruence.
  - rewrite Hruns. unfold runs_in. by rewrite H2.
Qed.
Lemma loaded_snapshot db row : row ∈ jd_jobs db -> snapshot db (loaded db row).
Proof. intros Hr. split; [|done]. by exists row. Qed.

(** One run of the job, by its id. *)
Lemma on_run_on_job db k r f : job_inv db -> r ∈ going db k -> (forall x, r_JobID (f x) = r_JobID x) ->
  change Ticker db (set_runs (on_run (r_ID r) f (jd_runs db)) db) -> advanced k db (set_runs (on_run (r_ID r) f (jd_runs db)) db).
Proof.
  intros Hi Hr Hf Hc. apply going_elem in Hr as (Hr & Hk & Ha).
  assert (Hid : forall x, x ∈ jd_runs db -> run_id (r_ID r) x = true -> x = r).
  { intros x Hx E%String.eqb_eq. by apply (unique_by_eq _ _ x r (r_ID r) (ji_run _ Hi)); [| |congruence|]. }
  split; [split|].
  - by apply rtc_once.
  - intros id Hne. cbn [set_runs jd_runs]. apply filter_changed; intros x Hx; (destruct (run_id (r_ID r) x) eqn:E; [|done]).
    + unfold run_of. by rewrite Hf.
    + intros Eid%String.eqb_eq. apply Hid in E; [|done]. congruence.
  - intros row Hrow. by exists row.
  - intros x Hx Hs. cbn [set_runs jd_runs]. assert (Hself : (if run_id (r_ID r) x then f x else x) = x).
    { destruct (run_id (r_ID r) x) eqn:E; [|done]. apply Hid in E; [|done]. subst x. unfold is_active, is_settled in *.
      apply orb_true_iff in Ha as [E1%String.eqb_eq|E1%String.eqb_eq]; by rewrite E1 in Hs. }
    rewrite <- Hself. by apply (list_elem_of_fmap_2 (fun x => if run_id (r_ID r) x then f x else x)).
Qed.
Lemma start_on_job db j r : job_inv db -> (exists row, row ∈ jd_jobs db /\ same_job j row) -> r_JobID r = j_ID j -> run_ok r -> going db (j_ID j) = [] ->
  r_Attempt r <= j_Retries j + 1 -> existsb (run_id (r_ID r)) (jd_runs db) = false ->
  advanced (j_ID j) db (set_runs (jd_runs db ++ [r]) db).
Proof.
  intros Hi (row & Hrow & E1 & E2 & E3) Ej Hok Hg Ha Hc. split; [split|].
  - apply rtc_once. apply (C_start _ _ row); try done; [congruence|by rewrite <- E1|]. destruct Hok. lia.
  - intros id Hne. cbn [set_runs jd_runs]. rewrite List.filter_app. simpl. unfold run_of at 2.
    rewrite (proj2 (String.eqb_neq _ _)) by congruence. by rewrite app_nil_r.
  - intros x Hx. by exists x.
  - intros x Hx _. cbn [set_runs jd_runs]. set_solver.
Qed.
Lemma going_ended db k r state code message at_ : job_inv db -> r ∈ going db k -> state = RunSucceeded \/ state = RunFailed ->
  going (set_runs (on_run (r_ID r) (ended state code message at_) (jd_runs db)) db) k = [].
Proof.
  intros Hi Hr Hst. unfold going. cbn [set_runs jd_runs]. apply filter_none. intros x (y & Hy & ->)%on_run_elem.
  destruct (run_id (r_ID r) y) eqn:E.
  - unfold is_active. cbn. destruct Hst as [-> | ->]; by rewrite andb_false_r.
  - destruct (run_of k y && is_active y) eqn:Ea; [|done]. exfalso. apply andb_true_iff in Ea as [Ek%String.eqb_eq Ea].
    assert (Hg : y ∈ going db k) by by apply going_elem. rewrite (going_one db k r Hi Hr) in Hg. apply list_elem_of_singleton in Hg as ->.
    unfold run_id in E. by rewrite String.eqb_refl in E.
Qed.

Section pass.
Context (ws : Workloads S) (Hd : forall p i, leaves JobDB (Delete ws p i)) (Hs : forall i, leaves JobDB (StateOf ws i)).
Hint Resolve Hd Hs : leaves.

Lemma finish_wp db j r state code message env (w : World S) : part w = db ->
  wp env (finish has_events ws j r state code message) (fun o w' =>
    (part w' = db /\ exists e, o = Err e) \/
    exists at_, part w' = set_runs (on_run (r_ID r) (ended state code message at_) (jd_runs db)) db) w.
Proof.
  intros Hw. unfold finish. apply wp_bind. apply wp_leaves; [destruct (is_empty _); auto with leaves|]. intros [[]|e] w1 Hw1; [|left; split; [congruence|eauto]].
  apply wp_bind. rewrite wp_now. cbn beta iota. apply wp_bind. unfold endRun, runs_sql. apply wp_write.
  - intros w2 Hw2. left. split; [change (part (T:=JobDB) (tick w1)) with (part (T:=JobDB) w1) in Hw2; congruence|eauto].
  - intros w2 Hw2. cbn [fst snd] in *. change (part (T:=JobDB) (tick w1)) with (part (T:=JobDB) w1) in Hw2. rewrite Hw1, Hw in Hw2.
    apply wp_leaves; [apply job_leaves_note|]. intros o w3 Hw3. right. eexists. rewrite Hw3. exact Hw2.
Qed.
Lemma finish_moves db j r state code message : job_inv db -> snapshot db j -> r ∈ going db (j_ID j) -> state = RunSucceeded \/ state = RunFailed ->
  moves (advanced (j_ID j)) db (finish has_events ws j r state code message).
Proof.
  intros Hi [(row & Hrow & E1 & _) _] Hr Hst env w Hw. eapply wp_mono; [|by apply (finish_wp db)]. intros o w' [[-> _]|[at_ ->]]; [reflexivity|].
  apply on_run_on_job; try done. apply (C_end _ _ row); try done. by rewrite <- E1.
Qed.
Lemma active_going db j r : snapshot db j -> active (j_Runs j) = Some r -> r ∈ going db (j_ID j).
Proof.
  intros [_ Hruns] Ha. rewrite Hruns in Ha. apply find_some_elem in Ha as [Hr Ha]. apply runs_in_elem in Hr as [Hr Ej]. by apply going_elem.
Qed.
Lemma advance_moves db j : workloads = Some ws -> job_inv db -> snapshot db j -> moves (advanced (j_ID j)) db (advance c js keys workloads has_events ws j).
Proof.
  intros Ews Hi Hsn. unfold advance. destruct (active (j_Runs j)) as [r|] eqn:Ea; [|m_step]. pose proof (active_going db j r Hsn Ea) as Hr.
  destruct (is_empty (r_InstanceID r)); [m_step|].
  eapply moves_bind with (P := fun _ => True); [typeclasses eauto|apply yields_leaves, leaves_attempt, Hs|]. intros [[[state code] message]|e] _.
  2:{ apply moves_then; [typeclasses eauto|apply finish_moves; auto|]. intros. m_step. }
  destruct (String.eqb state "pending"); [m_step|]. destruct (String.eqb state "running").
  { destruct (String.eqb _ _); [m_step|]. apply moves_then; [typeclasses eauto| |intros; m_step]. apply moves_sql; [typeclasses eauto|]. cbn [snd].
    apply on_run_on_job; try done. destruct Hsn as [(row & Hrow & E1 & _) _]. apply (C_running _ _ row); try done. by rewrite <- E1. }
  destruct (succeeded state code); [apply moves_then; [typeclasses eauto|apply finish_moves; auto|intros; m_step]|].
  destruct (r_Attempt r <=? j_Retries j) eqn:El; [|apply moves_then; [typeclasses eauto|apply finish_moves; auto|intros; m_step]].
  apply Z.leb_le in El. intros env w Hw. apply wp_bind.
  assert (Hok : run_ok r) by (apply going_elem in Hr as [Hr _]; pose proof (ji_run_ok _ Hi) as Ho; rewrite Forall_forall in Ho; auto).
  eapply wp_mono; [|apply wp_and; [apply (finish_wp db); exact Hw|apply (finish_moves db j r RunFailed code message Hi Hsn Hr ltac:(by right) env w Hw)]].
  intros [[]|e] w1 [Hw1 Hadv]; [|exact Hadv]. destruct Hw1 as [[_ [e [=]]]|[at_ Hw1]].
  eapply wp_mono with (P := fun _ w2 => advanced (j_ID j) (part w1) (part w2)); [intros o w2 H2; by transitivity (part w1)|].
  pose proof (job_history_inv _ _ _ (oj_history _ _ _ (proj1 Hadv)) Hi) as Hi1.
  cut (moves (advanced (j_ID j)) (part w1) (startRun c js keys workloads has_events j (r_Attempt r + 1) ;;; ret 1)); [intros Hm; by apply Hm|].
  apply moves_then; [typeclasses eauto| |intros; m_step]. apply startRun_moves; [typeclasses eauto|destruct Hok; lia|].
  intros x Ej Ex Hokx Hc. apply start_on_job; try done; [|rewrite Hw1; by apply going_ended; [| |right]|lia].
  destruct Hsn as [(row & Hrow & E1 & E2 & E3) _]. destruct (oj_jobs _ _ _ (proj1 Hadv) row Hrow) as (row' & Hrow' & ? & ? & ?).
  exists row'. split; [done|]. split_and!; congruence.
Qed.
End pass.

(** What may be forgotten: runs of the job that ended. *)
Definition forgettable (db : JobDB) (k id : string) : Prop := forall r, r ∈ jd_runs db -> r_ID r = id -> is_settled r = true /\ r_JobID r = k.
Lemma forget_on_job db k id : forgettable db k id -> on_job k db (set_runs (List.filter (fun x => negb (run_id id x)) (jd_runs db)) db).
Proof.
  intros Hf. split.
  - apply rtc_once, C_forget; [done|]. intros r Hr E. by destruct (Hf r Hr E).
  - intros i Hne. cbn [set_runs jd_runs]. apply filter_gone. intros x Hx E%negb_false_iff%String.eqb_eq. destruct (Hf x Hx E) as [_ Ek].
    apply String.eqb_neq. congruence.
  - intros row Hr. by exists row.
Qed.
Lemma job_retain_moves db k j : (forall r, r ∈ j_Runs j -> is_settled r = true -> forgettable db k (r_ID r)) -> moves (on_job k) db (retain (S:=S) j).
Proof.
  intros Hf. unfold retain. cbv zeta. destruct (_ <=? _); [m_step|]. set (n := Z.to_nat _). set (ended_ := List.filter is_settled (j_Runs j)).
  assert (Hall : forall r, r ∈ take n ended_ -> forgettable db k (r_ID r)).
  { intros r Hr. apply elem_of_take in Hr as (m & Hm & _). apply list_elem_of_lookup_2 in Hm. apply elem_of_filter_bool in Hm as [Hm Hs]. auto. }
  clearbody n ended_. clear Hf. revert db Hall. induction (take n ended_) as [|r l IH]; intros db Hall; cbn [foldM]; [m_step|].
  intros env w Hw. apply wp_bind. unfold deleteRun, runs_sql. apply wp_write; [by intros w' ->; rewrite Hw|]. intros w' Hw'. cbn [fst snd] in *. rewrite Hw in Hw'.
  assert (Hstep : on_job k db (part w')) by (rewrite Hw'; apply forget_on_job, Hall; set_solver).
  eapply wp_mono with (P := fun _ w2 => on_job k (part w') (part w2)); [intros o w2 H2; by transitivity (part w')|].
  apply IH; [|done]. intros x Hx y Hy Ey. rewrite Hw' in Hy. cbn [set_runs jd_runs] in Hy. apply elem_of_filter_bool in Hy as [Hy _].
  apply (Hall x ltac:(set_solver) y Hy Ey).
Qed.
Lemma job_fire_moves db j fired : job_inv db -> snapshot db j -> moves (on_job (j_ID j)) db (fire c js keys workloads has_events j fired).
Proof.
  intros Hi Hsn. pose proof Hsn as [(row & Hrow & E1 & E2 & E3) Hruns]. unfold fire. m_step. intros t _. m_step. intros t2 _.
  set (db' := set_jobs (map (fun x => if has_id (j_ID j) x then next_at (time_add t (j_Every j)) t2 x else x) (jd_jobs db)) db).
  assert (Hsame : forall x, same_job x (if has_id (j_ID j) x then next_at (time_add t (j_Every j)) t2 x else x)) by (intros x; by destruct (has_id _ x)).
  assert (Hstep : on_job (j_ID j) db db').
  { split; [|done|].
    - unfold db'. rewrite E1. by apply rtc_once, C_schedule.
    - intros x Hx. eexists. split; [by apply (list_elem_of_fmap_2 (fun x => if has_id (j_ID j) x then _ else x))|apply Hsame]. }
  pose proof (job_history_inv _ _ _ (oj_history _ _ _ Hstep) Hi) as Hi'.
  intros env w Hw. apply wp_bind, wp_attempt. unfold setNextAt, jobs_sql. apply wp_write; [intros w' Hw'; rewrite wp_ret, Hw', Hw; reflexivity|].
  intros w' Hw'. cbn [fst snd] in *. rewrite Hw in Hw'. fold db' in Hw'.
  eapply wp_mono with (P := fun _ w2 => on_job (j_ID j) db' (part w2)); [intros o w2 H2; by transitivity db'|].
  destruct (active (j_Runs j)) eqn:Ea.
  - apply wp_bind, wp_leaves; [apply job_leaves_note|]. intros [[]|e] w2 Hw2; rewrite ?wp_ret, Hw2, Hw'; reflexivity.
  - rewrite Hruns in Ea. apply active_none in Ea. apply wp_bind, wp_attempt.
    assert (Hm : moves (on_job (j_ID j)) db' (startRun c js keys workloads has_events j 1)).
    { apply startRun_moves; [typeclasses eauto|lia|]. intros x Ej Ex Hokx Hc. apply start_on_job; try done.
      - destruct (oj_jobs _ _ _ Hstep row Hrow) as (row' & Hrow' & ? & ? & ?). exists row'. split; [done|]. split_and!; congruence.
      - pose proof (ji_row _ Hi) as Ho. rewrite Forall_forall in Ho. destruct (Ho row Hrow). unfold MinRetries in *. lia. }
    eapply wp_mono; [|exact (Hm env w' Hw')]. intros [r|e] w2 H2; rewrite wp_ret; exact H2.
Qed.

(** A loop over different jobs, each of which only moves its own rows. *)
Lemma jobs_loop {A} (body : Job -> A -> M S A) jobs : (forall j a db, job_inv db -> snapshot db j -> moves (on_job (j_ID j)) db (body j a)) ->
  forall db a, job_inv db -> NoDup (map j_ID jobs) -> Forall (snapshot db) jobs -> moves (history Ticker) db (foldM body jobs a).
Proof.
  intros Hb. induction jobs as [|j jobs IH]; intros db a Hi Hnd Hsn; cbn [foldM]; [apply moves_ret; typeclasses eauto|].
  simpl in Hnd. apply NoDup_cons in Hnd as [Hn Hnd]. apply Forall_cons in Hsn as [Hj Hsn].
  intros env w Hw. apply wp_bind. eapply wp_mono; [|by apply (Hb j a db)]. intros [b|e] w1 Hon; [|apply Hon].
  eapply wp_mono with (P := fun _ w2 => history Ticker (part w1) (part w2)); [intros o w2 H2; transitivity (part w1); [apply Hon|done]|].
  apply IH; [by eapply job_history_inv; [apply Hon|]|done| |done]. rewrite Forall_forall in *. intros x Hx.
  eapply snapshot_other; [exact Hon| |auto]. intros E. apply Hn. rewrite <- E. by apply list_elem_of_fmap_2.
Qed.
Lemma loaded_jobs db rows : job_inv db -> (forall row, row ∈ rows -> row ∈ jd_jobs db) -> NoDup (map j_ID rows) ->
  NoDup (map j_ID (map (loaded db) rows)) /\ Forall (snapshot db) (map (loaded db) rows).
Proof.
  intros Hi Hin Hnd. split; [by rewrite map_map|]. apply Forall_map, Forall_forall. intros row Hr. by apply loaded_snapshot, Hin.
Qed.
Lemma job_ids db : job_inv db -> NoDup (map j_ID (jd_jobs db)).
Proof. intros Hi. pose proof (ji_id _ Hi) as Hu. unfold unique_by in Hu. by rewrite omap_total in Hu. Qed.
Lemma fireDue_moves db : job_inv db -> moves (history Ticker) db (fireDue c js keys workloads has_events).
Proof.
  intros Hi. unfold fireDue. m_step. intros t _. eapply moves_bind; [typeclasses eauto|apply yields_mapped, job_yields_load|]. intros jobs ->.
  set (rows := take _ _). assert (Hsub : rows `sublist_of` sliceStable (by_key (fun j => stamp (j_NextAt j)) str_ltb (fun _ _ => false)) (List.filter (is_due t) (jd_jobs db)))
    by apply sublist_take.
  assert (Hin : forall row, row ∈ rows -> row ∈ jd_jobs db).
  { intros row Hr. assert (Hr' : row ∈ sliceStable (by_key (fun j => stamp (j_NextAt j)) str_ltb (fun _ _ => false)) (List.filter (is_due t) (jd_jobs db)))
      by (eapply elem_of_submseteq; [exact Hr|by apply sublist_submseteq]). rewrite sliceStable_perm in Hr'. by apply elem_of_filter_bool in Hr' as []. }
  assert (Hnd : NoDup (map j_ID rows)).
  { unfold rows. rewrite <- firstn_map. eapply sublist_NoDup; [|apply sublist_take]. rewrite sliceStable_perm. apply NoDup_map_filter. by apply job_ids. }
  destruct (loaded_jobs db rows Hi Hin Hnd). apply jobs_loop; [|done..]. intros. by apply job_fire_moves.
Qed.
Lemma job_sweep_moves db : job_inv db -> moves (history Ticker) db (sweep c js keys workloads has_events).
Proof.
  intros Hi. unfold sweep. assert (Hws : workloads = None \/ exists ws, workloads = Some ws) by (clear; destruct workloads; eauto).
  destruct Hws as [E|[ws E]]; rewrite E; [m_step|].
  eapply moves_bind; [typeclasses eauto|apply yields_mapped, job_yields_load|]. intros jobs ->. rewrite <- E.
  set (rows := sliceStable _ (jd_jobs db)).
  assert (Hin : forall row, row ∈ rows -> row ∈ jd_jobs db) by (intros row Hr; unfold rows in Hr; by rewrite sliceStable_perm in Hr).
  assert (Hnd : NoDup (map j_ID rows)) by (unfold rows; rewrite sliceStable_perm; by apply job_ids). destruct (loaded_jobs db rows Hi Hin Hnd) as [H1 H2].
  apply moves_then; [typeclasses eauto| |].
  - apply jobs_loop; [|done..]. intros j a db1 Hi1 Hsn env w Hw. apply wp_bind, wp_attempt.
    eapply wp_mono; [|apply (advance_moves ws (fun p i => Hdelete ws p i E) (fun i => Hstate ws i E) db1 j E Hi1 Hsn env w Hw)].
    intros [n|e] w1 [Hon Hkept]; [|rewrite wp_ret; exact Hon]. apply wp_bind, wp_attempt.
    eapply wp_mono; [|apply (job_retain_moves (part w1) (j_ID j) j); [|done]]; [intros [[]|e] w2 Hm2; rewrite wp_ret; by transitivity (part w1)|].
    destruct Hsn as [_ Hruns]. rewrite Hruns. intros r [Hr Ej]%runs_in_elem Hset x Hx Ex.
    pose proof (job_history_inv _ _ _ (oj_history _ _ _ Hon) Hi1) as Hi2.
    rewrite (unique_by_eq _ _ x r (r_ID r) (ji_run _ Hi2) Hx) by (auto; congruence). done.
  - intros db' n Hh. apply moves_then; [typeclasses eauto|apply fireDue_moves; by eapply job_history_inv|]. intros. m_step.
Qed.

Definition actor_of (r : request) : actor :=
  match r with
  | ReqCreate sc _ | ReqList sc | ReqGet sc _ | ReqRuns sc _ | ReqTrigger sc _ | ReqPause sc _ | ReqResume sc _ | ReqDelete sc _ => Tenant (sc_ProjectID sc)
  | ReqSweep => Ticker
  end.
Lemma job_serve_moves db r : job_inv db -> moves (history (actor_of r)) db (serve c js keys workloads networks firewalls has_events r).
Proof.
  intros Hi. destruct r; cbn [actor_of serve]; unfold handle_create, handle_list, handle_get, handle_runs, handle_trigger, handle_setPaused, handle_delete, Write, WriteHeader;
    try (eapply moves_bind; [typeclasses eauto|apply yields_lift|]; intros body ->).
  all: apply moves_then; [typeclasses eauto| |intros; apply moves_ret; typeclasses eauto].
  - by apply job_create_moves.
  - eapply moves_yields; [typeclasses eauto|apply yields_mapped, job_yields_load].
  - eapply moves_yields; [typeclasses eauto|apply job_yields_find].
  - eapply moves_yields; [typeclasses eauto|apply job_yields_find].
  - by apply trigger_moves.
  - apply job_setPaused_moves.
  - apply job_setPaused_moves.
  - apply job_remove_moves.
  - by apply job_sweep_moves.
Qed.
End operations.

(** * Properties *)

Section properties.
Context {S : Type} `{!Has JobDB S} (c : AEAD) (js : JSON) (keys : option Keyring).
Context (workloads : option (Workloads S)) (networks firewalls : option (Registry S)) (has_events : bool).
Context (Hcreate : forall ws w, workloads = Some ws -> leaves JobDB (Create ws w)).
Context (Hdelete : forall ws p i, workloads = Some ws -> leaves JobDB (Delete ws p i)).
Context (Hstate : forall ws i, workloads = Some ws -> leaves JobDB (StateOf ws i)).
Context (Hnetworks : forall r i p, networks = Some r -> leaves JobDB (ExistsIn r i p)).
Context (Hfirewalls : forall r i p, firewalls = Some r -> leaves JobDB (ExistsIn r i p)).
Abbreviation run := (serve c js keys workloads networks firewalls has_events).
Let Hserve := job_serve_moves c js keys workloads networks firewalls has_events Hcreate Hdelete Hstate Hnetworks Hfirewalls.

(** [jobs_lawful]: every request and every pass moves the tables only by the changes its actor may make: a run
    starts only while no other of its job is going, as the first attempt or, in a pass, as one of at
    most [retries] more; it ends once, and only what has ended is forgotten.  The tables stay well
    formed; however the database and the other modules fail. *)
Theorem jobs_lawful env r (w : World S) (Hinv : job_inv (part w)) :
  wp env (run r) (fun _ w' => history (actor_of r) (part w) (part w') /\ job_inv (part w')) w.
Proof.
  eapply wp_mono; [|exact (Hserve (part w) r Hinv env w eq_refl)]. intros a w' Hh. split; [exact Hh|]. exact (job_history_inv _ _ _ Hh Hinv).
Qed.

(** [job_tenants_apart]: a request of one project leaves the jobs of all others and their runs as they were. *)
Theorem job_tenants_apart env r p (w : World S) (Hinv : job_inv (part w)) (Hr : actor_of r = Tenant p) :
  wp env (run r) (fun _ w' => others p (part w') = others p (part w)) w.
Proof.
  eapply wp_mono; [|exact (Hserve (part w) r Hinv env w eq_refl)]. intros a w' Hh. rewrite Hr in Hh. exact (job_history_others _ _ _ Hh Hinv).
Qed.

Lemma deletes_wp env l : forall w : World S, wp env (foldM (fun run _ => deleteRun (r_ID run)) l tt) (fun o w' => o = Ok tt ->
  jd_runs (part w') = List.filter (fun x => negb (existsb (fun r => run_id (r_ID r) x) l)) (jd_runs (part w))) w.
Proof.
  induction l as [|r l IH]; intros w; cbn [foldM existsb]; [rewrite wp_ret; intros _; symmetry; apply filter_true|].
  apply wp_bind. unfold deleteRun at 1, runs_sql. apply wp_write; [done|]. intros w1 Hw1. cbn [fst snd] in *. eapply wp_mono; [|apply IH].
  intros o w2 H2 Ho. rewrite (H2 Ho), Hw1. cbn [jd_runs]. rewrite <- filter_andb. apply filter_ext_elem. intros x _. by rewrite negb_orb, andb_comm.
Qed.

(** [runs_retained]: when what is over its number has been forgotten, exactly the [keep] ended runs that started
    last are left of a job, and every run that is still going. *)
Theorem runs_retained env row (w : World S) (Hinv : job_inv (part w)) (Hrow : row ∈ jd_jobs (part w)) :
  let ended_ := List.filter is_settled (runs_in (part w) (j_ID row)) in
  wp env (retain (loaded (part w) row)) (fun o w' => o = Ok tt ->
    List.filter is_settled (runs_in (part w') (j_ID row)) ≡ₚ drop (Z.to_nat (len ended_ - j_Keep row)) ended_ /\
    going (part w') (j_ID row) = going (part w) (j_ID row)) w.
Proof.
  intros ended_. unfold retain. cbn [loaded with_runs j_Runs j_Keep]. fold ended_. destruct (len ended_ <=? j_Keep row) eqn:El.
  { apply Z.leb_le in El. rewrite wp_ret. intros _. rewrite Z2Nat.nonpos by lia. done. }
  set (n := Z.to_nat _). eapply wp_mono; [|apply deletes_wp]. intros o w' Hw' Ho. specialize (Hw' Ho). set (gone := take n ended_) in *.
  assert (Hall : forall r, r ∈ ended_ -> r ∈ jd_runs (part w) /\ r_JobID r = j_ID row /\ is_settled r = true).
  { intros r [[Hr Ej]%runs_in_elem Hs]%elem_of_filter_bool. done. }
  assert (Hnd : NoDup (map r_ID ended_)).
  { unfold ended_, runs_in. apply NoDup_map_filter. rewrite sliceStable_perm. apply NoDup_map_filter.
    pose proof (ji_run _ Hinv) as Hu. unfold unique_by in Hu. by rewrite omap_total in Hu. }
  assert (Hgone : forall x, existsb (fun r => run_id (r_ID r) x) gone = true <-> r_ID x ∈ map r_ID gone).
  { intros x. rewrite existsb_exists. split.
    - intros (r & Hr%list_elem_of_In & E%String.eqb_eq). rewrite E. by apply list_elem_of_fmap_2.
    - intros (r & E & Hr)%list_elem_of_fmap. exists r. split; [by apply list_elem_of_In|]. unfold run_id. by rewrite E, String.eqb_refl. }
  split.
  - unfold runs_in. rewrite (filter_perm _ _ _ (sliceStable_perm _ _)), Hw'.
    assert (E : ended_ ≡ₚ List.filter is_settled (List.filter (run_of (j_ID row)) (jd_runs (part w)))).
    { unfold ended_, runs_in. by rewrite (filter_perm _ _ _ (sliceStable_perm _ _)). }
    transitivity (List.filter (fun x => negb (existsb (fun r => run_id (r_ID r) x) gone)) ended_).
    { rewrite (filter_perm _ _ _ E). by rewrite (filter_comm (run_of _)), (filter_comm is_settled). }
    rewrite <- (take_drop n ended_) at 1. rewrite List.filter_app. fold gone. rewrite (filter_none _ gone), app_nil_l.
    + rewrite filter_all; [done|]. intros x Hx. apply negb_true_iff. destruct (existsb _ gone) eqn:Ex; [|done]. apply Hgone in Ex.
      rewrite <- (take_drop n ended_), map_app in Hnd. apply NoDup_app in Hnd as (_ & Hdis & _). exfalso. apply (Hdis _ Ex). by apply list_elem_of_fmap_2.
    + intros x Hx. apply negb_false_iff, Hgone. by apply list_elem_of_fmap_2.
  - unfold going. rewrite Hw', <- filter_andb. apply filter_ext_elem. intros x Hx. destruct (existsb _ _) eqn:Ex; [|done].
    apply existsb_exists in Ex as (r & Hr%list_elem_of_In & E%String.eqb_eq).
    assert (Hre : r ∈ ended_) by (eapply elem_of_submseteq; [exact Hr|apply sublist_submseteq, sublist_take]). destruct (Hall r Hre) as (Hin & _ & Hs).
    assert (x = r) as -> by (apply (unique_by_eq _ _ x r (r_ID r) (ji_run _ Hinv)); congruence).
    unfold is_settled, is_active in *. apply orb_true_iff in Hs as [E1%String.eqb_eq|E1%String.eqb_eq]; rewrite E1; by rewrite !andb_false_r.
Qed.
End properties.

(** * A small cloud *)

Module Demo.
(** The instances there are, with what each was seen to be. *)
Record Insts := MkInsts { insts : gmap string (string * option Z) }.
Abbreviation St := (JobDB * Insts)%type.
#[export] Instance has_db : Has JobDB St := Has_fst _ _.
#[export] Instance has_insts : Has Insts St := Has_snd _ _.
#[export] Instance insts_apart : Apart Insts JobDB St := Apart_pair' _ _.

Definition ws : Workloads St := {|
  Create w := locked (fun s => ("ins-9", MkInsts (<["ins-9" := ("pending", None)]> (insts s))));
  Delete p i := locked (fun s => (tt, MkInsts (delete i (insts s))));
  StateOf i :=
    let! known := query "read an instance" (fun s : Insts => Ok (insts s !! i)) in
    match known with Some (state, code) => ret (state, code, "") | None => fail (EText "no such instance") end;
|}.
Lemma create_leaves w x : Some ws = Some w -> leaves JobDB (Create w x).
Proof. intros [= <-]. apply leaves_locked. Qed.
Lemma delete_leaves w p i : Some ws = Some w -> leaves JobDB (Delete w p i).
Proof. intros [= <-]. apply leaves_locked. Qed.
Lemma state_leaves w i : Some ws = Some w -> leaves JobDB (StateOf w i).
Proof. intros [= <-]. cbn [ws StateOf]. auto with leaves. Qed.
Definition js : JSON := {|
  MarshalEnv _ := Ok []; UnmarshalEnv _ _ := Ok ∅; MarshalFiles _ := Ok []; UnmarshalFiles _ _ := Ok [] |}.

Definition template : Template := MkTemplate "" "alpine" "" ["true"] "" "" 0 0 ∅ [] [].
Definition job : Job := MkJob "job-1" "prj-1" "nightly" template "" "" "" (60 * second) 3 1 false (2000000000 * second) zero_time [] 0 0.
Definition done_run (n : Z) : Run := MkRun ("run-" +:+ itoa n) "job-1" "" 1 RunSucceeded "" (Some 0) (n * second) (n * second).
Definition going_run : Run := MkRun "run-7" "job-1" "ins-1" 1 RunRunning "" None (7 * second) zero_time.
Definition db : JobDB := MkJobDB [job] [done_run 1; done_run 2; going_run].
Definition w0 : World St := MkWorld (db, MkInsts {["ins-1" := ("running", None)]}) O [].
Definition env : Env := {| env_now _ := 1709210050 * second; env_rand n := [Z.of_nat n; 7]; env_io _ := false |}.
(** The database fails at the [n]-th effect. *)
Definition failing (n : nat) : Env := {| env_now _ := 1709210050 * second; env_rand n := [Z.of_nat n; 7]; env_io k := Nat.eqb k n |}.
Definition tenant (p : string) : Scope := MkScope p "tok-1" "ci" "" "member".
Definition run_in (e : Env) (r : request) (w : World St) : outcome (Reply body) * World St := serve demo js None (Some ws) None None true r e w.
Definition run : request -> World St -> outcome (Reply body) * World St := run_in env.
End Demo.
Import (hints) Demo.

Lemma demo_jobs_inv : job_inv Demo.db.
Proof.
  constructor; try (apply (bool_decide_unpack _); vm_compute; exact I).
  - repeat constructor; try (apply (bool_decide_unpack _); vm_compute; exact I); try done; right; vm_compute; done.
  - repeat constructor; try (apply (bool_decide_unpack _); vm_compute; exact I); try done.
  - apply Forall_forall. intros r Hr. exists Demo.job. split; [apply list_elem_of_here|]. revert r Hr. apply Forall_forall.
    repeat constructor; vm_compute; done.
  - intros id. unfold going. simpl. destruct (run_of id _ && is_active Demo.going_run), (run_of id (Demo.done_run 1)), (run_of id (Demo.done_run 2)); vm_compute; done.
Qed.

Lemma jobs_lawful_witness :
  let w' := snd (Demo.run ReqSweep Demo.w0) in history Ticker Demo.db (part w') /\ job_inv (part w').
Proof.
  intros w'. pose proof (jobs_lawful demo Demo.js None (Some Demo.ws) None None true Demo.create_leaves Demo.delete_leaves Demo.state_leaves
    ltac:(done) ltac:(done) Demo.env ReqSweep Demo.w0 demo_jobs_inv) as Hl.
  unfold wp in Hl. subst w'. unfold Demo.run, Demo.run_in. destruct (serve _ _ _ _ _ _ _ _ _ _) as [r w']. exact Hl.
Defined.
Lemma job_tenants_apart_witness : others "prj-2" (part (snd (Demo.run (ReqDelete (Demo.tenant "prj-2") "nightly") Demo.w0))) = others "prj-2" Demo.db.
Proof.
  pose proof (job_tenants_apart demo Demo.js None (Some Demo.ws) None None true Demo.create_leaves Demo.delete_leaves Demo.state_leaves
    ltac:(done) ltac:(done) Demo.env (ReqDelete (Demo.tenant "prj-2") "nightly") "prj-2" Demo.w0 demo_jobs_inv eq_refl) as Hl.
  unfold wp in Hl. unfold Demo.run, Demo.run_in. destruct (serve _ _ _ _ _ _ _ _ _ _) as [r w']. exact Hl.
Defined.
Lemma runs_retained_witness :
  let '(o, w') := retain (loaded Demo.db Demo.job) Demo.env Demo.w0 in
  o = Ok tt /\ List.filter is_settled (runs_in (part w') "job-1") ≡ₚ [Demo.done_run 2].
Proof.
  pose proof (runs_retained Demo.env Demo.job Demo.w0 demo_jobs_inv ltac:(apply list_elem_of_here)) as Hl.
  assert (Ho : fst (retain (loaded Demo.db Demo.job) Demo.env Demo.w0) = Ok tt) by (vm_compute; reflexivity).
  unfold wp in Hl. change (part Demo.w0) with Demo.db in Hl. destruct (retain _ _ _) as [o w']. simpl in Ho. split; [exact Ho|]. exact (proj1 (Hl Ho)).
Defined.

(** [unreadable_run_fails]: a pass that cannot read the instance of a run takes it for gone: the run has failed,
    its instance is deleted while it works, and the three retries of the job are not used. *)
Theorem unreadable_run_fails :
  let w' := snd (Demo.run_in (Demo.failing 2) ReqSweep Demo.w0) in
  map r_State (List.filter (run_id "run-7") (jd_runs (part w'))) = [RunFailed] /\
  Demo.insts (part w') !! "ins-1" = None /\ going (part w') "job-1" = [].
Proof. vm_compute. done. Qed.

(** [run_without_row]: when the row of a new run cannot be written, its instance works on and belongs to nobody. *)
Theorem run_without_row :
  let idle := MkWorld (MkJobDB [Demo.job] [], Demo.MkInsts ∅) O [] in
  let w' := snd (Demo.run_in (Demo.failing 5) (ReqTrigger (Demo.tenant "prj-1") "job-1") idle) in
  jd_runs (part w') = [] /\ is_Some (Demo.insts (part w') !! "ins-9").
Proof. vm_compute. split; [done|]. by eexists. Qed.
