(* ===== verification/Event.v ===== *)
(** The platform's events (internal/platform/event): a log in a table that hands out its numbers,
    a listing for tenants that goes back page by page, a feed for the webhooks, and the pruning
    that keeps the table short.

    The table with its AUTOINCREMENT counter is one part of the state, the counter of recorded
    events in the service's memory another. *)
From stdpp Require Import base tactics numbers strings list gmap sorting.
From Stdlib Require Import ZArith Lia Sorted.
From S2P Require Import Prelude GoLang Time Effects Regex Kernel Httpx Tables.

(** * Data (types.go) *)

Definition DefaultLimit : Z := 100.
Definition MaxLimit : Z := 500.
Definition Retain : Z := 20000.
Definition PruneEvery : Z := 500.
Definition MaxMessage : Z := 500.
Definition MaxKind : Z := 60.

(* go: platform/event/types.go Entry *)
Record Entry := MkEntry {
  e_ID : Z; e_At : Z; e_ProjectID : string; e_Kind : string; e_Subject : string; e_NodeID : string; e_Message : string; e_Severity : string;
}.
(* go: platform/event/types.go Filter *)
Record Filter := MkFilter { f_ProjectID : string; f_Subject : string; f_Kind : string; f_Severity : string; f_Limit : Z; f_Before : Z }.

(** The table: its rows, and the counter of [INTEGER PRIMARY KEY AUTOINCREMENT]. *)
(* go: platform/event/module.go:34-58 events *)
Record EventDB := MkEventDB { ed_rows : list Entry; ed_seq : Z }.
(** [service.seen] *)
(* go: platform/event/service.go:15-22 seen *)
Record Seen := MkSeen { seen : Z }.

(** * Repository (repository.go) *)

Definition with_id (id : Z) (e : Entry) : Entry :=
  MkEntry id (e_At e) (e_ProjectID e) (e_Kind e) (e_Subject e) (e_NodeID e) (e_Message e) (e_Severity e).
(** [? = '' OR column = ?] *)
Definition any_or (wanted value : string) : bool := is_empty wanted || String.eqb value wanted.
Definition newer (a b : Entry) : bool := e_ID b <? e_ID a.
Definition older (a b : Entry) : bool := e_ID a <? e_ID b.
(** [SELECT MAX(id)] *)
Definition max_id (rows : list Entry) : option Z :=
  foldr (fun e m => Some (match m with Some k => Z.max (e_ID e) k | None => e_ID e end)) None rows.
Definition wanted (f : Filter) (e : Entry) : bool :=
  String.eqb (e_ProjectID e) (f_ProjectID f) && any_or (f_Subject f) (e_Subject e) && any_or (f_Kind f) (e_Kind e)
  && any_or (f_Severity f) (e_Severity e).
Definition back_of (before : Z) (e : Entry) : bool := (before =? 0) || (e_ID e <? before).

Section repository.
Context {S : Type} `{!Has EventDB S}.

(* go: platform/event/repository.go repository.insert *)
Definition insert (e : Entry) : M S unit :=
  sql "insert event" (fun db =>
    if ed_seq db =? max_int64 then (Err (EWrap "insert event" (EText "database or disk is full")), db)
    else (Ok tt, MkEventDB (ed_rows db ++ [with_id (ed_seq db + 1) e]) (ed_seq db + 1))).
(* go: platform/event/repository.go repository.list *)
Definition list_rows (f : Filter) : M S (list Entry) :=
  query "list events" (fun db =>
    Ok (take (Z.to_nat (f_Limit f)) (sliceStable newer (List.filter (fun e => wanted f e && back_of (f_Before f) e) (ed_rows db))))).
(* go: platform/event/repository.go repository.since *)
Definition since_rows (afterID limit : Z) : M S (list Entry) :=
  query ("read events after " +:+ itoa afterID) (fun db =>
    Ok (take (Z.to_nat limit) (sliceStable older (List.filter (fun e => afterID <? e_ID e) (ed_rows db))))).
(* go: platform/event/repository.go repository.newestID *)
Definition newestID_row : M S Z := query "read the newest event id" (fun db => Ok (default 0 (max_id (ed_rows db)))).
(* go: platform/event/repository.go repository.prune *)
Definition prune (retain : Z) : M S unit :=
  sql "prune events" (fun db =>
    (Ok tt, match max_id (ed_rows db) with
            | Some newest => MkEventDB (List.filter (fun e => negb (e_ID e <=? newest - retain)) (ed_rows db)) (ed_seq db)
            | None => db
            end)).
(* go: platform/event/repository.go repository.count *)
Definition count_rows : M S Z := query "count events" (fun db => Ok (len (ed_rows db))).
End repository.

(** * Service (service.go) *)

(* go: platform/event/service.go clip *)
Definition clip (value : string) (limit : Z) : string := if slen value <=? limit then value else str_take limit value.
(** [Info] also stands for the severity an emitter left empty. *)
(* go: platform/event/service.go severityOf *)
Definition severityOf (s : Severity) : string :=
  match s with Warn => "warn" | SevError => "error" | Info => "info" end.
Definition Severities : list string := ["info"; "warn"; "error"].

(** What is stored of an event. *)
(* go: platform/event/service.go:36-44 stored *)
Definition stored (at_ : Z) (entry : Effects.Entry) : Entry :=
  MkEntry 0 at_ (ev_ProjectID entry) (clip (ev_Kind entry) MaxKind) (ev_Subject entry) (ev_NodeID entry) (clip (ev_Message entry) MaxMessage)
    (severityOf (ev_Severity entry)).

Section service.
Context {S : Type} `{!Has EventDB S, !Has Seen S}.

(* go: platform/event/service.go service.dueForPrune *)
Definition dueForPrune : M S bool :=
  locked (fun t => let n := wrap64 (seen t + 1) in if n <? PruneEvery then (false, MkSeen n) else (true, MkSeen 0)).
(** Failures are logged, not returned. *)
(* go: platform/event/service.go service.record *)
Definition record_event (entry : Effects.Entry) : M S unit :=
  if is_empty (ev_Kind entry) then ret tt
  else
    let! at_ := now in
    let! r := attempt (insert (stored at_ entry)) in
    match r with
    | Err _ => ret tt
    | Ok _ =>
        let! due := dueForPrune in
        if negb due then ret tt
        else let! _ := attempt (prune Retain) in ret tt
    end.
(* go: platform/event/service.go service.list *)
Definition list_events (f : Filter) : M S (list Entry) :=
  let limit := if f_Limit f <=? 0 then DefaultLimit else f_Limit f in
  let limit := if MaxLimit <? limit then MaxLimit else limit in
  lift (if is_empty (f_Severity f) then Ok tt else validate_OneOf "severity" (f_Severity f) Severities) ;;;
  if is_empty (f_ProjectID f) then ret []
  else list_rows (MkFilter (f_ProjectID f) (f_Subject f) (f_Kind f) (f_Severity f) limit (f_Before f)).
(* go: platform/event/service.go service.since *)
Definition since (afterID limit : Z) : M S (list Entry) :=
  since_rows afterID (if (limit <=? 0) || (MaxLimit <? limit) then MaxLimit else limit).
(* go: platform/event/service.go service.newestID *)
Definition newestID : M S Z := newestID_row.
(* go: platform/event/service.go service.count *)
Definition count : M S Z := count_rows.
End service.

(** * Handler (handler.go) *)

(* go: platform/event/handler.go response *)
Record response := MkResponse {
  o_ID : Z; o_At : string; o_Kind : string; o_Subject : string; o_NodeID : string; o_Message : string; o_Severity : string;
}.
(* go: platform/event/handler.go listResponse *)
Record listResponse := MkListResponse { o_Events : list response; o_Next : string }.
(** The query parameters of a listing, empty where they are absent. *)
Record listQuery := MkListQuery { q_limit : string; q_after : string; q_subject : string; q_kind : string; q_severity : string }.

(* go: platform/event/handler.go:55-65 response *)
Definition toResponse (e : Entry) : response :=
  MkResponse (e_ID e) (rfc3339nano (e_At e)) (e_Kind e) (e_Subject e) (e_NodeID e) (e_Message e) (e_Severity e).
(** The cursor of the next page, when this one is full. *)
(* go: platform/event/handler.go:68-70 Backward *)
Definition next_of (limit : Z) (entries : list Entry) : string :=
  match last entries with Some e => if len entries =? limit then page_Backward (e_ID e) else "" | None => "" end.

Section handler.
Context {S : Type} `{!Has EventDB S, !Has Seen S}.

(* go: platform/event/handler.go handler.list *)
Definition handle_list (sc : Scope) (q : listQuery) : M S (Reply listResponse) :=
  let! window := lift (or_fault (fun err => Invalid "invalid_page" (error_text err)) (page_From (q_limit q) (q_after q) DefaultLimit MaxLimit)) in
  let! before := lift (or_fault (fun err => Invalid "invalid_page" (error_text err)) (page_Back (win_After window))) in
  let! entries := list_events (MkFilter (sc_ProjectID sc) (q_subject q) (q_kind q) (q_severity q) (win_Limit window) before) in
  Write StatusOK (MkListResponse (map toResponse entries) (next_of (win_Limit window) entries)).

(** What the module is asked, and what the platform emits. *)
Inductive request :=
| ReqList (sc : Scope) (q : listQuery)
| ReqRecord (entry : Effects.Entry)
| ReqSince (afterID limit : Z)
| ReqNewestID
| ReqCount.
Definition serve (r : request) : M S unit :=
  match r with
  | ReqList sc q => handle_list sc q ;;; ret tt
  | ReqRecord entry => record_event entry
  | ReqSince afterID limit => since afterID limit ;;; ret tt
  | ReqNewestID => newestID ;;; ret tt
  | ReqCount => count ;;; ret tt
  end.

(** A client that follows the cursors. *)
Fixpoint follow_back (sc : Scope) (q : listQuery) (fuel : nat) : M S (list response) :=
  match fuel with
  | O => ret []
  | Datatypes.S fuel' =>
      let! reply := handle_list sc q in
      match rp_Body reply with
      | None => ret []
      | Some body =>
          if is_empty (o_Next body) then ret (o_Events body)
          else let! rest := follow_back sc (MkListQuery (q_limit q) (o_Next body) (q_subject q) (q_kind q) (q_severity q)) fuel' in
               ret (o_Events body ++ rest)
      end
  end.
End handler.

(** * The log

    The table as an abstract log: an event is only ever added at the end, under the next number,
    and only the oldest go. *)

Record row_ok (e : Entry) : Prop := {
  eo_kind : e_Kind e <> "" /\ slen (e_Kind e) <= MaxKind;
  eo_message : slen (e_Message e) <= MaxMessage;
  eo_severity : e_Severity e ∈ Severities;
}.
Record event_inv (db : EventDB) : Prop := {
  ei_order : StronglySorted (fun a b => e_ID a < e_ID b) (ed_rows db);
  ei_ids : Forall (fun e => 1 <= e_ID e <= ed_seq db) (ed_rows db);
  ei_seq : 0 <= ed_seq db <= max_int64;
  ei_row : Forall row_ok (ed_rows db);
}.

(** What an emitter may add, and what the pruning takes. *)
Inductive change (r : request) (db : EventDB) : EventDB -> Prop :=
| C_record entry at_ : r = ReqRecord entry -> ev_Kind entry <> "" -> ed_seq db <> max_int64 ->
    change r db (MkEventDB (ed_rows db ++ [with_id (ed_seq db + 1) (stored at_ entry)]) (ed_seq db + 1))
| C_prune entry newest : r = ReqRecord entry -> max_id (ed_rows db) = Some newest ->
    change r db (MkEventDB (List.filter (fun e => negb (e_ID e <=? newest - Retain)) (ed_rows db)) (ed_seq db)).
Definition history (r : request) : EventDB -> EventDB -> Prop := rtc (change r).
#[export] Instance history_preorder r : PreOrder (history r).
Proof. unfold history. typeclasses eauto. Qed.

Lemma max_id_spec rows : match max_id rows with
  | Some k => (exists e, e ∈ rows /\ e_ID e = k) /\ forall e, e ∈ rows -> e_ID e <= k
  | None => rows = []
  end.
Proof.
  induction rows as [|e rows IH]; [done|]. simpl. destruct (max_id rows) as [k|].
  - destruct IH as [(x & Hx & Ex) Hk]. split.
    + destruct (Z.max_spec (e_ID e) k) as [[_ ->]|[_ ->]]; [exists x|exists e]; set_solver.
    + intros y [->|Hy]%elem_of_cons; [lia|]. specialize (Hk y Hy). lia.
  - subst rows. split; [exists e; set_solver|]. intros y ->%list_elem_of_singleton. lia.
Qed.

Lemma clip_short value limit : 0 <= limit -> slen (clip value limit) <= limit.
Proof.
  intros Hl. unfold clip. destruct (slen value <=? limit) eqn:E; [breflect; lia|]. rewrite str_take_spec. unfold slen.
  rewrite <- length_bytes_of, bytes_of_of, length_take. lia.
Qed.
Lemma clip_kept value limit : slen value <= limit -> clip value limit = value.
Proof. intros H%Z.leb_le. unfold clip. by rewrite H. Qed.
Lemma clip_nonempty value limit : 1 <= limit -> value <> "" -> clip value limit <> "".
Proof.
  intros Hl Hv. unfold clip. destruct (slen value <=? limit) eqn:E; [done|]. intros E2%(f_equal bytes_of). rewrite str_take_spec, bytes_of_of in E2.
  assert (Hn : bytes_of value <> []) by (intros E3; apply Hv, bytes_of_inj; done). destruct (bytes_of value) as [|b l]; [done|].
  destruct (Z.to_nat limit) eqn:En; [lia|done].
Qed.
Lemma stored_ok at_ entry id : ev_Kind entry <> "" -> row_ok (with_id id (stored at_ entry)).
Proof.
  intros Hk. constructor; cbn; [split; [by apply clip_nonempty|by apply clip_short]|by apply clip_short|]. unfold severityOf, Severities.
  destruct (ev_Severity entry); set_solver.
Qed.

Lemma event_pruned db p : event_inv db -> event_inv (MkEventDB (List.filter p (ed_rows db)) (ed_seq db)).
Proof. intros [H1 H2 H3 H4]. constructor; cbn [ed_rows ed_seq]; [by apply sorted_bfilter|by apply Forall_filter_bool|done|by apply Forall_filter_bool]. Qed.
Lemma event_change_inv r db db' : change r db db' -> event_inv db -> event_inv db'.
Proof.
  intros [entry at_ _ Hk Hs|entry newest _ _] Hi; [|by apply event_pruned]. destruct Hi as [H1 H2 H3 H4]. rewrite Forall_forall in H2.
  constructor; cbn [ed_rows ed_seq].
  - apply sorted_snoc; [done|]. intros y Hy. specialize (H2 y Hy). cbn. lia.
  - apply Forall_app. split; [apply Forall_forall; intros y Hy; specialize (H2 y Hy); lia|]. constructor; [cbn; lia|done].
  - lia.
  - apply Forall_app. split; [done|]. constructor; [by apply stored_ok|done].
Qed.
Lemma event_history_inv r db db' : history r db db' -> event_inv db -> event_inv db'.
Proof. intros H. induction H as [|x y z Hc _ IH]; [done|]. intros Hi. apply IH. by eapply event_change_inv. Qed.

(** What the log never loses: the last [Retain] numbers. *)
Definition keeps_recent (db db' : EventDB) : Prop :=
  ed_seq db <= ed_seq db' /\
  (forall e, e ∈ ed_rows db -> ed_seq db' - Retain < e_ID e -> e ∈ ed_rows db') /\
  (forall e, e ∈ ed_rows db' -> e_ID e <= ed_seq db -> e ∈ ed_rows db).
#[export] Instance keeps_recent_preorder : PreOrder keeps_recent.
Proof.
  split; [by intros x; split_and!|]. intros x y z (A1 & A2 & A3) (B1 & B2 & B3). split_and!; [lia| |].
  - intros e He Hr. apply B2; [|done]. apply A2; [done|lia].
  - intros e He Hr. apply A3; [|done]. apply B3; [done|lia].
Qed.
Lemma event_change_recent r db db' : change r db db' -> event_inv db -> keeps_recent db db'.
Proof.
  intros [entry at_ _ _ _|entry newest _ Hm] Hi; split_and!; cbn [ed_rows ed_seq]; try lia.
  - set_solver.
  - intros e [He| ->%list_elem_of_singleton]%elem_of_app Hr; [done|]. cbn in Hr. lia.
  - intros e He Hr. apply elem_of_filter_bool. split; [done|]. pose proof (max_id_spec (ed_rows db)) as Hs. rewrite Hm in Hs.
    destruct Hs as [(x & Hx & <-) _]. pose proof (ei_ids _ Hi) as H2. rewrite Forall_forall in H2. specialize (H2 x Hx).
    apply negb_true_iff, Z.leb_gt. lia.
  - intros e [He _]%elem_of_filter_bool _. done.
Qed.
Lemma event_history_recent r db db' : history r db db' -> event_inv db -> keeps_recent db db'.
Proof.
  intros H. induction H as [|x y z Hc _ IH]; [done|]. intros Hi. transitivity y; [by eapply event_change_recent|].
  apply IH. by eapply event_change_inv.
Qed.

(** ** The order of the rows *)

Lemma ascending_ids rows a b : StronglySorted (fun a b => e_ID a < e_ID b) rows -> a ∈ rows -> b ∈ rows -> e_ID a = e_ID b -> a = b.
Proof. apply (ascending_by e_ID). Qed.
Lemma oldest_first rows : StronglySorted (fun a b => e_ID a < e_ID b) rows -> sliceStable older rows = rows.
Proof. apply (oldest_by e_ID). Qed.
Lemma newest_first rows : StronglySorted (fun a b => e_ID a < e_ID b) rows -> sliceStable newer rows = rev rows.
Proof. apply (newest_by e_ID). Qed.
(** Numbers that ascend within bounds are few. *)
Lemma ascending_few rows lo hi : StronglySorted (fun a b => e_ID a < e_ID b) rows -> lo <= hi -> (forall e, e ∈ rows -> lo < e_ID e <= hi) ->
  len rows <= hi - lo.
Proof.
  intros Hs. revert lo. induction Hs as [|x l Hl IH Hf]; intros lo Hlo Hb; [simpl; lia|]. rewrite Forall_forall in Hf.
  pose proof (Hb x ltac:(set_solver)). specialize (IH (e_ID x) ltac:(lia)). simpl.
  enough (len l <= hi - e_ID x) by lia. apply IH. intros e He. specialize (Hf e He). specialize (Hb e ltac:(set_solver)). lia.
Qed.

(** A sorted list cut short: what is in it and what is not. *)
Lemma cut_elem l limit e : StronglySorted (fun a b => e_ID a < e_ID b) l -> 1 <= limit ->
  e ∈ take (Z.to_nat limit) l <->
  e ∈ l /\ (len (take (Z.to_nat limit) l) < limit \/ exists z, last (take (Z.to_nat limit) l) = Some z /\ e_ID e <= e_ID z).
Proof.
  intros Hs Hl. set (n := Z.to_nat limit). pose proof (take_drop n l) as Ed. split.
  - intros He. split; [by apply subseteq_take in He|]. destruct (last (take n l)) as [z|] eqn:El.
    + right. exists z. split; [done|]. apply last_Some in El as [l' El]. pose proof (sorted_take _ n l Hs) as Ht. rewrite El in He, Ht.
      apply elem_of_app in He as [He| ->%list_elem_of_singleton]; [|done]. apply Z.lt_le_incl.
      by apply (StronglySorted_app_1_elem_of _ l' [z] e z Ht He), list_elem_of_here.
    + apply last_None in El. rewrite El in He. set_solver.
  - intros [He Hc]. rewrite <- Ed in He. apply elem_of_app in He as [He|He]; [done|]. exfalso. destruct Hc as [Hc|(z & Hz & Hle)].
    + rewrite length_take in Hc. destruct (Nat.le_gt_cases (length l) n) as [Hn|Hn]; [rewrite drop_ge in He by done; set_solver|]. unfold n in *. lia.
    + apply last_Some in Hz as [l' Hz]. rewrite <- Ed, Hz in Hs.
      pose proof (StronglySorted_app_1_elem_of _ _ _ z e Hs ltac:(set_solver) He). cbn in *. lia.
Qed.

(** * What the operations do *)

Section operations.
Context {S : Type} `{!Has EventDB S, !Has Seen S, !Apart Seen EventDB S, !Apart EventDB Seen S}.

(** No row is older than the last [Retain] numbers and the [n] recorded since the pruning. *)
Definition reaches_back (db : EventDB) (n : Z) : Prop := forall e, e ∈ ed_rows db -> ed_seq db - Retain - n < e_ID e.
Lemma reaches_back_insert db e n : 0 <= n -> reaches_back db n -> reaches_back (MkEventDB (ed_rows db ++ [with_id (ed_seq db + 1) e]) (ed_seq db + 1)) (n + 1).
Proof.
  intros Hn Hb x [Hx| ->%list_elem_of_singleton]%elem_of_app; cbn [ed_seq with_id e_ID].
  - specialize (Hb x Hx). lia.
  - unfold Retain. lia.
Qed.
Lemma reaches_back_prune db : event_inv db -> ed_seq db = default 0 (max_id (ed_rows db)) ->
  reaches_back (match max_id (ed_rows db) with
    | Some newest => MkEventDB (List.filter (fun e => negb (e_ID e <=? newest - Retain)) (ed_rows db)) (ed_seq db)
    | None => db
    end) 0.
Proof.
  intros Hi E. pose proof (max_id_spec (ed_rows db)) as Hm. destruct (max_id (ed_rows db)) as [k|].
  - intros e [_ He]%elem_of_filter_bool. cbn in E |- *. breflect. lia.
  - intros e He. rewrite Hm in He. set_solver.
Qed.
Lemma max_id_snoc rows e : (forall x, x ∈ rows -> e_ID x < e_ID e) -> max_id (rows ++ [e]) = Some (e_ID e).
Proof.
  intros H. pose proof (max_id_spec (rows ++ [e])) as Hm. destruct (max_id (rows ++ [e])) as [k|]; [|by destruct rows].
  destruct Hm as [(x & [Hx| ->%list_elem_of_singleton]%elem_of_app & <-) Hk]; [|done].
  specialize (H x Hx). specialize (Hk e ltac:(set_solver)). lia.
Qed.
(** [record_event] on the table and on the counter. *)
Lemma record_wp env entry (w : World S) :
  wp env (record_event entry) (fun r w' => r = Ok tt /\ history (ReqRecord entry) (part w) (part w') /\
    ((forall n, env_io env n = false) -> event_inv (part w) -> 0 <= seen (part w) < PruneEvery -> reaches_back (part w) (seen (part w)) ->
      0 <= seen (part w') < PruneEvery /\ reaches_back (part w') (seen (part w')))) w.
Proof.
  unfold record_event. destruct (is_empty (ev_Kind entry)) eqn:Ek; [rewrite wp_ret; split_and!; [done|reflexivity|done]|].
  apply is_empty_false in Ek. apply wp_bind. rewrite wp_now. apply wp_bind, wp_attempt.
  apply (wp_write_apart env (T:=EventDB) (U:=Seen)); intros w1 H1 H2; cbv beta iota.
  { rewrite wp_ret, H1, H2. split_and!; [done|reflexivity|done]. }
  change (part (T:=EventDB) (tick w)) with (part (T:=EventDB) w) in *. change (part (T:=Seen) (tick w)) with (part (T:=Seen) w) in *.
  destruct (ed_seq (part w) =? max_int64) eqn:Eq; cbn [fst snd] in *.
  { rewrite wp_ret, H1, H2. split_and!; [done|reflexivity|done]. }
  apply wp_bind, (wp_locked_apart env (T:=Seen) (U:=EventDB)). intros w2 H3 H4. cbv beta iota.
  assert (Hrec : change (ReqRecord entry) (part w) (part w2)).
  { rewrite H4, H1. apply C_record; [done..|]. by breflect. }
  rewrite H2 in *. cbv zeta in *. set (n := wrap64 (seen (part w) + 1)) in *. destruct (n <? PruneEvery) eqn:En; cbn [fst snd negb] in *.
  { rewrite wp_ret. split_and!; [done|by apply rtc_once|]. intros _ Hi Hn Hb. rewrite H3. cbn [seen].
    assert (n = seen (part w) + 1) as -> by (apply wrap64_small; unfold in_int64, min_int64, max_int64, two63, PruneEvery in *; lia). breflect. split; [lia|].
    rewrite H4, H1. apply reaches_back_insert; [lia|done]. }
  apply wp_bind, wp_attempt. unfold prune. apply wp_sql. destruct (env_io env (w_step w2)) eqn:Eio; cbv beta iota.
  { rewrite wp_ret. split_and!; [done|by apply rtc_once|]. intros Hio. by rewrite Hio in Eio. }
  rewrite wp_ret. cbn [fst snd]. unfold part in *. cbn [w_st with_st tick]. rewrite hget_hput.
  split_and!; [done| |].
  - destruct (max_id _) as [newest|] eqn:Em; [|by apply rtc_once]. eapply rtc_l; [exact Hrec|]. by apply rtc_once, (C_prune _ _ entry).
  - intros _ Hi _ _. rewrite apart, H3. cbn [seen]. split; [done|]. apply reaches_back_prune; [by eapply event_change_inv|].
    rewrite H4, H1. cbn [ed_rows ed_seq]. rewrite max_id_snoc; [done|]. intros x Hx. pose proof (ei_ids _ Hi) as Hids. rewrite Forall_forall in Hids.
    specialize (Hids x Hx). cbn. lia.
Qed.
End operations.

Section reading.
Context {S : Type} `{!Has EventDB S, !Has Seen S}.

Lemma yields_list_rows db f : yields db (list_rows (S:=S) f) (fun l =>
  l = take (Z.to_nat (f_Limit f)) (sliceStable newer (List.filter (fun e => wanted f e && back_of (f_Before f) e) (ed_rows db)))).
Proof. eapply yields_mono; [apply yields_query|]. by intros l [= <-]. Qed.
(** A page: the newest matching events behind the cursor. *)
Definition page_of (db : EventDB) (f : Filter) : list Entry :=
  if is_empty (f_ProjectID f) then []
  else take (Z.to_nat (f_Limit f)) (rev (List.filter (back_of (f_Before f)) (List.filter (wanted f) (ed_rows db)))).
Lemma yields_list db f : event_inv db -> 1 <= f_Limit f <= MaxLimit -> yields db (list_events (S:=S) f) (fun l => l = page_of db f).
Proof.
  intros Hi Hl. unfold list_events, page_of. assert (f_Limit f <=? 0 = false) as -> by (apply Z.leb_gt; lia).
  assert (MaxLimit <? f_Limit f = false) as -> by (apply Z.ltb_ge; lia).
  eapply yields_bind; [apply yields_lift|]. intros _ _. destruct (is_empty (f_ProjectID f)); [apply yields_ret|].
  eapply yields_mono; [apply yields_list_rows|]. intros l ->. cbn [f_Limit f_Before]. rewrite filter_andb.
  by rewrite newest_first by (do 2 apply sorted_bfilter; apply Hi).
Qed.
Lemma yields_handle_list db sc q : event_inv db -> yields db (handle_list (S:=S) sc q) (fun reply =>
  exists window before, page_From (q_limit q) (q_after q) DefaultLimit MaxLimit = Ok window /\ page_Back (win_After window) = Ok before /\
    let l := page_of db (MkFilter (sc_ProjectID sc) (q_subject q) (q_kind q) (q_severity q) (win_Limit window) before) in
    reply = MkReply StatusOK (Some (MkListResponse (map toResponse l) (next_of (win_Limit window) l)))).
Proof.
  intros Hi. unfold handle_list. eapply yields_bind; [apply yields_lift|]. intros window Hw%or_fault_ok.
  eapply yields_bind; [apply yields_lift|]. intros before Hb%or_fault_ok.
  eapply yields_bind; [apply yields_list; [done|]|].
  - cbn. by apply (page_From_limit (q_limit q) (q_after q) DefaultLimit MaxLimit).
  - intros l ->. eapply yields_mono; [apply yields_ret|]. intros reply ->. by exists window, before.
Qed.
Lemma yields_since db at_ limit : event_inv db -> yields db (since (S:=S) at_ limit) (fun l =>
  l = take (Z.to_nat (if (limit <=? 0) || (MaxLimit <? limit) then MaxLimit else limit)) (List.filter (fun e => at_ <? e_ID e) (ed_rows db))).
Proof.
  intros Hi. eapply yields_mono; [apply yields_query|]. intros l [= <-]. by rewrite oldest_first by (apply sorted_bfilter, Hi).
Qed.
Lemma yields_newestID db : yields db (newestID (S:=S)) (fun n => n = default 0 (max_id (ed_rows db))).
Proof. eapply yields_mono; [apply yields_query|]. by intros l [= <-]. Qed.
End reading.

(** ** Going back *)

Lemma back_of_app l z l2 : StronglySorted (fun a b => e_ID b < e_ID a) (l ++ z :: l2) -> List.filter (back_of (e_ID z)) (l ++ z :: l2) = 
  if e_ID z =? 0 then l ++ z :: l2 else l2.
Proof.
  intros Hs. destruct (e_ID z =? 0) eqn:Ez; [apply filter_all; intros; unfold back_of; by rewrite Ez|].
  apply StronglySorted_app in Hs as (H1 & _ & H2). apply StronglySorted_inv in H2 as [_ H2]. rewrite Forall_forall in H2.
  rewrite List.filter_app. simpl. unfold back_of at 2. rewrite Ez, Z.ltb_irrefl. simpl.
  rewrite filter_none, filter_all; [done| |]; intros x Hx; unfold back_of; rewrite Ez; simpl.
  - apply Z.ltb_lt. by apply H2.
  - apply Z.ltb_ge. specialize (H1 x z Hx ltac:(set_solver)). cbn in H1. lia.
Qed.
(** The events behind the last of a full page are the rest. *)
Lemma next_back rows b n l z : StronglySorted (fun a b => e_ID a < e_ID b) rows -> (forall e, e ∈ rows -> 1 <= e_ID e) ->
  take n (rev (List.filter (back_of b) rows)) = l ++ [z] ->
  rev (List.filter (back_of (e_ID z)) rows) = drop n (rev (List.filter (back_of b) rows)).
Proof.
  intros Hs H1 El. set (L := rev (List.filter (back_of b) rows)) in *. pose proof (take_drop n L) as Ed. rewrite El, <- app_assoc in Ed. simpl in Ed.
  assert (HL : StronglySorted (fun a b => e_ID b < e_ID a) L) by (unfold L; eapply sorted_rev; [|by apply sorted_bfilter]; done).
  assert (Hz : z ∈ List.filter (back_of b) rows) by (rewrite list_elem_of_In, in_rev, <- list_elem_of_In; fold L; rewrite <- Ed; set_solver).
  apply elem_of_filter_bool in Hz as [Hz Hzb]. specialize (H1 z Hz).
  assert (E : List.filter (back_of (e_ID z)) rows = List.filter (back_of (e_ID z)) (List.filter (back_of b) rows)).
  { rewrite <- filter_andb. apply filter_ext_elem. intros x _. unfold back_of in *. breflect. destruct (e_ID z =? 0) eqn:E0; [breflect; lia|]. simpl.
    destruct (e_ID x <? e_ID z) eqn:Ex; [|by rewrite andb_false_r]. rewrite andb_true_r. symmetry. apply orb_true_iff.
    apply orb_true_iff in Hzb as [Hzb|Hzb]; [by left|right]. breflect. lia. }
  rewrite E, <- filter_rev. fold L. rewrite <- Ed at 1. rewrite back_of_app by (rewrite Ed; done).
  destruct (e_ID z =? 0) eqn:E0; [breflect; lia|done].
Qed.

Lemma next_cursor id : 0 < id <= max_int64 ->
  exists c, is_empty (page_Backward id) = false /\ page_Decode (page_Backward id) = Ok c /\ page_Back c = Ok id.
Proof.
  intros Hid. destruct (page_roundtrip 1 1 ltac:(done) ltac:(done)) as (_ & Hb & _). destruct (Hb id Hid) as (c & Hd & Hc). exists c.
  split; [|done]. destruct (is_empty (page_Backward id)) eqn:E; [|done]. apply is_empty_spec in E. by rewrite E in Hd.
Qed.
Lemma next_window q_limit q_after limit after next c : page_From q_limit q_after DefaultLimit MaxLimit = Ok {| win_Limit := limit; win_After := after |} ->
  is_empty next = false -> page_Decode next = Ok c ->
  page_From q_limit next DefaultLimit MaxLimit = Ok {| win_Limit := limit; win_After := c |}.
Proof.
  intros Hw En Ed. unfold page_From in *. destruct (if is_empty q_limit then _ else _) as [n|]; [|done]. simpl in *.
  rewrite En, Ed. destruct (if is_empty q_after then _ else _) as [a|]; [|done]. by injection Hw as <- _.
Qed.
Section going_back.
Context {S : Type} `{!Has EventDB S, !Has Seen S} (env : Env) (sc : Scope) (Hio : forall n, env_io env n = false) (Hp : sc_ProjectID sc <> "").

Lemma handle_list_runs q (w : World S) window before : event_inv (part w) -> q_severity q = "" \/ q_severity q ∈ Severities ->
  page_From (q_limit q) (q_after q) DefaultLimit MaxLimit = Ok window -> page_Back (win_After window) = Ok before ->
  let f := MkFilter (sc_ProjectID sc) (q_subject q) (q_kind q) (q_severity q) 0 0 in
  let l := take (Z.to_nat (win_Limit window)) (rev (List.filter (back_of before) (List.filter (wanted f) (ed_rows (part w))))) in
  wp env (handle_list sc q) (fun r w' => part w' = part (T:=EventDB) w /\
    r = Ok (MkReply StatusOK (Some (MkListResponse (map toResponse l) (next_of (win_Limit window) l))))) w.
Proof.
  intros Hi Hsev Hw Hb f l. unfold handle_list, list_events, list_rows. apply wp_bind. rewrite wp_lift, Hw. cbn [or_fault].
  apply wp_bind. rewrite wp_lift, Hb. cbn [or_fault f_Limit f_ProjectID f_Subject f_Kind f_Severity f_Before]. cbv zeta.
  pose proof (page_From_limit _ _ DefaultLimit MaxLimit _ ltac:(done) ltac:(done) Hw) as Hl.
  assert (win_Limit window <=? 0 = false) as -> by (apply Z.leb_gt; lia).
  assert (MaxLimit <? win_Limit window = false) as -> by (apply Z.ltb_ge; lia).
  assert (Hv : (if is_empty (q_severity q) then Ok tt else validate_OneOf "severity" (q_severity q) Severities) = Ok tt).
  { destruct (is_empty (q_severity q)) eqn:E; [done|]. apply is_empty_false in E. destruct Hsev as [|Hsev]; [done|]. by apply validate_OneOf_ok. }
  rewrite (proj2 (is_empty_false _) Hp), Hv. apply wp_bind, wp_bind. rewrite wp_lift. apply wp_query. rewrite Hio. cbn [fst snd].
  change (hget (w_st w)) with (part (T:=EventDB) w). rewrite filter_andb, newest_first by (do 2 apply sorted_bfilter; apply Hi). done.
Qed.

Lemma follow_back_run q fuel (w : World S) before limit after : event_inv (part w) -> q_severity q = "" \/ q_severity q ∈ Severities ->
  page_From (q_limit q) (q_after q) DefaultLimit MaxLimit = Ok {| win_Limit := limit; win_After := after |} -> page_Back after = Ok before ->
  let f := MkFilter (sc_ProjectID sc) (q_subject q) (q_kind q) (q_severity q) 0 0 in
  let l := rev (List.filter (back_of before) (List.filter (wanted f) (ed_rows (part w)))) in
  (length l < fuel)%nat ->
  wp env (follow_back sc q fuel) (fun r w' => r = Ok (map toResponse l) /\ part w' = part (T:=EventDB) w) w.
Proof.
  revert q w before after. induction fuel as [|fuel IH]; intros q w before after Hi Hsev Hw Hb f l Hf; [lia|]. simpl.
  apply wp_bind. eapply wp_mono; [|by apply handle_list_runs]. intros r w1 [Hw1 ->]. cbn [rp_Body o_Next o_Events win_Limit].
  fold f. fold l. set (n := Z.to_nat limit). pose proof (page_From_limit _ _ DefaultLimit MaxLimit _ ltac:(done) ltac:(done) Hw) as Hl. cbn [win_Limit] in Hl.
  assert (Hids : forall e, e ∈ ed_rows (part w) -> 1 <= e_ID e <= max_int64).
  { intros e He. destruct Hi as [_ H2 H3 _]. rewrite Forall_forall in H2. specialize (H2 e He). lia. }
  unfold next_of. destruct (last (take n l)) as [z|] eqn:El; [destruct (len (take n l) =? limit) eqn:En|].
  - apply last_Some in El as [l' El]. assert (Hz : z ∈ ed_rows (part w)).
    { assert (Hin : z ∈ l) by (rewrite <- (take_drop n l), El; set_solver). unfold l in Hin.
      rewrite list_elem_of_In, <- in_rev, <- list_elem_of_In in Hin. apply elem_of_filter_bool in Hin as [Hin _].
      by apply elem_of_filter_bool in Hin as [Hin _]. }
    specialize (Hids z Hz) as Hzi. destruct (next_cursor (e_ID z)) as (c & Ec & Ed & Eb); [lia|]. rewrite Ec. apply wp_bind.
    assert (En2 : rev (List.filter (back_of (e_ID z)) (List.filter (wanted f) (ed_rows (part w)))) = drop n l).
    { apply (next_back _ before n l' z); [by apply sorted_bfilter, Hi| |done]. intros e [He _]%elem_of_filter_bool. by apply Hids. }
    eapply wp_mono; [|apply (IH _ w1 (e_ID z) c); cbn [q_severity q_limit q_after q_subject q_kind]; [by rewrite Hw1|done| |done|]].
    + cbn [q_severity q_limit q_after q_subject q_kind]. fold f. rewrite Hw1, En2. intros r w2 [-> Hw2]. rewrite wp_ret. split; [|congruence].
      by rewrite <- map_app, take_drop.
    + by apply (next_window _ (q_after q) _ after).
    + rewrite Hw1. fold f. rewrite En2, length_drop. pose proof (f_equal length El) as Hlen. rewrite length_app, length_take in Hlen. simpl in Hlen. lia.
  - simpl. rewrite wp_ret. split; [|done]. breflect. rewrite length_take in En. do 2 f_equal. apply take_ge. unfold n in *. lia.
  - simpl. rewrite wp_ret. split; [|done]. apply last_None in El. do 2 f_equal.
    destruct l; [by destruct n|]. unfold n in El. destruct (Z.to_nat limit) eqn:?; [lia|done].
Qed.
End going_back.

(** * Properties *)

Section properties.
Context {S : Type} `{!Has EventDB S, !Has Seen S, !Apart Seen EventDB S, !Apart EventDB Seen S}.

(** [event_log_lawful]: nothing but an emitted event ever writes the log, it never fails its emitter,
    its message and kind are cut and its severity is one of three; the event gets the next number, and
    of what was there only events older than the last 20000 numbers go. *)
Theorem event_log_lawful env r (w : World S) (Hinv : event_inv (part w)) :
  wp env (serve r) (fun a w' => history r (part w) (part w') /\ event_inv (part w') /\ keeps_recent (part w) (part w') /\
    (forall entry, r = ReqRecord entry -> a = Ok tt)) w.
Proof.
  assert (Hm : wp env (serve r) (fun a w' => history r (part w) (part w') /\ (forall entry, r = ReqRecord entry -> a = Ok tt)) w).
  { destruct r; cbn [serve].
    2: { eapply wp_mono; [|apply record_wp]. intros a w' (-> & Hh & _). by split. }
    all: apply wp_bind, (wp_leaves (T:=EventDB)).
    1: { unfold handle_list, list_events, list_rows, Write. auto 14 with leaves. }
    2: { unfold since, since_rows. auto with leaves. }
    3: { unfold newestID, newestID_row. auto with leaves. }
    4: { unfold count, count_rows. auto with leaves. }
    all: intros [x|e] w' E; rewrite ?wp_ret, E; (split; [reflexivity|by intros]). }
  eapply wp_mono; [|exact Hm]. intros a w' [Hh Ha]. split_and!; [done|by eapply event_history_inv|by eapply event_history_recent|done].
Qed.

(** [event_log_bounded]: while the database answers, the log never holds more than 20499 events; the
    pruning comes around in time. *)
Theorem event_log_bounded env entry (w : World S) (Hinv : event_inv (part w)) (Hio : forall n, env_io env n = false)
  (Hseen : 0 <= seen (part w) < PruneEvery) (Hback : reaches_back (part w) (seen (part w))) :
  wp env (record_event entry) (fun r w' => 0 <= seen (part w') < PruneEvery /\ reaches_back (part w') (seen (part w')) /\
    len (ed_rows (part w')) <= Retain + PruneEvery - 1) w.
Proof.
  eapply wp_mono; [|apply record_wp]. intros r w' (_ & Hh & Hb). specialize (Hb Hio Hinv Hseen Hback) as [Hn Hb].
  split_and!; [lia..|done|]. pose proof (event_history_inv _ _ _ Hh Hinv) as [H1 H2 H3 _]. rewrite Forall_forall in H2.
  set (lo := ed_seq (part w') - Retain - seen (part w')) in *.
  pose proof (ascending_few _ lo (ed_seq (part w')) H1) as Hf. unfold reaches_back, lo, Retain, PruneEvery in *.
  enough (len (ed_rows (part w')) <= ed_seq (part w') - (ed_seq (part w') - 20000 - seen (part w'))) by lia. apply Hf; [lia|].
  intros e He. specialize (Hb e He). specialize (H2 e He). lia.
Qed.

(** [feed_exact]: what the feed answers after a number is exactly what the log holds behind it, oldest
    first, without a gap, cut at the limit; when the answer is short, there is nothing more. *)
Theorem feed_exact env at_ limit (w : World S) (Hinv : event_inv (part w)) (Hl : 1 <= limit <= MaxLimit) :
  wp env (since at_ limit) (fun r w' => part w' = part (T:=EventDB) w /\ forall l, r = Ok l ->
    StronglySorted (fun a b => e_ID a < e_ID b) l /\ len l <= limit /\
    (forall e, e ∈ l <-> e ∈ ed_rows (part w) /\ at_ < e_ID e /\ (len l < limit \/ exists z, last l = Some z /\ e_ID e <= e_ID z))) w.
Proof.
  eapply wp_mono; [|exact (yields_since (part w) at_ limit Hinv env w I eq_refl)]. intros r w' [Hw Hr]. split; [exact Hw|]. intros l ->.
  assert ((limit <=? 0) || (MaxLimit <? limit) = false) as E by (apply orb_false_iff; split; [apply Z.leb_gt|apply Z.ltb_ge]; lia).
  rewrite E in Hr. set (behind := List.filter (fun e => at_ <? e_ID e) (ed_rows (part w))) in *.
  assert (Hs : StronglySorted (fun a b => e_ID a < e_ID b) behind) by (apply sorted_bfilter, Hinv). subst l.
  assert (Hm : forall e, e ∈ behind <-> e ∈ ed_rows (part w) /\ at_ < e_ID e) by (intros e; unfold behind; rewrite elem_of_filter_bool, Z.ltb_lt; done).
  split_and!; [by apply sorted_take|rewrite length_take; lia|]. intros e.
  pose proof (cut_elem behind limit e Hs ltac:(lia)) as Hc. rewrite (Hm e) in Hc. tauto.
Qed.

(** [backward_complete]: a client that goes back page by page sees every event of its project that
    matches its filter, the newest first, exactly once, whatever page size it asks for. *)
Theorem backward_complete env sc q window fuel (w : World S) (Hio : forall n, env_io env n = false) (Hinv : event_inv (part w))
  (Hp : sc_ProjectID sc <> "") (Hsev : q_severity q = "" \/ q_severity q ∈ Severities)
  (Hq : page_From (q_limit q) "" DefaultLimit MaxLimit = Ok window) (Hafter : q_after q = "") (Hfuel : (length (ed_rows (part w)) < fuel)%nat) :
  let matching := List.filter (wanted (MkFilter (sc_ProjectID sc) (q_subject q) (q_kind q) (q_severity q) 0 0)) (ed_rows (part w)) in
  wp env (follow_back sc q fuel) (fun r w' => r = Ok (map toResponse (rev matching)) /\ part w' = part (T:=EventDB) w) w.
Proof.
  intros matching.
  assert (Hback : page_Back (win_After window) = Ok 0 /\ 1 <= win_Limit window <= MaxLimit).
  { split; [|by apply (page_From_limit (q_limit q) "" DefaultLimit MaxLimit)]. unfold page_From in Hq.
    destruct (if is_empty (q_limit q) then _ else _) as [n|]; [|done]. by injection Hq as <-. }
  destruct Hback as [Hback Hlim].
  eapply wp_mono; [|apply (follow_back_run env sc Hio Hp q fuel w 0 (win_Limit window) (win_After window)); try done].
  - intros r w' [-> Hw']. split; [|done]. do 3 f_equal. by apply filter_all.
  - rewrite Hafter, Hq. by destruct window.
  - rewrite filter_all, length_rev by done. eapply Nat.le_lt_trans; [apply filter_bool_length_le|done].
Qed.
End properties.

(** * Witnesses *)

Module Demo.
Abbreviation St := (EventDB * Seen)%type.
#[export] Instance has_db : Has EventDB St := Has_fst _ _.
#[export] Instance has_seen : Has Seen St := Has_snd _ _.
#[export] Instance db_apart : Apart EventDB Seen St := Apart_pair _ _.
#[export] Instance seen_apart : Apart Seen EventDB St := Apart_pair' _ _.
Definition T : Z := 1709210050 * second.
Definition row (id : Z) (p kind subject : string) : Entry := MkEntry id T p kind subject "" "" "info".
Definition db : EventDB := MkEventDB
  [row 3 "prj-1" "instance.created" "ins-1"; row 4 "prj-2" "instance.created" "ins-2"; row 7 "prj-1" "instance.failed" "ins-1"; row 9 "prj-1" "job.done" "job-1"] 9.
Definition w0 : World St := MkWorld (db, MkSeen 499) O [].
Definition env : Env := {| env_now _ := T; env_rand n := [Z.of_nat n; 7]; env_io _ := false |}.
Definition started : Effects.Entry :=
  {| ev_ProjectID := "prj-1"; ev_Kind := "instance.started"; ev_Subject := "ins-1"; ev_NodeID := "nd-1"; ev_Message := "it runs"; ev_Severity := Warn |}.
Definition tenant : Scope := MkScope "prj-1" "tok-1" "ci" "" "member".
Definition query : listQuery := MkListQuery "1" "" "ins-1" "" "".
End Demo.
Import (hints) Demo.

Lemma demo_event_inv : event_inv Demo.db.
Proof.
  constructor; cbn [ed_rows ed_seq Demo.db]; [repeat constructor..| |]; try done.
  repeat (apply List.Forall_cons; [constructor; [split; [discriminate|vm_compute; discriminate]|vm_compute; discriminate|apply (bool_decide_unpack _); vm_compute; exact I]|]).
  constructor.
Qed.
Lemma event_log_lawful_witness :
  let '(a, w') := serve (ReqRecord Demo.started) Demo.env Demo.w0 in
  a = Ok tt /\ history (ReqRecord Demo.started) Demo.db (part w') /\ keeps_recent Demo.db (part w') /\ ed_seq (part w') = 10.
Proof.
  pose proof (event_log_lawful Demo.env (ReqRecord Demo.started) Demo.w0 demo_event_inv) as Hl.
  assert (Hs : ed_seq (part (snd (serve (ReqRecord Demo.started) Demo.env Demo.w0))) = 10) by (vm_compute; reflexivity).
  unfold wp in Hl. destruct (serve _ _ _) as [a w']. destruct Hl as (Hh & Hi & Hk & Ha). exact (conj (Ha _ eq_refl) (conj Hh (conj Hk Hs))).
Defined.
Lemma event_log_bounded_witness :
  wp Demo.env (record_event Demo.started) (fun r w' => 0 <= seen (part w') < PruneEvery /\ reaches_back (part w') (seen (part w')) /\
    len (ed_rows (part w')) <= Retain + PruneEvery - 1) Demo.w0.
Proof.
  apply (event_log_bounded Demo.env Demo.started Demo.w0); [exact demo_event_inv|reflexivity|vm_compute; split; [discriminate|reflexivity]|].
  intros e He. pose proof (ei_ids _ demo_event_inv) as Hids. rewrite Forall_forall in Hids. specialize (Hids e He). cbn. unfold Retain. lia.
Defined.
Lemma feed_exact_witness :
  exists l, fst (since 3 2 Demo.env Demo.w0) = Ok l /\ map e_ID l = [4; 7] /\
    forall e, e ∈ l <-> e ∈ ed_rows Demo.db /\ 3 < e_ID e /\ (len l < 2 \/ exists z, last l = Some z /\ e_ID e <= e_ID z).
Proof.
  pose proof (feed_exact Demo.env 3 2 Demo.w0 demo_event_inv ltac:(split; [discriminate|discriminate])) as Hl.
  assert (Hr : fst (since 3 2 Demo.env Demo.w0) = Ok [Demo.row 4 "prj-2" "instance.created" "ins-2"; Demo.row 7 "prj-1" "instance.failed" "ins-1"])
    by (vm_compute; reflexivity).
  unfold wp in Hl. destruct (since _ _ _ _) as [r w']. simpl in Hr. destruct Hl as [_ Hl]. destruct (Hl _ Hr) as (_ & _ & He).
  exists [Demo.row 4 "prj-2" "instance.created" "ins-2"; Demo.row 7 "prj-1" "instance.failed" "ins-1"]. exact (conj Hr (conj eq_refl He)).
Defined.
Lemma backward_complete_witness :
  wp Demo.env (follow_back Demo.tenant Demo.query 5) (fun r w' =>
    r = Ok (map toResponse [Demo.row 7 "prj-1" "instance.failed" "ins-1"; Demo.row 3 "prj-1" "instance.created" "ins-1"]) /\ part w' = Demo.db) Demo.w0.
Proof.
  eapply wp_mono; [|apply (backward_complete Demo.env Demo.tenant Demo.query {| win_Limit := 1; win_After := no_cursor |} 5 Demo.w0);
    [reflexivity|exact demo_event_inv|discriminate|by left|vm_compute; reflexivity|reflexivity|vm_compute; lia]].
  intros r w' [-> Hw]. exact (conj eq_refl Hw).
Defined.
