(* ===== verification/Webhook.v ===== *)
(** Webhooks (internal/platform/webhook): what tenants want to be told, the fan-out of events into
    deliveries, and the delivery of each with retries, to addresses that are not the control
    plane's own.

    The three tables are one state.  The feed of events and the HTTP client are the interfaces
    [Events] and [Client]; what the guard of the dialler looks at is modelled, what travels over
    the connection is the interface's.  [URLs] is [net/url]'s parser, [Marshal] is what
    [encoding/json] makes of the payload. *)
From stdpp Require Import base tactics numbers strings list gmap sorting.
From Stdlib Require Import ZArith Lia Sorted.
From Stdlib Require Ascii.
From S2P Require Import Prelude GoLang Time Effects Regex Kernel Httpx Tables Encoding.
From S2P Require Netip Ipam.

(** * Data (types.go) *)

Definition StatePending : string := "pending".
Definition StateDelivered : string := "delivered".
Definition StateFailed : string := "failed".
Definition MaxKinds : Z := 32.
Definition MaxKindLength : Z := 60.
Definition MaxURLLength : Z := 500.
Definition MaxAttempts : Z := 6.
Definition MaxBatch : Z := 100.
Definition MaxDueBatch : Z := 20.
Definition FirstBackoff : Z := 10 * second.
Definition MaxBackoff : Z := 30 * minute.
Definition RetainFailed : Z := 500.

(* go: platform/webhook/types.go Subscription *)
Record Subscription := MkSubscription {
  s_ID : string; s_ProjectID : string; s_Name : string; s_URL : string; s_Secret : string; s_Kinds : list string; s_Active : bool; s_CreatedAt : Z;
}.
(* go: platform/webhook/types.go CreateParams *)
Record CreateParams := MkCreateParams { cp_ProjectID : string; cp_Name : string; cp_URL : string; cp_Kinds : list string }.
(* go: platform/webhook/types.go Delivery *)
Record Delivery := MkDelivery {
  d_ID : string; d_SubscriptionID : string; d_EventID : Z; d_Kind : string; d_Subject : string; d_State : string; d_Attempts : Z;
  d_LastError : string; d_NextAttemptAt : Z; d_CreatedAt : Z; d_UpdatedAt : Z;
}.
#[export] Instance Delivery_eq_dec : EqDecision Delivery.
Proof. solve_decision. Defined.
#[export] Instance Subscription_eq_dec : EqDecision Subscription.
Proof. solve_decision. Defined.
(* go: platform/webhook/types.go Event *)
Record Event := MkEvent {
  e_ID : Z; e_At : Z; e_ProjectID : string; e_Kind : string; e_Subject : string; e_NodeID : string; e_Message : string; e_Severity : string;
}.
(** What the outcome of an attempt writes of a delivery. *)
Definition marked (state : string) (attempts : Z) (lastError : string) (next updated : Z) (d : Delivery) : Delivery :=
  MkDelivery (d_ID d) (d_SubscriptionID d) (d_EventID d) (d_Kind d) (d_Subject d) state attempts lastError next (d_CreatedAt d) updated.

(** The tables; a delivery is kept with its rowid. *)
(* go: platform/webhook/module.go:32-85 webhooks *)
Record WebhookDB := MkWebhookDB { wd_subs : list Subscription; wd_deliveries : list (Z * Delivery); wd_cursor : option Z }.

(** * Targets (target.go) *)

(** What is looked at of a parsed URL. *)
Record URL := MkURL { u_Scheme : string; u_Host : string; u_User : bool; u_String : string }.
Class URLs := { url_Parse : string -> outcome URL }.

(* go: platform/webhook/target.go checkURL *)
Definition checkURL `{!URLs} (raw : string) : outcome string :=
  try _ := guard (MaxURLLength <? slen raw) (EText "the url is too long") in
  try parsed := or_fault (fun _ => EText "that is not a url") (url_Parse (trim_space raw)) in
  try _ := guard (negb (String.eqb (u_Scheme parsed) "http") && negb (String.eqb (u_Scheme parsed) "https"))
    (EText "the scheme must be http or https") in
  try _ := guard (is_empty (u_Host parsed)) (EText "the url has no host") in
  try _ := guard (u_User parsed) (EText "credentials in the url are not carried, so leave them out") in
  Ok (u_String parsed).

(** [netip.ParseAddr] with its zone; [Netip.ParseAddr] is the parser without. *)
Definition parse_zoned (s : list Ascii.ascii) : option (Netip.Addr * list Ascii.ascii) :=
  match Netip.addr_kind s, find_byte 37 s with
  | Some true, Some i =>
      match drop (S i) s, Netip.parse6 (take i s) with
      | _ :: _ as zone, Some a => Some (a, zone)
      | _, _ => None
      end
  | _, _ => option_map (fun a => (a, [])) (Netip.ParseAddr s)
  end.
(** [Addr.Unmap] *)
Definition Unmap (a : Netip.Addr) : Netip.Addr :=
  if Netip.Is4In6 a then Netip.MkAddr false (Netip.a_val a mod 2 ^ 32) else a.
(** The tests of [net/netip]; all but the last look at an IPv4 address inside an IPv6 one. *)
Definition IsLoopback (a : Netip.Addr) : bool :=
  let a := Unmap a in if Netip.Is4 a then Z.shiftr (Netip.a_val a) 24 =? 127 else Netip.a_val a =? 1.
Definition IsLinkLocalUnicast (a : Netip.Addr) : bool :=
  let a := Unmap a in if Netip.Is4 a then Z.shiftr (Netip.a_val a) 16 =? 43518 else Z.shiftr (Netip.a_val a) 118 =? 1018.
Definition IsLinkLocalMulticast (a : Netip.Addr) : bool :=
  let a := Unmap a in
  if Netip.Is4 a then Z.shiftr (Netip.a_val a) 8 =? 14680064 else Z.land (Z.shiftr (Netip.a_val a) 112) 65295 =? 65282.
Definition IsMulticast (a : Netip.Addr) : bool :=
  let a := Unmap a in if Netip.Is4 a then Z.shiftr (Netip.a_val a) 28 =? 14 else Z.shiftr (Netip.a_val a) 120 =? 255.
Definition IsUnspecified (a : Netip.Addr) (zone : list Ascii.ascii) : bool :=
  (Netip.a_val a =? 0) && match zone with [] => true | _ => false end.

(* go: platform/webhook/target.go reachable *)
Definition reachable (address : string) : outcome unit :=
  match SplitHost address with
  | None => Err (EText "could not read the address")
  | Some host =>
      match parse_zoned (bytes_of host) with
      | None => Err (EText "could not read the address")
      | Some (ip, zone) =>
          if IsLoopback ip then Err (EText "refusing to post to loopback: that is the control plane itself")
          else if IsLinkLocalUnicast ip || IsLinkLocalMulticast ip
          then Err (EText "refusing to post to a link-local address: that is where cloud metadata lives")
          else if IsUnspecified ip zone || IsMulticast ip then Err (EText "refusing to post to that address")
          else Ok tt
      end
  end.

(** * Interfaces (service.go) *)

(* go: platform/webhook/service.go Events *)
Record Events (S : Type) := MkEvents { Since : Z -> Z -> M S (list Event); NewestID : M S Z }.
Arguments Since {S} _ _ _.
Arguments NewestID {S} _.

(** The request that is posted. *)
Record Post := MkPost { po_URL : string; po_Body : list Z; po_ContentType : string; po_Event : string; po_Signature : string }.
(** A response: its status, and where it would lead. *)
Record Answer := MkAnswer { an_Status : Z; an_Location : string }.
(** The HTTP client under its guard: the address it dials for a URL, and the exchange over that
    connection. *)
Record Client (S : Type) := MkClient { DialAddress : URL -> outcome string; Exchange : string -> Post -> M S Answer }.
Arguments DialAddress {S} _ _.
Arguments Exchange {S} _ _ _.

(* go: platform/webhook/service.go payload *)
Record payload := MkPayload { pl_Delivery : string; pl_EventID : Z; pl_Kind : string; pl_Subject : string; pl_Attempt : Z }.

(** * Repository (repository.go) *)

Definition errNotFound : error := ESentinel "webhook not found".
Definition errNameUsed : error := ESentinel "webhook name already used".

Definition has_id (id : string) (s : Subscription) : bool := String.eqb (s_ID s) id.
Definition in_project (p : string) (s : Subscription) : bool := String.eqb (s_ProjectID s) p.
Definition has_name (name : string) (s : Subscription) : bool := String.eqb (s_Name s) name.
Definition with_active (active : bool) (s : Subscription) : Subscription :=
  MkSubscription (s_ID s) (s_ProjectID s) (s_Name s) (s_URL s) (s_Secret s) (s_Kinds s) active (s_CreatedAt s).
Definition clash (n s : Subscription) : bool := has_id (s_ID n) s || in_project (s_ProjectID n) s && has_name (s_Name n) s.
Definition by_name (a b : Subscription) : bool := str_ltb (s_Name a) (s_Name b).
Definition by_id (a b : Subscription) : bool := str_ltb (s_ID a) (s_ID b).
Definition of_subscription (id : string) (r : Z * Delivery) : bool := String.eqb (d_SubscriptionID (snd r)) id.
Definition is_delivery (id : string) (r : Z * Delivery) : bool := String.eqb (d_ID (snd r)) id.
Definition is_pending (d : Delivery) : bool := String.eqb (d_State d) StatePending.
Definition next_text (d : Delivery) : string := rfc3339nano (d_NextAttemptAt d).
Definition by_next (a b : Delivery) : bool := str_ltb (next_text a) (next_text b).
Definition latest_id (a b : Delivery) : bool := str_ltb (d_ID b) (d_ID a).
Definition top_rowid (rows : list (Z * Delivery)) : Z := foldr (fun r m => Z.max (fst r) m) 0 rows.

(** INSERTs of deliveries, one after the other. *)
Fixpoint insert_deliveries (rows : list (Z * Delivery)) (ds : list Delivery) : outcome (list (Z * Delivery)) :=
  match ds with
  | [] => Ok rows
  | d :: ds' =>
      if existsb (is_delivery (d_ID d)) rows then Err (EWrap "enqueue a delivery" (EText "UNIQUE constraint failed: webhook_deliveries.id"))
      else insert_deliveries (rows ++ [(top_rowid rows + 1, d)]) ds'
  end.

Section repository.
Context {S : Type} `{!Has WebhookDB S}.

Definition on_subs {A} (q : list Subscription -> outcome A * list Subscription) (db : WebhookDB) : outcome A * WebhookDB :=
  let '(r, subs) := q (wd_subs db) in (r, MkWebhookDB subs (wd_deliveries db) (wd_cursor db)).

(* go: platform/webhook/repository.go repository.insert *)
Definition insert (s : Subscription) : M S unit := sql "insert webhook" (on_subs (insert_row (clash s) errNameUsed s)).
(* go: platform/webhook/repository.go repository.load *)
Definition load (q : list Subscription -> list Subscription) : M S (list Subscription) :=
  query "list webhooks" (fun db => Ok (q (wd_subs db))).
(* go: platform/webhook/repository.go repository.listIn *)
Definition listIn_rows (projectID : string) : M S (list Subscription) :=
  load (fun subs => sliceStable by_name (List.filter (in_project projectID) subs)).
(* go: platform/webhook/repository.go repository.active *)
Definition active : M S (list Subscription) := load (fun subs => sliceStable by_id (List.filter s_Active subs)).
Definition first_of (found : list Subscription) : M S Subscription :=
  match found with [] => fail errNotFound | s :: _ => ret s end.
(* go: platform/webhook/repository.go repository.byID *)
Definition byID (projectID id : string) : M S Subscription :=
  let! found := load (List.filter (fun s => in_project projectID s && has_id id s)) in first_of found.
(* go: platform/webhook/repository.go repository.byName *)
Definition byName (projectID name : string) : M S Subscription :=
  let! found := load (List.filter (fun s => in_project projectID s && has_name name s)) in first_of found.
(* go: platform/webhook/repository.go repository.setActive *)
Definition setActive_row (id : string) (active : bool) : M S unit :=
  sql "set the webhook state" (on_subs (update_where (has_id id) (with_active active) errNotFound)).
(** One transaction. *)
(* go: platform/webhook/repository.go repository.delete *)
Definition delete_row (id : string) : M S unit :=
  sql "delete webhook" (fun db =>
    match delete_where (has_id id) errNotFound (wd_subs db) with
    | (Ok _, subs) => (Ok tt, MkWebhookDB subs (List.filter (fun r => negb (of_subscription id r)) (wd_deliveries db)) (wd_cursor db))
    | (Err e, _) => (Err e, db)
    end).
(* go: platform/webhook/repository.go repository.cursor *)
Definition cursor : M S Z := query "read the webhook cursor" (fun db => Ok (default (-1) (wd_cursor db))).
(* go: platform/webhook/repository.go repository.setCursor *)
Definition setCursor (at_ : Z) : M S unit :=
  sql "move the webhook cursor" (fun db => (Ok tt, MkWebhookDB (wd_subs db) (wd_deliveries db) (Some at_))).
(** One transaction. *)
(* go: platform/webhook/repository.go repository.enqueue *)
Definition enqueue (ds : list Delivery) (at_ : Z) : M S unit :=
  sql "enqueue a delivery" (fun db =>
    match insert_deliveries (wd_deliveries db) ds with
    | Ok rows => (Ok tt, MkWebhookDB (wd_subs db) rows (Some at_))
    | Err e => (Err e, db)
    end).
(* go: platform/webhook/repository.go repository.loadDeliveries *)
Definition loadDeliveries (q : list Delivery -> list Delivery) : M S (list Delivery) :=
  query "list deliveries" (fun db => Ok (q (map snd (wd_deliveries db)))).
(* go: platform/webhook/repository.go repository.due *)
Definition due (now : Z) (limit : Z) : M S (list Delivery) :=
  loadDeliveries (fun rows => take (Z.to_nat limit) (sliceStable by_next
    (List.filter (fun d => is_pending d && negb (str_ltb (rfc3339nano now) (next_text d))) rows))).
(* go: platform/webhook/repository.go repository.deliveriesOf *)
Definition deliveriesOf (subscriptionID : string) (limit : Z) : M S (list Delivery) :=
  loadDeliveries (fun rows => take (Z.to_nat limit) (sliceStable latest_id
    (List.filter (fun d => String.eqb (d_SubscriptionID d) subscriptionID) rows))).
(* go: platform/webhook/repository.go repository.markDelivery *)
Definition markDelivery (d : Delivery) : M S unit :=
  sql "mark a delivery" (fun db => (Ok tt, MkWebhookDB (wd_subs db)
    (map (fun r => if is_delivery (d_ID d) r
                   then (fst r, marked (d_State d) (d_Attempts d) (d_LastError d) (d_NextAttemptAt d) (d_UpdatedAt d) (snd r)) else r)
         (wd_deliveries db)) (wd_cursor db))).
(* go: platform/webhook/repository.go repository.pruneDeliveries *)
Definition pruneDeliveries (retain : Z) : M S unit :=
  sql "prune deliveries" (fun db => (Ok tt, MkWebhookDB (wd_subs db)
    (List.filter (fun r => negb (negb (is_pending (snd r)) && (fst r <=? top_rowid (wd_deliveries db) - retain))) (wd_deliveries db)) (wd_cursor db))).
End repository.

(* go: platform/webhook/service.go translate *)
Definition translate (err : error) : error :=
  if errors_Is err "webhook not found" then NotFound "webhook_not_found" "no webhook with that name or id exists"
  else if errors_Is err "webhook name already used" then
    Conflict "webhook_name_taken" "a webhook with that name already exists in this project"
  else err.

(** * Service (service.go) *)

(** [strings.ContainsAny(s, " \t\r\n")] and [strings.Contains(s, "*")] *)
Definition has_blank (s : string) : bool := existsb (fun c => (code c =? 32) || (code c =? 9) || (code c =? 13) || (code c =? 10)) (bytes_of s).
Definition has_star (s : string) : bool := existsb (fun c => code c =? 42) (bytes_of s).

(* go: platform/webhook/service.go:94-110 kind *)
Definition check_kind (kind : string) : outcome (list string) :=
  let kind := trim_space kind in
  if is_empty kind then Ok []
  else
    try _ := guard (MaxKindLength <? slen kind) (Invalid "invalid_kind" ("a kind is at most " +:+ itoa MaxKindLength +:+ " characters")) in
    try _ := guard (has_blank kind) (Invalid "invalid_kind" "a kind carries no whitespace") in
    try _ := guard (has_star kind && negb (has_suffix kind ".*")) (Invalid "invalid_kind" "the only wildcard is a trailing .* such as instance.*") in
    Ok [kind].
Fixpoint check_each (kinds : list string) : outcome (list string) :=
  match kinds with
  | [] => Ok []
  | k :: kinds' => try cleaned := check_kind k in try rest := check_each kinds' in Ok (cleaned ++ rest)
  end.
(* go: platform/webhook/service.go checkKinds *)
Definition checkKinds (kinds : list string) : outcome (list string) :=
  try _ := guard (MaxKinds <? len kinds) (Invalid "too_many_kinds" ("a webhook filters on at most " +:+ itoa MaxKinds +:+ " kinds")) in
  check_each kinds.

(* go: platform/webhook/service.go newSecret *)
Definition newSecret {S} : M S string :=
  let! raw := rand in
  ret ("whsec_" +:+ base64_encode (read_bytes 32 raw)).

(* go: platform/webhook/service.go matches *)
Definition matches (kinds : list string) (kind : string) : bool :=
  match kinds with
  | [] => true
  | _ => existsb (fun wanted => String.eqb wanted kind || has_suffix wanted ".*" && has_prefix kind (trim_suffix wanted "*")) kinds
  end.

(* go: platform/webhook/service.go backoffFor *)
Fixpoint double_wait (n : nat) (wait : Z) : Z :=
  match n with
  | O => wait
  | Datatypes.S n' => let wait := wrap64 (wait * 2) in if MaxBackoff <=? wait then MaxBackoff else double_wait n' wait
  end.
(* go: platform/webhook/service.go backoffFor *)
Definition backoffFor (attempts : Z) : Z := double_wait (Z.to_nat (attempts - 1)) FirstBackoff.

(* go: platform/webhook/service.go sign *)
Definition sign (secret : string) (body : list Z) : string := "sha256=" +:+ hex_encode (hmac (string_bytes secret) body).
(* go: platform/webhook/service.go clip *)
Definition clip (value : string) (limit : Z) : string := if slen value <=? limit then value else str_take limit value.

Section service.
Context {S : Type} `{!Has WebhookDB S} `{!URLs}.
Context (Marshal : payload -> list Z) (events : option (Events S)) (client : Client S).

(* go: platform/webhook/service.go service.create *)
Definition create (params : CreateParams) : M S Subscription :=
  lift (validate_Name "name" (cp_Name params)) ;;;
  let! target := lift (or_fault (fun err => Invalid "invalid_url" (error_text err)) (checkURL (cp_URL params))) in
  let! kinds := lift (checkKinds (cp_Kinds params)) in
  let! secret := newSecret in
  let! id := ids_New "wh" in
  let! at_ := now in
  let sub := MkSubscription id (cp_ProjectID params) (cp_Name params) target secret kinds true at_ in
  mapped translate (insert sub) ;;;
  ret sub.

(* go: platform/webhook/service.go service.find *)
Definition find (projectID id : string) : M S Subscription :=
  let! r := attempt (byID projectID id) in
  mapped translate
    (match r with
     | Ok sub => ret sub
     | Err err => if errors_Is err "webhook not found" then byName projectID id else fail err
     end).
(* go: platform/webhook/service.go service.listIn *)
Definition listIn (projectID : string) : M S (list Subscription) := mapped translate (listIn_rows projectID).
(* go: platform/webhook/service.go service.setActive *)
Definition setActive (projectID id : string) (active : bool) : M S Subscription :=
  let! sub := find projectID id in
  mapped translate (setActive_row (s_ID sub) active) ;;;
  find projectID (s_ID sub).
(* go: platform/webhook/service.go service.remove *)
Definition remove (projectID id : string) : M S unit :=
  let! sub := find projectID id in
  mapped translate (delete_row (s_ID sub)).
(* go: platform/webhook/service.go service.deliveries *)
Definition deliveries (projectID id : string) (limit : Z) : M S (list Delivery) :=
  let! sub := find projectID id in
  mapped translate (deliveriesOf (s_ID sub) (if (limit <=? 0) || (MaxBatch <? limit) then MaxBatch else limit)).

(** ** From events to deliveries *)

Definition wants (entry : Event) (sub : Subscription) : bool := String.eqb (s_ProjectID sub) (e_ProjectID entry) && matches (s_Kinds sub) (e_Kind entry).
(* go: platform/webhook/service.go:240-250 queued *)
Definition delivery_of (id : string) (at_ : Z) (entry : Event) (sub : Subscription) : Delivery :=
  MkDelivery id (s_ID sub) (e_ID entry) (e_Kind entry) (e_Subject entry) StatePending 0 "" at_ at_ at_.
(* go: platform/webhook/service.go:236-251 subs *)
Definition queue_entry (at_ : Z) (subs : list Subscription) (entry : Event) (queued : list Delivery) : M S (list Delivery) :=
  foldM (fun sub queued =>
    if negb (wants entry sub) then ret queued
    else let! id := ids_New "whd" in ret (queued ++ [delivery_of id at_ entry sub])) subs queued.
Definition highest (at_ : Z) (entries : list Event) : Z := fold_left (fun h e => if h <? e_ID e then e_ID e else h) entries at_.
(* go: platform/webhook/service.go service.fanOut *)
Definition fanOut : M S Z :=
  match events with
  | None => ret 0
  | Some feed =>
      let! at_ := mapped translate cursor in
      if at_ <? 0 then
        let! newest := NewestID feed in
        mapped translate (setCursor newest) ;;;
        ret 0
      else
        let! subs := mapped translate active in
        let! entries := Since feed at_ MaxBatch in
        match entries with
        | [] => ret 0
        | _ =>
            let! time := now in
            let! queued := foldM (queue_entry time subs) entries [] in
            mapped translate (enqueue queued (highest at_ entries)) ;;;
            ret (len queued)
        end
  end.

(** ** Delivering *)

(** The redirects [net/http] would follow; the client refuses them. *)
Definition redirected (a : Answer) : bool :=
  existsb (Z.eqb (an_Status a)) [301; 302; 303; 307; 308] && negb (is_empty (an_Location a)).
(* go: platform/webhook/target.go newClient *)
Definition Do (req : Post) : M S Answer :=
  let! url := lift (url_Parse (po_URL req)) in
  let! address := lift (DialAddress client url) in
  lift (reachable address) ;;;
  let! answer := Exchange client address req in
  lift (guard (redirected answer) (EText "the target redirected, which is not followed")) ;;;
  ret answer.
(** The request that is posted for a delivery. *)
(* go: platform/webhook/service.go:353-370 Header *)
Definition posted (sub : Subscription) (d : Delivery) : Post :=
  let body := Marshal (MkPayload (d_ID d) (d_EventID d) (d_Kind d) (d_Subject d) (d_Attempts d + 1)) in
  MkPost (s_URL sub) body "application/json" (d_Kind d) (sign (s_Secret sub) body).
(** The error texts of the client reach the row without the wrapping of [url.Error]. *)
(* go: platform/webhook/service.go service.post *)
Definition post (sub : Subscription) (d : Delivery) : M S unit :=
  let! answer := Do (posted sub d) in
  lift (guard ((an_Status answer <? 200) || (299 <? an_Status answer)) (EText ("the target answered " +:+ itoa (an_Status answer)))).

(** The delivery after an attempt that failed. *)
(* go: platform/webhook/service.go:316-326 Attempts *)
Definition retried (cause : error) (now : Z) (d : Delivery) : Delivery :=
  let attempts := d_Attempts d + 1 in
  if MaxAttempts <=? attempts
  then marked StateFailed attempts (clip (error_text cause) MaxURLLength) (d_NextAttemptAt d) now d
  else marked (d_State d) attempts (clip (error_text cause) MaxURLLength) (time_add now (backoffFor attempts)) now d.
(* go: platform/webhook/service.go service.retry *)
Definition retry (d : Delivery) (cause : error) (now : Z) : M S unit :=
  let! _ := attempt (markDelivery (retried cause now d)) in ret tt.
(* go: platform/webhook/service.go:283-286 State *)
Definition orphaned (now : Z) (d : Delivery) : Delivery :=
  marked StateFailed (d_Attempts d) "the webhook is paused or gone" (d_NextAttemptAt d) now d.
(* go: platform/webhook/service.go:298-301 State *)
Definition delivered (now : Z) (d : Delivery) : Delivery :=
  marked StateDelivered (d_Attempts d + 1) "" (d_NextAttemptAt d) now d.
(* go: platform/webhook/service.go:281-308 sub *)
Definition deliver_one (now : Z) (live : gmap string Subscription) (d : Delivery) (sent : Z) : M S Z :=
  match live !! d_SubscriptionID d with
  | None => let! _ := attempt (markDelivery (orphaned now d)) in ret sent
  | Some sub =>
      let! r := attempt (post sub d) in
      match r with
      | Err cause => retry d cause now ;;; ret sent
      | Ok _ =>
          let! r := attempt (markDelivery (delivered now d)) in
          ret (match r with Ok _ => sent + 1 | Err _ => sent end)
      end
  end.
(* go: platform/webhook/service.go service.drain *)
Definition drain : M S Z :=
  let! time := now in
  let! late := mapped translate (due time MaxDueBatch) in
  match late with
  | [] => ret 0
  | _ =>
      let! subs := mapped translate active in
      let live := fold_left (fun m s => <[s_ID s := s]> m) subs ∅ in
      let! sent := foldM (deliver_one time live) late 0 in
      let! _ := attempt (pruneDeliveries RetainFailed) in
      ret sent
  end.
(** Failures are logged. *)
(* go: platform/webhook/module.go Module.Pump *)
Definition Pump : M S unit :=
  let! _ := attempt fanOut in
  let! _ := attempt drain in
  ret tt.
End service.

(** * Handlers (handler.go) *)

(* go: platform/webhook/handler.go createRequest *)
Record createRequest := MkCreateRequest { cr_Name : string; cr_URL : string; cr_Kinds : list string }.
(* go: platform/webhook/handler.go response *)
Record response := MkResponse {
  o_ID : string; o_Name : string; o_URL : string; o_Kinds : list string; o_Active : bool; o_Secret : string; o_CreatedAt : string;
}.
(* go: platform/webhook/handler.go deliveryResponse *)
Record deliveryResponse := MkDeliveryResponse {
  do_ID : string; do_EventID : Z; do_Kind : string; do_Subject : string; do_State : string; do_Attempts : Z; do_LastError : string;
  do_NextAttemptAt : string; do_CreatedAt : string;
}.
Inductive body :=
| BWebhook (w : response)
| BWebhooks (ws : list response)
| BDeliveries (ds : list deliveryResponse).

(* go: platform/webhook/handler.go toResponse *)
Definition toResponse (s : Subscription) (withSecret : bool) : response :=
  MkResponse (s_ID s) (s_Name s) (s_URL s) (s_Kinds s) (s_Active s) (if withSecret then s_Secret s else "") (rfc3339nano (s_CreatedAt s)).
(* go: platform/webhook/handler.go:145-158 deliveryResponse *)
Definition toDelivery (d : Delivery) : deliveryResponse :=
  MkDeliveryResponse (d_ID d) (d_EventID d) (d_Kind d) (d_Subject d) (d_State d) (d_Attempts d) (d_LastError d)
    (if is_pending d then rfc3339nano (d_NextAttemptAt d) else "") (rfc3339nano (d_CreatedAt d)).

Section handlers.
Context {S : Type} `{!Has WebhookDB S} `{!URLs}.
Context (Marshal : payload -> list Z) (events : option (Events S)) (client : Client S).

(* go: platform/webhook/handler.go handler.create *)
Definition handle_create (sc : Scope) (req : outcome createRequest) : M S (Reply body) :=
  let! req := lift req in
  let! created := create (MkCreateParams (sc_ProjectID sc) (cr_Name req) (cr_URL req) (cr_Kinds req)) in
  Write StatusCreated (BWebhook (toResponse created true)).
(* go: platform/webhook/handler.go handler.list *)
Definition handle_list (sc : Scope) : M S (Reply body) :=
  let! subs := listIn (sc_ProjectID sc) in
  Write StatusOK (BWebhooks (map (fun s => toResponse s false) subs)).
(* go: platform/webhook/handler.go handler.get *)
Definition handle_get (sc : Scope) (id : string) : M S (Reply body) :=
  let! found := find (sc_ProjectID sc) id in
  Write StatusOK (BWebhook (toResponse found false)).
(* go: platform/webhook/handler.go handler.setActive *)
Definition handle_setActive (sc : Scope) (id : string) (active : bool) : M S (Reply body) :=
  let! found := setActive (sc_ProjectID sc) id active in
  Write StatusOK (BWebhook (toResponse found false)).
(* go: platform/webhook/handler.go handler.deliveries *)
Definition handle_deliveries (sc : Scope) (id q_limit : string) : M S (Reply body) :=
  let! found := deliveries (sc_ProjectID sc) id (default 0 (atoi q_limit)) in
  Write StatusOK (BDeliveries (map toDelivery found)).
(* go: platform/webhook/handler.go handler.delete *)
Definition handle_delete (sc : Scope) (id : string) : M S (Reply body) :=
  remove (sc_ProjectID sc) id ;;;
  WriteHeader StatusNoContent.

(** What the module is asked, and the ticker. *)
Inductive request :=
| ReqCreate (sc : Scope) (req : outcome createRequest)
| ReqList (sc : Scope)
| ReqGet (sc : Scope) (id : string)
| ReqSetActive (sc : Scope) (id : string) (active : bool)
| ReqDeliveries (sc : Scope) (id q_limit : string)
| ReqDelete (sc : Scope) (id : string)
| ReqPump.
(* go: platform/webhook/module.go Module.Routes *)
Definition serve (r : request) : M S (Reply body) :=
  match r with
  | ReqCreate sc req => handle_create sc req
  | ReqList sc => handle_list sc
  | ReqGet sc id => handle_get sc id
  | ReqSetActive sc id active => handle_setActive sc id active
  | ReqDeliveries sc id q_limit => handle_deliveries sc id q_limit
  | ReqDelete sc id => handle_delete sc id
  | ReqPump => Pump Marshal events client ;;; WriteHeader StatusNoContent
  end.
End handlers.

(** * The state machine

    What a tenant may do to its subscriptions, and what the pump does to the deliveries. *)

Inductive actor := Tenant (p : string) | Ticker.

Record sub_ok (s : Subscription) : Prop := {
  so_kinds : len (s_Kinds s) <= MaxKinds /\ Forall (fun k => 1 <= slen k <= MaxKindLength /\ has_blank k = false) (s_Kinds s);
}.
(** A delivery in its life. *)
Record delivery_ok (d : Delivery) : Prop := {
  do_state : d_State d ∈ [StatePending; StateDelivered; StateFailed];
  do_attempts : 0 <= d_Attempts d <= MaxAttempts;
  do_pending : d_State d = StatePending -> d_Attempts d < MaxAttempts;
  do_delivered : d_State d = StateDelivered -> 1 <= d_Attempts d;
}.
(** What one attempt makes of a pending delivery. *)
Inductive attempted (db : WebhookDB) (now : Z) (d : Delivery) : Delivery -> Prop :=
| A_orphaned : (forall s, s ∈ wd_subs db -> s_Active s = true -> s_ID s <> d_SubscriptionID d) -> attempted db now d (orphaned now d)
| A_delivered : attempted db now d (delivered now d)
| A_retried cause : attempted db now d (retried cause now d).

(** The deliveries of a fan-out: one for each event and each active subscription that wants it. *)
Definition fan_pairs (subs : list Subscription) (entries : list Event) : list (Event * Subscription) :=
  concat (map (fun e => map (fun s => (e, s)) (List.filter (wants e) subs)) entries).
Definition fanned (now : Z) (subs : list Subscription) (entries : list Event) (queued : list Delivery) : Prop :=
  Forall2 (fun es d => exists id, d = delivery_of id now (fst es) (snd es)) (fan_pairs subs entries) queued.
Definition active_subs (db : WebhookDB) : list Subscription := sliceStable by_id (List.filter s_Active (wd_subs db)).

Section machine.
(** [feeds c entries]: the feed of events may answer [entries] behind the number [c]. *)
Context (feeds : Z -> list Event -> Prop).

Inductive change (a : actor) (db : WebhookDB) : WebhookDB -> Prop :=
| C_create s : a = Tenant (s_ProjectID s) -> sub_ok s -> existsb (clash s) (wd_subs db) = false -> s_Active s = true ->
    change a db (MkWebhookDB (wd_subs db ++ [s]) (wd_deliveries db) (wd_cursor db))
| C_active s b : a = Tenant (s_ProjectID s) -> s ∈ wd_subs db ->
    change a db (MkWebhookDB (map (fun x => if has_id (s_ID s) x then with_active b x else x) (wd_subs db)) (wd_deliveries db) (wd_cursor db))
| C_remove s : a = Tenant (s_ProjectID s) -> s ∈ wd_subs db ->
    change a db (MkWebhookDB (List.filter (fun x => negb (has_id (s_ID s) x)) (wd_subs db))
      (List.filter (fun r => negb (of_subscription (s_ID s) r)) (wd_deliveries db)) (wd_cursor db))
| C_seed n : a = Ticker -> 0 <= n -> (forall c, wd_cursor db = Some c -> c < 0) -> change a db (MkWebhookDB (wd_subs db) (wd_deliveries db) (Some n))
| C_fan c entries now queued rows : a = Ticker -> wd_cursor db = Some c -> 0 <= c -> feeds c entries -> entries <> [] ->
    fanned now (active_subs db) entries queued -> insert_deliveries (wd_deliveries db) queued = Ok rows ->
    change a db (MkWebhookDB (wd_subs db) rows (Some (highest c entries)))
| C_mark now d d' : a = Ticker -> d ∈ map snd (wd_deliveries db) -> d_State d = StatePending -> attempted db now d d' ->
    change a db (MkWebhookDB (wd_subs db)
      (map (fun r => if is_delivery (d_ID d) r then (fst r, d') else r) (wd_deliveries db)) (wd_cursor db))
| C_prune : a = Ticker ->
    change a db (MkWebhookDB (wd_subs db)
      (List.filter (fun r => negb (negb (is_pending (snd r)) && (fst r <=? top_rowid (wd_deliveries db) - RetainFailed))) (wd_deliveries db))
      (wd_cursor db)).
Definition history (a : actor) : WebhookDB -> WebhookDB -> Prop := rtc (change a).
#[export] Instance history_preorder a : PreOrder (history a).
Proof. unfold history. typeclasses eauto. Qed.
End machine.

(** The deliveries without their rowids. *)
Definition outbox (db : WebhookDB) : list Delivery := map snd (wd_deliveries db).
Definition d_key (d : Delivery) : string * Z := (d_SubscriptionID d, d_EventID d).

Record hook_inv (db : WebhookDB) : Prop := {
  hi_id : unique_by (fun s => Some (s_ID s)) (wd_subs db);
  hi_name : unique_by (fun s => Some (s_ProjectID s, s_Name s)) (wd_subs db);
  hi_sub : Forall sub_ok (wd_subs db);
  hi_did : NoDup (map d_ID (outbox db));
  hi_once : NoDup (map d_key (outbox db));
  hi_row : Forall delivery_ok (outbox db);
  hi_behind : Forall (fun d => exists c, wd_cursor db = Some c /\ d_EventID d <= c) (outbox db);
}.

(** What the feed promises: numbers that ascend behind the one asked about. *)
Definition feed_ok (c : Z) (entries : list Event) : Prop :=
  StronglySorted (fun a b => e_ID a < e_ID b) entries /\ Forall (fun e => c < e_ID e) entries.

(** ** Fanning out *)

Lemma highest_spec c entries : c <= highest c entries /\ (forall e, e ∈ entries -> e_ID e <= highest c entries) /\
  (highest c entries = c \/ exists e, e ∈ entries /\ highest c entries = e_ID e).
Proof.
  unfold highest. revert c. induction entries as [|e entries IH]; intros c; simpl; [split_and!; [lia|set_solver|by left]|].
  destruct (IH (if c <? e_ID e then e_ID e else c)) as (H1 & H2 & H3). set (h := fold_left _ _ _) in *.
  assert (c <= (if c <? e_ID e then e_ID e else c) /\ e_ID e <= (if c <? e_ID e then e_ID e else c)) as [Hc He]
    by (destruct (c <? e_ID e) eqn:E; breflect; lia).
  split_and!; [lia|intros x [->|Hx]%elem_of_cons; [lia|by apply H2]|].
  destruct H3 as [H3|(x & Hx & H3)]; [|right; exists x; set_solver]. destruct (c <? e_ID e); [right; exists e; set_solver|by left].
Qed.
Lemma fan_pairs_elem subs entries e s : (e, s) ∈ fan_pairs subs entries <-> e ∈ entries /\ s ∈ subs /\ wants e s = true.
Proof.
  unfold fan_pairs. rewrite list_elem_of_In, in_concat. split.
  - intros (l & Hl & Hx). apply in_map_iff in Hl as (e' & <- & He). apply in_map_iff in Hx as (s' & [= -> ->] & Hs).
    rewrite <- list_elem_of_In in Hs. apply elem_of_filter_bool in Hs as [Hs Hw]. by rewrite list_elem_of_In.
  - intros (He & Hs & Hw). exists (map (fun s => (e, s)) (List.filter (wants e) subs)). split.
    + apply in_map_iff. exists e. by rewrite <- list_elem_of_In.
    + apply in_map. rewrite <- list_elem_of_In. by apply elem_of_filter_bool.
Qed.
Lemma fan_pairs_nodup subs entries : NoDup (map s_ID subs) -> StronglySorted (fun a b => e_ID a < e_ID b) entries ->
  NoDup (map (fun es => (s_ID (snd es), e_ID (fst es))) (fan_pairs subs entries)).
Proof.
  intros Hn Hs. induction Hs as [|e entries _ IH Hf]; [constructor|]. unfold fan_pairs in *. simpl. rewrite map_app. apply NoDup_app. split_and!.
  - rewrite map_map. simpl. assert (Hm : NoDup (map s_ID (List.filter (wants e) subs))) by by apply NoDup_map_filter.
    revert Hm. generalize (List.filter (wants e) subs). intros l. induction l as [|s l IHl]; simpl; [constructor|]. rewrite !NoDup_cons.
    intros [H1 H2]. split; [|by apply IHl]. intros Hin. apply H1. apply list_elem_of_In, in_map_iff in Hin as (x & [= E] & Hx). rewrite <- E.
    apply list_elem_of_In. by apply in_map.
  - intros k Hk Hk2. rewrite Forall_forall in Hf. apply list_elem_of_In, in_map_iff in Hk as ([e1 s1] & <- & H1), Hk2 as ([e2 s2] & [= E1 E2] & H2).
    apply in_map_iff in H1 as (x & [= <- <-] & _). rewrite <- list_elem_of_In in H2. apply fan_pairs_elem in H2 as (He & _). specialize (Hf e2 He).
    cbn in E2. lia.
  - exact IH.
Qed.
Lemma fanned_keys now subs entries queued : fanned now subs entries queued ->
  map d_key queued = map (fun es => (s_ID (snd es), e_ID (fst es))) (fan_pairs subs entries).
Proof. intros H. unfold fanned in H. induction H as [|es d l l' (id & ->) _ IH]; [done|]. simpl. by rewrite IH. Qed.
Lemma fanned_elem now subs entries queued d : fanned now subs entries queued -> d ∈ queued ->
  exists id e s, d = delivery_of id now e s /\ e ∈ entries /\ s ∈ subs /\ wants e s = true.
Proof.
  intros H Hd. apply list_elem_of_lookup in Hd as [i Hi]. apply (Forall2_lookup_r _ _ _ _ _ H) in Hi as ([e s] & Hes & id & ->).
  apply list_elem_of_lookup_2, fan_pairs_elem in Hes as (He & Hs & Hw). by exists id, e, s.
Qed.
Lemma insert_deliveries_ok rows ds rows' : insert_deliveries rows ds = Ok rows' -> NoDup (map d_ID (map snd rows)) ->
  map snd rows' = map snd rows ++ ds /\ NoDup (map d_ID (map snd rows')).
Proof.
  revert rows. induction ds as [|d ds IH]; intros rows; simpl; [intros [= <-]; by rewrite app_nil_r|].
  destruct (existsb _ rows) eqn:E; [done|]. intros Hi Hn. apply IH in Hi as [E1 E2].
  - split; [|done]. by rewrite E1, map_app, <- app_assoc.
  - rewrite !map_app. simpl. apply NoDup_app. split_and!; [done| |by repeat constructor; set_solver].
    intros k Hk ->%list_elem_of_singleton. rewrite existsb_false, Forall_forall in E. apply list_elem_of_In in Hk.
    rewrite map_map in Hk. apply in_map_iff in Hk as (r & Er & Hr). rewrite <- list_elem_of_In in Hr. specialize (E r Hr).
    unfold is_delivery in E. by rewrite Er, String.eqb_refl in E.
Qed.
Lemma top_rowid_ge rows r : r ∈ rows -> fst r <= top_rowid rows.
Proof. induction rows as [|x rows IH]; [set_solver|]. simpl. intros [->|H]%elem_of_cons; [lia|]. specialize (IH H). lia. Qed.

Lemma attempted_same db now d d' : attempted db now d d' -> d_ID d' = d_ID d /\ d_key d' = d_key d.
Proof. intros [H| |cause]; [done..|]. unfold retried. by destruct (MaxAttempts <=? _). Qed.
Lemma attempted_ok db now d d' : attempted db now d d' -> d_State d = StatePending -> delivery_ok d -> delivery_ok d'.
Proof.
  intros H Hs [H1 H2 H3 H4]. specialize (H3 Hs). destruct H as [H| |cause].
  - constructor; cbn; [set_solver|lia|done..].
  - constructor; cbn; [set_solver|unfold MaxAttempts in *; lia|done|lia].
  - unfold retried. destruct (MaxAttempts <=? d_Attempts d + 1) eqn:E; constructor; cbn; try (unfold MaxAttempts in *; breflect; lia); try set_solver; try done.
Qed.

(** ** The invariant *)

Section preservation.
Context (feeds : Z -> list Event -> Prop) (Hfeeds : forall c entries, feeds c entries -> feed_ok c entries).

Lemma keys_filtered {K} (f : Delivery -> K) (p : Z * Delivery -> bool) rows : NoDup (map f (map snd rows)) -> NoDup (map f (map snd (List.filter p rows))).
Proof. rewrite !map_map. apply NoDup_map_filter. Qed.
Lemma outbox_filtered (P : Delivery -> Prop) (p : Z * Delivery -> bool) rows : Forall P (map snd rows) -> Forall P (map snd (List.filter p rows)).
Proof. rewrite !Forall_map. apply Forall_filter_bool. Qed.
Lemma keys_marked {K} (f : Delivery -> K) d d' rows : f d' = f d -> (forall x, x ∈ map snd rows -> d_ID x = d_ID d -> x = d) ->
  map f (map snd (map (fun r => if is_delivery (d_ID d) r then (fst r, d') else r) rows)) = map f (map snd rows).
Proof.
  intros Hf Hu. rewrite !map_map. apply map_ext_in. intros r Hr. unfold is_delivery. destruct (String.eqb (d_ID (snd r)) (d_ID d)) eqn:E; [|done].
  apply String.eqb_eq in E. cbn [snd]. rewrite (Hu (snd r)); [done| |done]. rewrite list_elem_of_In. by apply in_map.
Qed.
Lemma outbox_marked (P : Delivery -> Prop) d d' rows : P d' -> Forall P (map snd rows) ->
  Forall P (map snd (map (fun r => if is_delivery (d_ID d) r then (fst r, d') else r) rows)).
Proof. intros Hd H. rewrite !Forall_map in *. eapply Forall_impl; [exact H|]. intros r Hr. by destruct (is_delivery (d_ID d) r). Qed.
Lemma same_delivery rows (x d : Delivery) : NoDup (map d_ID rows) -> x ∈ rows -> d ∈ rows -> d_ID x = d_ID d -> x = d.
Proof.
  intros Hn Hx Hd E. apply (unique_by_eq (fun d => Some (d_ID d)) rows x d (d_ID d)); [|done|done|by rewrite E|done].
  unfold unique_by. by rewrite omap_total.
Qed.
Lemma active_ids db : unique_by (fun s => Some (s_ID s)) (wd_subs db) -> NoDup (map s_ID (active_subs db)).
Proof. intros Hu. unfold active_subs. rewrite sliceStable_perm. apply NoDup_map_filter. unfold unique_by in Hu. by rewrite omap_total in Hu. Qed.

Lemma hook_subs_inv db subs : hook_inv db -> unique_by (fun s => Some (s_ID s)) subs -> unique_by (fun s => Some (s_ProjectID s, s_Name s)) subs ->
  Forall sub_ok subs -> hook_inv (MkWebhookDB subs (wd_deliveries db) (wd_cursor db)).
Proof. intros [H1 H2 H3 H4 H5 H6 H7] A B C. by constructor. Qed.
Lemma hook_rows_inv db p : hook_inv db -> hook_inv (MkWebhookDB (wd_subs db) (List.filter p (wd_deliveries db)) (wd_cursor db)).
Proof.
  intros [H1 H2 H3 H4 H5 H6 H7]. constructor; try done; unfold outbox in *; cbn [wd_deliveries wd_cursor];
    [by apply keys_filtered..|by apply outbox_filtered|by apply outbox_filtered].
Qed.

Lemma hook_change_inv a db db' : change feeds a db db' -> hook_inv db -> hook_inv db'.
Proof.
  intros [s _ Hok Hc _|s b _ Hs|s _ Hs|n _ Hn Hc|c entries now queued rows _ Hc Hc0 Hf _ Hq Hi|now d d' _ Hd Hst Ha|_] Hinv.
  - destruct Hinv as [H1 H2 H3 H4 H5 H6 H7]. rewrite existsb_false, Forall_forall in Hc. constructor; try done; cbn [wd_subs].
    + apply unique_by_app; [done|]. intros x k Hx [= <-] [= E]. specialize (Hc x Hx). unfold clash, has_id in Hc. by rewrite E, String.eqb_refl in Hc.
    + apply unique_by_app; [done|]. intros x k Hx [= <-] [= E1 E2]. specialize (Hc x Hx). unfold clash, in_project, has_name in Hc.
      by rewrite E1, E2, !String.eqb_refl, orb_true_r in Hc.
    + apply Forall_app. split; [done|by apply List.Forall_cons].
  - pose proof Hinv as [H1 H2 H3 _ _ _ _]. apply hook_subs_inv; [done|apply unique_by_map; [intros x; by destruct (has_id (s_ID s) x)|done]..|].
    apply Forall_map. eapply Forall_impl; [exact H3|]. intros x [Hx]. destruct (has_id (s_ID s) x); by constructor.
  - pose proof Hinv as [H1 H2 H3 _ _ _ _]. change (hook_inv (MkWebhookDB (List.filter (fun x => negb (has_id (s_ID s) x)) (wd_subs db))
      (wd_deliveries (MkWebhookDB (wd_subs db) (List.filter (fun r => negb (of_subscription (s_ID s) r)) (wd_deliveries db)) (wd_cursor db))) (wd_cursor db))).
    apply (hook_subs_inv (MkWebhookDB (wd_subs db) _ (wd_cursor db))); [by apply hook_rows_inv|by apply unique_by_filter..|by apply Forall_filter_bool].
  - destruct Hinv as [H1 H2 H3 H4 H5 H6 H7]. constructor; try done. eapply Forall_impl; [exact H7|]. intros d (c & Ec & Hle). exists n. split; [done|].
    specialize (Hc c Ec). lia.
  - destruct Hinv as [H1 H2 H3 H4 H5 H6 H7]. destruct (Hfeeds _ _ Hf) as [Hasc Hbehind]. destruct (highest_spec c entries) as (Hh1 & Hh2 & _).
    destruct (insert_deliveries_ok _ _ _ Hi H4) as [E En]. rewrite Forall_forall in Hbehind. rewrite Forall_forall in H7.
    assert (Hnew : forall d, d ∈ queued -> c < d_EventID d <= highest c entries /\ delivery_ok d).
    { intros d Hd. destruct (fanned_elem _ _ _ _ _ Hq Hd) as (id & e & s & -> & He & _). split; [split; [by apply Hbehind|by apply Hh2]|].
      constructor; cbn; try set_solver; unfold MaxAttempts; lia. }
    constructor; try done; unfold outbox in *; cbn [wd_deliveries wd_cursor]; rewrite E.
    + rewrite map_app. apply NoDup_app. split_and!; [done| |].
      * intros k Hk Hk2. apply list_elem_of_In, in_map_iff in Hk as (d1 & <- & Hd1), Hk2 as (d2 & [= E1 E2] & Hd2). rewrite <- list_elem_of_In in *.
        destruct (H7 d1 Hd1) as (c' & Ec & Hle). destruct (Hnew d2 Hd2) as [Hl _]. rewrite Hc in Ec. injection Ec as <-. lia.
      * rewrite (fanned_keys _ _ _ _ Hq). apply fan_pairs_nodup; [by apply active_ids|done].
    + apply Forall_app. split; [done|]. apply Forall_forall. intros d Hd. by apply Hnew.
    + apply Forall_forall. intros d [Hd|Hd]%elem_of_app; exists (highest c entries); (split; [done|]).
      * destruct (H7 d Hd) as (c' & Ec & Hle). rewrite Hc in Ec. injection Ec as <-. lia.
      * by apply Hnew.
  - destruct Hinv as [H1 H2 H3 H4 H5 H6 H7]. destruct (attempted_same _ _ _ _ Ha) as [Eid Ekey].
    assert (Hu : forall x, x ∈ map snd (wd_deliveries db) -> d_ID x = d_ID d -> x = d) by (intros x Hx; by apply (same_delivery (outbox db))).
    pose proof H6 as H6'. pose proof H7 as H7'. rewrite Forall_forall in H6'. rewrite Forall_forall in H7'.
    constructor; try done; unfold outbox in *; cbn [wd_deliveries wd_cursor].
    + by rewrite keys_marked.
    + by rewrite keys_marked.
    + apply outbox_marked; [|done]. eapply attempted_ok; [exact Ha|done|by apply H6'].
    + apply outbox_marked; [|done]. unfold d_key in Ekey. injection Ekey as _ ->. by apply H7'.
  - by apply hook_rows_inv.
Qed.
Lemma hook_history_inv a db db' : history feeds a db db' -> hook_inv db -> hook_inv db'.
Proof. intros H. induction H as [|x y z Hc _ IH]; [done|]. intros Hi. apply IH. by eapply hook_change_inv. Qed.

(** What belongs to the other tenants: their subscriptions, and the deliveries of these. *)
Definition others (p : string) (db : WebhookDB) : list Subscription := others_rows s_ProjectID p (wd_subs db).
Definition others_box (p : string) (db : WebhookDB) (rows : list (Z * Delivery)) : list (Z * Delivery) :=
  List.filter (fun r => existsb (has_id (d_SubscriptionID (snd r))) (others p db)) rows.
Definition keeps_others (p : string) (db db' : WebhookDB) : Prop :=
  others p db' = others p db /\ others_box p db (wd_deliveries db') = others_box p db (wd_deliveries db).
#[export] Instance keeps_others_preorder p : PreOrder (keeps_others p).
Proof.
  split; [done|]. intros x y z [H1 H2] [H3 H4]. split; [congruence|]. unfold others_box in *. rewrite H1 in H4. congruence.
Qed.
Lemma hook_change_others p db db' : change feeds (Tenant p) db db' -> hook_inv db -> keeps_others p db db'.
Proof.
  intros [s [= ->] _ _ _|s b [= ->] Hs|s [= ->] Hs|n [=]|c entries now queued rows [=]|now d d' [=]|[=]] [Hu _ _ _ _ _ _]; split; try done;
    unfold others; cbn [wd_subs].
  - apply others_insert.
  - by apply (others_update s_ID).
  - by apply (others_delete s_ID).
  - cbn [wd_deliveries]. apply filter_gone. intros r _ Hr%negb_false_iff. unfold of_subscription in Hr. apply String.eqb_eq in Hr.
    rewrite Hr. apply existsb_false, Forall_forall. intros x Hx. unfold others, others_rows in Hx. apply elem_of_filter_bool in Hx as [Hx Hp].
    apply negb_true_iff, String.eqb_neq in Hp. apply String.eqb_neq. intros E. apply Hp.
    by rewrite (unique_by_eq _ _ x s (s_ID s) Hu Hx Hs ltac:(simpl; by rewrite E) eq_refl).
Qed.
Lemma hook_history_others p db db' : history feeds (Tenant p) db db' -> hook_inv db -> keeps_others p db db'.
Proof.
  intros H. induction H as [|x y z Hc _ IH]; [done|]. intros Hi. transitivity y; [by apply hook_change_others|].
  apply IH. by eapply hook_change_inv.
Qed.
End preservation.

(** * What the operations do *)

Lemma check_kind_ok kind l : check_kind kind = Ok l -> len l <= 1 /\ Forall (fun k => 1 <= slen k <= MaxKindLength /\ has_blank k = false) l.
Proof.
  unfold check_kind. cbv zeta. destruct (is_empty (trim_space kind)) eqn:E; [intros [= <-]; by split|]. intros H. unbind H. injection H as <-.
  repeat match goal with E : guard _ _ = Ok ?u |- _ => destruct u; apply guard_ok in E end. split; [done|]. constructor; [|constructor].
  split; [|done]. apply is_empty_false in E. breflect. split; [|lia]. destruct (trim_space kind); [done|]. unfold slen. simpl. lia.
Qed.
Lemma checkKinds_ok kinds l : checkKinds kinds = Ok l -> len l <= MaxKinds /\ Forall (fun k => 1 <= slen k <= MaxKindLength /\ has_blank k = false) l.
Proof.
  intros H. unfold checkKinds in H. unbind H. match goal with E : guard _ _ = Ok ?u |- _ => destruct u; apply guard_ok in E end. breflect.
  enough (len l <= len kinds /\ Forall (fun k => 1 <= slen k <= MaxKindLength /\ has_blank k = false) l) as [] by (split; [lia|done]).
  clear Hok. revert l H. induction kinds as [|k kinds IH]; simpl; intros l H; [injection H as <-; by split|].
  unbind H. injection H as <-. apply check_kind_ok in Hok as [H1 H2]. destruct (IH _ Hok0) as [H3 H4]. rewrite length_app. split; [lia|].
  by apply Forall_app.
Qed.

Section operations.
Context {S : Type} `{!Has WebhookDB S} `{!URLs}.
Context (Marshal : payload -> list Z) (events : option (Events S)) (client : Client S).
Context (feeds : Z -> list Event -> Prop).
Context (Hsince : forall f c (db : WebhookDB), events = Some f -> yields db (Since f c MaxBatch) (feeds c)).
Context (Hnewest : forall f (db : WebhookDB), events = Some f -> yields db (NewestID f) (fun n => 0 <= n)).
Context (Hexchange : forall a po, leaves WebhookDB (Exchange client a po)).

(** ** Requests *)

Lemma hook_yields_load db q : yields db (load (S:=S) q) (fun l => l = q (wd_subs db)).
Proof. eapply yields_mono; [apply yields_query|]. by intros l [= <-]. Qed.
Lemma hook_yields_first db l : yields db (first_of (S:=S) l) (fun s => s ∈ l).
Proof. destruct l as [|s l]; [eapply yields_mono; [apply yields_fail|done]|]. eapply yields_mono; [apply yields_ret|]. intros ? ->. apply list_elem_of_here. Qed.
Lemma hook_yields_find db p id : yields db (find (S:=S) p id) (fun s => s ∈ wd_subs db /\ s_ProjectID s = p /\ (s_ID s = id \/ s_Name s = id)).
Proof.
  unfold find. eapply yields_bind; [apply yields_attempt|].
  - unfold byID. eapply yields_bind; [apply hook_yields_load|]. intros l ->. apply hook_yields_first.
  - intros r Hr. apply yields_mapped. destruct r as [s|e].
    + eapply yields_mono; [apply yields_ret|]. intros ? ->. apply elem_of_filter_bool in Hr as [Hs Hp]. apply andb_true_iff in Hp as [Hp Hi].
      split_and!; [done|by apply String.eqb_eq|left; by apply String.eqb_eq].
    + destruct (errors_Is e _); [|eapply yields_mono; [apply yields_fail|done]]. unfold byName. eapply yields_bind; [apply hook_yields_load|]. intros l ->.
      eapply yields_mono; [apply hook_yields_first|]. intros s Hs. apply elem_of_filter_bool in Hs as [Hs Hp]. apply andb_true_iff in Hp as [Hp Hi].
      split_and!; [done|by apply String.eqb_eq|right; by apply String.eqb_eq].
Qed.
Lemma hook_yields_ids (db : WebhookDB) prefix : yields db (ids_New (S:=S) prefix) (fun _ => True).
Proof. apply yields_leaves. unfold ids_New. auto with leaves. Qed.
Lemma yields_secret (db : WebhookDB) : yields db (newSecret (S:=S)) (fun _ => True).
Proof. apply yields_leaves. unfold newSecret. auto with leaves. Qed.
Hint Resolve hook_yields_find hook_yields_ids yields_secret : yields.

Section tenant.
Context (p : string).
Abbreviation R := (history feeds (Tenant p)).

Lemma on_subs_fst {A} (q : list Subscription -> outcome A * list Subscription) db :
  snd (on_subs q db) = MkWebhookDB (snd (q (wd_subs db))) (wd_deliveries db) (wd_cursor db).
Proof. unfold on_subs. by destruct (q (wd_subs db)). Qed.
Lemma hook_create_moves db params : cp_ProjectID params = p -> moves R db (create params).
Proof.
  intros Hp. unfold create. m_step. intros _ _. m_step. intros url _. m_step. intros kinds Hk%checkKinds_ok. m_step. intros secret _. m_step. intros id _.
  m_step. intros at_ _. apply moves_last; [typeclasses eauto|]. apply moves_sql; [typeclasses eauto|]. rewrite on_subs_fst. unfold insert_row.
  destruct (existsb _ _) eqn:E; cbn [snd].
  - destruct db. reflexivity.
  - apply rtc_once, C_create; cbn; [by rewrite Hp|by constructor|done|done].
Qed.
Lemma hook_setActive_moves db id b : moves R db (setActive (S:=S) p id b).
Proof.
  unfold setActive. m_step. intros s (Hs & Hp & _). apply moves_then; [typeclasses eauto| |intros; eapply moves_yields; [typeclasses eauto|apply hook_yields_find]].
  apply moves_mapped, moves_sql; [typeclasses eauto|]. rewrite on_subs_fst, update_where_rows. apply rtc_once, C_active; [by rewrite Hp|done].
Qed.
Lemma hook_remove_moves db id : moves R db (remove (S:=S) p id).
Proof.
  unfold remove. m_step. intros s (Hs & Hp & _). apply moves_mapped, moves_sql; [typeclasses eauto|].
  pose proof (delete_where_rows (has_id (s_ID s)) errNotFound (wd_subs db)) as E.
  destruct (delete_where _ _ _) as [[]  subs]; cbn [snd] in *; [|reflexivity]. subst subs. apply rtc_once, C_remove; [by rewrite Hp|done].
Qed.
End tenant.

(** ** The fan-out *)

Definition pairs_of (at_ : Z) (es : Event * Subscription) (d : Delivery) : Prop := exists id, d = delivery_of id at_ (fst es) (snd es).
Lemma yields_queue_entry db at_ subs e pre out : Forall2 (pairs_of at_) pre out ->
  yields db (queue_entry (S:=S) at_ subs e out) (fun out' => Forall2 (pairs_of at_) (pre ++ map (fun s => (e, s)) (List.filter (wants e) subs)) out').
Proof.
  unfold queue_entry. intros Hpre. revert pre out Hpre. induction subs as [|s subs IH]; intros pre out Hpre; cbn [foldM List.filter map].
  - eapply yields_mono; [apply yields_ret|]. intros ? ->. by rewrite app_nil_r.
  - destruct (wants e s) eqn:E; cbn [negb].
    + eapply yields_bind with (P := fun out' => exists id, out' = out ++ [delivery_of id at_ e s]).
      { eapply yields_bind; [apply hook_yields_ids|]. intros id _. eapply yields_mono; [apply yields_ret|]. intros ? ->. by exists id. }
      intros out' [id ->]. eapply yields_mono; [apply (IH (pre ++ [(e, s)]))|].
      * apply Forall2_app; [done|]. constructor; [by exists id|constructor].
      * intros l Hl. cbn [map]. by rewrite <- app_assoc in Hl.
    + eapply yields_bind; [apply yields_ret|]. intros ? ->. by apply IH.
Qed.
Lemma yields_queued db at_ subs entries pre out : Forall2 (pairs_of at_) pre out ->
  yields db (foldM (queue_entry (S:=S) at_ subs) entries out) (fun out' => Forall2 (pairs_of at_) (pre ++ fan_pairs subs entries) out').
Proof.
  intros Hpre. revert pre out Hpre. induction entries as [|e entries IH]; intros pre out Hpre; cbn [foldM].
  - eapply yields_mono; [apply yields_ret|]. intros ? ->. unfold fan_pairs. simpl. by rewrite app_nil_r.
  - eapply yields_bind; [by apply yields_queue_entry|]. intros out' Hout. eapply yields_mono; [by eapply IH|].
    intros l Hl. unfold fan_pairs in *. simpl. by rewrite app_assoc.
Qed.
Lemma yields_cursor db : yields db (cursor (S:=S)) (fun c => c = default (-1) (wd_cursor db)).
Proof. eapply yields_mono; [apply yields_query|]. by intros c [= <-]. Qed.
Lemma yields_active db : yields db (active (S:=S)) (fun l => l = active_subs db).
Proof. apply hook_yields_load. Qed.
Hint Resolve yields_cursor yields_active : yields.

Lemma fanOut_moves db : moves (history feeds Ticker) db (fanOut events).
Proof.
  unfold fanOut. destruct events as [feed|] eqn:Ef; [|m_step]. m_step. intros c ->. destruct (_ <? 0) eqn:Ec.
  - eapply moves_bind; [typeclasses eauto|by apply Hnewest|]. intros n Hn. apply moves_last; [typeclasses eauto|]. apply moves_sql; [typeclasses eauto|].
    apply rtc_once, C_seed; [done|done|]. intros c E. rewrite E in Ec. simpl in Ec. by breflect.
  - m_step. intros subs ->. eapply moves_bind; [typeclasses eauto|by apply Hsince|]. intros entries Hf.
    destruct entries as [|e entries]; [m_step|]. m_step. intros time _.
    eapply moves_bind; [typeclasses eauto|apply (yields_queued db time (active_subs db) (e :: entries) [] [])|]; [constructor|].
    intros queued Hq. apply moves_last; [typeclasses eauto|]. apply moves_sql; [typeclasses eauto|].
    destruct (insert_deliveries _ _) as [rows|err] eqn:Ei; cbn [snd]; [|reflexivity].
    destruct (wd_cursor db) as [c|] eqn:Ecur; simpl in Ec; [|breflect; lia]. 
    apply rtc_once. apply (C_fan feeds Ticker db c (e :: entries) time queued rows); try done. by breflect.
Qed.
End operations.

(** ** Delivering *)

(** One exchange of the HTTP client. *)
Record call := MkCall { c_Address : string; c_Post : Post; c_Answer : outcome Answer }.
(** The target took it. *)
Definition taken (c : call) : Prop :=
  exists a, c_Answer c = Ok a /\ 200 <= an_Status a <= 299 /\ redirected a = false.
Definition with_delivery (d d' : Delivery) (db : WebhookDB) : WebhookDB :=
  MkWebhookDB (wd_subs db) (map (fun r => if is_delivery (d_ID d) r then (fst r, d') else r) (wd_deliveries db)) (wd_cursor db).

Lemma with_delivery_outbox d d' db x : x ∈ outbox (with_delivery d d' db) -> x ∈ outbox db \/ x = d'.
Proof.
  unfold outbox, with_delivery. cbn [wd_deliveries]. rewrite map_map. intros Hx. apply list_elem_of_In, in_map_iff in Hx as (r & <- & Hr).
  destruct (is_delivery (d_ID d) r); [by right|left]. rewrite list_elem_of_In. by apply in_map.
Qed.
Lemma with_delivery_keeps d d' db x : x ∈ outbox db -> d_ID x <> d_ID d -> x ∈ outbox (with_delivery d d' db).
Proof.
  unfold outbox, with_delivery. cbn [wd_deliveries]. rewrite map_map. intros Hx Hne. apply list_elem_of_In, in_map_iff in Hx as (r & <- & Hr).
  rewrite list_elem_of_In. apply in_map_iff. exists r. split; [|done]. unfold is_delivery. by rewrite (proj2 (String.eqb_neq _ _) Hne).
Qed.
Lemma live_lookup (l : list Subscription) id :
  match fold_left (fun m s => <[s_ID s := s]> m) l (∅ : gmap string Subscription) !! id with
  | Some s => s ∈ l /\ s_ID s = id
  | None => forall s, s ∈ l -> s_ID s <> id
  end.
Proof.
  enough (H : forall m : gmap string Subscription, match fold_left (fun (m : gmap string Subscription) s => <[s_ID s := s]> m) l m !! id with
    | Some s => (s ∈ l /\ s_ID s = id) \/ m !! id = Some s
    | None => (forall s, s ∈ l -> s_ID s <> id) /\ m !! id = None
    end).
  { specialize (H ∅). destruct (fold_left _ _ _ !! id); [|by destruct H]. by destruct H. }
  induction l as [|s l IH]; intros m; simpl; [destruct (m !! id); [by right|split; [set_solver|done]]|].
  specialize (IH (<[s_ID s := s]> m)). destruct (fold_left _ l _ !! id) as [x|]; destruct (decide (s_ID s = id)) as [E|E].
  - destruct IH as [[H1 H2]|H]; [left; set_solver|]. rewrite E, lookup_insert_eq in H. injection H as <-. left. set_solver.
  - destruct IH as [[H1 H2]|H]; [left; set_solver|]. rewrite lookup_insert_ne in H by done. by right.
  - destruct IH as [_ H]. by rewrite E, lookup_insert_eq in H.
  - destruct IH as [H1 H]. rewrite lookup_insert_ne in H by done. split; [|done]. intros y [->|Hy]%elem_of_cons; [done|by apply H1].
Qed.

Section delivering.
Context {S : Type} `{!Has WebhookDB S, !Has (list call) S, !Apart WebhookDB (list call) S} `{!URLs}.
Context (Marshal : payload -> list Z) (client : Client S).
Context (Hexchange : forall a po, leaves WebhookDB (Exchange client a po)).
Context (Hlogged : forall a po, logs (Exchange client a po) (MkCall a po)).

(** A call is the delivery's: its target is what the active subscription names, dialled at an address that
    the guard let through, and signed with its secret. *)
Definition call_for (subs : list Subscription) (d : Delivery) (c : call) : Prop :=
  exists s url, s ∈ subs /\ s_Active s = true /\ s_ID s = d_SubscriptionID d /\ c_Post c = posted Marshal s d /\
    url_Parse (s_URL s) = Ok url /\ DialAddress client url = Ok (c_Address c) /\ reachable (c_Address c) = Ok tt.

Lemma post_wp env s d subs (w : World S) : s ∈ subs -> s_Active s = true -> s_ID s = d_SubscriptionID d ->
  wp env (post Marshal client s d) (fun r w' => part w' = part (T:=WebhookDB) w /\
    ((part w' = part (T:=list call) w /\ exists e, r = Err e) \/
     exists c, part w' = part w ++ [c] /\ call_for subs d c /\ (r = Ok tt -> taken c))) w.
Proof.
  intros Hs Ha Hid. unfold post, Do. apply wp_bind, wp_bind. rewrite wp_lift. change (po_URL (posted Marshal s d)) with (s_URL s).
  destruct (url_Parse (s_URL s)) as [url|e] eqn:Eu; [|split; [done|left; eauto]].
  apply wp_bind. rewrite wp_lift. destruct (DialAddress client url) as [address|e] eqn:Ed; [|split; [done|left; eauto]].
  apply wp_bind. rewrite wp_lift. destruct (reachable address) as [[]|e] eqn:Er; [|split; [done|left; eauto]].
  apply wp_bind. pose proof (Hexchange address (posted Marshal s d) env w) as H1. pose proof (Hlogged address (posted Marshal s d) env w) as H2.
  unfold wp in H2 |- *. destruct (Exchange client address (posted Marshal s d) env w) as [r w']. cbn [snd] in H1.
  assert (Hc : call_for subs d (MkCall address (posted Marshal s d) r)) by (exists s, url; split_and!; done).
  destruct r as [a|e]; [|split; [done|right; eexists; split_and!; [exact H2|exact Hc|done]]].
  unfold bind, lift, guard, ret. cbn [fst snd].
  destruct (redirected a) eqn:Ea; [split; [done|right; eexists; split_and!; [exact H2|exact Hc|done]]|].
  split; [done|]. right. eexists. split_and!; [exact H2|exact Hc|]. destruct (_ || _) eqn:Est; [done|]. intros _. exists a. breflect.
  split_and!; [done|lia|lia|done].
Qed.

Lemma mark_wp env x st at_ le nx up (w : World S) : hook_inv (part w) -> x ∈ outbox (part w) ->
  let d' := marked st at_ le nx up x in
  wp env (attempt (markDelivery d')) (fun r w' => (exists o, r = Ok o) /\ part w' = part (T:=list call) w /\
    (part w' = part (T:=WebhookDB) w \/ part w' = with_delivery x d' (part w))) w.
Proof.
  intros Hi Hx d'. apply wp_attempt. apply (wp_write_apart env (T:=WebhookDB) (U:=list call)); intros w' H1 H2.
  - split_and!; [eauto|done|by left].
  - split_and!; [eauto|done|]. right. rewrite H1. cbn [fst snd]. unfold with_delivery. f_equal. apply map_ext_in. intros r Hr.
    change (d_ID d') with (d_ID x). unfold is_delivery. destruct (String.eqb (d_ID (snd r)) (d_ID x)) eqn:E; [|done]. apply String.eqb_eq in E.
    f_equal. rewrite (same_delivery (outbox (part w)) (snd r) x); [done|apply Hi| |done|done]. unfold outbox. rewrite list_elem_of_In. by apply in_map.
Qed.

(** What the pass made of a delivery, and the call it took. *)
Definition served (subs : list Subscription) (d : Delivery) (cs : list call) : Prop := cs = [] \/ exists c, cs = [c] /\ call_for subs d c.
Lemma deliver_one_wp env now live x sent db0 (w : World S) :
  hook_inv (part w) -> x ∈ outbox (part w) -> wd_subs (part w) = wd_subs db0 ->
  match live !! d_SubscriptionID x with
  | Some s => s ∈ wd_subs db0 /\ s_Active s = true /\ s_ID s = d_SubscriptionID x
  | None => forall s, s ∈ wd_subs db0 -> s_Active s = true -> s_ID s <> d_SubscriptionID x
  end ->
  wp env (deliver_one Marshal client now live x sent) (fun r w' => (exists n, r = Ok n) /\
    exists cs, part w' = part (T:=list call) w ++ cs /\ served (wd_subs db0) x cs /\
      (part w' = part (T:=WebhookDB) w \/
       exists d', attempted (part w) now x d' /\ (d_State d' = StateDelivered -> d_State x = StatePending -> exists c, cs = [c] /\ taken c) /\
         part w' = with_delivery x d' (part w))) w.
Proof.
  intros Hi Hx Hsubs Hlive. unfold deliver_one. destruct (live !! d_SubscriptionID x) as [s|].
  - destruct Hlive as (Hs & Ha & Hid). apply wp_bind, wp_attempt. eapply wp_mono; [|by apply (post_wp env s x (wd_subs db0))].
    intros r w1 [Hdb Hc]. cbv beta iota. assert (exists cs, part w1 = part (T:=list call) w ++ cs /\ served (wd_subs db0) x cs /\ (r = Ok tt -> exists c, cs = [c] /\ taken c)) as (cs & Hcs & Hserved & Hok).
    { destruct Hc as [[Hc [e ->]]|(c & Hc & Hfor & Ht)]; [exists []; split_and!; [by rewrite app_nil_r|by left|done]|].
      exists [c]. split_and!; [done|right; eauto|eauto]. }
    destruct r as [[]|cause].
    + apply wp_bind. eapply wp_mono; [|apply mark_wp; [by rewrite Hdb|by rewrite Hdb]]. intros r w2 ([o ->] & Hc2 & Hw2). rewrite wp_ret.
      split; [eauto|]. exists cs. rewrite Hc2, Hcs. split_and!; [done..|]. rewrite Hdb in Hw2. destruct Hw2 as [Hw2|Hw2]; [by left|right].
      exists (delivered now x). split_and!; [constructor| |done]. intros _ _. by apply Hok.
    + apply wp_bind. unfold retry. apply wp_bind. 
      assert (Hr : exists st at_ le nx up, retried cause now x = marked st at_ le nx up x) by (unfold retried; destruct (_ <=? _); by eexists _, _, _, _, _).
      destruct Hr as (st & at_ & le & nx & up & Hr). rewrite Hr. eapply wp_mono; [|apply mark_wp; [by rewrite Hdb|by rewrite Hdb]].
      intros r w2 ([o ->] & Hc2 & Hw2). rewrite !wp_ret. split; [eauto|]. exists cs. rewrite Hc2, Hcs. split_and!; [done..|]. rewrite Hdb in Hw2.
      destruct Hw2 as [Hw2|Hw2]; [by left|right]. rewrite <- Hr in Hw2. exists (retried cause now x). split_and!; [constructor| |done].
      unfold retried. destruct (MaxAttempts <=? _); cbn; [done|]. by intros -> [=].
  - apply wp_bind. eapply wp_mono; [|by apply mark_wp]. intros r w2 ([o ->] & Hc2 & Hw2). rewrite wp_ret. split; [eauto|].
    exists []. rewrite app_nil_r. split_and!; [done|by left|]. destruct Hw2 as [Hw2|Hw2]; [by left|right]. exists (orphaned now x).
    split_and!; [constructor; by rewrite Hsubs|by intros [=]|done].
Qed.

(** The deliveries a pass takes up. *)
Definition late_of (db : WebhookDB) (now : Z) : list Delivery :=
  take (Z.to_nat MaxDueBatch) (sliceStable by_next (List.filter (fun d => is_pending d && negb (str_ltb (rfc3339nano now) (next_text d))) (outbox db))).
Lemma late_elem db now d : d ∈ late_of db now -> d ∈ outbox db /\ d_State d = StatePending.
Proof.
  intros Hd. apply subseteq_take in Hd. rewrite sliceStable_perm in Hd. apply elem_of_filter_bool in Hd as [Hd Hp].
  apply andb_true_iff in Hp as [Hp _]. split; [done|]. by apply String.eqb_eq.
Qed.
Lemma late_ids db now : hook_inv db -> NoDup (map d_ID (late_of db now)).
Proof.
  intros Hi. unfold late_of. set (l := sliceStable _ _). assert (Hl : NoDup (map d_ID l)).
  { unfold l. rewrite sliceStable_perm. apply NoDup_map_filter, Hi. }
  rewrite <- (take_drop (Z.to_nat MaxDueBatch) l), map_app in Hl. by apply NoDup_app in Hl as [Hl _].
Qed.

(** One pass over the outbox. *)
Record drained (feeds : Z -> list Event -> Prop) (now : Z) (db db' : WebhookDB) (cs : list call) : Prop := {
  dr_history : history feeds Ticker db db';
  (** each late delivery is posted at most once, others not at all *)
  dr_calls : exists per, concat per = cs /\ Forall2 (served (wd_subs db)) (take (length per) (late_of db now)) per /\
             (length per <= length (late_of db now))%nat;
  (** and is marked as delivered only if its target took it *)
  dr_taken : forall d', d' ∈ outbox db' -> d_State d' = StateDelivered -> d' ∈ outbox db \/
             exists d c, d ∈ late_of db now /\ d_ID d' = d_ID d /\ c ∈ cs /\ call_for (wd_subs db) d c /\ taken c;
}.

Section passes.
Context (feeds : Z -> list Event -> Prop) (Hfeeds : forall c entries, feeds c entries -> feed_ok c entries).

(** The pass in the middle of its loop. *)
Record draining (now : Z) (db : WebhookDB) (cs0 : list call) (dn : list Delivery) (w : World S) : Prop := {
  dg_history : history feeds Ticker db (part w);
  dg_subs : wd_subs (part w) = wd_subs db;
  dg_calls : exists per, part w = cs0 ++ concat per /\ Forall2 (served (wd_subs db)) dn per /\
    forall d', d' ∈ outbox (part w) -> d_State d' = StateDelivered -> d' ∈ outbox db \/
      exists d c, d ∈ dn /\ d_ID d' = d_ID d /\ c ∈ concat per /\ call_for (wd_subs db) d c /\ taken c;
  dg_rest : forall d, d ∈ outbox db -> (forall x, x ∈ dn -> d_ID x <> d_ID d) -> d ∈ outbox (part w);
}.
Lemma drain_step env now live db cs0 dn x rest sent (w : World S) : hook_inv db -> late_of db now = dn ++ x :: rest ->
  (match live !! d_SubscriptionID x with
   | Some s => s ∈ wd_subs db /\ s_Active s = true /\ s_ID s = d_SubscriptionID x
   | None => forall s, s ∈ wd_subs db -> s_Active s = true -> s_ID s <> d_SubscriptionID x
   end) -> draining now db cs0 dn w ->
  wp env (deliver_one Marshal client now live x sent) (fun r w' => match r with Ok _ => draining now db cs0 (dn ++ [x]) w' | Err _ => False end) w.
Proof.
  intros Hi El Hlive [Hh Hsubs (per & Hcs & Hper & Htaken) Hrest].
  assert (Hx : x ∈ outbox db /\ d_State x = StatePending) by (apply (late_elem db now); rewrite El; set_solver). destruct Hx as [Hx Hst].
  assert (Hne : forall y, y ∈ dn -> d_ID y <> d_ID x).
  { intros y Hy E. pose proof (late_ids db now Hi) as Hn. rewrite El, map_app in Hn. apply NoDup_app in Hn as (_ & Hn & _).
    apply (Hn (d_ID y)); [by apply list_elem_of_fmap_2|]. simpl. rewrite E. apply list_elem_of_here. }
  assert (Hi1 : hook_inv (part w)) by (by apply (hook_history_inv feeds Hfeeds Ticker db)).
  assert (Hxw : x ∈ outbox (part w)) by by apply Hrest.
  eapply wp_mono; [|apply (deliver_one_wp env now live x sent db); done]. intros r w' ([n ->] & cs & Hcs' & Hs & Hw').
  assert (Hcalls : part w' = cs0 ++ concat (per ++ [cs])) by (rewrite Hcs', Hcs, concat_app; simpl; by rewrite app_nil_r, app_assoc).
  assert (Hper' : Forall2 (served (wd_subs db)) (dn ++ [x]) (per ++ [cs])) by (apply Forall2_app; [done|by constructor]).
  assert (Hold : forall d', d' ∈ outbox (part w) -> d_State d' = StateDelivered -> d' ∈ outbox db \/
    exists d c, d ∈ dn ++ [x] /\ d_ID d' = d_ID d /\ c ∈ concat (per ++ [cs]) /\ call_for (wd_subs db) d c /\ taken c).
  { intros d' Hd' Hst'. destruct (Htaken d' Hd' Hst') as [?|(d & c & H1 & H2 & H3 & H4)]; [by left|right]. exists d, c.
    rewrite concat_app. split_and!; [set_solver|done|set_solver|apply H4..]. }
  destruct Hw' as [Hw'|(d' & Ha & Hdel & Hw')]; constructor; try (rewrite Hw'; done).
  - exists (per ++ [cs]). split_and!; [done..|]. by rewrite Hw'.
  - intros d Hd Hall. rewrite Hw'. apply Hrest; [done|]. intros y Hy. apply Hall. set_solver.
  - rewrite Hw'. etransitivity; [exact Hh|]. apply rtc_once. unfold with_delivery. by apply (C_mark feeds Ticker (part w) now).
  - exists (per ++ [cs]). split_and!; [done..|]. rewrite Hw'. intros z [Hz|Hz]%with_delivery_outbox Hzs; [by apply Hold|]. subst z. right.
    destruct (Hdel Hzs Hst) as (c & -> & Hc). destruct Hs as [Hs|(c' & [= <-] & Hfor)]; [done|]. exists x, c.
    rewrite concat_app. simpl. split_and!; [set_solver|by destruct (attempted_same _ _ _ _ Ha)|set_solver|done..].
  - intros d Hd Hall. rewrite Hw'. apply with_delivery_keeps; [|intros E; apply (Hall x); [set_solver|done]].
    apply Hrest; [done|]. intros y Hy. apply Hall. set_solver.
Qed.

Lemma drain_wp env (w : World S) : hook_inv (part w) ->
  wp env (drain Marshal client) (fun r w' => exists now cs, part w' = part (T:=list call) w ++ cs /\ drained feeds now (part w) (part w') cs) w.
Proof.
  intros Hi. unfold drain. apply wp_bind. rewrite wp_now. set (now := env_now env (w_step w)).
  assert (Hnone : forall w' : World S, part w' = part (T:=WebhookDB) w -> part w' = part (T:=list call) w ->
    exists now cs, part w' = part (T:=list call) w ++ cs /\ drained feeds now (part w) (part w') cs).
  { intros w' H1 H2. exists now, []. rewrite H1, H2, app_nil_r. split; [done|]. constructor; [reflexivity| |by left]. exists []. split_and!; [done|constructor|simpl; lia]. }
  apply wp_bind, wp_mapped. unfold due, loadDeliveries. apply wp_read. intros r [->| ->]; cbn [or_fault]; [by apply Hnone|].
  change (part (tick w)) with (part (T:=WebhookDB) w).
  change (take (Z.to_nat MaxDueBatch) _) with (late_of (part w) now).
  destruct (late_of (part w) now) as [|d0 l0] eqn:El; [by apply Hnone|]. rewrite <- El. clear d0 l0 El.
  apply wp_bind, wp_mapped. unfold active, load. apply wp_read. intros r [->| ->]; cbn [or_fault]; [by apply Hnone|].
  change (part (tick (tick (tick w)))) with (part (T:=WebhookDB) w).
  fold (active_subs (part w)). set (live := fold_left _ _ _). apply wp_bind.
  eapply wp_mono; [|apply (wp_foldM_done env (fun dn _ w' => draining now (part w) (part w) dn w') (fun _ _ => False))].
  - intros [sent|e] w1 H1; [|done]. apply wp_bind, wp_attempt. destruct H1 as [Hh Hsubs (per & Hcs & Hper & Htaken) Hrest].
    pose proof (Forall2_length _ _ _ Hper) as Hlen.
    assert (Hd : drained feeds now (part w) (part w1) (concat per)).
    { constructor; [done| |done]. exists per. rewrite <- Hlen, take_ge by done. done. }
    apply (wp_write_apart env (T:=WebhookDB) (U:=list call)); intros w2 H3 H4; rewrite wp_ret; exists now, (concat per); rewrite H4; (split; [done|]).
    + by rewrite H3.
    + rewrite H3. cbn [fst snd]. destruct Hd as [D1 D2 D3]. constructor; [|done|].
      * etransitivity; [exact D1|]. apply rtc_once. by apply C_prune.
      * intros d' Hd'. apply D3. unfold outbox in *. cbn [wd_deliveries] in Hd'. apply list_elem_of_In, in_map_iff in Hd' as (x & <- & Hx).
        rewrite <- list_elem_of_In in Hx. apply elem_of_filter_bool in Hx as [Hx _]. rewrite list_elem_of_In. apply in_map. by rewrite <- list_elem_of_In.
  - intros dn x rest sent w1 El Hd. apply (drain_step env now live (part w) (part w) dn x rest); [done|done| |done].
    pose proof (live_lookup (active_subs (part w)) (d_SubscriptionID x)) as Hl. change (fold_left _ _ _) with live in Hl.
    assert (Hact : forall s, s ∈ active_subs (part w) <-> s ∈ wd_subs (part w) /\ s_Active s = true).
    { intros s. unfold active_subs. by rewrite sliceStable_perm, elem_of_filter_bool. }
    match type of Hl with match ?u with _ => _ end => change (match u with
      | Some s => s ∈ wd_subs (part w) /\ s_Active s = true /\ s_ID s = d_SubscriptionID x
      | None => forall s, s ∈ wd_subs (part w) -> s_Active s = true -> s_ID s <> d_SubscriptionID x end); destruct u as [s|] end.
    + destruct Hl as [Hs Hid]. apply Hact in Hs as []. done.
    + intros s Hs Ha. apply Hl, Hact. done.
  - constructor; [reflexivity|done| |done]. exists []. split_and!; [by rewrite app_nil_r|constructor|by left].
Qed.
End passes.
End delivering.

(** * The guard, the filter and the back-off *)

(** The addresses nothing is posted to: loopback, link-local, multicast, and the unspecified ones. *)
Definition forbidden : list Netip.Prefix :=
  [Netip.PrefixFrom (Netip.MkAddr false (127 * 2 ^ 24)) 8; Netip.PrefixFrom (Netip.MkAddr true 1) 128;
   Netip.PrefixFrom (Netip.MkAddr false (43518 * 2 ^ 16)) 16; Netip.PrefixFrom (Netip.MkAddr true (1018 * 2 ^ 118)) 10;
   Netip.PrefixFrom (Netip.MkAddr false (14 * 2 ^ 28)) 4; Netip.PrefixFrom (Netip.MkAddr true (255 * 2 ^ 120)) 8].

Lemma parse_zoned_wf s a zone : parse_zoned s = Some (a, zone) -> Netip.addr_wf a.
Proof.
  unfold parse_zoned. destruct (Netip.addr_kind s) as [[]|], (find_byte 37 s) as [i|];
    try (destruct (Netip.ParseAddr s) eqn:E; [|done]; intros [= <- _]; by eapply Ipam.ParseAddr_wf).
  destruct (drop (S i) s); [done|]. destruct (Netip.parse6 (take i s)) eqn:E; [|done]. intros [= <- _]. by eapply Ipam.parse6_wf.
Qed.
Lemma Unmap_wf a : Netip.addr_wf a -> Netip.addr_wf (Unmap a).
Proof.
  intros H. unfold Unmap. destruct (Netip.Is4In6 a); [|done]. unfold Netip.addr_wf, Netip.BitLen. cbn. apply Z.mod_pos_bound. lia.
Qed.
Lemma multicast6_link v : 0 <= v < 2 ^ 128 -> Z.land (Z.shiftr v 112) 65295 = 65282 -> Z.shiftr v 120 = 255.
Proof.
  intros Hv E. apply (f_equal (fun x => Z.shiftr x 8)) in E. rewrite Z.shiftr_land, Z.shiftr_shiftr in E by lia.
  change (Z.shiftr 65295 8) with (Z.ones 8) in E. rewrite Z.land_ones in E by lia. cbn in E. change (112 + 8) with 120 in E.
  rewrite Z.mod_small in E; [done|]. rewrite Z.shiftr_div_pow2 by lia. split; [apply Z.div_pos; lia|]. apply Z.div_lt_upper_bound; lia.
Qed.
Lemma link4_multicast v : 0 <= v -> Z.shiftr v 8 = 14680064 -> Z.shiftr v 28 = 14.
Proof. intros Hv E. apply (f_equal (fun x => Z.shiftr x 20)) in E. rewrite Z.shiftr_shiftr in E by lia. exact E. Qed.

(** The tests together. *)
Lemma forbidden_spec a : Netip.addr_wf a ->
  IsLoopback a || (IsLinkLocalUnicast a || IsLinkLocalMulticast a) || IsMulticast a = existsb (fun p => Netip.Contains p (Unmap a)) forbidden.
Proof.
  intros Hwf%Unmap_wf. unfold IsLoopback, IsLinkLocalUnicast, IsLinkLocalMulticast, IsMulticast. cbv zeta.
  set (u := Unmap a) in *. clearbody u. destruct u as [is6 v]. unfold Netip.addr_wf, Netip.BitLen in Hwf. cbn [Netip.a_is6 Netip.a_val] in *.
  unfold forbidden, Netip.Contains, Netip.host_size, Netip.BitLen, Netip.Is4. destruct is6; cbn [existsb Netip.p_addr Netip.p_bits Netip.a_is6 Netip.a_val Bool.eqb andb orb negb Netip.family_width] in *.
  - rewrite <- !Z.shiftr_div_pow2 by lia. change (128 - 128) with 0. change (128 - 10) with 118. change (128 - 8) with 120.
    change (Z.shiftr 1 0) with 1. change (Z.shiftr (1018 * 2 ^ 118) 118) with 1018. change (Z.shiftr (255 * 2 ^ 120) 120) with 255.
    rewrite Z.shiftr_0_r, orb_false_r. destruct (Z.land _ _ =? 65282) eqn:E1.
    + apply Z.eqb_eq, multicast6_link in E1; [|done]. rewrite E1. cbn. by rewrite !orb_true_r.
    + rewrite orb_false_r, (Z.eqb_sym v 1), (Z.eqb_sym (Z.shiftr v 118)), (Z.eqb_sym (Z.shiftr v 120)). by rewrite !orb_assoc.
  - rewrite <- !Z.shiftr_div_pow2 by lia. change (32 - 8) with 24. change (32 - 16) with 16. change (32 - 4) with 28.
    change (Z.shiftr (127 * 2 ^ 24) 24) with 127. change (Z.shiftr (43518 * 2 ^ 16) 16) with 43518. change (Z.shiftr (14 * 2 ^ 28) 28) with 14.
    rewrite orb_false_r. destruct (Z.shiftr v 8 =? 14680064) eqn:E1.
    + apply Z.eqb_eq, link4_multicast in E1; [|lia]. rewrite E1. cbn. by rewrite !orb_true_r.
    + rewrite orb_false_r, (Z.eqb_sym (Z.shiftr v 24)), (Z.eqb_sym (Z.shiftr v 16)), (Z.eqb_sym (Z.shiftr v 28)). by rewrite !orb_assoc.
Qed.

(** [guard_exact]: the guard lets an address through exactly if its host is an IP address, outside
    loopback, link-local and multicast in either family and in the IPv4 form inside IPv6, and not
    the unspecified address; a host that is a name is never let through. *)
Theorem guard_exact address : reachable address = Ok tt <->
  exists host ip zone, SplitHost address = Some host /\ parse_zoned (bytes_of host) = Some (ip, zone) /\
    Forall (fun p => Netip.Contains p (Unmap ip) = false) forbidden /\ (Netip.a_val ip <> 0 \/ zone <> []).
Proof.
  unfold reachable. destruct (SplitHost address) as [host|]; [|split; [done|by intros (? & ? & ? & ? & _)]].
  destruct (parse_zoned (bytes_of host)) as [[ip zone]|] eqn:Ep; [|split; [done|intros (h & ? & ? & [= <-] & E & _); by rewrite Ep in E]].
  pose proof (forbidden_spec ip (parse_zoned_wf _ _ _ Ep)) as Hf. unfold IsUnspecified.
  trans (IsLoopback ip || (IsLinkLocalUnicast ip || IsLinkLocalMulticast ip) || IsMulticast ip = false /\ (Netip.a_val ip <> 0 \/ zone <> [])).
  - destruct (IsLoopback ip), (IsLinkLocalUnicast ip || IsLinkLocalMulticast ip), (IsMulticast ip); rewrite ?orb_true_r; simpl; try (split; [done|by intros []]).
    destruct (Netip.a_val ip =? 0) eqn:E0, zone; simpl; breflect; split; try done; try (intros [_ [?|?]]; done); intros _; (split; [done|]); auto.
  - rewrite Hf. split.
    + intros [H1 H2]. exists host, ip, zone. split_and!; [done..| |done]. apply Forall_forall. intros p Hp.
      apply existsb_false in H1. rewrite Forall_forall in H1. by apply H1.
    + intros (h & i & z & [= <-] & E & H1 & H2). rewrite Ep in E. injection E as <- <-. split; [by apply existsb_false|done].
Qed.

(** [backoff_exact]: the wait before the attempt after [n] failed ones is ten seconds doubled for each
    failure, at most half an hour. *)
Lemma double_wait_exact n wait : FirstBackoff <= wait < MaxBackoff ->
  double_wait n wait = Z.min (wait * 2 ^ Z.of_nat n) MaxBackoff.
Proof.
  revert wait. induction n as [|n IH]; intros wait Hw; [simpl; lia|]. simpl double_wait.
  assert (Hp : 1 <= 2 ^ Z.of_nat n) by (apply (Z.pow_le_mono_r 2 0); lia).
  assert (Ew : wrap64 (wait * 2) = wait * 2).
  { apply wrap64_small. unfold in_int64, min_int64, max_int64, two63, FirstBackoff, MaxBackoff, minute, second in *. lia. }
  rewrite Ew. replace (Z.of_nat (S n)) with (Z.of_nat n + 1) by lia. rewrite Z.pow_add_r, Z.pow_1_r by lia.
  destruct (Z.leb_spec MaxBackoff (wait * 2)).
  - rewrite Z.min_r; [done|]. nia.
  - assert (0 <= FirstBackoff) by done. rewrite IH by lia. f_equal. lia.
Qed.
Theorem backoff_exact n (Hn : 1 <= n) : backoffFor n = Z.min (FirstBackoff * 2 ^ (n - 1)) MaxBackoff.
Proof. unfold backoffFor. rewrite double_wait_exact by done. do 3 f_equal. lia. Qed.

Lemma has_suffix_spec s p : has_suffix s p = true <-> exists r, bytes_of s = r ++ bytes_of p.
Proof.
  unfold has_suffix. rewrite has_prefix_l_spec. split; intros [r E].
  - exists (rev r). apply (f_equal (@rev _)) in E. by rewrite rev_involutive, rev_app_distr, rev_involutive in E.
  - exists (rev r). by rewrite E, rev_app_distr.
Qed.
(** [matches_exact]: a filter lets a kind through exactly if it is empty, names the kind, or names with
    a trailing .* a beginning of it that ends at a dot. *)
Theorem matches_exact kinds kind : matches kinds kind = true <->
  kinds = [] \/ kind ∈ kinds \/ exists stem rest, stem +:+ ".*" ∈ kinds /\ kind = stem +:+ "." +:+ rest.
Proof.
  assert (Hw : forall wanted, has_suffix wanted ".*" && has_prefix kind (trim_suffix wanted "*") = true <->
    exists stem rest, wanted = stem +:+ ".*" /\ kind = stem +:+ "." +:+ rest).
  { intros wanted. rewrite andb_true_iff, has_suffix_spec, has_prefix_spec.
    assert (Ht : forall stem, trim_suffix (stem +:+ ".*") "*" = stem +:+ ".").
    { intros stem. unfold trim_suffix. assert (has_suffix (stem +:+ ".*") "*" = true) as ->.
      { apply has_suffix_spec. exists (bytes_of (stem +:+ ".")). by rewrite !bytes_of_app, <- app_assoc. }
      rewrite str_take_spec. apply bytes_of_inj. rewrite bytes_of_of, !bytes_of_app.
      replace (Z.to_nat _) with (length (bytes_of stem) + 1)%nat.
      - rewrite take_app_add. done.
      - rewrite !slen_bytes, bytes_of_app, length_app. simpl. lia. }
    split.
    - intros [[r Er] [r' Er']]. exists (of_bytes r), (of_bytes r').
      assert (wanted = of_bytes r +:+ ".*") as -> by (apply bytes_of_inj; by rewrite bytes_of_app, bytes_of_of).
      split; [done|]. rewrite Ht in Er'. apply bytes_of_inj. by rewrite Er', !bytes_of_app, !bytes_of_of, app_assoc.
    - intros (stem & rest & -> & ->). split; [exists (bytes_of stem); by rewrite bytes_of_app|]. exists (bytes_of rest).
      by rewrite Ht, !bytes_of_app, app_assoc. }
  unfold matches. destruct kinds as [|k0 kinds]; [split; [by left|done]|]. rewrite existsb_exists. split.
  - intros (w & Hin & [->%String.eqb_eq|(stem & rest & -> & ->)%Hw]%orb_true_iff); right; rewrite <- list_elem_of_In in Hin; [by left|right; by exists stem, rest].
  - intros [?|[Hin|(stem & rest & Hin & ->)]]; [done| |].
    + exists kind. rewrite <- list_elem_of_In. split; [done|]. by rewrite String.eqb_refl.
    + exists (stem +:+ ".*"). rewrite <- list_elem_of_In. split; [done|]. apply orb_true_iff. right. apply Hw. by exists stem, rest.
Qed.

(** * Properties *)

Section properties.
Context {S : Type} `{!Has WebhookDB S, !Has (list call) S, !Apart WebhookDB (list call) S} `{!URLs}.
Context (Marshal : payload -> list Z) (events : option (Events S)) (client : Client S).
Context (feeds : Z -> list Event -> Prop) (Hfeeds : forall c entries, feeds c entries -> feed_ok c entries).
Context (Hsince : forall f c (db : WebhookDB), events = Some f -> yields db (Since f c MaxBatch) (feeds c)).
Context (Hnewest : forall f (db : WebhookDB), events = Some f -> yields db (NewestID f) (fun n => 0 <= n)).
Context (Hexchange : forall a po, leaves WebhookDB (Exchange client a po)).
Context (Hlogged : forall a po, logs (Exchange client a po) (MkCall a po)).
Abbreviation run := (serve Marshal events client).

Definition actor_of (r : request) : actor :=
  match r with
  | ReqCreate sc _ | ReqList sc | ReqGet sc _ | ReqSetActive sc _ _ | ReqDeliveries sc _ _ | ReqDelete sc _ => Tenant (sc_ProjectID sc)
  | ReqPump => Ticker
  end.

Lemma hook_serve_wp env r (w : World S) : hook_inv (part w) ->
  wp env (run r) (fun _ w' => history feeds (actor_of r) (part w) (part w')) w.
Proof.
  intros Hi. destruct r; cbn [actor_of serve].
  1: { unfold handle_create, Write. apply wp_bind. rewrite wp_lift. destruct req as [req|e]; [|reflexivity]. apply wp_bind.
    eapply wp_mono; [|exact (hook_create_moves feeds (sc_ProjectID sc) (part w) (MkCreateParams (sc_ProjectID sc) (cr_Name req) (cr_URL req) (cr_Kinds req)) eq_refl env w eq_refl)]. by intros [s|e] w'. }
  1, 2, 4: refine (moves_yields _ (part w) _ (fun _ => True) _ env w eq_refl); unfold handle_list, handle_get, handle_deliveries, Write, listIn, deliveries;
    (eapply yields_bind; [|intros; by eapply yields_mono; [apply yields_ret|]]).
  1: { apply yields_mapped, hook_yields_load. }
  1: { apply hook_yields_find. }
  1: { apply yields_leaves. unfold find, byID, byName, load, first_of, deliveriesOf, loadDeliveries. auto 14 with leaves. }
  1: { unfold handle_setActive, Write. apply wp_bind. eapply wp_mono; [|exact (hook_setActive_moves feeds (sc_ProjectID sc) (part w) id active0 env w eq_refl)].
    by intros [s|e] w'. }
  1: { unfold handle_delete, WriteHeader. apply wp_bind. eapply wp_mono; [|exact (hook_remove_moves feeds (sc_ProjectID sc) (part w) id env w eq_refl)].
    by intros [s|e] w'. }
  unfold Pump, WriteHeader. apply wp_bind, wp_bind, wp_attempt.
  eapply wp_mono; [|apply (fanOut_moves events feeds Hsince Hnewest (part w) env w eq_refl)]. intros r1 w1 H1. apply wp_bind, wp_attempt.
  eapply wp_mono; [|apply (drain_wp Marshal client Hexchange Hlogged feeds Hfeeds); exact (hook_history_inv feeds Hfeeds _ _ _ H1 Hi)].
  intros r2 w2 (now & cs & _ & [H2 _ _]). rewrite !wp_ret. etransitivity; [exact H1|exact H2].
Qed.

(** [webhooks_lawful]: every request and every pump moves the tables only by the changes of the state machine
    its actor may make, and keeps them well formed: ids and names unique, filters in bounds, of an event at
    most one delivery for each subscription and none ahead of the cursor, at most six attempts; however the
    database, the feed and the targets fail. *)
Theorem webhooks_lawful env r (w : World S) (Hinv : hook_inv (part w)) :
  wp env (run r) (fun _ w' => history feeds (actor_of r) (part w) (part w') /\ hook_inv (part w')) w.
Proof.
  eapply wp_mono; [|by apply hook_serve_wp]. intros a w' Hh. split; [exact Hh|]. exact (hook_history_inv feeds Hfeeds _ _ _ Hh Hinv).
Qed.

(** [webhook_tenants_apart]: a request of one project leaves the subscriptions of all others, and the
    deliveries to them, as they were. *)
Theorem webhook_tenants_apart env r p (w : World S) (Hinv : hook_inv (part w)) (Hr : actor_of r = Tenant p) :
  wp env (run r) (fun _ w' => keeps_others p (part w) (part w')) w.
Proof.
  eapply wp_mono; [|by apply hook_serve_wp]. intros a w' Hh. rewrite Hr in Hh. exact (hook_history_others feeds Hfeeds _ _ _ Hh Hinv).
Qed.

(** [posts_guarded]: a pass over the outbox posts each delivery that is due at most once, at most twenty, to
    the target of its active subscription, at an address the guard let through, signed with the
    subscription's secret, and nothing else; and it marks a delivery as delivered only if its target
    answered with a status from 200 to 299. *)
Theorem posts_guarded env (w : World S) (Hinv : hook_inv (part w)) :
  wp env (drain Marshal client) (fun _ w' => exists now cs, part w' = part (T:=list call) w ++ cs /\ len cs <= MaxDueBatch /\
    drained Marshal client feeds now (part w) (part w') cs) w.
Proof.
  eapply wp_mono; [|by apply drain_wp]. intros r w' (now & cs & Hcs & Hd). exists now, cs. split_and!; [done| |done].
  destruct Hd as [_ (per & <- & Hper & Hlen) _]. enough (Hl : (length (concat per) <= length per)%nat).
  { assert (length (late_of (part w) now) <= Z.to_nat MaxDueBatch)%nat by (unfold late_of; rewrite length_take; lia). unfold MaxDueBatch in *. lia. }
  apply Forall2_Forall_r with (Q := fun x => (length x <= 1)%nat) in Hper.
  - clear Hcs Hlen. induction Hper as [|x l Hx _ IH]; simpl; [lia|]. rewrite length_app. simpl in *. lia.
  - apply Forall_forall. intros d _ x [->|(c & -> & _)]; simpl; lia.
Qed.
End properties.

(** * Witnesses *)

Module Demo.
Abbreviation St := (WebhookDB * list call)%type.
#[export] Instance has_db : Has WebhookDB St := Has_fst _ _.
#[export] Instance has_calls : Has (list call) St := Has_snd _ _.
#[export] Instance db_apart : Apart WebhookDB (list call) St := Apart_pair _ _.
#[export] Instance urls : URLs := {| url_Parse s := if has_prefix s "https://" then Ok (MkURL "https" (str_drop 8 s) false s) else Err (EText "no url") |}.
Definition Marshal (p : payload) : list Z := string_bytes (pl_Delivery p).
Definition events : Events St := {|
  Since c limit := ret (if c <? 8 then [MkEvent 8 0 "prj-1" "instance.failed" "ins-1" "nd-1" "it is gone" "error"] else []);
  NewestID := ret 8 |}.
Definition client : Client St := {|
  DialAddress u := Ok (u_Host u +:+ ":443");
  Exchange address po := fun _ w => let r := Ok (MkAnswer (if String.eqb address "203.0.113.7:443" then 204 else 500) "") in
    (r, with_st w (fst (w_st w), snd (w_st w) ++ [MkCall address po r])) |}.
Definition feeds (c : Z) (entries : list Event) : Prop := feed_ok c entries.
Definition sub (id p name url : string) (kinds : list string) : Subscription := MkSubscription id p name url "whsec_x" kinds true 0.
Definition waiting (id s : string) (event attempts : Z) : Delivery := MkDelivery id s event "job.done" "job-1" StatePending attempts "" 0 0 0.
Definition db : WebhookDB := MkWebhookDB
  [sub "wh-1" "prj-1" "pager" "https://203.0.113.7" ["instance.*"]; sub "wh-2" "prj-2" "pager" "https://203.0.113.9" []]
  [(1, waiting "whd-1" "wh-1" 5 5); (2, waiting "whd-2" "wh-2" 6 0)] (Some 7).
Definition w0 : World St := MkWorld (db, []) O [].
Definition env : Env := {| env_now _ := 1709210050 * second; env_rand n := [Z.of_nat n; 7]; env_io _ := false |}.
Definition tenant (p : string) : Scope := MkScope p "tok-1" "ci" "" "member".
Definition run (r : request) (w : World St) : outcome (Reply body) * World St := serve Marshal (Some events) client r env w.

Lemma feeds_ok c entries : feeds c entries -> feed_ok c entries.
Proof. done. Qed.
Lemma since_feeds f c (db : WebhookDB) : Some events = Some f -> yields db (Since (S:=St) f c MaxBatch) (feeds c).
Proof.
  intros [= <-]. cbn [Since events]. intros e w _ Hw. rewrite wp_ret. split; [done|]. destruct (c <? 8) eqn:E; [|split; constructor].
  breflect. split; repeat constructor. cbn. lia.
Qed.
Lemma newest_known f (db : WebhookDB) : Some events = Some f -> yields db (NewestID (S:=St) f) (fun n => 0 <= n).
Proof. intros [= <-]. cbn [NewestID events]. intros e w _ Hw. by rewrite wp_ret. Qed.
Lemma exchange_leaves a po : leaves WebhookDB (Exchange client a po).
Proof. by intros e w. Qed.
Lemma exchange_logged a po : logs (Exchange client a po) (MkCall a po).
Proof. by intros e w. Qed.
End Demo.
Import (hints) Demo.

Lemma demo_hook_inv : hook_inv Demo.db.
Proof.
  constructor; try (apply (bool_decide_unpack _); vm_compute; exact I).
  - repeat (apply List.Forall_cons; [constructor; split; [vm_compute; discriminate|]; repeat constructor; vm_compute; done|]). constructor.
  - repeat (apply List.Forall_cons; [constructor; try (apply (bool_decide_unpack _); vm_compute; exact I); vm_compute; done|]). constructor.
  - repeat (apply List.Forall_cons; [exists 7; split; [done|vm_compute; discriminate]|]). constructor.
Qed.
Lemma webhooks_lawful_witness :
  wp Demo.env (serve Demo.Marshal (Some Demo.events) Demo.client ReqPump)
    (fun _ w' => history Demo.feeds Ticker Demo.db (part w') /\ hook_inv (part w')) Demo.w0 /\
  (let w' := snd (Demo.run ReqPump Demo.w0) in wd_cursor (part w') = Some 8 /\ map d_EventID (outbox (part w')) = [5; 6; 8] /\
     map d_State (outbox (part w')) = [StateDelivered; StatePending; StateDelivered]).
Proof.
  split; [|vm_compute; done].
  exact (webhooks_lawful Demo.Marshal (Some Demo.events) Demo.client Demo.feeds Demo.feeds_ok Demo.since_feeds Demo.newest_known
    Demo.exchange_leaves Demo.exchange_logged Demo.env ReqPump Demo.w0 demo_hook_inv).
Defined.
Lemma webhook_tenants_apart_witness :
  wp Demo.env (serve Demo.Marshal (Some Demo.events) Demo.client (ReqDelete (Demo.tenant "prj-1") "pager"))
    (fun _ w' => keeps_others "prj-1" Demo.db (part w')) Demo.w0 /\
  map s_ID (wd_subs (part (snd (Demo.run (ReqDelete (Demo.tenant "prj-1") "pager") Demo.w0)))) = ["wh-2"].
Proof.
  split; [|vm_compute; done].
  exact (webhook_tenants_apart Demo.Marshal (Some Demo.events) Demo.client Demo.feeds Demo.feeds_ok Demo.since_feeds Demo.newest_known
    Demo.exchange_leaves Demo.exchange_logged Demo.env (ReqDelete (Demo.tenant "prj-1") "pager") "prj-1" Demo.w0 demo_hook_inv eq_refl).
Defined.
Lemma posts_guarded_witness :
  wp Demo.env (drain Demo.Marshal Demo.client) (fun _ w' => exists now cs, part w' = (part (T:=list call) Demo.w0) ++ cs /\ len cs <= MaxDueBatch /\
    drained Demo.Marshal Demo.client Demo.feeds now Demo.db (part w') cs) Demo.w0 /\
  map c_Address (snd (w_st (snd (drain Demo.Marshal Demo.client Demo.env Demo.w0)))) = ["203.0.113.7:443"; "203.0.113.9:443"].
Proof.
  split; [|vm_compute; done].
  exact (posts_guarded Demo.Marshal Demo.client Demo.feeds Demo.feeds_ok Demo.exchange_leaves Demo.exchange_logged Demo.env Demo.w0 demo_hook_inv).
Defined.
Lemma backoff_exact_witness : backoffFor 5 = 160 * second.
Proof. rewrite (backoff_exact 5); [reflexivity|discriminate]. Defined.

(** [names_are_refused]: the guard sees the address before it is resolved, so a target that is a host name
    is always refused, and its deliveries fail after six attempts. *)
Theorem names_are_refused :
  reachable "hooks.example.com:443" = Err (EText "could not read the address") /\
  let named := MkWebhookDB [Demo.sub "wh-1" "prj-1" "pager" "https://hooks.example.com" []] [(1, Demo.waiting "whd-1" "wh-1" 5 5)] (Some 8) in
  let w' := snd (Demo.run ReqPump (MkWorld (named, []) O [])) in
  map (fun d => (d_State d, d_LastError d)) (outbox (part w')) = [(StateFailed, "could not read the address")] /\ snd (w_st w') = [].
Proof. vm_compute. done. Qed.

(** [mapped_unspecified_passes]: the unspecified IPv4 address is refused, but not inside IPv6. *)
Theorem mapped_unspecified_passes : reachable "0.0.0.0:80" <> Ok tt /\ reachable "[::]:80" <> Ok tt /\ reachable "[::ffff:0.0.0.0]:80" = Ok tt.
Proof. vm_compute. done. Qed.

(** [pause_drops_deliveries]: what waits when a subscription is paused is failed by the next pass and not
    taken up again when it is resumed. *)
Theorem pause_drops_deliveries :
  let w1 := snd (Demo.run (ReqSetActive (Demo.tenant "prj-2") "wh-2" false) Demo.w0) in
  let w2 := snd (Demo.run ReqPump w1) in
  let w3 := snd (Demo.run ReqPump (snd (Demo.run (ReqSetActive (Demo.tenant "prj-2") "wh-2" true) w2))) in
  map d_State (List.filter (fun d => String.eqb (d_ID d) "whd-2") (outbox (part w3))) = [StateFailed].
Proof. vm_compute. done. Qed.
