(* ===== verification/Feed.v ===== *)
(** Events and webhooks together (internal/app/adapters.go): the fan-out of the webhooks reads the
    event log, and every event reaches every subscription that wants it exactly once. *)
From stdpp Require Import base tactics numbers strings list gmap sorting.
From Stdlib Require Import ZArith Lia Sorted.
From S2P Require Import Prelude GoLang Time Effects Regex Kernel Httpx Tables.
From S2P Require Event Webhook.
Import Webhook.

(* go: app/adapters.go:232-241 Event *)
Definition to_webhook (e : Event.Entry) : Event :=
  MkEvent (Event.e_ID e) (Event.e_At e) (Event.e_ProjectID e) (Event.e_Kind e) (Event.e_Subject e) (Event.e_NodeID e) (Event.e_Message e)
    (Event.e_Severity e).

Section feed.
Context {S : Type} `{!Has Event.EventDB S}.

(* go: app/adapters.go webhookEvents.Since *)
Definition feed_since (afterID limit : Z) : M S (list Event) :=
  let! entries := Event.since afterID limit in
  ret (map to_webhook entries).
(* go: app/adapters.go webhookEvents.NewestID *)
Definition feed_newest : M S Z := Event.newestID.
(* go: app/adapters.go webhookEvents *)
Definition webhookEvents : Events S := {| Since := feed_since; NewestID := feed_newest |}.
End feed.

(** The fan-out moved on from [c] to [c']: what it took of the log, and the deliveries it made. *)
Record fanned_out (log : Event.EventDB) (db db' : WebhookDB) (c c' : Z) : Prop := {
  fo_cursor : wd_cursor db' = Some c' /\ c <= c';
  (** every event of the log up to the new cursor reaches every subscription that wants it *)
  fo_reached : forall e s, e ∈ Event.ed_rows log -> c < Event.e_ID e <= c' -> s ∈ active_subs db -> wants (to_webhook e) s = true ->
    exists d, d ∈ outbox db' /\ d_key d = (s_ID s, Event.e_ID e) /\ d_State d = StatePending /\ d_Kind d = Event.e_Kind e /\ d_Subject d = Event.e_Subject e;
  (** and no other delivery comes up *)
  fo_only : forall d, d ∈ outbox db' -> d ∈ outbox db \/
    exists e s, e ∈ Event.ed_rows log /\ c < Event.e_ID e <= c' /\ s ∈ active_subs db /\ wants (to_webhook e) s = true /\ d_key d = (s_ID s, Event.e_ID e);
  fo_kept : forall d, d ∈ outbox db -> d ∈ outbox db';
  (** it took all there is, or a hundred *)
  fo_batch : (forall e, e ∈ Event.ed_rows log -> Event.e_ID e <= c') \/
             len (List.filter (fun e => (c <? Event.e_ID e) && (Event.e_ID e <=? c')) (Event.ed_rows log)) = MaxBatch;
}.

Section properties.
Context {S : Type} `{!Has Event.EventDB S, !Has WebhookDB S, !Apart WebhookDB Event.EventDB S}.

(** The numbers of a batch. *)
Lemma batch_highest rows c : StronglySorted (fun a b => Event.e_ID a < Event.e_ID b) rows -> Forall (fun e => c < Event.e_ID e) rows ->
  rows <> [] -> exists z, last rows = Some z /\ highest c (map to_webhook rows) = Event.e_ID z.
Proof.
  intros Hs Hc Hne. destruct (last rows) as [z|] eqn:El; [|by apply last_None in El]. exists z. split; [done|].
  destruct (highest_spec c (map to_webhook rows)) as (_ & H2 & H3). apply last_Some in El as [l ->].
  assert (Hz : Event.e_ID z <= highest c (map to_webhook (l ++ [z]))).
  { apply (H2 (to_webhook z)). rewrite map_app. set_solver. }
  rewrite Forall_forall in Hc. destruct H3 as [H3|(e & He & H3)].
  - specialize (Hc z ltac:(set_solver)). lia.
  - apply list_elem_of_In, in_map_iff in He as (x & <- & Hx). rewrite <- list_elem_of_In in Hx. cbn in H3.
    apply elem_of_app in Hx as [Hx| ->%list_elem_of_singleton]; [|done].
    pose proof (StronglySorted_app_1_elem_of _ _ _ x z Hs Hx ltac:(set_solver)). cbn in *. lia.
Qed.

Lemma sorted_map_to rows : StronglySorted (fun a b => Event.e_ID a < Event.e_ID b) rows -> StronglySorted (fun a b => e_ID a < e_ID b) (map to_webhook rows).
Proof. intros Hs. induction Hs as [|x l _ IH Hf]; simpl; constructor; [done|]. apply Forall_map. eapply Forall_impl; [exact Hf|done]. Qed.
Lemma queue_leaves now subs e out : leaves Event.EventDB (queue_entry (S:=S) now subs e out).
Proof. unfold queue_entry, ids_New. auto 14 with leaves. Qed.
Hint Resolve queue_leaves : leaves.

Lemma fan_step now c log db entries queued rows (Hl : Event.event_inv log) (Hw : hook_inv db) (Hc : wd_cursor db = Some c) (Hpos : 0 <= c)
  (He : entries = take (Z.to_nat MaxBatch) (List.filter (fun e => c <? Event.e_ID e) (Event.ed_rows log))) (Hne : entries <> [])
  (Hq : fanned now (active_subs db) (map to_webhook entries) queued) (Hi : insert_deliveries (wd_deliveries db) queued = Ok rows) :
  fanned_out log db (MkWebhookDB (wd_subs db) rows (Some (highest c (map to_webhook entries)))) c (highest c (map to_webhook entries)).
Proof.
  set (behind := List.filter (fun e => c <? Event.e_ID e) (Event.ed_rows log)) in *.
  assert (Hs : StronglySorted (fun a b => Event.e_ID a < Event.e_ID b) behind) by (apply sorted_bfilter, Hl).
  assert (Hm : forall e, e ∈ behind <-> e ∈ Event.ed_rows log /\ c < Event.e_ID e) by (intros e; unfold behind; by rewrite elem_of_filter_bool, Z.ltb_lt).
  assert (Hcut : forall e, e ∈ entries <-> e ∈ behind /\ (len entries < MaxBatch \/ exists z, last entries = Some z /\ Event.e_ID e <= Event.e_ID z))
    by (intros e; rewrite He; by apply Event.cut_elem).
  assert (Hse : StronglySorted (fun a b => Event.e_ID a < Event.e_ID b) entries) by (rewrite He; by apply sorted_take).
  assert (Hce : Forall (fun e => c < Event.e_ID e) entries) by (apply Forall_forall; intros e [Hx _]%Hcut; by apply Hm).
  destruct (batch_highest entries c Hse Hce Hne) as (z & Hz & Eh).
  destruct (highest_spec c (map to_webhook entries)) as (Hge & Htop & _).
  assert (Htop' : forall e, e ∈ entries -> Event.e_ID e <= highest c (map to_webhook entries)).
  { intros e Hx. apply (Htop (to_webhook e)). rewrite list_elem_of_In. apply in_map. by rewrite <- list_elem_of_In. }
  assert (Hin : forall e, e ∈ Event.ed_rows log -> c < Event.e_ID e <= highest c (map to_webhook entries) -> e ∈ entries).
  { intros e Hx [H1 H2]. apply Hcut. split; [by apply Hm|]. right. exists z. split; [done|]. by rewrite <- Eh. }
  destruct (insert_deliveries_ok _ _ _ Hi (hi_did _ Hw)) as [Eout _].
  constructor; unfold outbox in *; cbn [wd_deliveries wd_cursor]; try rewrite Eout.
  - done.
  - intros e s Hx Hb Hsub Hwant. assert (Hp : (to_webhook e, s) ∈ fan_pairs (active_subs db) (map to_webhook entries)).
    { apply fan_pairs_elem. split_and!; [|done..]. rewrite list_elem_of_In. apply in_map. rewrite <- list_elem_of_In. by apply Hin. }
    apply list_elem_of_lookup in Hp as [i Hp]. apply (Forall2_lookup_l _ _ _ _ _ Hq) in Hp as (d & Hd & id & ->).
    eexists. split_and!; [apply elem_of_app; right; by eapply list_elem_of_lookup_2|done..].
  - intros d [Hd|Hd]%elem_of_app; [by left|right]. destruct (fanned_elem _ _ _ _ _ Hq Hd) as (id & e & s & -> & Hx & Hsub & Hwant).
    apply list_elem_of_In, in_map_iff in Hx as (x & <- & Hx). rewrite <- list_elem_of_In in Hx. exists x, s.
    pose proof Hx as Hx'. apply Hcut in Hx' as [[Hlog Hlt]%Hm _]. split_and!; try done. by apply Htop'.
  - set_solver.
  - destruct (Z.lt_ge_cases (len entries) MaxBatch) as [Hlt|Hge2].
    + left. intros e Hx. destruct (Z.le_gt_cases (Event.e_ID e) c) as [Hle|Hgt]; [lia|]. apply Htop'. apply Hcut. split; [by apply Hm|by left].
    + right. assert (E : List.filter (fun e => (c <? Event.e_ID e) && (Event.e_ID e <=? highest c (map to_webhook entries))) (Event.ed_rows log) = entries).
      { rewrite filter_andb. fold behind. rewrite <- (take_drop (Z.to_nat MaxBatch) behind) at 1. rewrite <- He, List.filter_app.
        rewrite filter_all, filter_none, app_nil_r; [done| |]; intros x Hx.
        - apply Z.leb_gt. rewrite Eh. rewrite <- (take_drop (Z.to_nat MaxBatch) behind), <- He in Hs.
          apply last_Some in Hz as [l Hz]. exact (StronglySorted_app_1_elem_of _ _ _ z x Hs ltac:(rewrite Hz; set_solver) Hx).
        - apply Z.leb_le. by apply Htop'. }
      rewrite E. assert (len entries <= MaxBatch) by (rewrite He, length_take; unfold MaxBatch; lia). lia.
Qed.

(** [every_event_fanned]: a fan-out either leaves the cursor and the outbox as they were, or moves the cursor
    on: then every event of the log up to the new cursor has reached, once, every active subscription of
    its project that wants it, no other delivery has come up, and the cursor stands at the end of the log
    or the batch was full; the log is left as it is, and what fails on the way fails whole. *)
Theorem every_event_fanned env c (w : World S) (Hl : Event.event_inv (part w)) (Hw : hook_inv (part w)) (Hc : wd_cursor (part w) = Some c) (Hpos : 0 <= c) :
  wp env (fanOut (Some webhookEvents)) (fun r w' => part w' = part (T:=Event.EventDB) w /\
    (part w' = part (T:=WebhookDB) w /\ (r = Ok 0 -> forall e, e ∈ Event.ed_rows (part w) -> Event.e_ID e <= c) \/
     exists c', fanned_out (part w) (part w) (part w') c c' /\ NoDup (map d_key (outbox (part w'))) /\ exists n, r = Ok n)) w.
Proof.
  unfold fanOut. apply wp_bind, wp_mapped. unfold cursor. apply wp_read. intros r [->| ->]; cbn [or_fault]; [split; [done|by left]|].
  assert (default (-1) (wd_cursor (part w)) = c) as -> by (by rewrite Hc). assert (c <? 0 = false) as -> by (by apply Z.ltb_ge).
  apply wp_bind, wp_mapped. unfold active, load. apply wp_read. intros r [->| ->]; cbn [or_fault]; [split; [done|by left]|].
  change (part (tick w)) with (part (T:=WebhookDB) w). fold (active_subs (part w)).
  cbn [Since webhookEvents]. unfold feed_since. apply wp_bind, wp_bind.
  set (w2 := tick (tick w)). assert (Hsince : leaves WebhookDB (Event.since (S:=S) c MaxBatch)) by (unfold Event.since, Event.since_rows; auto with leaves).
  eapply wp_mono; [|apply wp_and; [exact (Event.yields_since (part w) c MaxBatch Hl env w2 I eq_refl)|by apply (wp_leaves _ _ (fun _ w' => part w' = part (T:=WebhookDB) w2))]].
  cbv beta. change ((MaxBatch <=? 0) || (Event.MaxLimit <? MaxBatch)) with false. cbv iota. intros r w3 [[Hlog Hr] Hhook].
  change (part (T:=WebhookDB) w2) with (part (T:=WebhookDB) w) in Hhook.
  destruct r as [entries|e]; [|by split; [|left]]. rewrite wp_ret.
  assert (Hall : entries = [] -> forall e, e ∈ Event.ed_rows (part w) -> Event.e_ID e <= c).
  { intros E e Hx. rewrite E in Hr. symmetry in Hr. destruct (Z.le_gt_cases (Event.e_ID e) c) as [?|Hgt]; [done|]. exfalso.
    assert (Hin : e ∈ List.filter (fun e => c <? Event.e_ID e) (Event.ed_rows (part w))) by (apply elem_of_filter_bool; by rewrite Z.ltb_lt).
    destruct (List.filter _ _); [set_solver|done]. }
  destruct (decide (entries = [])) as [->|Hne]; [split; [done|left; by split; [|intros _; apply Hall]]|].
  destruct (map to_webhook entries) as [|e0 l0] eqn:Em; [by apply map_eq_nil in Em|]. rewrite <- Em. clear e0 l0 Em.
  apply wp_bind. rewrite wp_now. set (now := env_now env (w_step w3)). apply wp_bind.
  eapply wp_mono; [|apply wp_and; [refine (yields_queued (part w) now (active_subs (part w)) (map to_webhook entries) [] [] _ env (tick w3) I _); [constructor|exact Hhook]|
    apply (wp_leaves (T:=Event.EventDB) _ _ (fun _ w' => part w' = part (T:=Event.EventDB) w)); [auto with leaves|intros r w' ->; exact Hlog]]].
  cbv beta. intros r w4 [[Hhook4 Hq] Hlog4]. destruct r as [queued|e]; [|by split; [|left]].
  apply wp_bind, wp_mapped. unfold enqueue. apply (wp_write_apart env (T:=WebhookDB) (U:=Event.EventDB)); intros w5 H1 H2; cbn [or_fault].
  { split; [congruence|left; split; [congruence|done]]. }
  rewrite Hhook4 in H1 |- *. destruct (insert_deliveries (wd_deliveries (part w)) queued) as [rows|e] eqn:Ei; cbn [fst snd or_fault] in *.
  - rewrite wp_ret. split; [congruence|right]. exists (highest c (map to_webhook entries)). rewrite H1.
    pose proof (fan_step now c (part w) (part w) entries queued rows Hl Hw Hc Hpos Hr Hne Hq Ei) as Hf. split_and!; [done| |eauto].
    assert (Hch : change feed_ok Ticker (part w) (MkWebhookDB (wd_subs (part w)) rows (Some (highest c (map to_webhook entries))))).
    { apply (C_fan feed_ok Ticker (part w) c (map to_webhook entries) now queued rows); try done; [|by intros E%map_eq_nil].
      split; [|apply Forall_map, Forall_forall; intros e He; rewrite Hr in He; apply subseteq_take, elem_of_filter_bool in He as [_ He]; by apply Z.ltb_lt].
      apply sorted_map_to. rewrite Hr. apply sorted_take, sorted_bfilter, Hl. }
    apply (hi_once _ (hook_change_inv feed_ok ltac:(done) _ _ _ Hch Hw)).
  - split; [congruence|left; split; [congruence|done]].
Qed.
End properties.

(** * Witness *)

Module Demo.
Abbreviation St := (Event.EventDB * WebhookDB)%type.
#[export] Instance has_log : Has Event.EventDB St := Has_fst _ _.
#[export] Instance has_hooks : Has WebhookDB St := Has_snd _ _.
#[export] Instance apart_hooks : Apart WebhookDB Event.EventDB St := Apart_pair' _ _.
Definition hooks : WebhookDB :=
  MkWebhookDB [Webhook.Demo.sub "wh-1" "prj-1" "pager" "https://203.0.113.7" ["instance.*"; "job.done"];
    Webhook.Demo.sub "wh-2" "prj-2" "pager" "https://203.0.113.9" []] [] (Some 3).
Definition w0 : World St := MkWorld (Event.Demo.db, hooks) O [].
Definition env : Env := {| env_now _ := 1709210050 * second; env_rand n := [Z.of_nat n; 7]; env_io _ := false |}.
End Demo.
Import (hints) Demo.

Lemma feed_hook_inv : hook_inv Demo.hooks.
Proof.
  constructor; try (apply (bool_decide_unpack _); vm_compute; exact I); try (by constructor).
  repeat (apply List.Forall_cons; [constructor; split; [vm_compute; discriminate|]; repeat constructor; vm_compute; done|]). constructor.
Qed.
Lemma every_event_fanned_witness :
  wp Demo.env (fanOut (Some webhookEvents)) (fun r w' => part w' = (part (T:=Event.EventDB) Demo.w0) /\
    (part w' = (part (T:=WebhookDB) Demo.w0) /\ (r = Ok 0 -> forall e, e ∈ Event.ed_rows Event.Demo.db -> Event.e_ID e <= 3) \/
     exists c', fanned_out Event.Demo.db Demo.hooks (part w') 3 c' /\ NoDup (map d_key (outbox (part w'))) /\ exists n, r = Ok n)) Demo.w0 /\
  map d_key (outbox (part (snd (fanOut (Some webhookEvents) Demo.env Demo.w0)))) = [("wh-2", 4); ("wh-1", 7); ("wh-1", 9)].
Proof.
  split; [|vm_compute; done].
  exact (every_event_fanned Demo.env 3 Demo.w0 Event.demo_event_inv feed_hook_inv eq_refl ltac:(discriminate)).
Defined.
