(* ===== verification/Token.v ===== *)
(** Bearer tokens (internal/platform/token): who may call the control plane, as what role, in
    which project and until when.

    A row keeps the SHA-256 of the secret, never the secret.  The project directory and the
    directory of people are the interfaces [Projects] and [Users]; either may not be wired. *)
From stdpp Require Import base tactics numbers strings list gmap.
From Stdlib Require Import ZArith Lia.
From S2P Require Import Prelude GoLang Effects Kernel Interval Encoding.

(** * Data (types.go) *)

Definition RoleAdmin : string := "admin".
Definition RoleMember : string := "member".
Definition RoleViewer : string := "viewer".
Definition RoleNode : string := "node".
Definition BootstrapName : string := "bootstrap".
Definition defaultProjectID : string := "prj-default".
Definition MaxLifetime : Z := 10 * 365 * 24 * hour.

(* go: platform/token/types.go Token *)
Record Token := MkToken {
  t_ID : string; t_Name : string; t_Role : string; t_ProjectID : string; t_UserID : string;
  t_CreatedAt : Z; t_LastUsedAt : Z; t_ExpiresAt : Z;
}.
(* go: platform/token/types.go Token.Expired *)
Definition Expired (t : Token) (now : Z) : bool :=
  negb (time_is_zero (t_ExpiresAt t)) && negb (time_before now (t_ExpiresAt t)).

(* go: platform/token/types.go Identity *)
Record Identity := MkIdentity {
  id_ID : string; id_Name : string; id_Role : string; id_ProjectID : string; id_UserID : string; id_ExpiresAt : Z;
}.
(* go: platform/token/types.go CreateParams *)
Record CreateParams := MkCreateParams {
  cp_Name : string; cp_Role : string; cp_ProjectID : string; cp_UserID : string; cp_ExpiresIn : string;
}.
(* go: platform/token/types.go Roles *)
Definition Roles : list string := [RoleAdmin; RoleMember; RoleViewer; RoleNode].
(* go: platform/token/module.go Module.Names *)
Definition Names : list string := [RoleAdmin; RoleMember; RoleViewer].

(** * Interfaces (service.go) *)

(* go: platform/token/service.go Projects *)
Record Projects (S : Type) := { Exists : string -> M S bool }.
Arguments Exists {S} _ _.
(* go: platform/token/service.go Users *)
Record Users (S : Type) := { Allowed : string -> M S bool }.
Arguments Allowed {S} _ _.

(** * Repository (repository.go): UNIQUE (id), (project_id, name) and (secret_hash) *)

Record TokenRow := MkTokenRow { r_token : Token; r_hash : string }.
Abbreviation TokenDB := (list TokenRow).

Definition errNotFound : error := ESentinel "token not found".
Definition errNameTaken : error := ESentinel "token name already exists".

Definition row_clash (n r : TokenRow) : bool :=
  String.eqb (t_ID (r_token r)) (t_ID (r_token n))
  || (String.eqb (t_ProjectID (r_token r)) (t_ProjectID (r_token n)) && String.eqb (t_Name (r_token r)) (t_Name (r_token n)))
  || String.eqb (r_hash r) (r_hash n).
Definition has_id (id : string) (r : TokenRow) : bool := String.eqb (t_ID (r_token r)) id.
Definition has_hash (hash : string) (r : TokenRow) : bool := String.eqb (r_hash r) hash.
Definition of_user (userID : string) (r : TokenRow) : bool := String.eqb (t_UserID (r_token r)) userID.
Definition in_project (projectID : string) (r : TokenRow) : bool := String.eqb (t_ProjectID (r_token r)) projectID.
Definition touched (at_ : Z) (r : TokenRow) : TokenRow :=
  let t := r_token r in
  MkTokenRow (MkToken (t_ID t) (t_Name t) (t_Role t) (t_ProjectID t) (t_UserID t) (t_CreatedAt t) at_ (t_ExpiresAt t)) (r_hash r).
Definition identity_of (t : Token) : Identity :=
  MkIdentity (t_ID t) (t_Name t) (t_Role t) (t_ProjectID t) (t_UserID t) (t_ExpiresAt t).

Section repository.
Context {S : Type} `{!Has TokenDB S}.

(* go: platform/token/repository.go repository.insert *)
Definition insert_token (t : Token) (hash : string) : M S unit :=
  sql "insert token" (fun db : TokenDB => insert_row (row_clash (MkTokenRow t hash)) errNameTaken (MkTokenRow t hash) db).
(* go: platform/token/repository.go repository.byHash *)
Definition byHash (hash : string) : M S Identity :=
  query "look up token" (fun db : TokenDB =>
    try r := select_one (has_hash hash) errNotFound db in Ok (identity_of (r_token r))).
(* go: platform/token/repository.go repository.deleteForUser *)
Definition deleteForUser (userID : string) : M S unit :=
  if is_empty userID then ret tt
  else sql "delete the tokens of a person" (fun db : TokenDB => (Ok tt, List.filter (fun r => negb (of_user userID r)) db)).
(* go: platform/token/repository.go repository.touch *)
Definition touch (id : string) (at_ : Z) : M S unit :=
  sql "record token use" (fun db : TokenDB => (Ok tt, map (fun r => if has_id id r then touched at_ r else r) db)).
(* go: platform/token/repository.go repository.list *)
Definition list_tokens : M S (list Token) :=
  query "list tokens" (fun db : TokenDB => Ok (sliceStable (by_key t_Name str_ltb (fun _ _ => false)) (map r_token db))).
(* go: platform/token/repository.go repository.count *)
Definition count_tokens : M S Z := query "count tokens" (fun db : TokenDB => Ok (len db)).
(* go: platform/token/repository.go repository.delete *)
Definition delete_token (id : string) : M S unit :=
  sql "delete token" (fun db : TokenDB => delete_where (has_id id) errNotFound db).
(* go: platform/token/repository.go repository.countInProject *)
Definition countInProject (projectID : string) : M S Z :=
  query "count tokens in project" (fun db : TokenDB => Ok (len (List.filter (in_project projectID) db))).
End repository.

(** * Service (service.go) *)

(* go: platform/token/service.go hashOf *)
Definition hashOf (secret : string) : string := hex_encode (sha256 (string_bytes secret)).

(* go: platform/token/service.go translate *)
Definition translate (err : error) : error :=
  if errors_Is err "token not found" then NotFound "token_not_found" "no token with that id exists"
  else if errors_Is err "token name already exists" then Conflict "token_name_taken" "a token with that name already exists"
  else err.

Definition secretBytes : nat := 24.
Definition secretPrefix : string := "mst_".
Definition secret_alphabet : list Ascii.ascii := bytes_of "abcdefghijklmnopqrstuvwxyz234567".
(* go: platform/token/service.go newSecret *)
Definition newSecret {S} : M S string :=
  let! raw := rand in
  ret (secretPrefix +:+ of_bytes (map (fun g => nth_char secret_alphabet (of_bits g))
                                      (regroup 5 true (byte_bits (read_bytes secretBytes raw))))).

Section service.
Context {S : Type} `{!Has TokenDB S}.
Context (projects : option (Projects S)) (users : option (Users S)).

(* go: platform/token/service.go service.requireProject *)
Definition requireProject (id : string) : M S unit :=
  match projects with
  | None => fail (Internal (EText "no project source is wired, so a token cannot be placed"))
  | Some p =>
      let! exists_ := mapped Internal (Exists p id) in
      lift (guard (negb exists_) (Invalid "unknown_project" "no project with that id exists"))
  end.

(** The lifetime a request may ask for. *)
(* go: platform/token/service.go:64-75 interval.Parse *)
Definition lifetime_of (text : string) : outcome Z :=
  try lifetime := or_fault (fun e => Invalid "invalid_lifetime" (error_text e)) (Parse text) in
  try _ := guard (lifetime <? 0) (Invalid "invalid_lifetime" "a lifetime in the past would create a token nobody can use") in
  try _ := guard (MaxLifetime <? lifetime)
    (Invalid "invalid_lifetime" "a lifetime beyond ten years is the same as no lifetime, so say so instead") in
  Ok lifetime.

(* go: platform/token/service.go service.create *)
Definition create (params : CreateParams) : M S (Token * string) :=
  lift (validate_Name "name" (cp_Name params)) ;;;
  lift (validate_OneOf "role" (cp_Role params) Roles) ;;;
  let projectID := if is_empty (cp_ProjectID params) then defaultProjectID else cp_ProjectID params in
  requireProject projectID ;;;
  let! lifetime := lift (lifetime_of (cp_ExpiresIn params)) in
  let! secret := newSecret in
  let! at_ := now in
  let! id := ids_New "tok" in
  let t := MkToken id (cp_Name params) (cp_Role params) projectID (cp_UserID params) at_ at_
                   (if 0 <? lifetime then time_add at_ lifetime else zero_time) in
  mapped translate (insert_token t (hashOf secret)) ;;;
  ret (t, secret).

(* go: platform/token/service.go service.verify *)
Definition verify (secret : string) : M S Identity :=
  let secret := trim_space secret in
  lift (guard (is_empty secret) (Unauthenticated "missing_token" "no bearer token was given")) ;;;
  let! identity := mapped (fun e => if errors_Is e "token not found"
                                    then Unauthenticated "unknown_token" "the bearer token is not valid" else e)
                          (byHash (hashOf secret)) in
  let! at_ := now in
  lift (guard (negb (time_is_zero (id_ExpiresAt identity)) && negb (time_before at_ (id_ExpiresAt identity)))
    (Unauthenticated "token_expired" ("the bearer token expired on " +:+ rfc3339nano (id_ExpiresAt identity / second * second)))) ;;;
  match users with
  | Some u =>
      if is_empty (id_UserID identity) then ret tt
      else
        let! allowed := Allowed u (id_UserID identity) in
        lift (guard (negb allowed)
          (Unauthenticated "user_not_allowed" "the person this token belongs to can no longer sign in"))
  | None => ret tt
  end ;;;
  attempt (touch (id_ID identity) at_) ;;;
  ret identity.

(* go: platform/token/service.go service.list *)
Definition list_service : M S (list Token) := mapped translate list_tokens.

(** An admin token that has not expired. *)
(* go: platform/token/service.go:154-159 usableAdmins *)
Definition usable_admin (at_ : Z) (t : Token) : bool := String.eqb (t_Role t) RoleAdmin && negb (Expired t at_).

(* go: platform/token/service.go service.remove *)
Definition remove (id : string) : M S unit :=
  let! tokens := mapped translate list_tokens in
  let! at_ := now in
  let usableAdmins := len (List.filter (usable_admin at_) tokens) in
  lift (guard (existsb (fun t => String.eqb (t_ID t) id && usable_admin at_ t && (usableAdmins =? 1)) tokens)
    (Conflict "last_admin_token" "this is the only admin token that still works, and revoking it locks everyone out")) ;;;
  mapped translate (delete_token id).

(* go: platform/token/service.go service.ensureBootstrap *)
Definition ensureBootstrap : M S string :=
  let! count := mapped translate count_tokens in
  if 0 <? count then ret ""
  else
    let! ' (_, secret) := create (MkCreateParams BootstrapName RoleAdmin "" "" "") in
    ret secret.

(* go: platform/token/service.go service.countIn *)
Definition countIn (projectID : string) : M S Z := mapped translate (countInProject projectID).

(** The operations other modules are given (module.go). *)
(* go: platform/token/module.go Module.Issue *)
Definition Issue (name role projectID userID : string) (lifetime : Z) : M S string :=
  let! ' (_, secret) := create (MkCreateParams name role projectID userID (duration_string lifetime)) in
  ret secret.
(* go: platform/token/module.go Module.Forget *)
Definition Forget (id : string) : M S unit := remove id.
(* go: platform/token/module.go Module.ForgetUser *)
Definition ForgetUser (userID : string) : M S unit := deleteForUser userID.
End service.

(** * Well-formedness *)

Definition tokens_inv (db : TokenDB) : Prop :=
  unique_by (fun r => Some (t_ID (r_token r))) db /\
  unique_by (fun r => Some (t_ProjectID (r_token r), t_Name (r_token r))) db /\
  unique_by (fun r => Some (r_hash r)) db /\
  Forall (fun r => t_Role (r_token r) ∈ Roles) db.

(** The row but for the time of its last use. *)
Definition unused (r : TokenRow) : TokenRow := touched 0 r.

Lemma insert_token_inv t hash db : tokens_inv db -> t_Role t ∈ Roles ->
  tokens_inv (snd (insert_row (row_clash (MkTokenRow t hash)) errNameTaken (MkTokenRow t hash) db)).
Proof.
  intros (H1 & H2 & H3 & H4) Hr. unfold insert_row. destruct (existsb _ db) eqn:E; [done|].
  rewrite existsb_false, Forall_forall in E. cbn [snd].
  split_and!; [apply unique_by_app|apply unique_by_app|apply unique_by_app|apply Forall_app; auto]; try done;
    intros x k Hx [= <-] Ek; specialize (E x Hx); unfold row_clash in E; cbn [r_token r_hash] in *;
    repeat match goal with H : Some _ = Some _ |- _ => injection H as H | H : (_, _) = (_, _) |- _ => injection H as ? ? end;
    repeat match goal with H : _ = _ :> string |- _ => rewrite H in E; clear H end;
    rewrite !String.eqb_refl, ?orb_true_r in E; discriminate.
Qed.

Lemma touch_inv id at_ db : tokens_inv db -> tokens_inv (map (fun r => if has_id id r then touched at_ r else r) db).
Proof.
  intros (H1 & H2 & H3 & H4). split_and!; try (apply unique_by_map; [|done]; intros r; by destruct (has_id id r)).
  apply Forall_map. eapply Forall_impl; [exact H4|]. intros r Hr. simpl. by destruct (has_id id r).
Qed.

Lemma filter_inv p db : tokens_inv db -> tokens_inv (List.filter p db).
Proof.
  intros (H1 & H2 & H3 & H4). split_and!; try (by apply unique_by_filter).
  apply Forall_forall. intros r [Hr _]%elem_of_filter_bool. rewrite Forall_forall in H4. auto.
Qed.

Lemma touch_unused id at_ db : map unused (map (fun r => if has_id id r then touched at_ r else r) db) = map unused db.
Proof. rewrite map_map. apply map_ext. intros r. by destruct (has_id id r). Qed.

(** * What the operations do *)

Section operations.
Context {S : Type} `{!Has TokenDB S}.
Context (projects : option (Projects S)) (users : option (Users S)) (env : Env).
Context (Hprojects : forall p id, projects = Some p -> leaves TokenDB (Exists p id)).

Lemma leaves_requireProject id : leaves TokenDB (requireProject projects id).
Proof. unfold requireProject. destruct projects as [p|]; [|auto with leaves]. specialize (Hprojects p id eq_refl). auto with leaves. Qed.

Lemma leaves_newSecret : leaves TokenDB (newSecret (S:=S)).
Proof. unfold newSecret. auto with leaves. Qed.

Lemma leaves_ids_New prefix : leaves TokenDB (ids_New (S:=S) prefix).
Proof. unfold ids_New. auto with leaves. Qed.

(** The token a successful [create] adds. *)
Definition created (params : CreateParams) (t : Token) : Prop :=
  t_Name t = cp_Name params /\ t_Role t = cp_Role params /\ t_Role t ∈ Roles /\ t_UserID t = cp_UserID params /\
  t_ProjectID t = (if is_empty (cp_ProjectID params) then defaultProjectID else cp_ProjectID params) /\
  exists lifetime, lifetime_of (cp_ExpiresIn params) = Ok lifetime /\
    t_ExpiresAt t = (if 0 <? lifetime then time_add (t_CreatedAt t) lifetime else zero_time).

Lemma create_wp params w :
  wp env (create projects params) (fun r w' => match r with
    | Ok (t, secret) => created params t /\ part w' = part (T:=TokenDB) w ++ [MkTokenRow t (hashOf secret)] /\
        (tokens_inv (part w) -> tokens_inv (part w'))
    | Err _ => part w' = part (T:=TokenDB) w end) w.
Proof.
  unfold create. apply wp_bind. rewrite wp_lift. destruct (validate_Name _ _) as [[]|]; [|done].
  apply wp_bind. rewrite wp_lift. destruct (validate_OneOf _ _ _) as [[]|] eqn:Er; [|done].
  apply validate_OneOf_ok in Er.
  apply wp_bind, (wp_leaves (T:=TokenDB)); [apply leaves_requireProject|]. intros [[]|e] w1 Hw1; [|done].
  apply wp_bind. rewrite wp_lift. destruct (lifetime_of _) as [lifetime|] eqn:El; [|done].
  apply wp_bind, (wp_leaves (T:=TokenDB)); [apply leaves_newSecret|]. intros [secret|e] w2 Hw2; [|congruence].
  apply wp_bind. rewrite wp_now. apply wp_bind, (wp_leaves (T:=TokenDB)); [apply leaves_ids_New|].
  intros [id|e] w3 Hw3; change (part (tick w2)) with (part (T:=TokenDB) w2) in Hw3; [|congruence].
  set (at_ := env_now env (w_step w2)). set (t := MkToken _ _ _ _ _ _ _ _). assert (Hdb : part w3 = part (T:=TokenDB) w) by congruence.
  apply wp_bind, wp_mapped. apply wp_write; [by intros w4 ->|]. intros w4 Hw4.
  pose proof (insert_token_inv t (hashOf secret) (part w3)) as Hins.
  unfold insert_row in *. destruct (existsb _ _); cbn [fst snd or_fault] in *; [congruence|].
  rewrite wp_ret. rewrite Hdb in Hw4. split; [|split; [exact Hw4|intros Hi; rewrite Hdb in Hins; rewrite Hw4; by apply Hins]].
  unfold created. subst t. simpl. split_and!; eauto.
Qed.

Lemma remove_wp id w :
  let at_ := env_now env (Datatypes.S (w_step w)) in
  let admins db := List.filter (usable_admin at_) (map r_token db) in
  wp env (remove id) (fun r w' => match r with
    | Ok _ => (exists x, x ∈ part (T:=TokenDB) w /\ has_id id x = true) /\
        part w' = List.filter (fun x => negb (has_id id x)) (part w) /\
        ~ (len (admins (part w)) = 1 /\ exists x, x ∈ part w /\ has_id id x = true /\ usable_admin at_ (r_token x) = true)
    | Err _ => part w' = part (T:=TokenDB) w end) w.
Proof.
  intros at_ admins. unfold remove. apply wp_bind, wp_mapped, wp_read. intros r0 Hr.
  destruct Hr as [->| ->]; cbn [or_fault]; [done|]. apply wp_bind. rewrite wp_now. cbn [tick w_step]. fold at_.
  apply wp_bind. rewrite wp_lift. set (tokens := sliceStable _ _).
  assert (Hp : tokens ≡ₚ map r_token (part w)) by (unfold tokens; apply sliceStable_perm).
  rewrite (existsb_perm _ _ _ Hp), (Permutation_length (filter_perm (usable_admin at_) _ _ Hp)).
  destruct (existsb _ _) eqn:E; cbn [guard]; [done|]. rewrite existsb_false, Forall_forall in E.
  apply wp_mapped, wp_write; [by intros w2 ->|]. intros w2 Hw2. cbv beta in Hw2 |- *.
  rewrite delete_where_rows in Hw2. change (part (tick (tick w))) with (part (T:=TokenDB) w) in *.
  unfold delete_where in *. destruct (existsb (has_id id) _) eqn:Ex; cbn [fst snd or_fault] in *.
  - split_and!; [|exact Hw2|].
    + apply existsb_exists in Ex as (x & Hx%list_elem_of_In & ?). eauto.
    + intros (H1 & x & Hx & Hid & Hu). specialize (E (r_token x) ltac:(by apply list_elem_of_fmap_2)).
      unfold has_id in Hid. rewrite Hid, Hu in E. change (len (admins (part w)) = 1) in H1. unfold admins in H1.
      rewrite H1 in E. done.
  - rewrite Hw2. rewrite existsb_false in Ex. clear -Ex. induction Ex as [|x db Hx _ IH]; [done|]. simpl. rewrite Hx. simpl. by rewrite IH.
Qed.
End operations.

Lemma filter_one {A} (p : A -> bool) l x : NoDup l -> x ∈ l -> p x = true -> (forall y, y ∈ l -> p y = true -> y = x) ->
  List.filter p l = [x].
Proof.
  intros Hn Hx Hp Hy. apply Permutation_singleton_r, NoDup_Permutation.
  - clear -Hn. induction Hn as [|y l Hy _ IH]; simpl; [constructor|]. destruct (p y); [|done].
    constructor; [|done]. by intros [? _]%elem_of_filter_bool.
  - apply NoDup_singleton.
  - intros y. rewrite elem_of_filter_bool, list_elem_of_singleton. split; [intros []; auto|by intros ->].
Qed.

Lemma verify_wp {S} `{!Has TokenDB S} (users : option (Users S)) (may : string -> Prop) env secret (w : World S)
  (Husers : forall u id w1, users = Some u -> w_st w1 = w_st w -> wp env (Allowed u id) (fun r w' =>
     w_st w' = w_st w1 /\ match r with Ok true => may id | Ok false => ~ may id | Err e => kind_of e <> KindUnauthenticated end) w1) :
  let shape (r : TokenRow) := r_hash r = hashOf (trim_space secret) in
  wp env (verify users secret) (fun r w' =>
    map unused (part w') = map unused (part w) /\
    match r with
    | Ok identity => trim_space secret <> "" /\ exists x at_, x ∈ part w /\ shape x /\ identity = identity_of (r_token x) /\
        Expired (r_token x) at_ = false /\ (users <> None -> t_UserID (r_token x) <> "" -> may (t_UserID (r_token x)))
    | Err e => kind_of e = KindUnauthenticated -> trim_space secret = "" \/ (forall x, x ∈ part w -> ~ shape x) \/
        exists x at_, x ∈ part w /\ shape x /\ (Expired (r_token x) at_ = true \/ ~ may (t_UserID (r_token x)))
    end) w.
Proof.
  intros shape. unfold verify. apply wp_bind. rewrite wp_lift. destruct (is_empty (trim_space secret)) eqn:Ee; cbn [guard].
  { split; [done|]. intros _. left. by apply is_empty_spec. }
  assert (Hne : trim_space secret <> "") by (intros H; by rewrite H in Ee).
  apply wp_bind, wp_mapped, wp_read. intros r [->| ->]; cbn [or_fault obind]; [done|].
  unfold select_one. destruct (List.find _ _) as [x|] eqn:Ef; cbn [obind or_fault].
  2:{ split; [done|]. intros _. right. left. intros x Hx Hs. eapply find_none_elem in Ef; [|exact Hx].
      unfold has_hash in Ef. by rewrite Hs, String.eqb_refl in Ef. }
  apply find_some_elem in Ef as [Hx Hs]. apply String.eqb_eq in Hs.
  apply wp_bind. rewrite wp_now. set (at_ := env_now _ _). apply wp_bind. rewrite wp_lift.
  change (negb _ && _) with (Expired (r_token x) at_). destruct (Expired (r_token x) at_) eqn:Ex; cbn [guard].
  { split; [done|]. intros _. right. right. exists x, at_. auto. }
  assert (Hend : forall w1, w_st w1 = w_st w -> (users <> None -> t_UserID (r_token x) <> "" -> may (t_UserID (r_token x))) ->
    wp env (attempt (touch (id_ID (identity_of (r_token x))) at_) ;;; ret (identity_of (r_token x))) (fun r w' =>
    map unused (part w') = map unused (part w) /\
    match r with
    | Ok identity => trim_space secret <> "" /\ exists x at_, x ∈ part w /\ shape x /\ identity = identity_of (r_token x) /\
        Expired (r_token x) at_ = false /\ (users <> None -> t_UserID (r_token x) <> "" -> may (t_UserID (r_token x)))
    | Err e => kind_of e = KindUnauthenticated -> trim_space secret = "" \/ (forall x, x ∈ part w -> ~ shape x) \/
        exists x at_, x ∈ part w /\ shape x /\ (Expired (r_token x) at_ = true \/ ~ may (t_UserID (r_token x)))
    end) w1).
  { intros w1 Hw1 Hm. assert (Hp : part w1 = part (T:=TokenDB) w) by (unfold part; by rewrite Hw1).
    apply wp_bind, wp_attempt, wp_write; intros w2 Hw2; rewrite wp_ret.
    - rewrite Hw2, Hp. split; [done|]. split; [done|]. exists x, at_. auto.
    - rewrite Hw2, Hp. cbn [snd]. rewrite touch_unused. split; [done|]. split; [done|]. exists x, at_. auto. }
  destruct users as [u|]; [|apply wp_bind; rewrite wp_ret; by apply Hend]. cbn [id_UserID identity_of].
  destruct (is_empty (t_UserID (r_token x))) eqn:Eu.
  - apply is_empty_spec in Eu. apply wp_bind. rewrite wp_ret. by apply Hend.
  - apply wp_bind, wp_bind. eapply wp_mono; [|by apply Husers]. intros [[]|e] w1 [Hw1 Hr]; cbv beta iota.
    + rewrite wp_lift. cbn [guard negb]. by apply Hend.
    + rewrite wp_lift. cbn [guard negb]. split; [unfold part; by rewrite Hw1|]. intros _. right. right. exists x, at_. auto.
    + split; [unfold part; by rewrite Hw1|]. done.
Qed.

(** * Properties *)

(** Somebody can still administer the control plane at [at_]. *)
Definition administrable (at_ : Z) (db : TokenDB) : Prop := exists r, r ∈ db /\ usable_admin at_ (r_token r) = true.

(** C27: [remove_keeps_an_admin]: revoking a token never takes away the last admin token that has not
    expired, however the database fails; it removes the token asked for and no other, or
    nothing. *)
Theorem remove_keeps_an_admin {S} `{!Has TokenDB S} env id (w : World S) (Hinv : tokens_inv (part w)) :
  let at_ := env_now env (Datatypes.S (w_step w)) in
  wp env (remove id) (fun r w' =>
    (administrable at_ (part w) -> administrable at_ (part w')) /\ tokens_inv (part w') /\
    match r with
    | Ok _ => forall x, x ∈ part (T:=TokenDB) w' <-> x ∈ part (T:=TokenDB) w /\ t_ID (r_token x) <> id
    | Err _ => part w' = part (T:=TokenDB) w
    end) w.
Proof.
  intros at_. eapply wp_mono; [|apply remove_wp]. intros [[]|e] w'; cbv zeta beta; fold at_; [|by intros ->].
  intros ((x & Hx & Hid) & Hw' & Hlast). split_and!.
  - intros (r & Hr & Hu). destruct (has_id id r) eqn:Er.
    2:{ exists r. rewrite Hw', elem_of_filter_bool, Er. done. }
    destruct (existsb (fun r' => negb (has_id id r') && usable_admin at_ (r_token r')) (part w)) eqn:Eo.
    + apply existsb_exists in Eo as (r' & Hr'%list_elem_of_In & [He Hu']%andb_true_iff).
      exists r'. by rewrite Hw', elem_of_filter_bool.
    + exfalso. apply Hlast. split; [|by eauto]. destruct Hinv as [H1 _]. unfold unique_by in H1. rewrite omap_total in H1.
      assert (E : List.filter (usable_admin at_) (map r_token (part w)) = [r_token r]); [|by rewrite E].
      apply filter_one; [|by apply list_elem_of_fmap_2|done|].
      * apply (NoDup_fmap_1 t_ID). change (NoDup (map t_ID (map r_token (part w)))). by rewrite map_map.
      * intros t (r' & -> & Hr')%list_elem_of_fmap Hp. 
        rewrite existsb_false, Forall_forall in Eo. specialize (Eo r' Hr'). rewrite Hp, andb_true_r in Eo.
        apply negb_false_iff in Eo. f_equal. refine (unique_by_eq (fun r => Some (t_ID (r_token r))) _ _ _ _ _ Hr' Hr eq_refl _); [by unfold unique_by; rewrite omap_total|].
        unfold has_id in *. breflect. congruence.
  - rewrite Hw'. by apply filter_inv.
  - intros y. rewrite Hw', elem_of_filter_bool, negb_true_iff. unfold has_id. by rewrite String.eqb_neq.
Qed.

Definition tok_env : Env := {| env_now _ := 1000 * second; env_rand _ := []; env_io _ := false |}.
Definition row_admin (id name : string) (expires : Z) (hash : string) : TokenRow :=
  MkTokenRow (MkToken id name RoleAdmin "prj-1" "" 0 0 expires) hash.
Definition row_old : TokenRow := row_admin "tok-1" "old" second
  "fb8e8980f943059913260bb4f9c4f353e90dd9188fd91e20d9efecdbe9462064".
Definition row_last : TokenRow := row_admin "tok-2" "last" zero_time
  "bf5fdff01afa6a8f76adb20c47b42bbbffa3d5dbcedb1ee269f48bd4bec5bc49".
Definition db_admins : TokenDB := [row_old; row_last].
Example db_admins_hashes : map r_hash db_admins = [hashOf "mst_old"; hashOf "mst_last"].
Proof. vm_compute. reflexivity. Qed.

Lemma remove_keeps_an_admin_witness :
  administrable (1000 * second) (w_st (snd (remove "tok-2" tok_env (MkWorld db_admins O [])))) /\
  (exists e, fst (remove "tok-2" tok_env (MkWorld db_admins O [])) = Err e /\ code_of e = "last_admin_token").
Proof.
  split; [|eexists; split; vm_compute; reflexivity].
  assert (Hi : tokens_inv (part (MkWorld db_admins O []))).
  { repeat split; unfold unique_by; apply (bool_decide_unpack _); vm_compute; exact I. }
  pose proof (remove_keeps_an_admin tok_env "tok-2" (MkWorld db_admins O []) Hi) as H. cbv zeta in H. unfold wp in H.
  destruct (remove "tok-2" tok_env (MkWorld db_admins O [])) as [r w']. destruct H as [H _]. apply H.
  exists row_last. split; [right; left|vm_compute; reflexivity].
Defined.


