(* ===== verification/User.v ===== *)
(** People (internal/platform/user): who can sign in with an email and a password, and the
    sessions they hold.

    Sessions are tokens; issuing and forgetting them is the interface [Tokens], which
    [token_service] discharges with the module of Token.v, as app.go wires them.  The limiter of
    sign-ins is a part of the memory. *)
From stdpp Require Import base tactics numbers strings list gmap.
From Stdlib Require Import ZArith Lia.
From Stdlib Require Ascii.
From S2P Require Import Prelude GoLang Effects Regex Kernel Encoding Interval.
From S2P Require Token.

(** * Data (types.go) *)

Definition MaxNameLength : Z := 60.
Definition MaxEmailLength : Z := 254.
Definition MinPasswordLength : Z := 12.
Definition MaxPasswordLength : Z := 256.
Definition SessionLifetime : Z := 12 * hour.
Definition LoginsPerSecond : Z := 1.
Definition LoginBurst : Z := 5.

(* go: platform/user/types.go User *)
Record User := MkUser {
  u_ID : string; u_Email : string; u_Name : string; u_Role : string; u_ProjectID : string;
  u_Disabled : bool; u_CreatedAt : Z; u_UpdatedAt : Z;
}.
(* go: platform/user/types.go CreateParams *)
Record CreateParams := MkCreateParams {
  cp_Email : string; cp_Name : string; cp_Role : string; cp_ProjectID : string; cp_Password : string;
}.
(* go: platform/user/types.go Session *)
Record Session := MkSession {
  s_Secret : string; s_UserID : string; s_Email : string; s_Role : string; s_ProjectID : string; s_ExpiresAt : Z;
}.

(** * Interfaces (service.go) *)

(* go: platform/user/service.go Tokens *)
Record Tokens (S : Type) := {
  Issue : string -> string -> string -> string -> Z -> M S string;
  Forget : string -> M S unit;
  ForgetUser : string -> M S unit;
}.
Arguments Issue {S} _ _ _ _ _ _.
Arguments Forget {S} _ _.
Arguments ForgetUser {S} _ _.

(** * Passwords (password.go) *)

Definition iterations : Z := 600000.
Definition saltBytes : nat := 16.
Definition scheme : string := "pbkdf2-sha256".
Definition errBadStored : error := ESentinel "the stored password cannot be read".

(** [strings.Split(s, sep)] for a separator of one byte. *)
Fixpoint split_byte (sep : Z) (l : list Ascii.ascii) : list (list Ascii.ascii) :=
  match l with
  | [] => [[]]
  | c :: l' =>
      if code c =? sep then [] :: split_byte sep l'
      else match split_byte sep l' with
           | part :: parts => (c :: part) :: parts
           | [] => [[c]]
           end
  end.
Definition Split (s : string) (sep : Z) : list string := map of_bytes (split_byte sep (bytes_of s)).

(* go: platform/user/password.go derive *)
Definition derive (password : string) (salt : list Z) (rounds : Z) : string :=
  join [scheme; itoa rounds; base64_encode_with std64_alphabet salt;
        base64_encode_with std64_alphabet (pbkdf2 password salt rounds)] "$".

(* go: platform/user/password.go hashPassword *)
Definition hashPassword {S} (password : string) : M S string :=
  let! salt := rand in
  ret (derive password (read_bytes saltBytes salt) iterations).

(** The comparison in constant time compares the two strings. *)
(* go: platform/user/password.go matches *)
Definition matches (stored password : string) : outcome bool :=
  match Split stored 36 with
  | [p0; p1; p2; p3] =>
      if negb (String.eqb p0 scheme) then Err errBadStored
      else match atoi p1 with
           | None => Err errBadStored
           | Some rounds =>
               if rounds <=? 0 then Err errBadStored
               else match base64_decode_with std64_alphabet p2 with
                    | None => Err errBadStored
                    | Some salt => Ok (String.eqb (derive password salt rounds) stored)
                    end
           end
  | _ => Err errBadStored
  end.

(** * Repository (repository.go): UNIQUE (id) and (email) *)

Record UserRow := MkUserRow { r_user : User; r_password : string }.
Abbreviation UserDB := (list UserRow).

Definition errNotFound : error := ESentinel "user not found".
Definition errEmailUsed : error := ESentinel "email already used".

Definition has_id (id : string) (r : UserRow) : bool := String.eqb (u_ID (r_user r)) id.
Definition has_email (email : string) (r : UserRow) : bool := String.eqb (u_Email (r_user r)) email.
Definition row_clash (n r : UserRow) : bool := has_id (u_ID (r_user n)) r || has_email (u_Email (r_user n)) r.

Definition with_password (stored : string) (at_ : Z) (r : UserRow) : UserRow :=
  let u := r_user r in
  MkUserRow (MkUser (u_ID u) (u_Email u) (u_Name u) (u_Role u) (u_ProjectID u) (u_Disabled u) (u_CreatedAt u) at_) stored.
Definition with_disabled (disabled : bool) (at_ : Z) (r : UserRow) : UserRow :=
  let u := r_user r in
  MkUserRow (MkUser (u_ID u) (u_Email u) (u_Name u) (u_Role u) (u_ProjectID u) disabled (u_CreatedAt u) at_) (r_password r).

Section repository.
Context {S : Type} `{!Has UserDB S}.

(* go: platform/user/repository.go repository.insert *)
Definition insert_user (u : User) (stored : string) : M S unit :=
  sql "insert user" (fun db : UserDB => insert_row (row_clash (MkUserRow u stored)) errEmailUsed (MkUserRow u stored) db).
(* go: platform/user/repository.go repository.setPassword *)
Definition setPassword_row (id stored : string) (at_ : Z) : M S unit :=
  sql "set the password" (fun db : UserDB => update_where (has_id id) (with_password stored at_) errNotFound db).
(* go: platform/user/repository.go repository.setDisabled *)
Definition setDisabled_row (id : string) (disabled : bool) (at_ : Z) : M S unit :=
  sql "set disabled" (fun db : UserDB => update_where (has_id id) (with_disabled disabled at_) errNotFound db).
(* go: platform/user/repository.go repository.delete *)
Definition delete_user (id : string) : M S unit :=
  sql "delete user" (fun db : UserDB => delete_where (has_id id) errNotFound db).
(* go: platform/user/repository.go repository.byID *)
Definition byID (id : string) : M S User :=
  query "list users" (fun db : UserDB => try r := select_one (has_id id) errNotFound db in Ok (r_user r)).
(* go: platform/user/repository.go repository.byEmail *)
Definition byEmail (email : string) : M S User :=
  query "list users" (fun db : UserDB => try r := select_one (has_email email) errNotFound db in Ok (r_user r)).
(* go: platform/user/repository.go repository.credentials *)
Definition credentials (email : string) : M S (User * string) :=
  query "look up credentials" (fun db : UserDB =>
    try r := select_one (has_email email) errNotFound db in Ok (r_user r, r_password r)).
(* go: platform/user/repository.go repository.list *)
Definition list_users : M S (list User) :=
  query "list users" (fun db : UserDB => Ok (sliceStable (by_key u_Email str_ltb (fun _ _ => false)) (map r_user db))).
End repository.

(** * Service (service.go) *)

(** [^[^@\s]+@[^@\s.]+(\.[^@\s.]+)+$] *)
Definition email_char (c : Ascii.ascii) : bool :=
  negb ((code c =? 64) || (code c =? 9) || (code c =? 10) || (code c =? 12) || (code c =? 13) || (code c =? 32)).
Definition domain_char (c : Ascii.ascii) : bool := email_char c && negb (is_dot c).
Definition RPlus (r : regex) : regex := RSeq r (RStar r).
(* go: platform/user/service.go emailPattern *)
Definition emailPattern : regex :=
  RSeq (RPlus (RCls email_char)) (RSeq (RCls (fun c => code c =? 64))
    (RSeq (RPlus (RCls domain_char)) (RPlus (RSeq (RCls is_dot) (RPlus (RCls domain_char)))))).
Example emailPattern_example :
  map (re_match emailPattern) ["ada@example.org"; "a.b@c.d.e"; "ada@org"; "a@b@c.d"; "a@b..c"; "@b.c"; "a b@c.d"]
  = [true; true; false; false; false; false; false].
Proof. vm_compute. reflexivity. Qed.

(* go: platform/user/service.go normalizeEmail *)
Definition normalizeEmail (email : string) : string := to_lower (trim_space email).

(* go: platform/user/service.go service.checkPassword *)
Definition checkPassword (password : string) : outcome unit :=
  try _ := guard (slen password <? MinPasswordLength)
    (Invalid "weak_password" ("a password must be at least " +:+ itoa MinPasswordLength +:+ " characters")) in
  guard (MaxPasswordLength <? slen password)
    (Invalid "invalid_password" ("a password must be at most " +:+ itoa MaxPasswordLength
      +:+ " characters, because the work of hashing one is paid by this server")).

(* go: platform/user/service.go translate *)
Definition translate (err : error) : error :=
  if errors_Is err "user not found" then NotFound "user_not_found" "no person with that id or email exists"
  else if errors_Is err "email already used" then Conflict "email_taken" "somebody already signs in with that address"
  else err.

(* go: platform/user/service.go refuse *)
Definition refuse : error :=
  Unauthenticated "bad_credentials" "that email and password do not match an account that can sign in".

(* go: platform/user/service.go loginKey *)
Definition loginKey (remote : string) : string :=
  "l:" +:+ match SplitHost remote with Some host => host | None => remote end.

(* go: platform/user/service.go sessionName *)
Definition sessionName {S} (userID : string) : M S string :=
  let! suffix := ids_New "s" in
  let suffix := if 6 <? slen suffix then str_drop (slen suffix - 6) suffix else suffix in
  ret ("session-" +:+ trim_prefix userID "usr-" +:+ "-" +:+ suffix).

Section service.
Context {S : Type} `{!Has UserDB S, !Has (option Limiter) S}.
(** [roles] are the names of the roles a person may have, [has_events] whether a recorder is wired. *)
Context (tokens : option (Tokens S)) (roles : option (list string)) (has_events : bool).

(* go: platform/user/service.go service.note *)
Definition note (person : User) (kind message : string) (severity : Severity) : M S unit :=
  if has_events then record {| ev_ProjectID := u_ProjectID person; ev_Kind := kind; ev_Subject := u_ID person;
                               ev_NodeID := ""; ev_Message := message; ev_Severity := severity |}
  else ret tt.

(* go: platform/user/service.go service.create *)
Definition create (params : CreateParams) : M S User :=
  let email := normalizeEmail (cp_Email params) in
  lift (guard (negb (re_match emailPattern email) || (MaxEmailLength <? slen email))
    (Invalid "invalid_email" "that is not an email address")) ;;;
  lift (validate_Name "name" (cp_Name params)) ;;;
  lift (guard (MaxNameLength <? slen (cp_Name params))
    (Invalid "invalid_name" ("a name must be at most " +:+ itoa MaxNameLength +:+ " characters"))) ;;;
  lift (match roles with Some names => validate_OneOf "role" (cp_Role params) names | None => Ok tt end) ;;;
  lift (checkPassword (cp_Password params)) ;;;
  let! stored := mapped Internal (hashPassword (cp_Password params)) in
  let! at_ := now in
  let! id := ids_New "usr" in
  let person := MkUser id email (cp_Name params) (cp_Role params) (cp_ProjectID params) false at_ at_ in
  mapped translate (insert_user person stored) ;;;
  ret person.

(* go: platform/user/service.go service.find *)
Definition find (id : string) : M S User :=
  let! r := attempt (byID id) in
  let! r := match r with
            | Err e => if errors_Is e "user not found" then attempt (byEmail (normalizeEmail id)) else ret r
            | Ok _ => ret r
            end in
  lift (or_fault translate r).

(* go: platform/user/service.go service.list *)
Definition list_service : M S (list User) := mapped translate list_users.

(* go: platform/user/service.go service.setPassword *)
Definition setPassword (id password : string) : M S unit :=
  let! person := find id in
  lift (checkPassword password) ;;;
  let! stored := mapped Internal (hashPassword password) in
  let! at_ := now in
  mapped translate (setPassword_row (u_ID person) stored at_) ;;;
  match tokens with
  | Some t =>
      mapped (fun e => Internal (EWrap "the password was changed but the sessions it replaces are still valid" e))
        (ForgetUser t (u_ID person))
  | None => ret tt
  end ;;;
  note person "user.password_changed" (u_Email person +:+ " has a new password, and every session it replaces is gone") Warn.

(* go: platform/user/service.go service.setDisabled *)
Definition setDisabled (id : string) (disabled : bool) : M S User :=
  let! person := find id in
  let! at_ := now in
  mapped translate (setDisabled_row (u_ID person) disabled at_) ;;;
  note person (if disabled then "user.disabled" else "user.enabled")
    (if disabled then u_Email person +:+ " can no longer sign in, and every token they hold stops working with them"
     else u_Email person +:+ " can sign in again") Warn ;;;
  find (u_ID person).

(* go: platform/user/service.go service.remove *)
Definition remove (id : string) : M S unit :=
  let! person := find id in
  match tokens with
  | Some t =>
      mapped (fun e => Internal (EWrap ("person " +:+ u_Email person +:+ " was not deleted, because their tokens could not be") e))
        (ForgetUser t (u_ID person))
  | None => ret tt
  end ;;;
  mapped translate (delete_user (u_ID person)).

(* go: platform/user/service.go service.Allowed *)
Definition Allowed (userID : string) : M S bool :=
  let! r := attempt (byID userID) in
  match r with
  | Ok person => ret (negb (u_Disabled person))
  | Err e => if errors_Is e "user not found" then ret false else fail e
  end.

(** One attempt to sign in: the limiter first, then the password. *)
(* go: platform/user/service.go service.login *)
Definition login (remote email password : string) : M S Session :=
  let! asked := now in
  let! ' (allowed, wait) := locked (fun lim : option Limiter =>
    let '(ok, wait, lim') := Allow (loginKey remote) asked lim in ((ok, wait), lim')) in
  lift (guard (negb allowed) (TooMany "too_many_attempts"
    ("too many sign in attempts, try again in " +:+ duration_string (round_second wait)))) ;;;
  match tokens with
  | None => fail (Internal (EText "this control plane cannot issue tokens"))
  | Some t =>
      let! ' (person, stored) := mapped (fun e => if errors_Is e "user not found" then refuse else e)
                                        (credentials (normalizeEmail email)) in
      let! same := lift (or_fault Internal (matches stored password)) in
      lift (guard (negb same || u_Disabled person) refuse) ;;;
      let! name := sessionName (u_ID person) in
      let! secret := Issue t name (u_Role person) (u_ProjectID person) (u_ID person) SessionLifetime in
      note person "user.signed_in" (u_Email person +:+ " signed in") Info ;;;
      let! at_ := now in
      ret (MkSession secret (u_ID person) (u_Email person) (u_Role person) (u_ProjectID person) (time_add at_ SessionLifetime))
  end.

(** [tokenID] is the token of the request's scope. *)
(* go: platform/user/service.go service.logout *)
Definition logout (tokenID : string) : M S unit :=
  match tokens with
  | Some t =>
      if is_empty tokenID then ret tt
      else
        let! r := attempt (Forget t tokenID) in
        match r with
        | Ok _ => ret tt
        | Err e => match errors_As e with
                   | Some (EFault _ "last_admin_token" _) => ret tt
                   | _ => fail e
                   end
        end
  | None => ret tt
  end.
End service.

(** * The wiring (app/app.go) *)

(** [people.UseTokens(tokens)] and [tokens.UseUsers(people)]. *)
Definition token_service {S} `{!Has (list Token.TokenRow) S} (projects : option (Token.Projects S)) : Tokens S :=
  {| Issue := Token.Issue projects; Forget := Token.Forget; ForgetUser := Token.ForgetUser |}.
Definition user_service {S} `{!Has UserDB S} : Token.Users S := {| Token.Allowed := Allowed |}.

(** * Facts about passwords *)

Lemma split_byte_none sep u : (forall c, c ∈ u -> code c <> sep) -> split_byte sep u = [u].
Proof.
  induction u as [|c u IH]; intros Hu; [done|]. simpl. rewrite (proj2 (Z.eqb_neq _ _)) by (apply Hu; set_solver).
  rewrite IH; [done|]. intros. apply Hu. set_solver.
Qed.

Lemma split_byte_app sep u c l : (forall c, c ∈ u -> code c <> sep) -> code c = sep ->
  split_byte sep (u ++ c :: l) = u :: split_byte sep l.
Proof.
  intros Hu Hc. induction u as [|d u IH]; simpl; [by rewrite Hc, Z.eqb_refl|].
  rewrite (proj2 (Z.eqb_neq _ _)) by (apply Hu; set_solver). rewrite IH; [done|]. intros. apply Hu. set_solver.
Qed.

Definition no_dollar (s : string) : Prop := forall c, c ∈ bytes_of s -> code c <> 36.

Lemma Split_join4 a b c d : no_dollar a -> no_dollar b -> no_dollar c -> no_dollar d ->
  Split (join [a; b; c; d] "$") 36 = [a; b; c; d].
Proof.
  intros Ha Hb Hc Hd. unfold Split. cbn [join]. rewrite !bytes_of_app.
  change (bytes_of "$") with [Ascii.ascii_of_N 36]. cbn [app].
  rewrite !split_byte_app by done. rewrite split_byte_none by done. cbn [map]. by rewrite !of_bytes_of.
Qed.

Lemma base64_no_dollar bs : no_dollar (base64_encode_with std64_alphabet bs).
Proof.
  intros c Hc. unfold base64_encode_with in Hc. rewrite bytes_of_of in Hc.
  apply list_elem_of_fmap in Hc as (g & -> & _).
  assert (Hall : forallb (fun c => negb (code c =? 36)) std64_alphabet = true) by (vm_compute; reflexivity).
  unfold nth_char. set (n := Z.to_nat _).
  destruct (nth_in_or_default n std64_alphabet (Ascii.zero)) as [Hin| ->]; [|vm_compute; discriminate].
  rewrite forallb_forall in Hall. specialize (Hall _ Hin). by breflect.
Qed.

Definition byte_list (l : list Z) : Prop := Forall (fun b => 0 <= b < 256) l.

Lemma be_bytes_range n w : byte_list (be_bytes n w).
Proof. apply Forall_forall. intros b (i & -> & _)%list_elem_of_fmap. apply Z.mod_pos_bound. lia. Qed.

Lemma sha256_range bs : byte_list (sha256 bs).
Proof.
  unfold sha256. set (ws := fold_left _ _ _). clearbody ws. unfold byte_list. apply Forall_concat, Forall_map, Forall_true. intros w. apply be_bytes_range.
Qed.

Lemma lxor_range x y : 0 <= x < 256 -> 0 <= y < 256 -> 0 <= Z.lxor x y < 256.
Proof.
  intros Hx Hy. assert (H0 : 0 <= Z.lxor x y) by (apply Z.lxor_nonneg; lia). split; [done|].
  destruct (Z.eq_dec (Z.lxor x y) 0) as [->|Hne]; [lia|]. change 256 with (2 ^ 8). apply Z.log2_lt_pow2; [lia|].
  pose proof (Z.log2_lxor x y ltac:(lia) ltac:(lia)).
  assert (Hl : forall z, 0 <= z < 256 -> Z.log2 z < 8).
  { intros z Hz. destruct (Z.eq_dec z 0) as [->|]; [done|]. apply Z.log2_lt_pow2; lia. }
  pose proof (Hl x Hx). pose proof (Hl y Hy). lia.
Qed.

Lemma pbkdf2_range p salt n : byte_list (pbkdf2 p salt n).
Proof.
  unfold pbkdf2. set (u1 := hmac _ _). set (f := fun _ => _).
  enough (H : byte_list (fst (Z.iter (n - 1) f (u1, u1))) /\ byte_list (snd (Z.iter (n - 1) f (u1, u1)))) by apply H.
  assert (Hu : byte_list u1) by apply sha256_range.
  destruct (n - 1) as [|q|q]; simpl; [done| |done].
  apply Pos.iter_invariant; [|done]. intros [t u] [Ht Hu']. cbn [fst snd f] in *. split; [|apply sha256_range].
  assert (Hh : Forall (fun b => 0 <= b < 256) (hmac (string_bytes p) u)) by apply sha256_range.
  revert Ht Hh. generalize (hmac (string_bytes p) u) as v. clear. intros v Ht. revert v.
  induction Ht as [|x t Hx _ IH]; intros [|y v] Hv; simpl; try constructor; inversion Hv; subst; [by apply lxor_range|by apply IH].
Qed.

Lemma base64_encode_inj x y : byte_list x -> byte_list y ->
  base64_encode_with std64_alphabet x = base64_encode_with std64_alphabet y -> x = y.
Proof.
  intros Hx Hy E. apply (f_equal (base64_decode_with std64_alphabet)) in E.
  rewrite !base64_with_roundtrip in E by (done || (vm_compute; reflexivity)). congruence.
Qed.

Lemma join4_last a b c d d' : join [a; b; c; d] "$" = join [a; b; c; d'] "$" -> d = d'.
Proof.
  cbn [join]. intros E. apply (f_equal bytes_of) in E. rewrite !bytes_of_app in E.
  repeat apply app_inv_head in E. by apply bytes_of_inj.
Qed.

(** * Properties *)

(** [password_roundtrip]: a stored password can always be read back, and accepts exactly the
    passwords with the same derived key, so the one it was made from. *)
Theorem password_roundtrip password salt rounds other
  (Hsalt : byte_list salt) (Hrounds : 0 < rounds) (Hint : in_int64 rounds) :
  matches (derive password salt rounds) other = Ok (bool_decide (pbkdf2 other salt rounds = pbkdf2 password salt rounds)).
Proof.
  unfold matches. assert (Es : Split (derive password salt rounds) 36 =
    [scheme; itoa rounds; base64_encode_with std64_alphabet salt; base64_encode_with std64_alphabet (pbkdf2 password salt rounds)]).
  { apply Split_join4; [|intros c Hc%itoa_bytes; lia|apply base64_no_dollar..].
    intros c Hc. assert (H : forallb (fun c => negb (code c =? 36)) (bytes_of scheme) = true) by (vm_compute; reflexivity).
    rewrite forallb_forall in H. apply list_elem_of_In in Hc. specialize (H c Hc). by breflect. }
  rewrite Es, String.eqb_refl, atoi_itoa by done. cbn [negb]. rewrite (proj2 (Z.leb_gt rounds 0)) by done.
  rewrite base64_with_roundtrip by (done || (vm_compute; reflexivity)). f_equal.
  apply eq_true_iff_eq. rewrite String.eqb_eq, bool_decide_eq_true. split.
  - intros E%join4_last. by apply base64_encode_inj in E; [|apply pbkdf2_range..].
  - intros E. unfold derive. by rewrite E.
Qed.

Lemma password_roundtrip_witness :
  matches (derive "correct horse" [1; 2; 3] 2) "correct horse" = Ok true /\
  matches (derive "correct horse" [1; 2; 3] 2) "battery staple" = Ok false.
Proof.
  split; (rewrite (password_roundtrip _ [1; 2; 3] 2);
    [vm_compute; reflexivity|repeat constructor; lia|lia|unfold in_int64, min_int64, max_int64, two63; lia]).
Defined.

(** ** People and their tokens together *)

Lemma wp_two_parts {S} {T U} `{!Has T S, !Has U S} {A} env (m : M S A) (Q : outcome A -> World S -> Prop) w :
  leaves T m -> leaves U m ->
  (forall r w', part w' = part (T:=T) w -> part w' = part (T:=U) w -> Q r w') -> wp env m Q w.
Proof.
  intros HT HU HQ. specialize (HT env w). specialize (HU env w). unfold wp in *. destruct (m env w). by apply HQ.
Qed.

Section people.
Context {S : Type} `{!Has UserDB S, !Has (list Token.TokenRow) S, !Has (option Limiter) S}.
Context `{!Apart UserDB (list Token.TokenRow) S, !Apart (list Token.TokenRow) UserDB S}.
Context `{!Apart (option Limiter) UserDB S, !Apart (option Limiter) (list Token.TokenRow) S}.
Context (projects : option (Token.Projects S)) (has_events : bool) (env : Env).
Context (HpT : forall p id, projects = Some p -> leaves (list Token.TokenRow) (Token.Exists p id)).
Context (HpU : forall p id, projects = Some p -> leaves UserDB (Token.Exists p id)).
Abbreviation people w := (part (T:=UserDB) w).
Abbreviation tokens_of w := (part (T:=list Token.TokenRow) w).

#[local] Hint Extern 3 (leaves _ (match ?x with _ => _ end)) => destruct x eqn:? : leaves.
#[local] Hint Unfold ids_New sessionName hashPassword note : leaves.

Lemma leaves_person_note T `{!Has T S} p k m s : leaves T (note (S:=S) has_events p k m s).
Proof. unfold note. auto with leaves. Qed.
Lemma leaves_sessionName T `{!Has T S} u : leaves T (sessionName (S:=S) u).
Proof. unfold sessionName, ids_New. auto 8 with leaves. Qed.
Lemma leaves_hashPassword T `{!Has T S} p : leaves T (hashPassword (S:=S) p).
Proof. unfold hashPassword. auto with leaves. Qed.

Lemma leaves_issue name role project user lifetime : leaves UserDB (Token.Issue projects name role project user lifetime).
Proof.
  unfold Token.Issue, Token.create, Token.requireProject, Token.newSecret, ids_New, Token.insert_token.
  destruct projects as [p|] eqn:E; [pose proof (HpU p) as Hp|]; repeat first [apply leaves_bind; [|intros]]; auto 8 with leaves.
  all: repeat case_match; auto 8 with leaves.
Qed.

(** What a query over the people answers. *)
Lemma find_wp id (Q : outcome User -> World S -> Prop) w :
  (forall r w', people w' = people w -> tokens_of w' = tokens_of w ->
     match r with Ok p => exists x, x ∈ people w /\ r_user x = p /\ (u_ID p = id \/ (u_Email p = normalizeEmail id /\ forall y, y ∈ people w -> has_id id y = false))
                | Err e => True end -> Q r w') ->
  wp env (find id) Q w.
Proof.
  intros HQ. unfold find. apply wp_bind, wp_attempt, wp_read.
  assert (Hend : forall (p : UserRow -> bool) r w', r = Err (io_error "list users") \/
    r = (try x := select_one p errNotFound (people w) in Ok (r_user x)) -> people w' = people w -> tokens_of w' = tokens_of w ->
    (forall x, p x = true -> u_ID (r_user x) = id \/ (u_Email (r_user x) = normalizeEmail id /\ forall y, y ∈ people w -> has_id id y = false)) ->
    Q (or_fault translate r) w').
  { intros p r w' Hr Hw1 Hw2 Hp. apply HQ; [done..|]. destruct Hr as [->| ->]; [done|].
    destruct (select_one _ _ _) as [x|] eqn:E; simpl; [|done]. apply select_one_ok in E as [Hx E]. eauto. }
  assert (Hid : forall x, has_id id x = true -> u_ID (r_user x) = id) by (intros x; unfold has_id; by rewrite String.eqb_eq).
  intros r Hr. apply wp_bind. destruct r as [p|e]; [rewrite wp_ret, wp_lift; apply (Hend (has_id id)); auto|].
  destruct (errors_Is e _) eqn:Ee; [|rewrite wp_ret, wp_lift; apply (Hend (has_id id)); auto].
  apply wp_attempt, wp_read. intros r' Hr'. rewrite wp_lift. apply (Hend (has_email (normalizeEmail id))); auto.
  intros x Hx. right. split; [unfold has_email in Hx; by breflect|]. destruct Hr as [[= ->]|Hr]; [done|].
  unfold select_one in Hr. destruct (List.find _ _) eqn:Ef; [done|]. intros y Hy. by eapply find_none_elem in Ef.
Qed.

Lemma note_wp p k m sev (Q : outcome unit -> World S -> Prop) w :
  (forall w', w_st w' = w_st w -> Q (Ok tt) w') -> wp env (note has_events p k m sev) Q w.
Proof. intros HQ. unfold note. destruct has_events; [rewrite wp_record|rewrite wp_ret]; by apply HQ. Qed.

(** What [Issue] does, from the contract of the module that issues. *)
Lemma issue_wp name role project user lifetime (Q : outcome string -> World S -> Prop) w :
  (forall r w', people w' = people w ->
     match r with
     | Ok secret => exists t, tokens_of w' = tokens_of w ++ [Token.MkTokenRow t (Token.hashOf secret)] /\
         Token.created (Token.MkCreateParams name role project user (duration_string lifetime)) t
     | Err _ => tokens_of w' = tokens_of w
     end -> Q r w') ->
  wp env (Token.Issue projects name role project user lifetime) Q w.
Proof.
  intros HQ. eapply wp_mono; [intros r w' H; exact (HQ r w' (proj1 H) (proj2 H))|]. apply wp_and.
  - apply (wp_leaves (T:=UserDB)); [apply leaves_issue|done].
  - unfold Token.Issue. apply wp_bind. eapply wp_mono; [|by apply Token.create_wp].
    intros [[t secret]|e] w1 H; [|done]. rewrite wp_ret. destruct H as (Hc & Hw & _). eauto.
Qed.

(** A session as the sign-in describes it, and the token that stands for it. *)
Definition session_token (s : Session) (u : User) (r : Token.TokenRow) : Prop :=
  Token.r_hash r = Token.hashOf (s_Secret s) /\ Token.t_UserID (Token.r_token r) = u_ID u /\
  Token.t_Role (Token.r_token r) = u_Role u /\
  Token.t_ProjectID (Token.r_token r) = (if is_empty (u_ProjectID u) then Token.defaultProjectID else u_ProjectID u) /\
  Token.t_ExpiresAt (Token.r_token r) = Token.t_CreatedAt (Token.r_token r) + SessionLifetime.

Lemma login_wp remote email password w :
  wp env (login (Some (token_service projects)) has_events remote email password) (fun r w' =>
    people w' = people w /\
    match r with
    | Ok s => exists x t, x ∈ people w /\ u_Email (r_user x) = normalizeEmail email /\
        matches (r_password x) password = Ok true /\ u_Disabled (r_user x) = false /\
        s_UserID s = u_ID (r_user x) /\ s_Role s = u_Role (r_user x) /\
        session_token s (r_user x) t /\ tokens_of w' = tokens_of w ++ [t]
    | Err _ => tokens_of w' = tokens_of w
    end) w.
Proof.
  unfold login. apply wp_bind. rewrite wp_now. apply wp_bind, (wp_two_parts (T:=UserDB) (U:=list Token.TokenRow)); [apply leaves_locked..|].
  intros [[allowed wait]|e] w1 Hu1 Ht1; [|done]. cbn [tick w_st] in Hu1, Ht1.
  change (people (tick w)) with (people w) in Hu1. change (tokens_of (tick w)) with (tokens_of w) in Ht1.
  apply wp_bind. rewrite wp_lift. destruct allowed; cbn [guard negb]; [|done].
  assert (Hu1' : people (tick w1) = people w) by exact Hu1. assert (Ht1' : tokens_of (tick w1) = tokens_of w) by exact Ht1.
  apply wp_bind, wp_mapped, wp_read. intros r Hr.
  destruct Hr as [->| ->]; cbn [or_fault]; [split; congruence|]. rewrite Hu1.
  destruct (select_one _ _ _) as [x|e] eqn:Ex; cbn [obind or_fault]; [|repeat case_match; split; congruence].
  apply select_one_ok in Ex as [Hx Hm]. unfold has_email in Hm. breflect.
  apply wp_bind. rewrite wp_lift. destruct (matches (r_password x) password) as [same|e] eqn:Es; cbn [or_fault]; [|done].
  apply wp_bind. rewrite wp_lift. destruct same; cbn [negb orb guard]; [|done].
  destruct (u_Disabled (r_user x)) eqn:Ed; cbn [guard]; [done|].
  apply wp_bind, (wp_two_parts (T:=UserDB) (U:=list Token.TokenRow)); [apply leaves_sessionName..|]. intros [name|e] w2 Hu2 Ht2; [|by rewrite Hu2, Ht2].
  rewrite Hu1' in Hu2. rewrite Ht1' in Ht2. apply wp_bind, issue_wp. intros [secret|e] w3 Hu3 Ht3; [|by rewrite Hu3, Hu2, Ht3, Ht2].
  destruct Ht3 as (t & Ht3 & Hc). apply wp_bind, note_wp. intros w4 Hw4.
  assert (Hu4 : people (tick w4) = people w3) by (unfold part; simpl; by rewrite Hw4).
  assert (Ht4 : tokens_of (tick w4) = tokens_of w3) by (unfold part; simpl; by rewrite Hw4).
  apply wp_bind. rewrite wp_now, wp_ret.
  split; [congruence|]. exists x, (Token.MkTokenRow t (Token.hashOf secret)). split_and!; try done; [|congruence].
  destruct Hc as (_ & Hr & _ & Hu & Hp & lifetime & Hl & He). unfold session_token. cbn in Hl |- *.
  assert (El : Token.lifetime_of (duration_string SessionLifetime) = Ok SessionLifetime) by (vm_compute; reflexivity).
  rewrite El in Hl. injection Hl as <-. split_and!; done.
Qed.

(** The tokens of a person, gone. *)
Definition signed_out (id : string) (db : list Token.TokenRow) : list Token.TokenRow :=
  List.filter (fun r => negb (Token.of_user id r)) db.

Lemma forget_wp id (Q : outcome unit -> World S -> Prop) w : id <> "" ->
  (forall w', people w' = people w -> tokens_of w' = tokens_of w -> forall e, Q (Err e) w') ->
  (forall w', people w' = people w -> tokens_of w' = signed_out id (tokens_of w) -> Q (Ok tt) w') ->
  wp env (Token.ForgetUser id) Q w.
Proof.
  intros Hid H1 H2. unfold Token.ForgetUser, Token.deleteForUser. unfold is_empty. rewrite (proj2 (String.eqb_neq _ _)) by done.
  apply (wp_write_apart env (T:=list Token.TokenRow) (U:=UserDB)); auto.
Qed.

(** Somebody with that id or that address. *)
Definition addressed (id : string) (x : UserRow) : Prop := u_ID (r_user x) = id \/ u_Email (r_user x) = normalizeEmail id.

Lemma setPassword_wp id password w (Hids : Forall (fun x => u_ID (r_user x) <> "") (people w)) :
  wp env (setPassword (Some (token_service projects)) has_events id password) (fun r w' =>
    (people w' = people w /\ tokens_of w' = tokens_of w /\ (exists e, r = Err e)) \/
    exists x salt at_, x ∈ people w /\ addressed id x /\ checkPassword password = Ok tt /\
      people w' = map (fun y => if has_id (u_ID (r_user x)) y
                                then with_password (derive password (read_bytes saltBytes salt) iterations) at_ y else y) (people w) /\
      match r with
      | Ok _ => tokens_of w' = signed_out (u_ID (r_user x)) (tokens_of w)
      | Err e => tokens_of w' = tokens_of w /\ kind_of e = KindInternal
      end) w.
Proof.
  unfold setPassword. apply wp_bind, find_wp. intros [p|e] w1 Hu1 Ht1 Hp; [|left; eauto].
  destruct Hp as (x & Hx & <- & Ha).
  assert (Ha' : addressed id x) by (unfold addressed; tauto). clear Ha. rewrite Forall_forall in Hids. specialize (Hids x Hx).
  apply wp_bind. rewrite wp_lift. destruct (checkPassword password) as [[]|e] eqn:Ec; [|left; eauto].
  apply wp_bind, wp_mapped. unfold hashPassword. apply wp_bind. rewrite wp_rand, wp_ret. cbn [or_fault].
  set (salt := env_rand _ _). apply wp_bind. rewrite wp_now. set (at_ := env_now _ _).
  apply wp_bind, wp_mapped, (wp_write_apart env (T:=UserDB) (U:=list Token.TokenRow)).
  { intros w2 Hu2 Ht2. left. cbn [or_fault]. split_and!; [by rewrite Hu2|by rewrite Ht2|eauto]. }
  intros w2 Hu2 Ht2. rewrite update_where_rows in Hu2. change (people (tick (tick w1))) with (people w1) in Hu2 |- *.
  change (tokens_of (tick (tick w1))) with (tokens_of w1) in Ht2. rewrite Hu1 in Hu2 |- *. rewrite Ht1 in Ht2.
  assert (Eok : fst (update_where (has_id (u_ID (r_user x))) (with_password (derive password (read_bytes saltBytes salt) iterations) at_) errNotFound (people w)) = Ok tt).
  { apply update_where_ok. exists x. split; [done|]. unfold has_id. apply String.eqb_refl. }
  rewrite Eok. cbn [or_fault token_service ForgetUser]. apply wp_bind, wp_mapped, forget_wp; [done| |].
  - intros w3 Hu3 Ht3 e. right. exists x, salt, at_. cbn [or_fault]. rewrite Hu3, Ht3. auto 10.
  - intros w3 Hu3 Ht3. cbn [or_fault]. apply note_wp. intros w4 Hw4. right. exists x, salt, at_.
    assert (people w4 = people w3) as -> by (unfold part; by rewrite Hw4).
    assert (tokens_of w4 = tokens_of w3) as -> by (unfold part; by rewrite Hw4).
    rewrite Hu3, Ht3, Ht2. auto 10.
Qed.

(** Nobody enabled has that id. *)
Definition barred (id : string) (db : UserDB) : Prop := forall x, x ∈ db -> has_id id x = true -> u_Disabled (r_user x) = true.

Lemma setDisabled_wp id w :
  wp env (setDisabled has_events id true) (fun r w' => match r with
    | Ok p => barred (u_ID p) (people w') | Err _ => True end) w.
Proof.
  unfold setDisabled. apply wp_bind, find_wp. intros [p|e] w1 Hu1 Ht1 Hp; [|done].
  destruct Hp as (x & Hx & <- & _). apply wp_bind. rewrite wp_now. set (at_ := env_now _ _).
  apply wp_bind, wp_mapped, wp_write; [done|]. intros w2 Hu2. rewrite update_where_rows in Hu2.
  match goal with |- match or_fault _ ?o with _ => _ end => destruct o as [[]|] end; cbn [or_fault]; [|done].
  apply wp_bind, note_wp. intros w3 Hw3. assert (Hu3 : people w3 = people w2) by (unfold part; by rewrite Hw3).
  assert (Hb : barred (u_ID (r_user x)) (people w2)).
  { rewrite Hu2. intros y (y0 & -> & Hy)%list_elem_of_fmap Hid. destruct (has_id (u_ID (r_user x)) y0) eqn:E; [done|]. congruence. }
  apply find_wp. intros [p'|e] w4 Hu4 Ht4 Hp'; [|done]. rewrite Hu4, Hu3.
  destruct Hp' as (y & Hy & <- & Hid). destruct Hid as [->|[_ Hno]]; [done|]. exfalso.
  specialize (Hno (with_disabled true at_ x)). rewrite Hu3, Hu2 in Hno. unfold has_id in Hno. simpl in Hno.
  rewrite String.eqb_refl in Hno. discriminate Hno. apply list_elem_of_fmap. exists x. rewrite String.eqb_refl.
  split; [done|]. change (people (tick w1)) with (people w1). by rewrite Hu1.
Qed.

Lemma remove_person_wp id w (Hids : Forall (fun x => u_ID (r_user x) <> "") (people w)) :
  wp env (remove (Some (token_service projects)) id) (fun r w' => match r with
    | Ok _ => exists x, x ∈ people w /\ addressed id x /\ barred (u_ID (r_user x)) (people w') /\
        tokens_of w' = signed_out (u_ID (r_user x)) (tokens_of w)
    | Err _ => people w' = people w /\ (tokens_of w' = tokens_of w \/ exists x, x ∈ people w /\ addressed id x /\ tokens_of w' = signed_out (u_ID (r_user x)) (tokens_of w))
    end) w.
Proof.
  unfold remove. apply wp_bind, find_wp. intros [p|e] w1 Hu1 Ht1 Hp; [|auto].
  destruct Hp as (x & Hx & <- & Ha). assert (Ha' : addressed id x) by (unfold addressed; tauto). clear Ha.
  rewrite Forall_forall in Hids. specialize (Hids x Hx).
  apply wp_bind, wp_mapped, forget_wp; [done| |].
  { intros w2 Hu2 Ht2 e. cbn [or_fault]. split; [congruence|]. left. congruence. }
  intros w2 Hu2 Ht2. cbn [or_fault]. rewrite Ht1 in Ht2. rewrite Hu1 in Hu2.
  apply wp_mapped, (wp_write_apart env (T:=UserDB) (U:=list Token.TokenRow)).
  { intros w3 Hu3 Ht3. cbn [or_fault]. split; [congruence|]. right. exists x. split_and!; congruence || done. }
  intros w3 Hu3 Ht3. rewrite Hu2 in Hu3 |- *. unfold delete_where in *. destruct (existsb _ _) eqn:Ex; cbn [fst snd or_fault] in *.
  - exists x. split_and!; [done|done| |congruence]. rewrite Hu3. intros y [_ Hy]%elem_of_filter_bool Hid. by rewrite Hid in Hy.
  - split; [done|]. right. exists x. split_and!; congruence || done.
Qed.

(** A barred person is not let in, whatever token is shown. *)
Lemma verify_barred id secret w : id <> "" -> barred id (people w) ->
  wp env (Token.verify (Some user_service) secret) (fun r _ => match r with
    | Ok identity => Token.id_UserID identity <> id | Err _ => True end) w.
Proof.
  intros Hid Hb. eapply wp_mono; [|apply (Token.verify_wp (Some user_service)
    (fun id => exists x, select_one (has_id id) errNotFound (people w) = Ok x /\ u_Disabled (r_user x) = false))].
  - intros [i|e] w' [_ H]; [|done]. destruct H as (_ & x & at_ & Hx & _ & -> & _ & Hmay). cbn. intros E. rewrite E in Hmay.
    destruct Hmay as (y & Hy%select_one_ok & Hd); [done..|]. destruct Hy as [Hy Hid'].
    by rewrite (Hb y Hy Hid') in Hd.
  - intros u id' w1 [= <-] Hw1. simpl. unfold Allowed. apply wp_bind, wp_attempt, wp_read.
    assert (Hp : people w1 = people w) by (unfold part; by rewrite Hw1). rewrite Hp.
    intros r [->| ->].
    + simpl. rewrite wp_fail. split; done.
    + destruct (select_one _ _ _) as [x|e] eqn:E; cbn [obind].
      * rewrite wp_ret. split; [done|]. destruct (u_Disabled (r_user x)) eqn:Ed; simpl; [|eauto].
        intros (y & Hy & Hdy). congruence.
      * unfold select_one in E. destruct (List.find _ _); [done|]. injection E as <-. simpl. rewrite wp_ret. split; [done|].
        by intros (y & Hy & _).
Qed.
End people.

(** ** A control plane with one person *)

Definition Plane : Type := (UserDB * list Token.TokenRow) * option Limiter.
Definition plane_users : Has UserDB Plane := Has_in_fst (option Limiter) (Has_fst UserDB (list Token.TokenRow)).
Definition plane_tokens : Has (list Token.TokenRow) Plane := Has_in_fst (option Limiter) (Has_snd UserDB (list Token.TokenRow)).
Definition plane_limiter : Has (option Limiter) Plane := Has_snd (UserDB * list Token.TokenRow) (option Limiter).
Definition any_project : Token.Projects Plane := {| Token.Exists _ := ret true |}.
Definition ada : UserRow :=
  MkUserRow (MkUser "usr-1" "ada@example.org" "ada" "member" "prj-1" false 0 0) (derive "correct horse" [1; 2; 3] 2).
Definition ada_token : Token.TokenRow := Token.MkTokenRow (Token.MkToken "tok-9" "ci" "member" "prj-1" "usr-1" 0 0 zero_time) "00".
Definition plane0 : World Plane := MkWorld (([ada], [ada_token]), NewLimiter 1 5 0) O [].
Definition plane_env : Env := {| env_now _ := 5; env_rand n := [Z.of_nat n; 7]; env_io _ := false |}.



(** [password_change_ends_sessions]: a successful change of a password replaces it and revokes
    every token of the person, and no other; a failed one changes nothing, or, when only the
    revocation failed, says so. *)
Theorem password_change_ends_sessions {S} `{!Has UserDB S, !Has (list Token.TokenRow) S}
  `{!Apart UserDB (list Token.TokenRow) S, !Apart (list Token.TokenRow) UserDB S}
  (projects : option (Token.Projects S)) has_events env id password (w : World S)
  (Hids : Forall (fun x => u_ID (r_user x) <> "") (part (T:=UserDB) w)) :
  wp env (setPassword (Some (token_service projects)) has_events id password) (fun r w' =>
    (part w' = part (T:=UserDB) w /\ part w' = part (T:=list Token.TokenRow) w /\ (exists e, r = Err e)) \/
    exists x salt at_, x ∈ part (T:=UserDB) w /\ addressed id x /\ checkPassword password = Ok tt /\
      part w' = map (fun y => if has_id (u_ID (r_user x)) y
                              then with_password (derive password (read_bytes saltBytes salt) iterations) at_ y else y)
                    (part (T:=UserDB) w) /\
      match r with
      | Ok _ => part w' = signed_out (u_ID (r_user x)) (part (T:=list Token.TokenRow) w)
      | Err e => part w' = part (T:=list Token.TokenRow) w /\ kind_of e = KindInternal
      end) w.
Proof. by apply setPassword_wp. Qed.

Lemma password_change_ends_sessions_witness :
  wp plane_env (setPassword (Has0:=plane_users) (Some (token_service (Has0:=plane_tokens) None)) false "usr-1" "a much better one")
    (fun r w' => r = Ok tt -> part (H:=plane_tokens) w' = []) plane0.
Proof.
  eapply wp_mono; [|apply (password_change_ends_sessions (Has0:=plane_users) (Has1:=plane_tokens) (Apart0:=ltac:(done)) (Apart1:=ltac:(done))
    None false plane_env "usr-1" "a much better one" plane0); repeat constructor; discriminate].
  intros r w' [(_ & _ & e & ->)|(x & salt & at_ & Hx & _ & _ & _ & Ht)]; [done|]. intros ->.
  apply list_elem_of_singleton in Hx as ->. exact Ht.
Defined.

(** [locked_out_at_once]: once a person is disabled or removed, no token of theirs is accepted any
    more, at any later time at which the people are as they were then. *)
Theorem locked_out_at_once {S} `{!Has UserDB S, !Has (list Token.TokenRow) S}
  `{!Apart UserDB (list Token.TokenRow) S, !Apart (list Token.TokenRow) UserDB S}
  (projects : option (Token.Projects S)) has_events env id (w : World S)
  (Hids : Forall (fun x => u_ID (r_user x) <> "") (part (T:=UserDB) w)) :
  let refused id' (w' : World S) := forall env2 secret w2, part w2 = part (T:=UserDB) w' ->
    wp env2 (Token.verify (Some user_service) secret) (fun r _ => match r with
      | Ok identity => Token.id_UserID identity <> id' | Err _ => True end) w2 in
  wp env (setDisabled has_events id true) (fun r w' => match r with
    | Ok p => u_ID p <> "" -> refused (u_ID p) w' | Err _ => True end) w /\
  wp env (remove (Some (token_service projects)) id) (fun r w' => match r with
    | Ok _ => exists x, x ∈ part (T:=UserDB) w /\ addressed id x /\ refused (u_ID (r_user x)) w' | Err _ => True end) w.
Proof.
  intros refused. split.
  - eapply wp_mono; [|by apply setDisabled_wp]. intros [p|e] w' Hb; [|done]. intros Hp env2 secret w2 Hw2.
    apply verify_barred; [done|]. by rewrite Hw2.
  - eapply wp_mono; [|by apply remove_person_wp]. intros [[]|e] w' H; [|done]. destruct H as (x & Hx & Ha & Hb & _).
    exists x. split_and!; [done..|]. intros env2 secret w2 Hw2. rewrite Forall_forall in Hids.
    apply verify_barred; [by apply Hids|]. by rewrite Hw2.
Qed.

Lemma locked_out_at_once_witness :
  wp plane_env (setDisabled (Has0:=plane_users) false "usr-1" true) (fun r w' => match r with
    | Ok p => u_ID p <> "" -> wp plane_env (Token.verify (Has0:=plane_tokens) (Some (user_service (Has0:=plane_users))) "mst_x")
        (fun r _ => match r with Ok identity => Token.id_UserID identity <> u_ID p | Err _ => True end) w'
    | Err _ => True end) plane0.
Proof.
  eapply wp_mono; [|apply (locked_out_at_once (Has0:=plane_users) (Has1:=plane_tokens) (Apart0:=ltac:(done)) (Apart1:=ltac:(done))
    None false plane_env "usr-1" plane0); repeat constructor; discriminate].
  intros [p|e] w' H; [|done]. intros Hp. by apply (H Hp).
Defined.
