(* ===== verification/Backup.v ===== *)
(** Backups (internal/platform/backup): copies of volumes that a node sends up, kept sealed on the
    control plane's disk or in an object store, with schedules that take them and forget the old
    ones.

    The two tables are one state and the vault's directory is another.  Volumes are the interface
    [Volumes], the object store is the interface [Client], [None] where the Go field may be nil.
    A stream the code hands out is what reading it to its end gives, with the error it ends in. *)
From stdpp Require Import base tactics numbers strings list gmap sorting.
From Stdlib Require Import ZArith Lia Sorted.
From Stdlib Require Ascii.
From S2P Require Import Prelude GoLang Time Effects Regex Kernel Httpx Tables Encoding Sealed.
From S2P Require Interval Volume.

(** * Data (types.go) *)

Definition TransferWindow : Z := 30 * minute.
Definition StatePending : string := "pending".
Definition StateReady : string := "ready".
Definition StateFailed : string := "failed".
Definition MaxBytes : Z := 2 ^ 42.
Definition MinEvery : Z := minute.
Definition MaxEvery : Z := 365 * 24 * hour.
Definition MinKeep : Z := 1.
Definition MaxKeep : Z := 365.

(* go: platform/backup/types.go Backup *)
Record Backup := MkBackup {
  b_ID : string; b_ProjectID : string; b_ScheduleID : string; b_VolumeID : string; b_NodeID : string; b_Name : string;
  b_State : string; b_Message : string; b_SizeBytes : Z; b_Checksum : string; b_KeyID : string;
  b_VolumeKeySealed : string; b_VolumeKeyID : string; b_ContentKey : string; b_CreatedAt : Z; b_UpdatedAt : Z;
}.
(* go: platform/backup/types.go CreateParams *)
Record CreateParams := MkCreateParams { cp_ProjectID : string; cp_VolumeID : string; cp_Name : string; cp_ScheduleID : string }.
(* go: platform/backup/types.go Envelope *)
Record Envelope := MkEnvelope { en_SizeBytes : Z; en_KeySealed : string; en_KeyID : string }.
(* go: platform/backup/types.go Schedule *)
Record Schedule := MkSchedule {
  sc_ID : string; sc_Project : string; sc_VolumeID : string; sc_Every : Z; sc_Keep : Z;
  sc_NextAt : Z; sc_LastAt : Z; sc_CreatedAt : Z; sc_UpdatedAt : Z;
}.
(* go: platform/backup/types.go ScheduleParams *)
Record ScheduleParams := MkScheduleParams { sp_ProjectID : string; sp_VolumeID : string; sp_Every : string; sp_Keep : Z }.
(* go: platform/backup/types.go Source *)
Record Source_ := MkSource {
  so_ID : string; so_ProjectID : string; so_NodeID : string; so_Name : string; so_Encrypted : bool; so_KeySealed : string; so_KeyID : string;
}.
(* go: platform/backup/vault.go written *)
Record written := MkWritten { wr_Size : Z; wr_Checksum : string; wr_KeyID : string }.
(* go: platform/backup/service.go Transfer *)
Record Transfer := MkTransfer { tr_URL : string; tr_Key : string; tr_ExpiresAt : Z }.
Definition stream : Type := list Z * option error.

(** * Interfaces *)

(* go: platform/backup/service.go Volumes *)
Record Volumes (S : Type) := { Source : string -> string -> M S Source_ }.
Arguments Source {S} _ _ _.
(** A vault whose bytes a node may move itself. *)
(* go: platform/backup/objectstore.go directVault *)
Record Direct (S : Type) := {
  presign : string -> string -> Z -> M S string;
  mintContentKey : M S (string * string * string);
  unwrapContentKey : string -> string -> outcome string;
}.
Arguments presign {S} _ _ _ _.
Arguments mintContentKey {S} _.
Arguments unwrapContentKey {S} _ _ _.
(* go: platform/backup/vault.go vault *)
Record Vault (S : Type) := {
  v_write : string -> reader -> Z -> M S written;
  v_open : string -> string -> string -> M S stream;
  v_remove : string -> M S unit;
  v_direct : option (Direct S);
}.
Arguments v_write {S} _ _ _ _.
Arguments v_open {S} _ _ _ _.
Arguments v_remove {S} _ _.
Arguments v_direct {S} _.
(** The calls the vault makes on kernel/s3's client; [Get] of a key that is not there is
    [ErrNotFound]. *)
Record Client (S : Type) := {
  cl_Put : string -> list Z -> Z -> M S unit;
  cl_Get : string -> M S reader;
  cl_Delete : string -> M S unit;
  cl_Presign : string -> string -> Z -> M S string;
}.
Arguments cl_Put {S} _ _ _ _.
Arguments cl_Get {S} _ _.
Arguments cl_Delete {S} _ _.
Arguments cl_Presign {S} _ _ _ _.

(** * The vaults (vault.go, objectstore.go)

    The directory is a map from names to bytes; an operation on it is one statement that may fail
    and then changes nothing. *)

Record Disk := MkDisk { dk_files : gmap string (list Z); dk_staging : gmap string (list Z) }.
Definition set_files (files : gmap string (list Z)) (d : Disk) : Disk := MkDisk files (dk_staging d).
Definition set_staging (files : gmap string (list Z)) (d : Disk) : Disk := MkDisk (dk_files d) files.
Definition not_exist : error := EText "file does not exist".

Section vaults.
Context {S : Type} `{!Has Disk S} (c : AEAD) (keys : option Keyring).

(** A step that may only fail. *)
Definition disk_step (what : string) : M S unit := query what (fun _ : Disk => Ok tt).

(** [dst] is the file the bytes go to; a write that fails is what [measure] wraps. *)
(* go: platform/backup/vault.go pour *)
Definition pour (dst : list Z -> M S unit) (src : reader) (limit : Z) : M S written :=
  let! ' (out, measured) := match Active keys with
    | Some active => SealMeasured c src active limit
    | None => ret (CopyMeasured src limit)
    end in
  mapped (EWrap "write the sealed stream") (dst out) ;;;
  let! m := lift measured in
  ret (MkWritten (ms_Size m) (ms_Checksum m) (ActiveID keys)).
(* go: platform/backup/vault.go unseal *)
Definition unseal (body : reader) (keyID : string) : outcome stream :=
  if is_empty keyID then Ok (rd_bytes body, match rd_end body with AtEOF => None | Broken e => Some e end)
  else match Find keys keyID with
    | None => Err (EText ("this backup was sealed with key " +:+ keyID +:+ ", which this control plane does not hold"))
    | Some k => match Open body k with
                | Err err => Err (EWrap "unseal the backup" err)
                | Ok opened => Ok (read_opened c opened)
                end
    end.

(** ** The disk *)

Definition part_of (id : string) : string := id +:+ ".part".
(** [O_CREATE|O_TRUNC] *)
Definition create_file (name : string) : M S unit := sql "open the backup file" (fun d => (Ok tt, set_files (<[name := []]> (dk_files d)) d)).
Definition write_file (name : string) (bytes : list Z) : M S unit :=
  sql "write" (fun d => (Ok tt, set_files (<[name := default [] (dk_files d !! name) ++ bytes]> (dk_files d)) d)).
Definition remove_file (name : string) : M S unit :=
  sql "remove" (fun d => (if dk_files d !! name then Ok tt else Err not_exist, set_files (delete name (dk_files d)) d)).
Definition rename_file (from to : string) : M S unit :=
  sql "rename" (fun d => match dk_files d !! from with
    | Some bytes => (Ok tt, set_files (<[to := bytes]> (delete from (dk_files d))) d)
    | None => (Err not_exist, d)
    end).
Definition read_file (name : string) : M S (list Z) :=
  query "open" (fun d => match dk_files d !! name with Some bytes => Ok bytes | None => Err not_exist end).

(* go: platform/backup/vault.go diskVault.write *)
Definition disk_write (id : string) (src : reader) (limit : Z) : M S written :=
  create_file (part_of id) ;;;
  let! result := attempt (pour (write_file (part_of id)) src limit) in
  let! closeErr := attempt (disk_step "close the backup") in
  match result, closeErr with
  | Ok result, Ok _ =>
      let! renamed := attempt (rename_file (part_of id) id) in
      match renamed with
      | Ok _ => ret result
      | Err err => let! _ := attempt (remove_file (part_of id)) in fail (EWrap "place the backup" err)
      end
  | Ok _, Err err | Err err, _ => let! _ := attempt (remove_file (part_of id)) in fail err
  end.
(* go: platform/backup/vault.go diskVault.open *)
Definition disk_open (id keyID contentKey : string) : M S stream :=
  let! file := mapped (EWrap "open the backup") (read_file id) in
  lift (unseal (MkReader file AtEOF) keyID).
(* go: platform/backup/vault.go diskVault.remove *)
Definition disk_remove (id : string) : M S unit :=
  let! r := attempt (remove_file id) in
  match r with
  | Ok _ => ret tt
  | Err err => if bool_decide (err = not_exist) then ret tt else fail (EWrap "remove the backup" err)
  end.
(* go: platform/backup/vault.go openVault *)
Definition openVault : M S (Vault S) :=
  disk_step "create the backup directory" ;;;
  disk_step "open the backup directory" ;;;
  ret {| v_write := disk_write; v_open := disk_open; v_remove := disk_remove; v_direct := None |}.
Definition diskVault : Vault S := {| v_write := disk_write; v_open := disk_open; v_remove := disk_remove; v_direct := None |}.

(** ** The object store *)

Definition KeyPrefix : string := "backups/".
(* go: platform/backup/objectstore.go keyFor *)
Definition keyFor (id : string) : string := KeyPrefix +:+ id.

(** [os.CreateTemp(v.staging, id+"-*")]; a name that is taken is another draw. *)
Fixpoint create_temp (fuel : nat) (id : string) : M S string :=
  match fuel with
  | O => fail (EText "file exists")
  | Datatypes.S fuel' =>
      let! raw := rand in
      let name := id +:+ "-" +:+ hex_encode raw in
      let! made := sql "open a staging file" (fun d => if dk_staging d !! name then (Ok false, d)
                                                    else (Ok true, set_staging (<[name := []]> (dk_staging d)) d)) in
      if made : bool then ret name else create_temp fuel' id
  end.
Definition write_staged (name : string) (bytes : list Z) : M S unit :=
  sql "write" (fun d => (Ok tt, set_staging (<[name := default [] (dk_staging d !! name) ++ bytes]> (dk_staging d)) d)).
Definition remove_staged (name : string) : M S unit :=
  sql "remove" (fun d => (Ok tt, set_staging (delete name (dk_staging d)) d)).

Section object.
Context (client : Client S).

(* go: platform/backup/objectstore.go:66-89 pour *)
Definition staged_write (path id : string) (src : reader) (limit : Z) : M S written :=
  disk_step "restrict the staging file" ;;;
  let! result := pour (write_staged path) src limit in
  disk_step "close the staging file" ;;;
  let! body := query "reopen the staging file" (fun d : Disk => Ok (default [] (dk_staging d !! path))) in
  disk_step "measure the staging file" ;;;
  cl_Put client (keyFor id) body (len body) ;;;
  ret result.
(* go: platform/backup/objectstore.go objectVault.write *)
Definition object_write (id : string) (src : reader) (limit : Z) : M S written :=
  let! path := create_temp (Z.to_nat 10000) id in
  let! r := attempt (staged_write path id src limit) in
  let! _ := attempt (remove_staged path) in
  lift r.
(* go: platform/backup/objectstore.go objectVault.unwrapContentKey *)
Definition object_unwrap (wrapped keyID : string) : outcome string :=
  match Find keys keyID with
  | None => Err (EText ("this backup was keyed with " +:+ keyID +:+ ", which this control plane does not hold"))
  | Some operator => or_fault (EWrap "unwrap the content key") (try raw := OpenBytes c wrapped operator in Ok (bytes_string raw))
  end.
(* go: platform/backup/objectstore.go objectVault.open *)
Definition object_open (id keyID contentKey : string) : M S stream :=
  let! body := mapped (fun err =>
    if errors_Is err "no such object" then EText ("the object store does not hold " +:+ id) else err) (cl_Get client (keyFor id)) in
  if is_empty contentKey then lift (unseal body keyID)
  else
    let! raw := lift (object_unwrap contentKey keyID) in
    let! k := lift (or_fault (EWrap "read the content key") (ParseKey raw)) in
    lift (or_fault (EWrap "unseal the backup") (try opened := Open body k in Ok (read_opened c opened))).
(* go: platform/backup/objectstore.go objectVault.remove *)
Definition object_remove (id : string) : M S unit := cl_Delete client (keyFor id).
(* go: platform/backup/objectstore.go objectVault.presign *)
Definition object_presign (method id : string) (window : Z) : M S string := cl_Presign client method (keyFor id) window.
(* go: platform/backup/objectstore.go objectVault.mintContentKey *)
Definition object_mint : M S (string * string * string) :=
  match Active keys with
  | None => ret ("", "", "")
  | Some active =>
      let! ' (_, text) := NewKey in
      let! wrapped := mapped (EWrap "wrap a content key") (SealBytes c (string_bytes text) active) in
      ret (text, wrapped, ActiveID keys)
  end.
Definition objectVault : Vault S := {|
  v_write := object_write; v_open := object_open; v_remove := object_remove;
  v_direct := Some {| presign := object_presign; mintContentKey := object_mint; unwrapContentKey := object_unwrap |};
|}.
(** What an earlier process left in the staging directory goes. *)
(* go: platform/backup/objectstore.go openObjectVault *)
Definition openObjectVault : M S (Vault S) :=
  disk_step "create the staging directory" ;;;
  let! entries := attempt (query "read the staging directory" (fun d : Disk => Ok (map fst (map_to_list (dk_staging d))))) in
  (match entries with
   | Ok entries => foldM (fun name _ => let! _ := attempt (remove_staged name) in ret tt) entries tt
   | Err _ => ret tt
   end) ;;;
  ret objectVault.
End object.
End vaults.

(** * Repository (repository.go)

    UNIQUE (id) and (volume_id, name) of backups, (id) and (volume_id) of backup_schedules. *)

Record BackupDB := MkBackupDB { bd_backups : list Backup; bd_schedules : list Schedule }.

Definition errNotFound : error := ESentinel "backup not found".
Definition errNameTaken : error := ESentinel "backup name already exists".

Definition has_id (id : string) (b : Backup) : bool := String.eqb (b_ID b) id.
Definition in_project (projectID : string) (b : Backup) : bool := String.eqb (b_ProjectID b) projectID.
Definition of_volume (volumeID : string) (b : Backup) : bool := String.eqb (b_VolumeID b) volumeID.
Definition made_by (scheduleID : string) (b : Backup) : bool := String.eqb (b_ScheduleID b) scheduleID.
Definition is_pending (b : Backup) : bool := String.eqb (b_State b) StatePending.
Definition is_ready (b : Backup) : bool := String.eqb (b_State b) StateReady.
Definition sched_id (id : string) (sc : Schedule) : bool := String.eqb (sc_ID sc) id.
Definition sched_of (volumeID : string) (sc : Schedule) : bool := String.eqb (sc_VolumeID sc) volumeID.
Definition clash (n b : Backup) : bool := has_id (b_ID n) b || of_volume (b_VolumeID n) b && String.eqb (b_Name b) (b_Name n).
Definition created (b : Backup) : string := rfc3339nano (b_CreatedAt b).
Definition text_gtb (s t : string) : bool := str_ltb t s.
(** [ORDER BY created_at DESC] *)
Definition newest_first : Backup -> Backup -> bool := by_key created text_gtb (fun _ _ => false).
(** [ORDER BY created_at DESC, id DESC] *)
Definition newest_page : Backup -> Backup -> bool := by_key created text_gtb (by_key b_ID text_gtb (fun _ _ => false)).
Definition older (after : Cursor) (b : Backup) : bool :=
  is_empty (cur_Order after) || str_ltb (created b) (cur_Order after)
  || String.eqb (created b) (cur_Order after) && str_ltb (b_ID b) (cur_ID after).

(** The columns an UPDATE sets. *)
Definition marked (state message : string) (size : Z) (checksum keyID : string) (at_ : Z) (b : Backup) : Backup :=
  MkBackup (b_ID b) (b_ProjectID b) (b_ScheduleID b) (b_VolumeID b) (b_NodeID b) (b_Name b) state message size checksum keyID
    (b_VolumeKeySealed b) (b_VolumeKeyID b) (b_ContentKey b) (b_CreatedAt b) at_.
Definition fired (last next : Z) (sc : Schedule) : Schedule :=
  MkSchedule (sc_ID sc) (sc_Project sc) (sc_VolumeID sc) (sc_Every sc) (sc_Keep sc) next last (sc_CreatedAt sc) last.
Definition rewritten (sc old : Schedule) : Schedule :=
  MkSchedule (sc_ID old) (sc_Project old) (sc_VolumeID old) (Volume.every_stored (sc_Every sc)) (sc_Keep sc) (sc_NextAt sc)
    (sc_LastAt old) (sc_CreatedAt old) (sc_UpdatedAt sc).
Definition stored_schedule (sc : Schedule) : Schedule :=
  MkSchedule (sc_ID sc) (sc_Project sc) (sc_VolumeID sc) (Volume.every_stored (sc_Every sc)) (sc_Keep sc) (sc_NextAt sc)
    (sc_LastAt sc) (sc_CreatedAt sc) (sc_UpdatedAt sc).
Definition set_backups (rows : list Backup) (db : BackupDB) : BackupDB := MkBackupDB rows (bd_schedules db).
Definition set_schedules (rows : list Schedule) (db : BackupDB) : BackupDB := MkBackupDB (bd_backups db) rows.
Definition on_backup (id : string) (f : Backup -> Backup) (rows : list Backup) : list Backup := map (fun b => if has_id id b then f b else b) rows.

Section repository.
Context {S : Type} `{!Has BackupDB S}.

Definition backups_sql {A} (what : string) (q : list Backup -> outcome A * list Backup) : M S A :=
  sql what (fun db => let '(r, rows) := q (bd_backups db) in (r, set_backups rows db)).
Definition schedules_sql {A} (what : string) (q : list Schedule -> outcome A * list Schedule) : M S A :=
  sql what (fun db => let '(r, rows) := q (bd_schedules db) in (r, set_schedules rows db)).
Definition backups_q {A} (what : string) (q : list Backup -> outcome A) : M S A := query what (fun db => q (bd_backups db)).
Definition schedules_q {A} (what : string) (q : list Schedule -> outcome A) : M S A := query what (fun db => q (bd_schedules db)).

(* go: platform/backup/repository.go repository.insert *)
Definition insert (b : Backup) : M S unit := backups_sql "insert backup" (insert_row (clash b) errNameTaken b).
(* go: platform/backup/repository.go repository.byID *)
Definition byID (id : string) : M S Backup := backups_q "read backup" (select_one (has_id id) errNotFound).
(* go: platform/backup/repository.go repository.listIn *)
Definition listIn_rows (projectID : string) : M S (list Backup) :=
  backups_q "list backups" (fun rows => Ok (sliceStable newest_first (List.filter (in_project projectID) rows))).
(* go: platform/backup/repository.go repository.pageIn *)
Definition pageIn_rows (projectID : string) (window : Window) : M S (list Backup) :=
  backups_q "list backups" (fun rows => Ok (take (Z.to_nat (win_Limit window))
    (sliceStable newest_page (List.filter (fun b => in_project projectID b && older (win_After window) b) rows)))).
(* go: platform/backup/repository.go repository.listForVolume *)
Definition listForVolume_rows (volumeID : string) : M S (list Backup) :=
  backups_q "list backups" (fun rows => Ok (sliceStable newest_first (List.filter (of_volume volumeID) rows))).
(* go: platform/backup/repository.go repository.pendingOn *)
Definition pendingOn_rows (nodeID : string) : M S (list Backup) :=
  backups_q "list backups" (fun rows => Ok (sliceStable (by_key created str_ltb (fun _ _ => false))
    (List.filter (fun b => String.eqb (b_NodeID b) nodeID && is_pending b) rows))).
(** How many rows it changed is not looked at. *)
(* go: platform/backup/repository.go repository.mark *)
Definition mark (id state message : string) (size : Z) (checksum keyID : string) (at_ : Z) : M S unit :=
  backups_sql "mark backup" (fun rows => (Ok tt, on_backup id (marked state message size checksum keyID at_) rows)).
(* go: platform/backup/repository.go repository.delete *)
Definition delete_row (id : string) : M S unit := backups_sql "delete backup" (delete_where (has_id id) errNotFound).
(** INSERT ... ON CONFLICT (volume_id) DO UPDATE; a clash of the id is an error. *)
(* go: platform/backup/repository.go repository.upsertSchedule *)
Definition upsertSchedule (sc : Schedule) : M S unit :=
  schedules_sql "write backup schedule" (fun rows =>
    if existsb (sched_of (sc_VolumeID sc)) rows
    then (Ok tt, Volume.rewrite_rows (sched_of (sc_VolumeID sc)) (rewritten sc) rows)
    else insert_row (sched_id (sc_ID sc)) (EText "UNIQUE constraint failed: backup_schedules.id") (stored_schedule sc) rows).
(* go: platform/backup/repository.go repository.scheduleOf *)
Definition scheduleOf_row (volumeID : string) : M S Schedule :=
  schedules_q "read backup schedule" (select_one (sched_of volumeID) errNotFound).
(* go: platform/backup/repository.go repository.scheduleByID *)
Definition scheduleByID (id : string) : M S Schedule := schedules_q "read backup schedule" (select_one (sched_id id) errNotFound).
Definition next_text (sc : Schedule) : string := rfc3339nano (sc_NextAt sc).
(* go: platform/backup/repository.go repository.schedulesIn *)
Definition schedulesIn_rows (projectID : string) : M S (list Schedule) :=
  schedules_q "list backup schedules" (fun rows => Ok (sliceStable (by_key next_text str_ltb (fun _ _ => false))
    (List.filter (fun sc => String.eqb (sc_Project sc) projectID) rows))).
(* go: platform/backup/repository.go repository.schedulesDue *)
Definition schedulesDue (at_ : Z) : M S (list Schedule) :=
  schedules_q "list backup schedules" (fun rows => Ok (sliceStable (by_key next_text str_ltb (fun _ _ => false))
    (List.filter (fun sc => negb (str_ltb (rfc3339nano at_) (next_text sc))) rows))).
(* go: platform/backup/repository.go repository.markScheduleFired *)
Definition markScheduleFired (id : string) (last next : Z) : M S unit :=
  schedules_sql "record the schedule firing" (fun rows => (Ok tt, Volume.rewrite_rows (sched_id id) (fired last next) rows)).
(* go: platform/backup/repository.go repository.deleteSchedule *)
Definition deleteSchedule (volumeID : string) : M S unit :=
  schedules_sql "delete backup schedule" (delete_where (sched_of volumeID) errNotFound).
(* go: platform/backup/repository.go repository.madeBySchedule *)
Definition madeBySchedule (scheduleID : string) : M S (list Backup) :=
  backups_q "list backups" (fun rows => Ok (sliceStable newest_first (List.filter (made_by scheduleID) rows))).
(* go: platform/backup/repository.go repository.pendingForVolume *)
Definition pendingForVolume (volumeID : string) : M S Z :=
  backups_q "count pending backups" (fun rows => Ok (len (List.filter (fun b => of_volume volumeID b && is_pending b) rows))).
End repository.

(* go: platform/backup/service.go translate *)
Definition translate (err : error) : error :=
  if errors_Is err "backup not found" then NotFound "backup_not_found" "no backup with that id exists"
  else if errors_Is err "backup name already exists" then Conflict "backup_name_taken" "a backup of that volume already carries that name"
  else Internal err.

(** * Service (service.go) *)

Section service.
Context {S : Type} `{!Has BackupDB S} (vault : Vault S) (volumes : option (Volumes S)) (has_events : bool).

(* go: platform/backup/service.go service.note *)
Definition note (b : Backup) (kind message : string) (severity : Severity) : M S unit :=
  if has_events
  then record {| ev_ProjectID := b_ProjectID b; ev_Kind := kind; ev_Subject := b_VolumeID b; ev_NodeID := b_NodeID b;
                 ev_Message := message; ev_Severity := severity |}
  else ret tt.
Definition source_of (why volumeID projectID : string) : M S Source_ :=
  match volumes with
  | None => fail (Unavailable "volumes_unavailable" why)
  | Some vs => Source vs volumeID projectID
  end.
Definition missing : error := NotFound "backup_not_found" "no backup with that id exists".
(** The row of a backup that is of the node. *)
Definition on_node (id nodeID : string) : M S Backup :=
  let! b := mapped translate (byID id) in
  lift (guard (negb (String.eqb (b_NodeID b) nodeID)) missing) ;;;
  ret b.

(* go: platform/backup/service.go service.create *)
Definition create (params : CreateParams) : M S Backup :=
  lift (validate_Name "name" (cp_Name params)) ;;;
  let! source := source_of "the platform cannot look up which node holds the volume" (cp_VolumeID params) (cp_ProjectID params) in
  lift (guard (is_empty (so_NodeID source)) (Conflict "volume_empty"
    "the volume has never been attached, so no node holds anything to copy")) ;;;
  let! at_ := now in
  let! id := ids_New "bkp" in
  let! ' (wrapped, keyID) := match v_direct vault with
    | Some direct => let! ' (_, wrapped, keyID) := mapped Internal (mintContentKey direct) in ret (wrapped, keyID)
    | None => ret ("", "")
    end in
  let b := MkBackup id (cp_ProjectID params) (cp_ScheduleID params) (so_ID source) (so_NodeID source) (cp_Name params) StatePending
             "" 0 "" keyID (so_KeySealed source) (so_KeyID source) wrapped at_ at_ in
  mapped translate (insert b) ;;;
  ret b.

(** [None] is a vault the node cannot reach itself. *)
(* go: platform/backup/service.go service.transfer *)
Definition transfer (id nodeID method : string) : M S (option Transfer) :=
  match v_direct vault with
  | None => ret None
  | Some direct =>
      let! b := on_node id nodeID in
      let! url := mapped Internal (presign direct method (b_ID b) TransferWindow) in
      let! raw := if is_empty (b_ContentKey b) then ret ""
                  else lift (or_fault Internal (unwrapContentKey direct (b_ContentKey b) (b_KeyID b))) in
      let! at_ := now in
      ret (Some (MkTransfer url raw (time_add at_ TransferWindow)))
  end.

(* go: platform/backup/service.go service.retain *)
Definition retain (sc : Schedule) : M S Z :=
  let! made := madeBySchedule (sc_ID sc) in
  let keepable := List.filter is_ready made in
  if len keepable <=? sc_Keep sc then ret 0
  else foldM (fun b pruned => v_remove vault (b_ID b) ;;; delete_row (b_ID b) ;;; ret (pruned + 1))
         (drop (Z.to_nat (sc_Keep sc)) keepable) 0.
(** What follows a backup that became ready. *)
(* go: platform/backup/service.go:180-191 scheduleByID *)
Definition retain_for (b : Backup) : M S unit :=
  if is_empty (b_ScheduleID b) then ret tt
  else
    let! r := attempt (scheduleByID (b_ScheduleID b)) in
    match r with
    | Err err => if errors_Is err "backup not found" then ret tt else fail (Internal err)
    | Ok sc => mapped Internal (retain sc) ;;; ret tt
    end.
(* go: platform/backup/service.go service.markUploaded *)
Definition markUploaded (id nodeID : string) (size : Z) (checksum : string) : M S unit :=
  let! b := on_node id nodeID in
  if is_ready b then ret tt
  else
    lift (guard (size <=? 0) (Invalid "invalid_size" "a backup that landed has a size")) ;;;
    lift (guard (negb (slen checksum =? 64)) (Invalid "invalid_checksum"
      "the checksum is 64 hex characters of sha256 over the plaintext")) ;;;
    let! at_ := now in
    mapped translate (mark (b_ID b) StateReady "" size checksum (b_KeyID b) at_) ;;;
    note b "backup.ready" (b_ID b +:+ " holds " +:+ itoa size +:+ " bytes") Info ;;;
    retain_for b.

(* go: platform/backup/service.go service.pageIn *)
Definition pageIn (projectID : string) (window : Window) : M S (list Backup) := mapped translate (pageIn_rows projectID window).
(* go: platform/backup/service.go service.listIn *)
Definition listIn (projectID : string) : M S (list Backup) := mapped translate (listIn_rows projectID).
(* go: platform/backup/service.go service.listForVolume *)
Definition listForVolume (volumeID projectID : string) : M S (list Backup) :=
  let! source := source_of "the platform cannot look up which node holds the volume" volumeID projectID in
  mapped translate (listForVolume_rows (so_ID source)).
(* go: platform/backup/service.go service.getIn *)
Definition getIn (id projectID : string) : M S Backup :=
  let! b := mapped translate (byID id) in
  lift (guard (negb (in_project projectID b)) missing) ;;;
  ret b.
(* go: platform/backup/service.go service.pendingOn *)
Definition pendingOn (nodeID : string) : M S (list Backup) := mapped translate (pendingOn_rows nodeID).

(* go: platform/backup/service.go service.store *)
Definition store (id nodeID : string) (content : reader) : M S Backup :=
  let! b := on_node id nodeID in
  if is_ready b then ret b
  else
    let! stored := attempt (v_write vault (b_ID b) content MaxBytes) in
    match stored with
    | Err err =>
        let! at_ := now in
        mapped Internal (mark (b_ID b) StateFailed (error_text err) 0 "" "" at_) ;;;
        note b "backup.failed" (b_ID b +:+ ": " +:+ error_text err) SevError ;;;
        fail (Internal err)
    | Ok stored =>
        let! at_ := now in
        mapped translate (mark (b_ID b) StateReady "" (wr_Size stored) (wr_Checksum stored) (wr_KeyID stored) at_) ;;;
        let b := marked StateReady (b_Message b) (wr_Size stored) (wr_Checksum stored) (wr_KeyID stored) at_ b in
        note b "backup.ready" (b_ID b +:+ " holds " +:+ itoa (wr_Size stored) +:+ " bytes") Info ;;;
        retain_for b ;;;
        ret b
    end.
(* go: platform/backup/service.go service.fail *)
Definition fail_backup (id nodeID message : string) : M S unit :=
  let! b := on_node id nodeID in
  let message := if is_empty message then "the node could not copy the volume" else message in
  let! at_ := now in
  mapped translate (mark (b_ID b) StateFailed message 0 "" "" at_) ;;;
  note b "backup.failed" (b_ID b +:+ ": " +:+ message) SevError.
(* go: platform/backup/service.go service.content *)
Definition content (id : string) : M S (stream * Z) :=
  let! b := mapped translate (byID id) in
  lift (guard (negb (is_ready b)) (Conflict "backup_not_ready" ("the backup is " +:+ b_State b +:+ " and holds no bytes yet"))) ;;;
  let! reader := mapped (fun err => Unavailable "backup_unreadable" (error_text err)) (v_open vault (b_ID b) (b_KeyID b) (b_ContentKey b)) in
  ret (reader, b_SizeBytes b).
(* go: platform/backup/service.go service.restorable *)
Definition restorable (id projectID : string) : M S Envelope :=
  let! b := getIn id projectID in
  lift (guard (negb (is_ready b)) (Conflict "backup_not_ready" ("the backup is " +:+ b_State b +:+ " and cannot be restored yet"))) ;;;
  ret (MkEnvelope (b_SizeBytes b) (b_VolumeKeySealed b) (b_VolumeKeyID b)).
(* go: platform/backup/service.go service.remove *)
Definition remove (id projectID : string) : M S unit :=
  let! b := getIn id projectID in
  mapped Internal (v_remove vault (b_ID b)) ;;;
  mapped translate (delete_row (b_ID b)).

(** ** Schedules *)

(* go: platform/backup/service.go service.setSchedule *)
Definition setSchedule (params : ScheduleParams) : M S Schedule :=
  let! every := lift (or_fault (fun err => Invalid "invalid_interval" (error_text err)) (Interval.Parse (sp_Every params))) in
  lift (guard ((every <? MinEvery) || (MaxEvery <? every))
    (Invalid "invalid_interval" "the interval must be between 1m0s and 8760h0m0s")) ;;;
  lift (guard ((sp_Keep params <? MinKeep) || (MaxKeep <? sp_Keep params)) (Invalid "invalid_keep"
    "keep must be between 1 and 365, because a schedule that keeps nothing copies for no reason")) ;;;
  let! source := source_of "the platform cannot look up the volume" (sp_VolumeID params) (sp_ProjectID params) in
  let! at_ := now in
  let! id := ids_New "bsc" in
  let fresh := MkSchedule id (sp_ProjectID params) (so_ID source) every (sp_Keep params) (time_add at_ every) zero_time at_ at_ in
  let! existing := attempt (scheduleOf_row (so_ID source)) in
  let! sc := match existing with
    | Ok old => ret (MkSchedule (sc_ID old) (sp_ProjectID params) (so_ID source) every (sp_Keep params) (time_add at_ every)
                       (sc_LastAt old) (sc_CreatedAt old) at_)
    | Err err => if errors_Is err "backup not found" then ret fresh else fail (Internal err)
    end in
  mapped Internal (upsertSchedule sc) ;;;
  ret sc.
(* go: platform/backup/service.go service.scheduleOf *)
Definition scheduleOf (volumeID projectID : string) : M S Schedule :=
  let! source := source_of "the platform cannot look up the volume" volumeID projectID in
  mapped (fun err => if errors_Is err "backup not found" then NotFound "schedule_not_found" "that volume carries no backup schedule"
                     else Internal err) (scheduleOf_row (so_ID source)).
(* go: platform/backup/service.go service.schedulesIn *)
Definition schedulesIn (projectID : string) : M S (list Schedule) := mapped Internal (schedulesIn_rows projectID).
(* go: platform/backup/service.go service.removeSchedule *)
Definition removeSchedule (volumeID projectID : string) : M S unit :=
  let! sc := scheduleOf volumeID projectID in
  mapped Internal (deleteSchedule (sc_VolumeID sc)).

(* go: platform/backup/service.go service.fire *)
Definition fire (sc : Schedule) (at_ : Z) : M S bool :=
  markScheduleFired (sc_ID sc) at_ (time_add at_ (sc_Every sc)) ;;;
  let! waiting := pendingForVolume (sc_VolumeID sc) in
  if 0 <? waiting then ret false
  else
    let! r := attempt (create (MkCreateParams (sc_Project sc) (sc_VolumeID sc) ("auto-" +:+ Volume.stamp_text at_) (sc_ID sc))) in
    ret (match r with Ok _ => true | Err _ => false end).
(** The counts of a sweep that fails are only logged. *)
(* go: platform/backup/service.go service.sweep *)
Definition sweep : M S (Z * Z) :=
  let! at_ := now in
  let! due := schedulesDue at_ in
  foldM (fun sc acc =>
    let! fired := fire sc at_ in
    let! gone := retain sc in
    ret (fst acc + (if fired : bool then 1 else 0), snd acc + gone)) due (0, 0).
End service.

(** * Handlers (handler.go)

    A request is its caller's scope, its path values and what [Decode] made of its body. *)

(* go: platform/backup/handler.go createRequest *)
Record createRequest := MkCreateRequest { cr_Name : string }.
(* go: platform/backup/handler.go failRequest *)
Record failRequest := MkFailRequest { fr_Message : string }.
(* go: platform/backup/handler.go response *)
Record response := MkResponse {
  o_ID : string; o_VolumeID : string; o_NodeID : string; o_ScheduleID : string; o_Name : string; o_State : string; o_Message : string;
  o_SizeBytes : Z; o_Checksum : string; o_KeyID : string; o_CreatedAt : string; o_UpdatedAt : string;
}.
(* go: platform/backup/handler.go toResponse *)
Definition toResponse (b : Backup) : response :=
  MkResponse (b_ID b) (b_VolumeID b) (b_NodeID b) (b_ScheduleID b) (b_Name b) (b_State b) (b_Message b) (b_SizeBytes b) (b_Checksum b)
    (b_KeyID b) (rfc3339nano (b_CreatedAt b)) (rfc3339nano (b_UpdatedAt b)).
(* go: platform/backup/handler.go scheduleRequest *)
Record scheduleRequest := MkScheduleRequest { sq_Every : string; sq_Keep : Z }.
(* go: platform/backup/handler.go scheduleResponse *)
Record scheduleResponse := MkScheduleResponse {
  ro_ID : string; ro_VolumeID : string; ro_Every : string; ro_Keep : Z; ro_NextAt : string; ro_LastAt : string; ro_UpdatedAt : string;
}.
(* go: platform/backup/handler.go toScheduleResponse *)
Definition toScheduleResponse (sc : Schedule) : scheduleResponse :=
  MkScheduleResponse (sc_ID sc) (sc_VolumeID sc) (duration_String (sc_Every sc)) (sc_Keep sc) (rfc3339nano (sc_NextAt sc))
    (if time_is_zero (sc_LastAt sc) then "" else rfc3339nano (sc_LastAt sc)) (rfc3339nano (sc_UpdatedAt sc)).
(* go: platform/backup/handler.go transferResponse *)
Record transferResponse := MkTransferResponse { tp_Direct : bool; tp_URL : string; tp_Key : string; tp_ExpiresAt : string }.
(* go: platform/backup/handler.go uploadedRequest *)
Record uploadedRequest := MkUploadedRequest { uq_SizeBytes : Z; uq_Checksum : string }.

Inductive body :=
| BBackup (b : response)
| BBackups (bs : list response) (next : string)
| BSchedule (s : scheduleResponse)
| BSchedules (ss : list scheduleResponse)
| BTransfer (t : transferResponse)
| BContent (length : Z) (bytes : list Z).

Section handlers.
Context {S : Type} `{!Has BackupDB S} (vault : Vault S) (volumes : option (Volumes S)) (has_events : bool).

(* go: platform/backup/handler.go writePage *)
Definition writePage (backups : list Backup) (next : string) : M S (Reply body) := Write StatusOK (BBackups (map toResponse backups) next).
(* go: platform/backup/handler.go writeList *)
Definition writeList (backups : list Backup) : M S (Reply body) := writePage backups "".
(* go: platform/backup/handler.go handler.create *)
Definition handle_create (sc : Scope) (id : string) (req : outcome createRequest) : M S (Reply body) :=
  let! req := lift req in
  let! b := create vault volumes (MkCreateParams (sc_ProjectID sc) id (cr_Name req) "") in
  Write StatusCreated (BBackup (toResponse b)).
(* go: platform/backup/handler.go handler.list *)
Definition handle_list (sc : Scope) (q_limit q_after : string) : M S (Reply body) :=
  let! window := lift (window_from q_limit q_after) in
  let! backups := pageIn (sc_ProjectID sc) window in
  writePage backups (match last backups with
    | Some b => if len backups =? win_Limit window then page_Encode (created b) (b_ID b) else ""
    | None => ""
    end).
(* go: platform/backup/handler.go handler.listForVolume *)
Definition handle_listForVolume (sc : Scope) (id : string) : M S (Reply body) :=
  let! backups := listForVolume volumes id (sc_ProjectID sc) in writeList backups.
(* go: platform/backup/handler.go handler.listForNode *)
Definition handle_listForNode (nodeID : string) : M S (Reply body) := let! backups := pendingOn nodeID in writeList backups.
(* go: platform/backup/handler.go handler.get *)
Definition handle_get (sc : Scope) (id : string) : M S (Reply body) :=
  let! b := getIn id (sc_ProjectID sc) in Write StatusOK (BBackup (toResponse b)).
(* go: platform/backup/handler.go handler.upload *)
Definition handle_upload (nodeID id : string) (bytes : reader) : M S (Reply body) :=
  let! b := store vault has_events id nodeID bytes in Write StatusOK (BBackup (toResponse b)).
(* go: platform/backup/handler.go handler.fail *)
Definition handle_fail (nodeID id : string) (req : outcome failRequest) : M S (Reply body) :=
  let! req := lift req in
  fail_backup has_events id nodeID (fr_Message req) ;;;
  WriteHeader StatusNoContent.
(** A stream that breaks has sent what came before. *)
(* go: platform/backup/handler.go handler.download *)
Definition handle_download (nodeID id : string) : M S (Reply body) :=
  let! ' (file, size) := content vault id in
  match snd file with
  | Some err => fail (Internal err)
  | None => Write StatusOK (BContent size (fst file))
  end.
(* go: platform/backup/handler.go handler.delete *)
Definition handle_delete (sc : Scope) (id : string) : M S (Reply body) :=
  remove vault id (sc_ProjectID sc) ;;;
  WriteHeader StatusNoContent.
(* go: platform/backup/handler.go handler.setSchedule *)
Definition handle_setSchedule (sc : Scope) (id : string) (req : outcome scheduleRequest) : M S (Reply body) :=
  let! req := lift req in
  let! made := setSchedule volumes (MkScheduleParams (sc_ProjectID sc) id (sq_Every req) (sq_Keep req)) in
  Write StatusOK (BSchedule (toScheduleResponse made)).
(* go: platform/backup/handler.go handler.getSchedule *)
Definition handle_getSchedule (sc : Scope) (id : string) : M S (Reply body) :=
  let! found := scheduleOf volumes id (sc_ProjectID sc) in Write StatusOK (BSchedule (toScheduleResponse found)).
(* go: platform/backup/handler.go handler.listSchedules *)
Definition handle_listSchedules (sc : Scope) : M S (Reply body) :=
  let! schedules := schedulesIn (sc_ProjectID sc) in Write StatusOK (BSchedules (map toScheduleResponse schedules)).
(* go: platform/backup/handler.go handler.deleteSchedule *)
Definition handle_deleteSchedule (sc : Scope) (id : string) : M S (Reply body) :=
  removeSchedule volumes id (sc_ProjectID sc) ;;;
  WriteHeader StatusNoContent.
(* go: platform/backup/handler.go handler.transfer *)
Definition handle_transfer (nodeID id method : string) : M S (Reply body) :=
  let! target := transfer vault id nodeID method in
  Write StatusOK (BTransfer match target with
    | None => MkTransferResponse false "" "" ""
    | Some t => MkTransferResponse true (tr_URL t) (tr_Key t) (rfc3339nano (tr_ExpiresAt t))
    end).
(* go: platform/backup/handler.go handler.uploadTarget *)
Definition handle_uploadTarget (nodeID id : string) : M S (Reply body) := handle_transfer nodeID id "PUT".
(* go: platform/backup/handler.go handler.downloadTarget *)
Definition handle_downloadTarget (nodeID id : string) : M S (Reply body) := handle_transfer nodeID id "GET".
(* go: platform/backup/handler.go handler.uploaded *)
Definition handle_uploaded (nodeID id : string) (req : outcome uploadedRequest) : M S (Reply body) :=
  let! req := lift req in
  markUploaded vault has_events id nodeID (uq_SizeBytes req) (uq_Checksum req) ;;;
  WriteHeader StatusNoContent.

(** What reaches the module: a tenant's requests, a node's, and the ticker's sweep. *)
Inductive request :=
| ReqCreate (sc : Scope) (id : string) (req : outcome createRequest)
| ReqList (sc : Scope) (q_limit q_after : string)
| ReqListForVolume (sc : Scope) (id : string)
| ReqGet (sc : Scope) (id : string)
| ReqDelete (sc : Scope) (id : string)
| ReqListSchedules (sc : Scope)
| ReqGetSchedule (sc : Scope) (id : string)
| ReqSetSchedule (sc : Scope) (id : string) (req : outcome scheduleRequest)
| ReqDeleteSchedule (sc : Scope) (id : string)
| ReqListForNode (nodeID : string)
| ReqUploadTarget (nodeID id : string)
| ReqDownloadTarget (nodeID id : string)
| ReqUploaded (nodeID id : string) (req : outcome uploadedRequest)
| ReqUpload (nodeID id : string) (bytes : reader)
| ReqFail (nodeID id : string) (req : outcome failRequest)
| ReqDownload (nodeID id : string)
| ReqSweep.

(* go: platform/backup/module.go Module.Routes *)
Definition serve (r : request) : M S (Reply body) :=
  match r with
  | ReqCreate sc id req => handle_create sc id req
  | ReqList sc q_limit q_after => handle_list sc q_limit q_after
  | ReqListForVolume sc id => handle_listForVolume sc id
  | ReqGet sc id => handle_get sc id
  | ReqDelete sc id => handle_delete sc id
  | ReqListSchedules sc => handle_listSchedules sc
  | ReqGetSchedule sc id => handle_getSchedule sc id
  | ReqSetSchedule sc id req => handle_setSchedule sc id req
  | ReqDeleteSchedule sc id => handle_deleteSchedule sc id
  | ReqListForNode nodeID => handle_listForNode nodeID
  | ReqUploadTarget nodeID id => handle_uploadTarget nodeID id
  | ReqDownloadTarget nodeID id => handle_downloadTarget nodeID id
  | ReqUploaded nodeID id req => handle_uploaded nodeID id req
  | ReqUpload nodeID id bytes => handle_upload nodeID id bytes
  | ReqFail nodeID id req => handle_fail nodeID id req
  | ReqDownload nodeID id => handle_download nodeID id
  | ReqSweep => let! _ := attempt (sweep vault volumes) in WriteHeader StatusOK
  end.
End handlers.

(** * The state machine the module promises

    A backup starts pending; only its node moves it, to ready or to failed, and what is ready stays
    ready until its node reports a failure or it is removed; only its tenant and its schedule's
    retention remove it.  [Tenant] asks, [NodeOf] copies, [Ticker] sweeps. *)
Inductive actor := Tenant (projectID : string) | NodeOf (nodeID : string) | Ticker.

Record backup_ok (b : Backup) : Prop := {
  bo_name : validate_Name "name" (b_Name b) = Ok tt;
  bo_state : b_State b ∈ [StatePending; StateReady; StateFailed];
  bo_placed : b_NodeID b <> "";
  bo_unready : is_ready b = false -> b_SizeBytes b = 0 /\ b_Checksum b = "";
}.
Definition sched_ok (sc : Schedule) : Prop := MinKeep <= sc_Keep sc <= MaxKeep.

Section machine.
(** The project each volume is of. *)
Context (owner : string -> string).

Inductive change (a : actor) (db : BackupDB) : BackupDB -> Prop :=
| C_create b : is_pending b = true -> backup_ok b -> owner (b_VolumeID b) = b_ProjectID b -> existsb (clash b) (bd_backups db) = false ->
    (a = Tenant (b_ProjectID b) /\ b_ScheduleID b = "" \/
     a = Ticker /\ exists sc, sc ∈ bd_schedules db /\ sc_ID sc = b_ScheduleID b /\ sc_Project sc = b_ProjectID b) ->
    change a db (set_backups (bd_backups db ++ [b]) db)
| C_ready b size checksum keyID at_ : a = NodeOf (b_NodeID b) -> b ∈ bd_backups db -> is_ready b = false ->
    change a db (set_backups (on_backup (b_ID b) (marked StateReady "" size checksum keyID at_) (bd_backups db)) db)
| C_failed b message at_ : a = NodeOf (b_NodeID b) -> b ∈ bd_backups db ->
    change a db (set_backups (on_backup (b_ID b) (marked StateFailed message 0 "" "" at_) (bd_backups db)) db)
| C_remove b : a = Tenant (b_ProjectID b) -> b ∈ bd_backups db ->
    change a db (set_backups (List.filter (fun x => negb (has_id (b_ID b) x)) (bd_backups db)) db)
| C_retain b sc : (a = Ticker \/ exists n, a = NodeOf n) -> b ∈ bd_backups db -> is_ready b = true -> sc ∈ bd_schedules db ->
    b_ScheduleID b = sc_ID sc -> change a db (set_backups (List.filter (fun x => negb (has_id (b_ID b) x)) (bd_backups db)) db)
| C_schedule sc : a = Tenant (sc_Project sc) -> owner (sc_VolumeID sc) = sc_Project sc -> sched_ok sc ->
    existsb (sched_of (sc_VolumeID sc)) (bd_schedules db) = false -> existsb (sched_id (sc_ID sc)) (bd_schedules db) = false ->
    change a db (set_schedules (bd_schedules db ++ [sc]) db)
| C_reschedule sc : a = Tenant (sc_Project sc) -> owner (sc_VolumeID sc) = sc_Project sc -> sched_ok sc ->
    change a db (set_schedules (Volume.rewrite_rows (sched_of (sc_VolumeID sc)) (rewritten sc) (bd_schedules db)) db)
| C_unschedule sc : a = Tenant (sc_Project sc) -> sc ∈ bd_schedules db ->
    change a db (set_schedules (List.filter (fun x => negb (sched_of (sc_VolumeID sc) x)) (bd_schedules db)) db)
| C_fired id last next : a = Ticker ->
    change a db (set_schedules (Volume.rewrite_rows (sched_id id) (fired last next) (bd_schedules db)) db).
Definition history (a : actor) : BackupDB -> BackupDB -> Prop := rtc (change a).
#[export] Instance history_preorder a : PreOrder (history a).
Proof. unfold history. typeclasses eauto. Qed.

Record backup_inv (db : BackupDB) : Prop := {
  bi_id : unique_by (fun b => Some (b_ID b)) (bd_backups db);
  bi_name : unique_by (fun b => Some (b_VolumeID b, b_Name b)) (bd_backups db);
  bi_row : Forall backup_ok (bd_backups db);
  bi_owner : Forall (fun b => owner (b_VolumeID b) = b_ProjectID b) (bd_backups db);
  bi_sched_id : unique_by (fun sc => Some (sc_ID sc)) (bd_schedules db);
  bi_sched_volume : unique_by (fun sc => Some (sc_VolumeID sc)) (bd_schedules db);
  bi_sched : Forall sched_ok (bd_schedules db);
  bi_sched_owner : Forall (fun sc => owner (sc_VolumeID sc) = sc_Project sc) (bd_schedules db);
}.

(** * The changes keep the tables well formed *)

Lemma marked_ok st m z k key t b : backup_ok b -> st ∈ [StatePending; StateReady; StateFailed] ->
  (String.eqb st StateReady = false -> z = 0 /\ k = "") -> backup_ok (marked st m z k key t b).
Proof. intros [] Hst Hz. by constructor. Qed.
Lemma on_backup_inv db id f : backup_inv db -> (forall b, b_ID (f b) = b_ID b /\ b_VolumeID (f b) = b_VolumeID b /\ b_Name (f b) = b_Name b /\
    b_ProjectID (f b) = b_ProjectID b) -> (forall b, backup_ok b -> backup_ok (f b)) ->
  backup_inv (set_backups (on_backup id f (bd_backups db)) db).
Proof.
  intros [H1 H2 H3 H4 H5 H6 H7 H8] Hf Hok. constructor; cbn [set_backups bd_backups bd_schedules]; [| | | |done..].
  - apply unique_by_map; [|done]. intros b. destruct (has_id id b); [|done]. by destruct (Hf b) as [-> _].
  - apply unique_by_map; [|done]. intros b. destruct (has_id id b); [|done]. by destruct (Hf b) as (_ & -> & -> & _).
  - apply Forall_map. eapply Forall_impl; [exact H3|]. intros b Hb. destruct (has_id id b); auto.
  - apply Forall_map. eapply Forall_impl; [exact H4|]. intros b Hb. destruct (has_id id b); [|done]. by destruct (Hf b) as (_ & -> & _ & ->).
Qed.
Lemma on_sched_inv db p f : backup_inv db -> (forall sc, sc_ID (f sc) = sc_ID sc /\ sc_VolumeID (f sc) = sc_VolumeID sc /\
    sc_Project (f sc) = sc_Project sc) -> (forall sc, sched_ok sc -> sched_ok (f sc)) ->
  backup_inv (set_schedules (Volume.rewrite_rows p f (bd_schedules db)) db).
Proof.
  intros [H1 H2 H3 H4 H5 H6 H7 H8] Hf Hok. unfold Volume.rewrite_rows. constructor; cbn [set_schedules bd_backups bd_schedules]; [done..| | | |].
  - apply unique_by_map; [|done]. intros b. destruct (p b); [|done]. by destruct (Hf b) as [-> _].
  - apply unique_by_map; [|done]. intros b. destruct (p b); [|done]. by destruct (Hf b) as (_ & -> & _).
  - apply Forall_map. eapply Forall_impl; [exact H7|]. intros b Hb. destruct (p b); auto.
  - apply Forall_map. eapply Forall_impl; [exact H8|]. intros b Hb. destruct (p b); [|done]. by destruct (Hf b) as (_ & -> & ->).
Qed.
Lemma backups_filter_inv db p : backup_inv db -> backup_inv (set_backups (List.filter p (bd_backups db)) db).
Proof.
  intros []. constructor; cbn [set_backups bd_backups bd_schedules]; try done; by first [apply unique_by_filter|apply Forall_filter_bool].
Qed.
Lemma backup_change_inv a db db' : change a db db' -> backup_inv db -> backup_inv db'.
Proof.
  intros [b Hp Hok Ho Hc _|b size checksum keyID at_ _ Hb Hr|b message at_ _ Hb|b _ Hb|b sc _ Hb _ _ _|sc _ Ho Hok Hc1 Hc2|sc _ Ho Hok|sc _ Hsc|id last next _] Hi.
  - rewrite existsb_false, Forall_forall in Hc. destruct Hi as [H1 H2 H3 H4 H5 H6 H7 H8]. constructor; cbn [set_backups bd_backups bd_schedules]; [| | | |done..].
    + apply unique_by_app; [done|]. intros x k Hx [= <-] [= E]. specialize (Hc x Hx). unfold clash, has_id in Hc. by rewrite E, String.eqb_refl in Hc.
    + apply unique_by_app; [done|]. intros x k Hx [= <-] [= E1 E2]. specialize (Hc x Hx). unfold clash, of_volume in Hc.
      by rewrite E1, E2, !String.eqb_refl, orb_true_r in Hc.
    + apply Forall_app. split; [done|]. by constructor.
    + apply Forall_app. split; [done|]. by constructor.
  - apply on_backup_inv; [done|done|]. intros x Hx. apply marked_ok; [done|set_solver|done].
  - apply on_backup_inv; [done|done|]. intros x Hx. apply marked_ok; [done|set_solver|done].
  - by apply backups_filter_inv.
  - by apply backups_filter_inv.
  - rewrite existsb_false, Forall_forall in Hc1, Hc2. destruct Hi as [H1 H2 H3 H4 H5 H6 H7 H8]. constructor; cbn [set_schedules bd_backups bd_schedules]; [done..| | | |].
    + apply unique_by_app; [done|]. intros x k Hx [= <-] [= E]. specialize (Hc2 x Hx). unfold sched_id in Hc2. by rewrite E, String.eqb_refl in Hc2.
    + apply unique_by_app; [done|]. intros x k Hx [= <-] [= E]. specialize (Hc1 x Hx). unfold sched_of in Hc1. by rewrite E, String.eqb_refl in Hc1.
    + apply Forall_app. split; [done|]. by constructor.
    + apply Forall_app. split; [done|]. by constructor.
  - by apply on_sched_inv.
  - destruct Hi. constructor; cbn [set_schedules bd_backups bd_schedules]; try done; by first [apply unique_by_filter|apply Forall_filter_bool].
  - by apply on_sched_inv.
Qed.
Lemma backup_history_inv a db db' : history a db db' -> backup_inv db -> backup_inv db'.
Proof. intros H. induction H as [|x y z Hc _ IH]; [done|]. intros Hi. apply IH. by eapply backup_change_inv. Qed.

(** ** The other tenants *)

Definition others (p : string) (db : BackupDB) : BackupDB :=
  MkBackupDB (others_rows b_ProjectID p (bd_backups db)) (others_rows sc_Project p (bd_schedules db)).
Lemma backup_change_others p db db' : change (Tenant p) db db' -> backup_inv db -> others p db' = others p db.
Proof.
  intros Hc Hi. assert (Hv : forall sc x, owner (sc_VolumeID sc) = sc_Project sc -> x ∈ bd_schedules db -> sched_of (sc_VolumeID sc) x = true -> sc_Project x = sc_Project sc).
  { intros sc x Ho Hx E%String.eqb_eq. pose proof (bi_sched_owner _ Hi) as Hs. rewrite Forall_forall in Hs. rewrite <- (Hs x Hx), E. done. }
  unfold others. destruct Hc as [b Hp Hok Ho Hc [[[= ->] _]|[[=] _]]|b size checksum keyID at_ [=]|b message at_ [=]|b [= ->] Hb|b sc [[=]|[n [=]]]|sc [= ->] Ho Hok Hc1 Hc2|sc [= ->] Ho Hok|sc [= ->] Hsc|id last next [=]];
    cbn [set_backups set_schedules bd_backups bd_schedules]; f_equal.
  - apply others_insert.
  - by apply (others_delete b_ID); [apply bi_id|].
  - apply others_insert.
  - apply filter_changed; intros x Hx; (destruct (sched_of (sc_VolumeID sc) x) eqn:E; [|done]); [done|]. by rewrite (Hv sc x), String.eqb_refl.
  - apply others_delete_owned. intros x Hx E. apply Hv; [|done..]. pose proof (bi_sched_owner _ Hi) as Hs. rewrite Forall_forall in Hs. by apply Hs.
Qed.
Lemma backup_history_others p db db' : history (Tenant p) db db' -> backup_inv db -> others p db' = others p db.
Proof.
  intros H. induction H as [|x y z Hc _ IH]; [done|]. intros Hi. rewrite IH by (by eapply backup_change_inv). by eapply backup_change_others.
Qed.
End machine.

(** * What the operations do *)

Section reading.
Context {S : Type} `{!Has BackupDB S}.

Lemma backup_yields_byID db id : yields db (byID (S:=S) id) (fun b => b ∈ bd_backups db /\ b_ID b = id).
Proof. eapply yields_mono; [apply yields_query|]. intros b [Hb E%String.eqb_eq]%select_one_ok. done. Qed.
Lemma yields_on_node db id n : yields db (on_node (S:=S) id n) (fun b => b ∈ bd_backups db /\ b_ID b = id /\ b_NodeID b = n).
Proof.
  eapply yields_bind; [apply yields_mapped, backup_yields_byID|]. intros b [Hb Eid]. eapply yields_bind; [apply yields_lift|].
  intros _ E%guard_false%negb_false_iff%String.eqb_eq. eapply yields_mono; [apply yields_ret|]. by intros ? ->.
Qed.
Lemma backup_yields_getIn db id p : yields db (getIn (S:=S) id p) (fun b => b ∈ bd_backups db /\ b_ID b = id /\ b_ProjectID b = p).
Proof.
  eapply yields_bind; [apply yields_mapped, backup_yields_byID|]. intros b [Hb Eid]. eapply yields_bind; [apply yields_lift|].
  intros _ E%guard_false%negb_false_iff%String.eqb_eq. eapply yields_mono; [apply yields_ret|]. by intros ? ->.
Qed.
Lemma yields_scheduleByID db id : yields db (scheduleByID (S:=S) id) (fun sc => sc ∈ bd_schedules db /\ sc_ID sc = id).
Proof. eapply yields_mono; [apply yields_query|]. intros sc [Hs E%String.eqb_eq]%select_one_ok. done. Qed.
Lemma yields_scheduleOf_row db v : yields db (scheduleOf_row (S:=S) v) (fun sc => sc ∈ bd_schedules db /\ sc_VolumeID sc = v).
Proof. eapply yields_mono; [apply yields_query|]. intros sc [Hs E%String.eqb_eq]%select_one_ok. done. Qed.
Lemma backup_yields_ids (db : BackupDB) prefix : yields db (ids_New (S:=S) prefix) (fun _ => True).
Proof. apply yields_leaves. unfold ids_New. auto with leaves. Qed.
Lemma leaves_backup_note has_events b kind m sev : leaves BackupDB (note (S:=S) has_events b kind m sev).
Proof. unfold note. auto with leaves. Qed.
End reading.
#[export] Hint Resolve yields_on_node backup_yields_getIn backup_yields_ids : yields.
#[export] Hint Resolve leaves_backup_note : leaves.

(** Every call of a vault leaves the tables alone. *)
Record vault_apart {S} `{!Has BackupDB S} (v : Vault S) : Prop := {
  va_write id src limit : leaves BackupDB (v_write v id src limit);
  va_open id keyID contentKey : leaves BackupDB (v_open v id keyID contentKey);
  va_remove id : leaves BackupDB (v_remove v id);
  va_presign d method id window : v_direct v = Some d -> leaves BackupDB (presign d method id window);
  va_mint d : v_direct v = Some d -> leaves BackupDB (mintContentKey d);
}.

Section operations.
Context {S : Type} `{!Has BackupDB S} (vault : Vault S) (volumes : option (Volumes S)) (has_events : bool) (owner : string -> string).
Context (Hvault : vault_apart vault).
Context (Hsource : forall vs v p db, volumes = Some vs -> yields db (Source vs v p) (fun s => owner (so_ID s) = p)).
Abbreviation H a := (history owner a).

Lemma yields_source_of db why v p : yields db (source_of volumes why v p) (fun s => owner (so_ID s) = p).
Proof.
  unfold source_of. pose proof (fun vs => Hsource vs v p db) as Hs. clear Hsource Hvault. destruct volumes as [vs|]; [by apply Hs|].
  eapply yields_mono; [apply yields_fail|]. done.
Qed.
Hint Resolve yields_source_of : yields.
Lemma leaves_mint : leaves BackupDB (match v_direct vault with
    | Some direct => let! ' (_, wrapped, keyID) := mapped Internal (mintContentKey direct) in ret (wrapped, keyID)
    | None => ret ("", "")
    end).
Proof.
  pose proof (va_mint _ Hvault) as Hm. destruct (v_direct vault) as [d|]; [|auto with leaves].
  apply leaves_bind; [by apply leaves_mapped, Hm|]. intros [[]]. auto with leaves.
Qed.

Lemma backup_create_moves a db params : backup_inv owner db ->
  (a = Tenant (cp_ProjectID params) /\ cp_ScheduleID params = "" \/
   a = Ticker /\ exists sc, sc ∈ bd_schedules db /\ sc_ID sc = cp_ScheduleID params /\ sc_Project sc = cp_ProjectID params) ->
  moves (H a) db (create vault volumes params).
Proof.
  intros Hi Ha. unfold create. m_step. intros [] Hn. m_step. intros source Ho. m_step. intros _ Hne%guard_false%is_empty_false.
  m_step. intros at_ _. m_step. intros id _. eapply moves_bind; [typeclasses eauto|apply yields_leaves, leaves_mint|]. intros [wrapped keyID] _.
  apply moves_last; [typeclasses eauto|]. apply moves_sql; [typeclasses eauto|]. unfold insert_row. destruct (existsb _ _) eqn:Ec; cbn [snd]; [by destruct db|].
  apply rtc_once. apply C_create; [done| |done|done|done]. constructor; cbn; [done|set_solver|done|done].
Qed.
Lemma backup_moves_mark db id st m z k key t (R : BackupDB -> BackupDB -> Prop) `{!PreOrder R} :
  R db (set_backups (on_backup id (marked st m z k key t) (bd_backups db)) db) -> moves R db (mark (S:=S) id st m z k key t).
Proof. intros HR. unfold mark, backups_sql. by apply moves_sql. Qed.

(** A step of the pruning: ready backups of the schedule go, nothing else changes. *)
Definition pruned (a : actor) (db db' : BackupDB) : Prop :=
  H a db db' /\ (forall b, b ∈ bd_backups db' -> b ∈ bd_backups db) /\ bd_schedules db' = bd_schedules db.
#[local] Instance pruned_preorder a : PreOrder (pruned a).
Proof. split; [done|]. intros x y z (H1 & H2 & H3) (H4 & H5 & H6). split_and!; [by etrans|auto|congruence]. Qed.
Definition sweeps (a : actor) : Prop := a = Ticker \/ exists n, a = NodeOf n.
Definition known (sc : Schedule) (db : BackupDB) : Prop :=
  exists sc', sc' ∈ bd_schedules db /\ sc_ID sc' = sc_ID sc /\ sc_Project sc' = sc_Project sc.

Lemma retain_pruned a db sc : backup_inv owner db -> sweeps a -> known sc db -> moves (pruned a) db (retain vault sc).
Proof.
  intros Hi Ha (sc' & Hsc & Eid & _). unfold retain. eapply moves_bind; [typeclasses eauto|apply yields_query|]. intros made [= Hm].
  destruct (_ <=? _); [m_step|]. set (doomed := drop _ _).
  assert (Hd : forall b, b ∈ doomed -> b ∈ bd_backups db /\ is_ready b = true /\ b_ScheduleID b = sc_ID sc).
  { intros b Hb. assert (Hin : b ∈ List.filter is_ready made) by (eapply elem_of_submseteq; [exact Hb|]; apply sublist_submseteq, sublist_drop).
    apply elem_of_filter_bool in Hin as [Hin Hr]. subst made. rewrite sliceStable_perm in Hin.
    apply elem_of_filter_bool in Hin as [? ?%String.eqb_eq]. done. }
  apply moves_foldM; [typeclasses eauto|]. intros b k db1 Hb (H1 & H2 & H3). destruct (Hd b Hb) as (Hb1 & Hr & Es).
  eapply moves_bind; [typeclasses eauto|apply yields_leaves, va_remove, Hvault|]. intros [] _.
  apply moves_then; [typeclasses eauto| |intros; m_step]. unfold delete_row, backups_sql. apply moves_sql; [typeclasses eauto|].
  pose proof (delete_where_rows (has_id (b_ID b)) errNotFound (bd_backups db1)) as E.
  destruct (delete_where _ _ _) as [r rows] eqn:Er; cbn [snd] in *. subst rows.
  split_and!; cbn [set_backups bd_backups bd_schedules]; [|by intros x [Hx _]%elem_of_filter_bool|done].
  destruct (existsb (has_id (b_ID b)) (bd_backups db1)) eqn:Ex.
  - apply existsb_exists in Ex as (x & Hx%list_elem_of_In & Exid). assert (x = b) as -> by (by apply (same_id b_ID (bd_backups db)); [apply bi_id with owner| |apply H2|]).
    apply rtc_once. apply (C_retain _ _ _ b sc'); [done|done|done|by rewrite H3|congruence].
  - rewrite filter_all; [by destruct db1|]. intros x Hx. rewrite existsb_false, Forall_forall in Ex. by rewrite (Ex x Hx).
Qed.
Lemma backup_retain_moves a db sc : backup_inv owner db -> sweeps a -> known sc db -> moves (H a) db (retain vault sc).
Proof. intros Hi Ha Hk. apply (moves_mono (pruned a)); [by intros x []|]. by apply retain_pruned. Qed.
Lemma retain_for_moves a db b : backup_inv owner db -> sweeps a -> moves (H a) db (retain_for vault b).
Proof.
  intros Hi Ha. unfold retain_for. destruct (is_empty _); [m_step|].
  eapply moves_bind; [typeclasses eauto|apply yields_attempt, yields_scheduleByID|]. intros [sc|e] Hsc; [|destruct (errors_Is _ _); m_step].
  apply moves_then; [typeclasses eauto| |intros; m_step]. apply moves_mapped, backup_retain_moves; [done|done|]. exists sc. by destruct Hsc.
Qed.

Section node.
Context (n : string).

Lemma markUploaded_moves db id size checksum : backup_inv owner db -> moves (H (NodeOf n)) db (markUploaded vault has_events id n size checksum).
Proof.
  intros Hi. unfold markUploaded. m_step. intros b (Hb & Eid & En). destruct (is_ready b) eqn:Er; [m_step|]. m_step. intros _ _. m_step. intros _ _.
  m_step. intros at_ _. apply moves_then; [typeclasses eauto|apply moves_mapped, backup_moves_mark; [typeclasses eauto|]|].
  - apply rtc_once. by apply C_ready; [rewrite En| |].
  - intros db' [] Hh. eapply moves_bind; [typeclasses eauto|apply yields_leaves; auto with leaves|]. intros [] _.
    apply retain_for_moves; [by eapply backup_history_inv|right; eauto].
Qed.
Lemma backup_store_moves db id content : backup_inv owner db -> moves (H (NodeOf n)) db (store vault has_events id n content).
Proof.
  intros Hi. unfold store. m_step. intros b (Hb & Eid & En). destruct (is_ready b) eqn:Er; [m_step|].
  eapply moves_bind; [typeclasses eauto|apply yields_leaves, leaves_attempt, va_write, Hvault|]. intros [stored|err] _; m_step; intros at_ _.
  - apply moves_then; [typeclasses eauto|apply moves_mapped, backup_moves_mark; [typeclasses eauto|]|].
    + apply rtc_once. by apply C_ready; [rewrite En| |].
    + intros db' [] Hh. eapply moves_bind; [typeclasses eauto|apply yields_leaves; auto with leaves|]. intros [] _.
      apply moves_then; [typeclasses eauto| |intros; m_step]. apply retain_for_moves; [by eapply backup_history_inv|right; eauto].
  - apply moves_then; [typeclasses eauto|apply moves_mapped, backup_moves_mark; [typeclasses eauto|]|].
    + apply rtc_once. by apply C_failed; [rewrite En|].
    + intros db' [] Hh. apply moves_then; [typeclasses eauto| |intros; m_step]. eapply moves_yields; [typeclasses eauto|apply yields_leaves; auto with leaves].
Qed.
Lemma fail_moves db id message : moves (H (NodeOf n)) db (fail_backup (S:=S) has_events id n message).
Proof.
  unfold fail_backup. m_step. intros b (Hb & Eid & En). m_step. intros at_ _.
  apply moves_then; [typeclasses eauto|apply moves_mapped, backup_moves_mark; [typeclasses eauto|]|].
  - apply rtc_once. by apply C_failed; [rewrite En|].
  - intros db' [] _. eapply moves_yields; [typeclasses eauto|apply yields_leaves; auto with leaves].
Qed.
End node.

Section tenant.
Context (p : string).

Lemma backup_remove_moves db id : moves (H (Tenant p)) db (remove vault id p).
Proof.
  unfold remove. m_step. intros b (Hb & Eid & Ep). eapply moves_bind; [typeclasses eauto|apply yields_leaves, leaves_mapped, va_remove, Hvault|].
  intros [] _. apply moves_mapped. unfold delete_row, backups_sql. apply moves_sql; [typeclasses eauto|].
  pose proof (delete_where_rows (has_id (b_ID b)) errNotFound (bd_backups db)) as E. destruct (delete_where _ _ _) as [r rows]. cbn [snd] in *. subst rows.
  apply rtc_once. by apply C_remove; [rewrite Ep|].
Qed.
Lemma backup_setSchedule_moves db params : sp_ProjectID params = p -> moves (H (Tenant p)) db (setSchedule volumes params).
Proof.
  intros Hp. unfold setSchedule. m_step. intros every _. m_step. intros _ _. m_step. intros _ [Hk1%Z.ltb_ge Hk2%Z.ltb_ge]%guard_false%orb_false_iff.
  m_step. intros source Ho. m_step. intros at_ _. m_step. intros id _.
  eapply moves_bind; [typeclasses eauto|apply yields_attempt, yields_scheduleOf_row|]. intros existing Hex.
  eapply moves_bind with (P := fun sc => sc_Project sc = p /\ sc_VolumeID sc = so_ID source /\ sc_Keep sc = sp_Keep params); [typeclasses eauto| |].
  - destruct existing as [old|e]; [by eapply yields_mono; [apply yields_ret|]; intros ? ->|]. destruct (errors_Is _ _).
    + by eapply yields_mono; [apply yields_ret|]; intros ? ->.
    + by eapply yields_mono; [apply yields_fail|].
  - intros sc (Ep & Ev & Ek). apply moves_last; [typeclasses eauto|]. unfold upsertSchedule, schedules_sql. apply moves_sql; [typeclasses eauto|].
    assert (Hok : MinKeep <= sc_Keep sc <= MaxKeep) by (rewrite Ek; lia).
    destruct (existsb (sched_of _) _) eqn:Ex; cbn [snd].
    + apply rtc_once. apply C_reschedule; [congruence|congruence|done].
    + unfold insert_row. destruct (existsb (sched_id _) _) eqn:Ei; cbn [snd]; [by destruct db|]. apply rtc_once.
      apply C_schedule; cbn; [congruence|congruence|done|done|done].
Qed.
Lemma backup_removeSchedule_moves db v : backup_inv owner db -> moves (H (Tenant p)) db (removeSchedule volumes v p).
Proof.
  intros Hi. unfold removeSchedule, scheduleOf. eapply moves_bind with (P := fun sc => sc ∈ bd_schedules db /\ sc_Project sc = p); [typeclasses eauto| |].
  - eapply yields_bind; [apply yields_source_of|]. intros source Ho. eapply yields_mono; [apply yields_mapped, yields_scheduleOf_row|].
    intros sc [Hsc Ev]. split; [done|]. pose proof (bi_sched_owner _ _ Hi) as Hs. rewrite Forall_forall in Hs. rewrite <- (Hs sc Hsc). by rewrite Ev.
  - intros sc [Hsc Ep]. apply moves_mapped. unfold deleteSchedule, schedules_sql. apply moves_sql; [typeclasses eauto|].
    pose proof (delete_where_rows (sched_of (sc_VolumeID sc)) errNotFound (bd_schedules db)) as E. destruct (delete_where _ _ _) as [r rows]. cbn [snd] in *. subst rows.
    apply rtc_once. by apply C_unschedule; [rewrite Ep|].
Qed.
End tenant.

(** ** The ticker *)

Definition same_schedules (db db' : BackupDB) : Prop :=
  map (fun sc => (sc_ID sc, sc_Project sc)) (bd_schedules db') = map (fun sc => (sc_ID sc, sc_Project sc)) (bd_schedules db).
Lemma backup_ticker_known db db' sc : H Ticker db db' -> known sc db -> known sc db'.
Proof.
  intros Hh (sc1 & Hs & E3 & E4). assert (Hm : same_schedules db db').
  { clear -Hh. induction Hh as [|x y z Hc _ IH]; [done|]. unfold same_schedules in *. rewrite IH. inversion Hc; subst; try done; try discriminate; simpl.
    unfold Volume.rewrite_rows. rewrite map_map. apply map_ext. intros s. by destruct (sched_id id s). }
  assert (Hin : (sc_ID sc1, sc_Project sc1) ∈ map (fun sc => (sc_ID sc, sc_Project sc)) (bd_schedules db'))
    by (rewrite Hm; by apply (list_elem_of_fmap_2 (fun sc => (sc_ID sc, sc_Project sc)))).
  apply list_elem_of_fmap in Hin as (sc' & [= E1 E2] & Hsc'). exists sc'. split_and!; [done|congruence..].
Qed.
Lemma backup_fire_moves db sc at_ : backup_inv owner db -> known sc db -> moves (H Ticker) db (fire vault volumes sc at_).
Proof.
  intros Hi Hk. unfold fire. apply moves_then; [typeclasses eauto| |].
  - unfold markScheduleFired, schedules_sql. apply moves_sql; [typeclasses eauto|]. apply rtc_once. by apply C_fired.
  - intros db1 [] H1. pose proof (backup_ticker_known _ _ _ H1 Hk) as (sc' & Hs & E1 & E2).
    eapply moves_bind; [typeclasses eauto|apply yields_query|]. intros waiting _. destruct (_ <? _); [m_step|].
    apply moves_then; [typeclasses eauto| |intros; m_step]. apply moves_attempt, backup_create_moves; [by eapply backup_history_inv|]. right. split; [done|].
    by exists sc'.
Qed.
Lemma backup_sweep_moves db : backup_inv owner db -> moves (H Ticker) db (sweep vault volumes).
Proof.
  intros Hi. unfold sweep. m_step. intros at_ _. eapply moves_bind; [typeclasses eauto|apply yields_query|]. intros due [= Hd].
  assert (Hdue : forall sc, sc ∈ due -> sc ∈ bd_schedules db).
  { intros sc Hs. subst due. rewrite sliceStable_perm in Hs. by apply elem_of_filter_bool in Hs as []. }
  clear Hd. apply moves_foldM; [typeclasses eauto|]. intros sc acc db1 Hs H1.
  assert (Hk : known sc db1) by (eapply backup_ticker_known; [exact H1|]; exists sc; auto).
  pose proof (backup_history_inv _ _ _ _ H1 Hi) as Hi1.
  apply moves_then; [typeclasses eauto|by apply backup_fire_moves|]. intros db2 fired_ H2.
  apply moves_then; [typeclasses eauto| |intros; m_step].
  apply backup_retain_moves; [by eapply backup_history_inv|by left|by eapply backup_ticker_known].
Qed.

Definition actor_of (r : request) : actor :=
  match r with
  | ReqCreate sc _ _ | ReqList sc _ _ | ReqListForVolume sc _ | ReqGet sc _ | ReqDelete sc _ | ReqListSchedules sc
  | ReqGetSchedule sc _ | ReqSetSchedule sc _ _ | ReqDeleteSchedule sc _ => Tenant (sc_ProjectID sc)
  | ReqListForNode n | ReqUploadTarget n _ | ReqDownloadTarget n _ | ReqUploaded n _ _ | ReqUpload n _ _ | ReqFail n _ _
  | ReqDownload n _ => NodeOf n
  | ReqSweep => Ticker
  end.

(** What only looks. *)
Lemma leaves_on_node id n : leaves BackupDB (on_node (S:=S) id n).
Proof. unfold on_node, byID, backups_q. auto 10 with leaves. Qed.
Lemma leaves_transfer id n method : leaves BackupDB (transfer vault id n method).
Proof.
  unfold transfer. pose proof (va_presign _ Hvault) as Hp. destruct (v_direct vault) as [d|]; [|auto with leaves].
  apply leaves_bind; [apply leaves_on_node|]. intros b. apply leaves_bind; [by apply leaves_mapped, Hp|]. intros url. auto with leaves.
Qed.
Lemma leaves_content id : leaves BackupDB (content vault id).
Proof.
  unfold content, byID, backups_q. apply leaves_bind; [auto with leaves|]. intros b. apply leaves_bind; [auto with leaves|]. intros _.
  apply leaves_bind; [apply leaves_mapped, va_open, Hvault|auto with leaves].
Qed.
Lemma leaves_source_of why v p : leaves BackupDB (source_of volumes why v p).
Proof.
  intros env w. pose proof (yields_leave (part w) _ _ env w (yields_source_of (part w) why v p) I eq_refl) as Hw.
  unfold wp in Hw. by destruct (source_of _ _ _ _ _ _).
Qed.

Lemma backup_serve_moves db r : backup_inv owner db -> moves (H (actor_of r)) db (serve vault volumes has_events r).
Proof.
  intros Hi. destruct r; cbn [actor_of serve];
    unfold handle_create, handle_list, handle_listForVolume, handle_listForNode, handle_get, handle_upload, handle_fail, handle_download,
      handle_delete, handle_setSchedule, handle_getSchedule, handle_listSchedules, handle_deleteSchedule, handle_uploadTarget,
      handle_downloadTarget, handle_transfer, handle_uploaded, writeList, writePage, Write, WriteHeader;
    try (eapply moves_bind; [typeclasses eauto|apply yields_lift|]; intros body _).
  all: try (apply moves_then; [typeclasses eauto| |intros; m_step]; first
    [ apply backup_create_moves; [done|by left] | by apply backup_remove_moves | by apply backup_setSchedule_moves | by apply backup_removeSchedule_moves
    | by apply markUploaded_moves | by apply backup_store_moves | by apply fail_moves | by apply moves_attempt, backup_sweep_moves ]).
  all: eapply (moves_yields _ _ _ (fun _ => True)), yields_leaves.
  all: unfold pageIn, pageIn_rows, listForVolume, listForVolume_rows, pendingOn, pendingOn_rows, getIn, byID, scheduleOf, scheduleOf_row,
      schedulesIn, schedulesIn_rows, backups_q, schedules_q; auto 12 using leaves_content, leaves_transfer, leaves_source_of with leaves.
Qed.
End operations.

(** * The bytes

    What a vault on disk gives back. *)

Definition plain (name : string) : bool := forallb (fun c => negb (code c =? 46)) (bytes_of name).
Lemma plain_app s t : plain (s +:+ t) = plain s && plain t.
Proof. unfold plain. by rewrite bytes_of_app, forallb_app. Qed.
Lemma not_part name id : plain name = true -> name <> part_of id.
Proof. intros Hp ->. unfold part_of in Hp. rewrite plain_app in Hp. by rewrite andb_false_r in Hp. Qed.
Lemma ids_plain prefix raw : plain prefix = true -> plain (prefix +:+ "-" +:+ base32_encode raw) = true.
Proof.
  intros Hp. rewrite !plain_app, Hp. simpl. unfold plain, base32_encode. rewrite bytes_of_of. apply forallb_forall. intros c Hc.
  apply in_map_iff in Hc as (g & <- & _). unfold nth_char. set (n := Z.to_nat _). clearbody n. clear.
  destruct (nth_in_or_default n base32_alphabet Ascii.zero) as [Hin|Hin]; [|rewrite Hin; reflexivity].
  assert (Ha : forallb (fun c => negb (code c =? 46)) base32_alphabet = true) by reflexivity. rewrite forallb_forall in Ha. by apply Ha.
Qed.

(** The files the rows speak of: those without a dot in their name. *)
Definition same_files (d d' : Disk) : Prop := forall name, plain name = true -> dk_files d' !! name = dk_files d !! name.
#[export] Instance same_files_preorder : PreOrder same_files.
Proof. split; [by intros d name|]. intros x y z H1 H2 name Hn. by rewrite H2, H1. Qed.

(** The keys a vault seals with can be found again. *)
Definition ring_ok (keys : option Keyring) : Prop := forall k, Active keys = Some k -> Find keys (ID k) = Some k /\ ID k <> "".
(** What [raw] holds is [bytes]. *)
Definition holds_bytes (c : AEAD) (keys : option Keyring) (keyID : string) (raw bytes : list Z) : Prop :=
  unseal c keys (MkReader raw AtEOF) keyID = Ok (bytes, None).

Section disk.
Context {S : Type} `{!Has Disk S, !Has BackupDB S, !Apart Disk BackupDB S} (c : AEAD) `{!GCM c} (keys : option Keyring) (Hring : ring_ok keys).

Lemma pour_wp env dst src limit (Q : outcome written -> World S -> Prop) w : 0 <= limit ->
  (forall out w', w_st w' = w_st w ->
     (forall m, m = Ok (MkWritten (len (rd_bytes src)) (hex_encode (sha256 (rd_bytes src))) (ActiveID keys)) ->
        rd_end src = AtEOF -> len (rd_bytes src) <= limit -> holds_bytes c keys (ActiveID keys) out (rd_bytes src) ->
        wp env (dst out) (fun r w2 => Q (match r with Ok _ => m | Err e => Err (EWrap "write the sealed stream" e) end) w2) w') /\
     (forall e, wp env (dst out) (fun r w2 => Q (match r with Ok _ => Err e | Err e' => Err (EWrap "write the sealed stream" e') end) w2) w')) ->
  wp env (pour c keys dst src limit) Q w.
Proof.
  intros Hl HQ. unfold pour. apply wp_bind.
  assert (Hgo : forall move w1, w_st w1 = w_st w -> whole move ->
    (rd_end src = AtEOF -> holds_bytes c keys (ActiveID keys) (fst (fst (move src))) (rd_bytes src)) ->
    wp env (let '(out, measured) := measure src limit move in
       mapped (EWrap "write the sealed stream") (dst out) ;;;
       let! m := lift measured in ret (MkWritten (ms_Size m) (ms_Checksum m) (ActiveID keys))) Q w1).
  { intros move w1 Hw1 Hwh Hb. pose proof (measure_ok src limit move) as Hm. destruct (measure src limit move) as [out measured].
    destruct (HQ out w1 Hw1) as [HQ1 HQ2]. cbn [fst snd] in Hm. apply wp_bind, wp_mapped. destruct measured as [m|e].
    - destruct (Hm m Hl Hwh eq_refl) as (H1 & H2 & H3 & ->). subst out. eapply wp_mono; [|apply (HQ1 _ eq_refl H1 H2 (Hb H1))]. by intros [[]|e] w2 H.
    - eapply wp_mono; [|apply (HQ2 e)]. by intros [[]|e'] w2 H. }
  assert (Hcase : Active keys = None \/ exists k, Active keys = Some k) by (destruct (Active keys); eauto).
  destruct Hcase as [Ek|[k Ek]].
  - rewrite Ek, wp_ret. apply Hgo; [done|apply whole_copy|]. intros _. unfold holds_bytes, unseal, ActiveID. by rewrite Ek.
  - rewrite Ek. unfold SealMeasured. apply wp_bind. rewrite wp_rand, wp_ret. apply Hgo; [done|apply whole_seal|].
    intros Hend. destruct src as [bs e]. cbn [rd_end rd_bytes] in *. subst e. unfold holds_bytes, unseal, ActiveID. rewrite Ek.
    destruct (Hring k Ek) as [-> Hid]. rewrite (proj2 (is_empty_false _) Hid).
    destruct (open_sealed c (read_bytes (Z.to_nat saltBytes) (env_rand env (w_step w))) bs k) as (opened & -> & Hr); [|by rewrite Hr].
    by rewrite (proj2 (read_bytes_range _ _)).
Qed.
(** Taking the partial file away again. *)
Lemma cleanup_wp env id e {A} (Q : outcome A -> World S -> Prop) w d :
  same_files d (part w) -> (forall w', same_files d (part w') -> part w' = part (T:=BackupDB) w -> Q (Err e) w') ->
  wp env (let! _ := attempt (remove_file (part_of id)) in fail e) Q w.
Proof.
  intros Hw HQ. apply wp_bind, wp_attempt. unfold remove_file. apply (wp_write_apart env (T:=Disk) (U:=BackupDB)).
  - intros w' Hw' Hb. rewrite wp_fail. apply HQ; [by rewrite Hw'|done].
  - intros w' Hw' Hb. rewrite wp_fail. apply HQ; [|done]. etransitivity; [exact Hw|]. rewrite Hw'. intros name Hn. cbn [snd set_files dk_files].
    by rewrite lookup_delete_ne by (symmetry; by apply not_part).
Qed.
Lemma disk_write_wp env id src limit w : plain id = true -> 0 <= limit ->
  wp env (disk_write c keys id src limit) (fun r w' => part w' = part (T:=BackupDB) w /\
    match r with
    | Err _ => same_files (part w) (part w')
    | Ok wr => rd_end src = AtEOF /\ len (rd_bytes src) <= limit /\
        wr = MkWritten (len (rd_bytes src)) (hex_encode (sha256 (rd_bytes src))) (ActiveID keys) /\
        exists raw, holds_bytes c keys (ActiveID keys) raw (rd_bytes src) /\ dk_files (part w') !! id = Some raw /\
          forall name, plain name = true -> name <> id -> dk_files (part w') !! name = dk_files (part w) !! name
    end) w.
Proof.
  intros Hid Hl. unfold disk_write. apply wp_bind. unfold create_file. apply (wp_write_apart env (T:=Disk) (U:=BackupDB)); [by intros w' -> ->|].
  intros w1 Hw1 Hb1. cbn [fst snd] in *. apply wp_bind, wp_attempt.
  assert (Hsame1 : same_files (part w) (part w1)).
  { rewrite Hw1. intros name Hn. cbn [set_files dk_files]. by rewrite lookup_insert_ne by (symmetry; by apply not_part). }
  assert (Hfail : forall e w2, same_files (part w) (part w2) -> part w2 = part (T:=BackupDB) w ->
    wp env (let! closeErr := attempt (disk_step "close the backup") in
      match (Err e : outcome written), closeErr with
      | Ok result, Ok _ => let! renamed := attempt (rename_file (part_of id) id) in match renamed with Ok _ => ret result
          | Err err => let! _ := attempt (remove_file (part_of id)) in fail (EWrap "place the backup" err) end
      | Ok _, Err err | Err err, _ => let! _ := attempt (remove_file (part_of id)) in fail err
      end) (fun r w' => part w' = part (T:=BackupDB) w /\ match r with Err _ => same_files (part w) (part w') | Ok _ => False end) w2).
  { intros e w2 Hf2 Hb2. apply wp_bind, wp_attempt. unfold disk_step. apply wp_read. intros r _.
    change (part (T:=Disk) w2) with (part (T:=Disk) (tick w2)) in Hf2. change (part (T:=BackupDB) w2) with (part (T:=BackupDB) (tick w2)) in Hb2.
    destruct r; (eapply cleanup_wp; [exact Hf2|]; intros w' Hf' Hb'; split; [congruence|done]). }
  apply pour_wp; [done|]. intros out w2 Hw2.
  assert (E2 : part (T:=Disk) w2 = part w1 /\ part (T:=BackupDB) w2 = part w1) by (unfold part; by rewrite Hw2). destruct E2 as [Hd2 Hb2].
  assert (Hout : forall m, (forall wr, m = Ok wr -> rd_end src = AtEOF /\ len (rd_bytes src) <= limit /\
        wr = MkWritten (len (rd_bytes src)) (hex_encode (sha256 (rd_bytes src))) (ActiveID keys) /\ holds_bytes c keys (ActiveID keys) out (rd_bytes src)) ->
    wp env (write_file (part_of id) out) (fun r w3 => wp env (let! closeErr := attempt (disk_step "close the backup") in
      match (match r with Ok _ => m | Err e => Err (EWrap "write the sealed stream" e) end), closeErr with
      | Ok result, Ok _ => let! renamed := attempt (rename_file (part_of id) id) in match renamed with Ok _ => ret result
          | Err err => let! _ := attempt (remove_file (part_of id)) in fail (EWrap "place the backup" err) end
      | Ok _, Err err | Err err, _ => let! _ := attempt (remove_file (part_of id)) in fail err
      end) (fun r w' => part w' = part (T:=BackupDB) w /\
        match r with
        | Err _ => same_files (part w) (part w')
        | Ok wr => rd_end src = AtEOF /\ len (rd_bytes src) <= limit /\
            wr = MkWritten (len (rd_bytes src)) (hex_encode (sha256 (rd_bytes src))) (ActiveID keys) /\
            exists raw, holds_bytes c keys (ActiveID keys) raw (rd_bytes src) /\ dk_files (part w') !! id = Some raw /\
              forall name, plain name = true -> name <> id -> dk_files (part w') !! name = dk_files (part w) !! name
        end) w3) w2).
  { intros m Hm. unfold write_file. apply (wp_write_apart env (T:=Disk) (U:=BackupDB)).
    - intros w3 Hw3 Hb3. eapply wp_mono; [|apply Hfail; [by rewrite Hw3, Hd2|congruence]]. intros [wr|e] w' [H1 H2]; [done|]. by split.
    - intros w3 Hw3 Hb3. cbn [fst snd] in *. assert (Hsame3 : same_files (part w) (part w3)).
      { etransitivity; [exact Hsame1|]. rewrite Hw3, Hd2. intros name Hn. cbn [set_files dk_files]. by rewrite lookup_insert_ne by (symmetry; by apply not_part). }
      destruct m as [wr|e]; [|eapply wp_mono; [|apply Hfail; [done|congruence]]; intros [wr|e'] w' [H1 H2]; [done|by split]].
      apply wp_bind, wp_attempt. unfold disk_step. apply wp_read. intros r _.
      change (part (T:=Disk) w3) with (part (T:=Disk) (tick w3)) in Hsame3, Hw3. change (part (T:=BackupDB) w3) with (part (T:=BackupDB) (tick w3)) in Hb3.
      destruct r as [[]|e]; [|eapply cleanup_wp; [exact Hsame3|]; intros w' Hf' Hb'; split; [congruence|done]].
      apply wp_bind, wp_attempt. unfold rename_file. apply (wp_write_apart env (T:=Disk) (U:=BackupDB)).
      { intros w4 Hw4 Hb4. eapply cleanup_wp; [rewrite Hw4; exact Hsame3|]. intros w' Hf' Hb'. split; [congruence|done]. }
      intros w4 Hw4 Hb4. rewrite Hw3, Hd2, Hw1 in Hw4 |- *. cbn [set_files dk_files] in Hw4 |- *. rewrite !lookup_insert_eq in Hw4 |- *.
      cbn [fst snd default app] in Hw4 |- *. rewrite wp_ret. split; [congruence|]. destruct (Hm wr eq_refl) as (M1 & M2 & M3 & M4).
      split_and!; [done..|]. exists out. rewrite Hw4. cbn [set_files dk_files]. split_and!; [done|by rewrite lookup_insert_eq|].
      intros name Hn Hne. rewrite lookup_insert_ne by done. pose proof (not_part name id Hn) as Hnp.
      rewrite lookup_delete_ne, !lookup_insert_ne by congruence. done. }
  split.
  - intros m -> H1 H2 H3. apply Hout. intros wr [= <-]. done.
  - intros e. apply Hout. done.
Qed.
Lemma disk_remove_wp env id (Q : outcome unit -> World S -> Prop) w :
  (forall r w', part w' = part (T:=BackupDB) w ->
     (forall name, dk_files (part w') !! name = dk_files (part w) !! name \/ name = id /\ dk_files (part w') !! name = None) -> Q r w') ->
  wp env (disk_remove id) Q w.
Proof.
  intros HQ. unfold disk_remove. apply wp_bind, wp_attempt. unfold remove_file. apply (wp_write_apart env (T:=Disk) (U:=BackupDB)).
  - intros w' Hw' Hb. case_bool_decide; rewrite ?wp_ret, ?wp_fail; (apply HQ; [done|]; intros name; left; by rewrite Hw').
  - intros w' Hw' Hb. cbn [fst snd] in *. assert (Hd : forall name, dk_files (part w') !! name = dk_files (part w) !! name \/ name = id /\ dk_files (part w') !! name = None).
    { intros name. rewrite Hw'. cbn [set_files dk_files]. destruct (decide (name = id)) as [->|Hne]; [right; by rewrite lookup_delete_eq|left; by rewrite lookup_delete_ne]. }
    destruct (dk_files (part w) !! id); [rewrite wp_ret; by apply HQ|]. by rewrite bool_decide_eq_true_2, wp_ret by done; apply HQ.
Qed.
End disk.

(** ** What the rows say of the bytes *)

(** The bytes of a ready backup, where they are still there, are what its row says. *)
Record sound (c : AEAD) (keys : option Keyring) (db : BackupDB) (d : Disk) : Prop := {
  sd_id : unique_by (fun b => Some (b_ID b)) (bd_backups db);
  sd_plain : Forall (fun b => plain (b_ID b) = true) (bd_backups db);
  sd_true b raw : b ∈ bd_backups db -> is_ready b = true -> dk_files d !! b_ID b = Some raw ->
    exists bytes, holds_bytes c keys (b_KeyID b) raw bytes /\ len bytes = b_SizeBytes b /\ hex_encode (sha256 bytes) = b_Checksum b;
}.

Section sound.
Context (c : AEAD) (keys : option Keyring).

Lemma sound_files db d d' : (forall b, b ∈ bd_backups db -> is_ready b = true -> dk_files d' !! b_ID b = dk_files d !! b_ID b \/ dk_files d' !! b_ID b = None) ->
  sound c keys db d -> sound c keys db d'.
Proof. intros Hd [H1 H2 H3]. split; [done..|]. intros b raw Hb Hr Hf. destruct (Hd b Hb Hr) as [E|E]; rewrite E in Hf; [by apply H3|done]. Qed.
Lemma sound_insert db d b : sound c keys db d -> is_ready b = false -> plain (b_ID b) = true ->
  sound c keys (snd (let '(r, rows) := insert_row (clash b) errNameTaken b (bd_backups db) in (r, set_backups rows db))) d.
Proof.
  intros [H1 H2 H3] Hr Hp. unfold insert_row. destruct (existsb _ _) eqn:Ec; cbn [snd]; [by split|]. split; cbn [set_backups bd_backups].
  - apply unique_by_app; [done|]. intros x k Hx [= <-] [= E]. rewrite existsb_false, Forall_forall in Ec. specialize (Ec x Hx). unfold clash, has_id in Ec.
    by rewrite E, String.eqb_refl in Ec.
  - apply Forall_app. split; [done|]. by constructor.
  - intros x raw [Hx|Hx%list_elem_of_singleton]%elem_of_app Hxr; [by apply H3|]. by subst x; rewrite Hxr in Hr.
Qed.
Lemma sound_mark db d id st m z k key t : sound c keys db d ->
  (String.eqb st StateReady = true -> forall raw, dk_files d !! id = Some raw ->
     exists bytes, holds_bytes c keys key raw bytes /\ len bytes = z /\ hex_encode (sha256 bytes) = k) ->
  sound c keys (set_backups (on_backup id (marked st m z k key t) (bd_backups db)) db) d.
Proof.
  intros [H1 H2 H3] Hst. split; cbn [set_backups bd_backups]; unfold on_backup.
  - apply unique_by_map; [|done]. intros b. by destruct (has_id id b).
  - apply Forall_map. eapply Forall_impl; [exact H2|]. intros b Hb. by destruct (has_id id b).
  - intros b raw (x & -> & Hx)%list_elem_of_fmap Hr Hf. destruct (has_id id x) eqn:E; [|by apply H3]. apply String.eqb_eq in E. cbn in *. apply Hst; [done|congruence].
Qed.
Lemma sound_filter db d p : sound c keys db d -> sound c keys (set_backups (List.filter p (bd_backups db)) db) d.
Proof.
  intros [H1 H2 H3]. split; cbn [set_backups bd_backups]; [by apply unique_by_filter|by apply Forall_filter_bool|].
  intros b raw [Hb _]%elem_of_filter_bool. by apply H3.
Qed.

Section operations.
Context {S : Type} `{!Has Disk S, !Has BackupDB S, !Apart Disk BackupDB S, !Apart BackupDB Disk S} `{!GCM c} (Hring : ring_ok keys).
Context (volumes : option (Volumes S)) (has_events : bool).
Context (Hdb : forall vs v p, volumes = Some vs -> leaves BackupDB (Source vs v p)) (Hdisk : forall vs v p, volumes = Some vs -> leaves Disk (Source vs v p)).
Abbreviation vault := (diskVault (S:=S) c keys).

Definition sound_w (w : World S) : Prop := sound c keys (part w) (part w).
Definition keeps {A} (m : M S A) : Prop := forall env w, sound_w w -> wp env m (fun _ w' => sound_w w') w.

Lemma keeps_leaves {A} (m : M S A) : leaves BackupDB m -> leaves Disk m -> keeps m.
Proof.
  intros H1 H2 env w Hw. eapply wp_mono; [|apply wp_and; [apply (wp_leaves (T:=BackupDB) env m (fun _ w' => part w' = part (T:=BackupDB) w)); [exact H1|by intros]|
    apply (wp_leaves (T:=Disk) env m (fun _ w' => part w' = part (T:=Disk) w)); [exact H2|by intros]]].
  intros r w' [E1 E2]. unfold sound_w. by rewrite E1, E2.
Qed.
Lemma keeps_bind {A B} (m : M S A) (k : A -> M S B) : keeps m -> (forall a, keeps (k a)) -> keeps (bind m k).
Proof. intros Hm Hk env w Hw. apply wp_bind. eapply wp_mono; [|by apply Hm]. intros [a|e] w' H; [by apply Hk|done]. Qed.
Lemma keeps_attempt {A} (m : M S A) : keeps m -> keeps (attempt m).
Proof. intros Hm env w Hw. apply wp_attempt. by apply Hm. Qed.
Lemma keeps_mapped {A} f (m : M S A) : keeps m -> keeps (mapped f m).
Proof. intros Hm env w Hw. apply wp_mapped. by apply Hm. Qed.
Lemma keeps_foldM {X A} (body : X -> A -> M S A) xs a : (forall x a, keeps (body x a)) -> keeps (foldM body xs a).
Proof. revert a. induction xs as [|x xs IH]; intros a Hb; cbn [foldM]; [by apply keeps_leaves; auto with leaves|]. apply keeps_bind; [done|]. intros b. by apply IH. Qed.
Lemma keeps_sql {A} what (q : BackupDB -> outcome A * BackupDB) : (forall db d, sound c keys db d -> sound c keys (snd (q db)) d) -> keeps (sql what q).
Proof.
  intros Hq env w Hw. apply (wp_write_apart env (T:=BackupDB) (U:=Disk)); intros w' E1 E2; unfold sound_w; rewrite E1, E2; [done|by apply Hq].
Qed.
Lemma keeps_ids {B} prefix (k : string -> M S B) : plain prefix = true -> (forall id, plain id = true -> keeps (k id)) -> keeps (bind (ids_New prefix) k).
Proof. intros Hp Hk env w Hw. unfold ids_New. apply wp_bind, wp_bind. rewrite wp_rand, wp_ret. apply Hk; [by apply ids_plain|exact Hw]. Qed.
Lemma keeps_source_of why v p : keeps (source_of volumes why v p).
Proof.
  unfold source_of. pose proof Hdb as H1. pose proof Hdisk as H2. clear Hdb Hdisk. destruct volumes as [vs|].
  - apply keeps_leaves; [by apply H1|by apply H2].
  - apply keeps_leaves; auto with leaves.
Qed.
Lemma keeps_insert b : is_ready b = false -> plain (b_ID b) = true -> keeps (insert b).
Proof. intros Hr Hp. apply keeps_sql. intros db d Hs. by apply sound_insert. Qed.
Lemma keeps_mark id st m z k key t : String.eqb st StateReady = false -> keeps (mark id st m z k key t).
Proof. intros Hst. apply keeps_sql. intros db d Hs. apply sound_mark; [done|]. by rewrite Hst. Qed.
Lemma keeps_delete id : keeps (delete_row id).
Proof.
  apply keeps_sql. intros db d Hs. pose proof (delete_where_rows (has_id id) errNotFound (bd_backups db)) as E.
  destruct (delete_where _ _ _) as [r rows]. cbn [snd] in *. subst rows. by apply sound_filter.
Qed.
Lemma keeps_schedules {A} what (q : list Schedule -> outcome A * list Schedule) : keeps (schedules_sql what q).
Proof. apply keeps_sql. intros db d [H1 H2 H3]. destruct (q _) as [r rows]. by split. Qed.
Lemma backup_keeps_remove id : keeps (v_remove vault id).
Proof.
  intros env w Hw. apply disk_remove_wp. intros r w' Hb Hf. unfold sound_w. rewrite Hb. eapply sound_files; [|exact Hw].
  intros b _ _. destruct (Hf (b_ID b)) as [H|[_ H]]; auto.
Qed.
Create HintDb keeps.
Hint Resolve keeps_bind keeps_attempt keeps_mapped keeps_foldM keeps_source_of keeps_insert keeps_mark keeps_delete keeps_schedules backup_keeps_remove : keeps.
Hint Extern 5 (keeps _) => apply keeps_leaves; solve [auto 12 with leaves] : keeps.
Hint Extern 6 (keeps (match ?x with _ => _ end)) => destruct x : keeps.
Hint Extern 1 (keeps (let _ := _ in _)) => cbv zeta : keeps.
Lemma keeps_note b kind m sev : keeps (note (S:=S) has_events b kind m sev).
Proof. apply keeps_leaves; unfold note; auto with leaves. Qed.
Lemma keeps_on_node id n : keeps (on_node (S:=S) id n).
Proof. unfold on_node, byID, backups_q. auto with keeps. Qed.
Lemma keeps_getIn id p : keeps (getIn (S:=S) id p).
Proof. unfold getIn, byID, backups_q. auto with keeps. Qed.
Hint Resolve keeps_note keeps_on_node keeps_getIn : keeps.
Lemma keeps_create params : keeps (create vault volumes params).
Proof.
  unfold create. cbn [v_direct diskVault]. do 3 (apply keeps_bind; [auto with keeps|intros]). apply keeps_bind; [auto with keeps|intros at_].
  apply keeps_ids; [done|]. intros id Hid. apply keeps_bind; [auto with keeps|]. intros [wrapped keyID]. auto with keeps.
Qed.
Lemma keeps_retain sc : keeps (retain vault sc).
Proof. unfold retain, madeBySchedule, backups_q. auto 12 with keeps. Qed.
Lemma keeps_retain_for b : keeps (retain_for vault b).
Proof. unfold retain_for, scheduleByID, schedules_q. pose proof keeps_retain. auto 12 with keeps. Qed.
Hint Resolve keeps_create keeps_retain keeps_retain_for : keeps.
Lemma sound_state w w' : w_st w' = w_st w -> sound_w w -> sound_w w'.
Proof. intros E. unfold sound_w, part. by rewrite E. Qed.
Lemma on_node_wp env id n (Q : outcome Backup -> World S -> Prop) w :
  (forall e w', w_st w' = w_st w -> Q (Err e) w') ->
  (forall b w', w_st w' = w_st w -> b ∈ bd_backups (part w') -> b_ID b = id -> b_NodeID b = n -> Q (Ok b) w') -> wp env (on_node id n) Q w.
Proof.
  intros HE HQ. unfold on_node, byID, backups_q. apply wp_bind, wp_mapped, wp_read. intros r [->| ->]; cbn [or_fault]; [by apply HE|].
  destruct (select_one _ _ _) as [b|e] eqn:Es; cbn [or_fault]; [|by apply HE]. apply select_one_ok in Es as [Hb Eid%String.eqb_eq].
  apply wp_bind. rewrite wp_lift. destruct (guard _ _) as [[]|e] eqn:Eg; [|by apply HE]. apply guard_false, negb_false_iff, String.eqb_eq in Eg.
  rewrite wp_ret. by apply HQ.
Qed.
(** The vault's part of an upload of a backup that is not ready. *)
Lemma upload_wp env b src w : sound_w w -> b ∈ bd_backups (part w) -> is_ready b = false ->
  wp env (v_write vault (b_ID b) src MaxBytes) (fun r w' => sound_w w' /\ part w' = part (T:=BackupDB) w /\
    match r with
    | Ok wr => wr = MkWritten (len (rd_bytes src)) (hex_encode (sha256 (rd_bytes src))) (ActiveID keys) /\ rd_end src = AtEOF /\
        exists raw, dk_files (part w') !! b_ID b = Some raw /\ holds_bytes c keys (ActiveID keys) raw (rd_bytes src)
    | Err _ => True
    end) w.
Proof.
  intros Hw Hb Er. destruct Hw as [H1 H2 H3] eqn:EHw. clear EHw. pose proof H2 as Hp. rewrite Forall_forall in Hp.
  assert (Huniq : forall x, x ∈ bd_backups (part w) -> is_ready x = true -> b_ID x <> b_ID b).
  { intros x Hx Hxr E. rewrite (unique_by_eq _ _ x b (b_ID b) H1 Hx Hb) in Hxr by congruence. by rewrite Er in Hxr. }
  eapply wp_mono; [|apply (disk_write_wp c keys Hring env (b_ID b) src MaxBytes); [by apply Hp|done]]. intros [wr|e] w1 [Hw1 Hf].
  - destruct Hf as (Hend & _ & -> & raw & Hraw & Hfile & Hrest). split_and!; [|done|done|done|by exists raw].
    unfold sound_w. rewrite Hw1. apply (sound_files _ (part w)); [|done]. intros x Hx Hxr. left. apply Hrest; [by apply Hp|by apply Huniq].
  - split_and!; [|done|done]. unfold sound_w. rewrite Hw1. apply (sound_files _ (part w)); [|done]. intros x Hx Hxr. left. apply Hf, Hp, Hx.
Qed.
(** The row of a backup whose bytes arrived. *)
Lemma landed_wp env b src raw at_ w : sound_w w -> dk_files (part w) !! b_ID b = Some raw -> holds_bytes c keys (ActiveID keys) raw (rd_bytes src) ->
  wp env (mark (b_ID b) StateReady "" (len (rd_bytes src)) (hex_encode (sha256 (rd_bytes src))) (ActiveID keys) at_) (fun r w' => sound_w w' /\
    part w' = part (T:=Disk) w /\ (r = Ok tt -> part w' = set_backups (on_backup (b_ID b) (marked StateReady "" (len (rd_bytes src))
      (hex_encode (sha256 (rd_bytes src))) (ActiveID keys) at_) (bd_backups (part w))) (part w))) w.
Proof.
  intros Hs Hfile Hraw. unfold mark, backups_sql. apply (wp_write_apart env (T:=BackupDB) (U:=Disk)); intros w2 E1 E2; cbn [fst snd] in *.
  - split_and!; [|done|done]. unfold sound_w. by rewrite E1, E2.
  - split_and!; [|done|done]. unfold sound_w. rewrite E1, E2. apply sound_mark; [exact Hs|]. intros _ raw' Hraw'.
    rewrite Hfile in Hraw'. injection Hraw' as <-. by exists (rd_bytes src).
Qed.
Lemma keeps_store id n src : keeps (store vault has_events id n src).
Proof.
  intros env w Hw. unfold store. apply wp_bind, on_node_wp; [intros e w' E; by eapply sound_state|]. intros b w' E Hb Eid En.
  pose proof (sound_state _ _ E Hw) as Hs. destruct (is_ready b) eqn:Er; [by rewrite wp_ret|]. apply wp_bind, wp_attempt.
  eapply wp_mono; [|by apply (upload_wp env b src w')]. intros [wr|e] w1 (Hs1 & Hw1 & Hr).
  - destruct Hr as (-> & _ & raw & Hfile & Hraw). apply wp_bind. rewrite wp_now. cbn beta iota. apply wp_bind, wp_mapped. cbn [wr_Size wr_Checksum wr_KeyID].
    eapply wp_mono; [|by apply (landed_wp env b src raw _ (tick w1))]. intros [[]|e] w2 (Hs2 & _); [|done]. cbn [or_fault].
    assert (Hk : forall x y, keeps (note has_events b "backup.ready" x Info ;;; retain_for vault b ;;; ret (S:=S) (A:=Backup) y)) by auto 10 with keeps.
    by apply Hk.
  - assert (Hk : keeps (let! at_ := now in mapped Internal (mark (b_ID b) StateFailed (error_text e) 0 "" "" at_) ;;;
      note has_events b "backup.failed" (b_ID b +:+ ": " +:+ error_text e) SevError ;;; fail (A:=Backup) (Internal e))) by auto 10 with keeps.
    exact (Hk env w1 Hs1).
Qed.
Hint Resolve keeps_store : keeps.

Lemma keeps_content id : keeps (content vault id).
Proof. unfold content, byID, backups_q. cbn [v_open diskVault]. unfold disk_open, read_file. auto 12 with keeps. Qed.
Hint Resolve keeps_content : keeps.

(** A node that claims its upload landed is believed; every other request keeps rows and bytes
    together. *)
Definition claims (r : request) : bool := match r with ReqUploaded _ _ _ => true | _ => false end.
Lemma keeps_serve r : claims r = false -> keeps (serve vault volumes has_events r).
Proof.
  intros Hc. destruct r; try discriminate; cbn [serve];
    unfold handle_create, handle_list, handle_listForVolume, handle_listForNode, handle_get, handle_upload, handle_fail, handle_download,
      handle_delete, handle_setSchedule, handle_getSchedule, handle_listSchedules, handle_deleteSchedule, handle_uploadTarget,
      handle_downloadTarget, handle_transfer, transfer, writeList, writePage, Write, WriteHeader, fail_backup, remove, setSchedule, removeSchedule,
      scheduleOf, scheduleOf_row, sweep, fire, pageIn, pageIn_rows, listForVolume, listForVolume_rows, pendingOn,
      pendingOn_rows, schedulesIn, schedulesIn_rows, byID, schedulesDue, pendingForVolume, upsertSchedule, deleteSchedule, markScheduleFired,
      ids_New, backups_q, schedules_q; cbn [v_direct v_open diskVault]; auto 30 with keeps.
Qed.

(** *** Reading back *)

Lemma content_wp env id w : sound_w w -> wp env (content vault id) (fun r w' => w_st w' = w_st w /\
  match r with
  | Ok (got, size) => exists b raw bytes, b ∈ bd_backups (part w) /\ b_ID b = id /\ is_ready b = true /\ dk_files (part w) !! id = Some raw /\
      holds_bytes c keys (b_KeyID b) raw bytes /\ got = (bytes, None) /\ size = b_SizeBytes b /\ len bytes = size /\
      hex_encode (sha256 bytes) = b_Checksum b
  | Err _ => True
  end) w.
Proof.
  intros Hs. unfold content, byID, backups_q. apply wp_bind, wp_mapped, wp_read. intros r [->| ->]; cbn [or_fault]; [done|].
  destruct (select_one _ _ _) as [b|e] eqn:Es; cbn [or_fault]; [|done]. apply select_one_ok in Es as [Hb Eid%String.eqb_eq].
  apply wp_bind. rewrite wp_lift. destruct (guard _ _) as [[]|e] eqn:Eg; [|done]. apply guard_false, negb_false_iff in Eg.
  apply wp_bind, wp_mapped. cbn [v_open diskVault]. unfold disk_open, read_file. apply wp_bind, wp_mapped, wp_read.
  intros r [->| ->]; cbn [or_fault]; [done|]. destruct (dk_files (part (tick w)) !! b_ID b) as [raw|] eqn:Ef; cbn [or_fault]; [|done]. rewrite wp_lift.
  destruct (sd_true _ _ _ _ Hs b raw Hb Eg Ef) as (bytes & Hh & Hl & Hc). pose proof Hh as Hh'. unfold holds_bytes in Hh'. rewrite Hh'. cbn [or_fault].
  rewrite wp_ret. split; [done|]. exists b, raw, bytes. rewrite Eid in Ef. done.
Qed.
Definition only_deletes (w w' : World S) : Prop :=
  (forall b, b ∈ bd_backups (part w') -> b ∈ bd_backups (part w)) /\
  (forall name, dk_files (part w') !! name = dk_files (part w) !! name \/ dk_files (part w') !! name = None).
#[local] Instance only_deletes_preorder : PreOrder only_deletes.
Proof.
  split; [split; auto|]. intros x y z [H1 H2] [H3 H4]. split; [auto|]. intros name. destruct (H4 name) as [E|E]; [|by right]. rewrite E. apply H2.
Qed.
Lemma deletes_leaves {A} (m : M S A) : leaves BackupDB m -> leaves Disk m -> steps only_deletes m.
Proof. intros H1 H2 env w. split; [by rewrite (H1 env w)|]. intros name. left. by rewrite (H2 env w). Qed.
Lemma deletes_retain_for b : steps only_deletes (retain_for vault b).
Proof.
  assert (Hr : forall sc, steps only_deletes (retain vault sc)).
  { intros sc. unfold retain, madeBySchedule, backups_q. apply steps_bind; [typeclasses eauto|apply deletes_leaves; auto with leaves|]. intros made. cbv zeta.
    destruct (_ <=? _); [apply deletes_leaves; auto with leaves|]. apply steps_foldM; [typeclasses eauto|]. intros x n _.
    apply steps_bind; [typeclasses eauto| |intros; apply steps_bind; [typeclasses eauto| |intros; apply deletes_leaves; auto with leaves]].
    - intros env w. pose proof (disk_remove_wp env (b_ID x) (fun _ w' => only_deletes w w') w) as Hw. unfold wp in Hw.
      destruct (disk_remove _ _ _) as [r w'] eqn:E. change (snd (v_remove vault (b_ID x) env w)) with (snd (disk_remove (b_ID x) env w)). rewrite E. apply Hw.
      intros r1 w1 Hb Hf. split; [by rewrite Hb|]. intros name. destruct (Hf name) as [H|[_ H]]; auto.
    - intros env w. unfold delete_row, backups_sql.
      pose proof (wp_write_apart env (T:=BackupDB) (U:=Disk) "delete backup" (fun db => let '(r, rows) := delete_where (has_id (b_ID x)) errNotFound (bd_backups db) in (r, set_backups rows db))
        (fun _ w' => only_deletes w w') w) as Hw. unfold wp in Hw. destruct (sql _ _ _ _) as [r w']. cbn [snd]. apply Hw.
      + intros w1 Hb Hd. split; [by rewrite Hb|]. intros name. left. by rewrite Hd.
      + intros w1 Hb Hd. split; [|intros name; left; by rewrite Hd]. intros y Hy. rewrite Hb in Hy.
        pose proof (delete_where_rows (has_id (b_ID x)) errNotFound (bd_backups (part w))) as E.
        destruct (delete_where _ _ _) as [r1 rows]. cbn [snd] in *. subst rows. by apply elem_of_filter_bool in Hy as []. }
  unfold retain_for, scheduleByID, schedules_q. destruct (is_empty _); [apply deletes_leaves; auto with leaves|].
  apply steps_bind; [typeclasses eauto|apply deletes_leaves; auto with leaves|]. intros [sc|e]; [|destruct (errors_Is _ _); apply deletes_leaves; auto with leaves].
  apply steps_bind; [typeclasses eauto| |intros; apply deletes_leaves; auto with leaves]. unfold mapped.
  apply steps_bind; [typeclasses eauto|by apply steps_attempt|]. intros r. apply deletes_leaves; auto with leaves.
Qed.
(** What follows the mark of an upload only deletes. *)
Lemma settled_wp {A} env b m (y : A) w : sound_w w ->
  wp env (note has_events b "backup.ready" m Info ;;; retain_for vault b ;;; ret y) (fun r w' => sound_w w' /\ only_deletes w w' /\
    match r with Ok z => z = y | Err _ => True end) w.
Proof.
  intros Hs. assert (Hk : keeps (note has_events b "backup.ready" m Info ;;; retain_for vault b ;;; ret (S:=S) y)) by auto 10 with keeps.
  eapply wp_mono; [|apply wp_and; [exact (Hk env w Hs)|]]; [intros r w' [H1 H2]; split; [exact H1|exact H2]|].
  apply wp_bind. eapply wp_steps; [apply deletes_leaves; [apply leaves_backup_note|unfold note; auto with leaves]|]. intros [[]|e] w1 H1; [|done].
  apply wp_bind. eapply wp_steps; [apply deletes_retain_for|]. intros [[]|e] w2 H2; rewrite ?wp_ret; (split; [by etransitivity|done]).
Qed.
Lemma holds_one keyID raw bytes bytes' : holds_bytes c keys keyID raw bytes -> holds_bytes c keys keyID raw bytes' -> bytes = bytes'.
Proof. unfold holds_bytes. congruence. Qed.
End operations.
End sound.

(** * Retention *)

(** The vault on disk leaves the tables alone. *)
Section apart.
Context {S : Type} `{!Has Disk S, !Has BackupDB S, !Apart Disk BackupDB S} (c : AEAD) (keys : option Keyring).

Lemma leaves_pour dst src limit : (forall out, leaves BackupDB (dst out)) -> leaves BackupDB (pour (S:=S) c keys dst src limit).
Proof.
  intros Hd. unfold pour. apply leaves_bind; [unfold SealMeasured; destruct (Active keys); auto with leaves|]. intros [out measured].
  apply leaves_bind; [by apply leaves_mapped|auto with leaves].
Qed.
Lemma leaves_write_file name out : leaves BackupDB (write_file (S:=S) name out).
Proof. unfold write_file. auto with leaves. Qed.
Lemma leaves_remove_file name : leaves BackupDB (remove_file (S:=S) name).
Proof. unfold remove_file. auto with leaves. Qed.
Lemma disk_vault_apart : vault_apart (diskVault (S:=S) c keys).
Proof.
  constructor; cbn [diskVault v_write v_open v_remove v_direct]; try discriminate; intros.
  - unfold disk_write, create_file, disk_step, rename_file. apply leaves_bind; [auto with leaves|]. intros _.
    apply leaves_bind; [apply leaves_attempt, leaves_pour; intros out; apply leaves_write_file|]. intros result.
    apply leaves_bind; [auto with leaves|]. intros closed. pose proof (leaves_remove_file (part_of id)).
    destruct result as [result|e], closed as [[]|e']; auto 10 with leaves.
  - unfold disk_open, read_file. auto with leaves.
  - unfold disk_remove. pose proof (leaves_remove_file id). auto 10 with leaves.
Qed.
End apart.

Section keeping.
Context {S : Type} `{!Has BackupDB S} (vault : Vault S) (Hvault : vault_apart vault).

(** The ready backups of a schedule, the newest first. *)
Definition ready_of (sid : string) (db : BackupDB) : list Backup :=
  List.filter is_ready (sliceStable newest_first (List.filter (made_by sid) (bd_backups db))).
(** The tables without [gone]. *)
Definition without (gone : list Backup) (db : BackupDB) : BackupDB :=
  set_backups (List.filter (fun b => negb (existsb (fun g => has_id (b_ID g) b) gone)) (bd_backups db)) db.
Lemma without_none db : without [] db = db.
Proof. unfold without. cbn [existsb negb]. rewrite filter_true. by destruct db. Qed.
Lemma without_cons g gone db : without gone (without [g] db) = without (g :: gone) db.
Proof.
  unfold without, set_backups. cbn [bd_backups bd_schedules]. f_equal. rewrite <- filter_andb. apply List.filter_ext. intros b. cbn [existsb].
  by rewrite orb_false_r, negb_orb.
Qed.
Lemma ready_of_elem sid db b : b ∈ ready_of sid db -> b ∈ bd_backups db.
Proof. unfold ready_of. intros [Hb _]%elem_of_filter_bool. rewrite sliceStable_perm in Hb. by apply elem_of_filter_bool in Hb as []. Qed.

Lemma prune_wp env gone n : forall w, Forall (fun b => b ∈ bd_backups (part w)) gone -> NoDup (map b_ID gone) ->
  wp env (foldM (fun b pruned => v_remove vault (b_ID b) ;;; delete_row (b_ID b) ;;; ret (pruned + 1)) gone n) (fun r w' =>
    exists done rest, gone = done ++ rest /\ part w' = without done (part w) /\
      match r with Ok k => k = n + len gone /\ rest = [] | Err _ => True end) w.
Proof.
  revert n. induction gone as [|g gone IH]; intros n w Hin Hnd; cbn [foldM].
  - rewrite wp_ret. exists [], []. rewrite without_none. split_and!; [done|done|cbn [length]; lia|done].
  - apply Forall_cons in Hin as [Hg Hin]. apply NoDup_cons in Hnd as [Hn Hnd]. apply wp_bind, wp_bind.
    assert (Hstop : forall w1, part w1 = part (T:=BackupDB) w -> exists done rest, g :: gone = done ++ rest /\ part w1 = without done (part w) /\ True).
    { intros w1 E. exists [], (g :: gone). by rewrite without_none. }
    apply wp_leaves; [apply va_remove, Hvault|]. intros [[]|e] w1 E1; [|by apply Hstop]. apply wp_bind. unfold delete_row, backups_sql.
    apply wp_write; [intros w2 E2; apply Hstop; congruence|]. intros w2 E2. rewrite E1 in E2 |- *. unfold delete_where in E2 |- *.
    assert (E : existsb (has_id (b_ID g)) (bd_backups (part w)) = true) by (apply existsb_exists; exists g; split; [by apply list_elem_of_In|apply String.eqb_refl]).
    rewrite E in E2 |- *. cbn [fst snd] in *. rewrite wp_ret.
    assert (Ew : part w2 = without [g] (part w)).
    { rewrite E2. unfold without. f_equal. apply List.filter_ext. intros b. cbn [existsb]. by rewrite orb_false_r. }
    eapply wp_mono; [|apply IH; [|done]].
    + intros r w3 (dn & rest & -> & E3 & Hr). exists (g :: dn), rest. rewrite E3, Ew, without_cons. split_and!; [done|done|].
      destruct r; [|done]. destruct Hr as [-> ->]. split; [|done]. rewrite !app_nil_r. cbn [length]. lia.
    + rewrite Ew. apply Forall_forall. intros b Hb. unfold without. cbn [set_backups bd_backups existsb]. apply elem_of_filter_bool. rewrite Forall_forall in Hin.
      split; [auto|]. rewrite orb_false_r. apply negb_true_iff, String.eqb_neq. intros Es. apply Hn. rewrite <- Es. by apply list_elem_of_fmap_2.
Qed.
End keeping.

(** * Properties *)

Section properties.
Context {S : Type} `{!Has BackupDB S} (vault : Vault S) (volumes : option (Volumes S)) (has_events : bool) (owner : string -> string).
Context (Hvault : vault_apart vault).
Context (Hsource : forall vs v p db, volumes = Some vs -> yields db (Source vs v p) (fun s => owner (so_ID s) = p)).

(** [backups_lawful]: every request of a tenant or a node and every sweep moves the tables only by the
    changes its actor may make, and keeps them well formed, however the database, the volumes and the
    vault fail. *)
Theorem backups_lawful env r (w : World S) : backup_inv owner (part w) ->
  wp env (serve vault volumes has_events r) (fun _ w' => history owner (actor_of r) (part w) (part w') /\ backup_inv owner (part w')) w.
Proof.
  intros Hi. eapply wp_mono; [|exact (backup_serve_moves vault volumes has_events owner Hvault Hsource (part w) r Hi env w eq_refl)].
  intros o w' H. split; [done|]. exact (backup_history_inv owner _ _ _ H Hi).
Qed.
(** [backup_tenants_apart]: a tenant's request leaves the backups and the schedules of every other
    project as they are. *)
Theorem backup_tenants_apart env r p (w : World S) : backup_inv owner (part w) -> actor_of r = Tenant p ->
  wp env (serve vault volumes has_events r) (fun _ w' => others p (part w') = others p (part w)) w.
Proof.
  intros Hi Ha. eapply wp_mono; [|exact (backup_serve_moves vault volumes has_events owner Hvault Hsource (part w) r Hi env w eq_refl)].
  intros o w' H. rewrite Ha in H. exact (backup_history_others owner p _ _ H Hi).
Qed.
(** [backups_retained]: what a schedule's retention forgets is its ready backups behind the newest [Keep], the
    newest first, and no other row changes; when it ends well all of those are gone, and when a delete
    fails a first part of them. *)
Theorem backups_retained env sc (w : World S) : unique_by (fun b => Some (b_ID b)) (bd_backups (part w)) -> 0 <= sc_Keep sc ->
  wp env (retain vault sc) (fun r w' => exists gone rest,
    drop (Z.to_nat (sc_Keep sc)) (ready_of (sc_ID sc) (part w)) = gone ++ rest /\ part w' = without gone (part w) /\
    match r with Ok k => k = len gone /\ rest = [] | Err _ => True end) w.
Proof.
  intros Hu Hk. unfold retain, madeBySchedule, backups_q. apply wp_bind, wp_read.
  assert (Hsame : forall d : list Backup, exists gone rest, d = gone ++ rest /\ part (tick w) = without gone (part w) /\ gone = []).
  { intros d. exists [], d. by rewrite without_none. }
  intros r [->| ->]; cbv zeta.
  { destruct (Hsame (drop (Z.to_nat (sc_Keep sc)) (ready_of (sc_ID sc) (part w)))) as (gone & rest & H1 & H2 & _). by exists gone, rest. }
  fold (ready_of (sc_ID sc) (part w)). set (all := ready_of _ _). destruct (Z.leb_spec (len all) (sc_Keep sc)) as [Hl|Hl].
  - rewrite wp_ret, drop_ge by lia. exists [], []. by rewrite without_none.
  - eapply wp_mono; [|apply (prune_wp vault Hvault)].
    + intros r w' (dn & rest & H1 & H2 & H3). exists dn, rest. split_and!; [done|done|]. destruct r; [|done]. destruct H3 as [-> ->].
      split; [|done]. rewrite H1, app_nil_r. lia.
    + apply Forall_forall. intros b Hb. apply (ready_of_elem (sc_ID sc)). eapply elem_of_submseteq; [exact Hb|]. apply sublist_submseteq, sublist_drop.
    + rewrite <- skipn_map. eapply sublist_NoDup; [|apply sublist_drop]. unfold all, ready_of. apply NoDup_map_filter. rewrite sliceStable_perm.
      apply NoDup_map_filter. unfold unique_by in Hu. by rewrite omap_total in Hu.
Qed.
End properties.

Section bytes.
Context (c : AEAD) (keys : option Keyring) {S : Type} `{!Has Disk S, !Has BackupDB S, !Apart Disk BackupDB S, !Apart BackupDB Disk S} `{!GCM c}.
Context (Hring : ring_ok keys) (volumes : option (Volumes S)) (has_events : bool).

(** [backup_roundtrip]: with the vault on disk, what a node uploads for a backup that is not ready is what a
    download gives back, byte for byte, with its length and its SHA-256, whatever the keyring, and
    whatever the retention that follows forgets. *)
Theorem backup_roundtrip env id n src (w : World S) : sound c keys (part w) (part w) ->
  wp env (let! b := store (diskVault c keys) has_events id n src in
          let! got := content (diskVault c keys) (b_ID b) in ret (b, got)) (fun r _ =>
    match r with
    | Ok (b, (got, size)) => b_ID b = id /\ exists bytes, got = (bytes, None) /\ len bytes = size /\ hex_encode (sha256 bytes) = b_Checksum b /\
        ((exists x, x ∈ bd_backups (part w) /\ b_ID x = id /\ is_ready x = true) \/ bytes = rd_bytes src)
    | Err _ => True
    end) w.
Proof.
  intros Hw. unfold store. apply wp_bind, wp_bind, on_node_wp; [done|]. intros b w' E Hb Eid En.
  pose proof (sound_state c keys _ _ E Hw) as Hs. destruct (is_ready b) eqn:Er.
  - rewrite wp_ret. apply wp_bind. eapply wp_mono; [|by apply content_wp]. intros [[got size]|e] w1 [Hw1 Hr]; [|done]. rewrite wp_ret.
    split; [done|]. destruct Hr as (x & raw & bytes & Hx & Hxid & Hxr & _ & _ & -> & -> & Hl & Hc). exists bytes. split_and!; [done|done| |].
    + rewrite Hc. f_equal. by apply (unique_by_eq (fun b => Some (b_ID b)) (bd_backups (part w')) x b (b_ID b) (sd_id _ _ _ _ Hs)); [| |congruence|].
    + left. exists x. split_and!; [|congruence|done]. unfold part in *. by rewrite E in Hx.
  - apply wp_bind, wp_attempt. eapply wp_mono; [|by apply (upload_wp c keys Hring env b src w')]. intros [wr|e] w1 (Hs1 & Hw1 & Hr).
    2:{ apply wp_bind. rewrite wp_now. apply wp_bind, wp_mapped. unfold wp at 1. destruct (mark _ _ _ _ _ _ _ _ _) as [[[]|e'] w2]; [|done]. cbn [or_fault].
        apply wp_bind. unfold wp at 1. destruct (note _ _ _ _ _ _ _) as [[[]|e''] w3]; [|done]. done. }
    destruct Hr as (-> & Hend & raw & Hfile & Hraw). apply wp_bind. rewrite wp_now. cbn beta iota. cbn [wr_Size wr_Checksum wr_KeyID]. apply wp_bind, wp_mapped.
    set (at_ := env_now env (w_step w1)).
    eapply wp_mono; [|by apply (landed_wp c keys env b src raw at_ (tick w1))]. intros [[]|e] w2 (Hs2 & Hd2 & Hb2); [|done]. cbn [or_fault].
    specialize (Hb2 eq_refl). set (b2 := marked StateReady (b_Message b) _ _ _ at_ b).
    eapply wp_mono; [|exact (settled_wp c keys has_events env b _ b2 w2 Hs2)]. intros [y|e] w3 (Hs3 & [Hrows Hfiles] & Hy); [|done]. subst y.
    apply wp_bind. eapply wp_mono; [|by apply content_wp]. intros [[got size]|e] w4 [_ Hr]; [|done]. rewrite wp_ret. split; [done|].
    destruct Hr as (x & raw' & bytes & Hx & Hxid & Hxr & Hf & Hh & -> & -> & Hl & Hc). change (b_ID b2) with (b_ID b) in *.
    assert (raw' = raw) as ->.
    { destruct (Hfiles (b_ID b)) as [Ef|Ef]; rewrite Ef in Hf; [|done]. rewrite Hd2 in Hf. change (part (T:=Disk) (tick w1)) with (part (T:=Disk) w1) in Hf. congruence. }
    assert (Hxb : b_KeyID x = ActiveID keys /\ b_Checksum x = hex_encode (sha256 (rd_bytes src))).
    { apply Hrows in Hx. rewrite Hb2 in Hx. cbn [set_backups bd_backups] in Hx. apply list_elem_of_fmap in Hx as (z & -> & Hz).
      destruct (has_id (b_ID b) z) eqn:Ez; [by split|]. unfold has_id in Ez. by rewrite Hxid, String.eqb_refl in Ez. }
    destruct Hxb as [Ek Ec]. rewrite Ek in Hh. rewrite (holds_one c keys _ _ _ _ Hh Hraw) in *. exists (rd_bytes src).
    split_and!; [done|done|done|by right].
Qed.

(** [backups_sound]: with the vault on disk, every request but a node's own claim that its bytes landed
    keeps rows and bytes together: the bytes of a ready backup, where they are still there, open to its
    size and its SHA-256; so a download that backup_answers gives bytes its row speaks of. *)
Theorem backups_sound (Hdb : forall vs v p, volumes = Some vs -> leaves BackupDB (Source vs v p))
    (Hdisk : forall vs v p, volumes = Some vs -> leaves Disk (Source vs v p)) env r (w : World S) :
  claims r = false -> sound c keys (part w) (part w) ->
  wp env (serve (diskVault c keys) volumes has_events r) (fun o w' => sound c keys (part w') (part w') /\
    forall n id status size bytes, r = ReqDownload n id -> o = Ok (MkReply status (Some (BContent size bytes))) ->
      len bytes = size /\ exists b, b ∈ bd_backups (part w) /\ b_ID b = id /\ is_ready b = true /\ hex_encode (sha256 bytes) = b_Checksum b) w.
Proof.
  intros Hc Hs. eapply wp_mono; [|apply wp_and; [exact (keeps_serve c keys Hring volumes has_events Hdb Hdisk r Hc env w Hs)|]].
  - intros o w' [H1 H2]. split; [exact H1|exact H2].
  - destruct r; try (by (unfold wp; destruct (serve _ _ _ _ _ _))). cbn [serve]. unfold handle_download. apply wp_bind.
    eapply wp_mono; [|by apply content_wp]. intros [[got size]|e] w1 [_ Hr]; [|done]. destruct Hr as (b & raw & bytes & Hb & Eid & Er & _ & _ & -> & -> & Hl & Hsum).
    cbn [snd fst]. unfold Write. rewrite wp_ret. intros n' id' status size' bytes' [= <- <-] [= <- <- <-]. split; [done|]. by exists b.
Qed.
End bytes.

(** * A small cloud *)

Module Demo.
Abbreviation St := (BackupDB * Disk)%type.
#[export] Instance has_db : Has BackupDB St := Has_fst _ _.
#[export] Instance has_disk : Has Disk St := Has_snd _ _.
#[export] Instance apart_db : Apart BackupDB Disk St := Apart_pair _ _.
#[export] Instance apart_disk : Apart Disk BackupDB St := Apart_pair' _ _.

Definition owner (v : string) : string := if String.eqb v "vol-1" then "prj-1" else "prj-2".
Definition volumes : Volumes St :=
  {| Source v p := if String.eqb (owner v) p then ret (MkSource v p "nd-1" "data" false "" "") else fail (NotFound "volume_not_found" "no volume") |}.
Definition ring : Keyring := NewKeyring [replicate 32 7].
Definition sum (bytes : list Z) : string := hex_encode (sha256 bytes).
Definition bkp (id name state : string) (bytes : list Z) (at_ : Z) : Backup :=
  MkBackup id "prj-1" "bsc-1" "vol-1" "nd-1" name state "" (len bytes) (if String.eqb state StateReady then sum bytes else "") "" "" "" "" at_ at_.
Definition daily : Schedule := MkSchedule "bsc-1" "prj-1" "vol-1" (24 * hour) 1 0 zero_time 0 0.
Definition db : BackupDB := MkBackupDB [bkp "bkp-1" "a" StateReady [1; 2] 0; bkp "bkp-2" "b" StateReady [3] second; bkp "bkp-3" "c" StatePending [] (2 * second)] [daily].
Definition files : gmap string (list Z) := {["bkp-1" := [1; 2]; "bkp-2" := [3]]}.
Definition w0 : World St := MkWorld (db, MkDisk files ∅) O [].
Definition env : Env := {| env_now _ := 1000 * second; env_rand n := [Z.of_nat n; 7]; env_io _ := false |}.
Definition tenant (p : string) : Scope := MkScope p "tok-1" "ci" "" "member".
Definition disk : Vault St := diskVault demo (Some ring).
Definition upload : reader := MkReader [10; 20; 30] AtEOF.

Lemma backup_db_inv : backup_inv owner db.
Proof.
  constructor; try (apply (bool_decide_unpack _); vm_compute; exact I).
  repeat (apply Forall_cons; split; [constructor; [vm_compute; reflexivity|set_solver|done|by intros]|]). constructor.
Qed.
Lemma db_sound : sound demo (Some ring) db (MkDisk files ∅).
Proof.
  split; [apply (bool_decide_unpack _); vm_compute; exact I|repeat constructor|].
  intros b raw Hb Hr Hf. cbn [db bd_backups] in Hb. rewrite !elem_of_cons in Hb. destruct Hb as [->|[->|[->|Hb%elem_of_nil]]]; [| |discriminate Hr|done].
  - assert (E : files !! "bkp-1" = Some [1; 2]) by (vm_compute; reflexivity). change (files !! "bkp-1" = Some raw) in Hf. rewrite E in Hf. injection Hf as <-. exists [1; 2]. split; [reflexivity|split; [reflexivity|vm_compute; reflexivity]].
  - assert (E : files !! "bkp-2" = Some [3]) by (vm_compute; reflexivity). change (files !! "bkp-2" = Some raw) in Hf. rewrite E in Hf. injection Hf as <-. exists [3]. split; [reflexivity|split; [reflexivity|vm_compute; reflexivity]].
Qed.
Lemma backup_answers vs v p (d : BackupDB) : Some volumes = Some vs -> yields d (Source vs v p) (fun s => owner (so_ID s) = p).
Proof. intros [= <-] e w _ Hw. cbn [Source volumes]. destruct (String.eqb_spec (owner v) p); unfold wp; simpl; by split. Qed.
Lemma answers_db vs v p : Some volumes = Some vs -> leaves BackupDB (Source vs v p).
Proof. intros [= <-]. cbn [Source volumes]. auto with leaves. Qed.
Lemma answers_disk vs v p : Some volumes = Some vs -> leaves Disk (Source vs v p).
Proof. intros [= <-]. cbn [Source volumes]. auto with leaves. Qed.
Lemma ring_found : ring_ok (Some ring).
Proof. intros k [= <-]. split; vm_compute; [reflexivity|discriminate]. Qed.
Definition run (v : Vault St) (r : request) (w : World St) : World St := snd (serve v (Some volumes) true r env w).
Definition reply (v : Vault St) (r : request) (w : World St) : outcome (Reply body) := fst (serve v (Some volumes) true r env w).
End Demo.
Import (hints) Demo.

Lemma backups_lawful_witness :
  backup_inv Demo.owner (part (Demo.run Demo.disk (ReqCreate (Demo.tenant "prj-1") "vol-1" (Ok (MkCreateRequest "d"))) Demo.w0)).
Proof.
  pose proof (backups_lawful Demo.disk _ true Demo.owner (disk_vault_apart demo (Some Demo.ring)) Demo.backup_answers Demo.env
    (ReqCreate (Demo.tenant "prj-1") "vol-1" (Ok (MkCreateRequest "d"))) Demo.w0 Demo.backup_db_inv) as H.
  unfold wp in H. unfold Demo.run. destruct (serve _ _ _ _ _ _) as [r w']. exact (proj2 H).
Defined.
Lemma backup_tenants_apart_witness :
  others "prj-1" (part (Demo.run Demo.disk (ReqDelete (Demo.tenant "prj-1") "bkp-1") Demo.w0)) = others "prj-1" Demo.db.
Proof.
  pose proof (backup_tenants_apart Demo.disk _ true Demo.owner (disk_vault_apart demo (Some Demo.ring)) Demo.backup_answers Demo.env
    (ReqDelete (Demo.tenant "prj-1") "bkp-1") "prj-1" Demo.w0 Demo.backup_db_inv eq_refl) as H.
  unfold wp in H. unfold Demo.run. destruct (serve _ _ _ _ _ _) as [r w']. exact H.
Defined.
Lemma backups_retained_witness :
  map b_ID (bd_backups (part (snd (retain Demo.disk Demo.daily Demo.env Demo.w0)))) = ["bkp-2"; "bkp-3"] /\
  exists gone, drop 1 (ready_of "bsc-1" Demo.db) = gone.
Proof.
  split; [vm_compute; reflexivity|].
  pose proof (backups_retained Demo.disk (disk_vault_apart demo (Some Demo.ring)) Demo.env Demo.daily Demo.w0
    (bi_id _ _ Demo.backup_db_inv) ltac:(vm_compute; discriminate)) as H.
  unfold wp in H. destruct (retain _ _ _ _) as [r w']. destruct H as (gone & rest & H & _). exists (gone ++ rest). exact H.
Defined.
Definition up_and_down : M Demo.St (Backup * (stream * Z)) :=
  let! b := store Demo.disk true "bkp-3" "nd-1" Demo.upload in let! got := content Demo.disk (b_ID b) in ret (b, got).
Lemma backup_roundtrip_witness : exists b size, fst (up_and_down Demo.env Demo.w0) = Ok (b, (([10; 20; 30], None), size)).
Proof.
  pose proof (backup_roundtrip demo (Some Demo.ring) Demo.ring_found true Demo.env "bkp-3" "nd-1" Demo.upload Demo.w0 Demo.db_sound) as H.
  change (wp Demo.env up_and_down (fun r _ => match r with
    | Ok (b, (got, size)) => b_ID b = "bkp-3" /\ exists bytes, got = (bytes, None) /\ len bytes = size /\ hex_encode (sha256 bytes) = b_Checksum b /\
        ((exists x, x ∈ bd_backups (part Demo.w0) /\ b_ID x = "bkp-3" /\ is_ready x = true) \/ bytes = rd_bytes Demo.upload)
    | Err _ => True end) Demo.w0) in H.
  assert (Hok : exists r, fst (up_and_down Demo.env Demo.w0) = Ok r) by (eexists; vm_compute; reflexivity).
  destruct Hok as [[b [got size]] Er]. unfold wp in H. destruct (up_and_down _ _) as [o w']. simpl in Er. subst o.
  destruct H as (_ & bytes & -> & _ & _ & Hb). exists b, size. simpl. do 4 f_equal.
  destruct Hb as [(x & Hx & Ex & Hr)|Hb]; [|exact Hb]. exfalso. cbn in Hx. rewrite !elem_of_cons in Hx.
  destruct Hx as [->|[->|[->|Hx%elem_of_nil]]]; [discriminate Ex|discriminate Ex|discriminate Hr|exact Hx].
Defined.
Lemma backups_sound_witness : exists bytes, Demo.reply Demo.disk (ReqDownload "nd-1" "bkp-1") Demo.w0 = Ok (MkReply 200 (Some (BContent 2 bytes))) /\ len bytes = 2.
Proof.
  pose proof (backups_sound demo (Some Demo.ring) Demo.ring_found _ true Demo.answers_db Demo.answers_disk Demo.env (ReqDownload "nd-1" "bkp-1") Demo.w0 eq_refl Demo.db_sound) as H.
  exists [1; 2]. assert (Er : Demo.reply Demo.disk (ReqDownload "nd-1" "bkp-1") Demo.w0 = Ok (MkReply 200 (Some (BContent 2 [1; 2])))) by (vm_compute; reflexivity).
  split; [exact Er|]. unfold wp in H. unfold Demo.reply in Er. change (diskVault demo (Some Demo.ring)) with Demo.disk in H.
  destruct (serve _ _ _ _ _ _) as [o w']. destruct H as [_ H]. destruct (H "nd-1" "bkp-1" 200 2 [1; 2] eq_refl Er) as [Hl _]. exact Hl.
Defined.

(** [failure_reported_late]: a node may report a failure of a backup that is ready: the row loses its size,
    checksum and key although the bytes are there, and nothing downloads it any more. *)
Example failure_reported_late :
  let w1 := Demo.run Demo.disk (ReqFail "nd-1" "bkp-1" (Ok (MkFailRequest ""))) Demo.w0 in
  map (fun b => (b_State b, b_Checksum b)) (take 1 (bd_backups (part w1))) = [(StateFailed, "")] /\
  dk_files (part w1) !! "bkp-1" = Some [1; 2] /\
  (exists e, Demo.reply Demo.disk (ReqDownload "nd-1" "bkp-1") w1 = Err e).
Proof. vm_compute. split_and!; [reflexivity|reflexivity|eexists; reflexivity]. Qed.

(** A cipher whose frames open under their own key only, and a bucket kept in the files. *)
Definition keyed_tag (fk : list Z) (flag : Z) : list Z := flag :: take 15 fk.
Definition keyed : AEAD := {|
  aead_Seal fk _ p flag := p ++ keyed_tag fk flag;
  aead_Open fk _ ct flag := if bool_decide (drop (length ct - 16) ct = keyed_tag fk flag) then Some (take (length ct - 16) ct) else None;
|}.
Definition bucket : Client Demo.St := {|
  cl_Put key body _ := sql "put" (fun d => (Ok tt, set_files (<[key := body]> (dk_files d)) d));
  cl_Get key := let! body := query "get" (fun d => match dk_files d !! key with Some b => Ok b | None => Err (ESentinel "no such object") end) in
                ret (MkReader body AtEOF);
  cl_Delete key := sql "delete" (fun d => (Ok tt, set_files (delete key (dk_files d)) d));
  cl_Presign method key _ := ret (method +:+ " " +:+ key);
|}.
(** [upload_through_the_platform_is_lost]: with an object store and a keyring, a backup gets a content key for the node to
    seal with; bytes that come up through the control plane instead are sealed with the platform's key, and the
    download opens them with the content key, which fails. *)
Example upload_through_the_platform_is_lost :
  let v := objectVault keyed (Some Demo.ring) bucket in
  let w1 := Demo.run v (ReqCreate (Demo.tenant "prj-1") "vol-1" (Ok (MkCreateRequest "d"))) Demo.w0 in
  match last (bd_backups (part w1)) with
  | Some b => let w2 := Demo.run v (ReqUpload "nd-1" (b_ID b) Demo.upload) w1 in
      fmap b_State (last (bd_backups (part w2))) = Some StateReady /\ (exists e, Demo.reply v (ReqDownload "nd-1" (b_ID b)) w2 = Err e)
  | None => False
  end.
Proof. vm_compute. split; [reflexivity|eexists; reflexivity]. Qed.
