(* ===== verification/Firewall.v ===== *)
(** Firewalls (internal/platform/firewall): named lists of rules that say what may reach an instance.

    The table is the state; a row of firewalls keeps its rules as values, which [encoding/json] writes
    and reads.  What the nodes make of the rules is Datapath.v. *)
From stdpp Require Import base tactics numbers strings list gmap sorting.
From Stdlib Require Import ZArith Lia.
From Stdlib Require Ascii.
From S2P Require Import Prelude GoLang Time Effects Regex Kernel Httpx Tables Netip.

(** * Data (types.go) *)

Definition ProtocolTCP : string := "tcp".
Definition ProtocolUDP : string := "udp".
Definition ProtocolICMP : string := "icmp".
Definition ProtocolAny : string := "any".
Definition MinPort : Z := 1.
Definition MaxPort : Z := 65535.
Definition MaxRules : Z := 64.
(* go: platform/firewall/types.go Protocols *)
Definition Protocols : list string := [ProtocolTCP; ProtocolUDP; ProtocolICMP; ProtocolAny].
(* go: platform/firewall/types.go Rule *)
Record Rule := MkRule { ru_Protocol : string; ru_FromPort : Z; ru_ToPort : Z; ru_Source : string }.
(* go: platform/firewall/types.go Firewall *)
Record Firewall := MkFirewall {
  f_ID : string; f_ProjectID : string; f_Name : string; f_Rules : list Rule; f_CreatedAt : Z; f_UpdatedAt : Z;
}.
(* go: platform/firewall/types.go CreateParams *)
Record CreateParams := MkCreateParams { cp_ProjectID : string; cp_Name : string; cp_Rules : list Rule }.

(** * Repository (repository.go)

    UNIQUE (id) and (project_id, name). *)

Definition FirewallDB : Type := list Firewall.

Definition errNotFound : error := ESentinel "firewall not found".
Definition errNameTaken : error := ESentinel "firewall name already exists".
Definition has_id (id : string) (f : Firewall) : bool := String.eqb (f_ID f) id.
Definition in_project (projectID : string) (f : Firewall) : bool := String.eqb (f_ProjectID f) projectID.
Definition named (projectID name : string) (f : Firewall) : bool := in_project projectID f && String.eqb (f_Name f) name.
Definition clash (n f : Firewall) : bool := has_id (f_ID n) f || named (f_ProjectID n) (f_Name n) f.
Definition with_rules (rules : list Rule) (at_ : Z) (f : Firewall) : Firewall :=
  MkFirewall (f_ID f) (f_ProjectID f) (f_Name f) rules (f_CreatedAt f) at_.
Definition on_firewall (id : string) (g : Firewall -> Firewall) (rows : list Firewall) : list Firewall := map (fun f => if has_id id f then g f else f) rows.

Section repository.
Context {S : Type} `{!Has FirewallDB S}.

Definition rows_sql {A} (what : string) (q : list Firewall -> outcome A * list Firewall) : M S A := sql (T:=FirewallDB) what q.
Definition rows_q {A} (what : string) (q : list Firewall -> outcome A) : M S A := query (T:=FirewallDB) what q.
Definition by_name : Firewall -> Firewall -> bool := by_key f_Name str_ltb (fun _ _ => false).

(* go: platform/firewall/repository.go repository.insert *)
Definition insert (f : Firewall) : M S unit := rows_sql "insert firewall" (insert_row (clash f) errNameTaken f).
(* go: platform/firewall/repository.go repository.replaceRules *)
Definition replaceRules (id : string) (rules : list Rule) (at_ : Z) : M S unit :=
  rows_sql "replace rules" (update_where (has_id id) (with_rules rules at_) errNotFound).
(* go: platform/firewall/repository.go repository.byID *)
Definition byID (id : string) : M S Firewall := rows_q "scan firewall" (select_one (has_id id) errNotFound).
(* go: platform/firewall/repository.go repository.listIn *)
Definition listIn_rows (projectID : string) : M S (list Firewall) :=
  rows_q "list firewalls in project" (fun rows => Ok (sliceStable by_name (List.filter (in_project projectID) rows))).
(* go: platform/firewall/repository.go repository.byName *)
Definition byName (projectID name : string) : M S Firewall := rows_q "scan firewall" (select_one (named projectID name) errNotFound).
(* go: platform/firewall/repository.go repository.list *)
Definition list_rows : M S (list Firewall) := rows_q "list firewalls" (fun rows => Ok (sliceStable by_name rows)).
(* go: platform/firewall/repository.go repository.delete *)
Definition delete_row (id : string) : M S unit := rows_sql "delete firewall" (delete_where (has_id id) errNotFound).
End repository.

(* go: platform/firewall/service.go translate *)
Definition translate (err : error) : error :=
  if errors_Is err "firewall not found" then NotFound "firewall_not_found" "no firewall with that name or id exists"
  else if errors_Is err "firewall name already exists" then Conflict "firewall_name_taken" "a firewall with that name already exists"
  else err.

(** * Rules (service.go) *)

Definition any_source : string := "0.0.0.0/0".
(** One turn of the loop of [checkRules]. *)
(* go: platform/firewall/service.go:63-103 invalid_port *)
Definition check_rule (rule : Rule) : outcome Rule :=
  let protocol := if is_empty (ru_Protocol rule) then ProtocolTCP else ru_Protocol rule in
  try _ := validate_OneOf "protocol" protocol Protocols in
  try ports := (if String.eqb protocol ProtocolICMP || String.eqb protocol ProtocolAny then Ok (0, 0)
    else
      try _ := guard (ru_FromPort rule =? 0) (Invalid "invalid_port" "a tcp or udp rule needs from_port") in
      let to_port := if ru_ToPort rule =? 0 then ru_FromPort rule else ru_ToPort rule in
      try _ := guard ((ru_FromPort rule <? MinPort) || (MaxPort <? to_port) || (to_port <? ru_FromPort rule))
        (Invalid "invalid_port" "ports must be between 1 and 65535, and from_port must not exceed to_port") in
      Ok (ru_FromPort rule, to_port)) in
  let source := if is_empty (ru_Source rule) then any_source else ru_Source rule in
  match ParsePrefix source with
  | None => Err (Invalid "invalid_source" "source must be a CIDR such as 10.20.0.0/16, fd00::/8, 0.0.0.0/0 or ::/0")
  | Some prefix =>
      try _ := guard (Is4In6 (p_addr prefix)) (Invalid "invalid_source"
        "an IPv4 source written as IPv6 would be rendered into the wrong nftables family; write it as IPv4") in
      Ok (MkRule protocol (fst ports) (snd ports) (prefix_String (Masked prefix)))
  end.
Fixpoint check_all (rules : list Rule) : outcome (list Rule) :=
  match rules with
  | [] => Ok []
  | rule :: rest => try checked := check_rule rule in try more := check_all rest in Ok (checked :: more)
  end.
(* go: platform/firewall/service.go checkRules *)
Definition checkRules (rules : list Rule) : outcome (list Rule) :=
  try _ := guard (MaxRules <? len rules) (Invalid "invalid_rules" "a firewall may hold at most 64 rules") in
  check_all rules.

(** * Service (service.go) *)

Section service.
Context {S : Type} `{!Has FirewallDB S}.

(* go: platform/firewall/service.go service.create *)
Definition create (params : CreateParams) : M S Firewall :=
  lift (validate_Name "name" (cp_Name params)) ;;;
  let! rules := lift (checkRules (cp_Rules params)) in
  let! at_ := now in
  let! id := ids_New "fw" in
  let f := MkFirewall id (cp_ProjectID params) (cp_Name params) rules at_ at_ in
  mapped translate (insert f) ;;;
  ret f.
(* go: platform/firewall/service.go service.resolveIn *)
Definition resolveIn (nameOrID projectID : string) : M S Firewall :=
  let! r := attempt (byName projectID nameOrID) in
  match r with
  | Ok f => ret f
  | Err err =>
      if negb (errors_Is err "firewall not found") then fail (translate err)
      else
        let! f := mapped translate (byID nameOrID) in
        lift (guard (negb (in_project projectID f)) (NotFound "firewall_not_found" "no firewall with that id exists")) ;;;
        ret f
  end.
(* go: platform/firewall/service.go service.list *)
Definition list_ : M S (list Firewall) := mapped translate list_rows.
(* go: platform/firewall/service.go service.listIn *)
Definition listIn (projectID : string) : M S (list Firewall) := mapped translate (listIn_rows projectID).
(* go: platform/firewall/service.go service.existsIn *)
Definition existsIn (id projectID : string) : M S bool :=
  let! r := attempt (byID id) in
  match r with
  | Ok f => ret (in_project projectID f)
  | Err err => if errors_Is err "firewall not found" then ret false else fail (translate err)
  end.
(* go: platform/firewall/service.go service.setRules *)
Definition setRules (nameOrID projectID : string) (rules : list Rule) : M S Firewall :=
  let! f := resolveIn nameOrID projectID in
  let! checked := lift (checkRules rules) in
  let! at_ := now in
  mapped translate (replaceRules (f_ID f) checked at_) ;;;
  ret (with_rules checked (f_UpdatedAt f) f).
(* go: platform/firewall/service.go service.remove *)
Definition remove (nameOrID projectID : string) : M S unit :=
  let! f := resolveIn nameOrID projectID in
  mapped translate (delete_row (f_ID f)).
End service.

(** * Handlers (handler.go) *)

(* go: platform/firewall/handler.go ruleBody *)
Record ruleBody := MkRuleBody { rb_Protocol : string; rb_FromPort : Z; rb_ToPort : Z; rb_Source : string }.
(* go: platform/firewall/handler.go createRequest *)
Record createRequest := MkCreateRequest { cr_Name : string; cr_Rules : list ruleBody }.
(* go: platform/firewall/handler.go rulesRequest *)
Record rulesRequest := MkRulesRequest { rr_Rules : list ruleBody }.
(* go: platform/firewall/handler.go response *)
Record response := MkResponse { o_ID : string; o_Name : string; o_Rules : list ruleBody; o_CreatedAt : string; o_UpdatedAt : string }.
(* go: platform/firewall/handler.go toResponse *)
Definition toResponse (f : Firewall) : response :=
  MkResponse (f_ID f) (f_Name f) (map (fun rule => MkRuleBody (ru_Protocol rule) (ru_FromPort rule) (ru_ToPort rule) (ru_Source rule)) (f_Rules f))
    (rfc3339nano (f_CreatedAt f)) (rfc3339nano (f_UpdatedAt f)).
(* go: platform/firewall/handler.go toRules *)
Definition toRules (bodies : list ruleBody) : list Rule :=
  map (fun body => MkRule (rb_Protocol body) (rb_FromPort body) (rb_ToPort body) (rb_Source body)) bodies.
Inductive body :=
| BFirewall (f : response)
| BFirewalls (fs : list response).

Section handlers.
Context {S : Type} `{!Has FirewallDB S}.

(* go: platform/firewall/handler.go handler.create *)
Definition handle_create (sc : Scope) (req : outcome createRequest) : M S (Reply body) :=
  let! req := lift req in
  let! f := create (MkCreateParams (sc_ProjectID sc) (cr_Name req) (toRules (cr_Rules req))) in
  Write StatusCreated (BFirewall (toResponse f)).
(* go: platform/firewall/handler.go handler.listForNode *)
Definition handle_listForNode : M S (Reply body) :=
  let! firewalls := list_ in Write StatusOK (BFirewalls (map toResponse firewalls)).
(* go: platform/firewall/handler.go handler.list *)
Definition handle_list (sc : Scope) : M S (Reply body) :=
  let! firewalls := listIn (sc_ProjectID sc) in Write StatusOK (BFirewalls (map toResponse firewalls)).
(* go: platform/firewall/handler.go handler.get *)
Definition handle_get (sc : Scope) (id : string) : M S (Reply body) :=
  let! f := resolveIn id (sc_ProjectID sc) in Write StatusOK (BFirewall (toResponse f)).
(* go: platform/firewall/handler.go handler.setRules *)
Definition handle_setRules (sc : Scope) (id : string) (req : outcome rulesRequest) : M S (Reply body) :=
  let! req := lift req in
  let! f := setRules id (sc_ProjectID sc) (toRules (rr_Rules req)) in Write StatusOK (BFirewall (toResponse f)).
(* go: platform/firewall/handler.go handler.delete *)
Definition handle_delete (sc : Scope) (id : string) : M S (Reply body) :=
  remove id (sc_ProjectID sc) ;;;
  WriteHeader StatusNoContent.

Inductive request :=
| ReqCreate (sc : Scope) (req : outcome createRequest)
| ReqList (sc : Scope)
| ReqListForNode (nodeID : string)
| ReqGet (sc : Scope) (id : string)
| ReqSetRules (sc : Scope) (id : string) (req : outcome rulesRequest)
| ReqDelete (sc : Scope) (id : string).

(* go: platform/firewall/module.go Module.Routes *)
Definition serve (r : request) : M S (Reply body) :=
  match r with
  | ReqCreate sc req => handle_create sc req
  | ReqList sc => handle_list sc
  | ReqListForNode _ => handle_listForNode
  | ReqGet sc id => handle_get sc id
  | ReqSetRules sc id req => handle_setRules sc id req
  | ReqDelete sc id => handle_delete sc id
  end.
End handlers.

(** * What the rules mean

    The reading of a rule, without the order the code looks at its fields in. *)

Definition protocol_of (r : Rule) : string := if is_empty (ru_Protocol r) then ProtocolTCP else ru_Protocol r.
Definition last_port (r : Rule) : Z := if ru_ToPort r =? 0 then ru_FromPort r else ru_ToPort r.
Definition source_of (r : Rule) : string := if is_empty (ru_Source r) then any_source else ru_Source r.
Inductive accepts (r : Rule) : Rule -> Prop :=
| Accept_portless p : protocol_of r ∈ [ProtocolICMP; ProtocolAny] -> ParsePrefix (source_of r) = Some p -> Is4In6 (p_addr p) = false ->
    accepts r (MkRule (protocol_of r) 0 0 (prefix_String (Masked p)))
| Accept_ports p : protocol_of r ∈ [ProtocolTCP; ProtocolUDP] -> MinPort <= ru_FromPort r <= last_port r -> last_port r <= MaxPort ->
    ParsePrefix (source_of r) = Some p -> Is4In6 (p_addr p) = false ->
    accepts r (MkRule (protocol_of r) (ru_FromPort r) (last_port r) (prefix_String (Masked p))).

Lemma check_rule_accepts r c : check_rule r = Ok c <-> accepts r c.
Proof.
  unfold check_rule. fold (protocol_of r) (source_of r) (last_port r). split.
  - intros H. apply obind_ok in H as ([] & Hp & H). apply validate_OneOf_ok in Hp. apply obind_ok in H as (ports & Hports & H).
    destruct (ParsePrefix _) as [p|] eqn:Ep; [|done]. apply obind_ok in H as ([] & H4%guard_ok & [= <-]).
    destruct (String.eqb (protocol_of r) ProtocolICMP || String.eqb (protocol_of r) ProtocolAny) eqn:E.
    + injection Hports as <-. apply Accept_portless; [|done..]. apply orb_true_iff in E as [E%String.eqb_eq|E%String.eqb_eq]; rewrite E; set_solver.
    + apply obind_ok in Hports as ([] & H0%guard_ok & Hports). apply obind_ok in Hports as ([] & Hr%guard_ok & [= <-]). cbn [fst snd].
      apply orb_false_iff in E as [E1%String.eqb_neq E2%String.eqb_neq]. apply orb_false_iff in Hr as [[Hr1%Z.ltb_ge Hr2%Z.ltb_ge]%orb_false_iff Hr3%Z.ltb_ge].
      apply Accept_ports; [|lia|lia|done|done]. unfold Protocols in Hp. set_solver.
  - intros [p Hp Hs H4|p Hp Hf Ht Hs H4]; rewrite Hs, H4; cbn [guard obind].
    + assert (Hv : validate_OneOf "protocol" (protocol_of r) Protocols = Ok tt) by (apply validate_OneOf_ok; unfold Protocols; set_solver).
      rewrite Hv. cbn [obind]. assert (E : String.eqb (protocol_of r) ProtocolICMP || String.eqb (protocol_of r) ProtocolAny = true).
      { apply orb_true_iff. rewrite !String.eqb_eq. set_solver. }
      by rewrite E.
    + assert (Hv : validate_OneOf "protocol" (protocol_of r) Protocols = Ok tt) by (apply validate_OneOf_ok; unfold Protocols; set_solver).
      rewrite Hv. cbn [obind]. assert (E : String.eqb (protocol_of r) ProtocolICMP || String.eqb (protocol_of r) ProtocolAny = false).
      { apply orb_false_iff. rewrite !String.eqb_neq. rewrite !elem_of_cons in Hp. destruct Hp as [->|[->|Hp%elem_of_nil]]; done. }
      rewrite E. unfold MinPort, MaxPort in *. rewrite (proj2 (Z.eqb_neq (ru_FromPort r) 0)) by lia. cbn [guard obind].
      rewrite (proj2 (Z.ltb_ge (ru_FromPort r) 1)), (proj2 (Z.ltb_ge 65535 _)), (proj2 (Z.ltb_ge (last_port r) _)) by lia. done.
Qed.
Lemma check_all_accepts rules checked : check_all rules = Ok checked <-> Forall2 accepts rules checked.
Proof.
  revert checked. induction rules as [|r rules IH]; intros checked; cbn [check_all].
  - split; [by intros [= <-]|by intros ->%Forall2_nil_inv_l].
  - split.
    + intros H. apply obind_ok in H as (c & Hc & H). apply obind_ok in H as (more & Hm & [= <-]). constructor; [by apply check_rule_accepts|by apply IH].
    + intros (c & more & Hc & Hm & ->)%Forall2_cons_inv_l. apply check_rule_accepts in Hc as ->. by apply IH in Hm as ->.
Qed.

(** What every stored rule is. *)
Record rule_ok (r : Rule) : Prop := {
  ro_protocol : ru_Protocol r ∈ Protocols;
  ro_ports : if String.eqb (ru_Protocol r) ProtocolICMP || String.eqb (ru_Protocol r) ProtocolAny then ru_FromPort r = 0 /\ ru_ToPort r = 0
             else MinPort <= ru_FromPort r <= ru_ToPort r /\ ru_ToPort r <= MaxPort;
  ro_source : exists text p, ParsePrefix text = Some p /\ Is4In6 (p_addr p) = false /\ ru_Source r = prefix_String (Masked p);
}.
Lemma accepts_ok r c : accepts r c -> rule_ok c.
Proof.
  intros [p Hp Hs H4|p Hp Hf Ht Hs H4]; (constructor; cbn; [unfold Protocols; set_solver| |eauto]).
  - by destruct (_ || _) eqn:E; [|rewrite !elem_of_cons in Hp; destruct Hp as [Hp|[Hp|Hp%elem_of_nil]]; rewrite ?Hp in E; done].
  - rewrite !elem_of_cons in Hp. destruct Hp as [->|[->|Hp%elem_of_nil]]; [| |done]; cbn; lia.
Qed.

(** * The state machine the module promises *)

Record firewall_ok (f : Firewall) : Prop := {
  fo_name : validate_Name "name" (f_Name f) = Ok tt;
  fo_count : len (f_Rules f) <= MaxRules;
  fo_rules : Forall rule_ok (f_Rules f);
}.
Inductive actor := Tenant (projectID : string) | Node.
Inductive change (a : actor) (db : FirewallDB) : FirewallDB -> Prop :=
| C_create f : a = Tenant (f_ProjectID f) -> firewall_ok f -> existsb (clash f) db = false -> change a db (db ++ [f])
| C_rules f rules at_ : a = Tenant (f_ProjectID f) -> f ∈ db -> len rules <= MaxRules -> Forall rule_ok rules ->
    change a db (on_firewall (f_ID f) (with_rules rules at_) db)
| C_remove f : a = Tenant (f_ProjectID f) -> f ∈ db -> change a db (List.filter (fun x => negb (has_id (f_ID f) x)) db).
Definition history (a : actor) : FirewallDB -> FirewallDB -> Prop := rtc (change a).
#[export] Instance history_preorder a : PreOrder (history a).
Proof. unfold history. typeclasses eauto. Qed.

Record firewall_inv (db : FirewallDB) : Prop := {
  fi_id : unique_by (fun f => Some (f_ID f)) db;
  fi_name : unique_by (fun f => Some (f_ProjectID f, f_Name f)) db;
  fi_row : Forall firewall_ok db;
}.
Lemma firewall_change_inv a db db' : change a db db' -> firewall_inv db -> firewall_inv db'.
Proof.
  intros [f _ Hok Hc|f rules at_ _ Hf Hl Hr|f _ Hf] [H1 H2 H3].
  - rewrite existsb_false, Forall_forall in Hc. constructor.
    + apply unique_by_app; [done|]. intros x k Hx [= <-] [= E]. specialize (Hc x Hx). unfold clash, has_id in Hc. by rewrite E, String.eqb_refl in Hc.
    + apply unique_by_app; [done|]. intros x k Hx [= <-] [= E1 E2]. specialize (Hc x Hx). unfold clash, named, in_project in Hc.
      by rewrite E1, E2, !String.eqb_refl, orb_true_r in Hc.
    + apply Forall_app. split; [done|]. by constructor.
  - unfold on_firewall. constructor.
    + apply unique_by_map; [|done]. intros x. by destruct (has_id _ x).
    + apply unique_by_map; [|done]. intros x. by destruct (has_id _ x).
    + apply Forall_map. eapply Forall_impl; [exact H3|]. intros x Hx. destruct (has_id _ x); [|done]. destruct Hx. by constructor.
  - constructor; by first [apply unique_by_filter|apply Forall_filter_bool].
Qed.
Lemma firewall_history_inv a db db' : history a db db' -> firewall_inv db -> firewall_inv db'.
Proof. intros H. induction H as [|x y z Hc _ IH]; [done|]. intros Hi. apply IH. by eapply firewall_change_inv. Qed.

Definition others (p : string) (db : FirewallDB) : FirewallDB := others_rows f_ProjectID p db.
Lemma firewall_history_others p db db' : history (Tenant p) db db' -> firewall_inv db -> others p db' = others p db.
Proof.
  intros H. induction H as [|x y z Hc _ IH]; [done|]. intros Hi. rewrite IH by (by eapply firewall_change_inv).
  destruct Hc as [f [= ->] _ _|f rules at_ [= ->] Hf _ _|f [= ->] Hf].
  - apply others_insert.
  - apply (others_update f_ID); [apply fi_id, Hi|done|done].
  - apply (others_delete f_ID); [apply fi_id, Hi|done].
Qed.

Section operations.
Context {S : Type} `{!Has FirewallDB S}.

Lemma firewall_yields_resolve (db : FirewallDB) n p : yields db (resolveIn (S:=S) n p) (fun f => f ∈ db /\ f_ProjectID f = p).
Proof.
  unfold resolveIn. eapply yields_bind with (P := fun r => match r with Ok f => f ∈ db /\ f_ProjectID f = p | Err _ => True end).
  - apply yields_attempt. eapply yields_mono; [apply yields_query|]. intros f [Hf [Hp%String.eqb_eq _]%andb_true_iff]%select_one_ok. done.
  - intros [f|e] Hf; [by eapply yields_mono; [apply yields_ret|]; intros ? ->|]. destruct (negb _); [by eapply yields_mono; [apply yields_fail|]|].
    eapply yields_bind; [apply yields_mapped, yields_query|]. intros f [Hin _]%select_one_ok. eapply yields_bind; [apply yields_lift|].
    intros _ E%guard_false%negb_false_iff%String.eqb_eq. eapply yields_mono; [apply yields_ret|]. by intros ? ->.
Qed.
Lemma firewall_yields_ids (db : FirewallDB) prefix : yields db (ids_New (S:=S) prefix) (fun _ => True).
Proof. apply yields_leaves. unfold ids_New. auto with leaves. Qed.
Hint Resolve firewall_yields_resolve firewall_yields_ids : yields.
Lemma checked_ok rules checked : checkRules rules = Ok checked -> len checked <= MaxRules /\ Forall rule_ok checked.
Proof.
  unfold checkRules. intros H. apply obind_ok in H as (_ & Hl%guard_false%Z.ltb_ge & Hc%check_all_accepts). split; [by rewrite <- (Forall2_length _ _ _ Hc)|].
  clear Hl. induction Hc; constructor; [by eapply accepts_ok|done].
Qed.

Definition actor_of (r : request) : actor :=
  match r with
  | ReqCreate sc _ | ReqList sc | ReqGet sc _ | ReqSetRules sc _ _ | ReqDelete sc _ => Tenant (sc_ProjectID sc)
  | ReqListForNode _ => Node
  end.
Lemma firewall_serve_moves (db : FirewallDB) r : moves (history (actor_of r)) db (serve (S:=S) r).
Proof.
  destruct r; cbn [serve actor_of]; unfold handle_create, handle_list, handle_listForNode, handle_get, handle_setRules, handle_delete, Write, WriteHeader.
  - m_step. intros q _. apply moves_then; [typeclasses eauto| |intros; m_step]. unfold create. m_step. intros [] Hn. m_step. intros rules [Hl Hr]%checked_ok.
    m_step. intros at_ _. m_step. intros id _. apply moves_last; [typeclasses eauto|]. apply moves_sql; [typeclasses eauto|].
    unfold insert_row. destruct (existsb _ _) eqn:Ec; cbn [snd]; [done|]. apply rtc_once. by apply C_create.
  - unfold listIn, listIn_rows, rows_q. reads.
  - unfold list_, list_rows, rows_q. reads.
  - reads.
  - m_step. intros q _. apply moves_then; [typeclasses eauto| |intros; m_step]. unfold setRules. m_step. intros f [Hf Hp]. m_step. intros rules [Hl Hr]%checked_ok.
    m_step. intros at_ _. apply moves_last; [typeclasses eauto|]. apply moves_sql; [typeclasses eauto|].
    pose proof (update_where_rows (has_id (f_ID f)) (with_rules rules at_) errNotFound db) as E. cbv beta. unfold FirewallDB in *. rewrite E. apply rtc_once.
    by apply C_rules; [rewrite Hp|..].
  - apply moves_then; [typeclasses eauto| |intros; m_step]. unfold remove. m_step. intros f [Hf Hp]. m_step. apply moves_sql; [typeclasses eauto|].
    pose proof (delete_where_rows (has_id (f_ID f)) errNotFound db) as E. cbv beta. unfold FirewallDB in *. rewrite E. apply rtc_once. by apply C_remove; [rewrite Hp|].
Qed.
End operations.

(** * Properties *)

(** [rules_checked]: a list of rules is taken exactly when there are at most 64 of them and each one reads as
    a rule, and what is stored is that reading: the protocol and the source written out, the source in its
    canonical form, one port as a range. *)
Theorem rules_checked rules checked : checkRules rules = Ok checked <-> len rules <= MaxRules /\ Forall2 accepts rules checked.
Proof.
  unfold checkRules. rewrite <- check_all_accepts. unfold guard. destruct (Z.ltb_spec MaxRules (len rules)); cbn [obind].
  - split; [done|]. intros [? _]. lia.
  - split; [by split|by intros []].
Qed.
(** [firewalls_lawful]: every request moves the table only by what its caller may do to the firewalls of its own
    project, keeps every stored rule well formed, and leaves the other projects' firewalls as they are. *)
Theorem firewalls_lawful {S} `{!Has FirewallDB S} env r (w : World S) : firewall_inv (part w) ->
  wp env (serve r) (fun _ w' => history (actor_of r) (part w) (part w') /\ firewall_inv (part w') /\
    forall p, actor_of r = Tenant p -> others p (part w') = others p (part w)) w.
Proof.
  intros Hi. eapply wp_mono; [|exact (firewall_serve_moves (part w) r env w eq_refl)]. intros o w' H.
  split_and!; [done|exact (firewall_history_inv _ _ _ H Hi)|]. intros p Hp. rewrite Hp in H. exact (firewall_history_others p _ _ H Hi).
Qed.

Module Demo.
Definition db : FirewallDB := [MkFirewall "fw-1" "prj-1" "web" [MkRule "tcp" 80 80 "0.0.0.0/0"] 0 0; MkFirewall "fw-2" "prj-2" "web" [] 0 0].
Definition env : Env := {| env_now _ := 0; env_rand _ := [1; 2; 3]; env_io _ := false |}.
Definition w0 : World FirewallDB := MkWorld db O [].
Definition set : request := ReqSetRules (MkScope "prj-1" "tok-1" "ci" "" "member") "web" (Ok (MkRulesRequest [MkRuleBody "" 22 0 "10.1.2.3/16"])).
Lemma firewall_db_inv : firewall_inv db.
Proof.
  constructor; try (apply (bool_decide_unpack _); vm_compute; exact I).
  repeat (apply Forall_cons; split; [constructor; [vm_compute; reflexivity|vm_compute; discriminate|]|]); [|constructor|constructor].
  apply Forall_singleton. constructor; cbn; [set_solver|unfold MinPort, MaxPort; lia|].
  exists "0.0.0.0/0", (PrefixFrom (MkAddr false 0) 0). split_and!; vm_compute; reflexivity.
Qed.
End Demo.
Lemma firewalls_lawful_witness : map f_Rules (w_st (snd (serve Demo.set Demo.env Demo.w0))) = [[MkRule "tcp" 22 22 "10.1.0.0/16"]; []] /\
  firewall_inv (w_st (snd (serve Demo.set Demo.env Demo.w0))).
Proof.
  split; [vm_compute; reflexivity|]. pose proof (firewalls_lawful Demo.env Demo.set Demo.w0 Demo.firewall_db_inv) as H.
  unfold wp in H. destruct (serve _ _ _) as [r w']. exact (proj1 (proj2 H)).
Defined.
