(* ===== verification/Datapath.v ===== *)
(** The links and packet rules of a node (internal/runtime/netdev/netdev_linux.go): what the agent's
    plan (NodePlan.v) becomes in the kernel of the host.

    The commands [ip], [nft] and [nsenter] and the files of /proc are the interface [Host]; the
    texts the code gives them are rendered as it renders them.  What nft makes of a rule it has
    loaded is a parameter of the sections that reason about packets, assumed to be what nft
    documents for the handful of matches the code writes ([test_holds]). *)
From stdpp Require Import base tactics numbers strings list gmap sorting.
From Stdlib Require Import ZArith Lia.
From Stdlib Require Ascii.
From S2P Require Import Prelude GoLang Effects Netip AgentViews NodePlan.

(** * The names of the links *)

Definition hostPrefix : string := "msv-".
Definition peerPrefix : string := "msvp-".
Definition tapPrefix : string := "mst-".
Definition bridgePrefix : string := "msbr-".
Definition nftTable : string := "marstack".
Definition nftNAT : string := "marstack_nat".
Definition nftNAT6 : string := "marstack_nat6".
Definition nftGuard : string := "marstack_fw".
Definition maxIfName : Z := 15.
Definition balancedMark : string := "0x1".
Definition MaxDevices : nat := 4.

(* go: runtime/netdev/netdev_linux.go withDevice *)
Definition withDevice (name : string) (device : Z) : string :=
  if device =? 0 then name
  else let suffix := "." +:+ itoa device in
       let name := if maxIfName <? slen name + slen suffix then str_take (maxIfName - slen suffix) name else name in
       name +:+ suffix.
(* go: runtime/netdev/netdev_linux.go prefixed *)
Definition prefixed (prefix instanceID : string) : string :=
  let suffix := match index_byte instanceID (Ascii.ascii_of_N 45) with
    | Some idx => str_drop (Z.of_nat idx + 1) instanceID
    | None => instanceID
    end in
  let room := maxIfName - slen prefix in
  prefix +:+ (if room <? slen suffix then str_take room suffix else suffix).
(* go: runtime/netdev/netdev_linux.go hostName *)
Definition hostName (instanceID : string) (device : Z) : string := withDevice (prefixed hostPrefix instanceID) device.
(* go: runtime/netdev/netdev_linux.go peerName *)
Definition peerName (instanceID : string) (device : Z) : string := withDevice (prefixed peerPrefix instanceID) device.
(* go: runtime/netdev/netdev_linux.go TapName *)
Definition TapName (instanceID : string) (device : Z) : string := withDevice (prefixed tapPrefix instanceID) device.
(* go: runtime/netdev/netdev_linux.go guestName *)
Definition guestName (device : Z) : string := "eth" +:+ itoa device.
(** [for device := range MaxDevices] *)
Definition devices : list Z := map Z.of_nat (seq 0 MaxDevices).

(** * The texts given to nft *)

Definition newline : string := String.String (Ascii.ascii_of_N 10) String.EmptyString.
(** What is written to a [strings.Builder] line by line. *)
Definition text_of (ls : list string) : string := fold_right (fun l rest => l +:+ newline +:+ rest) "" ls.

(* go: runtime/netdev/netdev_linux.go family *)
Definition family (address : string) : string := if str_contains address ":" then "ip6" else "ip".

(** ** Firewalls *)

(** A packet match of a firewall's rule, [None] for one of the other family. *)
(* go: runtime/netdev/netdev_linux.go guardMatch *)
Definition guardMatch (proto : string) (rule : GuardRule) : option string :=
  let anyone := is_empty (gr_Source rule) || String.eqb (gr_Source rule) "0.0.0.0/0" || String.eqb (gr_Source rule) "::/0" in
  if negb anyone && negb (String.eqb (family (gr_Source rule)) proto) then None
  else
    let source := if anyone then "" else proto +:+ " saddr " +:+ gr_Source rule +:+ " " in
    Some (if String.eqb (gr_Protocol rule) "any" then trim_space source
          else if String.eqb (gr_Protocol rule) "icmp" then
            if String.eqb proto "ip6" then source +:+ "meta l4proto ipv6-icmp" else source +:+ "ip protocol icmp"
          else if gr_FromPort rule =? gr_ToPort rule then source +:+ gr_Protocol rule +:+ " dport " +:+ itoa (gr_FromPort rule)
          else source +:+ gr_Protocol rule +:+ " dport " +:+ itoa (gr_FromPort rule) +:+ "-" +:+ itoa (gr_ToPort rule)).
(* go: runtime/netdev/netdev_linux.go echoRequest *)
Definition echoRequest (proto : string) : string := if String.eqb proto "ip6" then "icmpv6 type echo-request" else "icmp type echo-request".
(** The loop over the rules of a guard. *)
(* go: runtime/netdev/netdev_linux.go:370-377 guardMatch *)
Definition accept_lines (guard : Guard) : list string :=
  let proto := family (gu_IP guard) in
  omap (fun rule => match guardMatch proto rule with
    | Some match_ => Some (proto +:+ " daddr " +:+ gu_IP guard +:+ " " +:+ match_ +:+ " accept")
    | None => None
    end) (gu_Rules guard).
(** The lines of a chain for every guard with an address, [last] after the rules of each. *)
(* go: runtime/netdev/netdev_linux.go:365-379 guards *)
Definition guard_lines (last : Guard -> list string) (guards : list Guard) : list string :=
  concat (map (fun guard => if is_empty (gu_IP guard) then [] else accept_lines guard ++ last guard) guards).
(* go: runtime/netdev/netdev_linux.go:378-378 drop *)
Definition drop_line (guard : Guard) : list string := [family (gu_IP guard) +:+ " daddr " +:+ gu_IP guard +:+ " drop"].
(* go: runtime/netdev/netdev_linux.go:402-405 echoRequest *)
Definition refuse_lines (guard : Guard) : list string :=
  let proto := family (gu_IP guard) in
  [proto +:+ " daddr " +:+ gu_IP guard +:+ " tcp flags & (syn | ack) == syn drop";
   proto +:+ " daddr " +:+ gu_IP guard +:+ " " +:+ echoRequest proto +:+ " drop"].
Definition established_line : string := "ct state established,related accept".
(** The rules of the chains [forward] and [output] of the table inet, and of the chain
    [prerouting] of the table bridge. *)
Definition routed_chain (guards : list Guard) : list string := established_line :: guard_lines drop_line guards.
Definition bridged_chain (guards : list Guard) : list string := guard_lines refuse_lines guards.
Definition indented (l : string) : string := "    " +:+ l.
(** A table that replaces what the kernel has under its name. *)
Definition fresh_table (family_name : string) (body : list string) : list string :=
  ["table " +:+ family_name +:+ " { }"; "delete table " +:+ family_name; "table " +:+ family_name +:+ " {"] ++ body.
(* go: runtime/netdev/netdev_linux.go renderGuards *)
Definition renderGuards (guards : list Guard) : string := text_of (
  fresh_table ("inet " +:+ nftGuard) (
    concat (map (fun hook =>
      ["  chain " +:+ hook +:+ " {"; "    type filter hook " +:+ hook +:+ " priority filter; policy accept;"] ++
      map indented (routed_chain guards) ++ ["  }"]) ["forward"; "output"]) ++ ["}"]) ++
  fresh_table ("bridge " +:+ nftGuard) (
    ["  chain prerouting {"; "    type filter hook prerouting priority -290; policy accept;"] ++
    map indented (bridged_chain guards) ++ ["  }"; "}"])).

(** ** Addresses an interface may use *)

Definition quote (s : string) : string := dquote +:+ s +:+ dquote.
(** The link of an interface on the host. *)
(* go: runtime/netdev/netdev_linux.go:470-473 port *)
Definition port_of (filter : Filter) : string :=
  if negb (is_empty (fl_Isolation filter)) && negb (String.eqb (fl_Isolation filter) "container")
  then TapName (fl_InstanceID filter) (fl_Device filter) else hostName (fl_InstanceID filter) (fl_Device filter).
(* go: runtime/netdev/netdev_linux.go:466-489 filter *)
Definition filter_lines (filter : Filter) : list string :=
  if is_empty (fl_IP filter) || is_empty (fl_MAC filter) then []
  else
    let port := "iifname " +:+ quote (port_of filter) in
    [port +:+ " ether saddr != " +:+ fl_MAC filter +:+ " drop";
     port +:+ " " +:+ family (fl_IP filter) +:+ " saddr != " +:+ fl_IP filter +:+ " drop"] ++
    (if is_empty (fl_IP6 filter) then [] else [port +:+ " ip6 saddr != " +:+ fl_IP6 filter +:+ " drop"]) ++
    (if String.eqb (family (fl_IP filter)) "ip6" then [] else [port +:+ " arp saddr ip != " +:+ fl_IP filter +:+ " drop"]).
Definition filter_chain (filters : list Filter) : list string := concat (map filter_lines filters).
(* go: runtime/netdev/netdev_linux.go renderFilters *)
Definition renderFilters (filters : list Filter) : string := text_of (
  fresh_table ("bridge " +:+ nftTable) (
    ["  chain prerouting {"; "    type filter hook prerouting priority -300; policy accept;"] ++
    map indented (filter_chain filters) ++ ["  }"; "}"])).

(** ** Published ports *)

(* go: runtime/netdev/netdev_linux.go bracketed *)
Definition bracketed (address : string) : string := if String.eqb (family address) "ip6" then "[" +:+ address +:+ "]" else address.
(* go: runtime/netdev/netdev_linux.go selector *)
Definition selector (algorithm proto : string) : string :=
  if String.eqb algorithm "source_hash" then "jhash " +:+ proto +:+ " saddr" else "numgen inc".
(* go: runtime/netdev/netdev_linux.go:316-322 entries *)
Definition entries_of (targetPort : Z) (targets : list string) : list string :=
  imap (fun i address => itoa (Z.of_nat i) +:+ " : " +:+ address +:+ " . " +:+ itoa targetPort) targets.
(* go: runtime/netdev/netdev_linux.go forwardRule *)
Definition forwardRule (publish : Publish) : string :=
  match pu_Targets publish with
  | [] =>
      if is_empty (pu_Address publish) then ""
      else pu_Protocol publish +:+ " dport " +:+ itoa (pu_NodePort publish) +:+ " dnat to " +:+
           bracketed (pu_Address publish) +:+ ":" +:+ itoa (pu_TargetPort publish)
  | first :: _ =>
      let proto := family first in
      if negb (forallb (fun address => String.eqb (family address) proto) (pu_Targets publish)) then ""
      else pu_Protocol publish +:+ " dport " +:+ itoa (pu_NodePort publish) +:+ " ct mark set " +:+ balancedMark +:+
           " dnat to " +:+ selector (pu_Algorithm publish) proto +:+ " mod " +:+ itoa (len (pu_Targets publish)) +:+
           " map { " +:+ join (entries_of (pu_TargetPort publish) (pu_Targets publish)) ", " +:+ " }"
  end.
(** The address that decides the family of a publication. *)
(* go: runtime/netdev/netdev_linux.go:268-271 address *)
Definition leading (publish : Publish) : string := match pu_Targets publish with t :: _ => t | [] => pu_Address publish end.
(* go: runtime/netdev/netdev_linux.go splitByFamily *)
Definition splitByFamily (forwards : list Publish) : list Publish * list Publish :=
  fold_left (fun '(four, six) publish =>
    if String.eqb (family (leading publish)) "ip6" then (four, six ++ [publish]) else (four ++ [publish], six)) forwards ([], []).
(* go: runtime/netdev/netdev_linux.go:289-295 rule *)
Definition nat_chain (forwards : list Publish) : list string :=
  List.filter (fun rule => negb (is_empty rule)) (map forwardRule forwards).
(* go: runtime/netdev/netdev_linux.go natTable *)
Definition natTable (proto name : string) (forwards : list Publish) : string := text_of (
  fresh_table (proto +:+ " " +:+ name) (
    ["  chain prerouting {"; "    type nat hook prerouting priority dstnat; policy accept;"] ++
    map indented (nat_chain forwards) ++
    ["  }"; "  chain postrouting {"; "    type nat hook postrouting priority srcnat; policy accept;";
     "    ct mark " +:+ balancedMark +:+ " masquerade"; "  }"; "}"])).
(* go: runtime/netdev/netdev_linux.go renderForwards *)
Definition renderForwards (forwards : list Publish) : string :=
  let '(four, six) := splitByFamily forwards in natTable "ip" nftNAT four +:+ natTable "ip6" nftNAT6 six.

(** ** The way out of a network *)

(* go: runtime/netdev/netdev_linux.go masked *)
Definition masked_text (cidr : string) : string :=
  match ParsePrefix cidr with None => cidr | Some prefix => prefix_String (Masked prefix) end.
(* go: runtime/netdev/netdev_linux.go egressRule *)
Definition egressRule (bridge cidr : string) : string :=
  let network := masked_text cidr in
  let proto := family network in
  proto +:+ " saddr " +:+ network +:+ " " +:+ proto +:+ " daddr != " +:+ network +:+ " oifname != " +:+ quote bridge +:+ " masquerade".
(** The map [seen] holds exactly the rules kept so far. *)
(* go: runtime/netdev/netdev_linux.go deduped *)
Definition deduped (rules : list string) : list string :=
  fold_left (fun unique rule => if existsb (String.eqb rule) unique then unique else unique ++ [rule]) rules [].
(* go: runtime/netdev/netdev_linux.go masqueradeRules *)
Definition masqueradeRules (listed : string) : list string :=
  List.filter (fun line => has_suffix line "masquerade" && str_contains line "saddr")
    (map (fun l => trim_space (of_bytes l)) (split_on 10 (bytes_of listed))).
(* go: runtime/netdev/netdev_linux.go:216-223 ruleset *)
Definition postrouting_text (rules : list string) : string := text_of (
  ["flush chain inet " +:+ nftTable +:+ " postrouting"; "table inet " +:+ nftTable +:+ " {"; "  chain postrouting {"] ++
  map indented rules ++ ["  }"; "}"]).

(** * The commands *)

(** [exec.Command(name, args...).CombinedOutput()] with a standard input, and the files. *)
Record Host (S : Type) := MkHost {
  CombinedOutput : string -> list string -> string -> M S (string * option error);
  ReadFile : string -> M S string;
  WriteFile : string -> string -> M S unit;
}.
Arguments MkHost {S} _ _ _.
Arguments CombinedOutput {S} _ _ _ _.
Arguments ReadFile {S} _ _.
Arguments WriteFile {S} _ _ _.

(* go: runtime/netdev/netdev.go Interface *)
Record Interface := MkInterface {
  if_Bridge : string; if_BridgeAddr : string; if_InstanceID : string; if_IP : string; if_Prefix : Z; if_Gateway : string;
  if_IP6 : string; if_Prefix6 : Z; if_Gateway6 : string; if_MAC : string; if_Device : Z;
}.

Section commands.
Context {S : Type} (host : Host S).

(** The error of a command that failed; no caller looks at its cause, so it is kept as text. *)
Definition command_error (name : string) (args : list string) (err : error) (out : string) : error :=
  EText (name +:+ " " +:+ join args " " +:+ ": " +:+ error_text err +:+ ": " +:+ trim_space out).
(* go: runtime/netdev/netdev_linux.go output *)
Definition output (name : string) (args : list string) : M S string :=
  let! ' (out, err) := CombinedOutput host name args "" in
  match err with Some err => fail (command_error name args err out) | None => ret out end.
(* go: runtime/netdev/netdev_linux.go run *)
Definition run (name : string) (args : list string) : M S unit :=
  let! ' (out, err) := CombinedOutput host name args "" in
  match err with Some err => fail (command_error name args err out) | None => ret tt end.
(* go: runtime/netdev/netdev_linux.go linkExists *)
Definition linkExists (name : string) : M S bool :=
  let! ' (_, err) := CombinedOutput host "ip" ["link"; "show"; name] "" in
  ret match err with None => true | Some _ => false end.
(** [nft -f -] with a ruleset. *)
(* go: runtime/netdev/netdev_linux.go:247-253 Stdin *)
Definition load_ruleset (what ruleset : string) : M S unit :=
  let! ' (out, err) := CombinedOutput host "nft" ["-f"; "-"] ruleset in
  match err with Some err => fail (EText (what +:+ ": " +:+ error_text err +:+ ": " +:+ trim_space out)) | None => ret tt end.

(* go: runtime/netdev/netdev_linux.go hasAddress *)
Definition hasAddress (link addr : string) : M S bool :=
  let! out := attempt (output "ip" ["-o"; "addr"; "show"; "dev"; link]) in
  ret match out with Err _ => false | Ok out => str_contains out addr end.
(* go: runtime/netdev/netdev_linux.go enableForwarding *)
Definition enableForwarding : M S unit :=
  foldM (fun path _ =>
    let! current := mapped (EWrap ("read " +:+ path)) (ReadFile host path) in
    if String.eqb (trim_space current) "1" then ret tt
    else mapped (EWrap ("enable forwarding at " +:+ path)) (WriteFile host path "1"))
    ["/proc/sys/net/ipv4/ip_forward"; "/proc/sys/net/ipv6/conf/all/forwarding"] tt.
(* go: runtime/netdev/netdev_linux.go EnsureBridge *)
Definition EnsureBridge (bridge addr : string) : M S unit :=
  let! exists_ := linkExists bridge in
  (if exists_ then ret tt else run "ip" ["link"; "add"; "name"; bridge; "type"; "bridge"]) ;;;
  let! has := hasAddress bridge addr in
  (if has then ret tt else run "ip" ["addr"; "add"; addr; "dev"; bridge]) ;;;
  run "ip" ["link"; "set"; bridge; "up"] ;;;
  enableForwarding.
(* go: runtime/netdev/netdev_linux.go rewritePostrouting *)
Definition rewritePostrouting (rules : list string) : M S unit := load_ruleset "rewrite the egress rules" (postrouting_text rules).
(** The mutex [egressMu] makes the calls of one process one after the other. *)
(* go: runtime/netdev/netdev_linux.go EnsureEgress *)
Definition EnsureEgress (bridge cidr : string) : M S unit :=
  run "nft" ["add"; "table"; "inet"; nftTable] ;;;
  run "nft" ["add"; "chain"; "inet"; nftTable; "postrouting"; "{ type nat hook postrouting priority srcnat; policy accept; }"] ;;;
  let! listed := output "nft" ["list"; "chain"; "inet"; nftTable; "postrouting"] in
  let present := masqueradeRules listed in
  let unique := deduped (present ++ [egressRule bridge cidr]) in
  if (length unique =? length present)%nat then ret tt else rewritePostrouting unique.
(* go: runtime/netdev/netdev_linux.go Datapath.ApplyEgress *)
Definition applyEgress (networks : list Egress) : M S unit :=
  foldM (fun n _ =>
    if is_empty (eg_Bridge n) then ret tt
    else foldM (fun address _ =>
      if is_empty address then ret tt
      else EnsureBridge (eg_Bridge n) address ;;; EnsureEgress (eg_Bridge n) address)
      [eg_Gateway n; eg_Gateway6 n] tt) networks tt.
(* go: runtime/netdev/netdev_linux.go Datapath.ApplyRoutes *)
Definition applyRoutes (routes : list Route) : M S unit :=
  foldM (fun route _ =>
    if is_empty (ro_Slice route) || is_empty (ro_Via route) then ret tt
    else run "ip" ["route"; "replace"; ro_Slice route; "via"; ro_Via route]) routes tt.
(* go: runtime/netdev/netdev_linux.go Datapath.ApplyForwards *)
Definition applyForwards (forwards : list Publish) : M S unit := load_ruleset "apply published ports" (renderForwards forwards).
(* go: runtime/netdev/netdev_linux.go Datapath.ApplyGuards *)
Definition applyGuards (guards : list Guard) : M S unit := load_ruleset "apply firewall rules" (renderGuards guards).
(* go: runtime/netdev/netdev_linux.go Datapath.ApplyFilters *)
Definition applyFilters (filters : list Filter) : M S unit := load_ruleset "apply anti-spoof rules" (renderFilters filters).

(** ** Links *)

(** [strings.SplitN(fields[0], "@", 2)[0]] *)
Definition link_name (field : string) : string :=
  match index_byte field (Ascii.ascii_of_N 64) with Some i => str_take (Z.of_nat i) field | None => field end.
Definition is_managed (name : string) : bool := existsb (has_prefix name) [hostPrefix; tapPrefix; bridgePrefix].
(** The names of the links this program made in a listing. *)
(* go: runtime/netdev/netdev_linux.go:529-542 links *)
Definition links_listed (out : string) : list string :=
  omap (fun l => match fields (of_bytes l) with
    | [] => None
    | first :: _ => if is_managed (link_name first) then Some (link_name first) else None
    end) (split_on 10 (bytes_of out)).
(* go: runtime/netdev/netdev_linux.go managedLinks *)
Definition managedLinks : M S (list string) :=
  let! out := output "ip" ["-brief"; "link"; "show"] in ret (links_listed out).
(* go: runtime/netdev/netdev_linux.go:501-510 wanted *)
Definition wanted_links (keep : Keep) : list string :=
  ke_Bridges keep ++
  concat (map (fun instanceID => concat (map (fun device => [hostName instanceID device; TapName instanceID device]) devices)) (ke_Instances keep)).
(* go: runtime/netdev/netdev_linux.go Datapath.Prune *)
Definition prune (keep : Keep) : M S unit :=
  let! present := managedLinks in
  let wanted := wanted_links keep in
  foldM (fun link _ =>
    if existsb (String.eqb link) wanted then ret tt else run "ip" ["link"; "del"; link]) present tt.

(** The commands run in the network namespace of the process. *)
(* go: runtime/netdev/netdev_linux.go:574-597 steps *)
Definition guest_steps (peer guest : string) (cfg : Interface) : list (list string) :=
  [["ip"; "link"; "set"; peer; "name"; guest];
   ["ip"; "link"; "set"; "dev"; guest; "address"; if_MAC cfg];
   ["ip"; "addr"; "add"; if_IP cfg +:+ "/" +:+ itoa (if_Prefix cfg); "dev"; guest];
   ["ip"; "link"; "set"; guest; "up"];
   ["ip"; "link"; "set"; "lo"; "up"];
   ["ip"; "route"; "add"; if_Gateway cfg; "dev"; guest; "scope"; "link"]] ++
  (if if_Device cfg =? 0 then [["ip"; "route"; "add"; "default"; "via"; if_Gateway cfg]] else []) ++
  (if is_empty (if_IP6 cfg) then []
   else [["ip"; "-6"; "addr"; "add"; if_IP6 cfg +:+ "/" +:+ itoa (if_Prefix6 cfg); "dev"; guest];
         ["ip"; "-6"; "route"; "add"; if_Gateway6 cfg; "dev"; guest]] ++
        (if if_Device cfg =? 0 then [["ip"; "-6"; "route"; "add"; "default"; "via"; if_Gateway6 cfg]] else [])).
(* go: runtime/netdev/netdev_linux.go Attach *)
Definition Attach (pid : Z) (cfg : Interface) : M S unit :=
  let host_ := hostName (if_InstanceID cfg) (if_Device cfg) in
  let peer := peerName (if_InstanceID cfg) (if_Device cfg) in
  let guest := guestName (if_Device cfg) in
  let! exists_ := linkExists host_ in
  (if exists_ then run "ip" ["link"; "del"; host_] else ret tt) ;;;
  run "ip" ["link"; "add"; host_; "type"; "veth"; "peer"; "name"; peer] ;;;
  let target := itoa pid in
  let! moved := attempt (run "ip" ["link"; "set"; peer; "netns"; target]) in
  match moved with
  | Err err => attempt (run "ip" ["link"; "del"; host_]) ;;; fail err
  | Ok _ =>
      run "ip" ["link"; "set"; host_; "master"; if_Bridge cfg] ;;;
      run "ip" ["link"; "set"; host_; "up"] ;;;
      foldM (fun step _ => run "nsenter" (["--target"; target; "--net"; "--"] ++ step)) (guest_steps peer guest cfg) tt
  end.
(* go: runtime/netdev/netdev_linux.go EnsureTap *)
Definition EnsureTap (name bridge : string) : M S unit :=
  let! exists_ := linkExists name in
  (if exists_ then ret tt else run "ip" ["tuntap"; "add"; "dev"; name; "mode"; "tap"]) ;;;
  run "ip" ["link"; "set"; name; "master"; bridge] ;;;
  run "ip" ["link"; "set"; name; "up"].
(* go: runtime/netdev/netdev_linux.go DeleteLink *)
Definition DeleteLink (name : string) : M S unit :=
  let! exists_ := linkExists name in
  if exists_ then run "ip" ["link"; "del"; name] else ret tt.
(* go: runtime/netdev/netdev_linux.go Detach *)
Definition Detach (instanceID : string) : M S unit :=
  foldM (fun device _ =>
    let host_ := hostName instanceID device in
    let! exists_ := linkExists host_ in
    if exists_ then run "ip" ["link"; "del"; host_] else ret tt) devices tt.

(** The datapath the agent of a Linux node is given. *)
(* go: runtime/netdev/netdev.go Datapath *)
Definition datapath : Datapath S := Build_Datapath S applyEgress applyRoutes applyForwards applyGuards applyFilters prune.
End commands.

(** The texts of the tests of the package. *)
Example single_target : forwardRule (MkPublish "tcp" 8080 80 "10.20.0.5" [] "") = "tcp dport 8080 dnat to 10.20.0.5:80".
Proof. vm_compute. reflexivity. Qed.
Example several_targets : forwardRule (MkPublish "tcp" 8080 80 "" ["10.20.0.5"; "10.20.0.6"; "10.20.0.7"] "") =
  "tcp dport 8080 ct mark set 0x1 dnat to numgen inc mod 3 map { 0 : 10.20.0.5 . 80, 1 : 10.20.0.6 . 80, 2 : 10.20.0.7 . 80 }".
Proof. vm_compute. reflexivity. Qed.
Example bridged_lines : bridged_chain [MkGuard "i-1" "" "10.20.0.5" [MkGuardRule "tcp" 80 80 "10.0.0.0/8"; MkGuardRule "any" 0 0 ""]] =
  ["ip daddr 10.20.0.5 ip saddr 10.0.0.0/8 tcp dport 80 accept"; "ip daddr 10.20.0.5  accept";
   "ip daddr 10.20.0.5 tcp flags & (syn | ack) == syn drop"; "ip daddr 10.20.0.5 icmp type echo-request drop"].
Proof. vm_compute. reflexivity. Qed.
Example listing : links_listed ("lo  UNKNOWN" +:+ newline +:+ "msv-4f2a@if7  UP" +:+ newline +:+ "eth0 UP" +:+ newline +:+ "msbr-1 UP" +:+ newline)
  = ["msv-4f2a"; "msbr-1"].
Proof. vm_compute. reflexivity. Qed.

(** * The families of the addresses *)

Lemma contains_byte l c : contains_l l [c] = true <-> c ∈ l.
Proof.
  induction l as [|d l IH]; [set_solver|]. cbn [contains_l]. assert (has_prefix_l (d :: l) [c] = (code d =? code c)) as ->
    by (cbn; destruct l; apply andb_true_r). rewrite orb_true_iff, IH, Z.eqb_eq, elem_of_cons.
  split; (intros [H|H]; [left|by right]); [by apply code_inj|by subst].
Qed.

Lemma family_of s : family s = if bool_decide (colon ∈ bytes_of s) then "ip6" else "ip".
Proof.
  unfold family, str_contains. pose proof (contains_byte (bytes_of s) colon) as H.
  change (bytes_of ":") with [colon]. destruct (contains_l _ _).
  - rewrite bool_decide_true; tauto.
  - rewrite bool_decide_false; [done|]. intros Hc%H. done.
Qed.

Lemma datapath_parse4_bytes s val digLen fields prevDot first r :
  parse4 val digLen fields prevDot first s = Some r -> colon ∉ s.
Proof.
  revert val digLen fields prevDot first. induction s as [|c s IH]; intros val digLen fields prevDot first H; [set_solver|].
  apply not_elem_of_cons. revert H. simpl. destruct ((48 <=? code c) && (code c <=? 57)) eqn:Ed.
  - case_match; [done|]. case_match; [done|]. intros Hp%IH. split; [intros E; by rewrite <- E in Ed|done].
  - destruct (code c =? code dot) eqn:E; [|done]. apply Z.eqb_eq, code_inj in E as ->. destruct (_ || _); [done|].
    destruct (_ =? _)%nat; [done|]. intros H%IH. done.
Qed.

Lemma addr_kind_6 s : addr_kind s = Some true -> colon ∈ s.
Proof.
  induction s as [|c s IH]; simpl; [done|]. destruct (code c =? code dot); [done|]. destruct (code c =? code colon) eqn:E.
  - apply Z.eqb_eq, code_inj in E as ->. set_solver.
  - destruct (_ =? 37); [done|]. intros H%IH. set_solver.
Qed.

Lemma parse6_family s a : parse6 s = Some a -> a_is6 a = true.
Proof.
  unfold parse6, parse6_finish. intros H. repeat case_match; simplify_eq; done.
Qed.

Lemma ParseAddr_family s a : ParseAddr s = Some a -> a_is6 a = bool_decide (colon ∈ s).
Proof.
  unfold ParseAddr. destruct (addr_kind s) as [[]|] eqn:Ek; [| |done].
  - intros H. rewrite bool_decide_true by by apply addr_kind_6. by eapply parse6_family.
  - unfold parse4_fields. destruct (parse4 _ _ _ _ _ _) eqn:E; [|done]. intros [= <-]. simpl.
    by rewrite bool_decide_false by by eapply datapath_parse4_bytes.
Qed.

Lemma family_addr s a : ParseAddr (bytes_of s) = Some a -> family s = if a_is6 a then "ip6" else "ip".
Proof. intros H%ParseAddr_family. by rewrite family_of, H. Qed.

Lemma parse_digits_bytes acc l n : parse_digits acc l = Some n -> Forall (fun c => 48 <= code c <= 57) l.
Proof.
  revert acc. induction l as [|c l IH]; intros acc; [done|]. simpl. intros H. revert H. destruct (_ && _) eqn:E; [|done]. intros H%IH.
  apply andb_true_iff in E as [?%Z.leb_le ?%Z.leb_le]. by constructor.
Qed.

(** The text of a number ends in a digit and holds no colon. *)
Lemma atoi_bytes s n : atoi s = Some n -> colon ∉ bytes_of s /\ exists l c, bytes_of s = l ++ [c] /\ 48 <= code c <= 57.
Proof.
  unfold atoi. destruct (bytes_of s) as [|c l]; [done|]. intros H.
  assert (Hd : forall l', Forall (fun c => 48 <= code c <= 57) l' -> l' <> [] ->
    colon ∉ l' /\ exists l c, l' = l ++ [c] /\ 48 <= code c <= 57).
  { intros l' Hl Hne. split.
    - intros Hc. rewrite Forall_forall in Hl. by apply Hl in Hc as [? Hc].
    - destruct (exists_last Hne) as (l1 & x & ->). apply Forall_app in Hl as [_ [Hx _]%Forall_cons]. by exists l1, x. }
  destruct (code c =? 45) eqn:E1; [|destruct (code c =? 43) eqn:E2].
  1,2: destruct l as [|d l]; [done|]; destruct (parse_digits 0 (d :: l)) eqn:Ep; [|done]; apply parse_digits_bytes in Ep;
    destruct (Hd _ Ep) as [Hc (l' & x & El & Hx)]; [done|]; rewrite El in *; split; [|exists (c :: l'), x; done];
    intros [<-|Hi]%elem_of_cons; done.
  destruct (parse_digits 0 (c :: l)) eqn:Ep; [|done]. apply Hd; [by eapply parse_digits_bytes|done].
Qed.

Lemma index_byte_take l c i : index_byte_l l c = Some i -> l = take i l ++ c :: drop (S i) l.
Proof.
  revert i. induction l as [|d l IH]; intros i; simpl; [done|]. destruct (code d =? code c) eqn:E.
  - apply Z.eqb_eq, code_inj in E as ->. by intros [= <-].
  - destruct (index_byte_l l c) as [j|]; simpl; [|done]. intros [= <-]. simpl. f_equal. by apply IH.
Qed.

Lemma index_byte_lt l c i : index_byte_l l c = Some i -> (i < length l)%nat.
Proof.
  revert i. induction l as [|d l IH]; intros i; simpl; [done|]. destruct (code d =? code c); [intros [= <-]; lia|].
  destruct (index_byte_l l c) as [j|]; simpl; [|done]. intros [= <-]. specialize (IH j eq_refl). lia.
Qed.

Lemma split_last_slash_app s h b : split_last_slash s = Some (h, b) -> s = h ++ slash :: b.
Proof.
  unfold split_last_slash. destruct (index_byte_l (rev s) slash) as [i|] eqn:E; [|done]. intros [= <- <-].
  pose proof (index_byte_lt _ _ _ E) as Hi. rewrite length_rev in Hi. apply index_byte_take, (f_equal (@rev _)) in E. rewrite rev_involutive, rev_app_distr in E. simpl in E.
  rewrite skipn_rev, firstn_rev, !rev_involutive, <- app_assoc in E. exact E.
Qed.

Lemma prefix_family s p : ParsePrefix s = Some p ->
  family s = (if a_is6 (p_addr p) then "ip6" else "ip") /\ exists l c, bytes_of s = l ++ [c] /\ 48 <= code c <= 57.
Proof.
  unfold ParsePrefix. intros H. destruct (split_last_slash _) as [[h b]|] eqn:Es; [|done]. apply split_last_slash_app in Es.
  destruct (ParseAddr h) as [a|] eqn:Ea; [|done]. apply ParseAddr_family in Ea. destruct (_ && _); [done|].
  destruct (atoi (of_bytes b)) as [n|] eqn:En; [|done]. destruct (_ || _); [done|]. injection H as <-. cbn [p_addr].
  apply atoi_bytes in En as [Hc (l & c & El & Hd)]. rewrite bytes_of_of in *. split.
  - rewrite family_of, Es, Ea. repeat case_bool_decide; set_solver.
  - exists (h ++ slash :: l), c. by rewrite Es, El, <- app_assoc.
Qed.

(** * What nft documents of the rules written here *)

(** A packet, as the matches of the rules see it. *)
Record Packet := MkPacket {
  pk_established : bool;   (** of a connection that is established, or related to one *)
  pk_src : Addr; pk_dst : Addr;
  pk_l4 : string;          (** the transport protocol *)
  pk_dport : Z;
  pk_opens : bool;         (** TCP: SYN without ACK *)
  pk_echo : bool;          (** ICMP: an echo request *)
}.
Definition proto_is6 (proto : string) : bool := String.eqb proto "ip6".
(** The matches. *)
Inductive test :=
| Saddr (proto source : string)
| Daddr (proto address : string)
| IsICMP (proto : string)
| Dport (protocol : string) (from to_ : Z)
| Opens
| Echo (proto : string).
Definition test_text (t : test) : string :=
  match t with
  | Saddr proto s => proto +:+ " saddr " +:+ s
  | Daddr proto a => proto +:+ " daddr " +:+ a
  | IsICMP proto => if proto_is6 proto then "meta l4proto ipv6-icmp" else "ip protocol icmp"
  | Dport protocol from to_ => protocol +:+ " dport " +:+ (if from =? to_ then itoa from else itoa from +:+ "-" +:+ itoa to_)
  | Opens => "tcp flags & (syn | ack) == syn"
  | Echo proto => echoRequest proto
  end.
Definition icmp_of (is6 : bool) : string := if is6 then "ipv6-icmp" else "icmp".
Definition test_holds (t : test) (p : Packet) : bool :=
  match t with
  | Saddr proto s => match ParsePrefix s with Some pr => Contains pr (pk_src p) | None => false end
  | Daddr proto a => bool_decide (ParseAddr (bytes_of a) = Some (pk_dst p))
  | IsICMP proto => Bool.eqb (a_is6 (pk_dst p)) (proto_is6 proto) && String.eqb (pk_l4 p) (icmp_of (proto_is6 proto))
  | Dport protocol from to_ => String.eqb (pk_l4 p) protocol && (from <=? pk_dport p) && (pk_dport p <=? to_)
  | Opens => String.eqb (pk_l4 p) "tcp" && pk_opens p
  | Echo proto => String.eqb (pk_l4 p) (icmp_of (proto_is6 proto)) && pk_echo p
  end.
(** A rule: packets of known connections, or those to an address that meet more tests. *)
Inductive nft_rule :=
| Established
| Accept (proto address : string) (tests : list test)
| Drop (proto address : string) (tests : list test).
Definition rule_text (r : nft_rule) : string :=
  match r with
  | Established => established_line
  | Accept proto a ts => test_text (Daddr proto a) +:+ " " +:+ join (map test_text ts) " " +:+ " accept"
  | Drop proto a ts => join (map test_text (Daddr proto a :: ts)) " " +:+ " drop"
  end.
(** What a rule decides of a packet; [None]: the next rule is asked. *)
Definition decides (r : nft_rule) (p : Packet) : option bool :=
  match r with
  | Established => if pk_established p then Some true else None
  | Accept proto a ts => if forallb (fun t => test_holds t p) (Daddr proto a :: ts) then Some true else None
  | Drop proto a ts => if forallb (fun t => test_holds t p) (Daddr proto a :: ts) then Some false else None
  end.
(** What a chain of policy accept makes of a packet, given what each line does. *)
Fixpoint chain_accepts (nft : string -> Packet -> option bool) (lines : list string) (p : Packet) : bool :=
  match lines with
  | [] => true
  | l :: rest => match nft l p with Some v => v | None => chain_accepts nft rest p end
  end.

(** ** The rules of the guards *)

Definition anyone (source : string) : bool := is_empty source || String.eqb source "0.0.0.0/0" || String.eqb source "::/0".
Definition match_tests (proto : string) (rule : GuardRule) : option (list test) :=
  if negb (anyone (gr_Source rule)) && negb (String.eqb (family (gr_Source rule)) proto) then None
  else Some ((if anyone (gr_Source rule) then [] else [Saddr proto (gr_Source rule)]) ++
    (if String.eqb (gr_Protocol rule) "any" then []
     else if String.eqb (gr_Protocol rule) "icmp" then [IsICMP proto]
     else [Dport (gr_Protocol rule) (gr_FromPort rule) (gr_ToPort rule)])).
Definition accept_rules (g : Guard) : list nft_rule :=
  omap (fun rule => Accept (family (gu_IP g)) (gu_IP g) <$> match_tests (family (gu_IP g)) rule) (gu_Rules g).
Definition guard_rules (last : Guard -> list nft_rule) (guards : list Guard) : list nft_rule :=
  concat (map (fun g => if is_empty (gu_IP g) then [] else accept_rules g ++ last g) guards).
Definition drop_rule (g : Guard) : list nft_rule := [Drop (family (gu_IP g)) (gu_IP g) []].
Definition refuse_rules (g : Guard) : list nft_rule :=
  let proto := family (gu_IP g) in [Drop proto (gu_IP g) [Opens]; Drop proto (gu_IP g) [Echo proto]].
Definition routed_rules (guards : list Guard) : list nft_rule := Established :: guard_rules drop_rule guards.
Definition bridged_rules (guards : list Guard) : list nft_rule := guard_rules refuse_rules guards.

(** What the rules of a guard are meant to say. *)
Definition source_admits (source : string) (a : Addr) : bool :=
  anyone source || match ParsePrefix source with Some pr => Contains pr a | None => false end.
Definition admits (rule : GuardRule) (p : Packet) : bool :=
  source_admits (gr_Source rule) (pk_src p) &&
  (if String.eqb (gr_Protocol rule) "any" then true
   else if String.eqb (gr_Protocol rule) "icmp" then String.eqb (pk_l4 p) (icmp_of (a_is6 (pk_dst p)))
   else String.eqb (pk_l4 p) (gr_Protocol rule) && (gr_FromPort rule <=? pk_dport p) && (pk_dport p <=? gr_ToPort rule)).
Definition guards_address (p : Packet) (g : Guard) : bool := bool_decide (ParseAddr (bytes_of (gu_IP g)) = Some (pk_dst p)).
(** A packet goes between two addresses of one family. *)
Definition packet_ok (p : Packet) : Prop := a_is6 (pk_src p) = a_is6 (pk_dst p).
Definition source_ok (rule : GuardRule) : Prop := anyone (gr_Source rule) = true \/ exists pr, ParsePrefix (gr_Source rule) = Some pr.
Definition guard_ok (g : Guard) : Prop :=
  (gu_IP g = "" \/ exists a, ParseAddr (bytes_of (gu_IP g)) = Some a) /\ Forall source_ok (gu_Rules g).
(** nft does with the text of each of these rules what it documents. *)
Definition loaded (nft : string -> Packet -> option bool) (rules : list nft_rule) : Prop :=
  Forall (fun r => forall p, nft (rule_text r) p = decides r p) rules.

(** ** The texts are those of the rules *)

(** Both sides are the same bytes. *)
Ltac same_text := apply bytes_of_inj; rewrite ?bytes_of_app, <- ?app_assoc; reflexivity.

Lemma trim_last s : (exists x l, bytes_of s = x :: l /\ is_space x = false) ->
  (exists l c, bytes_of s = l ++ [c] /\ is_space c = false) -> trim_space (s +:+ " ") = s.
Proof.
  intros (x & l & E & Hx) (l' & c & E' & Hc). unfold trim_space. rewrite bytes_of_app, E. change (bytes_of " ") with [Ascii.ascii_of_N 32].
  cbn [app drop_spaces]. rewrite Hx. change (x :: l ++ [Ascii.ascii_of_N 32]) with ((x :: l) ++ [Ascii.ascii_of_N 32]).
  rewrite <- E, E', rev_app_distr. cbn [rev app drop_spaces]. change (is_space (Ascii.ascii_of_N 32)) with true. cbn iota.
  rewrite rev_app_distr. cbn [rev app drop_spaces]. rewrite Hc. change (c :: rev l') with (rev [c] ++ rev l').
  by rewrite <- rev_app_distr, rev_involutive, <- E', of_bytes_of.
Qed.

Lemma datapath_digit_not_space c : 48 <= code c <= 57 -> is_space c = false.
Proof. intros H. unfold is_space. destruct (Z.leb_spec 9 (code c)), (Z.leb_spec (code c) 13), (Z.eqb_spec (code c) 32); simpl; lia || done. Qed.

Lemma guardMatch_tests is6 rule : let proto := if is6 : bool then "ip6" else "ip" in source_ok rule ->
  guardMatch proto rule = (fun ts => join (map test_text ts) " ") <$> match_tests proto rule.
Proof.
  intros proto Hs. unfold guardMatch, match_tests. fold (anyone (gr_Source rule)). destruct (anyone (gr_Source rule)) eqn:Ea; cbn [negb andb].
  - cbn [app fmap option_fmap option_map]. f_equal. destruct (String.eqb (gr_Protocol rule) "any"); [done|].
    destruct (String.eqb (gr_Protocol rule) "icmp"); [by destruct is6|]. cbn [map join test_text].
    destruct (gr_FromPort rule =? gr_ToPort rule); same_text.
  - destruct Hs as [Hs|(pr & Hpr)]; [congruence|]. apply prefix_family in Hpr as [_ (l & c & El & Hc)].
    destruct (String.eqb (family (gr_Source rule)) proto) eqn:Ef; cbn [negb andb]; [|done]. cbn [fmap option_fmap option_map app]. f_equal.
    destruct (String.eqb (gr_Protocol rule) "any").
    { cbn [app map join test_text]. replace (proto +:+ " saddr " +:+ gr_Source rule +:+ " ") with ((proto +:+ " saddr " +:+ gr_Source rule) +:+ " ") by same_text.
      apply trim_last.
      - destruct is6; eexists _, _; (split; [rewrite bytes_of_app; reflexivity|done]).
      - exists (bytes_of (proto +:+ " saddr ") ++ l), c. split; [|by apply datapath_digit_not_space]. by rewrite !bytes_of_app, El, <- !app_assoc. }
    destruct (String.eqb (gr_Protocol rule) "icmp"); [destruct is6; cbn; same_text|]. cbn [app map join test_text].
    destruct (gr_FromPort rule =? gr_ToPort rule); same_text.
Qed.

Lemma family_proto s : family s = if bool_decide (colon ∈ bytes_of s) then "ip6" else "ip".
Proof. apply family_of. Qed.

Lemma accept_lines_text g : Forall source_ok (gu_Rules g) -> accept_lines g = map rule_text (accept_rules g).
Proof.
  intros H. unfold accept_lines, accept_rules. cbv zeta. rewrite family_of. destruct (bool_decide _);
    (induction H as [|rule rules Hr _ IH]; [done|]; cbn [omap list_omap]; rewrite IH;
     first [rewrite (guardMatch_tests true) by done|rewrite (guardMatch_tests false) by done];
     destruct (match_tests _ rule) as [ts|]; cbn [fmap option_fmap option_map]; [|done]; cbn [map rule_text test_text]; f_equal; same_text).
Qed.

Lemma guard_lines_text last last' guards : (forall g, last g = map rule_text (last' g)) -> Forall guard_ok guards ->
  guard_lines last guards = map rule_text (guard_rules last' guards).
Proof.
  intros Hl. induction 1 as [|g guards [_ Hg] _ IH]; [done|]. unfold guard_lines, guard_rules in *. cbn [map concat]. rewrite map_app, IH. f_equal.
  destruct (is_empty (gu_IP g)); [done|]. by rewrite map_app, accept_lines_text, Hl.
Qed.

Lemma routed_chain_text guards : Forall guard_ok guards -> routed_chain guards = map rule_text (routed_rules guards).
Proof. intros H. unfold routed_chain, routed_rules. cbn [map]. f_equal. apply guard_lines_text; [|done]. intros g. unfold drop_line. cbn. f_equal. same_text. Qed.

Lemma bridged_chain_text guards : Forall guard_ok guards -> bridged_chain guards = map rule_text (bridged_rules guards).
Proof.
  apply guard_lines_text. intros g. unfold refuse_lines. cbn. f_equal; [same_text|]. f_equal. same_text.
Qed.

(** ** What the rules decide *)

(** The first decision of a list of rules. *)
Definition first_decision (rules : list nft_rule) (p : Packet) : option bool := head (omap (fun r => decides r p) rules).

Lemma chain_accepts_rules nft rules p : loaded nft rules -> chain_accepts nft (map rule_text rules) p = default true (first_decision rules p).
Proof.
  intros H. unfold first_decision. induction H as [|r rules Hr _ IH]; [done|]. cbn [map chain_accepts omap list_omap]. rewrite Hr. by destruct (decides r p).
Qed.

Lemma first_decision_app l k p : first_decision (l ++ k) p = match first_decision l p with Some v => Some v | None => first_decision k p end.
Proof. unfold first_decision. rewrite omap_app. by destruct (omap _ l). Qed.

Lemma datapath_Contains_is6 p a : Contains p a = true -> a_is6 (p_addr p) = a_is6 a.
Proof. unfold Contains. by intros [H%eqb_prop _]%andb_true_iff. Qed.

Lemma proto_is6_family s a : ParseAddr (bytes_of s) = Some a -> proto_is6 (family s) = a_is6 a.
Proof. intros ->%family_addr. by destruct (a_is6 a). Qed.

Lemma match_tests_admits g rule p : guards_address p g = true -> packet_ok p -> source_ok rule ->
  match match_tests (family (gu_IP g)) rule with
  | Some ts => forallb (fun t => test_holds t p) ts = admits rule p
  | None => admits rule p = false
  end.
Proof.
  intros Hg%bool_decide_eq_true Hp Hs. pose proof (proto_is6_family _ _ Hg) as Hf. unfold match_tests, admits, source_admits.
  destruct (anyone (gr_Source rule)) eqn:Ea; cbn [negb andb orb].
  - cbn [app]. repeat case_match; cbn [forallb test_holds]; rewrite ?Hf, ?eqb_reflx, ?andb_true_r; done.
  - destruct Hs as [Hs|(pr & Hpr)]; [congruence|]. rewrite Hpr. pose proof (prefix_family _ _ Hpr) as [Ef _].
    destruct (String.eqb (family (gr_Source rule)) (family (gu_IP g))) eqn:E; cbn [negb andb].
    + cbn [app forallb test_holds]. rewrite Hpr. f_equal. repeat case_match; cbn [forallb test_holds]; rewrite ?Hf, ?eqb_reflx, ?andb_true_r; done.
    + apply andb_false_iff. left. destruct (Contains pr (pk_src p)) eqn:Ec; [|done]. apply datapath_Contains_is6 in Ec.
      apply String.eqb_neq in E. rewrite Ef, (family_addr _ _ Hg), Ec, Hp in E. done.
Qed.

Lemma accept_decision g p : packet_ok p -> guard_ok g ->
  first_decision (accept_rules g) p = if guards_address p g && existsb (fun r => admits r p) (gu_Rules g) then Some true else None.
Proof.
  intros Hp [_ Hr]. unfold accept_rules, first_decision. induction Hr as [|rule rules Hs _ IH]; [by rewrite andb_false_r|].
  cbn [omap list_omap existsb]. destruct (guards_address p g) eqn:Eg; cbn [andb] in *.
  - pose proof (match_tests_admits g rule p Eg Hp Hs) as Hm. destruct (match_tests _ rule) as [ts|]; cbn [fmap option_fmap option_map].
    + cbn [omap list_omap decides forallb test_holds]. fold (guards_address p g). rewrite Eg, Hm. cbn [andb]. by destruct (admits rule p).
    + by rewrite Hm.
  - destruct (match_tests _ rule) as [ts|]; cbn [fmap option_fmap option_map]; [|done].
    cbn [omap list_omap decides forallb test_holds]. fold (guards_address p g). by rewrite Eg.
Qed.


(** A list of guards, one after the other. *)
Lemma guard_rules_cons last g guards p : first_decision (guard_rules last (g :: guards)) p =
  if is_empty (gu_IP g) then first_decision (guard_rules last guards) p
  else match first_decision (accept_rules g) p with
       | Some v => Some v
       | None => match first_decision (last g) p with Some v => Some v | None => first_decision (guard_rules last guards) p end
       end.
Proof.
  unfold guard_rules. cbn [map concat]. destruct (is_empty (gu_IP g)); [done|]. rewrite !first_decision_app. by destruct (first_decision (accept_rules g) p).
Qed.

Lemma no_address g p : is_empty (gu_IP g) = true -> guards_address p g = false.
Proof. intros E%is_empty_spec. unfold guards_address. rewrite E. by apply bool_decide_eq_false. Qed.

Definition guard_for (p : Packet) (guards : list Guard) : option Guard := List.find (guards_address p) guards.

Lemma routed_decision guards p : packet_ok p -> Forall guard_ok guards ->
  default true (first_decision (guard_rules drop_rule guards) p) =
  match guard_for p guards with None => true | Some g => existsb (fun r => admits r p) (gu_Rules g) end.
Proof.
  intros Hp. unfold guard_for. induction 1 as [|g guards Hg _ IH]; [done|]. rewrite guard_rules_cons. cbn [List.find].
  destruct (is_empty (gu_IP g)) eqn:Ee; [by rewrite (no_address g p Ee)|].
  rewrite (accept_decision g p Hp Hg). unfold drop_rule, first_decision at 1. cbn [omap list_omap decides forallb test_holds].
  fold (guards_address p g). destruct (guards_address p g); cbn [andb]; [|exact IH]. by destruct (existsb _ _).
Qed.

(** A packet that opens a TCP connection, or an echo request. *)
Definition probes (p : Packet) : bool :=
  String.eqb (pk_l4 p) "tcp" && pk_opens p || String.eqb (pk_l4 p) (icmp_of (a_is6 (pk_dst p))) && pk_echo p.

Lemma refuse_decision g p : first_decision (refuse_rules g) p = if guards_address p g && probes p then Some false else None.
Proof.
  unfold refuse_rules, first_decision. cbn [omap list_omap decides forallb test_holds]. fold (guards_address p g).
  destruct (guards_address p g) eqn:Ea; [|done]. apply bool_decide_eq_true, proto_is6_family in Ea. rewrite Ea, !andb_true_r. cbn [andb].
  unfold probes. destruct (_ && pk_opens p); [done|]. by destruct (_ && _).
Qed.

Lemma bridged_decision guards p : packet_ok p -> Forall guard_ok guards ->
  default true (first_decision (guard_rules refuse_rules guards) p) =
  match guard_for p guards with None => true | Some g => existsb (fun r => admits r p) (gu_Rules g) || negb (probes p) end.
Proof.
  intros Hp Hg. assert (Hq : probes p = false -> default true (first_decision (guard_rules refuse_rules guards) p) = true).
  { intros Hn. induction Hg as [|g guards Hg _ IH]; [done|]. rewrite guard_rules_cons, refuse_decision, Hn, andb_false_r.
    destruct (is_empty _); [done|]. rewrite (accept_decision g p Hp Hg). by destruct (_ && _). }
  unfold guard_for. induction Hg as [|g guards Hg _ IH]; [done|]. rewrite guard_rules_cons, refuse_decision in *. cbn [List.find].
  destruct (is_empty (gu_IP g)) eqn:Ee; [rewrite (no_address g p Ee); auto|].
  rewrite (accept_decision g p Hp Hg) in *. destruct (guards_address p g); cbn [andb] in *; [|by apply IH].
  destruct (existsb _ _); [done|]. destruct (probes p); [done|]. by apply Hq.
Qed.

(** ** What the loaded rules do *)

(** [guards_enforced]: with the rules of the chains [forward] and [output] loaded, a packet that is
    routed to an address is accepted exactly if it belongs to a known connection, no guard
    has the address, or a rule of the first guard that has it admits the packet: its
    source, its protocol and its port. *)
Theorem guards_enforced nft guards p : Forall guard_ok guards -> packet_ok p -> loaded nft (routed_rules guards) ->
  chain_accepts nft (routed_chain guards) p =
  pk_established p || match guard_for p guards with None => true | Some g => existsb (fun r => admits r p) (gu_Rules g) end.
Proof.
  intros Hg Hp Hn. rewrite routed_chain_text, chain_accepts_rules by done. unfold routed_rules, first_decision. cbn [omap list_omap decides].
  destruct (pk_established p); [done|]. by apply routed_decision.
Qed.

(** [bridged_guards_enforced]: between instances of one bridge, a packet that opens a TCP connection
    to a guarded address or asks it for an echo is accepted exactly if a rule of the guard
    admits it; every other packet, UDP among them, is accepted whatever the rules say. *)
Theorem bridged_guards_enforced nft guards p : Forall guard_ok guards -> packet_ok p -> loaded nft (bridged_rules guards) ->
  chain_accepts nft (bridged_chain guards) p =
  match guard_for p guards with None => true | Some g => existsb (fun r => admits r p) (gu_Rules g) || negb (probes p) end.
Proof. intros Hg Hp Hn. rewrite bridged_chain_text, chain_accepts_rules by done. by apply bridged_decision. Qed.

(** [instance_behind_its_firewall]: the plan and the rules together.  An instance assigned to the
    node names a firewall of the list; the addresses of the interfaces are not shared between
    guarded instances.  A packet routed to an address of the instance is then accepted
    exactly if its connection is known or a rule of that firewall admits it. *)
Theorem instance_behind_its_firewall nft assigned networks firewalls p i f n nic :
  Forall guard_ok (guards_of assigned networks firewalls) -> packet_ok p ->
  loaded nft (routed_rules (guards_of assigned networks firewalls)) ->
  i ∈ assigned -> iv_FirewallID i <> "" -> firewall_at firewalls (iv_FirewallID i) = Some f ->
  n ∈ networks -> nic ∈ nw_NICs n -> nv_InstanceID nic = iv_ID i ->
  ParseAddr (bytes_of (nv_IP nic)) = Some (pk_dst p) \/ ParseAddr (bytes_of (nv_IP6 nic)) = Some (pk_dst p) ->
  (forall g, g ∈ guards_of assigned networks firewalls -> guards_address p g = true -> gu_InstanceID g = iv_ID i) ->
  (forall i', i' ∈ assigned -> iv_ID i' = iv_ID i -> i' = i) ->
  chain_accepts nft (routed_chain (guards_of assigned networks firewalls)) p =
  pk_established p || existsb (fun r => admits r p) (map guard_rule (fi_Rules f)).
Proof.
  intros Hg Hp Hn Hi Hfw Hf Hnet Hnic Eid Ha Hown Hone. rewrite routed_chain_text, chain_accepts_rules by done.
  unfold routed_rules, first_decision. cbn [omap list_omap decides]. destruct (pk_established p); [done|]. cbn [orb].
  etransitivity; [exact (routed_decision _ p Hp Hg)|]. unfold guard_for. destruct (List.find _ _) as [g|] eqn:Ef.
  - apply find_some_elem in Ef as [Hin Hga]. pose proof (Hown g Hin Hga) as Eg.
    apply guards_exact in Hin as (i' & f' & n' & nic' & Hi' & _ & Hf' & _ & _ & _ & _ & E1 & _ & E2). rewrite E2.
    assert (i' = i) as -> by (apply Hone; congruence). congruence.
  - exfalso. assert (Hall : forall g, g ∈ guards_of assigned networks firewalls -> guards_address p g = false).
    { intros g Hin%list_elem_of_In. by apply (List.find_none _ _ Ef). }
    assert (Hgu : exists a, ParseAddr (bytes_of a) = Some (pk_dst p) /\ (a = nv_IP nic \/ (a = nv_IP6 nic /\ nv_IP6 nic <> ""))).
    { destruct Ha as [Ha|Ha]; [eauto|]. exists (nv_IP6 nic). split; [done|]. right. split; [done|]. intros E. by rewrite E in Ha. }
    destruct Hgu as (a & Ea & Hor). specialize (Hall (MkGuard (iv_ID i) (iv_Isolation i) a (map guard_rule (fi_Rules f)))).
    unfold guards_address in Hall. cbn in Hall. rewrite bool_decide_true in Hall by done. enough (true = false) by done. apply Hall.
    apply guards_exact. exists i, f, n, nic. split_and!; done.
Qed.

(** * Addresses an interface may use *)

(** A frame that enters a bridge. *)
Record Frame := MkFrame { fr_port : string; fr_mac : string; fr_ip : option Addr; fr_arp : option Addr }.
Inductive field := EtherSource | AddrSource (proto : string) | ArpSource.
(** Frames of a port whose field is another than this are dropped. *)
Record spoof_rule := MkSpoofRule { sr_port : string; sr_field : field; sr_value : string }.
Definition field_text (x : field) : string :=
  match x with EtherSource => "ether saddr" | AddrSource proto => proto +:+ " saddr" | ArpSource => "arp saddr ip" end.
Definition spoof_text (r : spoof_rule) : string :=
  "iifname " +:+ quote (sr_port r) +:+ " " +:+ field_text (sr_field r) +:+ " != " +:+ sr_value r +:+ " drop".
Definition other_address (a : option Addr) (is6 : bool) (text : string) : bool :=
  match a with Some a => Bool.eqb (a_is6 a) is6 && negb (bool_decide (ParseAddr (bytes_of text) = Some a)) | None => false end.
(** A match on a field of a header the frame does not have does not hold. *)
Definition spoofs (r : spoof_rule) (x : Frame) : bool :=
  String.eqb (fr_port x) (sr_port r) &&
  match sr_field r with
  | EtherSource => negb (String.eqb (fr_mac x) (sr_value r))
  | AddrSource proto => other_address (fr_ip x) (proto_is6 proto) (sr_value r)
  | ArpSource => other_address (fr_arp x) false (sr_value r)
  end.
Definition spoof_rules (f : Filter) : list spoof_rule :=
  if is_empty (fl_IP f) || is_empty (fl_MAC f) then []
  else [MkSpoofRule (port_of f) EtherSource (fl_MAC f); MkSpoofRule (port_of f) (AddrSource (family (fl_IP f))) (fl_IP f)] ++
       (if is_empty (fl_IP6 f) then [] else [MkSpoofRule (port_of f) (AddrSource "ip6") (fl_IP6 f)]) ++
       (if String.eqb (family (fl_IP f)) "ip6" then [] else [MkSpoofRule (port_of f) ArpSource (fl_IP f)]).
(** What is left of a frame by a chain of policy accept whose lines only drop. *)
Definition chain_passes (nft : string -> Frame -> bool) (lines : list string) (x : Frame) : bool := forallb (fun l => negb (nft l x)) lines.

(** What a frame of an interface may be: the interface's MAC address, and as source one of its
    addresses of that family if it has one. *)
Definition own_address (a : option Addr) (is6 : bool) (text : string) : Prop := other_address a is6 text = false.
Record genuine (f : Filter) (x : Frame) : Prop := {
  ge_mac : fr_mac x = fl_MAC f;
  ge_ip : own_address (fr_ip x) (proto_is6 (family (fl_IP f))) (fl_IP f);
  ge_ip6 : fl_IP6 f <> "" -> own_address (fr_ip x) true (fl_IP6 f);
  ge_arp : family (fl_IP f) <> "ip6" -> own_address (fr_arp x) false (fl_IP f);
}.

Lemma cons_eq {A} (x y : A) l k : x = y -> l = k -> x :: l = y :: k.
Proof. by intros -> ->. Qed.

Lemma filter_lines_text f : filter_lines f = map spoof_text (spoof_rules f).
Proof.
  unfold filter_lines, spoof_rules. destruct (_ || _); [done|]. cbv zeta. rewrite !map_app. cbn [map]. unfold spoof_text. cbn [sr_port sr_field sr_value field_text].
  cbn [app]. apply cons_eq; [same_text|]. apply cons_eq; [same_text|]. f_equal; [destruct (is_empty (fl_IP6 f)); [done|cbn [map]; apply cons_eq; [same_text|done]]|].
  destruct (String.eqb _ "ip6"); [done|cbn [map]; apply cons_eq; [same_text|done]].
Qed.

Lemma spoof_rules_genuine f x : fl_IP f <> "" -> fl_MAC f <> "" -> fr_port x = port_of f ->
  Forall (fun r => spoofs r x = false) (spoof_rules f) <-> genuine f x.
Proof.
  intros Hip%is_empty_false Hmac%is_empty_false Hport. unfold spoof_rules. rewrite Hip, Hmac. cbn [orb].
  rewrite !Forall_app, !Forall_cons, Forall_nil. unfold spoofs at 1 2. cbn [sr_port sr_field sr_value]. rewrite Hport, String.eqb_refl. cbn [andb].
  rewrite negb_false_iff, String.eqb_eq.
  assert (E6 : Forall (fun r => spoofs r x = false) (if is_empty (fl_IP6 f) then [] else [MkSpoofRule (port_of f) (AddrSource "ip6") (fl_IP6 f)]) <->
    (fl_IP6 f <> "" -> own_address (fr_ip x) true (fl_IP6 f))).
  { rewrite <- is_empty_false. destruct (is_empty (fl_IP6 f)); [rewrite Forall_nil; naive_solver|]. rewrite Forall_singleton. unfold spoofs, own_address.
    cbn [sr_port sr_field sr_value]. rewrite Hport, String.eqb_refl. cbn. naive_solver. }
  assert (Ea : Forall (fun r => spoofs r x = false) (if String.eqb (family (fl_IP f)) "ip6" then [] else [MkSpoofRule (port_of f) ArpSource (fl_IP f)]) <->
    (family (fl_IP f) <> "ip6" -> own_address (fr_arp x) false (fl_IP f))).
  { rewrite <- String.eqb_neq. destruct (String.eqb _ "ip6"); [rewrite Forall_nil; naive_solver|]. rewrite Forall_singleton. unfold spoofs, own_address.
    cbn [sr_port sr_field sr_value]. rewrite Hport, String.eqb_refl. cbn. naive_solver. }
  rewrite E6, Ea. split; [intros ([? [? _]] & ? & ?); by constructor|intros []; naive_solver].
Qed.

(** [spoofing_stopped]: with the rules of the chain loaded, a frame enters a bridge exactly if it is
    genuine for every interface whose link it came in by: it carries the interface's MAC
    address and, as its source, no other address of a family the interface has. *)
Theorem spoofing_stopped nft filters x :
  (forall f r, f ∈ filters -> r ∈ spoof_rules f -> forall y, nft (spoof_text r) y = spoofs r y) ->
  chain_passes nft (filter_chain filters) x = true <->
  forall f, f ∈ filters -> fl_IP f <> "" -> fl_MAC f <> "" -> fr_port x = port_of f -> genuine f x.
Proof.
  intros Hn. unfold chain_passes, filter_chain. rewrite forallb_forall. setoid_rewrite in_concat. split.
  - intros H f Hf Hip Hmac Hport. apply spoof_rules_genuine; [done..|]. apply Forall_forall. intros r Hr. rewrite <- (Hn f r Hf Hr).
    apply negb_true_iff, H. exists (filter_lines f). split; [by apply in_map, list_elem_of_In|]. rewrite filter_lines_text. by apply in_map, list_elem_of_In.
  - intros H l (ls & (f & <- & Hf%list_elem_of_In)%in_map_iff & Hl). rewrite filter_lines_text in Hl. apply in_map_iff in Hl as (r & <- & Hr%list_elem_of_In).
    rewrite (Hn f r Hf Hr). apply negb_true_iff. destruct (decide (fr_port x = port_of f)) as [E|E].
    + destruct (is_empty (fl_IP f)) eqn:Eip; [by unfold spoof_rules in Hr; rewrite Eip in Hr; apply elem_of_nil in Hr|].
      destruct (is_empty (fl_MAC f)) eqn:Emac; [by unfold spoof_rules in Hr; rewrite Eip, Emac in Hr; apply elem_of_nil in Hr|].
      apply is_empty_false in Eip, Emac. pose proof (H f Hf Eip Emac E) as Hg. apply spoof_rules_genuine in Hg; [|done..]. rewrite Forall_forall in Hg. by apply Hg.
    + assert (sr_port r = port_of f) as Ep.
      { unfold spoof_rules in Hr. repeat case_match; set_solver. }
      unfold spoofs. rewrite Ep. apply String.eqb_neq in E. by rewrite E.
Qed.

(** * Published ports *)

Lemma splitByFamily_filter forwards : splitByFamily forwards =
  (List.filter (fun p => negb (String.eqb (family (leading p)) "ip6")) forwards, List.filter (fun p => String.eqb (family (leading p)) "ip6") forwards).
Proof.
  unfold splitByFamily. enough (H : forall four six, fold_left (fun '(four, six) p =>
    if String.eqb (family (leading p)) "ip6" then (four, six ++ [p]) else (four ++ [p], six)) forwards (four, six) =
    (four ++ List.filter (fun p => negb (String.eqb (family (leading p)) "ip6")) forwards,
     six ++ List.filter (fun p => String.eqb (family (leading p)) "ip6") forwards)) by apply H.
  induction forwards as [|p forwards IH]; intros four six; cbn [fold_left List.filter]; [by rewrite !app_nil_r|].
  destruct (String.eqb _ "ip6"); cbn [negb]; by rewrite IH, <- app_assoc.
Qed.

(** The addresses a publication leads to. *)
Definition led_to (p : Publish) : list string := match pu_Targets p with [] => [pu_Address p] | ts => ts end.

Lemma forwardRule_family p : forwardRule p <> "" -> Forall (fun a => family a = family (leading p)) (led_to p).
Proof.
  unfold forwardRule, leading, led_to. destruct (pu_Targets p) as [|t ts] eqn:Et; [by constructor|].
  destruct (forallb _ _) eqn:Ef; cbn [negb]; [|done]. intros _. rewrite forallb_forall in Ef. apply Forall_forall. intros a Ha%list_elem_of_In.
  by apply String.eqb_eq, Ef.
Qed.

(** [published_one_family]: every publication is rendered into the table of the family it leads to
    or nowhere: it is left out exactly if it has no address, or targets of both families.
    No rule of a table names an address of the other family, which nft would refuse with the
    whole ruleset. *)
Theorem published_one_family forwards p : p ∈ forwards ->
  let '(four, six) := splitByFamily forwards in
  (p ∈ (if String.eqb (family (leading p)) "ip6" then six else four)) /\
  (p ∉ (if String.eqb (family (leading p)) "ip6" then four else six)) /\
  (forwardRule p = "" <-> led_to p = [""] /\ pu_Targets p = [] \/ exists a, a ∈ pu_Targets p /\ family a <> family (leading p)) /\
  (forwardRule p <> "" -> Forall (fun a => family a = if String.eqb (family (leading p)) "ip6" then "ip6" else "ip") (led_to p)).
Proof.
  intros Hp. rewrite splitByFamily_filter. split_and!.
  - destruct (String.eqb _ "ip6") eqn:E; apply elem_of_filter_bool; by rewrite E.
  - destruct (String.eqb (family (leading p)) "ip6") eqn:E; intros [_ H]%elem_of_filter_bool; by rewrite E in H.
  - unfold forwardRule, led_to, leading. destruct (pu_Targets p) as [|t ts] eqn:Et.
    + destruct (is_empty (pu_Address p)) eqn:Ea; [apply is_empty_spec in Ea; rewrite Ea; naive_solver|]. apply is_empty_false in Ea. split.
      * intros H. exfalso. apply (f_equal (fun s => length (bytes_of s))) in H. rewrite !bytes_of_app in H.
        assert (E : bytes_of " dnat to " <> []) by done. rewrite !length_app in H. destruct (bytes_of " dnat to ") eqn:E'; [done|]. simpl in H. lia.
      * intros [[[= H] _]|(a & Ha%elem_of_nil & _)]; done.
    + destruct (forallb _ _) eqn:Ef; cbn [negb].
      * split.
        -- intros H. exfalso. apply (f_equal (fun s => length (bytes_of s))) in H. rewrite !bytes_of_app, !length_app in H.
           destruct (bytes_of " map { ") eqn:E'; [done|]. simpl in H. lia.
        -- intros [[_ H]|(a & Ha & Hf)]; [done|]. rewrite forallb_forall in Ef. apply list_elem_of_In in Ha. apply Ef, String.eqb_eq in Ha. done.
      * split; [|done]. intros _. right. assert (H : ~ Forall (fun a => family a = family t) (t :: ts)).
        { intros H. rewrite Forall_forall in H. assert (E : forallb (fun a => String.eqb (family a) (family t)) (t :: ts) = true); [|congruence].
          apply forallb_forall. intros a Ha%list_elem_of_In. by apply String.eqb_eq, H. }
        apply not_Forall_Exists, Exists_exists in H; [|intros a; apply _]. destruct H as (a & Ha & Hf). eauto.
  - intros H%forwardRule_family. eapply Forall_impl; [exact H|]. intros a ->. rewrite family_of. by destruct (bool_decide _).
Qed.

(** * The names of the links fit the kernel and differ *)

Lemma slen_app s t : slen (s +:+ t) = slen s + slen t.
Proof. rewrite !slen_bytes, bytes_of_app, length_app. lia. Qed.

Lemma slen_take n s : 0 <= n -> slen (str_take n s) <= n.
Proof. intros Hn. rewrite slen_bytes, str_take_spec, bytes_of_of, length_take. lia. Qed.

Lemma prefixed_fits prefix id : slen prefix <= maxIfName -> slen (prefixed prefix id) <= maxIfName.
Proof.
  intros H. unfold prefixed. cbv zeta. rewrite slen_app. match goal with |- _ + slen (if ?b then _ else ?s) <= _ => destruct (Z.ltb_spec (maxIfName - slen prefix) (slen s)) end; [|lia].
  pose proof (slen_take (maxIfName - slen prefix)). match goal with |- _ + slen (str_take _ ?s) <= _ => specialize (H1 s) end. lia.
Qed.

Lemma withDevice_fits name d : slen name <= maxIfName -> d ∈ devices -> slen (withDevice name d) <= maxIfName.
Proof.
  intros H Hd. unfold withDevice. destruct (d =? 0); [done|]. assert (Hs : slen ("." +:+ itoa d) = 2).
  { unfold devices, MaxDevices in Hd. cbn in Hd. rewrite !elem_of_cons in Hd. destruct Hd as [-> | [-> | [-> | [-> | Hd%elem_of_nil]]]]; done. }
  cbv zeta. rewrite slen_app, Hs. destruct (Z.ltb_spec maxIfName (slen name + 2)); [|lia].
  pose proof (slen_take (maxIfName - 2) name). unfold maxIfName in *. lia.
Qed.

Lemma withDevice_bytes name d : d ∈ devices -> d <> 0 -> exists l, bytes_of (withDevice name d) = l ++ [Ascii.ascii_of_N 46; digit d].
Proof.
  intros Hd Hn. unfold withDevice. apply Z.eqb_neq in Hn. rewrite Hn. cbv zeta. rewrite bytes_of_app. eexists. f_equal.
  unfold devices, MaxDevices in Hd. cbn in Hd. rewrite !elem_of_cons in Hd. destruct Hd as [-> | [-> | [-> | [-> | Hd%elem_of_nil]]]]; done.
Qed.

Lemma bytes_of_sub s c n : c ∈ bytes_of (str_take n s) \/ c ∈ bytes_of (str_drop n s) -> c ∈ bytes_of s.
Proof. rewrite str_take_spec. unfold str_drop. rewrite !bytes_of_of, <- elem_of_app, take_drop. done. Qed.

Lemma prefixed_bytes prefix id c : c ∈ bytes_of (prefixed prefix id) -> c ∈ bytes_of prefix \/ c ∈ bytes_of id.
Proof.
  unfold prefixed. cbv zeta. rewrite bytes_of_app. intros [H|H]%elem_of_app; [by left|right].
  destruct (_ <? _) in H; [apply (fun x => bytes_of_sub _ _ _ (or_introl x)) in H|]; (destruct (index_byte _ _); [apply (fun x => bytes_of_sub _ _ _ (or_intror x)) in H|]; done).
Qed.

(** [link_names]: every name given to a link fits the kernel's 15 bytes, and the links of two
    devices of one instance have different names, if the instance's id holds no dot. *)
Theorem link_names prefix id d d' : prefix ∈ [hostPrefix; peerPrefix; tapPrefix] -> (Ascii.ascii_of_N 46) ∉ bytes_of id ->
  d ∈ devices -> d' ∈ devices ->
  slen (withDevice (prefixed prefix id) d) <= 15 /\ (withDevice (prefixed prefix id) d = withDevice (prefixed prefix id) d' -> d = d').
Proof.
  intros Hpre Hid Hd Hd'. split.
  - apply withDevice_fits; [|done]. apply prefixed_fits. rewrite !elem_of_cons in Hpre. by destruct Hpre as [-> | [-> | [-> | H%elem_of_nil]]].
  - intros E. apply (f_equal bytes_of) in E.
    assert (Hno : Ascii.ascii_of_N 46 ∉ bytes_of (prefixed prefix id)).
    { intros [H|H]%prefixed_bytes; [|done]. rewrite !elem_of_cons in Hpre. destruct Hpre as [-> | [-> | [-> | Hp%elem_of_nil]]]; [| | |done]; vm_compute in H;
        repeat (apply elem_of_cons in H as [H|H]; [discriminate|]); by apply elem_of_nil in H. }
    destruct (decide (d = 0)) as [-> |Hn], (decide (d' = 0)) as [-> |Hn']; [done| | |].
    + destruct (withDevice_bytes (prefixed prefix id) d' Hd' Hn') as (l & El). rewrite El in E. unfold withDevice in E. cbn in E. exfalso. apply Hno. rewrite E. set_solver.
    + destruct (withDevice_bytes (prefixed prefix id) d Hd Hn) as (l & El). rewrite El in E. unfold withDevice in E. cbn in E. exfalso. apply Hno. rewrite <- E. set_solver.
    + destruct (withDevice_bytes (prefixed prefix id) d Hd Hn) as (l & El), (withDevice_bytes (prefixed prefix id) d' Hd' Hn') as (l' & El').
      rewrite El, El' in E. change [Ascii.ascii_of_N 46; digit d] with ([Ascii.ascii_of_N 46] ++ [digit d]) in E.
      change [Ascii.ascii_of_N 46; digit d'] with ([Ascii.ascii_of_N 46] ++ [digit d']) in E. rewrite !app_assoc in E. apply app_inj_tail in E as [_ E].
      apply (f_equal code) in E. assert (Hr : forall x, x ∈ devices -> 0 <= x < 10).
      { intros x Hx. unfold devices, MaxDevices in Hx. cbn in Hx. rewrite !elem_of_cons in Hx. destruct Hx as [-> | [-> | [-> | [-> | Hx%elem_of_nil]]]]; done || lia. }
      rewrite !code_digit in E by auto. lia.
Qed.
(** Ids are longer than what a name keeps of them: two instances can have one name. *)
Example names_collide : hostName "ins-4f2a8c3d5eqvw" 0 = hostName "ins-4f2a8c3d5eqzz" 0.
Proof. vm_compute. reflexivity. Qed.

(** * The way out of a network: the rules are read back as they were written *)

(** A line of the chain's listing that [masqueradeRules] keeps as it is. *)
Definition one_line (l : list Ascii.ascii) : bool := forallb (fun c => negb (code c =? 10)) l.
Definition tidy (rule : string) : bool :=
  String.eqb (trim_space rule) rule && one_line (bytes_of rule) && has_suffix rule "masquerade" && str_contains rule "saddr".

Lemma split_on_nonempty sep l : split_on sep l <> [].
Proof. destruct l as [|c l]; cbn; [done|]. destruct (split_on sep l); [done|]. by destruct (_ =? _). Qed.

Lemma split_on_line a b : one_line a = true -> split_on 10 (a ++ Ascii.ascii_of_N 10 :: b) = a :: split_on 10 b.
Proof.
  induction a as [|c a IH]; intros H; cbn [app split_on].
  - pose proof (split_on_nonempty 10 b). by destruct (split_on 10 b).
  - apply andb_true_iff in H as [Hc%negb_true_iff Ha]. rewrite (IH Ha). by rewrite Hc.
Qed.

Lemma split_on_lines l : Forall (fun part => one_line part = true) (split_on 10 l).
Proof.
  induction l as [|c l IH]; [by constructor|]. cbn [split_on]. pose proof (split_on_nonempty 10 l). destruct (split_on 10 l) as [|x parts]; [done|].
  apply Forall_cons in IH as [Hx Hp]. destruct (code c =? 10) eqn:E; [by repeat constructor|]. constructor; [|done]. cbn. by rewrite E.
Qed.

Lemma trim_one_line s : one_line (bytes_of s) = true -> one_line (bytes_of (trim_space s)) = true.
Proof.
  unfold one_line. rewrite !forallb_forall. intros H c Hc. apply H. unfold trim_space in Hc. rewrite bytes_of_of in Hc.
  apply in_rev in Hc. destruct (drop_spaces_suffix (rev (drop_spaces (bytes_of s)))) as [p Hp].
  assert (Hc' : In c (rev (drop_spaces (bytes_of s)))) by (rewrite Hp; apply in_app_iff; by right). apply in_rev in Hc'.
  destruct (drop_spaces_suffix (bytes_of s)) as [q Hq]. rewrite Hq. apply in_app_iff. by right.
Qed.

Lemma masqueradeRules_tidy listed : Forall (fun r => tidy r = true) (masqueradeRules listed).
Proof.
  apply Forall_forall. intros r [Hr%list_elem_of_fmap Hf]%elem_of_filter_bool. destruct Hr as (l & -> & Hl).
  pose proof (split_on_lines (bytes_of listed)) as Hs. rewrite Forall_forall in Hs. specialize (Hs l Hl). unfold tidy.
  rewrite trim_space_idem, String.eqb_refl, trim_one_line by by rewrite bytes_of_of. by rewrite <- andb_assoc.
Qed.

Lemma split_text ls : Forall (fun l => one_line (bytes_of l) = true) ls -> split_on 10 (bytes_of (text_of ls)) = map bytes_of ls ++ [[]].
Proof.
  induction 1 as [|l ls Hl _ IH]; [done|]. cbn [text_of fold_right map app]. rewrite !bytes_of_app.
  change (bytes_of newline) with [Ascii.ascii_of_N 10]. cbn [app]. by rewrite split_on_line, <- IH.
Qed.

Lemma trim_indented s : trim_space (indented s) = trim_space s.
Proof. unfold trim_space, indented. by rewrite bytes_of_app. Qed.

(** What is written is what the next listing shows, if nft lists the rules of the chain as lines. *)
Lemma rules_read_back rules : Forall (fun r => tidy r = true) rules -> masqueradeRules (postrouting_text rules) = rules.
Proof.
  intros H. unfold masqueradeRules, postrouting_text. rewrite split_text.
  - rewrite map_app, !map_map, !map_app, !List.filter_app. cbn [map List.filter].
    repeat match goal with |- context [trim_space (of_bytes (bytes_of ?l))] => change (trim_space (of_bytes (bytes_of l))) with (trim_space l) end.
    match goal with |- (?a ++ ?b ++ ?c) ++ ?d = _ => replace a with (@nil string) by (vm_compute; reflexivity); replace c with (@nil string) by (vm_compute; reflexivity); replace d with (@nil string) by (vm_compute; reflexivity) end.
    rewrite !app_nil_r. cbn [app]. rewrite map_map. induction H as [|r rules Hr _ IH]; [done|]. cbn [map List.filter]. rewrite of_bytes_of, trim_indented.
    unfold tidy in Hr. apply andb_true_iff in Hr as [[[Ht%String.eqb_eq _]%andb_true_iff Hm]%andb_true_iff Hs]. rewrite Ht, Hm, Hs. cbn [andb]. by rewrite IH.
  - rewrite !Forall_app. split_and!; [by repeat constructor| |by repeat constructor]. rewrite Forall_map. eapply Forall_impl; [exact H|]. intros r Hr.
    unfold tidy in Hr. apply andb_true_iff in Hr as [[[_ Hl]%andb_true_iff _]%andb_true_iff _]. unfold indented. rewrite bytes_of_app. unfold one_line. by rewrite forallb_app.
Qed.

Lemma existsb_elem (x : string) l : existsb (String.eqb x) l = bool_decide (x ∈ l).
Proof.
  apply eq_true_iff_eq. rewrite bool_decide_eq_true, existsb_exists. setoid_rewrite <- list_elem_of_In. setoid_rewrite String.eqb_eq. naive_solver.
Qed.

Lemma deduped_snoc l rule : deduped (l ++ [rule]) = if bool_decide (rule ∈ deduped l) then deduped l else deduped l ++ [rule].
Proof. unfold deduped. rewrite fold_left_app. cbn [fold_left]. by rewrite existsb_elem. Qed.

Lemma deduped_id l : NoDup l -> deduped l = l.
Proof.
  induction l as [|x l IH] using rev_ind; [done|]. intros (Hl & Hx & _)%NoDup_app. rewrite deduped_snoc, IH by done.
  rewrite bool_decide_false; [done|]. intros H. apply (Hx x H). set_solver.
Qed.

(** A chain that holds one rule twice is as long as the chain without the duplicate and with the
    missing rule: the call returns without adding it. *)
Example missing_rule_skipped :
  let present := ["ip saddr 10.0.0.0/16 masquerade"; "ip saddr 10.0.0.0/16 masquerade"] in
  let unique := deduped (present ++ [egressRule "msbr-b" "10.90.0.1/16"]) in
  length unique = length present /\ egressRule "msbr-b" "10.90.0.1/16" ∉ present.
Proof. split; [vm_compute; reflexivity|]. apply (bool_decide_unpack _). vm_compute. exact I. Qed.

(** * What the commands do to the links and to the chain

    The part of the kernel's state the commands are about, and what [ip] and [nft] document of
    the calls used here.  Any command may fail, and then changes nothing. *)

Record Kernel := MkKernel { k_links : gset string; k_egress : list string }.

Definition show_args (l : string) : list string := ["link"; "show"; l].
Definition list_args : list string := ["-brief"; "link"; "show"].
Definition del_args (l : string) : list string := ["link"; "del"; l].
Definition chain_args : list string := ["list"; "chain"; "inet"; nftTable; "postrouting"].
Definition table_args : list string := ["add"; "table"; "inet"; nftTable].
Definition make_chain_args : list string :=
  ["add"; "chain"; "inet"; nftTable; "postrouting"; "{ type nat hook postrouting priority srcnat; policy accept; }"].

Class Documented {S} `{!Has Kernel S} (host : Host S) : Prop := {
  doc_show env (w : World S) l :
    wp env (CombinedOutput host "ip" (show_args l) "") (fun r w' => part w' = part w /\
      exists out err, r = Ok (out, err) /\ (err = None <-> l ∈ k_links (part w))) w;
  doc_list env (w : World S) :
    wp env (CombinedOutput host "ip" list_args "") (fun r w' => part w' = part w /\
      exists out err, r = Ok (out, err) /\ (err = None -> forall l, l ∈ links_listed out <-> l ∈ k_links (part w) /\ is_managed l = true)) w;
  doc_del env (w : World S) l :
    wp env (CombinedOutput host "ip" (del_args l) "") (fun r w' => exists out err, r = Ok (out, err) /\
      part w' = match err with None => MkKernel (k_links (part w) ∖ {[l]}) (k_egress (part w)) | Some _ => part w end) w;
  doc_table env (w : World S) args : args = table_args \/ args = make_chain_args ->
    wp env (CombinedOutput host "nft" args "") (fun r w' => part w' = part w /\ exists out err, r = Ok (out, err)) w;
  doc_chain env (w : World S) :
    wp env (CombinedOutput host "nft" chain_args "") (fun r w' => part w' = part w /\
      exists out err, r = Ok (out, err) /\ (err = None -> masqueradeRules out = k_egress (part w))) w;
  doc_load env (w : World S) rules : Forall (fun r => tidy r = true) rules ->
    wp env (CombinedOutput host "nft" ["-f"; "-"] (postrouting_text rules)) (fun r w' => exists out err, r = Ok (out, err) /\
      part w' = match err with None => MkKernel (k_links (part w)) rules | Some _ => part w end) w;
}.

Section kernel.
Context {S : Type} `{!Has Kernel S} (host : Host S) `{!Documented host}.
Implicit Types (w : World S).

Lemma wp_linkExists env w l Q :
  (forall w', part w' = part w -> Q (Ok (bool_decide (l ∈ k_links (part w)))) w') -> wp env (linkExists host l) Q w.
Proof.
  intros H. apply wp_bind. eapply wp_mono; [|apply (doc_show env w l)]. intros r w' (E & out & err & -> & He). cbn beta iota.
  rewrite wp_ret. replace (match err with None => true | Some _ => false end) with (bool_decide (l ∈ k_links (part w))); [by apply H|].
  destruct err; [apply bool_decide_eq_false; rewrite <- He; done|by apply bool_decide_eq_true, He].
Qed.

Lemma wp_del env w l (Q : outcome unit -> World S -> Prop) :
  (forall w', part w' = MkKernel (k_links (part w) ∖ {[l]}) (k_egress (part w)) -> Q (Ok tt) w') ->
  (forall e w', part w' = part w -> Q (Err e) w') -> wp env (run host "ip" (del_args l)) Q w.
Proof.
  intros H1 H2. apply wp_bind. eapply wp_mono; [|apply (doc_del env w l)]. intros r w' (out & [err|] & -> & E); cbn beta iota.
  - rewrite wp_fail. by apply H2.
  - rewrite wp_ret. by apply H1.
Qed.

Lemma wp_nft_add env w args (Q : outcome unit -> World S -> Prop) : args = table_args \/ args = make_chain_args ->
  (forall r w', part w' = part w -> Q r w') -> wp env (run host "nft" args) Q w.
Proof.
  intros Ha H. apply wp_bind. eapply wp_mono; [|apply (doc_table env w args Ha)]. intros r w' (E & out & [err|] & ->); cbn beta iota.
  - rewrite wp_fail. by apply H.
  - rewrite wp_ret. by apply H.
Qed.

(** [pruned_exactly]: pruning never touches a link that is wanted or that is not of this program;
    when it succeeds no other link of this program is left. *)
Theorem pruned_exactly keep env w :
  wp env (prune host keep) (fun r w' =>
    k_links (part w') ⊆ k_links (part w) /\ k_egress (part w') = k_egress (part w) /\
    (forall l, l ∈ k_links (part w) -> l ∈ wanted_links keep \/ is_managed l = false -> l ∈ k_links (part w')) /\
    (r = Ok tt -> forall l, l ∈ k_links (part w') -> is_managed l = true -> l ∈ wanted_links keep)) w.
Proof.
  unfold prune, managedLinks, output. rewrite !wp_bind. eapply wp_mono; [|apply (doc_list env w)]. intros r w0 (E0 & out & err & -> & He). cbn beta iota.
  destruct err as [err|]; [rewrite wp_fail, E0; naive_solver|]. rewrite !wp_ret. specialize (He eq_refl).
  eapply wp_mono; [|apply (wp_foldM_done env (fun done_ _ w' => k_links (part w') ⊆ k_links (part w) /\ k_egress (part w') = k_egress (part w) /\
    (forall l, l ∈ k_links (part w) -> l ∈ wanted_links keep \/ is_managed l = false -> l ∈ k_links (part w')) /\
    (forall l, l ∈ k_links (part w') -> l ∈ done_ -> l ∈ wanted_links keep))
    (fun _ w' => k_links (part w') ⊆ k_links (part w) /\ k_egress (part w') = k_egress (part w) /\
    (forall l, l ∈ k_links (part w) -> l ∈ wanted_links keep \/ is_managed l = false -> l ∈ k_links (part w'))))].
  - intros [a|e] w' H; [|naive_solver]. destruct H as (H1 & H2 & H3 & H4). split_and!; [done..|]. intros _ l Hl Hm. apply H4; [done|]. apply He. set_solver.
  - intros done_ l rest _ w1 Epres (H1 & H2 & H3 & H4). destruct (existsb (String.eqb l) (wanted_links keep)) eqn:Ew.
    + rewrite wp_ret. apply existsb_exists in Ew as (l' & Hl'%list_elem_of_In & ->%String.eqb_eq). split_and!; [done..|]. set_solver.
    + apply wp_del; [|intros e w2 E2; by rewrite E2]. intros w2 E2. rewrite E2. cbn [k_links k_egress]. rewrite existsb_false, Forall_forall in Ew.
      assert (Hnw : l ∉ wanted_links keep) by (intros Hw%Ew; by rewrite String.eqb_refl in Hw).
      assert (Hm : is_managed l = true) by (apply (He l); rewrite Epres; set_solver).
      split_and!; [set_solver|done| |set_solver]. intros x Hx Hor. apply elem_of_difference. split; [by apply H3|].
      intros ->%elem_of_singleton. destruct Hor; congruence.
  - rewrite E0. split_and!; [done..|auto|]. set_solver.
Qed.

(** [detached]: taking an instance off the network removes links of that instance only, and all of
    them when it succeeds. *)
Theorem detached instanceID env w :
  wp env (Detach host instanceID) (fun r w' =>
    k_egress (part w') = k_egress (part w) /\ k_links (part w') ⊆ k_links (part w) /\
    (forall l, l ∈ k_links (part w) -> l ∉ map (hostName instanceID) devices -> l ∈ k_links (part w')) /\
    (r = Ok tt -> forall d, d ∈ devices -> hostName instanceID d ∉ k_links (part w'))) w.
Proof.
  unfold Detach. eapply wp_mono; [|apply (wp_foldM_done env (fun done_ _ w' => k_egress (part w') = k_egress (part w) /\ k_links (part w') ⊆ k_links (part w) /\
    (forall l, l ∈ k_links (part w) -> l ∉ map (hostName instanceID) devices -> l ∈ k_links (part w')) /\
    (forall d, d ∈ done_ -> hostName instanceID d ∉ k_links (part w')))
    (fun _ w' => k_egress (part w') = k_egress (part w) /\ k_links (part w') ⊆ k_links (part w) /\
    (forall l, l ∈ k_links (part w) -> l ∉ map (hostName instanceID) devices -> l ∈ k_links (part w'))))].
  - intros [a|e] w' H; naive_solver.
  - intros done_ d rest _ w1 Ed (H1 & H2 & H3 & H4). cbv zeta. rewrite wp_bind. apply wp_linkExists. intros w2 E2. case_bool_decide as Hin.
    + apply wp_del; [|intros e w3 E3; by rewrite E3, E2]. intros w3 E3. rewrite E3, E2. cbn [k_links k_egress]. split_and!; [done|set_solver| |set_solver].
      intros l Hl Hn. apply elem_of_difference. split; [by apply H3|]. intros ->%elem_of_singleton. apply Hn. apply list_elem_of_fmap. exists d. split; [done|]. rewrite Ed. set_solver.
    + rewrite wp_ret, E2. split_and!; [done..|]. intros x [Hx| ->%list_elem_of_singleton]%elem_of_app; [by apply H4|done].
  - split_and!; [done..|auto|]. set_solver.
Qed.

(** [link_deleted]: [DeleteLink] succeeds only with the link gone, and changes nothing else. *)
Theorem link_deleted l env w :
  wp env (DeleteLink host l) (fun r w' => match r with
    | Ok _ => part w' = MkKernel (k_links (part w) ∖ {[l]}) (k_egress (part w))
    | Err _ => part w' = part w end) w.
Proof.
  unfold DeleteLink. rewrite wp_bind. apply wp_linkExists. intros w1 E1. case_bool_decide.
  - apply wp_del; intros; by rewrite <- E1.
  - rewrite wp_ret, E1. destruct (part w) as [ls eg]. cbn in *. f_equal. set_solver.
Qed.

(** [egress_ensured]: if the chain holds no rule twice, a call that succeeds leaves the chain as it
    was with the network's rule added where it was missing; a call that fails changes
    nothing. *)
Theorem egress_ensured bridge cidr env w : NoDup (k_egress (part w)) -> tidy (egressRule bridge cidr) = true ->
  wp env (EnsureEgress host bridge cidr) (fun r w' =>
    part w' = part w \/ k_links (part w') = k_links (part w) /\ k_egress (part w') = k_egress (part w) ++ [egressRule bridge cidr] /\ NoDup (k_egress (part w'))) w /\
  wp env (EnsureEgress host bridge cidr) (fun r w' => r = Ok tt -> egressRule bridge cidr ∈ k_egress (part w')) w.
Proof.
  intros Hnd Ht. set (rule := egressRule bridge cidr) in *.
  enough (H : wp env (EnsureEgress host bridge cidr) (fun r w' =>
    (part w' = part w \/ k_links (part w') = k_links (part w) /\ k_egress (part w') = k_egress (part w) ++ [rule] /\ NoDup (k_egress (part w'))) /\
    (r = Ok tt -> rule ∈ k_egress (part w'))) w) by (split; (eapply wp_mono; [|exact H]); naive_solver).
  unfold EnsureEgress. rewrite wp_bind. apply wp_nft_add; [by left|]. intros [[]|e] w1 E1; [|rewrite E1; naive_solver].
  rewrite wp_bind. apply wp_nft_add; [by right|]. intros [[]|e] w2 E2; [|rewrite E2, E1; naive_solver].
  unfold output. rewrite !wp_bind. eapply wp_mono; [|apply (doc_chain env w2)]. intros r w3 (E3 & out & err & -> & He). cbn beta iota.
  destruct err as [err|]; [rewrite wp_fail, E3, E2, E1; naive_solver|]. rewrite wp_ret. specialize (He eq_refl). rewrite E2, E1 in He.
  pose proof (masqueradeRules_tidy out) as Hpt. rewrite He in *. fold rule. rewrite deduped_snoc, deduped_id by done.
  case_bool_decide as Hin.
  - rewrite Nat.eqb_refl, wp_ret, E3, E2, E1. auto.
  - rewrite length_app. cbn [length]. rewrite (proj2 (Nat.eqb_neq _ _)) by lia. unfold rewritePostrouting, load_ruleset. rewrite wp_bind.
    eapply wp_mono; [|apply (doc_load env w3); apply Forall_app; split; [exact Hpt|by repeat constructor]]. intros r w4 (out4 & [err|] & -> & E4); cbn beta iota.
    + rewrite wp_fail, E4, E3, E2, E1. naive_solver.
    + rewrite wp_ret, E4, E3, E2, E1. cbn [k_links k_egress]. split; [right|set_solver]. split_and!; [done..|]. apply NoDup_app. split_and!; [done|set_solver|apply NoDup_singleton].
Qed.
End kernel.

(** * A node *)

Module Demo.
(** nft for a list of rules that is loaded. *)
Definition nft_of (rules : list nft_rule) (line : string) (p : Packet) : option bool :=
  match List.find (fun r => String.eqb (rule_text r) line) rules with Some r => decides r p | None => None end.

(** [ip] and [nft] of a host whose state is the model's: a command it does not know fails, and so
    does a listing it could not write down. *)
Definition failed : option error := Some (EText "exit status 1").
Definition answers (name : string) (args : list string) (stdin : string) (k : Kernel) : string * option error * Kernel :=
  let listing := text_of (map (fun l => l +:+ " UP") (elements (k_links k))) in
  let chain := text_of (k_egress k) in
  match name, args with
  | "ip", ["link"; "show"; l] => ("", if bool_decide (l ∈ k_links k) then None else failed, k)
  | "ip", ["link"; "del"; l] => if bool_decide (l ∈ k_links k) then ("", None, MkKernel (k_links k ∖ {[l]}) (k_egress k)) else ("", failed, k)
  | "ip", ["-brief"; "link"; "show"] =>
      (listing, if bool_decide (list_to_set (links_listed listing) = filter (fun l => is_managed l = true) (k_links k)) then None else failed, k)
  | "nft", ["-f"; "-"] => ("", None, MkKernel (k_links k) (masqueradeRules stdin))
  | "nft", ["list"; "chain"; "inet"; "marstack"; "postrouting"] => (chain, if bool_decide (masqueradeRules chain = k_egress k) then None else failed, k)
  | "nft", "add" :: _ => ("", None, k)
  | _, _ => ("", failed, k)
  end.
Definition host : Host Kernel := {|
  CombinedOutput name args stdin := fun _ w =>
    let '(out, err, k) := answers name args stdin (part (T:=Kernel) w) in (Ok (out, err), MkWorld k (Datatypes.S (w_step w)) (w_events w));
  ReadFile _ := ret "1";
  WriteFile _ _ := ret tt;
|}.
#[export] Instance documented : Documented host.
Proof.
  split; intros env w; unfold wp; cbn -[postrouting_text masqueradeRules].
  - intros l. split; [done|]. eexists _, _. split; [done|]. case_bool_decide; [done|]. unfold failed. split; [done|]. intros H'. done.
  - split; [done|]. eexists _, _. split; [done|]. case_bool_decide as E; [|done]. intros _ l.
    rewrite <- (elem_of_list_to_set (C:=gset string)), E, elem_of_filter. unfold part. tauto.
  - intros l. case_bool_decide; eexists _, _; (split; [done|]); done.
  - intros args [-> | ->]; cbn; eauto.
  - split; [done|]. eexists _, _. split; [done|]. case_bool_decide; [done|]. done.
  - intros rules Hr. eexists _, _. split; [done|]. unfold part. cbn -[postrouting_text masqueradeRules]. by rewrite rules_read_back.
Qed.

Definition env : Env := {| env_now _ := 0; env_rand _ := []; env_io _ := false |}.
Definition w0 : World Kernel := MkWorld (MkKernel {["lo"; "msv-4f2a8c"; "mst-4f2a8c"; "msbr-gone"; "msbr-kept"]} [egressRule "msbr-kept" "10.20.0.1/16"]) O [].

Definition rule (protocol : string) (port : Z) (source : string) : firewallRuleView := MkFirewallRuleView protocol port port source.
Definition web : firewallView := MkFirewallView "fw-1" "web" [rule "tcp" 80 "10.0.0.0/8"; rule "icmp" 0 "0.0.0.0/0"].
Definition vm : instanceView :=
  MkInstanceView "" "ins-4f2a8c" "web" "vm" "" "" "" "fw-1" 0 [] 1 512 "always" 0 [] ∅ [] "running" "running" "" None false false.
Definition nic : nicView := MkNicView "ins-4f2a8c" 0 "10.20.0.5" "fd00:20::5" "02:00:00:00:00:01".
Definition net : networkView := MkNetworkView "net-1" "main" "msbr-kept" "10.20.0.0/16" "10.20.0.1" "" "" "10.20.0.0/24" "" [nic] [].
Definition guards : list Guard := guards_of [vm] [net] [web].
(** A connection to port 80 of the instance, from inside and from elsewhere. *)
Definition syn (from : string) : Packet :=
  MkPacket false (default (MkAddr false 0) (ParseAddr (bytes_of from))) (MkAddr false 169082885) "tcp" 80 true false.

Lemma guards_fine : Forall guard_ok guards.
Proof.
  assert (Hs : Forall source_ok (map guard_rule (fi_Rules web))) by
    (apply Forall_cons; split; [right; eexists; vm_compute; reflexivity|apply Forall_cons; split; [by left|apply Forall_nil_2]]).
  apply Forall_cons; split; [|apply Forall_cons; split; [|apply Forall_nil_2]]; (split; [right; eexists; vm_compute; reflexivity|exact Hs]).
Qed.
Lemma rules_loaded : loaded (nft_of (routed_rules guards)) (routed_rules guards).
Proof. repeat constructor. Qed.

Lemma instance_behind_its_firewall_witness :
  chain_accepts (nft_of (routed_rules guards)) (routed_chain guards) (syn "10.1.2.3") = true /\
  chain_accepts (nft_of (routed_rules guards)) (routed_chain guards) (syn "192.168.1.1") = false.
Proof.
  assert (H : forall from, packet_ok (syn from) -> chain_accepts (nft_of (routed_rules guards)) (routed_chain guards) (syn from) =
    existsb (fun r => admits r (syn from)) (map guard_rule (fi_Rules web))).
  { intros from Hp. refine (instance_behind_its_firewall _ [vm] [net] [web] (syn from) vm web net nic guards_fine Hp rules_loaded _ _ _ _ _ _ _ _ _).
    - set_solver.
    - done.
    - reflexivity.
    - set_solver.
    - set_solver.
    - reflexivity.
    - left. vm_compute. reflexivity.
    - intros g Hg _. by repeat (apply elem_of_cons in Hg as [-> |Hg]; [reflexivity|]); apply elem_of_nil in Hg.
    - intros i' Hi _. by apply list_elem_of_singleton in Hi. }
  split; (rewrite H; [vm_compute; reflexivity|vm_compute; reflexivity]).
Defined.

(** Between instances of one bridge the rules say nothing of UDP: this packet no rule admits. *)
Example udp_passes_the_bridge :
  let p := MkPacket false (MkAddr false 169082886) (MkAddr false 169082885) "udp" 53 false false in
  chain_accepts (nft_of (bridged_rules guards)) (bridged_chain guards) p = true /\ existsb (fun r => admits r p) (map guard_rule (fi_Rules web)) = false /\
  chain_accepts (nft_of (routed_rules guards)) (routed_chain guards) p = false.
Proof. vm_compute. repeat split; reflexivity. Qed.

Lemma pruned_exactly_witness :
  wp env (prune host (MkKeep ["msbr-kept"] ["ins-4f2a8c"])) (fun _ w' => "msv-4f2a8c" ∈ k_links (part w')) w0.
Proof.
  eapply wp_mono; [|exact (pruned_exactly host (MkKeep ["msbr-kept"] ["ins-4f2a8c"]) env w0)]. intros r w' (_ & _ & H & _). apply H.
  - apply (bool_decide_unpack _). vm_compute. exact I.
  - left. apply (bool_decide_unpack _). vm_compute. exact I.
Defined.
(** The stale bridge is gone afterwards, and nothing else. *)
Example pruned_links : k_links (part (snd (prune host (MkKeep ["msbr-kept"] ["ins-4f2a8c"]) env w0))) = {["lo"; "msv-4f2a8c"; "mst-4f2a8c"; "msbr-kept"]}.
Proof. vm_compute. reflexivity. Qed.

Lemma egress_ensured_witness :
  wp env (EnsureEgress host "msbr-new" "10.90.0.1/16") (fun r w' => r = Ok tt -> egressRule "msbr-new" "10.90.0.1/16" ∈ k_egress (part w')) w0.
Proof.
  refine (proj2 (egress_ensured host "msbr-new" "10.90.0.1/16" env w0 _ _)).
  - apply (bool_decide_unpack _). vm_compute. exact I.
  - vm_compute. reflexivity.
Defined.
Example egress_added : k_egress (part (snd (EnsureEgress host "msbr-new" "10.90.0.1/16" env w0))) =
  [egressRule "msbr-kept" "10.20.0.1/16"; egressRule "msbr-new" "10.90.0.1/16"].
Proof. vm_compute. reflexivity. Qed.
End Demo.
