(* ===== verification/Usage.v ===== *)
(** Usage metering (internal/platform/usage): what nodes report of themselves and their instances,
    the last report of each and a history in buckets of a minute.

    The three tables are one state; [Seen] is the counter of reports since the history was last
    pruned.  Which instances a project has is the interface [Workloads], [None] where the Go field
    may be nil.  A column of SQLite holds 64 bits; sums of memory stay far below that. *)
From stdpp Require Import base tactics numbers strings list gmap sorting.
From Stdlib Require Import ZArith Lia.
From Stdlib Require Ascii.
From S2P Require Import Prelude GoLang Time Effects Regex Kernel Httpx Tables Float64.
From S2P Require Interval.

(** * Data (types.go) *)

Definition HistoryBuckets : Z := 1440.
Definition PruneEvery : Z := 200.
Definition MaxWindow : Z := 24 * hour.
Definition DefaultWindow : Z := hour.
Definition MaxSamples : Z := 512.
(** [int64(BucketSize / time.Second)] *)
Definition bucket_seconds : Z := 60.
(* go: platform/usage/types.go NodeSample *)
Record NodeSample := MkNodeSample { ns_NodeID : string; ns_CPUPercent : float64; ns_MemoryUsedMiB : Z; ns_MemoryMiB : Z; ns_ReportedAt : Z }.
(* go: platform/usage/types.go InstanceSample *)
Record InstanceSample := MkInstanceSample { is_InstanceID : string; is_NodeID : string; is_CPUPercent : float64; is_MemoryUsedMiB : Z; is_ReportedAt : Z }.
(* go: platform/usage/types.go Report *)
Record Report := MkReport { rp_Node : NodeSample; rp_Instances : list InstanceSample }.
(* go: platform/usage/types.go Bucket *)
Record Bucket := MkBucket {
  bk_At : Z; bk_Samples : Z; bk_CPUAverage : float64; bk_CPUPeak : float64; bk_MemoryAverage : Z; bk_MemoryPeak : Z; bk_MemoryMiB : Z;
}.
(* go: platform/usage/types.go History *)
Record History := MkHistory { h_Subject : string; h_Buckets : list Bucket }.
(* go: platform/usage/module.go Workloads *)
Record Workloads (S : Type) := { IDsIn : string -> M S (list string) }.
Arguments IDsIn {S} _ _.

(** * Repository (repository.go) *)

(** A row of the table usage_history; its primary key is the subject and the bucket. *)
(* go: platform/usage/module.go:71-81 usage_history *)
Record HistoryRow := MkHistoryRow {
  hr_Subject : string; hr_Bucket : Z; hr_Samples : Z; hr_CPUSum : float64; hr_CPUPeak : float64; hr_MemorySum : Z; hr_MemoryPeak : Z; hr_MemoryMiB : Z;
}.
Record UsageDB := MkUsageDB { us_nodes : list NodeSample; us_instances : list InstanceSample; us_history : list HistoryRow }.
(** [service.seen] *)
Record Seen := MkSeen { seen : Z }.

Definition node_id (id : string) (n : NodeSample) : bool := String.eqb (ns_NodeID n) id.
Definition instance_id (id : string) (i : InstanceSample) : bool := String.eqb (is_InstanceID i) id.
Definition on_node (id : string) (i : InstanceSample) : bool := String.eqb (is_NodeID i) id.
Definition at_key (subject : string) (bucket : Z) (h : HistoryRow) : bool := String.eqb (hr_Subject h) subject && (hr_Bucket h =? bucket).
Definition by_node : NodeSample -> NodeSample -> bool := by_key ns_NodeID str_ltb (fun _ _ => false).
Definition by_instance : InstanceSample -> InstanceSample -> bool := by_key is_InstanceID str_ltb (fun _ _ => false).
Definition by_bucket (a b : HistoryRow) : bool := hr_Bucket a <? hr_Bucket b.
(** INSERT ... ON CONFLICT (node_id) DO UPDATE. *)
Definition upsert_node (n : NodeSample) (rows : list NodeSample) : list NodeSample :=
  if existsb (node_id (ns_NodeID n)) rows then map (fun x => if node_id (ns_NodeID n) x then n else x) rows else rows ++ [n].
Definition duplicate : error := EWrap "record instance usage" (EText "UNIQUE constraint failed: instance_usage.instance_id").
(** The INSERTs of the instances, one after the other; the first that violates the key ends it. *)
Fixpoint insert_instances (new rows : list InstanceSample) : outcome (list InstanceSample) :=
  match new with
  | [] => Ok rows
  | i :: rest => if existsb (instance_id (is_InstanceID i)) rows then Err duplicate else insert_instances rest (rows ++ [i])
  end.
Definition of_report (r : Report) (i : InstanceSample) : InstanceSample :=
  MkInstanceSample (is_InstanceID i) (ns_NodeID (rp_Node r)) (is_CPUPercent i) (is_MemoryUsedMiB i) (ns_ReportedAt (rp_Node r)).
(** The transaction of [replace]: rolled back as a whole. *)
Definition replaced (r : Report) (db : UsageDB) : outcome unit * UsageDB :=
  match insert_instances (map (of_report r) (rp_Instances r)) (List.filter (fun i => negb (on_node (ns_NodeID (rp_Node r)) i)) (us_instances db)) with
  | Err e => (Err e, db)
  | Ok instances => (Ok tt, MkUsageDB (upsert_node (rp_Node r) (us_nodes db)) instances (us_history db))
  end.
(** [MAX(a, b)] of two columns. *)
Definition fmax (a b : float64) : float64 := if fltb a b then b else a.
(** What a sample adds: its peaks and the memory of the machine. *)
Definition first_row (subject : string) (bucket : Z) (b : Bucket) : HistoryRow :=
  MkHistoryRow subject bucket 1 (bk_CPUPeak b) (bk_CPUPeak b) (bk_MemoryPeak b) (bk_MemoryPeak b) (bk_MemoryMiB b).
Definition add_row (b : Bucket) (h : HistoryRow) : HistoryRow :=
  MkHistoryRow (hr_Subject h) (hr_Bucket h) (hr_Samples h + 1) (fadd (hr_CPUSum h) (bk_CPUPeak b)) (fmax (hr_CPUPeak h) (bk_CPUPeak b))
    (hr_MemorySum h + bk_MemoryPeak b) (Z.max (hr_MemoryPeak h) (bk_MemoryPeak b)) (bk_MemoryMiB b).
Definition upsert_history (subject : string) (bucket : Z) (b : Bucket) (rows : list HistoryRow) : list HistoryRow :=
  if existsb (at_key subject bucket) rows then map (fun h => if at_key subject bucket h then add_row b h else h) rows
  else rows ++ [first_row subject bucket b].
Definition accumulated (bucket : Z) (samples : list (string * Bucket)) (rows : list HistoryRow) : list HistoryRow :=
  fold_left (fun rows '(subject, b) => upsert_history subject bucket b rows) samples rows.
(** [a / b] of two ints. *)
Definition bucket_of_row (h : HistoryRow) : Bucket :=
  MkBucket (wrap64 (hr_Bucket h * bucket_seconds) * second) (hr_Samples h)
    (if 0 <? hr_Samples h then fdiv (hr_CPUSum h) (of_int (hr_Samples h)) else of_int 0) (hr_CPUPeak h)
    (if 0 <? hr_Samples h then Z.quot (hr_MemorySum h) (hr_Samples h) else 0) (hr_MemoryPeak h) (hr_MemoryMiB h).

Section repository.
Context {S : Type} `{!Has UsageDB S}.

(* go: platform/usage/repository.go repository.replace *)
Definition replace (r : Report) : M S unit := sql "record node usage" (replaced r).
(* go: platform/usage/repository.go repository.nodes *)
Definition nodes_rows : M S (list NodeSample) := query "list node usage" (fun db => Ok (sliceStable by_node (us_nodes db))).
(* go: platform/usage/repository.go repository.instances *)
Definition instances_rows : M S (list InstanceSample) := query "list instance usage" (fun db => Ok (sliceStable by_instance (us_instances db))).
(** Two statements. *)
(* go: platform/usage/repository.go repository.forget *)
Definition forget_rows (nodeID : string) : M S unit :=
  sql "forget node usage" (fun db => (Ok tt, MkUsageDB (List.filter (fun n => negb (node_id nodeID n)) (us_nodes db)) (us_instances db) (us_history db))) ;;;
  sql "forget instance usage" (fun db => (Ok tt, MkUsageDB (us_nodes db) (List.filter (fun i => negb (on_node nodeID i)) (us_instances db)) (us_history db))).
(* go: platform/usage/repository.go repository.accumulate *)
Definition accumulate_rows (bucket : Z) (samples : list (string * Bucket)) : M S unit :=
  sql "accumulate usage" (fun db => (Ok tt, MkUsageDB (us_nodes db) (us_instances db) (accumulated bucket samples (us_history db)))).
(* go: platform/usage/repository.go repository.history *)
Definition history_rows (subject : string) (from : Z) : M S (list Bucket) :=
  query "read usage history" (fun db => Ok (map bucket_of_row (sliceStable by_bucket
    (List.filter (fun h => String.eqb (hr_Subject h) subject && (from <=? hr_Bucket h)) (us_history db))))).
(* go: platform/usage/repository.go repository.pruneHistory *)
Definition pruneHistory (before : Z) : M S unit :=
  sql "prune usage history" (fun db => (Ok tt, MkUsageDB (us_nodes db) (us_instances db) (List.filter (fun h => negb (hr_Bucket h <? before)) (us_history db)))).
End repository.

(** * Service (service.go) *)

(* go: platform/usage/service.go bucketOf *)
Definition bucketOf (at_ : Z) : Z := Z.quot (at_ / second) bucket_seconds.

Section service.
Context {S : Type} `{!Has UsageDB S, !Has Seen S} (workloads : option (Workloads S)).

(* go: platform/usage/service.go service.dueForPrune *)
Definition dueForPrune : M S bool :=
  locked (fun s => if wrap64 (seen s + 1) <? PruneEvery then (false, MkSeen (wrap64 (seen s + 1))) else (true, MkSeen 0)).
(** The subjects with what each adds. *)
(* go: platform/usage/service.go:107-123 subjects *)
Definition samples_of (report : Report) : list (string * Bucket) :=
  let n := rp_Node report in
  (ns_NodeID n, MkBucket zero_time 0 (of_int 0) (ns_CPUPercent n) 0 (ns_MemoryUsedMiB n) (ns_MemoryMiB n)) ::
  map (fun i => (is_InstanceID i, MkBucket zero_time 0 (of_int 0) (is_CPUPercent i) 0 (is_MemoryUsedMiB i) 0)) (rp_Instances report).
(* go: platform/usage/service.go service.accumulate *)
Definition accumulate (report : Report) : M S unit :=
  let bucket := bucketOf (ns_ReportedAt (rp_Node report)) in
  let! r := attempt (accumulate_rows bucket (samples_of report)) in
  match r with
  | Err _ => ret tt
  | Ok _ =>
      let! due := dueForPrune in
      if negb due then ret tt
      else let! _ := attempt (pruneHistory (wrap64 (bucket - HistoryBuckets))) in ret tt
  end.
Definition not_negative (cpu : float64) : float64 := if fltb cpu (of_int 0) then of_int 0 else cpu.
Definition with_cpu (i : InstanceSample) : InstanceSample :=
  MkInstanceSample (is_InstanceID i) (is_NodeID i) (not_negative (is_CPUPercent i)) (is_MemoryUsedMiB i) (is_ReportedAt i).
(** The report that is kept. *)
(* go: platform/usage/service.go:42-57 report *)
Definition kept_report (report : Report) (at_ : Z) : Report :=
  let n := rp_Node report in
  MkReport (MkNodeSample (ns_NodeID n) (not_negative (ns_CPUPercent n)) (ns_MemoryUsedMiB n) (ns_MemoryMiB n) at_)
    (map with_cpu (List.filter (fun i => negb (is_empty (is_InstanceID i))) (rp_Instances report))).
(* go: platform/usage/service.go service.record *)
Definition record_ (report : Report) : M S unit :=
  lift (guard (is_empty (ns_NodeID (rp_Node report))) (Invalid "invalid_node" "the node id must not be empty")) ;;;
  lift (guard (MaxSamples <? len (rp_Instances report)) (Invalid "too_many_samples" "a node may report at most 512 instances in one pass")) ;;;
  let! at_ := now in
  let report := kept_report report at_ in
  replace report ;;;
  accumulate report.
(* go: platform/usage/service.go service.nodes *)
Definition nodes : M S (list NodeSample) := nodes_rows.
Definition workloads_unavailable : error := Unavailable "workloads_unavailable" "the platform cannot tell which project an instance belongs to".
(* go: platform/usage/service.go service.instancesIn *)
Definition instancesIn (projectID : string) : M S (list InstanceSample) :=
  match workloads with
  | None => fail workloads_unavailable
  | Some wl =>
      let! held := IDsIn wl projectID in
      let! all := instances_rows in
      ret (List.filter (fun sample => existsb (String.eqb (is_InstanceID sample)) held) all)
  end.
(* go: platform/usage/service.go service.historyOf *)
Definition historyOf (subject : string) (window : Z) : M S History :=
  lift (guard (is_empty subject) (Invalid "invalid_subject" "name the node or instance to read")) ;;;
  let window := if window <=? 0 then DefaultWindow else window in
  let window := if MaxWindow <? window then MaxWindow else window in
  let! at_ := now in
  let! buckets := history_rows subject (bucketOf (time_add at_ (- window))) in
  ret (MkHistory subject buckets).
(* go: platform/usage/service.go service.instanceHistory *)
Definition instanceHistory (projectID subject : string) (window : Z) : M S History :=
  match workloads with
  | None => fail workloads_unavailable
  | Some wl =>
      let! held := IDsIn wl projectID in
      if existsb (fun id => String.eqb id subject) held then historyOf subject window
      else fail (NotFound "instance_not_found" "no instance with that id exists")
  end.
(* go: platform/usage/service.go service.forget *)
Definition forget (nodeID : string) : M S unit := forget_rows nodeID.
End service.

(** * Handlers (handler.go) *)

(* go: platform/usage/handler.go instanceReport *)
Record instanceReport := MkInstanceReport { ir_InstanceID : string; ir_CPUPercent : float64; ir_MemoryUsedMiB : Z }.
(* go: platform/usage/handler.go reportRequest *)
Record reportRequest := MkReportRequest { rr_CPUPercent : float64; rr_MemoryUsedMiB : Z; rr_MemoryMiB : Z; rr_Instances : list instanceReport }.
(* go: platform/usage/handler.go nodeResponse *)
Record nodeResponse := MkNodeResponse { no_NodeID : string; no_CPUPercent : float64; no_MemoryUsedMiB : Z; no_MemoryMiB : Z; no_ReportedAt : string }.
(* go: platform/usage/handler.go instanceResponse *)
Record instanceResponse := MkInstanceResponse { io_InstanceID : string; io_NodeID : string; io_CPUPercent : float64; io_MemoryUsedMiB : Z; io_ReportedAt : string }.
(* go: platform/usage/handler.go bucketResponse *)
Record bucketResponse := MkBucketResponse {
  bo_At : string; bo_Samples : Z; bo_CPUAverage : float64; bo_CPUPeak : float64; bo_MemoryAverage : Z; bo_MemoryPeak : Z; bo_MemoryMiB : Z;
}.
(* go: platform/usage/handler.go historyResponse *)
Record historyResponse := MkHistoryResponse { ho_Subject : string; ho_Window : string; ho_Buckets : list bucketResponse }.
Inductive body :=
| BUsage (nodes : list nodeResponse) (instances : list instanceResponse)
| BHistory (h : historyResponse).
(* go: platform/usage/handler.go round *)
Definition round (value : float64) : float64 :=
  fdiv (of_int (to_int (fadd (fmul value (of_int 10)) (of_ratio 1 2)))) (of_int 10).
(* go: platform/usage/handler.go windowOf *)
Definition windowOf (raw : string) : outcome Z :=
  if is_empty raw then Ok DefaultWindow
  else match Interval.Parse raw with Ok d => Ok d | Err err => Err (Invalid "invalid_window" (error_text err)) end.
(* go: platform/usage/handler.go writeHistory *)
Definition writeHistory (found : History) (window : Z) : historyResponse :=
  MkHistoryResponse (h_Subject found) (duration_String window)
    (map (fun b => MkBucketResponse (rfc3339nano (bk_At b)) (bk_Samples b) (round (bk_CPUAverage b)) (round (bk_CPUPeak b))
      (bk_MemoryAverage b) (bk_MemoryPeak b) (bk_MemoryMiB b)) (h_Buckets found)).

Section handlers.
Context {S : Type} `{!Has UsageDB S, !Has Seen S} (workloads : option (Workloads S)).

(* go: platform/usage/handler.go handler.report *)
Definition handle_report (nodeID : string) (req : outcome reportRequest) : M S (Reply body) :=
  let! req := lift req in
  record_ (MkReport (MkNodeSample nodeID (rr_CPUPercent req) (rr_MemoryUsedMiB req) (rr_MemoryMiB req) zero_time)
    (map (fun s => MkInstanceSample (ir_InstanceID s) "" (ir_CPUPercent s) (ir_MemoryUsedMiB s) zero_time) (rr_Instances req))) ;;;
  WriteHeader StatusNoContent.
(* go: platform/usage/handler.go handler.listNodes *)
Definition handle_listNodes : M S (Reply body) :=
  let! samples := nodes in
  Write StatusOK (BUsage (map (fun s => MkNodeResponse (ns_NodeID s) (round (ns_CPUPercent s)) (ns_MemoryUsedMiB s) (ns_MemoryMiB s)
    (rfc3339nano (ns_ReportedAt s))) samples) []).
(* go: platform/usage/handler.go handler.list *)
Definition handle_list (sc : Scope) : M S (Reply body) :=
  let! instances := instancesIn workloads (sc_ProjectID sc) in
  Write StatusOK (BUsage [] (map (fun s => MkInstanceResponse (is_InstanceID s) (is_NodeID s) (round (is_CPUPercent s)) (is_MemoryUsedMiB s)
    (rfc3339nano (is_ReportedAt s))) instances)).
(* go: platform/usage/handler.go handler.history *)
Definition handle_history (sc : Scope) (subject window : string) : M S (Reply body) :=
  let! window := lift (windowOf window) in
  let! found := instanceHistory workloads (sc_ProjectID sc) subject window in
  Write StatusOK (BHistory (writeHistory found window)).
(* go: platform/usage/handler.go handler.nodeHistory *)
Definition handle_nodeHistory (subject window : string) : M S (Reply body) :=
  let! window := lift (windowOf window) in
  let! found := historyOf subject window in
  Write StatusOK (BHistory (writeHistory found window)).

Inductive request :=
| ReqReport (nodeID : string) (req : outcome reportRequest)
| ReqListNodes
| ReqList (sc : Scope)
| ReqHistory (sc : Scope) (subject window : string)
| ReqNodeHistory (subject window : string).
(* go: platform/usage/module.go Module.Routes *)
Definition serve (r : request) : M S (Reply body) :=
  match r with
  | ReqReport nodeID req => handle_report nodeID req
  | ReqListNodes => handle_listNodes
  | ReqList sc => handle_list sc
  | ReqHistory sc subject window => handle_history sc subject window
  | ReqNodeHistory subject window => handle_nodeHistory subject window
  end.
End handlers.

(** * What the history holds

    The reference: the summary of the samples of one subject that fell into one bucket. *)

Definition same_key (subject : string) (bucket : Z) (a : Z * (string * Bucket)) : bool := (fst a =? bucket) && String.eqb (fst (snd a)) subject.
Definition samples_for (subject : string) (bucket : Z) (adds : list (Z * (string * Bucket))) : list Bucket :=
  map (fun a => snd (snd a)) (List.filter (same_key subject bucket) adds).
Definition sum (l : list Z) : Z := fold_right Z.add 0 l.
Definition summary (subject : string) (bucket : Z) (l : list Bucket) : option HistoryRow :=
  match l with
  | [] => None
  | b :: rest => Some (MkHistoryRow subject bucket (len l) (fold_left fadd (map bk_CPUPeak rest) (bk_CPUPeak b))
      (fold_left fmax (map bk_CPUPeak rest) (bk_CPUPeak b)) (sum (map bk_MemoryPeak l)) (fold_left Z.max (map bk_MemoryPeak rest) (bk_MemoryPeak b))
      (bk_MemoryMiB (List.last rest b)))
  end.
(** The rows after a sequence of additions, each to its bucket. *)
Definition recorded (adds : list (Z * (string * Bucket))) (rows : list HistoryRow) : list HistoryRow :=
  fold_left (fun rows '(bucket, (subject, b)) => upsert_history subject bucket b rows) adds rows.
Definition history_key (h : HistoryRow) : option (string * Z) := Some (hr_Subject h, hr_Bucket h).

Lemma at_key_eq subject bucket h : at_key subject bucket h = true <-> hr_Subject h = subject /\ hr_Bucket h = bucket.
Proof. unfold at_key. by rewrite andb_true_iff, String.eqb_eq, Z.eqb_eq. Qed.

Lemma sum_app l k : sum (l ++ k) = sum l + sum k.
Proof. unfold sum. induction l as [|z l IH]; cbn; lia. Qed.

Lemma summary_snoc subject bucket l b : summary subject bucket (l ++ [b]) =
  Some match summary subject bucket l with None => first_row subject bucket b | Some h => add_row b h end.
Proof.
  destruct l as [|a l]; [unfold summary, first_row; cbn; by rewrite Z.add_0_r|]. cbn [app summary]. unfold add_row. cbn [hr_Subject hr_Bucket hr_Samples hr_CPUSum hr_CPUPeak hr_MemorySum hr_MemoryPeak hr_MemoryMiB].
  rewrite !map_app, !fold_left_app. cbn [map fold_left]. f_equal. f_equal.
  - cbn [length]. rewrite length_app. cbn. lia.
  - cbn [map sum fold_right]. fold sum. rewrite map_app. fold (sum (map bk_MemoryPeak l ++ map bk_MemoryPeak [b])) (sum (map bk_MemoryPeak l)). rewrite sum_app. cbn. lia.
  - by rewrite last_last.
Qed.

Lemma upsert_history_find s k s' k' b rows : List.find (at_key s k) (upsert_history s' k' b rows) =
  if String.eqb s' s && (k' =? k) then Some match List.find (at_key s k) rows with None => first_row s k b | Some h => add_row b h end
  else List.find (at_key s k) rows.
Proof.
  unfold upsert_history. destruct (String.eqb s' s && (k' =? k)) eqn:E.
  - apply andb_true_iff in E as [->%String.eqb_eq ->%Z.eqb_eq]. destruct (existsb (at_key s k) rows) eqn:Ex.
    + induction rows as [|h rows IH]; [done|]. cbn in *. destruct (at_key s k h) eqn:Eh; cbn.
      * assert (at_key s k (add_row b h) = true) as -> by done. done.
      * rewrite Eh. by apply IH.
    + assert (E0 : List.find (at_key s k) rows = None).
      { destruct (List.find _ rows) as [h|] eqn:Ef; [|done]. apply find_some_elem in Ef as [Hin Hk]. rewrite existsb_false, Forall_forall in Ex. by rewrite Ex in Hk. }
      rewrite E0. clear Ex. induction rows as [|h rows IH]; cbn in *; [unfold at_key at 1; cbn; by rewrite String.eqb_refl, Z.eqb_refl|]. destruct (at_key s k h); [done|]. by apply IH.
  - assert (Hne : forall h, at_key s' k' h = true -> at_key s k h = false).
    { intros h [E1 E2]%at_key_eq. unfold at_key. by rewrite E1, E2. }
    destruct (existsb (at_key s' k') rows) eqn:Ex; clear Ex.
    + induction rows as [|h rows IH]; [done|]. cbn. destruct (at_key s' k' h) eqn:Eh.
      * assert (at_key s k (add_row b h) = at_key s k h) as -> by done. rewrite (Hne h Eh). exact IH.
      * destruct (at_key s k h); [done|exact IH].
    + induction rows as [|h rows IH]; cbn; [unfold at_key; cbn; by rewrite E|]. destruct (at_key s k h); [done|exact IH].
Qed.

(** ** Well-formed tables *)

Record row_ok (h : HistoryRow) : Prop := { ro_samples : 1 <= hr_Samples h; ro_memory : hr_MemorySum h <= hr_Samples h * hr_MemoryPeak h }.
Record usage_inv (db : UsageDB) : Prop := {
  ui_node : unique_by (fun n => Some (ns_NodeID n)) (us_nodes db);
  ui_instance : unique_by (fun i => Some (is_InstanceID i)) (us_instances db);
  ui_history : unique_by history_key (us_history db);
  ui_row : Forall row_ok (us_history db);
}.

Lemma insert_instances_ok new rows out : insert_instances new rows = Ok out -> out = rows ++ new /\
  (unique_by (fun i => Some (is_InstanceID i)) rows -> unique_by (fun i => Some (is_InstanceID i)) out).
Proof.
  revert rows. induction new as [|i new IH]; intros rows; cbn; [intros [= <-]; by rewrite app_nil_r|].
  destruct (existsb _ rows) eqn:E; [done|]. intros [-> Hu]%IH. rewrite <- app_assoc. split; [done|]. rewrite <- app_assoc in Hu. intros Hr. apply Hu.
  apply unique_by_app; [done|]. intros x k Hx [= <-] [= Ek]. rewrite existsb_false, Forall_forall in E. specialize (E x Hx). unfold instance_id in E. by rewrite Ek, String.eqb_refl in E.
Qed.

Lemma insert_instances_clash new rows i x : i ∈ new -> x ∈ rows -> is_InstanceID x = is_InstanceID i -> insert_instances new rows = Err duplicate.
Proof.
  revert rows. induction new as [|n new IH]; intros rows Hi Hx E; [by apply elem_of_nil in Hi|]. cbn. destruct (existsb _ rows) eqn:Ex; [done|].
  apply elem_of_cons in Hi as [-> |Hi]; [|apply IH; [done|set_solver|done]]. rewrite existsb_false, Forall_forall in Ex. specialize (Ex x Hx). unfold instance_id in Ex. by rewrite E, String.eqb_refl in Ex.
Qed.

Lemma upsert_history_inv s k b rows : unique_by history_key rows -> Forall row_ok rows ->
  unique_by history_key (upsert_history s k b rows) /\ Forall row_ok (upsert_history s k b rows).
Proof.
  intros Hu Hr. unfold upsert_history. destruct (existsb _ rows) eqn:E; split.
  - apply unique_by_map; [|done]. intros h. by destruct (at_key s k h).
  - apply Forall_map. eapply Forall_impl; [exact Hr|]. intros h [H1 H2]. destruct (at_key s k h); [|done]. constructor; cbn; nia.
  - apply unique_by_app; [done|]. intros x key Hx [= <-] [= E1 E2]. rewrite existsb_false, Forall_forall in E. specialize (E x Hx). unfold at_key in E.
    by rewrite <- E1, <- E2, String.eqb_refl, Z.eqb_refl in E.
  - apply Forall_app. split; [done|]. apply Forall_cons. split; [|constructor]. constructor; cbn; lia.
Qed.

Lemma accumulated_inv k samples rows : unique_by history_key rows -> Forall row_ok rows ->
  unique_by history_key (accumulated k samples rows) /\ Forall row_ok (accumulated k samples rows).
Proof.
  unfold accumulated. revert rows. induction samples as [|[s b] samples IH]; intros rows Hu Hr; [done|]. cbn [fold_left].
  destruct (upsert_history_inv s k b rows Hu Hr). by apply IH.
Qed.

Lemma replaced_inv r db : usage_inv db -> usage_inv (snd (replaced r db)).
Proof.
  intros [H1 H2 H3 H4]. unfold replaced. destruct (insert_instances _ _) as [out|e] eqn:E; cbn; [|done]. apply insert_instances_ok in E as [-> Hu].
  constructor; cbn; try done; [|by apply Hu, unique_by_filter]. unfold upsert_node. destruct (existsb _ _) eqn:Ex.
  - apply unique_by_map; [|done]. intros x. destruct (node_id _ x) eqn:En; [|done]. apply String.eqb_eq in En. by rewrite En.
  - apply unique_by_app; [done|]. intros x k Hx [= <-] [= Ek]. rewrite existsb_false, Forall_forall in Ex. specialize (Ex x Hx). unfold node_id in Ex. by rewrite Ek, String.eqb_refl in Ex.
Qed.

(** ** Properties *)

(** [history_is_summary]: after any additions to an empty history, the row of a subject and a bucket is
    the summary of exactly the samples that were added for them: their number, the sums, the
    peaks, and the memory of the last one; there is no row for what nothing was added to. *)
Theorem history_is_summary adds subject bucket :
  List.find (at_key subject bucket) (recorded adds []) = summary subject bucket (samples_for subject bucket adds).
Proof.
  induction adds as [|[k [s b]] adds IH] using rev_ind; [done|]. unfold recorded, samples_for in *. rewrite fold_left_app, List.filter_app, map_app. cbn [fold_left].
  rewrite upsert_history_find, IH. cbn [List.filter same_key fst snd]. unfold same_key. cbn [fst snd]. rewrite (andb_comm (k =? bucket)). destruct (String.eqb s subject && (k =? bucket)); cbn [map snd].
  - by rewrite summary_snoc.
  - by rewrite app_nil_r.
Qed.

Section operations.
Context {S : Type} `{!Has UsageDB S, !Has Seen S, !Apart Seen UsageDB S} (workloads : option (Workloads S)).
Implicit Types (w : World S).

(** What a report leaves of the history: nothing added, or its samples added and perhaps the
    buckets of more than a day ago dropped. *)
Definition history_step (k : Report) (rows rows' : list HistoryRow) : Prop :=
  let bucket := bucketOf (ns_ReportedAt (rp_Node k)) in
  rows' = rows \/ rows' = accumulated bucket (samples_of k) rows \/
  rows' = List.filter (fun h => negb (hr_Bucket h <? wrap64 (bucket - HistoryBuckets))) (accumulated bucket (samples_of k) rows).

Lemma wp_dueForPrune env w (Q : outcome bool -> World S -> Prop) :
  (forall b w', part w' = part (T:=UsageDB) w -> Q (Ok b) w') -> wp env dueForPrune Q w.
Proof.
  intros H. unfold dueForPrune. apply (wp_locked_apart env (T:=Seen) (U:=UsageDB)). intros w' _ Hw. by apply H.
Qed.

Lemma wp_accumulate env w k : wp env (accumulate k) (fun r w' => r = Ok tt /\ us_nodes (part w') = us_nodes (part w) /\
  us_instances (part w') = us_instances (part w) /\ history_step k (us_history (part w)) (us_history (part w'))) w.
Proof.
  unfold accumulate, accumulate_rows, history_step. cbv zeta. rewrite wp_bind, wp_attempt. apply (wp_write env (T:=UsageDB)); intros w1 E1; cbn [fst snd].
  - rewrite wp_ret, E1. auto.
  - rewrite wp_bind. apply wp_dueForPrune. intros [] w2 E2; cbn [negb]; [|rewrite wp_ret, E2, E1; cbn; auto 6].
    rewrite wp_bind, wp_attempt. unfold pruneHistory. apply (wp_write env (T:=UsageDB)); intros w3 E3; cbn [fst snd]; rewrite wp_ret, E3, E2, E1; cbn; auto 6.
Qed.

Lemma usage_wp_record env w report : wp env (record_ report) (fun r w' => match r with
  | Err _ => part w' = part (T:=UsageDB) w
  | Ok _ => exists at_, let k := kept_report report at_ in ns_NodeID (rp_Node report) <> "" /\
      us_nodes (part w') = upsert_node (rp_Node k) (us_nodes (part w)) /\
      insert_instances (map (of_report k) (rp_Instances k)) (List.filter (fun i => negb (on_node (ns_NodeID (rp_Node k)) i)) (us_instances (part w))) = Ok (us_instances (part w')) /\
      history_step k (us_history (part w)) (us_history (part w'))
  end) w.
Proof.
  unfold record_. rewrite wp_bind, wp_lift. destruct (is_empty _) eqn:Ee; cbn; [done|]. apply is_empty_false in Ee. rewrite wp_bind, wp_lift.
  destruct (MaxSamples <? _); cbn [guard]; [done|]. rewrite wp_bind, wp_now. cbn beta iota zeta. set (at_ := env_now env _).
  rewrite wp_bind. unfold replace. apply (wp_write env (T:=UsageDB)); intros w1 E1.
  - change (part (T:=UsageDB) (tick w)) with (part (T:=UsageDB) w) in E1. exact E1.
  - change (part (T:=UsageDB) (tick w)) with (part (T:=UsageDB) w) in *. unfold replaced in *. destruct (insert_instances _ _) as [out|e] eqn:Ei; cbn [fst snd] in *; [|exact E1].
    eapply wp_mono; [|apply wp_accumulate]. intros r w2 (-> & H1 & H2 & H3). exists at_. cbv zeta. rewrite E1 in H1, H2, H3. cbn in H1, H2, H3. rewrite H1, H2. done.
Qed.

Lemma history_step_inv k rows rows' : history_step k rows rows' -> unique_by history_key rows -> Forall row_ok rows ->
  unique_by history_key rows' /\ Forall row_ok rows'.
Proof.
  intros [-> |[-> | ->]] Hu Hr; [done|by apply accumulated_inv|]. destruct (accumulated_inv (bucketOf (ns_ReportedAt (rp_Node k))) (samples_of k) rows Hu Hr).
  split; [by apply unique_by_filter|by apply Forall_filter_bool].
Qed.

Lemma record_inv env w report : usage_inv (part w) -> wp env (record_ report) (fun _ w' => usage_inv (part w')) w.
Proof.
  intros Hi. eapply wp_mono; [|apply usage_wp_record]. intros [u|e] w' H; [|by rewrite H]. destruct H as (at_ & _ & H1 & H2 & H3).
  pose proof (replaced_inv (kept_report report at_) (part w) Hi) as Hr. unfold replaced in Hr. rewrite H2 in Hr. cbn [snd] in Hr.
  destruct Hr as [R1 R2 _ _]. destruct (history_step_inv _ _ _ H3 (ui_history _ Hi) (ui_row _ Hi)). cbn in R1, R2. constructor; [by rewrite H1|done..].
Qed.
End operations.

(** [report_recorded]: a report that is taken replaces the node's sample and the samples of the
    instances it runs, adds to the history, and touches no sample of another node; one that is
    refused, or fails, changes nothing. *)
Theorem report_recorded {S} `{!Has UsageDB S, !Has Seen S, !Apart Seen UsageDB S} env (w : World S) report : usage_inv (part w) ->
  wp env (record_ report) (fun r w' => match r with
  | Err _ => part w' = part (T:=UsageDB) w
  | Ok _ => exists at_, let k := kept_report report at_ in let me := ns_NodeID (rp_Node report) in
      (forall n, n ∈ us_nodes (part w') <-> n = rp_Node k \/ (n ∈ us_nodes (part w) /\ ns_NodeID n <> me)) /\
      List.filter (on_node me) (us_instances (part w')) = map (of_report k) (rp_Instances k) /\
      List.filter (fun i => negb (on_node me i)) (us_instances (part w')) = List.filter (fun i => negb (on_node me i)) (us_instances (part w)) /\
      history_step k (us_history (part w)) (us_history (part w'))
  end) w.
Proof.
  intros Hi. eapply wp_mono; [|apply usage_wp_record]. intros [u|e] w' H; [|exact H]. destruct H as (at_ & _ & H1 & H2 & H3). exists at_. cbv zeta.
  apply insert_instances_ok in H2 as [H2 _]. set (me := ns_NodeID (rp_Node report)) in *. change (ns_NodeID (rp_Node (kept_report report at_))) with me in *.
  split_and!; [| | |done].
  - intros n. rewrite H1. unfold upsert_node. change (ns_NodeID (rp_Node (kept_report report at_))) with me. destruct (existsb (node_id me) _) eqn:E.
    + rewrite list_elem_of_fmap. split.
      * intros (x & -> & Hx). destruct (node_id me x) eqn:En; [by left|right]. apply String.eqb_neq in En. done.
      * intros [-> |[Hn Hne]].
        -- apply existsb_exists in E as (x & Hx%list_elem_of_In & Ex). exists x. by rewrite Ex.
        -- exists n. apply String.eqb_neq in Hne. unfold node_id. by rewrite Hne.
    + rewrite elem_of_app, list_elem_of_singleton. rewrite existsb_false, Forall_forall in E. split.
      * intros [Hn| ->]; [right|by left]. split; [done|]. apply String.eqb_neq. by apply E.
      * intros [-> |[Hn _]]; auto.
  - rewrite H2, List.filter_app, (filter_none (on_node me) (List.filter _ _)), (filter_all (on_node me) (map _ _)); [done| |].
    + intros i (j & -> & _)%list_elem_of_fmap. unfold on_node, of_report. cbn. apply String.eqb_refl.
    + intros i [_ Hi']%elem_of_filter_bool. by apply negb_true_iff in Hi'.
  - rewrite H2, List.filter_app, (filter_none _ (map _ _)), app_nil_r, (filter_all _ (List.filter _ _)); [done| |].
    + intros i [_ Hi']%elem_of_filter_bool. done.
    + intros i (j & -> & _)%list_elem_of_fmap. unfold on_node, of_report. cbn. by rewrite String.eqb_refl.
Qed.

(** [moved_instance_refused]: while a sample of an instance that another node reported is kept, every
    report that names the instance fails and nothing of it is kept, the node's own load included. *)
Theorem moved_instance_refused {S} `{!Has UsageDB S, !Has Seen S, !Apart Seen UsageDB S} env (w : World S) report i x :
  i ∈ rp_Instances report -> is_InstanceID i <> "" -> x ∈ us_instances (part w) -> is_InstanceID x = is_InstanceID i ->
  is_NodeID x <> ns_NodeID (rp_Node report) ->
  wp env (record_ report) (fun r w' => (exists e, r = Err e) /\ part w' = part (T:=UsageDB) w) w.
Proof.
  intros Hi Hne Hx Eid Hnode. eapply wp_mono; [|apply usage_wp_record]. intros [u|e] w' H; [|by eauto]. exfalso. destruct H as (at_ & _ & _ & H & _).
  rewrite (insert_instances_clash _ _ (of_report (kept_report report at_) (with_cpu i)) x) in H; [done| | |done].
  - apply list_elem_of_fmap. exists (with_cpu i). split; [done|]. apply list_elem_of_fmap. exists i. split; [done|]. apply elem_of_filter_bool.
    split; [done|]. apply negb_true_iff. by apply is_empty_false.
  - apply elem_of_filter_bool. split; [done|]. apply negb_true_iff, String.eqb_neq. exact Hnode.
Qed.

(** [usage_kept]: every request keeps one sample for each node and each instance, one row for each
    subject and bucket, and in every row the sum at most the number of samples times the peak. *)
Theorem usage_kept {S} `{!Has UsageDB S, !Has Seen S, !Apart Seen UsageDB S} (workloads : option (Workloads S)) env r (w : World S) :
  if_some workloads (fun wl => forall p, leaves UsageDB (IDsIn wl p)) -> usage_inv (part w) ->
  wp env (serve workloads r) (fun _ w' => usage_inv (part w')) w.
Proof.
  intros Hwl Hi. assert (Hread : forall A (m : M S A), yields (part (T:=UsageDB) w) m (fun _ => True) -> wp env m (fun _ w' => usage_inv (part w')) w).
  { intros A m Hm. eapply wp_mono; [|exact (yields_leave _ m _ env w Hm I eq_refl)]. by intros r' w' ->. }
  assert (Hh : forall subject window, yields (part (T:=UsageDB) w) (historyOf (S:=S) subject window) (fun _ => True)).
  { intros subject window. unfold historyOf, history_rows. do 3 (m_step; intros). apply yields_leaves, leaves_ret. }
  destruct r; cbn [serve]; unfold handle_report, handle_listNodes, handle_list, handle_history, handle_nodeHistory, nodes, nodes_rows, Write, WriteHeader.
  - rewrite wp_bind, wp_lift. destruct req as [req|e]; [|done]. rewrite wp_bind. eapply wp_mono; [|exact (record_inv env w _ Hi)]. by intros [u|e] w' H.
  - apply Hread. m_step. intros. apply yields_leaves, leaves_ret.
  - unfold instancesIn. destruct workloads as [wl|]; [|done]. apply Hread. eapply yields_bind; [|intros; apply yields_leaves, leaves_ret].
    eapply yields_bind; [apply yields_leaves, (Hwl wl eq_refl)|]. intros held _. unfold instances_rows. m_step. intros. apply yields_leaves, leaves_ret.
  - apply Hread. m_step. intros wnd _. unfold instanceHistory. destruct workloads as [wl|]; [|eapply yields_bind; [eapply yields_mono; [apply yields_fail|]|]; done].
    eapply yields_bind with (P := fun _ => True); [|intros; apply yields_leaves, leaves_ret]. eapply yields_bind; [apply yields_leaves, (Hwl wl eq_refl)|]. intros held _.
    destruct (existsb _ held); [apply Hh|]. by eapply yields_mono; [apply yields_fail|].
  - apply Hread. m_step. intros wnd _. eapply yields_bind; [apply Hh|]. intros; apply yields_leaves, leaves_ret.
Qed.

(** [average_below_peak]: in every history that is shown the memory average of a bucket is at most its peak. *)
Theorem average_below_peak {S} `{!Has UsageDB S} env subject window (w : World S) : usage_inv (part w) ->
  wp env (historyOf subject window) (fun r _ => match r with
    | Ok h => Forall (fun b => 1 <= bk_Samples b /\ bk_MemoryAverage b <= bk_MemoryPeak b) (h_Buckets h) | Err _ => True end) w.
Proof.
  intros Hi. unfold historyOf. rewrite wp_bind, wp_lift. destruct (guard _ _); [|done]. cbv zeta. rewrite wp_bind, wp_now. cbn beta iota. rewrite wp_bind. unfold history_rows.
  apply wp_query. destruct (env_io _ _); [done|]. cbn beta iota. rewrite wp_ret. cbn [h_Buckets]. apply Forall_map.
  rewrite (sliceStable_perm by_bucket). apply Forall_filter_bool. eapply Forall_impl; [exact (ui_row _ Hi)|]. intros h [H1 H2]. cbn.
  rewrite (proj2 (Z.ltb_lt 0 _)) by lia. split; [done|]. destruct (Z.le_gt_cases 0 (hr_MemorySum h)) as [Hs|Hs].
  - rewrite Z.quot_div_nonneg by lia. apply Z.div_le_upper_bound; lia.
  - pose proof (Z.quot_rem' (hr_MemorySum h) (hr_Samples h)) as E. pose proof (Z.rem_bound_pos_neg (hr_MemorySum h) (hr_Samples h) ltac:(lia) ltac:(lia)).
    apply Z.lt_succ_r, (Z.mul_lt_mono_pos_l (hr_Samples h)); lia.
Qed.

Module Demo.
Definition St : Type := (UsageDB * Seen)%type.
#[export] Instance has_db : Has UsageDB St := Has_fst _ _.
#[export] Instance has_seen : Has Seen St := Has_snd _ _.
#[export] Instance apart_seen : Apart Seen UsageDB St := Apart_pair' _ _.
Definition sample (id node : string) : InstanceSample := MkInstanceSample id node (of_int 10) 100 0.
Definition db : UsageDB := MkUsageDB [MkNodeSample "node-a" (of_int 5) 10 100 0] [sample "ins-1" "node-a"] [MkHistoryRow "node-a" 0 2 (of_int 9) (of_int 5) 21 11 100].
Definition env : Env := {| env_now _ := 3600 * second; env_rand _ := []; env_io _ := false |}.
Definition w0 : World St := MkWorld (db, MkSeen 199) O [].
Definition report (node : string) : Report := MkReport (MkNodeSample node (of_int 20) 30 100 0) [sample "ins-1" ""; sample "" ""].
Definition wl : Workloads St := {| IDsIn _ := ret ["ins-1"] |}.
Lemma usage_db_inv : usage_inv db.
Proof.
  constructor; try (apply (bool_decide_unpack _); vm_compute; exact I). apply Forall_cons. split; [|constructor]. constructor; cbn; lia.
Qed.
Lemma report_recorded_witness :
  wp env (record_ (report "node-a")) (fun r w' => r = Ok tt -> length (List.filter (on_node "node-a") (us_instances (part w'))) = 1%nat) w0 /\
  map hr_Bucket (us_history (part (snd (record_ (report "node-a") env w0)))) = [0; 60; 60].
Proof.
  split; [|vm_compute; reflexivity]. eapply wp_mono; [|exact (report_recorded env w0 (report "node-a") usage_db_inv)].
  intros r w' H ->. destruct H as (at_ & _ & H1 & H2 & _). setoid_rewrite H1. reflexivity.
Defined.
Lemma moved_instance_refused_witness : exists e, fst (record_ (report "node-b") env w0) = Err e.
Proof.
  pose proof (moved_instance_refused env w0 (report "node-b") (sample "ins-1" "") (sample "ins-1" "node-a")) as H. unfold wp in H.
  destruct (record_ (report "node-b") env w0) as [r w']. apply H; [set_solver|done|set_solver|done|done].
Defined.
Lemma usage_kept_witness : wp env (serve (Some wl) (ReqList (MkScope "prj-1" "" "" "" "member"))) (fun _ w' => usage_inv (part w')) w0.
Proof. apply (usage_kept (Some wl)); [intros ? [= <-] p; apply leaves_ret|exact usage_db_inv]. Defined.
End Demo.
