(* ===== verification/Alert.v ===== *)
(** Alerts (internal/platform/alert): a threshold on what a workload uses, which has to hold for a
    while before the alert fires.

    The table is the state.  What a workload uses and which workloads a project has are the
    interfaces [Load] and [Workloads], [None] where the Go field may be nil; the recorder of events
    is always set (app.go). *)
From stdpp Require Import base tactics numbers strings list gmap sorting.
From Stdlib Require Import ZArith Lia.
From Stdlib Require Ascii.
From S2P Require Import Prelude GoLang Time Effects Regex Kernel Httpx Tables Float64.
From S2P Require Interval.

(** * Data (types.go) *)

Definition MetricCPU : string := "cpu".
Definition MetricMemory : string := "memory".
Definition Above : string := "above".
Definition Below : string := "below".
Definition StateQuiet : string := "quiet".
Definition StateWarming : string := "warming".
Definition StateFiring : string := "firing".
Definition MaxPerProject : Z := 32.
Definition MinFor : Z := 30 * second.
Definition MaxFor : Z := 6 * hour.
Definition DefaultFor : Z := 2 * minute.
Definition Stale : Z := 3 * minute.
(* go: platform/alert/types.go Metrics *)
Definition Metrics : list string := [MetricCPU; MetricMemory].
(* go: platform/alert/types.go Comparisons *)
Definition Comparisons : list string := [Above; Below].
(* go: platform/alert/types.go Alert *)
Record Alert := MkAlert {
  al_ID : string; al_ProjectID : string; al_Name : string; al_InstanceID : string; al_Metric : string; al_Comparison : string;
  al_Threshold : float64; al_For : Z; al_State : string; al_Since : Z; al_LastValue : float64; al_Message : string;
  al_CreatedAt : Z; al_UpdatedAt : Z;
}.
(* go: platform/alert/types.go CreateParams *)
Record CreateParams := MkCreateParams {
  cp_ProjectID : string; cp_Name : string; cp_InstanceID : string; cp_Metric : string; cp_Comparison : string;
  cp_Threshold : float64; cp_For : string;
}.
(* go: platform/alert/types.go Sample *)
Record Sample := MkSample { sm_CPUPercent : float64; sm_MemoryPercent : float64; sm_MemoryKnown : bool; sm_ReportedAt : Z }.

(* go: platform/alert/service.go Load *)
Record Load (S : Type) := { SamplesOf : M S (gmap string Sample) }.
Arguments SamplesOf {S} _.
(* go: platform/alert/service.go Workloads *)
Record Workloads (S : Type) := { ResolveIn : string -> string -> M S string }.
Arguments ResolveIn {S} _ _ _.

(** * What becomes of an alert (decide.go) *)

(* go: platform/alert/decide.go verdict *)
Record verdict := MkVerdict { v_State : string; v_Value : float64; v_Message : string; v_Changed : bool }.
(* go: platform/alert/decide.go quieten *)
Definition quieten (held : Alert) (why : string) : verdict :=
  MkVerdict StateQuiet (of_int 0) why (negb (String.eqb (al_State held) StateQuiet)).
(* go: platform/alert/decide.go reading *)
Definition reading (metric : string) (sample : Sample) : float64 * bool :=
  if String.eqb metric MetricMemory then (sm_MemoryPercent sample, sm_MemoryKnown sample) else (sm_CPUPercent sample, true).
(* go: platform/alert/decide.go crossed *)
Definition crossed (comparison : string) (value threshold : float64) : bool :=
  if String.eqb comparison Below then fltb value threshold else fltb threshold value.
(* go: platform/alert/decide.go opposite *)
Definition opposite (comparison : string) : string := if String.eqb comparison Below then Above else Below.
Definition percent : string := "%".
(** [%.1f%%] *)
Definition percent_text (x : float64) : string := format_f1 x +:+ percent.
(** [None] for a workload no sample was found of. *)
(* go: platform/alert/decide.go decide *)
Definition decide_ (held : Alert) (sample : option Sample) (now : Z) : verdict :=
  match sample with
  | None => quieten held "no sample has arrived for this workload yet"
  | Some sample =>
      if Stale <? time_sub now (sm_ReportedAt sample) then
        quieten held ("the last sample is " +:+ duration_string (round_second (time_sub now (sm_ReportedAt sample))) +:+
          " old, and a reading nobody refreshed says nothing about now")
      else
        let '(value, known) := reading (al_Metric held) sample in
        if negb known then quieten held "this workload was given no memory limit, so a percentage of it is a guess"
        else if negb (crossed (al_Comparison held) value (al_Threshold held)) then
          let out := quieten held "" in
          MkVerdict (v_State out) value
            (if String.eqb (al_State held) StateFiring
             then al_Metric held +:+ " is " +:+ percent_text value +:+ ", back " +:+ opposite (al_Comparison held) +:+ " " +:+ percent_text (al_Threshold held)
             else v_Message out)
            (v_Changed out)
        else if String.eqb (al_State held) StateQuiet then
          MkVerdict StateWarming value
            (al_Metric held +:+ " is " +:+ percent_text value +:+ ", waiting for it to hold for " +:+ duration_String (al_For held)) true
        else if String.eqb (al_State held) StateWarming then
          if time_sub now (al_Since held) <? al_For held then MkVerdict StateWarming value "" false
          else MkVerdict StateFiring value
            (al_Metric held +:+ " has been " +:+ al_Comparison held +:+ " " +:+ percent_text (al_Threshold held) +:+ " for " +:+
             duration_String (al_For held) +:+ ", and is " +:+ percent_text value +:+ " now") true
        else MkVerdict StateFiring value "" false
  end.

(** * Repository (repository.go)

    UNIQUE (id) and (project_id, name), one error for both.  The window is kept in whole seconds. *)

Record AlertDB := MkAlertDB { al_rows : list Alert }.

Definition errNotFound : error := ESentinel "alert not found".
Definition errNameTaken : error := ESentinel "alert name already used".
Definition has_id (id : string) (a : Alert) : bool := String.eqb (al_ID a) id.
Definition in_project (projectID : string) (a : Alert) : bool := String.eqb (al_ProjectID a) projectID.
Definition named (projectID name : string) (a : Alert) : bool := in_project projectID a && String.eqb (al_Name a) name.
Definition of_instance (instanceID : string) (a : Alert) : bool := String.eqb (al_InstanceID a) instanceID.
Definition clash (n a : Alert) : bool := has_id (al_ID n) a || named (al_ProjectID n) (al_Name n) a.
(** [time.Duration(int(a.For.Seconds())) * time.Second] *)
Definition kept_for (d : Z) : Z := wrap64 (to_int (Interval.seconds d) * second).
Definition with_for (d : Z) (a : Alert) : Alert :=
  MkAlert (al_ID a) (al_ProjectID a) (al_Name a) (al_InstanceID a) (al_Metric a) (al_Comparison a) (al_Threshold a) d (al_State a) (al_Since a)
    (al_LastValue a) (al_Message a) (al_CreatedAt a) (al_UpdatedAt a).
Definition with_state (state : string) (since : Z) (value : float64) (message : string) (updated : Z) (a : Alert) : Alert :=
  MkAlert (al_ID a) (al_ProjectID a) (al_Name a) (al_InstanceID a) (al_Metric a) (al_Comparison a) (al_Threshold a) (al_For a) state since
    value message (al_CreatedAt a) updated.
Definition stored (a : Alert) : Alert := with_for (kept_for (al_For a)) a.
Definition by_created : Alert -> Alert -> bool := by_key (fun a => rfc3339nano (al_CreatedAt a)) str_ltb (fun _ _ => false).
Definition on_rows {A} (q : list Alert -> outcome A * list Alert) (db : AlertDB) : outcome A * AlertDB :=
  let '(r, rows) := q (al_rows db) in (r, MkAlertDB rows).

Definition write_state (a x : Alert) : Alert :=
  if has_id (al_ID a) x then with_state (al_State a) (al_Since a) (al_LastValue a) (al_Message a) (al_UpdatedAt a) x else x.

Section repository.
Context {S : Type} `{!Has AlertDB S}.

(* go: platform/alert/repository.go repository.insert *)
Definition insert (a : Alert) : M S unit := sql "insert an alert" (on_rows (insert_row (clash a) errNameTaken (stored a))).
(* go: platform/alert/repository.go repository.setState *)
Definition setState (a : Alert) : M S unit :=
  sql "update an alert" (on_rows (fun rows => (Ok tt, map (write_state a) rows))).
(* go: platform/alert/repository.go repository.query *)
Definition query_rows (q : list Alert -> list Alert) : M S (list Alert) := query "list alerts" (fun db => Ok (q (al_rows db))).
(* go: platform/alert/repository.go repository.all *)
Definition all : M S (list Alert) := query_rows (sliceStable by_created).
(* go: platform/alert/repository.go repository.listIn *)
Definition listIn_rows (projectID : string) : M S (list Alert) :=
  query_rows (fun rows => sliceStable by_created (List.filter (in_project projectID) rows)).
(* go: platform/alert/repository.go repository.countIn *)
Definition countIn (projectID : string) : M S Z :=
  query "count alerts" (fun db => Ok (len (List.filter (in_project projectID) (al_rows db)))).
(** Without an ORDER BY, in the order of the table. *)
(* go: platform/alert/repository.go repository.find *)
Definition find_ (projectID ref : string) : M S Alert :=
  let! held := query_rows (List.filter (fun a => in_project projectID a && (has_id ref a || String.eqb (al_Name a) ref))) in
  match held with [] => fail errNotFound | a :: _ => ret a end.
(* go: platform/alert/repository.go repository.delete *)
Definition delete_row (id : string) : M S unit := sql "delete an alert" (on_rows (delete_where (has_id id) errNotFound)).
(* go: platform/alert/repository.go repository.deleteInstance *)
Definition deleteInstance (instanceID : string) : M S unit :=
  sql "delete the alerts of an instance" (on_rows (fun rows => (Ok tt, List.filter (fun a => negb (of_instance instanceID a)) rows))).
End repository.

(** * Service (service.go) *)

Section service.
Context {S : Type} `{!Has AlertDB S} (load : option (Load S)) (workloads : option (Workloads S)).

(** The checks of a request; the comparison and the window filled in. *)
(* go: platform/alert/service.go:44-73 params *)
Definition check_params (params : CreateParams) : outcome (string * Z) :=
  try _ := validate_Name "name" (cp_Name params) in
  try _ := validate_OneOf "metric" (cp_Metric params) Metrics in
  let comparison := if is_empty (cp_Comparison params) then Above else cp_Comparison params in
  try _ := validate_OneOf "comparison" comparison Comparisons in
  try _ := guard (fleb (cp_Threshold params) (of_int 0) || fltb (of_int 100) (cp_Threshold params))
    (Invalid "invalid_threshold" "a threshold is a percentage between 0 and 100") in
  try window := (if is_empty (cp_For params) then Ok DefaultFor
    else match Interval.Parse (cp_For params) with Ok d => Ok d | Err err => Err (Invalid "invalid_for" (error_text err)) end) in
  try _ := guard ((window <? MinFor) || (MaxFor <? window))
    (Invalid "invalid_for" ("an alert must hold for between " +:+ duration_String MinFor +:+ " and " +:+ duration_String MaxFor +:+
      ": anything shorter fires on a single spike")) in
  Ok (comparison, window).
(* go: platform/alert/service.go service.create *)
Definition create (params : CreateParams) : M S Alert :=
  let! ' (comparison, window) := lift (check_params params) in
  match workloads with
  | None => fail (Unavailable "instances_unavailable" "the platform cannot look up a workload")
  | Some w =>
      let! instanceID := ResolveIn w (cp_InstanceID params) (cp_ProjectID params) in
      let! count := countIn (cp_ProjectID params) in
      lift (guard (MaxPerProject <=? count) (Invalid "too_many_alerts" ("a project holds at most " +:+ itoa MaxPerProject +:+ " alerts"))) ;;;
      let! at_ := now in
      let! id := ids_New "alr" in
      let held := MkAlert id (cp_ProjectID params) (cp_Name params) instanceID (cp_Metric params) comparison (cp_Threshold params) window
        StateQuiet at_ (of_int 0) "nothing has been read yet" at_ at_ in
      mapped (fun err => if errors_Is err "alert name already used"
        then Conflict "name_taken" ("an alert called " +:+ cp_Name params +:+ " already exists in this project") else err) (insert held) ;;;
      ret held
  end.
(* go: platform/alert/service.go service.listIn *)
Definition listIn (projectID : string) : M S (list Alert) := listIn_rows projectID.
(* go: platform/alert/service.go service.get *)
Definition get (projectID ref : string) : M S Alert :=
  mapped (fun err => if errors_Is err "alert not found" then NotFound "alert_not_found" "no alert with that name or id exists" else err) (find_ projectID ref).
(* go: platform/alert/service.go service.remove *)
Definition remove (projectID ref : string) : M S unit :=
  let! held := get projectID ref in delete_row (al_ID held).
(* go: platform/alert/service.go service.ReleaseInstance *)
Definition ReleaseInstance (instanceID : string) : M S unit := deleteInstance instanceID.

(** The alert a pass writes back. *)
(* go: platform/alert/service.go:167-179 decide *)
Definition updated (one : Alert) (sample : option Sample) (at_ : Z) : Alert :=
  let out := decide_ one sample at_ in
  with_state (v_State out) (if negb (String.eqb (al_State one) (v_State out)) then at_ else al_Since one) (v_Value out)
    (if negb (is_empty (v_Message out)) then v_Message out else al_Message one) at_ one.
(** What is announced of an alert that was in the state [before]. *)
(* go: platform/alert/service.go:199-216 held *)
Definition announcement (held : Alert) (before : string) : option Entry :=
  if String.eqb (al_State held) StateWarming then None
  else
    let message := al_Name held +:+ ": " +:+ al_Message held in
    let entry := if String.eqb (al_State held) StateFiring
      then {| ev_ProjectID := al_ProjectID held; ev_Kind := "alert.firing"; ev_Subject := al_InstanceID held; ev_NodeID := ""; ev_Message := message; ev_Severity := Warn |}
      else {| ev_ProjectID := al_ProjectID held; ev_Kind := "alert.cleared"; ev_Subject := al_InstanceID held; ev_NodeID := ""; ev_Message := message; ev_Severity := Info |} in
    if String.eqb (al_State held) StateQuiet && negb (String.eqb before StateFiring) then None else Some entry.
(* go: platform/alert/service.go service.announce *)
Definition announce (held : Alert) (before : string) : M S unit :=
  match announcement held before with Some entry => record entry | None => ret tt end.
(** One turn of the loop. *)
(* go: platform/alert/service.go:167-190 one *)
Definition sweep_one (samples : gmap string Sample) (at_ : Z) (one : Alert) (moved : Z) : M S Z :=
  let sample := samples !! al_InstanceID one in
  let next := updated one sample at_ in
  let! r := attempt (setState next) in
  match r with
  | Err _ => ret moved
  | Ok _ =>
      if negb (v_Changed (decide_ one sample at_)) then ret moved
      else announce next (al_State one) ;;; ret (moved + 1)
  end.
(* go: platform/alert/service.go service.sweep *)
Definition sweep : M S Z :=
  match load with
  | None => ret 0
  | Some l =>
      let! held := all in
      match held with
      | [] => ret 0
      | _ =>
          let! samples := SamplesOf l in
          let! at_ := now in
          foldM (sweep_one samples at_) held 0
      end
  end.
End service.

(** * Handlers (handler.go) *)

(* go: platform/alert/handler.go createRequest *)
Record createRequest := MkCreateRequest {
  cr_Name : string; cr_InstanceID : string; cr_Metric : string; cr_Comparison : string; cr_Threshold : float64; cr_For : string;
}.
(* go: platform/alert/handler.go response *)
Record response := MkResponse {
  o_ID : string; o_Name : string; o_InstanceID : string; o_Metric : string; o_Comparison : string; o_Threshold : float64; o_For : string;
  o_State : string; o_LastValue : float64; o_Message : string; o_Since : string; o_CreatedAt : string;
}.
(* go: platform/alert/handler.go toResponse *)
Definition toResponse (a : Alert) : response :=
  MkResponse (al_ID a) (al_Name a) (al_InstanceID a) (al_Metric a) (al_Comparison a) (al_Threshold a) (duration_String (al_For a)) (al_State a)
    (al_LastValue a) (al_Message a) (rfc3339nano (al_Since a)) (rfc3339nano (al_CreatedAt a)).
Inductive body :=
| BAlert (a : response)
| BAlerts (l : list response).

Section handlers.
Context {S : Type} `{!Has AlertDB S} (load : option (Load S)) (workloads : option (Workloads S)).

(* go: platform/alert/handler.go handler.create *)
Definition handle_create (sc : Scope) (req : outcome createRequest) : M S (Reply body) :=
  let! req := lift req in
  let! held := create workloads (MkCreateParams (sc_ProjectID sc) (cr_Name req) (cr_InstanceID req) (cr_Metric req) (cr_Comparison req)
    (cr_Threshold req) (cr_For req)) in
  Write StatusCreated (BAlert (toResponse held)).
(* go: platform/alert/handler.go handler.list *)
Definition handle_list (sc : Scope) : M S (Reply body) :=
  let! held := listIn (sc_ProjectID sc) in Write StatusOK (BAlerts (map toResponse held)).
(* go: platform/alert/handler.go handler.get *)
Definition handle_get (sc : Scope) (id : string) : M S (Reply body) :=
  let! held := get (sc_ProjectID sc) id in Write StatusOK (BAlert (toResponse held)).
(* go: platform/alert/handler.go handler.delete *)
Definition handle_delete (sc : Scope) (id : string) : M S (Reply body) :=
  remove (sc_ProjectID sc) id ;;; WriteHeader StatusNoContent.

(** The requests, the deletion of an instance and the ticker. *)
Inductive request :=
| ReqCreate (sc : Scope) (req : outcome createRequest)
| ReqList (sc : Scope)
| ReqGet (sc : Scope) (id : string)
| ReqDelete (sc : Scope) (id : string)
| ReqRelease (instanceID : string)
| ReqSweep.
Definition done_ (m : M S unit) : M S (Reply body) := m ;;; WriteHeader StatusNoContent.
(* go: platform/alert/module.go Module.Routes *)
Definition serve (r : request) : M S (Reply body) :=
  match r with
  | ReqCreate sc req => handle_create sc req
  | ReqList sc => handle_list sc
  | ReqGet sc id => handle_get sc id
  | ReqDelete sc id => handle_delete sc id
  | ReqRelease instanceID => done_ (ReleaseInstance instanceID)
  | ReqSweep => done_ (let! _ := sweep load in ret tt)
  end.
End handlers.

(** * What an alert remembers of the readings *)

(** A reading that is fresh, known and beyond the threshold. *)
Definition crossing (a : Alert) (at_ : Z) (sample : option Sample) : bool :=
  match sample with
  | None => false
  | Some s => negb (Stale <? time_sub at_ (sm_ReportedAt s)) && snd (reading (al_Metric a) s) &&
              crossed (al_Comparison a) (fst (reading (al_Metric a) s)) (al_Threshold a)
  end.
(** The passes: when, and what was read. *)
Definition watch (a : Alert) (passes : list (Z * option Sample)) : Alert := fold_left (fun a '(at_, s) => updated a s at_) passes a.
(** The times of the passes since the threshold was last not crossed. *)
Definition streak (a : Alert) (passes : list (Z * option Sample)) : list Z :=
  fold_left (fun times '(at_, s) => if crossing a at_ s then times ++ [at_] else []) passes [].
(** It was crossed for the whole window: some later pass of the streak is that far from its first. *)
Definition held_long (window : Z) (times : list Z) : bool :=
  match times with [] => false | first :: rest => existsb (fun t => window <=? time_sub t first) rest end.
(** The parts of an alert no pass changes. *)
Definition settings (a : Alert) : string * string * string * string * string * string * float64 * Z * Z :=
  (al_ID a, al_ProjectID a, al_Name a, al_InstanceID a, al_Metric a, al_Comparison a, al_Threshold a, al_For a, al_CreatedAt a).

Lemma updated_settings a s t : settings (updated a s t) = settings a.
Proof. done. Qed.
Lemma watch_settings a passes : settings (watch a passes) = settings a.
Proof. unfold watch. revert a. induction passes as [|[t s] passes IH]; intros a; [done|]. cbn [fold_left]. by rewrite IH. Qed.

(** One pass, in terms of the reading. *)
Lemma updated_state a s t : al_State (updated a s t) =
  if negb (crossing a t s) then StateQuiet
  else if String.eqb (al_State a) StateQuiet then StateWarming
  else if String.eqb (al_State a) StateWarming && (time_sub t (al_Since a) <? al_For a) then StateWarming else StateFiring.
Proof.
  unfold updated, crossing, decide_. destruct s as [s|]; [|done]. destruct (Stale <? _); [done|]. destruct (reading (al_Metric a) s) as [v known]. cbn [fst snd negb andb].
  destruct known; cbn [negb andb]; [|done]. destruct (crossed _ _ _); cbn [negb]; [|done]. destruct (String.eqb (al_State a) StateQuiet); [done|].
  destruct (String.eqb (al_State a) StateWarming); [|done]. by destruct (_ <? _).
Qed.
Lemma updated_since a s t : al_Since (updated a s t) = if String.eqb (al_State a) (al_State (updated a s t)) then al_Since a else t.
Proof. unfold updated, with_state. cbn. by destruct (String.eqb _ _). Qed.

Lemma held_long_snoc window times t : held_long window (times ++ [t]) =
  held_long window times || match times with [] => false | first :: _ => window <=? time_sub t first end.
Proof. destruct times as [|f rest]; [done|]. cbn [held_long app]. rewrite existsb_app. cbn [existsb]. by rewrite orb_false_r. Qed.

Lemma watch_streak a passes : al_State a = StateQuiet ->
  al_State (watch a passes) = match streak a passes with [] => StateQuiet | _ => if held_long (al_For a) (streak a passes) then StateFiring else StateWarming end /\
  (al_State (watch a passes) = StateWarming -> exists rest, streak a passes = al_Since (watch a passes) :: rest).
Proof.
  intros Hq. induction passes as [|[t s] passes [IHs IHw]] using rev_ind; [cbn; rewrite Hq; split; [done|]; intros E; discriminate|].
  unfold watch, streak in *. rewrite !fold_left_app. cbn [fold_left]. set (b := fold_left _ passes a) in *. set (times := fold_left _ passes []) in *.
  pose proof (watch_settings a passes) as Hset. unfold watch in Hset. fold b in Hset. unfold settings in Hset. injection Hset as _ _ _ _ Em Ec Et Ef _.
  assert (Ecr : crossing b t s = crossing a t s) by (unfold crossing; by rewrite Em, Ec, Et).
  rewrite updated_since, updated_state, Ecr. destruct (crossing a t s); cbn [negb];
    [|by split; [|intros ?]].
  destruct times as [|first rest] eqn:Etimes; rewrite IHs; [cbn; split; [done|intros _; by exists []]|]. rewrite held_long_snoc, <- Etimes in *. destruct (held_long (al_For a) times) eqn:Eh; cbn [orb].
  - rewrite Etimes. cbn. split; [done|]. intros ?. done.
  - rewrite IHs in IHw. rewrite Etimes in IHw. destruct (IHw eq_refl) as (rest' & Er). rewrite Etimes. cbn [app]. injection Er as E1 E2. rewrite Ef, <- E1. cbn.
    rewrite Z.ltb_antisym. destruct (al_For a <=? time_sub t first); cbn; [by split; [|intros ?]|]. split; [done|]. intros _. by exists (rest ++ [t]).
Qed.

(** * The state machine the module promises *)

Record alert_ok (a : Alert) : Prop := {
  ao_name : validate_Name "name" (al_Name a) = Ok tt;
  ao_metric : al_Metric a ∈ Metrics;
  ao_comparison : al_Comparison a ∈ Comparisons;
  ao_threshold : fleb (al_Threshold a) (of_int 0) = false /\ fltb (of_int 100) (al_Threshold a) = false;
  ao_for : exists d, MinFor <= d <= MaxFor /\ al_For a = kept_for d;
  ao_state : al_State a ∈ [StateQuiet; StateWarming; StateFiring];
}.
Inductive actor := Tenant (projectID : string) | Instances | Ticker.
Definition replaced (a' : Alert) (db : AlertDB) : AlertDB := MkAlertDB (map (fun x => if has_id (al_ID a') x then a' else x) (al_rows db)).
Inductive change (ac : actor) (db : AlertDB) : AlertDB -> Prop :=
| C_create a : ac = Tenant (al_ProjectID a) -> alert_ok a -> al_State a = StateQuiet -> existsb (clash a) (al_rows db) = false ->
    len (List.filter (in_project (al_ProjectID a)) (al_rows db)) < MaxPerProject -> change ac db (MkAlertDB (al_rows db ++ [a]))
| C_remove a : ac = Tenant (al_ProjectID a) -> a ∈ al_rows db -> change ac db (MkAlertDB (List.filter (fun x => negb (has_id (al_ID a) x)) (al_rows db)))
| C_release instanceID : ac = Instances -> change ac db (MkAlertDB (List.filter (fun x => negb (of_instance instanceID x)) (al_rows db)))
| C_sweep a sample at_ : ac = Ticker -> a ∈ al_rows db -> change ac db (replaced (updated a sample at_) db).
Definition history (a : actor) : AlertDB -> AlertDB -> Prop := rtc (change a).
#[export] Instance history_preorder a : PreOrder (history a).
Proof. unfold history. typeclasses eauto. Qed.

Record alert_inv (db : AlertDB) : Prop := {
  ai_id : unique_by (fun a => Some (al_ID a)) (al_rows db);
  ai_name : unique_by (fun a => Some (al_ProjectID a, al_Name a)) (al_rows db);
  ai_row : Forall alert_ok (al_rows db);
  ai_count : forall p, len (List.filter (in_project p) (al_rows db)) <= MaxPerProject;
}.

Lemma updated_ok a s t : alert_ok a -> alert_ok (updated a s t).
Proof.
  intros [H1 H2 H3 H4 H5 H6]. constructor; [done..|]. rewrite updated_state. repeat case_match; set_solver.
Qed.

(** A pass keeps what identifies an alert, wherever it puts it. *)
Lemma replaced_settings db a s t : unique_by (fun a => Some (al_ID a)) (al_rows db) -> a ∈ al_rows db ->
  replaced (updated a s t) db = MkAlertDB (map (fun x => if has_id (al_ID a) x then updated x s t else x) (al_rows db)).
Proof.
  intros Hu Ha. unfold replaced. f_equal. apply map_ext_in. intros x Hx%list_elem_of_In. change (al_ID (updated a s t)) with (al_ID a).
  destruct (has_id _ x) eqn:E; [|done]. apply String.eqb_eq in E.
  by rewrite (unique_by_eq (fun a => Some (al_ID a)) _ x a (al_ID a) Hu Hx Ha (f_equal Some E) eq_refl).
Qed.

Lemma alert_change_inv ac db db' : change ac db db' -> alert_inv db -> alert_inv db'.
Proof.
  intros [a _ Hok _ Hc Hn|a _ Ha|i _|a s t _ Ha] [H1 H2 H3 H4].
  - rewrite existsb_false, Forall_forall in Hc. constructor; cbn [al_rows].
    + apply unique_by_app; [done|]. intros x k Hx [= <-] [= E]. specialize (Hc x Hx). unfold clash, has_id in Hc. by rewrite E, String.eqb_refl in Hc.
    + apply unique_by_app; [done|]. intros x k Hx [= <-] [= E1 E2]. specialize (Hc x Hx). unfold clash, named, in_project in Hc.
      by rewrite E1, E2, !String.eqb_refl, orb_true_r in Hc.
    + apply Forall_app. split; [done|]. by constructor.
    + intros p. rewrite List.filter_app, length_app. cbn. specialize (H4 p). destruct (in_project p a) eqn:E; cbn; [|lia].
      apply String.eqb_eq in E. subst. lia.
  - constructor; cbn [al_rows]; try first [by apply unique_by_filter|by apply Forall_filter_bool]. intros p.
    etransitivity; [apply filter_filter_le|apply H4].
  - constructor; cbn [al_rows]; try first [by apply unique_by_filter|by apply Forall_filter_bool]. intros p.
    etransitivity; [apply filter_filter_le|apply H4].
  - rewrite replaced_settings by done. constructor; cbn [al_rows].
    + apply unique_by_map; [|done]. intros x. by destruct (has_id _ x).
    + apply unique_by_map; [|done]. intros x. by destruct (has_id _ x).
    + apply Forall_map. eapply Forall_impl; [exact H3|]. intros x Hx. destruct (has_id _ x); [by apply updated_ok|done].
    + intros p. etransitivity; [apply filter_map_le|apply H4]. intros x _. by destruct (has_id _ x).
Qed.
Lemma alert_history_inv ac db db' : history ac db db' -> alert_inv db -> alert_inv db'.
Proof. intros H. induction H as [|x y z Hc _ IH]; [done|]. intros Hi. apply IH. by eapply alert_change_inv. Qed.

Definition others (p : string) (db : AlertDB) : list Alert := others_rows al_ProjectID p (al_rows db).
Lemma alert_history_others p db db' : history (Tenant p) db db' -> alert_inv db -> others p db' = others p db.
Proof.
  intros H. induction H as [|x y z Hc _ IH]; [done|]. intros Hi. rewrite IH by (by eapply alert_change_inv).
  destruct Hc as [a [= ->] _ _ _|a [= ->] Ha|i [=]|a s t [=] _].
  - apply others_insert.
  - apply (others_delete al_ID); [apply ai_id, Hi|done].
Qed.

Section operations.
Context {S : Type} `{!Has AlertDB S} (load : option (Load S)) (workloads : option (Workloads S)).
Lemma alert_yields_rows (db : AlertDB) q : yields db (query_rows (S:=S) q) (fun l => l = q (al_rows db)).
Proof. eapply yields_mono; [apply yields_query|]. by intros l [= <-]. Qed.
Lemma alert_yields_ids (db : AlertDB) prefix : yields db (ids_New (S:=S) prefix) (fun _ => True).
Proof. apply yields_leaves. unfold ids_New. auto with leaves. Qed.
Lemma alert_yields_find (db : AlertDB) p r : yields db (find_ (S:=S) p r) (fun a => a ∈ al_rows db /\ al_ProjectID a = p).
Proof.
  unfold find_. eapply yields_bind; [apply alert_yields_rows|]. intros l ->. destruct (List.filter _ _) as [|a l] eqn:E; [by eapply yields_mono; [apply yields_fail|]|].
  eapply yields_mono; [apply yields_ret|]. intros ? ->. assert (Ha : a ∈ a :: l) by set_solver. rewrite <- E in Ha.
  by apply elem_of_filter_bool in Ha as [? [?%String.eqb_eq _]%andb_true_iff].
Qed.
Lemma alert_yields_get (db : AlertDB) p r : yields db (get (S:=S) p r) (fun a => a ∈ al_rows db /\ al_ProjectID a = p).
Proof. apply yields_mapped, alert_yields_find. Qed.
Lemma alert_yields_count (db : AlertDB) p : yields db (countIn (S:=S) p) (fun n => n = len (List.filter (in_project p) (al_rows db))).
Proof. eapply yields_mono; [apply yields_query|]. by intros l [= <-]. Qed.
Hint Resolve alert_yields_rows alert_yields_ids alert_yields_find alert_yields_get alert_yields_count : yields.

Lemma alert_check_params_ok params comparison window : check_params params = Ok (comparison, window) ->
  validate_Name "name" (cp_Name params) = Ok tt /\ cp_Metric params ∈ Metrics /\ comparison ∈ Comparisons /\
  fleb (cp_Threshold params) (of_int 0) = false /\ fltb (of_int 100) (cp_Threshold params) = false /\ MinFor <= window <= MaxFor.
Proof.
  unfold check_params. intros H. unbind H. injection H as <- <-. destruct_or?; 
  repeat match goal with H : validate_OneOf _ _ _ = Ok _ |- _ => apply validate_OneOf_ok in H | H : guard _ _ = Ok _ |- _ => apply guard_false, orb_false_iff in H as [? ?] | x : unit |- _ => destruct x end.
  split_and!; try done; lia.
Qed.

Definition actor_of (r : request) : actor :=
  match r with
  | ReqCreate sc _ | ReqList sc | ReqGet sc _ | ReqDelete sc _ => Tenant (sc_ProjectID sc)
  | ReqRelease _ => Instances
  | ReqSweep => Ticker
  end.

(** ** A pass *)

Lemma announcement_kind held before e : al_State held ∈ [StateQuiet; StateWarming; StateFiring] -> announcement held before = Some e ->
  al_State held = StateFiring /\ ev_Kind e = "alert.firing" \/ al_State held = StateQuiet /\ before = StateFiring /\ ev_Kind e = "alert.cleared".
Proof.
  unfold announcement. rewrite !elem_of_cons. intros [E|[E|[E|E%elem_of_nil]]]; [| | |done]; rewrite E; cbn; [|done|].
  - destruct (String.eqb before StateFiring) eqn:Eb; cbn; [|done]. intros [= <-]. right. apply String.eqb_eq in Eb. done.
  - intros [= <-]. by left.
Qed.

Definition next_of (samples : gmap string Sample) (at_ : Z) (a : Alert) : Alert := updated a (samples !! al_InstanceID a) at_.
(** What is announced when [a] becomes [a']. *)
Definition rung (a a' : Alert) (e : Entry) : Prop :=
  announcement a' (al_State a) = Some e /\ al_State a' <> al_State a.
(** The rows after the alerts [done_] were worked through; some writes may have failed. *)
Definition passed (samples : gmap string Sample) (at_ : Z) (done_ rows rows' : list Alert) (es : list Entry) : Prop :=
  Forall2 (fun a a' => a' = a \/ (a ∈ done_ /\ a' = next_of samples at_ a)) rows rows' /\
  Forall (fun e => exists i a a', rows !! i = Some a /\ rows' !! i = Some a' /\ a ∈ done_ /\ a' = next_of samples at_ a /\ rung a a' e) es.

Lemma rung_states samples at_ a e : al_State a ∈ [StateQuiet; StateWarming; StateFiring] -> rung a (next_of samples at_ a) e ->
  al_State a = StateWarming /\ al_State (next_of samples at_ a) = StateFiring /\ ev_Kind e = "alert.firing" \/
  al_State a = StateFiring /\ al_State (next_of samples at_ a) = StateQuiet /\ ev_Kind e = "alert.cleared".
Proof.
  intros Hs [Ha Hne]. apply announcement_kind in Ha as [[E Hk]|(E & Eb & Hk)]; [left| |]; [|by right|].
  - split_and!; [|done|done]. pose proof E as E0. unfold next_of in E. rewrite updated_state in E. destruct (negb _); [done|].
    rewrite !elem_of_cons in Hs. destruct Hs as [Hs|[Hs|[Hs|Hs%elem_of_nil]]]; [by rewrite Hs in E|done|by rewrite E0, Hs in Hne|done].
  - unfold next_of. rewrite updated_state. repeat case_match; set_solver.
Qed.

Lemma changed_state a s t : v_Changed (decide_ a s t) = true -> al_State (updated a s t) <> al_State a.
Proof.
  unfold updated, with_state, decide_, quieten. cbn [al_State]. intros H E. destruct s as [s|]; cbn in *; [|rewrite <- E in H; done].
  destruct (Stale <? _); cbn in *; [rewrite <- E in H; done|]. destruct (reading _ s) as [v []]; cbn in *; [|rewrite <- E in H; done].
  destruct (crossed _ _ _); cbn in *; [|rewrite <- E in H; done]. destruct (String.eqb (al_State a) StateQuiet) eqn:Eq; [apply String.eqb_eq in Eq; cbn in *; rewrite Eq in E; discriminate|].
  destruct (String.eqb (al_State a) StateWarming) eqn:Ew; [|done]. apply String.eqb_eq in Ew. rewrite Ew in E. destruct (_ <? _); discriminate.
Qed.

(** The row of an alert is where the alert was. *)
Lemma passed_row samples at_ done_ rows rows' es j x y : unique_by (fun a => Some (al_ID a)) rows -> x ∈ rows ->
  passed samples at_ done_ rows rows' es -> rows' !! j = Some y -> al_ID y = al_ID x -> rows !! j = Some x /\ (y = x \/ x ∈ done_).
Proof.
  intros Hu Hx [H2 _] Hj Eid. destruct (Forall2_lookup_r _ _ _ _ _ H2 Hj) as (a & Ha & Hor).
  assert (a = x) as -> by (apply (unique_by_eq (fun a => Some (al_ID a)) rows a x (al_ID x));
    [done|by eapply list_elem_of_lookup_2|done|f_equal; rewrite <- Eid; by destruct Hor as [-> |[_ ->]]|done]).
  split; [done|]. destruct Hor as [-> |[? _]]; auto.
Qed.

(** Writing the next state of an alert not worked through yet. *)
Lemma passed_write samples at_ done_ rows rows' es x : unique_by (fun a => Some (al_ID a)) rows -> x ∈ rows -> x ∉ done_ ->
  passed samples at_ done_ rows rows' es ->
  x ∈ rows' /\ map (write_state (next_of samples at_ x)) rows' = map (fun y => if has_id (al_ID x) y then next_of samples at_ x else y) rows'.
Proof.
  intros Hu Hx Hnd Hp. split.
  - apply list_elem_of_lookup in Hx as [i Hi]. destruct (Forall2_lookup_l _ _ _ _ _ (proj1 Hp) Hi) as (x' & Hi' & [-> |[Hin _]]); [|done].
    by eapply list_elem_of_lookup_2.
  - apply map_ext_in. intros y Hy%list_elem_of_In. unfold write_state. change (al_ID (next_of samples at_ x)) with (al_ID x).
    destruct (has_id (al_ID x) y) eqn:E; [|done]. apply String.eqb_eq in E. apply list_elem_of_lookup in Hy as [j Hj].
    destruct (passed_row samples at_ done_ rows rows' es j x y) as [_ [-> |?]]; [done..|by destruct x|done].
Qed.

Lemma passed_more samples at_ done_ rows rows' es x : passed samples at_ done_ rows rows' es -> passed samples at_ (done_ ++ [x]) rows rows' es.
Proof.
  intros [H2 He]. split; [eapply Forall2_impl; [exact H2|]; set_solver|].
  eapply Forall_impl; [exact He|]. intros e (i & a & a' & H1 & H3 & H4 & H5 & H6). exists i, a, a'. split_and!; try done. set_solver.
Qed.

Lemma passed_step samples at_ done_ rows rows' es x more : unique_by (fun a => Some (al_ID a)) rows -> x ∈ rows -> x ∉ done_ ->
  passed samples at_ done_ rows rows' es -> Forall (rung x (next_of samples at_ x)) more ->
  passed samples at_ (done_ ++ [x]) rows (map (fun y => if has_id (al_ID x) y then next_of samples at_ x else y) rows') (es ++ more).
Proof.
  intros Hu Hx Hnd Hp Hmore. split.
  - apply Forall2_same_length_lookup. split; [rewrite length_map; eapply Forall2_length, Hp|].
    intros j a a' Ha Ha'. rewrite list_lookup_fmap in Ha'. destruct (rows' !! j) as [a0|] eqn:Ha0; [|done]. injection Ha' as <-.
    destruct (has_id (al_ID x) a0) eqn:E.
    + apply String.eqb_eq in E. destruct (passed_row samples at_ done_ rows rows' es j x a0) as [Hj _]; [done..|]. right. assert (a = x) as -> by congruence. set_solver.
    + destruct (Forall2_lookup_lr _ _ _ _ _ _ (proj1 Hp) Ha Ha0) as [-> |[? ->]]; [by left|right; set_solver].
  - apply Forall_app. split.
    + eapply Forall_impl; [exact (proj2 Hp)|]. intros e (j & a & a' & Ha & Ha' & Hd & En & Hr). exists j, a, a'. split_and!; [done| |set_solver|done|done].
      rewrite list_lookup_fmap, Ha'. cbn. destruct (has_id (al_ID x) a') eqn:E; [|done]. apply String.eqb_eq in E.
      destruct (passed_row samples at_ done_ rows rows' es j x a') as [Hj _]; [done..|]. congruence.
    + apply list_elem_of_lookup in Hx as [i Hi]. destruct (Forall2_lookup_l _ _ _ _ _ (proj1 Hp) Hi) as (x' & Hi' & [-> |[Hin _]]); [|done].
      eapply Forall_impl; [exact Hmore|]. intros e Hr. exists i, x, (next_of samples at_ x). split_and!; [done| |set_solver|done|done].
      rewrite list_lookup_fmap, Hi'. cbn. unfold has_id. by rewrite String.eqb_refl.
Qed.

Lemma sweep_turn samples at_ rows done_ x moved es env (w : World S) evs : unique_by (fun a => Some (al_ID a)) rows -> x ∈ rows -> x ∉ done_ ->
  passed samples at_ done_ rows (al_rows (part w)) es -> w_events w = evs ++ es ->
  wp env (sweep_one samples at_ x moved) (fun r w' => (exists n, r = Ok n) /\ history Ticker (part w) (part w') /\
    exists es', passed samples at_ (done_ ++ [x]) rows (al_rows (part w')) es' /\ w_events w' = evs ++ es') w.
Proof.
  intros Hu Hx Hnd Hp Hev. destruct (passed_write _ _ _ _ _ _ _ Hu Hx Hnd Hp) as [Hin Hrows].
  assert (Hrep : MkAlertDB (map (write_state (next_of samples at_ x)) (al_rows (part w))) = replaced (next_of samples at_ x) (part w)) by (unfold replaced; by rewrite Hrows).
  assert (Hc : history Ticker (part w) (replaced (next_of samples at_ x) (part w))) by (apply rtc_once; by apply C_sweep).
  unfold sweep_one. fold (next_of samples at_ x). rewrite wp_bind, wp_attempt. unfold setState. apply wp_sql. destruct (env_io env (w_step w)); cbn beta iota.
  { rewrite wp_ret. split; [eauto|]. split; [done|]. exists es. split; [by apply passed_more|done]. }
  change (hget (w_st w)) with (part w). unfold on_rows. cbn [fst snd]. rewrite Hrep. set (w1 := with_st (tick w) _).
  assert (Hw1 : part w1 = replaced (next_of samples at_ x) (part w)) by (unfold part, w1; cbn; by rewrite hget_hput).
  assert (Hend : forall more w', Forall (rung x (next_of samples at_ x)) more -> part w' = part w1 -> w_events w' = w_events w ++ more ->
    history Ticker (part w) (part w') /\ exists es', passed samples at_ (done_ ++ [x]) rows (al_rows (part w')) es' /\ w_events w' = evs ++ es').
  { intros more w' Hm -> ->. rewrite Hw1. split; [done|]. exists (es ++ more). rewrite Hev, app_assoc. split; [|done]. exact (passed_step _ _ _ _ _ _ x more Hu Hx Hnd Hp Hm). }
  destruct (v_Changed _) eqn:Ec; cbn [negb]; [|rewrite wp_ret; split; [eauto|]; apply (Hend []); [constructor|done|cbn; by rewrite app_nil_r]].
  rewrite wp_bind. unfold announce. apply changed_state in Ec. destruct (announcement _ _) as [e|] eqn:Ea.
  - rewrite wp_record. cbn beta iota. rewrite wp_ret. split; [eauto|]. apply (Hend [e]); [|done|done]. apply Forall_cons. by split; [split|constructor].
  - rewrite wp_ret. cbn beta iota. rewrite wp_ret. split; [eauto|]. apply (Hend []); [constructor|done|cbn; by rewrite app_nil_r].
Qed.

Lemma ids_NoDup rows : unique_by (fun a => Some (al_ID a)) rows -> NoDup rows.
Proof.
  unfold unique_by. induction rows as [|a rows IH]; [constructor|]. cbn. intros [Ha Hr]%NoDup_cons. constructor; [|auto].
  intros Hin. apply Ha. apply list_elem_of_omap. eauto.
Qed.

Hypothesis load_leaves : if_some load (fun l => leaves AlertDB (SamplesOf l)).
Hypothesis workloads_leave : if_some workloads (fun w => forall r p, leaves AlertDB (ResolveIn w r p)).

(** A whole pass, in terms of one reading of the loads and one time. *)
Lemma sweep_passes env (w : World S) : unique_by (fun a => Some (al_ID a)) (al_rows (part w)) ->
  (forall l w1, load = Some l -> w_events (snd (SamplesOf l env w1)) = w_events w1) ->
  wp env (sweep load) (fun _ w' => history Ticker (part w) (part w') /\
    exists samples at_ es, passed samples at_ (al_rows (part w)) (al_rows (part w)) (al_rows (part w')) es /\ w_events w' = w_events w ++ es) w.
Proof.
  intros Hu Hsil. assert (Hsame : forall w' : World S, part w' = part w -> w_events w' = w_events w -> history Ticker (part w) (part w') /\
    exists samples at_ es, passed samples at_ (al_rows (part w)) (al_rows (part w)) (al_rows (part w')) es /\ w_events w' = w_events w ++ es).
  { intros w' -> ->. split; [done|]. exists ∅, 0, []. rewrite app_nil_r. split; [|done]. split; [|constructor]. apply Forall2_same_length_lookup. split; [done|]. intros. left. congruence. }
  unfold sweep. destruct load as [l|]; [|rewrite wp_ret; by apply Hsame]. specialize (load_leaves l eq_refl).
  rewrite wp_bind. unfold all, query_rows. apply wp_query. destruct (env_io _ _); [by apply Hsame|]. cbn beta iota. change (hget (w_st w)) with (part w).
  pose proof (sliceStable_perm by_created (al_rows (part w))) as Hperm. destruct (sliceStable _ _) as [|a held] eqn:Eh; [rewrite wp_ret; by apply Hsame|]. rewrite <- Eh in *. clear Eh a held.
  rewrite wp_bind. assert (Hs : wp env (SamplesOf l) (fun _ w' => part w' = part w /\ w_events w' = w_events w) (tick w)).
  { pose proof (Hsil l (tick w) eq_refl) as Hev. apply wp_and; [apply wp_leaves; [done|]; intros r w' ->; done|]. unfold wp. by destruct (SamplesOf l env (tick w)). }
  eapply wp_mono; [|exact Hs]. intros [samples|e] w1 [Hp1 He1]; [|by apply Hsame]. rewrite wp_bind, wp_now. cbn beta iota. set (at_ := env_now _ _).
  assert (Hnd : NoDup (sliceStable by_created (al_rows (part w)))).
  { rewrite Hperm. by apply ids_NoDup. }
  eapply wp_mono; [|apply (wp_foldM_done env (fun done_ _ w' => history Ticker (part w) (part w') /\
    exists es, passed samples at_ done_ (al_rows (part w)) (al_rows (part w')) es /\ w_events w' = w_events w ++ es) (fun _ _ => False))].
  - intros [n|e] w' H; [|done]. destruct H as [Hh (es & [H2 H3] & Hev)]. split; [done|]. exists samples, at_, es. split; [|done]. split.
    + eapply Forall2_impl; [exact H2|]. intros a a' [Ha|[Ha Hn]]; [by left|right]. by rewrite Hperm in Ha.
    + eapply Forall_impl; [exact H3|]. intros e (i & a & a' & ? & ? & Ha & ? & ?). exists i, a, a'. by rewrite Hperm in Ha.
  - intros done_ x rest n w2 Ex [Hh (es & Hp & Hev)]. assert (Hx : x ∈ al_rows (part w)) by (rewrite <- Hperm, Ex; set_solver).
    rewrite Ex in Hnd. apply NoDup_app in Hnd as (_ & Hd & _).
    eapply wp_mono; [|exact (sweep_turn samples at_ _ done_ x n es env w2 _ Hu Hx (fun H => Hd x H (list_elem_of_here x rest)) Hp Hev)].
    intros r w3 ([m ->] & Hh' & es' & Hp' & Hev'). split; [by transitivity (part w2)|eauto].
  - change (part (tick w1)) with (part w1). change (w_events (tick w1)) with (w_events w1). destruct (Hsame w1 Hp1 He1) as [Hh _]. split; [done|]. exists []. rewrite app_nil_r, Hp1. split; [|done].
    split; [|constructor]. apply Forall2_same_length_lookup. split; [done|]. intros. left. congruence.
Qed.

Lemma alert_serve_moves (db : AlertDB) r : r <> ReqSweep -> moves (history (actor_of r)) db (serve load workloads r).
Proof.
  intros Hr. destruct r; [..|done]; cbn [serve actor_of]; unfold handle_create, handle_list, handle_get, handle_delete, done_, Write, WriteHeader.
  - m_step. intros q _. apply moves_then; [typeclasses eauto| |intros; m_step]. unfold create. m_step. intros [comparison window] Hc%alert_check_params_ok. cbn [cp_Name cp_Metric cp_Threshold cp_ProjectID] in Hc.
    destruct workloads as [w|]; [|m_step]. pose proof (workloads_leave w eq_refl) as Hw. eapply moves_bind; [typeclasses eauto|apply yields_leaves, Hw|]. intros instanceID _.
    m_step. intros count ->. m_step. intros [] Hn%guard_false%Z.leb_gt. m_step. intros at_ _. m_step. intros id _.
    apply moves_last; [typeclasses eauto|]. apply moves_sql; [typeclasses eauto|]. unfold on_rows, insert_row.
    destruct (existsb _ _) eqn:Ec; cbn [snd]; [by destruct db|]. apply rtc_once. destruct Hc as (H1 & H2 & H3 & H4 & H5 & H6).
    apply (C_create _ db (stored (MkAlert id _ _ instanceID _ comparison _ window StateQuiet at_ (of_int 0) _ at_ at_))); [done| |done|done|done].
    constructor; cbn; try done; [eauto|set_solver].
  - unfold listIn, listIn_rows. reads.
  - reads.
  - apply moves_then; [typeclasses eauto| |intros; m_step]. unfold remove. m_step. intros a [Ha Hp]. apply moves_sql; [typeclasses eauto|].
    unfold on_rows. pose proof (delete_where_rows (has_id (al_ID a)) errNotFound (al_rows db)) as E. destruct (delete_where _ _ _) as [o rows]. cbn [snd] in *. rewrite E.
    apply rtc_once. apply C_remove; [by rewrite Hp|done].
  - apply moves_then; [typeclasses eauto| |intros; m_step]. apply moves_sql; [typeclasses eauto|]. unfold on_rows. cbn [snd]. apply rtc_once. by apply C_release.
Qed.
End operations.

(** * Properties *)

(** [alert_state_exact]: after any passes over an alert that starts quiet, it fires exactly if the
    threshold was crossed at every pass since some moment, with a fresh reading each time, and
    one of these passes came at least the alert's window after the first; it is quiet exactly
    if the last pass read nothing beyond the threshold; otherwise it is warming. *)
Theorem alert_state_exact a passes : al_State a = StateQuiet ->
  al_State (watch a passes) =
  match streak a passes with [] => StateQuiet | _ => if held_long (al_For a) (streak a passes) then StateFiring else StateWarming end.
Proof. intros H. exact (proj1 (watch_streak a passes H)). Qed.

(** [sweep_announces]: a pass writes each alert's next state or leaves the alert as it was, and
    announces only changes it has written: an alert that begins to fire, or one that stops. *)
Theorem sweep_announces {S} `{!Has AlertDB S} (load : option (Load S)) env (w : World S) :
  if_some load (fun l => leaves AlertDB (SamplesOf l)) -> (forall l w1, load = Some l -> w_events (snd (SamplesOf l env w1)) = w_events w1) ->
  alert_inv (part w) ->
  wp env (sweep load) (fun _ w' => exists samples at_ es, w_events w' = w_events w ++ es /\
    Forall2 (fun a a' => a' = a \/ a' = next_of samples at_ a) (al_rows (part w)) (al_rows (part w')) /\
    Forall (fun e => exists i a a', al_rows (part w) !! i = Some a /\ al_rows (part w') !! i = Some a' /\
      (al_State a = StateWarming /\ al_State a' = StateFiring /\ ev_Kind e = "alert.firing" \/
       al_State a = StateFiring /\ al_State a' = StateQuiet /\ ev_Kind e = "alert.cleared")) es) w.
Proof.
  intros Hl Hs [Hu _ Hok _]. eapply wp_mono; [|exact (sweep_passes load None Hl ltac:(intros ? [=]) env w Hu Hs)].
  intros r w' [_ (samples & at_ & es & [H2 H3] & Hev)]. exists samples, at_, es. split_and!; [done| |].
  - eapply Forall2_impl; [exact H2|]. intros a a' [?|[_ ?]]; auto.
  - eapply Forall_impl; [exact H3|]. intros e (i & a & a' & Ha & Ha' & _ & -> & Hr). exists i, a, (next_of samples at_ a). split_and!; [done..|].
    rewrite Forall_forall in Hok. apply rung_states; [|done]. apply ao_state, Hok. by eapply list_elem_of_lookup_2.
Qed.

(** [alerts_lawful]: every request and every pass moves the table only by what its caller may do,
    keeps the alerts well formed and at most 32 in a project, and leaves the other projects'
    alerts to them. *)
Theorem alerts_lawful {S} `{!Has AlertDB S} (load : option (Load S)) (workloads : option (Workloads S)) env r (w : World S) :
  if_some load (fun l => leaves AlertDB (SamplesOf l)) -> (forall l w1, load = Some l -> w_events (snd (SamplesOf l env w1)) = w_events w1) ->
  if_some workloads (fun w => forall r p, leaves AlertDB (ResolveIn w r p)) -> alert_inv (part w) ->
  wp env (serve load workloads r) (fun _ w' => history (actor_of r) (part w) (part w') /\ alert_inv (part w') /\
    forall p, actor_of r = Tenant p -> others p (part w') = others p (part w)) w.
Proof.
  intros Hl Hs Hwl Hi. apply (wp_mono _ _ (fun _ w' => history (actor_of r) (part w) (part w'))).
  - intros o w' H. split_and!; [done|exact (alert_history_inv _ _ _ H Hi)|]. intros p Hp. rewrite Hp in H. exact (alert_history_others p _ _ H Hi).
  - destruct r; try (refine (alert_serve_moves load workloads Hl Hwl (part w) _ _ env w eq_refl); discriminate).
    cbn [serve actor_of]. unfold done_. rewrite !wp_bind. eapply wp_mono; [|exact (sweep_passes load None Hl ltac:(intros ? [=]) env w (ai_id _ Hi) Hs)].
    intros [n|e] w' [H _]; exact H.
Qed.

Module Demo.
Definition St : Type := AlertDB.
Definition cpu (v : Z) (at_ : Z) : Sample := MkSample (of_int v) (of_int 0) false at_.
Definition hot : Alert := MkAlert "alr-1" "prj-1" "hot" "ins-1" "cpu" "above" (of_int 80) (30 * second) "warming" (1000 * second) (of_int 90) "" 0 0.
Definition calm : Alert := MkAlert "alr-2" "prj-2" "hot" "ins-2" "memory" "above" (of_int 80) (30 * second) "firing" (1000 * second) (of_int 90) "" 0 0.
Definition db : AlertDB := MkAlertDB [hot; calm].
Definition load : Load St := {| SamplesOf := ret {["ins-1" := cpu 95 (1040 * second)]} |}.
Definition env : Env := {| env_now _ := 1040 * second; env_rand _ := [1; 2; 3]; env_io _ := false |}.
Definition w0 : World St := MkWorld db O [].
Lemma alert_db_inv : alert_inv db.
Proof.
  constructor; try (apply (bool_decide_unpack _); vm_compute; exact I).
  - assert (Hf : exists d, MinFor <= d <= MaxFor /\ 30 * second = kept_for d).
    { exists (30 * second). split; [unfold MinFor, MaxFor, hour, minute, second; lia|vm_compute; reflexivity]. }
    apply Forall_cons. split; [|apply Forall_cons; split; [|apply Forall_nil_2]]; (constructor; [vm_compute; reflexivity|set_solver|set_solver|split; vm_compute; reflexivity|exact Hf|set_solver]).
  - intros p. cbn [List.filter al_rows db]. destruct (in_project p hot), (in_project p calm); vm_compute; discriminate.
Qed.
(** The passes of an alert that is crossed for a minute, then not read, then crossed again. *)
Definition quiet : Alert := with_state StateQuiet 0 (of_int 0) "" 0 hot.
Definition passes : list (Z * option Sample) :=
  [(0, Some (cpu 95 0)); (20 * second, Some (cpu 90 0)); (40 * second, Some (cpu 81 0)); (60 * second, None); (80 * second, Some (cpu 99 (80 * second)))].
Example watched : map (fun n => al_State (watch quiet (take n passes))) [1; 2; 3; 4; 5]%nat = ["warming"; "warming"; "firing"; "quiet"; "warming"].
Proof. vm_compute. reflexivity. Qed.
End Demo.
Lemma alert_state_exact_witness :
  al_State (watch Demo.quiet (take 3 Demo.passes)) = StateFiring /\ held_long (al_For Demo.quiet) (streak Demo.quiet (take 3 Demo.passes)) = true.
Proof.
  split; [|vm_compute; reflexivity]. etransitivity; [exact (alert_state_exact Demo.quiet (take 3 Demo.passes) eq_refl)|vm_compute; reflexivity].
Defined.
Lemma sweep_announces_witness :
  wp Demo.env (sweep (Some Demo.load)) (fun _ w' => Forall2 (fun a a' => al_ID a' = al_ID a) (al_rows Demo.db) (al_rows (part w'))) Demo.w0 /\
  map ev_Kind (w_events (snd (sweep (Some Demo.load) Demo.env Demo.w0))) = ["alert.firing"; "alert.cleared"].
Proof.
  split; [|vm_compute; reflexivity]. eapply wp_mono; [|refine (sweep_announces (Some Demo.load) Demo.env Demo.w0 _ _ Demo.alert_db_inv)].
  - intros r w' (samples & at_ & es & _ & H & _). eapply Forall2_impl; [exact H|]. intros a a' [-> | ->]; done.
  - intros l [= <-]. apply leaves_ret.
  - intros l w1 [= <-]. reflexivity.
Defined.
Lemma alerts_lawful_witness :
  wp Demo.env (serve (Some Demo.load) None ReqSweep) (fun _ w' => alert_inv (part w')) Demo.w0.
Proof.
  eapply wp_mono; [|refine (alerts_lawful (Some Demo.load) None Demo.env ReqSweep Demo.w0 _ _ _ Demo.alert_db_inv)].
  - intros r w' (_ & H & _). exact H.
  - intros l [= <-]. apply leaves_ret.
  - intros l w1 [= <-]. reflexivity.
  - intros w [=].
Defined.
