(* ===== verification/KeyPair.v ===== *)
(** Public keys (internal/platform/keypair): the keys a project keeps for the machines it starts, the
    one line a key is kept as, and the lines an instance is given for the names it asks for. *)
From stdpp Require Import base tactics numbers strings list gmap sorting.
From Stdlib Require Import ZArith Lia.
From Stdlib Require Ascii.
From S2P Require Import Prelude GoLang Time Effects Regex Kernel Httpx Tables Encoding.

(** * Data (types.go) *)

Definition MaxKeyBytes : Z := 8 * 1024.
Definition MaxPerName : Z := 64.
(* go: platform/keypair/types.go Key *)
Record Key := MkKey {
  k_ID : string; k_ProjectID : string; k_Name : string; k_PublicKey : string; k_Fingerprint : string; k_Kind : string; k_Comment : string;
  k_CreatedAt : Z;
}.
(* go: platform/keypair/types.go CreateParams *)
Record CreateParams := MkCreateParams { cp_ProjectID : string; cp_Name : string; cp_PublicKey : string }.

(** * Parsing (parse.go) *)

(* go: platform/keypair/parse.go kinds *)
Definition kinds : list string := [
  "ssh-ed25519"; "ssh-rsa"; "ecdsa-sha2-nistp256"; "ecdsa-sha2-nistp384"; "ecdsa-sha2-nistp521";
  "sk-ssh-ed25519@openssh.com"; "sk-ecdsa-sha2-nistp256@openssh.com"].
(* go: platform/keypair/parse.go parsed *)
Record parsed := MkParsed { pk_Kind : string; pk_Body : string; pk_Comment : string; pk_Fingerprint : string }.

(** [base64.StdEncoding.EncodeToString] *)
Definition char64 (n : Z) : Ascii.ascii := nth (Z.to_nat n) std64_alphabet pad_char.
Fixpoint std64_encode_l (bs : list Z) : list Ascii.ascii :=
  match bs with
  | [] => []
  | [a] => [char64 (a / 4); char64 (a mod 4 * 16); pad_char; pad_char]
  | [a; b] => [char64 (a / 4); char64 (a mod 4 * 16 + b / 16); char64 (b mod 16 * 4); pad_char]
  | a :: b :: c :: rest =>
      char64 (a / 4) :: char64 (a mod 4 * 16 + b / 16) :: char64 (b mod 16 * 4 + c / 64) :: char64 (c mod 64) :: std64_encode_l rest
  end.
(** [strings.TrimRight(s, "=")] *)
Fixpoint drop_pads (l : list Ascii.ascii) : list Ascii.ascii :=
  match l with c :: l' => if code c =? code pad_char then drop_pads l' else l | [] => [] end.
Definition fingerprint (blob : list Z) : string := "SHA256:" +:+ of_bytes (rev (drop_pads (rev (std64_encode_l (sha256 blob))))).
(** [strings.ContainsAny(text, "\n\r")] *)
Definition has_line_break (s : string) : bool := existsb is_line_break (bytes_of s).

(* go: platform/keypair/parse.go parsePublicKey *)
Definition parsePublicKey (text : string) : outcome parsed :=
  let text := trim_space text in
  try _ := guard (is_empty text) (EText "the key is empty") in
  try _ := guard (has_prefix text "-----BEGIN") (EText "that looks like a private key; give the .pub file instead") in
  try _ := guard (MaxKeyBytes <? slen text) (EText ("the key is longer than " +:+ itoa MaxKeyBytes +:+ " bytes")) in
  try _ := guard (has_line_break text) (EText "give one key, on one line") in
  match fields text with
  | kind :: body :: rest =>
      try _ := guard (negb (existsb (String.eqb kind) kinds)) (EText (quoted kind +:+ " is not a key type this platform accepts")) in
      match std64_decode body with
      | None => Err (EWrap "the key body is not base64" (EText "illegal base64 data"))
      | Some blob =>
          try _ := guard (length blob =? 0)%nat (EText "the key body is empty") in
          Ok (MkParsed kind body (join rest " ") (fingerprint blob))
      end
  | _ => Err (EText ("a key looks like " +:+ quoted "<type> <base64> [comment]"))
  end.
(* go: platform/keypair/parse.go parsed.line *)
Definition line (p : parsed) : string :=
  pk_Kind p +:+ " " +:+ pk_Body p +:+ (if is_empty (pk_Comment p) then "" else " " +:+ pk_Comment p).

(** * Repository (repository.go)

    UNIQUE (id) and (project_id, name). *)

Definition KeyDB : Type := list Key.
Definition errNotFound : error := ESentinel "key not found".
Definition errNameTaken : error := ESentinel "key name already exists".
Definition has_id (id : string) (k : Key) : bool := String.eqb (k_ID k) id.
Definition in_project (projectID : string) (k : Key) : bool := String.eqb (k_ProjectID k) projectID.
Definition named (projectID name : string) (k : Key) : bool := in_project projectID k && String.eqb (k_Name k) name.
Definition known_as (projectID id : string) (k : Key) : bool := in_project projectID k && has_id id k.
Definition clash (n k : Key) : bool := has_id (k_ID n) k || named (k_ProjectID n) (k_Name n) k.
Definition by_name : Key -> Key -> bool := by_key k_Name str_ltb (fun _ _ => false).

Section repository.
Context {S : Type} `{!Has KeyDB S}.

(* go: platform/keypair/repository.go repository.insert *)
Definition insert (k : Key) : M S unit := sql (T:=KeyDB) "insert key" (insert_row (clash k) errNameTaken k).
(* go: platform/keypair/repository.go repository.query *)
Definition query_rows (q : list Key -> list Key) : M S (list Key) := query (T:=KeyDB) "list keys" (fun rows => Ok (q rows)).
(* go: platform/keypair/repository.go repository.listIn *)
Definition listIn_rows (projectID : string) : M S (list Key) :=
  query_rows (fun rows => sliceStable by_name (List.filter (in_project projectID) rows)).
Definition first_of (found : list Key) : M S Key := match found with [] => fail errNotFound | k :: _ => ret k end.
(* go: platform/keypair/repository.go repository.byName *)
Definition byName (projectID name : string) : M S Key := let! found := query_rows (List.filter (named projectID name)) in first_of found.
(* go: platform/keypair/repository.go repository.byID *)
Definition byID (projectID id : string) : M S Key := let! found := query_rows (List.filter (known_as projectID id)) in first_of found.
(* go: platform/keypair/repository.go repository.delete *)
Definition delete_row (projectID id : string) : M S unit := sql (T:=KeyDB) "delete key" (delete_where (known_as projectID id) errNotFound).
End repository.

(** * Service (service.go) *)

(* go: platform/keypair/service.go translate *)
Definition translate (err : error) : error :=
  if errors_Is err "key not found" then NotFound "key_not_found" "no key with that name or id exists"
  else if errors_Is err "key name already exists" then Conflict "key_name_taken" "a key with that name already exists"
  else Internal err.

Section service.
Context {S : Type} `{!Has KeyDB S}.

(* go: platform/keypair/service.go service.create *)
Definition create (params : CreateParams) : M S Key :=
  lift (validate_Name "name" (cp_Name params)) ;;;
  let! key := lift (or_fault (fun err => Invalid "invalid_public_key" (error_text err)) (parsePublicKey (cp_PublicKey params))) in
  let! id := ids_New "key" in
  let! at_ := now in
  let k := MkKey id (cp_ProjectID params) (cp_Name params) (line key) (pk_Fingerprint key) (pk_Kind key) (pk_Comment key) at_ in
  mapped translate (insert k) ;;;
  ret k.
(* go: platform/keypair/service.go service.listIn *)
Definition listIn (projectID : string) : M S (list Key) := mapped translate (listIn_rows projectID).
(** The name, or failing that the id. *)
Definition lookup (projectID name : string) : M S (outcome Key) :=
  let! r := attempt (byName projectID name) in
  match r with
  | Err err => if errors_Is err "key not found" then attempt (byID projectID name) else ret r
  | Ok _ => ret r
  end.
(** One turn of the loop of [resolve]. *)
(* go: platform/keypair/service.go:73-91 seen *)
Definition resolve_one (projectID name : string) (st : list string * list string) : M S (list string * list string) :=
  let! r := lookup projectID name in
  match r with
  | Err err =>
      if errors_Is err "key not found" then fail (Invalid "unknown_key" ("no key named " +:+ name +:+ " exists in this project"))
      else fail (translate err)
  | Ok k =>
      let '(seen, lines) := st in
      ret (if existsb (String.eqb (k_Fingerprint k)) seen then st else (k_Fingerprint k :: seen, lines ++ [k_PublicKey k]))
  end.
(* go: platform/keypair/service.go service.resolve *)
Definition resolve (projectID : string) (names : list string) : M S (list string) :=
  if (length names =? 0)%nat then ret []
  else
    lift (guard (MaxPerName <? len names) (Invalid "too_many_keys" "an instance takes at most 64 keys")) ;;;
    let! ' (_, lines) := foldM (resolve_one projectID) names ([], []) in
    ret lines.
(* go: platform/keypair/service.go service.remove *)
Definition remove (projectID nameOrID : string) : M S unit :=
  let! r := lookup projectID nameOrID in
  match r with
  | Err err => fail (translate err)
  | Ok k => mapped translate (delete_row projectID (k_ID k))
  end.
End service.

(** * Handlers (handler.go) *)

(* go: platform/keypair/handler.go createRequest *)
Record createRequest := MkCreateRequest { cr_Name : string; cr_PublicKey : string }.
(* go: platform/keypair/handler.go response *)
Record response := MkResponse { o_ID : string; o_Name : string; o_Fingerprint : string; o_Kind : string; o_Comment : string; o_CreatedAt : string }.
(* go: platform/keypair/handler.go toResponse *)
Definition toResponse (k : Key) : response :=
  MkResponse (k_ID k) (k_Name k) (k_Fingerprint k) (k_Kind k) (k_Comment k) (rfc3339nano (k_CreatedAt k)).
(* go: platform/keypair/handler.go listResponse *)
Inductive body := BKey (k : response) | BKeys (ks : list response).

Section handlers.
Context {S : Type} `{!Has KeyDB S}.
(* go: platform/keypair/handler.go handler.create *)
Definition handle_create (sc : Scope) (req : outcome createRequest) : M S (Reply body) :=
  let! req := lift req in
  let! k := create (MkCreateParams (sc_ProjectID sc) (cr_Name req) (cr_PublicKey req)) in
  Write StatusCreated (BKey (toResponse k)).
(* go: platform/keypair/handler.go handler.list *)
Definition handle_list (sc : Scope) : M S (Reply body) :=
  let! keys := listIn (sc_ProjectID sc) in Write StatusOK (BKeys (map toResponse keys)).
(* go: platform/keypair/handler.go handler.delete *)
Definition handle_delete (sc : Scope) (id : string) : M S (Reply body) :=
  remove (sc_ProjectID sc) id ;;;
  WriteHeader StatusNoContent.

(** The routes, and what the instances ask. *)
Inductive request :=
| ReqCreate (sc : Scope) (req : outcome createRequest)
| ReqList (sc : Scope)
| ReqDelete (sc : Scope) (id : string)
| ReqResolve (projectID : string) (names : list string).
(* go: platform/keypair/module.go Module.Routes *)
Definition serve (r : request) : M S (Reply body) :=
  match r with
  | ReqCreate sc req => handle_create sc req
  | ReqList sc => handle_list sc
  | ReqDelete sc id => handle_delete sc id
  | ReqResolve projectID names => resolve projectID names ;;; WriteHeader StatusNoContent
  end.
End handlers.

(** * Words *)

(** Text without white space that is not empty. *)
Definition word (l : list Ascii.ascii) : Prop := l <> [] /\ Forall (fun c => is_space c = false) l.
Definition space : Ascii.ascii := Ascii.ascii_of_N 32.
Fixpoint spaced (ws : list (list Ascii.ascii)) : list Ascii.ascii :=
  match ws with [] => [] | [w] => w | w :: ws' => w ++ space :: spaced ws' end.

Lemma split_spaces_cons l : exists p ps, split_spaces l = p :: ps.
Proof. induction l as [|c l (p & ps & IH)]; [by exists [], []|]. simpl. rewrite IH. destruct (is_space c); eauto. Qed.
Lemma split_spaces_words l : Forall (fun p => Forall (fun c => is_space c = false) p) (split_spaces l).
Proof.
  induction l as [|c l IH]; [by repeat constructor|]. cbn [split_spaces]. destruct (split_spaces_cons l) as (p & ps & E). rewrite E in *.
  apply Forall_cons in IH as [Hp Hps]. destruct (is_space c) eqn:Ec; [by repeat constructor|]. by repeat constructor.
Qed.
Lemma split_word w rest : Forall (fun c => is_space c = false) w ->
  split_spaces (w ++ space :: rest) = w :: split_spaces rest.
Proof.
  induction w as [|c w IH]; intros H.
  - simpl. destruct (split_spaces_cons rest) as (p & ps & ->). done.
  - apply Forall_cons in H as [Hc Hw]. cbn [app split_spaces]. rewrite (IH Hw), Hc. done.
Qed.
Lemma split_one w : Forall (fun c => is_space c = false) w -> split_spaces w = [w].
Proof. induction w as [|c w IH]; [done|]. intros [Hc Hw]%Forall_cons. simpl. by rewrite (IH Hw), Hc. Qed.
Definition words (l : list Ascii.ascii) : list (list Ascii.ascii) := List.filter (fun l => match l with [] => false | _ => true end) (split_spaces l).
Lemma words_word l : Forall word (words l).
Proof.
  unfold words. apply Forall_forall. intros p [Hp Hne]%elem_of_filter_bool. pose proof (split_spaces_words l) as H. rewrite Forall_forall in H.
  split; [by destruct p|by apply H].
Qed.
Lemma words_spaced ws : Forall word ws -> words (spaced ws) = ws.
Proof.
  intros H. unfold words. induction H as [|w ws [Hne Hw] Hws IH]; [done|]. destruct ws as [|v ws].
  - simpl. rewrite split_one by done. by destruct w.
  - change (spaced (w :: v :: ws)) with (w ++ space :: spaced (v :: ws)). rewrite split_word by done. cbn [List.filter].
    rewrite IH. by destruct w.
Qed.
Lemma spaced_length l : (length (spaced (words l)) <= length l)%nat.
Proof.
  unfold words. assert (H : forall ps, (length (spaced (List.filter (fun l => match l with [] => false | _ => true end) ps)) <= length (spaced ps))%nat).
  { induction ps as [|p ps IH]; [done|]. destruct ps as [|q ps]; [by destruct p|]. cbn [List.filter].
    change (spaced (p :: q :: ps)) with (p ++ space :: spaced (q :: ps)). rewrite length_app. cbn [length].
    destruct p as [|c p]; [cbn [length app]; unfold List.filter in *; lia|]. cbn [List.filter] in IH.
    destruct (match q with [] => false | _ => true end); [|destruct (List.filter _ ps) eqn:E]; cbn [spaced] in *;
      rewrite ?length_app in *; cbn [length] in *; lia. }
  etransitivity; [apply H|]. apply Nat.eq_le_incl. induction l as [|c l IH]; [done|]. cbn [split_spaces].
  destruct (split_spaces_cons l) as (p & ps & E). rewrite E in *. destruct (is_space c); [cbn [spaced app length]; destruct ps; simpl in *; lia|].
  destruct ps; simpl in *; lia.
Qed.
Lemma fields_words s : fields s = map of_bytes (words (bytes_of s)).
Proof. done. Qed.
Lemma bytes_of_join ss : bytes_of (join ss " ") = spaced (map bytes_of ss).
Proof.
  induction ss as [|s ss IH]; [done|]. destruct ss as [|t ss]; [done|].
  change (join (s :: t :: ss) " ") with (s +:+ " " +:+ join (t :: ss) " "). rewrite !bytes_of_app, IH. done.
Qed.
Lemma map_bytes_of ws : map bytes_of (map of_bytes ws) = ws.
Proof. rewrite map_map. erewrite map_ext; [apply map_id|]. intros w. apply bytes_of_of. Qed.
Lemma fields_join s : fields (join (fields s) " ") = fields s.
Proof. rewrite !fields_words, bytes_of_join, map_bytes_of, words_spaced by apply words_word. done. Qed.
Lemma keypair_slen_bytes s : slen s = len (bytes_of s).
Proof. unfold slen. f_equal. induction s as [|c s IH]; [done|]. simpl. by rewrite IH. Qed.
Lemma slen_join s : slen (join (fields s) " ") <= slen s.
Proof. rewrite !keypair_slen_bytes, fields_words, bytes_of_join, map_bytes_of. pose proof (spaced_length (bytes_of s)). lia. Qed.

Lemma spaced_front ws : Forall word ws -> match spaced ws with c :: _ => is_space c = false | [] => ws = [] end.
Proof.
  intros [|w ws' [Hne Hw] _]; [done|]. destruct w as [|c w]; [done|]. apply Forall_cons in Hw as [Hc _]. by destruct ws'.
Qed.
Lemma spaced_back ws : Forall word ws -> match rev (spaced ws) with c :: _ => is_space c = false | [] => ws = [] end.
Proof.
  intros H. induction H as [|w ws [Hne Hw] Hws IH]; [done|]. destruct ws as [|v ws].
  - cbn [spaced]. destruct (rev w) as [|c l] eqn:E; [by apply (f_equal (@rev _)) in E; rewrite rev_involutive in E|].
    assert (Hc : c ∈ w) by (apply list_elem_of_In, in_rev; rewrite E; by left). rewrite Forall_forall in Hw. by apply Hw.
  - change (spaced (w :: v :: ws)) with (w ++ space :: spaced (v :: ws)). rewrite rev_app_distr. cbn [rev].
    destruct (rev (spaced (v :: ws))) as [|c l] eqn:E; [done|]. done.
Qed.
Lemma drop_none l : match l with c :: _ => is_space c = false | [] => True end -> drop_spaces l = l.
Proof. destruct l as [|c l]; [done|]. simpl. by intros ->. Qed.
Lemma trim_spaced ws : Forall word ws -> trim_space (of_bytes (spaced ws)) = of_bytes (spaced ws).
Proof.
  intros H. unfold trim_space. rewrite bytes_of_of.
  rewrite (drop_none (spaced ws)) by (pose proof (spaced_front ws H); by destruct (spaced ws)).
  rewrite (drop_none (rev (spaced ws))) by (pose proof (spaced_back ws H); by destruct (rev (spaced ws))).
  by rewrite rev_involutive.
Qed.
Lemma spaced_unbroken ws : Forall word ws -> existsb is_line_break (spaced ws) = false.
Proof.
  intros H. apply existsb_false. induction H as [|w ws [Hne Hw] Hws IH]; [constructor|].
  assert (Hb : Forall (fun c => is_line_break c = false) w).
  { eapply Forall_impl; [exact Hw|]. intros c Hc. unfold is_line_break, is_space in *. apply orb_false_iff in Hc as [Hc _].
    apply andb_false_iff in Hc as [Hc%Z.leb_gt|Hc%Z.leb_gt]; apply orb_false_iff; rewrite !Z.eqb_neq; lia. }
  destruct ws as [|v ws]; [done|]. change (spaced (w :: v :: ws)) with (w ++ space :: spaced (v :: ws)). apply Forall_app. split; [done|].
  constructor; [done|exact IH].
Qed.
Lemma join_unspaced s : exists ws, Forall word ws /\ join (fields s) " " = of_bytes (spaced ws).
Proof.
  exists (words (bytes_of s)). split; [apply words_word|]. apply bytes_of_inj. by rewrite bytes_of_join, fields_words, map_bytes_of, bytes_of_of.
Qed.

(** A line and what it was read from. *)
Lemma line_join kind body rest fp : kind <> "" ->
  Forall (fun s => s <> "") rest -> line (MkParsed kind body (join rest " ") fp) = join (kind :: body :: rest) " ".
Proof.
  intros _ Hr. unfold line. cbn [pk_Kind pk_Body pk_Comment]. destruct rest as [|x rest].
  { apply bytes_of_inj. change (join [kind; body] " ") with (kind +:+ " " +:+ body). rewrite !bytes_of_app. cbn. by rewrite app_nil_r. }
  assert (E : is_empty (join (x :: rest) " ") = false).
  { apply Forall_cons in Hr as [Hx _]. unfold is_empty. apply String.eqb_neq. intros E. apply Hx. destruct rest; [exact E|]. destruct x; [done|discriminate E]. }
  rewrite E. change (join (kind :: body :: x :: rest) " ") with (kind +:+ " " +:+ body +:+ " " +:+ join (x :: rest) " "). done.
Qed.
Lemma fields_nonempty s : Forall (fun f => f <> "") (fields s).
Proof.
  rewrite fields_words. apply Forall_fmap. eapply Forall_impl; [apply words_word|]. intros w [Hne _] E. apply Hne.
  apply (f_equal bytes_of) in E. by rewrite bytes_of_of in E.
Qed.

(** * The state machine the module promises *)

(** What every stored key is: a named key whose line parses to what is kept beside it. *)
Record key_ok (k : Key) : Prop := {
  ko_name : validate_Name "name" (k_Name k) = Ok tt;
  ko_line : exists p, (exists text, parsePublicKey text = Ok p) /\ k_PublicKey k = line p /\
    (k_Kind k, k_Comment k, k_Fingerprint k) = (pk_Kind p, pk_Comment p, pk_Fingerprint p);
}.
Inductive change (p : string) (db : KeyDB) : KeyDB -> Prop :=
| C_create k : k_ProjectID k = p -> key_ok k -> existsb (clash k) db = false -> change p db (db ++ [k])
| C_remove k : k_ProjectID k = p -> k ∈ db -> change p db (List.filter (fun x => negb (known_as p (k_ID k) x)) db).
Definition history (p : string) : KeyDB -> KeyDB -> Prop := rtc (change p).
#[export] Instance history_preorder p : PreOrder (history p).
Proof. unfold history. typeclasses eauto. Qed.

Record keys_inv (db : KeyDB) : Prop := {
  ki_id : unique_by (fun k => Some (k_ID k)) db;
  ki_name : unique_by (fun k => Some (k_ProjectID k, k_Name k)) db;
  ki_row : Forall key_ok db;
}.
Lemma keypair_change_inv p db db' : change p db db' -> keys_inv db -> keys_inv db'.
Proof.
  intros [k _ Hok Hc|k _ Hk] [H1 H2 H3].
  - rewrite existsb_false, Forall_forall in Hc. constructor.
    + apply unique_by_app; [done|]. intros x q Hx [= <-] [= E]. specialize (Hc x Hx). unfold clash, has_id in Hc. by rewrite E, String.eqb_refl in Hc.
    + apply unique_by_app; [done|]. intros x q Hx [= <-] [= E1 E2]. specialize (Hc x Hx). unfold clash, named, in_project in Hc.
      by rewrite E1, E2, !String.eqb_refl, orb_true_r in Hc.
    + apply Forall_app. split; [done|]. by constructor.
  - constructor; by first [apply unique_by_filter|apply Forall_filter_bool].
Qed.
Lemma keypair_history_inv p db db' : history p db db' -> keys_inv db -> keys_inv db'.
Proof. intros H. induction H as [|x y z Hc _ IH]; [done|]. intros Hi. apply IH. by eapply keypair_change_inv. Qed.

Definition others (p : string) (db : KeyDB) : KeyDB := others_rows k_ProjectID p db.
Lemma keypair_history_others p db db' : history p db db' -> others p db' = others p db.
Proof.
  intros H. induction H as [|x y z Hc _ IH]; [done|]. rewrite IH. destruct Hc as [k <- _ _|k <- _]; [apply others_insert|].
  clear IH. unfold others, others_rows. induction x as [|r x IHx]; [done|]. cbn [List.filter].
  destruct (negb (known_as _ _ r)) eqn:E; cbn [List.filter]; rewrite IHx; [done|].
  apply negb_false_iff, andb_true_iff in E as [->%String.eqb_eq _]. by rewrite String.eqb_refl.
Qed.

Section operations.
Context {S : Type} `{!Has KeyDB S}.

Lemma keypair_yields_first (db : KeyDB) q p : (forall k, k ∈ q db -> k ∈ db /\ p k) -> yields db (let! found := query_rows (S:=S) q in first_of found) (fun k => k ∈ db /\ p k).
Proof.
  intros H. eapply yields_bind; [apply yields_query|]. intros found [= <-]. unfold first_of.
  destruct (q db) as [|k l]; [by eapply yields_mono; [apply yields_fail|]|]. eapply yields_mono; [apply yields_ret|]. intros ? ->. apply H. by left.
Qed.
(** A key found by a name is the project's, and has that name or that id. *)
Definition asked (p name : string) (k : Key) : Prop := k_ProjectID k = p /\ (k_Name k = name \/ k_ID k = name).
Lemma yields_lookup (db : KeyDB) p name :
  yields db (lookup (S:=S) p name) (fun r => match r with Ok k => k ∈ db /\ asked p name k | Err _ => True end).
Proof.
  unfold lookup. eapply yields_bind with (P := fun r => match r with Ok k => k ∈ db /\ asked p name k | Err _ => True end).
  - apply yields_attempt, keypair_yields_first. intros k [Hk [Hp%String.eqb_eq Hn%String.eqb_eq]%andb_true_iff]%elem_of_filter_bool. unfold asked. auto.
  - intros [k|err] Hr; [by eapply yields_mono; [apply yields_ret|]; intros ? ->|]. destruct (errors_Is _ _); [|by eapply yields_mono; [apply yields_ret|]; intros ? ->].
    apply yields_attempt, keypair_yields_first. intros k [Hk [Hp%String.eqb_eq Hn%String.eqb_eq]%andb_true_iff]%elem_of_filter_bool. unfold asked. auto.
Qed.

(** The lines of the keys with a fingerprint that has not been seen. *)
Fixpoint distinct (seen : list string) (ks : list Key) : list string :=
  match ks with
  | [] => []
  | k :: ks' => if existsb (String.eqb (k_Fingerprint k)) seen then distinct seen ks' else k_PublicKey k :: distinct (k_Fingerprint k :: seen) ks'
  end.
Lemma resolve_loop (db : KeyDB) p names seen lines :
  yields db (foldM (resolve_one (S:=S) p) names (seen, lines)) (fun out => exists ks, Forall2 (fun n k => k ∈ db /\ asked p n k) names ks /\
    snd out = lines ++ distinct seen ks).
Proof.
  revert seen lines. induction names as [|n names IH]; intros seen lines; cbn [foldM].
  - eapply yields_mono; [apply yields_ret|]. intros ? ->. exists []. by rewrite app_nil_r.
  - eapply yields_bind with (P := fun st => exists k, (k ∈ db /\ asked p n k) /\
      st = if existsb (String.eqb (k_Fingerprint k)) seen then (seen, lines) else (k_Fingerprint k :: seen, lines ++ [k_PublicKey k])).
    + unfold resolve_one. eapply yields_bind; [apply yields_lookup|]. intros [k|err] Hk.
      * eapply yields_mono; [apply yields_ret|]. intros ? ->. by exists k.
      * destruct (errors_Is _ _); (eapply yields_mono; [apply yields_fail|done]).
    + intros st (k & Hk & ->). destruct (existsb _ seen) eqn:E.
      * eapply yields_mono; [apply IH|]. intros out (ks & Hks & ->). exists (k :: ks). split; [by constructor|]. cbn [distinct]. by rewrite E.
      * eapply yields_mono; [apply IH|]. intros out (ks & Hks & ->). exists (k :: ks). split; [by constructor|]. cbn [distinct]. rewrite E.
        by rewrite <- app_assoc.
Qed.
Lemma keypair_yields_resolve (db : KeyDB) p names : yields db (resolve (S:=S) p names) (fun lines => exists ks,
  Forall2 (fun n k => k ∈ db /\ asked p n k) names ks /\ lines = distinct [] ks).
Proof.
  unfold resolve. destruct names as [|n names]; cbn [length Nat.eqb]; [eapply yields_mono; [apply yields_ret|]; intros ? ->; by exists []|].
  eapply yields_bind; [apply yields_lift|]. intros [] _. eapply yields_bind; [apply resolve_loop|]. intros [seen lines] (ks & Hks & E).
  eapply yields_mono; [apply yields_ret|]. intros ? ->. by exists ks.
Qed.

Definition project_of (r : request) : string :=
  match r with ReqCreate sc _ | ReqList sc | ReqDelete sc _ => sc_ProjectID sc | ReqResolve p _ => p end.
Lemma keypair_serve_moves (db : KeyDB) r : moves (history (project_of r)) db (serve (S:=S) r).
Proof.
  destruct r as [sc req|sc|sc id|p names]; cbn [serve project_of]; unfold handle_create, handle_list, handle_delete, Write, WriteHeader.
  - m_step. intros q _. apply moves_then; [typeclasses eauto| |intros; m_step]. unfold create. m_step. intros [] Hn.
    eapply moves_bind; [typeclasses eauto|apply yields_lift|]. intros key Hkey.
    eapply moves_bind; [typeclasses eauto|apply yields_leaves; unfold ids_New; auto with leaves|]. intros id _. m_step. intros at_ _.
    apply moves_last; [typeclasses eauto|]. apply moves_sql; [typeclasses eauto|].
    unfold insert_row. destruct (existsb _ _) eqn:Ec; cbn [snd]; [done|]. apply rtc_once. apply C_create; [done| |done]. constructor; [done|].
    destruct (parsePublicKey _) as [k|] eqn:Ek; [|done]. injection Hkey as <-. exists k. split_and!; [by eexists|done|done].
  - unfold listIn, listIn_rows, query_rows. reads.
  - apply moves_then; [typeclasses eauto| |intros; m_step]. unfold remove. eapply moves_bind; [typeclasses eauto|apply yields_lookup|].
    intros [k|e] Hk; [|m_step]. destruct Hk as [Hk [Hp _]]. apply moves_mapped, moves_sql; [typeclasses eauto|].
    pose proof (delete_where_rows (known_as (sc_ProjectID sc) (k_ID k)) errNotFound db) as E. cbv beta. unfold KeyDB in *. rewrite E.
    apply rtc_once. by apply C_remove.
  - eapply moves_bind; [typeclasses eauto|apply keypair_yields_resolve|]. intros; m_step.
Qed.
End operations.

(** * Properties *)

(** [key_line_stable]: the one line a key is kept as is canonical: parsing it again gives the very
    key it was made from, fingerprint and comment included. *)
Theorem key_line_stable text p : parsePublicKey text = Ok p -> parsePublicKey (line p) = Ok p.
Proof.
  unfold parsePublicKey at 1. set (t := trim_space text). intros H. apply obind_ok in H as ([] & _ & H). apply obind_ok in H as ([] & _ & H).
  apply obind_ok in H as ([] & Hlen%guard_ok & H). apply obind_ok in H as ([] & _ & H). apply Z.ltb_ge in Hlen.
  destruct (fields t) as [|kind [|body rest]] eqn:Ef; [done|done|]. apply obind_ok in H as ([] & Hk%guard_ok & H).
  destruct (std64_decode body) as [blob|] eqn:Eb; [|done]. apply obind_ok in H as ([] & Hb & [= <-]).
  pose proof (fields_nonempty t) as Hne. rewrite Ef in Hne. apply Forall_cons in Hne as [Hne1 [_ Hne2]%Forall_cons].
  rewrite line_join by done. rewrite <- Ef. destruct (join_unspaced t) as (ws & Hws & Ej).
  unfold parsePublicKey. cbv zeta. rewrite Ej, trim_spaced by done. rewrite <- Ej, fields_join.
  apply negb_false_iff, existsb_exists in Hk as (k & Hin & Ek%String.eqb_eq). subst k.
  assert (Hj : join (kind :: body :: rest) " " = kind +:+ " " +:+ join (body :: rest) " ") by done.
  assert (Hfront : is_empty (join (fields t) " ") = false /\ has_prefix (join (fields t) " ") "-----BEGIN" = false).
  { rewrite Ef, Hj. apply list_elem_of_In in Hin. unfold kinds in Hin. repeat (apply elem_of_cons in Hin as [->|Hin]; [by split|]). by apply not_elem_of_nil in Hin. }
  destruct Hfront as [-> ->]. rewrite (proj2 (Z.ltb_ge _ _)) by (pose proof (slen_join t); lia).
  assert (Hbr : has_line_break (join (fields t) " ") = false) by (unfold has_line_break; rewrite Ej, bytes_of_of; by apply spaced_unbroken).
  rewrite Hbr, Ef. cbn [guard obind]. assert (Hkk : existsb (String.eqb kind) kinds = true) by (apply existsb_exists; exists kind; by rewrite String.eqb_refl).
  rewrite Hkk, Eb. cbn [negb guard obind]. rewrite Hb. done.
Qed.

Lemma key_line_stable_witness :
  let text := "  ssh-rsa   QUJD  me@here " in
  let p := MkParsed "ssh-rsa" "QUJD" "me@here" (fingerprint [65; 66; 67]) in
  line p = "ssh-rsa QUJD me@here" /\ parsePublicKey (line p) = Ok p.
Proof.
  intros text p. split; [reflexivity|]. apply (key_line_stable text p). vm_compute. reflexivity.
Defined.

(** [keys_resolved]: the lines an instance is given are those of one key for each name it asked for, all of
    its own project and found by name or id, in the order asked, each key once.  A name that no key has
    fails the request. *)
Theorem keys_resolved {S} `{!Has KeyDB S} env projectID names (w : World S) :
  wp env (resolve projectID names) (fun r w' => part w' = part (T:=KeyDB) w /\ forall lines, r = Ok lines ->
    exists ks, Forall2 (fun n k => k ∈ part (T:=KeyDB) w /\ asked projectID n k) names ks /\ lines = distinct [] ks) w.
Proof.
  eapply wp_mono; [|exact (keypair_yields_resolve (part w) projectID names env w I eq_refl)]. intros r w' [Hw Hr]. split; [done|].
  intros lines ->. exact Hr.
Qed.

(** [keypairs_lawful]: requests change the table only by what their caller may do to the keys of its own
    project, and every stored key stays one whose line parses to what is kept beside it. *)
Theorem keypairs_lawful {S} `{!Has KeyDB S} env r (w : World S) : keys_inv (part w) ->
  wp env (serve r) (fun _ w' => history (project_of r) (part w) (part w') /\ keys_inv (part w') /\
    others (project_of r) (part w') = others (project_of r) (part w)) w.
Proof.
  intros Hi. eapply wp_mono; [|exact (keypair_serve_moves (part w) r env w eq_refl)]. intros o w' H.
  split_and!; [done|exact (keypair_history_inv _ _ _ H Hi)|exact (keypair_history_others _ _ _ H)].
Qed.

Module Demo.
Definition env : Env := {| env_now _ := 0; env_rand _ := [1; 2; 3]; env_io _ := false |}.
Definition w0 : World KeyDB := MkWorld [] O [].
Definition add : request := ReqCreate (MkScope "prj-1" "tok-1" "ci" "" "member") (Ok (MkCreateRequest "mine" "ssh-rsa QUJD")).
Lemma keys_empty : keys_inv (part w0).
Proof. constructor; [apply NoDup_nil_2|apply NoDup_nil_2|constructor]. Qed.
End Demo.
Lemma keypairs_lawful_witness : map k_PublicKey (part (T:=KeyDB) (snd (serve Demo.add Demo.env Demo.w0))) = ["ssh-rsa QUJD"] /\
  keys_inv (part (snd (serve Demo.add Demo.env Demo.w0))).
Proof.
  split; [vm_compute; reflexivity|]. pose proof (keypairs_lawful Demo.env Demo.add Demo.w0 Demo.keys_empty) as H.
  unfold wp in H. destruct (serve _ _ _) as [r w']. exact (proj1 (proj2 H)).
Defined.
