(* ===== verification/Registry.v ===== *)
(** Logins for image registries (internal/platform/registry): one for each host, the password sealed
    with the key of the control plane and handed in the clear to the nodes that pull. *)
From stdpp Require Import base tactics numbers strings list gmap sorting.
From Stdlib Require Import ZArith Lia.
From Stdlib Require Ascii.
From S2P Require Import Prelude GoLang Time Effects Regex Kernel Httpx Tables Encoding Sealed.

(** * Data (types.go) *)

Definition MaxHostLength : Z := 253.
Definition MaxUsernameLength : Z := 255.
Definition MaxPasswordLength : Z := 4096.
(* go: platform/registry/types.go Credential *)
Record Credential := MkCredential {
  c_ID : string; c_Host : string; c_Username : string; c_Sealed : string; c_KeyID : string; c_CreatedAt : Z;
}.
(* go: platform/registry/types.go CreateParams *)
Record CreateParams := MkCreateParams { cp_Host : string; cp_Username : string; cp_Password : string }.
(* go: platform/registry/types.go Open *)
Record Open := MkOpen { op_Host : string; op_Username : string; op_Password : string }.

(** * Repository (repository.go)

    UNIQUE (id) and (host). *)

Definition RegistryDB : Type := list Credential.
Definition errNotFound : error := ESentinel "credential not found".
Definition errHostTaken : error := ESentinel "host already has a credential".
Definition has_id (id : string) (c : Credential) : bool := String.eqb (c_ID c) id.
Definition has_host (host : string) (c : Credential) : bool := String.eqb (c_Host c) host.
Definition known_as (id : string) (c : Credential) : bool := has_id id c || has_host id c.
Definition clash (n c : Credential) : bool := has_id (c_ID n) c || has_host (c_Host n) c.
Definition by_host : Credential -> Credential -> bool := by_key c_Host str_ltb (fun _ _ => false).

Section repository.
Context {S : Type} `{!Has RegistryDB S}.
(* go: platform/registry/repository.go repository.insert *)
Definition insert (c : Credential) : M S unit := sql (T:=RegistryDB) "insert a registry credential" (insert_row (clash c) errHostTaken c).
(* go: platform/registry/repository.go repository.all *)
Definition all_rows : M S (list Credential) := query (T:=RegistryDB) "list registry credentials" (fun rows => Ok (sliceStable by_host rows)).
(* go: platform/registry/repository.go repository.delete *)
Definition delete_row (id : string) : M S unit := sql (T:=RegistryDB) "delete a registry credential" (delete_where (known_as id) errNotFound).
End repository.

(** * Service (service.go) *)

Definition host_part : regex := RSeq (RCls alnum) (ROpt (RSeq (RStar (RCls alnum_hyphen)) (RCls alnum))).
(* go: platform/registry/service.go hostPattern *)
Definition hostPattern : regex :=
  RSeq host_part (RSeq (RStar (RSeq (RCls is_dot) host_part))
    (ROpt (RSeq (RCls (fun c => code c =? 58)) (RSeq (RCls is_digit) (RUpto 4 (RCls is_digit)))))).
(* go: platform/registry/service.go checkHost *)
Definition checkHost (host : string) : outcome string :=
  let host := to_lower (trim_space host) in
  try _ := guard (is_empty host) (Invalid "invalid_host" "name the registry host, such as ghcr.io") in
  try _ := guard (str_contains host "/" || str_contains host "://")
    (Invalid "invalid_host" ("give the host on its own, without a scheme or a path: ghcr.io, not " +:+ host)) in
  try _ := guard ((MaxHostLength <? slen host) || negb (re_match hostPattern host)) (Invalid "invalid_host" (host +:+ " is not a host name")) in
  Ok host.

Section service.
Context {S : Type} `{!Has RegistryDB S} (c : AEAD) (keys : option Keyring).

(* go: platform/registry/service.go service.create *)
Definition create (params : CreateParams) : M S Credential :=
  let! host := lift (checkHost (cp_Host params)) in
  let username := trim_space (cp_Username params) in
  lift (guard (is_empty username) (Invalid "invalid_username" "name the user this credential logs in as")) ;;;
  lift (guard (MaxUsernameLength <? slen username) (Invalid "invalid_username" ("a username is at most " +:+ itoa MaxUsernameLength +:+ " characters"))) ;;;
  lift (guard (is_empty (cp_Password params)) (Invalid "invalid_password" "give the password or token")) ;;;
  lift (guard (MaxPasswordLength <? slen (cp_Password params))
    (Invalid "invalid_password" ("a password is at most " +:+ itoa MaxPasswordLength +:+ " characters"))) ;;;
  match Active keys with
  | None => fail (Conflict "no_sealing_key" ("this control plane has no key to seal a registry password with, and handing one " +:+
      "to every node out of a database it cannot protect is not something it will do quietly: start it with --backup-key-file"))
  | Some active =>
      let! blob := mapped (fun err => Internal (EWrap "seal the password" err)) (SealBytes c (string_bytes (cp_Password params)) active) in
      let! id := ids_New "reg" in
      let! at_ := now in
      let held := MkCredential id host username blob (ActiveID keys) at_ in
      mapped (fun err => if errors_Is err "host already has a credential" then Conflict "host_taken"
        ("there is already a credential for " +:+ host +:+ ", and one pull cannot be made with two logins: delete that one first") else err)
        (insert held) ;;;
      ret held
  end.
(* go: platform/registry/service.go service.list *)
Definition listed : M S (list Credential) := all_rows.
(* go: platform/registry/service.go service.remove *)
Definition remove (id : string) : M S unit :=
  mapped (fun err => if errors_Is err "credential not found"
    then NotFound "credential_not_found" "no registry credential with that id or host exists" else err) (delete_row id).
(** What a node is given of one row: nothing when its key is not in the ring. *)
Definition opened (one : Credential) : outcome (option Open) :=
  match Find keys (c_KeyID one) with
  | None => Ok None
  | Some key =>
      try plain := or_fault (fun err => Internal (EWrap "unseal a registry password" err)) (OpenBytes c (c_Sealed one) key) in
      Ok (Some (MkOpen (c_Host one) (c_Username one) (bytes_string plain)))
  end.
(* go: platform/registry/service.go service.forNode *)
Definition forNode : M S (list Open) :=
  let! held := all_rows in
  foldM (fun one open => let! o := lift (opened one) in ret (match o with None => open | Some o => open ++ [o] end)) held [].
End service.

(** * Handlers (handler.go) *)

(* go: platform/registry/handler.go createRequest *)
Record createRequest := MkCreateRequest { cr_Host : string; cr_Username : string; cr_Password : string }.
(* go: platform/registry/handler.go response *)
Record response := MkResponse { o_ID : string; o_Host : string; o_Username : string; o_KeyID : string; o_CreatedAt : string }.
(* go: platform/registry/handler.go toResponse *)
Definition toResponse (c : Credential) : response :=
  MkResponse (c_ID c) (c_Host c) (c_Username c) (c_KeyID c) (rfc3339nano (c_CreatedAt c)).
(* go: platform/registry/handler.go nodeResponse *)
Record nodeResponse := MkNodeResponse { n_Host : string; n_Username : string; n_Password : string }.
Inductive body := BCredential (c : response) | BCredentials (cs : list response) | BNode (cs : list nodeResponse).

Section handlers.
Context {S : Type} `{!Has RegistryDB S} (c : AEAD) (keys : option Keyring).
(* go: platform/registry/handler.go handler.create *)
Definition handle_create (req : outcome createRequest) : M S (Reply body) :=
  let! req := lift req in
  let! held := create c keys (MkCreateParams (cr_Host req) (cr_Username req) (cr_Password req)) in
  Write StatusCreated (BCredential (toResponse held)).
(* go: platform/registry/handler.go handler.list *)
Definition handle_list : M S (Reply body) := let! held := listed in Write StatusOK (BCredentials (map toResponse held)).
(* go: platform/registry/handler.go handler.delete *)
Definition handle_delete (id : string) : M S (Reply body) :=
  remove id ;;;
  WriteHeader StatusNoContent.
(* go: platform/registry/handler.go handler.listForNode *)
Definition handle_listForNode : M S (Reply body) :=
  let! open := forNode c keys in
  Write StatusOK (BNode (map (fun o => MkNodeResponse (op_Host o) (op_Username o) (op_Password o)) open)).

Inductive request := ReqCreate (req : outcome createRequest) | ReqList | ReqDelete (id : string) | ReqForNode.
(* go: platform/registry/module.go Module.Routes *)
Definition serve (r : request) : M S (Reply body) :=
  match r with
  | ReqCreate req => handle_create req
  | ReqList => handle_list
  | ReqDelete id => handle_delete id
  | ReqForNode => handle_listForNode
  end.
End handlers.

(** * Hosts *)

(** What a host is made of. *)
Definition host_byte (c : Ascii.ascii) : bool := alnum_hyphen c || is_dot c || (code c =? 58).
Lemma host_byte_spec c : host_byte c = true -> is_space c = false /\ lower_byte c = c /\ code c <> 47.
Proof. destruct c as [[] [] [] [] [] [] [] []]; vm_compute; intros H; (discriminate H || (split_and!; [reflexivity|reflexivity|discriminate])). Qed.
Lemma host_pattern_bytes w : lang hostPattern w -> Forall (fun c => host_byte c = true) w.
Proof.
  intros H. eapply lang_chars; [exact H|]. unfold host_byte, alnum_hyphen. cbn.
  split_and!; auto; intros c Hc; unfold alnum_hyphen, alnum in *; rewrite ?Hc, ?orb_true_r; auto.

Qed.
Lemma lowered l : Forall (fun c => host_byte c = true) l -> map lower_byte l = l.
Proof. induction 1 as [|c l Hc _ IH]; [done|]. cbn [map]. rewrite IH. by rewrite (proj1 (proj2 (host_byte_spec c Hc))). Qed.
Lemma drop_no_spaces l : Forall (fun c => host_byte c = true) l -> drop_spaces l = l.
Proof. destruct 1 as [|c l Hc _]; [done|]. cbn [drop_spaces]. by rewrite (proj1 (host_byte_spec c Hc)). Qed.

(** [host_checked]: a host that is accepted is the text without the white space around it and in lower
    case; it is a name of the pattern with an optional port, and checking it again changes nothing. *)
Theorem host_checked text h : checkHost text = Ok h ->
  h = to_lower (trim_space text) /\ lang hostPattern (bytes_of h) /\ 0 < slen h <= MaxHostLength /\ checkHost h = Ok h.
Proof.
  unfold checkHost. set (x := to_lower (trim_space text)). intros H. apply obind_ok in H as ([] & He%guard_ok & H).
  apply obind_ok in H as ([] & Hs%guard_ok & H). apply obind_ok in H as ([] & Hm%guard_ok & [= <-]).
  pose proof Hm as [Hlen%Z.ltb_ge Hre%negb_false_iff]%orb_false_iff. apply re_match_spec in Hre.
  assert (Hx : to_lower (trim_space x) = x).
  { pose proof (host_pattern_bytes _ Hre) as Hb. unfold to_lower, trim_space. rewrite bytes_of_of, (drop_no_spaces _ Hb), drop_no_spaces by (by apply Forall_rev).
    rewrite rev_involutive, lowered by done. apply of_bytes_of. }
  split_and!; [done|done| |done|].
  - apply is_empty_false in He. destruct x; [done|]. unfold slen. cbn [String.length]. lia.
  - by rewrite Hx, He, Hs, Hm.
Qed.

(** * The state machine the module promises *)

(** The keys a ring seals with can be found in it again. *)
Definition ring_finds (keys : option Keyring) : Prop := forall k, Active keys = Some k -> Find keys (ID k) = Some k.

Section machine.
Context (c : AEAD) (keys : option Keyring).

(** A row as it was made: a checked host, a user, and a password that the ring opens. *)
Record row_ok (x : Credential) : Prop := {
  ro_host : checkHost (c_Host x) = Ok (c_Host x);
  ro_user : c_Username x <> "" /\ slen (c_Username x) <= MaxUsernameLength;
  ro_password : exists password, password <> "" /\ slen password <= MaxPasswordLength /\
    opened c keys x = Ok (Some (MkOpen (c_Host x) (c_Username x) password));
}.
Inductive change (db : RegistryDB) : RegistryDB -> Prop :=
| C_create x : row_ok x -> existsb (clash x) db = false -> change db (db ++ [x])
| C_remove id : change db (List.filter (fun x => negb (known_as id x)) db).
Definition history : RegistryDB -> RegistryDB -> Prop := rtc change.
#[export] Instance history_preorder : PreOrder history.
Proof. unfold history. typeclasses eauto. Qed.
Record registry_inv (db : RegistryDB) : Prop := {
  ri_id : unique_by (fun x => Some (c_ID x)) db;
  ri_host : unique_by (fun x => Some (c_Host x)) db;
  ri_row : Forall row_ok db;
}.
Lemma registry_change_inv db db' : change db db' -> registry_inv db -> registry_inv db'.
Proof.
  intros [x Hok Hc|id] [H1 H2 H3].
  - rewrite existsb_false, Forall_forall in Hc. constructor.
    + apply unique_by_app; [done|]. intros y q Hy [= <-] [= E]. specialize (Hc y Hy). unfold clash, has_id in Hc. by rewrite E, String.eqb_refl in Hc.
    + apply unique_by_app; [done|]. intros y q Hy [= <-] [= E]. specialize (Hc y Hy). unfold clash, has_host in Hc.
      by rewrite E, String.eqb_refl, orb_true_r in Hc.
    + apply Forall_app. split; [done|]. by constructor.
  - constructor; by first [apply unique_by_filter|apply Forall_filter_bool].
Qed.
Lemma registry_history_inv db db' : history db db' -> registry_inv db -> registry_inv db'.
Proof. intros H. induction H as [|x y z Hc _ IH]; [done|]. intros Hi. apply IH. by eapply registry_change_inv. Qed.

Section operations.
Context {S : Type} `{!Has RegistryDB S} `{!GCM c} (Hring : ring_finds keys).

(** What is created: the login that was asked for, and a row that opens to it. *)
Definition login_of (params : CreateParams) (h : string) : Open := MkOpen h (trim_space (cp_Username params)) (cp_Password params).
Lemma registry_create_rule params env (Q : outcome Credential -> World S -> Prop) w :
  (forall e w', part w' = part (T:=RegistryDB) w -> Q (Err e) w') ->
  (forall x w', row_ok x -> existsb (clash x) (part (T:=RegistryDB) w) = false -> part (T:=RegistryDB) w' = part (T:=RegistryDB) w ++ [x] ->
     (exists h, checkHost (cp_Host params) = Ok h /\ opened c keys x = Ok (Some (login_of params h))) -> Q (Ok x) w') ->
  wp env (create c keys params) Q w.
Proof.
  intros He Hok. unfold create. apply wp_bind. rewrite wp_lift. destruct (checkHost _) as [h|] eqn:Eh; [|by apply He].
  apply wp_bind. rewrite wp_lift. destruct (is_empty _) eqn:Eu; [by apply He|]. cbn [guard].
  apply wp_bind. rewrite wp_lift. destruct (MaxUsernameLength <? _) eqn:Eul; [by apply He|]. cbn [guard].
  apply wp_bind. rewrite wp_lift. destruct (is_empty (cp_Password params)) eqn:Ep; [by apply He|]. cbn [guard].
  apply wp_bind. rewrite wp_lift. destruct (MaxPasswordLength <? _) eqn:Epl; [by apply He|]. cbn [guard].
  destruct (Active keys) as [active|] eqn:Ea; [|rewrite wp_fail; by apply He].
  apply wp_bind, wp_mapped, (SealBytes_wp c env); [apply string_bytes_bound|]. intros blob Hblob. cbn [or_fault].
  unfold ids_New. apply wp_bind, wp_bind. rewrite wp_rand, wp_ret. apply wp_bind. rewrite wp_now.
  set (x := MkCredential _ _ _ _ _ _).
  assert (Ho : opened c keys x = Ok (Some (login_of params h))).
  { unfold opened, x. cbn [c_KeyID c_Sealed c_Host c_Username]. unfold ActiveID. rewrite Ea, (Hring _ Ea), Hblob. cbn [or_fault obind].
    by rewrite bytes_string_bytes. }
  apply wp_bind, wp_mapped, wp_write; intros w' Hw'; cbn [or_fault]; [by apply He|].
  unfold insert_row in *. destruct (existsb _ _) eqn:Ec; cbn [fst snd or_fault] in *; [by apply He|].
  rewrite wp_ret. apply Hok; [|done|done|by exists h]. constructor.
  - by apply host_checked in Eh as (_ & _ & _ & ?).
  - cbn. apply is_empty_false in Eu. apply Z.ltb_ge in Eul. done.
  - exists (cp_Password params). apply is_empty_false in Ep. apply Z.ltb_ge in Epl. done.
Qed.
Lemma registry_serve_moves (db : RegistryDB) r : moves history db (serve (S:=S) c keys r).
Proof.
  destruct r as [req| |id|]; cbn [serve]; unfold handle_create, handle_list, handle_delete, handle_listForNode, Write, WriteHeader.
  - m_step. intros q _. apply moves_then; [typeclasses eauto| |intros; m_step]. intros env w Hw. apply registry_create_rule.
    + intros e w' ->. by rewrite Hw.
    + intros x w' Hx Hc Hw' _. rewrite Hw in Hc, Hw'. rewrite Hw'. apply rtc_once. by apply C_create.
  - unfold listed, all_rows. reads.
  - apply moves_then; [typeclasses eauto| |intros; m_step]. unfold remove. apply moves_mapped, moves_sql; [typeclasses eauto|].
    pose proof (delete_where_rows (known_as id) errNotFound db) as E. cbv beta. unfold RegistryDB in *. rewrite E. apply rtc_once, C_remove.
  - eapply moves_bind; [typeclasses eauto| |intros; m_step]. apply yields_leaves. unfold forNode, all_rows. auto 10 with leaves.
Qed.
(** The rows opened one by one. *)
Lemma open_all_rule rows open env (Q : outcome (list Open) -> World S -> Prop) w :
  (forall out, Forall2 (fun x o => opened c keys x = Ok (Some o)) rows out -> Q (Ok (open ++ out)) w) -> Forall row_ok rows ->
  wp env (foldM (fun one open => let! o := lift (opened c keys one) in ret (match o with None => open | Some o => open ++ [o] end)) rows open) Q w.
Proof.
  revert open Q. induction rows as [|x rows IH]; intros open Q HQ Hr; cbn [foldM].
  { rewrite wp_ret. rewrite <- (app_nil_r open). apply HQ. constructor. }
  apply Forall_cons in Hr as [Hx Hr]. destruct (ro_password _ Hx) as (pw & _ & _ & Ho).
  apply wp_bind, wp_bind. rewrite wp_lift, Ho. rewrite wp_ret. apply IH; [|done]. intros out Hout. rewrite <- app_assoc. apply HQ. by constructor.
Qed.
End operations.
End machine.
Arguments row_ok c keys x : assert.

(** * Properties *)

(** [registries_lawful]: requests add logins whose host is checked and whose password the ring opens, and
    remove logins; a host has one login at most. *)
Theorem registries_lawful {S} `{!Has RegistryDB S} (c : AEAD) `{!GCM c} keys env r (w : World S) :
  ring_finds keys -> registry_inv c keys (part w) ->
  wp env (serve c keys r) (fun _ w' => history c keys (part w) (part w') /\ registry_inv c keys (part w')) w.
Proof.
  intros Hring Hi. eapply wp_mono; [|exact (registry_serve_moves c keys Hring (part w) r env w eq_refl)]. intros o w' H.
  split; [done|exact (registry_history_inv c keys _ _ H Hi)].
Qed.

(** [login_reaches_nodes]: a login that was accepted is among those the nodes are given next, with the
    password that was typed, under the host a pull names, together with one for every other row. *)
Theorem login_reaches_nodes {S} `{!Has RegistryDB S} (c : AEAD) `{!GCM c} keys env params (w : World S) :
  ring_finds keys -> registry_inv c keys (part w) ->
  wp env (let! _ := create c keys params in forNode c keys) (fun r w' => forall open, r = Ok open ->
    exists h, checkHost (cp_Host params) = Ok h /\ login_of params h ∈ open /\
      Forall2 (fun x o => opened c keys x = Ok (Some o)) (sliceStable by_host (part w')) open) w.
Proof.
  intros Hring Hi. apply wp_bind, (registry_create_rule c keys Hring); [done|].
  intros x w' Hx _ Hw' (h & Eh & Ho). unfold forNode. apply wp_bind, wp_read. intros r [->| ->]; [done|].
  assert (Hp : sliceStable by_host (part (T:=RegistryDB) w') ≡ₚ part (T:=RegistryDB) w') by apply sliceStable_perm.
  apply open_all_rule.
  - intros out Hout open [= <-]. cbn [app]. exists h. split; [done|]. change (part (T:=RegistryDB) (tick w')) with (part (T:=RegistryDB) w'). split; [|done].
    assert (Hin : x ∈ sliceStable by_host (part (T:=RegistryDB) w')) by (rewrite Hp, Hw'; apply elem_of_app; right; by apply list_elem_of_singleton).
    apply list_elem_of_lookup in Hin as [i Hin]. destruct (Forall2_lookup_l _ _ _ _ _ Hout Hin) as (o & Hoi & Eo).
    rewrite Ho in Eo. injection Eo as <-. by eapply list_elem_of_lookup_2.
  - rewrite Hp, Hw'. apply Forall_app. split; [apply Hi|by constructor].
Qed.

(** ** Runs *)

Module Demo.
Definition ring : option Keyring := Some (NewKeyring [[1; 2; 3]]).
Definition env : Env := {| env_now n := Z.of_nat n * second; env_rand n := [Z.of_nat n]; env_io _ := false |}.
Definition params : CreateParams := MkCreateParams " GHCR.io " "ci" "hunter2".
Definition w0 : World RegistryDB := MkWorld [] O [].
Lemma registry_ring_found : ring_finds ring.
Proof. intros k [= <-]. vm_compute. reflexivity. Qed.
Lemma registry_empty_inv : registry_inv demo ring (part w0).
Proof. constructor; [apply NoDup_nil_2|apply NoDup_nil_2|constructor]. Qed.
Definition run : M RegistryDB (list Open) := let! _ := create demo ring params in forNode demo ring.
Definition add : request := ReqCreate (Ok (MkCreateRequest "GHCR.io" "ci" "hunter2")).
End Demo.
Lemma host_checked_witness : checkHost " GHCR.io:443" = Ok "ghcr.io:443" /\ checkHost "ghcr.io:443" = Ok "ghcr.io:443".
Proof.
  assert (E : checkHost " GHCR.io:443" = Ok "ghcr.io:443") by (vm_compute; reflexivity). split; [exact E|].
  exact (proj2 (proj2 (proj2 (host_checked _ _ E)))).
Defined.
Lemma registries_lawful_witness : registry_inv demo Demo.ring (part (snd (serve demo Demo.ring Demo.add Demo.env Demo.w0))).
Proof.
  pose proof (registries_lawful demo Demo.ring Demo.env Demo.add Demo.w0 Demo.registry_ring_found Demo.registry_empty_inv) as H.
  unfold wp in H. destruct (serve _ _ _ _ _) as [r w']. exact (proj2 H).
Defined.
Lemma login_reaches_nodes_witness : fst (Demo.run Demo.env Demo.w0) = Ok [MkOpen "ghcr.io" "ci" "hunter2"] /\
  login_of Demo.params "ghcr.io" ∈ [MkOpen "ghcr.io" "ci" "hunter2"].
Proof.
  assert (E : fst (Demo.run Demo.env Demo.w0) = Ok [MkOpen "ghcr.io" "ci" "hunter2"]) by (vm_compute; reflexivity). split; [exact E|].
  pose proof (login_reaches_nodes demo Demo.ring Demo.env Demo.params Demo.w0 Demo.registry_ring_found Demo.registry_empty_inv) as H.
  unfold wp in H. fold Demo.run in H. destruct (Demo.run _ _) as [r w']. destruct (H _ E) as (h & Eh & Hin & _).
  assert (E' : checkHost (cp_Host Demo.params) = Ok "ghcr.io") by (vm_compute; reflexivity). rewrite E' in Eh. injection Eh as <-. exact Hin.
Defined.
(** A ring that has lost a key: the login is listed, and no node is given it. *)
Example lost_key_is_silent : let w := snd (create demo Demo.ring Demo.params Demo.env Demo.w0) in
  len (part (T:=RegistryDB) w) = 1 /\ fst (forNode demo (Some (NewKeyring [[9]])) Demo.env w) = Ok [].
Proof. vm_compute. done. Qed.
