(* ===== verification/Utf8.v ===== *)
(** Text in UTF-8 (unicode/utf8): what a valid text is, character by character, and what is left of one
    that is cut at either end or rid of its NULs. *)
From stdpp Require Import base tactics numbers strings list.
From Stdlib Require Import ZArith Lia.
From Stdlib Require Ascii.
From S2P Require Import Prelude GoLang.

(** [utf8.ValidString]: every character is encoded in its shortest form, and none is a surrogate or
    behind U+10FFFF. *)

Definition between (lo hi : Z) (c : Ascii.ascii) : bool := (lo <=? code c) && (code c <=? hi).
Definition follows (c : Ascii.ascii) : bool := between 128 191 c.
(** The second of three bytes, and of four, behind a first. *)
Definition second3 (a b : Ascii.ascii) : bool :=
  if code a =? 224 then between 160 191 b else if code a =? 237 then between 128 159 b else between 224 239 a && follows b.
Definition second4 (a b : Ascii.ascii) : bool :=
  if code a =? 240 then between 144 191 b else if code a =? 244 then between 128 143 b else between 241 243 a && follows b.
Fixpoint utf8_valid (l : list Ascii.ascii) : bool :=
  match l with
  | [] => true
  | a :: l1 =>
      if code a <? 128 then utf8_valid l1
      else match l1 with
      | [] => false
      | b :: l2 =>
          if between 194 223 a then follows b && utf8_valid l2
          else match l2 with
          | [] => false
          | c :: l3 =>
              if between 224 239 a then second3 a b && follows c && utf8_valid l3
              else match l3 with
              | [] => false
              | d :: l4 => second4 a b && follows c && follows d && utf8_valid l4
              end
          end
      end
  end.
Definition ValidString (s : string) : bool := utf8_valid (bytes_of s).

(** [strings.ReplaceAll] of the NUL by nothing *)
Definition without_nul (s : string) : string := of_bytes (List.filter (fun c => negb (code c =? 0)) (bytes_of s)).
(** * Characters *)

(** The bytes of one character. *)
Inductive char : list Ascii.ascii -> Prop :=
| char1 a : (code a <? 128) = true -> char [a]
| char2 a b : between 194 223 a = true -> follows b = true -> char [a; b]
| char3 a b c : second3 a b = true -> follows c = true -> char [a; b; c]
| char4 a b c d : second4 a b = true -> follows c = true -> follows d = true -> char [a; b; c; d].

Lemma second3_first a b : second3 a b = true -> between 224 239 a = true.
Proof. unfold second3, between. intros E; repeat case_match; breflect; lia. Qed.
Lemma second4_first a b : second4 a b = true -> between 240 244 a = true.
Proof. unfold second4, between. intros E; repeat case_match; breflect; lia. Qed.
Lemma first_apart lo hi a : between lo hi a = true -> (code a <? 128) = (if 128 <=? lo then false else code a <? 128) /\
  (223 < lo -> between 194 223 a = false) /\ (239 < lo -> between 224 239 a = false).
Proof. unfold between. intros H. breflect. split_and!; [case_match; [breflect; lia|done]|intros; breflect; lia..]. Qed.
Lemma utf8_char x l : char x -> utf8_valid (x ++ l) = utf8_valid l.
Proof.
  intros [a H|a b H1 H2|a b c H1 H2|a b c d H1 H2 H3]; cbn [app utf8_valid].
  - by rewrite H.
  - destruct (first_apart _ _ _ H1) as (-> & _). cbn. by rewrite H1, H2.
  - pose proof (second3_first _ _ H1) as Hf. destruct (first_apart _ _ _ Hf) as (-> & E & _). cbn. by rewrite (E ltac:(lia)), Hf, H1, H2.
  - pose proof (second4_first _ _ H1) as Hf. destruct (first_apart _ _ _ Hf) as (-> & E & E'). cbn.
    by rewrite (E ltac:(lia)), (E' ltac:(lia)), H1, H2, H3.
Qed.
Lemma utf8_chars l : utf8_valid l = true <-> exists cs, Forall char cs /\ l = concat cs.
Proof.
  split.
  - induction l as [l IH] using (induction_ltof1 _ (@length _)). unfold ltof in IH. intros H.
    assert (Hnext : forall x k, char x -> l = x ++ k -> utf8_valid k = true -> exists cs, Forall char cs /\ l = concat cs).
    { intros x k Hx -> Hk. destruct (IH k) as (cs & Hcs & ->); [|done|].
      - rewrite length_app. destruct Hx; simpl; lia.
      - exists (x :: cs). split; [by constructor|done]. }
    destruct l as [|a l1]; [by exists []|]. cbn [utf8_valid] in H. destruct (code a <? 128) eqn:Ea.
    { apply (Hnext [a] l1); [by constructor|done..]. }
    destruct l1 as [|b l2]; [done|]. destruct (between 194 223 a) eqn:Eb.
    { apply andb_true_iff in H as [Hb Hv]. apply (Hnext [a; b] l2); [by constructor|done..]. }
    destruct l2 as [|c l3]; [done|]. destruct (between 224 239 a).
    { apply andb_true_iff in H as [[Hb Hc]%andb_true_iff Hv]. apply (Hnext [a; b; c] l3); [by constructor|done..]. }
    destruct l3 as [|d l4]; [done|]. apply andb_true_iff in H as [[[Hb Hc]%andb_true_iff Hd]%andb_true_iff Hv].
    apply (Hnext [a; b; c; d] l4); [by constructor|done..].
  - intros (cs & Hcs & ->). induction Hcs as [|x cs Hx _ IH]; [done|]. cbn [concat]. by rewrite utf8_char, IH.
Qed.
Lemma char_length x : char x -> (1 <= length x <= 4)%nat.
Proof. destruct 1; simpl; lia. Qed.
(** The start of a text is whole characters and less than one more. *)
Lemma chars_take cs n : Forall char cs -> exists cs' part, Forall char cs' /\ take n (concat cs) = concat cs' ++ part /\ (length part <= 3)%nat.
Proof.
  intros H. revert n. induction H as [|x cs Hx _ IH]; intros n; [exists [], []; split_and!; [constructor|by destruct n|simpl; lia]|].
  cbn [concat]. rewrite take_app. destruct (Nat.le_gt_cases (length x) n) as [Hn|Hn].
  - destruct (IH (n - length x)%nat) as (cs' & p & Hcs & -> & Hp). exists (x :: cs'), p. split_and!; [by constructor| |done].
    rewrite (take_ge x) by done. cbn [concat]. by rewrite app_assoc.
  - exists [], (take n x). replace (n - length x)%nat with O by lia. rewrite take_0, app_nil_r. split_and!; [constructor|done|].
    rewrite length_take. apply char_length in Hx. lia.
Qed.
(** No character but the NUL has a zero byte. *)
Lemma char_filter x : char x -> x = [Ascii.zero] \/ List.filter (fun c => negb (code c =? 0)) x = x.
Proof.
  assert (Hf : forall c, follows c = true -> (code c =? 0) = false) by (unfold follows, between; intros c H; breflect; lia).
  intros [a H|a b H1 H2|a b c H1 H2|a b c d H1 H2 H3].
  - destruct (code a =? 0) eqn:E; [left|right; simpl; by rewrite E]. f_equal. apply code_inj. by apply Z.eqb_eq in E.
  - right. simpl. rewrite (Hf b H2). assert ((code a =? 0) = false) as -> by (unfold between in *; breflect; lia). done.
  - right. simpl. rewrite (Hf c H2). unfold second3, follows, between in H1.
    assert ((code a =? 0) = false) as -> by (repeat case_match; breflect; lia).
    assert ((code b =? 0) = false) as -> by (repeat case_match; breflect; lia). done.
  - right. simpl. rewrite (Hf c H2), (Hf d H3). unfold second4, follows, between in H1.
    assert ((code a =? 0) = false) as -> by (repeat case_match; breflect; lia).
    assert ((code b =? 0) = false) as -> by (repeat case_match; breflect; lia). done.
Qed.
Lemma without_nul_valid s : ValidString s = true -> ValidString (without_nul s) = true.
Proof.
  unfold ValidString, without_nul. rewrite bytes_of_of. intros (cs & Hcs & ->)%utf8_chars. apply utf8_chars.
  exists (List.filter (fun x => negb (bool_decide (x = [Ascii.zero]))) cs). split; [by apply Forall_filter_bool|].
  induction Hcs as [|x cs Hx _ IH]; [done|]. cbn [concat List.filter]. rewrite List.filter_app, IH.
  destruct (char_filter x Hx) as [->|E]; [done|]. case_bool_decide as Ez; [|cbn [negb concat]; by rewrite E].
  subst x. done.
Qed.
(** The end of a text is less than one character and whole ones. *)
Lemma chars_drop cs n : Forall char cs -> exists part cs', Forall char cs' /\ drop n (concat cs) = part ++ concat cs' /\ (length part <= 3)%nat.
Proof.
  intros H. revert n. induction H as [|x cs Hx Hcs IH]; intros n; [exists [], []; split_and!; [constructor|by destruct n|simpl; lia]|].
  cbn [concat]. rewrite drop_app. destruct (Nat.le_gt_cases (length x) n) as [Hn|Hn].
  - destruct (IH (n - length x)%nat) as (p & cs' & Hcs' & -> & Hp). exists p, cs'. rewrite (drop_ge x) by done. by split_and!.
  - replace (n - length x)%nat with O by lia. rewrite drop_0. destruct (Nat.eq_dec n 0) as [->|Hne].
    + exists [], (x :: cs). rewrite drop_0. split_and!; [by constructor|done|simpl; lia].
    + exists (drop n x), cs. split_and!; [done|done|]. rewrite length_drop. apply char_length in Hx. lia.
Qed.
(** Bytes dropped from the front until what is left is valid. *)
Fixpoint advance (l : list Ascii.ascii) : list Ascii.ascii :=
  if utf8_valid l then l else match l with [] => [] | _ :: l' => advance l' end.
Lemma utf8_advance_spec l : exists n, advance l = drop n l /\ utf8_valid (advance l) = true /\
  forall k, (k < n)%nat -> utf8_valid (drop k l) = false.
Proof.
  induction l as [|c l IH]; [exists O; split_and!; [done|done|lia]|]. cbn [advance]. destruct (utf8_valid (c :: l)) eqn:E.
  - exists O. split_and!; [done|done|lia].
  - destruct IH as (n & -> & Hv & Hk). exists (S n). split_and!; [done|done|]. intros [|k] Hkn; [done|]. cbn [drop]. apply Hk. lia.
Qed.
