(* ===== verification/Logs.v ===== *)
(** The log book of the instances (internal/platform/logs): what a node reports of an instance it runs,
    clipped and kept to a window of the latest lines, and the tail a tenant reads. *)
From stdpp Require Import base tactics numbers strings list gmap sorting.
From Stdlib Require Import ZArith Lia Sorted.
From Stdlib Require Ascii.
From S2P Require Import Prelude GoLang Time Effects Regex Kernel Httpx Tables Utf8.

(** * Data (types.go) *)

Definition MaxLineBytes : Z := 2048.
Definition MaxLinesPerInstance : Z := 2000.
Definition MaxLinesPerReport : Z := 500.
Definition MaxTail : Z := 1000.
Definition DefaultTail : Z := 100.
(* go: platform/logs/types.go Line *)
Record Line := MkLine { l_Seq : Z; l_InstanceID : string; l_Text : string; l_ReceivedAt : Z }.
(* go: platform/logs/types.go ReportParams *)
Record ReportParams := MkReportParams { rp_NodeID : string; rp_InstanceID : string; rp_Texts : list string }.
(* go: platform/logs/service.go Instances *)
Record Instances (S : Type) := {
  NodeOf : string -> M S (string * string);
  ResolveIn : string -> string -> M S string;
}.
Arguments NodeOf {S} _ _.
Arguments ResolveIn {S} _ _ _.

(** The loop of [clip]: bytes are dropped from the end, the latest first in [rl]. *)
Fixpoint shrink (rl : list Ascii.ascii) : list Ascii.ascii :=
  if utf8_valid (rev rl) then rev rl else match rl with [] => [] | _ :: rl' => shrink rl' end.
(* go: platform/logs/service.go clip *)
Definition clip (text : string) : string :=
  let text := without_nul text in
  if slen text <=? MaxLineBytes then text
  else of_bytes (shrink (rev (bytes_of (str_take MaxLineBytes text)))).

(** * Repository (repository.go)

    The number of a line is an AUTOINCREMENT key: it is never given twice. *)

Record LogDB := MkLogDB { lg_rows : list Line; lg_seq : Z }.
Definition of_instance (id : string) (l : Line) : bool := String.eqb (l_InstanceID l) id.
Definition newer (a b : Line) : bool := l_Seq b <? l_Seq a.
(** The INSERTs of one report. *)
Definition add_line (id : string) (at_ : Z) (text : string) (db : LogDB) : LogDB :=
  MkLogDB (lg_rows db ++ [MkLine (lg_seq db + 1) id text at_]) (lg_seq db + 1).
(** [seq <= (SELECT seq … ORDER BY seq DESC LIMIT 1 OFFSET n)]: with no such row nothing is deleted. *)
Definition trim (id : string) (n : Z) (rows : list Line) : list Line :=
  match sliceStable newer (List.filter (of_instance id) rows) !! Z.to_nat n with
  | None => rows
  | Some l => List.filter (fun r => negb (of_instance id r && (l_Seq r <=? l_Seq l))) rows
  end.

Section repository.
Context {S : Type} `{!Has LogDB S}.
(** One transaction: it is committed whole or rolled back. *)
(* go: platform/logs/repository.go repository.append *)
Definition append (id : string) (texts : list string) (at_ : Z) : M S unit :=
  sql "append a log line" (fun db =>
    if max_int64 - lg_seq db <? len texts then (Err (EWrap "append a log line" (EText "database or disk is full")), db) else
    let db := fold_left (fun db text => add_line id at_ text db) texts db in
    (Ok tt, MkLogDB (trim id MaxLinesPerInstance (lg_rows db)) (lg_seq db))).
(* go: platform/logs/repository.go repository.tail *)
Definition tail_rows (id : string) (limit : Z) : M S (list Line) :=
  query "read the log" (fun db => Ok (rev (take (Z.to_nat limit) (sliceStable newer (List.filter (of_instance id) (lg_rows db)))))).
(* go: platform/logs/repository.go repository.forget *)
Definition forget_rows (id : string) : M S unit :=
  sql "forget a log" (fun db => (Ok tt, MkLogDB (List.filter (fun l => negb (of_instance id l)) (lg_rows db)) (lg_seq db))).
End repository.

(** * Service (service.go) *)

Section service.
Context {S : Type} `{!Has LogDB S} (instances : option (Instances S)).

(* go: platform/logs/service.go service.report *)
Definition report (params : ReportParams) : M S unit :=
  match instances with
  | None => ret tt
  | Some i =>
      let! ' (nodeID, _) := NodeOf i (rp_InstanceID params) in
      lift (guard (negb (String.eqb nodeID (rp_NodeID params))) (NotFound "instance_not_here" "that instance is not placed on this node")) ;;;
      lift (guard (MaxLinesPerReport <? len (rp_Texts params)) (Invalid "too_many_lines"
        ("a report carries at most " +:+ itoa MaxLinesPerReport +:+ " lines, and " +:+ itoa (len (rp_Texts params)) +:+ " were sent"))) ;;;
      let texts := map clip (rp_Texts params) in
      if (length texts =? 0)%nat then ret tt
      else
        let! at_ := now in
        append (rp_InstanceID params) texts at_
  end.
(* go: platform/logs/service.go service.tailIn *)
Definition tailIn (ref projectID : string) (limit : Z) : M S (string * list Line) :=
  match instances with
  | None => fail (NotFound "instance_not_found" "no instance with that name or id exists")
  | Some i =>
      let! instanceID := ResolveIn i ref projectID in
      let limit := if limit <=? 0 then DefaultTail else if MaxTail <? limit then MaxTail else limit in
      let! lines := tail_rows instanceID limit in
      ret (instanceID, lines)
  end.
(* go: platform/logs/service.go service.forget *)
Definition forget (instanceID : string) : M S unit := forget_rows instanceID.
End service.

(** * Handlers (handler.go) *)

(* go: platform/logs/handler.go reportRequest *)
Record reportRequest := MkReportRequest { rr_Lines : list string }.
(* go: platform/logs/handler.go lineResponse *)
Record lineResponse := MkLineResponse { o_Seq : Z; o_Text : string; o_ReceivedAt : string }.
(* go: platform/logs/handler.go tailResponse *)
Record tailResponse := MkTailResponse { tl_InstanceID : string; tl_Lines : list lineResponse; tl_Truncated : bool }.

Section handlers.
Context {S : Type} `{!Has LogDB S} (instances : option (Instances S)).
(* go: platform/logs/handler.go handler.report *)
Definition handle_report (nodeID instanceID : string) (req : outcome reportRequest) : M S (Reply tailResponse) :=
  let! req := lift req in
  report instances (MkReportParams nodeID instanceID (rr_Lines req)) ;;;
  WriteHeader StatusNoContent.
(** [raw] is the parameter [tail] of the query. *)
(* go: platform/logs/handler.go handler.tail *)
Definition handle_tail (sc : Scope) (id raw : string) : M S (Reply tailResponse) :=
  let! limit := lift (if is_empty raw then Ok 0 else
    match atoi raw with Some n => Ok n | None => Err (Invalid "invalid_tail" "tail must be a number of lines") end) in
  let! ' (instanceID, lines) := tailIn instances id (sc_ProjectID sc) limit in
  Write StatusOK (MkTailResponse instanceID (map (fun l => MkLineResponse (l_Seq l) (l_Text l) (rfc3339nano (l_ReceivedAt l))) lines)
    (len lines =? MaxLinesPerInstance)).
(* go: platform/logs/module.go Module.ReleaseInstance *)
Definition ReleaseInstance (instanceID : string) : M S unit := forget instanceID.

Inductive request :=
| ReqReport (nodeID instanceID : string) (req : outcome reportRequest)
| ReqTail (sc : Scope) (id raw : string)
| Released (instanceID : string).
(* go: platform/logs/module.go Module.Routes *)
Definition serve (r : request) : M S (Reply tailResponse) :=
  match r with
  | ReqReport nodeID instanceID req => handle_report nodeID instanceID req
  | ReqTail sc id raw => handle_tail sc id raw
  | Released instanceID => ReleaseInstance instanceID ;;; WriteHeader StatusNoContent
  end.
End handlers.

(** * Clipping *)

(** What [shrink] leaves: the longest valid start. *)
Lemma shrink_spec rl : exists n, shrink rl = take n (rev rl) /\ (n <= length rl)%nat /\ utf8_valid (shrink rl) = true /\
  forall k, (n < k <= length rl)%nat -> utf8_valid (take k (rev rl)) = false.
Proof.
  induction rl as [|c rl IH]; [exists O; split_and!; simpl; [done|lia|done|lia]|].
  cbn [shrink]. destruct (utf8_valid (rev (c :: rl))) eqn:E.
  - exists (length (c :: rl)). rewrite take_ge by (by rewrite length_rev). split_and!; [done|lia|done|lia].
  - destruct IH as (n & -> & Hn & Hv & Hk). exists n. cbn [rev length] in *. rewrite take_app_le by (rewrite length_rev; lia).
    split_and!; [done|lia|done|]. intros k Hkn. destruct (decide (k = S (length rl))) as [->|Hne].
    + rewrite take_ge; [done|]. rewrite length_app, length_rev. simpl. lia.
    + rewrite take_app_le by (rewrite length_rev; lia). apply Hk. lia.
Qed.

(** * The log book *)

Definition log (id : string) (db : LogDB) : list Line := List.filter (of_instance id) (lg_rows db).
(** The latest [n] of a list. *)
Definition latest {A} (n : Z) (l : list A) : list A := drop (length l - Z.to_nat n) l.
Record logs_inv (db : LogDB) : Prop := {
  gi_order : StronglySorted (fun a b => l_Seq a < l_Seq b) (lg_rows db);
  gi_seq : Forall (fun l => l_Seq l <= lg_seq db) (lg_rows db);
  gi_window : forall id, len (log id db) <= MaxLinesPerInstance;
}.
(** The lines of a report, numbered behind what was there. *)
Fixpoint numbered (n : Z) (id : string) (at_ : Z) (texts : list string) : list Line :=
  match texts with [] => [] | t :: ts => MkLine (n + 1) id t at_ :: numbered (n + 1) id at_ ts end.
Lemma add_lines id at_ texts db : fold_left (fun db text => add_line id at_ text db) texts db =
  MkLogDB (lg_rows db ++ numbered (lg_seq db) id at_ texts) (lg_seq db + len texts).
Proof.
  revert db. induction texts as [|t ts IH]; intros [rows seq]; simpl.
  - by rewrite app_nil_r, Z.add_0_r.
  - rewrite IH. simpl. rewrite <- app_assoc. f_equal. lia.
Qed.
Lemma numbered_of n id at_ texts : Forall (fun l => of_instance id l = true) (numbered n id at_ texts).
Proof. revert n. induction texts as [|t ts IH]; intros n; constructor; [by apply String.eqb_refl|apply IH]. Qed.
Lemma numbered_bounds n id at_ texts l : l ∈ numbered n id at_ texts -> n < l_Seq l <= n + len texts.
Proof.
  revert n. induction texts as [|t ts IH]; intros n; [intros H; by apply not_elem_of_nil in H|].
  intros [->|H]%elem_of_cons; [|apply IH in H]; simpl; lia.
Qed.
Lemma numbered_sorted n id at_ texts rows : StronglySorted (fun a b => l_Seq a < l_Seq b) rows -> Forall (fun l => l_Seq l <= n) rows ->
  StronglySorted (fun a b => l_Seq a < l_Seq b) (rows ++ numbered n id at_ texts).
Proof.
  revert n rows. induction texts as [|t ts IH]; intros n rows Hs Hn; cbn [numbered]; [by rewrite app_nil_r|].
  rewrite cons_middle, app_assoc. rewrite Forall_forall in Hn. apply IH.
  - apply sorted_snoc; [done|]. intros y Hy. specialize (Hn y Hy). cbn. lia.
  - apply Forall_app. split; [apply Forall_forall; intros y Hy; specialize (Hn y Hy); lia|]. constructor; [cbn; lia|done].
Qed.
(** The rows of a sorted table behind a number. *)
Lemma behind_split rows l pre post : StronglySorted (fun a b => l_Seq a < l_Seq b) rows -> rows = pre ++ l :: post ->
  List.filter (fun r => negb (l_Seq r <=? l_Seq l)) rows = post.
Proof.
  intros Hs ->. rewrite List.filter_app. rewrite filter_none.
  - cbn [app List.filter]. rewrite Z.leb_refl. cbn [negb]. apply filter_all. intros x Hx. apply negb_true_iff, Z.leb_gt.
    refine (StronglySorted_app_1_elem_of (fun a b => l_Seq a < l_Seq b) (pre ++ [l]) post l x _ _ Hx); [by rewrite <- app_assoc|set_solver].
  - intros x Hx. apply negb_false_iff, Z.leb_le. apply Z.lt_le_incl.
    exact (StronglySorted_app_1_elem_of (fun a b => l_Seq a < l_Seq b) pre (l :: post) x l Hs Hx (list_elem_of_here _ _)).
Qed.
(** What the trimming keeps of the log it trims, and of every other. *)
Lemma trim_log id n rows : StronglySorted (fun a b => l_Seq a < l_Seq b) rows ->
  List.filter (of_instance id) (trim id n rows) = latest n (List.filter (of_instance id) rows).
Proof.
  intros Hs. unfold trim, newer. rewrite (newest_by l_Seq) by (by apply sorted_bfilter). set (mine := List.filter _ rows). unfold latest.
  destruct (rev mine !! Z.to_nat n) as [l|] eqn:E.
  - assert (Hl : (Z.to_nat n < length mine)%nat) by (apply lookup_lt_Some in E; by rewrite length_rev in E).
    rewrite <- filter_andb. rewrite (filter_ext_elem _ (fun r => of_instance id r && negb (l_Seq r <=? l_Seq l))).
    2:{ intros x _. destruct (of_instance id x), (l_Seq x <=? l_Seq l); done. }
    rewrite filter_andb. fold mine. set (k := Z.to_nat n) in *.
    assert (Em : mine = rev (drop (S k) (rev mine)) ++ l :: rev (take k (rev mine))).
    { rewrite <- (rev_involutive mine) at 1. rewrite <- (take_drop_middle _ _ _ E) at 1. rewrite rev_app_distr. cbn [rev]. by rewrite <- app_assoc. }
    rewrite (behind_split mine l _ _ (sorted_bfilter _ _ _ Hs) Em). rewrite Em at 3. rewrite cons_middle, app_assoc, drop_app_length'; [done|].
    rewrite length_app, length_rev, length_drop, length_rev. simpl. lia.
  - apply lookup_ge_None in E. rewrite length_rev in E. replace (length mine - Z.to_nat n)%nat with O by lia. done.
Qed.
Lemma trim_others id n rows p : (forall r, r ∈ rows -> p r = true -> of_instance id r = false) ->
  List.filter p (trim id n rows) = List.filter p rows.
Proof.
  intros H. unfold trim. destruct (_ !! _) as [l|]; [|done]. rewrite <- filter_andb.
  apply filter_ext_elem. intros x Hx. destruct (p x) eqn:Ep; [|by rewrite andb_false_r]. by rewrite (H x Hx Ep).
Qed.

(** The table after a report, and what becomes of it. *)
Definition appended (id : string) (texts : list string) (at_ : Z) (db : LogDB) : LogDB :=
  MkLogDB (trim id MaxLinesPerInstance (lg_rows db ++ numbered (lg_seq db) id at_ texts)) (lg_seq db + len texts).
Lemma appended_log id texts at_ db : logs_inv db ->
  log id (appended id texts at_ db) = latest MaxLinesPerInstance (log id db ++ numbered (lg_seq db) id at_ texts).
Proof.
  intros [Hs Hq _]. unfold log, appended. cbn [lg_rows]. rewrite trim_log by (by apply numbered_sorted). f_equal.
  rewrite List.filter_app. f_equal. apply filter_all. pose proof (numbered_of (lg_seq db) id at_ texts) as H. by rewrite Forall_forall in H.
Qed.
Lemma appended_others id other texts at_ db : other <> id -> log other (appended id texts at_ db) = log other db.
Proof.
  intros Hne. unfold log, appended. cbn [lg_rows]. rewrite trim_others.
  - rewrite List.filter_app, (filter_none _ (numbered _ _ _ _)); [by rewrite app_nil_r|]. intros x Hx.
    pose proof (numbered_of (lg_seq db) id at_ texts) as H. rewrite Forall_forall in H. specialize (H x Hx).
    unfold of_instance in *. apply String.eqb_eq in H. apply String.eqb_neq. congruence.
  - intros r _ E. unfold of_instance in *. apply String.eqb_eq in E. apply String.eqb_neq. congruence.
Qed.
Lemma latest_length {A} n (l : list A) : 0 <= n -> len (latest n l) <= n.
Proof. intros Hn. unfold latest. rewrite length_drop. lia. Qed.
Lemma latest_short {A} n (l : list A) : len l <= n -> latest n l = l.
Proof. intros Hn. unfold latest. replace (length l - Z.to_nat n)%nat with O by lia. done. Qed.
Lemma trim_filter id n rows : exists p, trim id n rows = List.filter p rows.
Proof. unfold trim. destruct (_ !! _); [by eexists|]. exists (fun _ => true). by rewrite filter_true. Qed.
Lemma appended_inv id texts at_ db : logs_inv db -> logs_inv (appended id texts at_ db).
Proof.
  intros Hi. pose proof Hi as [Hs Hq Hw]. constructor.
  - unfold appended. cbn [lg_rows]. destruct (trim_filter id MaxLinesPerInstance (lg_rows db ++ numbered (lg_seq db) id at_ texts)) as [p ->].
    by apply sorted_bfilter, numbered_sorted.
  - unfold appended. cbn [lg_rows lg_seq]. destruct (trim_filter id MaxLinesPerInstance (lg_rows db ++ numbered (lg_seq db) id at_ texts)) as [p ->].
    apply Forall_filter_bool, Forall_app. rewrite !Forall_forall in *. split; intros l Hl; [specialize (Hq l Hl); lia|].
    apply numbered_bounds in Hl. lia.
  - intros other. destruct (decide (other = id)) as [->|Hne]; [|by rewrite appended_others].
    rewrite appended_log by done. apply latest_length. unfold MaxLinesPerInstance. lia.
Qed.
Definition forgotten (id : string) (db : LogDB) : LogDB := MkLogDB (List.filter (fun l => negb (of_instance id l)) (lg_rows db)) (lg_seq db).
Lemma forgotten_inv id db : logs_inv db -> logs_inv (forgotten id db).
Proof.
  intros [Hs Hq Hw]. constructor; cbn [forgotten lg_rows lg_seq].
  - by apply sorted_bfilter.
  - by apply Forall_filter_bool.
  - intros other. transitivity (len (log other db)); [|apply Hw]. apply filter_filter_le.
Qed.

Inductive change (db : LogDB) : LogDB -> Prop :=
| C_append id texts at_ : len texts <= MaxLinesPerReport -> change db (appended id texts at_ db)
| C_forget id : change db (forgotten id db).
Definition history : LogDB -> LogDB -> Prop := rtc change.
#[export] Instance history_preorder : PreOrder history.
Proof. unfold history. typeclasses eauto. Qed.
Lemma logs_history_inv db db' : history db db' -> logs_inv db -> logs_inv db'.
Proof. intros H. induction H as [|x y z Hc _ IH]; [done|]. intros Hi. apply IH. destruct Hc; [by apply appended_inv|by apply forgotten_inv]. Qed.

Section operations.
Context {S : Type} `{!Has LogDB S} (i : Instances S).
(** What the instances know: where each is placed, and what a name means in a project. *)
Context (placed : string -> string -> Prop) (resolved : string -> string -> string -> Prop).
Context (HN : forall db id, yields db (NodeOf i id) (fun r => placed id (fst r))).
Context (HR : forall db ref p, yields db (ResolveIn i ref p) (fun id => resolved ref p id)).

Lemma logs_report_rule params env (Q : outcome unit -> World S -> Prop) w :
  (forall e w', part w' = part (T:=LogDB) w -> Q (Err e) w') ->
  (placed (rp_InstanceID params) (rp_NodeID params) -> len (rp_Texts params) <= MaxLinesPerReport ->
   (rp_Texts params = [] -> forall w', part w' = part (T:=LogDB) w -> Q (Ok tt) w') /\
   (forall at_ w', part w' = appended (rp_InstanceID params) (map clip (rp_Texts params)) at_ (part w) -> Q (Ok tt) w')) ->
  wp env (report (Some i) params) Q w.
Proof.
  intros He Hok. unfold report. apply wp_bind. eapply wp_mono; [|exact (HN (part w) (rp_InstanceID params) env w I eq_refl)].
  intros [[node proj]|e] w1 [Hw1 Hp]; [|by apply He]. cbn [fst] in Hp.
  apply wp_bind. rewrite wp_lift. destruct (negb (String.eqb node _)) eqn:En; cbn [guard]; [by apply He|].
  apply negb_false_iff, String.eqb_eq in En. subst node.
  apply wp_bind. rewrite wp_lift. destruct (MaxLinesPerReport <? _) eqn:El; cbn [guard]; [by apply He|]. apply Z.ltb_ge in El.
  specialize (Hok Hp El) as [H0 H1]. destruct (length (map clip _) =? 0)%nat eqn:E0.
  - rewrite wp_ret. apply H0; [|done]. rewrite length_map in E0. apply Nat.eqb_eq in E0. by destruct (rp_Texts params).
  - apply wp_bind. rewrite wp_now. apply wp_write; intros w' Hw'; [apply He; by rewrite Hw'|].
    change (part (T:=LogDB) (tick w1)) with (part (T:=LogDB) w1) in *. rewrite Hw1 in *.
    destruct (_ <? _); cbn [fst snd] in *; [by apply He|]. rewrite add_lines in Hw'. eapply H1. exact Hw'.
Qed.
Lemma logs_serve_moves (db : LogDB) r : moves history db (serve (S:=S) (Some i) r).
Proof.
  destruct r as [nodeID instanceID req|sc id raw|instanceID]; cbn [serve]; unfold handle_report, handle_tail, ReleaseInstance, forget, forget_rows, Write, WriteHeader.
  - m_step. intros q _. apply moves_then; [typeclasses eauto| |intros; m_step]. intros env w Hw. apply logs_report_rule; cbn [rp_InstanceID rp_Texts rp_NodeID].
    + intros e w' ->. by rewrite Hw.
    + intros _ Hl. split; [intros _ w' ->; by rewrite Hw|]. intros at_ w' ->. rewrite Hw. apply rtc_once, C_append. by rewrite length_map.
  - m_step. intros limit _. apply moves_then; [typeclasses eauto| |intros ? [] ?; m_step]. unfold tailIn, tail_rows.
    eapply moves_bind; [typeclasses eauto|apply HR|]. intros iid _. reads.
  - apply moves_then; [typeclasses eauto| |intros; m_step]. apply moves_sql; [typeclasses eauto|]. apply rtc_once, C_forget.
Qed.
End operations.

(** * Properties *)

(** [clip_exact]: a line that is kept is the start of the line that was sent, without its NULs: valid UTF-8,
    2048 bytes at most, and cut by no more than the character the limit falls into. *)
Theorem clip_exact text : ValidString text = true ->
  ValidString (clip text) = true /\ slen (clip text) <= MaxLineBytes /\
  (exists rest, bytes_of (without_nul text) = bytes_of (clip text) ++ rest) /\
  (clip text = without_nul text \/ MaxLineBytes - 3 <= slen (clip text)).
Proof.
  intros Hv. apply without_nul_valid in Hv. unfold clip. set (t := without_nul text) in *.
  destruct (slen t <=? MaxLineBytes) eqn:El.
  { apply Z.leb_le in El. split_and!; [done|done|by exists []; rewrite app_nil_r|by left]. }
  apply Z.leb_gt in El. rewrite str_take_spec. unfold ValidString. rewrite !slen_bytes, !bytes_of_of. rewrite slen_bytes in El.
  set (k := Z.to_nat MaxLineBytes). destruct (shrink_spec (rev (take k (bytes_of t)))) as (n & En & Hn & Hsv & Hmax).
  rewrite rev_involutive in En, Hmax. rewrite length_rev in Hn, Hmax. rewrite length_take in Hn, Hmax.
  assert (Hk : Z.of_nat k = MaxLineBytes) by done.
  rewrite En in *. rewrite take_take, Nat.min_l by lia. split_and!.
  - rewrite take_take, Nat.min_l in Hsv by lia. done.
  - rewrite length_take. lia.
  - exists (drop n (bytes_of t)). by rewrite take_drop.
  - right. rewrite length_take. apply utf8_chars in Hv as (cs & Hcs & Et). destruct (chars_take cs k Hcs) as (cs' & p & Hcs' & Ep & Hp).
    rewrite <- Et in Ep. assert (Hlen : (length (concat cs') + length p = k)%nat) by (rewrite <- length_app, <- Ep, length_take; lia).
    destruct (Nat.le_gt_cases (length (concat cs')) n) as [|Hlt]; [lia|]. exfalso.
    specialize (Hmax (length (concat cs')) ltac:(lia)). rewrite Ep in Hmax. rewrite take_app_length in Hmax.
    rewrite (proj2 (utf8_chars (concat cs')) (ex_intro _ cs' (conj Hcs' eq_refl))) in Hmax. done.
Qed.

(** [reports_recorded]: a report is taken from the node that the instance is placed on, 500 lines at most;
    its clipped lines go behind those there were, of which the latest 2000 are kept, and no other log
    changes.  A report that is refused changes nothing. *)
Theorem reports_recorded {S} `{!Has LogDB S} (i : Instances S) (placed : string -> string -> Prop) env params (w : World S) :
  (forall db id, yields db (NodeOf i id) (fun r => placed id (fst r))) -> logs_inv (part w) ->
  wp env (report (Some i) params) (fun r w' => match r with
    | Err _ => part w' = part (T:=LogDB) w
    | Ok _ => placed (rp_InstanceID params) (rp_NodeID params) /\ len (rp_Texts params) <= MaxLinesPerReport /\ exists at_,
        log (rp_InstanceID params) (part w') = latest MaxLinesPerInstance (log (rp_InstanceID params) (part w) ++
          numbered (lg_seq (part w)) (rp_InstanceID params) at_ (map clip (rp_Texts params))) /\
        forall other, other <> rp_InstanceID params -> log other (part w') = log other (part w)
    end) w.
Proof.
  intros HN Hi. apply (logs_report_rule i placed HN); [done|]. intros Hp Hl. split.
  - intros E w' Hw'. split_and!; [done|done|]. exists 0. rewrite E, Hw'. cbn [map numbered]. rewrite app_nil_r, latest_short by apply Hi. done.
  - intros at_ w' Hw'. split_and!; [done|done|]. exists at_. rewrite Hw', appended_log by done. split; [done|].
    intros other Hne. by apply appended_others.
Qed.

(** [tail_read]: a tenant who asks for the log of an instance of its project gets the latest lines of it in
    the order they came, as many as asked for but 1000 at most and 100 unless told otherwise.  The answer
    never says that there was more: the flag compares with a length no answer has. *)
Theorem tail_read {S} `{!Has LogDB S} (i : Instances S) (resolved : string -> string -> string -> Prop) env sc ref raw (w : World S) :
  (forall db ref p, yields db (ResolveIn i ref p) (fun id => resolved ref p id)) -> logs_inv (part w) ->
  wp env (handle_tail (Some i) sc ref raw) (fun r w' => part w' = part (T:=LogDB) w /\ forall reply, r = Ok reply ->
    exists id asked, resolved ref (sc_ProjectID sc) id /\ (if is_empty raw then asked = 0 else atoi raw = Some asked) /\
      let limit := if asked <=? 0 then DefaultTail else Z.min asked MaxTail in
      reply = MkReply StatusOK (Some (MkTailResponse id
        (map (fun l => MkLineResponse (l_Seq l) (l_Text l) (rfc3339nano (l_ReceivedAt l))) (latest limit (log id (part w)))) false))) w.
Proof.
  intros HR Hi. unfold handle_tail, tailIn. apply wp_bind. rewrite wp_lift.
  assert (Hlimit : match (if is_empty raw then Ok 0 else match atoi raw with Some n => Ok n | None => Err (Invalid "invalid_tail" "tail must be a number of lines") end) with
    | Ok n => if is_empty raw then n = 0 else atoi raw = Some n | Err _ => True end) by (destruct (is_empty raw), (atoi raw); done).
  destruct (if is_empty raw then _ else _) as [n|e]; [|by split].
  apply wp_bind, wp_bind. eapply wp_mono; [|exact (HR (part w) ref (sc_ProjectID sc) env w I eq_refl)].
  intros [id|e] w1 [Hw1 Hid]; [|by split].
  set (limit := if n <=? 0 then DefaultTail else if MaxTail <? n then MaxTail else n).
  assert (El : limit = if n <=? 0 then DefaultTail else Z.min n MaxTail) by (unfold limit; repeat case_match; breflect; lia).
  assert (Hl : 0 < limit <= MaxTail) by (unfold limit, DefaultTail, MaxTail in *; repeat case_match; breflect; lia).
  apply wp_bind, wp_read. rewrite Hw1. intros r [->| ->]; [by split|]. rewrite wp_ret. unfold Write. rewrite wp_ret. split; [done|].
  intros reply [= <-]. exists id, n. split_and!; [done|done|]. cbv zeta. rewrite <- El.
  unfold newer. rewrite (newest_by l_Seq) by (apply sorted_bfilter, Hi). fold (log id (part w)).
  assert (E : rev (take (Z.to_nat limit) (rev (log id (part w)))) = latest limit (log id (part w))).
  { unfold latest. by rewrite firstn_rev, rev_involutive. }
  rewrite E. do 3 f_equal. apply Z.eqb_neq. pose proof (latest_length limit (log id (part w)) ltac:(lia)).
  unfold MaxTail, MaxLinesPerInstance in *. lia.
Qed.

(** [logs_lawful]: whatever is asked, the numbers of the lines ascend and no instance has more than 2000 lines. *)
Theorem logs_lawful {S} `{!Has LogDB S} (i : Instances S) env r (w : World S) :
  (forall db id, yields db (NodeOf i id) (fun _ => True)) -> (forall db ref p, yields db (ResolveIn i ref p) (fun _ => True)) -> logs_inv (part w) ->
  wp env (serve (Some i) r) (fun _ w' => history (part w) (part w') /\ logs_inv (part w')) w.
Proof.
  intros HN HR Hi. eapply wp_mono; [|exact (logs_serve_moves i (fun _ _ => True) (fun _ _ _ => True) HN HR (part w) r env w eq_refl)]. intros o w' H.
  split; [done|exact (logs_history_inv _ _ H Hi)].
Qed.

(** ** Runs *)

Module Demo.
Definition env : Env := {| env_now n := Z.of_nat n * second; env_rand n := [Z.of_nat n]; env_io _ := false |}.
(** One instance, placed on one node. *)
Definition instances : Instances LogDB := {|
  NodeOf id := if String.eqb id "i-1" then ret ("nd-1", "prj-1") else fail (NotFound "instance_not_found" "no such instance");
  ResolveIn ref p := if String.eqb ref "web" && String.eqb p "prj-1" then ret "i-1" else fail (NotFound "instance_not_found" "no such instance");
|}.
Definition placed (id node : string) : Prop := id = "i-1" /\ node = "nd-1".
Definition resolved (ref p id : string) : Prop := ref = "web" /\ p = "prj-1" /\ id = "i-1".
Lemma node_of db id : yields db (NodeOf instances id) (fun r => placed id (fst r)).
Proof. intros env w _ Hw. cbn [instances NodeOf]. destruct (String.eqb_spec id "i-1"); unfold wp; simpl; by split. Qed.
Lemma resolve_in db ref p : yields db (ResolveIn instances ref p) (fun id => resolved ref p id).
Proof. intros env w _ Hw. cbn [instances ResolveIn]. destruct (String.eqb_spec ref "web"), (String.eqb_spec p "prj-1"); unfold wp; simpl; by split. Qed.
Definition w0 : World LogDB := MkWorld (MkLogDB [MkLine 3 "i-2" "other" 0; MkLine 5 "i-1" "boot" 0] 5) O [].
Definition params : ReportParams := MkReportParams "nd-1" "i-1" ["one"; "two"].
(** 2047 letters and a character of two bytes, the second of which is behind the limit. *)
Definition long : string := of_bytes (replicate 2047 (Ascii.ascii_of_N 97) ++ [Ascii.ascii_of_N 195; Ascii.ascii_of_N 169]).
Definition tenant : Scope := MkScope "prj-1" "tok-1" "ci" "" "member".
Lemma logs_inv_w0 : logs_inv (part w0).
Proof.
  constructor; [repeat constructor|repeat constructor; cbn; lia|]. intros id. unfold log. etransitivity; [apply inj_le, filter_bool_length_le|].
  cbn. unfold MaxLinesPerInstance. lia.
Qed.
End Demo.
Lemma clip_exact_witness : slen (clip Demo.long) = 2047 /\ ValidString (clip Demo.long) = true.
Proof. split; [vm_compute; reflexivity|]. refine (proj1 (clip_exact Demo.long _)). vm_compute. reflexivity. Defined.
Lemma reports_recorded_witness : let w' := snd (report (Some Demo.instances) Demo.params Demo.env Demo.w0) in
  fst (report (Some Demo.instances) Demo.params Demo.env Demo.w0) = Ok tt /\ map l_Text (log "i-1" (part w')) = ["boot"; "one"; "two"] /\
  log "i-2" (part w') = log "i-2" (part Demo.w0).
Proof.
  split_and!; [vm_compute; reflexivity|vm_compute; reflexivity|].
  pose proof (reports_recorded Demo.instances Demo.placed Demo.env Demo.params Demo.w0 Demo.node_of Demo.logs_inv_w0) as H.
  assert (E : fst (report (Some Demo.instances) Demo.params Demo.env Demo.w0) = Ok tt) by (vm_compute; reflexivity).
  unfold wp in H. destruct (report _ _ _ _) as [r w']. cbn in E. subst r. destruct H as (_ & _ & at_ & _ & Ho). apply Ho. discriminate.
Defined.
Lemma tail_read_witness : let r := handle_tail (Some Demo.instances) Demo.tenant "web" "1" Demo.env Demo.w0 in
  fst r = Ok (MkReply StatusOK (Some (MkTailResponse "i-1" [MkLineResponse 5 "boot" (rfc3339nano 0)] false))) /\ part (T:=LogDB) (snd r) = part Demo.w0.
Proof.
  split; [vm_compute; reflexivity|].
  pose proof (tail_read Demo.instances Demo.resolved Demo.env Demo.tenant "web" "1" Demo.w0 Demo.resolve_in Demo.logs_inv_w0) as H.
  unfold wp in H. destruct (handle_tail _ _ _ _ _ _) as [r w']. exact (proj1 H).
Defined.
Lemma logs_lawful_witness : logs_inv (part (snd (serve (Some Demo.instances) (ReqReport "nd-1" "i-1" (Ok (MkReportRequest ["one"]))) Demo.env Demo.w0))).
Proof.
  pose proof (logs_lawful Demo.instances Demo.env (ReqReport "nd-1" "i-1" (Ok (MkReportRequest ["one"]))) Demo.w0
    (fun db id => yields_mono _ _ _ _ (Demo.node_of db id) (fun _ _ => I)) (fun db ref p => yields_mono _ _ _ _ (Demo.resolve_in db ref p) (fun _ _ => I)) Demo.logs_inv_w0) as H.
  unfold wp in H. destruct (serve _ _ _ _) as [r w']. exact (proj2 H).
Defined.
