(* ===== verification/Exec.v ===== *)
(** Commands in guests (internal/platform/exec): a command is queued for the node of a container, taken by
    that node once, and finished by it with the end of its output; what nobody finishes is given up. *)
From stdpp Require Import base tactics numbers strings list gmap sorting.
From Stdlib Require Import ZArith Lia.
From Stdlib Require Ascii.
From S2P Require Import Prelude GoLang Time Effects Regex Kernel Httpx Tables Utf8.
From S2P Require Interval.

(** * Data (types.go) *)

Definition MaxCommandParts : Z := 32.
Definition MaxPartLength : Z := 1024.
Definition MaxOutputBytes : Z := 262144.
Definition MinTimeout : Z := second.
Definition MaxTimeout : Z := 5 * minute.
Definition DefaultTimeout : Z := 30 * second.
Definition MaxWaitingPerProject : Z := 16.
Definition KeepPerInstance : Z := 20.
Definition Abandoned : Z := 15 * minute.
Definition StateWaiting : string := "waiting".
Definition StateRunning : string := "running".
Definition StateDone : string := "done".
Definition StateLost : string := "lost".
(* go: platform/exec/types.go Run *)
Record Run := MkRun {
  x_ID : string; x_ProjectID : string; x_InstanceID : string; x_NodeID : string; x_Isolation : string; x_Command : list string;
  x_Timeout : Z; x_State : string; x_Output : string; x_Truncated : bool; x_ExitCode : option Z; x_Message : string;
  x_CreatedAt : Z; x_TakenAt : Z; x_EndedAt : Z;
}.
(* go: platform/exec/types.go StartParams *)
Record StartParams := MkStartParams { sp_ProjectID : string; sp_InstanceRef : string; sp_Command : list string; sp_Timeout : string }.
(* go: platform/exec/types.go Result *)
Record Result := MkResult { rs_Output : string; rs_Truncated : bool; rs_ExitCode : option Z; rs_Message : string }.
(* go: platform/exec/service.go Target *)
Record Target := MkTarget { tg_InstanceID : string; tg_NodeID : string; tg_Isolation : string; tg_Observed : string }.
(* go: platform/exec/service.go Instances *)
Record Instances (S : Type) := { TargetFor : string -> string -> M S Target }.
Arguments TargetFor {S} _ _ _.

(** * Repository (repository.go)

    UNIQUE (id).  The times are kept as text and compared as text. *)

Definition ExecDB : Type := list Run.
Definition errNotFound : error := ESentinel "exec not found".
(* go: platform/exec/repository.go stamp *)
Definition stamp (at_ : Z) : string := if time_is_zero at_ then "" else rfc3339nano at_.
Definition has_id (id : string) (r : Run) : bool := String.eqb (x_ID r) id.
Definition in_state (state : string) (r : Run) : bool := String.eqb (x_State r) state.
Definition in_project (projectID : string) (r : Run) : bool := String.eqb (x_ProjectID r) projectID.
Definition of_instance (instanceID : string) (r : Run) : bool := String.eqb (x_InstanceID r) instanceID.
Definition on_node (nodeID : string) (r : Run) : bool := String.eqb (x_NodeID r) nodeID.
(** The timeout is kept in whole seconds. *)
Definition kept_row (r : Run) : Run :=
  MkRun (x_ID r) (x_ProjectID r) (x_InstanceID r) (x_NodeID r) (x_Isolation r) (x_Command r) (Z.quot (x_Timeout r) second * second)
    (x_State r) (x_Output r) (x_Truncated r) (x_ExitCode r) (x_Message r) (x_CreatedAt r) (x_TakenAt r) (x_EndedAt r).
Definition with_taken (at_ : Z) (r : Run) : Run :=
  MkRun (x_ID r) (x_ProjectID r) (x_InstanceID r) (x_NodeID r) (x_Isolation r) (x_Command r) (x_Timeout r) StateRunning
    (x_Output r) (x_Truncated r) (x_ExitCode r) (x_Message r) (x_CreatedAt r) at_ (x_EndedAt r).
Definition with_done (output : string) (truncated : bool) (exitCode : option Z) (message : string) (at_ : Z) (r : Run) : Run :=
  MkRun (x_ID r) (x_ProjectID r) (x_InstanceID r) (x_NodeID r) (x_Isolation r) (x_Command r) (x_Timeout r) StateDone
    output truncated exitCode message (x_CreatedAt r) (x_TakenAt r) at_.
Definition with_lost (at_ : Z) (r : Run) : Run :=
  MkRun (x_ID r) (x_ProjectID r) (x_InstanceID r) (x_NodeID r) (x_Isolation r) (x_Command r) (x_Timeout r) StateLost
    (x_Output r) (x_Truncated r) (x_ExitCode r) "no node picked this up" (x_CreatedAt r) (x_TakenAt r) at_.
Definition oldest_first : Run -> Run -> bool := by_key (fun r => stamp (x_CreatedAt r)) str_ltb (by_key x_ID str_ltb (fun _ _ => false)).
Definition newest_first : Run -> Run -> bool :=
  by_key (fun r => stamp (x_CreatedAt r)) (fun a b => str_ltb b a) (by_key x_ID (fun a b => str_ltb b a) (fun _ _ => false)).
Definition abandoned_row (before : string) (r : Run) : bool :=
  (in_state StateWaiting r || in_state StateRunning r) && str_ltb (stamp (x_CreatedAt r)) before.
(** The rows of an instance that are kept: the newest. *)
Definition among (ids : list string) (r : Run) : bool := existsb (String.eqb (x_ID r)) ids.
Definition trimmed (instanceID : string) (keep : Z) (rows : list Run) : list Run :=
  let newest := map x_ID (take (Z.to_nat keep) (sliceStable newest_first (List.filter (of_instance instanceID) rows))) in
  List.filter (fun r => negb (of_instance instanceID r && negb (among newest r))) rows.

Section repository.
Context {S : Type} `{!Has ExecDB S}.
Definition rows_sql {A} (what : string) (q : list Run -> outcome A * list Run) : M S A := sql (T:=ExecDB) what q.
Definition rows_q {A} (what : string) (q : list Run -> outcome A) : M S A := query (T:=ExecDB) what q.

(* go: platform/exec/repository.go repository.insert *)
Definition insert (r : Run) : M S unit :=
  rows_sql "insert a command" (insert_row (has_id (x_ID r)) (EWrap "insert a command" (EText "UNIQUE constraint failed")) (kept_row r)).
(* go: platform/exec/repository.go repository.setTaken *)
Definition setTaken (id : string) (at_ : Z) : M S unit :=
  rows_sql "take a command" (update_where (fun r => has_id id r && in_state StateWaiting r) (with_taken at_) errNotFound).
(* go: platform/exec/repository.go repository.setDone *)
Definition setDone (id output : string) (truncated : bool) (exitCode : option Z) (message : string) (at_ : Z) : M S unit :=
  rows_sql "finish a command" (fun rows => (Ok tt, map (fun r => if has_id id r then with_done output truncated exitCode message at_ r else r) rows)).
(* go: platform/exec/repository.go repository.loseAbandoned *)
Definition loseAbandoned (before at_ : Z) : M S Z :=
  rows_sql "give up on abandoned commands" (fun rows =>
    (Ok (len (List.filter (abandoned_row (stamp before)) rows)), map (fun r => if abandoned_row (stamp before) r then with_lost at_ r else r) rows)).
(* go: platform/exec/repository.go repository.countWaitingIn *)
Definition countWaitingIn (projectID : string) : M S Z :=
  rows_q "count waiting commands" (fun rows => Ok (len (List.filter (fun r => in_project projectID r && in_state StateWaiting r) rows))).
(* go: platform/exec/repository.go repository.trim *)
Definition trim (instanceID : string) (keep : Z) : M S unit := rows_sql "trim old commands" (fun rows => (Ok tt, trimmed instanceID keep rows)).
(* go: platform/exec/repository.go repository.byID *)
Definition byID (id : string) : M S Run := rows_q "list commands" (select_one (has_id id) errNotFound).
(* go: platform/exec/repository.go repository.nextWaitingOn *)
Definition nextWaitingOn (nodeID : string) : M S Run :=
  rows_q "list commands" (fun rows =>
    match sliceStable oldest_first (List.filter (fun r => on_node nodeID r && in_state StateWaiting r) rows) with
    | [] => Err errNotFound | r :: _ => Ok r end).
(* go: platform/exec/repository.go repository.listIn *)
Definition listIn_rows (projectID : string) (limit : Z) : M S (list Run) :=
  rows_q "list commands" (fun rows => Ok (take (Z.to_nat limit) (sliceStable newest_first (List.filter (in_project projectID) rows)))).
End repository.

(** * Service (service.go) *)

Definition part_ok (part : string) : outcome unit :=
  try _ := guard (MaxPartLength <? slen part) (Invalid "invalid_command" ("each part of a command is at most " +:+ itoa MaxPartLength +:+ " characters")) in
  guard (existsb (fun c => code c =? 0) (bytes_of part)) (Invalid "invalid_command" "a command cannot carry a zero byte").
Fixpoint parts_ok (parts : list string) : outcome unit :=
  match parts with [] => Ok tt | part :: parts => try _ := part_ok part in parts_ok parts end.
(* go: platform/exec/service.go checkCommand *)
Definition checkCommand (command : list string) : outcome unit :=
  try _ := guard (length command =? 0)%nat (Invalid "invalid_command" "name a command to run") in
  try _ := guard (MaxCommandParts <? len command) (Invalid "invalid_command" ("a command takes at most " +:+ itoa MaxCommandParts +:+ " parts")) in
  parts_ok command.
(* go: platform/exec/service.go parseTimeout *)
Definition parseTimeout (text : string) : outcome Z :=
  if is_empty text then Ok DefaultTimeout
  else
    try after := or_fault (fun err => Invalid "invalid_timeout" (error_text err)) (Interval.Parse text) in
    try _ := guard ((after <? MinTimeout) || (MaxTimeout <? after))
      (Invalid "invalid_timeout" ("a timeout must be between " +:+ duration_String MinTimeout +:+ " and " +:+ duration_String MaxTimeout)) in
    Ok after.
(* go: platform/exec/service.go clip *)
Definition clip (output : string) : string * bool :=
  let output := without_nul output in
  if slen output <=? MaxOutputBytes then (output, false)
  else (of_bytes (advance (bytes_of (str_drop (slen output - MaxOutputBytes) output))), true).
(* go: platform/exec/service.go clipMessage *)
Definition clipMessage (message : string) : string := if slen message <=? MaxPartLength then message else str_take MaxPartLength message.

Section service.
Context {S : Type} `{!Has ExecDB S} (instances : option (Instances S)).

(* go: platform/exec/service.go service.start *)
Definition start (params : StartParams) : M S Run :=
  match instances with
  | None => fail (NotFound "instance_not_found" "no instance with that name or id exists")
  | Some i =>
      lift (checkCommand (sp_Command params)) ;;;
      let! after := lift (parseTimeout (sp_Timeout params)) in
      let! target := TargetFor i (sp_InstanceRef params) (sp_ProjectID params) in
      lift (guard (negb (String.eqb (tg_Isolation target) "container")) (Conflict "no_way_in"
        ("only a container can be entered from the node. A vm, microvm or sandbox runs its own kernel, so getting inside needs " +:+
         "something running in the guest: use marstack console on the node instead"))) ;;;
      lift (guard (is_empty (tg_NodeID target)) (Conflict "instance_not_placed" "this instance is not on a node, so there is nothing to enter")) ;;;
      lift (guard (negb (String.eqb (tg_Observed target) "running")) (Conflict "instance_not_running"
        ("this instance is " +:+ tg_Observed target +:+ ", and a command needs a running workload to run inside"))) ;;;
      let! waiting := countWaitingIn (sp_ProjectID params) in
      lift (guard (MaxWaitingPerProject <=? waiting) (TooMany "too_many_waiting" (itoa waiting +:+
        " commands are already waiting to run in this project, and a queue nobody drains is just a way to fill the database"))) ;;;
      let! id := ids_New "ex" in
      let! at_ := now in
      let run := MkRun id (sp_ProjectID params) (tg_InstanceID target) (tg_NodeID target) (tg_Isolation target) (sp_Command params) after
        StateWaiting "" false None "" at_ zero_time zero_time in
      insert run ;;;
      attempt (trim (tg_InstanceID target) KeepPerInstance) ;;;
      ret run
  end.
(* go: platform/exec/service.go service.readIn *)
Definition readIn (id projectID : string) : M S Run :=
  let! r := attempt (byID id) in
  match r with
  | Err err => fail (if errors_Is err "exec not found" then NotFound "exec_not_found" "no command with that id exists" else err)
  | Ok run => if String.eqb (x_ProjectID run) projectID then ret run else fail (NotFound "exec_not_found" "no command with that id exists")
  end.
(* go: platform/exec/service.go service.listIn *)
Definition listIn (projectID : string) (limit : Z) : M S (list Run) := listIn_rows projectID limit.
(* go: platform/exec/service.go service.take *)
Definition take_ (nodeID : string) : M S (option Run) :=
  let! r := attempt (nextWaitingOn nodeID) in
  match r with
  | Err err => if errors_Is err "exec not found" then ret None else fail err
  | Ok run =>
      let! at_ := now in
      setTaken (x_ID run) at_ ;;;
      ret (Some (MkRun (x_ID run) (x_ProjectID run) (x_InstanceID run) (x_NodeID run) (x_Isolation run) (x_Command run) (x_Timeout run)
        StateRunning (x_Output run) (x_Truncated run) (x_ExitCode run) (x_Message run) (x_CreatedAt run) (x_TakenAt run) (x_EndedAt run)))
  end.
(* go: platform/exec/service.go service.finish *)
Definition finish (nodeID id : string) (result : Result) : M S unit :=
  let! r := attempt (byID id) in
  match r with
  | Err err => fail (if errors_Is err "exec not found" then NotFound "exec_not_found" "no command with that id exists" else err)
  | Ok run =>
      lift (guard (negb (String.eqb (x_NodeID run) nodeID)) (NotFound "exec_not_here" "that command was not given to this node")) ;;;
      if in_state StateDone run then ret tt
      else
        let '(output, truncated) := clip (rs_Output result) in
        let! at_ := now in
        setDone id output (truncated || rs_Truncated result) (rs_ExitCode result) (clipMessage (rs_Message result)) at_
  end.
(* go: platform/exec/service.go service.sweep *)
Definition sweep : M S Z :=
  let! at_ := now in
  let! later := now in
  loseAbandoned (time_add at_ (- Abandoned)) later.
End service.

(** * Handlers and the module (handler.go, module.go) *)

(* go: platform/exec/handler.go startRequest *)
Record startRequest := MkStartRequest { sr_Command : list string; sr_Timeout : string }.
(* go: platform/exec/handler.go resultRequest *)
Record resultRequest := MkResultRequest { rr_Output : string; rr_Truncated : bool; rr_ExitCode : option Z; rr_Message : string }.
(* go: platform/exec/handler.go response *)
Record response := MkResponse {
  o_ID : string; o_InstanceID : string; o_NodeID : string; o_Isolation : string; o_Command : list string; o_Timeout : string;
  o_TimeoutSeconds : Z; o_State : string; o_Output : string; o_Truncated : bool; o_ExitCode : option Z; o_Message : string;
  o_CreatedAt : string; o_EndedAt : string;
}.
(* go: platform/exec/handler.go toResponse *)
Definition toResponse (r : Run) : response :=
  MkResponse (x_ID r) (x_InstanceID r) (x_NodeID r) (x_Isolation r) (x_Command r) (duration_String (x_Timeout r)) (Z.quot (x_Timeout r) second)
    (x_State r) (x_Output r) (x_Truncated r) (x_ExitCode r) (x_Message r) (rfc3339nano (x_CreatedAt r))
    (if time_is_zero (x_EndedAt r) then "" else rfc3339nano (x_EndedAt r)).
Inductive body := BRun (r : response) | BRuns (rs : list response).

Section handlers.
Context {S : Type} `{!Has ExecDB S} (instances : option (Instances S)).
(* go: platform/exec/handler.go handler.start *)
Definition handle_start (sc : Scope) (ref : string) (req : outcome startRequest) : M S (Reply body) :=
  let! req := lift req in
  let! started := start instances (MkStartParams (sc_ProjectID sc) ref (sr_Command req) (sr_Timeout req)) in
  Write StatusCreated (BRun (toResponse started)).
(* go: platform/exec/handler.go handler.get *)
Definition handle_get (sc : Scope) (id : string) : M S (Reply body) :=
  let! run := readIn id (sc_ProjectID sc) in Write StatusOK (BRun (toResponse run)).
(* go: platform/exec/handler.go handler.list *)
Definition handle_list (sc : Scope) (raw : string) : M S (Reply body) :=
  let! limit := lift (if is_empty raw then Ok 50 else
    match atoi raw with
    | Some n => if n <=? 0 then Err (Invalid "invalid_limit" "limit must be a positive whole number") else Ok (Z.min n 200)
    | None => Err (Invalid "invalid_limit" "limit must be a positive whole number")
    end) in
  let! runs := listIn (sc_ProjectID sc) limit in
  Write StatusOK (BRuns (map toResponse runs)).
(* go: platform/exec/handler.go handler.take *)
Definition handle_take (nodeID : string) : M S (Reply body) :=
  let! r := take_ nodeID in
  match r with None => WriteHeader StatusNoContent | Some run => Write StatusOK (BRun (toResponse run)) end.
(* go: platform/exec/handler.go handler.finish *)
Definition handle_finish (nodeID id : string) (req : outcome resultRequest) : M S (Reply body) :=
  let! req := lift req in
  finish nodeID id (MkResult (rr_Output req) (rr_Truncated req) (rr_ExitCode req) (rr_Message req)) ;;;
  WriteHeader StatusNoContent.
(* go: platform/exec/module.go Module.ReleaseInstance *)
Definition ReleaseInstance (instanceID : string) : M S unit := trim instanceID 0.
(* go: platform/exec/module.go Module.Sweep *)
Definition Sweep : M S unit := attempt sweep ;;; ret tt.

Inductive request :=
| ReqStart (sc : Scope) (ref : string) (req : outcome startRequest)
| ReqGet (sc : Scope) (id : string)
| ReqList (sc : Scope) (raw : string)
| ReqTake (nodeID : string)
| ReqFinish (nodeID id : string) (req : outcome resultRequest)
| Released (instanceID : string)
| Ticked.
(* go: platform/exec/module.go Module.Routes *)
Definition serve (r : request) : M S (Reply body) :=
  match r with
  | ReqStart sc ref req => handle_start sc ref req
  | ReqGet sc id => handle_get sc id
  | ReqList sc raw => handle_list sc raw
  | ReqTake nodeID => handle_take nodeID
  | ReqFinish nodeID id req => handle_finish nodeID id req
  | Released instanceID => ReleaseInstance instanceID ;;; WriteHeader StatusNoContent
  | Ticked => Sweep ;;; WriteHeader StatusNoContent
  end.
End handlers.

(** * The end of an output *)

(** [output_clipped]: what is kept of an output is its end, without the NULs: valid UTF-8, 256 KiB at most, and
    cut by no more than the character the limit falls into; the flag says whether anything is gone. *)
Theorem output_clipped output : ValidString output = true -> let '(out, cut) := clip output in
  ValidString out = true /\ slen out <= MaxOutputBytes /\ (exists front, bytes_of (without_nul output) = front ++ bytes_of out) /\
  (cut = false /\ out = without_nul output \/ cut = true /\ MaxOutputBytes - 3 <= slen out).
Proof.
  intros Hv. apply without_nul_valid in Hv. unfold clip. set (t := without_nul output) in *.
  destruct (slen t <=? MaxOutputBytes) eqn:El.
  { apply Z.leb_le in El. split_and!; [done|done|by exists []|by left]. }
  apply Z.leb_gt in El. unfold ValidString, str_drop. rewrite !slen_bytes, !bytes_of_of. rewrite slen_bytes in El.
  set (k := Z.to_nat (len (bytes_of t) - MaxOutputBytes)). destruct (utf8_advance_spec (drop k (bytes_of t))) as (n & En & Hav & Hmin).
  apply utf8_chars in Hv as (cs & Hcs & Et). destruct (chars_drop cs k Hcs) as (p & cs' & Hcs' & Ep & Hp). rewrite <- Et in Ep.
  assert (Hk : Z.of_nat k = len (bytes_of t) - MaxOutputBytes) by (unfold k, MaxOutputBytes in *; lia).
  assert (Hn : (n <= 3)%nat).
  { destruct (Nat.le_gt_cases n 3) as [|Hgt]; [done|]. specialize (Hmin (length p) ltac:(lia)). rewrite Ep, drop_app_length in Hmin.
    rewrite (proj2 (utf8_chars (concat cs')) (ex_intro _ cs' (conj Hcs' eq_refl))) in Hmin. done. }
  rewrite En in *. rewrite drop_drop. split_and!.
  - rewrite <- drop_drop. exact Hav.
  - rewrite length_drop. unfold MaxOutputBytes in *. lia.
  - exists (take (k + n) (bytes_of t)). by rewrite take_drop.
  - right. split; [done|]. rewrite length_drop. lia.
Qed.

(** * The state machine the module promises *)

(** What every stored command is. *)
Record run_ok (r : Run) : Prop := {
  xo_command : checkCommand (x_Command r) = Ok tt;
  xo_timeout : MinTimeout <= x_Timeout r <= MaxTimeout /\ x_Timeout r mod second = 0;
  xo_place : x_NodeID r <> "" /\ x_Isolation r = "container";
  xo_state : x_State r ∈ [StateWaiting; StateRunning; StateDone; StateLost];
}.
Definition waiting_in (p : string) (db : ExecDB) : Z := len (List.filter (fun r => in_project p r && in_state StateWaiting r) db).
Inductive actor := Tenant (p : string) | Node (n : string) | Platform.
Inductive change : actor -> ExecDB -> ExecDB -> Prop :=
| C_start p r db : x_ProjectID r = p -> x_State r = StateWaiting -> run_ok r -> existsb (has_id (x_ID r)) db = false ->
    waiting_in p db < MaxWaitingPerProject -> change (Tenant p) db (db ++ [r])
| C_trim p instance db : change (Tenant p) db (trimmed instance KeepPerInstance db)
| C_take n r at_ db : r ∈ db -> x_NodeID r = n -> x_State r = StateWaiting ->
    change (Node n) db (map (fun x => if has_id (x_ID r) x && in_state StateWaiting x then with_taken at_ x else x) db)
| C_done n r out truncated exit message at_ db : r ∈ db -> x_NodeID r = n -> x_State r <> StateDone ->
    change (Node n) db (map (fun x => if has_id (x_ID r) x then with_done out truncated exit message at_ x else x) db)
| C_lost before at_ db : change Platform db (map (fun x => if abandoned_row before x then with_lost at_ x else x) db)
| C_released instance db : change Platform db (trimmed instance 0 db).
Definition history (a : actor) : ExecDB -> ExecDB -> Prop := rtc (change a).
#[export] Instance history_preorder a : PreOrder (history a).
Proof. unfold history. typeclasses eauto. Qed.
Record execs_inv (db : ExecDB) : Prop := {
  xi_id : unique_by (fun r => Some (x_ID r)) db;
  xi_row : Forall run_ok db;
  xi_waiting : forall p, waiting_in p db <= MaxWaitingPerProject;
}.
(** A statement that updates rows in place, none of which starts to wait. *)
Lemma updated_inv (f : Run -> Run) db : execs_inv db ->
  (forall r, x_ID (f r) = x_ID r /\ x_ProjectID (f r) = x_ProjectID r /\ (in_state StateWaiting (f r) = true -> in_state StateWaiting r = true)) ->
  (forall r, run_ok r -> run_ok (f r)) -> execs_inv (map f db).
Proof.
  intros [H1 H2 H3] Hf Hok. constructor.
  - unfold unique_by in *. rewrite omap_total in *. rewrite map_map. by rewrite (map_ext (fun r => x_ID (f r)) x_ID) by (intros r; apply Hf).
  - apply Forall_fmap. eapply Forall_impl; [exact H2|exact Hok].
  - intros p. etransitivity; [|apply (H3 p)]. unfold waiting_in. apply filter_map_le. intros r _ E. destruct (Hf r) as (_ & Ep & Hw).
    apply andb_true_iff in E as [E1 E2]. unfold in_project in *. rewrite Ep in E1. by rewrite E1, (Hw E2).
Qed.
Lemma filtered_inv p db : execs_inv db -> execs_inv (List.filter p db).
Proof.
  intros [H1 H2 H3]. constructor; [by apply unique_by_filter|by apply Forall_filter_bool|].
  intros q. etransitivity; [|apply (H3 q)]. apply filter_filter_le.
Qed.
Lemma with_ok f r : run_ok r -> (x_Command (f r) = x_Command r /\ x_Timeout (f r) = x_Timeout r /\ x_NodeID (f r) = x_NodeID r /\ x_Isolation (f r) = x_Isolation r) ->
  x_State (f r) ∈ [StateWaiting; StateRunning; StateDone; StateLost] -> run_ok (f r).
Proof. intros [A B C D] (E1 & E2 & E3 & E4) Hs. constructor; rewrite ?E1, ?E2, ?E3, ?E4; done. Qed.
Lemma exec_change_inv a db db' : change a db db' -> execs_inv db -> execs_inv db'.
Proof.
  intros [p r d Hp Hs Hok Hc Hw|p i d|n r at_ d _ _ _|n r out tr ex msg at_ d _ _ _|before at_ d|i d] Hi.
  - destruct Hi as [H1 H2 H3]. rewrite existsb_false, Forall_forall in Hc. constructor.
    + apply unique_by_app; [done|]. intros x q Hx [= <-] [= E]. specialize (Hc x Hx). unfold has_id in Hc. by rewrite E, String.eqb_refl in Hc.
    + apply Forall_app. split; [done|]. by constructor.
    + intros q. unfold waiting_in in *. rewrite List.filter_app, length_app. cbn [List.filter]. destruct (in_project q r && _) eqn:E.
      * apply andb_true_iff in E as [E%String.eqb_eq _]. rewrite <- Hp, E in Hw. simpl. lia.
      * specialize (H3 q). simpl. lia.
  - by apply filtered_inv.
  - apply updated_inv; [done| |].
    + intros x. destruct (_ && _); [|by split_and!]. split_and!; [done|done|discriminate].
    + intros x Hx. destruct (_ && _); [|done]. apply (with_ok (with_taken at_)); [done|by split_and!|set_solver].
  - apply updated_inv; [done| |].
    + intros x. destruct (has_id _ x); [|by split_and!]. split_and!; [done|done|discriminate].
    + intros x Hx. destruct (has_id _ x); [|done]. apply (with_ok (with_done out tr ex msg at_)); [done|by split_and!|set_solver].
  - apply updated_inv; [done| |].
    + intros x. destruct (abandoned_row _ x); [|by split_and!]. split_and!; [done|done|discriminate].
    + intros x Hx. destruct (abandoned_row _ x); [|done]. apply (with_ok (with_lost at_)); [done|by split_and!|set_solver].
  - by apply filtered_inv.
Qed.
Lemma exec_history_inv a db db' : history a db db' -> execs_inv db -> execs_inv db'.
Proof. intros H. induction H as [|x y z Hc _ IH]; [done|]. intros Hi. apply IH. by eapply exec_change_inv. Qed.
(** Whose result a finished command holds: it was finished already, or the node it was queued for did. *)
Lemma exec_history_finished a db db' r : history a db db' -> execs_inv db -> r ∈ db' -> x_State r = StateDone ->
  r ∈ db \/ a = Node (x_NodeID r).
Proof.
  intros H. induction H as [|x y z Hc _ IH]; [by left|]. intros Hv Hr Hs.
  destruct (IH (exec_change_inv _ _ _ Hc Hv) Hr Hs) as [Hy|]; [|by right]. clear IH Hr.
  destruct Hc as [p q d Hp Hq Hok _ _|p i d|n q at_ d _ _ _|n q out tr ex msg at_ d Hq Hn _|before at_ d|i d].
  - apply elem_of_app in Hy as [|E%list_elem_of_singleton]; [by left|]. subst q. rewrite Hq in Hs. discriminate Hs.
  - left. by apply elem_of_filter_bool in Hy as [? _].
  - apply list_elem_of_fmap in Hy as (x & -> & Hx). destruct (_ && _); [discriminate Hs|by left].
  - apply list_elem_of_fmap in Hy as (x & Er & Hx). destruct (has_id (x_ID q) x) eqn:E; [|subst r; by left]. right. subst r n.
    apply String.eqb_eq in E. pose proof (unique_by_eq (fun r => Some (x_ID r)) _ x q (x_ID q) (xi_id _ Hv) Hx Hq (f_equal Some E) eq_refl) as ->. done.
  - apply list_elem_of_fmap in Hy as (x & -> & Hx). destruct (abandoned_row _ x); [discriminate Hs|by left].
  - left. by apply elem_of_filter_bool in Hy as [? _].
Qed.

(** ** The operations *)

Lemma parseTimeout_ok text after : parseTimeout text = Ok after -> MinTimeout <= after <= MaxTimeout.
Proof.
  unfold parseTimeout. destruct (is_empty text); [intros [= <-]; unfold DefaultTimeout, MinTimeout, MaxTimeout, minute, second; lia|].
  intros H. apply obind_ok in H as (d & _ & H). apply obind_ok in H as ([] & Hg%guard_ok & [= <-]).
  apply orb_false_iff in Hg as [H1%Z.ltb_ge H2%Z.ltb_ge]. lia.
Qed.
Lemma kept_ok r : checkCommand (x_Command r) = Ok tt -> MinTimeout <= x_Timeout r <= MaxTimeout -> x_NodeID r <> "" -> x_Isolation r = "container" ->
  x_State r = StateWaiting -> run_ok (kept_row r).
Proof.
  intros Hc Ht Hn Hi Hs. constructor; cbn [kept_row x_Command x_Timeout x_NodeID x_Isolation x_State]; [done| |done|rewrite Hs; set_solver].
  split; [|apply Z.mod_mul; done]. unfold MinTimeout, MaxTimeout, minute, second in *. pose proof (Z.quot_rem' (x_Timeout r) 1000000000).
  pose proof (Z.rem_bound_pos (x_Timeout r) 1000000000 ltac:(lia) ltac:(lia)). lia.
Qed.

Section operations.
Context {S : Type} `{!Has ExecDB S} (instances : option (Instances S)).
Context (Hi : forall i ref p, instances = Some i -> leaves ExecDB (TargetFor i ref p)).

Definition actor_of (r : request) : actor :=
  match r with
  | ReqStart sc _ _ | ReqGet sc _ | ReqList sc _ => Tenant (sc_ProjectID sc)
  | ReqTake n | ReqFinish n _ _ => Node n
  | Released _ | Ticked => Platform
  end.
Lemma exec_yields_byID (db : ExecDB) id : yields db (attempt (byID (S:=S) id)) (fun r => match r with Ok x => x ∈ db /\ x_ID x = id | Err _ => True end).
Proof.
  apply yields_attempt. eapply yields_mono; [apply yields_query|]. intros x H. apply select_one_ok in H as [Hx E%String.eqb_eq]. done.
Qed.
Lemma start_moves (db : ExecDB) sc ref q : moves (history (Tenant (sc_ProjectID sc))) db
  (start (S:=S) instances (MkStartParams (sc_ProjectID sc) ref (sr_Command q) (sr_Timeout q))).
Proof.
  unfold start. destruct instances as [i|] eqn:Ei; [|m_step]. cbn [sp_Command sp_Timeout sp_InstanceRef sp_ProjectID].
  m_step. intros [] Hc. m_step. intros after Hafter. apply parseTimeout_ok in Hafter.
  eapply moves_bind; [typeclasses eauto|apply yields_leaves; by apply Hi|]. intros target _.
  m_step. intros _ Hiso%guard_false. m_step. intros _ Hnode%guard_false. m_step. intros _ Hobs%guard_false.
  eapply moves_bind; [typeclasses eauto|apply yields_query|]. intros waiting [= <-]. m_step. intros _ Hwait%guard_false.
  eapply moves_bind; [typeclasses eauto|apply yields_leaves; unfold ids_New; auto with leaves|]. intros id _. m_step. intros at_ _.
  set (run := MkRun _ _ _ _ _ _ _ _ _ _ _ _ _ _ _). apply moves_then; [typeclasses eauto| |].
  - apply moves_sql; [typeclasses eauto|]. unfold insert_row. destruct (existsb _ _) eqn:Ec; cbn [snd]; [done|]. apply rtc_once.
    apply (C_start _ (kept_row run)); [done|done| |done|].
    + apply kept_ok; [done|done| | |done]; cbn; [by apply is_empty_false|by apply negb_false_iff, String.eqb_eq in Hiso].
    + apply Z.leb_gt in Hwait. exact Hwait.
  - intros db' _ _. apply moves_then; [typeclasses eauto| |intros; m_step]. apply moves_attempt, moves_sql; [typeclasses eauto|]. apply rtc_once, C_trim.
Qed.
Lemma exec_serve_moves (db : ExecDB) r : moves (history (actor_of r)) db (serve (S:=S) instances r).
Proof.
  destruct r as [sc ref req|sc id|sc raw|n|n id req|inst|]; cbn [serve actor_of];
    unfold handle_start, handle_get, handle_list, handle_take, handle_finish, ReleaseInstance, Sweep, Write, WriteHeader.
  - m_step. intros q _. apply moves_then; [typeclasses eauto| |intros; m_step]. apply start_moves.
  - eapply moves_bind; [typeclasses eauto| |intros; m_step]. apply yields_leaves. unfold readIn, byID, rows_q. auto 10 with leaves.
  - m_step. intros limit _. eapply moves_bind; [typeclasses eauto| |intros; m_step]. apply yields_leaves. unfold listIn, listIn_rows, rows_q. auto with leaves.
  - apply moves_then; [typeclasses eauto| |intros ? [x|] ?; m_step]. unfold take_.
    eapply moves_bind; [typeclasses eauto|apply yields_attempt; unfold nextWaitingOn, rows_q; apply yields_query|]. intros [x|e] Hx; [|destruct (errors_Is _ _); m_step].
    m_step. intros at_ _. apply moves_then; [typeclasses eauto| |intros; m_step]. apply moves_sql; [typeclasses eauto|].
    pose proof (update_where_rows (fun r => has_id (x_ID x) r && in_state StateWaiting r) (with_taken at_) errNotFound db) as Eu. cbv beta. unfold ExecDB in *. rewrite Eu.
    assert (Hin : x ∈ sliceStable oldest_first (List.filter (fun r => on_node n r && in_state StateWaiting r) db)).
    { destruct (sliceStable _ _) as [|y l]; [done|]. injection Hx as ->. by left. }
    rewrite sliceStable_perm in Hin. apply elem_of_filter_bool in Hin as [Hin [Hn%String.eqb_eq Hs%String.eqb_eq]%andb_true_iff].
    apply rtc_once. by apply C_take.
  - m_step. intros q _. apply moves_then; [typeclasses eauto| |intros; m_step]. unfold finish.
    eapply moves_bind; [typeclasses eauto|apply exec_yields_byID|]. intros [x|e] Hx; [|m_step]. destruct Hx as [Hin <-].
    m_step. intros _ Hn%guard_false. destruct (in_state StateDone x) eqn:Ed; [m_step|]. destruct (clip _) as [out cut]. m_step. intros at_ _.
    apply moves_sql; [typeclasses eauto|]. apply rtc_once. apply C_done; [done| |by apply String.eqb_neq].
    by apply negb_false_iff, String.eqb_eq in Hn.
  - apply moves_then; [typeclasses eauto| |intros; m_step]. apply moves_sql; [typeclasses eauto|]. apply rtc_once, C_released.
  - apply moves_then; [typeclasses eauto| |intros; m_step]. apply moves_then; [typeclasses eauto| |intros; m_step]. apply moves_attempt. unfold sweep.
    m_step. intros at_ _. m_step. intros later _. apply moves_sql; [typeclasses eauto|]. apply rtc_once, C_lost.
Qed.
End operations.

(** * Properties *)

(** [execs_lawful]: a command is queued by its project, and at most sixteen of a project wait; only the node it
    was queued for takes it, while it waits, and only that node finishes it; the platform gives up what is
    old.  A result in the table was there before, or comes from the node the command was queued for. *)
Theorem execs_lawful {S} `{!Has ExecDB S} (instances : option (Instances S)) env r (w : World S) :
  (forall i ref p, instances = Some i -> leaves ExecDB (TargetFor i ref p)) -> execs_inv (part w) ->
  wp env (serve instances r) (fun _ w' => history (actor_of r) (part w) (part w') /\ execs_inv (part w') /\
    forall x, x ∈ part (T:=ExecDB) w' -> x_State x = StateDone -> x ∈ part (T:=ExecDB) w \/ actor_of r = Node (x_NodeID x)) w.
Proof.
  intros Hi Hv. eapply wp_mono; [|exact (exec_serve_moves instances Hi (part w) r env w eq_refl)]. intros o w' H.
  split_and!; [done|exact (exec_history_inv _ _ _ H Hv)|]. intros x Hx Hs. exact (exec_history_finished _ _ _ x H Hv Hx Hs).
Qed.

(** [taken_once]: a node that asks is given a command that was waiting for it, and none of the waiting ones is
    older; afterwards that command is running, so that nobody is given it again.  It is given nothing
    only when nothing waits. *)
Theorem taken_once {S} `{!Has ExecDB S} env n (w : World S) : execs_inv (part w) ->
  wp env (take_ n) (fun r w' => match r with
    | Ok (Some x) => exists y, y ∈ part (T:=ExecDB) w /\ x = with_taken (x_TakenAt x) y /\ x_NodeID y = n /\ x_State y = StateWaiting /\
        (forall z, z ∈ part (T:=ExecDB) w -> x_NodeID z = n -> x_State z = StateWaiting -> oldest_first z y = false) /\
        forall z, z ∈ part (T:=ExecDB) w' -> x_ID z = x_ID x -> x_State z = StateRunning
    | Ok None => part w' = part (T:=ExecDB) w /\ forall z, z ∈ part (T:=ExecDB) w -> x_NodeID z = n -> x_State z <> StateWaiting
    | Err _ => part w' = part (T:=ExecDB) w
    end) w.
Proof.
  intros Hv. unfold take_. apply wp_bind, wp_attempt. unfold nextWaitingOn, rows_q. apply wp_read. intros r Hr.
  set (mine := List.filter (fun r => on_node n r && in_state StateWaiting r) (part (T:=ExecDB) w)) in *.
  assert (Hm : forall z, z ∈ mine <-> z ∈ part (T:=ExecDB) w /\ x_NodeID z = n /\ x_State z = StateWaiting).
  { intros z. unfold mine, on_node, in_state. by rewrite elem_of_filter_bool, andb_true_iff, !String.eqb_eq. }
  destruct Hr as [->| ->]; [simpl; by rewrite wp_fail|].
  pose proof (sliceStable_sorted oldest_first mine) as Hsort. pose proof (sliceStable_perm oldest_first mine) as Hp.
  destruct (sliceStable oldest_first mine) as [|y l].
  { simpl. rewrite wp_ret. split; [done|]. intros z Hz Hn Hs. assert (Hin : z ∈ mine) by (by apply Hm). rewrite <- Hp in Hin. by apply not_elem_of_nil in Hin. }
  assert (Hy : y ∈ mine) by (rewrite <- Hp; by left). apply Hm in Hy as (Hy & Hn & Hs).
  apply wp_bind. rewrite wp_now. apply wp_bind. unfold setTaken, rows_sql. apply wp_write; intros w' Hw'; [done|].
  change (part (T:=ExecDB) (tick (tick w))) with (part (T:=ExecDB) w) in *.
  assert (Hrun : existsb (fun r => has_id (x_ID y) r && in_state StateWaiting r) (part (T:=ExecDB) w) = true).
  { apply existsb_exists. exists y. rewrite <- list_elem_of_In. unfold has_id, in_state. by rewrite Hs, !String.eqb_refl. }
  unfold update_where in *. rewrite Hrun in *. cbn [fst snd] in *. rewrite wp_ret. exists y. split_and!; try done.
  - intros z Hz Hzn Hzs. assert (Hin : z ∈ mine) by (by apply Hm). rewrite <- Hp in Hin. apply elem_of_cons in Hin as [->|Hin].
    + apply wo_irrefl.
    + by apply (sorted_by_head oldest_first y l Hsort).
  - rewrite Hw'. intros z (x & -> & Hx)%list_elem_of_fmap Ez. destruct (has_id (x_ID y) x && in_state StateWaiting x) eqn:E; [done|].
    exfalso. cbn [x_ID] in Ez. pose proof (unique_by_eq (fun r => Some (x_ID r)) _ x y (x_ID y) (xi_id _ Hv) Hx Hy (f_equal Some Ez) eq_refl) as ->.
    unfold has_id, in_state in E. by rewrite Hs, !String.eqb_refl in E.
Qed.

(** [result_recorded]: what a node reports of a command: the command must exist and be the node's; a finished one
    stays as it is, any other one is finished with the end of the output, the exit code and the message. *)
Theorem result_recorded {S} `{!Has ExecDB S} env n id result (w : World S) : execs_inv (part w) ->
  wp env (finish n id result) (fun r w' => match r with
    | Err _ => part w' = part (T:=ExecDB) w
    | Ok _ => exists x, x ∈ part (T:=ExecDB) w /\ x_ID x = id /\ x_NodeID x = n /\
        (x_State x = StateDone /\ part w' = part (T:=ExecDB) w \/
         x_State x <> StateDone /\ exists at_, let done := with_done (fst (clip (rs_Output result))) (snd (clip (rs_Output result)) || rs_Truncated result)
             (rs_ExitCode result) (clipMessage (rs_Message result)) at_ in
           done x ∈ part (T:=ExecDB) w' /\ forall y, y ∈ part (T:=ExecDB) w -> y <> x -> y ∈ part (T:=ExecDB) w')
    end) w.
Proof.
  intros Hv. unfold finish. apply wp_bind, wp_attempt. unfold byID, rows_q. apply wp_read. intros r Hr.
  destruct r as [x|e]; [|destruct (errors_Is e _); by rewrite wp_fail]. destruct Hr as [|Hr]; [done|]. symmetry in Hr. apply select_one_ok in Hr as [Hx Eid%String.eqb_eq].
  apply wp_bind. rewrite wp_lift. destruct (negb _) eqn:En; cbn [guard]; [done|]. apply negb_false_iff, String.eqb_eq in En.
  destruct (in_state StateDone x) eqn:Ed.
  { rewrite wp_ret. exists x. split_and!; try done. left. split; [by apply String.eqb_eq|done]. }
  destruct (clip (rs_Output result)) as [out cut]. apply wp_bind. rewrite wp_now. unfold setDone, rows_sql. apply wp_write; intros w' Hw'; [done|].
  change (part (T:=ExecDB) (tick (tick w))) with (part (T:=ExecDB) w) in *. cbn [fst snd] in *. exists x. split_and!; try done. right. split; [by apply String.eqb_neq|].
  eexists. rewrite Hw'. split.
  - apply list_elem_of_fmap. exists x. split; [|done]. unfold has_id. by rewrite Eid, String.eqb_refl.
  - intros y Hy Hne. apply list_elem_of_fmap. exists y. split; [|done]. destruct (has_id id y) eqn:E; [|done]. exfalso. apply Hne.
    apply String.eqb_eq in E. apply (unique_by_eq (fun r => Some (x_ID r)) (part (T:=ExecDB) w) y x id (xi_id _ Hv) Hy Hx); by rewrite ?E, ?Eid.
Qed.

(** ** Runs *)

Module Demo.
Definition env : Env := {| env_now n := Z.of_nat n * second; env_rand n := [Z.of_nat n]; env_io _ := false |}.
Definition instances : option (Instances ExecDB) :=
  Some {| TargetFor ref p := if String.eqb ref "web" then ret (MkTarget "i-1" "nd-1" "container" "running") else fail (NotFound "instance_not_found" "no such instance") |}.
Lemma instances_leave i ref p : instances = Some i -> leaves ExecDB (TargetFor i ref p).
Proof. intros [= <-]. cbn [TargetFor]. auto with leaves. Qed.
Definition run (id state : string) (created : Z) : Run :=
  MkRun id "prj-1" "i-1" "nd-1" "container" ["ls"] (30 * second) state "" false None "" created zero_time zero_time.
Definition w0 : World ExecDB := MkWorld [run "ex-1" StateRunning 0; run "ex-2" StateWaiting second; run "ex-3" StateWaiting (2 * second)] O [].
Lemma execs_inv_w0 : execs_inv (part w0).
Proof.
  constructor; [apply (bool_decide_unpack _); vm_compute; exact I| |].
  - repeat (apply Forall_cons; split; [constructor; [vm_compute; reflexivity|vm_compute; done|split; [discriminate|reflexivity]|set_solver]|]). constructor.
  - intros p. unfold waiting_in. etransitivity; [apply inj_le, filter_bool_length_le|]. cbn. unfold MaxWaitingPerProject. lia.
Qed.
Definition tenant : Scope := MkScope "prj-1" "tok-1" "ci" "" "member".
Definition ask : request := ReqStart tenant "web" (Ok (MkStartRequest ["uname"; "-a"] "45s")).
(** 256 KiB and one byte more, the first character of two bytes. *)
Definition long : string := of_bytes ([Ascii.ascii_of_N 195; Ascii.ascii_of_N 169] ++ replicate (Z.to_nat (MaxOutputBytes - 1)) (Ascii.ascii_of_N 97)).
End Demo.
Lemma output_clipped_witness : slen (fst (clip Demo.long)) = MaxOutputBytes - 1 /\ ValidString (fst (clip Demo.long)) = true.
Proof.
  split; [vm_compute; reflexivity|]. pose proof (output_clipped Demo.long ltac:(vm_compute; reflexivity)) as H.
  destruct (clip Demo.long) as [out cut]. exact (proj1 H).
Defined.
Lemma execs_lawful_witness : map x_State (part (T:=ExecDB) (snd (serve Demo.instances Demo.ask Demo.env Demo.w0))) = [StateRunning; StateWaiting; StateWaiting; StateWaiting] /\
  execs_inv (part (snd (serve Demo.instances Demo.ask Demo.env Demo.w0))).
Proof.
  split; [vm_compute; reflexivity|]. pose proof (execs_lawful Demo.instances Demo.env Demo.ask Demo.w0 Demo.instances_leave Demo.execs_inv_w0) as H.
  unfold wp in H. destruct (serve _ _ _ _) as [r w']. exact (proj1 (proj2 H)).
Defined.
Lemma taken_once_witness : exists x, fst (take_ "nd-1" Demo.env Demo.w0) = Ok (Some x) /\ x_ID x = "ex-2" /\ forall z, z ∈ part (T:=ExecDB) (snd (take_ "nd-1" Demo.env Demo.w0)) ->
  x_ID z = "ex-2" -> x_State z = StateRunning.
Proof.
  pose proof (taken_once Demo.env "nd-1" Demo.w0 Demo.execs_inv_w0) as H.
  assert (E : fst (take_ "nd-1" Demo.env Demo.w0) = Ok (Some (with_taken zero_time (Demo.run "ex-2" StateWaiting second)))) by (vm_compute; reflexivity).
  unfold wp in H. destruct (take_ _ _ _) as [r w']. cbn [fst] in E. subst r. eexists. split; [reflexivity|]. split; [reflexivity|].
  destruct H as (y & _ & _ & _ & _ & _ & H). exact H.
Defined.
Lemma result_recorded_witness : let w' := snd (finish "nd-1" "ex-1" (MkResult "out" false (Some 0) "") Demo.env Demo.w0) in
  map x_State (part (T:=ExecDB) w') = [StateDone; StateWaiting; StateWaiting] /\ Demo.run "ex-2" StateWaiting second ∈ part (T:=ExecDB) w'.
Proof.
  split; [vm_compute; reflexivity|]. pose proof (result_recorded Demo.env "nd-1" "ex-1" (MkResult "out" false (Some 0) "") Demo.w0 Demo.execs_inv_w0) as H.
  assert (E : fst (finish "nd-1" "ex-1" (MkResult "out" false (Some 0) "") Demo.env Demo.w0) = Ok tt) by (vm_compute; reflexivity).
  unfold wp in H. destruct (finish _ _ _ _ _) as [r w']. cbn [fst snd] in *. subst r. destruct H as (x & _ & Ex & _ & [[_ Hw]|(_ & at_ & _ & H)]).
  - rewrite Hw. right. left.
  - apply H; [right; left|]. intros <-. discriminate Ex.
Defined.
