(* ===== verification/Shell.v ===== *)
(** Shells in guests (internal/platform/shell): the sessions of a project, each with a pair of pipes that the
    control plane holds in memory between the operator and the node.

    The state is the table and the relay's map; what runs through a pipe is not modelled, only which
    sessions have pipes. *)
From stdpp Require Import base tactics numbers strings list gmap sorting.
From Stdlib Require Import ZArith Lia.
From S2P Require Import Prelude GoLang Time Effects Regex Kernel Httpx Tables.

(** * Data (types.go) *)

Definition StateWaiting : string := "waiting".
Definition StateAttached : string := "attached".
Definition StateClosed : string := "closed".
Definition MaxWaitingPerProject : Z := 4.
Definition Abandoned : Z := 2 * minute.
(* go: platform/shell/types.go Session *)
Record Session := MkSession {
  s_ID : string; s_ProjectID : string; s_InstanceID : string; s_NodeID : string; s_Isolation : string; s_Command : list string;
  s_State : string; s_Message : string; s_CreatedAt : Z; s_TakenAt : Z; s_EndedAt : Z;
}.
(* go: platform/shell/types.go StartParams *)
Record StartParams := MkStartParams { sp_ProjectID : string; sp_InstanceRef : string; sp_Command : list string }.
(* go: platform/shell/types.go Target *)
Record Target := MkTarget { tg_InstanceID : string; tg_NodeID : string; tg_Isolation : string; tg_Observed : string }.
(* go: platform/shell/service.go Instances *)
Record Instances (S : Type) := { TargetFor : string -> string -> M S Target }.
Arguments TargetFor {S} _ _ _.

(** The table, and the sessions the relay holds pipes for. *)
(* go: platform/shell/pipes.go relay *)
Record ShellDB := MkShellDB { sh_rows : list Session; sh_held : gset string }.

(** * Repository (repository.go)

    UNIQUE (id). *)

Definition errNotFound : error := ESentinel "session not found".
Definition has_id (id : string) (s : Session) : bool := String.eqb (s_ID s) id.
Definition in_state (state : string) (s : Session) : bool := String.eqb (s_State s) state.
Definition in_project (projectID : string) (s : Session) : bool := String.eqb (s_ProjectID s) projectID.
Definition of_instance (instanceID : string) (s : Session) : bool := String.eqb (s_InstanceID s) instanceID.
Definition on_node (nodeID : string) (s : Session) : bool := String.eqb (s_NodeID s) nodeID.
Definition live (s : Session) : bool := negb (in_state StateClosed s).
Definition created_text (s : Session) : string := rfc3339nano (s_CreatedAt s).
Definition oldest_first : Session -> Session -> bool := by_key created_text str_ltb (fun _ _ => false).
Definition newest_first : Session -> Session -> bool := by_key created_text (fun a b => str_ltb b a) (fun _ _ => false).
Definition with_taken (at_ : Z) (s : Session) : Session :=
  MkSession (s_ID s) (s_ProjectID s) (s_InstanceID s) (s_NodeID s) (s_Isolation s) (s_Command s) StateAttached (s_Message s)
    (s_CreatedAt s) at_ (s_EndedAt s).
Definition with_closed (message : string) (at_ : Z) (s : Session) : Session :=
  MkSession (s_ID s) (s_ProjectID s) (s_InstanceID s) (s_NodeID s) (s_Isolation s) (s_Command s) StateClosed message
    (s_CreatedAt s) (s_TakenAt s) at_.

Section repository.
Context {S : Type} `{!Has ShellDB S}.
Definition rows_sql {A} (what : string) (q : list Session -> outcome A * list Session) : M S A :=
  sql what (fun db => let '(r, rows) := q (sh_rows db) in (r, MkShellDB rows (sh_held db))).
Definition rows_q {A} (what : string) (q : list Session -> outcome A) : M S A := query what (fun db => q (sh_rows db)).

(* go: platform/shell/repository.go repository.insert *)
Definition insert (s : Session) : M S unit :=
  rows_sql "insert a session" (insert_row (has_id (s_ID s)) (EWrap "insert a session" (EText "UNIQUE constraint failed")) s).
(* go: platform/shell/repository.go repository.byID *)
Definition byID (id : string) : M S Session := rows_q "list sessions" (select_one (has_id id) errNotFound).
(* go: platform/shell/repository.go repository.nextWaitingOn *)
Definition nextWaitingOn (nodeID : string) : M S Session :=
  rows_q "list sessions" (fun rows =>
    match sliceStable oldest_first (List.filter (fun s => on_node nodeID s && in_state StateWaiting s) rows) with
    | [] => Err errNotFound | s :: _ => Ok s end).
(* go: platform/shell/repository.go repository.take *)
Definition take_row (id : string) (at_ : Z) : M S bool :=
  rows_sql "take a session" (fun rows =>
    let p := fun s => has_id id s && in_state StateWaiting s in
    (Ok (len (List.filter p rows) =? 1), map (fun s => if p s then with_taken at_ s else s) rows)).
(* go: platform/shell/repository.go repository.close *)
Definition close_row (id message : string) (at_ : Z) : M S unit :=
  rows_sql "close a session" (fun rows => (Ok tt, map (fun s => if has_id id s && live s then with_closed message at_ s else s) rows)).
(* go: platform/shell/repository.go repository.countLiveIn *)
Definition countLiveIn (projectID : string) : M S Z :=
  rows_q "count sessions" (fun rows => Ok (len (List.filter (fun s => in_project projectID s && live s) rows))).
(* go: platform/shell/repository.go repository.listIn *)
Definition listIn_rows (projectID : string) (limit : Z) : M S (list Session) :=
  rows_q "list sessions" (fun rows => Ok (take (Z.to_nat limit) (sliceStable newest_first (List.filter (in_project projectID) rows)))).
(* go: platform/shell/repository.go repository.stale *)
Definition stale (before : Z) : M S (list Session) :=
  rows_q "list sessions" (fun rows => Ok (List.filter (fun s => in_state StateWaiting s && str_ltb (created_text s) (rfc3339nano before)) rows)).
(* go: platform/shell/repository.go repository.deleteInstance *)
Definition deleteInstance (instanceID : string) : M S unit :=
  rows_sql "delete the sessions of an instance" (fun rows => (Ok tt, List.filter (fun s => negb (of_instance instanceID s)) rows)).

(** * The relay (pipes.go) *)

(* go: platform/shell/pipes.go relay.open *)
Definition open_ (id : string) : M S unit := locked (fun db : ShellDB => (tt, MkShellDB (sh_rows db) ({[id]} ∪ sh_held db))).
(* go: platform/shell/pipes.go relay.find *)
Definition find_ (id : string) : M S bool := locked (fun db : ShellDB => (bool_decide (id ∈ sh_held db), db)).
(* go: platform/shell/pipes.go relay.shut *)
Definition shut (id : string) : M S unit := locked (fun db : ShellDB => (tt, MkShellDB (sh_rows db) (sh_held db ∖ {[id]}))).
End repository.

(** * Service (service.go) *)

Section service.
Context {S : Type} `{!Has ShellDB S} (instances : option (Instances S)).

(* go: platform/shell/service.go service.start *)
Definition start (params : StartParams) : M S Session :=
  match instances with
  | None => fail (NotFound "instance_not_found" "no instance with that name or id exists")
  | Some i =>
      let! target := TargetFor i (sp_InstanceRef params) (sp_ProjectID params) in
      lift (guard (negb (String.eqb (tg_Isolation target) "container")) (Conflict "no_way_in"
        ("only a container can be entered from the node. A vm, microvm or sandbox runs its own kernel, so a shell inside needs " +:+
         "something running in the guest: use marstack console on the node instead"))) ;;;
      lift (guard (is_empty (tg_NodeID target)) (Conflict "instance_not_placed" "this instance is not on a node, so there is nothing to enter")) ;;;
      lift (guard (negb (String.eqb (tg_Observed target) "running")) (Conflict "instance_not_running"
        ("this instance is " +:+ tg_Observed target +:+ ", and a shell needs a running workload to run inside"))) ;;;
      let! open := countLiveIn (sp_ProjectID params) in
      lift (guard (MaxWaitingPerProject <=? open) (TooMany "too_many_sessions" (itoa open +:+
        " shells are already open in this project, and each one holds a process on a node for as long as it lives"))) ;;;
      let command := match sp_Command params with [] => ["/bin/sh"] | command => command end in
      let! id := ids_New "sh" in
      let! at_ := now in
      let held := MkSession id (sp_ProjectID params) (tg_InstanceID target) (tg_NodeID target) (tg_Isolation target) command StateWaiting ""
        at_ zero_time zero_time in
      insert held ;;;
      open_ id ;;;
      ret held
  end.
(* go: platform/shell/service.go service.readIn *)
Definition readIn (id projectID : string) : M S Session :=
  let! r := attempt (byID id) in
  match r with
  | Err err => fail (if errors_Is err "session not found" then NotFound "session_not_found" "no shell session with that id exists" else err)
  | Ok held => if String.eqb (s_ProjectID held) projectID then ret held else fail (NotFound "session_not_found" "no shell session with that id exists")
  end.
(* go: platform/shell/service.go service.listIn *)
Definition listIn (projectID : string) (limit : Z) : M S (list Session) := listIn_rows projectID limit.
(* go: platform/shell/service.go service.take *)
Definition take_ (nodeID : string) : M S (option Session) :=
  let! r := attempt (nextWaitingOn nodeID) in
  match r with
  | Err err => if errors_Is err "session not found" then ret None else fail err
  | Ok held =>
      let! at_ := now in
      let! taken := take_row (s_ID held) at_ in
      ret (if taken : bool then Some (MkSession (s_ID held) (s_ProjectID held) (s_InstanceID held) (s_NodeID held) (s_Isolation held) (s_Command held)
        StateAttached (s_Message held) (s_CreatedAt held) (s_TakenAt held) (s_EndedAt held)) else None)
  end.
(* go: platform/shell/service.go service.close *)
Definition close_ (id message : string) : M S unit :=
  shut id ;;;
  let! at_ := now in
  close_row id message at_.
(* go: platform/shell/service.go service.heldBy *)
Definition heldBy (id nodeID : string) : M S Session :=
  let! r := attempt (byID id) in
  match r with
  | Err err => fail (if errors_Is err "session not found" then NotFound "session_not_found" "no shell session with that id exists" else err)
  | Ok held => if String.eqb (s_NodeID held) nodeID then ret held else fail (NotFound "session_not_here" "that session was not given to this node")
  end.
(* go: platform/shell/service.go service.ReleaseInstance *)
Definition ReleaseInstance (instanceID : string) : M S unit := deleteInstance instanceID.
(* go: platform/shell/service.go service.sweep *)
Definition sweep : M S Z :=
  let! at_ := now in
  let! held := stale (time_add at_ (- Abandoned)) in
  foldM (fun one _ => attempt (close_ (s_ID one) "no node picked it up") ;;; ret tt) held tt ;;;
  ret (len held).
End service.

(** * Handlers and the module (handler.go, module.go) *)

(* go: platform/shell/handler.go startRequest *)
Record startRequest := MkStartRequest { sr_Command : list string }.
(* go: platform/shell/handler.go response *)
Record response := MkResponse {
  o_ID : string; o_InstanceID : string; o_NodeID : string; o_Isolation : string; o_Command : list string; o_State : string;
  o_Message : string; o_CreatedAt : string;
}.
(* go: platform/shell/handler.go toResponse *)
Definition toResponse (s : Session) : response :=
  MkResponse (s_ID s) (s_InstanceID s) (s_NodeID s) (s_Isolation s) (s_Command s) (s_State s) (s_Message s) (rfc3339nano (s_CreatedAt s)).
Inductive body := BSession (s : response) | BSessions (ss : list response) | BText (text : string).
Definition StatusGone : Z := 410.

Section handlers.
Context {S : Type} `{!Has ShellDB S} (instances : option (Instances S)).
(** What runs through the pipes of a session: the client that reads, the body that is copied and the error it ends with. *)
Context (stream : string -> M S unit) (Copy : string -> M S (option error)).
(* go: platform/shell/handler.go closedAlready *)
Definition closedAlready : M S (Reply body) := Write StatusGone (BText "this shell session is closed").
(* go: platform/shell/handler.go handler.start *)
Definition handle_start (sc : Scope) (ref : string) (req : outcome startRequest) : M S (Reply body) :=
  let! req := lift req in
  let! held := start instances (MkStartParams (sc_ProjectID sc) ref (sr_Command req)) in
  Write StatusCreated (BSession (toResponse held)).
(* go: platform/shell/handler.go handler.get *)
Definition handle_get (sc : Scope) (id : string) : M S (Reply body) :=
  let! held := readIn id (sc_ProjectID sc) in Write StatusOK (BSession (toResponse held)).
(* go: platform/shell/handler.go handler.list *)
Definition handle_list (sc : Scope) : M S (Reply body) :=
  let! held := listIn (sc_ProjectID sc) 20 in Write StatusOK (BSessions (map toResponse held)).
(* go: platform/shell/handler.go handler.closeSession *)
Definition handle_close (sc : Scope) (id : string) : M S (Reply body) :=
  let! held := readIn id (sc_ProjectID sc) in
  close_ (s_ID held) "closed by the operator" ;;;
  WriteHeader StatusNoContent.
(* go: platform/shell/handler.go handler.clientOutput *)
Definition handle_clientOutput (sc : Scope) (id : string) : M S (Reply body) :=
  let! held := readIn id (sc_ProjectID sc) in
  let! open := find_ (s_ID held) in
  if negb open then closedAlready
  else
    stream (s_ID held) ;;;
    attempt (close_ (s_ID held) "the operator left") ;;;
    WriteHeader StatusOK.
(* go: platform/shell/handler.go handler.clientInput *)
Definition handle_clientInput (sc : Scope) (id : string) : M S (Reply body) :=
  let! held := readIn id (sc_ProjectID sc) in
  let! open := find_ (s_ID held) in
  if negb open then closedAlready
  else
    let! err := Copy (s_ID held) in
    match err with Some _ => WriteHeader StatusOK | None => WriteHeader StatusNoContent end.
(* go: platform/shell/handler.go handler.take *)
Definition handle_take (nodeID : string) : M S (Reply body) :=
  let! r := take_ nodeID in
  match r with None => WriteHeader StatusNoContent | Some held => Write StatusOK (BSession (toResponse held)) end.
(* go: platform/shell/handler.go handler.nodeOutput *)
Definition handle_nodeOutput (nodeID id : string) : M S (Reply body) :=
  let! held := heldBy id nodeID in
  let! open := find_ (s_ID held) in
  if negb open then closedAlready
  else
    let! err := Copy (s_ID held) in
    let reason := match err with None => "the shell ended" | Some err => "the shell ended: " +:+ error_text err end in
    attempt (close_ (s_ID held) reason) ;;;
    WriteHeader StatusNoContent.
(* go: platform/shell/handler.go handler.nodeInput *)
Definition handle_nodeInput (nodeID id : string) : M S (Reply body) :=
  let! held := heldBy id nodeID in
  let! open := find_ (s_ID held) in
  if negb open then closedAlready
  else
    stream (s_ID held) ;;;
    attempt (close_ (s_ID held) "the node stopped reading") ;;;
    WriteHeader StatusOK.
(* go: platform/shell/module.go Module.Sweep *)
Definition Sweep : M S unit := attempt sweep ;;; ret tt.
(** The process starts again: the relay begins empty (newRelay). *)
(* go: platform/shell/pipes.go newRelay *)
Definition Restarted : M S unit := locked (fun db : ShellDB => (tt, MkShellDB (sh_rows db) ∅)).

Inductive request :=
| ReqStart (sc : Scope) (ref : string) (req : outcome startRequest)
| ReqGet (sc : Scope) (id : string)
| ReqList (sc : Scope)
| ReqClose (sc : Scope) (id : string)
| ReqClientOutput (sc : Scope) (id : string)
| ReqClientInput (sc : Scope) (id : string)
| ReqTake (nodeID : string)
| ReqNodeOutput (nodeID id : string)
| ReqNodeInput (nodeID id : string)
| Released (instanceID : string)
| Ticked
| Restart.
(* go: platform/shell/module.go Module.Routes *)
Definition serve (r : request) : M S (Reply body) :=
  match r with
  | ReqStart sc ref req => handle_start sc ref req
  | ReqGet sc id => handle_get sc id
  | ReqList sc => handle_list sc
  | ReqClose sc id => handle_close sc id
  | ReqClientOutput sc id => handle_clientOutput sc id
  | ReqClientInput sc id => handle_clientInput sc id
  | ReqTake nodeID => handle_take nodeID
  | ReqNodeOutput nodeID id => handle_nodeOutput nodeID id
  | ReqNodeInput nodeID id => handle_nodeInput nodeID id
  | Released instanceID => ReleaseInstance instanceID ;;; WriteHeader StatusNoContent
  | Ticked => Sweep ;;; WriteHeader StatusNoContent
  | Restart => Restarted ;;; WriteHeader StatusNoContent
  end.
End handlers.

(** * The state machine the module promises *)

Definition live_in (p : string) (rows : list Session) : Z := len (List.filter (fun s => in_project p s && live s) rows).
Inductive actor := Tenant (p : string) | Node (n : string) | Platform.
(** Who may end a session: its project, its node, and the platform one that nobody has taken. *)
Definition may_end (a : actor) (s : Session) : Prop :=
  match a with Tenant p => s_ProjectID s = p | Node n => s_NodeID s = n | Platform => s_State s <> StateAttached end.
Record session_ok (s : Session) : Prop := {
  so_place : s_NodeID s <> "" /\ s_Isolation s = "container";
  so_command : s_Command s <> [];
  so_state : s_State s ∈ [StateWaiting; StateAttached; StateClosed];
}.
Inductive change : actor -> ShellDB -> ShellDB -> Prop :=
| C_start p s db : s_ProjectID s = p -> s_State s = StateWaiting -> session_ok s -> existsb (has_id (s_ID s)) (sh_rows db) = false ->
    live_in p (sh_rows db) < MaxWaitingPerProject -> change (Tenant p) db (MkShellDB (sh_rows db ++ [s]) (sh_held db))
| C_open p s db : s ∈ sh_rows db -> s_ProjectID s = p -> s_State s = StateWaiting ->
    change (Tenant p) db (MkShellDB (sh_rows db) ({[s_ID s]} ∪ sh_held db))
| C_take n s at_ db : s ∈ sh_rows db -> s_NodeID s = n -> s_State s = StateWaiting ->
    change (Node n) db (MkShellDB (map (fun x => if has_id (s_ID s) x && in_state StateWaiting x then with_taken at_ x else x) (sh_rows db)) (sh_held db))
| C_shut a s db : s ∈ sh_rows db -> may_end a s -> change a db (MkShellDB (sh_rows db) (sh_held db ∖ {[s_ID s]}))
| C_close a s message at_ db : s ∈ sh_rows db -> may_end a s -> s_ID s ∉ sh_held db ->
    change a db (MkShellDB (map (fun x => if has_id (s_ID s) x && live x then with_closed message at_ x else x) (sh_rows db)) (sh_held db))
| C_released instance db : change Platform db (MkShellDB (List.filter (fun s => negb (of_instance instance s)) (sh_rows db)) (sh_held db))
| C_restart db : change Platform db (MkShellDB (sh_rows db) ∅).
Definition history (a : actor) : ShellDB -> ShellDB -> Prop := rtc (change a).
#[export] Instance history_preorder a : PreOrder (history a).
Proof. unfold history. typeclasses eauto. Qed.
Record shell_inv (db : ShellDB) : Prop := {
  si_id : unique_by (fun s => Some (s_ID s)) (sh_rows db);
  si_row : Forall session_ok (sh_rows db);
  si_live : forall p, live_in p (sh_rows db) <= MaxWaitingPerProject;
  si_closed : forall s, s ∈ sh_rows db -> s_State s = StateClosed -> s_ID s ∉ sh_held db;
}.
(** Rows updated in place, the pipes as they are: a row that is closed now was, or has no pipes. *)
Lemma updated_shell_inv (f : Session -> Session) db : shell_inv db ->
  (forall s, s_ID (f s) = s_ID s /\ s_ProjectID (f s) = s_ProjectID s /\ (live (f s) = true -> live s = true)) ->
  (forall s, session_ok s -> session_ok (f s)) ->
  (forall s, s ∈ sh_rows db -> s_State (f s) = StateClosed -> s_State s = StateClosed \/ s_ID s ∉ sh_held db) ->
  shell_inv (MkShellDB (map f (sh_rows db)) (sh_held db)).
Proof.
  intros [H1 H2 H3 H4] Hf Hok Hc. constructor; cbn [sh_rows sh_held].
  - unfold unique_by in *. rewrite omap_total in *. rewrite map_map. by rewrite (map_ext (fun s => s_ID (f s)) s_ID) by (intros s; apply Hf).
  - apply Forall_fmap. eapply Forall_impl; [exact H2|exact Hok].
  - intros p. etransitivity; [|apply (H3 p)]. unfold live_in. apply filter_map_le. intros s _ E. destruct (Hf s) as (_ & Ep & Hw).
    apply andb_true_iff in E as [E1 E2]. unfold in_project in *. rewrite Ep in E1. by rewrite E1, (Hw E2).
  - intros s (x & -> & Hx)%list_elem_of_fmap Hs. destruct (Hf x) as (-> & _). destruct (Hc x Hx Hs) as [E|E]; [by apply H4|done].
Qed.
Lemma shell_change_inv a db db' : change a db db' -> shell_inv db -> shell_inv db'.
Proof.
  intros [p s d Hp Hs Hok Hc Hw|p s d Hin Hp Hs|n s at_ d _ _ _|a' s d _ _|a' s m at_ d Hin _ Hnh|i d|d] Hi.
  - destruct Hi as [H1 H2 H3 H4]. rewrite existsb_false, Forall_forall in Hc. constructor; cbn [sh_rows sh_held].
    + apply unique_by_app; [done|]. intros x q Hx [= <-] [= E]. specialize (Hc x Hx). unfold has_id in Hc. by rewrite E, String.eqb_refl in Hc.
    + apply Forall_app. split; [done|]. by constructor.
    + intros q. unfold live_in in *. rewrite List.filter_app, length_app. cbn [List.filter]. destruct (in_project q s && _) eqn:E.
      * apply andb_true_iff in E as [E%String.eqb_eq _]. rewrite <- Hp, E in Hw. simpl. lia.
      * specialize (H3 q). simpl. lia.
    + intros x [Hx|Hx%list_elem_of_singleton]%elem_of_app Ex; [by apply H4|]. subst x. rewrite Hs in Ex. discriminate Ex.
  - destruct Hi as [H1 H2 H3 H4]. constructor; cbn [sh_rows sh_held]; [done..|]. intros x Hx Ex [E%elem_of_singleton|E]%elem_of_union; [|by apply (H4 x)].
    pose proof (unique_by_eq (fun s => Some (s_ID s)) _ x s (s_ID s) H1 Hx Hin (f_equal Some E) eq_refl) as ->. rewrite Hs in Ex. discriminate Ex.
  - apply updated_shell_inv; [done| | |].
    + intros x. destruct (has_id _ x && in_state StateWaiting x) eqn:E; [|by split_and!]. split_and!; [done|done|].
      apply andb_true_iff in E as [_ E%String.eqb_eq]. unfold live, in_state. rewrite E. done.
    + intros x [A B C]. destruct (_ && _); [|done]. constructor; [done|done|set_solver].
    + intros x Hx Ex. destruct (_ && _); [discriminate Ex|by left].
  - destruct Hi as [H1 H2 H3 H4]. constructor; cbn [sh_rows sh_held]; [done..|]. intros x Hx Ex. specialize (H4 x Hx Ex). set_solver.
  - apply updated_shell_inv; [done| | |].
    + intros x. destruct (has_id _ x && _) eqn:E; [|by split_and!]. split_and!; [done|done|discriminate].
    + intros x [A B C]. destruct (_ && _); [|done]. constructor; [done|done|set_solver].
    + intros x Hx Ex. destruct (has_id (s_ID s) x && live x) eqn:E; [right|by left]. apply andb_true_iff in E as [E%String.eqb_eq _]. by rewrite E.
  - destruct Hi as [H1 H2 H3 H4]. constructor; cbn [sh_rows sh_held].
    + by apply unique_by_filter.
    + by apply Forall_filter_bool.
    + intros q. etransitivity; [|apply (H3 q)]. apply filter_filter_le.
    + intros x [Hx _]%elem_of_filter_bool. by apply H4.
  - destruct Hi as [H1 H2 H3 H4]. constructor; cbn [sh_rows sh_held]; [done..|set_solver].
Qed.
Lemma shell_history_inv a db db' : history a db db' -> shell_inv db -> shell_inv db'.
Proof. intros H. induction H as [|x y z Hc _ IH]; [done|]. intros Hi. apply IH. by eapply shell_change_inv. Qed.

(** ** The operations *)

Section operations.
Context {S : Type} `{!Has ShellDB S} (instances : option (Instances S)) (stream : string -> M S unit) (Copy : string -> M S (option error)).
Context (Hi : forall i ref p, instances = Some i -> leaves ShellDB (TargetFor i ref p)).
Context (Hs : forall id, leaves ShellDB (stream id)) (Hc : forall id, leaves ShellDB (Copy id)).

Definition actor_of (r : request) : actor :=
  match r with
  | ReqStart sc _ _ | ReqGet sc _ | ReqList sc | ReqClose sc _ | ReqClientOutput sc _ | ReqClientInput sc _ => Tenant (sc_ProjectID sc)
  | ReqTake n | ReqNodeOutput n _ | ReqNodeInput n _ => Node n
  | Released _ | Ticked | Restart => Platform
  end.
Lemma yields_readIn (db : ShellDB) id p : yields db (readIn (S:=S) id p) (fun s => s ∈ sh_rows db /\ s_ProjectID s = p).
Proof.
  unfold readIn. eapply yields_bind with (P := fun r => match r with Ok s => s ∈ sh_rows db | Err _ => True end).
  - apply yields_attempt. eapply yields_mono; [apply yields_query|]. intros s H. by apply select_one_ok in H as [? _].
  - intros [s|e] Hin; [|by eapply yields_mono; [apply yields_fail|]]. destruct (String.eqb_spec (s_ProjectID s) p); [|by eapply yields_mono; [apply yields_fail|]].
    eapply yields_mono; [apply yields_ret|]. by intros ? ->.
Qed.
Lemma shell_yields_heldBy (db : ShellDB) id n : yields db (heldBy (S:=S) id n) (fun s => s ∈ sh_rows db /\ s_NodeID s = n).
Proof.
  unfold heldBy. eapply yields_bind with (P := fun r => match r with Ok s => s ∈ sh_rows db | Err _ => True end).
  - apply yields_attempt. eapply yields_mono; [apply yields_query|]. intros s H. by apply select_one_ok in H as [? _].
  - intros [s|e] Hin; [|by eapply yields_mono; [apply yields_fail|]]. destruct (String.eqb_spec (s_NodeID s) n); [|by eapply yields_mono; [apply yields_fail|]].
    eapply yields_mono; [apply yields_ret|]. by intros ? ->.
Qed.
(** A close, alone: a session that was not attached still is not. *)
Definition closing (a : actor) (db db' : ShellDB) : Prop :=
  history a db db' /\ forall x, x ∈ sh_rows db -> s_State x <> StateAttached -> exists y, y ∈ sh_rows db' /\ s_ID y = s_ID x /\ s_State y <> StateAttached.
Instance closing_preorder a : PreOrder (closing a).
Proof.
  split; [intros db; split; [done|eauto]|]. intros x y z [H1 H2] [H3 H4]. split; [by transitivity y|]. intros s Hin Hn.
  destruct (H2 s Hin Hn) as (t & Ht & <- & Hn'). by apply H4.
Qed.
Lemma close_closing a (db : ShellDB) s message : s ∈ sh_rows db -> may_end a s -> moves (closing a) db (close_ (S:=S) (s_ID s) message).
Proof.
  intros Hin Ha env w Hw. unfold close_, shut. apply wp_bind, wp_locked. cbn [fst snd]. rewrite Hw. intros w' Hw' _.
  apply wp_bind. rewrite wp_now. unfold close_row, rows_sql.
  apply wp_write; intros w2 Hw2; cbn [fst snd] in Hw2; change (part (T:=ShellDB) (tick w')) with (part (T:=ShellDB) w') in *;
    rewrite Hw' in Hw2; cbn [sh_rows sh_held] in Hw2; rewrite Hw2.
  - split; [by apply rtc_once, C_shut|eauto].
  - split.
    + eapply rtc_l; [by apply (C_shut a s)|]. apply rtc_once.
      pose proof (C_close a s message (env_now env (w_step w')) (MkShellDB (sh_rows db) (sh_held db ∖ {[s_ID s]})) Hin Ha) as H. cbn [sh_rows sh_held] in H.
      apply H. set_solver.
    + intros x Hx Hn. cbn [sh_rows]. eexists. split; [apply list_elem_of_fmap; by exists x|]. by destruct (_ && _).
Qed.
Lemma close_moves a (db : ShellDB) s message : s ∈ sh_rows db -> may_end a s -> moves (history a) db (close_ (S:=S) (s_ID s) message).
Proof. intros. eapply moves_mono; [|by apply close_closing]. by intros x []. Qed.
(** The end of a stream. *)
Lemma ended_moves a (db : ShellDB) s message (k : M S (Reply body)) : s ∈ sh_rows db -> may_end a s -> (forall db', moves (history a) db' k) ->
  moves (history a) db (attempt (close_ (S:=S) (s_ID s) message) ;;; k).
Proof.
  intros Hin Ha Hk. apply moves_then; [typeclasses eauto|by apply moves_attempt, close_moves|]. intros. apply Hk.
Qed.
Lemma shell_start_moves (db : ShellDB) sc ref q : moves (history (Tenant (sc_ProjectID sc))) db
  (start (S:=S) instances (MkStartParams (sc_ProjectID sc) ref (sr_Command q))).
Proof.
  unfold start. destruct instances as [i|] eqn:Ei; [|m_step]. cbn [sp_Command sp_InstanceRef sp_ProjectID].
  eapply moves_bind; [typeclasses eauto|apply yields_leaves; by apply Hi|]. intros target _.
  m_step. intros _ Hiso%guard_false. m_step. intros _ Hnode%guard_false. m_step. intros _ Hobs%guard_false.
  eapply moves_bind; [typeclasses eauto|apply yields_query|]. intros n [= <-]. m_step. intros _ Hlive%guard_false. apply Z.leb_gt in Hlive.
  eapply moves_bind; [typeclasses eauto|apply yields_leaves; unfold ids_New; auto with leaves|]. intros id _. m_step. intros at_ _.
  set (held := MkSession _ _ _ _ _ _ _ _ _ _ _). intros env w Hw. apply wp_bind. unfold insert, rows_sql. apply wp_write; intros w' Hw'; [by rewrite Hw', Hw|].
  rewrite Hw in *. unfold insert_row in *. destruct (existsb _ _) eqn:Ec; cbn [fst snd] in *; [by rewrite Hw'; destruct db|].
  unfold open_. apply wp_bind, wp_locked. cbn [fst snd]. rewrite Hw'. cbn [sh_rows sh_held]. intros w2 Hw2 _. rewrite wp_ret, Hw2.
  eapply rtc_l; [apply (C_start _ held); [done|done| |done|done]|].
  - constructor; cbn; [split; [by apply is_empty_false|by apply negb_false_iff, String.eqb_eq in Hiso]|by destruct (sr_Command q)|set_solver].
  - apply rtc_once. apply (C_open _ held (MkShellDB (sh_rows db ++ [held]) (sh_held db))); [cbn [sh_rows]; set_solver|done|done].
Qed.

Lemma shell_yields_find (db : ShellDB) id : yields db (find_ (S:=S) id) (fun b => b = bool_decide (id ∈ sh_held db)).
Proof. intros env w _ Hw. unfold find_. apply wp_locked. cbn [fst snd]. rewrite Hw. by intros w' -> _. Qed.
Lemma shell_sweep_moves (db : ShellDB) : moves (history Platform) db (sweep (S:=S)).
Proof.
  unfold sweep. m_step. intros at_ _. eapply moves_bind; [typeclasses eauto|apply yields_query|]. intros held [= <-].
  apply moves_then; [typeclasses eauto| |intros; m_step]. apply (moves_mono (closing Platform)); [by intros x [Hx _]|].
  apply (moves_foldM (closing Platform)). intros x [] db' Hin [_ Hk]. apply elem_of_filter_bool in Hin as [Hx [Hw _]%andb_true_iff].
  apply moves_then; [typeclasses eauto| |intros; m_step]. apply moves_attempt.
  apply String.eqb_eq in Hw. destruct (Hk x Hx) as (y & Hy & <- & Hn); [by rewrite Hw|]. by apply close_closing.
Qed.
Lemma shell_take_moves (db : ShellDB) n : moves (history (Node n)) db (take_ (S:=S) n).
Proof.
  unfold take_. eapply moves_bind; [typeclasses eauto|apply yields_attempt; unfold nextWaitingOn, rows_q; apply yields_query|].
  intros [x|e] Hx; [|destruct (errors_Is _ _); m_step]. m_step. intros at_ _. apply moves_then; [typeclasses eauto| |intros; m_step].
  apply moves_sql; [typeclasses eauto|]. cbn [snd].
  assert (Hin : x ∈ sliceStable oldest_first (List.filter (fun r => on_node n r && in_state StateWaiting r) (sh_rows db))).
  { destruct (sliceStable _ _) as [|y l]; [done|]. injection Hx as ->. by left. }
  rewrite sliceStable_perm in Hin. apply elem_of_filter_bool in Hin as [Hin [Hn%String.eqb_eq Hw%String.eqb_eq]%andb_true_iff].
  apply rtc_once. by apply C_take.
Qed.
Lemma shell_serve_moves (db : ShellDB) r : moves (history (actor_of r)) db (serve (S:=S) instances stream Copy r).
Proof.
  destruct r as [sc ref req|sc id|sc|sc id|sc id|sc id|n|n id|n id|inst| |]; cbn [serve actor_of];
    unfold handle_start, handle_get, handle_list, handle_close, handle_clientOutput, handle_clientInput, handle_take, handle_nodeOutput, handle_nodeInput,
      ReleaseInstance, Sweep, closedAlready, Write, WriteHeader.
  - m_step. intros q _. apply moves_then; [typeclasses eauto|apply shell_start_moves|intros; m_step].
  - eapply moves_bind; [typeclasses eauto|apply yields_readIn|intros; m_step].
  - eapply moves_bind; [typeclasses eauto|apply yields_query|intros; m_step].
  - eapply moves_bind; [typeclasses eauto|apply yields_readIn|]. intros s [Hin Hp]. apply moves_then; [typeclasses eauto|by apply close_moves|intros; m_step].
  - eapply moves_bind; [typeclasses eauto|apply yields_readIn|]. intros s [Hin Hp].
    eapply moves_bind; [typeclasses eauto|apply shell_yields_find|]. intros [] _; cbn [negb]; [|m_step].
    eapply moves_bind; [typeclasses eauto|by apply yields_leaves|]. intros _ _. apply ended_moves; [done..|]. intros. m_step.
  - eapply moves_bind; [typeclasses eauto|apply yields_readIn|]. intros s [Hin Hp].
    eapply moves_bind; [typeclasses eauto|apply shell_yields_find|]. intros [] _; cbn [negb]; [|m_step].
    eapply moves_bind; [typeclasses eauto|by apply yields_leaves|]. intros [] _; m_step.
  - apply moves_then; [typeclasses eauto|apply shell_take_moves|intros ? [] ?; m_step].
  - eapply moves_bind; [typeclasses eauto|apply shell_yields_heldBy|]. intros s [Hin Hp].
    eapply moves_bind; [typeclasses eauto|apply shell_yields_find|]. intros [] _; cbn [negb]; [|m_step].
    eapply moves_bind; [typeclasses eauto|by apply yields_leaves|]. intros e _. apply ended_moves; [done..|]. intros. m_step.
  - eapply moves_bind; [typeclasses eauto|apply shell_yields_heldBy|]. intros s [Hin Hp].
    eapply moves_bind; [typeclasses eauto|apply shell_yields_find|]. intros [] _; cbn [negb]; [|m_step].
    eapply moves_bind; [typeclasses eauto|by apply yields_leaves|]. intros _ _. apply ended_moves; [done..|]. intros. m_step.
  - apply moves_then; [typeclasses eauto| |intros; m_step]. apply moves_sql; [typeclasses eauto|]. apply rtc_once, C_released.
  - apply moves_then; [typeclasses eauto| |intros; m_step]. apply moves_then; [typeclasses eauto| |intros; m_step]. apply moves_attempt, shell_sweep_moves.
  - apply moves_then; [typeclasses eauto| |intros; m_step]. intros env w Hw. unfold Restarted. apply wp_locked. cbn [fst snd]. intros w' -> _. rewrite Hw.
    apply rtc_once, C_restart.
Qed.
End operations.

(** * Properties *)

(** [shells_lawful]: whatever a tenant, a node or the platform asks of the shells, they only make the moves
    they may: a project opens sessions, four at most, and ends its own; a node takes what waits for it and
    ends what it holds; and a session that is closed has no pipes any more. *)
Theorem shells_lawful {S} `{!Has ShellDB S} (instances : option (Instances S)) (stream : string -> M S unit) (Copy : string -> M S (option error)) env r (w : World S) :
  (forall i ref p, instances = Some i -> leaves ShellDB (TargetFor i ref p)) -> (forall id, leaves ShellDB (stream id)) ->
  (forall id, leaves ShellDB (Copy id)) -> shell_inv (part w) ->
  wp env (serve instances stream Copy r) (fun _ w' => history (actor_of r) (part w) (part w') /\ shell_inv (part w')) w.
Proof.
  intros Hi Hs Hc Hv. eapply wp_mono; [|exact (shell_serve_moves instances stream Copy Hi Hs Hc (part w) r env w eq_refl)]. intros o w' H.
  split; [done|exact (shell_history_inv _ _ _ H Hv)].
Qed.

(** * Concrete runs *)

Module Demo.
Definition env : Env := {| env_now n := Z.of_nat n * minute; env_rand n := [Z.of_nat n]; env_io _ := false |}.
Definition instances : option (Instances ShellDB) :=
  Some {| TargetFor ref p := if String.eqb ref "web" then ret (MkTarget "i-1" "nd-1" "container" "running") else fail (NotFound "instance_not_found" "no such instance") |}.
Definition stream (id : string) : M ShellDB unit := ret tt.
Definition Copy (id : string) : M ShellDB (option error) := ret None.
Lemma shell_instances_leave i ref p : instances = Some i -> leaves ShellDB (TargetFor i ref p).
Proof. intros [= <-]. cbn [TargetFor]. auto with leaves. Qed.
Lemma streams_leave id : leaves ShellDB (stream id) /\ leaves ShellDB (Copy id).
Proof. unfold stream, Copy. split; auto with leaves. Qed.
Definition session (id state : string) : Session :=
  MkSession id "prj-1" "i-1" "nd-1" "container" ["/bin/sh"] state "" 0 zero_time zero_time.
Definition w0 : World ShellDB := MkWorld (MkShellDB [session "sh-1" StateAttached; session "sh-2" StateWaiting] {["sh-1"; "sh-2"]}) O [].
Lemma shell_inv_w0 : shell_inv (part w0).
Proof.
  constructor; [apply (bool_decide_unpack _); vm_compute; exact I| | |].
  - repeat (apply Forall_cons; split; [constructor; [split; [discriminate|reflexivity]|discriminate|set_solver]|]). constructor.
  - intros p. unfold live_in. etransitivity; [apply inj_le, filter_bool_length_le|]. cbn. unfold MaxWaitingPerProject. lia.
  - change (sh_rows (part w0)) with [session "sh-1" StateAttached; session "sh-2" StateWaiting]. intros s H. repeat (apply elem_of_cons in H as [->|H]; [discriminate|]). by apply not_elem_of_nil in H.
Qed.
Definition tenant : Scope := MkScope "prj-1" "tok-1" "ci" "" "member".
Definition open_one : request := ReqStart tenant "web" (Ok (MkStartRequest [])).
Fixpoint run (rs : list request) (w : World ShellDB) : World ShellDB :=
  match rs with [] => w | r :: rs => run rs (snd (serve instances stream Copy r env w)) end.
Definition code (r : request) (w : World ShellDB) : string :=
  match fst (serve instances stream Copy r env w) with Err e => code_of e | Ok _ => "" end.
End Demo.
Lemma shells_lawful_witness : map s_State (sh_rows (part (T:=ShellDB) (snd (serve Demo.instances Demo.stream Demo.Copy (ReqTake "nd-1") Demo.env Demo.w0)))) = [StateAttached; StateAttached] /\
  shell_inv (part (snd (serve Demo.instances Demo.stream Demo.Copy (ReqTake "nd-1") Demo.env Demo.w0))).
Proof.
  split; [vm_compute; reflexivity|].
  pose proof (shells_lawful Demo.instances Demo.stream Demo.Copy Demo.env (ReqTake "nd-1") Demo.w0 Demo.shell_instances_leave
    (fun id => proj1 (Demo.streams_leave id)) (fun id => proj2 (Demo.streams_leave id)) Demo.shell_inv_w0) as H.
  unfold wp in H. destruct (serve _ _ _ _ _ _) as [r w']. exact (proj2 H).
Defined.

(** Deleting an instance removes the rows of its sessions and not their pipes, which nothing can reach
    any more: the relay holds them as long as the process lives. *)
Lemma released_pipes_leak : let w := Demo.run [Demo.open_one; Released "i-1"; Ticked] (MkWorld (MkShellDB [] ∅) O []) in
  sh_rows (part w) = [] /\ size (sh_held (part (T:=ShellDB) w)) = 1%nat.
Proof. vm_compute. split; reflexivity. Qed.
(** Sessions that were attached when the process stopped have no pipes and are never swept: they hold the
    places of their project, however often the sweep runs. *)
Lemma restart_blocks_project : let w := Demo.run
    ([Demo.open_one; Demo.open_one; Demo.open_one; Demo.open_one; ReqTake "nd-1"; ReqTake "nd-1"; ReqTake "nd-1"; ReqTake "nd-1"; Restart] ++ replicate 20 Ticked)
    (MkWorld (MkShellDB [] ∅) O []) in
  sh_held (part (T:=ShellDB) w) = ∅ /\ map s_State (sh_rows (part w)) = replicate 4 StateAttached /\ Demo.code Demo.open_one w = "too_many_sessions".
Proof. vm_compute. split_and!; reflexivity. Qed.
