(* ===== verification/Image.v ===== *)
(** Images (internal/platform/image): what instances boot from, by name in a project, and which node
    has which of them on disk.

    The parser of [net/url] is the interface [Webhook.URLs]. *)
From stdpp Require Import base tactics numbers strings list gmap sorting.
From Stdlib Require Import ZArith Lia.
From Stdlib Require Ascii.
From S2P Require Import Prelude GoLang Time Effects Regex Kernel Httpx Tables.
From S2P Require Webhook.

(** * Data (types.go) *)

Definition KindDisk : string := "disk".
Definition KindISO : string := "iso".
Definition KindKernel : string := "kernel".
Definition ArchARM64 : string := "arm64".
Definition ArchAMD64 : string := "amd64".
(* go: platform/image/types.go Image *)
Record Image := MkImage {
  im_ID : string; im_ProjectID : string; im_Name : string; im_Kind : string; im_Arch : string; im_Source : string; im_Checksum : string;
  im_SizeBytes : Z; im_CreatedAt : Z;
}.
(* go: platform/image/types.go Staged *)
Record Staged := MkStaged { st_ImageID : string; st_SizeBytes : Z }.
(* go: platform/image/types.go Placement *)
Record Placement := MkPlacement { pl_Image : Image; pl_Nodes : list string }.
(* go: platform/image/types.go CreateParams *)
Record CreateParams := MkCreateParams {
  cp_ProjectID : string; cp_Name : string; cp_Kind : string; cp_Arch : string; cp_Source : string; cp_Checksum : string;
}.
(* go: platform/image/types.go Kinds *)
Definition Kinds : list string := [KindDisk; KindISO; KindKernel].
(* go: platform/image/types.go Arches *)
Definition Arches : list string := [ArchARM64; ArchAMD64].

(** A row of [node_images]. *)
Record NodeImage := MkNodeImage { ni_NodeID : string; ni_ImageID : string; ni_SizeBytes : Z; ni_ReportedAt : Z }.
(* go: platform/image/module.go Module.Migrations *)
Record ImageDB := MkImageDB { id_images : list Image; id_staged : list NodeImage }.

(** * Repository (repository.go)

    UNIQUE (id) and (project_id, name); PRIMARY KEY (node_id, image_id). *)

Definition errNotFound : error := ESentinel "image not found".
Definition errNameTaken : error := ESentinel "image name already exists".
Definition has_id (id : string) (i : Image) : bool := String.eqb (im_ID i) id.
Definition in_project (p : string) (i : Image) : bool := String.eqb (im_ProjectID i) p.
Definition named (p name : string) (i : Image) : bool := in_project p i && String.eqb (im_Name i) name.
Definition clash (n i : Image) : bool := has_id (im_ID n) i || named (im_ProjectID n) (im_Name n) i.
Definition by_name : Image -> Image -> bool := by_key im_Name str_ltb (fun _ _ => false).
Definition by_node : NodeImage -> NodeImage -> bool := by_key ni_NodeID str_ltb (fun _ _ => false).
Definition on_node (nodeID : string) (r : NodeImage) : bool := String.eqb (ni_NodeID r) nodeID.
Definition of_image (imageID : string) (r : NodeImage) : bool := String.eqb (ni_ImageID r) imageID.

Definition insert_staged (nodeID : string) (at_ : Z) (file : Staged) (rows : list NodeImage) : outcome (list NodeImage) :=
  if existsb (fun r => on_node nodeID r && of_image (st_ImageID file) r) rows
  then Err (EWrap "record a node image" (EText "UNIQUE constraint failed"))
  else Ok (rows ++ [MkNodeImage nodeID (st_ImageID file) (st_SizeBytes file) at_]).
Fixpoint insert_all (nodeID : string) (at_ : Z) (staged : list Staged) (rows : list NodeImage) : outcome (list NodeImage) :=
  match staged with
  | [] => Ok rows
  | file :: staged => try rows := insert_staged nodeID at_ file rows in insert_all nodeID at_ staged rows
  end.

Section repository.
Context {S : Type} `{!Has ImageDB S}.
Definition images_sql {A} (what : string) (q : list Image -> outcome A * list Image) : M S A :=
  sql what (fun db => let '(r, rows) := q (id_images db) in (r, MkImageDB rows (id_staged db))).
Definition images_q {A} (what : string) (q : list Image -> outcome A) : M S A := query what (fun db => q (id_images db)).

(* go: platform/image/repository.go repository.insert *)
Definition insert (i : Image) : M S unit := images_sql "insert image" (insert_row (clash i) errNameTaken i).
(* go: platform/image/repository.go repository.byID *)
Definition byID (id : string) : M S Image := images_q "scan image" (select_one (has_id id) errNotFound).
(* go: platform/image/repository.go repository.listIn *)
Definition listIn_rows (projectID : string) : M S (list Image) :=
  images_q "list images in project" (fun rows => Ok (sliceStable by_name (List.filter (in_project projectID) rows))).
(* go: platform/image/repository.go repository.byName *)
Definition byName (projectID name : string) : M S Image := images_q "scan image" (select_one (named projectID name) errNotFound).
(* go: platform/image/repository.go repository.list *)
Definition list_rows : M S (list Image) := images_q "list images" (fun rows => Ok (sliceStable by_name rows)).
(** One transaction: it is committed whole or rolled back. *)
(* go: platform/image/repository.go repository.replaceNodeImages *)
Definition replaceNodeImages (nodeID : string) (staged : list Staged) (at_ : Z) : M S unit :=
  sql "replace the node images" (fun db =>
    match insert_all nodeID at_ staged (List.filter (fun r => negb (on_node nodeID r)) (id_staged db)) with
    | Err err => (Err err, db) | Ok rows => (Ok tt, MkImageDB (id_images db) rows) end).
(** The two maps of [nodesByImage]: one row after the other. *)
Definition note (maps : gmap string (list string) * gmap string Z) (r : NodeImage) : gmap string (list string) * gmap string Z :=
  let '(byImage, sizes) := maps in
  (<[ni_ImageID r := default [] (byImage !! ni_ImageID r) ++ [ni_NodeID r]]> byImage,
   if default 0 (sizes !! ni_ImageID r) <? ni_SizeBytes r then <[ni_ImageID r := ni_SizeBytes r]> sizes else sizes).
(* go: platform/image/repository.go repository.nodesByImage *)
Definition nodesByImage : M S (gmap string (list string) * gmap string Z) :=
  query "list node images" (fun db => Ok (fold_left note (sliceStable by_node (id_staged db)) (∅, ∅))).
(** [COALESCE(MAX(size_bytes), 0)] *)
Definition max_size (rows : list NodeImage) : Z :=
  match rows with [] => 0 | r :: rows => fold_left (fun m r => Z.max m (ni_SizeBytes r)) rows (ni_SizeBytes r) end.
(* go: platform/image/repository.go repository.sizeOf *)
Definition sizeOf (imageID : string) : M S Z :=
  query "read the image size" (fun db => Ok (max_size (List.filter (of_image imageID) (id_staged db)))).
(* go: platform/image/repository.go repository.delete *)
Definition delete_row (id : string) : M S unit := images_sql "delete image" (delete_where (has_id id) errNotFound).
End repository.

(** * Service (service.go) *)

Fixpoint RTimes (n : nat) (r : regex) : regex := match n with O => REps | S n => RSeq r (RTimes n r) end.
Definition is_hex (c : Ascii.ascii) : bool := is_digit c || in_range 97 102 c.
Definition text_regex (s : string) : regex := fold_right (fun c r => RSeq (RCls (fun d => code d =? code c)) r) REps (bytes_of s).
(* go: platform/image/service.go checksumPattern *)
Definition checksumPattern : regex :=
  RAlt (RSeq (text_regex "sha256:") (RTimes 64 (RCls is_hex))) (RSeq (text_regex "sha512:") (RTimes 128 (RCls is_hex))).
Definition name_byte (c : Ascii.ascii) : bool := alnum c || is_dot c || is_hyphen c.
(* go: platform/image/service.go namePattern *)
Definition namePattern : regex := RSeq (RCls alnum) (ROpt (RSeq (RUpto 61 (RCls name_byte)) (RCls alnum))).

(* go: platform/image/service.go checkName *)
Definition checkName (name : string) : outcome unit :=
  try _ := guard (negb (re_match namePattern name)) (Invalid "invalid_name"
    "name must be 1-63 characters of lowercase letters, digits, dots or hyphens, starting and ending with a letter or digit") in
  guard (str_contains name "..") (Invalid "invalid_name" "name must not contain .. because a node turns it into a file name").
(* go: platform/image/service.go checkSource *)
Definition checkSource `{!Webhook.URLs} (raw : string) : outcome string :=
  let raw := trim_space raw in
  try _ := guard (is_empty raw) (Invalid "invalid_source" "source must not be empty") in
  try parsed := or_fault (fun _ => Invalid "invalid_source" "source is not a valid URL") (Webhook.url_Parse raw) in
  try _ := guard (negb (String.eqb (Webhook.u_Scheme parsed) "https") && negb (String.eqb (Webhook.u_Scheme parsed) "http"))
    (Invalid "invalid_source" "source must be an http or https URL a node can download from") in
  try _ := guard (is_empty (Webhook.u_Host parsed)) (Invalid "invalid_source" "source has no host") in
  Ok (Webhook.u_String parsed).
(* go: platform/image/service.go translate *)
Definition translate (err : error) : error :=
  if errors_Is err "image not found" then NotFound "image_not_found" "no image with that name or id exists"
  else if errors_Is err "image name already exists" then Conflict "image_name_taken" "an image with that name already exists"
  else err.

(** What [report] keeps: the first mention of each image. *)
Fixpoint first_mentions (known : gset string) (staged : list Staged) : list Staged :=
  match staged with
  | [] => []
  | file :: staged =>
      if is_empty (st_ImageID file) then first_mentions known staged
      else if bool_decide (st_ImageID file ∈ known) then first_mentions known staged
      else file :: first_mentions ({[st_ImageID file]} ∪ known) staged
  end.
Definition with_size (size : Z) (i : Image) : Image :=
  MkImage (im_ID i) (im_ProjectID i) (im_Name i) (im_Kind i) (im_Arch i) (im_Source i) (im_Checksum i) size (im_CreatedAt i).

Section service.
Context {S : Type} `{!Has ImageDB S} {urls : Webhook.URLs}.

(* go: platform/image/service.go service.create *)
Definition create (params : CreateParams) : M S Image :=
  lift (checkName (cp_Name params)) ;;;
  lift (validate_OneOf "kind" (cp_Kind params) Kinds) ;;;
  let arch := if is_empty (cp_Arch params) then ArchARM64 else cp_Arch params in
  lift (validate_OneOf "arch" arch Arches) ;;;
  let! source := lift (checkSource (cp_Source params)) in
  let checksum := to_lower (trim_space (cp_Checksum params)) in
  lift (guard (negb (is_empty checksum) && negb (re_match checksumPattern checksum)) (Invalid "invalid_checksum"
    "the checksum must look like sha256:<64 hex characters> or sha512:<128 hex characters>, matching what the publisher signs")) ;;;
  let! id := ids_New "img" in
  let! at_ := now in
  let held := MkImage id (cp_ProjectID params) (cp_Name params) (cp_Kind params) arch source checksum 0 at_ in
  mapped translate (insert held) ;;;
  ret held.
(* go: platform/image/service.go service.withSize *)
Definition withSize (i : Image) : M S Image :=
  let! size := mapped translate (sizeOf (im_ID i)) in ret (with_size size i).
(* go: platform/image/service.go service.resolveIn *)
Definition resolveIn (nameOrID projectID : string) : M S Image :=
  let! r := attempt (byName projectID nameOrID) in
  match r with
  | Ok i => ret i
  | Err err =>
      if negb (errors_Is err "image not found") then fail (translate err)
      else
        let! i := mapped translate (byID nameOrID) in
        if String.eqb (im_ProjectID i) projectID then ret i else fail (NotFound "image_not_found" "no image with that name or id exists")
  end.
(* go: platform/image/service.go service.placed *)
Definition placed (images : list Image) : M S (list Placement) :=
  let! ' (byImage, sizes) := mapped translate nodesByImage in
  ret (map (fun i => MkPlacement (with_size (default 0 (sizes !! im_ID i)) i) (default [] (byImage !! im_ID i))) images).
(* go: platform/image/service.go service.listIn *)
Definition listIn (projectID : string) : M S (list Placement) := let! images := mapped translate (listIn_rows projectID) in placed images.
(* go: platform/image/service.go service.list *)
Definition listAll : M S (list Placement) := let! images := mapped translate list_rows in placed images.
(* go: platform/image/service.go service.report *)
Definition report (nodeID : string) (staged : list Staged) : M S unit :=
  lift (guard (is_empty nodeID) (Invalid "invalid_node" "the node id must not be empty")) ;;;
  let kept := first_mentions ∅ staged in
  let! at_ := now in
  mapped translate (replaceNodeImages nodeID kept at_).
(* go: platform/image/service.go service.remove *)
Definition remove (id projectID : string) : M S unit :=
  let! i := resolveIn id projectID in
  mapped translate (delete_row (im_ID i)).
End service.

(** * Handlers (handler.go) *)

(* go: platform/image/handler.go createRequest *)
Record createRequest := MkCreateRequest { cr_Name : string; cr_Kind : string; cr_Arch : string; cr_Source : string; cr_Checksum : string }.
(* go: platform/image/handler.go reportedImage *)
Record reportedImage := MkReportedImage { ri_ImageID : string; ri_SizeBytes : Z }.
(* go: platform/image/handler.go response *)
Record response := MkResponse {
  o_ID : string; o_Name : string; o_Kind : string; o_Arch : string; o_Source : string; o_Checksum : string; o_SizeBytes : Z;
  o_Nodes : list string; o_CreatedAt : string;
}.
(* go: platform/image/handler.go toPlacementResponse *)
Definition toPlacementResponse (pl : Placement) : response :=
  let i := pl_Image pl in
  MkResponse (im_ID i) (im_Name i) (im_Kind i) (im_Arch i) (im_Source i) (im_Checksum i) (im_SizeBytes i) (pl_Nodes pl) (rfc3339nano (im_CreatedAt i)).
(* go: platform/image/handler.go toResponse *)
Definition toResponse (i : Image) : response := toPlacementResponse (MkPlacement i []).
Inductive body := BImage (i : response) | BImages (images : list response).

Section handlers.
Context {S : Type} `{!Has ImageDB S} {urls : Webhook.URLs}.
(* go: platform/image/handler.go handler.create *)
Definition handle_create (sc : Scope) (req : outcome createRequest) : M S (Reply body) :=
  let! req := lift req in
  let! i := create (MkCreateParams (sc_ProjectID sc) (cr_Name req) (cr_Kind req) (cr_Arch req) (cr_Source req) (cr_Checksum req)) in
  Write StatusCreated (BImage (toResponse i)).
(* go: platform/image/handler.go handler.listForNode *)
Definition handle_listForNode : M S (Reply body) :=
  let! images := listAll in Write StatusOK (BImages (map toPlacementResponse images)).
(* go: platform/image/handler.go handler.list *)
Definition handle_list (sc : Scope) : M S (Reply body) :=
  let! images := listIn (sc_ProjectID sc) in Write StatusOK (BImages (map toPlacementResponse images)).
(* go: platform/image/handler.go handler.get *)
Definition handle_get (sc : Scope) (id : string) : M S (Reply body) :=
  let! i := resolveIn id (sc_ProjectID sc) in
  let! sized := withSize i in
  Write StatusOK (BImage (toResponse sized)).
(* go: platform/image/handler.go handler.report *)
Definition handle_report (nodeID : string) (req : outcome (list reportedImage)) : M S (Reply body) :=
  let! req := lift req in
  report nodeID (map (fun file => MkStaged (ri_ImageID file) (ri_SizeBytes file)) req) ;;;
  WriteHeader StatusNoContent.
(* go: platform/image/handler.go handler.delete *)
Definition handle_delete (sc : Scope) (id : string) : M S (Reply body) :=
  remove id (sc_ProjectID sc) ;;;
  WriteHeader StatusNoContent.

Inductive request :=
| ReqCreate (sc : Scope) (req : outcome createRequest)
| ReqList (sc : Scope)
| ReqForNode
| ReqGet (sc : Scope) (id : string)
| ReqDelete (sc : Scope) (id : string)
| ReqReport (nodeID : string) (req : outcome (list reportedImage)).
(* go: platform/image/module.go Module.Routes *)
Definition serve (r : request) : M S (Reply body) :=
  match r with
  | ReqCreate sc req => handle_create sc req
  | ReqList sc => handle_list sc
  | ReqForNode => handle_listForNode
  | ReqGet sc id => handle_get sc id
  | ReqDelete sc id => handle_delete sc id
  | ReqReport nodeID req => handle_report nodeID req
  end.
End handlers.

(** * Names *)

Lemma contains_l_spec l p : contains_l l p = true <-> exists a b, l = a ++ p ++ b.
Proof.
  induction l as [|c l IH]; cbn [contains_l].
  - rewrite orb_false_r, has_prefix_l_spec. split.
    + intros (r & ->). by exists [], r.
    + intros (a & b & E). symmetry in E. apply app_eq_nil in E as [-> E]. by exists b.
  - rewrite orb_true_iff, has_prefix_l_spec, IH. split.
    + intros [(r & ->)|(a & b & ->)]; [by exists [], r|by exists (c :: a), b].
    + intros ([|d a] & b & E); [by left; exists b|]. injection E as _ E. right. by exists a, b.
Qed.
Lemma image_name_lang w : lang namePattern w <-> 
  (1 <= length w <= 63)%nat /\ Forall (fun c => name_byte c = true) w /\
  (exists c, head w = Some c /\ alnum c = true) /\ (exists c, last w = Some c /\ alnum c = true).
Proof.
  assert (Ha : forall c, alnum c = true -> name_byte c = true) by (intros c Hc; unfold name_byte; by rewrite Hc).
  unfold namePattern. rewrite lang_label. split.
  - intros (c & [[-> Hc]|(u & d & -> & Hc & Hd & Hl & Hu)]).
    + split_and!; [simpl; lia|simpl; lia|constructor; [auto|constructor]|by exists c|by exists c].
    + rewrite app_comm_cons, last_snoc. split_and!; [simpl; lia|rewrite length_app; simpl; lia| |by exists c|by exists d].
      apply Forall_app. split; [constructor; auto|constructor; auto].
  - intros ([Hl1 Hl2] & Hw & (c & Hh & Hc) & (d & Ht & Hd)). destruct w as [|c' w]; [done|]. injection Hh as ->. exists c.
    destruct w as [|d' u _] using rev_ind; [by left|right]. rewrite app_comm_cons, last_snoc in Ht. injection Ht as ->.
    apply Forall_cons in Hw as [_ Hw]. apply Forall_app in Hw as [Hu _]. exists u, d. simpl in Hl2. rewrite length_app in Hl2. simpl in Hl2. split_and!; try done. lia.
Qed.

(** [image_name_safe]: the names that are accepted are the file names a node can keep: up to 63 letters,
    digits, dots and hyphens, a letter or digit at both ends, no two dots in a row; so a name has no
    slash in it and is not a path out of the directory. *)
Theorem image_name_safe name : checkName name = Ok tt <->
  (1 <= slen name <= 63 /\ Forall (fun c => name_byte c = true) (bytes_of name) /\
   (exists c, head (bytes_of name) = Some c /\ alnum c = true) /\ (exists c, last (bytes_of name) = Some c /\ alnum c = true)) /\
  ~ (exists a b, bytes_of name = a ++ bytes_of ".." ++ b).
Proof.
  unfold checkName. rewrite <- contains_l_spec. unfold str_contains, slen. rewrite <- (length_bytes_of name).
  destruct (re_match namePattern name) eqn:E; cbn [negb guard obind].
  - apply re_match_spec, image_name_lang in E as (Hl & Hb & Hh & Ht).
    destruct (contains_l _ _) eqn:Ec; cbn [guard]; split; try done; [by intros [_ H]|]. intros _. split; [|done]. split_and!; [lia|lia|done..].
  - split; [done|]. intros [(Hl & H) _]. exfalso. assert (E' : re_match namePattern name = true); [|by rewrite E in E'].
    apply re_match_spec, image_name_lang. split; [lia|done].
Qed.

(** * Reports *)

Lemma first_mentions_spec known staged :
  NoDup (map st_ImageID (first_mentions known staged)) /\
  (forall f, f ∈ first_mentions known staged -> st_ImageID f <> "" /\ st_ImageID f ∉ known /\ f ∈ staged) /\
  (forall f, f ∈ staged -> st_ImageID f <> "" -> st_ImageID f ∉ known -> st_ImageID f ∈ map st_ImageID (first_mentions known staged)).
Proof.
  revert known. induction staged as [|f l IH]; intros known; cbn [first_mentions map].
  { split_and!; [constructor|intros f H; by apply not_elem_of_nil in H|intros f H; by apply not_elem_of_nil in H]. }
  destruct (is_empty (st_ImageID f)) eqn:Ee.
  { apply is_empty_spec in Ee. destruct (IH known) as (H1 & H2 & H3). split_and!; [done|intros g Hg; apply H2 in Hg; set_solver|].
    intros g [->|Hg]%elem_of_cons Hn Hk; [done|by apply H3]. }
  apply is_empty_false in Ee. case_bool_decide as Ek.
  { destruct (IH known) as (H1 & H2 & H3). split_and!; [done|intros g Hg; apply H2 in Hg; set_solver|].
    intros g [->|Hg]%elem_of_cons Hn Hk; [done|by apply H3]. }
  destruct (IH ({[st_ImageID f]} ∪ known)) as (H1 & H2 & H3). cbn [map]. split_and!.
  - constructor; [|done]. intros (g & Hg1 & Hg2)%list_elem_of_fmap. apply H2 in Hg2 as (_ & Hg2 & _). rewrite <- Hg1 in Hg2. set_solver.
  - intros g [->|Hg]%elem_of_cons; [set_solver|]. apply H2 in Hg. set_solver.
  - intros g [->|Hg]%elem_of_cons Hn Hk; [set_solver|]. destruct (decide (st_ImageID g = st_ImageID f)) as [->|Hd]; [set_solver|].
    apply elem_of_cons. right. apply H3; [done|done|set_solver].
Qed.
Definition staged_row (nodeID : string) (at_ : Z) (f : Staged) : NodeImage := MkNodeImage nodeID (st_ImageID f) (st_SizeBytes f) at_.
Lemma insert_all_ok nodeID at_ staged rows : NoDup (map st_ImageID staged) ->
  (forall f r, f ∈ staged -> r ∈ rows -> on_node nodeID r && of_image (st_ImageID f) r = false) ->
  insert_all nodeID at_ staged rows = Ok (rows ++ map (staged_row nodeID at_) staged).
Proof.
  revert rows. induction staged as [|f l IH]; intros rows Hn Hr; cbn [insert_all map]; [by rewrite app_nil_r|].
  apply NoDup_cons in Hn as [Hf Hn]. unfold insert_staged. destruct (existsb _ rows) eqn:E.
  { apply existsb_exists in E as (r & Hin & E). rewrite Hr in E; [done|set_solver|by apply list_elem_of_In]. }
  cbn [obind]. rewrite IH; [by rewrite <- app_assoc|done|]. intros g r Hg [H|H%list_elem_of_singleton]%elem_of_app; [apply Hr; [set_solver|done]|].
  subst r. unfold on_node, of_image. cbn [ni_NodeID ni_ImageID]. rewrite String.eqb_refl. apply String.eqb_neq. intros E'. apply Hf. rewrite E'.
  apply list_elem_of_fmap. by exists g.
Qed.
(** The rows after a report: those of the other nodes, then its own. *)
Definition reported (nodeID : string) (at_ : Z) (staged : list Staged) (rows : list NodeImage) : list NodeImage :=
  List.filter (fun r => negb (on_node nodeID r)) rows ++ map (staged_row nodeID at_) (first_mentions ∅ staged).
Lemma insert_all_reported nodeID at_ staged rows :
  insert_all nodeID at_ (first_mentions ∅ staged) (List.filter (fun r => negb (on_node nodeID r)) rows) = Ok (reported nodeID at_ staged rows).
Proof.
  apply insert_all_ok; [apply first_mentions_spec|]. intros f r _ [_ H%negb_true_iff]%elem_of_filter_bool. by rewrite H.
Qed.

(** ** What the maps hold *)

Definition holders (id : string) (rows : list NodeImage) : list string := map ni_NodeID (List.filter (of_image id) rows).
Definition largest (id : string) (rows : list NodeImage) : Z := fold_left (fun m r => Z.max m (ni_SizeBytes r)) (List.filter (of_image id) rows) 0.
Lemma notes_spec rows byImage sizes id : 
  default [] ((fold_left note rows (byImage, sizes)).1 !! id) = default [] (byImage !! id) ++ holders id rows /\
  default 0 ((fold_left note rows (byImage, sizes)).2 !! id) =
    fold_left (fun m r => Z.max m (ni_SizeBytes r)) (List.filter (of_image id) rows) (default 0 (sizes !! id)).
Proof.
  revert byImage sizes. induction rows as [|r rows IH]; intros byImage sizes; cbn [fold_left]; [by rewrite app_nil_r|].
  unfold note at 2 4. destruct (IH (<[ni_ImageID r:=default [] (byImage !! ni_ImageID r) ++ [ni_NodeID r]]> byImage)
    (if default 0 (sizes !! ni_ImageID r) <? ni_SizeBytes r then <[ni_ImageID r:=ni_SizeBytes r]> sizes else sizes)) as [-> ->].
  unfold holders. cbn [List.filter]. change (of_image id r) with (String.eqb (ni_ImageID r) id). destruct (String.eqb_spec (ni_ImageID r) id) as [E|E].
  - subst id. rewrite lookup_insert_eq. cbn [default map fold_left]. split; [cbn; by rewrite <- app_assoc|]. f_equal.
    destruct (Z.ltb_spec (default 0 (sizes !! ni_ImageID r)) (ni_SizeBytes r)); [rewrite lookup_insert_eq; cbn|]; lia.
  - rewrite lookup_insert_ne by done. split; [done|]. f_equal. destruct (_ <? _); [by rewrite lookup_insert_ne|done].
Qed.
Lemma elem_of_holders id rows n : n ∈ holders id rows <-> exists r, r ∈ rows /\ ni_NodeID r = n /\ ni_ImageID r = id.
Proof.
  unfold holders. rewrite list_elem_of_fmap. split.
  - intros (r & -> & [H E%String.eqb_eq]%elem_of_filter_bool). eauto.
  - intros (r & H & <- & <-). exists r. split; [done|]. apply elem_of_filter_bool. split; [done|]. apply String.eqb_refl.
Qed.
Lemma holders_sorted id n rows : n ∈ holders id (sliceStable by_node rows) <-> n ∈ holders id rows.
Proof. rewrite !elem_of_holders. by setoid_rewrite sliceStable_perm. Qed.
Lemma reported_holders n at_ staged rows id n' : n' ∈ holders id (reported n at_ staged rows) <->
  (n' = n /\ id <> "" /\ exists f, f ∈ staged /\ st_ImageID f = id) \/ (n' <> n /\ n' ∈ holders id rows).
Proof.
  pose proof (first_mentions_spec ∅ staged) as (_ & H2 & H3). rewrite !elem_of_holders. unfold reported. split.
  - intros (r & [[Hr Hn%negb_true_iff%String.eqb_neq]%elem_of_filter_bool|(f & -> & Hf)%list_elem_of_fmap]%elem_of_app & <- & <-).
    + right. split; [done|]. eauto.
    + left. destruct (H2 f Hf) as (He & _ & Hin). split_and!; [done|done|]. eauto.
  - intros [(-> & He & f & Hf & <-)|(Hn & r & Hr & <- & <-)].
    + specialize (H3 f Hf He ltac:(set_solver)). apply list_elem_of_fmap in H3 as (g & -> & Hg). exists (staged_row n at_ g).
      split; [|done]. apply elem_of_app. right. apply list_elem_of_fmap. by exists g.
    + exists r. split; [|done]. apply elem_of_app. left. apply elem_of_filter_bool. split; [done|]. by apply negb_true_iff, String.eqb_neq.
Qed.

(** * The state machine the module promises *)

Section machine.
Context {urls : Webhook.URLs}.
(** An image as it was made: a name, a kind, an architecture, a source and a checksum that were checked. *)
Record image_ok (i : Image) : Prop := {
  io_name : checkName (im_Name i) = Ok tt;
  io_kind : im_Kind i ∈ Kinds;
  io_arch : im_Arch i ∈ Arches;
  io_source : exists raw, checkSource raw = Ok (im_Source i);
  io_checksum : im_Checksum i = "" \/ re_match checksumPattern (im_Checksum i) = true;
}.
Inductive actor := Tenant (p : string) | Node (n : string).
Inductive change : actor -> ImageDB -> ImageDB -> Prop :=
| C_create p i db : im_ProjectID i = p -> image_ok i -> existsb (clash i) (id_images db) = false ->
    change (Tenant p) db (MkImageDB (id_images db ++ [i]) (id_staged db))
| C_remove p i db : i ∈ id_images db -> im_ProjectID i = p ->
    change (Tenant p) db (MkImageDB (List.filter (fun x => negb (has_id (im_ID i) x)) (id_images db)) (id_staged db))
| C_report n at_ staged db : n <> "" -> change (Node n) db (MkImageDB (id_images db) (reported n at_ staged (id_staged db))).
Definition history (a : actor) : ImageDB -> ImageDB -> Prop := rtc (change a).
#[export] Instance history_preorder a : PreOrder (history a).
Proof. unfold history. typeclasses eauto. Qed.
Record image_inv (db : ImageDB) : Prop := {
  ii_id : unique_by (fun i => Some (im_ID i)) (id_images db);
  ii_name : unique_by (fun i => Some (im_ProjectID i, im_Name i)) (id_images db);
  ii_row : Forall image_ok (id_images db);
  ii_staged : unique_by (fun r => Some (ni_NodeID r, ni_ImageID r)) (id_staged db);
}.
Lemma reported_unique n at_ staged (rows : list NodeImage) : unique_by (fun r => Some (ni_NodeID r, ni_ImageID r)) rows ->
  unique_by (fun r => Some (ni_NodeID r, ni_ImageID r)) (reported n at_ staged rows).
Proof.
  intros H. apply (unique_by_filter _ (fun r => negb (on_node n r))) in H. unfold reported, unique_by in *. rewrite omap_total in *. rewrite map_app.
  apply NoDup_app. split_and!; [done| |].
  - intros x (r & -> & [_ Hr%negb_true_iff%String.eqb_neq]%elem_of_filter_bool)%list_elem_of_fmap (y & Ey & (f & -> & _)%list_elem_of_fmap)%list_elem_of_fmap.
    injection Ey as Ey _. done.
  - rewrite map_map. cbn. rewrite <- (map_map st_ImageID (fun i => (n, i))). apply (NoDup_fmap_2 (fun i => (n, i))), first_mentions_spec.
Qed.
Lemma image_change_inv a db db' : change a db db' -> image_inv db -> image_inv db'.
Proof.
  intros [p i d Hp Hok Hc|p i d _ _|n at_ staged d _] [H1 H2 H3 H4]; constructor; cbn [id_images id_staged]; try done.
  - rewrite existsb_false, Forall_forall in Hc. apply unique_by_app; [done|]. intros x q Hx [= <-] [= E]. specialize (Hc x Hx).
    unfold clash, has_id in Hc. by rewrite E, String.eqb_refl in Hc.
  - rewrite existsb_false, Forall_forall in Hc. apply unique_by_app; [done|]. intros x q Hx [= <-] [= E1 E2]. specialize (Hc x Hx).
    unfold clash, named, in_project in Hc. by rewrite E1, E2, !String.eqb_refl, orb_true_r in Hc.
  - apply Forall_app. split; [done|]. by constructor.
  - by apply unique_by_filter.
  - by apply unique_by_filter.
  - by apply Forall_filter_bool.
  - by apply reported_unique.
Qed.
Lemma image_history_inv a db db' : history a db db' -> image_inv db -> image_inv db'.
Proof. intros H. induction H as [|x y z Hc _ IH]; [done|]. intros Hi. apply IH. by eapply image_change_inv. Qed.
(** What a project has, apart from what a tenant asks for it. *)
Lemma image_history_others a db db' : history a db db' ->
  match a with
  | Tenant p => id_staged db' = id_staged db /\ (image_inv db -> others_rows im_ProjectID p (id_images db') = others_rows im_ProjectID p (id_images db))
  | Node n => id_images db' = id_images db /\ List.filter (fun r => negb (on_node n r)) (id_staged db') = List.filter (fun r => negb (on_node n r)) (id_staged db)
  end.
Proof.
  intros H. induction H as [d|x y z Hc Hr IH]; [by destruct a|]. assert (Hinv : image_inv x -> image_inv y) by (by eapply image_change_inv).
  destruct Hc as [p i d <- _ _|p i d Hin <-|n at_ staged d _]; destruct IH as [E1 E2]; cbn [id_images id_staged] in *.
  - split; [done|]. intros Hi. rewrite (E2 (Hinv Hi)). apply others_insert.
  - split; [done|]. intros Hi. rewrite (E2 (Hinv Hi)). apply (others_delete im_ID im_ProjectID _ _ (ii_id _ Hi) Hin).
  - split; [done|]. rewrite E2. unfold reported. rewrite List.filter_app, <- filter_andb.
    rewrite (filter_none _ (map _ _)), app_nil_r.
    + apply filter_ext_elem. intros r _. apply andb_diag.
    + intros r (f & -> & _)%list_elem_of_fmap. unfold on_node, staged_row. cbn [ni_NodeID]. by rewrite String.eqb_refl.
Qed.

Section operations.
Context {S : Type} `{!Has ImageDB S}.
Definition actor_of (r : request) : actor :=
  match r with
  | ReqCreate sc _ | ReqList sc | ReqGet sc _ | ReqDelete sc _ => Tenant (sc_ProjectID sc)
  | ReqForNode => Node ""
  | ReqReport n _ => Node n
  end.
Lemma image_yields_resolveIn db n p : yields db (resolveIn (S:=S) n p) (fun i => i ∈ id_images db /\ im_ProjectID i = p).
Proof.
  unfold resolveIn. eapply yields_bind with (P := fun r => match r with Ok i => i ∈ id_images db /\ im_ProjectID i = p | Err _ => True end).
  - apply yields_attempt. eapply yields_mono; [apply yields_query|]. intros i H. apply select_one_ok in H as [? [E _]%andb_true_iff].
    by apply String.eqb_eq in E.
  - intros [i|e] Hi; [by eapply yields_mono; [apply yields_ret|]; intros ? ->|].
    destruct (negb _); [eapply yields_mono; [apply yields_fail|done]|].
    eapply yields_bind; [apply yields_mapped, yields_query|]. intros i [Hin _]%select_one_ok.
    destruct (String.eqb_spec (im_ProjectID i) p); [|eapply yields_mono; [apply yields_fail|done]].
    eapply yields_mono; [apply yields_ret|]. by intros ? ->.
Qed.
Lemma image_create_moves db params : moves (history (Tenant (cp_ProjectID params))) db (create (S:=S) params).
Proof.
  unfold create. m_step. intros [] Hn. m_step. intros [] Hk%validate_OneOf_ok. m_step. intros [] Ha%validate_OneOf_ok. m_step. intros source Hs.
  m_step. intros _ Hck%guard_false. eapply moves_bind; [typeclasses eauto|apply yields_leaves; unfold ids_New; auto with leaves|]. intros id _. m_step. intros at_ _.
  set (i := MkImage _ _ _ _ _ _ _ _ _). apply moves_last; [typeclasses eauto|]. apply moves_sql; [typeclasses eauto|].
  unfold insert_row. destruct (existsb _ _) eqn:Ec; cbn [fst snd]; [by destruct db|]. apply rtc_once. apply C_create; [done| |done].
  constructor; cbn; [done|done|done|by eexists|]. apply andb_false_iff in Hck as [H%negb_false_iff|H%negb_false_iff]; [left|by right].
  by apply is_empty_spec in H.
Qed.
Lemma image_serve_moves db r : moves (history (actor_of r)) db (serve (S:=S) r).
Proof.
  destruct r as [sc req|sc| |sc id|sc id|n req]; cbn [serve actor_of];
    unfold handle_create, handle_list, handle_listForNode, handle_get, handle_report, handle_delete, listIn, listAll, placed, listIn_rows, list_rows, images_q, nodesByImage, Write, WriteHeader.
  - m_step. intros q _. apply moves_then; [typeclasses eauto|apply image_create_moves|intros; m_step].
  - eapply moves_bind; [typeclasses eauto|apply yields_leaves; auto 10 with leaves|intros; m_step].
  - eapply moves_bind; [typeclasses eauto|apply yields_leaves; auto 10 with leaves|intros; m_step].
  - eapply moves_bind; [typeclasses eauto|apply image_yields_resolveIn|]. intros i _. unfold withSize, sizeOf.
    eapply moves_bind; [typeclasses eauto|apply yields_leaves; auto with leaves|intros; m_step].
  - apply moves_then; [typeclasses eauto| |intros; m_step]. unfold remove. eapply moves_bind; [typeclasses eauto|apply image_yields_resolveIn|].
    intros i [Hin Hp]. apply moves_mapped, moves_sql; [typeclasses eauto|].
    destruct (delete_where _ _ _) as [r rows] eqn:E. cbn [snd]. apply rtc_once.
    rewrite (eq_sym (f_equal snd E) : rows = _), delete_where_rows. by apply C_remove.
  - m_step. intros q _. apply moves_then; [typeclasses eauto| |intros; m_step]. unfold report. m_step. intros _ Hn%guard_false%is_empty_false. m_step. intros at_ _.
    apply moves_mapped, moves_sql; [typeclasses eauto|]. rewrite insert_all_reported. cbn [snd]. apply rtc_once. by apply C_report.
Qed.
End operations.
End machine.

(** * Properties *)

(** [images_lawful]: a tenant adds checked images to its project and removes its own, leaving those of the
    other projects and what nodes reported; a node replaces what it reported itself; and names stay
    unique in a project. *)
Theorem images_lawful {S} `{!Has ImageDB S} {urls : Webhook.URLs} env r (w : World S) : image_inv (part w) ->
  wp env (serve r) (fun _ w' => history (actor_of r) (part w) (part w') /\ image_inv (part w') /\
    match actor_of r with
    | Tenant p => id_staged (part w') = id_staged (part w) /\ others_rows im_ProjectID p (id_images (part w')) = others_rows im_ProjectID p (id_images (part w))
    | Node n => id_images (part w') = id_images (part w) /\
        List.filter (fun r => negb (on_node n r)) (id_staged (part w')) = List.filter (fun r => negb (on_node n r)) (id_staged (part w))
    end) w.
Proof.
  intros Hi. eapply wp_mono; [|exact (image_serve_moves (part w) r env w eq_refl)]. intros o w' H.
  split_and!; [done|exact (image_history_inv _ _ _ H Hi)|]. pose proof (image_history_others _ _ _ H) as Ho.
  destruct (actor_of r); [|done]. destruct Ho as [E1 E2]. split; [done|by apply E2].
Qed.

(** [report_is_placed]: the listing after a report that was taken names for each image exactly the nodes
    that have it: the reporting node when it mentioned the image, however often, and another node when
    its own last report did; with the largest size of those reports. *)
Theorem report_is_placed {S} `{!Has ImageDB S} {urls : Webhook.URLs} env n staged (w : World S) :
  wp env (report n staged ;;; listAll) (fun r _ => forall pls, r = Ok pls ->
    map (fun pl => im_ID (pl_Image pl)) pls = map im_ID (sliceStable by_name (id_images (part w))) /\
    forall pl, pl ∈ pls -> let id := im_ID (pl_Image pl) in
      (n ∈ pl_Nodes pl <-> id <> "" /\ exists f, f ∈ staged /\ st_ImageID f = id) /\
      (forall n', n' <> n -> n' ∈ pl_Nodes pl <-> n' ∈ holders id (id_staged (part w))) /\
      exists at_, im_SizeBytes (pl_Image pl) = largest id (sliceStable by_node (reported n at_ staged (id_staged (part w))))) w.
Proof.
  apply wp_bind. unfold report. apply wp_bind. rewrite wp_lift. destruct (is_empty n); [done|]. cbn [guard].
  apply wp_bind. rewrite wp_now. apply wp_mapped, wp_write; intros w' Hw'; [done|]. rewrite insert_all_reported in *. cbn [fst snd or_fault] in *.
  unfold listAll. apply wp_bind, wp_mapped, wp_read. intros r [->| ->]; [done|]. cbn [or_fault]. unfold placed, nodesByImage.
  apply wp_bind, wp_mapped, wp_read. intros r [->| ->]; [done|]. cbn [or_fault].
  change (part (T:=ImageDB) (tick w')) with (part (T:=ImageDB) w'). change (part (T:=ImageDB) (tick w)) with (part (T:=ImageDB) w) in Hw'. rewrite Hw'. cbn [id_images id_staged].
  destruct (fold_left note _ _) as [byImage sizes] eqn:En. rewrite wp_ret. intros pls [= <-]. split; [by rewrite map_map|].
  intros pl (i & -> & _)%list_elem_of_fmap. cbn [pl_Image pl_Nodes im_ID with_size im_SizeBytes]. cbv zeta.
  set (at_ := env_now env _) in *.
  pose proof (notes_spec (sliceStable by_node (reported n at_ staged (id_staged (part w)))) ∅ ∅ (im_ID i)) as [H1 H2]. rewrite En in H1, H2.
  change (default [] (byImage !! im_ID i) = holders (im_ID i) (sliceStable by_node (reported n at_ staged (id_staged (part w))))) in H1.
  change (default 0 (sizes !! im_ID i) = largest (im_ID i) (sliceStable by_node (reported n at_ staged (id_staged (part w))))) in H2.
  rewrite H1, H2.
  split_and!; [|intros n' Hn'|by exists at_]; rewrite holders_sorted, reported_holders; naive_solver.
Qed.

(** * Concrete runs *)

Module Demo.
Definition parse_http (raw : string) : outcome Webhook.URL :=
  if has_prefix raw "https://" then Ok (Webhook.MkURL "https" (trim_prefix raw "https://") false raw) else Err (EText "no scheme").
#[export] Instance urls : Webhook.URLs := { url_Parse := parse_http }.
Definition env : Env := {| env_now n := Z.of_nat n * second; env_rand n := [Z.of_nat n]; env_io _ := false |}.
Definition w0 : World ImageDB := MkWorld (MkImageDB [] [MkNodeImage "nd-2" "img-1" 7 0]) O [].
Definition tenant : Scope := MkScope "prj-1" "tok-1" "ci" "" "member".
Definition add : request := ReqCreate tenant (Ok (MkCreateRequest "debian-13.1" "disk" "" " https://example.org/debian.img " "")).
Lemma image_inv_w0 : image_inv (part w0).
Proof. constructor; [apply NoDup_nil_2|apply NoDup_nil_2|constructor|]. apply (bool_decide_unpack _). vm_compute. exact I. Qed.
Definition image : Image := MkImage "img-1" "prj-1" "debian-13.1" "disk" "arm64" "https://example.org/debian.img" "" 0 0.
Definition w1 : World ImageDB := MkWorld (MkImageDB [image] [MkNodeImage "nd-1" "img-9" 5 0; MkNodeImage "nd-2" "img-1" 7 0]) O [].
Definition staged : list Staged := [MkStaged "img-1" 9; MkStaged "" 3; MkStaged "img-1" 4].
End Demo.
Import Demo.
Lemma images_lawful_witness : map im_Arch (id_images (part (T:=ImageDB) (snd (serve Demo.add Demo.env Demo.w0)))) = ["arm64"] /\
  image_inv (part (snd (serve Demo.add Demo.env Demo.w0))).
Proof.
  split; [vm_compute; reflexivity|]. pose proof (images_lawful Demo.env Demo.add Demo.w0 Demo.image_inv_w0) as H.
  unfold wp in H. destruct (serve _ _ _) as [r w']. exact (proj1 (proj2 H)).
Defined.
Example image_report_run : match fst ((report "nd-1" Demo.staged ;;; listAll) Demo.env Demo.w1) with
  | Ok [pl] => pl_Nodes pl = ["nd-1"; "nd-2"] /\ im_SizeBytes (pl_Image pl) = 9 | _ => False end.
Proof. vm_compute. done. Qed.
(** The answer about one image names no node, whoever has it. *)
Example get_names_no_node : match fst (serve (ReqGet Demo.tenant "debian-13.1") Demo.env Demo.w1), fst (serve (ReqList Demo.tenant) Demo.env Demo.w1) with
  | Ok one, Ok all => rp_Body one = Some (BImage (MkResponse "img-1" "debian-13.1" "disk" "arm64" "https://example.org/debian.img" "" 7 [] (rfc3339nano 0))) /\
      rp_Body all = Some (BImages [MkResponse "img-1" "debian-13.1" "disk" "arm64" "https://example.org/debian.img" "" 7 ["nd-2"] (rfc3339nano 0)])
  | _, _ => False end.
Proof. vm_compute. done. Qed.
Example dots_refused : map (fun n => match checkName n with Ok _ => true | Err _ => false end) ["debian-13.1"; "a..b"; ".a"; "a/b"; ""] = [true; false; false; false; false].
Proof. vm_compute. reflexivity. Qed.
