(* ===== verification/Resolver.v ===== *)
(** The name server of a node (internal/runtime/resolver): reading a question, answering the names of the
    zone from what the control plane said, and passing everything else on to the servers of the host.

    A message is its bytes.  The sockets are parameters: what is read from one is given to [handle], what
    [handle] gives back is written to it. *)
From stdpp Require Import base tactics numbers strings list gmap.
From Stdlib Require Import ZArith Lia.
From Stdlib Require Ascii.
From S2P Require Import Prelude GoLang Effects Kernel Netip Ipam.

(** * Messages (message.go) *)

Definition headerLen : Z := 12.
Definition typeA : Z := 1.
Definition typeAAAA : Z := 28.
Definition classINET : Z := 1.
Definition defaultTTL : Z := 30.
Definition flagResponse : Z := 32768.
Definition flagAuthoritative : Z := 1024.
Definition flagRecursionOK : Z := 256.
Definition rcodeNameError : Z := 3.
Definition errMalformed : error := ESentinel "malformed dns message".
(* go: runtime/resolver/message.go question *)
Record question := MkQuestion { q_name : string; q_qtype : Z; q_end : Z }.

(** [binary.BigEndian.Uint16(msg[at:at+2])] and [PutUint16] *)
Definition uint16 (msg : list Z) (at_ : Z) : Z := be_value (take 2 (drop (Z.to_nat at_) msg)).
Definition put16 (at_ v : Z) (msg : list Z) : list Z := take (Z.to_nat at_) msg ++ be_bytes 2 v ++ drop (Z.to_nat at_ + 2) msg.
(** The loop of [parseQuestion]: what is left of the message, the labels and the offset behind them. *)
Fixpoint read_labels (fuel : nat) (rest : list Z) (offset : Z) (labels : list string) : outcome (list string * Z) :=
  match fuel with
  | O => Err errMalformed
  | S fuel =>
      match rest with
      | [] => Err errMalformed
      | n :: rest =>
          if n =? 0 then Ok (labels, offset + 1)
          else if negb (Z.land n 192 =? 0) then Err errMalformed
          else if len rest <? n then Err errMalformed
          else read_labels fuel (drop (Z.to_nat n) rest) (offset + 1 + n) (labels ++ [bytes_string (take (Z.to_nat n) rest)])
      end
  end.
(* go: runtime/resolver/message.go parseQuestion *)
Definition parseQuestion (msg : list Z) : outcome question :=
  try _ := guard (len msg <? headerLen) errMalformed in
  try _ := guard (negb (uint16 msg 4 =? 1)) errMalformed in
  match read_labels (S (length msg)) (drop (Z.to_nat headerLen) msg) headerLen [] with
  | Err e => Err e
  | Ok (labels, offset) =>
      try _ := guard (len msg <? offset + 4) errMalformed in
      Ok (MkQuestion (to_lower (join labels ".")) (uint16 msg offset) (offset + 4))
  end.
Definition recursion (query : list Z) : Z := if Z.land (uint16 query 2) flagRecursionOK =? 0 then 0 else flagRecursionOK.
(* go: runtime/resolver/message.go answer *)
Definition answer (query : list Z) (q : question) (addr : Addr) : list Z :=
  let reply := take (Z.to_nat (q_end q)) query in
  let flags := Z.lor (Z.lor flagResponse flagAuthoritative) (recursion query) in
  let reply := put16 10 0 (put16 8 0 (put16 6 1 (put16 2 flags reply))) in
  let '(kind, size) := if a_is6 addr then (typeAAAA, 16) else (typeA, 4) in
  reply ++ be_bytes 2 (Z.lor 49152 headerLen) ++ be_bytes 2 kind ++ be_bytes 2 classINET ++ be_bytes 4 defaultTTL ++ be_bytes 2 size ++ AsSlice addr.
(* go: runtime/resolver/message.go emptyAnswer *)
Definition emptyAnswer (query : list Z) (q : question) (rcode : Z) : list Z :=
  let reply := take (Z.to_nat (q_end q)) query in
  let flags := Z.lor (Z.lor (Z.lor flagResponse flagAuthoritative) rcode) (recursion query) in
  put16 10 0 (put16 8 0 (put16 6 0 (put16 2 flags reply))).

(** * The resolver (resolver.go) *)

Definition zoneSuffix : string := ".internal".
Definition Port : Z := 53.
(** The records a name has, the servers of the host, and the addresses that are listened on. *)
(* go: runtime/resolver/resolver.go Resolver *)
Record Resolver := MkResolver { rv_records : gmap string (list Addr); rv_upstreams : list string; rv_listeners : gset string }.

(** The addresses of one name that [Update] keeps. *)
Definition parsed (ips : list string) : list Addr :=
  omap (fun ip => match ParseAddr (bytes_of ip) with Some a => if Is4In6 a then None else Some a | None => None end) ips.
Definition key_of (name : string) : string := to_lower (trim_suffix name ".").
(** The loop of [Update], over the names in the order the range gives them. *)
Definition gather_one (m : gmap string (list Addr)) (r : string * list string) : gmap string (list Addr) :=
  match parsed (snd r) with [] => m | held => <[key_of (fst r) := default [] (m !! key_of (fst r)) ++ held]> m end.
(* go: runtime/resolver/resolver.go:48-60 parsed *)
Definition gather (records : list (string * list string)) : gmap string (list Addr) := fold_left gather_one records ∅.
(* go: runtime/resolver/resolver.go pick *)
Definition pick (held : list Addr) (qtype : Z) : option Addr :=
  List.find (fun a => (qtype =? typeA) && Is4 a || (qtype =? typeAAAA) && a_is6 a) held.
(** [IsLoopback] of an IPv4 address: 127.0.0.0/8. *)
Definition IsLoopback4 (a : Addr) : bool := Z.shiftr (a_val a) 24 =? 127.
(** One line of /etc/resolv.conf. *)
Definition upstream_of (line : string) : option string :=
  match fields line with
  | keyword :: server :: _ =>
      if negb (String.eqb keyword "nameserver") then None
      else match ParseAddr (bytes_of server) with
           | Some a => if negb (Is4 a) || IsLoopback4 a then None else Some (addr_String a)
           | None => None
           end
  | _ => None
  end.
(** The lines of the file, [None] when it cannot be opened. *)
(* go: runtime/resolver/resolver.go discoverUpstreams *)
Definition discoverUpstreams (file : option (list string)) : list string :=
  match file with
  | None => ["1.1.1.1"; "8.8.8.8"]
  | Some lines => match omap upstream_of lines with [] => ["1.1.1.1"; "8.8.8.8"] | servers => servers end
  end.

Section resolver.
Context {S : Type} `{!Has Resolver S}.
(** One exchange with a server of the host (exchange), and the opening of a socket. *)
Context (exchange : string -> list Z -> M S (list Z)) (ListenPacket : string -> M S unit).

(* go: runtime/resolver/resolver.go Resolver.Update *)
Definition Update (records : list (string * list string)) : M S unit :=
  locked (fun r : Resolver => (tt, MkResolver (gather records) (rv_upstreams r) (rv_listeners r))).
(* go: runtime/resolver/resolver.go Resolver.Listen *)
Definition Listen (address : string) : M S unit :=
  let! running := locked (fun r : Resolver => (bool_decide (address ∈ rv_listeners r), r)) in
  if running : bool then ret tt
  else
    mapped (EWrap "listen on") (ListenPacket address) ;;;
    locked (fun r : Resolver => (tt, MkResolver (rv_records r) (rv_upstreams r) ({[address]} ∪ rv_listeners r))).
(* go: runtime/resolver/resolver.go Resolver.Close *)
Definition Close : M S unit := locked (fun r : Resolver => (tt, MkResolver (rv_records r) (rv_upstreams r) ∅)).
(** What [serve] does when it stops reading. *)
(* go: runtime/resolver/resolver.go:112-118 listeners *)
Definition stopped (address : string) : M S unit :=
  locked (fun r : Resolver => (tt, MkResolver (rv_records r) (rv_upstreams r) (rv_listeners r ∖ {[address]}))).

(** The first server that answers. *)
Fixpoint first_answer (upstreams : list string) (query : list Z) : M S (option (list Z)) :=
  match upstreams with
  | [] => ret None
  | u :: us =>
      let! r := attempt (exchange u query) in
      match r with Ok reply => ret (Some reply) | Err _ => first_answer us query end
  end.
(* go: runtime/resolver/resolver.go Resolver.forward *)
Definition forward (query : list Z) : M S (option (list Z)) :=
  let! upstreams := locked (fun r : Resolver => (rv_upstreams r, r)) in
  first_answer upstreams query.
(** What is written back, if anything. *)
(* go: runtime/resolver/resolver.go Resolver.handle *)
Definition handle (query : list Z) : M S (option (list Z)) :=
  match parseQuestion query with
  | Err _ => ret None
  | Ok q =>
      if negb (has_suffix (q_name q) zoneSuffix) then forward query
      else
        let! held := locked (fun r : Resolver => (rv_records r !! q_name q, r)) in
        ret (Some (match held with
                   | None => emptyAnswer query q rcodeNameError
                   | Some held => match pick held (q_qtype q) with
                                  | Some addr => answer query q addr
                                  | None => emptyAnswer query q 0
                                  end
                   end))
  end.
End resolver.

(** * Reading questions *)

(** What the loop reads is a prefix, and what is behind it does not matter. *)
Lemma read_labels_prefix fuel rest offset labels ls e : bytes rest -> read_labels fuel rest offset labels = Ok (ls, e) ->
  exists used behind, rest = used ++ behind /\ e = offset + len used /\ (1 <= length used)%nat /\
    forall fuel' tail, (length used < fuel')%nat -> read_labels fuel' (used ++ tail) offset labels = Ok (ls, e).
Proof.
  revert rest offset labels. induction fuel as [|fuel IH]; intros rest offset labels Hb; cbn [read_labels]; [done|].
  destruct rest as [|n rest]; [done|]. apply Forall_cons in Hb as [Hn Hb]. destruct (n =? 0) eqn:E0.
  { intros [= <- <-]. exists [n], rest. split_and!; [done|simpl; lia|simpl; lia|]. intros [|fuel'] tail Hf; [simpl in Hf; lia|].
    cbn [read_labels app]. by rewrite E0. }
  destruct (negb _) eqn:E1; [done|]. destruct (len rest <? n) eqn:E2; [done|]. intros H.
  apply Z.ltb_ge in E2. destruct (IH _ _ _ ltac:(by apply Forall_drop) H) as (used & behind & Er & -> & Hu & Hk).
  exists (n :: take (Z.to_nat n) rest ++ used), behind.
  assert (Hlen : length (take (Z.to_nat n) rest) = Z.to_nat n) by (rewrite length_take; lia).
  split_and!.
  - cbn [app]. rewrite <- app_assoc, <- Er, take_drop. done.
  - rewrite length_cons, length_app, Hlen. lia.
  - simpl. lia.
  - intros [|fuel'] tail Hf; [simpl in Hf; lia|]. cbn [app read_labels]. rewrite E0, E1. rewrite <- app_assoc.
    rewrite length_app, Hlen. rewrite (proj2 (Z.ltb_ge _ _)) by lia.
    rewrite take_app_length', drop_app_length' by done. apply Hk. rewrite length_cons, length_app in Hf. lia.
Qed.
Lemma uint16_app l k at_ : 0 <= at_ -> at_ + 2 <= len l -> uint16 (l ++ k) at_ = uint16 l at_.
Proof. intros H0 H. unfold uint16. rewrite drop_app_le by lia. rewrite take_app_le; [done|]. rewrite length_drop. lia. Qed.
Lemma uint16_behind l k at_ : 0 <= at_ -> uint16 (l ++ k) (len l + at_) = uint16 k at_.
Proof. intros H. unfold uint16. replace (Z.to_nat (len l + at_)) with (length l + Z.to_nat at_)%nat by lia. by rewrite drop_app_add. Qed.
Lemma uint16_type hd used tc k : (2 <= length tc)%nat -> uint16 (hd ++ used ++ tc ++ k) (len hd + len used) = uint16 tc 0.
Proof.
  intros H. rewrite uint16_behind by lia. rewrite <- (Z.add_0_r (len used)), uint16_behind by lia. by rewrite uint16_app by lia.
Qed.
(** A question that was read: the header, the name, its type and class, and whatever is behind. *)
Lemma parse_split msg q : bytes msg -> parseQuestion msg = Ok q -> exists hd used tc behind,
  msg = hd ++ used ++ tc ++ behind /\ length hd = 12%nat /\ length tc = 4%nat /\ (1 <= length used)%nat /\ uint16 hd 4 = 1 /\
  q_end q = 16 + len used /\ q_qtype q = uint16 tc 0 /\
  forall hd' behind', length hd' = 12%nat -> uint16 hd' 4 = 1 -> parseQuestion (hd' ++ used ++ tc ++ behind') = Ok q.
Proof.
  intros Hb H. unfold parseQuestion in H. apply obind_ok in H as ([] & H12%guard_ok & H). apply obind_ok in H as ([] & Hone%guard_ok & H).
  destruct (read_labels _ _ _ _) as [[labels offset]|] eqn:El; [|done]. apply obind_ok in H as ([] & Hend%guard_ok & [= <-]).
  apply Z.ltb_ge in H12, Hend. apply negb_false_iff, Z.eqb_eq in Hone. unfold headerLen in *. change (Z.to_nat 12) with 12%nat in *.
  destruct (read_labels_prefix _ _ _ _ _ _ (Forall_drop _ _ _ Hb) El) as (used & rest & Er & -> & Hu & Hk).
  assert (Hlen : length msg = (12 + (length used + length rest))%nat).
  { rewrite <- length_app, <- Er, length_drop. lia. }
  exists (take 12 msg), used, (take 4 rest), (drop 4 rest).
  assert (Em : msg = take 12 msg ++ used ++ rest) by (rewrite <- Er; by rewrite take_drop).
  assert (L12 : length (take 12 msg) = 12%nat) by (rewrite length_take; lia).
  assert (L4 : length (take 4 rest) = 4%nat) by (rewrite length_take; lia).
  split_and!; [by rewrite take_drop|done|done|done| |cbn [q_end]; lia| |].
  - rewrite <- Hone. rewrite Em at 2. by rewrite uint16_app by (rewrite ?L12; lia).
  - cbn [q_qtype]. rewrite Em. rewrite <- (take_drop 4 rest) at 1. replace (12 + len used) with (len (take 12 msg) + len used) by (rewrite L12; lia).
    apply uint16_type. lia.
  - intros hd' behind' Hh Ho. unfold parseQuestion, headerLen. change (Z.to_nat 12) with 12%nat.
    rewrite !length_app, Hh, L4. rewrite (proj2 (Z.ltb_ge _ _)) by lia. rewrite uint16_app by lia. rewrite Ho. cbn [negb guard obind Z.eqb Pos.eqb].
    rewrite drop_app_length' by done. rewrite Hk by lia. rewrite (proj2 (Z.ltb_ge _ _)) by lia. cbn [guard obind]. do 2 f_equal.
    assert (E : forall hd k, length hd = 12%nat -> uint16 (hd ++ used ++ take 4 rest ++ k) (12 + len used) = uint16 (take 4 rest) 0).
    { intros hd k Hhd. replace 12 with (len hd) by lia. apply uint16_type. lia. }
    rewrite (E hd' behind' Hh). rewrite Em at 1. rewrite <- (take_drop 4 rest) at 2. by rewrite (E _ (drop 4 rest) L12).
Qed.

(** * Replies *)

(** What a client makes of a reply: the number of the query, the question, the code, and the address. *)
Record Reading := MkReading { rd_id : Z; rd_question : question; rd_code : Z; rd_addr : option Addr }.
Definition read_answer (reply : list Z) : option Reading :=
  match parseQuestion reply with
  | Err _ => None
  | Ok q =>
      if negb (Z.land (uint16 reply 2) flagResponse =? flagResponse) then None
      else
        let code := Z.land (uint16 reply 2) 15 in
        let record := drop (Z.to_nat (q_end q)) reply in
        if uint16 reply 6 =? 0 then Some (MkReading (uint16 reply 0) q code None)
        else if negb ((uint16 reply 6 =? 1) && (uint16 record 2 =? q_qtype q) && (uint16 record 4 =? classINET)) then None
        else match AddrFromSlice (take (Z.to_nat (uint16 record 10)) (drop 12 record)) with
             | Some a => Some (MkReading (uint16 reply 0) q code (Some a))
             | None => None
             end
  end.
Lemma twelve (hd : list Z) : length hd = 12%nat -> exists a b c d e f g h i j k l, hd = [a; b; c; d; e; f; g; h; i; j; k; l].
Proof. do 12 (destruct hd as [|? hd]; [done|]). destruct hd; [|done]. intros _. by repeat eexists. Qed.
Lemma recursion_cases query : recursion query = 0 \/ recursion query = flagRecursionOK.
Proof. unfold recursion. case_match; auto. Qed.
Lemma empty_read query q rcode : bytes query -> parseQuestion query = Ok q -> rcode = 0 \/ rcode = rcodeNameError ->
  read_answer (emptyAnswer query q rcode) = Some (MkReading (uint16 query 0) q rcode None).
Proof.
  intros Hb Hq Hr. destruct (parse_split query q Hb Hq) as (hd & used & tc & behind & -> & Hhd & Htc & Hu & Hone & He & Ht & Hp).
  assert (Et : take (Z.to_nat (q_end q)) (hd ++ used ++ tc ++ behind) = hd ++ used ++ tc).
  { rewrite !app_assoc. rewrite take_app_length'; [by rewrite <- !app_assoc|]. rewrite !length_app. lia. }
  assert (Hid : uint16 (hd ++ used ++ tc ++ behind) 0 = uint16 hd 0) by (rewrite uint16_app by lia; done).
  destruct (twelve hd Hhd) as (a & b & c & d & e & f & g & h & i & j & k & l & ->).
  unfold emptyAnswer. rewrite Et.
  set (flags := Z.lor _ (recursion _)). assert (Hf : put16 10 0 (put16 8 0 (put16 6 0 (put16 2 flags ([a; b; c; d; e; f; g; h; i; j; k; l] ++ used ++ tc)))) =
    [a; b] ++ be_bytes 2 flags ++ [e; f; 0; 0; 0; 0; 0; 0] ++ used ++ tc) by reflexivity.
  rewrite Hf. set (hd' := [a; b] ++ be_bytes 2 flags ++ [e; f; 0; 0; 0; 0; 0; 0]).
  assert (Ehd : [a; b] ++ be_bytes 2 flags ++ [e; f; 0; 0; 0; 0; 0; 0] ++ used ++ tc = hd' ++ used ++ tc ++ []) by (by rewrite app_nil_r).
  rewrite Ehd. unfold read_answer. rewrite (Hp hd' []) by done.
  rewrite !(uint16_app hd') by done. change (uint16 hd' 0) with (uint16 [a; b; c; d; e; f; g; h; i; j; k; l] 0). rewrite Hid.
  assert (Hfl : uint16 hd' 2 = flags /\ Z.land flags flagResponse = flagResponse /\ Z.land flags 15 = rcode).
  { unfold hd', flags. destruct (recursion_cases (([a; b; c; d; e; f; g; h; i; j; k; l] ++ used ++ tc ++ behind))) as [->| ->], Hr as [->| ->];
      by vm_compute. }
  destruct Hfl as (-> & -> & ->). reflexivity.
Qed.
Lemma AddrFromSlice_AsSlice a : addr_wf a -> AddrFromSlice (AsSlice a) = Some a.
Proof.
  intros Ha. destruct (AsSlice_spec a Ha) as (_ & _ & Hv & Hl). rewrite (AddrFromSlice_len _ (a_is6 a)) by done. rewrite Hv. by destruct a.
Qed.
Lemma answer_read query q addr : bytes query -> parseQuestion query = Ok q -> addr_wf addr -> q_qtype q = (if a_is6 addr then typeAAAA else typeA) ->
  read_answer (answer query q addr) = Some (MkReading (uint16 query 0) q 0 (Some addr)).
Proof.
  intros Hb Hq Ha Hty. destruct (parse_split query q Hb Hq) as (hd & used & tc & behind & -> & Hhd & Htc & Hu & Hone & He & Ht & Hp).
  assert (Et : take (Z.to_nat (q_end q)) (hd ++ used ++ tc ++ behind) = hd ++ used ++ tc).
  { rewrite !app_assoc. rewrite take_app_length'; [by rewrite <- !app_assoc|]. rewrite !length_app. lia. }
  assert (Hid : uint16 (hd ++ used ++ tc ++ behind) 0 = uint16 hd 0) by (rewrite uint16_app by lia; done).
  destruct (twelve hd Hhd) as (a & b & c & d & e & f & g & h & i & j & k & l & ->).
  unfold answer. rewrite Et.
  set (flags := Z.lor _ (recursion _)). assert (Hf : put16 10 0 (put16 8 0 (put16 6 1 (put16 2 flags ([a; b; c; d; e; f; g; h; i; j; k; l] ++ used ++ tc)))) =
    [a; b] ++ be_bytes 2 flags ++ [e; f; 0; 1; 0; 0; 0; 0] ++ used ++ tc) by reflexivity.
  rewrite Hf. set (hd' := [a; b] ++ be_bytes 2 flags ++ [e; f; 0; 1; 0; 0; 0; 0]).
  destruct (if a_is6 addr then (typeAAAA, 16) else (typeA, 4)) as [kind size] eqn:Ek.
  set (record := be_bytes 2 (Z.lor 49152 headerLen) ++ be_bytes 2 kind ++ be_bytes 2 classINET ++ be_bytes 4 defaultTTL ++ be_bytes 2 size ++ AsSlice addr).
  assert (Ehd : ([a; b] ++ be_bytes 2 flags ++ [e; f; 0; 1; 0; 0; 0; 0] ++ used ++ tc) ++ record = hd' ++ used ++ tc ++ record)
    by (unfold hd'; by rewrite <- !app_assoc).
  rewrite Ehd. unfold read_answer. rewrite (Hp hd' record) by done.
  rewrite !(uint16_app hd') by done. change (uint16 hd' 0) with (uint16 [a; b; c; d; e; f; g; h; i; j; k; l] 0). rewrite Hid.
  assert (Hfl : uint16 hd' 2 = flags /\ Z.land flags flagResponse = flagResponse /\ Z.land flags 15 = 0).
  { unfold hd', flags. destruct (recursion_cases (([a; b; c; d; e; f; g; h; i; j; k; l] ++ used ++ tc ++ behind))) as [->| ->]; by vm_compute. }
  destruct Hfl as (-> & -> & ->). change (uint16 hd' 6) with 1.
  assert (Ed : drop (Z.to_nat (q_end q)) (hd' ++ used ++ tc ++ record) = record).
  { rewrite !app_assoc. apply drop_app_length'. rewrite !length_app. change (length hd') with 12%nat. lia. }
  rewrite Ed. destruct (AsSlice_spec addr Ha) as (_ & _ & _ & Hl).
  assert (Hr : uint16 record 2 = q_qtype q /\ uint16 record 4 = classINET /\ take (Z.to_nat (uint16 record 10)) (drop 12 record) = AsSlice addr).
  { rewrite Hty. unfold record. destruct (a_is6 addr); injection Ek as <- <-.
    - split_and!; [reflexivity|reflexivity|]. change (drop 12 _) with (AsSlice addr). change (uint16 _ 10) with 16. apply take_ge. rewrite Hl. simpl. lia.
    - split_and!; [reflexivity|reflexivity|]. change (drop 12 _) with (AsSlice addr). change (uint16 _ 10) with 4. apply take_ge. rewrite Hl. simpl. lia. }
  destruct Hr as (-> & -> & ->). rewrite AddrFromSlice_AsSlice by done. rewrite !Z.eqb_refl. reflexivity.
Qed.

(** * Questions as clients write them *)

Definition encode_name (labels : list string) : list Z := concat (map (fun l => slen l :: string_bytes l) labels) ++ [0].
Definition encode_query (id flags : Z) (labels : list string) (qtype : Z) : list Z :=
  be_bytes 2 id ++ be_bytes 2 flags ++ [0; 1; 0; 0; 0; 0; 0; 0] ++ encode_name labels ++ be_bytes 2 qtype ++ be_bytes 2 classINET.
Lemma len_string_bytes s : len (string_bytes s) = slen s.
Proof. unfold string_bytes. rewrite length_map, length_bytes_of. done. Qed.
Lemma small_label n : 1 <= n <= 63 -> (n =? 0) = false /\ negb (Z.land n 192 =? 0) = false.
Proof.
  intros H. split; [by apply Z.eqb_neq; lia|]. apply negb_false_iff, Z.eqb_eq. change 192 with (Z.shiftl 3 6).
  apply Z.bits_inj'. intros k Hk. rewrite Z.land_spec, Z.bits_0, Z.shiftl_spec by done. destruct (Z.lt_ge_cases k 6).
  - rewrite (Z.testbit_neg_r 3) by lia. apply andb_false_r.
  - rewrite (Z.bits_above_log2 n k); [done|lia|]. apply Z.log2_lt_pow2; [lia|]. apply Z.lt_le_trans with (2 ^ 6); [simpl; lia|]. apply Z.pow_le_mono_r; lia.
Qed.
Lemma read_encoded labels tail : Forall (fun l => 1 <= slen l <= 63) labels -> forall fuel offset acc,
  (length (encode_name labels) < fuel)%nat -> read_labels fuel (encode_name labels ++ tail) offset acc = Ok (acc ++ labels, offset + len (encode_name labels)).
Proof.
  induction 1 as [|l labels Hl Hls IH]; intros fuel offset acc Hf.
  - destruct fuel; [simpl in Hf; lia|]. cbn. by rewrite app_nil_r.
  - change (encode_name (l :: labels)) with (slen l :: (string_bytes l ++ concat (map (fun l => slen l :: string_bytes l) labels)) ++ [0]) in *.
    rewrite <- app_assoc in *. fold (encode_name labels) in *. destruct fuel as [|fuel]; [simpl in Hf; lia|].
    cbn [app read_labels]. destruct (small_label (slen l) Hl) as [-> ->]. rewrite <- app_assoc.
    pose proof (len_string_bytes l) as Hlen. rewrite length_app. rewrite (proj2 (Z.ltb_ge _ _)) by lia.
    rewrite take_app_length', drop_app_length' by lia. rewrite length_cons, length_app in Hf. rewrite IH by lia.
    rewrite bytes_string_bytes, <- app_assoc. do 2 f_equal. rewrite length_cons, length_app. lia.
Qed.

(** * Properties *)

(** [question_roundtrip]: a question that a client wrote, whatever it put behind it, is read back: its name in
    lower case, its type, and where it ends. *)
Theorem question_roundtrip id flags labels qtype behind : Forall (fun l => 1 <= slen l <= 63) labels -> 0 <= qtype < 65536 ->
  parseQuestion (encode_query id flags labels qtype ++ behind) =
    Ok (MkQuestion (to_lower (join labels ".")) qtype (len (encode_query id flags labels qtype))).
Proof.
  intros Hl Hq. unfold encode_query. set (hd := be_bytes 2 id ++ be_bytes 2 flags ++ [0; 1; 0; 0; 0; 0; 0; 0]).
  set (tc := be_bytes 2 qtype ++ be_bytes 2 classINET).
  replace (be_bytes 2 id ++ be_bytes 2 flags ++ [0; 1; 0; 0; 0; 0; 0; 0] ++ encode_name labels ++ tc) with (hd ++ encode_name labels ++ tc)
    by (unfold hd; by rewrite <- !app_assoc).
  rewrite <- !app_assoc. unfold parseQuestion, headerLen. change (Z.to_nat 12) with 12%nat. assert (Hh : length hd = 12%nat) by reflexivity.
  assert (Ht : length tc = 4%nat) by reflexivity.
  rewrite !length_app, Hh, Ht. rewrite (proj2 (Z.ltb_ge _ _)) by lia. rewrite uint16_app by lia. change (uint16 hd 4) with 1.
  cbn [negb guard obind Z.eqb Pos.eqb]. rewrite drop_app_length' by done. rewrite read_encoded by (done || lia).
  rewrite (proj2 (Z.ltb_ge _ _)) by lia. cbn [guard obind]. rewrite app_nil_l. do 2 f_equal; [|lia].
  replace (12 + len (encode_name labels)) with (len hd + len (encode_name labels)) by lia. rewrite uint16_type by lia.
  change (uint16 tc 0) with (be_value (be_bytes 2 qtype)).
  destruct (be_bytes_spec 2 qtype) as (_ & _ & ->). apply Z.mod_small. simpl. lia.
Qed.

(** [parse_in_bounds]: a question that is read ends within the message, behind the header, so that nothing the
    answers cut out of it is outside of it. *)
Theorem parse_in_bounds msg q : bytes msg -> parseQuestion msg = Ok q -> headerLen + 5 <= q_end q <= len msg.
Proof.
  intros Hb Hq. destruct (parse_split msg q Hb Hq) as (hd & used & tc & behind & -> & Hhd & Htc & Hu & _ & He & _).
  rewrite !length_app. unfold headerLen. lia.
Qed.

Lemma pick_some held t a : pick held t = Some a -> a ∈ held /\ t = (if a_is6 a then typeAAAA else typeA).
Proof.
  intros H. apply find_some_elem in H as [Ha Hp]. split; [done|]. unfold Is4 in Hp. apply orb_true_iff in Hp as [Hp|Hp]; breflect.
  - subst. by destruct (a_is6 a).
  - subst. by destruct (a_is6 a).
Qed.

(** [resolver_answers]: a name of the zone is answered here, whatever the servers of the host would say: the
    reply is to the number and the question that were asked, with the first address of the asked
    family that the name has, none when it has none of it, and the name error when nobody has the name. *)
Theorem resolver_answers {S} `{!Has Resolver S} (exchange : string -> list Z -> M S (list Z)) env query q (w : World S) :
  bytes query -> parseQuestion query = Ok q -> has_suffix (q_name q) zoneSuffix = true ->
  (forall name held, rv_records (part w) !! name = Some held -> Forall addr_wf held) ->
  wp env (handle exchange query) (fun r w' => part w' = part (T:=Resolver) w /\
    (forall other, r = fst (handle other query env w)) /\
    exists reply, r = Ok (Some reply) /\ read_answer reply = Some (match rv_records (part w) !! q_name q with
      | None => MkReading (uint16 query 0) q rcodeNameError None
      | Some held => MkReading (uint16 query 0) q 0 (pick held (q_qtype q))
      end)) w.
Proof.
  intros Hb Hq Hz Hw. unfold handle at 1. rewrite Hq, Hz. cbn [negb]. apply wp_bind, wp_peek. rewrite wp_ret. split; [done|]. split.
  { intros other. unfold handle. rewrite Hq, Hz. reflexivity. }
  eexists. split; [reflexivity|]. destruct (rv_records (part w) !! q_name q) as [held|] eqn:E; [|apply empty_read; auto].
  destruct (pick held (q_qtype q)) as [a|] eqn:Ep; [|apply empty_read; auto]. destruct (pick_some _ _ _ Ep) as [Ha Ht].
  apply answer_read; [done|done| |done]. specialize (Hw _ _ E). rewrite Forall_forall in Hw. auto.
Qed.

(** * The zone *)

(** Every address that is kept is one. *)
Lemma parsed_wf ips : Forall addr_wf (parsed ips).
Proof.
  unfold parsed. induction ips as [|ip ips IH]; [constructor|]. cbn [omap list_omap]. destruct (ParseAddr (bytes_of ip)) as [a|] eqn:E; [|done].
  destruct (Is4In6 a); [done|]. constructor; [by eapply ParseAddr_wf|done].
Qed.
Definition kept (ips : list string) : option (list Addr) := match parsed ips with [] => None | held => Some held end.
Lemma gather_from records m k : NoDup (map (fun r => key_of (fst r)) records) -> (forall name ips, (name, ips) ∈ records -> m !! key_of name = None) ->
  fold_left gather_one records m !! k =
  match List.find (fun r => String.eqb (key_of (fst r)) k) records with Some r => kept (snd r) | None => m !! k end.
Proof.
  revert m. induction records as [|[name ips] records IH]; intros m Hn Hm; [done|]. cbn [fold_left List.find fst snd map] in *.
  apply NoDup_cons in Hn as [Hn1 Hn]. set (m' := gather_one m (name, ips)).
  assert (Hm' : forall k, m' !! k = if String.eqb (key_of name) k then kept ips else m !! k).
  { intros j. unfold m', gather_one, kept. cbn [fst snd]. pose proof (Hm name ips ltac:(by left)) as H0. destruct (parsed ips) as [|a l].
    - destruct (String.eqb_spec (key_of name) j) as [<-|]; done.
    - rewrite H0. cbn [default app]. destruct (String.eqb_spec (key_of name) j) as [<-|]; [by rewrite lookup_insert_eq|by rewrite lookup_insert_ne]. }
  rewrite IH; [|done|].
  - destruct (String.eqb_spec (key_of name) k) as [<-|Hne].
    + assert (List.find (fun r => String.eqb (key_of (fst r)) (key_of name)) records = None) as ->.
      { destruct (List.find _ _) as [[n2 i2]|] eqn:E; [|done]. exfalso. apply find_some_elem in E as [Hin E%String.eqb_eq]. apply Hn1.
        rewrite <- E. apply (list_elem_of_fmap_2 (fun r => key_of (fst r)) records (n2, i2) Hin). }
      rewrite Hm'. by rewrite String.eqb_refl.
    + destruct (List.find _ _); [done|]. rewrite Hm'. by destruct (String.eqb_spec (key_of name) k).
  - intros n2 i2 Hin. rewrite Hm'. destruct (String.eqb_spec (key_of name) (key_of n2)) as [E|]; [|apply (Hm n2 i2); by right].
    exfalso. apply Hn1. rewrite E. apply (list_elem_of_fmap_2 (fun r => key_of (fst r)) records (n2, i2) Hin).
Qed.

(** [zone_served]: once the records of the control plane are in, whatever order they came in, a question for a
    name of the zone gets the first address of the asked family that the control plane listed under
    that name, and the name error when it listed none that can be read. *)
Theorem zone_served {S} `{!Has Resolver S} (exchange : string -> list Z -> M S (list Z)) env query q (zone : gmap string (list string)) records (w : World S) :
  bytes query -> parseQuestion query = Ok q -> has_suffix (q_name q) zoneSuffix = true ->
  records ≡ₚ map_to_list zone -> (forall name, name ∈ dom zone -> key_of name = name) ->
  wp env (Update records ;;; handle exchange query) (fun r _ => exists reply, r = Ok (Some reply) /\
    read_answer reply = Some (match zone !! q_name q ≫= kept with
      | None => MkReading (uint16 query 0) q rcodeNameError None
      | Some held => MkReading (uint16 query 0) q 0 (pick held (q_qtype q))
      end)) w.
Proof.
  intros Hb Hq Hz Hp Hk. apply wp_bind. unfold Update. apply wp_locked. cbn [fst snd]. intros w' Hw' _.
  assert (Hkeys : map (fun r => key_of (fst r)) records = map fst records).
  { apply map_ext_in. intros [n ips] Hin%list_elem_of_In. cbn [fst]. apply Hk. rewrite Hp in Hin. apply elem_of_map_to_list in Hin. by apply elem_of_dom. }
  assert (Hnd : NoDup (map (fun r => key_of (fst r)) records)).
  { rewrite Hkeys. rewrite Hp. apply NoDup_fst_map_to_list. }
  assert (Hlk : forall k, gather records !! k = zone !! k ≫= kept).
  { intros k. unfold gather. rewrite gather_from by (done || (intros; apply lookup_empty)). rewrite lookup_empty.
    destruct (List.find _ _) as [[n ips]|] eqn:E.
    - apply find_some_elem in E as [Hin E%String.eqb_eq]. cbn [fst snd] in *. pose proof Hin as Hin'. rewrite Hp in Hin'. apply elem_of_map_to_list in Hin'.
      rewrite Hk in E by (by apply elem_of_dom). subst. by rewrite Hin'.
    - destruct (zone !! k) as [ips|] eqn:Ez; [|done]. exfalso. apply elem_of_map_to_list in Ez as Hin. rewrite <- Hp in Hin.
      pose proof (List.find_none _ _ E (k, ips) (proj1 (list_elem_of_In _ _) Hin)) as Hf. cbn [fst] in Hf.
      rewrite Hk in Hf by (by apply elem_of_dom). by rewrite String.eqb_refl in Hf. }
  assert (Hrec : rv_records (part (T:=Resolver) w') = gather records) by (by rewrite Hw').
  eapply wp_mono; [|apply (resolver_answers exchange env query q w' Hb Hq Hz)].
  - intros r w2 (_ & _ & reply & -> & Hr). exists reply. split; [done|]. rewrite Hr, Hrec, Hlk. done.
  - intros name held. rewrite Hrec, Hlk. destruct (zone !! name) as [ips|]; [|done]. cbn. unfold kept. destruct (parsed ips) eqn:E; [done|].
    intros [= <-]. rewrite <- E. apply parsed_wf.
Qed.

(** ** Runs *)

Module Demo.
Definition env : Env := {| env_now n := Z.of_nat n * second; env_rand n := [Z.of_nat n]; env_io _ := false |}.
Definition exchange (_ : string) (_ : list Z) : M Resolver (list Z) := fail (EText "no route to host").
Definition labels : list string := ["Web"; "default"; "internal"].
Definition query : list Z := encode_query 4660 256 labels typeA.
Definition q : question := MkQuestion "web.default.internal" typeA 38.
Definition web4 : Addr := MkAddr false 167772165.
Definition web6 : Addr := MkAddr true 5.
Definition w0 : World Resolver := MkWorld (MkResolver {["web.default.internal" := [web6; web4]]} ["9.9.9.9"] ∅) O [].
Lemma query_bytes : bytes query.
Proof. unfold bytes. apply Forall_forall. intros b Hb. vm_compute in Hb. repeat (apply elem_of_cons in Hb as [->|Hb]; [lia|]). by apply not_elem_of_nil in Hb. Qed.
Lemma records_wf name held : rv_records (part w0) !! name = Some held -> Forall addr_wf held.
Proof.
  change (rv_records (part w0)) with ({["web.default.internal" := [web6; web4]]} : gmap string (list Addr)).
  intros H. apply lookup_singleton_Some in H as [_ <-]. repeat (apply Forall_cons; split; [unfold addr_wf; vm_compute; split; [discriminate|reflexivity]|]). constructor.
Qed.
Definition zone : gmap string (list string) := {["web.default.internal" := ["fd00::5"; "10.0.0.5"]]}.
Definition run : outcome (option (list Z)) := fst ((Update [("web.default.internal", ["fd00::5"; "10.0.0.5"])] ;;; handle exchange query) env w0).
Lemma zone_listed : [("web.default.internal", ["fd00::5"; "10.0.0.5"])] ≡ₚ map_to_list zone.
Proof. unfold zone. by rewrite map_to_list_singleton. Qed.
Lemma zone_keys name : name ∈ dom zone -> key_of name = name.
Proof. unfold zone. rewrite dom_singleton_L. intros ->%elem_of_singleton. reflexivity. Qed.
End Demo.
Lemma question_roundtrip_witness : parseQuestion (Demo.query ++ [1; 2; 3]) = Ok Demo.q.
Proof.
  assert (Hl : Forall (fun l => 1 <= slen l <= 63) Demo.labels) by (repeat (apply Forall_cons; split; [vm_compute; split; discriminate|]); constructor).
  pose proof (question_roundtrip 4660 256 Demo.labels typeA [1; 2; 3] Hl ltac:(unfold typeA; lia)) as H. exact H.
Defined.
Lemma parse_in_bounds_witness : parseQuestion Demo.query = Ok Demo.q /\ headerLen + 5 <= q_end Demo.q <= len Demo.query.
Proof.
  assert (E : parseQuestion Demo.query = Ok Demo.q) by (vm_compute; reflexivity). split; [exact E|].
  exact (parse_in_bounds Demo.query Demo.q Demo.query_bytes E).
Defined.
Lemma resolver_answers_witness : exists reply, fst (handle Demo.exchange Demo.query Demo.env Demo.w0) = Ok (Some reply) /\
  read_answer reply = Some (MkReading 4660 Demo.q 0 (Some Demo.web4)).
Proof.
  assert (E : parseQuestion Demo.query = Ok Demo.q) by (vm_compute; reflexivity).
  pose proof (resolver_answers Demo.exchange Demo.env Demo.query Demo.q Demo.w0 Demo.query_bytes E eq_refl Demo.records_wf) as H.
  unfold wp in H. destruct (handle _ _ _ _) as [r w']. destruct H as (_ & _ & reply & -> & Hr). exists reply. split; [reflexivity|exact Hr].
Defined.
Lemma zone_served_witness : exists reply, Demo.run = Ok (Some reply) /\ read_answer reply = Some (MkReading 4660 Demo.q 0 (Some Demo.web4)).
Proof.
  assert (E : parseQuestion Demo.query = Ok Demo.q) by (vm_compute; reflexivity).
  pose proof (zone_served Demo.exchange Demo.env Demo.query Demo.q Demo.zone _ Demo.w0 Demo.query_bytes E eq_refl Demo.zone_listed Demo.zone_keys) as H.
  unfold Demo.run. unfold wp in H. destruct ((_ ;;; _) _ _) as [r w']. destruct H as (reply & -> & Hr). exists reply. split; [reflexivity|].
  rewrite Hr. vm_compute. reflexivity.
Defined.
