(* ===== verification/Names.v ===== *)
(** Names of instances (internal/platform/dns): the records the nodes' resolvers serve, put together from
    the instances, their addresses and the names of the networks, as app/adapters.go wires them. *)
From stdpp Require Import base tactics numbers strings list gmap sorting.
From Stdlib Require Import ZArith Lia.
From S2P Require Import Prelude GoLang Effects Kernel Httpx Tables.
From S2P Require Paging InstanceSpec Instance Netip Network.

(** * The module (dns.go) *)

Definition Suffix : string := "internal".
(* go: platform/dns/dns.go InstanceRef *)
Record InstanceRef := MkInstanceRef { ir_ID : string; ir_Name : string; ir_NetworkID : string }.
(* go: platform/dns/dns.go InstanceSource *)
Record InstanceSource (S : Type) := { AllInstances : M S (list InstanceRef) }.
Arguments AllInstances {S} _.
(* go: platform/dns/dns.go AddressSource *)
Record AddressSource (S : Type) := {
  AllAddresses : M S (gmap string string); AllAddresses6 : M S (gmap string string); NetworkNames : M S (gmap string string);
}.
Arguments AllAddresses {S} _.
Arguments AllAddresses6 {S} _.
Arguments NetworkNames {S} _.
(* go: platform/dns/dns.go Record *)
Record Record_ := MkRecord { r_FQDN : string; r_IP : string }.
(* go: platform/dns/dns.go recordResponse *)
Record recordResponse := MkRecordResponse { o_FQDN : string; o_IP : string }.

(** The records of one instance. *)
Definition records_of (addresses second networks : gmap string string) (i : InstanceRef) : list Record_ :=
  match addresses !! ir_ID i, networks !! ir_NetworkID i with
  | Some ip, Some zone =>
      let fqdn := join [ir_Name i; zone; Suffix] "." in
      MkRecord fqdn ip :: match second !! ir_ID i with Some ip6 => [MkRecord fqdn ip6] | None => [] end
  | _, _ => []
  end.
Definition in_order : Record_ -> Record_ -> bool := by_key r_FQDN str_ltb (by_key r_IP str_ltb (fun _ _ => false)).

Section module.
Context {S : Type} (instances : InstanceSource S) (addresses : AddressSource S).
(* go: platform/dns/dns.go Module.Records *)
Definition Records : M S (list Record_) :=
  let! all := AllInstances instances in
  let! first := AllAddresses addresses in
  let! second := AllAddresses6 addresses in
  let! networks := NetworkNames addresses in
  ret (sliceStable in_order (concat (map (records_of first second networks) all))).
(* go: platform/dns/dns.go Module.handleRecords *)
Definition handleRecords : M S (Reply (list recordResponse)) :=
  let! records := Records in
  Write StatusOK (map (fun r => MkRecordResponse (r_FQDN r) (r_IP r)) records).
End module.

(** * The sources (app/adapters.go, network/module.go) *)

Section sources.
Context {S : Type} `{!Has Instance.InstState S, !Has Network.NetDB S}.
(* go: app/adapters.go dnsInstances.AllInstances *)
Definition dnsInstances : InstanceSource S := {| AllInstances :=
  let! all := Instance.list_all in
  ret (map (fun i => MkInstanceRef (Instance.in_ID i) (Instance.in_Name i) (Instance.fx_NetworkID (Instance.in_Fixed i))) all) |}.
Definition printed (m : gmap string Netip.Addr) : gmap string string := Netip.addr_String <$> m.
(* go: platform/network/module.go Module.NetworkNames *)
Definition networkNames : M S (gmap string string) :=
  let! networks := Network.listAll in
  ret (fold_left (fun m n => <[Network.nw_ID n := Network.nw_Name n]> m) networks ∅).
(* go: platform/network/service.go service.allAddresses *)
Definition allAddresses : M S (gmap string string) := let! m := Network.translated Network.allAddresses in ret (printed m).
(* go: platform/network/service.go service.allAddresses6 *)
Definition allAddresses6 : M S (gmap string string) := let! m := Network.translated Network.allAddresses6 in ret (printed m).
Definition networks : AddressSource S := {| AllAddresses := allAddresses; AllAddresses6 := allAddresses6; NetworkNames := networkNames |}.
End sources.

(** * What is served *)

Lemma fold_insert {R V} (key : R -> string) (value : R -> V) rows (m : gmap string V) k :
  fold_left (fun m r => <[key r := value r]> m) rows m !! k =
  match last (List.filter (fun r => String.eqb (key r) k) rows) with Some r => Some (value r) | None => m !! k end.
Proof.
  revert m. induction rows as [|r rows IH]; intros m; [done|]. cbn [fold_left List.filter]. rewrite IH.
  destruct (String.eqb_spec (key r) k) as [<-|Hne].
  - rewrite last_cons. destruct (last _); [done|]. by rewrite lookup_insert_eq.
  - destruct (last _); [done|]. by rewrite lookup_insert_ne.
Qed.
Lemma fold_first {R V} (key : R -> string) (value : R -> option V) rows (m : gmap string V) k :
  fold_left (fun m r => match value r, m !! key r with Some v, None => <[key r := v]> m | _, _ => m end) rows m !! k =
  match m !! k with Some v => Some v | None => head (omap (fun r => if String.eqb (key r) k then value r else None) rows) end.
Proof.
  revert m. induction rows as [|r rows IH]; intros m; [cbn; by destruct (m !! k)|]. cbn [fold_left omap list_omap]. rewrite IH.
  destruct (String.eqb_spec (key r) k) as [<-|Hne].
  - destruct (value r) as [v|] eqn:Ev; [|done]. destruct (m !! key r) eqn:Em; [by rewrite Em|]. by rewrite lookup_insert_eq.
  - destruct (value r) as [v|]; [|done]. destruct (m !! key r); [done|]. by rewrite lookup_insert_ne.
Qed.

Section served.
Import Network.
(** The interface whose address an instance is named with: the one that was stored last, whatever network it
    is on; the second address is the one of its first device that has one. *)
Definition named_nic (db : NetDB) (id : string) : option NIC := last (List.filter (fun c => String.eqb (nic_InstanceID c) id) (db_nics db)).
Definition second_address (db : NetDB) (id : string) : option Netip.Addr :=
  head (omap (fun c => if String.eqb (nic_InstanceID c) id then nic_IP6 c else None) (sliceStable by_device (db_nics db))).
Definition fqdn (name zone : string) : string := name +:+ "." +:+ zone +:+ "." +:+ Suffix.
(** A record of an instance: its network is there, it has an interface, and the address is one of the two. *)
Definition true_record (all : list Instance.Instance) (db : NetDB) (x : Record_) : Prop :=
  exists i n c, i ∈ all /\ n ∈ db_networks db /\ nw_ID n = Instance.fx_NetworkID (Instance.in_Fixed i) /\
    named_nic db (Instance.in_ID i) = Some c /\ r_FQDN x = fqdn (Instance.in_Name i) (nw_Name n) /\
    (r_IP x = Netip.addr_String (nic_IP c) \/ exists a, second_address db (Instance.in_ID i) = Some a /\ r_IP x = Netip.addr_String a).
End served.

Lemma records_of_elem first second networks i x : x ∈ records_of first second networks i <-> exists ip zone,
  first !! ir_ID i = Some ip /\ networks !! ir_NetworkID i = Some zone /\ r_FQDN x = fqdn (ir_Name i) zone /\
  (r_IP x = ip \/ second !! ir_ID i = Some (r_IP x)).
Proof.
  unfold records_of, fqdn. split.
  - destruct (first !! _) as [ip|]; [|intros H; by apply not_elem_of_nil in H]. destruct (networks !! _) as [zone|]; [|intros H; by apply not_elem_of_nil in H].
    intros [->|H]%elem_of_cons; exists ip, zone; [split_and!; auto|]. destruct (second !! _) as [ip6|] eqn:E; [|by apply not_elem_of_nil in H].
    apply list_elem_of_singleton in H as ->. split_and!; auto.
  - intros (ip & zone & -> & -> & Ef & Hip). destruct x as [f p]. cbn [r_FQDN r_IP] in *. subst f. apply elem_of_cons.
    destruct Hip as [->|E]; [by left|right]. rewrite E. by apply list_elem_of_singleton.
Qed.

Lemma elem_of_concat_map {A B} (f : A -> list B) l x : x ∈ concat (map f l) <-> exists y, y ∈ l /\ x ∈ f y.
Proof.
  rewrite list_elem_of_In, in_concat. split.
  - intros (k & (y & <- & Hy)%in_map_iff & Hx). exists y. by rewrite !list_elem_of_In.
  - intros (y & Hy & Hx). exists (f y). rewrite in_map_iff, <- list_elem_of_In. split; [|done]. exists y. by rewrite <- list_elem_of_In.
Qed.
(** The names of the networks, by their ids. *)
Lemma named_network rows less k name : unique_by (fun n => Some (Network.nw_ID n)) rows ->
  fold_left (fun (m : gmap string string) n => <[Network.nw_ID n := Network.nw_Name n]> m) (sliceStable less rows) ∅ !! k = Some name <->
  exists n, n ∈ rows /\ Network.nw_ID n = k /\ Network.nw_Name n = name.
Proof.
  intros Hu. rewrite fold_insert, lookup_empty. destruct (last _) as [n|] eqn:E.
  - apply last_Some in E as [l E]. assert (Hn : n ∈ List.filter (fun n => String.eqb (Network.nw_ID n) k) (sliceStable less rows)) by (rewrite E; set_solver).
    apply elem_of_filter_bool in Hn as [Hn Ek%String.eqb_eq]. rewrite sliceStable_perm in Hn. split.
    + intros [= <-]. eauto.
    + intros (n2 & Hn2 & E2 & <-). do 2 f_equal. eapply (unique_by_eq _ _ _ _ k Hu); [done|done|by rewrite Ek|by rewrite E2].
  - split; [done|]. intros (n & Hn & Ek & _). apply last_None in E.
    assert (Hin : n ∈ List.filter (fun n => String.eqb (Network.nw_ID n) k) (sliceStable less rows)).
    { apply elem_of_filter_bool. rewrite sliceStable_perm. split; [done|by apply String.eqb_eq]. }
    rewrite E in Hin. by apply not_elem_of_nil in Hin.
Qed.

(** [records_exact]: the records are those of the instances that have an interface and whose network exists,
    under the name, the network and the suffix, sorted by name and address; nothing is changed. *)
Theorem records_exact {S} `{!Has Instance.InstState S, !Has Network.NetDB S} env (w : World S) :
  unique_by (fun n => Some (Network.nw_ID n)) (Network.db_networks (part w)) ->
  wp env (Records dnsInstances networks) (fun r w' => w_st w' = w_st w /\ forall rs, r = Ok rs -> sorted_by in_order rs /\
    forall x, x ∈ rs <-> true_record (Instance.db_instances (part w)) (part w) x) w.
Proof.
  intros Hn. unfold Records. cbn [AllInstances dnsInstances AllAddresses AllAddresses6 NetworkNames networks].
  apply wp_bind, wp_bind, wp_mapped, wp_read. intros r [->| ->]; cbn [or_fault]; [done|]. rewrite wp_ret.
  apply wp_bind. unfold allAddresses. apply wp_bind, wp_mapped, wp_read. intros r [->| ->]; cbn [or_fault]; [done|]. rewrite wp_ret.
  apply wp_bind. unfold allAddresses6. apply wp_bind, wp_mapped, wp_read. intros r [->| ->]; cbn [or_fault]; [done|]. rewrite wp_ret.
  apply wp_bind. unfold networkNames, Network.listAll. apply wp_bind, wp_mapped, wp_read. intros r [->| ->]; cbn [or_fault]; [done|]. rewrite wp_ret.
  rewrite wp_ret. split; [done|]. intros rs [= <-]. split; [apply sliceStable_sorted; typeclasses eauto|].
  intros x. rewrite sliceStable_perm, elem_of_concat_map.
  change (part (T:=Network.NetDB) (tick w)) with (part (T:=Network.NetDB) w).
  change (part (T:=Network.NetDB) (tick (tick w))) with (part (T:=Network.NetDB) w).
  change (part (T:=Network.NetDB) (tick (tick (tick w)))) with (part (T:=Network.NetDB) w).
  assert (E1 : forall id, printed (fold_left (fun m c => <[Network.nic_InstanceID c := Network.nic_IP c]> m) (Network.db_nics (part w)) ∅) !! id =
    (fun c => Netip.addr_String (Network.nic_IP c)) <$> named_nic (part w) id).
  { intros id. unfold printed, named_nic. rewrite lookup_fmap, fold_insert, lookup_empty. by destruct (last _). }
  assert (E2 : forall id, printed (fold_left (fun m c => match Network.nic_IP6 c, m !! Network.nic_InstanceID c with
      | Some ip, None => <[Network.nic_InstanceID c := ip]> m | _, _ => m end) (sliceStable Network.by_device (Network.db_nics (part w))) ∅) !! id =
    Netip.addr_String <$> second_address (part w) id).
  { intros id. unfold printed, second_address. by rewrite lookup_fmap, fold_first, lookup_empty. }
  pose proof (fun k name => named_network (Network.db_networks (part w)) Network.by_name k name Hn) as E3.
  unfold true_record. split.
  - intros (r & Hr & Hx). apply list_elem_of_fmap in Hr as (i & -> & Hi). unfold Paging.listed in Hi. rewrite sliceStable_perm, filter_true in Hi.
    apply records_of_elem in Hx as (ip & zone & Ei & Ez & Ef & Hip). cbn [ir_ID ir_Name ir_NetworkID] in *. rewrite E1 in Ei. rewrite E2 in Hip.
    apply E3 in Ez as (n & Hnet & En & <-). apply fmap_Some in Ei as (c & Ec & ->). exists i, n, c. split_and!; try done.
    destruct Hip as [->|H6]; [by left|right]. apply fmap_Some in H6 as (a & Ea & Er). eauto.
  - intros (i & n & c & Hi & Hnet & En & Ec & Ef & Hip).
    exists (MkInstanceRef (Instance.in_ID i) (Instance.in_Name i) (Instance.fx_NetworkID (Instance.in_Fixed i))). split.
    + apply list_elem_of_fmap. exists i. split; [done|]. unfold Paging.listed. by rewrite sliceStable_perm, filter_true.
    + apply records_of_elem. cbn [ir_ID ir_Name ir_NetworkID]. exists (Netip.addr_String (Network.nic_IP c)), (Network.nw_Name n). rewrite E1, E2, Ec.
      split_and!; [done|by apply E3; eauto|done|]. destruct Hip as [->|(a & -> & ->)]; [by left|by right].
Qed.

(** ** Runs *)

Module Demo.
Definition St : Type := Instance.InstState * Network.NetDB.
#[export] Instance has_instances : Has Instance.InstState St := Has_fst _ _.
#[export] Instance has_networks : Has Network.NetDB St := Has_snd _ _.
Definition env : Env := {| env_now n := Z.of_nat n * second; env_rand n := [Z.of_nat n]; env_io _ := false |}.
Definition instance (id project name network : string) (extra : list string) : Instance.Instance :=
  Instance.MkInstance id (Instance.MkFixed project name "vm" "debian" "" "" 0 "" [] network "" "" "" false ∅ "" "" [] "" [] extra [] 0)
    2 1024 0 "running" "running" "" None false false "" "nd-a" 0.
(** 10.[k].0.0/16 *)
Definition network (id project name : string) (k : Z) : Network.Network :=
  Network.MkNetwork id project name (Netip.PrefixFrom (Netip.MkAddr false (167772160 + k * 65536)) 16) "" None "" "br0" 0.
Definition slice (id : string) (k : Z) : Network.Slice :=
  Network.MkSlice id "nd-a" (Netip.PrefixFrom (Netip.MkAddr false (167772160 + k * 65536)) 26) None 0.
Definition nic (id network : string) (device k : Z) : Network.NIC :=
  Network.MkNIC id network device "nd-a" (Netip.MkAddr false (167772160 + k * 65536 + 2)) None "02:00:00:00:00:01" 0.
Definition world (instances : list Instance.Instance) (db : Network.NetDB) : World St := MkWorld (Instance.MkInstState instances ∅, db) O [].
(** Two projects with a network of the same name and an instance of the same name. *)
Definition neighbours : World St := world [instance "i-1" "prj-1" "web" "net-1" []; instance "i-2" "prj-2" "web" "net-2" []]
  (Network.MkNetDB [network "net-1" "prj-1" "default" 1; network "net-2" "prj-2" "default" 2] [slice "net-1" 1; slice "net-2" 2]
     [nic "i-1" "net-1" 0 1; nic "i-2" "net-2" 0 2]).
(** One instance with an interface on a second network. *)
Definition dual : World St := world [instance "i-1" "prj-1" "web" "net-1" ["net-2"]]
  (Network.MkNetDB [network "net-1" "prj-1" "default" 1; network "net-2" "prj-1" "storage" 2] [slice "net-1" 1; slice "net-2" 2]
     [nic "i-1" "net-1" 0 1; nic "i-1" "net-2" 1 2]).
Definition listed (w : World St) : outcome (list Record_) := fst (Records dnsInstances networks env w).
End Demo.
Import Demo.

(** [tenants_share_names]: the name says nothing of the project: the instances of two projects that have the same
    name, on networks that have the same name, are listed under one name, and each tenant is answered
    with the address of the other's instance, whichever comes first. *)
Theorem tenants_share_names : Demo.listed Demo.neighbours = Ok [MkRecord "web.default.internal" "10.1.0.2"; MkRecord "web.default.internal" "10.2.0.2"].
Proof. vm_compute. reflexivity. Qed.
(** [named_by_the_last_interface]: an instance with a second network is listed under the name of its first, with the
    address it has on the second. *)
Theorem named_by_the_last_interface : Demo.listed Demo.dual = Ok [MkRecord "web.default.internal" "10.2.0.2"].
Proof. vm_compute. reflexivity. Qed.
Lemma records_exact_witness : true_record (Instance.db_instances (part Demo.dual)) (part Demo.dual) (MkRecord "web.default.internal" "10.2.0.2").
Proof.
  pose proof (records_exact Demo.env Demo.dual ltac:(apply (bool_decide_unpack _); vm_compute; exact I)) as H.
  pose proof named_by_the_last_interface as E. unfold Demo.listed in E. unfold wp in H. destruct (Records _ _ _ _) as [r w'].
  apply (proj2 (proj2 H _ E)). apply list_elem_of_here.
Defined.
