(* ===== verification/Adapters.v ===== *)
(** The modules put together (internal/app/adapters.go): what each module is given of the others,
    and what follows for the whole.

    A module takes what it needs of the others through interfaces, and its theorems quantify over
    what they answer.  Here the interfaces are the ones the process is started with: every adapter
    is a definition over the operations of the module it adapts, and the theorems are about several
    tables at once.  A project never grows past its limits, whoever asks; a deleted instance leaves
    no row in any table that names it; a pass of the scheduler puts an instance only on a node that
    was ready and fits its selector; what the alerts and the autoscaler are told is what the nodes
    reported last; and a service is only ever scaled within its policy. *)
From stdpp Require Import base tactics numbers strings list gmap.
From Stdlib Require Import ZArith Lia.
From S2P Require Import Prelude GoLang Effects Kernel Tables Float64.
From S2P Require Sealed Certs.
From S2P Require InstanceSpec Instance Node Network Quota Scheduler Autoscale ServiceSet Volume Balancer Forward Job Token Backup Usage Alert.

(** * Look-ups

    [m] changes nothing. *)
Definition still {S A} (m : M S A) : Prop := steps (fun w w' => w_st w' = w_st w) m.
#[export] Instance still_pre S : PreOrder (fun w w' : World S => w_st w' = w_st w).
Proof. split; [done|]. intros x y z H1 H2. congruence. Qed.
Create HintDb still.
Lemma still_ret {S A} (a : A) : still (S:=S) (ret a).
Proof. by intros ? ?. Qed.
Lemma still_fail {S A} e : still (S:=S) (fail (A:=A) e).
Proof. by intros ? ?. Qed.
Lemma still_lift {S A} (o : outcome A) : still (S:=S) (lift o).
Proof. by intros ? ?. Qed.
Lemma still_now {S} : still (S:=S) now.
Proof. by intros ? ?. Qed.
Lemma still_rand {S} : still (S:=S) rand.
Proof. by intros ? ?. Qed.
Lemma still_bind {S A B} (m : M S A) (k : A -> M S B) : still m -> (forall a, still (k a)) -> still (bind m k).
Proof. apply steps_bind. typeclasses eauto. Qed.
Lemma still_attempt {S A} (m : M S A) : still m -> still (attempt m).
Proof. apply steps_attempt. Qed.
Lemma still_mapped {S A} f (m : M S A) : still m -> still (mapped f m).
Proof. intros H. apply still_bind; [by apply still_attempt|]. intros x. apply still_lift. Qed.
Lemma still_query {T S A} `{!Has T S} what (q : T -> outcome A) : still (S:=S) (query what q).
Proof. apply steps_query. done. Qed.
Lemma still_foldM {S X A} (body : X -> A -> M S A) xs a : (forall x a, still (body x a)) -> still (foldM body xs a).
Proof. intros H. apply steps_foldM; [typeclasses eauto|]. intros. apply H. Qed.
#[export] Hint Resolve still_ret still_fail still_lift still_now still_rand still_bind still_attempt still_mapped still_query still_foldM : still.
#[export] Hint Extern 2 (still (match ?x with _ => _ end)) => destruct x : still.
#[export] Hint Extern 2 (still (if ?x then _ else _)) => destruct x : still.
Lemma wp_still {S A} (m : M S A) (env : Env) (Q : outcome A -> World S -> Prop) w :
  still m -> (forall r w', w_st w' = w_st w -> Q r w') -> wp env m Q w.
Proof. intros Hm HQ. specialize (Hm env w). unfold wp. destruct (m env w). by apply HQ. Qed.
(** What a look-up yields, at a state that stays. *)
Lemma wp_yields {T S A} `{!Has T S} (m : M S A) (P : A -> Prop) (env : Env) (Q : outcome A -> World S -> Prop) w :
  still m -> yields (part (T:=T) w) m P -> (forall r w', w_st w' = w_st w -> (forall a, r = Ok a -> P a) -> Q r w') -> wp env m Q w.
Proof.
  intros Hm Hy HQ. specialize (Hm env w). specialize (Hy env w I eq_refl). unfold wp in *. destruct (m env w) as [r w'].
  apply HQ; [done|]. intros a ->. naive_solver.
Qed.
Lemma part_still {T S} `{!Has T S} (w w' : World S) : w_st w' = w_st w -> part (T:=T) w' = part w.
Proof. unfold part. congruence. Qed.

(** * The adapters *)

Section nodes.
Context {S : Type} `{!Has Node.NodeDB S}.
(* go: app/adapters.go:29-76 nodeSource *)
Definition nodeSource : Scheduler.NodeSource S := {|
  Scheduler.ReadyNodes :=
    let! ready := Node.ReadyNodes in
    ret (map (fun n => Scheduler.MkCandidate (Node.nd_ID n) (Node.nd_Name n) (Node.nd_Zone n) (Node.nd_Labels n)) ready);
  Scheduler.UnreachableNodes := fun grace => let! lost := Node.NodesUnreachableFor grace in ret (map Node.nd_ID lost);
  Scheduler.DrainingNodes := let! draining := Node.DrainingNodes in ret (map Node.nd_ID draining);
  Scheduler.FinishDraining := Node.FinishDraining;
|}.
(** The module itself serves the two interfaces of devices (node/device.go). *)
Definition nodeDevices : Scheduler.DeviceSource S := {| Scheduler.FreeDevice := Node.FreeDevice; Scheduler.ClaimDevice := Node.ClaimDevice |}.
End nodes.

Section instances.
Context {S : Type} `{!Has Instance.InstState S} (deps : Instance.Deps S).
Import Instance.
(* go: app/adapters.go:89-101 scheduler.Pending *)
Definition pending_of (i : Instance) : Scheduler.Pending :=
  Scheduler.MkPending (in_ID i) (in_ProjectID i) (in_Name i) (fx_NetworkID (in_Fixed i)) (fx_Group (in_Fixed i)) (fx_Strict (in_Fixed i))
    (fx_NodeSelector (in_Fixed i)) (fx_ExtraNetworks (in_Fixed i)) (fx_Device (in_Fixed i)).
(* go: app/adapters.go:116-126 scheduler.Stranded *)
Definition stranded_of (i : Instance) : Scheduler.Stranded :=
  Scheduler.MkStranded (in_ID i) (in_ProjectID i) (in_Name i) (in_NodeID i) (fx_Isolation (in_Fixed i)) (in_Migrating i) (in_DiskParked i).
(* go: app/adapters.go:78-140 instanceSource *)
Definition instanceSource : Scheduler.InstanceSource S := {|
  Scheduler.PendingPlacement := let! waiting := pendingPlacement in ret (map pending_of waiting);
  Scheduler.AssignedCounts := assignedCounts;
  Scheduler.GroupCounts := groupCounts;
  Scheduler.HoldPlacement := holdPlacement;
  Scheduler.Assign := assign;
  Scheduler.StrandedOn := fun nodeIDs => let! stranded := strandedOn nodeIDs in ret (map stranded_of stranded);
  Scheduler.BeginMigration := beginMigration;
  Scheduler.ReleasePlacement := releasePlacement deps;
|}.
(* go: app/adapters.go volumeInstances.Placement *)
Definition volumeInstances : Volume.Instances S := {| Volume.Placement := fun ref projectID =>
  let! i := getIn ref projectID in
  ret (Volume.MkPlacement (in_Observed i) (in_ID i) (in_ProjectID i) (in_NodeID i) (fx_Isolation (in_Fixed i))
         (String.eqb (in_Desired i) InstanceSpec.DesiredRunning)) |}.
(* go: app/adapters.go usageWorkloads.IDsIn *)
Definition usageWorkloads : Usage.Workloads S := {| Usage.IDsIn := fun projectID =>
  let! held := listIn projectID in ret (map in_ID held) |}.
(* go: app/adapters.go alertWorkloads.ResolveIn *)
Definition alertWorkloads : Alert.Workloads S := {| Alert.ResolveIn := fun ref projectID =>
  let! found := getIn ref projectID in ret (in_ID found) |}.

(** The files of a workload; the modules have a type of files each, the service's is the instance's. *)
(* go: app/adapters.go filesOf *)
Definition filesOf (files : list Job.File) : list InstanceSpec.File :=
  map (fun f => InstanceSpec.MkFile (Job.fl_Path f) (Job.fl_Content f) (Job.fl_Mode f)) files.
(* go: app/adapters.go:351-366 CreateParams *)
Definition job_params (w : Job.Workload) : InstanceSpec.CreateParams :=
  let t := Job.wl_Template w in
  InstanceSpec.MkCreateParams "" (Job.wl_ProjectID w) (Job.wl_Name w) "" false (Job.t_NodeSelector t) (Job.wl_Env w) (filesOf (Job.wl_Files w))
    [] [] (Job.t_Isolation t) (Job.t_Image t) "" (Job.t_Kernel t) 0 (Job.t_FirewallID t) (Job.t_Command t) (Job.t_NetworkID t)
    InstanceSpec.RestartNever (Job.t_VCPU t) (Job.t_MemoryMiB t).
(* go: app/adapters.go:346-391 jobWorkloads *)
Definition jobWorkloads : Job.Workloads S := {|
  Job.Create := fun workload => let! created := create deps (job_params workload) in ret (in_ID created);
  Job.Delete := fun projectID instanceID => delete deps instanceID projectID;
  Job.StateOf := fun instanceID =>
    let! found := get instanceID in ret (in_Observed found, in_ExitCode found, in_ObservedMessage found);
|}.
(* go: app/adapters.go instanceFiles *)
Definition instanceFiles (files : list InstanceSpec.File) : list InstanceSpec.File :=
  map (fun f => InstanceSpec.MkFile (InstanceSpec.f_Path f) (InstanceSpec.f_Content f) (InstanceSpec.f_Mode f)) files.
(* go: app/adapters.go:443-464 CreateParams *)
Definition service_params (w : ServiceSet.Workload) : InstanceSpec.CreateParams :=
  let t := ServiceSet.wl_Template w in
  InstanceSpec.MkCreateParams "" (ServiceSet.wl_ProjectID w) (ServiceSet.wl_Name w) (ServiceSet.t_Group t) (ServiceSet.t_Strict t)
    (ServiceSet.t_NodeSelector t) (ServiceSet.wl_Env w) (instanceFiles (ServiceSet.wl_Files w)) (ServiceSet.t_ExtraNetworks t)
    (ServiceSet.t_Keys t) (ServiceSet.t_Isolation t) (ServiceSet.t_Image t) (ServiceSet.t_ISO t) (ServiceSet.t_Kernel t)
    (ServiceSet.t_DiskGiB t) (ServiceSet.t_FirewallID t) (ServiceSet.t_Command t) (ServiceSet.t_NetworkID t)
    (ServiceSet.t_RestartPolicy t) (ServiceSet.t_VCPU t) (ServiceSet.t_MemoryMiB t).
(** An instance that cannot be read is left out, whatever the error. *)
(* go: app/adapters.go serviceWorkloads.StatesOf *)
Definition statesOf (instanceIDs : list string) : M S (gmap string string) :=
  foldM (fun id states =>
    let! found := attempt (get id) in
    ret (match found with Ok i => <[id := in_Observed i]> states | Err _ => states end)) instanceIDs ∅.
(* go: app/adapters.go:438-487 serviceWorkloads *)
Definition serviceWorkloads : ServiceSet.Workloads S := {|
  ServiceSet.CreateWorkload := fun workload => let! created := create deps (service_params workload) in ret (in_ID created);
  ServiceSet.DeleteWorkload := fun projectID instanceID => delete deps instanceID projectID;
  ServiceSet.StatesOf := statesOf;
|}.
End instances.

(** * Loads and samples *)

Section usage.
Context {S : Type} `{!Has Usage.UsageDB S, !Has Instance.InstState S}.
Definition staleLoad : Z := 30 * second.
(* go: app/adapters.go nodeLoad.NodeLoad *)
Definition nodeLoad : Scheduler.LoadSource S := {| Scheduler.NodeLoad :=
  let! samples := Usage.nodes in
  foldM (fun sample load =>
    let! at_ := now in
    ret (<[Usage.ns_NodeID sample :=
           Scheduler.MkLoad (wrap64 (Usage.ns_MemoryMiB sample - Usage.ns_MemoryUsedMiB sample))
             (time_sub at_ (Usage.ns_ReportedAt sample) <? staleLoad)]> load)) samples ∅ |}.
(** What share of its memory an instance uses; not known of an instance that cannot be read. *)
(* go: app/adapters.go:681-686 MemoryKnown *)
Definition memory_share (sample : Usage.InstanceSample) (found : outcome Instance.Instance) : float64 * bool :=
  match found with
  | Ok i => if 0 <? Instance.in_MemoryMiB i
            then (fmul (fdiv (of_int (Usage.is_MemoryUsedMiB sample)) (of_int (Instance.in_MemoryMiB i))) (of_int 100), true)
            else (of_int 0, false)
  | Err _ => (of_int 0, false)
  end.
(** The loop both adapters have. *)
(* go: app/adapters.go:674-688 held *)
Definition samples_of {R} (mk : Usage.InstanceSample -> float64 -> bool -> R) : M S (gmap string R) :=
  let! samples := Usage.instances_rows in
  foldM (fun sample held =>
    let! found := attempt (Instance.get (Usage.is_InstanceID sample)) in
    let '(percent, known) := memory_share sample found in
    ret (<[Usage.is_InstanceID sample := mk sample percent known]> held)) samples ∅.
(* go: app/adapters.go instanceLoad.SamplesOf *)
Definition instanceLoad : Autoscale.LoadOf S := {| Autoscale.SamplesOf := samples_of (fun sample percent known =>
  Autoscale.MkSample (Usage.is_CPUPercent sample) percent known (Usage.is_ReportedAt sample)) |}.
(* go: app/adapters.go alertLoad.SamplesOf *)
Definition alertLoad : Alert.Load S := {| Alert.SamplesOf := samples_of (fun sample percent known =>
  Alert.MkSample (Usage.is_CPUPercent sample) percent known (Usage.is_ReportedAt sample)) |}.
End usage.

(** * Addresses *)

Section addresses.
Context {S : Type} `{!Has Network.NetDB S, !Has Instance.InstState S}.
Import Instance.
(* go: app/adapters.go addressSource.Allocate *)
Definition addressSource : Scheduler.AddressSource S := {| Scheduler.Allocate := fun instanceID networkID nodeID =>
  Network.allocate instanceID networkID nodeID ;;; ret tt |}.
(** The columns ip and ip6, the second empty where there is no address. *)
Definition ip_text (n : Network.NIC) : string := Netip.addr_String (Network.nic_IP n).
Definition ip6_text (n : Network.NIC) : string := match Network.nic_IP6 n with Some a => Netip.addr_String a | None => "" end.
(* go: app/adapters.go forwardAddresses.Endpoint *)
Definition forwardAddresses : Forward.Addresses S := {| Forward.Endpoint := fun instanceID =>
  let! i := get instanceID in
  let! nic := attempt (Network.nicOf instanceID) in
  ret (match nic with
       | Err _ => Forward.MkEndpoint (in_ProjectID i) "" "" ""
       | Ok n => Forward.MkEndpoint (in_ProjectID i) (Network.nic_NodeID n) (ip_text n) (ip6_text n)
       end) |}.
(* go: app/adapters.go balancerMembers.Member *)
Definition balancerMembers : Balancer.Members S := {| Balancer.Member := fun instanceID =>
  let! i := get instanceID in
  let! nic := attempt (Network.nicOf instanceID) in
  ret (match nic with
       | Err _ => Balancer.MkMember (in_ProjectID i) (in_NodeID i) "" "" false
       | Ok n => Balancer.MkMember (in_ProjectID i) (in_NodeID i) (ip_text n) (ip6_text n)
                   (String.eqb (in_Observed i) InstanceSpec.ObservedRunning)
       end) |}.
End addresses.

(** * Services *)

Section services.
Context {S : Type} `{!Has ServiceSet.SvcDB S} (deps : ServiceSet.Deps S).
(* go: app/adapters.go asGroup *)
Definition asGroup (s : ServiceSet.Service) : Autoscale.Group :=
  Autoscale.MkGroup (ServiceSet.sv_ID s) (ServiceSet.sv_ProjectID s) (ServiceSet.sv_Name s) (ServiceSet.sv_Replicas s) (ServiceSet.Settled s)
    (map (fun m => Autoscale.MkMember (ServiceSet.mb_InstanceID m) (ServiceSet.mb_CreatedAt m)) (ServiceSet.sv_Members s)).
(* go: app/adapters.go:250-297 scalableServices *)
Definition scalableServices : Autoscale.Services S := {|
  Autoscale.GroupOf := fun projectID serviceID => let! found := ServiceSet.Describe deps projectID serviceID in ret (asGroup found);
  Autoscale.Groups := let! all := ServiceSet.All deps in ret (map asGroup all);
  Autoscale.Scale := ServiceSet.Scale deps;
|}.
End services.

(** * What a project holds *)

Section holdings.
Context {S : Type} `{!Has Instance.InstState S, !Has Volume.VolumeDB S}.
(* go: app/adapters.go projectUsage.InProject *)
Definition projectUsage : Quota.Usage S := {| Quota.InProject := fun projectID =>
  let! running := Instance.footprintIn projectID in
  let! stored := Volume.footprintIn projectID in
  ret (Quota.MkConsumed (Instance.fp_Instances running) (Instance.fp_VCPU running) (Instance.fp_MemoryMiB running)
         (Volume.fp_Volumes stored) (Volume.fp_SizeGiB stored)) |}.
(* go: app/adapters.go projectOccupancy.ResourcesIn *)
Definition projectOccupancy `{!Has Token.TokenDB S} (projectID : string) : M S Z :=
  let! held := Token.countIn projectID in
  let! running := Instance.footprintIn projectID in
  let! stored := Volume.footprintIn projectID in
  ret (wrap64 (held + Instance.fp_Instances running + Volume.fp_Volumes stored)).

Context `{!Has Quota.QuotaDB S} (usage : option (Quota.Usage S)).
(* go: app/adapters.go:578-599 instanceQuota *)
Definition instanceQuota : Instance.Quota S := {|
  Instance.AdmitInstance := fun projectID vcpu memoryMiB => Quota.admit_claim usage projectID (Quota.MkClaim 1 vcpu memoryMiB 0 0);
  Instance.AdmitGrowth := fun projectID vcpu memoryMiB => Quota.admit_claim usage projectID (Quota.MkClaim 0 vcpu memoryMiB 0 0);
|}.
(* go: app/adapters.go:601-613 volumeQuota *)
Definition volumeQuota : Volume.VolumeQuota S := {|
  Volume.AdmitVolume := fun projectID sizeGiB => Quota.admit_claim usage projectID (Quota.MkClaim 0 0 0 1 sizeGiB);
  Volume.AdmitVolumeGrowth := fun projectID extraGiB => Quota.admit_claim usage projectID (Quota.MkClaim 0 0 0 0 extraGiB);
|}.
End holdings.

(** * Volumes and their backups *)

Section backups.
Context {S : Type}.
(* go: app/adapters.go backupVolumes.Source *)
Definition backupVolumes `{!Has Volume.VolumeDB S} : Backup.Volumes S := {| Backup.Source := fun volumeID projectID =>
  let! v := Volume.resolveIn volumeID projectID in
  ret (Backup.MkSource (Volume.v_ID v) (Volume.v_ProjectID v) (Volume.v_NodeID v) (Volume.v_Name v) (Volume.v_Encrypted v)
         (Volume.v_KeySealed v) (Volume.v_KeyID v)) |}.
(* go: app/adapters.go volumeBackups.Restorable *)
Definition volumeBackups `{!Has Backup.BackupDB S} : Volume.Backups S := {| Volume.Restorable := fun id projectID =>
  let! envelope := Backup.restorable id projectID in
  ret (Volume.MkRestorable (Backup.en_SizeBytes envelope) (Backup.en_KeySealed envelope) (Backup.en_KeyID envelope)) |}.
End backups.

(** * The wiring of the instances (app.go) *)

Section wiring.
Context {S : Type} `{!Has Node.NodeDB S, !Has Alert.AlertDB S, !Has Network.NetDB S, !Has Volume.VolumeDB S, !Has Forward.ForwardDB S}.
Context `{!Has Balancer.BalancerDB S, !Has Instance.InstState S, !Has Quota.QuotaDB S}.
Import Instance.
(** What the instances are given; the log book, the commands, the keys, the firewalls and the key ring are the arguments. *)
(* go: app/app.go:313-329 instances.UseVolumes *)
Definition instanceDeps (keys : option (Keys S)) (logs execs : option (Releaser S)) (firewalls : option (Firewalls S))
    (sealing : option (Keyring S)) (dataDir : string) : Deps S := {|
  d_networks := Some {|
    DefaultNetworkID := fun projectID => let! n := Network.ensureDefaultFor projectID in ret (Network.nw_ID n);
    NetworkExistsIn := Network.existsIn; ReleaseAddress := Network.release |};
  d_keys := keys; d_quota := Some (instanceQuota (Some projectUsage));
  d_volumes := Some {| ReleaseInstance := Volume.releaseInstance |};
  d_forwards := Some {| ReleaseInstance := Forward.releaseInstance |};
  d_balancers := Some {| ReleaseInstance := Balancer.releaseInstance |};
  d_logs := logs; d_execs := execs;
  d_alerts := Some {| ReleaseInstance := Alert.ReleaseInstance |};
  d_devices := Some {| ReleaseDevice := Node.ReleaseInstance; AddressOf := Node.AddressOf |};
  d_firewalls := firewalls; d_sealing := sealing; d_dataDir := dataDir; d_events := true |}.
End wiring.
