(* ===== verification/Platform.v ===== *)
(** The platform as it is put together (internal/app/app.go), part one: the limits of a project
    hold whoever asks for more of it (instances, services, jobs, volumes, the scheduler). *)
From stdpp Require Import base tactics numbers strings list gmap.
From Stdlib Require Import ZArith Lia.
From S2P Require Import Prelude GoLang Effects Kernel Tables Adapters.
From S2P Require Sealed InstanceSpec Instance Quota Volume Backup.

Abbreviation InstState := Instance.InstState.
Abbreviation VolumeDB := Volume.VolumeDB.
Abbreviation QuotaDB := Quota.QuotaDB.

(** * What a project holds *)

Definition total {R} (f : R -> Z) (rows : list R) : Z := foldr Z.add 0 (map f rows).
Definition one {R} (_ : R) : Z := 1.
(** What the instances of a project come to in one dimension, and its volumes. *)
Definition held (f : Instance.Instance -> Z) (p : string) (st : InstState) : Z :=
  total f (List.filter (Instance.in_project p) (Instance.db_instances st)).
Definition stored (f : Volume.Volume -> Z) (p : string) (db : VolumeDB) : Z :=
  total f (List.filter (Volume.in_project p) (Volume.vd_volumes db)).
Definition holds (p : string) (st : InstState) (db : VolumeDB) : Quota.Consumed :=
  Quota.MkConsumed (held one p st) (held Instance.in_VCPU p st) (held Instance.in_MemoryMiB p st)
    (stored one p db) (stored Volume.v_SizeGiB p db).
(** A limit is kept: where there is one, what is held does not grow past it. *)
Definition stays_within (limit before after : Z) : Prop := limit = 0 \/ after <= limit \/ after <= before.
(** What was admitted fits, in numbers an [int] holds. *)
Definition admitted (l : Quota.Limits) (used : Quota.Consumed) (claim : Quota.Claim) : Prop :=
  Forall (fun d => in_int64 (Quota.d_consumed d + Quota.d_claim d) ->
    Quota.d_limit d = 0 \/ Quota.d_claim d = 0 \/ Quota.d_consumed d + Quota.d_claim d <= Quota.d_limit d) (Quota.against l used claim).

Lemma total_one {R} (rows : list R) : total one rows = len rows.
Proof. unfold total, one. induction rows as [|r rows IH]; [done|]. cbn [map foldr]. rewrite IH, length_cons. lia. Qed.
Lemma total_app {R} (f : R -> Z) l k : total f (l ++ k) = total f l + total f k.
Proof. unfold total. rewrite map_app. induction (map f l) as [|x xs IH]; cbn [app foldr]; [done|]. rewrite IH. lia. Qed.
Lemma total_fold {R} (f : R -> Z) l a : fold_left (fun acc v => acc + f v) l a = a + total f l.
Proof. revert a. unfold total. induction l as [|x l IH]; intros a; simpl; [lia|]. rewrite IH. simpl. lia. Qed.
Lemma total_bounds {R} (f : R -> Z) b l : (forall x, x ∈ l -> 0 <= f x <= b) -> 0 <= total f l <= len l * b.
Proof.
  unfold total. induction l as [|x l IH]; intros H; simpl; [lia|]. pose proof (H x ltac:(set_solver)).
  assert (forall y, y ∈ l -> 0 <= f y <= b) as Hl by (intros; apply H; set_solver). specialize (IH Hl). lia.
Qed.
Lemma total_submseteq (l k : list Z) : (forall x, x ∈ k -> 0 <= x) -> l ⊆+ k -> foldr Z.add 0 l <= foldr Z.add 0 k.
Proof.
  intros H E. induction E as [|x l k E IH|x y l|x l k E IH|l k m E1 IH1 E2 IH2]; simpl.
  - done.
  - assert (forall y, y ∈ k -> 0 <= y) by (intros; apply H; set_solver). specialize (IH ltac:(done)). lia.
  - lia.
  - pose proof (H x ltac:(set_solver)). assert (forall y, y ∈ k -> 0 <= y) by (intros; apply H; set_solver). specialize (IH ltac:(done)). lia.
  - transitivity (foldr Z.add 0 k); [|by apply IH2]. apply IH1. intros x Hx. apply H. by eapply elem_of_submseteq.
Qed.
Lemma total_update {R} (f : R -> Z) (p q : R -> bool) (u : R -> R) (x : R) l :
  (forall r, r ∈ l -> q r = true -> r = x) -> NoDup l -> (forall r, p (u r) = p r) -> x ∈ l -> p x = true -> q x = true ->
  total f (List.filter p (map (fun r => if q r then u r else r) l)) = total f (List.filter p l) + (f (u x) - f x).
Proof.
  intros Hq Hn Hp Hx Hpx Hqx. induction Hn as [|y l Hy Hn IH]; [by apply not_elem_of_nil in Hx|]. simpl.
  destruct (q y) eqn:Eq.
  - assert (y = x) as -> by (apply Hq; [set_solver|done]). rewrite Hp, Hpx.
    assert (E : map (fun r => if q r then u r else r) l = l).
    { rewrite <- (map_id l) at 2. apply map_ext_in. intros r Hr%list_elem_of_In. destruct (q r) eqn:E; [|done].
      rewrite (Hq r) in Hr; [done|set_solver|done]. }
    rewrite E. unfold total. cbn [map foldr]. lia.
  - assert (IH' := IH ltac:(intros; apply Hq; [set_solver|done]) ltac:(apply elem_of_cons in Hx as [->|?]; congruence)).
    destruct (p y); [|done]. unfold total in *. cbn [map foldr]. rewrite IH'. lia.
Qed.

(** * Admission on the tables themselves *)

Section admission.
Context {S : Type} `{!Has InstState S, !Has VolumeDB S, !Has QuotaDB S} (env : Env).
Abbreviation usage := (Some (Adapters.projectUsage (S:=S))).

Lemma footprint_inst p (Q : outcome Instance.Footprint -> World S -> Prop) w :
  (forall r, (exists e, r = Err e) \/ r = Ok (Instance.MkFootprint (held one p (part w)) (held Instance.in_VCPU p (part w)) (held Instance.in_MemoryMiB p (part w))) ->
     Q r (tick w)) -> wp env (Instance.footprintIn p) Q w.
Proof.
  intros H. apply wp_mapped, wp_read. intros r [->| ->]; simpl; apply H; [left; by eexists|right].
  unfold held. by rewrite total_one.
Qed.
Lemma footprint_vol p (Q : outcome Volume.Footprint -> World S -> Prop) w :
  (forall r, (exists e, r = Err e) \/ r = Ok (Volume.MkFootprint (stored one p (part w)) (stored Volume.v_SizeGiB p (part w))) ->
     Q r (tick w)) -> wp env (Volume.footprintIn p) Q w.
Proof.
  intros H. apply wp_mapped, wp_read. intros r [->| ->]; simpl; apply H; [left; by eexists|right].
  unfold stored. by rewrite total_one, total_fold.
Qed.

Lemma usage_rule p (Q : outcome Quota.Consumed -> World S -> Prop) w :
  (forall r w', w_st w' = w_st w -> (exists e, r = Err e) \/ r = Ok (holds p (part w) (part w)) -> Q r w') ->
  wp env (Quota.InProject (Adapters.projectUsage (S:=S)) p) Q w.
Proof.
  intros H. cbn. apply wp_bind, footprint_inst. intros r [[e ->]| ->]; [apply H; [done|eauto]|].
  apply wp_bind, footprint_vol. intros r [[e ->]| ->]; [apply H; [done|eauto]|]. rewrite wp_ret. apply H; [done|by right].
Qed.

Lemma check_claim_fits ds : Quota.check_claim ds = Ok tt -> Forall (fun d => in_int64 (Quota.d_consumed d + Quota.d_claim d) ->
  Quota.d_limit d = 0 \/ Quota.d_claim d = 0 \/ Quota.d_consumed d + Quota.d_claim d <= Quota.d_limit d) ds.
Proof.
  induction ds as [|d ds IH]; simpl; [done|]. unfold Quota.Unlimited.
  destruct (Z.eqb_spec (Quota.d_limit d) 0) as [|Hl], (Z.eqb_spec (Quota.d_claim d) 0) as [|Hc]; simpl; try (intros; constructor; [tauto|auto]).
  destruct (Z.ltb_spec (Quota.d_limit d) (wrap64 (Quota.d_consumed d + Quota.d_claim d))) as [|Hw]; [done|]. intros; constructor; [|auto].
  intros Hi. rewrite wrap64_small in Hw by done. lia.
Qed.

Lemma admit_rule p claim (Q : outcome unit -> World S -> Prop) w :
  (forall r w', w_st w' = w_st w -> (r = Ok tt -> admitted (Quota.in_force (part w) p) (holds p (part w) (part w)) claim) -> Q r w') ->
  wp env (Quota.admit_claim usage p claim) Q w.
Proof.
  intros H. unfold Quota.admit_claim, Quota.limitsOf. apply wp_bind, wp_bind, wp_attempt, wp_read.
  set (l := Quota.in_force (part w) p).
  assert (Hl : forall w1, w_st w1 = w_st w -> wp env (if Quota.Empty l then ret tt else
     let! used := Quota.consumed usage p in lift (Quota.check_claim (Quota.against l used claim))) Q w1).
  { intros w1 E1. unfold Quota.Empty. case_bool_decide as E.
    { rewrite wp_ret. apply H; [done|]. intros _. fold l. rewrite E. unfold admitted, Quota.against. by repeat (apply Forall_cons; split; [intros _; by left|]). }
    apply wp_bind, wp_mapped, usage_rule. intros r w2 E2 [[e ->]| ->]; simpl; [apply H; [congruence|done]|].
    rewrite wp_lift. apply H; [congruence|]. intros Ec. unfold part in Ec. rewrite E1 in Ec. by apply check_claim_fits. }
  intros r [->| ->]; simpl.
  - rewrite wp_fail. by apply H.
  - unfold select_one, l, Quota.in_force in *. destruct (List.find _ _); simpl; rewrite wp_ret; by apply Hl.
Qed.
End admission.

(** * The instances of a project *)

(** The dimensions of an instance that a limit may be set on. *)
Definition grows_within (l : Quota.Limits) (p : string) (st st' : InstState) : Prop :=
  stays_within (Quota.lim_Instances l) (held one p st) (held one p st') /\
  stays_within (Quota.lim_VCPU l) (held Instance.in_VCPU p st) (held Instance.in_VCPU p st') /\
  stays_within (Quota.lim_MemoryMiB l) (held Instance.in_MemoryMiB p st) (held Instance.in_MemoryMiB p st').
(** Far more rows than a platform has; their sums stay [int]s. *)
Definition countable (st : InstState) : Prop := len (Instance.db_instances st) < 2 ^ 31.

Lemma grows_refl l p st : grows_within l p st st.
Proof. unfold grows_within, stays_within. lia. Qed.
Lemma grows_le l p st st' : (forall f, f = one \/ f = Instance.in_VCPU \/ f = Instance.in_MemoryMiB -> held f p st' <= held f p st) ->
  grows_within l p st st'.
Proof. intros H. unfold grows_within, stays_within. split_and!; right; right; apply H; auto. Qed.

(** What the sums go by. *)
Definition size_key (i : Instance.Instance) := (Instance.in_ID i, Instance.in_Fixed i, (Instance.in_VCPU i, Instance.in_MemoryMiB i)).
Definition sized_by (f : Instance.Instance -> Z) : Prop :=
  exists g, (forall i, f i = g (size_key i)) /\ forall i, Instance.sized i -> 0 <= f i <= 2 ^ 24.
Lemma dimensions_sized f : f = one \/ f = Instance.in_VCPU \/ f = Instance.in_MemoryMiB -> sized_by f.
Proof.
  intros [->|[->| ->]]; [exists (fun _ => 1)|exists (fun k => fst (snd k))|exists (fun k => snd (snd k))]; (split; [done|]);
    unfold one, Instance.sized, InstanceSpec.MinVCPU, InstanceSpec.MaxVCPU, InstanceSpec.MinMemoryMiB, InstanceSpec.MaxMemoryMiB; intros; lia.
Qed.

(** Rows that keep their size, none of them new: the sums do not grow. *)
Lemma held_le f p st st' : sized_by f -> Instance.inst_inv st -> Instance.inst_inv st' ->
  (forall j, j ∈ Instance.db_instances st' -> exists i, i ∈ Instance.db_instances st /\ size_key j = size_key i) ->
  held f p st' <= held f p st.
Proof.
  intros (g & Hg & Hb) Hi Hi' Hrows. unfold held, total.
  assert (E : forall l, map f l = map g (map size_key l)) by (intros l; rewrite map_map; by apply map_ext). rewrite !E.
  apply total_submseteq.
  - intros x (k & -> & (i & -> & [Hin _]%elem_of_filter_bool)%list_elem_of_fmap)%list_elem_of_fmap. rewrite <- Hg. by apply Hb, Hi.
  - apply fmap_submseteq, NoDup_submseteq.
    + pose proof (Instance.ii_id _ Hi') as Hu. unfold unique_by in Hu. rewrite omap_total in Hu.
      apply (NoDup_map_filter (fun i => Instance.in_ID i)) with (p := Instance.in_project p) in Hu.
      apply (NoDup_fmap_1 (fun k => fst (fst k))). rewrite <- list_fmap_compose. exact Hu.
    + intros k (j & -> & [Hj Hp]%elem_of_filter_bool)%list_elem_of_fmap. destruct (Hrows j Hj) as (i & Hii & Ek). rewrite Ek.
      apply list_elem_of_fmap. exists i. split; [done|]. apply elem_of_filter_bool. split; [done|].
      unfold Instance.in_project, Instance.in_ProjectID in *. unfold size_key in Ek. by injection Ek as _ <- _ _.
Qed.

Lemma held_bounds f p st : sized_by f -> Instance.inst_inv st -> countable st -> 0 <= held f p st <= 2 ^ 55.
Proof.
  intros (g & _ & Hb) Hi Hc. unfold held. pose proof (total_bounds f (2 ^ 24) (List.filter (Instance.in_project p) (Instance.db_instances st))) as Ht.
  pose proof (filter_length_le (Instance.in_project p) (Instance.db_instances st)) as Hl. unfold countable in Hc.
  ospecialize (Ht _); [intros i [Hin _]%elem_of_filter_bool; by apply Hb, Hi|]. nia.
Qed.

Section instances.
Context {S : Type} `{!Has InstState S, !Has VolumeDB S, !Has QuotaDB S}.
Context (deps : Instance.Deps S) `{Hdeaf : !Instance.Deaf deps}.
Context (Hquota : Instance.d_quota deps = Some (Adapters.instanceQuota (Some Adapters.projectUsage))).
(** The keys are looked up before the quota is asked; that changes no limit. *)
Context (Hkeys : forall k p names, Instance.d_keys deps = Some k -> leaves QuotaDB (Instance.ResolveKeys k p names)).
Context (env : Env).
Abbreviation st w := (part (T:=InstState) w).
Abbreviation limits w := (Quota.in_force (part (T:=QuotaDB) w)).

Lemma in_int64_small x : - 2 ^ 62 <= x < 2 ^ 62 -> in_int64 x.
Proof. unfold in_int64, min_int64, max_int64, two63. lia. Qed.

(** A new instance: the sums grow by its size, which was admitted. *)
Lemma grows_create l p0 p v m (i : Instance.Instance) s db : Instance.inst_inv s -> countable s -> Instance.sized i ->
  Instance.in_ProjectID i = p0 -> Instance.in_VCPU i = v -> Instance.in_MemoryMiB i = m ->
  admitted (l p0) (holds p0 s db) (Quota.MkClaim 1 v m 0 0) ->
  grows_within (l p) p s (Instance.MkInstState (Instance.db_instances s ++ [i]) (Instance.parked_files s)).
Proof.
  intros Hi Hc Hs E1 E2 E3 Ha.
  assert (Happ : forall f, held f p (Instance.MkInstState (Instance.db_instances s ++ [i]) (Instance.parked_files s)) =
    held f p s + if String.eqb p0 p then f i else 0).
  { intros f. unfold held. simpl. rewrite List.filter_app, total_app. f_equal. simpl. unfold Instance.in_project. rewrite E1.
    destruct (String.eqb p0 p); unfold total; simpl; lia. }
  unfold grows_within. rewrite !Happ. destruct (String.eqb_spec p0 p) as [->|_]; [|unfold stays_within; lia].
  unfold admitted, Quota.against, holds in Ha. rewrite !Forall_cons in Ha. simpl in Ha. destruct Ha as (H1 & H2 & H3 & _).
  pose proof (held_bounds one p s (dimensions_sized one ltac:(auto)) Hi Hc).
  pose proof (held_bounds Instance.in_VCPU p s (dimensions_sized Instance.in_VCPU ltac:(auto)) Hi Hc).
  pose proof (held_bounds Instance.in_MemoryMiB p s (dimensions_sized Instance.in_MemoryMiB ltac:(auto)) Hi Hc).
  unfold Instance.sized, InstanceSpec.MinVCPU, InstanceSpec.MaxVCPU, InstanceSpec.MinMemoryMiB, InstanceSpec.MaxMemoryMiB in Hs.
  ospecialize (H1 _); [apply in_int64_small; lia|]. ospecialize (H2 _); [apply in_int64_small; lia|].
  ospecialize (H3 _); [apply in_int64_small; lia|].
  unfold stays_within. change (one i) with 1. lia.
Qed.

Lemma admit_create_rule params normalized (Q : outcome string -> World S -> Prop) w :
  (forall r w', st w' = st w -> (forall net, r = Ok net -> exists db, admitted (limits w (InstanceSpec.cp_ProjectID params))
     (holds (InstanceSpec.cp_ProjectID params) (st w) db)
     (Quota.MkClaim 1 (InstanceSpec.cp_VCPU normalized) (InstanceSpec.cp_MemoryMiB normalized) 0 0)) -> Q r w') ->
  wp env (Instance.admit_create deps params normalized) Q w.
Proof.
  intros H. pose proof (Instance.quiet_admit deps params normalized) as Hq. specialize (Hq env w).
  unfold Instance.admit_create in *. unfold Instance.when_some at 1. unfold Instance.when_some at 1 in Hq. rewrite Hquota in *. cbn beta iota in *.
  unfold wp, bind at 1. unfold bind at 1 in Hq. cbn [Instance.AdmitInstance Adapters.instanceQuota] in *.
  pose proof (admit_rule env (InstanceSpec.cp_ProjectID params)
    (Quota.MkClaim 1 (InstanceSpec.cp_VCPU normalized) (InstanceSpec.cp_MemoryMiB normalized) 0 0)
    (fun r w' => r = Ok tt -> admitted (limits w (InstanceSpec.cp_ProjectID params))
      (holds (InstanceSpec.cp_ProjectID params) (st w) (part w)) (Quota.MkClaim 1 (InstanceSpec.cp_VCPU normalized) (InstanceSpec.cp_MemoryMiB normalized) 0 0))
    w (fun _ _ _ H => H)) as Ha. unfold wp in Ha.
  destruct (Quota.admit_claim _ _ _ env w) as [[[]|e] w1]; [|by apply H].
  specialize (Ha eq_refl).
  match type of Hq with st (snd ?x) = _ => destruct x as [r w2] end. simpl in Hq. apply H; [done|]. intros net _. by eexists.
Qed.

Lemma create_within params w : Instance.inst_inv (st w) -> countable (st w) ->
  wp env (Instance.create deps params) (fun _ w' => forall p, grows_within (limits w p) p (st w) (st w')) w.
Proof.
  intros Hinv Hc. unfold Instance.create. apply wp_bind. rewrite wp_lift.
  destruct (InstanceSpec.normalize params) as [q|] eqn:En; [|intros p; apply grows_refl].
  apply InstanceSpec.normalize_ok in En as (_ & device & disk & policy & vcpu & memory & -> & _ & _ & _ & _ & _ & Hv & Hm).
  apply wp_bind. eapply wp_mono; [|apply (wp_and env)];
    [|apply (Instance.wp_quiet env _ (fun _ w' => st w' = st w)); [apply Instance.quiet_authorized; done|done]
     |apply (wp_leaves (T:=QuotaDB) env _ (fun _ w' => part (T:=QuotaDB) w' = part w));
       [unfold Instance.authorizedKeys; repeat case_match; auto with leaves; by apply Hkeys|done]].
  intros [keys|] w1 [Hw1 Hq1]; [|rewrite Hw1; intros p; apply grows_refl]. rewrite <- Hw1, <- Hq1 in *.
  apply wp_bind, admit_create_rule. intros [net|] w2 Hw2 Ha; [|rewrite Hw2; intros p; apply grows_refl].
  destruct (Ha net eq_refl) as [db Hadm]. clear Ha. cbn [InstanceSpec.cp_VCPU InstanceSpec.cp_MemoryMiB] in Hadm. rewrite <- Hw2 in *.
  change (part w1) with (part (T:=QuotaDB) w1) in Hadm. set (l := limits w1) in *. clearbody l.
  apply wp_bind, (Instance.wp_quiet env); [by apply (Instance.quiet_sealing deps _ [])|].
  intros [[env_ key]|] w3 Hw3; [|rewrite Hw3; intros p; apply grows_refl]. rewrite <- Hw3 in *.
  apply wp_bind, (Instance.wp_quiet env); [by apply (Instance.quiet_sealing deps ∅)|].
  intros [files|] w4 Hw4; [|rewrite Hw4; intros p; apply grows_refl]. rewrite <- Hw4 in *.
  cbv zeta. apply wp_bind. rewrite wp_now. apply wp_bind. unfold ids_New. apply wp_bind. rewrite wp_rand, wp_ret.
  set (i := Instance.MkInstance _ _ _ _ _ _ _ _ _ _ _ _ _ _).
  apply wp_bind, wp_mapped. change (st w4) with (st (tick (tick w4))) in *. set (w5 := tick (tick w4)) in *. clearbody w5.
  apply wp_bind, (Instance.wp_reads env). intros o w6 Hw6 Ho. rewrite <- Hw6 in *.
  destruct o as [[]|]; [intros p; apply grows_refl| |intros p; apply grows_refl].
  apply (Instance.wp_writes env); [intros w7 ->; intros p; apply grows_refl|]. intros w7 Hw7. unfold insert_row in *.
  destruct (existsb (Instance.instance_clash i) _) eqn:Ex; simpl in *.
  { replace (st w7) with (st w6) by (rewrite Hw7; by destruct (st w6)). intros p; apply grows_refl. }
  rewrite wp_ret, Hw7. intros p. by eapply grows_create.
Qed.
(** The row with the id of [x], resized. *)
Lemma grows_resize l p0 p v m at_ (x : Instance.Instance) s db : Instance.inst_inv s -> countable s -> x ∈ Instance.db_instances s ->
  Instance.in_ProjectID x = p0 -> 0 <= v <= 2 ^ 24 -> 0 <= m <= 2 ^ 24 ->
  admitted (l p0) (holds p0 s db) (Quota.MkClaim 0 (Z.max (v - Instance.in_VCPU x) 0) (Z.max (m - Instance.in_MemoryMiB x) 0) 0 0) ->
  grows_within (l p) p s (Instance.MkInstState
    (map (fun i => if Instance.has_id (Instance.in_ID x) i then Instance.set_size v m at_ i else i) (Instance.db_instances s))
    (Instance.parked_files s)).
Proof.
  intros Hi Hc Hx E1 Hv Hm Ha. pose proof (Instance.ii_sized _ Hi x Hx) as Hs.
  set (u := Instance.set_size v m at_). set (q := Instance.has_id (Instance.in_ID x)).
  assert (Hq : forall r, r ∈ Instance.db_instances s -> q r = true -> r = x).
  { intros r Hr Er. unfold q, Instance.has_id in Er. breflect. by apply (Instance.same_row s x r Hi Hx Hr). }
  assert (Hqx : q x = true) by (unfold q, Instance.has_id; by apply String.eqb_refl).
  assert (Hn : NoDup (Instance.db_instances s)).
  { pose proof (Instance.ii_id _ Hi) as Hu. unfold unique_by in Hu. rewrite omap_total in Hu. by eapply NoDup_fmap_1. }
  destruct (decide (p0 = p)) as [->|Hne].
  - assert (Hup : forall f, held f p (Instance.MkInstState (map (fun i => if q i then u i else i) (Instance.db_instances s)) (Instance.parked_files s))
      = held f p s + (f (u x) - f x)).
    { intros f. unfold held. simpl. apply total_update; try done. unfold Instance.in_project. by apply String.eqb_eq. }
    unfold grows_within. rewrite !Hup. unfold admitted, Quota.against, holds in Ha. rewrite !Forall_cons in Ha. simpl in Ha.
    destruct Ha as (H1 & H2 & H3 & _). change (one (u x)) with 1. change (one x) with 1.
    change (Instance.in_VCPU (u x)) with v. change (Instance.in_MemoryMiB (u x)) with m.
    pose proof (held_bounds Instance.in_VCPU p s (dimensions_sized Instance.in_VCPU ltac:(auto)) Hi Hc).
    pose proof (held_bounds Instance.in_MemoryMiB p s (dimensions_sized Instance.in_MemoryMiB ltac:(auto)) Hi Hc).
    unfold Instance.sized, InstanceSpec.MinVCPU, InstanceSpec.MaxVCPU, InstanceSpec.MinMemoryMiB, InstanceSpec.MaxMemoryMiB in Hs.
    ospecialize (H2 _); [apply in_int64_small; lia|]. ospecialize (H3 _); [apply in_int64_small; lia|].
    unfold stays_within. lia.
  - apply grows_le. intros f _. unfold held. simpl. apply Z.eq_le_incl.
    assert (Hin : forall l, (forall i, i ∈ l -> i ∈ Instance.db_instances s) ->
      List.filter (Instance.in_project p) (map (fun i => if q i then u i else i) l) = List.filter (Instance.in_project p) l).
    { induction l0 as [|i l0 IH]; intros Hl; [done|]. simpl. rewrite IH by set_solver. destruct (q i) eqn:Eq; [|done].
      assert (i = x) as -> by (apply Hq; [set_solver|done]). unfold Instance.in_project.
      change (Instance.in_ProjectID (u x)) with (Instance.in_ProjectID x). by destruct (String.eqb_spec (Instance.in_ProjectID x) p); [congruence|]. }
    by rewrite Hin.
Qed.

Lemma resize_within ref p0 vcpu memory w : Instance.inst_inv (st w) -> countable (st w) ->
  wp env (Instance.resize deps ref p0 vcpu memory) (fun _ w' => forall p, grows_within (limits w p) p (st w) (st w')) w.
Proof.
  intros Hinv Hc. unfold Instance.resize. apply wp_bind.
  eapply wp_mono; [|apply (wp_and env)];
    [|apply (Instance.getIn_rule env ref p0 (fun o w' => st w' = st w /\
        match o with Ok i => i ∈ Instance.db_instances (st w) /\ Instance.addressed ref p0 i | Err _ => True end)); auto
     |apply (wp_leaves (T:=QuotaDB) env _ (fun _ w' => part (T:=QuotaDB) w' = part w));
       [unfold Instance.getIn, Instance.get_row, Instance.byName, Instance.reads; auto 20 with leaves|done]].
  intros [x|] w1 [[Hw1 Hx] Hq1]; [|rewrite Hw1; intros p; apply grows_refl]. destruct Hx as [Hx [Hp _]].
  cbv zeta. set (v := if vcpu =? 0 then _ else _). set (m := if memory =? 0 then _ else _). rewrite <- Hw1, <- Hq1 in *.
  case_match; [intros p; apply grows_refl|].
  apply wp_bind. rewrite wp_lift. unfold guard. destruct (_ || _) eqn:Ev; [intros p; apply grows_refl|].
  apply wp_bind. rewrite wp_lift. destruct ((m <? _) || _) eqn:Em; [intros p; apply grows_refl|]. breflect.
  unfold InstanceSpec.MinVCPU, InstanceSpec.MaxVCPU, InstanceSpec.MinMemoryMiB, InstanceSpec.MaxMemoryMiB in *.
  rewrite Hquota. cbn [Instance.when_some Instance.AdmitGrowth Adapters.instanceQuota].
  apply wp_bind, admit_rule. intros r w2 E2 Ha. change (st w1) with (hget (T:=InstState) (w_st w1)) in *.
  assert (Hs : st w2 = st w1) by (unfold part; congruence).
  destruct r as [[]|]; [|change (hget (w_st w1)) with (st w1); rewrite Hs; intros p; apply grows_refl]. specialize (Ha eq_refl).
  change (hget (w_st w1)) with (st w1) in *. apply wp_bind. rewrite wp_now. apply wp_bind, wp_mapped.
  apply (Instance.wp_writes env); change (st (tick w2)) with (st w2); [intros w3 ->; rewrite Hs; intros p; apply grows_refl|].
  rewrite update_where_rows, Hs. intros w3 Hw3.
  assert (Hg : forall p, grows_within (limits w1 p) p (st w1) (st w3)).
  { intros p. rewrite Hw3. eapply grows_resize; eauto; lia. }
  destruct (fst _) as [[]|]; simpl; [|done]. apply (Instance.wp_quiet env); [apply Instance.quiet_get|]. by intros ? ? ->.
Qed.

(** Other requests change no size and add nothing. *)
Lemma grows_kept r s s' : Instance.inst_inv s -> Instance.good r s s' -> (forall i, ~ Instance.created r i) -> (forall i, ~ Instance.resizes r i) ->
  forall l p, grows_within l p s s'.
Proof.
  intros Hi [Hi' Hev] Hc Hr l p. apply grows_le. intros f Hf. apply held_le; auto using dimensions_sized.
  intros j Hj. destruct (Instance.ev_rows _ _ _ Hev j Hj) as [(i & Hin & Hm)|]; [|by destruct (Hc j)].
  exists i. split; [done|]. destruct Hm as [E1 E2 [[= E3 E4]|E3] _ _ _ _]; [|by destruct (Hr i)]. unfold size_key. by rewrite E1, E2, E3, E4.
Qed.
Lemma serve_within r w : Instance.inst_inv (st w) -> countable (st w) ->
  wp env (Instance.serve deps r) (fun _ w' => forall p, grows_within (limits w p) p (st w) (st w')) w.
Proof.
  intros Hinv Hc.
  assert (Hother : (forall i, ~ Instance.created r i) -> (forall i, ~ Instance.resizes r i) ->
    wp env (Instance.serve deps r) (fun _ w' => forall p, grows_within (limits w p) p (st w) (st w')) w).
  { intros H1 H2. eapply wp_mono; [|by apply Instance.serve_rule]. intros o w' Hg p. exact (grows_kept r _ _ Hinv Hg H1 H2 _ p). }
  destruct r; try (apply Hother; by intros i []); cbn [Instance.serve]; apply wp_bind.
  - eapply wp_mono; [|by apply create_within]. by intros [].
  - eapply wp_mono; [|by apply resize_within]. by intros [].
Qed.
End instances.

(** * The volumes of a project *)

Definition stores_within (l : Quota.Limits) (p : string) (db db' : VolumeDB) : Prop :=
  stays_within (Quota.lim_Volumes l) (stored one p db) (stored one p db') /\
  stays_within (Quota.lim_VolumeGiB l) (stored Volume.v_SizeGiB p db) (stored Volume.v_SizeGiB p db').
Definition countable_volumes (db : VolumeDB) : Prop := len (Volume.vd_volumes db) < 2 ^ 31.

Lemma stores_same l p db db' : Volume.vd_volumes db' = Volume.vd_volumes db -> stores_within l p db db'.
Proof. intros E. unfold stores_within, stays_within, stored. rewrite E. lia. Qed.
Lemma stored_bounds f p db : (forall v, v ∈ Volume.vd_volumes db -> 0 <= f v <= 4096) -> countable_volumes db -> 0 <= stored f p db <= 2 ^ 43.
Proof.
  intros Hf Hc. unfold stored. pose proof (total_bounds f 4096 (List.filter (Volume.in_project p) (Volume.vd_volumes db))) as Ht.
  pose proof (filter_length_le (Volume.in_project p) (Volume.vd_volumes db)) as Hl. unfold countable_volumes in Hc.
  ospecialize (Ht _); [intros v [Hv _]%elem_of_filter_bool; by apply Hf|]. nia.
Qed.
Lemma size_bounds db v : Volume.vols_inv db -> v ∈ Volume.vd_volumes db -> 0 <= Volume.v_SizeGiB v <= 4096.
Proof.
  intros Hi Hv. pose proof (Volume.vi_size _ Hi) as Hs. rewrite Forall_forall in Hs. specialize (Hs v Hv).
  unfold Volume.MinSizeGiB, Volume.MaxSizeGiB in Hs. lia.
Qed.

(** A new volume whose size was admitted. *)
Lemma stores_insert l p0 p (v : Volume.Volume) db s : Volume.vols_inv db -> countable_volumes db -> Volume.v_ProjectID v = p0 ->
  0 <= Volume.v_SizeGiB v <= 4096 -> admitted (l p0) (holds p0 s db) (Quota.MkClaim 0 0 0 1 (Volume.v_SizeGiB v)) ->
  stores_within (l p) p db (Volume.set_volumes (Volume.vd_volumes db ++ [v]) db).
Proof.
  intros Hi Hc E1 Hs Ha.
  assert (Happ : forall f, stored f p (Volume.set_volumes (Volume.vd_volumes db ++ [v]) db) = stored f p db + if String.eqb p0 p then f v else 0).
  { intros f. unfold stored. simpl. rewrite List.filter_app, total_app. f_equal. simpl. unfold Volume.in_project. rewrite E1.
    destruct (String.eqb p0 p); unfold total; simpl; lia. }
  unfold stores_within. rewrite !Happ. destruct (String.eqb_spec p0 p) as [->|_]; [|unfold stays_within; lia].
  unfold admitted, Quota.against, holds in Ha. rewrite !Forall_cons in Ha. simpl in Ha. destruct Ha as (_ & _ & _ & H1 & H2 & _).
  pose proof (stored_bounds one p db ltac:(unfold one; lia) Hc).
  pose proof (stored_bounds Volume.v_SizeGiB p db (fun v => size_bounds db v Hi) Hc).
  ospecialize (H1 _); [apply in_int64_small; lia|]. ospecialize (H2 _); [apply in_int64_small; lia|].
  unfold stays_within. change (one v) with 1. lia.
Qed.

(** A volume that grows by what was admitted. *)
Lemma stores_resize l p0 p size at_ (x : Volume.Volume) db s : Volume.vols_inv db -> countable_volumes db -> x ∈ Volume.vd_volumes db ->
  Volume.v_ProjectID x = p0 -> 0 <= size <= 4096 -> Volume.v_SizeGiB x < size ->
  admitted (l p0) (holds p0 s db) (Quota.MkClaim 0 0 0 0 (size - Volume.v_SizeGiB x)) ->
  stores_within (l p) p db (Volume.set_volumes
    (Volume.rewrite_rows (Volume.has_id (Volume.v_ID x)) (Volume.set_size size at_) (Volume.vd_volumes db)) db).
Proof.
  intros Hi Hc Hx E1 Hs Hlt Ha. set (u := Volume.set_size size at_). set (q := Volume.has_id (Volume.v_ID x)).
  assert (Hq : forall r, r ∈ Volume.vd_volumes db -> q r = true -> r = x).
  { intros r Hr Er. unfold q, Volume.has_id in Er. breflect.
    by apply (unique_by_eq _ _ r x (Volume.v_ID x) (Volume.vi_id _ Hi)); simpl; congruence. }
  assert (Hqx : q x = true) by (unfold q, Volume.has_id; by apply String.eqb_refl).
  assert (Hn : NoDup (Volume.vd_volumes db)).
  { pose proof (Volume.vi_id _ Hi) as Hu. unfold unique_by in Hu. rewrite omap_total in Hu. by eapply NoDup_fmap_1. }
  unfold Volume.rewrite_rows. destruct (decide (p0 = p)) as [->|Hne].
  - assert (Hup : forall f, stored f p (Volume.set_volumes (map (fun r => if q r then u r else r) (Volume.vd_volumes db)) db) =
      stored f p db + (f (u x) - f x)).
    { intros f. unfold stored. simpl. apply total_update; try done. unfold Volume.in_project. by apply String.eqb_eq. }
    unfold stores_within. rewrite !Hup. unfold admitted, Quota.against, holds in Ha. rewrite !Forall_cons in Ha. simpl in Ha.
    destruct Ha as (_ & _ & _ & _ & H & _). change (one (u x)) with 1. change (one x) with 1. change (Volume.v_SizeGiB (u x)) with size.
    pose proof (stored_bounds Volume.v_SizeGiB p db (fun v => size_bounds db v Hi) Hc). pose proof (size_bounds db x Hi Hx).
    ospecialize (H _); [apply in_int64_small; lia|]. unfold stays_within. lia.
  - assert (Hin : forall l, (forall i, i ∈ l -> i ∈ Volume.vd_volumes db) ->
      List.filter (Volume.in_project p) (map (fun i => if q i then u i else i) l) = List.filter (Volume.in_project p) l).
    { induction l0 as [|i l0 IH]; intros Hl; [done|]. simpl. rewrite IH by set_solver. destruct (q i) eqn:Eq; [|done].
      assert (i = x) as -> by (apply Hq; [set_solver|done]). unfold Volume.in_project.
      change (Volume.v_ProjectID (u x)) with (Volume.v_ProjectID x). by destruct (String.eqb_spec (Volume.v_ProjectID x) p); [congruence|]. }
    unfold stores_within, stored, stays_within. simpl. rewrite Hin by done. lia.
Qed.

(** ** The requests that add or grow a volume *)

Section volumes.
Context {S : Type} `{!Has InstState S, !Has VolumeDB S, !Has QuotaDB S, !Has Backup.BackupDB S}.
Context (c : Sealed.AEAD) (keys : option Sealed.Keyring) (env : Env).
Abbreviation instances := (Some (Adapters.volumeInstances (S:=S))).
Abbreviation quota := (Some (Adapters.volumeQuota (S:=S) (Some Adapters.projectUsage))).
Abbreviation backups := (Some (Adapters.volumeBackups (S:=S))).
Abbreviation db w := (part (T:=VolumeDB) w).
Abbreviation limits w := (Quota.in_force (part (T:=QuotaDB) w)).

Lemma still_guardFor params : still (Volume.guardFor c keys backups params).
Proof.
  unfold Volume.guardFor, Volume.mintKey, Sealed.SealBytes, Sealed.Seal. cbn [Volume.Restorable Adapters.volumeBackups].
  unfold Backup.restorable, Backup.getIn, Backup.byID, Backup.backups_q. auto 20 with still.
Qed.
Lemma still_resolveIn n p : still (Volume.resolveIn (S:=S) n p).
Proof. unfold Volume.resolveIn, Volume.byName, Volume.byID, Volume.volumes_q. auto 20 with still. Qed.
Lemma still_idle v a : still (Volume.idle instances v a).
Proof.
  unfold Volume.idle. cbn [Volume.Placement Adapters.volumeInstances].
  unfold Instance.getIn, Instance.get_row, Instance.byName, Instance.reads. auto 20 with still.
Qed.
Lemma still_ownedSnapshot i p : still (Volume.ownedSnapshot (S:=S) i p).
Proof. unfold Volume.ownedSnapshot, Volume.snapshot_row, Volume.snapshots_q, Volume.byID, Volume.volumes_q. auto 20 with still. Qed.

(** The row that is inserted. *)
Lemma insert_within l p0 v s (w : World S) : Volume.vols_inv (db w) -> countable_volumes (db w) -> Volume.v_ProjectID v = p0 ->
  0 <= Volume.v_SizeGiB v <= 4096 -> admitted (l p0) (holds p0 s (db w)) (Quota.MkClaim 0 0 0 1 (Volume.v_SizeGiB v)) ->
  wp env (Volume.insert v) (fun _ w' => forall p, stores_within (l p) p (db w) (db w')) w.
Proof.
  intros Hi Hc Hp Hs Ha. apply wp_write; intros w' Hw' p; rewrite Hw'; [by apply stores_same|].
  unfold insert_row. destruct (existsb (Volume.volume_clash v) _); simpl; [by apply stores_same|]. by eapply stores_insert.
Qed.

Lemma volume_create_within params w : Volume.vols_inv (db w) -> countable_volumes (db w) ->
  wp env (Volume.create c keys quota backups params) (fun _ w' => forall p, stores_within (limits w p) p (db w) (db w')) w.
Proof.
  intros Hi Hc. assert (Hsame : forall w' : World S, w_st w' = w_st w -> forall p, stores_within (limits w p) p (db w) (db w')).
  { intros w' E p. apply stores_same. by rewrite (part_still _ _ E). }
  unfold Volume.create. apply wp_bind. rewrite wp_lift. destruct (validate_Name _ _) as [[]|]; [|by apply Hsame].
  apply wp_bind. rewrite wp_lift. unfold guard. destruct (_ || _) eqn:Es; [by apply Hsame|]. breflect.
  unfold Volume.MinSizeGiB, Volume.MaxSizeGiB in *.
  apply wp_bind, admit_rule. intros [[]|] w1 E1 Ha; [|by apply Hsame]. specialize (Ha eq_refl).
  apply wp_bind, wp_still; [apply still_guardFor|]. intros [g|] w2 E2; [|apply Hsame; congruence].
  apply wp_bind. rewrite wp_now. apply wp_bind, wp_still; [unfold ids_New; auto with still|]. intros [id|] w3 E3; [|apply Hsame; simpl in *; congruence].
  assert (Hw3 : w_st w3 = w_st w) by (simpl in *; congruence). rewrite <- (part_still (T:=VolumeDB) _ _ Hw3) in *.
  cbv zeta. set (v := Volume.MkVolume _ _ _ _ _ _ _ _ _ _ _ _ _ _ _ _).
  apply wp_bind, wp_mapped. eapply wp_mono; [|apply (insert_within (limits w) (Volume.cp_ProjectID params) v (part w)); done || (simpl; lia)].
  intros [[]|] w4 H4; exact H4.
Qed.

Lemma volume_clone_within sid p0 name w : Volume.vols_inv (db w) -> countable_volumes (db w) ->
  wp env (Volume.clone quota sid p0 name) (fun _ w' => forall p, stores_within (limits w p) p (db w) (db w')) w.
Proof.
  intros Hi Hc. assert (Hsame : forall w' : World S, w_st w' = w_st w -> forall p, stores_within (limits w p) p (db w) (db w')).
  { intros w' E p. apply stores_same. by rewrite (part_still _ _ E). }
  unfold Volume.clone. apply wp_bind. rewrite wp_lift. destruct (validate_Name _ _) as [[]|]; [|by apply Hsame].
  apply wp_bind, wp_still; [apply still_ownedSnapshot|]. intros [snap|] w1 E1; [|by apply Hsame].
  apply wp_bind. rewrite wp_lift. destruct (guard _ _) as [[]|]; [|by apply Hsame].
  apply wp_bind, wp_mapped, (wp_yields (T:=VolumeDB) _ (fun v => v ∈ Volume.vd_volumes (db w1) /\ Volume.v_ID v = Volume.sn_VolumeID snap));
    [unfold Volume.byID, Volume.volumes_q; auto with still|apply Volume.yields_byID|].
  intros [source|] w2 E2 Hsrc; cbn [or_fault]; [|apply Hsame; congruence]. specialize (Hsrc source eq_refl) as [Hin _]. rewrite (part_still _ _ E1) in Hin.
  apply wp_bind. rewrite wp_lift. destruct (guard _ _) as [[]|]; [|apply Hsame; congruence].
  apply wp_bind. rewrite wp_lift. destruct (guard _ _) as [[]|]; [|apply Hsame; congruence].
  assert (Hw2 : w_st w2 = w_st w) by congruence. rewrite <- (part_still (T:=VolumeDB) _ _ Hw2), <- (part_still (T:=QuotaDB) _ _ Hw2) in *.
  rewrite <- Hw2 in Hsame. clear w w1 E1 E2 Hw2.
  apply wp_bind, admit_rule. intros [[]|] w3 E3 Ha; [|by apply Hsame]. specialize (Ha eq_refl).
  apply wp_bind. rewrite wp_now. apply wp_bind, wp_still; [unfold ids_New; auto with still|]. intros [id|] w4 E4; [|apply Hsame; simpl in *; congruence].
  assert (Hw4 : w_st w4 = w_st w2) by (simpl in *; congruence). rewrite <- (part_still (T:=VolumeDB) _ _ Hw4) in *.
  cbv zeta. set (v := Volume.MkVolume _ _ _ _ _ _ _ _ _ _ _ _ _ _ _ _).
  apply wp_bind, wp_mapped. eapply wp_mono; [|apply (insert_within (limits w2) p0 v (part w2)); done || exact (size_bounds _ source Hi Hin)].
  intros [[]|] w5 H5; exact H5.
Qed.

Lemma volume_resize_within n p0 size w : Volume.vols_inv (db w) -> countable_volumes (db w) ->
  wp env (Volume.resize instances quota n p0 size) (fun _ w' => forall p, stores_within (limits w p) p (db w) (db w')) w.
Proof.
  intros Hi Hc. assert (Hsame : forall w' : World S, w_st w' = w_st w -> forall p, stores_within (limits w p) p (db w) (db w')).
  { intros w' E p. apply stores_same. by rewrite (part_still _ _ E). }
  unfold Volume.resize. apply wp_bind, (wp_yields (T:=VolumeDB) _ (fun v => v ∈ Volume.vd_volumes (db w) /\ Volume.v_ProjectID v = p0));
    [apply still_resolveIn|apply Volume.yields_resolveIn|].
  intros [x|] w1 E1 Hx; [|by apply Hsame]. destruct (Hx x eq_refl) as [Hin Hp]. clear Hx.
  apply wp_bind. rewrite wp_lift. unfold guard at 1. destruct (_ || _) eqn:Es; [by apply Hsame|]. breflect.
  unfold Volume.MinSizeGiB, Volume.MaxSizeGiB in *.
  destruct (size =? _) eqn:Ez; [rewrite wp_ret; by apply Hsame|]. apply wp_bind. rewrite wp_lift. unfold guard. destruct (size <? _) eqn:El; [by apply Hsame|]. breflect.
  apply wp_bind, wp_still; [apply still_idle|]. intros [[]|] w2 E2; [|apply Hsame; congruence].
  assert (Hw2 : w_st w2 = w_st w) by congruence. rewrite <- (part_still (T:=VolumeDB) _ _ Hw2), <- (part_still (T:=QuotaDB) _ _ Hw2) in *.
  rewrite <- Hw2 in Hsame. clear E1 E2. cbn [Volume.AdmitVolumeGrowth Adapters.volumeQuota].
  apply wp_bind, admit_rule. intros [[]|] w3 E3 Ha; [|by apply Hsame]. specialize (Ha eq_refl).
  apply wp_bind. rewrite wp_now. apply wp_bind, wp_mapped. unfold Volume.setSize, Volume.update_volumes, Volume.volumes_sql.
  assert (E4 : db (tick w3) = db w2) by exact (part_still _ _ E3).
  apply wp_write; intros w4 Hw4; cbn [or_fault fst snd] in *; rewrite E4 in Hw4; [intros p; by rewrite Hw4; apply stores_same|].
  rewrite wp_ret. intros p. rewrite Hw4.
  eapply (stores_resize (limits w2) (Volume.v_ProjectID x)); [done|done|done|done|lia|lia|exact Ha].
Qed.
End volumes.

(** * Properties *)

(** [instance_quota_kept]: a project never grows past its limits.  Whatever request the instances
    serve, of a person, a service, a job or the scheduler, and however the database fails: of every
    project, the number of its instances, their CPUs and their memory afterwards are within the
    limits in force, or not more than before. *)
Theorem instance_quota_kept {S} `{!Has InstState S, !Has VolumeDB S, !Has QuotaDB S} (deps : Instance.Deps S) (Hdeaf : Instance.Deaf deps)
  (Hquota : Instance.d_quota deps = Some (Adapters.instanceQuota (Some Adapters.projectUsage)))
  (Hkeys : forall k p names, Instance.d_keys deps = Some k -> leaves QuotaDB (Instance.ResolveKeys k p names))
  env r (w : World S) (Hinv : Instance.inst_inv (part w)) (Hrows : countable (part w)) :
  wp env (Instance.serve deps r) (fun _ w' => forall p,
    let l := Quota.in_force (part (T:=QuotaDB) w) p in
    stays_within (Quota.lim_Instances l) (held one p (part w)) (held one p (part w')) /\
    stays_within (Quota.lim_VCPU l) (held Instance.in_VCPU p (part w)) (held Instance.in_VCPU p (part w')) /\
    stays_within (Quota.lim_MemoryMiB l) (held Instance.in_MemoryMiB p (part w)) (held Instance.in_MemoryMiB p (part w'))) w.
Proof. eapply wp_mono; [|exact (serve_within deps Hquota Hkeys env r w Hinv Hrows)]. intros o w' H p. exact (H p). Qed.

(** The requests for more storage. *)
Inductive storage_request :=
| StoreNew (params : Volume.CreateParams)
| StoreClone (snapshotID projectID name : string)
| StoreGrow (nameOrID projectID : string) (sizeGiB : Z).
Definition store {S} `{!Has InstState S, !Has VolumeDB S, !Has QuotaDB S, !Has Backup.BackupDB S} (c : Sealed.AEAD)
    (keys : option Sealed.Keyring) (r : storage_request) : M S Volume.Volume :=
  let quota := Some (Adapters.volumeQuota (Some Adapters.projectUsage)) in
  match r with
  | StoreNew params => Volume.create c keys quota (Some Adapters.volumeBackups) params
  | StoreClone snapshotID projectID name => Volume.clone quota snapshotID projectID name
  | StoreGrow nameOrID projectID sizeGiB => Volume.resize (Some Adapters.volumeInstances) quota nameOrID projectID sizeGiB
  end.

(** [volume_quota_kept]: a new volume, a copy of a snapshot or a volume that grows leaves every
    project within its limits on volumes and on their size, or with no more than before. *)
Theorem volume_quota_kept {S} `{!Has InstState S, !Has VolumeDB S, !Has QuotaDB S, !Has Backup.BackupDB S} c keys env r (w : World S)
  (Hinv : Volume.vols_inv (part w)) (Hrows : countable_volumes (part w)) :
  wp env (store c keys r) (fun _ w' => forall p,
    let l := Quota.in_force (part (T:=QuotaDB) w) p in
    stays_within (Quota.lim_Volumes l) (stored one p (part w)) (stored one p (part w')) /\
    stays_within (Quota.lim_VolumeGiB l) (stored Volume.v_SizeGiB p (part w)) (stored Volume.v_SizeGiB p (part w'))) w.
Proof. destruct r; [by apply volume_create_within|by apply volume_clone_within|by apply volume_resize_within]. Qed.

(** ** A run *)

Module Demo.
Definition St : Type := InstState * (VolumeDB * (QuotaDB * Backup.BackupDB)).
#[export] Instance has_inst : Has InstState St := Has_fst _ _.
#[export] Instance has_vol : Has VolumeDB St := Has_in_snd _ (Has_fst _ _).
#[export] Instance has_quota : Has QuotaDB St := Has_in_snd _ (Has_in_snd _ (Has_fst _ _)).
#[export] Instance has_backup : Has Backup.BackupDB St := Has_in_snd _ (Has_in_snd _ (Has_snd _ _)).
Definition networks : Instance.Networks St := {|
  Instance.DefaultNetworkID _ := ret "net-1"; Instance.NetworkExistsIn _ _ := ret true; Instance.ReleaseAddress _ := ret tt |}.
Definition deps : Instance.Deps St := {|
  Instance.d_networks := Some networks; Instance.d_keys := None; Instance.d_quota := Some (Adapters.instanceQuota (Some Adapters.projectUsage));
  Instance.d_volumes := None; Instance.d_forwards := None; Instance.d_balancers := None; Instance.d_logs := None; Instance.d_execs := None;
  Instance.d_alerts := None; Instance.d_devices := None; Instance.d_firewalls := None; Instance.d_sealing := None;
  Instance.d_dataDir := "data"; Instance.d_events := true |}.
#[export] Instance deps_deaf : Instance.Deaf deps.
Proof.
  assert (Ha : forall p cl (env : Env) (w : World St),
    part (T:=InstState) (snd (Quota.admit_claim (Some Adapters.projectUsage) p cl env w)) = part w).
  { intros p cl env w. pose proof (admit_rule env p cl (fun _ w' => w_st w' = w_st w) w ltac:(auto)) as H. unfold wp in H.
    destruct (Quota.admit_claim _ _ _ env w). by apply part_still. }
  constructor; try (intros x [=]; fail).
  - intros n [= <-]. split_and!; by intros ? ? ?.
  - intros q [= <-]. split; intros p v m env w; apply Ha.
  - intros id. simpl. constructor; [by intros ? ?|constructor].
Qed.
Definition env : Env := {| env_now n := Z.of_nat n * second; env_rand n := [Z.of_nat n]; env_io _ := false |}.
(** One instance and ten GiB are allowed. *)
Definition quotas : QuotaDB := [Quota.MkQuota "prj-1" (Quota.MkLimits 1 0 0 0 10) 0].
Definition volumes : VolumeDB := Volume.MkVolumeDB [] [] [].
Definition start : World St := MkWorld (Instance.MkInstState [] ∅, (volumes, (quotas, Backup.MkBackupDB [] []))) O [].
Definition params (name : string) : InstanceSpec.CreateParams :=
  InstanceSpec.MkCreateParams "" "prj-1" name "" false ∅ ∅ [] [] [] "vm" "debian" "" "" 0 "" [] "" "" 2 1024.
Lemma start_inv : Instance.inst_inv (part start).
Proof. constructor; simpl; auto with go; set_solver. Qed.
Lemma volumes_inv : Volume.vols_inv (part start).
Proof. constructor; simpl; auto with go; apply NoDup_nil_2. Qed.
(** Both are admitted before either is inserted. *)
Definition overlapped (a b : InstanceSpec.CreateParams) (i j : Instance.Instance) : M St unit :=
  Instance.admit_create deps a a ;;; Instance.admit_create deps b b ;;; Instance.insert i ;;; Instance.insert j.
Definition row (id name : string) : Instance.Instance :=
  Instance.MkInstance id (Instance.MkFixed "prj-1" name "vm" "debian" "" "" 0 "" [] "net-1" "" "" "" false ∅ "" "" [] "" [] [] [] 0)
    2 1024 0 "running" "pending" "" None false false "" "" 0.
End Demo.
Import (hints) Demo.

Lemma instance_quota_kept_witness :
  stays_within 1 0 (held one "prj-1" (part (T:=InstState) (snd (Instance.serve Demo.deps (Instance.ReqCreate (Demo.params "web")) Demo.env Demo.start)))).
Proof.
  pose proof (instance_quota_kept Demo.deps Demo.deps_deaf eq_refl ltac:(discriminate) Demo.env (Instance.ReqCreate (Demo.params "web"))
    Demo.start Demo.start_inv ltac:(reflexivity)) as H. unfold wp in H.
  destruct (Instance.serve _ _ _ _) as [o w']. destruct (H "prj-1") as [H1 _]. exact H1.
Defined.
Lemma volume_quota_kept_witness :
  stays_within 10 0 (stored Volume.v_SizeGiB "prj-1" (part (T:=VolumeDB)
    (snd (store Sealed.demo None (StoreNew (Volume.MkCreateParams "prj-1" "data" 4 "" false)) Demo.env Demo.start)))).
Proof.
  pose proof (volume_quota_kept Sealed.demo None Demo.env (StoreNew (Volume.MkCreateParams "prj-1" "data" 4 "" false))
    Demo.start Demo.volumes_inv ltac:(reflexivity)) as H. unfold wp in H.
  destruct (store _ _ _ _ _) as [o w']. destruct (H "prj-1") as [_ H1]. exact H1.
Defined.

(** [overlapping_requests_exceed]: the admission and the INSERT are two transactions.  Two requests
    that are both admitted before either row is there are both served, and the project holds more
    than its limit. *)
Theorem overlapping_requests_exceed :
  let '(r, w') := Demo.overlapped (Demo.params "web") (Demo.params "db") (Demo.row "i-1" "web") (Demo.row "i-2" "db") Demo.env Demo.start in
  r = Ok tt /\ Quota.lim_Instances (Quota.in_force (part w') "prj-1") = 1 /\ held one "prj-1" (part w') = 2.
Proof. vm_compute. split_and!; reflexivity. Qed.
