(* ===== verification/Project.v ===== *)
(** Projects (internal/platform/project): the table of tenants, the default one every other module
    falls back on, and the deletion that asks first what a project still holds.

    [ResourcesIn] is asked through the adapter the process is started with (Adapters.v), so that the
    theorems on deletion speak of the tables themselves. *)
From stdpp Require Import base tactics numbers strings list gmap sorting.
From Stdlib Require Import ZArith Lia.
From S2P Require Import Prelude GoLang Time Effects Kernel Httpx Tables Adapters Platform.
From S2P Require Sealed InstanceSpec Instance Volume Token Job Netip Network.

(** * Data (types.go) *)

Definition DefaultID : string := "prj-default".
Definition DefaultName : string := "default".
(* go: platform/project/types.go Project *)
Record Project := MkProject { pr_ID : string; pr_Name : string; pr_CreatedAt : Z }.
(* go: platform/project/types.go CreateParams *)
Record CreateParams := MkCreateParams { cp_Name : string }.

(** * Repository (repository.go)

    UNIQUE (id) and (name). *)

Definition ProjectDB : Type := list Project.
Definition errNotFound : error := ESentinel "project not found".
Definition errNameTaken : error := ESentinel "project name already exists".
Definition has_id (id : string) (p : Project) : bool := String.eqb (pr_ID p) id.
Definition has_name (name : string) (p : Project) : bool := String.eqb (pr_Name p) name.
Definition clash (n p : Project) : bool := has_id (pr_ID n) p || has_name (pr_Name n) p.

Section repository.
Context {S : Type} `{!Has ProjectDB S}.
(* go: platform/project/repository.go repository.insert *)
Definition insert (p : Project) : M S unit := sql (T:=ProjectDB) "insert project" (insert_row (clash p) errNameTaken p).
(* go: platform/project/repository.go repository.byID *)
Definition byID (id : string) : M S Project := query (T:=ProjectDB) "read project" (select_one (has_id id) errNotFound).
(* go: platform/project/repository.go repository.byName *)
Definition byName (name : string) : M S Project := query (T:=ProjectDB) "read project" (select_one (has_name name) errNotFound).
(* go: platform/project/repository.go repository.list *)
Definition list_rows : M S (list Project) :=
  query (T:=ProjectDB) "list projects" (fun rows => Ok (sliceStable (by_key pr_Name str_ltb (fun _ _ => false)) rows)).
(* go: platform/project/repository.go repository.delete *)
Definition delete_row (id : string) : M S unit := sql (T:=ProjectDB) "delete project" (delete_where (has_id id) errNotFound).
End repository.

(** * Service (service.go) *)

(* go: platform/project/service.go translate *)
Definition translate (err : error) : error :=
  if errors_Is err "project not found" then NotFound "project_not_found" "no project with that id exists"
  else if errors_Is err "project name already exists" then Conflict "project_name_taken" "a project with that name already exists"
  else Internal err.
(* go: platform/project/service.go Occupancy *)
Record Occupancy (S : Type) := { ResourcesIn : string -> M S Z }.
Arguments ResourcesIn {S} _ _.

Section service.
Context {S : Type} `{!Has ProjectDB S}.

(* go: platform/project/service.go service.create *)
Definition create (params : CreateParams) : M S Project :=
  lift (validate_Name "name" (cp_Name params)) ;;;
  let! id := ids_New "prj" in
  let! at_ := now in
  let p := MkProject id (cp_Name params) at_ in
  mapped translate (insert p) ;;;
  ret p.
(* go: platform/project/service.go service.list *)
Definition listed : M S (list Project) := mapped translate list_rows.
(* go: platform/project/service.go service.get *)
Definition get (id : string) : M S Project := mapped translate (byID id).
(* go: platform/project/service.go service.exists *)
Definition exists_ (id : string) : M S bool :=
  let! r := attempt (byID id) in
  match r with
  | Err err => if errors_Is err "project not found" then ret false else fail (translate err)
  | Ok _ => ret true
  end.
(* go: platform/project/service.go service.remove *)
Definition remove (occupancy : option (Occupancy S)) (id : string) : M S unit :=
  if String.eqb id DefaultID then fail (Conflict "default_project"
    "the default project holds every token that names no project, so it cannot be deleted")
  else
    mapped translate (byID id) ;;;
    match occupancy with
    | None => fail (Internal (EText "no occupancy source is wired, so emptiness cannot be proven"))
    | Some o =>
        let! held := mapped Internal (ResourcesIn o id) in
        lift (guard (0 <? held) (Conflict "project_in_use"
          "the project still holds resources, and deleting it would leave them unreachable")) ;;;
        mapped translate (delete_row id)
    end.
(* go: platform/project/service.go service.ensureDefault *)
Definition ensureDefault : M S Project :=
  let! r := attempt (byID DefaultID) in
  match r with
  | Ok existing => ret existing
  | Err err =>
      if negb (errors_Is err "project not found") then fail (translate err)
      else
        let! at_ := now in
        let p := MkProject DefaultID DefaultName at_ in
        let! r := attempt (insert p) in
        match r with
        | Err err => if errors_Is err "project name already exists" then byName DefaultName else fail (translate err)
        | Ok _ => ret p
        end
  end.
End service.

(** * Handlers and the module (handler.go, module.go) *)

(* go: platform/project/handler.go createRequest *)
Record createRequest := MkCreateRequest { cr_Name : string }.
(* go: platform/project/handler.go response *)
Record response := MkResponse { o_ID : string; o_Name : string; o_CreatedAt : string }.
(* go: platform/project/handler.go toResponse *)
Definition toResponse (p : Project) : response := MkResponse (pr_ID p) (pr_Name p) (rfc3339nano (pr_CreatedAt p)).
(* go: platform/project/handler.go listResponse *)
Inductive body := BProject (p : response) | BProjects (ps : list response).

Section handlers.
Context {S : Type} `{!Has ProjectDB S} (occupancy : option (Occupancy S)).
(* go: platform/project/handler.go handler.create *)
Definition handle_create (req : outcome createRequest) : M S (Reply body) :=
  let! req := lift req in
  let! p := create (MkCreateParams (cr_Name req)) in
  Write StatusCreated (BProject (toResponse p)).
(* go: platform/project/handler.go handler.list *)
Definition handle_list : M S (Reply body) :=
  let! projects := listed in Write StatusOK (BProjects (map toResponse projects)).
(* go: platform/project/handler.go handler.get *)
Definition handle_get (id : string) : M S (Reply body) :=
  let! p := get id in Write StatusOK (BProject (toResponse p)).
(* go: platform/project/handler.go handler.delete *)
Definition handle_delete (id : string) : M S (Reply body) :=
  remove occupancy id ;;;
  WriteHeader StatusNoContent.
(* go: platform/project/module.go Module.EnsureDefault *)
Definition EnsureDefault : M S Project := ensureDefault.
(* go: platform/project/module.go Module.Exists *)
Definition Exists_ (id : string) : M S bool := exists_ id.

(** The routes, the start of the process, and what other modules ask. *)
Inductive request :=
| ReqCreate (req : outcome createRequest)
| ReqList
| ReqGet (id : string)
| ReqDelete (id : string)
| ReqExists (id : string)
| Started.
(* go: platform/project/module.go Module.Routes *)
Definition serve (r : request) : M S (Reply body) :=
  match r with
  | ReqCreate req => handle_create req
  | ReqList => handle_list
  | ReqGet id => handle_get id
  | ReqDelete id => handle_delete id
  | ReqExists id => Exists_ id ;;; WriteHeader StatusNoContent
  | Started => EnsureDefault ;;; WriteHeader StatusNoContent
  end.
End handlers.

(** What the process wires in (app/adapters.go). *)
Definition wired {S} `{!Has Token.TokenDB S, !Has InstState S, !Has VolumeDB S} : option (Occupancy S) :=
  Some {| ResourcesIn := Adapters.projectOccupancy |}.

(** * The state machine the module promises *)

Inductive change (db : ProjectDB) : ProjectDB -> Prop :=
| C_create p : validate_Name "name" (pr_Name p) = Ok tt -> existsb (clash p) db = false -> change db (db ++ [p])
| C_remove id : id <> DefaultID -> change db (List.filter (fun p => negb (has_id id p)) db).
Definition history : ProjectDB -> ProjectDB -> Prop := rtc change.
#[export] Instance history_preorder : PreOrder history.
Proof. unfold history. typeclasses eauto. Qed.

Record projects_inv (db : ProjectDB) : Prop := {
  pi_id : unique_by (fun p => Some (pr_ID p)) db;
  pi_name : unique_by (fun p => Some (pr_Name p)) db;
  pi_row : Forall (fun p => validate_Name "name" (pr_Name p) = Ok tt) db;
}.
(** The default project is there. *)
Definition has_default (db : ProjectDB) : Prop := exists p, p ∈ db /\ pr_ID p = DefaultID.

Lemma project_change_inv db db' : change db db' -> projects_inv db -> projects_inv db'.
Proof.
  intros [p Hn Hc|id _] [H1 H2 H3].
  - rewrite existsb_false, Forall_forall in Hc. constructor.
    + apply unique_by_app; [done|]. intros x q Hx [= <-] [= E]. specialize (Hc x Hx). unfold clash, has_id in Hc. by rewrite E, String.eqb_refl in Hc.
    + apply unique_by_app; [done|]. intros x q Hx [= <-] [= E]. specialize (Hc x Hx). unfold clash, has_name in Hc.
      by rewrite E, String.eqb_refl, orb_true_r in Hc.
    + apply Forall_app. split; [done|]. by constructor.
  - constructor; by first [apply unique_by_filter|apply Forall_filter_bool].
Qed.
Lemma project_history_inv db db' : history db db' -> projects_inv db -> projects_inv db'.
Proof. intros H. induction H as [|x y z Hc _ IH]; [done|]. intros Hi. apply IH. by eapply project_change_inv. Qed.
Lemma history_default db db' : history db db' -> has_default db -> has_default db'.
Proof.
  intros H. induction H as [|x y z Hc _ IH]; [done|]. intros (p & Hp & Ep). apply IH. exists p. split; [|done].
  destruct Hc as [q _ _|id Hid]; [set_solver|]. apply elem_of_filter_bool. split; [done|]. unfold has_id. rewrite Ep.
  apply negb_true_iff, String.eqb_neq. congruence.
Qed.

Section operations.
Context {S : Type} `{!Has ProjectDB S} (occupancy : option (Occupancy S)).
Context (Hocc : forall o id, occupancy = Some o -> leaves ProjectDB (ResourcesIn o id)).

Lemma project_insert_moves (db : ProjectDB) p : validate_Name "name" (pr_Name p) = Ok tt -> moves history db (insert (S:=S) p).
Proof.
  intros Hn. apply moves_sql; [typeclasses eauto|]. unfold insert_row. destruct (existsb _ _) eqn:Ec; cbn [snd]; [done|].
  apply rtc_once. by apply C_create.
Qed.
Lemma project_serve_moves (db : ProjectDB) r : moves history db (serve (S:=S) occupancy r).
Proof.
  destruct r as [req| |id|id|id|]; cbn [serve];
    unfold handle_create, handle_list, handle_get, handle_delete, Exists_, EnsureDefault, Write, WriteHeader.
  - m_step. intros q _. apply moves_then; [typeclasses eauto| |intros; m_step]. unfold create. m_step. intros [] Hn.
    eapply moves_bind; [typeclasses eauto|apply yields_leaves; unfold ids_New; auto with leaves|]. intros id _. m_step. intros at_ _.
    apply moves_last; [typeclasses eauto|]. by apply project_insert_moves.
  - unfold listed, list_rows. reads.
  - unfold get, byID. reads.
  - apply moves_then; [typeclasses eauto| |intros; m_step]. unfold remove. destruct (String.eqb_spec id DefaultID) as [|Hid]; [m_step|].
    eapply moves_bind; [typeclasses eauto|apply yields_leaves; unfold byID; auto with leaves|]. intros _ _.
    destruct occupancy as [o|] eqn:Eo; [|m_step].
    eapply moves_bind; [typeclasses eauto|apply yields_leaves, leaves_mapped; by apply Hocc|]. intros held _. m_step. intros _ _.
    apply moves_mapped, moves_sql; [typeclasses eauto|]. pose proof (delete_where_rows (has_id id) errNotFound db) as E. cbv beta. unfold ProjectDB in *.
    rewrite E. apply rtc_once. by apply C_remove.
  - unfold exists_. eapply moves_bind; [typeclasses eauto| |intros; m_step]. apply yields_leaves. unfold byID. auto 10 with leaves.
  - apply moves_then; [typeclasses eauto| |intros; m_step]. unfold ensureDefault.
    eapply moves_bind; [typeclasses eauto|apply yields_leaves; unfold byID; auto with leaves|]. intros [p|err] _; [m_step|].
    destruct (negb _); [m_step|]. m_step. intros at_ _.
    apply moves_then; [typeclasses eauto|by apply moves_attempt, project_insert_moves|]. intros db' [u|e] _; [m_step|].
    destruct (errors_Is _ _); [|m_step]. unfold byName. eapply moves_yields; [typeclasses eauto|]. apply yields_query.
Qed.
End operations.

(** * Properties *)

(** [projects_lawful]: requests add projects with valid names that nobody has, and remove others than
    the default one; ids and names stay unique, and the default project, once there, is there for good. *)
Theorem projects_lawful {S} `{!Has ProjectDB S} (occupancy : option (Occupancy S)) env r (w : World S) :
  (forall o id, occupancy = Some o -> leaves ProjectDB (ResourcesIn o id)) -> projects_inv (part w) ->
  wp env (serve occupancy r) (fun _ w' => history (part w) (part w') /\ projects_inv (part w') /\
    (has_default (part w) -> has_default (part w'))) w.
Proof.
  intros Hocc Hi. eapply wp_mono; [|exact (project_serve_moves occupancy Hocc (part w) r env w eq_refl)]. intros o w' H.
  split_and!; [done|exact (project_history_inv _ _ H Hi)|exact (history_default _ _ H)].
Qed.

(** [default_ensured]: after a start that succeeded, the project that every other module falls back on
    is there under the id they know, unless its name had been given to another. *)
Theorem default_ensured {S} `{!Has ProjectDB S} env (w : World S) :
  (forall p, p ∈ part (T:=ProjectDB) w -> pr_Name p = DefaultName -> pr_ID p = DefaultID) ->
  wp env (EnsureDefault (S:=S)) (fun r w' => forall p, r = Ok p -> pr_ID p = DefaultID /\ p ∈ part (T:=ProjectDB) w') w.
Proof.
  intros Hn. unfold EnsureDefault, ensureDefault. apply wp_bind, wp_attempt, wp_read. intros r [->| ->]; [simpl; by rewrite wp_fail|].
  unfold select_one. destruct (List.find _ _) as [p|] eqn:Ef.
  { apply find_some_elem in Ef as [Hp Ep%String.eqb_eq]. rewrite wp_ret. by intros q [= <-]. }
  cbn [errors_Is negb]. apply wp_bind. rewrite wp_now. apply wp_bind, wp_attempt, wp_write; intros w' Hw'; cbn [errors_Is].
  { simpl. by rewrite wp_fail. }
  unfold insert_row in *. destruct (existsb _ _) eqn:Ec; cbn [fst snd] in *.
  - apply existsb_exists in Ec as (q & Hq%list_elem_of_In & Hc). exfalso.
    assert (Eq : pr_ID q = DefaultID) by (apply orb_true_iff in Hc as [E%String.eqb_eq|E%String.eqb_eq]; [done|by apply Hn]).
    apply List.find_none with (x := q) in Ef; [|by apply list_elem_of_In]. unfold has_id in Ef. by rewrite Eq, String.eqb_refl in Ef.
  - rewrite wp_ret. intros p [= <-]. split; [done|]. rewrite Hw'. apply elem_of_app. right. by apply list_elem_of_singleton.
Qed.

Section deletion.
Context {S : Type} `{!Has ProjectDB S, !Has Token.TokenDB S, !Has InstState S, !Has VolumeDB S}.
(** Nothing of a table that the occupancy is counted from is the project's. *)
Definition unheld (id : string) (w : World S) : Prop :=
  (forall t, t ∈ part (T:=Token.TokenDB) w -> Token.t_ProjectID (Token.r_token t) <> id) /\
  (forall i, i ∈ Instance.db_instances (part w) -> Instance.in_ProjectID i <> id) /\
  (forall v, v ∈ Volume.vd_volumes (part w) -> Volume.v_ProjectID v <> id).
Lemma len_zero {R} (p : R -> bool) l : len (List.filter p l) = 0 -> forall x, x ∈ l -> p x = false.
Proof.
  intros H x Hx. destruct (p x) eqn:E; [|done]. assert (Hin : x ∈ List.filter p l) by (by apply elem_of_filter_bool).
  destruct (List.filter p l); [by apply not_elem_of_nil in Hin|]. rewrite length_cons in H. lia.
Qed.
(** What the adapter counts is what there is. *)
Lemma occupancy_rule id env (Q : outcome Z -> World S -> Prop) w :
  (forall r w', w_st w' = w_st w -> (forall n, r = Ok n -> n = wrap64 (len (List.filter (Token.in_project id) (part (T:=Token.TokenDB) w)) +
      held one id (part w) + stored one id (part w))) -> Q r w') ->
  wp env (Adapters.projectOccupancy id) Q w.
Proof.
  intros H. unfold Adapters.projectOccupancy. apply wp_bind, wp_mapped, wp_read. intros r [->| ->]; cbn [or_fault]; [by apply H|].
  apply wp_bind, footprint_inst. intros r [[e ->]| ->]; [by apply H|].
  apply wp_bind, footprint_vol. intros r [[e ->]| ->]; [by apply H|]. rewrite wp_ret. apply H; [done|]. by intros n [= <-].
Qed.
Lemma project_remove_rule id env (Q : outcome unit -> World S -> Prop) w :
  len (part (T:=Token.TokenDB) w) + len (Instance.db_instances (part w)) + len (Volume.vd_volumes (part w)) < two63 ->
  (forall e w', w_st w' = w_st w -> Q (Err e) w') ->
  (forall w1, w_st w1 = w_st w -> id <> DefaultID -> unheld id w -> wp env (delete_row id) (fun r w' => Q (or_fault translate r) w') w1) ->
  wp env (remove wired id) Q w.
Proof.
  intros Hlen He Hd. unfold remove. destruct (String.eqb_spec id DefaultID) as [|Hid]; [rewrite wp_fail; by apply He|].
  apply wp_bind, wp_mapped, wp_read. intros r Hr. assert (Hcase : (exists e, or_fault translate r = Err e) \/ exists p, or_fault translate r = Ok p).
  { destruct r; eauto. }
  destruct Hcase as [[e ->]|[p ->]]; [by apply He|]. cbn [wired ResourcesIn]. apply wp_bind, wp_mapped, occupancy_rule.
  intros [n|e] w1 E1 Hn; cbn [or_fault];
    change (w_st (tick w)) with (w_st w) in E1; [|by apply He]. specialize (Hn n eq_refl).
  apply wp_bind. rewrite wp_lift. destruct (0 <? n) eqn:En; cbn [guard]; [by apply He|]. apply Z.ltb_ge in En.
  apply wp_mapped, Hd; [done|done|]. unfold held, stored in Hn. rewrite !total_one in Hn.
  change (part (T:=Token.TokenDB) (tick w)) with (part (T:=Token.TokenDB) w) in Hn.
  change (part (T:=InstState) (tick w)) with (part (T:=InstState) w) in Hn. change (part (T:=VolumeDB) (tick w)) with (part (T:=VolumeDB) w) in Hn.
  pose proof (filter_bool_length_le (Token.in_project id) (part (T:=Token.TokenDB) w)) as L1.
  pose proof (filter_bool_length_le (Instance.in_project id) (Instance.db_instances (part w))) as L2.
  pose proof (filter_bool_length_le (Volume.in_project id) (Volume.vd_volumes (part w))) as L3.
  rewrite wrap64_small in Hn by (unfold in_int64, min_int64, max_int64; unfold two63 in *; lia).
  assert (Z1 : len (List.filter (Token.in_project id) (part (T:=Token.TokenDB) w)) = 0) by lia.
  assert (Z2 : len (List.filter (Instance.in_project id) (Instance.db_instances (part w))) = 0) by lia.
  assert (Z3 : len (List.filter (Volume.in_project id) (Volume.vd_volumes (part w))) = 0) by lia.
  split_and!; intros x Hx Ex.
  - pose proof (len_zero _ _ Z1 x Hx) as E.
    unfold Token.in_project in E. by rewrite Ex, String.eqb_refl in E.
  - pose proof (len_zero _ _ Z2 x Hx) as E.
    unfold Instance.in_project in E. by rewrite Ex, String.eqb_refl in E.
  - pose proof (len_zero _ _ Z3 x Hx) as E.
    unfold Volume.in_project in E. by rewrite Ex, String.eqb_refl in E.
Qed.

(** [deleted_project_was_empty]: a project is deleted only when it is not the default one and no token,
    instance or volume is in it; deleting it removes its row and changes no other table. *)
Theorem deleted_project_was_empty {U} `{!Has U S, !Apart ProjectDB U S} id env (w : World S) :
  len (part (T:=Token.TokenDB) w) + len (Instance.db_instances (part w)) + len (Volume.vd_volumes (part w)) < two63 ->
  wp env (remove wired id) (fun r w' => part (T:=U) w' = part w /\
    (r = Ok tt -> id <> DefaultID /\ unheld id w /\
       part (T:=ProjectDB) w' = List.filter (fun p => negb (has_id id p)) (part (T:=ProjectDB) w)) /\
    (r <> Ok tt -> part (T:=ProjectDB) w' = part w)) w.
Proof.
  intros Hlen. apply project_remove_rule; [done| |].
  - intros e w' E. unfold part. rewrite E. split_and!; [done|by intros [=]|done].
  - intros w1 E Hid Hu. unfold delete_row. apply (wp_write_apart env (T:=ProjectDB) (U:=U)); intros w' Hw' HU.
    + cbn [or_fault]. rewrite Hw', HU. unfold part. rewrite E. split_and!; [done|by intros [=]|done].
    + pose proof (delete_where_rows (has_id id) errNotFound (part (T:=ProjectDB) w1)) as Er. cbv beta in *. unfold ProjectDB in *.
      rewrite Hw', HU, Er. unfold part. rewrite E. split_and!; [done|done|]. intros Hr.
      destruct (fst _) as [[]|e] eqn:Ef in Hr; [by destruct Hr|].
      unfold delete_where in Ef. destruct (existsb _ _) eqn:Ex; [done|]. apply filter_all. intros x Hx.
      rewrite existsb_false, Forall_forall in Ex. by rewrite (Ex x Hx).
Qed.
End deletion.

(** ** Runs *)

Module Demo.
Definition St : Type := ProjectDB * (list Token.TokenRow * (InstState * (VolumeDB * Job.JobDB))).
#[export] Instance has_projects : Has ProjectDB St := Has_fst _ _.
#[export] Instance has_tokens : Has Token.TokenDB St := Has_in_snd _ (Has_fst _ _).
#[export] Instance has_instances : Has InstState St := Has_in_snd _ (Has_in_snd _ (Has_fst _ _)).
#[export] Instance has_volumes : Has VolumeDB St := Has_in_snd _ (Has_in_snd _ (Has_in_snd _ (Has_fst _ _))).
#[export] Instance has_jobs : Has Job.JobDB St := Has_in_snd _ (Has_in_snd _ (Has_in_snd _ (Has_snd _ _))).
#[export] Instance jobs_apart : Apart ProjectDB Job.JobDB St.
Proof. by intros []. Defined.
Definition env : Env := {| env_now n := Z.of_nat n * second; env_rand n := [Z.of_nat n]; env_io _ := false |}.
Definition projects : ProjectDB := [MkProject DefaultID DefaultName 0; MkProject "prj-1" "shop" 0].
(** A job of the second project, every hour. *)
Definition job : Job.Job :=
  Job.MkJob "job-1" "prj-1" "report" (Job.MkTemplate "vm" "debian" "" [] "net-1" "" 1 512 ∅ [] []) "" "" "" hour 0 3 false hour 0 [] 0 0.
Definition start : World St := MkWorld (projects, ([], (Instance.MkInstState [] ∅, (Volume.MkVolumeDB [] [] [], Job.MkJobDB [job] [])))) O [].
Lemma projects_inv_start : projects_inv (part start).
Proof.
  split; [by apply (bool_decide_unpack _); vm_compute| by apply (bool_decide_unpack _); vm_compute|].
  repeat (apply Forall_cons; split; [vm_compute; reflexivity|]). constructor.
Qed.
End Demo.
Import Demo.

Lemma projects_lawful_witness : exists w', projects_inv (part w') /\ has_default (part w') /\ w' = snd (serve wired (ReqDelete "prj-1") Demo.env Demo.start).
Proof.
  eexists. split; [|split; [|reflexivity]].
  all: pose proof (projects_lawful wired Demo.env (ReqDelete "prj-1") Demo.start ltac:(intros o id [= <-]; cbn; unfold Adapters.projectOccupancy, Token.countIn, Token.countInProject, Instance.footprintIn, Instance.translated, Instance.footprintIn_rows, Instance.reads, Volume.footprintIn, Volume.footprint_row, Volume.volumes_q; auto 10 with leaves) Demo.projects_inv_start) as H.
  all: unfold wp in H; destruct (serve _ _ _) as [r w'].
  - exact (proj1 (proj2 H)).
  - apply (proj2 (proj2 H)). exists (MkProject DefaultID DefaultName 0). split; [by left|reflexivity].
Defined.
Lemma deleted_project_was_empty_witness :
  fst (remove wired "prj-1" Demo.env Demo.start) = Ok tt /\ unheld "prj-1" Demo.start.
Proof.
  assert (E : fst (remove wired "prj-1" Demo.env Demo.start) = Ok tt) by (vm_compute; reflexivity). split; [exact E|].
  pose proof (deleted_project_was_empty (U:=Job.JobDB) "prj-1" Demo.env Demo.start eq_refl) as H.
  unfold wp in H. destruct (remove _ _ _) as [r w']. exact (proj1 (proj2 (proj1 (proj2 H) E))).
Defined.
(** [deleted_project_keeps_its_jobs]: what a project is asked to be empty of is its tokens, instances and
    volumes; a project whose only content is a scheduled job is deleted, and the job stays behind,
    in a project that does not exist. *)
Theorem deleted_project_keeps_its_jobs : let w' := snd (remove wired "prj-1" Demo.env Demo.start) in
  fst (remove wired "prj-1" Demo.env Demo.start) = Ok tt /\ existsb (has_id "prj-1") (part (T:=ProjectDB) w') = false /\
  map Job.j_ProjectID (Job.jd_jobs (part w')) = ["prj-1"].
Proof. vm_compute. done. Qed.
Lemma default_ensured_witness : fst (EnsureDefault (S:=ProjectDB) Demo.env (MkWorld [] O [])) = Ok (MkProject DefaultID DefaultName second) /\
  pr_ID (MkProject DefaultID DefaultName second) = DefaultID.
Proof.
  assert (E : fst (EnsureDefault (S:=ProjectDB) Demo.env (MkWorld [] O [])) = Ok (MkProject DefaultID DefaultName second)) by (vm_compute; reflexivity).
  split; [exact E|]. pose proof (default_ensured (S:=ProjectDB) Demo.env (MkWorld [] O []) ltac:(intros p Hp%list_elem_of_In; destruct Hp)) as H.
  unfold wp in H. destruct (EnsureDefault _ _) as [r w']. exact (proj1 (H _ E)).
Defined.
