(* ===== verification/Removal.v ===== *)
(** The platform as it is put together, part two: a deleted instance leaves no row behind
    (internal/app/app.go, platform/instance/service.go).

    The tables an instance appears in are the fields of [Tables]; the deletion runs with the modules
    wired as the process wires them ([Adapters.instanceDeps]).  A deletion that succeeds has swept
    all of them; one that fails after the row is gone has not, and cannot be repeated. *)
From stdpp Require Import base tactics numbers strings list gmap.
From Stdlib Require Import ZArith Lia.
From S2P Require Import Prelude GoLang Effects Kernel Tables Adapters.
From S2P Require InstanceSpec Instance Node Alert Network Volume Forward Balancer Quota.

(** * The tables *)

Record Tables := MkTables {
  t_instances : Instance.InstState; t_nodes : Node.NodeDB; t_alerts : Alert.AlertDB; t_networks : Network.NetDB;
  t_volumes : Volume.VolumeDB; t_forwards : Forward.ForwardDB; t_balancers : Balancer.BalancerDB; t_quotas : Quota.QuotaDB;
}.
Definition has_field {T} (get : Tables -> T) (put : T -> Tables -> Tables) (H1 : forall t s, get (put t s) = t)
  (H2 : forall s, put (get s) s = s) (H3 : forall t t' s, put t (put t' s) = put t s) : Has T Tables := Build_Has _ _ get put H1 H2 H3.
#[export] Instance has_instances : Has Instance.InstState Tables.
Proof. by refine (has_field t_instances (fun x '(MkTables a b c d e f g h) => MkTables x b c d e f g h) _ _ _); intros; destruct s. Defined.
#[export] Instance has_nodes : Has Node.NodeDB Tables.
Proof. by refine (has_field t_nodes (fun x '(MkTables a b c d e f g h) => MkTables a x c d e f g h) _ _ _); intros; destruct s. Defined.
#[export] Instance has_alerts : Has Alert.AlertDB Tables.
Proof. by refine (has_field t_alerts (fun x '(MkTables a b c d e f g h) => MkTables a b x d e f g h) _ _ _); intros; destruct s. Defined.
#[export] Instance has_networks : Has Network.NetDB Tables.
Proof. by refine (has_field t_networks (fun x '(MkTables a b c d e f g h) => MkTables a b c x e f g h) _ _ _); intros; destruct s. Defined.
#[export] Instance has_volumes : Has Volume.VolumeDB Tables.
Proof. by refine (has_field t_volumes (fun x '(MkTables a b c d e f g h) => MkTables a b c d x f g h) _ _ _); intros; destruct s. Defined.
#[export] Instance has_forwards : Has Forward.ForwardDB Tables.
Proof. by refine (has_field t_forwards (fun x '(MkTables a b c d e f g h) => MkTables a b c d e x g h) _ _ _); intros; destruct s. Defined.
#[export] Instance has_balancers : Has Balancer.BalancerDB Tables.
Proof. by refine (has_field t_balancers (fun x '(MkTables a b c d e f g h) => MkTables a b c d e f x h) _ _ _); intros; destruct s. Defined.
#[export] Instance has_quotas : Has Quota.QuotaDB Tables.
Proof. by refine (has_field t_quotas (fun x '(MkTables a b c d e f g h) => MkTables a b c d e f g x) _ _ _); intros; destruct s. Defined.

(** The rows that name an instance. *)
Definition devices_of (id : string) (t : Tables) := List.filter (fun d => String.eqb (Node.dv_InstanceID d) id) (Node.db_devices (t_nodes t)).
Definition alerts_of (id : string) (t : Tables) := List.filter (Alert.of_instance id) (Alert.al_rows (t_alerts t)).
Definition nics_of (id : string) (t : Tables) := List.filter (fun c => String.eqb (Network.nic_InstanceID c) id) (Network.db_nics (t_networks t)).
Definition volumes_of (id : string) (t : Tables) := List.filter (Volume.held_by id) (Volume.vd_volumes (t_volumes t)).
Definition ports_of (id : string) (t : Tables) := List.filter (Forward.of_instance id) (Forward.fd_rows (t_forwards t)).
Definition backends_of (id : string) (t : Tables) := List.filter (fun r => String.eqb (Balancer.br_Instance r) id) (Balancer.bd_backends (t_balancers t)).
Definition health_of (id : string) (t : Tables) := List.filter (fun r => String.eqb (Balancer.hr_Instance r) id) (Balancer.bd_health (t_balancers t)).
Definition row_of (id : string) (t : Tables) := List.filter (Instance.has_id id) (Instance.db_instances (t_instances t)).
Record gone (id : string) (t : Tables) : Prop := {
  gone_row : row_of id t = []; gone_devices : devices_of id t = []; gone_alerts : alerts_of id t = []; gone_nics : nics_of id t = [];
  gone_volumes : volumes_of id t = []; gone_ports : ports_of id t = []; gone_backends : backends_of id t = []; gone_health : health_of id t = [];
}.
(** What names another instance stays. *)
Record kept (other : string) (t t' : Tables) : Prop := {
  kept_row : row_of other t' = row_of other t; kept_devices : devices_of other t' = devices_of other t;
  kept_alerts : alerts_of other t' = alerts_of other t; kept_nics : nics_of other t' = nics_of other t;
  kept_volumes : volumes_of other t' = volumes_of other t; kept_ports : ports_of other t' = ports_of other t;
  kept_backends : backends_of other t' = backends_of other t; kept_health : health_of other t' = health_of other t;
}.

(** * The sweep *)

Section rows.
Context {R : Type} (key : R -> string).
Definition named (id : string) (r : R) : bool := String.eqb (key r) id.
Lemma named_dropped id rows : List.filter (named id) (List.filter (fun r => negb (named id r)) rows) = [].
Proof. apply filter_none. intros r [_ H]%elem_of_filter_bool. by destruct (named id r). Qed.
Lemma others_dropped id other rows : other <> id ->
  List.filter (named other) (List.filter (fun r => negb (named id r)) rows) = List.filter (named other) rows.
Proof.
  intros Hne. induction rows as [|r rows IH]; [done|]. cbn [List.filter]. unfold named at 2.
  destruct (String.eqb_spec (key r) id) as [E|]; cbn [negb List.filter]; rewrite IH; [|done].
  unfold named at 2. rewrite E. by destruct (String.eqb_spec id other).
Qed.
(** Rows whose key is emptied instead. *)
Lemma named_cleared id (f : R -> R) rows : id <> "" -> (forall r, key (f r) = "") ->
  List.filter (named id) (map (fun r => if named id r then f r else r) rows) = [].
Proof.
  intros Hid Hf. apply filter_none. intros r (x & -> & _)%list_elem_of_fmap. destruct (named id x) eqn:E; [|done].
  unfold named. rewrite Hf. by destruct (String.eqb_spec "" id).
Qed.
Lemma others_cleared id other (f : R -> R) rows : other <> id -> other <> "" -> (forall r, key (f r) = "") ->
  List.filter (named other) (map (fun r => if named id r then f r else r) rows) = List.filter (named other) rows.
Proof.
  intros Hne Ho Hf. induction rows as [|x rows IH]; [done|]. simpl. rewrite IH. destruct (named id x) eqn:E; [|done].
  unfold named in *. apply String.eqb_eq in E. rewrite Hf, E. by destruct (String.eqb_spec "" other), (String.eqb_spec id other).
Qed.
End rows.

Definition sweep_devices (id : string) (db : Node.NodeDB) : Node.NodeDB :=
  Node.MkNodeDB (Node.db_nodes db) (Node.db_labels db)
    (map (fun d => if String.eqb (Node.dv_InstanceID d) id then Node.with_holder "" d else d) (Node.db_devices db)).
Definition sweep_volumes (id : string) (at_ : Z) (db : Volume.VolumeDB) : Volume.VolumeDB :=
  Volume.set_volumes (Volume.rewrite_rows (Volume.held_by id)
    (fun v => Volume.set_attachment "" (Volume.v_NodeID v) (Volume.v_Detaching v) at_ v) (Volume.vd_volumes db)) db.
(** The tables after a deletion that went through. *)
Definition swept (id : string) (files : gmap string string) (at_ : Z) (t : Tables) : Tables :=
  MkTables (Instance.MkInstState (List.filter (fun i => negb (Instance.has_id id i)) (Instance.db_instances (t_instances t))) files)
    (sweep_devices id (t_nodes t))
    (Alert.MkAlertDB (List.filter (fun a => negb (Alert.of_instance id a)) (Alert.al_rows (t_alerts t))))
    (Network.MkNetDB (Network.db_networks (t_networks t)) (Network.db_slices (t_networks t))
       (List.filter (fun c => negb (String.eqb (Network.nic_InstanceID c) id)) (Network.db_nics (t_networks t))))
    (sweep_volumes id at_ (t_volumes t))
    (Forward.MkForwardDB (List.filter (fun f => negb (Forward.of_instance id f)) (Forward.fd_rows (t_forwards t))))
    (Balancer.MkBalancerDB (Balancer.bd_balancers (t_balancers t))
       (List.filter (fun r => negb (String.eqb (Balancer.br_Instance r) id)) (Balancer.bd_backends (t_balancers t)))
       (List.filter (fun h => negb (String.eqb (Balancer.hr_Instance h) id)) (Balancer.bd_health (t_balancers t)))
       (Balancer.bd_routes (t_balancers t)))
    (t_quotas t).

Lemma swept_gone id files at_ t : id <> "" -> gone id (swept id files at_ t).
Proof.
  intros Hid. constructor; unfold row_of, devices_of, alerts_of, nics_of, volumes_of, ports_of, backends_of, health_of; cbn.
  - apply (named_dropped Instance.in_ID).
  - by apply (named_cleared Node.dv_InstanceID).
  - apply (named_dropped Alert.al_InstanceID).
  - apply (named_dropped Network.nic_InstanceID).
  - by apply (named_cleared Volume.v_InstanceID).
  - apply (named_dropped Forward.f_InstanceID).
  - apply (named_dropped Balancer.br_Instance).
  - apply (named_dropped Balancer.hr_Instance).
Qed.
Lemma swept_kept id other files at_ t : other <> id -> other <> "" -> kept other t (swept id files at_ t).
Proof.
  intros Hne Ho. constructor; unfold row_of, devices_of, alerts_of, nics_of, volumes_of, ports_of, backends_of, health_of; cbn.
  - by apply (others_dropped Instance.in_ID).
  - by apply (others_cleared Node.dv_InstanceID).
  - by apply (others_dropped Alert.al_InstanceID).
  - by apply (others_dropped Network.nic_InstanceID).
  - by apply (others_cleared Volume.v_InstanceID).
  - by apply (others_dropped Forward.f_InstanceID).
  - by apply (others_dropped Balancer.br_Instance).
  - by apply (others_dropped Balancer.hr_Instance).
Qed.

Section removal.
Context {S : Type} `{HS : !Has Tables S}.
Definition via {T} (HT : Has T Tables) : Has T S.
Proof.
  refine {| hget s := hget (hget (T:=Tables) s); hput t s := hput (hput t (hget (T:=Tables) s)) s |}; intros;
    rewrite ?(hget_hput (T:=Tables)), ?hget_hput, ?hput_hget, ?(hput_hput (T:=Tables)), ?hput_hput; try done; apply hput_hget.
Defined.
#[local] Instance via_instances : Has Instance.InstState S := via has_instances.
#[local] Instance via_nodes : Has Node.NodeDB S := via has_nodes.
#[local] Instance via_alerts : Has Alert.AlertDB S := via has_alerts.
#[local] Instance via_networks : Has Network.NetDB S := via has_networks.
#[local] Instance via_volumes : Has Volume.VolumeDB S := via has_volumes.
#[local] Instance via_forwards : Has Forward.ForwardDB S := via has_forwards.
#[local] Instance via_balancers : Has Balancer.BalancerDB S := via has_balancers.
#[local] Instance via_quotas : Has Quota.QuotaDB S := via has_quotas.
Context (keys : option (Instance.Keys S)) (logs execs : option (Instance.Releaser S)) (firewalls : option (Instance.Firewalls S)).
Context (sealing : option (Instance.Keyring S)) (dataDir : string).
(** The log book and the commands have tables of their own. *)
Context (Hlogs : forall l i, logs = Some l -> leaves Tables (Instance.ReleaseInstance l i)).
Context (Hexecs : forall l i, execs = Some l -> leaves Tables (Instance.ReleaseInstance l i)).
Abbreviation deps := (Adapters.instanceDeps keys logs execs firewalls sealing dataDir).
Abbreviation tables w := (part (T:=Tables) w).

Lemma wp_table {T A} (HT : Has T Tables) what (q : T -> outcome A * T) env (Q : outcome A -> World S -> Prop) w :
  (forall w', tables w' = tables w -> Q (Err (io_error what)) w') ->
  (forall w', tables w' = hput (snd (q (hget (tables w)))) (tables w) -> Q (fst (q (hget (tables w)))) w') ->
  wp env (@sql T S A (via HT) what q) Q w.
Proof.
  intros H1 H2. unfold wp, sql. destruct (env_io env (w_step w)); [by apply H1|].
  change (hget (w_st w)) with (hget (hget (T:=Tables) (w_st w))). unfold part in H2.
  destruct (q (hget (hget (T:=Tables) (w_st w)))) as [r t]. apply H2.
  change (hget (T:=Tables) (hput (T:=Tables) (hput t (hget (T:=Tables) (w_st w))) (w_st w)) = hput t (hget (T:=Tables) (w_st w))). apply hget_hput.
Qed.

(** One step of the clean-up. *)
Lemma wp_cleanup (m : M S unit) (f : string * M S unit -> error -> error) rest env (Q : outcome unit -> World S -> Prop) w x :
  wp env m (fun r w' => match r with Ok _ => wp env (foldM (fun step _ => mapped (f step) (snd step)) rest tt) Q w'
    | Err e => forall e', Q (Err e') w' end) w ->
  wp env (foldM (fun step _ => mapped (f step) (snd step)) ((x, m) :: rest) tt) Q w.
Proof.
  intros H. cbn [foldM]. apply wp_bind, wp_mapped. cbn [snd]. eapply wp_mono; [|exact H]. intros [[]|e] w' Hw'; [done|]. apply Hw'.
Qed.

(** A step that failed ends the clean-up, which promises nothing then. *)
Ltac failed HQ := let e := fresh in intros e; apply HQ; discriminate.
(** The cleaned tables, step by step. *)
Lemma cleanups_rule id t env (Q : outcome unit -> World S -> Prop) w :
  (exists rows files, tables w = MkTables (Instance.MkInstState rows files) (t_nodes t) (t_alerts t) (t_networks t) (t_volumes t) (t_forwards t)
     (t_balancers t) (t_quotas t) /\ rows = List.filter (fun i => negb (Instance.has_id id i)) (Instance.db_instances (t_instances t))) ->
  (forall r w', (r = Ok tt -> exists files at_, tables w' = swept id files at_ t) -> Q r w') ->
  wp env (foldM (fun step _ => mapped (fun err => Internal (EWrap ("instance " +:+ id +:+ fst step) err)) (snd step)) (Instance.cleanups deps id) tt) Q w.
Proof.
  intros (rows & files & E0 & ->) HQ.
  unfold Instance.cleanups. cbn [Adapters.instanceDeps Instance.d_devices Instance.d_alerts Instance.d_execs Instance.d_networks Instance.d_volumes
    Instance.d_forwards Instance.d_balancers Instance.d_logs app].
  apply (wp_cleanup _ (fun step err => Internal (EWrap ("instance " +:+ id +:+ fst step) err))). cbn [Instance.ReleaseDevice]. unfold Node.ReleaseInstance, Node.releaseDevice, Node.on_devices.
  apply (wp_table has_nodes); intros w1 E1; [failed HQ|]. rewrite E0 in E1. cbn in E1; cbn [fst snd or_fault Alert.on_rows Forward.on_rows].
  apply (wp_cleanup _ (fun step err => Internal (EWrap ("instance " +:+ id +:+ fst step) err))). cbn [Instance.ReleaseInstance]. unfold Alert.ReleaseInstance, Alert.deleteInstance.
  apply (wp_table has_alerts); intros w2 E2; [failed HQ|]. rewrite E1 in E2. cbn in E2; cbn [fst snd or_fault Alert.on_rows Forward.on_rows]. clear E0 E1 w w1.
  assert (Hnext : forall w, tables w = tables w2 -> wp env (foldM (fun step _ => mapped (fun err => Internal (EWrap ("instance " +:+ id +:+ fst step) err)) (snd step))
    ([(" was deleted but its address was not released", Network.release id);
      (" was deleted but its volumes stayed attached to it", Volume.releaseInstance id);
      (" was deleted but its published ports stayed", Forward.releaseInstance id);
      (" was deleted but stayed a balancer backend", Balancer.releaseInstance id)] ++
     match logs with Some r => [(" was deleted but its log was kept", Instance.ReleaseInstance r id)] | None => [] end) tt) Q w).
  { intros w E. rewrite E2 in E. clear E2. cbn [app].
    apply (wp_cleanup _ (fun step err => Internal (EWrap ("instance " +:+ id +:+ fst step) err))). unfold Network.release, Network.translated, Network.deleteNIC.
    apply wp_mapped, (wp_table has_networks); intros w3 E3; [failed HQ|]. rewrite E in E3. cbn in E3; cbn [fst snd or_fault Alert.on_rows Forward.on_rows].
    apply (wp_cleanup _ (fun step err => Internal (EWrap ("instance " +:+ id +:+ fst step) err))). unfold Volume.releaseInstance, Volume.detachInstance, Volume.update_volumes, Volume.volumes_sql.
    apply wp_bind. rewrite wp_now. apply wp_mapped, (wp_table has_volumes); intros w4 E4; [failed HQ|].
    change (tables (tick w3)) with (tables w3) in E4. rewrite E3 in E4. cbn in E4; cbn [fst snd or_fault Alert.on_rows Forward.on_rows].
    apply (wp_cleanup _ (fun step err => Internal (EWrap ("instance " +:+ id +:+ fst step) err))). unfold Forward.releaseInstance, Forward.deleteInstance.
    apply wp_mapped, (wp_table has_forwards); intros w5 E5; [failed HQ|]. rewrite E4 in E5. cbn in E5; cbn [fst snd or_fault Alert.on_rows Forward.on_rows].
    apply (wp_cleanup _ (fun step err => Internal (EWrap ("instance " +:+ id +:+ fst step) err))). unfold Balancer.releaseInstance, Balancer.releaseInstance_rows.
    apply wp_mapped, (wp_table has_balancers); intros w6 E6; [failed HQ|]. rewrite E5 in E6. cbn in E6; cbn [fst snd or_fault Alert.on_rows Forward.on_rows].
    assert (Hdone : forall r w', tables w' = tables w6 -> Q r w').
    { intros r w' E'. apply HQ. intros _. exists files, (env_now env (w_step w3)). rewrite E', E6. reflexivity. }
    destruct logs as [l|]; [|cbn [foldM]; rewrite wp_ret; by apply Hdone].
    apply (wp_cleanup _ (fun step err => Internal (EWrap ("instance " +:+ id +:+ fst step) err))). apply (wp_leaves (T:=Tables)); [by apply Hlogs|]. intros [[]|e] w7 E7; [|failed HQ].
    cbn [foldM]. rewrite wp_ret. by apply Hdone. }
  destruct execs as [x|]; [|by apply Hnext].
  apply (wp_cleanup _ (fun step err => Internal (EWrap ("instance " +:+ id +:+ fst step) err))). apply (wp_leaves (T:=Tables)); [by apply Hexecs|]. intros [[]|e] w3 E3; [|failed HQ]. by apply Hnext.
Qed.

Lemma discard_tables name env (w : World S) (Q : outcome unit -> World S -> Prop) :
  (forall w' files, tables w' = hput (Instance.MkInstState (Instance.db_instances (t_instances (tables w))) files) (tables w) -> Q (Ok tt) w') ->
  wp env (Instance.discard name) Q w.
Proof.
  intros HQ. unfold Instance.discard, Instance.on_files. apply wp_bind, wp_attempt, (wp_table has_instances); intros w1 E1; rewrite wp_ret.
  - eapply (HQ w1). rewrite E1. change (Instance.db_instances (t_instances (tables w))) with (Instance.db_instances (hget (tables w))).
    instantiate (1 := Instance.parked_files (hget (tables w))). replace (Instance.MkInstState _ _) with (hget (T:=Instance.InstState) (tables w)) by (by destruct (hget (T:=Instance.InstState) (tables w))).
    by rewrite hput_hget.
  - by eapply HQ.
Qed.

Lemma removal_delete_rule ref p env w : wp env (Instance.delete deps ref p) (fun r w' => r = Ok tt ->
  exists i files at_, i ∈ Instance.db_instances (t_instances (tables w)) /\ Instance.addressed ref p i /\
    tables w' = swept (Instance.in_ID i) files at_ (tables w)) w.
Proof.
  unfold Instance.delete. apply wp_bind.
  eapply wp_mono; [|apply (wp_and env)];
    [|apply (Instance.getIn_rule env ref p (fun o w' =>
        match o with Ok i => i ∈ Instance.db_instances (part w) /\ Instance.addressed ref p i | Err _ => True end)); by auto
     |apply (wp_still _ env (fun _ w' => tables w' = tables w));
       [unfold Instance.getIn, Instance.get_row, Instance.byName, Instance.reads; auto 20 with still|intros ? ? E; by apply part_still]].
  intros [i|] w1 [Hi E1]; [|discriminate]. destruct Hi as [Hi Ha]. cbv zeta.
  apply wp_bind, wp_mapped. unfold Instance.delete_row, Instance.writes.
  apply (wp_table has_instances); intros w2 E2; [done|]. rewrite E1 in E2. change (hget (T:=Instance.InstState) ?t) with (t_instances t) in E2.
  change (hget (T:=Instance.InstState) ?t) with (t_instances t).
  rewrite E1. pose proof (delete_where_rows (Instance.has_id (Instance.in_ID i)) Instance.errNotFound (Instance.db_instances (t_instances (tables w)))) as Hrows.
  destruct (delete_where _ _ _) as [r rows]. cbn [fst snd] in *. subst rows.
  destruct r as [[]|]; cbn [or_fault]; [|discriminate].
  assert (Hclean : forall w', (exists rows files, tables w' = MkTables (Instance.MkInstState rows files) (t_nodes (tables w)) (t_alerts (tables w))
      (t_networks (tables w)) (t_volumes (tables w)) (t_forwards (tables w)) (t_balancers (tables w)) (t_quotas (tables w)) /\
      rows = List.filter (fun x => negb (Instance.has_id (Instance.in_ID i) x)) (Instance.db_instances (t_instances (tables w)))) ->
    wp env (foldM (fun step _ => mapped (fun err => Internal (EWrap ("instance " +:+ Instance.in_ID i +:+ fst step) err)) (snd step))
      (Instance.cleanups deps (Instance.in_ID i)) tt) (fun r w' => r = Ok tt ->
      exists i files at_, i ∈ Instance.db_instances (t_instances (tables w)) /\ Instance.addressed ref p i /\
        tables w' = swept (Instance.in_ID i) files at_ (tables w)) w').
  { intros w' Hw'. eapply (cleanups_rule _ (tables w)); [exact Hw'|]. intros r w3 Hr E. destruct (Hr E) as (files & at_ & E3). by exists i, files, at_. }
  apply wp_bind. unfold Instance.forgetParked. apply wp_bind, wp_attempt.
  apply (wp_still _ env); [unfold Instance.parkDir; auto with still|]. intros o w3 E3. apply (part_still (T:=Tables)) in E3. rewrite E2 in E3.
  assert (Hplain : forall w', tables w' = tables w3 -> exists rows files, tables w' = MkTables (Instance.MkInstState rows files) (t_nodes (tables w))
      (t_alerts (tables w)) (t_networks (tables w)) (t_volumes (tables w)) (t_forwards (tables w)) (t_balancers (tables w)) (t_quotas (tables w)) /\
      rows = List.filter (fun x => negb (Instance.has_id (Instance.in_ID i) x)) (Instance.db_instances (t_instances (tables w)))).
  { intros w' ->. rewrite E3. destruct (tables w). by repeat eexists. }
  destruct o as [[]|]; [|rewrite wp_ret; apply Hclean; by apply Hplain].
  destruct (Instance.parkedName _) as [name|]; [|rewrite wp_ret; apply Hclean; by apply Hplain].
  apply discard_tables. intros w4 files E4. apply Hclean. rewrite E4, E3. destruct (tables w). by repeat eexists.
Qed.
End removal.

Lemma wp_ok {S A} (m : M S A) env (Q : outcome A -> World S -> Prop) w a : wp env m Q w -> fst (m env w) = Ok a -> Q (Ok a) (snd (m env w)).
Proof. unfold wp. destruct (m env w). by intros H [= ->]. Qed.

(** * Properties *)

(** [deleted_leaves_nothing]: when the deletion of an instance answers without an error, no table has a
    row that names it any more: its row, its devices, alerts, addresses and published ports and its
    places behind balancers are gone, its volumes are free, and what names any other instance is as it was. *)
Theorem deleted_leaves_nothing {S} `{HS : !Has Tables S} keys logs execs firewalls sealing dataDir
  (Hlogs : forall l i, logs = Some l -> leaves Tables (Instance.ReleaseInstance (S:=S) l i))
  (Hexecs : forall l i, execs = Some l -> leaves Tables (Instance.ReleaseInstance (S:=S) l i))
  env ref p (w : World S) (Hids : forall i, i ∈ Instance.db_instances (t_instances (part w)) -> Instance.in_ID i <> "") :
  let deps := @Adapters.instanceDeps S (via has_nodes) (via has_alerts) (via has_networks) (via has_volumes) (via has_forwards) (via has_balancers)
    (via has_instances) (via has_quotas) keys logs execs firewalls sealing dataDir in
  wp env (@Instance.delete S (via has_instances) deps ref p) (fun r w' => r = Ok tt ->
    exists i, i ∈ Instance.db_instances (t_instances (part w)) /\ Instance.addressed ref p i /\ gone (Instance.in_ID i) (part w') /\
      forall other, other <> Instance.in_ID i -> other <> "" -> kept other (part w) (part w')) w.
Proof.
  intros deps. eapply wp_mono; [|exact (removal_delete_rule keys logs execs firewalls sealing dataDir Hlogs Hexecs ref p env w)].
  intros r w' H E. destruct (H E) as (i & files & at_ & Hi & Ha & Et). exists i. rewrite Et. split_and!; [done|done|apply swept_gone; auto|].
  intros. by apply swept_kept.
Qed.

(** ** A run *)

Module Demo.
Definition row (id name : string) : Instance.Instance :=
  Instance.MkInstance id (Instance.MkFixed "prj-1" name "vm" "debian" "" "" 0 "" [] "net-1" "" "" "" false ∅ "" "" [] "" [] [] [] 0)
    2 1024 0 "running" "running" "" None false false "" "nd-a" 0.
Definition backend (id : string) : Balancer.BackendRow := Balancer.MkBackendRow "lb-1" id 0.
Definition nic (id : string) (ip : Z) : Network.NIC := Network.MkNIC id "net-1" 0 "nd-a" (Netip.MkAddr false ip) None "02:00:00:00:00:01" 0.
(** Two instances; the first has a device, a volume, an address and a balancer. *)
Definition tables : Tables := MkTables (Instance.MkInstState [row "i-1" "web"; row "i-2" "db"] ∅)
  (Node.MkNodeDB [] ∅ [Node.MkDevice "nd-a" "0000:01:00.0" "gpu" "v" "p" "vfio-pci" true "i-1"])
  (Alert.MkAlertDB []) (Network.MkNetDB [] [] [nic "i-1" 5; nic "i-2" 6])
  (Volume.MkVolumeDB [Volume.MkVolume "vol-1" "prj-1" "data" 4 "nd-a" "i-1" "" "" "" "" false false "" "" 0 0] [] [])
  (Forward.MkForwardDB []) (Balancer.MkBalancerDB [] [backend "i-1"; backend "i-2"] [] []) [].
Definition start : World Tables := MkWorld tables O [].
Abbreviation deps := (@Adapters.instanceDeps Tables (via has_nodes) (via has_alerts) (via has_networks) (via has_volumes)
  (via has_forwards) (via has_balancers) (via has_instances) (via has_quotas) None None None None None "data").
Definition env (faults : list nat) : Env :=
  {| env_now n := Z.of_nat n * second; env_rand n := [Z.of_nat n]; env_io n := bool_decide (n ∈ faults) |}.
Abbreviation delete faults w := (@Instance.delete Tables (via has_instances) deps "web" "prj-1" (env faults) w).
Lemma ids i : i ∈ Instance.db_instances (t_instances (part start)) -> Instance.in_ID i <> "".
Proof. intros Hi. vm_compute in Hi. repeat (apply elem_of_cons in Hi as [->|Hi]; [discriminate|]). by apply not_elem_of_nil in Hi. Qed.
Lemma deleted : fst (delete [] start) = Ok tt.
Proof. vm_compute. reflexivity. Qed.
End Demo.

Lemma deleted_leaves_nothing_witness : exists i, i ∈ Instance.db_instances (t_instances (part Demo.start)) /\
  Instance.addressed "web" "prj-1" i /\ gone (Instance.in_ID i) (part (snd (Demo.delete [] Demo.start))).
Proof.
  destruct (wp_ok _ _ _ _ _ (deleted_leaves_nothing (S:=Tables) None None None None None "data" ltac:(discriminate) ltac:(discriminate)
    (Demo.env []) "web" "prj-1" Demo.start Demo.ids) Demo.deleted eq_refl) as (i & Hi & Ha & Hg & _).
  exists i. split; [exact Hi|split; [exact Ha|exact Hg]].
Defined.

(** [cut_short_for_good]: a clean-up that fails stops the ones behind it, and the deletion cannot be
    repeated, since the instance is gone: its address, its volumes and its place behind the balancer
    stay for ever. *)
Theorem cut_short_for_good :
  let w1 := snd (Demo.delete [5%nat] Demo.start) in
  let '(r2, w2) := Demo.delete [] w1 in
  fst (Demo.delete [5%nat] Demo.start) <> Ok tt /\ r2 = Err (NotFound "instance_not_found" "no instance with that name or id exists") /\ row_of "i-1" (w_st w2) = [] /\
  len (nics_of "i-1" (w_st w2)) = 1 /\ len (volumes_of "i-1" (w_st w2)) = 1 /\ len (backends_of "i-1" (w_st w2)) = 1.
Proof. vm_compute. split_and!; first [discriminate|reflexivity]. Qed.
