(* ===== verification/FrontDoor.v ===== *)
(** The front door of the control plane (internal/app): the routes, who may call which
    ([auth.go]), the rate limits, and the audit trail of what was called
    (internal/platform/audit).

    [net/http.ServeMux] is modelled on the segments of the request's path: a segment is
    matched unescaped, a trailing slash is a last segment ["/"], which no wildcard matches,
    literal segments win over wildcards, and GET patterns answer HEAD.  Requests for a host or
    a path that is not clean are redirected by the mux before any handler runs and are not
    requests of this model.  The handlers themselves are the parameter [handle]. *)
From stdpp Require Import base tactics numbers strings list gmap.
From Stdlib Require Import ZArith Lia.
From Stdlib Require Ascii.
From S2P Require Import Prelude GoLang Effects Regex Kernel Httpx Encoding Interval.
From S2P Require Token User.

(** * Requests *)

Record request := MkRequest {
  rq_Method : string; rq_segs : list string; rq_slash : bool;
  rq_Authorization : string; rq_Cookie : option string; rq_RemoteAddr : string; rq_ID : string;
}.
(** [r.URL.Path] *)
Definition URL_Path (r : request) : string :=
  foldr (fun s rest => "/" +:+ s +:+ rest) (if rq_slash r then "/" else "") (rq_segs r).
(** The segments the mux walks. *)
Definition walked (r : request) : list string := rq_segs r ++ (if rq_slash r then ["/"] else []).

(** * http.ServeMux *)

Inductive segment := Lit (s : string) | Wild.
Record pattern := MkPattern { p_Method : string; p_segs : list segment }.

Definition is_wild (s : list Ascii.ascii) : bool :=
  match s with c :: _ => code c =? 123 | [] => false end.
Definition segment_of (s : list Ascii.ascii) : segment := if is_wild s then Wild else Lit (of_bytes s).
(** "METHOD /a/{b}/c" *)
Definition parse_pattern (s : string) : pattern :=
  match split_on 32 (bytes_of s) with
  | m :: path :: _ => MkPattern (of_bytes m) (map segment_of (drop 1 (split_on 47 path)))
  | _ => MkPattern "" []
  end.
Example parse_pattern_example :
  parse_pattern "GET /v1/nodes/{id}/volumes" = MkPattern "GET" [Lit "v1"; Lit "nodes"; Wild; Lit "volumes"].
Proof. vm_compute. reflexivity. Qed.

Definition seg_matches (p : segment) (s : string) : bool :=
  match p with Lit l => String.eqb l s | Wild => negb (String.eqb s "/") end.
Definition method_matches (p m : string) : bool :=
  String.eqb p m || (String.eqb p "GET" && String.eqb m "HEAD").

(** The walk through the routing tree: [ps] are the patterns still possible with what is left of
    their segments. *)
Definition literals {A} (s : string) (ps : list (list segment * A)) : list (list segment * A) :=
  omap (fun p => match fst p with Lit l :: rest => if String.eqb l s then Some (rest, snd p) else None | _ => None end) ps.
Definition wildcards {A} (ps : list (list segment * A)) : list (list segment * A) :=
  omap (fun p => match fst p with Wild :: rest => Some (rest, snd p) | _ => None end) ps.
Fixpoint walk {A} (segs : list string) (ps : list (list segment * A)) : option A :=
  match segs with
  | [] => snd <$> List.find (fun p => match fst p with [] => true | _ => false end) ps
  | s :: segs' =>
      match walk segs' (literals s ps) with
      | Some a => Some a
      | None => if String.eqb s "/" then None else walk segs' (wildcards ps)
      end
  end.
(** The patterns of a method. *)
Definition of_method (patterns : list string) (m : string) : list (list segment * string) :=
  omap (fun s => if String.eqb (p_Method (parse_pattern s)) m then Some (p_segs (parse_pattern s), s) else None) patterns.
(** [mux.Handler(r)]: the pattern that answers; those of the request's method first, for HEAD
    those of GET next. *)
Definition mux_Handler (patterns : list string) (r : request) : option string :=
  match walk (walked r) (of_method patterns (rq_Method r)) with
  | Some p => Some p
  | None => if String.eqb (rq_Method r) "HEAD" then walk (walked r) (of_method patterns "GET") else None
  end.

(** * The routes of the modules: patterns and the methods of the handlers that answer them *)

Record Route := MkRoute { rt_pattern : string; rt_handler : string }.
(* go: platform/system/module.go Module.Routes *)
Definition routes_system : list Route := [
  MkRoute "GET /healthz" "handleHealthz";
  MkRoute "GET /v1/version" "handleVersion"
].
(* go: platform/node/module.go Module.Routes *)
Definition routes_node : list Route := [
  MkRoute "POST /v1/nodes/register" "register";
  MkRoute "POST /v1/nodes/{id}/heartbeat" "heartbeat";
  MkRoute "GET /v1/nodes" "list";
  MkRoute "GET /v1/nodes/{id}" "get";
  MkRoute "POST /v1/nodes/{id}/cordon" "cordon";
  MkRoute "POST /v1/nodes/{id}/uncordon" "uncordon";
  MkRoute "POST /v1/nodes/{id}/drain" "drain";
  MkRoute "PUT /v1/nodes/{id}/labels" "setLabels";
  MkRoute "PUT /v1/nodes/{id}/devices" "setDevices";
  MkRoute "GET /v1/devices" "listDevices"
].
(* go: platform/network/module.go Module.Routes *)
Definition routes_network : list Route := [
  MkRoute "POST /v1/networks" "create";
  MkRoute "GET /v1/networks" "list";
  MkRoute "GET /v1/networks/{id}" "get";
  MkRoute "DELETE /v1/networks/{id}" "delete";
  MkRoute "GET /v1/nodes/{nodeID}/network" "nodeView"
].
(* go: platform/instance/module.go Module.Routes *)
Definition routes_instance : list Route := [
  MkRoute "POST /v1/instances" "create";
  MkRoute "GET /v1/instances" "list";
  MkRoute "GET /v1/instances/{id}" "get";
  MkRoute "DELETE /v1/instances/{id}" "delete";
  MkRoute "POST /v1/instances/{id}/start" "start";
  MkRoute "POST /v1/instances/{id}/stop" "stop";
  MkRoute "POST /v1/instances/{id}/resize" "resize";
  MkRoute "GET /v1/nodes/{nodeID}/instances" "listForNode";
  MkRoute "PUT /v1/nodes/{nodeID}/instances/{instanceID}/disk" "parkDisk";
  MkRoute "GET /v1/nodes/{nodeID}/instances/{instanceID}/disk" "takeDisk";
  MkRoute "POST /v1/nodes/{nodeID}/instances/{instanceID}/landed" "landed";
  MkRoute "PUT /v1/nodes/{nodeID}/instances/{instanceID}/status" "reportStatus"
].
(* go: platform/dns/dns.go Module.Routes *)
Definition routes_dns : list Route := [
  MkRoute "GET /v1/dns/records" "handleRecords"
].
(* go: platform/image/module.go Module.Routes *)
Definition routes_image : list Route := [
  MkRoute "POST /v1/images" "create";
  MkRoute "GET /v1/images" "list";
  MkRoute "GET /v1/nodes/{nodeID}/images" "listForNode";
  MkRoute "GET /v1/images/{id}" "get";
  MkRoute "DELETE /v1/images/{id}" "delete";
  MkRoute "PUT /v1/nodes/{nodeID}/images" "report"
].
(* go: platform/registry/module.go Module.Routes *)
Definition routes_registry : list Route := [
  MkRoute "POST /v1/registries" "create";
  MkRoute "GET /v1/registries" "list";
  MkRoute "DELETE /v1/registries/{id}" "delete";
  MkRoute "GET /v1/nodes/{nodeID}/registries" "listForNode"
].
(* go: platform/acme/module.go Module.Routes *)
Definition routes_acme : list Route := [
  MkRoute "POST /v1/balancers/{id}/certificate/acme" "start";
  MkRoute "GET /v1/balancers/{id}/certificate/acme" "get";
  MkRoute "DELETE /v1/balancers/{id}/certificate/acme" "stop";
  MkRoute "GET /v1/certificates" "list";
  MkRoute "GET /v1/nodes/{nodeID}/acme-challenges" "listForNode"
].
(* go: platform/alert/module.go Module.Routes *)
Definition routes_alert : list Route := [
  MkRoute "POST /v1/alerts" "create";
  MkRoute "GET /v1/alerts" "list";
  MkRoute "GET /v1/alerts/{id}" "get";
  MkRoute "DELETE /v1/alerts/{id}" "delete"
].
(* go: platform/shell/module.go Module.Routes *)
Definition routes_shell : list Route := [
  MkRoute "POST /v1/instances/{id}/shell" "start";
  MkRoute "GET /v1/shells" "list";
  MkRoute "GET /v1/shells/{id}" "get";
  MkRoute "DELETE /v1/shells/{id}" "closeSession";
  MkRoute "GET /v1/shells/{id}/output" "clientOutput";
  MkRoute "POST /v1/shells/{id}/input" "clientInput";
  MkRoute "GET /v1/nodes/{nodeID}/shell" "take";
  MkRoute "POST /v1/nodes/{nodeID}/shells/{execID}/output" "nodeOutput";
  MkRoute "GET /v1/nodes/{nodeID}/shells/{execID}/input" "nodeInput"
].
(* go: platform/volume/module.go Module.Routes *)
Definition routes_volume : list Route := [
  MkRoute "POST /v1/volumes" "create";
  MkRoute "GET /v1/volumes" "list";
  MkRoute "GET /v1/volumes/{id}" "get";
  MkRoute "DELETE /v1/volumes/{id}" "delete";
  MkRoute "POST /v1/volumes/{id}/attach" "attach";
  MkRoute "POST /v1/volumes/{id}/detach" "detach";
  MkRoute "POST /v1/volumes/{id}/resize" "resize";
  MkRoute "PUT /v1/volumes/{id}/snapshot-schedule" "setSchedule";
  MkRoute "DELETE /v1/volumes/{id}/snapshot-schedule" "clearSchedule";
  MkRoute "GET /v1/snapshot-schedules" "listSchedules";
  MkRoute "POST /v1/volumes/{id}/snapshots" "snapshot";
  MkRoute "GET /v1/volumes/{id}/snapshots" "listSnapshots";
  MkRoute "GET /v1/snapshots" "listSnapshots";
  MkRoute "DELETE /v1/snapshots/{id}" "deleteSnapshot";
  MkRoute "POST /v1/snapshots/{id}/restore" "restore";
  MkRoute "POST /v1/snapshots/{id}/clone" "clone";
  MkRoute "GET /v1/nodes/{nodeID}/volumes" "listForNode";
  MkRoute "GET /v1/nodes/{nodeID}/volumes/{id}/key" "nodeKey";
  MkRoute "PUT /v1/nodes/{nodeID}/volumes" "report"
].
(* go: platform/backup/module.go Module.Routes *)
Definition routes_backup : list Route := [
  MkRoute "POST /v1/volumes/{id}/backups" "create";
  MkRoute "GET /v1/volumes/{id}/backups" "listForVolume";
  MkRoute "GET /v1/backups" "list";
  MkRoute "GET /v1/backups/{id}" "get";
  MkRoute "DELETE /v1/backups/{id}" "delete";
  MkRoute "GET /v1/backup-schedules" "listSchedules";
  MkRoute "GET /v1/volumes/{id}/schedule" "getSchedule";
  MkRoute "PUT /v1/volumes/{id}/schedule" "setSchedule";
  MkRoute "DELETE /v1/volumes/{id}/schedule" "deleteSchedule";
  MkRoute "GET /v1/nodes/{nodeID}/backups" "listForNode";
  MkRoute "GET /v1/nodes/{nodeID}/backups/{id}/upload" "uploadTarget";
  MkRoute "GET /v1/nodes/{nodeID}/backups/{id}/download" "downloadTarget";
  MkRoute "POST /v1/nodes/{nodeID}/backups/{id}/uploaded" "uploaded";
  MkRoute "PUT /v1/nodes/{nodeID}/backups/{id}/content" "upload";
  MkRoute "POST /v1/nodes/{nodeID}/backups/{id}/failure" "fail";
  MkRoute "GET /v1/nodes/{nodeID}/backups/{id}/content" "download"
].
(* go: platform/forward/module.go Module.Routes *)
Definition routes_forward : list Route := [
  MkRoute "POST /v1/forwards" "create";
  MkRoute "GET /v1/forwards" "list";
  MkRoute "PUT /v1/forwards/{id}/certificate" "setCertificate";
  MkRoute "DELETE /v1/forwards/{id}/certificate" "removeCertificate";
  MkRoute "DELETE /v1/forwards/{id}" "delete";
  MkRoute "GET /v1/nodes/{nodeID}/forwards" "listForNode"
].
(* go: platform/balancer/module.go Module.Routes *)
Definition routes_balancer : list Route := [
  MkRoute "POST /v1/balancers" "create";
  MkRoute "GET /v1/balancers" "list";
  MkRoute "GET /v1/balancers/{id}" "get";
  MkRoute "DELETE /v1/balancers/{id}" "delete";
  MkRoute "POST /v1/balancers/{id}/backends" "addBackend";
  MkRoute "DELETE /v1/balancers/{id}/backends/{instanceID}" "removeBackend";
  MkRoute "PUT /v1/balancers/{id}/routes" "setRoutes";
  MkRoute "PUT /v1/balancers/{id}/certificate" "setCertificate";
  MkRoute "DELETE /v1/balancers/{id}/certificate" "removeCertificate";
  MkRoute "GET /v1/nodes/{nodeID}/balancers" "listForNode";
  MkRoute "PUT /v1/nodes/{nodeID}/balancers/health" "reportHealth"
].
(* go: platform/firewall/module.go Module.Routes *)
Definition routes_firewall : list Route := [
  MkRoute "POST /v1/firewalls" "create";
  MkRoute "GET /v1/firewalls" "list";
  MkRoute "GET /v1/nodes/{nodeID}/firewalls" "listForNode";
  MkRoute "GET /v1/firewalls/{id}" "get";
  MkRoute "PUT /v1/firewalls/{id}/rules" "setRules";
  MkRoute "DELETE /v1/firewalls/{id}" "delete"
].
(* go: platform/usage/module.go Module.Routes *)
Definition routes_usage : list Route := [
  MkRoute "GET /v1/usage" "list";
  MkRoute "GET /v1/usage/nodes" "listNodes";
  MkRoute "GET /v1/usage/history" "history";
  MkRoute "GET /v1/usage/nodes/history" "nodeHistory";
  MkRoute "PUT /v1/nodes/{nodeID}/usage" "report"
].
(* go: platform/autoscale/module.go Module.Routes *)
Definition routes_autoscale : list Route := [
  MkRoute "PUT /v1/services/{id}/autoscale" "set";
  MkRoute "GET /v1/services/{id}/autoscale" "get";
  MkRoute "DELETE /v1/services/{id}/autoscale" "clear";
  MkRoute "GET /v1/autoscalers" "list"
].
(* go: platform/exec/module.go Module.Routes *)
Definition routes_exec : list Route := [
  MkRoute "POST /v1/instances/{id}/exec" "start";
  MkRoute "GET /v1/execs" "list";
  MkRoute "GET /v1/execs/{id}" "get";
  MkRoute "GET /v1/nodes/{nodeID}/exec" "take";
  MkRoute "POST /v1/nodes/{nodeID}/execs/{execID}/result" "finish"
].
(* go: platform/job/module.go Module.Routes *)
Definition routes_job : list Route := [
  MkRoute "POST /v1/jobs" "create";
  MkRoute "GET /v1/jobs" "list";
  MkRoute "GET /v1/jobs/{id}" "get";
  MkRoute "GET /v1/jobs/{id}/runs" "runs";
  MkRoute "POST /v1/jobs/{id}/run" "trigger";
  MkRoute "POST /v1/jobs/{id}/pause" "pause";
  MkRoute "POST /v1/jobs/{id}/resume" "resume";
  MkRoute "DELETE /v1/jobs/{id}" "delete"
].
(* go: platform/logs/module.go Module.Routes *)
Definition routes_logs : list Route := [
  MkRoute "PUT /v1/nodes/{nodeID}/instances/{instanceID}/logs" "report";
  MkRoute "GET /v1/instances/{id}/logs" "tail"
].
(* go: platform/audit/module.go Module.Routes *)
Definition routes_audit : list Route := [
  MkRoute "GET /v1/audit" "list"
].
(* go: platform/project/module.go Module.Routes *)
Definition routes_project : list Route := [
  MkRoute "POST /v1/projects" "create";
  MkRoute "GET /v1/projects" "list";
  MkRoute "GET /v1/projects/{id}" "get";
  MkRoute "DELETE /v1/projects/{id}" "delete"
].
(* go: platform/quota/module.go Module.Routes *)
Definition routes_quota : list Route := [
  MkRoute "GET /v1/quota" "mine";
  MkRoute "GET /v1/quotas" "list";
  MkRoute "GET /v1/quotas/{projectID}" "get";
  MkRoute "PUT /v1/quotas/{projectID}" "set";
  MkRoute "DELETE /v1/quotas/{projectID}" "delete"
].
(* go: platform/event/module.go Module.Routes *)
Definition routes_event : list Route := [
  MkRoute "GET /v1/events" "list"
].
(* go: platform/service/module.go Module.Routes *)
Definition routes_service : list Route := [
  MkRoute "POST /v1/services" "create";
  MkRoute "GET /v1/services" "list";
  MkRoute "GET /v1/services/{id}" "get";
  MkRoute "POST /v1/services/{id}/scale" "scale";
  MkRoute "PUT /v1/services/{id}/template" "update";
  MkRoute "DELETE /v1/services/{id}" "delete"
].
(* go: platform/webhook/module.go Module.Routes *)
Definition routes_webhook : list Route := [
  MkRoute "POST /v1/webhooks" "create";
  MkRoute "GET /v1/webhooks" "list";
  MkRoute "GET /v1/webhooks/{id}" "get";
  MkRoute "GET /v1/webhooks/{id}/deliveries" "deliveries";
  MkRoute "POST /v1/webhooks/{id}/pause" "pause";
  MkRoute "POST /v1/webhooks/{id}/resume" "resume";
  MkRoute "DELETE /v1/webhooks/{id}" "delete"
].
(* go: platform/keypair/module.go Module.Routes *)
Definition routes_keypair : list Route := [
  MkRoute "POST /v1/keys" "create";
  MkRoute "GET /v1/keys" "list";
  MkRoute "DELETE /v1/keys/{id}" "delete"
].
(* go: platform/token/module.go Module.Routes *)
Definition routes_token : list Route := [
  MkRoute "POST /v1/tokens" "create";
  MkRoute "GET /v1/tokens" "list";
  MkRoute "DELETE /v1/tokens/{id}" "delete"
].
(* go: platform/user/module.go Module.Routes *)
Definition routes_user : list Route := [
  MkRoute "POST /v1/login" "login";
  MkRoute "POST /v1/logout" "logout";
  MkRoute "POST /v1/users" "create";
  MkRoute "GET /v1/users" "list";
  MkRoute "GET /v1/users/{id}" "get";
  MkRoute "PUT /v1/users/{id}/password" "setPassword";
  MkRoute "POST /v1/users/{id}/disable" "disable";
  MkRoute "POST /v1/users/{id}/enable" "enable";
  MkRoute "DELETE /v1/users/{id}" "delete"
].

(** All routes, in the order of the modules. *)
(* go: app/app.go:417-420 Routes *)
Definition routes : list Route :=
  routes_system ++ routes_node ++ routes_network ++ routes_instance ++ routes_dns ++ routes_image ++ routes_registry ++ routes_acme ++ routes_alert ++ routes_shell ++ routes_volume ++ routes_backup ++ routes_forward ++ routes_balancer ++ routes_firewall ++ routes_usage ++ routes_autoscale ++ routes_exec ++ routes_job ++ routes_logs ++ routes_audit ++ routes_project ++ routes_quota ++ routes_event ++ routes_service ++ routes_webhook ++ routes_keypair ++ routes_token ++ routes_user.

(** * Who may call what (auth.go) *)

(* go: app/auth.go openPaths *)
Definition openPaths : list string := ["/healthz"; "/v1/login"].
(* go: app/auth.go unlimitedPaths *)
Definition unlimitedPaths : list string := ["/healthz"].
(* go: app/auth.go nodePaths *)
Definition nodePaths : list string := [
  "POST /v1/nodes/register";
  "POST /v1/nodes/{id}/heartbeat";
  "GET /v1/nodes";
  "GET /v1/nodes/{id}/instances";
  "PUT /v1/nodes/{id}/instances/{instanceID}/status";
  "GET /v1/nodes/{id}/network";
  "GET /v1/nodes/{id}/volumes";
  "GET /v1/nodes/{id}/volumes/{volumeID}/key";
  "GET /v1/nodes/{id}/forwards";
  "GET /v1/nodes/{id}/balancers";
  "PUT /v1/nodes/{id}/balancers/health";
  "PUT /v1/nodes/{id}/volumes";
  "PUT /v1/nodes/{id}/images";
  "PUT /v1/nodes/{id}/usage";
  "GET /v1/nodes/{id}/exec";
  "POST /v1/nodes/{id}/execs/{execID}/result";
  "PUT /v1/nodes/{id}/instances/{instanceID}/logs";
  "PUT /v1/nodes/{id}/instances/{instanceID}/disk";
  "GET /v1/nodes/{id}/instances/{instanceID}/disk";
  "POST /v1/nodes/{id}/instances/{instanceID}/landed";
  "GET /v1/nodes/{id}/images";
  "GET /v1/nodes/{id}/registries";
  "GET /v1/nodes/{id}/acme-challenges";
  "PUT /v1/nodes/{id}/devices";
  "GET /v1/nodes/{id}/shell";
  "POST /v1/nodes/{id}/shells/{execID}/output";
  "GET /v1/nodes/{id}/shells/{execID}/input";
  "GET /v1/nodes/{id}/firewalls";
  "GET /v1/nodes/{id}/backups";
  "PUT /v1/nodes/{id}/backups/{backupID}/content";
  "GET /v1/nodes/{id}/backups/{backupID}/upload";
  "GET /v1/nodes/{id}/backups/{backupID}/download";
  "POST /v1/nodes/{id}/backups/{backupID}/uploaded";
  "POST /v1/nodes/{id}/backups/{backupID}/failure";
  "GET /v1/nodes/{id}/backups/{backupID}/content";
  "GET /v1/dns/records"
].
(* go: app/auth.go streamingPaths *)
Definition streamingPaths : list string := [
  "GET /v1/shells/{id}/output";
  "POST /v1/shells/{id}/input";
  "POST /v1/nodes/{id}/shells/{execID}/output";
  "GET /v1/nodes/{id}/shells/{execID}/input";
  "PUT /v1/nodes/{id}/backups/{backupID}/content";
  "GET /v1/nodes/{id}/backups/{backupID}/content";
  "PUT /v1/nodes/{id}/instances/{instanceID}/disk";
  "GET /v1/nodes/{id}/instances/{instanceID}/disk"
].
(* go: app/auth.go memberPaths *)
Definition memberPaths : list string := [
  "GET /v1/version";
  "GET /v1/usage";
  "GET /v1/usage/history";
  "GET /v1/quota";
  "GET /v1/dns/records";
  "GET /v1/events";
  "GET /v1/webhooks";
  "GET /v1/webhooks/{id}";
  "GET /v1/webhooks/{id}/deliveries";
  "POST /v1/webhooks";
  "POST /v1/webhooks/{id}/pause";
  "POST /v1/webhooks/{id}/resume";
  "DELETE /v1/webhooks/{id}";
  "POST /v1/jobs";
  "GET /v1/jobs";
  "GET /v1/jobs/{id}";
  "GET /v1/jobs/{id}/runs";
  "POST /v1/jobs/{id}/run";
  "POST /v1/jobs/{id}/pause";
  "POST /v1/jobs/{id}/resume";
  "DELETE /v1/jobs/{id}";
  "POST /v1/logout";
  "POST /v1/users";
  "GET /v1/users";
  "GET /v1/users/{id}";
  "PUT /v1/users/{id}/password";
  "POST /v1/users/{id}/disable";
  "POST /v1/users/{id}/enable";
  "DELETE /v1/users/{id}";
  "GET /v1/services";
  "GET /v1/services/{id}";
  "POST /v1/services";
  "POST /v1/services/{id}/scale";
  "PUT /v1/services/{id}/template";
  "PUT /v1/services/{id}/autoscale";
  "GET /v1/services/{id}/autoscale";
  "DELETE /v1/services/{id}/autoscale";
  "GET /v1/autoscalers";
  "DELETE /v1/services/{id}";
  "GET /v1/keys";
  "POST /v1/keys";
  "DELETE /v1/keys/{id}";
  "GET /v1/instances";
  "POST /v1/instances";
  "POST /v1/instances/{id}/resize";
  "GET /v1/instances/{id}";
  "GET /v1/instances/{id}/logs";
  "POST /v1/instances/{id}/exec";
  "GET /v1/execs";
  "GET /v1/execs/{id}";
  "DELETE /v1/instances/{id}";
  "POST /v1/instances/{id}/start";
  "POST /v1/instances/{id}/stop";
  "GET /v1/networks";
  "POST /v1/networks";
  "GET /v1/networks/{id}";
  "DELETE /v1/networks/{id}";
  "GET /v1/volumes";
  "POST /v1/volumes";
  "GET /v1/volumes/{id}";
  "DELETE /v1/volumes/{id}";
  "POST /v1/volumes/{id}/attach";
  "POST /v1/volumes/{id}/detach";
  "POST /v1/volumes/{id}/resize";
  "GET /v1/volumes/{id}/snapshots";
  "POST /v1/volumes/{id}/snapshots";
  "GET /v1/volumes/{id}/backups";
  "POST /v1/volumes/{id}/backups";
  "GET /v1/volumes/{id}/schedule";
  "PUT /v1/volumes/{id}/schedule";
  "DELETE /v1/volumes/{id}/schedule";
  "GET /v1/backup-schedules";
  "GET /v1/snapshot-schedules";
  "PUT /v1/volumes/{id}/snapshot-schedule";
  "DELETE /v1/volumes/{id}/snapshot-schedule";
  "GET /v1/backups";
  "GET /v1/backups/{id}";
  "DELETE /v1/backups/{id}";
  "GET /v1/snapshots";
  "DELETE /v1/snapshots/{id}";
  "POST /v1/snapshots/{id}/restore";
  "POST /v1/snapshots/{id}/clone";
  "GET /v1/images";
  "POST /v1/images";
  "GET /v1/images/{id}";
  "DELETE /v1/images/{id}";
  "GET /v1/firewalls";
  "POST /v1/firewalls";
  "GET /v1/firewalls/{id}";
  "PUT /v1/firewalls/{id}/rules";
  "DELETE /v1/firewalls/{id}";
  "GET /v1/forwards";
  "POST /v1/forwards";
  "PUT /v1/forwards/{id}/certificate";
  "DELETE /v1/forwards/{id}/certificate";
  "DELETE /v1/forwards/{id}";
  "GET /v1/balancers";
  "GET /v1/balancers/{id}";
  "POST /v1/balancers";
  "PUT /v1/balancers/{id}/routes";
  "POST /v1/balancers/{id}/certificate/acme";
  "GET /v1/balancers/{id}/certificate/acme";
  "DELETE /v1/balancers/{id}/certificate/acme";
  "GET /v1/certificates";
  "GET /v1/devices";
  "POST /v1/alerts";
  "GET /v1/alerts";
  "GET /v1/alerts/{id}";
  "DELETE /v1/alerts/{id}";
  "POST /v1/instances/{id}/shell";
  "GET /v1/shells";
  "GET /v1/shells/{id}";
  "DELETE /v1/shells/{id}";
  "GET /v1/shells/{id}/output";
  "POST /v1/shells/{id}/input";
  "PUT /v1/balancers/{id}/certificate";
  "DELETE /v1/balancers/{id}/certificate";
  "DELETE /v1/balancers/{id}";
  "POST /v1/balancers/{id}/backends";
  "DELETE /v1/balancers/{id}/backends/{instanceID}"
].
(* go: app/auth.go selfPaths *)
Definition selfPaths : list string := [
  "POST /v1/logout"
].

(* go: app/auth.go readsOf *)
Definition readsOf (patterns : list string) : list string :=
  List.filter (fun p => has_prefix p "GET " || has_prefix p "HEAD ") patterns.
(* go: app/auth.go allowList *)
Definition allowList (patterns : list string) (r : request) : bool :=
  match mux_Handler patterns r with Some _ => true | None => false end.

(** The table of a role; [None] for a role without one. *)
(* go: app/auth.go:242-246 allowed *)
Definition table_of (role : string) : option (list string) :=
  if String.eqb role Token.RoleNode then Some nodePaths
  else if String.eqb role Token.RoleMember then Some memberPaths
  else if String.eqb role Token.RoleViewer then Some (readsOf memberPaths ++ selfPaths)
  else None.

(** [strings.Cut(s, sep)] for one byte. *)
Definition cut_byte (sep : Z) (s : string) : option (string * string) :=
  match index_byte s (Ascii.ascii_of_N (Z.to_N sep)) with
  | Some i => Some (of_bytes (take i (bytes_of s)), of_bytes (drop (S i) (bytes_of s)))
  | None => None
  end.
(* go: kernel/httpx/session.go SessionOf *)
Definition SessionOf (r : request) : string := match rq_Cookie r with Some value => value | None => "" end.
(* go: app/auth.go bearerOf *)
Definition bearerOf (r : request) : string :=
  match cut_byte 32 (rq_Authorization r) with
  | Some (scheme, secret) => if String.eqb (to_lower scheme) "bearer" then trim_space secret else SessionOf r
  | None => SessionOf r
  end.

Definition no_scope : Scope := MkScope "" "" "" "" "".
Definition no_identity : Token.Identity := Token.MkIdentity "" "" "" "" "" zero_time.

(** * The rate limits (ratelimit.go) *)

(** The two limiters. *)
Record Gates := MkGates { g_callers : option Limiter; g_tenants : option Limiter }.

(* go: app/ratelimit.go callerKey *)
Definition callerKey (r : request) : string :=
  let secret := if has_prefix (rq_Authorization r) "Bearer "
                then trim_space (str_drop 7 (rq_Authorization r)) else "" in
  if negb (is_empty secret) then "t:" +:+ hex_encode (take 8 (sha256 (string_bytes secret)))
  else "a:" +:+ match SplitHost (rq_RemoteAddr r) with Some host => host | None => rq_RemoteAddr r end.
(* go: app/ratelimit.go projectKey *)
Definition projectKey (s : Scope) : string := "p:" +:+ sc_ProjectID s.
(* go: app/ratelimit.go openToEveryone *)
Definition openToEveryone (r : request) : bool := existsb (String.eqb (URL_Path r)) unlimitedPaths.

Section middleware.
Context {S : Type} `{!Has Gates S}.

(** One request to a limiter: whether it may pass. *)
Definition ask_callers (key : string) : M S (bool * Z) :=
  let! at_ := now in
  locked (fun g : Gates => let '(ok, wait, l) := Allow key at_ (g_callers g) in ((ok, wait), MkGates l (g_tenants g))).
Definition ask_tenants (key : string) : M S (bool * Z) :=
  let! at_ := now in
  locked (fun g : Gates => let '(ok, wait, l) := Allow key at_ (g_tenants g) in ((ok, wait), MkGates (g_callers g) l)).

Definition too_fast (wait : Z) : error :=
  TooMany "rate_limited" ("this caller is sending requests faster than the control plane accepts them; retry after "
    +:+ itoa (Z.quot wait second) +:+ "s").

(** The answer is the status written. *)
(* go: kernel/httpx/middleware.go RateLimit *)
Definition RateLimit (limited : bool) (ask : M S (bool * Z)) (exempt : bool) (next : M S Z) : M S Z :=
  if negb limited || exempt then next
  else
    let! ' (allowed, wait) := ask in
    if allowed then next else ret (WriteFault (too_fast wait)).
End middleware.

(** * Authentication (auth.go) *)

Section authenticate.
Context {S : Type} (Verify : string -> M S Token.Identity).

(** [noteIdentity] hands the identity to the audit trail: the first component of the answer. *)
(* go: app/auth.go authenticate *)
Definition authenticate (r : request) (next : Scope -> M S Z) : M S (Token.Identity * Z) :=
  if existsb (String.eqb (URL_Path r)) openPaths
  then let! status := next no_scope in ret (no_identity, status)
  else
    let! v := attempt (Verify (bearerOf r)) in
    match v with
    | Err e => ret (no_identity, WriteFault e)
    | Ok identity =>
        let refused := negb (String.eqb (Token.id_Role identity) Token.RoleAdmin) &&
                       match table_of (Token.id_Role identity) with
                       | Some patterns => negb (allowList patterns r)
                       | None => true
                       end in
        if refused
        then ret (identity, WriteFault (Forbidden "role_forbidden" "this token's role may not call that endpoint"))
        else
          let! status := next (MkScope (Token.id_ProjectID identity) (Token.id_ID identity) (Token.id_Name identity)
                                       (Token.id_UserID identity) (Token.id_Role identity)) in
          ret (identity, status)
    end.
End authenticate.

(** * The audit trail (audit.go, platform/audit) *)

(* go: platform/audit/types.go Record *)
Record AuditRecord := MkAuditRecord {
  ar_Actor : string; ar_UserID : string; ar_Role : string; ar_ProjectID : string;
  ar_Method : string; ar_Path : string; ar_Status : Z; ar_RequestID : string;
}.
(* go: platform/audit/types.go Entry *)
Record AuditEntry := MkAuditEntry { ae_ID : Z; ae_At : Z; ae_Record : AuditRecord }.

(** The table with its AUTOINCREMENT counter, and the service's count of insertions since it last
    pruned. *)
Record Audit := MkAudit { au_rows : list AuditEntry; au_last : Z; au_seen : Z }.
Definition audit_every : Z := 200.
Definition audit_DefaultLimit : Z := 100.
Definition audit_MaxLimit : Z := 500.
Definition Retain : Z := 5000.

(** [MAX(id)] *)
Definition max_id (rows : list AuditEntry) : Z := foldr (fun e m => Z.max (ae_ID e) m) 0 rows.

Section audit.
Context {S : Type} `{!Has Audit S}.

(* go: platform/audit/repository.go repository.insert *)
Definition insert_audit (at_ : Z) (rec : AuditRecord) : M S unit :=
  sql "insert audit entry" (fun a : Audit =>
    (Ok tt, MkAudit (au_rows a ++ [MkAuditEntry (au_last a + 1) at_ rec]) (au_last a + 1) (au_seen a))).
(* go: platform/audit/repository.go repository.prune *)
Definition prune (retain : Z) : M S unit :=
  sql "prune audit entries" (fun a : Audit =>
    (Ok tt, MkAudit (List.filter (fun e => negb (ae_ID e <=? max_id (au_rows a) - retain)) (au_rows a)) (au_last a) (au_seen a))).
(* go: platform/audit/repository.go repository.list *)
Definition list_audit (limit : Z) (projectID : string) (before : Z) : M S (list AuditEntry) :=
  query "list audit entries" (fun a : Audit =>
    Ok (take (Z.to_nat limit) (sliceStable (fun x y => ae_ID y <? ae_ID x)
      (List.filter (fun e => (String.eqb (ar_ProjectID (ae_Record e)) projectID || is_empty (ar_ProjectID (ae_Record e)))
                             && ((before =? 0) || (ae_ID e <? before))) (au_rows a))))).
(* go: platform/audit/repository.go repository.count *)
Definition count_audit : M S Z := query "count audit entries" (fun a : Audit => Ok (len (au_rows a))).

(** The counter is a plain field of the service. *)
(* go: platform/audit/service.go service.record *)
Definition record_audit (rec : AuditRecord) : M S unit :=
  let! at_ := now in
  insert_audit at_ rec ;;;
  let! seen := locked (fun a : Audit =>
    let seen := au_seen a + 1 in
    (seen, MkAudit (au_rows a) (au_last a) (if seen <? audit_every then seen else 0))) in
  if seen <? audit_every then ret tt else prune Retain.
(* go: platform/audit/service.go service.list *)
Definition list_entries (limit : Z) (projectID : string) (before : Z) : M S (list AuditEntry) :=
  let limit := if limit <=? 0 then audit_DefaultLimit else limit in
  let limit := if audit_MaxLimit <? limit then audit_MaxLimit else limit in
  list_audit limit projectID before.
(** A failing database is logged and the request answered all the same. *)
(* go: platform/audit/module.go Module.Record *)
Definition Record_ (rec : AuditRecord) : M S unit :=
  attempt (record_audit rec) ;;; ret tt.
End audit.

(** The alternatives of [routine] on the segments between the slashes; [[^/]+] is a segment that
    is not empty. *)
(* go: app/audit.go routine *)
Definition routine (path : string) : bool :=
  match map of_bytes (split_on 47 (bytes_of path)) with
  | [e; v; n; node; last] =>
      is_empty e && String.eqb v "v1" && String.eqb n "nodes" && negb (is_empty node) &&
      existsb (String.eqb last) ["heartbeat"; "usage"; "images"; "volumes"]
  | [e; v; n; node; i; instance; last] =>
      is_empty e && String.eqb v "v1" && String.eqb n "nodes" && negb (is_empty node) &&
      String.eqb i "instances" && negb (is_empty instance) && String.eqb last "status"
  | _ => false
  end.
(* go: app/audit.go worthRecording *)
Definition worthRecording (method path role : string) (status : Z) : bool :=
  if (status =? 401) || (status =? 403) then true
  else if String.eqb method "GET" || String.eqb method "HEAD" then false
  else if String.eqb role Token.RoleNode && routine path then false
  else true.

(** * The whole chain (app.go) *)

Section front_door.
Context {S : Type} `{!Has Gates S, !Has Audit S}.
Context (Verify : string -> M S Token.Identity).
(** What the handler of a route answers, and the answer of the mux where there is none. *)
Context (handle : Route -> Scope -> request -> M S Z) (unmatched : request -> M S Z).
Context (limits_callers limits_tenants : bool).

(** The route that answers a request. *)
Definition route_of (r : request) : option Route :=
  match mux_Handler (map rt_pattern routes) r with
  | Some p => List.find (fun rt => String.eqb (rt_pattern rt) p) routes
  | None => None
  end.
Definition mux (scope : Scope) (r : request) : M S Z :=
  match route_of r with Some rt => handle rt scope r | None => unmatched r end.

(* go: app/audit.go auditTrail *)
Definition auditTrail (r : request) (next : M S (Token.Identity * Z)) : M S Z :=
  let! ' (identity, status) := next in
  (if worthRecording (rq_Method r) (URL_Path r) (Token.id_Role identity) status
   then Record_ (MkAuditRecord (Token.id_Name identity) (Token.id_UserID identity) (Token.id_Role identity)
                  (Token.id_ProjectID identity) (rq_Method r) (URL_Path r) status (rq_ID r))
   else ret tt) ;;;
  ret status.

(** The middlewares that decide; request ids, panics, the access log, security headers and the
    timeout are about the answer, not about whether the handler runs. *)
(* go: app/app.go App.buildRouter *)
Definition serve (r : request) : M S Z :=
  RateLimit limits_callers (ask_callers (callerKey r)) (openToEveryone r)
    (auditTrail r
      (authenticate Verify r (fun scope =>
        RateLimit limits_tenants (ask_tenants (projectKey scope)) (openToEveryone r)
          (mux scope r)))).
End front_door.

(** * What the mux answers *)

Definition covers (p : pattern) (m : string) (segs : list string) : Prop :=
  method_matches (p_Method p) m = true /\ Forall2 (fun s x => seg_matches s x = true) (p_segs p) segs.

Lemma walk_sound {A} segs : forall (ps : list (list segment * A)) a, walk segs ps = Some a ->
  exists l, (l, a) ∈ ps /\ Forall2 (fun s x => seg_matches s x = true) l segs.
Proof.
  induction segs as [|s segs IH]; intros ps a; cbn [walk].
  - destruct (List.find _ ps) as [[l b]|] eqn:E; [|done]. intros [= <-]. apply find_some_elem in E as [Hin E].
    destruct l; [|done]. eexists. split; [exact Hin|constructor].
  - destruct (walk segs (literals s ps)) as [b|] eqn:E.
    + intros [= <-]. apply IH in E as (l & Hl & HF). unfold literals in Hl.
      apply list_elem_of_omap in Hl as ([l0 b0] & Hin & Heq). cbn [fst snd] in Heq.
      destruct l0 as [|[x|] l0]; [done| |done]. destruct (String.eqb_spec x s) as [->|]; [|done]. injection Heq as -> ->.
      eexists. split; [exact Hin|]. constructor; [|done]. simpl. apply String.eqb_refl.
    + destruct (String.eqb s "/") eqn:Es; [done|]. intros E'. apply IH in E' as (l & Hl & HF). unfold wildcards in Hl.
      apply list_elem_of_omap in Hl as ([l0 b0] & Hin & Heq). cbn [fst snd] in Heq.
      destruct l0 as [|[x|] l0]; [done|done|]. injection Heq as -> ->.
      eexists. split; [exact Hin|]. constructor; [|done]. simpl. by rewrite Es.
Qed.

Lemma mux_sound patterns r p : mux_Handler patterns r = Some p ->
  p ∈ patterns /\ covers (parse_pattern p) (rq_Method r) (walked r).
Proof.
  unfold mux_Handler.
  assert (Hm : forall m, walk (walked r) (of_method patterns m) = Some p -> (forall m' : string, String.eqb m' m = true -> method_matches m' (rq_Method r) = true) ->
    p ∈ patterns /\ covers (parse_pattern p) (rq_Method r) (walked r)).
  { intros m E Hmm. apply walk_sound in E as (l & Hl & HF). unfold of_method in Hl.
    apply list_elem_of_omap in Hl as (s & Hs & Heq). destruct (String.eqb (p_Method (parse_pattern s)) m) eqn:Em; [|done].
    injection Heq as <- <-. split; [done|]. split; [by apply Hmm|done]. }
  destruct (walk _ (of_method _ (rq_Method r))) as [b|] eqn:E.
  - intros [= ->]. apply (Hm _ E). intros m' Em. unfold method_matches. by rewrite Em.
  - destruct (String.eqb (rq_Method r) "HEAD") eqn:Eh; [|done]. intros E'. apply (Hm _ E').
    intros m' Em. unfold method_matches. by rewrite Em, Eh, orb_true_r.
Qed.

(** Two patterns that some request could match both. *)
Definition seg_overlap (s t : segment) : bool :=
  match s, t with
  | Lit a, Lit b => String.eqb a b
  | Lit a, Wild | Wild, Lit a => negb (String.eqb a "/")
  | Wild, Wild => true
  end.
Fixpoint segs_overlap (l k : list segment) : bool :=
  match l, k with
  | [], [] => true
  | s :: l', t :: k' => seg_overlap s t && segs_overlap l' k'
  | _, _ => false
  end.
Definition overlap (p q : pattern) : bool :=
  (method_matches (p_Method p) (p_Method q) || method_matches (p_Method q) (p_Method p)) && segs_overlap (p_segs p) (p_segs q).

#[export] Instance segment_eq_dec : EqDecision segment.
Proof. solve_decision. Defined.
#[export] Instance pattern_eq_dec : EqDecision pattern.
Proof. solve_decision. Defined.

Lemma covers_overlap p q m segs : covers p m segs -> covers q m segs -> overlap p q = true.
Proof.
  intros [Hp HFp] [Hq HFq]. unfold overlap. apply andb_true_iff. split.
  - unfold method_matches in *. rewrite orb_true_iff, andb_true_iff, !String.eqb_eq in Hp, Hq.
    rewrite !orb_true_iff, !andb_true_iff, !String.eqb_eq. intuition congruence.
  - clear Hp Hq. revert HFq. generalize (p_segs q) as l. induction HFp as [|s x l0 segs Hs _ IH]; intros l HFq; inversion HFq; subst; [done|].
    simpl. rewrite IH by done. rewrite andb_true_r. destruct s, x0; simpl in *; breflect; subst;
      rewrite ?String.eqb_refl; auto using String.eqb_refl; apply negb_true_iff, String.eqb_neq; done.
Qed.

(** A table names no route it does not mean: whatever route overlaps an entry is that entry. *)
Definition table_exact (table : list string) : bool :=
  let rs := map (fun rt => parse_pattern (rt_pattern rt)) routes in
  forallb (fun p => let p := parse_pattern p in
    existsb (fun q => bool_decide (p = q)) rs && forallb (fun q => negb (overlap p q) || bool_decide (p = q)) rs) table.
Lemma node_exact : table_exact nodePaths = true.
Proof. vm_compute. reflexivity. Qed.
Lemma member_exact : table_exact memberPaths = true.
Proof. vm_compute. reflexivity. Qed.
Lemma viewer_exact : table_exact (readsOf memberPaths ++ selfPaths) = true.
Proof. vm_compute. reflexivity. Qed.
Lemma tables_exact role table : table_of role = Some table -> table_exact table = true.
Proof.
  unfold table_of. repeat (destruct (String.eqb role _)); intros [= <-];
    [exact node_exact|exact member_exact|exact viewer_exact].
Qed.

(** The route that answers a request is one the mux matched. *)
Lemma route_of_covers r rt : route_of r = Some rt ->
  rt ∈ routes /\ covers (parse_pattern (rt_pattern rt)) (rq_Method r) (walked r).
Proof.
  unfold route_of. destruct (mux_Handler _ r) as [p|] eqn:E; [|done]. intros H. apply find_some_elem in H as [Hin <-%String.eqb_eq].
  apply mux_sound in E as [_ Hc]. auto.
Qed.

Lemma allowed_route role table r rt : table_of role = Some table -> allowList table r = true -> route_of r = Some rt ->
  exists p, p ∈ table /\ parse_pattern p = parse_pattern (rt_pattern rt).
Proof.
  intros Ht Ha [Hin Hc]%route_of_covers. unfold allowList in Ha. destruct (mux_Handler table r) as [p|] eqn:E; [|done].
  apply mux_sound in E as [Hp Hcp]. exists p. split; [done|].
  pose proof (tables_exact _ _ Ht) as Hex.
  unfold table_exact in Hex. rewrite forallb_forall in Hex. specialize (Hex p ltac:(by apply list_elem_of_In)).
  apply andb_true_iff in Hex as [_ Hex]. rewrite forallb_forall in Hex.
  specialize (Hex (parse_pattern (rt_pattern rt)) ltac:(by apply (in_map (fun rt => parse_pattern (rt_pattern rt))), list_elem_of_In)).
  rewrite (covers_overlap _ _ _ _ Hcp Hc) in Hex. simpl in Hex. by breflect.
Qed.

(** ** Open paths *)

Definition slashes (s : string) : nat := length (List.filter (fun c => code c =? 47) (bytes_of s)).

Lemma slashes_path segs tail : (length segs <= slashes (foldr (fun s rest => "/" +:+ s +:+ rest) tail segs))%nat.
Proof.
  induction segs as [|s segs IH]; [simpl; lia|]. cbn [foldr length]. unfold slashes in *. rewrite !bytes_of_app, !List.filter_app, !length_app.
  change (length (List.filter (fun c => code c =? 47) (bytes_of "/"))) with 1%nat. lia.
Qed.

(** The literals of a pattern without wildcards. *)
Definition literal_of (s : segment) : option string := match s with Lit l => Some l | Wild => None end.
Definition open_checked (rt : Route) : bool :=
  let segs := p_segs (parse_pattern (rt_pattern rt)) in
  match all_some (map literal_of segs) with
  | Some lits => forallb (fun l => negb (String.eqb l "/")) lits &&
                 implb (existsb (String.eqb (foldr (fun s rest => "/" +:+ s +:+ rest) "" lits)) openPaths)
                       (existsb (String.eqb (rt_pattern rt)) ["GET /healthz"; "POST /v1/login"])
  | None => (3 <=? length segs)%nat
  end.
Lemma open_routes : forallb open_checked routes = true.
Proof. vm_compute. reflexivity. Qed.

Lemma all_some_literals l lits segs : all_some (map literal_of l) = Some lits ->
  Forall2 (fun s x => seg_matches s x = true) l segs -> segs = lits.
Proof.
  intros H HF. revert lits H. induction HF as [|s x l segs Hs _ IH]; intros lits; simpl; [congruence|].
  destruct s as [t|]; simpl; [|done]. destruct (all_some _) as [ls|]; simpl; [|done]. intros [= <-].
  simpl in Hs. apply String.eqb_eq in Hs as ->. f_equal. by apply IH.
Qed.

Lemma open_path_route r rt : existsb (String.eqb (URL_Path r)) openPaths = true -> route_of r = Some rt ->
  rt_pattern rt = "GET /healthz" \/ rt_pattern rt = "POST /v1/login".
Proof.
  intros Ho [Hin [_ HF]]%route_of_covers. pose proof open_routes as Hc. rewrite forallb_forall in Hc.
  specialize (Hc rt ltac:(by apply list_elem_of_In)). unfold open_checked in Hc. destruct (all_some _) as [lits|] eqn:El.
  - pose proof (all_some_literals _ _ _ El HF) as Hw. apply andb_true_iff in Hc as [Hns Hc].
    assert (Hs : rq_slash r = false).
    { destruct (rq_slash r) eqn:E; [|done]. unfold walked in Hw. rewrite E in Hw. rewrite <- Hw, forallb_app in Hns. simpl in Hns.
      by rewrite andb_false_r in Hns. }
    unfold walked in Hw. rewrite Hs, app_nil_r in Hw. unfold URL_Path in Ho. rewrite Hs, Hw in Ho. rewrite Ho in Hc. simpl in Hc.
    rewrite orb_false_r, orb_true_iff, !String.eqb_eq in Hc. done.
  - exfalso. apply Nat.leb_le in Hc. apply Forall2_length in HF. rewrite HF in Hc.
    assert (Hlt : (slashes (URL_Path r) <= 2)%nat).
    { apply existsb_exists in Ho as (p & Hp%list_elem_of_In & ->%String.eqb_eq).
      apply elem_of_cons in Hp as [->|Hp]; [|apply list_elem_of_singleton in Hp as ->]; vm_compute; lia. }
    unfold URL_Path, walked in *. pose proof (slashes_path (rq_segs r) (if rq_slash r then "/" else "")) as H. destruct (rq_slash r) eqn:E.
    + assert (H' : (length (rq_segs r ++ ["/"%string]) <= slashes (foldr (fun s rest => "/" +:+ s +:+ rest) "/" (rq_segs r)))%nat).
      { clear. induction (rq_segs r) as [|s segs IH]; [vm_compute; lia|]. cbn [foldr app length]. unfold slashes in *.
        rewrite !bytes_of_app, !List.filter_app, !length_app in *. change (length (List.filter (fun c => code c =? 47) (bytes_of "/"))) with 1%nat. lia. }
      lia.
    + rewrite app_nil_r in Hc. lia.
Qed.

(** * Properties *)

(** A request of somebody the verifier vouched for, that their role may make, or one that is open to
    everyone. *)
Definition lawful (granted : string -> Token.Identity -> Prop) (r : request) (rt : Route) (scope : Scope) : Prop :=
  ((rt_pattern rt = "GET /healthz" \/ rt_pattern rt = "POST /v1/login") /\ scope = no_scope) \/
  exists identity, granted (bearerOf r) identity /\
    scope = MkScope (Token.id_ProjectID identity) (Token.id_ID identity) (Token.id_Name identity)
                    (Token.id_UserID identity) (Token.id_Role identity) /\
    (Token.id_Role identity = Token.RoleAdmin \/
     exists table p, table_of (Token.id_Role identity) = Some table /\ p ∈ table /\
       parse_pattern p = parse_pattern (rt_pattern rt)).

Abbreviation Calls := (list (Route * Scope)).

(** C25: [serve_calls_lawfully]: whatever the request, at most one handler runs for it, the one of the
    route the mux picks, and only for an open route or for a caller whose token was accepted and
    whose role's table lists exactly that route; it sees the caller's own scope.  An admin may
    call every route. *)
Theorem serve_calls_lawfully {S} `{!Has Gates S, !Has Audit S, !Has Calls S, !Apart Gates Calls S, !Apart Audit Calls S}
  (Verify : string -> M S Token.Identity) (granted : string -> Token.Identity -> Prop) handle unmatched lc lt env r (w : World S)
  (HV : forall secret w, wp env (Verify secret) (fun a w' => part w' = part (T:=Calls) w /\
          match a with Ok i => granted secret i | Err _ => True end) w)
  (Hh : forall rt scope, logs (C:=Route * Scope) (handle rt scope r) (fun _ => (rt, scope)))
  (Hu : leaves Calls (unmatched r)) :
  wp env (serve Verify handle unmatched lc lt r) (fun _ w' =>
    part w' = part (T:=Calls) w \/
    exists rt scope, route_of r = Some rt /\ part w' = part (T:=Calls) w ++ [(rt, scope)] /\ lawful granted r rt scope) w.
Proof.
  set (Q := fun w0 (w' : World S) => part w' = part (T:=Calls) w0 \/
    exists rt scope, route_of r = Some rt /\ part w' = part (T:=Calls) w0 ++ [(rt, scope)] /\ lawful granted r rt scope).
  assert (Hmux : forall scope w0, (forall rt, route_of r = Some rt -> lawful granted r rt scope) ->
    wp env (mux handle unmatched scope r) (fun _ => Q w0) w0 ).
  { intros scope w0 Hl. unfold mux. destruct (route_of r) as [rt|] eqn:E.
    - eapply wp_mono; [|apply Hh]. intros a w' Hw'. right. exists rt, scope. split; [done|]. split; [exact Hw'|by apply Hl].
    - eapply wp_leaves; [exact Hu|]. intros a w' Hw'. by left. }
  assert (Hlimit : forall limited ask exempt next w0, leaves Calls ask ->
    (forall w1, part w1 = part (T:=Calls) w0 -> wp env next (fun _ => Q w0) w1) ->
    wp env (RateLimit limited ask exempt next) (fun _ => Q w0) w0).
  { intros limited ask exempt next w0 Ha Hn. unfold RateLimit. destruct (_ || _); [by apply Hn|].
    apply wp_bind. eapply wp_leaves; [exact Ha|]. intros [[ok wait]|e] w1 Hw1; [destruct ok; [by apply Hn|by left]|by left]. }
  assert (Hask : forall key, leaves Calls (ask_callers (S:=S) key) /\ leaves Calls (ask_tenants (S:=S) key)).
  { intros key. unfold ask_callers, ask_tenants. split; auto with leaves. }
  assert (Hnext : forall scope w1, part w1 = part (T:=Calls) w -> (forall rt, route_of r = Some rt -> lawful granted r rt scope) ->
    wp env (RateLimit lt (ask_tenants (projectKey scope)) (openToEveryone r) (mux handle unmatched scope r)) (fun _ => Q w) w1).
  { intros scope w1 Hw1 Hl. assert (HQ : forall w', Q w1 w' -> Q w w').
    { intros w'. unfold Q. by rewrite Hw1. }
    eapply wp_mono; [intros ? w'; apply HQ|]. apply Hlimit; [apply Hask|]. intros w2 Hw2.
    eapply wp_mono; [|by apply Hmux]. intros ? w'. unfold Q. by rewrite Hw2. }
  unfold serve. apply Hlimit; [apply Hask|]. intros w1 Hw1. unfold auditTrail. apply wp_bind.
  assert (Ha : wp env (authenticate Verify r (fun scope =>
    RateLimit lt (ask_tenants (projectKey scope)) (openToEveryone r) (mux handle unmatched scope r))) (fun _ => Q w) w1).
  { unfold authenticate. destruct (existsb _ openPaths) eqn:Eo.
    - apply wp_bind. eapply wp_mono; [|apply Hnext; [done|]].
      + intros [a|e] w' Hq; [by rewrite wp_ret|done].
      + intros rt Hrt. left. split; [by eapply open_path_route|done].
    - apply wp_bind, wp_attempt. eapply wp_mono; [|apply HV]. intros [i|e] w2 [Hw2 Hg]; [|rewrite wp_ret; left; congruence].
      cbv zeta. destruct (negb _ && _) eqn:Er; [rewrite wp_ret; left; congruence|].
      apply wp_bind. eapply wp_mono; [|apply Hnext; [congruence|]].
      + intros [a|e] w' Hq; [by rewrite wp_ret|done].
      + intros rt Hrt. right. exists i. split; [done|]. split; [done|].
        destruct (String.eqb_spec (Token.id_Role i) Token.RoleAdmin) as [?|Hne]; [by left|]. right. simpl in Er.
        destruct (table_of _) as [table|] eqn:Et; [|done]. apply negb_false_iff in Er.
        destruct (allowed_route _ _ _ _ Et Er Hrt) as (p & Hp & Heq). eauto. }
  eapply wp_mono; [|exact Ha]. intros [[identity status]|e] w2 Hq; [|done].
  apply wp_bind, (wp_leaves (T:=Calls)).
  - destruct (worthRecording _ _ _ _); [|auto with leaves]. unfold Record_, record_audit, insert_audit, prune.
    apply leaves_bind; [|auto with leaves]. apply leaves_attempt, leaves_bind; [auto with leaves|]. intros at_.
    apply leaves_bind; [auto with leaves|]. intros _. apply leaves_bind; [auto with leaves|]. intros n.
    destruct (n <? _); auto with leaves.
  - intros a w3 Hw3. assert (Q w w3) by (unfold Q in *; by rewrite Hw3). destruct a; [by rewrite wp_ret|done].
Qed.

(** A node asks for its work. *)
Definition Door : Type := (Gates * Audit) * Calls.
Definition door_gates : Has Gates Door := Has_in_fst Calls (Has_fst Gates Audit).
Definition door_audit : Has Audit Door := Has_in_fst Calls (Has_snd Gates Audit).
Definition door_calls : Has Calls Door := Has_snd (Gates * Audit) Calls.
Definition door0 : World Door := MkWorld ((MkGates (NewLimiter 50 100 0) None, MkAudit [] 0 0), []) O [].
Definition door_env : Env := {| env_now _ := 0; env_rand _ := []; env_io _ := false |}.
Definition node_identity : Token.Identity := Token.MkIdentity "tok-1" "n1" Token.RoleNode "prj-1" "" zero_time.
Definition note_call (rt : Route) (scope : Scope) (r : request) : M Door Z :=
  locked (H:=door_calls) (fun calls : Calls => (200, calls ++ [(rt, scope)])).
Definition ask (method : string) (segs : list string) : request := MkRequest method segs false "Bearer mst_x" None "10.0.0.7:1" "req-1".

Lemma serve_calls_lawfully_witness :
  let run r := snd (serve (Has0:=door_gates) (Has1:=door_audit) (fun _ => ret node_identity) note_call (fun _ => ret 404) true false r door_env door0) in
  map (fun c => rt_handler (fst c)) (part (H:=door_calls) (run (ask "GET" ["v1"; "nodes"; "nod-1"; "volumes"]))) = ["listForNode"] /\
  part (H:=door_calls) (run (ask "POST" ["v1"; "users"])) = [].
Proof.
  intros run. split; [vm_compute; reflexivity|].
  pose proof (serve_calls_lawfully (Has0:=door_gates) (Has1:=door_audit) (Has2:=door_calls) (Apart0:=ltac:(done)) (Apart1:=ltac:(done))
    (fun _ => ret node_identity) (fun _ i => i = node_identity) note_call (fun _ => ret 404) true false door_env (ask "POST" ["v1"; "users"]) door0
    ltac:(done) ltac:(done) ltac:(done)) as H.
  unfold wp in H. unfold run. destruct (serve _ _ _ _ _ _ _ _) as [a w'] in H |- *. cbn [snd].
  destruct H as [H|(rt & scope & Hr & _ & Hl)]; [exact H|]. exfalso.
  assert (Er : rt_pattern rt = "POST /v1/users").
  { assert (E : rt_pattern <$> route_of (ask "POST" ["v1"; "users"]) = Some "POST /v1/users") by (vm_compute; reflexivity).
    rewrite Hr in E. by injection E. }
  destruct Hl as [[[H|H] _]|(i & -> & _ & [H|(table & p & Ht & Hp & Heq)])]; try (rewrite Er in H; discriminate); [discriminate|].
  injection Ht as <-. rewrite Er in Heq.
  assert (Hn : existsb (fun p => bool_decide (parse_pattern p = parse_pattern "POST /v1/users")) nodePaths = false) by (vm_compute; reflexivity).
  rewrite existsb_false, Forall_forall in Hn. specialize (Hn p Hp). by rewrite bool_decide_eq_false in Hn.
Defined.

(** [record_keeps_recent]: recording a request appends it under a new number and never loses any
    of the last 5000 entries, whatever is pruned and however the database fails. *)
Theorem record_keeps_recent {S} `{!Has Audit S} env rec (w : World S)
  (Hids : forall e, e ∈ au_rows (part (T:=Audit) w) -> 0 < ae_ID e <= au_last (part (T:=Audit) w)) (Hlast : 0 <= au_last (part (T:=Audit) w)) :
  let a := part (T:=Audit) w in
  wp env (record_audit rec) (fun r w' => let a' := part (T:=Audit) w' in
    (forall e, e ∈ au_rows a' -> 0 < ae_ID e <= au_last a') /\
    (forall e, e ∈ au_rows a -> au_last a' - Retain < ae_ID e -> e ∈ au_rows a') /\
    (a' = a /\ (exists e, r = Err e) \/
     au_last a' = au_last a + 1 /\ exists at_, MkAuditEntry (au_last a + 1) at_ rec ∈ au_rows a')) w.
Proof.
  intros a. unfold record_audit. apply wp_bind. rewrite wp_now. set (at_ := env_now _ _).
  apply wp_bind. unfold insert_audit. apply wp_write.
  { intros w1 ->. change (part (tick w)) with a. split; [done|]. split; [done|]. left. eauto. }
  intros w1 Hw1. cbn [fst snd] in *. change (part (tick w)) with a in Hw1. set (new := MkAuditEntry (au_last a + 1) at_ rec) in *.
  assert (Hids1 : forall e, e ∈ au_rows a ++ [new] -> 0 < ae_ID e <= au_last a + 1).
  { intros e. rewrite elem_of_app, list_elem_of_singleton. intros [He| ->]; [specialize (Hids e He); fold a in Hids; lia|simpl; fold a in Hlast; lia]. }
  assert (Hmax : max_id (au_rows a ++ [new]) = au_last a + 1).
  { clear -Hids Hlast. fold a in Hids, Hlast. unfold max_id. rewrite foldr_app. simpl. rewrite Z.max_l by lia.
    induction (au_rows a) as [|e rows IH]; [done|]. simpl. rewrite IH by (intros; apply Hids; set_solver).
    specialize (Hids e ltac:(set_solver)). lia. }
  apply wp_bind, wp_locked. intros w2 Hw2 _. rewrite Hw1 in Hw2 |- *. cbn [fst snd au_seen au_rows au_last] in *.
  assert (Hend : forall a', au_rows a' = au_rows a ++ [new] -> au_last a' = au_last a + 1 ->
    (forall e, e ∈ au_rows a' -> 0 < ae_ID e <= au_last a') /\ (forall e, e ∈ au_rows a -> au_last a' - Retain < ae_ID e -> e ∈ au_rows a') /\
    au_last a' = au_last a + 1 /\ exists at_, MkAuditEntry (au_last a + 1) at_ rec ∈ au_rows a').
  { intros a' -> ->. split; [done|]. split; [intros; by apply elem_of_app; left|]. split; [done|]. exists at_. apply elem_of_app. right. by apply list_elem_of_singleton. }
  destruct (_ <? audit_every).
  - rewrite wp_ret. cbv zeta. destruct (Hend (part w2)) as (H1 & H2 & H3); [by rewrite Hw2..|]. auto.
  - apply wp_write.
    + intros w3 ->. cbv zeta. destruct (Hend (part w2)) as (H1 & H2 & H3); [by rewrite Hw2..|]. auto.
    + intros w3 ->. rewrite Hw2. cbn [fst snd au_seen au_rows au_last]. rewrite Hmax. split_and!.
      * intros e [He _]%elem_of_filter_bool. auto.
      * intros e He Hr. rewrite elem_of_filter_bool, elem_of_app, negb_true_iff, Z.leb_gt. split; [by left|lia].
      * right. split; [done|]. exists at_. rewrite elem_of_filter_bool, elem_of_app, list_elem_of_singleton, negb_true_iff, Z.leb_gt.
        split; [by right|]. simpl. unfold Retain. lia.
Qed.

Lemma record_keeps_recent_witness :
  au_last (w_st (snd (record_audit (MkAuditRecord "ci" "" "member" "prj-1" "POST" "/v1/instances" 201 "req-1") door_env (MkWorld (MkAudit [] 7 199) O [])))) = 8.
Proof.
  pose proof (record_keeps_recent door_env (MkAuditRecord "ci" "" "member" "prj-1" "POST" "/v1/instances" 201 "req-1") (MkWorld (MkAudit [] 7 199) O [])) as H.
  destruct H as (_ & _ & [[_ [e H]]|[H _]]); [by intros e He%elem_of_nil|simpl; lia| |exact H].
  vm_compute in H. discriminate.
Defined.

(** C29: [member_creates_admin]: a member's token may call POST /v1/users, and the service behind it
    creates whatever role is asked for: with a database that answers, a person with the role
    of an administrator is refused only if somebody has the address already. *)
Theorem member_creates_admin {S} `{!Has (list User.UserRow) S} env params (w : World S)
  (Hio : forall n, env_io env n = false) (Hrole : User.cp_Role params = Token.RoleAdmin)
  (Hemail : re_match User.emailPattern (User.normalizeEmail (User.cp_Email params)) = true)
  (Hlen : slen (User.normalizeEmail (User.cp_Email params)) <= User.MaxEmailLength)
  (Hname : validate_Name "name" (User.cp_Name params) = Ok tt) (Hname60 : slen (User.cp_Name params) <= User.MaxNameLength)
  (Hpass : User.checkPassword (User.cp_Password params) = Ok tt) :
  let r := ask "POST" ["v1"; "users"] in
  table_of Token.RoleMember = Some memberPaths /\ allowList memberPaths r = true /\
  route_of r = Some (MkRoute "POST /v1/users" "create") /\
  wp env (User.create (Some Token.Names) params) (fun a w' => match a with
    | Ok p => User.u_Role p = Token.RoleAdmin /\ User.u_Disabled p = false /\
              exists stored, part w' = part (T:=list User.UserRow) w ++ [User.MkUserRow p stored]
    | Err e => code_of e = "email_taken" end) w.
Proof.
  intros r. split; [done|]. split; [vm_compute; reflexivity|]. split; [vm_compute; reflexivity|].
  unfold User.create. apply wp_bind. rewrite wp_lift, Hemail. rewrite (proj2 (Z.ltb_ge _ _) Hlen). cbn [negb orb guard].
  apply wp_bind. rewrite wp_lift, Hname. apply wp_bind. rewrite wp_lift, (proj2 (Z.ltb_ge _ _) Hname60). cbn [guard].
  apply wp_bind. rewrite wp_lift, Hrole. change (validate_OneOf "role" Token.RoleAdmin Token.Names) with (@Ok unit tt).
  apply wp_bind. rewrite wp_lift, Hpass. apply wp_bind, wp_mapped. unfold User.hashPassword. apply wp_bind. rewrite wp_rand, wp_ret.
  cbn [or_fault]. apply wp_bind. rewrite wp_now. apply wp_bind. unfold ids_New. apply wp_bind. rewrite wp_rand, wp_ret.
  apply wp_bind, wp_mapped. unfold User.insert_user. apply wp_sql. rewrite Hio. unfold insert_row.
  destruct (existsb _ _); cbn [fst snd or_fault]; [done|]. rewrite wp_ret. cbn [User.u_Role User.u_Disabled]. split; [done|]. split; [done|].
  eexists. unfold part. simpl. rewrite hget_hput. done.
Qed.

Lemma member_creates_admin_witness :
  wp door_env (User.create (S:=list User.UserRow) (Some Token.Names) (User.MkCreateParams "eve@example.org" "eve" "admin" "" "correct horse battery"))
    (fun a w' => match a with Ok p => User.u_Role p = "admin" | Err e => code_of e = "email_taken" end) (MkWorld [] O []).
Proof.
  eapply wp_mono; [|apply (member_creates_admin door_env (User.MkCreateParams "eve@example.org" "eve" "admin" "" "correct horse battery"));
    first [done|vm_compute; reflexivity|vm_compute; discriminate]].
  intros [p|e] w' H; [by destruct H|exact H].
Defined.
